(* ===== verification/_CoqProject ===== *)
-Q . S2P
Prelude.v
CString.v
BootProto.v
Nk.v
Se.v
Cc.v
Ob.v
ObInv.v
PhysMem.v
Rtl.v
MmPages.v
MmTables.v
MmTablesInv.v
MmSpace.v
MmSection.v
MmDump.v
MmFault.v
MmRegions.v
MmStart.v
Ps.v
PsInv.v
Kpe.v
KpeLoad.v
Efi.v
UserMem.v
PsSpawn.v
Lpc.v
Io.v
Hal.v
BootScreen.v
Boot.v
BootMachine.v
BootTrace.v
BootScreenInv.v
BootMap.v
BootImage.v
Syscall.v
UserInit.v
HalIntr.v
HalStart.v
Ex.v
Threads.v
Arch.v
Validate.v
Ke.v
Kernel.v
KernelMem.v
KernelInv.v
PsSpawnInv.v
LpcInv.v
IoInv.v
SyscallInv.v
UserKernel.v
HalIntrInv.v
HalInv.v
KernelStart.v
KernelThreads.v
KernelSuite.v
KernelEntry.v
KernelRun.v
KernelExample.v
KernelEntryExample.v
