(* ===== verification/Prelude.v ===== *)
(** * The Aster64 kernel and its boot loader: a verification library

    The development models the C code of the repository: the UEFI boot loader,
    the hardware abstraction layer, the kernel's managers, its system calls, its
    start and self-tests, and the first user program.  Definitions carry the
    names of the C functions, variables, fields and constants; where a function
    is split, or a loop is a definition of its own, the name says what it does
    and the comment says where it belongs.

    ** How a computation is modelled

    [M S A] (below) is a computation on a state [S] that returns ([Ret]), stops
    the machine for good ([Halt]: HalHalt, a failed NK_ASSERT) or has no defined
    continuation ([Stuck]: undefined behaviour of C, a null dereference, an index
    out of range, a buffer overflow, a loop out of fuel).  Every component has a
    state record with its static variables and computations on it; [zoom] runs a
    component's computation on a larger state.  A theorem about
    what a computation does says that it returns, or stops the machine where the code
    does, and is then not satisfied by a [Stuck] or an endless one.  Some theorems are
    conditional and say so: what a granted reference implies (ObInv), how the results
    of two relocation routines compare (BootImage), what the system-call gate gives
    back when the dispatcher returns (KernelSuite).  The theorems of BootTrace are
    safety properties of the log of what the loader asks of any firmware, also of one
    about which nothing else is known: they say nothing of a run that comes to
    undefined behaviour.

    Integers are numbers of type Z with the wrap-around of their C type written
    out ([u8], [u32], [u64], [s64], ...).  A pointer into a static pool is the
    index of its slot, a nullable pointer an option, an out-parameter whether it
    is not null together with what is stored; an address is a number with 0 for
    null.  Byte memory is a finite map (PhysMem); code that follows addresses is
    written over the interface [ByteMem] (Kpe), whose instances are flat memory
    (boot loader), and memory through the page tables in use (UserMem, Kernel).

    Components talk through type classes.  A class such as [ObWorld], [MmWorld],
    [PsWorld], [LpcWorld], [IoWorld], [HalWorld], [IntrWorld], [ExWorld] or
    [KeWorld] says which parts a state has and what a component needs of the ones
    above it (a delete routine, the stack pointer of the task state, a registered
    routine).  [PortIo] are the input and output ports, [Firmware] (Efi) the boot
    services, [UserSystem] (UserInit) the system calls a user program makes.  The
    classes with laws ([ObWorldLaws], [PsWorldLaws], [ByteMemLaws], [ByteView],
    [LoggedFirmware]) are what theorems rely on; the record [kernel] (Kernel)
    implements all of them at once, and KernelInv and KernelMem prove the laws.

    ** The files

    - Prelude, CString, PhysMem: the monad and shared lemmas; the string helpers
      every manager has its own copy of; bytes, words and their round trips.
    - BootProto, Nk, Se, Cc: the handoff record; kernel/nk/core.c (ports,
      endpoints), kernel/se/init.c, kernel/cc/init.c.
    - Ob, ObInv: kernel/ob/init.c.
    - MmPages, MmTables, MmSpace, MmSection, MmDump: kernel/mm/init.c - frames;
      page tables; address spaces, regions and the fault handler; sections and
      the start; dumps.  MmTablesInv, MmFault, MmRegions, MmStart: theorems.
    - Ps, PsInv: the scheduler of kernel/ps/init.c with the switch of
      kernel/arch/aur64/context.c.  Kpe, KpeLoad, UserMem: include/kpeformat.h
      and the loading of user images.  PsSpawn, PsSpawnInv: creation and start.
    - Lpc, LpcInv: kernel/lpc/init.c.  Io, IoInv: kernel/io/init.c.
    - Rtl: kernel/rtl/memory.c.
    - Hal, HalInv: hal/aur64/hal_aur64.c.  HalIntr, HalIntrInv, HalStart:
      hal/aur64/hal_intr.c and the HAL's two phases.
    - Efi, BootScreen, Boot: boot/include/efi.h, boot/uefi/efistub.c and
      boot/uefi/bootx64.c.  BootMachine: a concrete firmware.  BootTrace,
      BootImage, BootMap, BootScreenInv: theorems.
    - Syscall, SyscallInv: kernel/ke/syscall.c.  UserInit: user/init/init.c, run by
      a process that sees its system calls: the kernel's checks of its pointers, the
      debug console with its commands, one of which halts the machine, the console's
      characters.  What the commands print and what is typed are its inputs.
      UserKernel: those system calls are the kernel's.
    - Ex: kernel/ex/init.c, kernel/ex/hybrid.c.  Threads: the machine on which
      pieces of code that yield run.  Arch: the rest of context.c.  Validate:
      kernel/ke/validate.c.  Ke: kernel/ke/init.c.
    - Kernel, KernelMem, KernelInv: all components together and the laws.
      KernelStart, KernelEntry: the start.  KernelThreads, KernelSuite: threads
      on the kernel, the self-tests and the system-call gate.  KernelRun: the
      whole of AsterKernelEntry, up to and through its idle loop.
      KernelExample, KernelEntryExample: concrete kernels for the witnesses.

    ** What the theorems show

    Boot: the loader leaves the boot services by the firmware's protocol and
    enters the kernel once, last, with a sound record (BootTrace); the image in
    memory is the file's, relocated, when its headers and sections' contents lie in
    it, which the loader does not check (BootImage); the memory map survives its
    conversion and is read back by the kernel (BootMap); the splash screen is
    painted, inside the framebuffer, before the firmware may print over it
    (BootScreenInv).  Start: from such a record of the interface's version and blank
    static variables every phase succeeds in its order and establishes the invariants
    the other theorems start from (KernelStart, KernelEntry); without an init image
    the kernel idles for ever, acknowledging every timer interrupt (KernelRun).
    Objects: handles stay on live objects, reference counts are exact, rights are
    never exceeded (ObInv).  Memory: a mapping changes one translation and no
    other, no frame is given out twice, every kind of page fault does exactly what
    its region says (MmTablesInv, MmPages, MmFault, MmRegions); the kernel's root
    keeps the firmware's translations and adds the physmap (MmStart).  Processes:
    the scheduler refines a round-robin queue, threads and processes are created
    soundly or not at all, a loaded image stays inside its pages (PsInv,
    PsSpawnInv, KpeLoad, Kpe); on the thread machine the scheduler's self-test
    runs to its end (KernelThreads).  Messages: ports are bounded queues shared
    through handles, end to end through the system calls (Nk, LpcInv, SyscallInv);
    the gate passes the registers the ABI names and gives back all but RCX, which
    it does not save (KernelSuite).
    Files: what is registered is what is read (IoInv).  Console: the framebuffer
    shows an abstract text screen (HalInv); the user's line editor refines an
    abstract editor until a line it enters is the command that halts the machine
    (UserInit).

    ** Bounds and fuel

    Loops over arrays and counted loops are structural in the number of turns
    left.  Fuel appears where the C loop has no counter: the scan of a string
    (64 for the user program, whose strings are shorter; the room of the buffer
    elsewhere), the walk of relocation blocks (each block consumes at least eight
    bytes of the directory), the waiting receive (each turn that blocks takes a
    thread from the run queue), the boot loader's retries (four, as in the code),
    the read loop of IoSpawn (two turns), the delay loop (a counter that
    advances reaches the target within as many readings).  Theorems show that the
    fuel is enough.  Three loops have no end - the idle loop, the thread entry
    thunk and the user program's loop - and are followed for any number of turns.

    ** Assumptions

    The kernel runs with CR0.WP clear, as the firmware leaves it.  The operands
    of KiArchSwitchContext lie in registers its instructions do not overwrite.
    An interrupt is taken where the idle loop halts; code of the kernel is not
    interrupted between two operations, and the interrupt flag is not followed
    across [int 0x80].  Output through the ports has no effect on memory.  Compiled C
    functions keep the registers the System V ABI says they keep.  The theorems
    about the start are for a machine without a framebuffer, whose page tables and
    memory map lie in frames that count as taken.  Stall and LocateProtocol leave the
    memory the loader uses alone; OutputString may draw in the framebuffer.

    ** Not modelled

    The instructions of the interrupt stubs and of the way into user mode are
    modelled by their effect on registers and stack, not as machine code; code
    that runs in user mode is a parameter of the thread machine.  The prints of
    HalHandlePageFaultTrap for an unhandled fault and the diagnostics inside the
    managers' operations are left out (the dumps are modelled).  Tools, linker
    script and build files are not C code of the program; kxformat.h has no
    user.  Structures of efi.h the loader never touches have no counterpart. *)

From stdpp Require Export base numbers list gmap strings.
From Stdlib Require Export ZArith Lia Bool.
From Stdlib Require String Ascii.

#[global] Open Scope Z_scope.
#[global] Set Default Goal Selector "!".

(** ** Notations of the development *)

Declare Scope ntx_scope.
Delimit Scope ntx_scope with ntx.

(** ** Machine integers

    A C unsigned integer of width w is a [Z] in [0, 2^w); each arithmetic
    operation that can leave the range is followed by the wrap-around of its
    type, written out with the functions below. *)

Definition u8 (z : Z) : Z := z mod 256.
Definition u16 (z : Z) : Z := z mod 65536.
Definition u32 (z : Z) : Z := z mod 4294967296.
Definition u64 (z : Z) : Z := z mod 18446744073709551616.

(** [(int32_t)z] and [(int64_t)z]: two's complement reinterpretation. *)
Definition s32 (z : Z) : Z := (z + 2147483648) mod 4294967296 - 2147483648.
Definition s64 (z : Z) : Z :=
  (z + 9223372036854775808) mod 18446744073709551616 - 9223372036854775808.

(** [~z] on 32 and on 64 bits. *)
Definition lnot32 (z : Z) : Z := Z.lxor 4294967295 z.
Definition lnot64 (z : Z) : Z := Z.lxor 18446744073709551615 z.

Definition is_u8 (z : Z) : Prop := 0 <= z < 256.
Definition is_u32 (z : Z) : Prop := 0 <= z < 4294967296.
Definition is_u64 (z : Z) : Prop := 0 <= z < 18446744073709551616.

(** [(flags & mask) != 0] and [(flags & mask) == mask]. *)
Definition any_flag (flags mask : Z) : bool := negb (Z.land flags mask =? 0).
Definition all_flags (flags mask : Z) : bool := Z.land flags mask =? mask.

(** ** Status codes: kernel/include/kstatus.h *)

Definition KSTATUS := Z.
Definition KSTATUS_SUCCESS : KSTATUS := 0.
Definition KSTATUS_NOT_IMPLEMENTED : KSTATUS := -1.
Definition KSTATUS_INVALID_PARAMETER : KSTATUS := -2.
Definition KSTATUS_INIT_FAILED : KSTATUS := -3.
Definition KSTATUS_NOT_FOUND : KSTATUS := -4.
Definition KSTATUS_ALREADY_INITIALIZED : KSTATUS := -5.
Definition KSTATUS_ACCESS_DENIED : KSTATUS := -6.
Definition KSTATUS_WOULD_BLOCK : KSTATUS := -7.

(** [Status == KSTATUS_SUCCESS] *)
Definition ok (st : KSTATUS) : bool := st =? KSTATUS_SUCCESS.

(** ** Effects

    [M S A]: a computation over a component's state [S].  [Ret] is a normal
    return; [Halt] is the kernel stopping for good in [HalHalt] (a failed
    [NK_ASSERT], a fatal fault); [Stuck] is C undefined behaviour: the null
    pointer or the array index out of range that the source would have
    dereferenced. *)

Inductive outcome (S A : Type) : Type :=
| Ret (a : A) (s : S)
| Halt (s : S)
| Stuck.
Arguments Ret {S A} a s.
Arguments Halt {S A} s.
Arguments Stuck {S A}.

Definition M (S A : Type) : Type := S -> outcome S A.

Definition ret {S A} (a : A) : M S A := fun s => Ret a s.
Definition bind {S A B} (m : M S A) (k : A -> M S B) : M S B :=
  fun s => match m s with
           | Ret a s' => k a s'
           | Halt s' => Halt s'
           | Stuck => Stuck
           end.
Definition gets {S A} (f : S -> A) : M S A := fun s => Ret (f s) s.
Definition modify {S} (f : S -> S) : M S unit := fun s => Ret tt (f s).
Definition halt {S A} : M S A := fun s => Halt s.
Definition stuck {S A} : M S A := fun _ => Stuck.

(** A dereference that is undefined when there is nothing to read. *)
Definition deref {S A} (o : option A) : M S A :=
  match o with Some a => ret a | None => stuck end.

(** [NK_ASSERT(expr)]: kernel/include/nkassert.h. *)
Definition NK_ASSERT {S} (b : bool) : M S unit := if b then ret tt else halt.

(** Run a computation of a component inside a larger state. *)
Definition zoom {S T A} (get : T -> S) (put : S -> T -> T) (m : M S A) : M T A :=
  fun t => match m (get t) with
           | Ret a s => Ret a (put s t)
           | Halt s => Halt (put s t)
           | Stuck => Stuck
           end.

Notation "x <- m ;; k" := (bind m (fun x => k))
  (at level 65, m at next level, right associativity) : ntx_scope.
Notation "'dlet' p := m ;; k" := (bind m (fun x => match x with p => k end))
  (at level 65, p pattern, m at next level, right associativity) : ntx_scope.
Notation "m ;;; k" := (bind m (fun _ => k))
  (at level 65, right associativity) : ntx_scope.
#[global] Open Scope ntx_scope.

Lemma bind_ret_l {S A B} (a : A) (k : A -> M S B) s : bind (ret a) k s = k a s.
Proof. reflexivity. Qed.

Lemma bind_ret_r {S A} (m : M S A) s : bind m ret s = m s.
Proof. unfold bind, ret. by destruct (m s). Qed.

Lemma bind_assoc {S A B C} (m : M S A) (k : A -> M S B) (h : B -> M S C) s :
  bind (bind m k) h s = bind m (fun a => bind (k a) h) s.
Proof. unfold bind. by destruct (m s). Qed.

(** Running a computation forwards, one operation at a time. *)
Lemma bind_eq {S A B} (m : M S A) (k : A -> M S B) s a s' :
  m s = Ret a s' -> bind m k s = k a s'.
Proof. unfold bind. by intros ->. Qed.

Lemma bind_gets {S A B} (f : S -> A) (k : A -> M S B) s : bind (gets f) k s = k (f s) s.
Proof. reflexivity. Qed.

Lemma bind_modify {S B} (f : S -> S) (k : unit -> M S B) s : bind (modify f) k s = k tt (f s).
Proof. reflexivity. Qed.

Lemma bind_deref {S A B} (x : A) (k : A -> M S B) s : bind (deref (Some x)) k s = k x s.
Proof. reflexivity. Qed.

(** The inversion principle every proof about a composed operation uses. *)
Lemma bind_Ret_inv {S A B} (m : M S A) (k : A -> M S B) s b s2 :
  bind m k s = Ret b s2 -> exists a s1, m s = Ret a s1 /\ k a s1 = Ret b s2.
Proof. unfold bind. destruct (m s); naive_solver. Qed.

Lemma zoom_Ret_inv {S T A} (get : T -> S) put (m : M S A) t a t' :
  zoom get put m t = Ret a t' -> exists s', m (get t) = Ret a s' /\ t' = put s' t.
Proof. unfold zoom. destruct (m (get t)); naive_solver. Qed.

(** Reading the state of a computation backwards: one step of inversion. *)
Ltac minv_step :=
  match goal with
  | H : bind _ _ _ = Ret _ _ |- _ =>
      let a := fresh "a" in let s := fresh "s" in let H1 := fresh "Hm" in
      apply bind_Ret_inv in H as (a & s & H1 & H)
  | H : zoom _ _ _ _ = Ret _ _ |- _ =>
      let s := fresh "s" in let H1 := fresh "Hz" in
      apply zoom_Ret_inv in H as (s & H1 & H)
  | H : Ret _ _ = Ret _ _ |- _ => injection H; clear H; intros; subst
  | H : ret _ _ = Ret _ _ |- _ => unfold ret in H
  | H : gets _ _ = Ret _ _ |- _ => unfold gets in H
  | H : modify _ _ = Ret _ _ |- _ => unfold modify in H
  | H : deref ?o _ = Ret _ _ |- _ =>
      let E := fresh "Ed" in destruct o eqn:E; simpl in H
  | H : halt _ = Ret _ _ |- _ => discriminate H
  | H : stuck _ = Ret _ _ |- _ => discriminate H
  | H : NK_ASSERT ?b _ = Ret _ _ |- _ =>
      let E := fresh "Ea" in destruct b eqn:E; simpl in H
  | H : Halt _ = Ret _ _ |- _ => discriminate H
  | H : Stuck = Ret _ _ |- _ => discriminate H
  end.
Ltac minv := repeat (minv_step; simpl in *).

(** [lia] with division and modulo by constants. *)
Ltac zlia := Z.div_mod_to_equations; lia.

(** Case analysis on the guard of the first conditional of a hypothesis or of
    the goal, keeping the equation. *)
Ltac guard_in H :=
  match type of H with
  | context [if ?b then _ else _] => let E := fresh "Hg" in destruct b eqn:E
  end.
Ltac guard_goal :=
  match goal with
  | |- context [if ?b then _ else _] => let E := fresh "Hg" in destruct b eqn:E
  end.

(** Boolean guards as propositions. *)
Create HintDb ntx_bool discriminated.
Ltac bool_prop :=
  repeat match goal with
  | H : _ || _ = true |- _ => apply orb_true_iff in H
  | H : _ || _ = false |- _ => apply orb_false_iff in H as [? ?]
  | H : _ && _ = true |- _ => apply andb_true_iff in H as [? ?]
  | H : _ && _ = false |- _ => apply andb_false_iff in H
  | H : negb _ = true |- _ => apply negb_true_iff in H
  | H : negb _ = false |- _ => apply negb_false_iff in H
  | H : (_ =? _) = true |- _ => apply Z.eqb_eq in H
  | H : (_ =? _) = false |- _ => apply Z.eqb_neq in H
  | H : (_ <? _) = true |- _ => apply Z.ltb_lt in H
  | H : (_ <? _) = false |- _ => apply Z.ltb_ge in H
  | H : (_ <=? _) = true |- _ => apply Z.leb_le in H
  | H : (_ <=? _) = false |- _ => apply Z.leb_gt in H
  | H : (_ >=? _) = true |- _ => rewrite Z.geb_leb in H
  | H : (_ >=? _) = false |- _ => rewrite Z.geb_leb in H
  | H : (_ >? _) = true |- _ => rewrite Z.gtb_ltb in H
  | H : (_ >? _) = false |- _ => rewrite Z.gtb_ltb in H
  | H : (_ =? _)%nat = true |- _ => apply Nat.eqb_eq in H
  | H : (_ =? _)%nat = false |- _ => apply Nat.eqb_neq in H
  end.

(** ** Machine integer lemmas *)

Lemma u8_range z : 0 <= u8 z < 256.
Proof. unfold u8. intros; zlia. Qed.
Lemma u32_range z : 0 <= u32 z < 4294967296.
Proof. unfold u32. intros; zlia. Qed.
Lemma u64_range z : 0 <= u64 z < 18446744073709551616.
Proof. unfold u64. intros; zlia. Qed.
Lemma u8_small z : 0 <= z < 256 -> u8 z = z.
Proof. unfold u8. intros; zlia. Qed.
Lemma u16_small z : 0 <= z < 65536 -> u16 z = z.
Proof. unfold u16. intros; zlia. Qed.
Lemma u32_small z : 0 <= z < 4294967296 -> u32 z = z.
Proof. unfold u32. intros; zlia. Qed.
Lemma u64_small z : 0 <= z < 18446744073709551616 -> u64 z = z.
Proof. unfold u64. intros; zlia. Qed.

(** [any_flag] and [all_flags] bit by bit. *)
Lemma all_flags_testbit a m :
  all_flags a m = true -> forall i, Z.testbit m i = true -> Z.testbit a i = true.
Proof.
  unfold all_flags. intros H i Hi. apply Z.eqb_eq in H.
  rewrite <- H, Z.land_spec in Hi. by apply andb_true_iff in Hi as [? _].
Qed.

Lemma all_flags_intro a m :
  0 <= m -> (forall i, 0 <= i -> Z.testbit m i = true -> Z.testbit a i = true) ->
  all_flags a m = true.
Proof.
  unfold all_flags. intros Hm H. apply Z.eqb_eq, Z.bits_inj'. intros i Hi.
  rewrite Z.land_spec. destruct (Z.testbit m i) eqn:E; [|by rewrite andb_false_r].
  by rewrite (H i Hi E).
Qed.

Lemma all_flags_trans a b c :
  0 <= c -> all_flags a b = true -> all_flags b c = true -> all_flags a c = true.
Proof. intros Hc H1 H2. apply all_flags_intro; eauto using all_flags_testbit. Qed.

Lemma all_flags_refl a : all_flags a a = true.
Proof. unfold all_flags. by rewrite Z.land_diag, Z.eqb_refl. Qed.

(** A single-bit mask is a bit test. *)
Lemma any_flag_bit a n : 0 <= n -> any_flag a (2 ^ n) = Z.testbit a n.
Proof.
  intros Hn. unfold any_flag. destruct (Z.testbit a n) eqn:E.
  - apply negb_true_iff, Z.eqb_neq. intros H.
    assert (Z.testbit (Z.land a (2 ^ n)) n = false) as H2 by (rewrite H; apply Z.bits_0).
    rewrite Z.land_spec, E, Z.pow2_bits_true in H2 by done. done.
  - apply negb_false_iff, Z.eqb_eq, Z.bits_inj'. intros i Hi.
    rewrite Z.land_spec, Z.bits_0, Z.pow2_bits_eqb by done.
    destruct (Z.eqb_spec n i); [subst; by rewrite E | by rewrite andb_false_r].
Qed.

(** A value below [2 ^ k] has no bit from [k] on. *)
Lemma testbit_small v k i : 0 <= v < 2 ^ k -> 0 <= k <= i -> Z.testbit v i = false.
Proof.
  intros Hv Hk. destruct (Z.eq_dec v 0) as [->|]; [apply Z.bits_0|].
  apply Z.bits_above_log2; [lia|].
  apply Z.log2_lt_pow2; [lia|].
  apply Z.lt_le_trans with (2 ^ k); [lia|]. apply Z.pow_le_mono_r; lia.
Qed.

(** A number put above another is added to it. *)
Lemma lor_shiftl a b n : 0 <= n -> 0 <= a < 2 ^ n -> Z.lor a (Z.shiftl b n) = a + b * 2 ^ n.
Proof.
  intros Hn Ha. rewrite <- (Z.shiftl_mul_pow2 b n) by done. assert (L : Z.land a (Z.shiftl b n) = 0).
  { apply Z.bits_inj'. intros i Hi. rewrite Z.land_spec, Z.bits_0, Z.shiftl_spec by done.
    destruct (Z.lt_ge_cases i n) as [H|H].
    - rewrite (Z.testbit_neg_r b) by lia. apply andb_false_r.
    - rewrite <- (Z.mod_small a (2 ^ n)), Z.mod_pow2_bits_high by lia. done. }
  rewrite <- Z.lxor_lor by done. symmetry. by apply Z.add_nocarry_lxor.
Qed.

(** Clearing the low [k] bits of a 64-bit value. *)
Lemma land_lnot_ones v k :
  0 <= v < 18446744073709551616 -> 0 <= k < 64 ->
  Z.land v (lnot64 (2 ^ k - 1)) = v - v mod 2 ^ k.
Proof.
  intros Hv Hk. unfold lnot64.
  assert (v - v mod 2 ^ k = Z.shiftl (Z.shiftr v k) k) as ->.
  { rewrite Z.shiftl_mul_pow2, Z.shiftr_div_pow2 by lia.
    pose proof (Z.div_mod v (2 ^ k) ltac:(apply Z.pow_nonzero; lia)). lia. }
  change 18446744073709551615 with (Z.ones 64).
  replace (2 ^ k - 1) with (Z.ones k) by (rewrite Z.ones_equiv; lia).
  apply Z.bits_inj'. intros i Hi.
  rewrite Z.land_spec, Z.lxor_spec, Z.shiftl_spec, !Z.testbit_ones_nonneg by lia.
  destruct (Z.ltb_spec i k) as [Hik|Hik].
  - rewrite (Z.testbit_neg_r _ (i - k)) by lia.
    assert ((i <? 64) = true) as -> by (apply Z.ltb_lt; lia). by rewrite andb_false_r.
  - rewrite Z.shiftr_spec, Z.sub_add by lia.
    destruct (Z.ltb_spec i 64) as [H64|H64]; [by rewrite andb_true_r|].
    rewrite andb_false_r. symmetry. apply testbit_small with 64; lia.
Qed.

(** ** Arrays

    A large static array of integers is a finite map from its index, read as
    zero where nothing was stored (C zero-initialises static storage). *)

Abbreviation arr := (gmap Z Z).
Definition aget (a : arr) (i : Z) : Z := default 0 (a !! i).
Definition aset (a : arr) (i v : Z) : arr := <[i := v]> a.

Lemma aget_aset_eq a i v : aget (aset a i v) i = v.
Proof. unfold aget, aset. by rewrite lookup_insert_eq. Qed.
Lemma aget_aset_ne a i j v : i <> j -> aget (aset a i v) j = aget a j.
Proof. intros. unfold aget, aset. by rewrite lookup_insert_ne. Qed.
Lemma aget_aset a i j v : aget (aset a i v) j = if i =? j then v else aget a j.
Proof.
  destruct (Z.eqb_spec i j); [subst; apply aget_aset_eq | by apply aget_aset_ne].
Qed.
Lemma aget_empty i : aget ∅ i = 0.
Proof. unfold aget. by rewrite lookup_empty. Qed.

(** [for (i = lo; i < lo + n; i++) a[i] = v] *)
Definition afill (a : arr) (lo : Z) (n : nat) (v : Z) : arr :=
  foldl (fun a i => aset a i v) a (seqZ lo (Z.of_nat n)).

Lemma afill_S a lo n v : afill a lo (S n) v = aset (afill a lo n v) (lo + Z.of_nat n) v.
Proof. unfold afill. rewrite seqZ_S, foldl_app. done. Qed.

Lemma aget_afill a lo n v j :
  aget (afill a lo n v) j = if (lo <=? j) && (j <? lo + Z.of_nat n) then v else aget a j.
Proof.
  induction n as [|n IH].
  - replace (afill a lo 0 v) with a by done.
    destruct (Z.leb_spec lo j), (Z.ltb_spec j (lo + Z.of_nat 0)); try done; lia.
  - rewrite afill_S, aget_aset, IH.
    destruct (Z.eqb_spec (lo + Z.of_nat n) j), (Z.leb_spec lo j),
      (Z.ltb_spec j (lo + Z.of_nat n)), (Z.ltb_spec j (lo + Z.of_nat (S n)));
      try done; lia.
Qed.

(** ** Pools: first slot that satisfies a test *)

(** [for (Index = 0; Index < N; Index++) if (test) ...first hit...] *)
Fixpoint find_first {A} (f : A -> bool) (l : list A) : option nat :=
  match l with
  | [] => None
  | x :: l' => if f x then Some 0%nat else S <$> find_first f l'
  end.

Lemma find_first_Some {A} (f : A -> bool) (l : list A) i :
  find_first f l = Some i ->
  (exists x, l !! i = Some x /\ f x = true) /\
  forall j x, (j < i)%nat -> l !! j = Some x -> f x = false.
Proof.
  revert i. induction l as [|y l IH]; intros i H; [done|]. simpl in H.
  destruct (f y) eqn:E.
  - injection H as <-. split; [by exists y|]. intros; lia.
  - destruct (find_first f l) as [k|] eqn:F; [|done]. injection H as <-.
    destruct (IH k eq_refl) as [(x & Hx & Hf) Hlt]. split; [by exists x|].
    intros [|j] z Hj Hz; simpl in Hz; [congruence|]. apply (Hlt j); [lia|done].
Qed.

Lemma find_first_None {A} (f : A -> bool) (l : list A) :
  find_first f l = None <-> forall x, x ∈ l -> f x = false.
Proof.
  induction l as [|y l IH]; simpl; [split; [set_solver|done]|].
  destruct (f y) eqn:E.
  - split; [done|]. intros H. rewrite H in E; [done|]. set_solver.
  - destruct (find_first f l) as [k|] eqn:F; simpl.
    + split; [done|]. intros H. assert (Some k = None) as [=]. apply IH.
      intros; apply H; set_solver.
    + split; [|done]. intros _ x Hx. apply elem_of_cons in Hx as [->|Hx]; [done|].
      by apply IH.
Qed.

Lemma find_first_lt {A} (f : A -> bool) (l : list A) i :
  find_first f l = Some i -> (i < length l)%nat.
Proof.
  intros H. apply find_first_Some in H as [(x & Hx & _) _]. by apply lookup_lt_Some in Hx.
Qed.

Lemma find_first_intro {A} (f : A -> bool) (l : list A) i x :
  l !! i = Some x -> f x = true -> (forall j y, (j < i)%nat -> l !! j = Some y -> f y = false) ->
  find_first f l = Some i.
Proof.
  revert i. induction l as [|y l IH]; intros i Hi Hf Hlt; [done|]. cbn [find_first]. destruct i as [|i].
  - injection Hi as ->. by rewrite Hf.
  - rewrite (Hlt 0%nat y) by (done || lia). rewrite (IH i Hi Hf); [done|].
    intros j z Hj Hz. apply (Hlt (S j)); [lia|done].
Qed.

Lemma find_first_complete {A} (f : A -> bool) (l : list A) i x :
  l !! i = Some x -> f x = true -> exists j, find_first f l = Some j /\ (j <= i)%nat.
Proof.
  intros Hi Hf. destruct (find_first f l) as [j|] eqn:E.
  - exists j. split; [done|]. apply find_first_Some in E as [_ Hlt].
    destruct (decide (j <= i)%nat); [done|]. rewrite (Hlt i x) in Hf; [done|lia|done].
  - exfalso. rewrite find_first_None in E. rewrite (E x) in Hf; [done|].
    by eapply list_elem_of_lookup_2.
Qed.

(** Array accesses: undefined out of range. *)
Definition load_at {S A} (l : list A) (i : nat) : M S A := deref (l !! i).
Definition store_at {S A} (i : nat) (x : A) (l : list A) : M S (list A) :=
  if (i <? length l)%nat then ret (<[i := x]> l) else stuck.

Lemma store_at_ok {S A} i (x : A) l (s : S) :
  (i < length l)%nat -> store_at i x l s = Ret (<[i := x]> l) s.
Proof. intros H. unfold store_at. by destruct (Nat.ltb_spec i (length l)); [|lia]. Qed.

Lemma store_at_Ret_inv {S A} i (x : A) l (s s' : S) l' :
  store_at i x l s = Ret l' s' -> (i < length l)%nat /\ l' = <[i := x]> l /\ s' = s.
Proof.
  unfold store_at. destruct (Nat.ltb_spec i (length l)); [|done]. by intros [= <- <-].
Qed.

Lemma load_at_ok {S A} (l : list A) i x (s : S) : l !! i = Some x -> load_at l i s = Ret x s.
Proof. intros H. unfold load_at. by rewrite H. Qed.
