(* ===== verification/CString.v ===== *)
(** * C strings

    The string helpers every kernel component carries its own copy of:
    bounded copies ([ObpCopyName], [IopCopyString]), comparison
    ([IopStringEquals], [KipStartsWith]), the hexadecimal printer behind every
    diagnostic line ([ObpHex64], [ObpWriteHexLine] and their copies) and the
    hexadecimal parser of the debug console ([KipParseHex64]).

    A C string is the list of its characters, as numbers; the terminating NUL
    is implicit, and reading at or past the end of the list reads 0.  A
    character array is a list of its full length. *)

From S2P Require Import Prelude.

Abbreviation cstr := (list Z).

Definition char_at (s : cstr) (i : nat) : Z := nth i s 0.

(** A Rocq string literal as a C string. *)
Fixpoint str (s : String.string) : cstr :=
  match s with
  | String.EmptyString => []
  | String.String c s' => Z.of_N (Ascii.N_of_ascii c) :: str s'
  end.
Arguments str s%_string_scope.

(** The string a NUL-terminated buffer holds. *)
Fixpoint cstr_of (buf : list Z) : cstr :=
  match buf with
  | [] => []
  | c :: buf' => if c =? 0 then [] else c :: cstr_of buf'
  end.

(** No NUL inside: a list that is a C string. *)
Definition is_cstr (s : cstr) : Prop := Forall (fun c => c <> 0) s.

(** ** Bounded copies *)

(** [for (Index = i; Index < i + fuel; Index++) { Destination[Index] =
    Source[Index]; if (Source[Index] == 0) return terminated; }] *)
Fixpoint copy_chars (fuel i : nat) (Destination Source : list Z) : list Z * bool :=
  match fuel with
  | O => (Destination, false)
  | S fuel' =>
      let Ch := char_at Source i in
      let Destination' := <[i := Ch]> Destination in
      if Ch =? 0 then (Destination', true)
      else copy_chars fuel' (S i) Destination' Source
  end.

Definition ObpCopyName (Destination : list Z) (DestinationBytes : Z) (Source : option cstr)
  : KSTATUS * list Z :=
  match Source with
  | None => (KSTATUS_INVALID_PARAMETER, Destination)
  | Some Source =>
      if DestinationBytes <? 1 then (KSTATUS_INVALID_PARAMETER, Destination)
      else
        let n := Z.to_nat (DestinationBytes - 1) in
        let '(Destination', terminated) := copy_chars n 0 Destination Source in
        if terminated then (KSTATUS_SUCCESS, Destination')
        else (KSTATUS_SUCCESS, <[n := 0]> Destination')
  end.

Definition IopCopyString (Destination : list Z) (DestinationBytes : Z) (Source : option cstr)
  : Z * list Z :=
  match Source with
  | None => (0, Destination)
  | Some Source =>
      if DestinationBytes =? 0 then (0, Destination)
      else
        let n := Z.to_nat (DestinationBytes - 1) in
        let '(Destination', terminated) := copy_chars n 0 Destination Source in
        if terminated then (1, Destination')
        else (0, <[n := 0]> Destination')
  end.

(** ** Comparison *)

(** [for (Index = i; ; Index++)]: the fuel bounds the iterations. *)
Fixpoint string_equals_loop (fuel i : nat) (Left Right : cstr) : option Z :=
  match fuel with
  | O => None
  | S fuel' =>
      if negb (char_at Left i =? char_at Right i) then Some 0
      else if char_at Left i =? 0 then Some 1
      else string_equals_loop fuel' (S i) Left Right
  end.

Definition IopStringEquals (Left Right : option cstr) : option Z :=
  match Left, Right with
  | Some Left, Some Right => string_equals_loop (S (length Left)) 0 Left Right
  | _, _ => Some 0
  end.

(** [while (Prefix[Index] != 0)]: the prefix is a literal without NUL. *)
Fixpoint KipStartsWith (Text Prefix : cstr) : Z :=
  match Prefix with
  | [] => 1
  | p :: Prefix' =>
      if p =? 0 then 1
      else if negb (char_at Text 0 =? p) then 0
      else KipStartsWith (tl Text) Prefix'
  end.

(** ** Hexadecimal *)

Definition Hex : cstr := str "0123456789ABCDEF".

(** [ObpHex64] and its six copies: sixteen digits, then NUL. *)
Definition hex_digit (Value : Z) (i : nat) : Z :=
  char_at Hex (Z.to_nat (Z.land (Z.shiftr Value ((15 - Z.of_nat i) * 4)) 15)).
Definition ObpHex64 (Value : Z) : list Z := map (hex_digit Value) (seq 0 16) ++ [0].

(** [Buffer[Pos] = v] in an array: undefined out of range. *)
Definition put_char (Pos : nat) (v : Z) (Buffer : list Z) : option (list Z) :=
  if (Pos <? length Buffer)%nat then Some (<[Pos := v]> Buffer) else None.

(** [while (Source[i] != 0 && Pos + 1 < size) Buffer[Pos++] = Source[i++]] and
    [for (i = 0; i < 16 && Pos + 1 < size; i++) Buffer[Pos++] = Hex[i]]. *)
Fixpoint append_chars (Source : list Z) (Pos : nat) (Buffer : list Z)
  : option (nat * list Z) :=
  match Source with
  | [] => Some (Pos, Buffer)
  | c :: Source' =>
      if c =? 0 then Some (Pos, Buffer)
      else if (Pos + 1 <? length Buffer)%nat then
        Buffer' ← put_char Pos c Buffer;
        append_chars Source' (S Pos) Buffer'
      else Some (Pos, Buffer)
  end.

(** The line that is handed to [HalWriteDebugString], [None] when a store
    leaves the array [char Buffer[size]]. *)
Definition write_hex_line (size : nat) (Prefix : cstr) (Value : Z) : option cstr :=
  '(Pos, Buffer) ← append_chars Prefix 0 (replicate size 0);
  Buffer ← put_char Pos 48 Buffer;
  Buffer ← put_char (Pos + 1) 120 Buffer;
  '(Pos, Buffer) ← append_chars (take 16 (ObpHex64 Value)) (Pos + 2) Buffer;
  Buffer ← put_char Pos 10 Buffer;
  Buffer ← put_char (Pos + 1) 0 Buffer;
  Some (cstr_of Buffer).

(** The copies differ in the size of the array only. *)
Definition ObpWriteHexLine := write_hex_line 128.
Definition MmpWriteHexLine := write_hex_line 96.
Definition IopWriteHexLine := write_hex_line 128.
Definition PspWriteHexLine := write_hex_line 128.
Definition LpcpWriteHexLine := write_hex_line 128.
Definition NkWriteHexLine := write_hex_line 128.
Definition HalpWriteHexLine := write_hex_line 96.
(** [KiWriteStatusLine] prints [(uint64_t)(uint32_t)Status]. *)
Definition KiWriteStatusLine (Prefix : cstr) (Status : KSTATUS) : option cstr :=
  write_hex_line 96 Prefix (u32 Status).

(** One digit: [None] for a character that is not hexadecimal. *)
Definition hex_nibble (Ch : Z) : option Z :=
  if (48 <=? Ch) && (Ch <=? 57) then Some (Ch - 48)
  else if (97 <=? Ch) && (Ch <=? 102) then Some (10 + Ch - 97)
  else if (65 <=? Ch) && (Ch <=? 70) then Some (10 + Ch - 65)
  else None.

(** The characters that end the number: NUL, blank, newline, return. *)
Definition hex_stop (Ch : Z) : bool :=
  (Ch =? 0) || (Ch =? 32) || (Ch =? 10) || (Ch =? 13).

Fixpoint parse_hex_loop (Text : cstr) (Value Digits : Z) : option (Z * Z) :=
  match Text with
  | [] => Some (Value, Digits)
  | Ch :: Text' =>
      if hex_stop Ch then Some (Value, Digits)
      else match hex_nibble Ch with
           | None => None
           | Some Nibble =>
               parse_hex_loop Text' (Z.lor (u64 (Z.shiftl Value 4)) Nibble) (u32 (Digits + 1))
           end
  end.

(** [None] is the return value 0, which leaves [*OutValue] alone. *)
Definition KipParseHex64 (Text : option cstr) : option Z :=
  match Text with
  | None => None
  | Some Text =>
      let Text' :=
        if (char_at Text 0 =? 48) && ((char_at Text 1 =? 120) || (char_at Text 1 =? 88))
        then skipn 2 Text else Text in
      match parse_hex_loop Text' 0 0 with
      | None => None
      | Some (Value, Digits) => if Digits =? 0 then None else Some Value
      end
  end.

#[global] Arguments ObpCopyName : simpl never.
#[global] Arguments IopCopyString : simpl never.
#[global] Arguments write_hex_line : simpl never.

(** ** Lemmas *)

Lemma char_at_lookup s i c : s !! i = Some c -> char_at s i = c.
Proof. intros H. unfold char_at. by rewrite nth_lookup, H. Qed.

Lemma char_at_ge s i : (length s <= i)%nat -> char_at s i = 0.
Proof. apply nth_overflow. Qed.

Lemma char_at_cstr s i : is_cstr s -> (i < length s)%nat -> char_at s i <> 0.
Proof.
  intros Hs Hi. apply lookup_lt_is_Some_2 in Hi as [c Hc].
  rewrite (char_at_lookup _ _ _ Hc). by eapply Forall_lookup_1 in Hs.
Qed.

Lemma cstr_of_app s t : is_cstr s -> cstr_of (s ++ t) = s ++ cstr_of t.
Proof.
  induction 1 as [|c s Hc _ IH]; [done|]. simpl.
  destruct (Z.eqb_spec c 0); [done|]. by rewrite IH.
Qed.

Lemma cstr_of_stop s t : is_cstr s -> cstr_of (s ++ 0 :: t) = s.
Proof. intros. rewrite cstr_of_app by done. simpl. by rewrite app_nil_r. Qed.

(** The copy loop: what it wrote after the first [i] characters. *)
Lemma copy_chars_spec Source : is_cstr Source ->
  forall fuel i pre suf,
  length pre = i -> pre = take i Source -> (i <= length Source)%nat ->
  (fuel < length suf)%nat ->
  copy_chars fuel i (pre ++ suf) Source =
  if (length Source <? i + fuel)%nat
  then (Source ++ 0 :: drop (S (length Source - i)) suf, true)
  else (take (i + fuel) Source ++ drop fuel suf, false).
Proof.
  intros HS fuel. induction fuel as [|fuel IH]; intros i pre suf Hl Hpre Hi Hsuf.
  - simpl. rewrite Nat.add_0_r. destruct (Nat.ltb_spec (length Source) i); [lia|].
    by rewrite Hpre.
  - cbn [copy_chars]. destruct suf as [|x suf]; [simpl in Hsuf; lia|].
    rewrite insert_app_r_alt, Hl, Nat.sub_diag by lia. simpl insert.
    destruct (decide (i = length Source)) as [->|Hne].
    + rewrite char_at_ge by lia. rewrite Z.eqb_refl.
      destruct (Nat.ltb_spec (length Source) (length Source + S fuel)); [|lia].
      rewrite Nat.sub_diag. simpl. by rewrite Hpre, firstn_all.
    + assert (exists c, Source !! i = Some c) as [c Hc] by (apply lookup_lt_is_Some_2; lia).
      rewrite (char_at_lookup _ _ _ Hc).
      assert (c <> 0) by (by eapply Forall_lookup_1 in HS).
      destruct (Z.eqb_spec c 0); [done|].
      replace (pre ++ c :: suf) with ((pre ++ [c]) ++ suf) by (by rewrite <- app_assoc).
      rewrite (IH (S i)); [ | | | lia | simpl in Hsuf; lia].
      2: { rewrite length_app. simpl. lia. }
      2: { rewrite Hpre. by erewrite <- take_S_r. }
      rewrite <- Nat.add_succ_comm.
      destruct (Nat.ltb_spec (length Source) (S i + fuel)); [|done].
      by replace (length Source - i)%nat with (S (length Source - S i)) by lia.
Qed.

Lemma copy_chars_length fuel i dst src : length (copy_chars fuel i dst src).1 = length dst.
Proof.
  revert i dst. induction fuel as [|fuel IH]; intros; cbn [copy_chars]; [done|].
  destruct (_ =? 0); [simpl; by rewrite length_insert|].
  by rewrite IH, length_insert.
Qed.

Lemma string_equals_loop_spec Left Right :
  is_cstr Left -> is_cstr Right ->
  forall fuel i, (length Left < i + fuel)%nat ->
  (i <= length Left)%nat -> take i Left = take i Right ->
  (i <= length Right)%nat ->
  string_equals_loop fuel i Left Right =
  Some (if decide (Left = Right) then 1 else 0).
Proof.
  intros HL HR fuel. induction fuel as [|fuel IH]; intros i Hf Hi Ht Hr; [lia|].
  cbn [string_equals_loop].
  destruct (Z.eqb_spec (char_at Left i) (char_at Right i)) as [E|E]; simpl.
  - destruct (Z.eqb_spec (char_at Left i) 0) as [E0|E0].
    + assert (i = length Left) as ->.
      { destruct (decide (i = length Left)); [done|].
        by apply char_at_cstr in E0; [|done|lia]. }
      assert (length Left = length Right) as Hlen.
      { destruct (decide (length Left = length Right)); [done|].
        rewrite E in E0. by apply char_at_cstr in E0; [|done|lia]. }
      rewrite firstn_all, Hlen, firstn_all in Ht. by rewrite decide_True.
    + assert (i < length Left)%nat as Hi2.
      { destruct (decide (i < length Left)%nat); [done|].
        by rewrite char_at_ge in E0 by lia. }
      assert (i < length Right)%nat as Hr2.
      { destruct (decide (i < length Right)%nat); [done|].
        by rewrite E, char_at_ge in E0 by lia. }
      apply IH; try lia.
      apply lookup_lt_is_Some_2 in Hi2 as [c Hc]. apply lookup_lt_is_Some_2 in Hr2 as [d Hd].
      rewrite (char_at_lookup _ _ _ Hc), (char_at_lookup _ _ _ Hd) in E. subst d.
      by rewrite (take_S_r _ _ _ Hc), (take_S_r _ _ _ Hd), Ht.
  - rewrite decide_False; [done|]. intros ->. done.
Qed.

Lemma KipStartsWith_spec Prefix : is_cstr Prefix -> forall Text, is_cstr Text ->
  KipStartsWith Text Prefix = if decide (Prefix `prefix_of` Text) then 1 else 0.
Proof.
  induction 1 as [|p Prefix Hp HP IH]; intros Text HT.
  - cbn [KipStartsWith]. case_decide as H; [done|]. by destruct H; apply prefix_nil.
  - cbn [KipStartsWith]. destruct (Z.eqb_spec p 0); [done|].
    destruct Text as [|t Text]; cbn [char_at nth tl].
    + change (char_at [] 0) with 0. destruct (Z.eqb_spec 0 p); [congruence|]. simpl negb.
      case_decide as H; [|done]. by apply prefix_nil_not in H.
    + change (char_at (t :: Text) 0) with t.
      destruct (Z.eqb_spec t p) as [->|Hne]; simpl negb; cbn match.
      * rewrite IH by (by inversion HT).
        case_decide as H1; case_decide as H2; try done.
        -- by destruct H2; apply prefix_cons.
        -- by apply prefix_cons_inv_2 in H2.
      * case_decide as H; [|done]. by apply prefix_cons_inv_1 in H.
Qed.

(** *** Buffered lines *)

Lemma put_char_app pre c x suf Pos :
  length pre = Pos -> put_char Pos c (pre ++ x :: suf) = Some (pre ++ c :: suf).
Proof.
  intros <-. unfold put_char. rewrite length_app. simpl length.
  destruct (Nat.ltb_spec (length pre) (length pre + S (length suf))); [|lia].
  by rewrite insert_app_r_alt, Nat.sub_diag by lia.
Qed.

Lemma append_chars_fits Source : is_cstr Source -> forall pre suf Pos,
  length pre = Pos -> (length Source < length suf)%nat ->
  append_chars Source Pos (pre ++ suf) =
  Some ((Pos + length Source)%nat, pre ++ Source ++ drop (length Source) suf).
Proof.
  induction 1 as [|c Source Hc _ IH]; intros pre suf Pos Hl Hs; cbn [append_chars].
  - by rewrite Nat.add_0_r.
  - destruct (Z.eqb_spec c 0); [done|]. destruct suf as [|x suf]; [simpl in Hs; lia|].
    rewrite length_app. simpl length in *.
    destruct (Nat.ltb_spec (Pos + 1) (length pre + S (length suf))); [|lia].
    rewrite put_char_app by done. simpl.
    replace (pre ++ c :: suf) with ((pre ++ [c]) ++ suf) by (by rewrite <- app_assoc).
    rewrite IH; [ | rewrite length_app; simpl; lia | lia].
    rewrite <- app_assoc. simpl. by rewrite <- Nat.add_succ_comm.
Qed.

(** Where the cursor ends, whether or not everything fits. *)
Lemma append_chars_pos Source : is_cstr Source -> forall Pos Buffer,
  exists Buffer',
    append_chars Source Pos Buffer =
      Some (Pos `max` ((Pos + length Source) `min` (length Buffer - 1)), Buffer')%nat
    /\ length Buffer' = length Buffer.
Proof.
  induction 1 as [|c Source Hc _ IH]; intros Pos Buffer; cbn [append_chars].
  - exists Buffer. split; [|done]. do 2 f_equal. simpl. lia.
  - destruct (Z.eqb_spec c 0); [done|].
    destruct (Nat.ltb_spec (Pos + 1) (length Buffer)).
    + unfold put_char. destruct (Nat.ltb_spec Pos (length Buffer)); [|lia]. simpl.
      destruct (IH (S Pos) (<[Pos:=c]> Buffer)) as (B & -> & HB).
      exists B. rewrite HB, length_insert. split; [|done]. do 2 f_equal. lia.
    + exists Buffer. split; [|done]. do 2 f_equal. simpl. lia.
Qed.

Lemma hex_digit_cases Value i : exists n,
  0 <= n < 16 /\ n = Z.land (Z.shiftr Value ((15 - Z.of_nat i) * 4)) 15 /\
  hex_digit Value i = char_at Hex (Z.to_nat n).
Proof.
  eexists. split; [|split; [reflexivity|done]].
  change 15 with (Z.ones 4) at 2 4. rewrite !Z.land_ones by lia.
  pose proof (Z.mod_pos_bound (Z.shiftr Value ((15 - Z.of_nat i) * 4)) (2 ^ 4) eq_refl). lia.
Qed.

(** The sixteen characters of [Hex], read back by [hex_nibble]. *)
Lemma hex_char_ok n : 0 <= n < 16 ->
  hex_nibble (char_at Hex (Z.to_nat n)) = Some n /\
  hex_stop (char_at Hex (Z.to_nat n)) = false /\ char_at Hex (Z.to_nat n) <> 0.
Proof.
  intros Hn.
  assert (Forall (fun n => hex_nibble (char_at Hex (Z.to_nat n)) = Some n /\
    hex_stop (char_at Hex (Z.to_nat n)) = false /\ char_at Hex (Z.to_nat n) <> 0) (seqZ 0 16))
    as F by (vm_compute; repeat constructor; discriminate).
  rewrite Forall_forall in F. apply F, elem_of_seqZ. lia.
Qed.

Lemma hex_digits_cstr Value l : is_cstr (map (hex_digit Value) l).
Proof.
  apply Forall_forall. intros c Hc. apply list_elem_of_fmap in Hc as (i & -> & _).
  destruct (hex_digit_cases Value i) as (n & Hn & _ & ->). by apply hex_char_ok.
Qed.

Lemma take_hex64 Value : take 16 (ObpHex64 Value) = map (hex_digit Value) (seq 0 16).
Proof. reflexivity. Qed.

(** The two store steps on a buffer whose tail is still zero. *)
Lemma put_char_zeros pre k c Pos :
  Pos = length pre -> (0 < k)%nat ->
  put_char Pos c (pre ++ replicate k 0) = Some ((pre ++ [c]) ++ replicate (k - 1) 0).
Proof.
  intros -> Hk. destruct k as [|k]; [lia|]. simpl replicate.
  rewrite put_char_app by done. by rewrite <- app_assoc, Nat.sub_0_r.
Qed.

Lemma append_chars_zeros Source pre k Pos :
  is_cstr Source -> Pos = length pre -> (length Source < k)%nat ->
  append_chars Source Pos (pre ++ replicate k 0) =
  Some ((Pos + length Source)%nat, (pre ++ Source) ++ replicate (k - length Source) 0).
Proof.
  intros HS -> Hk. rewrite append_chars_fits by (rewrite ?length_replicate; done).
  by rewrite drop_replicate, <- app_assoc.
Qed.

Lemma write_hex_line_fits size Prefix Value :
  is_cstr Prefix -> (length Prefix + 20 <= size)%nat ->
  write_hex_line size Prefix Value =
  Some (Prefix ++ str "0x" ++ map (hex_digit Value) (seq 0 16) ++ [10]).
Proof.
  intros HP Hlen. unfold write_hex_line. rewrite take_hex64.
  assert (length (map (hex_digit Value) (seq 0 16)) = 16%nat) as H16 by done.
  pose proof (hex_digits_cstr Value (seq 0 16)) as Hd.
  revert H16 Hd. generalize (map (hex_digit Value) (seq 0 16)). intros ds H16 Hd.
  change (replicate size 0) with ([] ++ replicate size 0).
  rewrite append_chars_zeros by (done || lia). cbn [mbind option_bind].
  rewrite put_char_zeros by (simpl; lia). cbn [mbind option_bind].
  rewrite put_char_zeros by (rewrite ?length_app; simpl; lia). cbn [mbind option_bind].
  rewrite append_chars_zeros; [|done|rewrite !length_app; simpl; lia|lia].
  cbn [mbind option_bind].
  rewrite put_char_zeros by (rewrite ?length_app, ?H16; simpl; lia). cbn [mbind option_bind].
  rewrite put_char_zeros by (rewrite ?length_app, ?H16; simpl; lia). cbn [mbind option_bind].
  f_equal. rewrite <- (app_assoc _ [0]). cbn [app]. rewrite cstr_of_stop.
  - by rewrite <- !app_assoc.
  - repeat apply Forall_app_2; try done; by repeat constructor.
Qed.

Lemma write_hex_line_overflows size Prefix Value :
  is_cstr Prefix -> (0 < size)%nat -> (size < length Prefix + 20)%nat ->
  write_hex_line size Prefix Value = None.
Proof.
  intros HP H0 Hlen. unfold write_hex_line.
  destruct (append_chars_pos Prefix HP 0 (replicate size 0)) as (B1 & -> & HB1).
  rewrite length_replicate in *. cbn [mbind option_bind].
  unfold put_char at 4. destruct (Nat.ltb_spec (0 `max` ((0 + length Prefix) `min` (size - 1))) (length B1)); [|done].
  cbn [mbind option_bind]. unfold put_char at 3. rewrite length_insert.
  destruct (Nat.ltb_spec (0 `max` ((0 + length Prefix) `min` (size - 1)) + 1) (length B1)); [|done].
  cbn [mbind option_bind].
  match goal with |- context [append_chars (take 16 _) ?p ?b] =>
    destruct (append_chars_pos (take 16 (ObpHex64 Value)) ltac:(rewrite take_hex64; apply hex_digits_cstr) p b) as (B2 & -> & HB2) end.
  rewrite !length_insert in *. cbn [mbind option_bind].
  unfold put_char at 2. rewrite HB2.
  match goal with |- context [(?a <? ?b)%nat] => destruct (Nat.ltb_spec a b); [|done] end.
  cbn [mbind option_bind]. unfold put_char. rewrite length_insert, HB2.
  match goal with |- context [(?a <? ?b)%nat] => destruct (Nat.ltb_spec a b) as [HH|]; [|done] end.
  exfalso. revert HH. change (length (take 16 (ObpHex64 Value))) with 16%nat. lia.
Qed.

(** *** The parser reads back what the printer wrote *)

Lemma lor_shift4 a n : 0 <= a < 2 ^ 60 -> 0 <= n < 16 ->
  Z.lor (u64 (Z.shiftl a 4)) n = a * 16 + n.
Proof.
  intros Ha Hn. rewrite Z.shiftl_mul_pow2 by lia.
  rewrite u64_small by (change (2 ^ 60) with 1152921504606846976 in Ha; lia).
  pose proof (Z.add_lor_land (a * 2 ^ 4) n) as E.
  assert (Z.land (a * 2 ^ 4) n = 0) as E0; [|lia].
  apply Z.bits_inj'. intros i Hi. rewrite Z.land_spec, Z.bits_0.
  destruct (Z.ltb_spec i 4).
  - by rewrite Z.mul_pow2_bits_low by lia.
  - by rewrite (testbit_small n 4), andb_false_r by lia.
Qed.

Lemma parse_hex_digits Value (Hv : 0 <= Value < 18446744073709551616) rest :
  forall k i, (i + k = 16)%nat ->
  parse_hex_loop (map (hex_digit Value) (seq i k) ++ rest)
    (Z.shiftr Value (64 - 4 * Z.of_nat i)) (Z.of_nat i) =
  parse_hex_loop rest Value 16.
Proof.
  induction k as [|k IH]; intros i Hik.
  - replace i with 16%nat by lia. simpl. by rewrite Z.shiftr_0_r.
  - cbn [seq map app parse_hex_loop].
    destruct (hex_digit_cases Value i) as (n & Hn & En & ->).
    destruct (hex_char_ok n Hn) as (-> & -> & _).
    rewrite lor_shift4; [ | | done].
    + rewrite <- (IH (S i)) by lia. f_equal; [|rewrite u32_small by lia; lia].
      subst n. change 15 with (Z.ones 4) at 2. rewrite Z.land_ones by lia.
      rewrite !Z.shiftr_div_pow2 by lia.
      replace (64 - 4 * Z.of_nat i) with ((15 - Z.of_nat i) * 4 + 4) by lia.
      replace (64 - 4 * Z.of_nat (S i)) with ((15 - Z.of_nat i) * 4) by lia.
      rewrite Z.pow_add_r, <- Z.div_div by lia.
      pose proof (Z.div_mod (Value / 2 ^ ((15 - Z.of_nat i) * 4)) (2 ^ 4) ltac:(lia)). lia.
    + split; [apply Z.shiftr_nonneg; lia|]. rewrite Z.shiftr_div_pow2 by lia.
      apply Z.div_lt_upper_bound; [lia|]. rewrite <- Z.pow_add_r by lia.
      apply Z.lt_le_trans with (2 ^ 64); [lia|]. apply Z.pow_le_mono_r; lia.
Qed.

(** ** Properties *)

(** A diagnostic line never leaves its buffer exactly when twenty bytes
    remain after the prefix ("0x", sixteen digits, newline, NUL); the output is
    then the prefix, 0x, the sixteen digits and a newline, and with a longer
    prefix the code stores past the end of the array. *)
Theorem write_hex_line_bounds size Prefix Value :
  is_cstr Prefix -> (0 < size)%nat ->
  write_hex_line size Prefix Value =
    if (length Prefix + 20 <=? size)%nat
    then Some (Prefix ++ str "0x" ++ map (hex_digit Value) (seq 0 16) ++ [10])
    else None.
Proof.
  intros HP H0. destruct (Nat.leb_spec (length Prefix + 20) size).
  - by apply write_hex_line_fits.
  - by apply write_hex_line_overflows; [done..|lia].
Qed.

Lemma write_hex_line_bounds_witness :
  MmpWriteHexLine (str "[MMFLT] VA=") 4096 =
    Some (str "[MMFLT] VA=0x0000000000001000" ++ [10]) /\
  MmpWriteHexLine (replicate 77 65) 1 = None.
Proof.
  split.
  - unfold MmpWriteHexLine.
    rewrite (write_hex_line_bounds 96 (str "[MMFLT] VA=") 4096);
      [reflexivity | by vm_compute; repeat constructor | lia].
  - unfold MmpWriteHexLine. rewrite (write_hex_line_bounds 96 (replicate 77 65) 1);
      [reflexivity | by vm_compute; repeat constructor | lia].
Defined.

(** The debug console's parser accepts every number the kernel prints: it
    reads the digits of a diagnostic line, with the 0x the printer writes in
    front and up to the newline it writes behind, as the printed value. *)
Theorem parse_hex_print Value rest :
  is_u64 Value ->
  KipParseHex64 (Some (str "0x" ++ map (hex_digit Value) (seq 0 16) ++ 10 :: rest)) = Some Value.
Proof.
  intros Hv. unfold KipParseHex64.
  change (str "0x" ++ map (hex_digit Value) (seq 0 16) ++ 10 :: rest)
    with (48 :: 120 :: map (hex_digit Value) (seq 0 16) ++ 10 :: rest).
  cbn [char_at nth Z.eqb Pos.eqb andb orb skipn].
  pose proof (parse_hex_digits Value Hv (10 :: rest) 16 0 eq_refl) as E.
  change (64 - 4 * Z.of_nat 0) with 64 in E.
  rewrite Z.shiftr_div_pow2, Z.div_small in E by (unfold is_u64 in Hv; lia).
  change (Z.of_nat 0) with 0 in E. unfold skipn. rewrite E. reflexivity.
Qed.

Lemma parse_hex_print_witness :
  KipParseHex64 (Some (str "0x" ++ map (hex_digit 48879) (seq 0 16) ++ [10])) = Some 48879.
Proof. apply (parse_hex_print 48879 []). unfold is_u64. lia. Defined.

(** [ObpCopyName] into an array of [n] characters always leaves a
    NUL-terminated string: the source when it has less than [n] characters, its
    first [n - 1] characters otherwise, and never writes outside the array;
    [IopCopyString] leaves the same string but reports success only for a
    source of at most [n - 2] characters. *)
Theorem bounded_copy_spec Source buf n :
  is_cstr Source -> length buf = n -> (0 < n)%nat ->
  let r := ObpCopyName buf (Z.of_nat n) (Some Source) in
  let q := IopCopyString buf (Z.of_nat n) (Some Source) in
  r.1 = KSTATUS_SUCCESS /\ length r.2 = n /\ cstr_of r.2 = take (n - 1) Source /\
  q.2 = r.2 /\ q.1 = (if (length Source + 2 <=? n)%nat then 1 else 0).
Proof.
  intros HS Hl Hn. cbv zeta. unfold ObpCopyName, IopCopyString.
  destruct (Z.ltb_spec (Z.of_nat n) 1); [lia|]. destruct (Z.eqb_spec (Z.of_nat n) 0); [lia|].
  replace (Z.to_nat (Z.of_nat n - 1)) with (n - 1)%nat by lia.
  pose proof (copy_chars_spec Source HS (n - 1) 0 [] buf eq_refl eq_refl ltac:(lia) ltac:(lia)) as E.
  simpl app in E. rewrite E. clear E. simpl plus. rewrite Nat.sub_0_r.
  destruct (Nat.ltb_spec (length Source) (n - 1)); simpl.
  - rewrite cstr_of_stop by done. repeat split.
    + rewrite length_app. simpl. rewrite length_drop. lia.
    + by rewrite take_ge by lia.
    + destruct (Nat.leb_spec (length Source + 2) n); [done|lia].
  - destruct (drop (n - 1) buf) as [|x [|y t]] eqn:E;
      apply (f_equal length) in E as E2; rewrite length_drop in E2; simpl in E2; try lia.
    assert (length (take (n - 1) Source) = n - 1)%nat as Ht by (rewrite length_take; lia).
    rewrite insert_app_r_alt, Ht, Nat.sub_diag by lia. simpl insert.
    rewrite cstr_of_stop by (by apply Forall_take). repeat split.
    + rewrite length_app, Ht. simpl. lia.
    + destruct (Nat.leb_spec (length Source + 2) n); [lia|done].
Qed.

Lemma bounded_copy_spec_witness :
  let q := IopCopyString (replicate 64 7) 64 (Some (replicate 63 65)) in
  cstr_of q.2 = replicate 63 65 /\ q.1 = 0.
Proof.
  destruct (bounded_copy_spec (replicate 63 65) (replicate 64 7) 64
    ltac:(by vm_compute; repeat constructor) eq_refl ltac:(lia)) as (_ & _ & H & E & Q).
  split; [change 64 with (Z.of_nat 64); rewrite E; exact H|exact Q].
Defined.

(** [IopStringEquals] terminates on every pair of C strings, within the
    length of the left one plus one iterations, and decides their equality. *)
Theorem IopStringEquals_decides Left Right :
  is_cstr Left -> is_cstr Right ->
  IopStringEquals (Some Left) (Some Right) = Some (if decide (Left = Right) then 1 else 0).
Proof. intros. unfold IopStringEquals. apply string_equals_loop_spec; [done..|lia|lia|done|lia]. Qed.

Lemma IopStringEquals_decides_witness :
  IopStringEquals (Some (str "\System\init.kpe")) (Some (str "\System\init")) = Some 0.
Proof.
  rewrite IopStringEquals_decides; [reflexivity| |]; by vm_compute; repeat constructor.
Defined.
