(* ===== verification/BootProto.v ===== *)
(** * The boot handoff: boot/include/bootproto.h

    The record the UEFI loader passes to the kernel entry.  The kernel reads it
    only through [NkGetBootInfo]; the pointer is modelled by the pair of its
    address and the value behind it. *)

From S2P Require Import Prelude.

Definition BOOTINFO_MAGIC : Z := 0x49425441.
Definition BOOTINFO_VERSION : Z := 1.
Definition BOOTINFO_FLAG_VALIDATE : Z := 0x1.
Definition BOOTINFO_FLAG_INIT_IMAGE_PRESENT : Z := 0x2.
Definition BOOTINFO_FLAG_VERBOSE_BOOT : Z := 0x4.

Record PHYSICAL_MEMORY_RANGE := {
  RangeBase : Z;
  RangeLength : Z;
  RangeType : Z;
  RangeAttributes : Z }.

Record BOOT_VIDEO_INFO := {
  FrameBufferBase : Z;
  FrameBufferSize : Z;
  Width : Z;
  Height : Z;
  PixelsPerScanLine : Z;
  PixelFormat : Z }.

Record BOOT_INFO := {
  Magic : Z;
  Version : Z;
  Size : Z;
  Flags : Z;
  FirmwareType : Z;
  LoaderBase : Z;
  KernelBase : Z;
  KernelSize : Z;
  KernelEntry : Z;
  InitImageBase : Z;
  InitImageSize : Z;
  MemoryMap : Z;
  MemoryMapEntryCount : Z;
  MemoryMapEntrySize : Z;
  Video : BOOT_VIDEO_INFO }.

(** The platform as the HAL describes it to the kernel: hal/inc/hal.h. *)
Record HAL_PLATFORM_INFO := {
  ProcessorCount : Z;
  TimerFrequencyHz : Z;
  PhysicalMemoryTop : Z }.

(** [const BOOT_INFO *]: where the record is and what it says. *)
Record BOOT_INFO_PTR := { bi_address : Z; bi_value : BOOT_INFO }.

(** [sizeof(BOOT_INFO)] and [sizeof(PHYSICAL_MEMORY_RANGE)] under the x86-64
    layout rules. *)
Definition sizeof_BOOT_INFO : Z := 120.
Definition sizeof_PHYSICAL_MEMORY_RANGE : Z := 24.
