(* ===== verification/Nk.v ===== *)
(** * Nucleus message ports: kernel/nk/core.c, kernel/include/nk.h

    A port is a ring buffer of 32 fixed-size messages.  [port_queue] is the
    abstract FIFO queue a port stands for; [port_run_refines] shows that the
    ring buffer implements it for every sequence of sends and receives. *)

From S2P Require Import Prelude CString BootProto.

Definition NK_PORT_QUEUE_DEPTH : Z := 32.
Definition NK_MESSAGE_PAYLOAD_BYTES : Z := 64.
Definition NK_SERVICE_NAME_MAX : Z := 31.

Record NK_MESSAGE := { Opcode : Z; Length : Z; Payload : list Z }.

Record NK_PORT := { Queue : list NK_MESSAGE; Head : Z; Tail : Z; Count : Z }.

Record NK_SERVICE_ENDPOINT := {
  EndpointName : list Z;
  BaseOpcode : Z;
  EndpointFlags : Z;
  Port : NK_PORT }.

(** The file's static variables. *)
Record nk_state := {
  gNkBootInfo : option BOOT_INFO_PTR;
  gNkPortCount : Z;
  gNkServiceEndpointCount : Z }.

(** ** Operations *)

Definition NkInitializeCore (BootInfo : option BOOT_INFO_PTR) : M nk_state KSTATUS :=
  fun s =>
  match BootInfo with
  | None => Ret KSTATUS_INVALID_PARAMETER s
  | Some b =>
      if negb (Magic (bi_value b) =? BOOTINFO_MAGIC) then Ret KSTATUS_INVALID_PARAMETER s
      else Ret KSTATUS_SUCCESS
             {| gNkBootInfo := Some b; gNkPortCount := 0; gNkServiceEndpointCount := 0 |}
  end.

Definition NkGetBootInfo (s : nk_state) : option BOOT_INFO_PTR := gNkBootInfo s.

Definition clear_message (m : NK_MESSAGE) : NK_MESSAGE :=
  {| Opcode := 0; Length := 0; Payload := Payload m |}.

(** The second component of a port operation is the port after it. *)
Definition NkPortInitialize (p : option NK_PORT) : M nk_state (KSTATUS * option NK_PORT) :=
  fun s =>
  match p with
  | None => Ret (KSTATUS_INVALID_PARAMETER, None) s
  | Some p =>
      Ret (KSTATUS_SUCCESS,
           Some {| Queue := map clear_message (take 32 (Queue p)) ++ drop 32 (Queue p);
                   Head := 0; Tail := 0; Count := 0 |})
          {| gNkBootInfo := gNkBootInfo s;
             gNkPortCount := u32 (gNkPortCount s + 1);
             gNkServiceEndpointCount := gNkServiceEndpointCount s |}
  end.

Definition NkPortSend {S} (p : option NK_PORT) (Message : option NK_MESSAGE)
  : M S (KSTATUS * option NK_PORT) :=
  match p, Message with
  | Some q, Some m =>
      if Length m >? NK_MESSAGE_PAYLOAD_BYTES then ret (KSTATUS_INVALID_PARAMETER, p)
      else if Count q >=? NK_PORT_QUEUE_DEPTH then ret (KSTATUS_INIT_FAILED, p)
      else
        Queue' <- store_at (Z.to_nat (Tail q)) m (Queue q) ;;
        ret (KSTATUS_SUCCESS,
             Some {| Queue := Queue';
                     Head := Head q;
                     Tail := u32 (Tail q + 1) mod NK_PORT_QUEUE_DEPTH;
                     Count := u32 (Count q + 1) |})
  | _, _ => ret (KSTATUS_INVALID_PARAMETER, p)
  end.

(** [OutMessage]: whether the pointer to the result is not null. *)
Definition NkPortReceive {S} (p : option NK_PORT) (OutMessage : bool)
  : M S (KSTATUS * option NK_PORT * option NK_MESSAGE) :=
  match p with
  | Some q =>
      if negb OutMessage then ret (KSTATUS_INVALID_PARAMETER, p, None)
      else if Count q =? 0 then ret (KSTATUS_INIT_FAILED, p, None)
      else
        m <- load_at (Queue q) (Z.to_nat (Head q)) ;;
        ret (KSTATUS_SUCCESS,
             Some {| Queue := Queue q;
                     Head := u32 (Head q + 1) mod NK_PORT_QUEUE_DEPTH;
                     Tail := Tail q;
                     Count := u32 (Count q - 1) |},
             Some m)
  | None => ret (KSTATUS_INVALID_PARAMETER, p, None)
  end.

Definition NkServiceEndpointInitialize (Endpoint : option NK_SERVICE_ENDPOINT)
  (Name : option cstr) (Base Flags : Z) : M nk_state (KSTATUS * option NK_SERVICE_ENDPOINT) :=
  match Endpoint, Name with
  | Some e, Some n =>
      if Base =? 0 then ret (KSTATUS_INVALID_PARAMETER, Endpoint)
      else
        let '(name, terminated) := copy_chars 32 0 (EndpointName e) n in
        let name := if terminated then name else <[31%nat := 0]> name in
        dlet (Status, p) := NkPortInitialize (Some (Port e)) ;;
        let e' := {| EndpointName := name; BaseOpcode := Base; EndpointFlags := Flags;
                     Port := default (Port e) p |} in
        if negb (ok Status) then ret (Status, Some e')
        else
          (fun s => Ret (KSTATUS_SUCCESS, Some e')
             {| gNkBootInfo := gNkBootInfo s; gNkPortCount := gNkPortCount s;
                gNkServiceEndpointCount := u32 (gNkServiceEndpointCount s + 1) |})
  | _, _ => ret (KSTATUS_INVALID_PARAMETER, Endpoint)
  end.

Definition set_endpoint_port (e : NK_SERVICE_ENDPOINT) (p : NK_PORT) : NK_SERVICE_ENDPOINT :=
  {| EndpointName := EndpointName e; BaseOpcode := BaseOpcode e;
     EndpointFlags := EndpointFlags e; Port := p |}.

Definition NkServiceSend {S} (Endpoint : option NK_SERVICE_ENDPOINT)
  (Message : option NK_MESSAGE) : M S (KSTATUS * option NK_SERVICE_ENDPOINT) :=
  match Endpoint, Message with
  | Some e, Some m =>
      dlet (Status, p) := NkPortSend (Some (Port e)) (Some m) ;;
      ret (Status, Some (set_endpoint_port e (default (Port e) p)))
  | _, _ => ret (KSTATUS_INVALID_PARAMETER, Endpoint)
  end.

Definition NkServiceReceive {S} (Endpoint : option NK_SERVICE_ENDPOINT) (OutMessage : bool)
  : M S (KSTATUS * option NK_SERVICE_ENDPOINT * option NK_MESSAGE) :=
  match Endpoint with
  | Some e =>
      if negb OutMessage then ret (KSTATUS_INVALID_PARAMETER, Endpoint, None)
      else
        dlet (Status, p, m) := NkPortReceive (Some (Port e)) true ;;
        ret (Status, Some (set_endpoint_port e (default (Port e) p)), m)
  | None => ret (KSTATUS_INVALID_PARAMETER, Endpoint, None)
  end.

(** ** Invariant and abstraction *)

Definition message_ok (m : NK_MESSAGE) : Prop :=
  0 <= Length m <= NK_MESSAGE_PAYLOAD_BYTES.

(** The index of the [i]-th queued message. *)
Definition slot (p : NK_PORT) (i : nat) : nat := Z.to_nat ((Head p + Z.of_nat i) mod 32).

Record port_wf (p : NK_PORT) : Prop := {
  pw_len : length (Queue p) = 32%nat;
  pw_head : 0 <= Head p < 32;
  pw_count : 0 <= Count p <= 32;
  pw_tail : Tail p = (Head p + Count p) mod 32 }.

Definition empty_message : NK_MESSAGE := {| Opcode := 0; Length := 0; Payload := [] |}.

(** The FIFO queue a port stands for. *)
Definition port_queue (p : NK_PORT) : list NK_MESSAGE :=
  map (fun i => nth (slot p i) (Queue p) empty_message) (seq 0 (Z.to_nat (Count p))).

Lemma port_queue_length p : port_wf p -> Z.of_nat (length (port_queue p)) = Count p.
Proof. intros [_ _ ? _]. unfold port_queue. rewrite length_map, length_seq. lia. Qed.

Lemma port_init_wf p s p' st s' :
  length (Queue p) = 32%nat ->
  NkPortInitialize (Some p) s = Ret (st, Some p') s' -> port_wf p' /\ port_queue p' = [].
Proof.
  intros Hl [= <- <- <-]. split; [|done]. constructor; simpl; try lia.
  - by rewrite length_app, length_map, <- length_app, take_drop.
  - done.
Qed.

(** A send on a well-formed port: success appends, and fails only for an
    oversized message or a full queue, leaving the port as it was. *)
Lemma NkPortSend_spec {S} p m (s : S) :
  port_wf p ->
  exists st p', NkPortSend (Some p) (Some m) s = Ret (st, Some p') s /\ port_wf p' /\
    ((st = KSTATUS_INVALID_PARAMETER /\ 64 < Length m /\ p' = p) \/
     (st = KSTATUS_INIT_FAILED /\ Length m <= 64 /\ length (port_queue p) = 32%nat /\ p' = p) \/
     (st = KSTATUS_SUCCESS /\ Length m <= 64 /\ (length (port_queue p) < 32)%nat /\
      port_queue p' = port_queue p ++ [m])).
Proof.
  intros W. pose proof (port_queue_length _ W) as Hq. destruct W as [Hl Hh Hc Ht].
  unfold NkPortSend, NK_MESSAGE_PAYLOAD_BYTES, NK_PORT_QUEUE_DEPTH.
  destruct (Length m >? 64) eqn:E1.
  { exists KSTATUS_INVALID_PARAMETER, p. split; [done|split; [done|]]. left. repeat split. lia. }
  destruct (Count p >=? 32) eqn:E2.
  { exists KSTATUS_INIT_FAILED, p. split; [done|split; [done|]]. right; left. repeat split; lia. }
  rewrite !(u32_small) by (rewrite ?Ht; zlia).
  exists KSTATUS_SUCCESS. eexists. split.
  { unfold bind. rewrite store_at_ok by (rewrite Ht, Hl; zlia). reflexivity. }
  split; [constructor; simpl; [by rewrite length_insert|done|lia|rewrite Ht; zlia]|].
  right; right. split; [done|]. split; [lia|]. split; [lia|].
  unfold port_queue. simpl.
  replace (Z.to_nat (Count p + 1)) with (Datatypes.S (Z.to_nat (Count p))) by lia.
  rewrite seq_S, map_app. simpl. f_equal.
  - apply map_ext_in. intros i Hi. apply in_seq in Hi. unfold slot. simpl.
    rewrite !nth_lookup, list_lookup_insert_ne; [done|]. rewrite Ht. zlia.
  - unfold slot. simpl. rewrite nth_lookup.
    replace (Z.to_nat ((Head p + Z.of_nat (Z.to_nat (Count p))) mod 32))
      with (Z.to_nat (Tail p)) by (rewrite Ht, Z2Nat.id by lia; done).
    rewrite list_lookup_insert_eq; [done|]. rewrite Ht, Hl. zlia.
Qed.

(** A receive on a well-formed port: the oldest message, or the empty error. *)
Lemma NkPortReceive_spec {S} p (s : S) :
  port_wf p ->
  exists st p' m, NkPortReceive (Some p) true s = Ret (st, Some p', m) s /\ port_wf p' /\
    ((st = KSTATUS_INIT_FAILED /\ port_queue p = [] /\ p' = p /\ m = None) \/
     (exists x q, st = KSTATUS_SUCCESS /\ port_queue p = x :: q /\ m = Some x /\
      port_queue p' = q)).
Proof.
  intros W. pose proof W as [Hl Hh Hc Ht].
  unfold NkPortReceive, NK_PORT_QUEUE_DEPTH. simpl negb. cbn match.
  destruct (Count p =? 0) eqn:E; bool_prop.
  { exists KSTATUS_INIT_FAILED, p, None. split; [done|split; [done|]]. left.
    repeat split. unfold port_queue. by rewrite E. }
  assert (exists x, Queue p !! Z.to_nat (Head p) = Some x) as [x Hx]
    by (apply lookup_lt_is_Some_2; lia).
  rewrite !u32_small by lia.
  exists KSTATUS_SUCCESS. do 2 eexists. split.
  { cbn [negb]. unfold bind. rewrite (load_at_ok _ _ _ _ Hx). reflexivity. }
  split; [constructor; simpl; [done|zlia|lia|rewrite Ht; zlia]|].
  right. exists x. eexists. split; [done|]. split; [|split; reflexivity].
  unfold port_queue. replace (Z.to_nat (Count p)) with (Datatypes.S (Z.to_nat (Count p - 1))) by lia.
  simpl. f_equal.
  - unfold slot. rewrite Z.add_0_r, Z.mod_small, nth_lookup, Hx by lia. done.
  - rewrite <- seq_shift, map_map. apply map_ext_in. intros i Hi. unfold slot. simpl.
    do 2 f_equal. zlia.
Qed.

(** ** Refinement: a port is a bounded FIFO queue *)

(** What a client of a port does. *)
Inductive port_op := OpSend (m : NK_MESSAGE) | OpReceive.

Definition port_step (p : NK_PORT) (o : port_op)
  : outcome unit (KSTATUS * option NK_MESSAGE * NK_PORT) :=
  match o with
  | OpSend m =>
      (dlet (st, p') := NkPortSend (Some p) (Some m) ;; ret (st, None, default p p')) tt
  | OpReceive =>
      (dlet (st, p', m) := NkPortReceive (Some p) true ;; ret (st, m, default p p')) tt
  end.

(** The abstract queue of the contract: at most 32 messages, first in first
    out, oversized messages refused. *)
Definition queue_step (q : list NK_MESSAGE) (o : port_op)
  : KSTATUS * option NK_MESSAGE * list NK_MESSAGE :=
  match o with
  | OpSend m =>
      if Length m >? 64 then (KSTATUS_INVALID_PARAMETER, None, q)
      else if (32 <=? length q)%nat then (KSTATUS_INIT_FAILED, None, q)
      else (KSTATUS_SUCCESS, None, q ++ [m])
  | OpReceive =>
      match q with
      | [] => (KSTATUS_INIT_FAILED, None, q)
      | x :: q' => (KSTATUS_SUCCESS, Some x, q')
      end
  end.

(** The replies of a sequence of operations; [None] if one of them is undefined. *)
Fixpoint port_run (p : NK_PORT) (ops : list port_op)
  : option (list (KSTATUS * option NK_MESSAGE) * NK_PORT) :=
  match ops with
  | [] => Some ([], p)
  | o :: ops' =>
      match port_step p o with
      | Ret (st, m, p') _ =>
          '(rs, p'') ← port_run p' ops'; Some ((st, m) :: rs, p'')
      | _ => None
      end
  end.

Fixpoint queue_run (q : list NK_MESSAGE) (ops : list port_op)
  : list (KSTATUS * option NK_MESSAGE) * list NK_MESSAGE :=
  match ops with
  | [] => ([], q)
  | o :: ops' =>
      let '(st, m, q') := queue_step q o in
      let '(rs, q'') := queue_run q' ops' in ((st, m) :: rs, q'')
  end.

Lemma port_step_refines p o : port_wf p ->
  exists st m p', port_step p o = Ret (st, m, p') tt /\ port_wf p' /\
    queue_step (port_queue p) o = (st, m, port_queue p').
Proof.
  intros W. destruct o as [msg|]; unfold port_step.
  - destruct (NkPortSend_spec p msg tt W) as (st & p' & E & W' & D).
    exists st, None, p'. unfold bind. rewrite E. split; [reflexivity|]. split; [done|].
    unfold queue_step. destruct D as [(-> & ? & ->)|[(-> & ? & Hl & ->)|(-> & ? & ? & ->)]].
    + destruct (Z.gtb_spec (Length msg) 64); [reflexivity|lia].
    + destruct (Z.gtb_spec (Length msg) 64); [lia|]. by rewrite Hl.
    + destruct (Z.gtb_spec (Length msg) 64); [lia|].
      destruct (Nat.leb_spec 32 (length (port_queue p))); [lia|reflexivity].
  - destruct (NkPortReceive_spec p tt W) as (st & p' & m & E & W' & D).
    exists st, m, p'. unfold bind. rewrite E. simpl. split; [done|]. split; [done|].
    destruct D as [(-> & Hq & -> & ->)|(x & q & -> & -> & -> & ->)]; [by rewrite !Hq|done].
Qed.

(** The port every property starts from. *)
Definition empty_port : NK_PORT :=
  {| Queue := replicate 32 empty_message; Head := 0; Tail := 0; Count := 0 |}.

Lemma empty_port_wf : port_wf empty_port.
Proof. by constructor. Qed.

(** ** Properties *)

(** C23: for every sequence of sends and receives, a well-formed port gives
    exactly the replies of a bounded first-in-first-out queue (status and
    message of each operation), never leaves its array, and still stands for
    the abstract queue's contents at the end. *)
Theorem port_run_refines p ops :
  port_wf p ->
  exists p', port_run p ops = Some ((queue_run (port_queue p) ops).1, p') /\
    port_wf p' /\ port_queue p' = (queue_run (port_queue p) ops).2.
Proof.
  revert p. induction ops as [|o ops IH]; intros p W; simpl.
  { by exists p. }
  destruct (port_step_refines p o W) as (st & m & p1 & -> & W1 & ->).
  destruct (IH p1 W1) as (p2 & -> & W2 & E2). exists p2. simpl.
  by destruct (queue_run (port_queue p1) ops).
Qed.

Definition msg_of (n : Z) : NK_MESSAGE := {| Opcode := n; Length := 4; Payload := [] |}.

Lemma port_run_refines_witness :
  exists p', port_run empty_port [OpSend (msg_of 1); OpSend (msg_of 2); OpReceive; OpReceive; OpReceive]
    = Some ([(0, None); (0, None); (0, Some (msg_of 1)); (0, Some (msg_of 2)); (-3, None)], p').
Proof.
  destruct (port_run_refines empty_port
    [OpSend (msg_of 1); OpSend (msg_of 2); OpReceive; OpReceive; OpReceive] empty_port_wf)
    as (p' & E & _).
  exists p'. exact E.
Defined.
