(* ===== verification/Se.v ===== *)
(** * Security manager: kernel/se/init.c, kernel/include/se.h *)

From S2P Require Import Prelude.

Record SE_ACCESS_TOKEN := { SubjectId : Z; PrivilegeMask : Z; IntegrityLevel : Z }.

Definition SE_INTEGRITY_LOW : Z := 1.
Definition SE_INTEGRITY_MEDIUM : Z := 2.
Definition SE_INTEGRITY_HIGH : Z := 3.

Record se_state := { gSeReady : bool; gSeDefaultPrivilegeMask : Z }.

Definition SeInitialize : M se_state KSTATUS := fun s =>
  if gSeReady s then Ret KSTATUS_ALREADY_INITIALIZED s
  else Ret KSTATUS_SUCCESS {| gSeReady := true; gSeDefaultPrivilegeMask := 0xF |}.

(** [OutToken]: whether the pointer is not null. *)
Definition SeCreateKernelToken (OutToken : bool) : M se_state (KSTATUS * option SE_ACCESS_TOKEN) :=
  fun s =>
  if negb OutToken || negb (gSeReady s) then Ret (KSTATUS_INVALID_PARAMETER, None) s
  else Ret (KSTATUS_SUCCESS,
            Some {| SubjectId := 0; PrivilegeMask := 0xFFFFFFFF;
                    IntegrityLevel := SE_INTEGRITY_HIGH |}) s.

Definition SeAccessCheck (Token : option SE_ACCESS_TOKEN) (RequiredMask : Z) : M se_state KSTATUS :=
  fun s =>
  match Token with
  | None => Ret KSTATUS_INVALID_PARAMETER s
  | Some t =>
      if negb (gSeReady s) then Ret KSTATUS_INVALID_PARAMETER s
      else if negb (all_flags (PrivilegeMask t) RequiredMask) then Ret KSTATUS_ACCESS_DENIED s
      else if (IntegrityLevel t <? SE_INTEGRITY_MEDIUM) && negb (RequiredMask =? 0)
      then Ret KSTATUS_ACCESS_DENIED s
      else Ret KSTATUS_SUCCESS s
  end.

(** ** Lemmas *)

(** The check succeeds exactly when every required privilege is held, and by a
    subject of at least medium integrity unless nothing is required. *)
Lemma SeAccessCheck_success_iff s t mask :
  gSeReady s = true ->
  (SeAccessCheck (Some t) mask s = Ret KSTATUS_SUCCESS s <->
   all_flags (PrivilegeMask t) mask = true /\
   (SE_INTEGRITY_MEDIUM <= IntegrityLevel t \/ mask = 0)).
Proof.
  intros R. unfold SeAccessCheck. rewrite R. simpl.
  destruct (all_flags (PrivilegeMask t) mask) eqn:E; simpl.
  - destruct (Z.ltb_spec (IntegrityLevel t) SE_INTEGRITY_MEDIUM), (Z.eqb_spec mask 0); simpl;
      split; try done; try (intros [_ [?|?]]; lia); auto.
  - split; [intros [=]|intros [? _]; congruence].
Qed.

(** ** Properties *)

(** The access check is monotone: a token that is granted a set of rights is
    granted every subset of them, and raising a token's privileges or integrity
    never turns a grant into a denial. *)
Theorem SeAccessCheck_monotone s t t' m m' :
  is_u32 m -> is_u32 m' ->
  all_flags m m' = true ->
  all_flags (PrivilegeMask t') (PrivilegeMask t) = true ->
  IntegrityLevel t <= IntegrityLevel t' ->
  SeAccessCheck (Some t) m s = Ret KSTATUS_SUCCESS s ->
  SeAccessCheck (Some t') m' s = Ret KSTATUS_SUCCESS s.
Proof.
  intros Hm Hm' Hsub Hp Hi H. unfold is_u32 in *.
  destruct (gSeReady s) eqn:R.
  2: { exfalso. unfold SeAccessCheck in H. rewrite R in H. simpl in H. done. }
  rewrite SeAccessCheck_success_iff in * by done. destruct H as [Hall Hint]. split.
  - apply all_flags_trans with m; [lia| |done].
    apply all_flags_trans with (PrivilegeMask t); [lia|done|done].
  - destruct Hint as [?| ->]; [left; lia|]. right.
    unfold all_flags in Hsub. rewrite Z.land_0_l in Hsub. lia.
Qed.

Lemma SeAccessCheck_monotone_witness :
  let s := {| gSeReady := true; gSeDefaultPrivilegeMask := 15 |} in
  SeAccessCheck (Some {| SubjectId := 0; PrivilegeMask := 0xFFFFFFFF; IntegrityLevel := 3 |}) 1 s
    = Ret KSTATUS_SUCCESS s.
Proof.
  intros s.
  apply (SeAccessCheck_monotone s {| SubjectId := 7; PrivilegeMask := 3; IntegrityLevel := 2 |}
    _ 3 1); [unfold is_u32; lia|unfold is_u32; lia|reflexivity|reflexivity|simpl; lia|reflexivity].
Defined.
