(* ===== verification/Cc.v ===== *)
(** * Cache manager: kernel/cc/init.c, kernel/include/cc.h *)

From S2P Require Import Prelude BootProto.

Record CC_POLICY := {
  MaxCachedPages : Z;
  DirtyWritebackThresholdPages : Z;
  AggressiveTrim : Z }.

Record cc_state := { gCcPolicy : CC_POLICY; gCcReady : bool }.

(** [PlatformInfo] is what [HalQueryPlatformInfo] stores. *)
Definition CcInitialize (PlatformInfo : HAL_PLATFORM_INFO) : M cc_state KSTATUS := fun s =>
  if gCcReady s then Ret KSTATUS_ALREADY_INITIALIZED s
  else
    let EstimatedPages := Z.shiftr (PhysicalMemoryTop PlatformInfo) 12 in
    let EstimatedPages := if EstimatedPages =? 0 then 4096 else EstimatedPages in
    let Max := u32 (EstimatedPages / 8) in
    Ret KSTATUS_SUCCESS
      {| gCcPolicy := {| MaxCachedPages := Max;
                         DirtyWritebackThresholdPages := Max / 4;
                         AggressiveTrim := 0 |};
         gCcReady := true |}.

(** [OutPolicy]: whether the pointer is not null. *)
Definition CcQueryPolicy (OutPolicy : bool) : M cc_state (KSTATUS * option CC_POLICY) := fun s =>
  if negb OutPolicy || negb (gCcReady s) then Ret (KSTATUS_INVALID_PARAMETER, None) s
  else Ret (KSTATUS_SUCCESS, Some (gCcPolicy s)) s.

(** ** Lemmas *)

Lemma CcInitialize_policy info s s' st :
  gCcReady s = false -> is_u64 (PhysicalMemoryTop info) ->
  CcInitialize info s = Ret st s' ->
  st = KSTATUS_SUCCESS /\ gCcReady s' = true /\
  DirtyWritebackThresholdPages (gCcPolicy s') * 4 <= MaxCachedPages (gCcPolicy s') /\
  0 <= MaxCachedPages (gCcPolicy s') < 2 ^ 32 /\
  (4096 <= PhysicalMemoryTop info < 2 ^ 47 ->
   MaxCachedPages (gCcPolicy s') * 8 * 4096 <= PhysicalMemoryTop info).
Proof.
  intros R Hu H. unfold CcInitialize in H. rewrite R in H. unfold is_u64 in Hu.
  injection H as <- <-. cbn [gCcReady gCcPolicy MaxCachedPages DirtyWritebackThresholdPages].
  set (e := if Z.shiftr _ 12 =? 0 then 4096 else _).
  pose proof (u32_range (e / 8)) as Hr. split; [done|]. split; [done|].
  split; [zlia|]. split; [lia|]. intros Ht.
  assert (e = PhysicalMemoryTop info / 4096) as He.
  { unfold e. rewrite Z.shiftr_div_pow2 by lia. change (2 ^ 12) with 4096.
    destruct (Z.eqb_spec (PhysicalMemoryTop info / 4096) 0); [zlia|done]. }
  rewrite He. rewrite u32_small by zlia. zlia.
Qed.
