(* ===== verification/Ob.v ===== *)
(** * Object manager: kernel/ob/init.c, kernel/include/ob.h

    The pools of object types and object headers, the kernel handle table
    (the only handle table of the program), reference counts and the run of
    the type's delete routine when the last reference goes.

    A pointer into a pool is the index of its slot; a nullable one is an
    option.  [HandleTable] arguments are whether the pointer is not null: the
    only table there is is [gObKernelHandleTable].  The operations that may
    run a delete routine work on a state [W] that contains the object
    manager's, through the interface [ObWorld]. *)

From S2P Require Import Prelude CString.

(** ** Data *)

Definition OB_MAX_OBJECTS : Z := 256.
Definition OB_MAX_HANDLES : Z := 512.
Definition OB_MAX_TYPE_NAME : Z := 31.
Definition OB_MAX_OBJECT_NAME : Z := 31.

Definition OB_ACCESS_READ : Z := 0x00000001.
Definition OB_ACCESS_WRITE : Z := 0x00000002.
Definition OB_ACCESS_EXECUTE : Z := 0x00000004.
Definition OB_ACCESS_DUPLICATE : Z := 0x00000008.
Definition OB_ACCESS_ALL : Z := 0xFFFFFFFF.
Definition OB_FLAG_WAITABLE : Z := 0x00000001.
Definition OB_WAIT_STATE_CLEAR : Z := 0.
Definition OB_WAIT_STATE_SIGNALED : Z := 1.

(** The values the program gives a delete-routine pointer. *)
Inductive OB_DELETE_ROUTINE :=
| ProcessDeleteRoutine | ThreadDeleteRoutine | PortDeleteRoutine
| FileDeleteRoutine | SectionDeleteRoutine.

Record OB_OBJECT_TYPE := {
  TypeId : Z;
  TypeName : list Z;
  DeleteRoutine : option OB_DELETE_ROUTINE }.

Record OB_OBJECT_HEADER := {
  ObjectId : Z;
  ObjectType : option nat;
  RefCount : Z;
  ObjectFlags : Z;
  DefaultAccessMask : Z;
  WaitState : Z;
  ObjectName : list Z }.

Record OB_HANDLE_TABLE_ENTRY := {
  HandleValue : Z;
  HandleObject : option nat;
  GrantedAccess : Z;
  HandleInUse : bool }.

Record OB_HANDLE_TABLE := { Entries : list OB_HANDLE_TABLE_ENTRY; NextHandle : Z }.

Record ob_state := {
  gObTypePool : list OB_OBJECT_TYPE;
  gObObjectPool : list OB_OBJECT_HEADER;
  gObTypeInUse : list bool;
  gObObjectInUse : list bool;
  gObKernelHandleTable : OB_HANDLE_TABLE;
  gObNextObjectId : Z;
  gObReady : bool }.

(** Field updates. *)
Definition set_types (s : ob_state) pool inuse : ob_state :=
  {| gObTypePool := pool; gObObjectPool := gObObjectPool s; gObTypeInUse := inuse;
     gObObjectInUse := gObObjectInUse s; gObKernelHandleTable := gObKernelHandleTable s;
     gObNextObjectId := gObNextObjectId s; gObReady := gObReady s |}.
Definition set_objects (s : ob_state) pool inuse : ob_state :=
  {| gObTypePool := gObTypePool s; gObObjectPool := pool; gObTypeInUse := gObTypeInUse s;
     gObObjectInUse := inuse; gObKernelHandleTable := gObKernelHandleTable s;
     gObNextObjectId := gObNextObjectId s; gObReady := gObReady s |}.
Definition set_next_id (s : ob_state) id : ob_state :=
  {| gObTypePool := gObTypePool s; gObObjectPool := gObObjectPool s;
     gObTypeInUse := gObTypeInUse s; gObObjectInUse := gObObjectInUse s;
     gObKernelHandleTable := gObKernelHandleTable s; gObNextObjectId := id;
     gObReady := gObReady s |}.
Definition set_table (s : ob_state) t : ob_state :=
  {| gObTypePool := gObTypePool s; gObObjectPool := gObObjectPool s;
     gObTypeInUse := gObTypeInUse s; gObObjectInUse := gObObjectInUse s;
     gObKernelHandleTable := t; gObNextObjectId := gObNextObjectId s;
     gObReady := gObReady s |}.
Definition set_RefCount (o : OB_OBJECT_HEADER) (n : Z) : OB_OBJECT_HEADER :=
  {| ObjectId := ObjectId o; ObjectType := ObjectType o; RefCount := n;
     ObjectFlags := ObjectFlags o; DefaultAccessMask := DefaultAccessMask o;
     WaitState := WaitState o; ObjectName := ObjectName o |}.

Definition put_object (i : nat) (o : OB_OBJECT_HEADER) (s : ob_state) : ob_state :=
  set_objects s (<[i := o]> (gObObjectPool s)) (gObObjectInUse s).
Definition put_entry (k : nat) (e : OB_HANDLE_TABLE_ENTRY) (next : Z) (s : ob_state) : ob_state :=
  set_table s {| Entries := <[k := e]> (Entries (gObKernelHandleTable s)); NextHandle := next |}.

(** ** Operations *)

Definition empty_entry : OB_HANDLE_TABLE_ENTRY :=
  {| HandleValue := 0; HandleObject := None; GrantedAccess := 0; HandleInUse := false |}.

Definition ObpZeroHandleTable : OB_HANDLE_TABLE :=
  {| Entries := replicate (Z.to_nat OB_MAX_HANDLES) empty_entry; NextHandle := 4 |}.

Definition ObpFindHandleEntry (HandleTable : bool) (HandleValue_ : Z) (OutEntry : bool)
  : M ob_state (KSTATUS * option nat) := fun s =>
  if negb HandleTable || negb OutEntry then Ret (KSTATUS_INVALID_PARAMETER, None) s
  else
    match find_first (fun e => HandleInUse e && (HandleValue e =? HandleValue_))
                     (Entries (gObKernelHandleTable s)) with
    | Some k => Ret (KSTATUS_SUCCESS, Some k) s
    | None => Ret (KSTATUS_NOT_FOUND, None) s
    end.

Definition ObInitialize : M ob_state KSTATUS := fun s =>
  if gObReady s then Ret KSTATUS_ALREADY_INITIALIZED s
  else
    Ret KSTATUS_SUCCESS
      {| gObTypePool := gObTypePool s;
         gObObjectPool := gObObjectPool s;
         gObTypeInUse := replicate (Z.to_nat OB_MAX_OBJECTS) false;
         gObObjectInUse := replicate (Z.to_nat OB_MAX_OBJECTS) false;
         gObKernelHandleTable := ObpZeroHandleTable;
         gObNextObjectId := 1;
         gObReady := true |}.

Definition ObCreateType (Name : option cstr) (Routine : option OB_DELETE_ROUTINE) (OutType : bool)
  : M ob_state (KSTATUS * option nat) := fun s =>
  match Name with
  | None => Ret (KSTATUS_INVALID_PARAMETER, None) s
  | Some _ =>
      if negb (gObReady s) || negb OutType then Ret (KSTATUS_INVALID_PARAMETER, None) s
      else
        match find_first negb (gObTypeInUse s) with
        | None => Ret (KSTATUS_INIT_FAILED, None) s
        | Some i =>
            (t <- load_at (gObTypePool s) i ;;
             let '(Status, Name') := ObpCopyName (TypeName t) (OB_MAX_TYPE_NAME + 1) Name in
             let t' r := {| TypeId := u32 (Z.of_nat i + 1); TypeName := Name'; DeleteRoutine := r |} in
             if negb (ok Status) then
               modify (fun s => set_types s (<[i := t' (DeleteRoutine t)]> (gObTypePool s))
                                            (<[i := false]> (gObTypeInUse s))) ;;;
               ret (Status, None)
             else
               modify (fun s => set_types s (<[i := t' Routine]> (gObTypePool s))
                                            (<[i := true]> (gObTypeInUse s))) ;;;
               ret (KSTATUS_SUCCESS, Some i)) s
        end
  end.

Definition ObCreateObject (Type_ : option nat) (Name : option cstr)
    (DefaultAccessMask_ Flags : Z) (OutObject : bool)
  : M ob_state (KSTATUS * option nat) := fun s =>
  match Type_, Name with
  | Some _, Some _ =>
      if negb (gObReady s) || negb OutObject then Ret (KSTATUS_INVALID_PARAMETER, None) s
      else
        match find_first negb (gObObjectInUse s) with
        | None => Ret (KSTATUS_INIT_FAILED, None) s
        | Some i =>
            (o <- load_at (gObObjectPool s) i ;;
             let '(Status, Name') := ObpCopyName (ObjectName o) (OB_MAX_OBJECT_NAME + 1) Name in
             let o' := {| ObjectId := gObNextObjectId s; ObjectType := Type_; RefCount := 1;
                          ObjectFlags := Flags; DefaultAccessMask := DefaultAccessMask_;
                          WaitState := OB_WAIT_STATE_CLEAR; ObjectName := Name' |} in
             modify (fun s => set_next_id s (u64 (gObNextObjectId s + 1))) ;;;
             modify (fun s => set_objects s (<[i := o']> (gObObjectPool s))
                                            (<[i := ok Status]> (gObObjectInUse s))) ;;;
             if negb (ok Status) then ret (Status, None)
             else ret (KSTATUS_SUCCESS, Some i)) s
        end
  | _, _ => Ret (KSTATUS_INVALID_PARAMETER, None) s
  end.

Definition ObInsertHandle (HandleTable : bool) (Object : option nat) (GrantedAccess_ : Z)
    (OutHandle : bool) : M ob_state (KSTATUS * option Z) := fun s =>
  match Object with
  | None => Ret (KSTATUS_INVALID_PARAMETER, None) s
  | Some i =>
      if negb (gObReady s) || negb HandleTable || negb OutHandle
      then Ret (KSTATUS_INVALID_PARAMETER, None) s
      else
        (o <- load_at (gObObjectPool s) i ;;
         if negb (Z.land GrantedAccess_ (DefaultAccessMask o) =? GrantedAccess_)
         then ret (KSTATUS_ACCESS_DENIED, None)
         else
           let t := gObKernelHandleTable s in
           match find_first (fun e => negb (HandleInUse e)) (Entries t) with
           | None => ret (KSTATUS_INIT_FAILED, None)
           | Some k =>
               modify (put_entry k {| HandleValue := NextHandle t; HandleObject := Some i;
                                      GrantedAccess := GrantedAccess_; HandleInUse := true |}
                                 (u32 (NextHandle t + 4))) ;;;
               modify (put_object i (set_RefCount o (u32 (RefCount o + 1)))) ;;;
               ret (KSTATUS_SUCCESS, Some (NextHandle t))
           end) s
  end.

Definition ObReferenceObjectByHandle (HandleTable : bool) (HandleValue_ DesiredAccess : Z)
    (ExpectedType : option nat) (OutObject : bool)
  : M ob_state (KSTATUS * option nat) := fun s =>
  if negb (gObReady s) || negb HandleTable || negb OutObject || (HandleValue_ =? 0)
  then Ret (KSTATUS_INVALID_PARAMETER, None) s
  else
    (dlet (Status, Entry) := ObpFindHandleEntry HandleTable HandleValue_ true ;;
     if negb (ok Status) then ret (Status, None)
     else
       k <- deref Entry ;;
       e <- load_at (Entries (gObKernelHandleTable s)) k ;;
       if negb (all_flags (GrantedAccess e) DesiredAccess) then ret (KSTATUS_ACCESS_DENIED, None)
       else
         i <- deref (HandleObject e) ;;
         o <- load_at (gObObjectPool s) i ;;
         if match ExpectedType with
            | Some _ => negb (bool_decide (ObjectType o = ExpectedType))
            | None => false
            end
         then ret (KSTATUS_NOT_FOUND, None)
         else
           modify (put_object i (set_RefCount o (u32 (RefCount o + 1)))) ;;;
           ret (KSTATUS_SUCCESS, Some i)) s.

Definition ObGetKernelHandleTable (s : ob_state) : bool := gObReady s.

(** The tail of [ObDereferenceObject]: the slot returns to the pool. *)
Definition free_object (i : nat) (s : ob_state) : ob_state :=
  match gObObjectPool s !! i with
  | None => s
  | Some o =>
      set_objects s
        (<[i := {| ObjectId := ObjectId o; ObjectType := None; RefCount := RefCount o;
                   ObjectFlags := 0; DefaultAccessMask := 0; WaitState := OB_WAIT_STATE_CLEAR;
                   ObjectName := <[0%nat := 0]> (ObjectName o) |}]> (gObObjectPool s))
        (<[i := false]> (gObObjectInUse s))
  end.

(** ** The interface to the components that own objects

    [W] is the state the delete routines work on.  The managers that register
    a routine promise [ObWorldLaws]: a delete routine leaves the object
    manager's state alone. *)

Class ObWorld (W : Type) := {
  ob_get : W -> ob_state;
  ob_put : ob_state -> W -> W;
  run_delete : OB_DELETE_ROUTINE -> nat -> M W unit }.

Class ObWorldLaws (W : Type) `{ObWorld W} := {
  ob_get_put : forall o w, ob_get (ob_put o w) = o;
  run_delete_ob : forall r i w w', run_delete r i w = Ret tt w' -> ob_get w' = ob_get w }.

Section World.
Context {W : Type} `{ObWorld W}.

Definition ob {A} (m : M ob_state A) : M W A := zoom ob_get ob_put m.

(** [if (Object->Type != 0 && Object->Type->DeleteRoutine != 0)
    Object->Type->DeleteRoutine(Object);] *)
Definition call_delete_routine (i : nat) (o : OB_OBJECT_HEADER) : M W unit :=
  match ObjectType o with
  | None => ret tt
  | Some t =>
      ty <- ob (fun s => load_at (gObTypePool s) t s) ;;
      match DeleteRoutine ty with
      | None => ret tt
      | Some r => run_delete r i
      end
  end.

Definition ObDereferenceObject (Object : option nat) : M W KSTATUS :=
  s <- gets ob_get ;;
  match Object with
  | None => ret KSTATUS_INVALID_PARAMETER
  | Some i =>
      if negb (gObReady s) then ret KSTATUS_INVALID_PARAMETER
      else
        o <- deref (gObObjectPool s !! i) ;;
        if RefCount o =? 0 then ret KSTATUS_INVALID_PARAMETER
        else
          ob (modify (put_object i (set_RefCount o (RefCount o - 1)))) ;;;
          if negb (RefCount o - 1 =? 0) then ret KSTATUS_SUCCESS
          else
            call_delete_routine i o ;;;
            if Z.of_nat i <? OB_MAX_OBJECTS
            then ob (modify (free_object i)) ;;; ret KSTATUS_SUCCESS
            else ret KSTATUS_NOT_FOUND
  end.

Definition ObCloseHandle (HandleTable : bool) (HandleValue_ : Z) : M W KSTATUS :=
  s <- gets ob_get ;;
  if negb (gObReady s) || negb HandleTable || (HandleValue_ =? 0)
  then ret KSTATUS_INVALID_PARAMETER
  else
    dlet (Status, Entry) := ob (ObpFindHandleEntry HandleTable HandleValue_ true) ;;
    if negb (ok Status) then ret Status
    else
      k <- deref Entry ;;
      e <- ob (fun s => load_at (Entries (gObKernelHandleTable s)) k s) ;;
      Status <- ObDereferenceObject (HandleObject e) ;;
      ob (modify (fun s => put_entry k empty_entry (NextHandle (gObKernelHandleTable s)) s)) ;;;
      ret Status.

End World.

(** ** Diagnostics: the strings handed to [HalWriteDebugString], in order;
    [None] if printing one of them is undefined. *)

Definition lines (l : list (option cstr)) : option (list cstr) :=
  foldr (fun x acc => l' ← acc; c ← x; Some (c :: l')) (Some []) l.

Definition concat_lines (l : list (option (list cstr))) : option (list cstr) :=
  foldr (fun x acc => l' ← acc; c ← x; Some (c ++ l')) (Some []) l.

Definition type_name (s : ob_state) (o : OB_OBJECT_HEADER) : option cstr :=
  match ObjectType o with
  | None => Some (str "<null>")
  | Some t => cstr_of ∘ TypeName <$> gObTypePool s !! t
  end.

Definition dump_object (s : ob_state) (i : nat) (inuse : bool) : option (list cstr) :=
  if negb inuse then Some []
  else
    o ← gObObjectPool s !! i;
    lines [Some (str "[OBDBG] object name="); Some (cstr_of (ObjectName o));
           Some (str " type="); type_name s o; Some [10];
           ObpWriteHexLine (str "[OBDBG] object.id=") (ObjectId o);
           ObpWriteHexLine (str "[OBDBG] object.ref=") (RefCount o);
           ObpWriteHexLine (str "[OBDBG] object.flags=") (ObjectFlags o);
           ObpWriteHexLine (str "[OBDBG] object.default_access=") (DefaultAccessMask o)].

Definition ObDumpObjects (s : ob_state) : option (list cstr) :=
  if negb (gObReady s) then Some []
  else
    body ← concat_lines (imap (dump_object s) (gObObjectInUse s));
    Some ([str "[OBDBG] objects begin" ++ [10]] ++ body ++ [str "[OBDBG] objects end" ++ [10]]).

Definition dump_handle (s : ob_state) (e : OB_HANDLE_TABLE_ENTRY) : option (list cstr) :=
  if negb (HandleInUse e) then Some []
  else
    l1 ← lines [ObpWriteHexLine (str "[OBDBG] handle.value=") (HandleValue e);
                ObpWriteHexLine (str "[OBDBG] handle.granted=") (GrantedAccess e)];
    match HandleObject e with
    | None => Some l1
    | Some i =>
        o ← gObObjectPool s !! i;
        l2 ← lines [Some (str "[OBDBG] handle.object.name="); Some (cstr_of (ObjectName o)); Some [10];
                    Some (str "[OBDBG] handle.object.type="); type_name s o; Some [10];
                    ObpWriteHexLine (str "[OBDBG] handle.object.id=") (ObjectId o)];
        Some (l1 ++ l2)
    end.

Definition ObDumpHandles (s : ob_state) : option (list cstr) :=
  if negb (gObReady s) then Some []
  else
    body ← concat_lines (map (dump_handle s) (Entries (gObKernelHandleTable s)));
    Some ([str "[OBDBG] handles begin" ++ [10]] ++ body ++ [str "[OBDBG] handles end" ++ [10]]).
