(* ===== verification/ObInv.v ===== *)
(** * Object manager: invariant and theorems

    [ob_inv] ties the reference count of every live object to the handles that
    name it and to the references held outside the handle table (the ghost
    map [ext]); [ob_step] is what clients may do; the invariant holds in every
    reachable state. *)

From stdpp Require Import relations.
From S2P Require Import Prelude CString Ob.

(** ** References from the handle table *)

Definition ref1 (i : nat) (e : OB_HANDLE_TABLE_ENTRY) : Z :=
  if HandleInUse e && bool_decide (HandleObject e = Some i) then 1 else 0.

Definition refs (i : nat) (l : list OB_HANDLE_TABLE_ENTRY) : Z :=
  foldr (fun e n => ref1 i e + n) 0 l.

Lemma ref1_range i e : 0 <= ref1 i e <= 1.
Proof. unfold ref1. destruct (_ && _); lia. Qed.

Lemma ref1_not_in_use i e : HandleInUse e = false -> ref1 i e = 0.
Proof. intros E. unfold ref1. by rewrite E. Qed.

Lemma ref1_eq i e : HandleInUse e = true -> HandleObject e = Some i -> ref1 i e = 1.
Proof. intros E1 E2. unfold ref1. rewrite E1, E2. by rewrite bool_decide_eq_true_2. Qed.

Lemma ref1_ne i j e : HandleObject e = Some i -> i <> j -> ref1 j e = 0.
Proof.
  intros E N. unfold ref1. rewrite E, bool_decide_eq_false_2; [by rewrite andb_false_r|congruence].
Qed.

Lemma refs_range i l : 0 <= refs i l <= Z.of_nat (length l).
Proof. induction l as [|e l IH]; simpl; [lia|]. pose proof (ref1_range i e). lia. Qed.

Lemma refs_insert i l k e e' :
  l !! k = Some e -> refs i (<[k := e']> l) = refs i l - ref1 i e + ref1 i e'.
Proof.
  revert k. induction l as [|x l IH]; intros [|k] H; simpl in *; try done.
  - injection H as ->. lia.
  - rewrite (IH _ H). lia.
Qed.

Lemma refs_elem i l k e : l !! k = Some e -> ref1 i e <= refs i l.
Proof.
  revert k. induction l as [|x l IH]; intros [|k] H; simpl in *; try done.
  - injection H as ->. pose proof (refs_range i l). lia.
  - specialize (IH _ H). pose proof (ref1_range i x). lia.
Qed.

Lemma refs_zero i l :
  (forall k e, l !! k = Some e -> HandleInUse e = true -> HandleObject e <> Some i) -> refs i l = 0.
Proof.
  induction l as [|x l IH]; intros H; simpl; [done|].
  rewrite IH by (intros k e Hk; apply (H (S k) e Hk)).
  destruct (HandleInUse x) eqn:E; [|by rewrite ref1_not_in_use].
  unfold ref1. rewrite bool_decide_eq_false_2; [by rewrite andb_false_r|]. by apply (H 0%nat x).
Qed.

Lemma refs_replicate_empty i n : refs i (replicate n empty_entry) = 0.
Proof. induction n; simpl; [done|]. by rewrite IHn. Qed.

(** ** The invariant *)

Abbreviation entries s := (Entries (gObKernelHandleTable s)).
Abbreviation next_handle s := (NextHandle (gObKernelHandleTable s)).

(** Slot [i] of the object pool is allocated and holds [o]. *)
Definition live (s : ob_state) (i : nat) (o : OB_OBJECT_HEADER) : Prop :=
  gObObjectInUse s !! i = Some true /\ gObObjectPool s !! i = Some o.

(** Entry [k] of the handle table is in use and holds [e]. *)
Definition handle_at (s : ob_state) (k : nat) (e : OB_HANDLE_TABLE_ENTRY) : Prop :=
  entries s !! k = Some e /\ HandleInUse e = true.

Record ob_inv (s : ob_state) (ext : nat -> Z) : Prop := {
  oi_ready : gObReady s = true;
  oi_tpool : length (gObTypePool s) = 256%nat;
  oi_tuse : length (gObTypeInUse s) = 256%nat;
  oi_opool : length (gObObjectPool s) = 256%nat;
  oi_ouse : length (gObObjectInUse s) = 256%nat;
  oi_entries : length (entries s) = 512%nat;
  oi_next : 4 <= next_handle s < 4294967296;
  oi_handle : forall k e, handle_at s k e ->
    0 < HandleValue e < next_handle s /\
    exists i o, HandleObject e = Some i /\ live s i o /\
      all_flags (DefaultAccessMask o) (GrantedAccess e) = true;
  oi_unique : forall k k' e e', handle_at s k e -> handle_at s k' e' ->
    HandleValue e = HandleValue e' -> k = k';
  oi_count : forall i o, live s i o ->
    RefCount o = refs i (entries s) + ext i /\ 0 < RefCount o < 4294967296;
  oi_ext : forall i, 0 <= ext i;
  oi_dead : forall i, 0 < ext i -> exists o, live s i o;
  oi_types : forall i o, live s i o -> exists t, ObjectType o = Some t /\ (t < 256)%nat;
  oi_ids : forall i o, live s i o -> ObjectId o < gObNextObjectId s;
  oi_idu : forall i j o o', live s i o -> live s j o' -> ObjectId o = ObjectId o' -> i = j }.

Lemma live_det s i o o' : live s i o -> live s i o' -> o = o'.
Proof. intros [_ H1] [_ H2]. congruence. Qed.

(** An object without references from the table and from outside is not live. *)
Lemma inv_refs_dead s ext i :
  ob_inv s ext -> (forall o, ~ live s i o) -> refs i (entries s) = 0.
Proof.
  intros I D. apply refs_zero. intros k e Hk Hu Ho.
  destruct (oi_handle _ _ I k e) as (_ & j & o & Ho' & Hl & _); [done|].
  rewrite Ho in Ho'. injection Ho' as <-. by apply (D o).
Qed.

Definition ext_add (i : nat) (d : Z) (ext : nat -> Z) : nat -> Z :=
  fun j => if decide (j = i) then ext j + d else ext j.

Lemma ext_add_eq i d ext : ext_add i d ext i = ext i + d.
Proof. unfold ext_add. by rewrite decide_True. Qed.
Lemma ext_add_ne i j d ext : j <> i -> ext_add i d ext j = ext j.
Proof. intros. unfold ext_add. by rewrite decide_False. Qed.

(** The ghost counts matter pointwise only. *)
#[global] Instance ob_inv_proper s : Proper (pointwise_relation nat eq ==> impl) (ob_inv s).
Proof.
  intros e e' E I. constructor; try apply I.
  - intros i o L. rewrite <- E. by apply (oi_count _ _ I).
  - intros i. rewrite <- E. apply I.
  - intros i Hi. rewrite <- E in Hi. by apply (oi_dead _ _ I).
Qed.

Lemma inv_ext_eq s e e' : (forall i, e i = e' i) -> ob_inv s e -> ob_inv s e'.
Proof. apply ob_inv_proper. Qed.

Lemma ext_add_add_opp i d ext j : ext_add i (- d) (ext_add i d ext) j = ext j.
Proof. unfold ext_add. destruct (decide (j = i)); lia. Qed.

(** [ObpFindHandleEntry] finds the handle's entry, or there is none. *)
Lemma find_handle_some s ext h k e :
  ob_inv s ext -> handle_at s k e -> HandleValue e = h ->
  ObpFindHandleEntry true h true s = Ret (KSTATUS_SUCCESS, Some k) s.
Proof.
  intros I [Hk Hu] Hv. unfold ObpFindHandleEntry. cbn [negb orb].
  destruct (find_first_complete
    (fun e => HandleInUse e && (HandleValue e =? h)) (entries s) k e) as (j & Hj & _);
    [done|rewrite Hu, Hv, Z.eqb_refl; done|].
  rewrite Hj. apply find_first_Some in Hj as [(e' & He' & Hb) _].
  apply andb_true_iff in Hb as [Hu' Hv']. apply Z.eqb_eq in Hv'.
  by rewrite (oi_unique _ _ I j k e' e) by (done || by subst).
Qed.

Lemma find_handle_none s h :
  (forall k e, handle_at s k e -> HandleValue e <> h) ->
  ObpFindHandleEntry true h true s = Ret (KSTATUS_NOT_FOUND, None) s.
Proof.
  intros H. unfold ObpFindHandleEntry. cbn [negb orb].
  destruct (find_first _ _) as [j|] eqn:Hj; [|done].
  exfalso. apply find_first_Some in Hj as [(e & He & Hb) _].
  apply andb_true_iff in Hb as [Hu Hv]. apply Z.eqb_eq in Hv. by apply (H j e).
Qed.

(** Either a handle is in the table or it is not. *)
Lemma handle_dec s h :
  (exists k e, handle_at s k e /\ HandleValue e = h) \/
  (forall k e, handle_at s k e -> HandleValue e <> h).
Proof.
  destruct (find_first (fun e => HandleInUse e && (HandleValue e =? h)) (entries s)) as [j|] eqn:Hj.
  - left. apply find_first_Some in Hj as [(e & He & Hb) _].
    apply andb_true_iff in Hb as [Hu Hv]. apply Z.eqb_eq in Hv. by exists j, e.
  - right. intros k e [Hk Hu] Hv. rewrite find_first_None in Hj.
    assert (HandleInUse e && (HandleValue e =? h) = false) as E
      by (apply Hj; by eapply list_elem_of_lookup_2).
    rewrite Hu, Hv, Z.eqb_refl in E. done.
Qed.

(** ** How the primitive updates act on the invariant *)

Lemma live_put_object s i o j x :
  live s i o -> forall o', live (put_object i o' s) j x <->
    (j = i /\ x = o') \/ (j <> i /\ live s j x).
Proof.
  intros [Hu Hp] o'. unfold live, put_object, set_objects. simpl.
  pose proof (lookup_lt_Some _ _ _ Hp) as Hl.
  destruct (decide (j = i)) as [->|N].
  - rewrite list_lookup_insert_eq by done. naive_solver.
  - rewrite list_lookup_insert_ne by done. naive_solver.
Qed.

Lemma inv_ref_update s ext i o d :
  ob_inv s ext -> live s i o -> 0 <= ext i + d -> 0 < RefCount o + d < 4294967296 ->
  ob_inv (put_object i (set_RefCount o (RefCount o + d)) s) (ext_add i d ext).
Proof.
  intros I L E R. pose proof (live_put_object s i o) as LP.
  constructor; try apply I; simpl.
  - rewrite length_insert. apply I.
  - intros k e Hk. destruct (oi_handle _ _ I k e Hk) as (Hv & j & x & Ho & Lx & G).
    split; [done|]. destruct (decide (j = i)) as [->|N].
    + exists i, (set_RefCount o (RefCount o + d)). rewrite LP by done.
      rewrite (live_det _ _ _ _ L Lx). auto.
    + exists j, x. rewrite LP by done. auto.
  - intros j x [[-> ->]|[N Lx]]%LP; [|by rewrite ext_add_ne; [apply (oi_count _ _ I)|] | done].
    rewrite ext_add_eq. simpl. pose proof (oi_count _ _ I i o L). lia.
  - intros j. destruct (decide (j = i)) as [->|]; [rewrite ext_add_eq; lia|].
    rewrite ext_add_ne by done. apply I.
  - intros j Hj. destruct (decide (j = i)) as [->|N].
    + eexists. apply LP; auto.
    + rewrite ext_add_ne in Hj by done. destruct (oi_dead _ _ I j Hj) as [x Lx].
      exists x. apply LP; auto.
  - intros j x [[-> ->]|[N Lx]]%LP; [apply (oi_types _ _ I i o L)|by apply (oi_types _ _ I j)|done].
  - intros j x [[-> ->]|[N Lx]]%LP; [apply (oi_ids _ _ I i o L)|by apply (oi_ids _ _ I j)|done].
  - intros j j' x x' [[-> ->]|[N Lx]]%LP [[-> ->]|[N' Lx']]%LP Hid; try done;
      [apply (oi_idu _ _ I i j' o x')|apply (oi_idu _ _ I j i x o)|apply (oi_idu _ _ I j j' x x')]; done.
Qed.

(** Writing entry [k] of the table: what is at [k] and what is elsewhere. *)
Lemma handle_at_put_entry s k e0 e' next k' e :
  entries s !! k = Some e0 ->
  handle_at (put_entry k e' next s) k' e <->
    (k' = k /\ e = e' /\ HandleInUse e = true) \/ (k' <> k /\ handle_at s k' e).
Proof.
  intros H. unfold handle_at, put_entry, set_table. simpl.
  pose proof (lookup_lt_Some _ _ _ H) as Hl.
  destruct (decide (k' = k)) as [->|N].
  - rewrite list_lookup_insert_eq by done. naive_solver.
  - rewrite list_lookup_insert_ne by done. naive_solver.
Qed.

(** One outside reference becomes a handle. *)
Lemma inv_put_handle s ext i o k e0 g :
  ob_inv s ext -> live s i o -> entries s !! k = Some e0 -> HandleInUse e0 = false ->
  all_flags (DefaultAccessMask o) g = true -> 0 < ext i -> next_handle s + 4 < 4294967296 ->
  ob_inv (put_entry k {| HandleValue := next_handle s; HandleObject := Some i;
                         GrantedAccess := g; HandleInUse := true |} (next_handle s + 4) s)
         (ext_add i (-1) ext).
Proof.
  intros I L Hk Hu G E N. pose proof (oi_next _ _ I) as HN.
  set (e' := {| HandleValue := _ |}).
  pose proof (fun k' e => handle_at_put_entry s k e0 e' (next_handle s + 4) k' e Hk) as HP.
  assert (forall j, refs j (<[k:=e']> (entries s)) = refs j (entries s) + ref1 j e') as HR.
  { intros j. rewrite (refs_insert _ _ _ _ e' Hk), (ref1_not_in_use j e0) by done. lia. }
  constructor; try apply I; simpl.
  - rewrite length_insert. apply I.
  - lia.
  - intros k' e [(-> & -> & _)|(_ & Hk')]%HP.
    + simpl. split; [lia|]. by exists i, o.
    + destruct (oi_handle _ _ I k' e Hk') as [? ?]. split; [lia|done].
  - intros k1 k2 e1 e2 [(-> & -> & _)|(_ & H1)]%HP [(-> & -> & _)|(_ & H2)]%HP Hv; try done.
    + destruct (oi_handle _ _ I k2 e2 H2) as [? _]. simpl in Hv. lia.
    + destruct (oi_handle _ _ I k1 e1 H1) as [? _]. simpl in Hv. lia.
    + by apply (oi_unique _ _ I k1 k2 e1 e2).
  - intros j x Lx. pose proof (oi_count _ _ I j x Lx). rewrite HR.
    destruct (decide (j = i)) as [->|Nj].
    + rewrite ext_add_eq, (ref1_eq i) by done. lia.
    + rewrite ext_add_ne, (ref1_ne i j) by done. lia.
  - intros j. destruct (decide (j = i)) as [->|]; [rewrite ext_add_eq; lia|].
    rewrite ext_add_ne by done. apply I.
  - intros j Hj. apply (oi_dead _ _ I). destruct (decide (j = i)) as [->|]; [lia|].
    by rewrite ext_add_ne in Hj.
Qed.

(** A handle becomes one outside reference. *)
Lemma inv_clear_handle s ext i k e :
  ob_inv s ext -> handle_at s k e -> HandleObject e = Some i ->
  ob_inv (put_entry k empty_entry (next_handle s) s) (ext_add i 1 ext).
Proof.
  intros I Hk Ho.
  destruct (oi_handle _ _ I k e Hk) as (_ & i' & o & Ho' & L & _).
  assert (i' = i) as -> by congruence.
  pose proof (fun k' e' => handle_at_put_entry s k e empty_entry (next_handle s) k' e' (proj1 Hk)) as HP.
  assert (forall j, refs j (<[k:=empty_entry]> (entries s)) = refs j (entries s) - ref1 j e) as HR.
  { intros j. rewrite (refs_insert _ _ _ _ _ (proj1 Hk)), (ref1_not_in_use j empty_entry) by done. lia. }
  constructor; try apply I; simpl.
  - rewrite length_insert. apply I.
  - intros k' e' [(-> & -> & ?)|(_ & Hk')]%HP; [done|]. apply (oi_handle _ _ I k' e' Hk').
  - intros k1 k2 e1 e2 [(-> & -> & ?)|(_ & H1)]%HP [(-> & -> & ?)|(_ & H2)]%HP; try done.
    by apply (oi_unique _ _ I).
  - intros j x Lx. pose proof (oi_count _ _ I j x Lx). rewrite HR.
    destruct (decide (j = i)) as [->|Nj].
    + rewrite ext_add_eq, (ref1_eq i) by (apply Hk || done). lia.
    + rewrite ext_add_ne, (ref1_ne i j) by done. lia.
  - intros j. pose proof (oi_ext _ _ I j). destruct (decide (j = i)) as [->|];
      [rewrite ext_add_eq; lia|]. by rewrite ext_add_ne.
  - intros j Hj. destruct (decide (j = i)) as [->|]; [by exists o|].
    apply (oi_dead _ _ I). by rewrite ext_add_ne in Hj.
Qed.

(** The last outside reference goes and the slot is freed. *)
Lemma inv_free s ext i o :
  ob_inv s ext -> live s i o -> RefCount o = 1 -> 0 < ext i ->
  let s' := free_object i (put_object i (set_RefCount o (RefCount o - 1)) s) in
  ob_inv s' (ext_add i (-1) ext) /\ (forall j x, live s' j x <-> j <> i /\ live s j x) /\
  entries s' = entries s.
Proof.
  intros I L R E s'. pose proof L as [Hu Hp]. pose proof (lookup_lt_Some _ _ _ Hp) as Hl.
  assert (Hlu : (i < length (gObObjectInUse s))%nat) by by eapply lookup_lt_Some.
  assert (exists o', s' = set_objects s (<[i := o']> (gObObjectPool s))
                                        (<[i := false]> (gObObjectInUse s))) as [o' Es].
  { unfold s', free_object. simpl. rewrite list_lookup_insert_eq by done.
    eexists. unfold set_objects, put_object. simpl. by rewrite list_insert_insert_eq. }
  assert (LP : forall j x, live s' j x <-> j <> i /\ live s j x).
  { intros j x. rewrite Es. unfold live, set_objects. simpl.
    destruct (decide (j = i)) as [->|N].
    - rewrite !list_lookup_insert_eq by done. naive_solver.
    - rewrite !list_lookup_insert_ne by done. naive_solver. }
  assert (En : entries s' = entries s) by (by rewrite Es).
  assert (refs i (entries s) = 0 /\ ext i = 1) as [R0 E1].
  { pose proof (oi_count _ _ I i o L). pose proof (refs_range i (entries s)). lia. }
  assert (HH : forall k e, handle_at s' k e <-> handle_at s k e).
  { intros k e. unfold handle_at. by rewrite En. }
  assert (Nx : next_handle s' = next_handle s) by (by rewrite Es).
  split; [|split; [done|done]].
  constructor; rewrite ?En, ?Nx; try (rewrite Es; simpl; rewrite ?length_insert; apply I); try apply I.
  - intros k e Hk%HH. destruct (oi_handle _ _ I k e Hk) as (Hv & j & x & Ho & Lx & G).
    split; [done|]. exists j, x. split; [done|]. split; [|done]. apply LP. split; [|done].
    intros ->. pose proof (refs_elem i _ _ _ (proj1 Hk)) as H1.
    rewrite (ref1_eq i e) in H1; [lia|apply Hk|done].
  - intros j x [N Lx]%LP. rewrite ext_add_ne by done. by apply (oi_count _ _ I).
  - intros j. destruct (decide (j = i)) as [->|]; [rewrite ext_add_eq; lia|].
    rewrite ext_add_ne by done. apply I.
  - intros j Hj. destruct (decide (j = i)) as [->|N]; [rewrite ext_add_eq in Hj; lia|].
    rewrite ext_add_ne in Hj by done. destruct (oi_dead _ _ I j Hj) as [x Lx].
    exists x. by apply LP.
  - intros j x [_ Lx]%LP. by apply (oi_types _ _ I j x).
  - intros j x [_ Lx]%LP. rewrite Es. simpl. by apply (oi_ids _ _ I j x).
  - intros j j' x x' [_ H1]%LP [_ H2]%LP. by apply (oi_idu _ _ I).
Qed.

(** ** The operations *)

Lemma ObpCopyName_ok D n src : 1 <= n -> (ObpCopyName D n (Some src)).1 = KSTATUS_SUCCESS.
Proof.
  intros Hn. unfold ObpCopyName. destruct (Z.ltb_spec n 1); [lia|].
  by destruct (copy_chars _ _ _ _) as [D' []].
Qed.

Lemma zero_table_entry k e : Entries ObpZeroHandleTable !! k = Some e -> HandleInUse e = false.
Proof. unfold ObpZeroHandleTable. cbn [Entries]. intros H. by apply lookup_replicate in H as [-> _]. Qed.

Lemma inv_initialize s :
  gObReady s = false -> length (gObTypePool s) = 256%nat -> length (gObObjectPool s) = 256%nat ->
  exists s', ObInitialize s = Ret KSTATUS_SUCCESS s' /\ ob_inv s' (fun _ => 0).
Proof.
  intros R Ht Ho. unfold ObInitialize. rewrite R. eexists. split; [reflexivity|].
  match goal with |- ob_inv ?x _ => set (s' := x) end.
  assert (D : forall i o, ~ live s' i o).
  { intros i o [H _]. unfold s' in H. cbn [gObObjectInUse] in H.
    apply lookup_replicate in H as [? _]. done. }
  assert (HD : forall k e, ~ handle_at s' k e).
  { intros k e [H Hu]. unfold s' in H. cbn [gObKernelHandleTable] in H.
    apply zero_table_entry in H. congruence. }
  constructor; try done; try (intros; exfalso; by eapply D); try (intros; exfalso; by eapply HD).
Qed.

Lemma inv_create_type s ext n r out x s' :
  ob_inv s ext -> ObCreateType n r out s = Ret x s' -> ob_inv s' ext.
Proof.
  intros I H. unfold ObCreateType in H.
  destruct n as [nm|]; [|by injection H as <- <-].
  rewrite (oi_ready _ _ I) in H. destruct out; cbn [negb orb] in H; [|by injection H as <- <-].
  destruct (find_first negb (gObTypeInUse s)) as [i|]; [|by injection H as <- <-].
  unfold bind, load_at, deref in H. destruct (gObTypePool s !! i) as [t|]; [|done]. simpl in H.
  pose proof (ObpCopyName_ok (TypeName t) (OB_MAX_TYPE_NAME + 1) nm ltac:(done)) as HS.
  destruct (ObpCopyName _ _ _) as [st nm']. simpl in HS. rewrite HS in H. injection H as <- <-.
  constructor; try apply I; simpl; rewrite length_insert; apply I.
Qed.

Lemma inv_create_object s ext t n m f out st h s' :
  ob_inv s ext -> (t < 256)%nat -> gObNextObjectId s + 1 < 2 ^ 64 -> 0 <= gObNextObjectId s ->
  ObCreateObject (Some t) n m f out s = Ret (st, h) s' ->
  match h with
  | Some i => st = KSTATUS_SUCCESS /\ (forall o, ~ live s i o) /\
      (exists o, live s' i o /\ RefCount o = 1 /\ DefaultAccessMask o = m /\
                 ObjectType o = Some t /\ ObjectId o = gObNextObjectId s) /\
      ob_inv s' (ext_add i 1 ext)
  | None => st <> KSTATUS_SUCCESS /\ s' = s
  end.
Proof.
  intros I Ht Hid H0 H. unfold ObCreateObject in H.
  destruct n as [nm|]; [|by injection H as <- <- <-].
  rewrite (oi_ready _ _ I) in H. destruct out; cbn [negb orb] in H; [|by injection H as <- <- <-].
  destruct (find_first negb (gObObjectInUse s)) as [i|] eqn:F; [|by injection H as <- <- <-].
  apply find_first_Some in F as [(b & Hb & Eb) _]. destruct b; [done|]. clear Eb.
  unfold bind, load_at, deref in H. destruct (gObObjectPool s !! i) as [o|] eqn:Ho; [|done].
  simpl in H.
  pose proof (ObpCopyName_ok (ObjectName o) (OB_MAX_OBJECT_NAME + 1) nm ltac:(done)) as HS.
  destruct (ObpCopyName _ _ _) as [st' nm']. simpl in HS. subst st'. simpl in H.
  injection H as <- <- <-.
  rewrite u64_small by lia.
  match goal with |- context [set_objects _ (<[i := ?x]> _)] => set (o' := x) end.
  match goal with |- context [ob_inv ?x _] => set (s' := x) end.
  assert (LP : forall j x, live s' j x <-> (j = i /\ x = o') \/ (j <> i /\ live s j x)).
  { intros j x. unfold live, s'. simpl. destruct (decide (j = i)) as [->|N].
    - rewrite !list_lookup_insert_eq by (by eapply lookup_lt_Some). naive_solver.
    - rewrite !list_lookup_insert_ne by done. naive_solver. }
  assert (D : forall x, ~ live s i x) by (intros x [? _]; congruence).
  split; [done|]. split; [done|]. split; [exists o'; split; [apply LP; auto|done]|].
  assert (R0 : refs i (entries s) = 0) by (by eapply inv_refs_dead).
  assert (E0 : ext i = 0).
  { pose proof (oi_ext _ _ I i). destruct (decide (0 < ext i)) as [Hp|]; [|lia].
    exfalso. destruct (oi_dead _ _ I i Hp) as [x Hx]. by apply (D x). }
  constructor; try apply I; try (simpl; rewrite length_insert; apply I).
  - intros k e Hk. destruct (oi_handle _ _ I k e Hk) as (Hv & j & x & Hj & Lx & G).
    split; [done|]. exists j, x. split; [done|]. split; [|done]. apply LP. right.
    split; [|done]. intros ->. by apply (D x).
  - intros j x [[-> ->]|[N Lx]]%LP.
    + change (entries s') with (entries s). rewrite ext_add_eq, R0, E0. simpl. lia.
    + rewrite ext_add_ne by done. by apply (oi_count _ _ I).
  - intros j. pose proof (oi_ext _ _ I j). destruct (decide (j = i)) as [->|];
      [rewrite ext_add_eq; lia|]. by rewrite ext_add_ne.
  - intros j Hj. destruct (decide (j = i)) as [->|N]; [exists o'; apply LP; auto|].
    rewrite ext_add_ne in Hj by done. destruct (oi_dead _ _ I j Hj) as [x Lx].
    exists x. apply LP. auto.
  - intros j x [[-> ->]|[N Lx]]%LP; [by exists t|by apply (oi_types _ _ I j x)].
  - intros j x [[-> ->]|[N Lx]]%LP; simpl; [lia|].
    pose proof (oi_ids _ _ I j x Lx). lia.
  - intros j j' x x' [[-> ->]|[N Lx]]%LP [[-> ->]|[N' Lx']]%LP Hid'; try done.
    + pose proof (oi_ids _ _ I j' x' Lx'). simpl in Hid'. lia.
    + pose proof (oi_ids _ _ I j x Lx). simpl in Hid'. lia.
    + by apply (oi_idu _ _ I j j' x x').
Qed.

(** The table has an entry for one more handle. *)
Definition table_room (s : ob_state) : Prop :=
  exists k e, entries s !! k = Some e /\ HandleInUse e = false.

(** A grant of rights an object allows, by a holder of a reference: a fresh
    handle, or the table is full. *)
Lemma inv_insert s ext i o g :
  ob_inv s ext -> live s i o -> 0 < ext i -> RefCount o + 1 < 4294967296 ->
  next_handle s + 4 < 4294967296 -> Z.land g (DefaultAccessMask o) = g -> table_room s ->
  exists s' k, ObInsertHandle true (Some i) g true s = Ret (KSTATUS_SUCCESS, Some (next_handle s)) s' /\
    ob_inv s' ext /\
    handle_at s' k {| HandleValue := next_handle s; HandleObject := Some i;
                      GrantedAccess := g; HandleInUse := true |} /\
    live s' i (set_RefCount o (RefCount o + 1)) /\
    (forall k' e, handle_at s k' e -> handle_at s' k' e) /\
    (forall j x, j <> i -> live s' j x <-> live s j x).
Proof.
  intros I L E R N G (k0 & e0 & Hk0 & Hu0).
  destruct (find_first_complete (fun e => negb (HandleInUse e)) (entries s) k0 e0 Hk0)
    as (k & Hf & _); [by rewrite Hu0|].
  pose proof (find_first_Some _ _ _ Hf) as [(e & Hk & Hu) _]. apply negb_true_iff in Hu.
  unfold ObInsertHandle. rewrite (oi_ready _ _ I). cbn [negb orb].
  unfold bind. rewrite (load_at_ok _ _ _ _ (proj2 L)), G, Z.eqb_refl. cbn [negb].
  rewrite Hf. unfold modify, ret.
  pose proof (oi_next _ _ I). pose proof (oi_count _ _ I i o L).
  rewrite !u32_small by lia.
  pose proof (inv_ref_update s ext i o 1 I L ltac:(lia) ltac:(lia)) as I1.
  pose proof (live_put_object s i o) as LP.
  do 2 eexists. split; [reflexivity|].
  match goal with |- ob_inv ?x _ /\ _ => set (s' := x) end.
  assert (Es : s' = put_entry k {| HandleValue := next_handle s; HandleObject := Some i;
     GrantedAccess := g; HandleInUse := true |} (next_handle s + 4)
     (put_object i (set_RefCount o (RefCount o + 1)) s)) by reflexivity.
  assert (HL : forall j x, live s' j x <-> live (put_object i (set_RefCount o (RefCount o + 1)) s) j x)
    by (intros; by rewrite Es).
  split_and!.
  - rewrite Es. set (s1 := put_object _ _ s) in *.
    pose proof (inv_put_handle s1 (ext_add i 1 ext) i (set_RefCount o (RefCount o + 1)) k e g) as P.
    assert (I2 : ob_inv (put_entry k {| HandleValue := next_handle s; HandleObject := Some i;
       GrantedAccess := g; HandleInUse := true |} (next_handle s + 4) s1)
       (ext_add i (-1) (ext_add i 1 ext))).
    { apply P; try done; [apply LP; auto| |rewrite ext_add_eq; lia].
      unfold all_flags. simpl. rewrite Z.land_comm. lia. }
    apply (inv_ext_eq _ _ _ (ext_add_add_opp i 1 ext) I2).
  - rewrite Es. apply (handle_at_put_entry s k e); auto.
  - apply HL, LP; auto.
  - intros k' e' Hk'. rewrite Es. rewrite (handle_at_put_entry (put_object _ _ s) k e) by done.
    right. split; [|done]. intros ->. destruct Hk'. congruence.
  - intros j x Nj. rewrite HL, LP by done. naive_solver.
Qed.

(** Opening a handle: every outcome under the invariant. *)
Lemma reference_spec s ext h d ty k e :
  ob_inv s ext -> handle_at s k e -> HandleValue e = h ->
  exists i o, HandleObject e = Some i /\ live s i o /\
  (all_flags (GrantedAccess e) d = false ->
     ObReferenceObjectByHandle true h d ty true s = Ret (KSTATUS_ACCESS_DENIED, None) s) /\
  (all_flags (GrantedAccess e) d = true -> ty <> None -> ty <> ObjectType o ->
     ObReferenceObjectByHandle true h d ty true s = Ret (KSTATUS_NOT_FOUND, None) s) /\
  (all_flags (GrantedAccess e) d = true -> ty = None \/ ty = ObjectType o ->
     RefCount o + 1 < 4294967296 ->
     ObReferenceObjectByHandle true h d ty true s
     = Ret (KSTATUS_SUCCESS, Some i) (put_object i (set_RefCount o (RefCount o + 1)) s)).
Proof.
  intros I Hk Hv. destruct (oi_handle _ _ I k e Hk) as (Hr & i & o & Ho & L & G).
  exists i, o. split; [done|]. split; [done|].
  assert (Hh : (h =? 0) = false) by (apply Z.eqb_neq; lia).
  assert (Pre : forall x,
    (all_flags (GrantedAccess e) d = false -> x = Ret (KSTATUS_ACCESS_DENIED, None) s) ->
    (all_flags (GrantedAccess e) d = true ->
      x = (if match ty with Some _ => negb (bool_decide (ObjectType o = ty)) | None => false end
           then Ret (KSTATUS_NOT_FOUND, None) s
           else Ret (KSTATUS_SUCCESS, Some i) (put_object i (set_RefCount o (u32 (RefCount o + 1))) s))) ->
    ObReferenceObjectByHandle true h d ty true s = x).
  { intros x HD HG. unfold ObReferenceObjectByHandle.
    rewrite (oi_ready _ _ I), Hh. cbn [negb orb]. unfold bind.
    rewrite (find_handle_some s ext h k e I Hk Hv). cbn [ok negb deref ret].
    change (ok KSTATUS_SUCCESS) with true. cbn [negb].
    rewrite (load_at_ok _ _ _ _ (proj1 Hk)).
    destruct (all_flags (GrantedAccess e) d); cbn [negb]; [|by rewrite HD].
    rewrite Ho. cbn [deref ret]. rewrite (load_at_ok _ _ _ _ (proj2 L)), HG by done.
    by destruct (match ty with Some _ => _ | None => _ end). }
  split; [|split].
  - intros D. apply Pre; [done|congruence].
  - intros A T1 T2. apply Pre; [congruence|]. intros _.
    destruct ty; [|done]. by rewrite bool_decide_eq_false_2 by congruence.
  - intros A T R. apply Pre; [congruence|]. intros _.
    pose proof (oi_count _ _ I i o L). rewrite u32_small by lia.
    destruct T as [->| ->]; [done|]. rewrite bool_decide_eq_true_2 by done.
    by destruct (ObjectType o).
Qed.

Lemma reference_none s ext h d ty :
  ob_inv s ext -> h <> 0 -> (forall k e, handle_at s k e -> HandleValue e <> h) ->
  ObReferenceObjectByHandle true h d ty true s = Ret (KSTATUS_NOT_FOUND, None) s.
Proof.
  intros I Hh N. unfold ObReferenceObjectByHandle.
  rewrite (oi_ready _ _ I). destruct (Z.eqb_spec h 0); [done|]. cbn [negb orb].
  unfold bind. by rewrite (find_handle_none s h N).
Qed.

(** ** Dereferencing and closing, against the interface *)

(** What releasing one reference does to the object manager. *)
Definition released (i : nat) (o : OB_OBJECT_HEADER) (s : ob_state) : ob_state :=
  let s1 := put_object i (set_RefCount o (RefCount o - 1)) s in
  if RefCount o =? 1 then free_object i s1 else s1.

(** The last release frees the object; any other one only counts down. *)
Lemma released_spec s ext i o :
  ob_inv s ext -> live s i o -> 0 < ext i ->
  ob_inv (released i o s) (ext_add i (-1) ext) /\
  (forall k e, handle_at (released i o s) k e <-> handle_at s k e) /\
  (forall j x, j <> i -> live (released i o s) j x <-> live s j x) /\
  (RefCount o = 1 -> forall x, ~ live (released i o s) i x) /\
  (RefCount o <> 1 -> live (released i o s) i (set_RefCount o (RefCount o - 1))).
Proof.
  intros I L E. unfold released. pose proof (oi_count _ _ I i o L).
  pose proof (refs_range i (entries s)). pose proof (live_put_object s i o) as LP.
  destruct (Z.eqb_spec (RefCount o) 1) as [R|R].
  - destruct (inv_free _ ext i o I L R E) as (I' & LF & EF). split_and!; [done| | | |done].
    + intros k e. unfold handle_at. by rewrite EF.
    + intros j x N. rewrite LF. naive_solver.
    + intros _ x Lx. by apply LF in Lx as [? _].
  - split_and!; [|done| |done|].
    + apply inv_ref_update; [done|done|lia|lia].
    + intros j x N. rewrite LP by done. naive_solver.
    + intros _. apply LP; auto.
Qed.

Lemma released_put_entry i o k e n s :
  put_entry k e n (released i o s) = released i o (put_entry k e n s).
Proof.
  unfold released, free_object. destruct (RefCount o =? 1); [|done]. simpl.
  by destruct (<[i:=_]> (gObObjectPool s) !! i).
Qed.

Lemma released_next_handle i o s : next_handle (released i o s) = next_handle s.
Proof.
  unfold released, free_object. destruct (RefCount o =? 1); [|done]. simpl.
  by destruct (<[i:=_]> (gObObjectPool s) !! i).
Qed.

Section World.
Context {W : Type} `{ObWorldLaws W}.

Lemma ob_Ret_inv {A} (m : M ob_state A) w a w' :
  ob m w = Ret a w' -> m (ob_get w) = Ret a (ob_get w').
Proof.
  unfold ob. intros E. apply zoom_Ret_inv in E as (s & E & ->). by rewrite ob_get_put.
Qed.

Lemma call_delete_ob i o w w' :
  call_delete_routine i o w = Ret tt w' -> ob_get w' = ob_get w.
Proof.
  unfold call_delete_routine. destruct (ObjectType o) as [t|]; [|by intros [= <-]].
  intros E. apply bind_Ret_inv in E as (ty & w1 & E1 & E2). apply ob_Ret_inv in E1.
  unfold load_at, deref in E1. destruct (_ !! t); [|done]. injection E1 as <- E1.
  destruct (DeleteRoutine _) as [r|]; [|by injection E2 as <-].
  apply run_delete_ob in E2. congruence.
Qed.

Lemma dereference_effect w w' st i o :
  gObReady (ob_get w) = true -> gObObjectPool (ob_get w) !! i = Some o ->
  0 < RefCount o -> (i < 256)%nat ->
  ObDereferenceObject (Some i) w = Ret st w' ->
  st = KSTATUS_SUCCESS /\ ob_get w' = released i o (ob_get w).
Proof.
  intros R L C Hl D. unfold ObDereferenceObject in D.
  unfold gets in D. apply bind_Ret_inv in D as (s & w1 & [= <- <-] & D).
  rewrite R in D. cbn [negb] in D. unfold bind at 1 in D. rewrite L in D. cbn [deref ret] in D.
  destruct (Z.eqb_spec (RefCount o) 0); [lia|].
  apply bind_Ret_inv in D as ([] & w1 & D1 & D). apply ob_Ret_inv in D1. injection D1 as D1.
  unfold released.
  destruct (Z.eqb_spec (RefCount o - 1) 0) as [Z1|Z1], (Z.eqb_spec (RefCount o) 1);
    try lia; cbn [negb] in D; [|by injection D as <- <-].
  apply bind_Ret_inv in D as ([] & w2 & D2 & D). apply call_delete_ob in D2.
  destruct (Z.ltb_spec (Z.of_nat i) OB_MAX_OBJECTS); [|unfold OB_MAX_OBJECTS in *; lia].
  apply bind_Ret_inv in D as ([] & w3 & D3 & [= <- <-]).
  apply ob_Ret_inv in D3. injection D3 as D3. split; [done|]. by rewrite <- D3, D2, <- D1.
Qed.

Lemma dereference_live w w' st ext i o :
  ob_inv (ob_get w) ext -> live (ob_get w) i o ->
  ObDereferenceObject (Some i) w = Ret st w' ->
  st = KSTATUS_SUCCESS /\ ob_get w' = released i o (ob_get w).
Proof.
  intros I L. pose proof (oi_count _ _ I i o L).
  apply dereference_effect; [apply I|apply L|lia|].
  rewrite <- (oi_opool _ _ I). eapply lookup_lt_Some, L.
Qed.

Lemma close_effect w w' st ext k e i o :
  ob_inv (ob_get w) ext -> handle_at (ob_get w) k e -> HandleObject e = Some i ->
  live (ob_get w) i o ->
  ObCloseHandle true (HandleValue e) w = Ret st w' ->
  st = KSTATUS_SUCCESS /\
  ob_get w' = released i o (put_entry k empty_entry (next_handle (ob_get w)) (ob_get w)).
Proof.
  intros I Hk Ho L D. destruct (oi_handle _ _ I k e Hk) as [Hv _].
  unfold ObCloseHandle, gets in D. apply bind_Ret_inv in D as (s & w1 & [= <- <-] & D).
  rewrite (oi_ready _ _ I) in D. destruct (Z.eqb_spec (HandleValue e) 0); [lia|].
  cbn [negb orb] in D.
  apply bind_Ret_inv in D as ([Status Entry] & w1 & D1 & D). apply ob_Ret_inv in D1.
  rewrite (find_handle_some _ ext _ k e I Hk eq_refl) in D1. injection D1 as <- <- D1.
  change (ok KSTATUS_SUCCESS) with true in D. cbn [negb] in D.
  apply bind_Ret_inv in D as (? & ? & [= <- <-] & D).
  apply bind_Ret_inv in D as (e' & w2 & D2 & D). apply ob_Ret_inv in D2.
  rewrite <- D1 in D2. rewrite (load_at_ok _ _ _ _ (proj1 Hk)) in D2. injection D2 as <- D2.
  rewrite Ho in D. apply bind_Ret_inv in D as (st' & w3 & D3 & D). rewrite D2 in I, L.
  destruct (dereference_live _ _ _ _ _ _ I L D3) as [-> E3].
  apply bind_Ret_inv in D as ([] & w4 & D4 & [= <- <-]). apply ob_Ret_inv in D4.
  injection D4 as D4. split; [done|].
  by rewrite <- D4, E3, released_put_entry, released_next_handle, D2.
Qed.

Lemma close_spec w w' st ext k e i o :
  ob_inv (ob_get w) ext -> handle_at (ob_get w) k e -> HandleObject e = Some i ->
  live (ob_get w) i o ->
  ObCloseHandle true (HandleValue e) w = Ret st w' ->
  st = KSTATUS_SUCCESS /\ ob_inv (ob_get w') ext /\
  (forall k' e', handle_at (ob_get w') k' e' <-> k' <> k /\ handle_at (ob_get w) k' e') /\
  (forall j x, j <> i -> live (ob_get w') j x <-> live (ob_get w) j x) /\
  (RefCount o = 1 -> forall x, ~ live (ob_get w') i x) /\
  (RefCount o <> 1 -> live (ob_get w') i (set_RefCount o (RefCount o - 1))).
Proof.
  intros I Hk Ho L D. destruct (close_effect _ _ _ _ _ _ _ _ I Hk Ho L D) as [-> ->].
  pose proof (inv_clear_handle _ _ _ _ _ I Hk Ho) as I1.
  set (s := ob_get w) in *. set (s1 := put_entry k empty_entry (next_handle s) s) in *.
  assert (L1 : live s1 i o) by apply L.
  assert (P : 0 < ext_add i 1 ext i) by (rewrite ext_add_eq; pose proof (oi_ext _ _ I i); lia).
  destruct (released_spec _ _ _ _ I1 L1 P) as (I2 & H2 & LN & LF & LK).
  split_and!; [done| | |apply LN|apply LF|apply LK].
  - apply (inv_ext_eq _ _ _ (ext_add_add_opp i 1 ext) I2).
  - intros k' e'. rewrite H2. unfold s1. rewrite handle_at_put_entry by apply Hk.
    split; [intros [(_ & -> & ?)|?]; done|auto].
Qed.

(** Releasing and closing return, when the delete routine does. *)
Lemma dereference_total w i o :
  gObReady (ob_get w) = true -> gObObjectPool (ob_get w) !! i = Some o -> 0 < RefCount o ->
  (i < 256)%nat ->
  (RefCount o = 1 -> forall w1, exists w2, call_delete_routine i o w1 = Ret tt w2) ->
  exists w', ObDereferenceObject (Some i) w = Ret KSTATUS_SUCCESS w'.
Proof.
  intros R L C Hl T. unfold ObDereferenceObject, gets, bind at 1. rewrite R. cbn [negb].
  unfold bind at 1. rewrite L. cbn [deref ret].
  destruct (Z.eqb_spec (RefCount o) 0); [lia|].
  unfold bind, ob, zoom, modify.
  destruct (Z.eqb_spec (RefCount o - 1) 0); cbn [negb]; [|by eexists].
  destruct (T ltac:(lia) (ob_put (put_object i (set_RefCount o (RefCount o - 1)) (ob_get w)) w))
    as [w2 ->].
  destruct (Z.ltb_spec (Z.of_nat i) OB_MAX_OBJECTS); [|unfold OB_MAX_OBJECTS in *; lia].
  by eexists.
Qed.

Lemma close_total w ext k e i o :
  ob_inv (ob_get w) ext -> handle_at (ob_get w) k e -> HandleObject e = Some i ->
  live (ob_get w) i o ->
  (RefCount o = 1 -> forall w1, exists w2, call_delete_routine i o w1 = Ret tt w2) ->
  exists w', ObCloseHandle true (HandleValue e) w = Ret KSTATUS_SUCCESS w'.
Proof.
  intros I Hk Ho L T. destruct (oi_handle _ _ I k e Hk) as [Hv _].
  pose proof (oi_count _ _ I i o L).
  unfold ObCloseHandle, gets, bind at 1. rewrite (oi_ready _ _ I).
  destruct (Z.eqb_spec (HandleValue e) 0); [lia|]. cbn [negb orb].
  unfold bind at 1, ob at 1, zoom at 1.
  rewrite (find_handle_some _ ext _ k e I Hk eq_refl).
  change (ok KSTATUS_SUCCESS) with true. cbn [negb deref].
  unfold bind at 1, ret at 1. unfold bind at 1, ob at 1, zoom at 1. rewrite ob_get_put.
  rewrite (load_at_ok _ _ _ _ (proj1 Hk)), Ho.
  match goal with |- context [bind _ _ ?w2] => destruct (dereference_total w2 i o) as [w3 E3] end;
    rewrite ?ob_get_put; [apply I|apply L|lia| |done|].
  { rewrite <- (oi_opool _ _ I). eapply lookup_lt_Some, L. }
  unfold bind at 1. rewrite E3. by eexists.
Qed.

(** ** What clients may do

    [ext i] counts the references a client holds on object [i]: one from
    creating it, one from each successful open; a client inserts a handle for
    or releases an object only while it holds a reference.  The bounds on ids,
    handle values and counts say that the counters have not wrapped. *)

Inductive ob_step : W * (nat -> Z) -> W * (nat -> Z) -> Prop :=
| step_type w e n r out x w' :
    ob (ObCreateType n r out) w = Ret x w' -> ob_step (w, e) (w', e)
| step_create w e t n m f out st h w' :
    (t < 256)%nat -> 0 <= gObNextObjectId (ob_get w) -> gObNextObjectId (ob_get w) + 1 < 2 ^ 64 ->
    ob (ObCreateObject (Some t) n m f out) w = Ret (st, h) w' ->
    ob_step (w, e) (w', match h with Some i => ext_add i 1 e | None => e end)
| step_insert w e i o g st h w' :
    live (ob_get w) i o -> 0 < e i -> RefCount o + 1 < 2 ^ 32 ->
    next_handle (ob_get w) + 4 < 2 ^ 32 ->
    ob (ObInsertHandle true (Some i) g true) w = Ret (st, h) w' -> ob_step (w, e) (w', e)
| step_open w e h d ty st i w' :
    (forall i o, live (ob_get w) i o -> RefCount o + 1 < 2 ^ 32) ->
    ob (ObReferenceObjectByHandle true h d ty true) w = Ret (st, i) w' ->
    ob_step (w, e) (w', match i with Some i => ext_add i 1 e | None => e end)
| step_release w e i st w' :
    0 < e i -> ObDereferenceObject (Some i) w = Ret st w' ->
    ob_step (w, e) (w', ext_add i (-1) e)
| step_close w e h st w' :
    ObCloseHandle true h w = Ret st w' -> ob_step (w, e) (w', e)
| step_other w e w' :
    ob_get w' = ob_get w -> ob_step (w, e) (w', e).

Lemma ObInsertHandle_inv s ext i o g st h s' :
  ob_inv s ext -> live s i o -> 0 < ext i -> RefCount o + 1 < 2 ^ 32 ->
  next_handle s + 4 < 2 ^ 32 ->
  ObInsertHandle true (Some i) g true s = Ret (st, h) s' -> ob_inv s' ext.
Proof.
  intros I L E R N D.
  destruct (decide (Z.land g (DefaultAccessMask o) = g)) as [G|G].
  - destruct (find_first (fun e => negb (HandleInUse e)) (entries s)) as [k|] eqn:F.
    + assert (table_room s) as Room.
      { apply find_first_Some in F as [(e & Hk & Hu) _]. apply negb_true_iff in Hu. by exists k, e. }
      destruct (inv_insert s ext i o g I L E R N G Room) as (s'' & k' & D' & I' & _).
      rewrite D in D'. by injection D' as -> -> ->.
    + unfold ObInsertHandle in D. rewrite (oi_ready _ _ I) in D. cbn [negb orb] in D.
      unfold bind in D. rewrite (load_at_ok _ _ _ _ (proj2 L)), G, Z.eqb_refl, F in D.
      by injection D as <- <- <-.
  - unfold ObInsertHandle in D. rewrite (oi_ready _ _ I) in D. cbn [negb orb] in D.
    unfold bind in D. rewrite (load_at_ok _ _ _ _ (proj2 L)) in D.
    destruct (Z.eqb_spec (Z.land g (DefaultAccessMask o)) g); [done|]. cbn [negb] in D.
    by injection D as <- <- <-.
Qed.

Lemma ObReference_inv s ext h d ty st i s' :
  ob_inv s ext -> (forall i o, live s i o -> RefCount o + 1 < 2 ^ 32) ->
  ObReferenceObjectByHandle true h d ty true s = Ret (st, i) s' ->
  ob_inv s' (match i with Some i => ext_add i 1 ext | None => ext end).
Proof.
  intros I R D.
  destruct (Z.eqb_spec h 0) as [->|Hh].
  { unfold ObReferenceObjectByHandle in D. rewrite (oi_ready _ _ I) in D. by injection D as <- <- <-. }
  destruct (handle_dec s h) as [(k & e & Hk & Hv)|N].
  2: { rewrite (reference_none s ext h d ty I Hh N) in D. by injection D as <- <- <-. }
  destruct (reference_spec s ext h d ty k e I Hk Hv) as (j & o & Ho & L & A & B & C).
  destruct (all_flags (GrantedAccess e) d) eqn:G.
  2: { rewrite A in D by done. by injection D as <- <- <-. }
  destruct (decide (ty = None \/ ty = ObjectType o)) as [T|T].
  - rewrite C in D by (try done; apply (R j o L)). injection D as <- <- <-.
    pose proof (oi_ext _ _ I j). pose proof (oi_count _ _ I j o L). pose proof (R j o L).
    apply inv_ref_update; [done|done|lia|lia].
  - rewrite B in D by (try done; naive_solver). by injection D as <- <- <-.
Qed.

Lemma ObCloseHandle_inv w ext h st w' :
  ob_inv (ob_get w) ext -> ObCloseHandle true h w = Ret st w' -> ob_inv (ob_get w') ext.
Proof.
  intros I D. destruct (handle_dec (ob_get w) h) as [(k & e & Hk & <-)|N].
  - destruct (oi_handle _ _ I k e Hk) as (_ & i & o & Ho & L & _).
    by destruct (close_spec w w' st ext k e i o I Hk Ho L D) as (_ & I' & _).
  - unfold ObCloseHandle, gets in D. apply bind_Ret_inv in D as (s & w1 & [= <- <-] & D).
    rewrite (oi_ready _ _ I) in D. cbn [negb orb] in D.
    destruct (h =? 0); [by injection D as <- <-|].
    apply bind_Ret_inv in D as ([Status Entry] & w1 & D1 & D). apply ob_Ret_inv in D1.
    rewrite (find_handle_none _ h N) in D1. injection D1 as <- <- D1.
    injection D as <- <-. by rewrite <- D1.
Qed.

Lemma ob_step_inv w e w' e' :
  ob_step (w, e) (w', e') -> ob_inv (ob_get w) e -> ob_inv (ob_get w') e'.
Proof.
  intros St I. inversion St; subst; clear St.
  all: try match goal with D : ob _ _ = Ret _ _ |- _ => apply ob_Ret_inv in D end.
  - by eapply inv_create_type.
  - match goal with D : ObCreateObject _ _ _ _ _ _ = _ |- _ => eapply inv_create_object in D end;
      [|done..].
    destruct h as [i|]; [by destruct_and!|]. by destruct_and?; simplify_eq; congruence.
  - by eapply ObInsertHandle_inv.
  - by eapply ObReference_inv.
  - destruct (oi_dead _ _ I i) as [o L]; [done|].
    match goal with D : ObDereferenceObject _ _ = _ |- _ =>
      destruct (dereference_live _ _ _ _ _ _ I L D) as [_ ->] end.
    by apply released_spec.
  - by eapply ObCloseHandle_inv.
  - congruence.
Qed.

Lemma ob_steps_inv x y :
  rtc ob_step x y -> ob_inv (ob_get x.1) x.2 -> ob_inv (ob_get y.1) y.2.
Proof.
  intros St. induction St as [x|[w e] [w' e'] z S1 _ IH]; [done|].
  intros I. apply IH. by apply (ob_step_inv w e).
Qed.

End World.

(** ** The dumps print inside their buffers *)

Lemma lines_some l : Forall is_Some l -> is_Some (lines l).
Proof.
  induction 1 as [|x l [c ->] _ [l' IH]]; [by eexists|].
  change (lines (Some c :: l)) with (l' ← lines l; c ← Some c; Some (c :: l')).
  rewrite IH. by eexists.
Qed.

Lemma concat_lines_some l : Forall is_Some l -> is_Some (concat_lines l).
Proof.
  induction 1 as [|x l [c ->] _ [l' IH]]; [by eexists|].
  change (concat_lines (Some c :: l)) with (l' ← concat_lines l; c ← Some c; Some (c ++ l')).
  rewrite IH. by eexists.
Qed.

Lemma ob_line_some (p : String.string) v :
  is_cstr (str p) -> (length (str p) + 20 <= 128)%nat -> is_Some (ObpWriteHexLine (str p) v).
Proof. intros H1 H2. unfold ObpWriteHexLine. rewrite write_hex_line_fits by done. by eexists. Qed.

Create HintDb ob_dump discriminated.
#[local] Hint Extern 1 (is_Some (ObpWriteHexLine _ _)) =>
  apply ob_line_some; [repeat (constructor; try done)|vm_compute; lia] : ob_dump.
#[local] Hint Extern 1 (is_Some (Some _)) => eexists; reflexivity : ob_dump.

Lemma dump_object_some s ext i b :
  ob_inv s ext -> gObObjectInUse s !! i = Some b -> is_Some (dump_object s i b).
Proof.
  intros I Hb. unfold dump_object. destruct b; cbn [negb]; [|by eexists].
  destruct (gObObjectPool s !! i) as [o|] eqn:Ho.
  2: { apply lookup_ge_None in Ho. apply lookup_lt_Some in Hb.
       rewrite (oi_opool _ _ I), (oi_ouse _ _ I) in *. lia. }
  cbn [mbind option_bind]. destruct (oi_types _ _ I i o) as (t & Ht & Hl); [done|].
  assert (is_Some (type_name s o)) as T.
  { unfold type_name. rewrite Ht. apply fmap_is_Some, lookup_lt_is_Some.
    by rewrite (oi_tpool _ _ I). }
  apply lines_some. repeat (apply Forall_cons; split; [auto with ob_dump|]). by constructor.
Qed.

Lemma dump_handle_some s ext k e :
  ob_inv s ext -> entries s !! k = Some e -> is_Some (dump_handle s e).
Proof.
  intros I He. unfold dump_handle. destruct (HandleInUse e) eqn:U; cbn [negb]; [|by eexists].
  destruct (oi_handle _ _ I k e) as (_ & i & o & Ho & L & _); [done|].
  destruct (oi_types _ _ I i o L) as (t & Ht & Hl).
  assert (is_Some (type_name s o)) as T.
  { unfold type_name. rewrite Ht. apply fmap_is_Some, lookup_lt_is_Some.
    by rewrite (oi_tpool _ _ I). }
  rewrite Ho. destruct L as [_ L]. 
  match goal with |- context [lines ?l] => destruct (lines_some l) as [l1 ->] end.
  { repeat (apply Forall_cons; split; [auto with ob_dump|]). by constructor. }
  cbn [mbind option_bind]. rewrite L. cbn [mbind option_bind].
  match goal with |- context [lines ?l] => destruct (lines_some l) as [l2 ->] end.
  { repeat (apply Forall_cons; split; [auto with ob_dump|]). by constructor. }
  by eexists.
Qed.

(** ** Properties *)

Section Properties.
Context {W : Type} `{ObWorldLaws W}.

(** C7: in every state reachable from [ObInitialize] by type and object
    creation, handle insertion, opening, releasing and closing (with any type's
    delete routine running on the last release), every handle in use names an
    allocated object with rights within the object's default access mask, handle
    values are distinct, and the reference count of every object is exactly the
    number of its handles plus the references its clients still hold. *)
Theorem ob_reachable_inv w0 w1 w ext :
  gObReady (ob_get w0) = false ->
  length (gObTypePool (ob_get w0)) = 256%nat -> length (gObObjectPool (ob_get w0)) = 256%nat ->
  ob ObInitialize w0 = Ret KSTATUS_SUCCESS w1 ->
  rtc ob_step (w1, fun _ => 0) (w, ext) ->
  ob_inv (ob_get w) ext.
Proof.
  intros R Lt Lo D St. apply ob_Ret_inv in D.
  destruct (inv_initialize _ R Lt Lo) as (s' & D' & I). rewrite D in D'. injection D' as <-.
  exact (ob_steps_inv _ _ St I).
Qed.

(** C39: inserting a handle and opening it round-trips: with room in the table, a
    grant within the object's mask yields a fresh handle value; opening it gives
    the same object and one more reference exactly for rights within the grant
    and the right type, [ACCESS_DENIED] for other rights and [NOT_FOUND] for
    another type; the handles issued before are untouched. *)
Theorem ObInsertHandle_open s ext i o g :
  ob_inv s ext -> live s i o -> 0 < ext i -> RefCount o + 2 < 2 ^ 32 ->
  next_handle s + 4 < 2 ^ 32 -> Z.land g (DefaultAccessMask o) = g -> table_room s ->
  exists s' h, ObInsertHandle true (Some i) g true s = Ret (KSTATUS_SUCCESS, Some h) s' /\
    ob_inv s' ext /\
    (forall k e, handle_at s k e -> HandleValue e <> h /\ handle_at s' k e) /\
    (forall d ty, ObReferenceObjectByHandle true h d ty true s' =
       if negb (all_flags g d) then Ret (KSTATUS_ACCESS_DENIED, None) s'
       else if bool_decide (ty = None \/ ty = ObjectType o) then
         Ret (KSTATUS_SUCCESS, Some i) (put_object i (set_RefCount o (RefCount o + 2)) s')
       else Ret (KSTATUS_NOT_FOUND, None) s').
Proof.
  intros I L E R N G Room.
  destruct (inv_insert s ext i o g I L E ltac:(lia) N G Room)
    as (s' & k & D & I' & Hk & L' & HO & _).
  exists s', (next_handle s). split_and!; [done|done| |].
  - intros k' e' Hk'. destruct (oi_handle _ _ I k' e' Hk') as [? _]. split; [lia|by apply HO].
  - intros d ty.
    destruct (reference_spec s' ext (next_handle s) d ty k _ I' Hk eq_refl)
      as (i' & o' & [= <-] & L2 & A & B & C).
    rewrite (live_det _ _ _ _ L2 L') in *. cbn [GrantedAccess ObjectType RefCount set_RefCount] in *.
    destruct (all_flags g d); cbn [negb]; [|by rewrite A].
    case_bool_decide as T; [|rewrite B by (done || naive_solver); done].
    rewrite C by (done || lia). unfold set_RefCount. cbn. do 3 f_equal. lia.
Qed.

(** Closing a handle returns success (whenever the delete routine of the last
    release returns); the handle value is then refused for every request, every
    other handle still names the same live object, and the object goes back to
    the pool exactly when this was its last reference. *)
Theorem ObCloseHandle_closes w ext k e i o :
  ob_inv (ob_get w) ext -> handle_at (ob_get w) k e -> HandleObject e = Some i ->
  live (ob_get w) i o ->
  (RefCount o = 1 -> forall w1, exists w2, call_delete_routine i o w1 = Ret tt w2) ->
  exists w', ObCloseHandle true (HandleValue e) w = Ret KSTATUS_SUCCESS w' /\
    ob_inv (ob_get w') ext /\
    (forall d ty, ObReferenceObjectByHandle true (HandleValue e) d ty true (ob_get w')
       = Ret (KSTATUS_NOT_FOUND, None) (ob_get w')) /\
    (forall k' e' i' o', k' <> k -> handle_at (ob_get w) k' e' -> HandleObject e' = Some i' ->
       live (ob_get w) i' o' ->
       handle_at (ob_get w') k' e' /\ exists o'', live (ob_get w') i' o'' /\ ObjectId o'' = ObjectId o') /\
    ((exists o', live (ob_get w') i o') <-> RefCount o <> 1).
Proof.
  intros I Hk Ho L T. destruct (close_total w ext k e i o I Hk Ho L T) as [w' D].
  exists w'. split; [done|].
  destruct (close_spec _ _ _ _ _ _ _ _ I Hk Ho L D) as (_ & I' & HH & LN & LF & LK).
  destruct (oi_handle _ _ I k e Hk) as [Hv _].
  split_and!; [done| | |].
  - intros d ty. apply (reference_none _ ext); [done|lia|].
    intros k' e' [Nk Hk']%HH Hv'. apply Nk. by apply (oi_unique _ _ I k' k e' e).
  - intros k' e' i' o' Nk Hk' Ho' L'. split; [by apply HH|].
    destruct (decide (i' = i)) as [->|Ni]; [|exists o'; split; [by apply LN|done]].
    rewrite (live_det _ _ _ _ L' L). exists (set_RefCount o (RefCount o - 1)).
    split; [|done]. apply LK. intros R1.
    destruct (oi_handle _ _ I' k' e') as (_ & j & x & Hj & Lx & _); [by apply HH|].
    rewrite Ho' in Hj. injection Hj as <-. by apply (LF R1 x).
  - split.
    + intros [o' L'] R1. by apply (LF R1 o').
    + intros R1. eexists. by apply LK.
Qed.

(** C14: authority: in a state that satisfies the invariant, a successful open
    through a handle gives the object the handle names, only for rights that
    were granted to the handle (and so lie in the object's default mask) and only
    with the type asked for. *)
Theorem ObReferenceObjectByHandle_authority s ext h d ty st i s' :
  ob_inv s ext -> 0 <= d ->
  ObReferenceObjectByHandle true h d ty true s = Ret (st, Some i) s' ->
  st = KSTATUS_SUCCESS /\
  exists k e o, handle_at s k e /\ HandleValue e = h /\ HandleObject e = Some i /\ live s i o /\
    all_flags (GrantedAccess e) d = true /\ all_flags (DefaultAccessMask o) d = true /\
    (ty = None \/ ty = ObjectType o).
Proof.
  intros I Hd D. destruct (Z.eqb_spec h 0) as [->|Hh].
  { unfold ObReferenceObjectByHandle in D. by rewrite (oi_ready _ _ I) in D. }
  destruct (handle_dec s h) as [(k & e & Hk & Hv)|N];
    [|by rewrite (reference_none s ext h d ty I Hh N) in D].
  destruct (oi_handle _ _ I k e Hk) as (_ & i0 & o0 & Ho0 & L0 & G0).
  destruct (reference_spec s ext h d ty k e I Hk Hv) as (j & o & Ho & L & A & B & C).
  assert (j = i0) as -> by congruence. rewrite (live_det _ _ _ _ L0 L) in *.
  destruct (all_flags (GrantedAccess e) d) eqn:G; [|by rewrite A in D].
  destruct (decide (ty = None \/ ty = ObjectType o)) as [T|T];
    [|rewrite B in D by (done || naive_solver); done].
  assert (st = KSTATUS_SUCCESS /\ i = i0) as [-> ->].
  { revert D. unfold ObReferenceObjectByHandle. rewrite (oi_ready _ _ I).
    destruct (Z.eqb_spec h 0); [done|]. cbn [negb orb]. unfold bind.
    rewrite (find_handle_some s ext h k e I Hk Hv). change (ok KSTATUS_SUCCESS) with true.
    cbn [negb deref ret]. rewrite (load_at_ok _ _ _ _ (proj1 Hk)), G. cbn [negb].
    rewrite Ho. cbn [deref ret]. rewrite (load_at_ok _ _ _ _ (proj2 L)).
    destruct (match ty with Some _ => _ | None => _ end); [done|]. by intros [= <- <- <-]. }
  split; [done|]. exists k, e, o. split_and!; try done.
  by apply all_flags_trans with (GrantedAccess e).
Qed.

(** The diagnostic dumps of the object manager are memory safe in every
    state that satisfies the invariant: all names they follow exist and every
    line fits its 128-byte buffer. *)
Theorem ObDump_defined s ext :
  ob_inv s ext -> is_Some (ObDumpObjects s) /\ is_Some (ObDumpHandles s).
Proof.
  intros I. unfold ObDumpObjects, ObDumpHandles. rewrite (oi_ready _ _ I). cbn [negb].
  destruct (concat_lines_some (imap (dump_object s) (gObObjectInUse s))) as [l1 ->].
  { apply Forall_lookup. intros i x Hx. rewrite list_lookup_imap in Hx.
    apply fmap_Some in Hx as (b & Hb & ->). by eapply dump_object_some. }
  destruct (concat_lines_some (map (dump_handle s) (entries s))) as [l2 ->].
  { apply Forall_lookup. intros k x Hx. apply list_lookup_fmap_Some in Hx as (e & -> & He).
    by eapply dump_handle_some. }
  split; by eexists.
Qed.

End Properties.

(** ** Witnesses: an object manager by itself, with delete routines that do
    nothing; one type, one object, one handle. *)

#[local] Instance self_world : ObWorld ob_state :=
  {| ob_get := fun s => s; ob_put := fun o _ => o; run_delete := fun _ _ => ret tt |}.
#[local] Instance self_world_laws : ObWorldLaws ob_state.
Proof. split; [done|]. by intros r i w w' [= <-]. Qed.

Definition ob_boot : ob_state :=
  {| gObTypePool := replicate 256 {| TypeId := 0; TypeName := replicate 32 0; DeleteRoutine := None |};
     gObObjectPool := replicate 256
       {| ObjectId := 0; ObjectType := None; RefCount := 0; ObjectFlags := 0;
          DefaultAccessMask := 0; WaitState := 0; ObjectName := replicate 32 0 |};
     gObTypeInUse := replicate 256 false; gObObjectInUse := replicate 256 false;
     gObKernelHandleTable := {| Entries := []; NextHandle := 0 |};
     gObNextObjectId := 0; gObReady := false |}.

(** The state a computation ends in. *)
Definition final {S A} (m : M S A) (s : S) : S :=
  match m s with Ret _ s' | Halt s' => s' | Stuck => s end.

Definition ob_s1 := final ObInitialize ob_boot.
Definition ob_s2 := final (ObCreateType (Some (str "File")) (Some FileDeleteRoutine) true) ob_s1.
Definition ob_s3 := final (ObCreateObject (Some 0%nat) (Some (str "f")) 3 0 true) ob_s2.
Definition ob_s4 := final (ObInsertHandle true (Some 0%nat) 1 true) ob_s3.
Definition ext1 : nat -> Z := ext_add 0 1 (fun _ => 0).

Lemma ob_s3_reach : rtc ob_step (ob_s1, fun _ => 0) (ob_s3, ext1).
Proof.
  eapply rtc_l; [by eapply (step_type ob_s1 (fun _ => 0) (Some (str "File")) (Some FileDeleteRoutine) true
    (KSTATUS_SUCCESS, Some 0%nat) ob_s2)|].
  eapply rtc_l; [|apply rtc_refl].
  eapply (step_create ob_s2 (fun _ => 0) 0 (Some (str "f")) 3 0 true KSTATUS_SUCCESS (Some 0%nat) ob_s3);
    [lia|vm_compute; discriminate|vm_compute; reflexivity|reflexivity].
Qed.

Lemma ob_s3_inv : ob_inv ob_s3 ext1.
Proof.
  apply (ob_steps_inv _ _ ob_s3_reach).
  destruct (inv_initialize ob_boot) as (s' & D & I); [done..|].
  simpl. by injection D as <-.
Qed.

Definition obj3 : OB_OBJECT_HEADER :=
  {| ObjectId := 1; ObjectType := Some 0%nat; RefCount := 1; ObjectFlags := 0;
     DefaultAccessMask := 3; WaitState := 0; ObjectName := 102 :: replicate 31 0 |}.

Lemma ob_s3_live : live ob_s3 0 obj3.
Proof. split; reflexivity. Qed.

Lemma ob_s3_room : table_room ob_s3.
Proof. exists 0%nat, empty_entry. split; reflexivity. Qed.

Lemma ob_reachable_inv_witness : ob_inv ob_s4 ext1 /\ next_handle ob_s4 = 8.
Proof.
  split; [|reflexivity]. change (ob_inv (ob_get ob_s4) ext1).
  apply (ob_reachable_inv (W:=ob_state) ob_boot ob_s1 ob_s4 ext1); [reflexivity..|].
  eapply rtc_r; [exact ob_s3_reach|].
  apply (step_insert ob_s3 ext1 0 obj3 1 KSTATUS_SUCCESS (Some 4) ob_s4);
    [exact ob_s3_live|reflexivity|reflexivity|reflexivity|reflexivity].
Defined.

Lemma ObInsertHandle_open_witness :
  exists s' h, ObInsertHandle true (Some 0%nat) 1 true ob_s3 = Ret (KSTATUS_SUCCESS, Some h) s' /\
    ObReferenceObjectByHandle true h 2 None true s' = Ret (KSTATUS_ACCESS_DENIED, None) s'.
Proof.
  destruct (ObInsertHandle_open ob_s3 ext1 0 obj3 1 ob_s3_inv ob_s3_live eq_refl eq_refl eq_refl
    eq_refl ob_s3_room) as (s' & h & D & _ & _ & R).
  exists s', h. split; [exact D|]. rewrite R. reflexivity.
Defined.

Definition handle4 : OB_HANDLE_TABLE_ENTRY :=
  {| HandleValue := 4; HandleObject := Some 0%nat; GrantedAccess := 1; HandleInUse := true |}.

Lemma ob_s4_inv : ob_inv ob_s4 ext1.
Proof.
  destruct (inv_insert ob_s3 ext1 0 obj3 1 ob_s3_inv ob_s3_live eq_refl eq_refl eq_refl
    eq_refl ob_s3_room) as (s' & k & D & I & _).
  assert (s' = ob_s4) as <-; [|done]. unfold ob_s4, final. by rewrite D.
Qed.

Lemma ObCloseHandle_closes_witness :
  exists w', ObCloseHandle true 4 ob_s4 = Ret KSTATUS_SUCCESS w' /\
    ObReferenceObjectByHandle true 4 1 None true w' = Ret (KSTATUS_NOT_FOUND, None) w'.
Proof.
  assert (handle_at ob_s4 0 handle4) as Hk by (split; reflexivity).
  assert (live ob_s4 0 (set_RefCount obj3 2)) as L by (split; reflexivity).
  destruct (@ObCloseHandle_closes ob_state self_world self_world_laws ob_s4 ext1 0 handle4 0 (set_RefCount obj3 2)
    ob_s4_inv Hk eq_refl L ltac:(intros R; discriminate R)) as (w' & D & _ & N & _).
  exists w'. split; [exact D|apply N].
Defined.

Lemma ObReferenceObjectByHandle_authority_witness :
  all_flags (GrantedAccess handle4) 1 = true /\
  exists k, handle_at ob_s4 k handle4.
Proof.
  destruct (ObReferenceObjectByHandle_authority ob_s4 ext1 4 1 None KSTATUS_SUCCESS 0
    (final (ObReferenceObjectByHandle true 4 1 None true) ob_s4) ob_s4_inv)
    as (_ & k & e & o & Hk & _ & _ & _ & G & _); [lia|reflexivity|].
  assert (k = 0%nat /\ e = handle4) as [-> ->]; [|by split; [|exists 0%nat]].
  destruct Hk as [Hk Hu]. destruct k as [|k]; [by injection Hk as <-|].
  exfalso. change (entries ob_s4 !! S k) with (replicate 511 empty_entry !! k) in Hk.
  apply lookup_replicate in Hk as [-> _]. discriminate.
Defined.

Lemma ObDump_defined_witness : is_Some (ObDumpObjects ob_s4) /\ is_Some (ObDumpHandles ob_s4).
Proof. exact (ObDump_defined ob_s4 ext1 ob_s4_inv). Defined.
