(* ===== verification/PhysMem.v ===== *)
(** * Byte-addressed memory

    The memory behind every pointer of the kernel: a finite map from address to
    byte, zero where nothing was stored (a stored zero is erased, so equal
    contents are equal maps).  Integers are little endian, as on the AUR64
    (x86-64) machine. *)

From S2P Require Import Prelude.

Abbreviation mem := (gmap Z Z).

Definition load8 (m : mem) (a : Z) : Z := default 0 (m !! a).
Definition store8 (m : mem) (a v : Z) : mem :=
  if u8 v =? 0 then delete a m else <[a := u8 v]> m.

Fixpoint load_le (n : nat) (m : mem) (a : Z) : Z :=
  match n with
  | O => 0
  | S n' => load8 m a + 256 * load_le n' m (a + 1)
  end.
Fixpoint store_le (n : nat) (m : mem) (a v : Z) : mem :=
  match n with
  | O => m
  | S n' => store_le n' (store8 m a (v mod 256)) (a + 1) (v / 256)
  end.

Definition load16 := load_le 2.
Definition load32 := load_le 4.
Definition load64 := load_le 8.
Definition store16 := store_le 2.
Definition store32 := store_le 4.
Definition store64 := store_le 8.

(** [for (i = 0; i < n; i++) p[i] = f(i)], element size [w]. *)
Fixpoint store_table (w : nat) (m : mem) (p : Z) (f : Z -> Z) (n : nat) : mem :=
  match n with
  | O => m
  | S n' => store_le w (store_table w m p f n') (p + Z.of_nat w * Z.of_nat n') (f (Z.of_nat n'))
  end.

(** All cells hold bytes. *)
Definition mem_ok (m : mem) : Prop := forall a, 0 <= load8 m a < 256.

(** ** One byte *)

Lemma load8_store8_eq m a v : load8 (store8 m a v) a = u8 v.
Proof.
  unfold load8, store8. destruct (Z.eqb_spec (u8 v) 0) as [->|].
  - by rewrite lookup_delete_eq.
  - by rewrite lookup_insert_eq.
Qed.

Lemma load8_store8_ne m a b v : a <> b -> load8 (store8 m a v) b = load8 m b.
Proof.
  intros N. unfold load8, store8. destruct (u8 v =? 0).
  - by rewrite lookup_delete_ne.
  - by rewrite lookup_insert_ne.
Qed.

Lemma load8_store8 m a b v : load8 (store8 m a v) b = if a =? b then u8 v else load8 m b.
Proof.
  destruct (Z.eqb_spec a b) as [->|]; [apply load8_store8_eq|by apply load8_store8_ne].
Qed.

Lemma store8_ok m a v : mem_ok m -> mem_ok (store8 m a v).
Proof.
  intros H b. rewrite load8_store8. pose proof (u8_range v). by destruct (a =? b).
Qed.

Lemma load8_empty a : load8 ∅ a = 0.
Proof. unfold load8. by rewrite lookup_empty. Qed.

Lemma empty_ok : mem_ok ∅.
Proof. intros a. rewrite load8_empty. lia. Qed.

(** ** Words *)

Lemma load8_store_le n : forall m a v b,
  load8 (store_le n m a v) b =
    if (a <=? b) && (b <? a + Z.of_nat n) then (v / 256 ^ (b - a)) mod 256 else load8 m b.
Proof.
  induction n as [|n IH]; intros m a v b; cbn [store_le].
  - destruct (Z.leb_spec a b), (Z.ltb_spec b (a + Z.of_nat 0)); try done; lia.
  - rewrite IH, load8_store8, Nat2Z.inj_succ.
    destruct (Z.leb_spec (a + 1) b), (Z.ltb_spec b (a + 1 + Z.of_nat n)),
      (Z.eqb_spec a b), (Z.leb_spec a b), (Z.ltb_spec b (a + Z.succ (Z.of_nat n)));
      cbn [andb]; try lia; try done.
    + replace (b - a) with (1 + (b - (a + 1))) by lia.
      rewrite Z.pow_add_r, Z.pow_1_r by lia. by rewrite Z.div_div by (try apply Z.pow_nonzero; lia).
    + subst. rewrite Z.sub_diag, Z.pow_0_r, Z.div_1_r. unfold u8. by rewrite Z.mod_mod.
Qed.

Lemma store_le_ok n : forall m a v, mem_ok m -> mem_ok (store_le n m a v).
Proof. induction n; intros m a v H; simpl; [done|]. by apply IHn, store8_ok. Qed.

Lemma load_le_ext n : forall m m' a,
  (forall b, a <= b < a + Z.of_nat n -> load8 m b = load8 m' b) ->
  load_le n m a = load_le n m' a.
Proof.
  induction n as [|n IH]; intros m m' a H; [done|]. cbn [load_le].
  rewrite (H a) by lia. f_equal. f_equal. apply IH. intros b Hb. apply H. lia.
Qed.

(** A store does not change a disjoint word. *)
Lemma load_store_le_ne n k m a b v :
  b + Z.of_nat n <= a \/ a + Z.of_nat k <= b ->
  load_le n (store_le k m a v) b = load_le n m b.
Proof.
  intros D. apply load_le_ext. intros c Hc. rewrite load8_store_le.
  destruct (Z.leb_spec a c), (Z.ltb_spec c (a + Z.of_nat k)); cbn [andb]; try done; lia.
Qed.

(** A word reads back as it was written. *)
Lemma load_store_le_eq n : forall m a v, load_le n (store_le n m a v) a = v mod 256 ^ Z.of_nat n.
Proof.
  induction n as [|n IH]; intros m a v.
  - by rewrite Z.mod_1_r.
  - cbn [load_le store_le]. rewrite IH, load8_store_le.
    destruct (Z.leb_spec (a + 1) a); [lia|]. cbn [andb].
    rewrite load8_store8_eq, Nat2Z.inj_succ, Z.pow_succ_r by lia.
    unfold u8. rewrite Z.mod_mod by lia.
    rewrite (Z.rem_mul_r v 256 (256 ^ Z.of_nat n)) by (try apply Z.pow_pos_nonneg; lia). done.
Qed.

Lemma load64_store64_eq m a v : is_u64 v -> load64 (store64 m a v) a = v.
Proof.
  intros H. unfold load64, store64. rewrite load_store_le_eq. apply Z.mod_small. exact H.
Qed.

Lemma load64_store64_ne m a b v : b + 8 <= a \/ a + 8 <= b -> load64 (store64 m a v) b = load64 m b.
Proof. apply (load_store_le_ne 8 8). Qed.

Lemma load_le_range n m a : mem_ok m -> 0 <= load_le n m a < 256 ^ Z.of_nat n.
Proof.
  intros H. revert a. induction n as [|n IH]; intros a; cbn [load_le]; [lia|].
  rewrite Nat2Z.inj_succ, Z.pow_succ_r by lia. pose proof (H a). specialize (IH (a + 1)). lia.
Qed.

Lemma load64_range m a : mem_ok m -> is_u64 (load64 m a).
Proof. apply (load_le_range 8). Qed.

(** ** Tables: arrays of words *)

Lemma load_store_table_out w n k m p f b :
  b + Z.of_nat n <= p \/ p + Z.of_nat w * Z.of_nat k <= b ->
  load_le n (store_table w m p f k) b = load_le n m b.
Proof.
  induction k as [|k IH]; intros D; [done|]. cbn [store_table].
  rewrite load_store_le_ne by lia. apply IH. lia.
Qed.

Lemma store_table_eq w m p f g n : (forall i, 0 <= i < Z.of_nat n -> f i = g i) ->
  store_table w m p f n = store_table w m p g n.
Proof.
  induction n as [|n IH]; intros H; [done|]. cbn [store_table]. rewrite (H (Z.of_nat n)) by lia.
  f_equal. apply IH. intros i Hi. apply H. lia.
Qed.

Lemma load_store_table_in w m p f k i :
  0 <= i < Z.of_nat k ->
  load_le w (store_table w m p f k) (p + Z.of_nat w * i) = f i mod 256 ^ Z.of_nat w.
Proof.
  induction k as [|k IH]; intros Hi; [lia|]. cbn [store_table].
  destruct (Z.eq_dec i (Z.of_nat k)) as [->|N].
  - apply load_store_le_eq.
  - rewrite load_store_le_ne by nia. apply IH. lia.
Qed.

Lemma store_table_ok w m p f k : mem_ok m -> mem_ok (store_table w m p f k).
Proof. intros H. induction k; simpl; [done|]. by apply store_le_ok. Qed.

Lemma load8_store_table1 m p f k b :
  load8 (store_table 1 m p f k) b =
    if (p <=? b) && (b <? p + Z.of_nat k) then u8 (f (b - p)) else load8 m b.
Proof.
  induction k as [|k IH]; cbn [store_table].
  - destruct (Z.leb_spec p b), (Z.ltb_spec b (p + Z.of_nat 0)); try done; lia.
  - rewrite load8_store_le, IH.
    destruct (Z.leb_spec (p + Z.of_nat 1 * Z.of_nat k) b),
      (Z.ltb_spec b (p + Z.of_nat 1 * Z.of_nat k + Z.of_nat 1)), (Z.leb_spec p b),
      (Z.ltb_spec b (p + Z.of_nat k)), (Z.ltb_spec b (p + Z.of_nat (S k)));
      cbn [andb]; try lia; try done.
    replace (b - (p + Z.of_nat 1 * Z.of_nat k)) with 0 by lia.
    replace (b - p) with (Z.of_nat k) by lia. by rewrite Z.pow_0_r, Z.div_1_r.
Qed.

#[global] Arguments store_table : simpl never.
#[global] Arguments load_le : simpl never.
#[global] Arguments store_le : simpl never.
