(* ===== verification/Rtl.v ===== *)
(** * Runtime library: kernel/rtl/memory.c

    The four memory routines the compiler may call, on the byte-addressed
    memory of [PhysMem]. *)

From S2P Require Import Prelude PhysMem.

(** ** Definitions *)

(** [for (i = 0; i < Size; i++) dst[i] = src[i];] *)
Fixpoint copy_up (m : mem) (dst src : Z) (n : nat) (i : Z) : mem :=
  match n with
  | O => m
  | S n' => copy_up (store8 m (dst + i) (load8 m (src + i))) dst src n' (i + 1)
  end.

(** [for (i = Size; i != 0; i--) dst[i - 1] = src[i - 1];] *)
Fixpoint copy_down (m : mem) (dst src : Z) (i : nat) : mem :=
  match i with
  | O => m
  | S i' => copy_down (store8 m (dst + Z.of_nat i') (load8 m (src + Z.of_nat i'))) dst src i'
  end.

(** Each returns its destination and the memory. *)
Definition memcpy (Destination Source : Z) (Size : nat) (m : mem) : Z * mem :=
  (Destination, copy_up m Destination Source Size 0).

Definition memmove (Destination Source : Z) (Size : nat) (m : mem) : Z * mem :=
  if (Destination =? Source) || (Size =? 0)%nat then (Destination, m)
  else if Destination <? Source then (Destination, copy_up m Destination Source Size 0)
  else (Destination, copy_down m Destination Source Size).

Fixpoint fill_up (m : mem) (dst v : Z) (n : nat) (i : Z) : mem :=
  match n with
  | O => m
  | S n' => fill_up (store8 m (dst + i) v) dst v n' (i + 1)
  end.

Definition memset (Destination Value : Z) (Size : nat) (m : mem) : Z * mem :=
  (Destination, fill_up m Destination (u8 Value) Size 0).

Fixpoint memcmp (Left Right : Z) (Size : nat) (m : mem) : Z :=
  match Size with
  | O => 0
  | S n' =>
      if negb (load8 m Left =? load8 m Right) then load8 m Left - load8 m Right
      else memcmp (Left + 1) (Right + 1) n' m
  end.

(** ** Lemmas *)

#[local] Ltac byte_cases :=
  repeat match goal with |- context [?x =? ?y] => destruct (Z.eqb_spec x y) end;
  first [done | lia | f_equal; lia].

Lemma copy_up_spec n : forall m dst src i, 0 <= i ->
  mem_ok m -> dst <= src \/ src + i + Z.of_nat n <= dst + i ->
  forall a, load8 (copy_up m dst src n i) a =
    if (dst + i <=? a) && (a <? dst + i + Z.of_nat n) then load8 m (src + (a - dst)) else load8 m a.
Proof.
  induction n as [|n IH]; intros m dst src i Hi Hm D a; cbn [copy_up].
  - destruct (Z.leb_spec (dst + i) a), (Z.ltb_spec a (dst + i + Z.of_nat 0)); try done; lia.
  - rewrite IH by (try apply store8_ok; lia || done). rewrite !load8_store8.
    unfold u8. rewrite Z.mod_small by apply Hm.
    destruct (Z.leb_spec (dst + (i + 1)) a), (Z.ltb_spec a (dst + (i + 1) + Z.of_nat n)),
      (Z.leb_spec (dst + i) a), (Z.ltb_spec a (dst + i + Z.of_nat (S n))); cbn [andb]; try lia.
    all: byte_cases.
Qed.

Lemma copy_up_ok n : forall m dst src i, mem_ok m -> mem_ok (copy_up m dst src n i).
Proof. induction n as [|n IH]; intros m dst src i H; [done|]. apply IH. by apply store8_ok. Qed.

Lemma copy_down_spec i : forall m dst src, mem_ok m -> src <= dst ->
  forall a, load8 (copy_down m dst src i) a =
    if (dst <=? a) && (a <? dst + Z.of_nat i) then load8 m (src + (a - dst)) else load8 m a.
Proof.
  induction i as [|i IH]; intros m dst src Hm D a; cbn [copy_down].
  - destruct (Z.leb_spec dst a), (Z.ltb_spec a (dst + Z.of_nat 0)); try done; lia.
  - rewrite IH by (try apply store8_ok; done). rewrite !load8_store8.
    unfold u8. rewrite Z.mod_small by apply Hm.
    destruct (Z.leb_spec dst a), (Z.ltb_spec a (dst + Z.of_nat i)),
      (Z.ltb_spec a (dst + Z.of_nat (S i))); cbn [andb]; try lia.
    all: byte_cases.
Qed.

Lemma fill_up_spec n : forall m dst v i, 0 <= v < 256 ->
  forall a, load8 (fill_up m dst v n i) a =
    if (dst + i <=? a) && (a <? dst + i + Z.of_nat n) then v else load8 m a.
Proof.
  induction n as [|n IH]; intros m dst v i Hv a; cbn [fill_up].
  - destruct (Z.leb_spec (dst + i) a), (Z.ltb_spec a (dst + i + Z.of_nat 0)); try done; lia.
  - rewrite IH, load8_store8, u8_small by done.
    destruct (Z.leb_spec (dst + (i + 1)) a), (Z.ltb_spec a (dst + (i + 1) + Z.of_nat n)),
      (Z.leb_spec (dst + i) a), (Z.ltb_spec a (dst + i + Z.of_nat (S n))),
      (Z.eqb_spec (dst + i) a); cbn [andb]; try lia; done.
Qed.

(** ** Properties *)

(** [memmove] copies correctly whatever the overlap: afterwards the
    destination holds what the source held before the call and no other byte has
    changed; [memcpy] does the same when the destination does not start inside
    the source, and [memset] fills exactly its range. *)
Theorem memmove_overlap m dst src n :
  mem_ok m ->
  (forall a, load8 (memmove dst src n m).2 a =
     if (dst <=? a) && (a <? dst + Z.of_nat n) then load8 m (src + (a - dst)) else load8 m a) /\
  (dst <= src \/ src + Z.of_nat n <= dst ->
   forall a, load8 (memcpy dst src n m).2 a =
     if (dst <=? a) && (a <? dst + Z.of_nat n) then load8 m (src + (a - dst)) else load8 m a) /\
  (forall v a, load8 (memset dst v n m).2 a =
     if (dst <=? a) && (a <? dst + Z.of_nat n) then u8 v else load8 m a).
Proof.
  intros Hm. split; [|split].
  - intros a. unfold memmove.
    destruct (Z.eqb_spec dst src) as [->|N]; cbn [orb snd].
    { destruct (_ && _); [f_equal; lia|done]. }
    destruct (Nat.eqb_spec n 0) as [->|Hn]; cbn [snd].
    { destruct (Z.leb_spec dst a), (Z.ltb_spec a (dst + Z.of_nat 0)); try done; lia. }
    destruct (Z.ltb_spec dst src); cbn [snd].
    + rewrite copy_up_spec by (done || lia). by rewrite Z.add_0_r.
    + apply copy_down_spec; [done|lia].
  - intros D a. unfold memcpy. cbn [snd]. rewrite copy_up_spec by (done || lia).
    by rewrite Z.add_0_r.
  - intros v a. unfold memset. cbn [snd]. rewrite fill_up_spec by apply u8_range.
    by rewrite Z.add_0_r.
Qed.

Lemma memmove_overlap_witness :
  load8 (memmove 102 100 4 (store8 (store8 ∅ 100 7) 101 8)).2 103 = 8.
Proof.
  destruct (memmove_overlap (store8 (store8 ∅ 100 7) 101 8) 102 100 4) as [H _].
  { apply store8_ok, store8_ok, empty_ok. }
  rewrite H. reflexivity.
Defined.

(** [memcmp] is zero exactly when the two ranges hold the same bytes, and
    otherwise has the sign of the first difference. *)
Theorem memcmp_first_difference m l r n :
  mem_ok m ->
  (memcmp l r n m = 0 <-> forall i, 0 <= i < Z.of_nat n -> load8 m (l + i) = load8 m (r + i)) /\
  (memcmp l r n m <> 0 ->
   exists i, 0 <= i < Z.of_nat n /\ (forall j, 0 <= j < i -> load8 m (l + j) = load8 m (r + j)) /\
     memcmp l r n m = load8 m (l + i) - load8 m (r + i) /\ -255 <= memcmp l r n m <= 255).
Proof.
  intros Hm. revert l r. induction n as [|n IH]; intros l r; cbn [memcmp].
  { split; [|done]. split; [intros _ i Hi; lia|done]. }
  destruct (Z.eqb_spec (load8 m l) (load8 m r)) as [E|E]; cbn [negb].
  - destruct (IH (l + 1) (r + 1)) as [IH1 IH2]. split.
    + rewrite IH1. split.
      * intros H i Hi. destruct (Z.eq_dec i 0) as [->|]; [by rewrite !Z.add_0_r|].
        specialize (H (i - 1) ltac:(lia)).
        by replace (l + 1 + (i - 1)) with (l + i) in H by lia;
          replace (r + 1 + (i - 1)) with (r + i) in H by lia.
      * intros H i Hi. rewrite <- !Z.add_assoc. apply H. lia.
    + intros H. destruct (IH2 H) as (i & Hi & Hj & Hv & Hr). exists (1 + i).
      rewrite !Z.add_assoc. split_and!; [lia|lia| |done|lia|lia].
      intros j Hlt. destruct (Z.eq_dec j 0) as [->|]; [by rewrite !Z.add_0_r|].
      specialize (Hj (j - 1) ltac:(lia)).
      by replace (l + 1 + (j - 1)) with (l + j) in Hj by lia;
        replace (r + 1 + (j - 1)) with (r + j) in Hj by lia.
  - pose proof (Hm l). pose proof (Hm r). split.
    + split; [lia|]. intros H'. specialize (H' 0 ltac:(lia)). rewrite !Z.add_0_r in H'. lia.
    + intros _. exists 0. rewrite !Z.add_0_r. split_and!; try lia. 
Qed.

Lemma memcmp_first_difference_witness :
  memcmp 0 16 4 (store8 (store8 ∅ 2 9) 18 7) <> 0 /\
  exists i, 0 <= i < 4 /\ memcmp 0 16 4 (store8 (store8 ∅ 2 9) 18 7) =
    load8 (store8 (store8 ∅ 2 9) 18 7) (0 + i) - load8 (store8 (store8 ∅ 2 9) 18 7) (16 + i).
Proof.
  destruct (memcmp_first_difference (store8 (store8 ∅ 2 9) 18 7) 0 16 4) as [_ H].
  { apply store8_ok, store8_ok, empty_ok. }
  split; [discriminate|]. destruct (H ltac:(discriminate)) as (i & Hi & _ & E & _).
  exists i. split; [exact Hi|exact E].
Defined.
