(* ===== verification/MmPages.v ===== *)
(** * Memory manager, page frames: kernel/mm/init.c, kernel/include/mm.h

    The bitmap of allocated frames, the reference count of each frame, the
    cyclic scan of the allocator and the setting up of the bitmap from the boot
    memory map.  [allocated] reads the bitmap; the theorems say what each
    operation does to it.  The bitmap and the counts are the sparse arrays of
    the prelude; every index the code uses is below [MM_MAX_TRACKED_PAGES]. *)

From S2P Require Import Prelude BootProto PhysMem.

(** ** Constants *)

Definition MM_PAGE_SIZE : Z := 4096.
Definition MM_MAX_TRACKED_PAGES : Z := 262144.
Definition MM_BITMAP_WORD_BITS : Z := 64.
Definition MM_BITMAP_WORD_COUNT : Z := MM_MAX_TRACKED_PAGES / MM_BITMAP_WORD_BITS.

Definition EFI_LOADER_CODE : Z := 1.
Definition EFI_LOADER_DATA : Z := 2.
Definition EFI_BOOT_SERVICES_CODE : Z := 3.
Definition EFI_BOOT_SERVICES_DATA : Z := 4.
Definition EFI_CONVENTIONAL_MEMORY : Z := 7.

Definition MM_USER_TOP : Z := 0x0000800000000000.
Definition MM_USER_BASE : Z := 0x0000000040000000.

(** ** State *)

Record mm_pages := {
  gMmPageBitmap : arr;
  gMmPageRefCount : arr;
  gMmTrackedPages : Z;
  gMmNextScanPage : Z }.

Definition set_bitmap (b : arr) (p : mm_pages) : mm_pages :=
  {| gMmPageBitmap := b; gMmPageRefCount := gMmPageRefCount p;
     gMmTrackedPages := gMmTrackedPages p; gMmNextScanPage := gMmNextScanPage p |}.
Definition set_refcount (r : arr) (p : mm_pages) : mm_pages :=
  {| gMmPageBitmap := gMmPageBitmap p; gMmPageRefCount := r;
     gMmTrackedPages := gMmTrackedPages p; gMmNextScanPage := gMmNextScanPage p |}.
Definition set_scan (n : Z) (p : mm_pages) : mm_pages :=
  {| gMmPageBitmap := gMmPageBitmap p; gMmPageRefCount := gMmPageRefCount p;
     gMmTrackedPages := gMmTrackedPages p; gMmNextScanPage := n |}.

(** ** Address arithmetic *)

Definition MmpIsUserAddress (VirtualAddress : Z) : bool :=
  (VirtualAddress >=? MM_USER_BASE) && (VirtualAddress <? MM_USER_TOP).

Definition MmpAlignUp (Value Alignment : Z) : Z :=
  if Alignment =? 0 then Value
  else Z.land (u64 (Value + Alignment - 1)) (lnot64 (u64 (Alignment - 1))).

Definition MmpAlignDown (Value Alignment : Z) : Z :=
  if Alignment =? 0 then Value else Z.land Value (lnot64 (u64 (Alignment - 1))).

Definition MmpAlignSizeToPage (Size : Z) : Z :=
  if Size =? 0 then MM_PAGE_SIZE else MmpAlignUp Size MM_PAGE_SIZE.

Definition MmpIsCanonicalAddress (Va : Z) : bool :=
  (Z.shiftr Va 48 =? 0) || (Z.shiftr Va 48 =? 0xFFFF).

(** ** The bitmap *)

Definition MmpSetPageAllocated (PageIndex : Z) (p : mm_pages) : mm_pages :=
  let Word := PageIndex / MM_BITMAP_WORD_BITS in
  let Bit := PageIndex mod MM_BITMAP_WORD_BITS in
  set_bitmap (aset (gMmPageBitmap p) Word
                (Z.lor (aget (gMmPageBitmap p) Word) (Z.shiftl 1 Bit))) p.

Definition MmpSetPageFree (PageIndex : Z) (p : mm_pages) : mm_pages :=
  let Word := PageIndex / MM_BITMAP_WORD_BITS in
  let Bit := PageIndex mod MM_BITMAP_WORD_BITS in
  set_bitmap (aset (gMmPageBitmap p) Word
                (Z.land (aget (gMmPageBitmap p) Word) (lnot64 (Z.shiftl 1 Bit)))) p.

Definition MmpIsPageAllocated (PageIndex : Z) (p : mm_pages) : bool :=
  let Word := PageIndex / MM_BITMAP_WORD_BITS in
  let Bit := PageIndex mod MM_BITMAP_WORD_BITS in
  any_flag (aget (gMmPageBitmap p) Word) (Z.shiftl 1 Bit).

(** ** Allocation *)

(** [for (ScanCount = ...; ScanCount < gMmTrackedPages; ScanCount++)]: [n]
    iterations are left. *)
Fixpoint scan_pages (p : mm_pages) (n : nat) (ScanCount : Z) : option Z :=
  match n with
  | O => None
  | S n' =>
      let Page := u32 (gMmNextScanPage p + ScanCount) mod gMmTrackedPages p in
      if negb (MmpIsPageAllocated Page p) then Some Page
      else scan_pages p n' (ScanCount + 1)
  end.

Definition MmpAllocPageInternal (OutPhysicalAddress : bool) (InitialRefCount : Z)
  : M mm_pages (KSTATUS * option Z) := fun p =>
  if negb OutPhysicalAddress || (gMmTrackedPages p =? 0)
  then Ret (KSTATUS_INVALID_PARAMETER, None) p
  else
    match scan_pages p (Z.to_nat (gMmTrackedPages p)) 0 with
    | Some Page =>
        let p1 := MmpSetPageAllocated Page p in
        let p2 := set_refcount (aset (gMmPageRefCount p1) Page InitialRefCount) p1 in
        let p3 := set_scan (u32 (Page + 1) mod gMmTrackedPages p2) p2 in
        Ret (KSTATUS_SUCCESS, Some (Page * MM_PAGE_SIZE)) p3
    | None => Ret (KSTATUS_INIT_FAILED, None) p
    end.

(** [MmAllocPage] and [MmFreePage] also test [gMmReady], here an argument. *)
Definition MmAllocPage (gMmReady OutPhysicalAddress : bool) : M mm_pages (KSTATUS * option Z) :=
  fun p =>
  if negb gMmReady || negb OutPhysicalAddress then Ret (KSTATUS_INVALID_PARAMETER, None) p
  else MmpAllocPageInternal true 1 p.

Definition MmFreePage (gMmReady : bool) (PhysicalAddress : Z) : M mm_pages KSTATUS := fun p =>
  if negb gMmReady || negb (PhysicalAddress mod MM_PAGE_SIZE =? 0)
  then Ret KSTATUS_INVALID_PARAMETER p
  else
    let Page := PhysicalAddress / MM_PAGE_SIZE in
    if Page >=? gMmTrackedPages p then Ret KSTATUS_INVALID_PARAMETER p
    else if negb (MmpIsPageAllocated (u32 Page) p) then Ret KSTATUS_INVALID_PARAMETER p
    else
      let p1 := set_refcount (aset (gMmPageRefCount p) Page 0) p in
      Ret KSTATUS_SUCCESS (MmpSetPageFree (u32 Page) p1).

(** ** Reference counts *)

Definition MmpRetainPage (PhysicalAddress : Z) (p : mm_pages) : mm_pages :=
  let Page := PhysicalAddress / MM_PAGE_SIZE in
  if (Page <? MM_MAX_TRACKED_PAGES) && negb (aget (gMmPageRefCount p) Page =? 0)
  then set_refcount (aset (gMmPageRefCount p) Page (u32 (aget (gMmPageRefCount p) Page + 1))) p
  else p.

Definition MmpReleasePage (PhysicalAddress : Z) (p : mm_pages) : mm_pages :=
  let Page := PhysicalAddress / MM_PAGE_SIZE in
  if (Page >=? MM_MAX_TRACKED_PAGES) || (aget (gMmPageRefCount p) Page =? 0) then p
  else
    let n := aget (gMmPageRefCount p) Page - 1 in
    let p1 := set_refcount (aset (gMmPageRefCount p) Page n) p in
    if n =? 0 then MmpSetPageFree (u32 Page) p1 else p1.

(** ** Setting up from the boot memory map *)

Definition MmpIsRangeUsable (Type_ : Z) : bool :=
  (Type_ =? EFI_CONVENTIONAL_MEMORY) || (Type_ =? EFI_BOOT_SERVICES_CODE) ||
  (Type_ =? EFI_BOOT_SERVICES_DATA) || (Type_ =? EFI_LOADER_CODE) || (Type_ =? EFI_LOADER_DATA).

(** [for (Page = ...; Page < End / MM_PAGE_SIZE; Page++)], [n] pages to go. *)
Fixpoint mark_pages (n : nat) (Page : Z) (Allocated : bool) (p : mm_pages) : mm_pages :=
  match n with
  | O => p
  | S n' =>
      if Page >=? gMmTrackedPages p then p
      else mark_pages n' (Page + 1) Allocated
             (if Allocated then MmpSetPageAllocated (u32 Page) p else MmpSetPageFree (u32 Page) p)
  end.

(** The loop stops at the first untracked page, so [gMmTrackedPages] bounds the
    iterations that do anything. *)
Definition MmpMarkRange (Base Length : Z) (Allocated : bool) (p : mm_pages) : mm_pages :=
  if (Length =? 0) || (gMmTrackedPages p =? 0) then p
  else
    let Start := MmpAlignUp Base MM_PAGE_SIZE in
    let End := MmpAlignDown (u64 (Base + Length)) MM_PAGE_SIZE in
    if End <=? Start then p
    else mark_pages (Z.to_nat (Z.min (End / MM_PAGE_SIZE - Start / MM_PAGE_SIZE)
                                     (gMmTrackedPages p)))
           (Start / MM_PAGE_SIZE) Allocated p.

(** [(const PHYSICAL_MEMORY_RANGE * )Cursor] *)
Definition load_range (m : mem) (Cursor : Z) : PHYSICAL_MEMORY_RANGE :=
  {| RangeBase := load64 m Cursor; RangeLength := load64 m (Cursor + 8);
     RangeType := load32 m (Cursor + 16); RangeAttributes := load32 m (Cursor + 20) |}.

Fixpoint mark_usable (m : mem) (n : nat) (Cursor EntrySize : Z) (p : mm_pages) : mm_pages :=
  match n with
  | O => p
  | S n' =>
      let Range := load_range m Cursor in
      mark_usable m n' (u64 (Cursor + EntrySize)) EntrySize
        (if MmpIsRangeUsable (RangeType Range)
         then MmpMarkRange (RangeBase Range) (RangeLength Range) false p else p)
  end.

Definition MmpMarkUsableFromBootInfo (m : mem) (BootInfo : option BOOT_INFO_PTR) (p : mm_pages)
  : mm_pages :=
  match BootInfo with
  | None => p
  | Some b =>
      let b := bi_value b in
      if (MemoryMap b =? 0) || (MemoryMapEntrySize b =? 0) then p
      else mark_usable m (Z.to_nat (MemoryMapEntryCount b)) (MemoryMap b) (MemoryMapEntrySize b) p
  end.

Definition MmpReserveBootCriticalRanges (BootInfo : option BOOT_INFO_PTR) (p : mm_pages) : mm_pages :=
  match BootInfo with
  | None => p
  | Some ptr =>
      let b := bi_value ptr in
      let p := MmpMarkRange 0 0x100000 true p in
      let p := MmpMarkRange (KernelBase b) (KernelSize b) true p in
      let p := MmpMarkRange (LoaderBase b) 0x200000 true p in
      let p :=
        if any_flag (Flags b) BOOTINFO_FLAG_INIT_IMAGE_PRESENT &&
           negb (InitImageBase b =? 0) && negb (InitImageSize b =? 0)
        then MmpMarkRange (InitImageBase b) (InitImageSize b) true p else p in
      let p := MmpMarkRange (bi_address ptr) sizeof_BOOT_INFO true p in
      let MapBytes := u64 (MemoryMapEntryCount b * MemoryMapEntrySize b) in
      MmpMarkRange (MemoryMap b) MapBytes true p
  end.

(** The part of [MmInitialize] that sets the frames up: every page allocated,
    then the usable ranges free, then the boot-critical ones allocated. *)
Definition init_pages (PhysicalMemoryTop : Z) (m : mem) (BootInfo : BOOT_INFO_PTR) : mm_pages :=
  let TopPages := PhysicalMemoryTop / MM_PAGE_SIZE in
  let TopPages := if TopPages >? MM_MAX_TRACKED_PAGES then MM_MAX_TRACKED_PAGES else TopPages in
  let p := {| gMmPageBitmap := afill ∅ 0 (Z.to_nat MM_BITMAP_WORD_COUNT) 0xFFFFFFFFFFFFFFFF;
              gMmPageRefCount := ∅;
              gMmTrackedPages := TopPages; gMmNextScanPage := 0 |} in
  MmpReserveBootCriticalRanges (Some BootInfo) (MmpMarkUsableFromBootInfo m (Some BootInfo) p).

#[global] Arguments MmpAlignUp : simpl never.
#[global] Arguments MmpAlignDown : simpl never.

(** ** Lemmas: alignment *)

Lemma align_down_page v : is_u64 v -> MmpAlignDown v 4096 = v / 4096 * 4096.
Proof.
  intros H. unfold MmpAlignDown. cbn [Z.eqb].
  change (u64 (4096 - 1)) with (2 ^ 12 - 1). rewrite land_lnot_ones by (exact H || lia).
  change (2 ^ 12) with 4096. zlia.
Qed.

Lemma align_up_page v : 0 <= v -> v + 4095 < 2 ^ 64 ->
  MmpAlignUp v 4096 = (v + 4095) / 4096 * 4096.
Proof.
  intros H0 H. unfold MmpAlignUp. cbn [Z.eqb].
  rewrite (u64_small (v + 4096 - 1)) by lia.
  change (u64 (4096 - 1)) with (2 ^ 12 - 1). rewrite land_lnot_ones by lia.
  change (2 ^ 12) with 4096. replace (v + 4096 - 1) with (v + 4095) by lia. zlia.
Qed.

(** ** Lemmas: the bitmap *)

(** Frame [i] is marked allocated. *)
Definition allocated (p : mm_pages) (i : Z) : bool :=
  Z.testbit (aget (gMmPageBitmap p) (i / 64)) (i mod 64).

Lemma MmpIsPageAllocated_spec i p : MmpIsPageAllocated i p = allocated p i.
Proof.
  unfold MmpIsPageAllocated, MM_BITMAP_WORD_BITS. rewrite Z.shiftl_1_l.
  apply any_flag_bit. zlia.
Qed.

Lemma same_word_bit i j : i / 64 = j / 64 -> i mod 64 = j mod 64 -> i = j.
Proof. intros. zlia. Qed.

Lemma allocated_set i j p : allocated (MmpSetPageAllocated i p) j = (i =? j) || allocated p j.
Proof.
  unfold allocated, MmpSetPageAllocated, set_bitmap, MM_BITMAP_WORD_BITS. cbn [gMmPageBitmap].
  rewrite aget_aset. destruct (Z.eqb_spec (i / 64) (j / 64)) as [E|E].
  - rewrite Z.lor_spec, Z.shiftl_1_l, Z.pow2_bits_eqb by zlia. rewrite E, orb_comm.
    f_equal. destruct (Z.eqb_spec (i mod 64) (j mod 64)), (Z.eqb_spec i j); try done; zlia.
  - destruct (Z.eqb_spec i j); [congruence|done].
Qed.

Lemma allocated_free i j p : allocated (MmpSetPageFree i p) j = negb (i =? j) && allocated p j.
Proof.
  unfold allocated, MmpSetPageFree, set_bitmap, MM_BITMAP_WORD_BITS. cbn [gMmPageBitmap].
  rewrite aget_aset. destruct (Z.eqb_spec (i / 64) (j / 64)) as [E|E].
  - rewrite Z.land_spec, E, andb_comm. f_equal.
    unfold lnot64. change 18446744073709551615 with (Z.ones 64).
    rewrite Z.lxor_spec, Z.shiftl_1_l, Z.pow2_bits_eqb, Z.testbit_ones_nonneg by zlia.
    destruct (Z.ltb_spec (j mod 64) 64); [|zlia]. cbn [xorb].
    destruct (Z.eqb_spec (i mod 64) (j mod 64)), (Z.eqb_spec i j); try done; zlia.
  - destruct (Z.eqb_spec i j); [congruence|done].
Qed.

(** What a [mm_pages] update leaves alone. *)
Lemma set_page_fields i p :
  gMmPageRefCount (MmpSetPageAllocated i p) = gMmPageRefCount p /\
  gMmTrackedPages (MmpSetPageAllocated i p) = gMmTrackedPages p /\
  gMmNextScanPage (MmpSetPageAllocated i p) = gMmNextScanPage p /\
  gMmPageRefCount (MmpSetPageFree i p) = gMmPageRefCount p /\
  gMmTrackedPages (MmpSetPageFree i p) = gMmTrackedPages p /\
  gMmNextScanPage (MmpSetPageFree i p) = gMmNextScanPage p.
Proof. repeat split. Qed.

(** The tracked range is within the arrays and the scan position within it. *)
Record pages_wf (p : mm_pages) : Prop := {
  pw_tracked : 0 <= gMmTrackedPages p <= MM_MAX_TRACKED_PAGES;
  pw_scan : gMmTrackedPages p = 0 \/ 0 <= gMmNextScanPage p < gMmTrackedPages p;
  pw_refs : forall i, 0 <= aget (gMmPageRefCount p) i < 2 ^ 32 }.

(** Every counted frame is marked allocated, so a release never frees a free
    frame. *)
Definition counts_allocated (p : mm_pages) : Prop :=
  forall i, 0 <= i < MM_MAX_TRACKED_PAGES -> 0 < aget (gMmPageRefCount p) i -> allocated p i = true.

(** ** Lemmas: the scan *)

Definition scan_index (p : mm_pages) (k : Z) : Z := (gMmNextScanPage p + k) mod gMmTrackedPages p.

Lemma scan_pages_spec p n : forall k, pages_wf p -> 0 < gMmTrackedPages p -> 0 <= k ->
  k + Z.of_nat n <= gMmTrackedPages p ->
  match scan_pages p n k with
  | Some Page => exists j, k <= j < k + Z.of_nat n /\ Page = scan_index p j /\
      allocated p Page = false /\ forall i, k <= i < j -> allocated p (scan_index p i) = true
  | None => forall i, k <= i < k + Z.of_nat n -> allocated p (scan_index p i) = true
  end.
Proof.
  induction n as [|n IH]; intros k W T Hk Hn; cbn [scan_pages].
  - intros i Hi. lia.
  - destruct W as [W1 W2 W3]. unfold MM_MAX_TRACKED_PAGES in W1.
    rewrite u32_small by lia. rewrite MmpIsPageAllocated_spec.
    fold (scan_index p k). destruct (allocated p (scan_index p k)) eqn:A; cbn [negb].
    + specialize (IH (k + 1) ltac:(by constructor) T ltac:(lia) ltac:(lia)).
      destruct (scan_pages p n (k + 1)) as [Page|].
      * destruct IH as (j & Hj & -> & F & B). exists j. split; [lia|]. split; [done|].
        split; [done|]. intros i Hi. destruct (Z.eq_dec i k) as [->|]; [done|]. apply B. lia.
      * intros i Hi. destruct (Z.eq_dec i k) as [->|]; [done|]. apply IH. lia.
    + exists k. split; [lia|]. split; [done|]. split; [done|]. intros i Hi. lia.
Qed.

(** Every tracked page is met by the cyclic scan. *)
Lemma scan_index_onto p i : pages_wf p -> 0 <= i < gMmTrackedPages p ->
  exists k, 0 <= k < gMmTrackedPages p /\ scan_index p k = i.
Proof.
  intros [_ [?|W2] _] Hi; [lia|]. unfold scan_index.
  exists ((i - gMmNextScanPage p) mod gMmTrackedPages p).
  split; [apply Z.mod_pos_bound; lia|].
  rewrite Z.add_mod_idemp_r by lia. rewrite Z.mod_small by lia. lia.
Qed.

Lemma scan_index_range p k : 0 < gMmTrackedPages p -> 0 <= scan_index p k < gMmTrackedPages p.
Proof. intros. apply Z.mod_pos_bound. lia. Qed.

(** The state after allocating [Page]. *)
Definition take_page (Page InitialRefCount : Z) (p : mm_pages) : mm_pages :=
  set_scan (u32 (Page + 1) mod gMmTrackedPages p)
    (set_refcount (aset (gMmPageRefCount p) Page InitialRefCount) (MmpSetPageAllocated Page p)).

(** The allocator's contract: the first free frame in cyclic order, or an error
    when there is none. *)
Lemma alloc_internal_spec p n :
  pages_wf p ->
  (exists k, 0 <= k < gMmTrackedPages p /\ allocated p (scan_index p k) = false /\
     (forall i, 0 <= i < k -> allocated p (scan_index p i) = true) /\
     MmpAllocPageInternal true n p
       = Ret (KSTATUS_SUCCESS, Some (scan_index p k * MM_PAGE_SIZE)) (take_page (scan_index p k) n p)) \/
  ((forall i, 0 <= i < gMmTrackedPages p -> allocated p i = true) /\
   exists st, st <> KSTATUS_SUCCESS /\ MmpAllocPageInternal true n p = Ret (st, None) p).
Proof.
  intros W. unfold MmpAllocPageInternal. cbn [negb orb].
  destruct (Z.eqb_spec (gMmTrackedPages p) 0) as [T0|T0].
  { right. split; [lia|]. by exists KSTATUS_INVALID_PARAMETER. }
  pose proof (pw_tracked _ W).
  pose proof (scan_pages_spec p (Z.to_nat (gMmTrackedPages p)) 0 W ltac:(lia) ltac:(lia) ltac:(lia)) as S.
  rewrite Z2Nat.id in S by lia.
  destruct (scan_pages _ _ 0) as [Page|].
  - left. destruct S as (k & Hk & -> & F & B). exists k. split; [lia|]. split; [done|]. by split.
  - right. split; [|by exists KSTATUS_INIT_FAILED].
    intros i Hi. destruct (scan_index_onto p i W Hi) as (k & Hk & <-). apply S. lia.
Qed.

Lemma take_page_wf i n p : pages_wf p -> 0 <= i < gMmTrackedPages p -> 0 <= n < 2 ^ 32 ->
  pages_wf (take_page i n p).
Proof.
  intros [W1 W2 W3] Hi Hn. constructor; cbn.
  - done.
  - right. apply Z.mod_pos_bound. lia.
  - intros j. rewrite aget_aset. by destruct (i =? j).
Qed.

Lemma take_page_allocated i n p j : allocated (take_page i n p) j = (i =? j) || allocated p j.
Proof. unfold take_page. apply allocated_set. Qed.

(** ** Lemmas: release and marking *)

Lemma allocated_set_refcount r p j : allocated (set_refcount r p) j = allocated p j.
Proof. reflexivity. Qed.

Lemma counts_allocated_take i n p :
  counts_allocated p -> counts_allocated (take_page i n p).
Proof.
  intros C j Hj. rewrite take_page_allocated. cbn. rewrite aget_aset.
  destruct (Z.eqb_spec i j); [done|]. apply C; done.
Qed.

Lemma release_spec pa p :
  pages_wf p -> 0 <= pa ->
  let i := pa / 4096 in
  pages_wf (MmpReleasePage pa p) /\
  (i < MM_MAX_TRACKED_PAGES -> aget (gMmPageRefCount p) i <> 0 ->
     aget (gMmPageRefCount (MmpReleasePage pa p)) i = aget (gMmPageRefCount p) i - 1 /\
     allocated (MmpReleasePage pa p) i
       = allocated p i && negb (aget (gMmPageRefCount p) i =? 1)) /\
  (MM_MAX_TRACKED_PAGES <= i \/ aget (gMmPageRefCount p) i = 0 -> MmpReleasePage pa p = p) /\
  (forall j, j <> i -> aget (gMmPageRefCount (MmpReleasePage pa p)) j = aget (gMmPageRefCount p) j /\
     allocated (MmpReleasePage pa p) j = allocated p j).
Proof.
  intros W Hp i. unfold MmpReleasePage, MM_PAGE_SIZE. fold i.
  destruct (Z.geb_spec i MM_MAX_TRACKED_PAGES) as [G|G]; cbn [orb].
  { split_and!; [done|lia|done|done]. }
  destruct (Z.eqb_spec (aget (gMmPageRefCount p) i) 0) as [E|E].
  { split_and!; [done|done|done|done]. }
  pose proof (pw_refs _ W i) as Hr. assert (0 <= i) by (unfold i; zlia).
  unfold MM_MAX_TRACKED_PAGES in G. rewrite (u32_small i) by lia.
  assert (WF : forall q, gMmTrackedPages q = gMmTrackedPages p -> gMmNextScanPage q = gMmNextScanPage p ->
    gMmPageRefCount q = aset (gMmPageRefCount p) i (aget (gMmPageRefCount p) i - 1) -> pages_wf q).
  { intros q Q1 Q2 Q3. constructor; rewrite ?Q1, ?Q2, ?Q3; [apply W|apply W|].
    intros j. rewrite aget_aset. destruct (i =? j); [lia|]. apply W. }
  destruct (Z.eqb_spec (aget (gMmPageRefCount p) i - 1) 0), (Z.eqb_spec (aget (gMmPageRefCount p) i) 1);
    try lia; (split_and!; [by apply WF| |unfold MM_MAX_TRACKED_PAGES; lia|]).
  - intros _ _. rewrite allocated_free, Z.eqb_refl, andb_false_r. cbn [gMmPageRefCount].
    split; [apply aget_aset_eq|done].
  - intros j Hj. rewrite allocated_free. destruct (Z.eqb_spec i j); [congruence|].
    split; [by apply aget_aset_ne|done].
  - intros _ _. rewrite andb_true_r. split; [apply aget_aset_eq|done].
  - intros j Hj. split; [apply aget_aset_ne; congruence|done].
Qed.

Lemma mark_pages_spec n : forall Page Al p j, pages_wf p -> 0 <= Page ->
  gMmTrackedPages (mark_pages n Page Al p) = gMmTrackedPages p /\
  gMmNextScanPage (mark_pages n Page Al p) = gMmNextScanPage p /\
  gMmPageRefCount (mark_pages n Page Al p) = gMmPageRefCount p /\
  allocated (mark_pages n Page Al p) j =
    if (Page <=? j) && (j <? Z.min (Page + Z.of_nat n) (gMmTrackedPages p)) then Al else allocated p j.
Proof.
  induction n as [|n IH]; intros Page Al p j W HP; cbn [mark_pages].
  - split_and!; try done.
    destruct (Z.leb_spec Page j), (Z.ltb_spec j (Z.min (Page + Z.of_nat 0) (gMmTrackedPages p)));
      try done; lia.
  - destruct (Z.geb_spec Page (gMmTrackedPages p)) as [G|G].
    + split_and!; try done.
      destruct (Z.leb_spec Page j), (Z.ltb_spec j (Z.min (Page + Z.of_nat (S n)) (gMmTrackedPages p)));
        try done; lia.
    + pose proof (pw_tracked _ W) as T. unfold MM_MAX_TRACKED_PAGES in T.
      rewrite (u32_small Page) by lia.
      set (p' := if Al then MmpSetPageAllocated Page p else MmpSetPageFree Page p).
      assert (W' : pages_wf p') by (unfold p'; destruct Al; constructor; apply W).
      assert (T' : gMmTrackedPages p' = gMmTrackedPages p) by (unfold p'; by destruct Al).
      destruct (IH (Page + 1) Al p' j W' ltac:(lia)) as (I1 & I2 & I3 & I4).
      split_and!; [congruence|rewrite I2; unfold p'; by destruct Al|
                   rewrite I3; unfold p'; by destruct Al|].
      rewrite I4, T'. assert (A : allocated p' j = if Page =? j then Al else allocated p j).
      { unfold p'. destruct Al; rewrite ?allocated_set, ?allocated_free; by destruct (Page =? j). }
      rewrite A.
      destruct (Z.leb_spec (Page + 1) j), (Z.ltb_spec j (Z.min (Page + 1 + Z.of_nat n) (gMmTrackedPages p))),
        (Z.leb_spec Page j), (Z.ltb_spec j (Z.min (Page + Z.of_nat (S n)) (gMmTrackedPages p))),
        (Z.eqb_spec Page j); cbn [andb]; try done; lia.
Qed.

(** The whole frame [j] lies in [Base, Base + Length). *)
Definition page_inside (Base Length j : Z) : Prop := Base <= j * 4096 /\ j * 4096 + 4096 <= Base + Length.

#[global] Instance page_inside_dec Base Length j : Decision (page_inside Base Length j).
Proof. unfold page_inside. apply _. Defined.

(** A range that does not wrap around the address space. *)
Definition range_ok (Base Length : Z) : Prop :=
  0 <= Base /\ 0 <= Length /\ Base + Length + 4096 <= 2 ^ 64.

Lemma mark_range_spec Base Length Al p j :
  pages_wf p -> range_ok Base Length ->
  pages_wf (MmpMarkRange Base Length Al p) /\
  gMmTrackedPages (MmpMarkRange Base Length Al p) = gMmTrackedPages p /\
  gMmPageRefCount (MmpMarkRange Base Length Al p) = gMmPageRefCount p /\
  allocated (MmpMarkRange Base Length Al p) j =
    if bool_decide (0 <= j < gMmTrackedPages p /\ page_inside Base Length j) then Al else allocated p j.
Proof.
  intros W (HB & HL & HO). unfold MmpMarkRange. change MM_PAGE_SIZE with 4096.
  unfold page_inside.
  destruct (Z.eqb_spec Length 0) as [->|L0]; cbn [orb].
  { rewrite bool_decide_eq_false_2 by lia. done. }
  destruct (Z.eqb_spec (gMmTrackedPages p) 0) as [T0|T0].
  { rewrite bool_decide_eq_false_2 by lia. done. }
  rewrite u64_small by lia.
  rewrite align_up_page, align_down_page by (unfold is_u64; lia).
  set (st := (Base + 4095) / 4096). set (en := (Base + Length) / 4096).
  assert (Hst : st * 4096 - 4096 < Base <= st * 4096) by (unfold st; zlia).
  assert (Hen : en * 4096 <= Base + Length < en * 4096 + 4096) by (unfold en; zlia).
  destruct (Z.leb_spec (en * 4096) (st * 4096)).
  { rewrite bool_decide_eq_false_2 by lia. done. }
  rewrite !Z.div_mul by lia.
  pose proof (pw_tracked _ W).
  destruct (mark_pages_spec (Z.to_nat (Z.min (en - st) (gMmTrackedPages p))) st Al p j W ltac:(lia))
    as (E1 & E2 & E3 & E4).
  split_and!; [|done|done|].
  - constructor; rewrite ?E1, ?E2, ?E3; apply W.
  - rewrite E4, Z2Nat.id by lia.
    destruct (Z.leb_spec st j), (Z.ltb_spec j (Z.min (st + Z.min (en - st) (gMmTrackedPages p)) (gMmTrackedPages p)));
      cbn [andb]; case_bool_decide; try done; lia.
Qed.

(** ** What the clients of the allocator may do *)

Inductive page_op := OpAlloc | OpFree (pa : Z) | OpRetain (pa : Z) | OpRelease (pa : Z).

(** The state after an operation, and the page an allocation returned. *)
Definition page_step (p : mm_pages) (o : page_op) : mm_pages * option Z :=
  match o with
  | OpAlloc => match MmAllocPage true true p with Ret (_, r) p' => (p', r) | _ => (p, None) end
  | OpFree pa => match MmFreePage true pa p with Ret _ p' => (p', None) | _ => (p, None) end
  | OpRetain pa => (MmpRetainPage pa p, None)
  | OpRelease pa => (MmpReleasePage pa p, None)
  end.

Fixpoint page_run (p : mm_pages) (ops : list page_op) : mm_pages * list Z :=
  match ops with
  | [] => (p, [])
  | o :: ops' =>
      let '(p1, r) := page_step p o in
      let '(p2, rs) := page_run p1 ops' in
      (p2, match r with Some pa => pa :: rs | None => rs end)
  end.

(** An operation on non-negative addresses that cannot give frame [i] back. *)
Definition keeps (i : Z) (o : page_op) : Prop :=
  match o with
  | OpAlloc => True
  | OpFree pa | OpRelease pa => 0 <= pa /\ pa / 4096 <> i
  | OpRetain pa => 0 <= pa
  end.

Lemma free_spec pa p : pages_wf p -> 0 <= pa ->
  let i := pa / 4096 in
  (pa mod 4096 = 0 /\ i < gMmTrackedPages p /\ allocated p i = true /\
   exists p', MmFreePage true pa p = Ret KSTATUS_SUCCESS p' /\ pages_wf p' /\
     gMmTrackedPages p' = gMmTrackedPages p /\ gMmNextScanPage p' = gMmNextScanPage p /\
     (forall j, allocated p' j = negb (i =? j) && allocated p j) /\
     (forall j, aget (gMmPageRefCount p') j = if i =? j then 0 else aget (gMmPageRefCount p) j)) \/
  ((pa mod 4096 <> 0 \/ gMmTrackedPages p <= i \/ allocated p i = false) /\
   MmFreePage true pa p = Ret KSTATUS_INVALID_PARAMETER p).
Proof.
  intros W Hp i. unfold MmFreePage, MM_PAGE_SIZE. cbn [negb orb]. fold i.
  destruct (Z.eqb_spec (pa mod 4096) 0) as [E|E]; cbn [negb]; [|by right; auto].
  destruct (Z.geb_spec i (gMmTrackedPages p)) as [G|G]; [by right; auto|].
  pose proof (pw_tracked _ W) as T. unfold MM_MAX_TRACKED_PAGES in T.
  assert (0 <= i) by (unfold i; zlia).
  rewrite MmpIsPageAllocated_spec, (u32_small i) by lia.
  destruct (allocated p i) eqn:A; cbn [negb]; [|by right; auto].
  left. split_and!; [done|done|done|]. eexists. split; [reflexivity|]. split_and!.
  - constructor; cbn; [apply W|apply W|]. intros j. rewrite aget_aset.
    destruct (i =? j); [lia|apply W].
  - done.
  - done.
  - intros j. by rewrite allocated_free.
  - intros j. cbn. apply aget_aset.
Qed.

Lemma retain_fields pa p : pages_wf p ->
  pages_wf (MmpRetainPage pa p) /\ (forall j, allocated (MmpRetainPage pa p) j = allocated p j) /\
  gMmTrackedPages (MmpRetainPage pa p) = gMmTrackedPages p.
Proof.
  intros W. unfold MmpRetainPage. destruct (_ && _); [|done]. split; [|done].
  constructor; cbn; [apply W|apply W|]. intros j. rewrite aget_aset.
  destruct (_ =? j); [apply u32_range|apply W].
Qed.

Lemma page_step_wf p o : pages_wf p ->
  match o with OpAlloc => True | OpFree pa | OpRetain pa | OpRelease pa => 0 <= pa end ->
  pages_wf (page_step p o).1.
Proof.
  intros W Ho. destruct o as [|pa|pa|pa]; cbn [page_step].
  - unfold MmAllocPage. cbn [negb orb].
    destruct (alloc_internal_spec p 1 W) as [(k & Hk & _ & _ & ->)|(_ & st & _ & ->)]; [|done].
    cbn [fst]. apply take_page_wf; [done| |lia]. apply scan_index_range. lia.
  - destruct (free_spec pa p W Ho) as [(_ & _ & _ & p' & -> & W' & _)|(_ & ->)]; done.
  - by apply retain_fields.
  - by apply release_spec.
Qed.

Lemma page_step_keeps p o i : pages_wf p -> allocated p i = true -> keeps i o ->
  allocated (page_step p o).1 i = true /\ (page_step p o).2 <> Some (i * 4096).
Proof.
  intros W A K. destruct o as [|pa|pa|pa]; cbn [page_step keeps] in *.
  - unfold MmAllocPage. cbn [negb orb].
    destruct (alloc_internal_spec p 1 W) as [(k & Hk & F & _ & ->)|(_ & st & _ & ->)]; [|done].
    cbn [fst snd]. rewrite take_page_allocated, A, orb_true_r. split; [done|].
    unfold MM_PAGE_SIZE. intros [= E]. assert (scan_index p k = i) by lia. congruence.
  - destruct K as [K1 K2].
    destruct (free_spec pa p W K1) as [(_ & _ & _ & p' & -> & _ & _ & _ & HA & _)|(_ & ->)];
      [|done]. cbn [fst snd]. rewrite HA, A. by destruct (Z.eqb_spec (pa / 4096) i).
  - cbn [fst snd]. split; [|done]. by rewrite (proj1 (proj2 (retain_fields pa p W))).
  - cbn [fst snd]. split; [|done]. destruct K as [K1 K2].
    destruct (release_spec pa p W K1) as (_ & _ & _ & R). destruct (R i) as [_ ->]; done.
Qed.

(** ** Properties *)

(** The frame allocator hands out a tracked, free frame, the first one in
    cyclic order from the scan position, marks exactly that frame allocated with
    the initial count, and keeps everything else; it fails exactly when every
    tracked frame is allocated, and then changes nothing. *)
Theorem MmpAllocPageInternal_correct p n :
  pages_wf p -> 0 <= n < 2 ^ 32 ->
  (exists k p', 0 <= k < gMmTrackedPages p /\
     let i := (gMmNextScanPage p + k) mod gMmTrackedPages p in
     MmpAllocPageInternal true n p = Ret (KSTATUS_SUCCESS, Some (i * 4096)) p' /\
     allocated p i = false /\
     (forall k', 0 <= k' < k -> allocated p ((gMmNextScanPage p + k') mod gMmTrackedPages p) = true) /\
     pages_wf p' /\ (forall j, allocated p' j = (i =? j) || allocated p j) /\
     (forall j, aget (gMmPageRefCount p') j = if i =? j then n else aget (gMmPageRefCount p) j) /\
     (counts_allocated p -> counts_allocated p')) \/
  ((forall i, 0 <= i < gMmTrackedPages p -> allocated p i = true) /\
   exists st, st <> KSTATUS_SUCCESS /\ MmpAllocPageInternal true n p = Ret (st, None) p).
Proof.
  intros W Hn. destruct (alloc_internal_spec p n W) as [(k & Hk & F & B & E)|[A E]]; [left|by right].
  exists k. eexists. split; [done|]. cbn zeta. split; [exact E|]. split_and!.
  - done.
  - done.
  - apply take_page_wf; [done| |done]. apply scan_index_range. lia.
  - intros j. apply take_page_allocated.
  - intros j. apply aget_aset.
  - apply counts_allocated_take.
Qed.

(** C13: exclusive ownership: while nobody frees or releases frame [i], no
    sequence of allocations, frees, retains and releases of other frames hands
    frame [i] out a second time, and it stays allocated. *)
Theorem page_run_exclusive ops p i :
  pages_wf p -> allocated p i = true -> Forall (keeps i) ops ->
  allocated (page_run p ops).1 i = true /\ i * 4096 ∉ (page_run p ops).2.
Proof.
  intros W A K. revert p W A. induction K as [|o ops Ho _ IH]; intros p W A; cbn [page_run].
  { split; [done|]. set_solver. }
  destruct (page_step_keeps p o i W A Ho) as [A1 N1].
  assert (W1 : pages_wf (page_step p o).1).
  { apply page_step_wf; [done|]. destruct o; naive_solver. }
  destruct (page_step p o) as [p1 r]. cbn [fst snd] in *.
  destruct (IH p1 W1 A1) as [A2 N2]. destruct (page_run p1 ops) as [p2 rs]. cbn [fst snd] in *.
  split; [done|]. destruct r as [pa|]; [|done].
  intros [Epa|?]%elem_of_cons; [by apply N1; rewrite Epa|by apply N2].
Qed.

(** Freeing: [MmFreePage] takes back exactly an aligned, tracked, allocated
    frame (so a second free is refused); afterwards the frame is free with count
    zero, the other frames are untouched, and the next allocation succeeds. *)
Theorem MmFreePage_correct p pa :
  pages_wf p -> 0 <= pa ->
  let i := pa / 4096 in
  (pa mod 4096 = 0 /\ i < gMmTrackedPages p /\ allocated p i = true /\
   exists p', MmFreePage true pa p = Ret KSTATUS_SUCCESS p' /\ pages_wf p' /\
     (forall j, allocated p' j = negb (i =? j) && allocated p j) /\
     (forall j, aget (gMmPageRefCount p') j = if i =? j then 0 else aget (gMmPageRefCount p) j) /\
     MmFreePage true pa p' = Ret KSTATUS_INVALID_PARAMETER p' /\
     exists pa' p'', MmAllocPage true true p' = Ret (KSTATUS_SUCCESS, Some pa') p'') \/
  ((pa mod 4096 <> 0 \/ gMmTrackedPages p <= i \/ allocated p i = false) /\
   MmFreePage true pa p = Ret KSTATUS_INVALID_PARAMETER p).
Proof.
  intros W Hp i. destruct (free_spec pa p W Hp) as [(Hm & Ht & A & p' & E & W' & T & _ & HA & HR)|R];
    [left|by right].
  split_and!; [done|done|done|]. exists p'. split_and!; [done|done|done|done| |].
  - destruct (free_spec pa p' W' Hp) as [(_ & _ & A' & _)|[_ ?]]; [|done].
    rewrite HA, Z.eqb_refl in A'. done.
  - unfold MmAllocPage. cbn [negb orb].
    destruct (alloc_internal_spec p' 1 W') as [(k & _ & _ & _ & E')|(A' & _)]; [by do 2 eexists|].
    specialize (A' i). rewrite HA, T in A'. fold i in A'. rewrite Z.eqb_refl in A'.
    assert (0 <= i) by (unfold i; zlia). discriminate A'. lia.
Qed.

(** Reference counts: retaining then releasing a counted frame changes
    nothing; a release takes one reference, frees the frame exactly when it was
    the last one, and touches no other frame. *)
Theorem MmpReleasePage_counts p pa :
  pages_wf p -> 0 <= pa -> pa / 4096 < MM_MAX_TRACKED_PAGES ->
  let i := pa / 4096 in
  0 < aget (gMmPageRefCount p) i -> aget (gMmPageRefCount p) i + 1 < 2 ^ 32 ->
  (aget (gMmPageRefCount (MmpReleasePage pa p)) i = aget (gMmPageRefCount p) i - 1 /\
   allocated (MmpReleasePage pa p) i = allocated p i && negb (aget (gMmPageRefCount p) i =? 1)) /\
  (forall j, j <> i -> aget (gMmPageRefCount (MmpReleasePage pa p)) j = aget (gMmPageRefCount p) j /\
     allocated (MmpReleasePage pa p) j = allocated p j) /\
  (forall j, aget (gMmPageRefCount (MmpReleasePage pa (MmpRetainPage pa p))) j
       = aget (gMmPageRefCount p) j /\
     allocated (MmpReleasePage pa (MmpRetainPage pa p)) j = allocated p j).
Proof.
  intros W Hp Hi i H0 H1. destruct (release_spec pa p W Hp) as (_ & R1 & _ & R2). fold i in Hi, R1, R2.
  split; [apply R1; lia|]. split; [exact R2|].
  set (q := MmpRetainPage pa p).
  assert (Q : gMmPageRefCount q = aset (gMmPageRefCount p) i (aget (gMmPageRefCount p) i + 1)).
  { unfold q, MmpRetainPage, MM_PAGE_SIZE. fold i.
    destruct (Z.ltb_spec i MM_MAX_TRACKED_PAGES); [|lia].
    destruct (Z.eqb_spec (aget (gMmPageRefCount p) i) 0); [lia|]. cbn [andb negb].
    by rewrite u32_small by lia. }
  destruct (retain_fields pa p W) as (Wq & Aq & _). fold q in Wq, Aq.
  destruct (release_spec pa q Wq Hp) as (_ & S1 & _ & S2). fold i in S1, S2.
  rewrite Q in S1, S2. rewrite aget_aset_eq in S1.
  intros j. destruct (Z.eq_dec j i) as [->|N].
  - destruct S1 as [E1 E2]; [done|lia|]. split; [lia|]. rewrite E2, Aq.
    destruct (Z.eqb_spec (aget (gMmPageRefCount p) i + 1) 1); [lia|]. by rewrite andb_true_r.
  - destruct (S2 j N) as [-> ->]. rewrite aget_aset_ne by congruence. by rewrite Aq.
Qed.

(** Marking a range touches exactly the tracked frames that lie wholly inside
    it: freeing a usable range never frees a frame that sticks out of it, and
    reserving one (a range shorter than a page, say) leaves the frames it only
    partly covers as they were. *)
Theorem MmpMarkRange_exact p Base Length Al :
  pages_wf p -> range_ok Base Length ->
  pages_wf (MmpMarkRange Base Length Al p) /\
  (forall j, allocated (MmpMarkRange Base Length Al p) j =
     if bool_decide (0 <= j < gMmTrackedPages p /\ page_inside Base Length j)
     then Al else allocated p j) /\
  (Length < 4096 -> forall j, allocated (MmpMarkRange Base Length Al p) j = allocated p j).
Proof.
  intros W R. split; [by apply (mark_range_spec Base Length Al p 0 W R)|].
  split.
  - intros j. by destruct (mark_range_spec Base Length Al p j W R) as (_ & _ & _ & E).
  - intros L j. destruct (mark_range_spec Base Length Al p j W R) as (_ & _ & _ & ->).
    rewrite bool_decide_eq_false_2; [done|]. unfold page_inside. lia.
Qed.

(** ** The frames free after start-up *)

(** Entry [k] of the boot memory map. *)
Definition map_entry (m : mem) (b : BOOT_INFO) (k : Z) : PHYSICAL_MEMORY_RANGE :=
  load_range m (MemoryMap b + k * MemoryMapEntrySize b).

(** The ranges of the boot record do not wrap around, and the map does not
    either. *)
Record boot_ok (m : mem) (ptr : BOOT_INFO_PTR) (b : BOOT_INFO) : Prop := {
  bo_value : bi_value ptr = b;
  bo_map : 0 < MemoryMap b; bo_size : 0 < MemoryMapEntrySize b;
  bo_count : 0 <= MemoryMapEntryCount b;
  bo_bytes : range_ok (MemoryMap b) (MemoryMapEntryCount b * MemoryMapEntrySize b);
  bo_entries : forall k, 0 <= k < MemoryMapEntryCount b ->
    range_ok (RangeBase (map_entry m b k)) (RangeLength (map_entry m b k));
  bo_kernel : range_ok (KernelBase b) (KernelSize b);
  bo_loader : range_ok (LoaderBase b) 0x200000;
  bo_init : range_ok (InitImageBase b) (InitImageSize b);
  bo_self : range_ok (bi_address ptr) sizeof_BOOT_INFO }.

Definition usable_frame (m : mem) (b : BOOT_INFO) (n j : Z) : Prop :=
  exists k, 0 <= k < n /\ MmpIsRangeUsable (RangeType (map_entry m b k)) = true /\
    page_inside (RangeBase (map_entry m b k)) (RangeLength (map_entry m b k)) j.

Definition reserved_frame (ptr : BOOT_INFO_PTR) (b : BOOT_INFO) (j : Z) : Prop :=
  page_inside 0 0x100000 j \/ page_inside (KernelBase b) (KernelSize b) j \/
  page_inside (LoaderBase b) 0x200000 j \/
  (any_flag (Flags b) BOOTINFO_FLAG_INIT_IMAGE_PRESENT = true /\ InitImageBase b <> 0 /\
   page_inside (InitImageBase b) (InitImageSize b) j) \/
  page_inside (bi_address ptr) sizeof_BOOT_INFO j \/
  page_inside (MemoryMap b) (MemoryMapEntryCount b * MemoryMapEntrySize b) j.

(** A marking as a statement about free frames. *)
Lemma mark_range_free Base Length Al p j :
  pages_wf p -> range_ok Base Length -> 0 <= j < gMmTrackedPages p ->
  pages_wf (MmpMarkRange Base Length Al p) /\
  gMmTrackedPages (MmpMarkRange Base Length Al p) = gMmTrackedPages p /\
  (allocated (MmpMarkRange Base Length Al p) j = false <->
   if Al then allocated p j = false /\ ~ page_inside Base Length j
   else allocated p j = false \/ page_inside Base Length j).
Proof.
  intros W R Hj. destruct (mark_range_spec Base Length Al p j W R) as (W' & T & _ & E).
  split; [done|]. split; [done|]. rewrite E.
  destruct (decide (page_inside Base Length j)) as [I|I].
  - rewrite bool_decide_eq_true_2 by done. destruct Al; naive_solver.
  - rewrite bool_decide_eq_false_2 by naive_solver. destruct Al; naive_solver.
Qed.

Lemma mark_usable_free m b n : forall k p j,
  (forall k, 0 <= k < MemoryMapEntryCount b ->
     range_ok (RangeBase (map_entry m b k)) (RangeLength (map_entry m b k))) ->
  range_ok (MemoryMap b) (MemoryMapEntryCount b * MemoryMapEntrySize b) -> 0 < MemoryMapEntrySize b ->
  pages_wf p -> 0 <= k -> k + Z.of_nat n = MemoryMapEntryCount b -> 0 <= j < gMmTrackedPages p ->
  let p' := mark_usable m n (MemoryMap b + k * MemoryMapEntrySize b) (MemoryMapEntrySize b) p in
  pages_wf p' /\ gMmTrackedPages p' = gMmTrackedPages p /\
  (allocated p' j = false <-> allocated p j = false \/
   exists i, k <= i < k + Z.of_nat n /\ MmpIsRangeUsable (RangeType (map_entry m b i)) = true /\
     page_inside (RangeBase (map_entry m b i)) (RangeLength (map_entry m b i)) j).
Proof.
  induction n as [|n IH]; intros k p j RE RM S W Hk Hn Hj; cbn [mark_usable].
  { split; [done|]. split; [done|]. split; [by left|]. intros [?|(i & Hi & _)]; [done|lia]. }
  cbn zeta. fold (map_entry m b k).
  assert (Hcur : u64 (MemoryMap b + k * MemoryMapEntrySize b + MemoryMapEntrySize b)
    = MemoryMap b + (k + 1) * MemoryMapEntrySize b).
  { destruct RM as (? & ? & ?). rewrite u64_small; [lia|]. nia. }
  rewrite Hcur.
  set (p1 := if MmpIsRangeUsable _ then _ else p).
  assert (P1 : pages_wf p1 /\ gMmTrackedPages p1 = gMmTrackedPages p /\
    (allocated p1 j = false <-> allocated p j = false \/
     (MmpIsRangeUsable (RangeType (map_entry m b k)) = true /\
      page_inside (RangeBase (map_entry m b k)) (RangeLength (map_entry m b k)) j))).
  { unfold p1. destruct (MmpIsRangeUsable _).
    - destruct (mark_range_free (RangeBase (map_entry m b k)) (RangeLength (map_entry m b k)) false p j W)
        as (W1 & T1 & F1); [apply RE; lia|done|]. split; [done|]. split; [done|]. rewrite F1. naive_solver.
    - split; [done|]. split; [done|]. naive_solver. }
  destruct P1 as (W1 & T1 & F1).
  destruct (IH (k + 1) p1 j RE RM S W1) as (W2 & T2 & F2); [lia|lia|lia|].
  split; [done|]. split; [congruence|]. rewrite F2, F1. split.
  - intros [[?|[? ?]]|(i & Hi & ?)]; [by left|right; exists k; split; [lia|done]|
      right; exists i; split; [lia|done]].
  - intros [?|(i & Hi & U & I)]; [by left; left|].
    destruct (Z.eq_dec i k) as [->|]; [by left; right|]. right. exists i. split; [lia|done].
Qed.

Lemma reserve_free m ptr b p j : boot_ok m ptr b -> pages_wf p -> 0 <= j < gMmTrackedPages p ->
  pages_wf (MmpReserveBootCriticalRanges (Some ptr) p) /\
  gMmTrackedPages (MmpReserveBootCriticalRanges (Some ptr) p) = gMmTrackedPages p /\
  (allocated (MmpReserveBootCriticalRanges (Some ptr) p) j = false <->
   allocated p j = false /\ ~ reserved_frame ptr b j).
Proof.
  intros [Hv BM BS BC BB BE BK BL BI BSelf] W Hj. unfold MmpReserveBootCriticalRanges. rewrite Hv.
  unfold reserved_frame. cbn zeta.
  pose proof BB as (? & ? & ?). rewrite (u64_small (MemoryMapEntryCount b * _)) by lia.
  destruct (mark_range_free 0 0x100000 true p j W ltac:(unfold range_ok; lia) Hj) as (W1 & T1 & F1).
  revert W1 T1 F1. generalize (MmpMarkRange 0 0x100000 true p) as p1. intros p1 W1 T1 F1.
  destruct (mark_range_free _ _ true p1 j W1 BK ltac:(lia)) as (W2 & T2 & F2).
  revert W2 T2 F2. generalize (MmpMarkRange (KernelBase b) (KernelSize b) true p1) as p2. intros p2 W2 T2 F2.
  destruct (mark_range_free _ _ true p2 j W2 BL ltac:(lia)) as (W3 & T3 & F3).
  revert W3 T3 F3. generalize (MmpMarkRange (LoaderBase b) 0x200000 true p2) as p3. intros p3 W3 T3 F3.
  match goal with |- context [if ?c then _ else p3] => set (p4 := if c then _ else p3) end.
  assert (P4 : pages_wf p4 /\ gMmTrackedPages p4 = gMmTrackedPages p3 /\
    (allocated p4 j = false <-> allocated p3 j = false /\
     ~ (any_flag (Flags b) BOOTINFO_FLAG_INIT_IMAGE_PRESENT = true /\ InitImageBase b <> 0 /\
        page_inside (InitImageBase b) (InitImageSize b) j))).
  { unfold p4. destruct (mark_range_free _ _ true p3 j W3 BI ltac:(lia)) as (W4 & T4 & F4).
    destruct (any_flag _ _); cbn [andb]; [|split; [done|]; split; [done|]; naive_solver].
    destruct (Z.eqb_spec (InitImageBase b) 0); cbn [andb negb];
      [split; [done|]; split; [done|]; naive_solver|].
    destruct (Z.eqb_spec (InitImageSize b) 0) as [E|]; cbn [andb negb].
    - split; [done|]. split; [done|]. unfold page_inside. rewrite E. split; [|tauto].
      intros ?. split; [done|]. lia.
    - split; [done|]. split; [done|]. rewrite F4. tauto. }
  clearbody p4. destruct P4 as (W4 & T4 & F4).
  destruct (mark_range_free _ _ true p4 j W4 BSelf ltac:(lia)) as (W5 & T5 & F5).
  revert W5 T5 F5. generalize (MmpMarkRange (bi_address ptr) sizeof_BOOT_INFO true p4) as p5.
  intros p5 W5 T5 F5.
  destruct (mark_range_free _ _ true p5 j W5 BB ltac:(lia)) as (W6 & T6 & F6).
  split; [done|]. split; [congruence|]. tauto.
Qed.

Lemma initial_bitmap j : 0 <= j < MM_MAX_TRACKED_PAGES ->
  Z.testbit (aget (afill ∅ 0 (Z.to_nat MM_BITMAP_WORD_COUNT) 0xFFFFFFFFFFFFFFFF) (j / 64)) (j mod 64) = true.
Proof.
  unfold MM_BITMAP_WORD_COUNT, MM_MAX_TRACKED_PAGES, MM_BITMAP_WORD_BITS. intros Hj.
  rewrite aget_afill. change (Z.of_nat (Z.to_nat (262144 / 64))) with 4096.
  destruct (Z.leb_spec 0 (j / 64)), (Z.ltb_spec (j / 64) (0 + 4096)); try zlia. cbn [andb].
  change 0xFFFFFFFFFFFFFFFF with (Z.ones 64). apply Z.ones_spec_low. zlia.
Qed.

(** After start-up a frame is free exactly when it is tracked, lies wholly
    inside a usable range of the boot memory map and not wholly inside a reserved
    range (the low megabyte, the kernel, the loader, the init image, the boot
    record and the memory map itself). *)
Theorem init_pages_free top m ptr b j :
  boot_ok m ptr b -> 0 <= top -> 0 <= j ->
  pages_wf (init_pages top m ptr) /\
  (j < gMmTrackedPages (init_pages top m ptr) <-> j < Z.min (top / 4096) 262144) /\
  (j < Z.min (top / 4096) 262144 ->
   (allocated (init_pages top m ptr) j = false <->
    usable_frame m b (MemoryMapEntryCount b) j /\ ~ reserved_frame ptr b j)).
Proof.
  intros B Ht Hj0. unfold init_pages. cbn zeta. change MM_PAGE_SIZE with 4096.
  set (t := if top / 4096 >? MM_MAX_TRACKED_PAGES then _ else _).
  assert (Ht' : t = Z.min (top / 4096) 262144).
  { unfold t, MM_MAX_TRACKED_PAGES. destruct (Z.gtb_spec (top / 4096) 262144); lia. }
  clearbody t. assert (0 <= t) by zlia. subst t.
  set (p0 := {| gMmPageBitmap := _ |}).
  assert (W0 : pages_wf p0).
  { constructor; cbn; [unfold MM_MAX_TRACKED_PAGES; lia|lia|]. intros i. rewrite aget_empty. lia. }
  assert (A0 : 0 <= j < gMmTrackedPages p0 -> allocated p0 j = true).
  { cbn. intros Hj. apply initial_bitmap. unfold MM_MAX_TRACKED_PAGES. lia. }
  assert (U : forall j, 0 <= j < gMmTrackedPages p0 ->
    let p' := MmpMarkUsableFromBootInfo m (Some ptr) p0 in
    pages_wf p' /\ gMmTrackedPages p' = gMmTrackedPages p0 /\
    (allocated p' j = false <-> allocated p0 j = false \/
      usable_frame m b (MemoryMapEntryCount b) j)).
  { intros i Hi. unfold MmpMarkUsableFromBootInfo. rewrite (bo_value _ _ _ B).
    pose proof (bo_map _ _ _ B). pose proof (bo_size _ _ _ B). pose proof (bo_count _ _ _ B).
    destruct (Z.eqb_spec (MemoryMap b) 0), (Z.eqb_spec (MemoryMapEntrySize b) 0); try lia. cbn [orb].
    pose proof (mark_usable_free m b (Z.to_nat (MemoryMapEntryCount b)) 0 p0 i (bo_entries _ _ _ B)
      (bo_bytes _ _ _ B) ltac:(lia) W0 ltac:(lia) ltac:(lia) Hi) as P.
    cbn zeta in P. rewrite Z.mul_0_l, Z.add_0_r, Z.add_0_l, Z2Nat.id in P by lia. exact P. }
  destruct (decide (0 < gMmTrackedPages p0)) as [T0|T0].
  - destruct (U 0 ltac:(lia)) as (W1 & T1 & _).
    destruct (reserve_free m ptr b _ 0 B W1 ltac:(lia)) as (W2 & T2 & _).
    split; [done|]. split; [by rewrite T2, T1|].
    intros Hj. assert (Hj' : 0 <= j < gMmTrackedPages p0) by (cbn; lia).
    destruct (U j Hj') as (_ & _ & F1).
    destruct (reserve_free m ptr b _ j B W1 ltac:(lia)) as (_ & _ & F2).
    rewrite F2, F1, A0 by done. naive_solver.
  - assert (Z0 : Z.min (top / 4096) 262144 = 0) by (cbn in T0; lia).
    assert (N : forall B' L' Al', MmpMarkRange B' L' Al' p0 = p0).
    { intros. unfold MmpMarkRange. change (gMmTrackedPages p0) with (Z.min (top / 4096) 262144).
      rewrite Z0. by rewrite orb_true_r. }
    assert (NU : forall n c, mark_usable m n c (MemoryMapEntrySize b) p0 = p0).
    { induction n as [|n IH]; intros c; cbn [mark_usable]; [done|].
      rewrite N. destruct (MmpIsRangeUsable _); apply IH. }
    assert (E : MmpReserveBootCriticalRanges (Some ptr) (MmpMarkUsableFromBootInfo m (Some ptr) p0) = p0).
    { unfold MmpMarkUsableFromBootInfo, MmpReserveBootCriticalRanges. rewrite (bo_value _ _ _ B).
      destruct (_ || _); rewrite ?NU, !N; by destruct (_ && _); rewrite ?N. }
    rewrite E. split; [done|]. split; [done|lia].
Qed.

(** ** Witnesses: eight frames, frame 1 allocated with count 2 *)

Definition pages8 : mm_pages :=
  {| gMmPageBitmap := aset ∅ 0 2; gMmPageRefCount := aset ∅ 1 2;
     gMmTrackedPages := 8; gMmNextScanPage := 1 |}.

Lemma pages8_wf : pages_wf pages8.
Proof.
  constructor; cbn; [unfold MM_MAX_TRACKED_PAGES; lia|lia|].
  intros i. rewrite aget_aset, aget_empty. destruct (1 =? i); lia.
Qed.

Lemma MmpAllocPageInternal_correct_witness :
  exists p', MmpAllocPageInternal true 1 pages8 = Ret (KSTATUS_SUCCESS, Some 8192) p' /\ pages_wf p'.
Proof.
  destruct (MmpAllocPageInternal_correct pages8 1 pages8_wf) as [(k & p' & Hk & E & F & B & W & _)|[A _]];
    [lia| |].
  - exists p'. split; [|exact W]. rewrite E. do 2 f_equal.
    assert (k = 1) as ->; [|reflexivity].
    destruct (decide (1 < k)) as [L|L].
    + specialize (B 1 ltac:(lia)). discriminate B.
    + assert (k = 0 \/ k = 1) as [->| ->] by lia; [discriminate F|reflexivity].
  - specialize (A 2 ltac:(cbn; lia)). discriminate A.
Defined.

Lemma page_run_exclusive_witness :
  (page_run pages8 [OpAlloc; OpFree 8192; OpAlloc]).2 = [8192; 12288] /\
  1 * 4096 ∉ (page_run pages8 [OpAlloc; OpFree 8192; OpAlloc]).2.
Proof.
  split; [reflexivity|].
  apply (page_run_exclusive [OpAlloc; OpFree 8192; OpAlloc] pages8 1 pages8_wf eq_refl).
  rewrite !Forall_cons, Forall_nil. cbn [keeps].
  split_and!; first [exact I | lia | discriminate].
Defined.

Lemma MmFreePage_correct_witness :
  exists p', MmFreePage true 4096 pages8 = Ret KSTATUS_SUCCESS p' /\
    MmFreePage true 4096 p' = Ret KSTATUS_INVALID_PARAMETER p'.
Proof.
  destruct (MmFreePage_correct pages8 4096 pages8_wf) as [(_ & _ & _ & p' & E & _ & _ & _ & D & _)|[H _]];
    [lia|by exists p'|].
  exfalso. destruct H as [H|[H|H]]; [by apply H|by apply H|discriminate H].
Defined.

Lemma MmpReleasePage_counts_witness :
  aget (gMmPageRefCount (MmpReleasePage 4096 pages8)) 1 = 1 /\
  allocated (MmpReleasePage 4096 pages8) 1 = true.
Proof.
  destruct (MmpReleasePage_counts pages8 4096 pages8_wf) as [[H1 H2] _];
    [lia|reflexivity|reflexivity|reflexivity|].
  split; [exact H1|exact H2].
Defined.

Lemma MmpMarkRange_exact_witness :
  allocated (MmpMarkRange 4000 9000 true pages8) 1 = true /\
  allocated (MmpMarkRange 4000 9000 true pages8) 0 = false /\
  allocated (MmpMarkRange 4000 120 true pages8) 0 = false.
Proof.
  destruct (MmpMarkRange_exact pages8 4000 9000 true pages8_wf) as (_ & E & _);
    [unfold range_ok; lia|].
  destruct (MmpMarkRange_exact pages8 4000 120 true pages8_wf) as (_ & _ & N);
    [unfold range_ok; lia|].
  rewrite (E 1), (E 0), (N ltac:(lia) 0). split_and!; reflexivity.
Defined.

(** A machine with sixteen megabytes and a one-entry memory map. *)
Definition boot_mem : mem :=
  store32 (store64 (store64 ∅ 0x50000 0x100000) 0x50008 0xf00000) 0x50010 7.
Definition boot_rec : BOOT_INFO :=
  {| Magic := BOOTINFO_MAGIC; Version := 1; Size := 120; Flags := 0; FirmwareType := 1;
     LoaderBase := 0x400000; KernelBase := 0x200000; KernelSize := 0x100000;
     KernelEntry := 0x200000; InitImageBase := 0; InitImageSize := 0;
     MemoryMap := 0x50000; MemoryMapEntryCount := 1; MemoryMapEntrySize := 24;
     Video := {| FrameBufferBase := 0; FrameBufferSize := 0; Width := 0; Height := 0;
                 PixelsPerScanLine := 0; PixelFormat := 0 |} |}.
Definition boot_ptr : BOOT_INFO_PTR := {| bi_address := 0x60000; bi_value := boot_rec |}.

Lemma boot_entry0 : map_entry boot_mem boot_rec 0 =
  {| RangeBase := 0x100000; RangeLength := 0xf00000; RangeType := 7; RangeAttributes := 0 |}.
Proof. vm_compute. reflexivity. Qed.

Lemma boot_ptr_ok : boot_ok boot_mem boot_ptr boot_rec.
Proof.
  constructor; try (unfold range_ok, sizeof_BOOT_INFO; cbn; lia); [reflexivity|].
  intros k Hk. cbn in Hk. assert (k = 0) as -> by lia. rewrite boot_entry0.
  unfold range_ok. cbn. lia.
Qed.

Lemma init_pages_free_witness :
  allocated (init_pages 0x1000000 boot_mem boot_ptr) 0x700 = false.
Proof.
  destruct (init_pages_free 0x1000000 boot_mem boot_ptr boot_rec 0x700 boot_ptr_ok) as (_ & _ & F);
    [lia|lia|].
  apply F; [reflexivity|]. split.
  - exists 0. rewrite boot_entry0. cbn. unfold page_inside. split_and!; [lia|lia|reflexivity|lia|lia].
  - unfold reserved_frame, page_inside. cbn. unfold sizeof_BOOT_INFO. lia.
Defined.
