(* ===== verification/MmTables.v ===== *)
(** * Memory manager, page tables: kernel/mm/init.c

    Four-level page tables in physical memory: the walk that creates missing
    tables and splits 2 MiB entries, mapping, unmapping, protecting and querying
    a page, the clone of the firmware's root table and the physmap.

    The machine is the manager's state, the RAM, the CR3 register and the list
    of pages [invlpg] was executed for, the last one first.  The kernel reaches
    RAM through pointers: [kva_to_pa] is where a pointer points, the identity
    map while the firmware's tables are in use and the physmap afterwards. *)

From S2P Require Import Prelude BootProto PhysMem MmPages.

(** ** Constants: kernel/mm/init.c, kernel/include/mm.h *)

Definition MM_MAX_ADDRESS_SPACES : Z := 64.
Definition MM_MAX_VA_REGIONS : Z := 128.
Definition MM_FAULT_TRACE_DEPTH : Z := 64.
Definition MM_MAX_SECTION_OBJECTS : Z := 64.
Definition MM_MAX_SECTION_PAGES : Z := 256.

Definition MM_PTE_PRESENT : Z := 0x001.
Definition MM_PTE_WRITABLE : Z := 0x002.
Definition MM_PTE_USER : Z := 0x004.
Definition MM_PTE_LARGE : Z := 0x080.
Definition MM_PTE_SOFT_COW : Z := 0x200.
Definition MM_PTE_NX : Z := Z.shiftl 1 63.
Definition MM_PTE_ADDR_MASK : Z := 0x000FFFFFFFFFF000.
Definition MM_PHYSMAP_BASE : Z := 0xFFFF900000000000.

(** ** Data *)

Record MM_VA_REGION := {
  RegionBase : Z;
  RegionSize : Z;
  RegionType : Z;
  RegionProtection : Z;
  RegionFlags : Z;
  CommittedPages : Z;
  BackingPhysicalBase : Z;
  BackingObject : option nat;
  BackingOffset : Z }.

Record MM_ADDRESS_SPACE := {
  AddressSpaceId : Z;
  OwnerProcessId : Z;
  RootTablePhysical : Z;
  NextUserBase : Z;
  RegionCount : Z;
  Regions : list MM_VA_REGION }.

Record MM_SECTION_OBJECT := {
  SectionHeader : option nat;
  SectionPageCount : Z;
  SectionPages : list Z }.

Record MM_FAULT_TRACE := {
  FaultAddress : Z;
  FaultInstructionPointer : Z;
  FaultErrorCode : Z;
  FaultProcessId : Z;
  FaultAddressSpaceId : Z;
  FaultOutcome : Z }.

(** The manager's static variables; the frame allocator's are [frames]. *)
Record mm_state := {
  frames : mm_pages;
  gMmReady : bool;
  gMmAddressSpacePool : list MM_ADDRESS_SPACE;
  gMmAddressSpaceInUse : list bool;
  gMmNextAddressSpaceId : Z;
  gMmKernelRootTablePhysical : Z;
  gMmSectionType : option nat;
  gMmSectionPool : list MM_SECTION_OBJECT;
  gMmSectionInUse : list bool;
  gMmFaultTrace : list MM_FAULT_TRACE;
  gMmFaultTraceNext : Z;
  gMmPhysmapBase : Z;
  gMmPhysmapBytes : Z;
  gMmPhysmapReady : bool }.

Record mm_machine := {
  mm : mm_state;
  ram : mem;
  cr3 : Z;
  invlpgs : list Z }.

(** Field updates. *)
Definition set_frames (p : mm_pages) (s : mm_state) : mm_state :=
  {| frames := p; gMmReady := gMmReady s; gMmAddressSpacePool := gMmAddressSpacePool s;
     gMmAddressSpaceInUse := gMmAddressSpaceInUse s; gMmNextAddressSpaceId := gMmNextAddressSpaceId s;
     gMmKernelRootTablePhysical := gMmKernelRootTablePhysical s; gMmSectionType := gMmSectionType s;
     gMmSectionPool := gMmSectionPool s; gMmSectionInUse := gMmSectionInUse s;
     gMmFaultTrace := gMmFaultTrace s; gMmFaultTraceNext := gMmFaultTraceNext s;
     gMmPhysmapBase := gMmPhysmapBase s; gMmPhysmapBytes := gMmPhysmapBytes s;
     gMmPhysmapReady := gMmPhysmapReady s |}.
Definition set_kernel_root (r : Z) (s : mm_state) : mm_state :=
  {| frames := frames s; gMmReady := gMmReady s; gMmAddressSpacePool := gMmAddressSpacePool s;
     gMmAddressSpaceInUse := gMmAddressSpaceInUse s; gMmNextAddressSpaceId := gMmNextAddressSpaceId s;
     gMmKernelRootTablePhysical := r; gMmSectionType := gMmSectionType s;
     gMmSectionPool := gMmSectionPool s; gMmSectionInUse := gMmSectionInUse s;
     gMmFaultTrace := gMmFaultTrace s; gMmFaultTraceNext := gMmFaultTraceNext s;
     gMmPhysmapBase := gMmPhysmapBase s; gMmPhysmapBytes := gMmPhysmapBytes s;
     gMmPhysmapReady := gMmPhysmapReady s |}.
Definition set_physmap (base bytes : Z) (ready : bool) (s : mm_state) : mm_state :=
  {| frames := frames s; gMmReady := gMmReady s; gMmAddressSpacePool := gMmAddressSpacePool s;
     gMmAddressSpaceInUse := gMmAddressSpaceInUse s; gMmNextAddressSpaceId := gMmNextAddressSpaceId s;
     gMmKernelRootTablePhysical := gMmKernelRootTablePhysical s; gMmSectionType := gMmSectionType s;
     gMmSectionPool := gMmSectionPool s; gMmSectionInUse := gMmSectionInUse s;
     gMmFaultTrace := gMmFaultTrace s; gMmFaultTraceNext := gMmFaultTraceNext s;
     gMmPhysmapBase := base; gMmPhysmapBytes := bytes; gMmPhysmapReady := ready |}.
Definition set_mm (s : mm_state) (w : mm_machine) : mm_machine :=
  {| mm := s; ram := ram w; cr3 := cr3 w; invlpgs := invlpgs w |}.
Definition set_ram (m : mem) (w : mm_machine) : mm_machine :=
  {| mm := mm w; ram := m; cr3 := cr3 w; invlpgs := invlpgs w |}.

(** ** The machine *)

Definition MmpReadCr3 : M mm_machine Z := gets cr3.
Definition MmpWriteCr3 (Value : Z) : M mm_machine unit :=
  modify (fun w => {| mm := mm w; ram := ram w; cr3 := Value; invlpgs := invlpgs w |}).
Definition MmpInvalidatePage (VirtualAddress : Z) : M mm_machine unit :=
  modify (fun w => {| mm := mm w; ram := ram w; cr3 := cr3 w; invlpgs := VirtualAddress :: invlpgs w |}).

Definition MmpPhysToVirtBootstrapTable (PhysicalAddress : Z) : Z :=
  Z.land PhysicalAddress MM_PTE_ADDR_MASK.
Definition MmpPhysToVirtTable (s : mm_state) (PhysicalAddress : Z) : Z :=
  if gMmPhysmapReady s then gMmPhysmapBase s + Z.land PhysicalAddress MM_PTE_ADDR_MASK
  else MmpPhysToVirtBootstrapTable PhysicalAddress.
Definition MmpPhysToVirtPage (s : mm_state) (PhysicalAddress : Z) : Z :=
  if gMmPhysmapReady s then gMmPhysmapBase s + Z.land PhysicalAddress MM_PTE_ADDR_MASK
  else Z.land PhysicalAddress MM_PTE_ADDR_MASK.

(** Where a kernel pointer points in RAM. *)
Definition kva_to_pa (s : mm_state) (p : Z) : Z :=
  if gMmPhysmapReady s && (gMmPhysmapBase s <=? p) then p - gMmPhysmapBase s else p.

(** [Table[Index]] and [Table[Index] = v] for a table of 64-bit entries. *)
Definition read_entry (Table Index : Z) : M mm_machine Z :=
  gets (fun w => load64 (ram w) (kva_to_pa (mm w) (Table + 8 * Index))).
Definition write_entry (Table Index v : Z) : M mm_machine unit :=
  modify (fun w => set_ram (store64 (ram w) (kva_to_pa (mm w) (Table + 8 * Index)) v) w).
(** [for (i = 0; i < 512; i++) Table[i] = f(i)] *)
Definition fill_table (Table : Z) (f : Z -> Z) : M mm_machine unit :=
  modify (fun w => set_ram (store_table 8 (ram w) (kva_to_pa (mm w) Table) f 512) w).

Definition on_frames {A} (m : M mm_pages A) : M mm_machine A :=
  zoom (fun w => frames (mm w)) (fun p w => set_mm (set_frames p (mm w)) w) m.

(** [MmAllocPage(&Pa)] and the internal allocator on the machine. *)
Definition AllocPage : M mm_machine (KSTATUS * option Z) :=
  ready <- gets (fun w => gMmReady (mm w)) ;; on_frames (MmAllocPage ready true).
Definition AllocPageInternal (n : Z) : M mm_machine (KSTATUS * option Z) :=
  on_frames (MmpAllocPageInternal true n).
Definition FreePage (Pa : Z) : M mm_machine KSTATUS :=
  ready <- gets (fun w => gMmReady (mm w)) ;; on_frames (MmFreePage ready Pa).
Definition ReleasePage (Pa : Z) : M mm_machine unit := on_frames (modify (MmpReleasePage Pa)).
Definition RetainPage (Pa : Z) : M mm_machine unit := on_frames (modify (MmpRetainPage Pa)).

(** ** The walk *)

Definition walk_index (VirtualAddress : Z) (Level : nat) : Z :=
  Z.land (Z.shiftr VirtualAddress (39 - 9 * Z.of_nat Level)) 0x1FF.

Definition is_present (Entry : Z) : bool := any_flag Entry MM_PTE_PRESENT.
Definition is_large (Entry : Z) : bool := any_flag Entry MM_PTE_LARGE.

(** A present large entry: split at level 2, an error elsewhere. *)
Definition split_large (VirtualAddress : Z) (CreateMissing : bool) (Level : nat) (Table Index Entry : Z)
  : M mm_machine (KSTATUS * Z) :=
  if negb (is_present Entry && is_large Entry) then ret (KSTATUS_SUCCESS, Entry)
  else if negb (Level =? 2)%nat then ret (KSTATUS_NOT_IMPLEMENTED, Entry)
  else if negb CreateMissing then ret (KSTATUS_NOT_FOUND, Entry)
  else
    dlet (Status, Pa) := AllocPage ;;
    if negb (ok Status) then ret (KSTATUS_INIT_FAILED, Entry)
    else
      NextTablePa <- deref Pa ;;
      SplitTable <- gets (fun w => MmpPhysToVirtTable (mm w) NextTablePa) ;;
      let SplitBase := Z.land Entry MM_PTE_ADDR_MASK in
      let SplitFlags := Z.land Entry (Z.lor (Z.lor MM_PTE_WRITABLE MM_PTE_USER) MM_PTE_NX) in
      fill_table SplitTable (fun SplitIndex =>
        Z.lor (Z.lor (u64 (SplitBase + SplitIndex * MM_PAGE_SIZE)) SplitFlags) MM_PTE_PRESENT) ;;;
      let Entry := Z.lor (Z.lor NextTablePa MM_PTE_PRESENT) MM_PTE_WRITABLE in
      let Entry := if VirtualAddress <? MM_USER_TOP then Z.lor Entry MM_PTE_USER else Entry in
      write_entry Table Index Entry ;;;
      ret (KSTATUS_SUCCESS, Entry).

(** A present entry on the path to a user address lets user mode through. *)
Definition sanitize (VirtualAddress : Z) (CreateMissing : bool) (Table Index Entry : Z)
  : M mm_machine Z :=
  if is_present Entry && MmpIsUserAddress VirtualAddress && CreateMissing then
    let Sanitized := Z.land (Z.lor Entry MM_PTE_USER) (lnot64 MM_PTE_NX) in
    if negb (Sanitized =? Entry) then write_entry Table Index Sanitized ;;; ret Sanitized
    else ret Entry
  else ret Entry.

(** An absent entry: a fresh zeroed table, or an error. *)
Definition create_missing (VirtualAddress : Z) (CreateMissing : bool) (Table Index Entry : Z)
  : M mm_machine (KSTATUS * Z) :=
  if is_present Entry then ret (KSTATUS_SUCCESS, Entry)
  else if negb CreateMissing then ret (KSTATUS_NOT_FOUND, Entry)
  else
    dlet (Status, Pa) := AllocPage ;;
    if negb (ok Status) then ret (KSTATUS_INIT_FAILED, Entry)
    else
      NextTablePa <- deref Pa ;;
      NextTable <- gets (fun w => MmpPhysToVirtTable (mm w) NextTablePa) ;;
      fill_table NextTable (fun _ => 0) ;;;
      let Entry := Z.lor (Z.lor NextTablePa MM_PTE_PRESENT) MM_PTE_WRITABLE in
      let Entry := if MmpIsUserAddress VirtualAddress then Z.lor Entry MM_PTE_USER else Entry in
      write_entry Table Index Entry ;;;
      ret (KSTATUS_SUCCESS, Entry).

(** One iteration of the loop over the levels: the next table. *)
Definition walk_level (VirtualAddress : Z) (CreateMissing : bool) (Level : nat) (Table : Z)
  : M mm_machine (KSTATUS * Z) :=
  let Index := walk_index VirtualAddress Level in
  Entry <- read_entry Table Index ;;
  dlet (Status, Entry) := split_large VirtualAddress CreateMissing Level Table Index Entry ;;
  if negb (ok Status) then ret (Status, Table)
  else
    Entry <- sanitize VirtualAddress CreateMissing Table Index Entry ;;
    dlet (Status, Entry) := create_missing VirtualAddress CreateMissing Table Index Entry ;;
    if negb (ok Status) then ret (Status, Table)
    else
      Table <- gets (fun w => MmpPhysToVirtTable (mm w) (Z.land Entry MM_PTE_ADDR_MASK)) ;;
      ret (KSTATUS_SUCCESS, Table).

(** [for (Level = ...; Level < 3; Level++)] with [n] iterations left. *)
Fixpoint walk_levels (VirtualAddress : Z) (CreateMissing : bool) (n : nat) (Level : nat) (Table : Z)
  : M mm_machine (KSTATUS * Z) :=
  match n with
  | O => ret (KSTATUS_SUCCESS, Table)
  | S n' =>
      dlet (Status, Table) := walk_level VirtualAddress CreateMissing Level Table ;;
      if negb (ok Status) then ret (Status, Table)
      else walk_levels VirtualAddress CreateMissing n' (S Level) Table
  end.

(** The page-table entry is named by its table's pointer and its index. *)
Definition MmpWalkToPte (AddressSpace : option MM_ADDRESS_SPACE) (VirtualAddress : Z) (CreateMissing : bool)
  : M mm_machine (KSTATUS * (Z * Z)) :=
  match AddressSpace with
  | None => ret (KSTATUS_INVALID_PARAMETER, (0, 0))
  | Some a =>
      if negb (MmpIsCanonicalAddress VirtualAddress) then ret (KSTATUS_INVALID_PARAMETER, (0, 0))
      else
        NK_ASSERT (negb (RootTablePhysical a =? 0)) ;;;
        Table <- gets (fun w => MmpPhysToVirtTable (mm w) (RootTablePhysical a)) ;;
        dlet (Status, Table) := walk_levels VirtualAddress CreateMissing 3 0 Table ;;
        ret (Status, (Table, walk_index VirtualAddress 3))
  end.

(** ** Mapping, unmapping, protecting, querying one page *)

Definition MmAsMapPage (AddressSpace : option MM_ADDRESS_SPACE)
    (VirtualAddress PhysicalAddress Flags : Z) : M mm_machine KSTATUS :=
  ready <- gets (fun w => gMmReady (mm w)) ;;
  if negb ready || negb (bool_decide (is_Some AddressSpace)) ||
     negb (VirtualAddress mod MM_PAGE_SIZE =? 0) || negb (PhysicalAddress mod MM_PAGE_SIZE =? 0)
  then ret KSTATUS_INVALID_PARAMETER
  else
    dlet (Status, (Table, Index)) := MmpWalkToPte AddressSpace VirtualAddress true ;;
    if negb (ok Status) then ret Status
    else
      Pte <- read_entry Table Index ;;
      (if is_present Pte then ReleasePage (Z.land Pte MM_PTE_ADDR_MASK) else ret tt) ;;;
      write_entry Table Index
        (Z.lor (Z.lor (Z.land PhysicalAddress MM_PTE_ADDR_MASK) Flags) MM_PTE_PRESENT) ;;;
      MmpInvalidatePage VirtualAddress ;;;
      ret KSTATUS_SUCCESS.

Definition MmAsUnmapPage (AddressSpace : option MM_ADDRESS_SPACE) (VirtualAddress : Z)
  : M mm_machine KSTATUS :=
  ready <- gets (fun w => gMmReady (mm w)) ;;
  if negb ready || negb (bool_decide (is_Some AddressSpace)) ||
     negb (VirtualAddress mod MM_PAGE_SIZE =? 0)
  then ret KSTATUS_INVALID_PARAMETER
  else
    dlet (Status, (Table, Index)) := MmpWalkToPte AddressSpace VirtualAddress false ;;
    if negb (ok Status) then ret Status
    else
      Pte <- read_entry Table Index ;;
      if negb (is_present Pte) then ret KSTATUS_NOT_FOUND
      else
        ReleasePage (Z.land Pte MM_PTE_ADDR_MASK) ;;;
        write_entry Table Index 0 ;;;
        MmpInvalidatePage VirtualAddress ;;;
        ret KSTATUS_SUCCESS.

Definition MmAsProtectPage (AddressSpace : option MM_ADDRESS_SPACE) (VirtualAddress NewFlags : Z)
  : M mm_machine KSTATUS :=
  ready <- gets (fun w => gMmReady (mm w)) ;;
  if negb ready || negb (bool_decide (is_Some AddressSpace)) ||
     negb (VirtualAddress mod MM_PAGE_SIZE =? 0)
  then ret KSTATUS_INVALID_PARAMETER
  else
    dlet (Status, (Table, Index)) := MmpWalkToPte AddressSpace VirtualAddress false ;;
    if negb (ok Status) then ret Status
    else
      Pte <- read_entry Table Index ;;
      if negb (is_present Pte) then ret KSTATUS_NOT_FOUND
      else
        write_entry Table Index
          (Z.lor (Z.lor (Z.land Pte MM_PTE_ADDR_MASK) NewFlags) MM_PTE_PRESENT) ;;;
        MmpInvalidatePage VirtualAddress ;;;
        ret KSTATUS_SUCCESS.

(** The value stored through [OutPteValue] on success. *)
Definition MmAsQueryPte (AddressSpace : option MM_ADDRESS_SPACE) (VirtualAddress : Z) (OutPteValue : bool)
  : M mm_machine (KSTATUS * option Z) :=
  ready <- gets (fun w => gMmReady (mm w)) ;;
  if negb ready || negb (bool_decide (is_Some AddressSpace)) || negb OutPteValue ||
     negb (VirtualAddress mod MM_PAGE_SIZE =? 0)
  then ret (KSTATUS_INVALID_PARAMETER, None)
  else
    dlet (Status, (Table, Index)) := MmpWalkToPte AddressSpace VirtualAddress false ;;
    if negb (ok Status) then ret (Status, None)
    else
      Pte <- read_entry Table Index ;;
      ret (KSTATUS_SUCCESS, Some Pte).

(** ** The kernel's own tables *)

Definition MmpCloneKernelRootTable : M mm_machine KSTATUS :=
  c <- MmpReadCr3 ;;
  let CurrentRootPa := Z.land c MM_PTE_ADDR_MASK in
  if CurrentRootPa =? 0 then ret KSTATUS_INVALID_PARAMETER
  else
    dlet (Status, Pa) := AllocPageInternal 1 ;;
    if negb (ok Status) then ret KSTATUS_INIT_FAILED
    else
      NewRootPa <- deref Pa ;;
      let CurrentRoot := MmpPhysToVirtBootstrapTable CurrentRootPa in
      let NewRoot := MmpPhysToVirtBootstrapTable NewRootPa in
      w <- gets (fun w => w) ;;
      fill_table NewRoot (fun Index =>
        load64 (ram w) (kva_to_pa (mm w) (CurrentRoot + 8 * Index))) ;;;
      modify (fun w => set_mm (set_kernel_root NewRootPa (mm w)) w) ;;;
      MmpWriteCr3 NewRootPa ;;;
      ret KSTATUS_SUCCESS.

(** [for (Inner = ...; Inner < 1 GiB && Offset + Inner < MappedBytes; Inner += 2 MiB)] *)
Fixpoint map_2m (n : nat) (Pd Va Offset Inner MappedBytes : Z) : M mm_machine unit :=
  match n with
  | O => ret tt
  | S n' =>
      if (Inner <? 0x40000000) && (Offset + Inner <? MappedBytes) then
        write_entry Pd (Z.land (Z.shiftr (u64 (Va + Inner)) 21) 0x1FF)
          (Z.lor (Z.lor (Z.lor (Z.lor (Offset + Inner) MM_PTE_PRESENT) MM_PTE_WRITABLE) MM_PTE_LARGE)
                 MM_PTE_NX) ;;;
        map_2m n' Pd Va Offset (Inner + 0x200000) MappedBytes
      else ret tt
  end.

(** [for (Offset = ...; Offset < MappedBytes; Offset += 1 GiB)] *)
Fixpoint map_1g (n : nat) (Pdpt Offset MappedBytes : Z) : M mm_machine KSTATUS :=
  match n with
  | O => ret KSTATUS_SUCCESS
  | S n' =>
      if negb (Offset <? MappedBytes) then ret KSTATUS_SUCCESS
      else
        base <- gets (fun w => gMmPhysmapBase (mm w)) ;;
        let Va := u64 (base + Offset) in
        let L3 := Z.land (Z.shiftr Va 30) 0x1FF in
        e <- read_entry Pdpt L3 ;;
        Status <- (if is_present e then ret KSTATUS_SUCCESS
                   else
                     dlet (Status, Pa) := AllocPageInternal 1 ;;
                     if negb (ok Status) then ret KSTATUS_INIT_FAILED
                     else
                       PdPa <- deref Pa ;;
                       fill_table (MmpPhysToVirtBootstrapTable PdPa) (fun _ => 0) ;;;
                       write_entry Pdpt L3 (Z.lor (Z.lor PdPa MM_PTE_PRESENT) MM_PTE_WRITABLE) ;;;
                       ret KSTATUS_SUCCESS) ;;
        if negb (ok Status) then ret Status
        else
          e <- read_entry Pdpt L3 ;;
          let Pd := MmpPhysToVirtBootstrapTable (Z.land e MM_PTE_ADDR_MASK) in
          map_2m 512 Pd Va Offset 0 MappedBytes ;;;
          map_1g n' Pdpt (Offset + 0x40000000) MappedBytes
  end.

(** At most [MM_MAX_TRACKED_PAGES] pages are mapped, one gigabyte: the outer loop
    runs at most once, the fuel is 2. *)
Definition MmpBuildKernelPhysmap : M mm_machine KSTATUS :=
  s <- gets mm ;;
  if gMmKernelRootTablePhysical s =? 0 then ret KSTATUS_INVALID_PARAMETER
  else
    let MappedBytes := MmpAlignUp (u64 (gMmTrackedPages (frames s) * MM_PAGE_SIZE)) 0x200000 in
    modify (fun w => set_mm (set_physmap MM_PHYSMAP_BASE MappedBytes (gMmPhysmapReady (mm w)) (mm w)) w) ;;;
    let Pml4 := MmpPhysToVirtBootstrapTable (gMmKernelRootTablePhysical s) in
    let Pml4Index := Z.land (Z.shiftr MM_PHYSMAP_BASE 39) 0x1FF in
    dlet (Status, Pa) := AllocPageInternal 1 ;;
    if negb (ok Status) then ret KSTATUS_INIT_FAILED
    else
      PdptPa <- deref Pa ;;
      fill_table (MmpPhysToVirtBootstrapTable PdptPa) (fun _ => 0) ;;;
      write_entry Pml4 Pml4Index (Z.lor (Z.lor PdptPa MM_PTE_PRESENT) MM_PTE_WRITABLE) ;;;
      e <- read_entry Pml4 Pml4Index ;;
      let Pdpt := MmpPhysToVirtBootstrapTable (Z.land e MM_PTE_ADDR_MASK) in
      Status <- map_1g 2 Pdpt 0 MappedBytes ;;
      if negb (ok Status) then ret Status
      else
        c <- MmpReadCr3 ;;
        MmpWriteCr3 c ;;;
        modify (fun w => set_mm (set_physmap (gMmPhysmapBase (mm w)) (gMmPhysmapBytes (mm w)) true (mm w)) w) ;;;
        ret KSTATUS_SUCCESS.
