(* ===== verification/MmTablesInv.v ===== *)
(** * Memory manager, page tables: invariant and theorems

    [xlate] is the translation the processor performs; [tables_wf lv w] says
    that [lv] is the set of page-table frames of the machine [w] with their
    levels, that present entries lead from each level to the next and that two
    entries share a table only as the same entry of two root tables. *)

From stdpp Require Import fin_maps.
From S2P Require Import Prelude BootProto PhysMem MmPages MmTables.

(** ** Bits of an entry *)

Definition addr_of (e : Z) : Z := Z.land e MM_PTE_ADDR_MASK.

Lemma is_present_bit e : is_present e = Z.testbit e 0.
Proof. apply (any_flag_bit e 0). lia. Qed.
Lemma is_large_bit e : is_large e = Z.testbit e 7.
Proof. apply (any_flag_bit e 7). lia. Qed.

Lemma mask_bit i : 0 <= i -> Z.testbit MM_PTE_ADDR_MASK i = (12 <=? i) && (i <? 52).
Proof.
  intros Hi. change MM_PTE_ADDR_MASK with (Z.shiftl (Z.ones 40) 12).
  rewrite Z.shiftl_spec by done. destruct (Z.leb_spec 12 i); cbn [andb].
  - rewrite Z.testbit_ones_nonneg by lia.
    destruct (Z.ltb_spec (i - 12) 40), (Z.ltb_spec i 52); try done; lia.
  - apply Z.testbit_neg_r. lia.
Qed.

Lemma addr_bit e i : 0 <= i -> Z.testbit (addr_of e) i = Z.testbit e i && ((12 <=? i) && (i <? 52)).
Proof. intros Hi. unfold addr_of. by rewrite Z.land_spec, mask_bit. Qed.

Lemma addr_of_eq e : 0 <= e -> addr_of e = e mod 2 ^ 52 / 4096 * 4096.
Proof.
  intros He. apply Z.bits_inj'. intros i Hi. rewrite addr_bit by done.
  change 4096 with (2 ^ 12). rewrite Z.mul_pow2_bits by lia.
  destruct (Z.leb_spec 12 i); cbn [andb].
  - rewrite Z.div_pow2_bits, Z.sub_add by lia.
    destruct (Z.ltb_spec i 52).
    + by rewrite Z.mod_pow2_bits_low, andb_true_r.
    + by rewrite Z.mod_pow2_bits_high, andb_false_r by lia.
  - rewrite andb_false_r, Z.testbit_neg_r; [done|lia].
Qed.

Lemma addr_of_aligned e : 0 <= e -> addr_of e mod 4096 = 0 /\ 0 <= addr_of e <= 2 ^ 52 - 4096.
Proof.
  intros He. rewrite addr_of_eq by done. split; [apply Z.mod_mul; lia|].
  assert (0 <= e mod 2 ^ 52 < 2 ^ 52) by (apply Z.mod_pos_bound; lia).
  change (2 ^ 52) with 4503599627370496 in *. zlia.
Qed.

(** The address field of an aligned physical address is the address. *)
Lemma addr_of_page t : 0 <= t < 2 ^ 52 -> t mod 4096 = 0 -> addr_of t = t.
Proof. intros Ht Ha. rewrite addr_of_eq, Z.mod_small by lia. zlia. Qed.

Lemma aligned_bit t i : t mod 4096 = 0 -> 0 <= i < 12 -> Z.testbit t i = false.
Proof.
  intros Ha Hi. replace t with (t / 4096 * 2 ^ 12) by zlia.
  apply Z.mul_pow2_bits_low. lia.
Qed.

(** An entry made of an aligned address and flag bits outside the address field. *)
Lemma addr_of_flags t f : 0 <= t < 2 ^ 52 -> t mod 4096 = 0 -> addr_of f = 0 ->
  addr_of (Z.lor t f) = t.
Proof.
  intros Ht Ha Hf. unfold addr_of in *. rewrite Z.land_lor_distr_l, Hf, Z.lor_0_r.
  by apply addr_of_page.
Qed.

Lemma addr_of_lor a b : addr_of (Z.lor a b) = Z.lor (addr_of a) (addr_of b).
Proof. apply Z.land_lor_distr_l. Qed.

(** A number without bits from 64 on is a 64-bit value. *)
Lemma u64_bits z : (forall i, 64 <= i -> Z.testbit z i = false) -> is_u64 z.
Proof.
  intros H. assert (z = z mod 2 ^ 64) as ->; [|apply Z.mod_pos_bound; lia].
  apply Z.bits_inj'. intros i Hi. destruct (Z.ltb_spec i 64).
  - by rewrite Z.mod_pow2_bits_low.
  - by rewrite Z.mod_pow2_bits_high, H by lia.
Qed.

(** Two entries that lead the processor the same way. *)
Definition entry_eq (e e' : Z) : Prop :=
  is_present e = is_present e' /\ is_large e = is_large e' /\ addr_of e = addr_of e'.

#[global] Instance entry_eq_equiv : Equivalence entry_eq.
Proof. unfold entry_eq. split; red; naive_solver congruence. Qed.

Lemma sanitized_eq e : is_u64 e ->
  entry_eq (Z.land (Z.lor e MM_PTE_USER) (lnot64 MM_PTE_NX)) e /\
  is_u64 (Z.land (Z.lor e MM_PTE_USER) (lnot64 MM_PTE_NX)).
Proof.
  intros He. unfold is_u64 in He.
  change (lnot64 MM_PTE_NX) with (Z.ones 63).
  assert (B : forall i, 0 <= i < 63 -> i <> 2 ->
    Z.testbit (Z.land (Z.lor e MM_PTE_USER) (Z.ones 63)) i = Z.testbit e i).
  { intros i Hi N. rewrite Z.land_spec, Z.lor_spec, Z.ones_spec_low by lia.
    change MM_PTE_USER with (2 ^ 2). rewrite Z.pow2_bits_false by lia.
    by rewrite orb_false_r, andb_true_r. }
  split; [split_and!|].
  - rewrite !is_present_bit. apply B; lia.
  - rewrite !is_large_bit. apply B; lia.
  - apply Z.bits_inj'. intros i Hi. rewrite !addr_bit by done.
    destruct (Z.leb_spec 12 i), (Z.ltb_spec i 52); cbn [andb]; rewrite ?andb_false_r; try done.
    by rewrite B by lia.
  - unfold is_u64. rewrite Z.land_ones by lia.
    pose proof (Z.mod_pos_bound (Z.lor e MM_PTE_USER) (2 ^ 63) ltac:(lia)). lia.
Qed.

(** The entry of a fresh table at [t]. *)
Lemma table_entry_ok t u : 0 <= t < 2 ^ 52 -> t mod 4096 = 0 ->
  let e := Z.lor (Z.lor t MM_PTE_PRESENT) MM_PTE_WRITABLE in
  let e := if u : bool then Z.lor e MM_PTE_USER else e in
  is_present e = true /\ is_large e = false /\ addr_of e = t /\ is_u64 e.
Proof.
  intros Ht Ha e e'. rewrite is_present_bit, is_large_bit.
  assert (E : exists f, e' = Z.lor t f /\ (f = 3 \/ f = 7)).
  { unfold e', e. destruct u; rewrite <- !Z.lor_assoc; eauto. }
  destruct E as (f & -> & Hf). rewrite !Z.lor_spec, !(aligned_bit t) by lia.
  split_and!.
  - by destruct Hf as [-> | ->].
  - by destruct Hf as [-> | ->].
  - apply addr_of_flags; [done|done|]. by destruct Hf as [-> | ->].
  - unfold is_u64. assert (Z.lor t f = t + f) as ->; [|lia].
    symmetry. apply Z.add_nocarry_lor. apply Z.bits_inj'. intros i Hi.
    rewrite Z.land_spec, Z.bits_0. destruct (Z.ltb_spec i 12).
    + by rewrite aligned_bit by lia.
    + rewrite (testbit_small f 3 i) by lia. apply andb_false_r.
Qed.

(** The entries a split table is filled with. *)
Lemma split_entry_ok e k : is_u64 e -> addr_of e mod 2 ^ 21 = 0 -> 0 <= k < 512 ->
  let f := Z.land e (Z.lor (Z.lor MM_PTE_WRITABLE MM_PTE_USER) MM_PTE_NX) in
  let e' := Z.lor (Z.lor (u64 (addr_of e + k * 4096)) f) MM_PTE_PRESENT in
  is_present e' = true /\ addr_of e' = addr_of e + k * 4096 /\ is_u64 e'.
Proof.
  intros He Ha Hk f e'. unfold is_u64 in He. pose proof (addr_of_aligned e ltac:(lia)) as [A1 A2].
  assert (A3 : addr_of e <= 2 ^ 52 - 2 ^ 21).
  { change (2 ^ 21) with 2097152 in *. change (2 ^ 52) with 4503599627370496 in *. zlia. }
  assert (0 <= addr_of e + k * 4096 < 2 ^ 52) by lia.
  unfold e'. rewrite u64_small by lia.
  assert (F0 : addr_of f = 0).
  { unfold f, addr_of. rewrite <- Z.land_assoc. by rewrite Z.land_0_r. }
  split_and!.
  - by rewrite is_present_bit, Z.lor_spec, orb_true_r.
  - rewrite <- Z.lor_assoc. apply addr_of_flags; [done| |].
    + rewrite Z.mod_add by lia. done.
    + rewrite addr_of_lor, F0. done.
  - apply u64_bits. intros i Hi. rewrite !Z.lor_spec. unfold f.
    rewrite Z.land_spec, (testbit_small e 64), (testbit_small (addr_of e + _) 64) by lia.
    cbn [andb orb]. apply (testbit_small 1 64); lia.
Qed.

(** ** Translation *)

(** Entry [i] of the table at [t]. *)
Definition entry (m : mem) (t i : Z) : Z := load64 m (t + 8 * i).

(** The processor's walk from a table of level [4 - n]: 4 KiB pages at the last
    level, 2 MiB and 1 GiB pages above it. *)
Fixpoint xlate (n : nat) (m : mem) (t va : Z) : option Z :=
  match n with
  | O => None
  | S n' =>
      let e := entry m t (walk_index va (3 - n')) in
      if negb (is_present e) then None
      else
        match n' with
        | O => Some (addr_of e + va mod 4096)
        | _ =>
            if is_large e then
              match n' with
              | 1%nat => Some (addr_of e / 2 ^ 21 * 2 ^ 21 + va mod 2 ^ 21)
              | 2%nat => Some (addr_of e / 2 ^ 30 * 2 ^ 30 + va mod 2 ^ 30)
              | _ => None
              end
            else xlate n' m (addr_of e) va
        end
  end.

Definition x86_translate (m : mem) (root va : Z) : option Z := xlate 4 m (addr_of root) va.

(** Following [va] for [n] levels from the table [t] of level [L] leads to [c]. *)
Fixpoint leads (n : nat) (m : mem) (L : nat) (t va c : Z) : Prop :=
  match n with
  | O => t = c
  | S n' =>
      let e := entry m t (walk_index va L) in
      is_present e = true /\ is_large e = false /\ leads n' m (S L) (addr_of e) va c
  end.

Lemma walk_index_eq va L : 0 <= va -> (L <= 3)%nat ->
  walk_index va L = va / 2 ^ (39 - 9 * Z.of_nat L) mod 512.
Proof.
  intros Hv HL. unfold walk_index. rewrite Z.shiftr_div_pow2 by lia.
  change 0x1FF with (Z.ones 9). by rewrite Z.land_ones by lia.
Qed.

Lemma walk_index_range va L : 0 <= walk_index va L < 512.
Proof.
  unfold walk_index. change 0x1FF with (Z.ones 9). rewrite Z.land_ones by lia.
  apply Z.mod_pos_bound. lia.
Qed.

(** The page of an address, in the 48 bits the tables translate. *)
Definition vpage (va : Z) : Z := va / 4096 mod 2 ^ 36.

Lemma walk_index_vpage va va' : 0 <= va -> 0 <= va' ->
  (forall L, (L <= 3)%nat -> walk_index va L = walk_index va' L) <-> vpage va = vpage va'.
Proof.
  intros H H'. unfold vpage.
  assert (D : forall x L, 0 <= x -> (L <= 3)%nat ->
    walk_index x L = x / 4096 / 2 ^ (27 - 9 * Z.of_nat L) mod 512).
  { intros x L Hx HL. rewrite walk_index_eq by done. rewrite Z.div_div by (try apply Z.pow_pos_nonneg; lia).
    change 4096 with (2 ^ 12). rewrite <- Z.pow_add_r by lia. do 3 f_equal. lia. }
  split.
  - intros E. pose proof (E 0%nat ltac:(lia)) as E0. pose proof (E 1%nat ltac:(lia)) as E1.
    pose proof (E 2%nat ltac:(lia)) as E2. pose proof (E 3%nat ltac:(lia)) as E3.
    rewrite !D in E0, E1, E2, E3 by (done || lia). cbn [Z.of_nat Pos.of_succ_nat Pos.succ] in *.
    revert E0 E1 E2 E3. change (27 - 9 * Z.of_nat 0) with 27. change (27 - 9 * 1) with 18.
    change (27 - 9 * 2) with 9. change (27 - 9 * 3) with 0.
    generalize (va / 4096) (va' / 4096). intros a b.
    change (2 ^ 27) with 134217728. change (2 ^ 18) with 262144. change (2 ^ 9) with 512.
    change (2 ^ 0) with 1. change (2 ^ 36) with 68719476736. intros. zlia.
  - intros E L HL. rewrite !D by done. revert E. generalize (va / 4096) (va' / 4096). intros a b E.
    assert (X : forall z, z / 2 ^ (27 - 9 * Z.of_nat L) mod 512
      = (z mod 2 ^ 36) / 2 ^ (27 - 9 * Z.of_nat L) mod 512).
    { intros z. change 512 with (2 ^ 9). apply Z.bits_inj'. intros i Hi.
      destruct (Z.ltb_spec i 9).
      - rewrite !Z.mod_pow2_bits_low, !Z.div_pow2_bits by lia. rewrite Z.mod_pow2_bits_low by lia. done.
      - by rewrite !Z.mod_pow2_bits_high by lia. }
    rewrite (X a), (X b). by rewrite E.
Qed.

(** ** The machine's tables *)

Record tables_wf (lv : gmap Z nat) (w : mm_machine) : Prop := {
  tw_frame : forall t L, lv !! t = Some L ->
    (L <= 3)%nat /\ 0 <= t /\ t mod 4096 = 0 /\ t / 4096 < gMmTrackedPages (frames (mm w)) /\
    allocated (frames (mm w)) (t / 4096) = true;
  tw_child : forall t L i, lv !! t = Some L -> (L < 3)%nat -> 0 <= i < 512 ->
    is_present (entry (ram w) t i) = true -> is_large (entry (ram w) t i) = false ->
    lv !! addr_of (entry (ram w) t i) = Some (S L);
  tw_large : forall t i, lv !! t = Some 2%nat -> 0 <= i < 512 ->
    is_present (entry (ram w) t i) = true -> is_large (entry (ram w) t i) = true ->
    addr_of (entry (ram w) t i) mod 2 ^ 21 = 0;
  tw_unique : forall t t' L L' i i', lv !! t = Some L -> lv !! t' = Some L' ->
    (L < 3)%nat -> (L' < 3)%nat -> 0 <= i < 512 -> 0 <= i' < 512 ->
    is_present (entry (ram w) t i) = true -> is_large (entry (ram w) t i) = false ->
    is_present (entry (ram w) t' i') = true -> is_large (entry (ram w) t' i') = false ->
    addr_of (entry (ram w) t i) = addr_of (entry (ram w) t' i') ->
    i = i' /\ (t = t' \/ (L = 0%nat /\ L' = 0%nat));
  tw_mem : mem_ok (ram w);
  tw_pages : pages_wf (frames (mm w)) }.

Lemma tw_bounds lv w t L : tables_wf lv w -> lv !! t = Some L ->
  (L <= 3)%nat /\ 0 <= t < 2 ^ 30 /\ t mod 4096 = 0 /\ addr_of t = t.
Proof.
  intros W H. destruct (tw_frame _ _ W t L H) as (H1 & H2 & H3 & H4 & _).
  pose proof (pw_tracked _ (tw_pages _ _ W)) as T. unfold MM_MAX_TRACKED_PAGES in T.
  assert (t < 1073741824) by zlia.
  split_and!; try lia. apply addr_of_page; [lia|done].
Qed.

Lemma entry_u64 m t i : mem_ok m -> is_u64 (entry m t i).
Proof. apply load64_range. Qed.

(** The machine after changing frames and RAM only. *)
Definition upd (p : mm_pages) (m : mem) (w : mm_machine) : mm_machine :=
  set_ram m (set_mm (set_frames p (mm w)) w).

Lemma upd_upd p m p' m' w : upd p' m' (upd p m w) = upd p' m' w.
Proof. reflexivity. Qed.
Lemma upd_id w : upd (frames (mm w)) (ram w) w = w.
Proof. by destruct w as [[] ? ? ?]. Qed.

Lemma kva_table s t i : 0 <= i -> kva_to_pa s (MmpPhysToVirtTable s t + 8 * i) = addr_of t + 8 * i.
Proof.
  intros Hi. unfold kva_to_pa, MmpPhysToVirtTable, MmpPhysToVirtBootstrapTable.
  fold (addr_of t). destruct (gMmPhysmapReady s); cbn [andb]; [|done].
  assert (0 <= addr_of t) by (apply Z.land_nonneg; right; done).
  destruct (Z.leb_spec (gMmPhysmapBase s) (gMmPhysmapBase s + addr_of t + 8 * i)); lia.
Qed.

Lemma read_entry_table w t i : 0 <= i ->
  read_entry (MmpPhysToVirtTable (mm w) t) i w = Ret (entry (ram w) (addr_of t) i) w.
Proof. intros Hi. unfold read_entry, gets, entry. by rewrite kva_table. Qed.

Lemma write_entry_table w t i v : 0 <= i ->
  write_entry (MmpPhysToVirtTable (mm w) t) i v w
  = Ret tt (upd (frames (mm w)) (store64 (ram w) (addr_of t + 8 * i) v) w).
Proof.
  intros Hi. unfold write_entry, modify, upd. rewrite kva_table by done.
  by destruct w as [[] ? ? ?].
Qed.

Lemma fill_table_table w t f :
  fill_table (MmpPhysToVirtTable (mm w) t) f w
  = Ret tt (upd (frames (mm w)) (store_table 8 (ram w) (addr_of t) f 512) w).
Proof.
  unfold fill_table, modify, upd. pose proof (kva_table (mm w) t 0 ltac:(lia)) as E.
  rewrite !Z.add_0_r in E. rewrite E. by destruct w as [[] ? ? ?].
Qed.

(** Entries of distinct slots do not overlap. *)
Lemma entry_store m t i t' i' v :
  t mod 4096 = 0 -> t' mod 4096 = 0 -> 0 <= i < 512 -> 0 <= i' < 512 -> is_u64 v ->
  entry (store64 m (t + 8 * i) v) t' i' = if bool_decide (t = t' /\ i = i') then v else entry m t' i'.
Proof.
  intros A A' Hi Hi' Hv. unfold entry. case_bool_decide as D.
  - destruct D as [-> ->]. by apply load64_store64_eq.
  - apply load64_store64_ne. assert (t <> t' \/ (t = t' /\ i <> i')) as [N|[-> N]] by lia; zlia.
Qed.

Lemma entry_fill m f t' g i' : f mod 4096 = 0 -> t' mod 4096 = 0 -> 0 <= i' < 512 ->
  entry (store_table 8 m f g 512) t' i' =
    if bool_decide (f = t') then u64 (g i') else entry m t' i'.
Proof.
  intros A A' Hi. unfold entry, load64. case_bool_decide as D.
  - subst. by rewrite (load_store_table_in 8) by lia.
  - apply load_store_table_out. zlia.
Qed.

Lemma load8_fill_out m f g a : f mod 4096 = 0 -> 0 <= f -> f <> a / 4096 * 4096 ->
  load8 (store_table 8 m f g 512) a = load8 m a.
Proof.
  intros A F N. pose proof (load_store_table_out 8 1 512 m f g a) as E.
  assert (U : forall x, load_le 1 x a = load8 x a).
  { intros x. unfold load_le. lia. }
  rewrite <- !U. apply E. zlia.
Qed.

(** ** Growing the tables without changing a translation *)

Record tables_ext (lv : gmap Z nat) (w : mm_machine) (lv' : gmap Z nat) (w' : mm_machine) : Prop := {
  te_wf : tables_wf lv' w';
  te_sub : lv ⊆ lv';
  te_xlate : forall t L va, lv !! t = Some L -> xlate (4 - L) (ram w') t va = xlate (4 - L) (ram w) t va;
  te_link : forall t L i, lv !! t = Some L -> (L < 3)%nat -> 0 <= i < 512 ->
    is_present (entry (ram w) t i) = true -> is_large (entry (ram w) t i) = false ->
    entry_eq (entry (ram w') t i) (entry (ram w) t i);
  te_alloc : forall i, allocated (frames (mm w)) i = true -> allocated (frames (mm w')) i = true;
  te_tracked : gMmTrackedPages (frames (mm w')) = gMmTrackedPages (frames (mm w));
  te_new : forall t L, lv' !! t = Some L -> lv !! t = None -> allocated (frames (mm w)) (t / 4096) = false;
  te_ram : forall a, lv' !! (a / 4096 * 4096) = None -> load8 (ram w') a = load8 (ram w) a;
  te_state : exists p m, w' = upd p m w }.

Lemma tables_ext_refl lv w : tables_wf lv w -> tables_ext lv w lv w.
Proof.
  intros W. constructor; try done.
  - intros t L H1 H2. congruence.
  - exists (frames (mm w)), (ram w). by rewrite upd_id.
Qed.

Lemma tables_ext_trans lv w lv1 w1 lv2 w2 :
  tables_ext lv w lv1 w1 -> tables_ext lv1 w1 lv2 w2 -> tables_ext lv w lv2 w2.
Proof.
  intros A B. pose proof (te_sub _ _ _ _ A) as SA. pose proof (te_sub _ _ _ _ B) as SB.
  constructor.
  - apply B.
  - by etransitivity.
  - intros t L va H. rewrite (te_xlate _ _ _ _ B) by by eapply lookup_weaken.
    by apply (te_xlate _ _ _ _ A).
  - intros t L i H HL Hi P G. pose proof (te_link _ _ _ _ A t L i H HL Hi P G) as EA.
    rewrite <- EA. apply (te_link _ _ _ _ B t L); try done.
    + by eapply lookup_weaken.
    + destruct EA as (-> & _). done.
    + destruct EA as (_ & -> & _). done.
  - intros i Hi. by apply (te_alloc _ _ _ _ B), (te_alloc _ _ _ _ A).
  - rewrite (te_tracked _ _ _ _ B). apply A.
  - intros t L H N. destruct (lv1 !! t) as [L1|] eqn:E.
    + by apply (te_new _ _ _ _ A t L1).
    + destruct (allocated (frames (mm w)) (t / 4096)) eqn:F; [|done].
      apply (te_alloc _ _ _ _ A) in F. rewrite (te_new _ _ _ _ B t L) in F by done. done.
  - intros a H. rewrite (te_ram _ _ _ _ B) by done. apply (te_ram _ _ _ _ A).
    destruct (lv1 !! _) eqn:E; [|done]. by rewrite (lookup_weaken _ _ _ _ E SB) in H.
  - destruct (te_state _ _ _ _ A) as (p1 & m1 & ->), (te_state _ _ _ _ B) as (p2 & m2 & ->).
    exists p2, m2. apply upd_upd.
Qed.

(** Translations agree when at each table the entry leads the same way or the
    translation from there is known to agree. *)
Lemma xlate_sim lv w m' : tables_wf lv w ->
  (forall t L va, lv !! t = Some L ->
     entry_eq (entry m' t (walk_index va L)) (entry (ram w) t (walk_index va L)) \/
     xlate (4 - L) m' t va = xlate (4 - L) (ram w) t va) ->
  forall n t L va, lv !! t = Some L -> (n + L = 4)%nat -> xlate n m' t va = xlate n (ram w) t va.
Proof.
  intros W H. induction n as [|n IH]; intros t L va Ht Hn; [done|].
  destruct (H t L va Ht) as [(E1 & E2 & E3)|E].
  2: { by replace (4 - L)%nat with (S n) in E by lia. }
  cbn [xlate]. replace (3 - n)%nat with L by lia. rewrite E1, E2, E3.
  clear E1 E2 E3. destruct (is_present _) eqn:P; cbn [negb]; [|done]. destruct n as [|n]; [done|].
  destruct (is_large _) eqn:G; [done|].
  apply (IH _ (S L)); [|lia]. apply (tw_child _ _ W); [done|lia|apply walk_index_range|done|done].
Qed.

(** Storing an entry that leads the same way. *)
Lemma ext_same_entry lv w t L i v :
  tables_wf lv w -> lv !! t = Some L -> (L < 3)%nat -> 0 <= i < 512 -> is_u64 v ->
  entry_eq v (entry (ram w) t i) ->
  tables_ext lv w lv (upd (frames (mm w)) (store64 (ram w) (t + 8 * i) v) w).
Proof.
  intros W Ht HL Hi Hv E.
  destruct (tw_bounds _ _ _ _ W Ht) as (_ & B1 & B2 & _).
  assert (EE : forall t' L' i', lv !! t' = Some L' -> 0 <= i' < 512 ->
    entry_eq (entry (store64 (ram w) (t + 8 * i) v) t' i') (entry (ram w) t' i')).
  { intros t' L' i' H' Hi'. destruct (tw_bounds _ _ _ _ W H') as (_ & C1 & C2 & _).
    rewrite entry_store by done. case_bool_decide as D; [|reflexivity]. by destruct D as [-> ->]. }
  constructor.
  - constructor; cbn [ram upd set_ram].
    + apply (tw_frame _ _ W).
    + intros t' L' i' H' HL' Hi'. destruct (EE t' L' i' H' Hi') as (-> & -> & ->). by apply (tw_child _ _ W).
    + intros t' i' H' Hi'. destruct (EE t' _ i' H' Hi') as (-> & -> & ->). by apply (tw_large _ _ W).
    + intros t1 t2 L1 L2 i1 i2 H1 H2 HL1 HL2 Hi1 Hi2.
      destruct (EE t1 L1 i1 H1 Hi1) as (-> & -> & ->). destruct (EE t2 L2 i2 H2 Hi2) as (-> & -> & ->).
      by apply (tw_unique _ _ W).
    + apply store_le_ok. apply (tw_mem _ _ W).
    + apply (tw_pages _ _ W).
  - done.
  - intros t' L' va H'. destruct (tw_bounds _ _ _ _ W H') as (? & _).
    apply (xlate_sim lv w) with L'; [done| |done|lia].
    intros t1 L1 va1 H1. left. apply (EE t1 L1); [done|apply walk_index_range].
  - intros t' L' i' H' _ Hi' _ _. by apply (EE t' L').
  - done.
  - done.
  - intros t' L' H1 H2. congruence.
  - intros a Ha. cbn [ram upd set_ram]. unfold store64. rewrite load8_store_le.
    destruct (Z.leb_spec (t + 8 * i) a), (Z.ltb_spec a (t + 8 * i + Z.of_nat 8)); try done.
    exfalso. assert (a / 4096 * 4096 = t) as Et by zlia. rewrite Et in Ha. congruence.
  - by eexists _, _.
Qed.

(** Linking a fresh table where there was none. *)
Lemma ext_new_table lv w p' t L i f g v :
  tables_wf lv w -> lv !! t = Some L -> (L < 3)%nat -> 0 <= i < 512 ->
  is_present (entry (ram w) t i) && negb (is_large (entry (ram w) t i)) = false ->
  0 <= f -> f mod 4096 = 0 -> f / 4096 < gMmTrackedPages (frames (mm w)) ->
  allocated (frames (mm w)) (f / 4096) = false ->
  pages_wf p' -> gMmTrackedPages p' = gMmTrackedPages (frames (mm w)) ->
  (forall j, allocated p' j = (f / 4096 =? j) || allocated (frames (mm w)) j) ->
  is_present v = true -> is_large v = false -> addr_of v = f -> is_u64 v ->
  (forall k, 0 <= k < 512 -> is_u64 (g k)) ->
  ((L < 2)%nat -> forall k, 0 <= k < 512 -> is_present (g k) = false) ->
  let m' := store64 (store_table 8 (ram w) f g 512) (t + 8 * i) v in
  (forall va m1, walk_index va L = i -> entry m1 t i = v ->
     (forall k, 0 <= k < 512 -> entry m1 f k = g k) ->
     xlate (4 - L) m1 t va = xlate (4 - L) (ram w) t va) ->
  tables_ext lv w (<[f := S L]> lv) (upd p' m' w) /\ entry m' t i = v.
Proof.
  intros W Ht HL Hi Hno Hf0 Hfa Hft Hff Wp Tp Ap Vp Vl Va Vu Gu Gp m' HX.
  destruct (tw_bounds _ _ _ _ W Ht) as (_ & B1 & B2 & _).
  assert (Hfn : lv !! f = None).
  { destruct (lv !! f) as [Lf|] eqn:E; [|done].
    destruct (tw_frame _ _ W f Lf E) as (_ & _ & _ & _ & A). congruence. }
  assert (Nft : f <> t) by congruence.
  assert (EN : forall t' i', t' mod 4096 = 0 -> 0 <= i' < 512 ->
    entry m' t' i' = if bool_decide (t = t' /\ i = i') then v
                     else if bool_decide (f = t') then g i' else entry (ram w) t' i').
  { intros t' i' At Hi'. unfold m'. rewrite entry_store by done. case_bool_decide; [done|].
    rewrite entry_fill by done. case_bool_decide; [|done]. apply u64_small. by apply Gu. }
  assert (EV : entry m' t i = v) by (rewrite EN by done; by rewrite bool_decide_eq_true_2).
  assert (EO : forall t' L' i', lv !! t' = Some L' -> 0 <= i' < 512 -> ~ (t = t' /\ i = i') ->
    entry m' t' i' = entry (ram w) t' i').
  { intros t' L' i' H' Hi' N. destruct (tw_bounds _ _ _ _ W H') as (_ & _ & C2 & _).
    rewrite EN by done. rewrite bool_decide_eq_false_2 by done.
    rewrite bool_decide_eq_false_2; [done|congruence]. }
  assert (EG : forall k, 0 <= k < 512 -> entry m' f k = g k).
  { intros k Hk. rewrite EN by done. rewrite bool_decide_eq_false_2 by naive_solver.
    by rewrite bool_decide_eq_true_2. }
  (* a link of the new memory is the new one or an old one *)
  assert (LK : forall t' L' i', <[f := S L]> lv !! t' = Some L' -> (L' < 3)%nat -> 0 <= i' < 512 ->
    is_present (entry m' t' i') = true -> is_large (entry m' t' i') = false ->
    (t' = t /\ i' = i /\ L' = L) \/
    (lv !! t' = Some L' /\ ~ (t' = t /\ i' = i) /\ entry m' t' i' = entry (ram w) t' i')).
  { intros t' L' i' H' HL' Hi' P G. apply lookup_insert_Some in H' as [[<- <-]|[Nf H']].
    - rewrite EG, Gp in P by (done || lia). done.
    - destruct (decide (t = t' /\ i = i')) as [[<- <-]|N]; [left; split_and!; congruence|].
      right. split_and!; [done|naive_solver|by apply (EO t' L')]. }
  assert (NC : forall t' L' i', lv !! t' = Some L' -> (L' < 3)%nat -> 0 <= i' < 512 ->
    is_present (entry (ram w) t' i') = true -> is_large (entry (ram w) t' i') = false ->
    addr_of (entry (ram w) t' i') <> f).
  { intros t' L' i' H' HL' Hi' P G E. pose proof (tw_child _ _ W t' L' i' H' HL' Hi' P G). congruence. }
  split; [|done]. constructor.
  - constructor.
    + intros t' L' H'. cbn [mm frames upd set_ram set_mm set_frames]. rewrite Tp, Ap.
      apply lookup_insert_Some in H' as [[<- <-]|[Nf H']].
      * rewrite Z.eqb_refl. split_and!; try done; lia.
      * destruct (tw_frame _ _ W t' L' H') as (H1 & H2 & H3 & H4 & ->). rewrite orb_true_r. done.
    + intros t' L' i' H' HL' Hi' P G. destruct (LK t' L' i' H' HL' Hi' P G) as [(-> & -> & ->)|(H1 & _ & E1)].
      * cbn [ram upd set_ram]. rewrite EV, Va. apply lookup_insert_eq.
      * cbn [ram upd set_ram] in *. rewrite E1 in *. rewrite lookup_insert_ne.
        { by apply (tw_child _ _ W). } intros E'. by apply (NC t' L' i').
    + intros t' i' H' Hi' P G. cbn [ram upd set_ram] in *.
      apply lookup_insert_Some in H' as [[<- E2]|[Nf H']].
      * assert (L = 1%nat) by lia. rewrite EG, Gp in P by (done || lia). done.
      * destruct (decide (t = t' /\ i = i')) as [[<- <-]|N]; [rewrite EV in G; congruence|].
        rewrite (EO t' 2%nat) in * by done. by apply (tw_large _ _ W).
    + intros t1 t2 L1 L2 i1 i2 H1 H2 HL1 HL2 Hi1 Hi2 P1 G1 P2 G2 E.
      destruct (LK t1 L1 i1 H1 HL1 Hi1 P1 G1) as [(-> & -> & ->)|(K1 & N1 & E1)],
        (LK t2 L2 i2 H2 HL2 Hi2 P2 G2) as [(-> & -> & ->)|(K2 & N2 & E2)];
        cbn [ram upd set_ram] in *.
      * by split; [|left].
      * exfalso. rewrite EV, Va, E2 in *. by apply (NC t2 L2 i2).
      * exfalso. rewrite EV, Va, E1 in *. by apply (NC t1 L1 i1).
      * rewrite E1, E2 in *. by apply (tw_unique _ _ W t1 t2 L1 L2).
    + apply store_le_ok, store_table_ok. apply (tw_mem _ _ W).
    + done.
  - by apply insert_subseteq.
  - intros t' L' va H'. destruct (tw_bounds _ _ _ _ W H') as (? & _).
    apply (xlate_sim lv w) with L'; [done| |done|lia].
    intros t1 L1 va1 H1. destruct (decide (t = t1 /\ i = walk_index va1 L1)) as [[<- Ei]|N].
    + assert (L1 = L) as -> by congruence. right. by apply HX.
    + left. rewrite (EO t1 L1); [reflexivity|done|apply walk_index_range|done].
  - intros t' L' i' H' HL' Hi' P G. cbn [ram upd set_ram].
    destruct (decide (t = t' /\ i = i')) as [[<- <-]|N].
    + rewrite P, G in Hno. done.
    + by rewrite (EO t' L').
  - intros j Hj. cbn. by rewrite Ap, Hj, orb_true_r.
  - done.
  - intros t' L' H' N. apply lookup_insert_Some in H' as [[<- _]|[_ H']]; [done|congruence].
  - intros a Ha. cbn [ram upd set_ram]. apply lookup_insert_None in Ha as [Ha Nf].
    unfold m', store64. rewrite load8_store_le.
    destruct (Z.leb_spec (t + 8 * i) a), (Z.ltb_spec a (t + 8 * i + Z.of_nat 8)); cbn [andb];
      try (apply load8_fill_out; [done|done|congruence]).
    exfalso. assert (a / 4096 * 4096 = t) as Et by zlia. rewrite Et in Ha. congruence.
  - by eexists _, _.
Qed.

(** ** The walk *)

(** No tracked frame is free. *)
Definition full (w : mm_machine) : Prop :=
  forall i, 0 <= i < gMmTrackedPages (frames (mm w)) -> allocated (frames (mm w)) i = true.

Lemma full_ext lv w lv' w' : tables_ext lv w lv' w' -> full w -> full w'.
Proof.
  intros X F i Hi. apply (te_alloc _ _ _ _ X), F. by rewrite <- (te_tracked _ _ _ _ X).
Qed.

Lemma AllocPage_spec w :
  gMmReady (mm w) = true -> pages_wf (frames (mm w)) ->
  (exists f p', AllocPage w = Ret (KSTATUS_SUCCESS, Some f) (upd p' (ram w) w) /\
     0 <= f /\ f mod 4096 = 0 /\ f / 4096 < gMmTrackedPages (frames (mm w)) /\
     allocated (frames (mm w)) (f / 4096) = false /\ pages_wf p' /\
     gMmTrackedPages p' = gMmTrackedPages (frames (mm w)) /\
     (forall j, allocated p' j = (f / 4096 =? j) || allocated (frames (mm w)) j)) \/
  (full w /\ exists st, st <> KSTATUS_SUCCESS /\ AllocPage w = Ret (st, None) w).
Proof.
  intros R W. unfold AllocPage, gets, bind. rewrite R. unfold on_frames, zoom, MmAllocPage. cbn [negb orb].
  destruct (alloc_internal_spec (frames (mm w)) 1 W) as [(k & Hk & F & _ & ->)|(A & st & Hst & ->)].
  - left. pose proof (scan_index_range (frames (mm w)) k ltac:(lia)) as B.
    exists (scan_index (frames (mm w)) k * MM_PAGE_SIZE), (take_page (scan_index (frames (mm w)) k) 1 (frames (mm w))).
    split; [by destruct w as [[] ? ? ?]|]. unfold MM_PAGE_SIZE.
    rewrite Z.div_mul by lia. split_and!; try done; try lia.
    + apply Z.mod_mul. lia.
    + apply take_page_wf; [done|done|lia].
    + intros j. apply take_page_allocated.
  - right. split; [exact A|]. exists st. split; [done|]. by destruct w as [[] ? ? ?].
Qed.

Lemma P2V_upd p m w t : MmpPhysToVirtTable (mm (upd p m w)) t = MmpPhysToVirtTable (mm w) t.
Proof. reflexivity. Qed.

Section Level.
Context (lv : gmap Z nat) (w : mm_machine) (t va : Z) (L : nat) (create : bool).
Context (W : tables_wf lv w) (R : gMmReady (mm w) = true) (Ht : lv !! t = Some L) (HL : (L < 3)%nat).


Let i := walk_index va L.
Let T := MmpPhysToVirtTable (mm w) t.
Let e := entry (ram w) t i.

(** A present 2 MiB entry translates as the 512 entries it is split into. *)
Lemma split_large_spec :
  exists st e' lv' w', split_large va create L T i e w = Ret (st, e') w' /\
    tables_ext lv w lv' w' /\ (create = false -> w' = w) /\
    (st = KSTATUS_SUCCESS -> e' = entry (ram w') t i /\
       (is_present e' = true -> is_large e' = false) /\
       (is_present e = true -> is_large e = false -> w' = w)) /\
    (st <> KSTATUS_SUCCESS -> is_present e = true /\ is_large e = true /\
       (create = true -> full w' \/ (st = KSTATUS_NOT_IMPLEMENTED /\ (L < 2)%nat /\ w' = w))).
Proof.
  pose proof (walk_index_range va L) as Hi. fold i in Hi.
  destruct (tw_bounds _ _ _ _ W Ht) as (_ & B1 & B2 & B3).
  unfold split_large. destruct (is_present e) eqn:P; cbn [andb negb].
  2: { exists KSTATUS_SUCCESS, e, lv, w. split_and!; try done;
       [by apply tables_ext_refl|]. intros _. split_and!; [done|congruence|done]. }
  destruct (is_large e) eqn:G; cbn [negb].
  2: { exists KSTATUS_SUCCESS, e, lv, w. split_and!; try done. by apply tables_ext_refl. }
  destruct (Nat.eqb_spec L 2) as [EL|NL]; cbn [negb].
  2: { exists KSTATUS_NOT_IMPLEMENTED, e, lv, w. split_and!; try done; [by apply tables_ext_refl|].
       intros _. split_and!; try done. intros _. right. split_and!; [done|lia|done]. }
  destruct create; cbn [negb].
  2: { exists KSTATUS_NOT_FOUND, e, lv, w. split_and!; try done. by apply tables_ext_refl. }
  destruct (AllocPage_spec w R (tw_pages _ _ W))
    as [(f & p' & EA & F0 & Fa & Ft & Ff & Wp & Tp & Ap)|(Fu & st & Hst & EA)].
  2: { rewrite (bind_eq _ _ _ _ _ EA). unfold ok.
       destruct (Z.eqb_spec st KSTATUS_SUCCESS); [done|]. cbn [negb].
       exists KSTATUS_INIT_FAILED, e, lv, w. split_and!; try done; [by apply tables_ext_refl|].
       intros _. split_and!; try done. intros _. by left. }
  rewrite (bind_eq _ _ _ _ _ EA). change (ok KSTATUS_SUCCESS) with true. cbn [negb].
  rewrite bind_deref, bind_gets. fold (addr_of e).
  set (fl := Z.land e _). set (g := fun SplitIndex : Z => _).
  set (v0 := Z.lor (Z.lor f MM_PTE_PRESENT) MM_PTE_WRITABLE).
  pose proof (pw_tracked _ (tw_pages _ _ W)) as Tr. unfold MM_MAX_TRACKED_PAGES in Tr.
  assert (Fb : 0 <= f < 2 ^ 30) by zlia.
  destruct (table_entry_ok f (va <? MM_USER_TOP) ltac:(lia) Fa) as (V1 & V2 & V3 & V4).
  fold v0 in V1, V2, V3, V4.
  set (v := if va <? MM_USER_TOP then _ else v0) in *.
  pose proof (entry_u64 (ram w) t i (tw_mem _ _ W)) as Ue. fold e in Ue.
  assert (GO : forall k, 0 <= k < 512 -> is_present (g k) = true /\
    addr_of (g k) = addr_of e + k * 4096 /\ is_u64 (g k)).
  { intros k Hk. apply (split_entry_ok e k Ue); [|done]. rewrite EL in Ht.
    by apply (tw_large _ _ W t i). }
  destruct (ext_new_table lv w p' t L i f g v W Ht HL Hi) as [X EV]; try done.
  { by fold e; rewrite P, G. }
  { by intros k Hk; apply GO. }
  { lia. }
  { intros va1 m1 E1 Ev EG. rewrite EL in *. cbn [Nat.sub xlate].
    rewrite E1, Ev, V1, V2, V3. cbn [negb].
    destruct (GO (walk_index va1 3) (walk_index_range _ _)) as (G1 & G2 & _).
    rewrite EG by apply walk_index_range. rewrite G1, G2. cbn [negb].
    fold e. rewrite P, G. cbn [negb]. f_equal.
    assert (A : addr_of e mod 2 ^ 21 = 0) by (by apply (tw_large _ _ W t i)).
    unfold walk_index at 1. change 0x1FF with (Z.ones 9). rewrite Z.land_ones by lia.
    rewrite Z.shiftr_div_pow2 by lia. change (39 - 9 * Z.of_nat 3) with 12.
    change (2 ^ 12) with 4096. change (2 ^ 9) with 512. change (2 ^ 21) with 2097152 in *. zlia. }
  rewrite (bind_eq _ _ _ _ _ (fill_table_table _ _ _)).
  fold (addr_of f). rewrite (addr_of_page f) by (lia || done).
  match goal with |- context [bind (write_entry _ _ _) _ ?w1] =>
    rewrite (bind_eq _ _ _ _ _ (write_entry_table w1 t i _ ltac:(lia))) end.
  rewrite B3. unfold ret.
  eexists KSTATUS_SUCCESS, _, _, _. split; [reflexivity|].
  split; [exact X|]. split; [done|]. split; [|done].
  intros _. split_and!; [symmetry; exact EV|by intros _|congruence].
Qed.

Lemma sanitize_spec :
  is_large e = false \/ is_present e = false ->
  exists e' w', sanitize va create T i e w = Ret e' w' /\
    tables_ext lv w lv w' /\ (create = false -> w' = w) /\
    e' = entry (ram w') t i /\ is_present e' = is_present e /\
    (is_present e = true -> is_large e' = false).
Proof.
  intros Hl. pose proof (walk_index_range va L) as Hi. fold i in Hi.
  destruct (tw_bounds _ _ _ _ W Ht) as (_ & B1 & B2 & B3).
  pose proof (entry_u64 (ram w) t i (tw_mem _ _ W)) as Ue. fold e in Ue.
  destruct (sanitized_eq e Ue) as [SE SU].
  assert (Same : exists e' w', ret e w = Ret e' w' /\
    tables_ext lv w lv w' /\ (create = false -> w' = w) /\
    e' = entry (ram w') t i /\ is_present e' = is_present e /\
    (is_present e = true -> is_large e' = false)).
  { exists e, w. split_and!; try done; [by apply tables_ext_refl|]. intros; naive_solver congruence. }
  unfold sanitize. destruct (is_present e) eqn:P; cbn [andb]; [|exact Same].
  destruct (MmpIsUserAddress va); cbn [andb]; [|exact Same].
  destruct create; cbn [andb]; [|exact Same].
  destruct (negb (Z.land (Z.lor e MM_PTE_USER) (lnot64 MM_PTE_NX) =? e)); [|exact Same].
  rewrite (bind_eq _ _ _ _ _ (write_entry_table w t i _ ltac:(lia))). rewrite B3. unfold ret.
  eexists _, _. split; [reflexivity|].
  destruct SE as (S1 & S2 & S3).
  split; [by apply (ext_same_entry lv w t L)|]. split; [done|].
  cbn [ram upd set_ram]. rewrite entry_store, bool_decide_eq_true_2 by done.
  split_and!; [done|congruence|]. intros _. rewrite S2. destruct Hl; congruence.
Qed.

Lemma create_missing_spec :
  (is_present e = true -> is_large e = false) ->
  exists st e' lv' w', create_missing va create T i e w = Ret (st, e') w' /\
    tables_ext lv w lv' w' /\ (create = false -> w' = w) /\
    (st = KSTATUS_SUCCESS -> e' = entry (ram w') t i /\ is_present e' = true /\ is_large e' = false) /\
    (st <> KSTATUS_SUCCESS -> is_present e = false /\ (create = true -> full w')).
Proof.
  intros Hl. pose proof (walk_index_range va L) as Hi. fold i in Hi.
  destruct (tw_bounds _ _ _ _ W Ht) as (_ & B1 & B2 & B3).
  unfold create_missing. destruct (is_present e) eqn:P; cbn [negb].
  { exists KSTATUS_SUCCESS, e, lv, w. split_and!; try done; [by apply tables_ext_refl|].
    intros _. split_and!; [done|done|by apply Hl]. }
  destruct create; cbn [negb].
  2: { exists KSTATUS_NOT_FOUND, e, lv, w. split_and!; try done. by apply tables_ext_refl. }
  destruct (AllocPage_spec w R (tw_pages _ _ W))
    as [(f & p' & EA & F0 & Fa & Ft & Ff & Wp & Tp & Ap)|(Fu & st & Hst & EA)].
  2: { rewrite (bind_eq _ _ _ _ _ EA). unfold ok.
       destruct (Z.eqb_spec st KSTATUS_SUCCESS); [done|]. cbn [negb].
       exists KSTATUS_INIT_FAILED, e, lv, w. split_and!; try done. by apply tables_ext_refl. }
  rewrite (bind_eq _ _ _ _ _ EA). change (ok KSTATUS_SUCCESS) with true. cbn [negb].
  rewrite bind_deref, bind_gets.
  set (v0 := Z.lor (Z.lor f MM_PTE_PRESENT) MM_PTE_WRITABLE).
  pose proof (pw_tracked _ (tw_pages _ _ W)) as Tr. unfold MM_MAX_TRACKED_PAGES in Tr.
  assert (Fb : 0 <= f < 2 ^ 30) by zlia.
  destruct (table_entry_ok f (MmpIsUserAddress va) ltac:(lia) Fa) as (V1 & V2 & V3 & V4).
  fold v0 in V1, V2, V3, V4.
  set (v := if MmpIsUserAddress va then _ else v0) in *.
  destruct (ext_new_table lv w p' t L i f (fun _ => 0) v W Ht HL Hi) as [X EV]; try done.
  { by fold e; rewrite P. }
  { intros va1 m1 E1 Ev EG.
    assert (EL : (4 - L)%nat = S (S (2 - L)%nat)) by lia. rewrite EL. cbn [xlate].
    replace (3 - S (2 - L))%nat with L by lia. rewrite E1, Ev, V1, V2, V3. fold e. rewrite P.
    cbn [negb]. by rewrite EG by apply walk_index_range. }
  rewrite (bind_eq _ _ _ _ _ (fill_table_table _ _ _)).
  fold (addr_of f). rewrite (addr_of_page f) by (lia || done).
  match goal with |- context [bind (write_entry _ _ _) _ ?w1] =>
    rewrite (bind_eq _ _ _ _ _ (write_entry_table w1 t i _ ltac:(lia))) end.
  rewrite B3. unfold ret.
  eexists KSTATUS_SUCCESS, _, _, _. split; [reflexivity|].
  split; [exact X|]. split; [done|]. split; [|done].
  intros _. split_and!; [symmetry; exact EV|done|done].
Qed.
End Level.

(** One level: the next table, or the reason why there is none. *)
Lemma walk_level_spec lv w t va L create :
  tables_wf lv w -> gMmReady (mm w) = true -> lv !! t = Some L -> (L < 3)%nat -> 0 <= va ->
  exists st T' lv' w', walk_level va create L (MmpPhysToVirtTable (mm w) t) w = Ret (st, T') w' /\
    tables_ext lv w lv' w' /\ (create = false -> w' = w) /\
    (st = KSTATUS_SUCCESS -> exists c, T' = MmpPhysToVirtTable (mm w') c /\ lv' !! c = Some (S L) /\
       is_present (entry (ram w') t (walk_index va L)) = true /\
       is_large (entry (ram w') t (walk_index va L)) = false /\
       addr_of (entry (ram w') t (walk_index va L)) = c) /\
    (st <> KSTATUS_SUCCESS ->
       is_present (entry (ram w) t (walk_index va L)) && negb (is_large (entry (ram w) t (walk_index va L)))
         = false /\
       (create = true -> full w' \/ (st = KSTATUS_NOT_IMPLEMENTED /\ (L < 2)%nat /\
          is_present (entry (ram w') t (walk_index va L)) = true /\
          is_large (entry (ram w') t (walk_index va L)) = true))).
Proof.
  intros W R Ht HL Hva. pose proof (walk_index_range va L) as Hi.
  destruct (tw_bounds _ _ _ _ W Ht) as (_ & B1 & B2 & B3).
  unfold walk_level. rewrite (bind_eq _ _ _ _ _ (read_entry_table w t (walk_index va L) ltac:(lia))). rewrite B3.
  destruct (split_large_spec lv w t va L create W R Ht HL)
    as (st1 & e1 & lv1 & w1 & E1 & X1 & C1 & S1 & F1).
  rewrite (bind_eq _ _ _ _ _ E1). unfold ok.
  destruct (Z.eqb_spec st1 KSTATUS_SUCCESS) as [->|N1]; cbn [negb].
  2: { destruct (F1 N1) as (P & G & Fc). eexists _, _, lv1, w1. split; [reflexivity|].
       split_and!; try done. intros _. rewrite P, G. split; [done|].
       intros Hc. destruct (Fc Hc) as [?|(? & ? & ->)]; [by left|right; split_and!; done]. }
  destruct (S1 eq_refl) as (-> & G1 & K1). clear S1 F1 E1.
  assert (Ht1 : lv1 !! t = Some L) by (eapply lookup_weaken; [done|apply X1]).
  assert (R1 : gMmReady (mm w1) = true) by (destruct (te_state _ _ _ _ X1) as (p & m & ->); done).
  assert (T1 : MmpPhysToVirtTable (mm w) t = MmpPhysToVirtTable (mm w1) t)
    by (destruct (te_state _ _ _ _ X1) as (p & m & ->); done).
  pose proof (te_wf _ _ _ _ X1) as W1. rewrite T1.
  destruct (sanitize_spec lv1 w1 t va L create W1 Ht1 HL)
    as (e2 & w2 & E2 & X2 & C2 & -> & P2 & G2).
  { destruct (is_present (entry (ram w1) t (walk_index va L))) eqn:P; [left; by apply G1|by right]. }
  rewrite (bind_eq _ _ _ _ _ E2). clear E2.
  assert (T2 : MmpPhysToVirtTable (mm w1) t = MmpPhysToVirtTable (mm w2) t)
    by (destruct (te_state _ _ _ _ X2) as (p & m & ->); done).
  assert (R2 : gMmReady (mm w2) = true) by (destruct (te_state _ _ _ _ X2) as (p & m & ->); done).
  pose proof (te_wf _ _ _ _ X2) as W2. rewrite T2.
  destruct (create_missing_spec lv1 w2 t va L create W2 R2 Ht1 HL)
    as (st3 & e3 & lv3 & w3 & E3 & X3 & C3 & S3 & F3).
  { intros P. apply G2. by rewrite <- P2. }
  rewrite (bind_eq _ _ _ _ _ E3). unfold ok. clear E3.
  pose proof (tables_ext_trans _ _ _ _ _ _ (tables_ext_trans _ _ _ _ _ _ X1 X2) X3) as X.
  assert (CC : create = false -> w3 = w) by (intros Hc; rewrite C3, C2, C1 by done; done).
  destruct (Z.eqb_spec st3 KSTATUS_SUCCESS) as [->|N3]; cbn [negb].
  - rewrite bind_gets. unfold ret. eexists _, _, lv3, w3. split; [reflexivity|].
    split_and!; try done. intros _. destruct (S3 eq_refl) as (-> & P & G).
    fold (addr_of (entry (ram w3) t (walk_index va L))).
    eexists. split; [|split_and!; [|done|done|reflexivity]].
    + reflexivity.
    + apply (tw_child _ _ (te_wf _ _ _ _ X3)); try done.
      eapply lookup_weaken; [exact Ht1|apply X3].
  - destruct (F3 N3) as (P & Fc). eexists _, _, lv3, w3. split; [reflexivity|].
    split_and!; try done. intros _. split; [|intros Hc; left; by apply Fc].
    destruct (is_present (entry (ram w) t (walk_index va L))) eqn:P0; [|done].
    destruct (is_large (entry (ram w) t (walk_index va L))) eqn:G0; [done|].
    exfalso. rewrite (K1 eq_refl eq_refl) in P2. congruence.
Qed.

(** Following [va] there is a present large entry above the 2 MiB level. *)
Fixpoint huge (n : nat) (m : mem) (L : nat) (t va : Z) : Prop :=
  match n with
  | O => False
  | S n' =>
      let e := entry m t (walk_index va L) in
      is_present e = true /\
      ((is_large e = true /\ (L < 2)%nat) \/ (is_large e = false /\ huge n' m (S L) (addr_of e) va))
  end.

Lemma leads_ext lv w lv' w' va n : forall L t c,
  tables_wf lv w -> tables_ext lv w lv' w' -> lv !! t = Some L -> (L + n <= 3)%nat ->
  leads n (ram w) L t va c -> leads n (ram w') L t va c.
Proof.
  induction n as [|n IH]; intros L t c W X Ht Hn; [done|]. cbn [leads].
  intros (P & G & D). pose proof (walk_index_range va L) as Hi.
  destruct (te_link _ _ _ _ X t L _ Ht ltac:(lia) Hi P G) as (E1 & E2 & E3).
  rewrite E1, E2, E3. split_and!; [done|done|]. apply IH; [done|done| |lia|done].
  apply (tw_child _ _ W); [done|lia|done|done|done].
Qed.

Lemma walk_levels_spec va create n : forall lv w t L,
  tables_wf lv w -> gMmReady (mm w) = true -> lv !! t = Some L -> (L + n = 3)%nat -> 0 <= va ->
  exists st T' lv' w',
    walk_levels va create n L (MmpPhysToVirtTable (mm w) t) w = Ret (st, T') w' /\
    tables_ext lv w lv' w' /\ (create = false -> w' = w) /\
    (st = KSTATUS_SUCCESS -> exists c, T' = MmpPhysToVirtTable (mm w') c /\ lv' !! c = Some 3%nat /\
       leads n (ram w') L t va c) /\
    (st <> KSTATUS_SUCCESS -> (forall c, ~ leads n (ram w) L t va c) /\
       (create = true -> full w' \/ (st = KSTATUS_NOT_IMPLEMENTED /\ huge n (ram w') L t va))).
Proof.
  induction n as [|n IH]; intros lv w t L W R Ht HL Hva; cbn [walk_levels].
  { eexists _, _, lv, w. split; [reflexivity|]. split_and!; try done; [by apply tables_ext_refl|].
    intros _. exists t. split_and!; [done|by replace L with 3%nat in Ht by lia|done]. }
  pose proof (walk_index_range va L) as Hi.
  destruct (walk_level_spec lv w t va L create W R Ht ltac:(lia) Hva)
    as (st1 & T1 & lv1 & w1 & E1 & X1 & C1 & S1 & F1).
  rewrite (bind_eq _ _ _ _ _ E1). unfold ok.
  destruct (Z.eqb_spec st1 KSTATUS_SUCCESS) as [->|N1]; cbn [negb].
  2: { destruct (F1 N1) as [P Fc]. eexists _, _, lv1, w1. split; [reflexivity|].
       split_and!; try done. intros _. split.
       - cbn [leads]. intros c (P1 & G1 & _). by rewrite P1, G1 in P.
       - intros Hc. destruct (Fc Hc) as [?|(-> & ? & P1 & G1)]; [by left|right].
         split; [done|]. cbn [huge]. split; [done|]. by left. }
  destruct (S1 eq_refl) as (c1 & -> & Hc1 & P1 & G1 & A1).
  pose proof (te_wf _ _ _ _ X1) as W1.
  assert (R1 : gMmReady (mm w1) = true) by (destruct (te_state _ _ _ _ X1) as (p & m & ->); done).
  destruct (IH lv1 w1 c1 (S L) W1 R1 Hc1 ltac:(lia) Hva)
    as (st2 & T2 & lv2 & w2 & E2 & X2 & C2 & S2 & F2).
  exists st2, T2, lv2, w2. split; [exact E2|].
  assert (Ht1 : lv1 !! t = Some L) by (eapply lookup_weaken; [done|apply X1]).
  destruct (te_link _ _ _ _ X2 t L _ Ht1 ltac:(lia) Hi P1 G1) as (EP & EG & EA).
  split_and!.
  - by eapply tables_ext_trans.
  - intros Hc. by rewrite C2, C1.
  - intros Hs. destruct (S2 Hs) as (c & Tc & Hc & D). exists c. split_and!; [done|done|].
    cbn [leads]. rewrite EP, EG, EA, A1. done.
  - intros Hs. destruct (F2 Hs) as [ND Fc]. split.
    + intros c. cbn [leads]. intros (P & G & D). apply (ND c).
      destruct (te_link _ _ _ _ X1 t L _ Ht ltac:(lia) Hi P G) as (_ & _ & EA1).
      rewrite <- A1, EA1. eapply leads_ext; [exact W|exact X1| |lia|exact D].
      apply (tw_child _ _ W); [done|lia|done|done|done].
    + intros Hc. destruct (Fc Hc) as [?|[? H]]; [by left|right]. split; [done|].
      cbn [huge]. rewrite EP, EG, EA, A1. split; [done|]. by right.
Qed.

(** ** Distinct pages have distinct page-table entries *)

Lemma leads_inj lv w va va' n : forall L t t' c,
  tables_wf lv w -> lv !! t = Some L -> lv !! t' = Some L -> (L + n <= 3)%nat ->
  leads n (ram w) L t va c -> leads n (ram w) L t' va' c ->
  (forall k, (k < n)%nat -> walk_index va (L + k) = walk_index va' (L + k)) /\
  (t = t' \/ (0 < n /\ L = 0)%nat).
Proof.
  induction n as [|n IH]; intros L t t' c W Ht Ht' Hn; cbn [leads].
  { intros -> ->. split; [lia|by left]. }
  intros (P & G & D) (P' & G' & D').
  pose proof (walk_index_range va L) as Hi. pose proof (walk_index_range va' L) as Hi'.
  pose proof (tw_child _ _ W t L _ Ht ltac:(lia) Hi P G) as Hc.
  pose proof (tw_child _ _ W t' L _ Ht' ltac:(lia) Hi' P' G') as Hc'.
  destruct (IH (S L) _ _ c W Hc Hc' ltac:(lia) D D') as [EI ET].
  assert (EA : addr_of (entry (ram w) t (walk_index va L)) = addr_of (entry (ram w) t' (walk_index va' L)))
    by (destruct ET as [?|[_ ?]]; [done|lia]).
  destruct (tw_unique _ _ W t t' L L _ _ Ht Ht' ltac:(lia) ltac:(lia) Hi Hi' P G P' G' EA) as [E0 ETT].
  split.
  - intros [|k] Hk; [by rewrite Nat.add_0_r|]. replace (L + S k)%nat with (S L + k)%nat by lia.
    apply EI. lia.
  - destruct ETT as [?|[? _]]; [by left|right; lia].
Qed.

(** Rewriting one page-table entry changes the translation only of addresses
    whose walk ends at that entry. *)
Lemma xlate_leaf lv w t3 i3 v va : tables_wf lv w -> lv !! t3 = Some 3%nat -> 0 <= i3 < 512 -> is_u64 v ->
  forall n L t, lv !! t = Some L -> (n + L = 3)%nat ->
  ~ (leads n (ram w) L t va t3 /\ walk_index va 3 = i3) ->
  xlate (S n) (store64 (ram w) (t3 + 8 * i3) v) t va = xlate (S n) (ram w) t va.
Proof.
  intros W H3 Hi3 Hv. destruct (tw_bounds _ _ _ _ W H3) as (_ & _ & A3 & _).
  induction n as [|n IH]; intros L t Ht Hn N; pose proof (walk_index_range va L) as Hi;
    destruct (tw_bounds _ _ _ _ W Ht) as (_ & _ & At & _).
  - assert (L = 3%nat) as -> by lia. cbn [xlate Nat.sub]. rewrite entry_store by done.
    rewrite bool_decide_eq_false_2; [done|]. intros [-> ->]. by apply N.
  - cbn [xlate]. replace (3 - S n)%nat with L by lia. rewrite entry_store by done.
    rewrite bool_decide_eq_false_2 by (intros [-> _]; rewrite H3 in Ht; injection Ht; lia).
    destruct (is_present _) eqn:P; cbn [negb]; [|done].
    destruct (is_large _) eqn:G; [done|].
    apply (IH (S L)); [apply (tw_child _ _ W); [done|lia|done|done|done]|lia|].
    intros [D Ei]. apply N. split; [|done]. by cbn [leads].
Qed.

Lemma xlate_leads m va n : forall L t c, (n + L = 3)%nat -> leads n m L t va c ->
  xlate (S n) m t va = xlate 1 m c va.
Proof.
  induction n as [|n IH]; intros L t c Hn; cbn [leads].
  { by intros ->. }
  intros (P & G & D). rewrite <- (IH (S L) _ c) by (done || lia).
  cbn [xlate]. replace (3 - S n)%nat with L by lia. by rewrite P, G.
Qed.

(** Rewriting a page-table entry keeps the tables well formed. *)
Lemma wf_leaf lv w p t3 i3 v : tables_wf lv w -> lv !! t3 = Some 3%nat -> 0 <= i3 < 512 -> is_u64 v ->
  pages_wf p -> gMmTrackedPages p = gMmTrackedPages (frames (mm w)) ->
  (forall t L, lv !! t = Some L -> allocated p (t / 4096) = true) ->
  tables_wf lv (upd p (store64 (ram w) (t3 + 8 * i3) v) w).
Proof.
  intros W H3 Hi3 Hv Wp Tp Ap. destruct (tw_bounds _ _ _ _ W H3) as (_ & _ & A3 & _).
  assert (EO : forall t L i, lv !! t = Some L -> (L < 3)%nat -> 0 <= i < 512 ->
    entry (store64 (ram w) (t3 + 8 * i3) v) t i = entry (ram w) t i).
  { intros t L i Ht HL Hi. destruct (tw_bounds _ _ _ _ W Ht) as (_ & _ & At & _).
    rewrite entry_store by done. rewrite bool_decide_eq_false_2; [done|].
    intros [-> _]. rewrite H3 in Ht. injection Ht. lia. }
  constructor; cbn [ram mm upd set_ram set_mm set_frames frames].
  - intros t L Ht. destruct (tw_frame _ _ W t L Ht) as (? & ? & ? & ? & _).
    rewrite Tp. split_and!; try done. by apply (Ap t L).
  - intros t L i Ht HL Hi. rewrite (EO t L i) by done. by apply (tw_child _ _ W).
  - intros t i Ht Hi. rewrite (EO t 2%nat i) by (done || lia). by apply (tw_large _ _ W).
  - intros t t' L L' i i' Ht Ht' HL HL' Hi Hi'. rewrite (EO t L i), (EO t' L' i') by done.
    by apply (tw_unique _ _ W).
  - apply store_le_ok. apply (tw_mem _ _ W).
  - done.
Qed.

(** ** The operations on one page *)

(** [a] is an address space of the machine. *)
Record space_ok (lv : gmap Z nat) (w : mm_machine) (a : MM_ADDRESS_SPACE) : Prop := {
  so_wf : tables_wf lv w;
  so_ready : gMmReady (mm w) = true;
  so_root : lv !! RootTablePhysical a = Some 0%nat;
  so_nonzero : RootTablePhysical a <> 0 }.

(** What the processor translates in [a]. *)
Definition translate (w : mm_machine) (r va : Z) : option Z := xlate 4 (ram w) r va.

Lemma translate_x86 lv w a va : space_ok lv w a ->
  translate w (RootTablePhysical a) va = x86_translate (ram w) (RootTablePhysical a) va.
Proof.
  intros S. unfold x86_translate.
  by destruct (tw_bounds _ _ _ _ (so_wf _ _ _ S) (so_root _ _ _ S)) as (_ & _ & _ & ->).
Qed.

(** An address the manager works on: aligned and accepted as canonical. *)
Definition page_va (va : Z) : Prop :=
  0 <= va /\ va mod 4096 = 0 /\ MmpIsCanonicalAddress va = true.

Lemma walk_spec lv w a va create :
  space_ok lv w a -> page_va va ->
  exists st T' lv' w', MmpWalkToPte (Some a) va create w = Ret (st, (T', walk_index va 3)) w' /\
    tables_ext lv w lv' w' /\ (create = false -> w' = w) /\
    (st = KSTATUS_SUCCESS -> exists c, T' = MmpPhysToVirtTable (mm w') c /\ lv' !! c = Some 3%nat /\
       addr_of c = c /\ leads 3 (ram w') 0 (RootTablePhysical a) va c) /\
    (st <> KSTATUS_SUCCESS -> (forall c, ~ leads 3 (ram w) 0 (RootTablePhysical a) va c) /\
       (create = true -> full w' \/
          (st = KSTATUS_NOT_IMPLEMENTED /\ huge 3 (ram w') 0 (RootTablePhysical a) va))).
Proof.
  intros [W R Hr Hn] (Hva & _ & Hc). unfold MmpWalkToPte. rewrite Hc. cbn [negb].
  unfold NK_ASSERT. destruct (Z.eqb_spec (RootTablePhysical a) 0); [done|]. cbn [negb].
  unfold bind at 1, ret at 1. rewrite bind_gets.
  destruct (walk_levels_spec va create 3 lv w _ 0 W R Hr eq_refl Hva)
    as (st & T' & lv' & w' & E & X & C & S & F).
  rewrite (bind_eq _ _ _ _ _ E). unfold ret. exists st, T', lv', w'. split_and!; try done.
  intros Hs. destruct (S Hs) as (c & -> & Hc3 & D). exists c. split_and!; try done.
  by destruct (tw_bounds _ _ _ _ (te_wf _ _ _ _ X) Hc3) as (_ & _ & _ & A).
Qed.

Lemma ready_ext lv w lv' w' : tables_ext lv w lv' w' -> gMmReady (mm w') = gMmReady (mm w).
Proof. intros X. by destruct (te_state _ _ _ _ X) as (p & m & ->). Qed.

Lemma space_ext lv w lv' w' a : space_ok lv w a -> tables_ext lv w lv' w' -> space_ok lv' w' a.
Proof.
  intros [W R Hr Hn] X. constructor; [apply X| |by eapply lookup_weaken, X|done].
  by rewrite (ready_ext _ _ _ _ X).
Qed.

(** The entry at the end of the walk decides the translation. *)
Lemma translate_leads w r c va :
  leads 3 (ram w) 0 r va c ->
  translate w r va = if is_present (entry (ram w) c (walk_index va 3))
    then Some (addr_of (entry (ram w) c (walk_index va 3)) + va mod 4096) else None.
Proof.
  intros D. unfold translate. rewrite (xlate_leads _ _ 3 0 _ c eq_refl D). cbn [xlate Nat.sub].
  by destruct (is_present _).
Qed.

Lemma leads_det m va n : forall L t c c', leads n m L t va c -> leads n m L t va c' -> c = c'.
Proof.
  induction n as [|n IH]; intros L t c c'; cbn [leads]; [by intros <- <-|].
  intros (_ & _ & D) (_ & _ & D'). by apply (IH _ _ _ _ D D').
Qed.

Lemma leads_same_index m va va' n : forall L t c, (n + L <= 3)%nat ->
  (forall k, (k <= 3)%nat -> walk_index va k = walk_index va' k) ->
  leads n m L t va c -> leads n m L t va' c.
Proof.
  induction n as [|n IH]; intros L t c Hn E; [done|]. cbn [leads].
  rewrite (E L) by lia. intros (? & ? & ?). split_and!; [done|done|]. apply IH; [lia|done|done].
Qed.

(** The effect of rewriting the entry of [va] with [v]. *)
Lemma rewrite_entry_spec lv w a va c v p :
  space_ok lv w a -> page_va va -> lv !! c = Some 3%nat ->
  leads 3 (ram w) 0 (RootTablePhysical a) va c -> is_u64 v ->
  pages_wf p -> gMmTrackedPages p = gMmTrackedPages (frames (mm w)) ->
  (forall t L, lv !! t = Some L -> allocated p (t / 4096) = true) ->
  let w' := upd p (store64 (ram w) (c + 8 * walk_index va 3) v) w in
  space_ok lv w' a /\ leads 3 (ram w') 0 (RootTablePhysical a) va c /\
  entry (ram w') c (walk_index va 3) = v /\
  (forall r va2, lv !! r = Some 0%nat -> 0 <= va2 -> vpage va2 <> vpage va ->
     translate w' r va2 = translate w r va2) /\
  (forall va2, 0 <= va2 -> vpage va2 = vpage va ->
     translate w' (RootTablePhysical a) va2
       = if is_present v then Some (addr_of v + va2 mod 4096) else None).
Proof.
  intros [W R Hr Hn] (Hva & Ha & Hcn) Hc D Hv Wp Tp Ap w'.
  pose proof (walk_index_range va 3) as Hi.
  destruct (tw_bounds _ _ _ _ W Hc) as (_ & _ & Ac & _).
  pose proof (wf_leaf lv w p c _ v W Hc Hi Hv Wp Tp Ap) as W'.
  assert (EV : entry (ram w') c (walk_index va 3) = v).
  { unfold w'. cbn [ram upd set_ram]. rewrite entry_store by done. by rewrite bool_decide_eq_true_2. }
  assert (D' : leads 3 (ram w') 0 (RootTablePhysical a) va c).
  { revert D. unfold w'. cbn [ram upd set_ram].
    assert (K : forall n L t, lv !! t = Some L -> (L + n <= 3)%nat -> leads n (ram w) L t va c ->
      leads n (store64 (ram w) (c + 8 * walk_index va 3) v) L t va c).
    { induction n as [|n IH]; intros L t Ht HL; [done|]. cbn [leads].
      intros (P & G & D). destruct (tw_bounds _ _ _ _ W Ht) as (_ & _ & At & _).
      rewrite entry_store by (done || apply walk_index_range).
      rewrite bool_decide_eq_false_2 by (intros [-> _]; rewrite Hc in Ht; injection Ht; lia).
      split_and!; [done|done|]. apply IH; [|lia|done].
      apply (tw_child _ _ W); [done|lia|apply walk_index_range|done|done]. }
    apply K; [done|lia]. }
  split_and!; [by constructor|done|done| |].
  - intros r va2 Hr2 Hva2 Np. unfold translate, w'. cbn [ram upd set_ram].
    apply (xlate_leaf lv w c _ v va2 W Hc Hi Hv 3 0 r Hr2 eq_refl). intros [D2 E3].
    apply Np. apply walk_index_vpage; [done|done|].
    destruct (leads_inj lv w va2 va 3 0 r _ c W Hr2 Hr ltac:(lia) D2 D) as [EI _].
    intros L HL. destruct (decide (L = 3%nat)) as [->|]; [done|]. apply (EI L). lia.
  - intros va2 Hva2 Ep.
    assert (EI : forall k, (k <= 3)%nat -> walk_index va k = walk_index va2 k)
      by (by apply walk_index_vpage).
    rewrite (translate_leads w' _ c va2) by (eapply leads_same_index; [lia|exact EI|exact D']).
    rewrite <- (EI 3%nat) by lia. by rewrite EV.
Qed.

(** The frame mapped before, if any, is not a page table and is not free. *)
Definition old_page_ok (lv : gmap Z nat) (w : mm_machine) (r va : Z) : Prop :=
  forall x, translate w r va = Some x -> lv !! x = None /\
    (x / 4096 < gMmTrackedPages (frames (mm w)) -> allocated (frames (mm w)) (x / 4096) = true).

Lemma release_keeps_tables lv w x : tables_wf lv w -> 0 <= x -> x mod 4096 = 0 -> lv !! x = None ->
  let p := MmpReleasePage x (frames (mm w)) in
  pages_wf p /\ gMmTrackedPages p = gMmTrackedPages (frames (mm w)) /\
  (forall t L, lv !! t = Some L -> allocated p (t / 4096) = true).
Proof.
  intros W Hx Ax N p. destruct (release_spec x (frames (mm w)) (tw_pages _ _ W) Hx) as (Wp & _ & _ & O).
  split; [done|]. split.
  - unfold p, MmpReleasePage. destruct (_ || _); [done|]. by destruct (_ - 1 =? 0).
  - intros t L Ht. destruct (tw_frame _ _ W t L Ht) as (_ & T0 & Ta & _ & At).
    unfold p. destruct (O (t / 4096)) as [_ ->]; [|done].
    intros E. assert (t = x) by zlia. congruence.
Qed.

Lemma ReleasePage_eq x w :
  ReleasePage x w = Ret tt (upd (MmpReleasePage x (frames (mm w))) (ram w) w).
Proof. by destruct w as [[] ? ? ?]. Qed.

(** The guards at the head of the page operations. *)
Lemma page_guard va : page_va va -> (va mod MM_PAGE_SIZE =? 0) = true.
Proof. intros (_ & E & _). unfold MM_PAGE_SIZE. by rewrite E. Qed.

(** A walk that creates nothing. *)
Lemma walk_query lv w a va :
  space_ok lv w a -> page_va va ->
  exists st T', MmpWalkToPte (Some a) va false w = Ret (st, (T', walk_index va 3)) w /\
    ((st = KSTATUS_SUCCESS /\ exists c, T' = MmpPhysToVirtTable (mm w) c /\ lv !! c = Some 3%nat /\
        addr_of c = c /\ leads 3 (ram w) 0 (RootTablePhysical a) va c) \/
     (st <> KSTATUS_SUCCESS /\ forall c, ~ leads 3 (ram w) 0 (RootTablePhysical a) va c)).
Proof.
  intros S V. pose proof V as (Hva & _ & Hc). pose proof S as [W R Hr Hn].
  unfold MmpWalkToPte. rewrite Hc. cbn [negb].
  unfold NK_ASSERT. destruct (Z.eqb_spec (RootTablePhysical a) 0); [done|]. cbn [negb].
  unfold bind at 1, ret at 1. rewrite bind_gets.
  destruct (walk_levels_spec va false 3 lv w _ 0 W R Hr eq_refl Hva)
    as (st & T' & lv' & w' & E & X & C & SS & FF).
  specialize (C eq_refl). subst w'. rewrite (bind_eq _ _ _ _ _ E). unfold ret.
  exists st, T'. split; [done|]. destruct (decide (st = KSTATUS_SUCCESS)) as [Hs|Hs].
  - left. split; [done|]. destruct (SS Hs) as (c & -> & Hc3 & D).
    assert (Hc3' : lv !! c = Some 3%nat).
    { clear -W Hr D. revert Hr D. generalize (RootTablePhysical a). intros r Hr D.
      assert (K : forall n L t, lv !! t = Some L -> (L + n <= 3)%nat -> leads n (ram w) L t va c ->
        lv !! c = Some (L + n)%nat).
      { induction n as [|n IH]; intros L t Ht HL; cbn [leads].
        - intros <-. by rewrite Nat.add_0_r.
        - intros (P & G & D'). replace (L + S n)%nat with (S L + n)%nat by lia.
          apply (IH _ _ (tw_child _ _ W t L _ Ht ltac:(lia) (walk_index_range _ _) P G)); [lia|done]. }
      apply (K 3%nat 0%nat r); [done|lia|done]. }
    exists c. split_and!; [done|done| |done]. by destruct (tw_bounds _ _ _ _ W Hc3') as (_ & _ & _ & A).
  - right. split; [done|]. by apply FF.
Qed.

(** What a page operation does after a successful walk, on the state. *)
Lemma write_flush_eq c va v p w : addr_of c = c ->
  (write_entry (MmpPhysToVirtTable (mm w) c) (walk_index va 3) v ;;;
   MmpInvalidatePage va ;;; ret KSTATUS_SUCCESS) (upd p (ram w) w)
  = Ret KSTATUS_SUCCESS
      {| mm := set_frames p (mm w); ram := store64 (ram w) (c + 8 * walk_index va 3) v;
         cr3 := cr3 w; invlpgs := va :: invlpgs w |}.
Proof.
  intros A. pose proof (walk_index_range va 3).
  rewrite (bind_eq _ _ _ _ _ (write_entry_table (upd p (ram w) w) c (walk_index va 3) v ltac:(lia))).
  rewrite A. unfold MmpInvalidatePage. by rewrite bind_modify.
Qed.

Lemma space_ok_same lv w w' a : mm w' = mm w -> ram w' = ram w -> space_ok lv w a -> space_ok lv w' a.
Proof.
  intros E1 E2 [[] ? ? ?]. constructor; rewrite ?E1; try done. constructor; by rewrite ?E1, ?E2.
Qed.

(** The entry the operations store for a frame and its flags. *)
Lemma leaf_entry_same pa flags : 0 <= pa < 2 ^ 52 -> pa mod 4096 = 0 -> is_u64 flags ->
  Z.lor pa (addr_of flags) = pa ->
  let v := Z.lor (Z.lor pa flags) MM_PTE_PRESENT in
  is_present v = true /\ addr_of v = pa /\ is_u64 v.
Proof.
  intros Hp Ap Uf Af v. split_and!.
  - by rewrite is_present_bit; unfold v; rewrite Z.lor_spec, orb_true_r.
  - unfold v. rewrite !addr_of_lor, (addr_of_page pa), Af by done. apply Z.lor_0_r.
  - apply u64_bits. intros j Hj. unfold v. rewrite !Z.lor_spec. unfold is_u64 in Uf.
    by rewrite (testbit_small pa 52), (testbit_small flags 64), (testbit_small MM_PTE_PRESENT 1) by
      (lia || (unfold MM_PTE_PRESENT; lia)).
Qed.

Lemma leaf_entry_ok pa flags : 0 <= pa < 2 ^ 52 -> pa mod 4096 = 0 -> is_u64 flags -> addr_of flags = 0 ->
  let v := Z.lor (Z.lor pa flags) MM_PTE_PRESENT in
  is_present v = true /\ addr_of v = pa /\ is_u64 v.
Proof. intros ? ? ? Af. apply leaf_entry_same; try done. rewrite Af. apply Z.lor_0_r. Qed.

(** Writing one entry of a table leaves the memory outside the tables alone. *)
Lemma load8_leaf lv w c i v x : tables_wf lv w -> lv !! c = Some 3%nat -> 0 <= i < 512 ->
  lv !! (x / 4096 * 4096) = None -> load8 (store64 (ram w) (c + 8 * i) v) x = load8 (ram w) x.
Proof.
  intros W Hc Hi Nx. destruct (tw_bounds _ _ _ _ W Hc) as (_ & B1 & B2 & _).
  unfold store64. rewrite load8_store_le. guard_goal; [|done].
  bool_prop. exfalso. assert (x / 4096 * 4096 = c) as Ex by zlia. rewrite Ex in Nx. congruence.
Qed.

(** A query at the end of a walk reads the entry. *)
Lemma query_leads lv w a va c :
  space_ok lv w a -> page_va va -> leads 3 (ram w) 0 (RootTablePhysical a) va c ->
  MmAsQueryPte (Some a) va true w = Ret (KSTATUS_SUCCESS, Some (entry (ram w) c (walk_index va 3))) w.
Proof.
  intros S V D. unfold MmAsQueryPte. pose proof (walk_index_range va 3).
  rewrite bind_gets, (so_ready _ _ _ S), (page_guard va V).
  rewrite bool_decide_eq_true_2 by done. cbn [negb orb].
  destruct (walk_query lv w a va S V) as (st & T' & E & [[-> (c' & -> & Hc' & Ac' & D')]|[N ND]]);
    rewrite (bind_eq _ _ _ _ _ E); [|exfalso; by apply (ND c)].
  cbn [ok Z.eqb negb KSTATUS_SUCCESS]. rewrite (leads_det _ _ _ _ _ _ _ D' D) in *.
  rewrite (bind_eq _ _ _ _ _ (read_entry_table w c (walk_index va 3) ltac:(lia))).
  unfold ret. by rewrite Ac'.
Qed.

(** Releasing the frame a page was mapped to, after the walk created tables. *)
Lemma release_old lv w lv1 w1 a va c :
  space_ok lv w a -> page_va va -> tables_ext lv w lv1 w1 -> lv1 !! c = Some 3%nat ->
  leads 3 (ram w1) 0 (RootTablePhysical a) va c -> old_page_ok lv w (RootTablePhysical a) va ->
  let e := entry (ram w1) c (walk_index va 3) in
  let p := if is_present e then MmpReleasePage (addr_of e) (frames (mm w1)) else frames (mm w1) in
  (if is_present e then ReleasePage (addr_of e) else ret tt) w1 = Ret tt (upd p (ram w1) w1) /\
  pages_wf p /\ gMmTrackedPages p = gMmTrackedPages (frames (mm w1)) /\
  (forall t L, lv1 !! t = Some L -> allocated p (t / 4096) = true).
Proof.
  intros S V X Hc D Old e p. pose proof (te_wf _ _ _ _ X) as W1. pose proof V as (Hva & Ha & _).
  pose proof (entry_u64 (ram w1) c (walk_index va 3) (tw_mem _ _ W1)) as Ue. fold e in Ue.
  destruct (addr_of_aligned e) as [Ea1 Ea2]; [unfold is_u64 in Ue; lia|].
  unfold p. destruct (is_present e) eqn:Pe.
  - split; [apply ReleasePage_eq|]. apply release_keeps_tables; [done|lia|done|].
    destruct (Old (addr_of e)) as [O1 O2].
    { etrans; [symmetry; exact (te_xlate _ _ _ _ X _ 0%nat va (so_root _ _ _ S))|].
      change (translate w1 (RootTablePhysical a) va = Some (addr_of e)).
      rewrite (translate_leads w1 _ c va D). fold e. rewrite Pe, Ha. f_equal. lia. }
    destruct (lv1 !! addr_of e) as [L1|] eqn:E1; [|done].
    pose proof (te_new _ _ _ _ X _ _ E1 O1) as Fr.
    destruct (tw_frame _ _ W1 _ _ E1) as (_ & _ & _ & Tr & _).
    rewrite (te_tracked _ _ _ _ X) in Tr. rewrite (O2 Tr) in Fr. done.
  - split; [unfold ret; by rewrite upd_id|]. split_and!; [apply W1|done|].
    intros t L Ht. by apply (tw_frame _ _ W1 t L).
Qed.

(** What [MmAsMapPage] does, with the memory it leaves alone. *)
Lemma map_page_spec lv w a va pa flags :
  space_ok lv w a -> page_va va -> 0 <= pa < 2 ^ 52 -> pa mod 4096 = 0 ->
  is_u64 flags -> addr_of flags = 0 -> old_page_ok lv w (RootTablePhysical a) va ->
  exists st lv' w', MmAsMapPage (Some a) va pa flags w = Ret st w' /\
    space_ok lv' w' a /\ lv ⊆ lv' /\
    (forall r va2, lv !! r = Some 0%nat -> 0 <= va2 -> vpage va2 <> vpage va ->
       translate w' r va2 = translate w r va2) /\
    (st = KSTATUS_SUCCESS ->
       (forall va2, 0 <= va2 -> vpage va2 = vpage va ->
          translate w' (RootTablePhysical a) va2 = Some (pa + va2 mod 4096)) /\
       MmAsQueryPte (Some a) va true w'
         = Ret (KSTATUS_SUCCESS, Some (Z.lor (Z.lor pa flags) MM_PTE_PRESENT)) w' /\
       invlpgs w' = va :: invlpgs w) /\
    (st <> KSTATUS_SUCCESS ->
       (forall r va2, lv !! r = Some 0%nat -> translate w' r va2 = translate w r va2) /\
       (full w' \/ (st = KSTATUS_NOT_IMPLEMENTED /\ huge 3 (ram w') 0 (RootTablePhysical a) va))) /\
    (forall x, lv' !! (x / 4096 * 4096) = None -> load8 (ram w') x = load8 (ram w) x) /\
    (forall t L, lv' !! t = Some L -> lv !! t = None -> allocated (frames (mm w)) (t / 4096) = false) /\
    (exists p, mm w' = set_frames p (mm w)).
Proof.
  intros S V Hp Ap Uf Af Old.
  unfold MmAsMapPage. rewrite bind_gets, (so_ready _ _ _ S), (page_guard va V).
  change MM_PAGE_SIZE with 4096. rewrite Ap. cbn [negb orb Z.eqb].
  rewrite bool_decide_eq_true_2 by done. cbn [negb orb].
  destruct (walk_spec lv w a va true S V) as (st & T' & lv1 & w1 & E & X & _ & SS & FF).
  rewrite (bind_eq _ _ _ _ _ E). unfold ok at 1.
  assert (XT : forall r va2, lv !! r = Some 0%nat -> translate w1 r va2 = translate w r va2)
    by (intros r va2 Hr; apply (te_xlate _ _ _ _ X r 0 va2 Hr)).
  destruct (te_state _ _ _ _ X) as (p1 & m1 & Ew1).
  destruct (Z.eqb_spec st KSTATUS_SUCCESS) as [->|N]; cbn [negb].
  2: { exists st, lv1, w1. destruct (FF N) as [_ Fr]. split; [done|].
       split_and!; [by eapply space_ext|apply X|by intros; apply XT|done| |apply X|apply X|].
       - intros _. split; [done|by apply Fr].
       - exists p1. by rewrite Ew1. }
  destruct (SS eq_refl) as (c & -> & Hc & Ac & D). clear SS FF.
  pose proof (walk_index_range va 3) as Hi.
  pose proof (space_ext _ _ _ _ _ S X) as S1. pose proof (te_wf _ _ _ _ X) as W1.
  rewrite (bind_eq _ _ _ _ _ (read_entry_table w1 c (walk_index va 3) ltac:(lia))). rewrite Ac.
  destruct (release_old lv w lv1 w1 a va c S V X Hc D Old) as (ER & P1 & P2 & P3).
  fold (addr_of (entry (ram w1) c (walk_index va 3))). rewrite (bind_eq _ _ _ _ _ ER). clear ER.
  set (p := if is_present _ then _ else _) in *.
  fold (addr_of pa). rewrite (addr_of_page pa) by done.
  destruct (leaf_entry_ok pa flags Hp Ap Uf Af) as (V1 & V2 & V3).
  set (v := Z.lor (Z.lor pa flags) MM_PTE_PRESENT) in *.
  destruct (rewrite_entry_spec lv1 w1 a va c v p S1 V Hc D V3 P1 P2 P3) as (S2 & D2 & E2 & O2 & I2).
  rewrite (write_flush_eq c va v p w1 Ac).
  match goal with |- context [Ret KSTATUS_SUCCESS ?x] => set (w2 := x) end.
  set (w2' := upd p (store64 (ram w1) (c + 8 * walk_index va 3) v) w1) in *.
  assert (S3 : space_ok lv1 w2 a) by (by eapply (space_ok_same lv1 w2')).
  assert (TR : forall r x, translate w2 r x = translate w2' r x) by done.
  exists KSTATUS_SUCCESS, lv1, w2. split; [done|].
  split_and!; [done|apply X| |intros _|done| |apply X|exists p; unfold w2; cbn [mm]; by rewrite Ew1].
  - intros r va2 Hr Hva2 Np. rewrite TR, O2 by (try done; by eapply lookup_weaken, X). by apply XT.
  - split_and!.
    + intros va2 Hva2 Ep. rewrite TR, I2 by done. by rewrite V1, V2.
    + rewrite (query_leads lv1 w2 a va c S3 V D2). do 3 f_equal. exact E2.
    + unfold w2. cbn [invlpgs]. by rewrite Ew1.
  - intros x Nx. rewrite <- (te_ram _ _ _ _ X x Nx). unfold w2. cbn [ram].
    by apply (load8_leaf lv1 w1 c (walk_index va 3) v x).
Qed.

(** What [MmAsProtectPage] does; the new flags may repeat the page's own frame. *)
Lemma protect_page_spec lv w a va flags :
  space_ok lv w a -> page_va va -> is_u64 flags ->
  (forall x, translate w (RootTablePhysical a) va = Some x -> Z.lor x (addr_of flags) = x) ->
  exists st w', MmAsProtectPage (Some a) va flags w = Ret st w' /\ space_ok lv w' a /\
    (forall r va2, lv !! r = Some 0%nat -> 0 <= va2 -> vpage va2 <> vpage va ->
       translate w' r va2 = translate w r va2) /\
    (forall va2, 0 <= va2 -> vpage va2 = vpage va ->
       translate w' (RootTablePhysical a) va2 = translate w (RootTablePhysical a) va2) /\
    ((st = KSTATUS_SUCCESS /\ invlpgs w' = va :: invlpgs w /\
      exists x, translate w (RootTablePhysical a) va = Some x /\
        MmAsQueryPte (Some a) va true w'
          = Ret (KSTATUS_SUCCESS, Some (Z.lor (Z.lor x flags) MM_PTE_PRESENT)) w') \/
     (st <> KSTATUS_SUCCESS /\ w' = w /\
      (translate w (RootTablePhysical a) va = None \/
       forall c, ~ leads 3 (ram w) 0 (RootTablePhysical a) va c))) /\
    (forall x, lv !! (x / 4096 * 4096) = None -> load8 (ram w') x = load8 (ram w) x) /\
    mm w' = mm w.
Proof.
  intros S V Uf Af. pose proof V as (Hva & Ha & Hcn). pose proof (so_wf _ _ _ S) as W.
  pose proof (walk_index_range va 3) as Hi.
  unfold MmAsProtectPage. rewrite bind_gets, (so_ready _ _ _ S), (page_guard va V).
  rewrite bool_decide_eq_true_2 by done. cbn [negb orb].
  destruct (walk_query lv w a va S V) as (st & T' & E & [[-> (c & -> & Hc & Ac & D)]|[N ND]]);
    rewrite (bind_eq _ _ _ _ _ E); unfold ok.
  2: { destruct (Z.eqb_spec st KSTATUS_SUCCESS); [done|]. cbn [negb].
       exists st, w. split_and!; try done. right. split_and!; [done|done|by right]. }
  cbn [Z.eqb negb KSTATUS_SUCCESS].
  rewrite (bind_eq _ _ _ _ _ (read_entry_table w c (walk_index va 3) ltac:(lia))). rewrite Ac.
  set (e := entry (ram w) c (walk_index va 3)).
  pose proof (entry_u64 (ram w) c (walk_index va 3) (tw_mem _ _ W)) as Ue. fold e in Ue.
  destruct (addr_of_aligned e) as [Ea1 Ea2]; [unfold is_u64 in Ue; lia|].
  assert (Et : translate w (RootTablePhysical a) va
    = if is_present e then Some (addr_of e) else None).
  { rewrite (translate_leads w _ c va D). fold e. rewrite Ha. destruct (is_present e); [|done].
    by rewrite Z.add_0_r. }
  destruct (is_present e) eqn:Pe; cbn [negb].
  2: { exists KSTATUS_NOT_FOUND, w. split_and!; try done. right. split_and!; [done|done|by left]. }
  fold (addr_of e). destruct (leaf_entry_same (addr_of e) flags) as (V1 & V2 & V3); [lia|done|done|by apply Af|].
  set (v := Z.lor (Z.lor (addr_of e) flags) MM_PTE_PRESENT) in *.
  pose proof (write_flush_eq c va v (frames (mm w)) w Ac) as EW. rewrite upd_id in EW. rewrite EW.
  destruct (rewrite_entry_spec lv w a va c v (frames (mm w)) S V Hc D V3 (tw_pages _ _ W) eq_refl
    (fun t L Ht => proj2 (proj2 (proj2 (proj2 (tw_frame _ _ W t L Ht))))))
    as (S2 & D2 & E2 & O2 & I2).
  set (w2' := upd _ _ w) in *.
  match goal with |- context [Ret KSTATUS_SUCCESS ?x] => set (w2 := x) end.
  assert (Rm : mm w2 = mm w2' /\ mm w2 = mm w) by (destruct w as [[] ? ? ?]; done).
  pose proof (space_ok_same _ _ w2 _ (proj1 Rm) eq_refl S2) as S3.
  assert (TR : forall r x, translate w2 r x = translate w2' r x) by done.
  exists KSTATUS_SUCCESS, w2. split_and!; [done|done| | | | |apply Rm].
  - intros r va2 Hr H2 Np. rewrite TR. by apply O2.
  - intros va2 H2 Ep. rewrite TR, I2 by done. rewrite V1, V2.
    assert (EI : forall k, (k <= 3)%nat -> walk_index va k = walk_index va2 k) by (by apply walk_index_vpage).
    rewrite (translate_leads w _ c va2) by (eapply leads_same_index; [lia|exact EI|exact D]).
    rewrite <- (EI 3%nat) by lia. fold e. by rewrite Pe.
  - left. split_and!; [done|done|]. exists (addr_of e). split; [done|].
    rewrite (query_leads lv w2 a va c S3 V D2). do 3 f_equal. exact E2.
  - intros x Nx. apply (load8_leaf lv w c (walk_index va 3) v x W Hc Hi Nx).
Qed.

(** ** Properties *)

(** C9: mapping a page: whatever its outcome, [MmAsMapPage] keeps the page tables
    well formed and changes the processor's translation of no other page of any
    address space; on success every address of the page translates into the
    frame asked for, the entry reads back as frame, flags and present bit, and
    the stale translation is invalidated; on failure no translation changes at
    all, and the reason is that memory is exhausted or that the page lies in a
    mapping of 1 GiB or more. *)
Theorem MmAsMapPage_maps lv w a va pa flags :
  space_ok lv w a -> page_va va -> 0 <= pa < 2 ^ 52 -> pa mod 4096 = 0 ->
  is_u64 flags -> addr_of flags = 0 -> old_page_ok lv w (RootTablePhysical a) va ->
  exists st lv' w', MmAsMapPage (Some a) va pa flags w = Ret st w' /\
    space_ok lv' w' a /\ lv ⊆ lv' /\
    (forall r va2, lv !! r = Some 0%nat -> 0 <= va2 -> vpage va2 <> vpage va ->
       translate w' r va2 = translate w r va2) /\
    (st = KSTATUS_SUCCESS ->
       (forall va2, 0 <= va2 -> vpage va2 = vpage va ->
          translate w' (RootTablePhysical a) va2 = Some (pa + va2 mod 4096)) /\
       MmAsQueryPte (Some a) va true w'
         = Ret (KSTATUS_SUCCESS, Some (Z.lor (Z.lor pa flags) MM_PTE_PRESENT)) w' /\
       invlpgs w' = va :: invlpgs w) /\
    (st <> KSTATUS_SUCCESS ->
       (forall r va2, lv !! r = Some 0%nat -> translate w' r va2 = translate w r va2) /\
       (full w' \/ (st = KSTATUS_NOT_IMPLEMENTED /\ huge 3 (ram w') 0 (RootTablePhysical a) va))).
Proof.
  intros. edestruct (map_page_spec lv w a va pa flags)
    as (st & lv' & w' & ? & ? & ? & ? & ? & ? & _); eauto.
  exists st, lv', w'. auto 7.
Qed.

(** C40: unmapping a page succeeds exactly when a page-table entry maps it;
    afterwards none of its addresses translates, the frame it mapped has lost one
    reference, the stale translation is invalidated and the translation of every
    other page of every address space is unchanged; otherwise nothing changes. *)
Theorem MmAsUnmapPage_unmaps lv w a va :
  space_ok lv w a -> page_va va ->
  (forall x, translate w (RootTablePhysical a) va = Some x -> lv !! x = None) ->
  exists st w', MmAsUnmapPage (Some a) va w = Ret st w' /\ space_ok lv w' a /\
    ((st = KSTATUS_SUCCESS /\
      (exists x, translate w (RootTablePhysical a) va = Some x /\
         frames (mm w') = MmpReleasePage x (frames (mm w))) /\
      (forall va2, 0 <= va2 -> vpage va2 = vpage va -> translate w' (RootTablePhysical a) va2 = None) /\
      (forall r va2, lv !! r = Some 0%nat -> 0 <= va2 -> vpage va2 <> vpage va ->
         translate w' r va2 = translate w r va2) /\
      invlpgs w' = va :: invlpgs w) \/
     (st <> KSTATUS_SUCCESS /\ w' = w /\
      (translate w (RootTablePhysical a) va = None \/
       forall c, ~ leads 3 (ram w) 0 (RootTablePhysical a) va c))).
Proof.
  intros S V Old. pose proof V as (Hva & Ha & Hcn). pose proof (so_wf _ _ _ S) as W.
  pose proof (walk_index_range va 3) as Hi.
  unfold MmAsUnmapPage. rewrite bind_gets, (so_ready _ _ _ S), (page_guard va V).
  rewrite bool_decide_eq_true_2 by done. cbn [negb orb].
  destruct (walk_query lv w a va S V) as (st & T' & E & [[-> (c & -> & Hc & Ac & D)]|[N ND]]);
    rewrite (bind_eq _ _ _ _ _ E); unfold ok.
  2: { destruct (Z.eqb_spec st KSTATUS_SUCCESS); [done|]. cbn [negb].
       exists st, w. split; [done|]. split; [done|]. right. split_and!; [done|done|by right]. }
  cbn [Z.eqb negb KSTATUS_SUCCESS].
  rewrite (bind_eq _ _ _ _ _ (read_entry_table w c (walk_index va 3) ltac:(lia))). rewrite Ac.
  set (e := entry (ram w) c (walk_index va 3)).
  assert (Et : translate w (RootTablePhysical a) va
    = if is_present e then Some (addr_of e) else None).
  { rewrite (translate_leads w _ c va D). fold e. rewrite Ha. destruct (is_present e); [|done].
    by rewrite Z.add_0_r. }
  destruct (is_present e) eqn:Pe; cbn [negb].
  2: { exists KSTATUS_NOT_FOUND, w. split; [done|]. split; [done|]. right. split_and!; [done|done|by left]. }
  pose proof (entry_u64 (ram w) c (walk_index va 3) (tw_mem _ _ W)) as Ue. fold e in Ue.
  destruct (addr_of_aligned e) as [Ea1 Ea2]; [unfold is_u64 in Ue; lia|].
  destruct (release_keeps_tables lv w (addr_of e) W ltac:(lia) Ea1 (Old _ Et)) as (P1 & P2 & P3).
  fold (addr_of e). rewrite (bind_eq _ _ _ _ _ (ReleasePage_eq _ _)).
  rewrite (write_flush_eq c va 0 _ w Ac).
  destruct (rewrite_entry_spec lv w a va c 0 _ S V Hc D ltac:(done) P1 P2 P3) as (S2 & D2 & E2 & O2 & I2).
  eexists KSTATUS_SUCCESS, _. split; [reflexivity|].
  split; [by eapply space_ok_same; [| |exact S2]|].
  left. split_and!; [done|by exists (addr_of e)| | |done].
  - intros va2 H2 Ep. rewrite <- (I2 va2 H2 Ep) at 1. done.
  - intros r va2 Hr H2 Np. rewrite <- (O2 r va2 Hr H2 Np). done.
Qed.

(** Changing a page's flags leaves every translation of every address space
    alone, replaces exactly the flags of the page's entry and invalidates the
    stale translation; it is refused, changing nothing, exactly when no
    page-table entry maps the page. *)
Theorem MmAsProtectPage_protects lv w a va flags :
  space_ok lv w a -> page_va va -> is_u64 flags -> addr_of flags = 0 ->
  exists st w', MmAsProtectPage (Some a) va flags w = Ret st w' /\ space_ok lv w' a /\
    (forall r va2, lv !! r = Some 0%nat -> 0 <= va2 -> vpage va2 <> vpage va ->
       translate w' r va2 = translate w r va2) /\
    (forall va2, 0 <= va2 -> vpage va2 = vpage va ->
       translate w' (RootTablePhysical a) va2 = translate w (RootTablePhysical a) va2) /\
    ((st = KSTATUS_SUCCESS /\ invlpgs w' = va :: invlpgs w /\
      exists x, translate w (RootTablePhysical a) va = Some x /\
        MmAsQueryPte (Some a) va true w'
          = Ret (KSTATUS_SUCCESS, Some (Z.lor (Z.lor x flags) MM_PTE_PRESENT)) w') \/
     (st <> KSTATUS_SUCCESS /\ w' = w /\
      (translate w (RootTablePhysical a) va = None \/
       forall c, ~ leads 3 (ram w) 0 (RootTablePhysical a) va c))).
Proof.
  intros S V Uf Af. destruct (protect_page_spec lv w a va flags S V Uf) as (st & w' & ? & ? & ? & ? & ? & _).
  { intros x _. rewrite Af. apply Z.lor_0_r. }
  by exists st, w'.
Qed.

(** The page-table query agrees with the processor: on an aligned canonical
    address it never changes the machine, a present entry it returns names the
    frame the processor translates the page to, an absent entry means that the
    processor does not translate the page, and when it finds no entry the page
    is either untranslated or part of a large page. *)
Theorem MmAsQueryPte_agrees lv w a va :
  space_ok lv w a -> page_va va ->
  exists st o, MmAsQueryPte (Some a) va true w = Ret (st, o) w /\
    match o with
    | Some pte => st = KSTATUS_SUCCESS /\
        translate w (RootTablePhysical a) va = if is_present pte then Some (addr_of pte) else None
    | None => st <> KSTATUS_SUCCESS /\ forall c, ~ leads 3 (ram w) 0 (RootTablePhysical a) va c
    end.
Proof.
  intros S V. pose proof V as (Hva & Ha & Hcn). pose proof (walk_index_range va 3) as Hi.
  unfold MmAsQueryPte. rewrite bind_gets, (so_ready _ _ _ S), (page_guard va V).
  rewrite bool_decide_eq_true_2 by done. cbn [negb orb].
  destruct (walk_query lv w a va S V) as (st & T' & E & [[-> (c & -> & Hc & Ac & D)]|[N ND]]);
    rewrite (bind_eq _ _ _ _ _ E); unfold ok.
  - cbn [Z.eqb negb KSTATUS_SUCCESS].
    rewrite (bind_eq _ _ _ _ _ (read_entry_table w c (walk_index va 3) ltac:(lia))). unfold ret.
    rewrite Ac. eexists _, (Some _). split; [reflexivity|]. split; [done|].
    rewrite (translate_leads w _ c va D), Ha. destruct (is_present _); [|done]. by rewrite Z.add_0_r.
  - destruct (Z.eqb_spec st KSTATUS_SUCCESS); [done|]. cbn [negb].
    by exists st, None.
Qed.

(** ** Witnesses: sixteen frames; the tables at frames 2 to 5 map the page
    0x40000000 to frame 6. *)

Definition ram4 : mem :=
  store64 (store64 (store64 (store64 ∅ (20480 + 8 * 0) 0x6007) (16384 + 8 * 0) 0x5007)
    (12288 + 8 * 1) 0x4007) (8192 + 8 * 0) 0x3007.
Definition lv4 : gmap Z nat :=
  <[8192 := 0%nat]> (<[12288 := 1%nat]> (<[16384 := 2%nat]> (<[20480 := 3%nat]> ∅))).
Definition pages4 : mm_pages :=
  {| gMmPageBitmap := aset ∅ 0 0x7F; gMmPageRefCount := aset ∅ 6 1;
     gMmTrackedPages := 16; gMmNextScanPage := 7 |}.
Definition space4 : MM_ADDRESS_SPACE :=
  {| AddressSpaceId := 1; OwnerProcessId := 1; RootTablePhysical := 8192;
     NextUserBase := 0x40000000; RegionCount := 0; Regions := [] |}.
Definition mm4 : mm_state :=
  {| frames := pages4; gMmReady := true; gMmAddressSpacePool := []; gMmAddressSpaceInUse := [];
     gMmNextAddressSpaceId := 2; gMmKernelRootTablePhysical := 8192; gMmSectionType := None;
     gMmSectionPool := []; gMmSectionInUse := []; gMmFaultTrace := []; gMmFaultTraceNext := 0;
     gMmPhysmapBase := MM_PHYSMAP_BASE; gMmPhysmapBytes := 0; gMmPhysmapReady := true |}.
Definition machine4 : mm_machine := {| mm := mm4; ram := ram4; cr3 := 8192; invlpgs := [] |}.

Lemma entry_empty t i : entry ∅ t i = 0.
Proof.
  unfold entry, load64. generalize (t + 8 * i). generalize 8%nat. intros n.
  induction n as [|n IH]; intros a; [done|].
  change (load8 ∅ a + 256 * load_le n ∅ (a + 1) = 0). by rewrite load8_empty, IH.
Qed.

Lemma entry4 t i : t mod 4096 = 0 -> 0 <= i < 512 -> entry ram4 t i =
  if bool_decide (8192 = t /\ 0 = i) then 0x3007 else if bool_decide (12288 = t /\ 1 = i) then 0x4007
  else if bool_decide (16384 = t /\ 0 = i) then 0x5007
  else if bool_decide (20480 = t /\ 0 = i) then 0x6007 else 0.
Proof.
  intros Ha Hi. unfold ram4. rewrite !entry_store by (done || lia || (unfold is_u64; lia)).
  by rewrite entry_empty.
Qed.

Lemma lv4_cases t L : lv4 !! t = Some L ->
  (t = 8192 /\ L = 0%nat) \/ (t = 12288 /\ L = 1%nat) \/ (t = 16384 /\ L = 2%nat) \/
  (t = 20480 /\ L = 3%nat).
Proof.
  unfold lv4. rewrite !lookup_insert_Some, lookup_empty. naive_solver.
Qed.

Lemma entry4_link t L i : lv4 !! t = Some L -> (L < 3)%nat -> 0 <= i < 512 ->
  is_present (entry ram4 t i) = true ->
  is_large (entry ram4 t i) = false /\ addr_of (entry ram4 t i) = t + 4096 /\
  i = (if bool_decide (t = 12288) then 1 else 0).
Proof.
  intros H HL Hi. apply lv4_cases in H. assert (Ha : t mod 4096 = 0) by naive_solver.
  rewrite entry4 by done.
  destruct H as [[-> ->]|[[-> ->]|[[-> ->]|[-> ->]]]]; [| | |lia];
    repeat case_bool_decide; intros P; try discriminate P; try (split_and!; [reflexivity..|lia]); lia.
Qed.

Lemma space4_ok : space_ok lv4 machine4 space4.
Proof.
  constructor; [|done|reflexivity|done]. constructor.
  - intros t L H. apply lv4_cases in H.
    destruct H as [[-> ->]|[[-> ->]|[[-> ->]|[-> ->]]]]; (split_and!; [lia|lia|reflexivity|reflexivity|reflexivity]).
  - intros t L i H HL Hi P _. cbn [ram machine4] in *.
    destruct (entry4_link t L i H HL Hi P) as (_ & -> & _).
    apply lv4_cases in H. destruct H as [[-> ->]|[[-> ->]|[[-> ->]|[-> ->]]]]; [reflexivity..|lia].
  - intros t i H Hi P G. destruct (entry4_link t 2 i H ltac:(lia) Hi P) as (G' & _). 
    cbn [ram machine4] in G. congruence.
  - intros t t' L L' i i' H H' HL HL' Hi Hi' P _ P' _ E.
    destruct (entry4_link t L i H HL Hi P) as (_ & E1 & E2).
    destruct (entry4_link t' L' i' H' HL' Hi' P') as (_ & E1' & E2').
    cbn [ram machine4] in E. rewrite E1, E1' in E. assert (t = t') as <- by lia.
    split; [congruence|by left].
  - do 4 apply store_le_ok. apply empty_ok.
  - constructor; cbn; [unfold MM_MAX_TRACKED_PAGES; lia|lia|].
    intros i. rewrite aget_aset, aget_empty. destruct (6 =? i); lia.
Qed.

Lemma va4 : page_va 0x40000000.
Proof. split_and!; [lia|reflexivity|reflexivity]. Qed.

Lemma translate4 : translate machine4 8192 0x40000000 = Some 0x6000.
Proof. reflexivity. Qed.

Lemma MmAsMapPage_maps_witness :
  exists w', MmAsMapPage (Some space4) 0x40000000 0x9000 MM_PTE_USER machine4 = Ret KSTATUS_SUCCESS w' /\
    translate w' 8192 0x40000123 = Some 0x9123.
Proof.
  destruct (MmAsMapPage_maps lv4 machine4 space4 0x40000000 0x9000 MM_PTE_USER space4_ok va4)
    as (st & lv' & w' & E & _ & _ & _ & S & _);
    [lia|reflexivity|unfold is_u64, MM_PTE_USER; lia|reflexivity| |].
  - intros x. change (RootTablePhysical space4) with 8192. rewrite translate4. intros [= <-].
    split; reflexivity.
  - exists w'. assert (st = KSTATUS_SUCCESS) as Hst.
    { assert (K : match MmAsMapPage (Some space4) 0x40000000 0x9000 MM_PTE_USER machine4 with
                  | Ret st _ => st | _ => 1 end = KSTATUS_SUCCESS) by (vm_compute; reflexivity).
      rewrite E in K. exact K. }
    split; [rewrite E, Hst; reflexivity|].
    destruct (S Hst) as (T & _). apply (T 0x40000123); [lia|reflexivity].
Defined.

Lemma MmAsUnmapPage_unmaps_witness :
  exists st w', MmAsUnmapPage (Some space4) 0x40000000 machine4 = Ret st w' /\
    translate w' 8192 0x40000123 = None.
Proof.
  destruct (MmAsUnmapPage_unmaps lv4 machine4 space4 0x40000000 space4_ok va4)
    as (st & w' & E & _ & [(_ & _ & T & _)|(_ & _ & [N|N])]).
  - intros x. change (RootTablePhysical space4) with 8192. rewrite translate4. by intros [= <-].
  - exists st, w'. split; [exact E|]. apply (T 0x40000123); [lia|reflexivity].
  - change (RootTablePhysical space4) with 8192 in N. rewrite translate4 in N. discriminate N.
  - exfalso. apply (N 20480). repeat split.
Defined.

Lemma MmAsProtectPage_protects_witness :
  exists st w', MmAsProtectPage (Some space4) 0x40000000 MM_PTE_NX machine4 = Ret st w' /\
    translate w' 8192 0x40000123 = Some 0x6123.
Proof.
  destruct (MmAsProtectPage_protects lv4 machine4 space4 0x40000000 MM_PTE_NX space4_ok va4)
    as (st & w' & E & _ & _ & T & _); [split; [discriminate|reflexivity]|reflexivity|].
  exists st, w'. split; [exact E|]. change 8192 with (RootTablePhysical space4).
  rewrite (T 0x40000123); [reflexivity|lia|reflexivity].
Defined.

Lemma MmAsQueryPte_agrees_witness :
  exists pte, MmAsQueryPte (Some space4) 0x40000000 true machine4
      = Ret (KSTATUS_SUCCESS, Some pte) machine4 /\ addr_of pte = 0x6000.
Proof.
  destruct (MmAsQueryPte_agrees lv4 machine4 space4 0x40000000 space4_ok va4) as (st & [pte|] & E & H).
  - exists pte. destruct H as [-> H]. split; [exact E|].
    change (RootTablePhysical space4) with 8192 in H. rewrite translate4 in H.
    destruct (is_present pte); [by injection H|discriminate H].
  - exfalso. destruct H as [_ N]. apply (N 20480). repeat split.
Defined.
