(* ===== verification/MmSpace.v ===== *)
(** * Memory manager, address spaces: kernel/mm/init.c

    The pool of address spaces, their regions, anonymous mappings, section
    objects and the page-fault handler.  A pointer to an address space or to a
    section is its index in the pool; [MmpFindRegion] gives a region's index.
    The section operations and the fault entry also use the object and process
    managers, through [ObWorld] and the two interfaces below. *)

From S2P Require Import Prelude CString BootProto Ob PhysMem Rtl MmPages MmTables.

(** ** Constants: kernel/include/mm.h *)

Definition MM_PROT_READ : Z := 0x1.
Definition MM_PROT_WRITE : Z := 0x2.
Definition MM_PROT_EXECUTE : Z := 0x4.
Definition MM_PROT_USER : Z := 0x8.

Definition MM_REGION_TYPE_ANON : Z := 1.
Definition MM_REGION_TYPE_PHYS : Z := 2.
Definition MM_REGION_TYPE_SECTION : Z := 3.

Definition MM_REGION_FLAG_LAZY : Z := 0x1.
Definition MM_REGION_FLAG_WIRED : Z := 0x2.
Definition MM_REGION_FLAG_COW : Z := 0x4.
Definition MM_REGION_FLAG_GUARD : Z := 0x8.

Definition MM_SECTION_ACCESS_MAP_READ : Z := 0x00000001.
Definition MM_SECTION_ACCESS_MAP_WRITE : Z := 0x00000002.
Definition MM_SECTION_ACCESS_ALL : Z := Z.lor MM_SECTION_ACCESS_MAP_READ MM_SECTION_ACCESS_MAP_WRITE.

Definition MM_PF_ERROR_PRESENT : Z := 0x1.
Definition MM_PF_ERROR_WRITE : Z := 0x2.
Definition MM_PF_ERROR_USER : Z := 0x4.
Definition MM_PF_ERROR_INSTR : Z := 0x10.

(** ** Pool accesses *)

Definition set_spaces pool inuse next (s : mm_state) : mm_state :=
  {| frames := frames s; gMmReady := gMmReady s; gMmAddressSpacePool := pool;
     gMmAddressSpaceInUse := inuse; gMmNextAddressSpaceId := next;
     gMmKernelRootTablePhysical := gMmKernelRootTablePhysical s; gMmSectionType := gMmSectionType s;
     gMmSectionPool := gMmSectionPool s; gMmSectionInUse := gMmSectionInUse s;
     gMmFaultTrace := gMmFaultTrace s; gMmFaultTraceNext := gMmFaultTraceNext s;
     gMmPhysmapBase := gMmPhysmapBase s; gMmPhysmapBytes := gMmPhysmapBytes s;
     gMmPhysmapReady := gMmPhysmapReady s |}.
Definition set_sections ty pool inuse (s : mm_state) : mm_state :=
  {| frames := frames s; gMmReady := gMmReady s; gMmAddressSpacePool := gMmAddressSpacePool s;
     gMmAddressSpaceInUse := gMmAddressSpaceInUse s; gMmNextAddressSpaceId := gMmNextAddressSpaceId s;
     gMmKernelRootTablePhysical := gMmKernelRootTablePhysical s; gMmSectionType := ty;
     gMmSectionPool := pool; gMmSectionInUse := inuse;
     gMmFaultTrace := gMmFaultTrace s; gMmFaultTraceNext := gMmFaultTraceNext s;
     gMmPhysmapBase := gMmPhysmapBase s; gMmPhysmapBytes := gMmPhysmapBytes s;
     gMmPhysmapReady := gMmPhysmapReady s |}.
Definition set_trace trace next (s : mm_state) : mm_state :=
  {| frames := frames s; gMmReady := gMmReady s; gMmAddressSpacePool := gMmAddressSpacePool s;
     gMmAddressSpaceInUse := gMmAddressSpaceInUse s; gMmNextAddressSpaceId := gMmNextAddressSpaceId s;
     gMmKernelRootTablePhysical := gMmKernelRootTablePhysical s; gMmSectionType := gMmSectionType s;
     gMmSectionPool := gMmSectionPool s; gMmSectionInUse := gMmSectionInUse s;
     gMmFaultTrace := trace; gMmFaultTraceNext := next;
     gMmPhysmapBase := gMmPhysmapBase s; gMmPhysmapBytes := gMmPhysmapBytes s;
     gMmPhysmapReady := gMmPhysmapReady s |}.

Definition modify_mm (f : mm_state -> mm_state) : M mm_machine unit :=
  modify (fun w => set_mm (f (mm w)) w).

Definition get_space (i : nat) : M mm_machine MM_ADDRESS_SPACE := fun w =>
  load_at (gMmAddressSpacePool (mm w)) i w.
Definition put_space (i : nat) (a : MM_ADDRESS_SPACE) : M mm_machine unit := fun w =>
  (pool <- store_at i a (gMmAddressSpacePool (mm w)) ;;
   modify_mm (fun s => set_spaces pool (gMmAddressSpaceInUse s) (gMmNextAddressSpaceId s) s)) w.

Definition set_region (r : MM_VA_REGION) (k : nat) (a : MM_ADDRESS_SPACE) : MM_ADDRESS_SPACE :=
  {| AddressSpaceId := AddressSpaceId a; OwnerProcessId := OwnerProcessId a;
     RootTablePhysical := RootTablePhysical a; NextUserBase := NextUserBase a;
     RegionCount := RegionCount a; Regions := <[k := r]> (Regions a) |}.
Definition set_bounds (count next : Z) (a : MM_ADDRESS_SPACE) : MM_ADDRESS_SPACE :=
  {| AddressSpaceId := AddressSpaceId a; OwnerProcessId := OwnerProcessId a;
     RootTablePhysical := RootTablePhysical a; NextUserBase := next;
     RegionCount := count; Regions := Regions a |}.
Definition set_committed (n : Z) (r : MM_VA_REGION) : MM_VA_REGION :=
  {| RegionBase := RegionBase r; RegionSize := RegionSize r; RegionType := RegionType r;
     RegionProtection := RegionProtection r; RegionFlags := RegionFlags r; CommittedPages := n;
     BackingPhysicalBase := BackingPhysicalBase r; BackingObject := BackingObject r;
     BackingOffset := BackingOffset r |}.

(** [Region->CommittedPages++] for region [k] of address space [i]. *)
Definition commit_page (i k : nat) : M mm_machine unit :=
  a <- get_space i ;;
  r <- load_at (Regions a) k ;;
  put_space i (set_region (set_committed (u32 (CommittedPages r + 1)) r) k a).

(** [for (i = 0; i < MM_PAGE_SIZE; i++) PagePtr[i] = 0;] *)
Definition zero_page (Pa : Z) : M mm_machine unit :=
  modify (fun w => set_ram (store_table 1 (ram w) (kva_to_pa (mm w) (MmpPhysToVirtPage (mm w) Pa))
                              (fun _ => 0) 4096) w).
(** [for (i = 0; i < MM_PAGE_SIZE; i++) NewPtr[i] = OldPtr[i];] *)
Definition copy_page (OldPa NewPa : Z) : M mm_machine unit :=
  modify (fun w => set_ram (copy_up (ram w) (kva_to_pa (mm w) (MmpPhysToVirtPage (mm w) NewPa))
                              (kva_to_pa (mm w) (MmpPhysToVirtPage (mm w) OldPa)) 4096 0) w).

(** ** Address spaces *)

Definition MmCreateAddressSpace (OwnerProcessId_ : Z) (OutAddressSpace : bool)
  : M mm_machine (KSTATUS * option nat) :=
  s <- gets mm ;;
  if negb (gMmReady s) || negb OutAddressSpace then ret (KSTATUS_INVALID_PARAMETER, None)
  else
    match find_first negb (gMmAddressSpaceInUse s) with
    | None => ret (KSTATUS_INIT_FAILED, None)
    | Some i =>
        dlet (Status, Pa) := AllocPage ;;
        if negb (ok Status) then ret (KSTATUS_INIT_FAILED, None)
        else
          RootPa <- deref Pa ;;
          NK_ASSERT (negb (gMmKernelRootTablePhysical s =? 0)) ;;;
          w <- gets (fun w => w) ;;
          let NewRoot := MmpPhysToVirtTable (mm w) RootPa in
          let KernelRoot := MmpPhysToVirtTable (mm w) (gMmKernelRootTablePhysical (mm w)) in
          fill_table NewRoot (fun Entry => load64 (ram w) (kva_to_pa (mm w) (KernelRoot + 8 * Entry))) ;;;
          a <- get_space i ;;
          put_space i {| AddressSpaceId := gMmNextAddressSpaceId s; OwnerProcessId := OwnerProcessId_;
                         RootTablePhysical := RootPa; NextUserBase := MM_USER_BASE; RegionCount := 0;
                         Regions := Regions a |} ;;;
          modify_mm (fun s => set_spaces (gMmAddressSpacePool s) (<[i := true]> (gMmAddressSpaceInUse s))
                                         (u64 (gMmNextAddressSpaceId s + 1)) s) ;;;
          ret (KSTATUS_SUCCESS, Some i)
    end.

Definition MmGetAddressSpaceById (AddressSpaceId_ : Z) (s : mm_state) : option nat :=
  if negb (gMmReady s) || (AddressSpaceId_ =? 0) then None
  else find_first (fun p => p.1 && (AddressSpaceId p.2 =? AddressSpaceId_))
         (zip (gMmAddressSpaceInUse s) (gMmAddressSpacePool s)).

Definition MmActivateAddressSpace (AddressSpace : option nat) : M mm_machine KSTATUS :=
  s <- gets mm ;;
  match AddressSpace with
  | None => ret KSTATUS_INVALID_PARAMETER
  | Some i =>
      if negb (gMmReady s) then ret KSTATUS_INVALID_PARAMETER
      else
        c <- MmpReadCr3 ;;
        let CurrentCr3 := Z.land c MM_PTE_ADDR_MASK in
        a <- get_space i ;;
        (if negb (CurrentCr3 =? RootTablePhysical a) then MmpWriteCr3 (RootTablePhysical a) else ret tt) ;;;
        ret KSTATUS_SUCCESS
  end.

(** ** Regions *)

Definition MmpFindRegion (a : MM_ADDRESS_SPACE) (VirtualAddress : Z) : option nat :=
  find_first (fun r => (RegionBase r <=? VirtualAddress) &&
                       (VirtualAddress <? u64 (RegionBase r + RegionSize r)))
    (take (Z.to_nat (RegionCount a)) (Regions a)).

Definition MmpProtectionToPte (Protection RegionFlags_ : Z) : Z :=
  let Flags := if any_flag Protection MM_PROT_WRITE && negb (any_flag RegionFlags_ MM_REGION_FLAG_COW)
               then MM_PTE_WRITABLE else 0 in
  let Flags := if any_flag Protection MM_PROT_USER then Z.lor Flags MM_PTE_USER else Flags in
  let Flags := if negb (any_flag Protection MM_PROT_EXECUTE) then Z.lor Flags MM_PTE_NX else Flags in
  if any_flag RegionFlags_ MM_REGION_FLAG_COW then Z.lor Flags MM_PTE_SOFT_COW else Flags.

(** [for (Cursor = ...; Cursor < MapSize; Cursor += MM_PAGE_SIZE)], [n] pages left,
    for region [k] of address space [i]. *)
Fixpoint wire_pages (n : nat) (i k : nat) (VirtualBase Cursor : Z) : M mm_machine KSTATUS :=
  match n with
  | O => ret KSTATUS_SUCCESS
  | S n' =>
      dlet (Status, Pa) := AllocPage ;;
      if negb (ok Status) then ret KSTATUS_INIT_FAILED
      else
        Pa <- deref Pa ;;
        zero_page Pa ;;;
        a <- get_space i ;;
        r <- load_at (Regions a) k ;;
        Status <- MmAsMapPage (Some a) (u64 (VirtualBase + Cursor)) Pa
                    (MmpProtectionToPte (RegionProtection r) (RegionFlags r)) ;;
        if negb (ok Status) then ret KSTATUS_INIT_FAILED
        else commit_page i k ;;; wire_pages n' i k VirtualBase (Cursor + MM_PAGE_SIZE)
  end.

Definition MmMapAnonymous (AddressSpace : option nat) (Size_ Protection RegionFlags_ : Z) (OutVirtualBase : bool)
  : M mm_machine (KSTATUS * option Z) :=
  s <- gets mm ;;
  match AddressSpace with
  | None => ret (KSTATUS_INVALID_PARAMETER, None)
  | Some i =>
      if negb (gMmReady s) || negb OutVirtualBase then ret (KSTATUS_INVALID_PARAMETER, None)
      else
        a <- get_space i ;;
        if RegionCount a >=? MM_MAX_VA_REGIONS then ret (KSTATUS_INIT_FAILED, None)
        else
          NK_ASSERT (RegionCount a <? MM_MAX_VA_REGIONS) ;;;
          let MapSize := MmpAlignSizeToPage Size_ in
          let VirtualBase := MmpAlignUp (NextUserBase a) MM_PAGE_SIZE in
          let EffectiveFlags :=
            if negb (any_flag RegionFlags_ (Z.lor MM_REGION_FLAG_LAZY MM_REGION_FLAG_WIRED))
            then Z.lor RegionFlags_ MM_REGION_FLAG_LAZY else RegionFlags_ in
          let k := Z.to_nat (RegionCount a) in
          put_space i (set_region {| RegionBase := VirtualBase; RegionSize := MapSize;
             RegionType := MM_REGION_TYPE_ANON; RegionProtection := Z.lor Protection MM_PROT_USER;
             RegionFlags := EffectiveFlags; CommittedPages := 0; BackingPhysicalBase := 0;
             BackingObject := None; BackingOffset := 0 |} k a) ;;;
          Status <- (if any_flag EffectiveFlags MM_REGION_FLAG_WIRED
                     then wire_pages (Z.to_nat (MapSize / MM_PAGE_SIZE)) i k VirtualBase 0
                     else ret KSTATUS_SUCCESS) ;;
          if negb (ok Status) then ret (Status, None)
          else
            a <- get_space i ;;
            put_space i (set_bounds (u32 (RegionCount a + 1)) (u64 (VirtualBase + MapSize)) a) ;;;
            ret (KSTATUS_SUCCESS, Some VirtualBase)
  end.

(** ** Sections *)

Definition MmpFindSectionByHeader (Header : option nat) (s : mm_state) : option nat :=
  match Header with
  | None => None
  | Some _ =>
      find_first (fun p => p.1 && bool_decide (SectionHeader p.2 = Header))
        (zip (gMmSectionInUse s) (gMmSectionPool s))
  end.

Definition put_section (i : nat) (x : MM_SECTION_OBJECT) (inuse : bool) : M mm_machine unit :=
  modify_mm (fun s => set_sections (gMmSectionType s) (<[i := x]> (gMmSectionPool s))
                                   (<[i := inuse]> (gMmSectionInUse s)) s).

(** [for (Index = ...; Index < Section->PageCount; Index++)] freeing the pages. *)
Fixpoint free_section_pages (n : nat) (i Index : nat) : M mm_machine unit :=
  match n with
  | O => ret tt
  | S n' =>
      x <- (fun w => load_at (gMmSectionPool (mm w)) i w) ;;
      pa <- load_at (SectionPages x) Index ;;
      (if negb (pa =? 0) then
         FreePage pa ;;;
         put_section i {| SectionHeader := SectionHeader x; SectionPageCount := SectionPageCount x;
                          SectionPages := <[Index := 0]> (SectionPages x) |} true
       else ret tt) ;;;
      free_section_pages n' i (S Index)
  end.

Definition MmpDeleteSectionObject (Object : nat) : M mm_machine unit :=
  s <- gets mm ;;
  match MmpFindSectionByHeader (Some Object) s with
  | None => ret tt
  | Some i =>
      x <- load_at (gMmSectionPool s) i ;;
      free_section_pages (Z.to_nat (SectionPageCount x)) i 0 ;;;
      x <- (fun w => load_at (gMmSectionPool (mm w)) i w) ;;
      put_section i {| SectionHeader := None; SectionPageCount := 0; SectionPages := SectionPages x |} false
  end.

(** ** The page-fault handler *)

(** The access the error code describes is one the region allows. *)
Definition fault_denied (ErrorCode Protection : Z) : bool :=
  (any_flag ErrorCode MM_PF_ERROR_WRITE && negb (any_flag Protection MM_PROT_WRITE)) ||
  (any_flag ErrorCode MM_PF_ERROR_USER && negb (any_flag Protection MM_PROT_USER)) ||
  (any_flag ErrorCode MM_PF_ERROR_INSTR && negb (any_flag Protection MM_PROT_EXECUTE)).

(** A write to a present copy-on-write page. *)
Definition fault_cow (a : MM_ADDRESS_SPACE) (PageVa Pte : Z) : M mm_machine KSTATUS :=
  let OldPa := Z.land Pte MM_PTE_ADDR_MASK in
  let OldPageIndex := OldPa / MM_PAGE_SIZE in
  s <- gets mm ;;
  let NewPte := Z.lor (Z.land Pte (lnot64 MM_PTE_SOFT_COW)) MM_PTE_WRITABLE in
  if (OldPageIndex <? MM_MAX_TRACKED_PAGES) && (aget (gMmPageRefCount (frames s)) OldPageIndex =? 1)
  then MmAsProtectPage (Some a) PageVa NewPte
  else
    dlet (Status, Pa) := AllocPage ;;
    if negb (ok Status) then ret KSTATUS_INIT_FAILED
    else
      NewPa <- deref Pa ;;
      copy_page OldPa NewPa ;;;
      ReleasePage OldPa ;;;
      MmAsMapPage (Some a) PageVa NewPa (Z.land NewPte (lnot64 MM_PTE_ADDR_MASK)).

(** A fault on an absent page, by the type of region [k]. *)
Definition fault_absent (i k : nat) (a : MM_ADDRESS_SPACE) (r : MM_VA_REGION) (PageVa : Z)
  : M mm_machine KSTATUS :=
  if RegionType r =? MM_REGION_TYPE_ANON then
    dlet (Status, Pa) := AllocPage ;;
    if negb (ok Status) then ret KSTATUS_INIT_FAILED
    else
      NewPa <- deref Pa ;;
      zero_page NewPa ;;;
      Status <- MmAsMapPage (Some a) PageVa NewPa (MmpProtectionToPte (RegionProtection r) (RegionFlags r)) ;;
      if negb (ok Status) then ret Status
      else commit_page i k ;;; ret KSTATUS_SUCCESS
  else if RegionType r =? MM_REGION_TYPE_PHYS then
    let Offset := u64 (PageVa - RegionBase r) in
    let Pa := u64 (BackingPhysicalBase r + Offset) in
    RetainPage Pa ;;;
    MmAsMapPage (Some a) PageVa Pa (MmpProtectionToPte (RegionProtection r) (RegionFlags r))
  else if RegionType r =? MM_REGION_TYPE_SECTION then
    s <- gets mm ;;
    let Offset := u64 (u64 (PageVa - RegionBase r) + BackingOffset r) in
    match MmpFindSectionByHeader (BackingObject r) s with
    | None => ret KSTATUS_NOT_FOUND
    | Some j =>
        x <- load_at (gMmSectionPool s) j ;;
        let PageIndex := u32 (Offset / MM_PAGE_SIZE) in
        if PageIndex >=? SectionPageCount x then ret KSTATUS_ACCESS_DENIED
        else
          Pa <- load_at (SectionPages x) (Z.to_nat PageIndex) ;;
          RetainPage Pa ;;;
          Status <- MmAsMapPage (Some a) PageVa Pa (MmpProtectionToPte (RegionProtection r) (RegionFlags r)) ;;
          if negb (ok Status) then ret Status
          else commit_page i k ;;; ret KSTATUS_SUCCESS
    end
  else ret KSTATUS_NOT_IMPLEMENTED.

Definition MmHandlePageFault (AddressSpace : option nat) (FaultAddress_ ErrorCode : Z)
  : M mm_machine KSTATUS :=
  s <- gets mm ;;
  match AddressSpace with
  | None => ret KSTATUS_INVALID_PARAMETER
  | Some i =>
      if negb (gMmReady s) then ret KSTATUS_INVALID_PARAMETER
      else
        a <- get_space i ;;
        match MmpFindRegion a FaultAddress_ with
        | None => ret KSTATUS_ACCESS_DENIED
        | Some k =>
            r <- load_at (Regions a) k ;;
            if any_flag (RegionFlags r) MM_REGION_FLAG_GUARD then ret KSTATUS_ACCESS_DENIED
            else if fault_denied ErrorCode (RegionProtection r) then ret KSTATUS_ACCESS_DENIED
            else
              let PageVa := MmpAlignDown FaultAddress_ MM_PAGE_SIZE in
              dlet (Status, Pte) := MmAsQueryPte (Some a) PageVa true ;;
              if any_flag ErrorCode MM_PF_ERROR_PRESENT then
                match Pte with
                | Some Pte =>
                    if ok Status && any_flag Pte MM_PTE_SOFT_COW && any_flag ErrorCode MM_PF_ERROR_WRITE
                    then fault_cow a PageVa Pte
                    else ret KSTATUS_ACCESS_DENIED
                | None => ret KSTATUS_ACCESS_DENIED
                end
              else fault_absent i k a r PageVa
        end
  end.

(** [Pid]: the current process, if there is one. *)
Definition MmpRecordFault (AddressSpace : option nat) (FaultAddress_ ErrorCode InstructionPointer Outcome : Z)
    (Pid : option Z) : M mm_machine unit :=
  s <- gets mm ;;
  id <- match AddressSpace with
        | None => ret 0
        | Some i => a <- get_space i ;; ret (AddressSpaceId a)
        end ;;
  trace <- store_at (Z.to_nat (gMmFaultTraceNext s mod MM_FAULT_TRACE_DEPTH))
    {| FaultAddress := FaultAddress_; FaultInstructionPointer := InstructionPointer;
       FaultErrorCode := ErrorCode; FaultProcessId := default 0 Pid; FaultAddressSpaceId := id;
       FaultOutcome := Outcome |} (gMmFaultTrace s) ;;
  modify_mm (fun s => set_trace trace (u32 (gMmFaultTraceNext s + 1)) s).
