(* ===== verification/MmSection.v ===== *)
(** * Memory manager: sections, the fault entry and initialisation

    The operations of kernel/mm/init.c that call the object manager, the process
    manager or the HAL.  They run on any state [W] that contains those
    components ([MmWorld]). *)

From S2P Require Import Prelude CString BootProto Ob PhysMem MmPages MmTables MmSpace.

(** What the memory manager needs of the rest of the kernel: where its own state
    is, the current process's id and address space, and the registration of the
    page-fault routine with the HAL. *)
Class MmWorld (W : Type) `{ObWorld W} := {
  mm_get : W -> mm_machine;
  mm_put : mm_machine -> W -> W;
  ps_current_process : W -> option (Z * option nat);
  HalRegisterPageFaultRoutine : M W unit }.

Section World.
Context {W : Type} `{MmWorld W}.

Definition mmM {A} (m : M mm_machine A) : M W A := zoom mm_get mm_put m.

Definition blank_section (Header : option nat) (n : Z) : MM_SECTION_OBJECT :=
  {| SectionHeader := Header; SectionPageCount := n;
     SectionPages := replicate (Z.to_nat MM_MAX_SECTION_PAGES) 0 |}.

(** [for (Index = ...; Index < PageCount; Index++)], [n] pages left. *)
Fixpoint fill_section (n : nat) (slot Index : nat) : M mm_machine KSTATUS :=
  match n with
  | O => ret KSTATUS_SUCCESS
  | S n' =>
      dlet (Status, Pa) := AllocPage ;;
      if negb (ok Status) then ret Status
      else
        Pa <- deref Pa ;;
        zero_page Pa ;;;
        x <- (fun w => load_at (gMmSectionPool (mm w)) slot w) ;;
        pages <- store_at Index Pa (SectionPages x) ;;
        put_section slot {| SectionHeader := SectionHeader x; SectionPageCount := SectionPageCount x;
                            SectionPages := pages |} true ;;;
        fill_section n' slot (S Index)
  end.

Definition MmCreateSectionHandle (Size_ DesiredAccess : Z) (OutHandle : bool) : M W (KSTATUS * option Z) :=
  s <- gets (fun w => mm (mm_get w)) ;;
  if negb (gMmReady s) || negb OutHandle || negb (bool_decide (is_Some (gMmSectionType s)))
  then ret (KSTATUS_INVALID_PARAMETER, None)
  else
    let Bytes := MmpAlignSizeToPage Size_ in
    let PageCount := u32 (Bytes / MM_PAGE_SIZE) in
    if (PageCount =? 0) || (PageCount >? MM_MAX_SECTION_PAGES) then ret (KSTATUS_INVALID_PARAMETER, None)
    else
      match find_first negb (gMmSectionInUse s) with
      | None => ret (KSTATUS_INIT_FAILED, None)
      | Some slot =>
          mmM (put_section slot (blank_section None 0) true) ;;;
          dlet (Status, Header) := ob (ObCreateObject (gMmSectionType s) (Some (str "mm.section"))
                                        MM_SECTION_ACCESS_ALL 0 true) ;;
          if negb (ok Status) then
            mmM (put_section slot (blank_section None 0) false) ;;; ret (Status, None)
          else
            mmM (put_section slot (blank_section Header PageCount) true) ;;;
            Status <- mmM (fill_section (Z.to_nat PageCount) slot 0) ;;
            if negb (ok Status) then ObDereferenceObject Header ;;; ret (Status, None)
            else
              HandleTable <- gets (fun w => ObGetKernelHandleTable (ob_get w)) ;;
              dlet (Status, Handle) := ob (ObInsertHandle HandleTable Header DesiredAccess true) ;;
              ObDereferenceObject Header ;;;
              ret (Status, Handle)
      end.

Definition MmMapSectionHandle (AddressSpace : option nat) (HandleValue_ Protection : Z) (OutVirtualBase : bool)
  : M W (KSTATUS * option Z) :=
  s <- gets (fun w => mm (mm_get w)) ;;
  match AddressSpace with
  | None => ret (KSTATUS_INVALID_PARAMETER, None)
  | Some i =>
      if negb (gMmReady s) || negb OutVirtualBase || negb (bool_decide (is_Some (gMmSectionType s)))
      then ret (KSTATUS_INVALID_PARAMETER, None)
      else
        a <- mmM (get_space i) ;;
        if RegionCount a >=? MM_MAX_VA_REGIONS then ret (KSTATUS_INIT_FAILED, None)
        else
          let DesiredAccess :=
            if any_flag Protection MM_PROT_WRITE
            then Z.lor MM_SECTION_ACCESS_MAP_READ MM_SECTION_ACCESS_MAP_WRITE
            else MM_SECTION_ACCESS_MAP_READ in
          HandleTable <- gets (fun w => ObGetKernelHandleTable (ob_get w)) ;;
          dlet (Status, Header) := ob (ObReferenceObjectByHandle HandleTable HandleValue_ DesiredAccess
                                        (gMmSectionType s) true) ;;
          if negb (ok Status) then ret (Status, None)
          else
            match MmpFindSectionByHeader Header s with
            | None => ObDereferenceObject Header ;;; ret (KSTATUS_NOT_FOUND, None)
            | Some j =>
                x <- load_at (gMmSectionPool s) j ;;
                let MapSize := u64 (SectionPageCount x * MM_PAGE_SIZE) in
                let VirtualBase := MmpAlignUp (NextUserBase a) MM_PAGE_SIZE in
                let r := {| RegionBase := VirtualBase; RegionSize := MapSize;
                   RegionType := MM_REGION_TYPE_SECTION;
                   RegionProtection := Z.lor (if Protection =? 0 then MM_PROT_READ else Protection) MM_PROT_USER;
                   RegionFlags := MM_REGION_FLAG_LAZY; CommittedPages := 0; BackingPhysicalBase := 0;
                   BackingObject := Header; BackingOffset := 0 |} in
                mmM (put_space i (set_bounds (u32 (RegionCount a + 1)) (u64 (VirtualBase + MapSize))
                                    (set_region r (Z.to_nat (RegionCount a)) a))) ;;;
                ret (KSTATUS_SUCCESS, Some VirtualBase)
            end
  end.

(** The routine the HAL calls on a page fault: a fault that is not resolved
    stops the machine. *)
Definition MmpOnPageFault (FaultAddress_ ErrorCode InstructionPointer : Z) : M W unit :=
  Process <- gets ps_current_process ;;
  let AddressSpace := match Process with Some p => p.2 | None => None end in
  Status <- mmM (MmHandlePageFault AddressSpace FaultAddress_ ErrorCode) ;;
  mmM (MmpRecordFault AddressSpace FaultAddress_ ErrorCode InstructionPointer Status (fst <$> Process)) ;;;
  if negb (ok Status) then halt else ret tt.

(** The assignments at the beginning of [MmInitialize] and the two walks over the
    boot record's memory map. *)
Definition reset_statics (ptr : BOOT_INFO_PTR) (PhysicalMemoryTop_ : Z) (w : mm_machine) : mm_machine :=
  let s := mm w in
  set_mm {| frames := init_pages PhysicalMemoryTop_ (ram w) ptr;
            gMmReady := gMmReady s; gMmAddressSpacePool := gMmAddressSpacePool s;
            gMmAddressSpaceInUse := replicate (Z.to_nat MM_MAX_ADDRESS_SPACES) false;
            gMmNextAddressSpaceId := 1;
            gMmKernelRootTablePhysical := gMmKernelRootTablePhysical s;
            gMmSectionType := None; gMmSectionPool := gMmSectionPool s;
            gMmSectionInUse := replicate (Z.to_nat MM_MAX_SECTION_OBJECTS) false;
            gMmFaultTrace := gMmFaultTrace s; gMmFaultTraceNext := 0;
            gMmPhysmapBase := MM_PHYSMAP_BASE; gMmPhysmapBytes := 0;
            gMmPhysmapReady := false |} w.

(** [BootInfo]: what [NkGetBootInfo] returns; [PhysicalMemoryTop]: what
    [HalQueryPlatformInfo] stores. *)
Definition MmInitialize (BootInfo : option BOOT_INFO_PTR) (PhysicalMemoryTop_ : Z) : M W KSTATUS :=
  s <- gets (fun w => mm (mm_get w)) ;;
  if gMmReady s then ret KSTATUS_ALREADY_INITIALIZED
  else
    match BootInfo with
    | None => ret KSTATUS_INVALID_PARAMETER
    | Some ptr =>
        if negb (Magic (bi_value ptr) =? BOOTINFO_MAGIC) then ret KSTATUS_INVALID_PARAMETER
        else
          mmM (modify (reset_statics ptr PhysicalMemoryTop_)) ;;;
          Status <- mmM MmpCloneKernelRootTable ;;
          if negb (ok Status) then ret KSTATUS_INIT_FAILED
          else
            Status <- mmM MmpBuildKernelPhysmap ;;
            if negb (ok Status) then ret KSTATUS_INIT_FAILED
            else
              dlet (Status, Type_) := ob (ObCreateType (Some (str "Section")) (Some SectionDeleteRoutine) true) ;;
              if negb (ok Status) then ret KSTATUS_INIT_FAILED
              else
                mmM (modify_mm (fun s => set_sections Type_ (gMmSectionPool s) (gMmSectionInUse s) s)) ;;;
                HalRegisterPageFaultRoutine ;;;
                mmM (modify_mm (fun s =>
                  {| frames := frames s; gMmReady := true; gMmAddressSpacePool := gMmAddressSpacePool s;
                     gMmAddressSpaceInUse := gMmAddressSpaceInUse s;
                     gMmNextAddressSpaceId := gMmNextAddressSpaceId s;
                     gMmKernelRootTablePhysical := gMmKernelRootTablePhysical s;
                     gMmSectionType := gMmSectionType s; gMmSectionPool := gMmSectionPool s;
                     gMmSectionInUse := gMmSectionInUse s; gMmFaultTrace := gMmFaultTrace s;
                     gMmFaultTraceNext := gMmFaultTraceNext s; gMmPhysmapBase := gMmPhysmapBase s;
                     gMmPhysmapBytes := gMmPhysmapBytes s; gMmPhysmapReady := gMmPhysmapReady s |})) ;;;
                ret KSTATUS_SUCCESS
    end.

End World.
