(* ===== verification/MmDump.v ===== *)
(** * Memory manager: diagnostics of kernel/mm/init.c

    The strings each dump hands to [HalWriteDebugString], in order; [None] when
    printing one of them would be undefined. *)

From S2P Require Import Prelude CString Ob PhysMem MmPages MmTables MmSpace.

Definition bool_line (p : String.string) (b : bool) : option cstr :=
  MmpWriteHexLine (str p) (if b then 1 else 0).

Definition MmpWriteAccessType (ErrorCode : Z) : list cstr :=
  [str "[MMFLT] access=";
   if any_flag ErrorCode MM_PF_ERROR_INSTR then str "exec " else [];
   if any_flag ErrorCode MM_PF_ERROR_WRITE then str "write " else str "read ";
   if any_flag ErrorCode MM_PF_ERROR_USER then str "user" ++ [10] else str "kernel" ++ [10]].

Definition MmpDumpRegion (Region : option MM_VA_REGION) : option (list cstr) :=
  match Region with
  | None => Some [str "[MMFLT] region=<none>" ++ [10]]
  | Some r =>
      lines [MmpWriteHexLine (str "[MMFLT] region.base=") (RegionBase r);
             MmpWriteHexLine (str "[MMFLT] region.size=") (RegionSize r);
             MmpWriteHexLine (str "[MMFLT] region.type=") (RegionType r);
             MmpWriteHexLine (str "[MMFLT] region.prot=") (RegionProtection r);
             MmpWriteHexLine (str "[MMFLT] region.flags=") (RegionFlags r);
             MmpWriteHexLine (str "[MMFLT] region.commit=") (CommittedPages r);
             MmpWriteHexLine (str "[MMFLT] region.backing=") (BackingPhysicalBase r)]
  end.

(** The five lines printed for the entry of one level, named by its prefix. *)
Definition dump_entry (p pP pU pRW pNX : String.string) (e : Z) : option (list cstr) :=
  lines [MmpWriteHexLine (str p) e; bool_line pP (any_flag e MM_PTE_PRESENT);
         bool_line pU (any_flag e MM_PTE_USER); bool_line pRW (any_flag e MM_PTE_WRITABLE);
         bool_line pNX (any_flag e MM_PTE_NX)].

(** [Table[Index]] through a kernel pointer. *)
Definition table_entry (w : mm_machine) (Pa Index : Z) : Z :=
  load64 (ram w) (kva_to_pa (mm w) (MmpPhysToVirtTable (mm w) Pa + 8 * Index)).

Definition MmDumpAddressTranslation (w : mm_machine) (AddressSpace : option MM_ADDRESS_SPACE)
    (VirtualAddress : Z) : option (list cstr) :=
  match AddressSpace with
  | None => Some [str "[MMDBG] no address space" ++ [10]]
  | Some a =>
      l0 ← lines [MmpWriteHexLine (str "[MMDBG] VA=") VirtualAddress];
      let Pml4e := table_entry w (RootTablePhysical a) (walk_index VirtualAddress 0) in
      l1 ← dump_entry "[MMDBG] PML4E=" "[MMDBG] PML4E.P=" "[MMDBG] PML4E.U=" "[MMDBG] PML4E.RW="
                      "[MMDBG] PML4E.NX=" Pml4e;
      if negb (any_flag Pml4e MM_PTE_PRESENT) then Some (l0 ++ l1)
      else
        let Pdpte := table_entry w (Z.land Pml4e MM_PTE_ADDR_MASK) (walk_index VirtualAddress 1) in
        l2 ← dump_entry "[MMDBG] PDPTE=" "[MMDBG] PDPTE.P=" "[MMDBG] PDPTE.U=" "[MMDBG] PDPTE.RW="
                        "[MMDBG] PDPTE.NX=" Pdpte;
        if negb (any_flag Pdpte MM_PTE_PRESENT) then Some (l0 ++ l1 ++ l2)
        else
          let Pde := table_entry w (Z.land Pdpte MM_PTE_ADDR_MASK) (walk_index VirtualAddress 2) in
          l3 ← dump_entry "[MMDBG] PDE=" "[MMDBG] PDE.P=" "[MMDBG] PDE.U=" "[MMDBG] PDE.RW="
                          "[MMDBG] PDE.NX=" Pde;
          if negb (any_flag Pde MM_PTE_PRESENT) then Some (l0 ++ l1 ++ l2 ++ l3)
          else
            let Pte := table_entry w (Z.land Pde MM_PTE_ADDR_MASK) (walk_index VirtualAddress 3) in
            l4 ← dump_entry "[MMDBG] PTE=" "[MMDBG] PTE.P=" "[MMDBG] PTE.U=" "[MMDBG] PTE.RW="
                            "[MMDBG] PTE.NX=" Pte;
            Some (l0 ++ l1 ++ l2 ++ l3 ++ l4)
  end.

(** [MM_FAULT_SNAPSHOT]: the address space and the region it points to. *)
Record MM_FAULT_SNAPSHOT := {
  SnapshotAddressSpace : option MM_ADDRESS_SPACE;
  SnapshotRegion : option MM_VA_REGION;
  SnapshotFaultAddress : Z;
  SnapshotInstructionPointer : Z;
  SnapshotErrorCode : Z }.

(** [Pid], [Tid]: the current process and thread, if there are any. *)
Definition MmDumpFaultSnapshot (w : mm_machine) (Pid Tid : option Z) (Snapshot : option MM_FAULT_SNAPSHOT)
  : option (list cstr) :=
  match Snapshot with
  | None => Some [str "[MMFLT] null snapshot" ++ [10]]
  | Some s =>
      l1 ← lines [MmpWriteHexLine (str "[MMFLT] VA=") (SnapshotFaultAddress s);
                  MmpWriteHexLine (str "[MMFLT] RIP=") (SnapshotInstructionPointer s);
                  MmpWriteHexLine (str "[MMFLT] ERR=") (SnapshotErrorCode s)];
      l2 ← match Pid with
           | Some p => lines [MmpWriteHexLine (str "[MMFLT] PID=") p]
           | None => Some []
           end;
      l3 ← match Tid with
           | Some t => lines [MmpWriteHexLine (str "[MMFLT] TID=") t]
           | None => Some []
           end;
      l4 ← match SnapshotAddressSpace s with
           | Some a =>
               la ← lines [MmpWriteHexLine (str "[MMFLT] AS=") (AddressSpaceId a)];
               lb ← MmDumpAddressTranslation w (Some a) (SnapshotFaultAddress s);
               Some (la ++ lb)
           | None => Some []
           end;
      l5 ← MmpDumpRegion (SnapshotRegion s);
      Some (l1 ++ MmpWriteAccessType (SnapshotErrorCode s) ++ l2 ++ l3 ++ l4 ++ l5)
  end.

(** [Process]: id and address space of the current process. *)
Definition MmDumpCurrentFaultContext (w : mm_machine) (Process : option (Z * option nat)) (Tid : option Z)
    (FaultAddress_ ErrorCode InstructionPointer : Z) : option (list cstr) :=
  let a := match Process with
           | Some (_, Some i) => gMmAddressSpacePool (mm w) !! i
           | _ => None
           end in
  let r := match a with
           | Some a => match MmpFindRegion a FaultAddress_ with
                       | Some k => Regions a !! k
                       | None => None
                       end
           | None => None
           end in
  MmDumpFaultSnapshot w (fst <$> Process) Tid
    (Some {| SnapshotAddressSpace := a; SnapshotRegion := r; SnapshotFaultAddress := FaultAddress_;
             SnapshotInstructionPointer := InstructionPointer; SnapshotErrorCode := ErrorCode |}).

Definition dump_region (r : MM_VA_REGION) : option (list cstr) :=
  lines [MmpWriteHexLine (str "[MMDBG] region.base=") (RegionBase r);
         MmpWriteHexLine (str "[MMDBG] region.size=") (RegionSize r);
         MmpWriteHexLine (str "[MMDBG] region.type=") (RegionType r);
         MmpWriteHexLine (str "[MMDBG] region.prot=") (RegionProtection r);
         MmpWriteHexLine (str "[MMDBG] region.flags=") (RegionFlags r);
         MmpWriteHexLine (str "[MMDBG] region.commit=") (CommittedPages r);
         MmpWriteHexLine (str "[MMDBG] region.backing=") (BackingPhysicalBase r)].

Definition MmDumpAddressSpaceRegions (AddressSpace : option MM_ADDRESS_SPACE) : option (list cstr) :=
  match AddressSpace with
  | None => Some [str "[MMDBG] regions: <null address space>" ++ [10]]
  | Some a =>
      l1 ← lines [MmpWriteHexLine (str "[MMDBG] as.id=") (AddressSpaceId a);
                  MmpWriteHexLine (str "[MMDBG] as.owner=") (OwnerProcessId a);
                  MmpWriteHexLine (str "[MMDBG] as.region_count=") (RegionCount a)];
      l2 ← concat_lines (map dump_region (take (Z.to_nat (RegionCount a)) (Regions a)));
      Some (l1 ++ l2)
  end.

Definition dump_fault (e : MM_FAULT_TRACE) : option (list cstr) :=
  lines [MmpWriteHexLine (str "[MMFLT] VA=") (FaultAddress e);
         MmpWriteHexLine (str "[MMFLT] RIP=") (FaultInstructionPointer e);
         MmpWriteHexLine (str "[MMFLT] ERR=") (FaultErrorCode e);
         MmpWriteHexLine (str "[MMFLT] PID=") (FaultProcessId e);
         MmpWriteHexLine (str "[MMFLT] AS=") (FaultAddressSpaceId e);
         MmpWriteHexLine (str "[MMFLT] OUT=") (u64 (FaultOutcome e))].

(** The indexes of the ring buffer that are printed, oldest first. *)
Definition recent_fault_indexes (s : mm_state) : list nat :=
  let Count := if gMmFaultTraceNext s <? MM_FAULT_TRACE_DEPTH then gMmFaultTraceNext s
               else MM_FAULT_TRACE_DEPTH in
  map (fun i => Z.to_nat (u32 (gMmFaultTraceNext s - Count + Z.of_nat i) mod MM_FAULT_TRACE_DEPTH))
    (seq 0 (Z.to_nat Count)).

Definition MmDumpRecentFaults (s : mm_state) : option (list cstr) :=
  concat_lines (map (fun i => e ← gMmFaultTrace s !! i; dump_fault e) (recent_fault_indexes s)).

(** ** Lemmas *)

Lemma mm_line_some (p : String.string) v :
  is_cstr (str p) -> (length (str p) + 20 <= 96)%nat -> is_Some (MmpWriteHexLine (str p) v).
Proof. intros H1 H2. unfold MmpWriteHexLine. rewrite write_hex_line_fits by done. by eexists. Qed.

Create HintDb mm_dump discriminated.
#[local] Hint Extern 1 (is_Some (MmpWriteHexLine _ _)) =>
  apply mm_line_some; [repeat (constructor; try done)|vm_compute; lia] : mm_dump.
#[local] Hint Extern 1 (is_Some (bool_line _ _)) => unfold bool_line : mm_dump.

Lemma mm_lines_some l : Forall is_Some l -> is_Some (lines l).
Proof.
  induction 1 as [|x l [c ->] _ [l' IH]]; [by eexists|].
  change (lines (Some c :: l)) with (l' ← lines l; c ← Some c; Some (c :: l')).
  rewrite IH. by eexists.
Qed.

Ltac mm_lines := apply mm_lines_some; repeat (apply Forall_cons; split; [auto with mm_dump|]); by constructor.

Lemma dump_fault_some e : is_Some (dump_fault e).
Proof. unfold dump_fault. mm_lines. Qed.

Lemma dump_region_some r : is_Some (dump_region r).
Proof. unfold dump_region. mm_lines. Qed.

Lemma MmpDumpRegion_some o : is_Some (MmpDumpRegion o).
Proof. destruct o; [unfold MmpDumpRegion; mm_lines|by eexists]. Qed.

Lemma concat_dump_some {A} (f : A -> option (list cstr)) l :
  (forall x, is_Some (f x)) -> is_Some (concat_lines (map f l)).
Proof.
  intros H. induction l as [|x l [y IH]]; [by eexists|]. cbn [map concat_lines foldr].
  change (is_Some (l' ← concat_lines (map f l); z ← f x; Some (z ++ l'))). rewrite IH.
  destruct (H x) as [z ->]. by eexists.
Qed.

Lemma MmDumpAddressTranslation_some w a va : is_Some (MmDumpAddressTranslation w a va).
Proof.
  destruct a as [a|]; [|by eexists]. unfold MmDumpAddressTranslation.
  assert (L0 : is_Some (lines [MmpWriteHexLine (str "[MMDBG] VA=") va])) by mm_lines.
  destruct L0 as [l0 ->].
  assert (D1 : forall e, is_Some (dump_entry "[MMDBG] PML4E=" "[MMDBG] PML4E.P=" "[MMDBG] PML4E.U=" "[MMDBG] PML4E.RW=" "[MMDBG] PML4E.NX=" e)) by (intros; unfold dump_entry; mm_lines).
  assert (D2 : forall e, is_Some (dump_entry "[MMDBG] PDPTE=" "[MMDBG] PDPTE.P=" "[MMDBG] PDPTE.U=" "[MMDBG] PDPTE.RW=" "[MMDBG] PDPTE.NX=" e)) by (intros; unfold dump_entry; mm_lines).
  assert (D3 : forall e, is_Some (dump_entry "[MMDBG] PDE=" "[MMDBG] PDE.P=" "[MMDBG] PDE.U=" "[MMDBG] PDE.RW=" "[MMDBG] PDE.NX=" e)) by (intros; unfold dump_entry; mm_lines).
  assert (D4 : forall e, is_Some (dump_entry "[MMDBG] PTE=" "[MMDBG] PTE.P=" "[MMDBG] PTE.U=" "[MMDBG] PTE.RW=" "[MMDBG] PTE.NX=" e)) by (intros; unfold dump_entry; mm_lines).
  cbn [mbind option_bind].
  destruct (D1 (table_entry w (RootTablePhysical a) (walk_index va 0))) as [l1 ->]. cbn [mbind option_bind].
  guard_goal; [by eexists|].
  match goal with |- context [table_entry w ?x (walk_index va 1)] =>
    destruct (D2 (table_entry w x (walk_index va 1))) as [l2 ->] end. cbn [mbind option_bind].
  guard_goal; [by eexists|].
  match goal with |- context [table_entry w ?x (walk_index va 2)] =>
    destruct (D3 (table_entry w x (walk_index va 2))) as [l3 ->] end. cbn [mbind option_bind].
  guard_goal; [by eexists|].
  match goal with |- context [table_entry w ?x (walk_index va 3)] =>
    destruct (D4 (table_entry w x (walk_index va 3))) as [l4 ->] end. cbn [mbind option_bind].
  by eexists.
Qed.

(** ** The fault trace is a ring of the last 64 faults *)

(** One call of [MmpRecordFault]: its arguments. *)
Record fault_call := {
  fc_space : option nat; fc_address : Z; fc_error : Z; fc_ip : Z; fc_outcome : Z; fc_pid : option Z }.

Definition record_one (c : fault_call) : M mm_machine unit :=
  MmpRecordFault (fc_space c) (fc_address c) (fc_error c) (fc_ip c) (fc_outcome c) (fc_pid c).
Fixpoint record_all (l : list fault_call) : M mm_machine unit :=
  match l with [] => ret tt | c :: l => record_one c ;;; record_all l end.

(** The record a call leaves. *)
Definition trace_of (pool : list MM_ADDRESS_SPACE) (c : fault_call) : MM_FAULT_TRACE :=
  {| FaultAddress := fc_address c; FaultInstructionPointer := fc_ip c; FaultErrorCode := fc_error c;
     FaultProcessId := default 0 (fc_pid c);
     FaultAddressSpaceId := match fc_space c with
       | Some i => match pool !! i with Some a => AddressSpaceId a | None => 0 end | None => 0 end;
     FaultOutcome := fc_outcome c |}.

Record ring (s : mm_state) (l : list MM_FAULT_TRACE) : Prop := {
  rg_length : length (gMmFaultTrace s) = 64%nat;
  rg_next : gMmFaultTraceNext s = Z.of_nat (length l) /\ Z.of_nat (length l) < 2 ^ 32;
  rg_slot : forall j x, (length l <= j + 64)%nat -> l !! j = Some x -> gMmFaultTrace s !! (j mod 64)%nat = Some x }.

Lemma trace_slot n : Z.to_nat (Z.of_nat n mod MM_FAULT_TRACE_DEPTH) = (n mod 64)%nat.
Proof. unfold MM_FAULT_TRACE_DEPTH. change 64 with (Z.of_nat 64). by rewrite <- Nat2Z.inj_mod, Nat2Z.id. Qed.

Lemma record_one_ring w l c : ring (mm w) l -> Z.of_nat (length l) + 1 < 2 ^ 32 ->
  (forall i, fc_space c = Some i -> is_Some (gMmAddressSpacePool (mm w) !! i)) ->
  exists w', record_one c w = Ret tt w' /\ ring (mm w') (l ++ [trace_of (gMmAddressSpacePool (mm w)) c]) /\
    gMmAddressSpacePool (mm w') = gMmAddressSpacePool (mm w).
Proof.
  intros [L [N1 N2] Sl] Hn Sp. unfold record_one, MmpRecordFault. rewrite bind_gets.
  rewrite (bind_eq _ _ _ (FaultAddressSpaceId (trace_of (gMmAddressSpacePool (mm w)) c)) w).
  2: { unfold trace_of. cbn [FaultAddressSpaceId]. destruct (fc_space c) as [i|]; [|done].
       destruct (Sp i eq_refl) as [a Ha]. rewrite Ha. unfold get_space, bind.
       by rewrite (load_at_ok _ _ _ w Ha). }
  rewrite N1, trace_slot.
  assert (B : (length l mod 64 < 64)%nat) by (apply Nat.mod_upper_bound; lia).
  rewrite (bind_eq _ _ _ _ _ (store_at_ok _ _ _ w ltac:(by rewrite L))).
  eexists. split; [reflexivity|]. split; [|done]. constructor; cbn [mm set_mm gMmFaultTrace gMmFaultTraceNext set_trace].
  - by rewrite length_insert.
  - rewrite length_app, N1. cbn [length]. split; [rewrite u32_small; lia|lia].
  - intros j x Hj Hx. rewrite length_app in Hj. cbn [length] in Hj.
    apply lookup_app_Some in Hx as [Hx|[Hl Hx]].
    + pose proof (lookup_lt_Some _ _ _ Hx). rewrite list_lookup_insert_ne; [apply Sl; [lia|done]|].
      intros E. assert (Z.of_nat (length l) mod 64 = Z.of_nat j mod 64).
      { change 64 with (Z.of_nat 64). by rewrite <- !Nat2Z.inj_mod, E. }
      zlia.
    + apply list_lookup_singleton_Some in Hx as [E <-]. assert (j = length l) as -> by lia.
      apply list_lookup_insert_eq. by rewrite L.
Qed.

Lemma record_all_ring cs : forall w l, ring (mm w) l -> Z.of_nat (length l + length cs) < 2 ^ 32 ->
  (forall c i, c ∈ cs -> fc_space c = Some i -> is_Some (gMmAddressSpacePool (mm w) !! i)) ->
  exists w', record_all cs w = Ret tt w' /\ ring (mm w') (l ++ map (trace_of (gMmAddressSpacePool (mm w))) cs).
Proof.
  induction cs as [|c cs IH]; intros w l R Hn Sp; cbn [record_all map].
  { exists w. by rewrite app_nil_r. }
  cbn [length] in Hn.
  destruct (record_one_ring w l c R ltac:(lia)) as (w1 & E & R1 & P1); [intros i; apply Sp; set_solver|].
  rewrite (bind_eq _ _ _ _ _ E).
  destruct (IH w1 _ R1) as (w2 & E2 & R2).
  - rewrite length_app. cbn [length]. lia.
  - intros c2 i Hc. rewrite P1. apply Sp. set_solver.
  - exists w2. split; [done|]. by rewrite <- app_assoc, P1 in R2.
Qed.

Lemma ring_recent s l : ring s l ->
  map (fun i => e ← gMmFaultTrace s !! i; dump_fault e) (recent_fault_indexes s)
  = map dump_fault (drop (length l - 64) l).
Proof.
  intros [L [N1 N2] Sl]. unfold recent_fault_indexes. rewrite N1. unfold MM_FAULT_TRACE_DEPTH.
  set (Count := if Z.of_nat (length l) <? 64 then Z.of_nat (length l) else 64).
  assert (EC : Count = Z.of_nat (length l) - Z.of_nat (length l - 64)) by (unfold Count; guard_goal; bool_prop; lia).
  assert (EN : Z.to_nat Count = length (drop (length l - 64) l)) by (rewrite length_drop; lia).
  apply list_eq. intros i. rewrite map_map, !list_lookup_fmap.
  destruct (decide (i < Z.to_nat Count)%nat) as [Hi|Hi].
  2: { rewrite (lookup_ge_None_2 (seq _ _)), (lookup_ge_None_2 (drop _ _)) by (rewrite ?length_seq; lia). done. }
  rewrite lookup_seq_lt by done. destruct (lookup_lt_is_Some_2 (drop (length l - 64) l) i) as [x Hx]; [lia|].
  rewrite Hx. cbn. f_equal. rewrite lookup_drop in Hx.
  replace (u32 (Z.of_nat (length l) - Count + Z.of_nat i)) with (Z.of_nat (length l - 64 + i))
    by (rewrite u32_small; lia).
  fold MM_FAULT_TRACE_DEPTH. rewrite trace_slot. by rewrite (Sl (length l - 64 + i)%nat x ltac:(lia) Hx).
Qed.

(** ** Properties *)

(** The fault trace keeps the last 64 faults: after any sequence of
    [MmpRecordFault] calls on a freshly initialised trace, the dump prints
    exactly the most recent 64 of them, oldest first, and never reads or prints
    out of bounds. *)
Theorem MmDumpRecentFaults_last w cs :
  length (gMmFaultTrace (mm w)) = 64%nat -> gMmFaultTraceNext (mm w) = 0 -> Z.of_nat (length cs) < 2 ^ 32 ->
  (forall c i, c ∈ cs -> fc_space c = Some i -> is_Some (gMmAddressSpacePool (mm w) !! i)) ->
  exists w', record_all cs w = Ret tt w' /\ is_Some (MmDumpRecentFaults (mm w')) /\
    MmDumpRecentFaults (mm w') =
      concat_lines (map dump_fault
        (drop (length cs - 64) (map (trace_of (gMmAddressSpacePool (mm w))) cs))).
Proof.
  intros L N Hn Sp.
  destruct (record_all_ring cs w [] ltac:(by constructor) ltac:(done) Sp) as (w' & E & R).
  exists w'. split; [done|]. unfold MmDumpRecentFaults. rewrite (ring_recent _ _ R). cbn [app].
  rewrite length_map. split; [|done]. apply concat_dump_some, dump_fault_some.
Qed.

(** The dumps of a translation, of a fault and of the regions of an address
    space print inside their buffers for every state and every argument. *)
Theorem MmDump_defined w Pid Tid a s va :
  is_Some (MmDumpAddressTranslation w a va) /\ is_Some (MmDumpFaultSnapshot w Pid Tid s) /\
  is_Some (MmDumpAddressSpaceRegions a).
Proof.
  split_and!; [apply MmDumpAddressTranslation_some| |].
  - destruct s as [s|]; [|by eexists]. unfold MmDumpFaultSnapshot.
    assert (L1 : is_Some (lines [MmpWriteHexLine (str "[MMFLT] VA=") (SnapshotFaultAddress s);
      MmpWriteHexLine (str "[MMFLT] RIP=") (SnapshotInstructionPointer s);
      MmpWriteHexLine (str "[MMFLT] ERR=") (SnapshotErrorCode s)])) by mm_lines.
    destruct L1 as [l1 ->].
    assert (L2 : forall p, is_Some (lines [MmpWriteHexLine (str "[MMFLT] PID=") p])) by (intros; mm_lines).
    assert (L3 : forall p, is_Some (lines [MmpWriteHexLine (str "[MMFLT] TID=") p])) by (intros; mm_lines).
    assert (L4 : forall p, is_Some (lines [MmpWriteHexLine (str "[MMFLT] AS=") p])) by (intros; mm_lines).
    destruct (MmpDumpRegion_some (SnapshotRegion s)) as [l5 ->].
    destruct Pid as [p|], Tid as [q|], (SnapshotAddressSpace s) as [b|];
      try destruct (L2 p) as [? ->]; try destruct (L3 q) as [? ->];
      try (destruct (L4 (AddressSpaceId b)) as [? ->];
           destruct (MmDumpAddressTranslation_some w (Some b) (SnapshotFaultAddress s)) as [? ->]);
      by eexists.
  - destruct a as [a|]; [|by eexists]. unfold MmDumpAddressSpaceRegions.
    match goal with |- context [lines ?l] => assert (E : is_Some (lines l)) by mm_lines; destruct E as [l1 ->] end.
    destruct (concat_dump_some dump_region (take (Z.to_nat (RegionCount a)) (Regions a)) dump_region_some) as [l2 E].
    cbn [mbind option_bind]. rewrite E. by eexists.
Qed.

(** ** Witness: seventy faults without an address space. *)

Definition trace_machine : mm_machine :=
  {| mm := {| frames := {| gMmPageBitmap := ∅; gMmPageRefCount := ∅; gMmTrackedPages := 0; gMmNextScanPage := 0 |};
       gMmReady := true; gMmAddressSpacePool := []; gMmAddressSpaceInUse := [];
       gMmNextAddressSpaceId := 1; gMmKernelRootTablePhysical := 0; gMmSectionType := None;
       gMmSectionPool := []; gMmSectionInUse := [];
       gMmFaultTrace := replicate 64 {| FaultAddress := 0; FaultInstructionPointer := 0; FaultErrorCode := 0;
         FaultProcessId := 0; FaultAddressSpaceId := 0; FaultOutcome := 0 |};
       gMmFaultTraceNext := 0; gMmPhysmapBase := 0; gMmPhysmapBytes := 0; gMmPhysmapReady := false |};
     ram := ∅; cr3 := 0; invlpgs := [] |}.
Definition faults70 : list fault_call :=
  map (fun n => {| fc_space := None; fc_address := Z.of_nat n; fc_error := 4; fc_ip := 0x400000;
                   fc_outcome := -6; fc_pid := Some 1 |}) (seq 0 70).

Lemma MmDumpRecentFaults_last_witness :
  exists w', record_all faults70 trace_machine = Ret tt w' /\
    MmDumpRecentFaults (mm w') =
      concat_lines (map dump_fault (map (trace_of []) (drop 6 faults70))).
Proof.
  destruct (MmDumpRecentFaults_last trace_machine faults70) as (w' & E & _ & D);
    [reflexivity|reflexivity|reflexivity| |exists w'; split; [exact E|exact D]].
  intros c i Hc Hi. exfalso. unfold faults70 in Hc. apply list_elem_of_fmap in Hc as (n & -> & _). discriminate Hi.
Defined.
