(* ===== verification/MmFault.v ===== *)
(** * Memory manager, page faults: theorems on kernel/mm/init.c

    What [MmHandlePageFault] grants: faults outside the regions or against
    their protection change nothing, an absent page of an anonymous region
    becomes a fresh zeroed frame, one of a section region the section's frame,
    and a write to a shared copy-on-write page a private copy. *)

From stdpp Require Import fin_maps.
From S2P Require Import Prelude CString BootProto Ob PhysMem Rtl MmPages MmTables MmTablesInv MmSpace.

(** ** Page addresses *)

Lemma page_of_fault fa : is_u64 fa -> MmpIsCanonicalAddress fa = true ->
  page_va (fa / 4096 * 4096) /\ vpage (fa / 4096 * 4096) = vpage fa.
Proof.
  intros U C. unfold is_u64 in U. unfold page_va, vpage. split_and!; [zlia|zlia| |].
  - revert C. unfold MmpIsCanonicalAddress. rewrite !Z.shiftr_div_pow2 by lia.
    replace (fa / 4096 * 4096 / 2 ^ 48) with (fa / 2 ^ 48); [done|].
    change (2 ^ 48) with (4096 * 2 ^ 36). rewrite <- !Z.div_div by lia. by rewrite Z.div_mul by lia.
  - by rewrite Z.div_mul by lia.
Qed.

(** ** Protection bits *)

Lemma MmpProtectionToPte_bit p f i : 0 <= i ->
  Z.testbit (MmpProtectionToPte p f) i =
    ((i =? 1) && (any_flag p MM_PROT_WRITE && negb (any_flag f MM_REGION_FLAG_COW))) ||
    ((i =? 2) && any_flag p MM_PROT_USER) ||
    ((i =? 63) && negb (any_flag p MM_PROT_EXECUTE)) ||
    ((i =? 9) && any_flag f MM_REGION_FLAG_COW).
Proof.
  intros Hi. unfold MmpProtectionToPte.
  assert (B : forall k, 0 <= k -> Z.testbit (2 ^ k) i = (i =? k)).
  { intros k Hk. rewrite Z.pow2_bits_eqb by done. apply Z.eqb_sym. }
  change MM_PTE_WRITABLE with (2 ^ 1). change MM_PTE_USER with (2 ^ 2).
  change MM_PTE_NX with (2 ^ 63). change MM_PTE_SOFT_COW with (2 ^ 9).
  destruct (any_flag p MM_PROT_WRITE), (any_flag p MM_PROT_USER), (any_flag p MM_PROT_EXECUTE),
    (any_flag f MM_REGION_FLAG_COW); cbn [andb negb];
    rewrite ?Z.lor_spec, ?B, ?Z.bits_0 by lia;
    destruct (i =? 1), (i =? 2), (i =? 63), (i =? 9); reflexivity.
Qed.

Lemma MmpProtectionToPte_ok p f :
  is_u64 (MmpProtectionToPte p f) /\ addr_of (MmpProtectionToPte p f) = 0.
Proof.
  split.
  - apply u64_bits. intros i Hi. rewrite MmpProtectionToPte_bit by lia.
    destruct (Z.eqb_spec i 1), (Z.eqb_spec i 2), (Z.eqb_spec i 63), (Z.eqb_spec i 9); (lia || done).
  - apply Z.bits_inj'. intros i Hi. rewrite addr_bit, Z.bits_0, MmpProtectionToPte_bit by done.
    destruct (Z.leb_spec 12 i), (Z.ltb_spec i 52); cbn [andb]; rewrite ?andb_false_r; try done.
    destruct (Z.eqb_spec i 1), (Z.eqb_spec i 2), (Z.eqb_spec i 63), (Z.eqb_spec i 9); (lia || done).
Qed.

(** ** Changes the page tables do not notice *)

Lemma entry_same m m' t i : 0 <= i < 512 -> t mod 4096 = 0 ->
  (forall x, x / 4096 * 4096 = t -> load8 m' x = load8 m x) -> entry m' t i = entry m t i.
Proof. intros Hi Ht H. unfold entry, load64. apply load_le_ext. intros j Hj. apply H. zlia. Qed.

(** Another machine with the same tables, at least as many allocated frames. *)
Lemma space_ok_outside lv w w' a a' :
  space_ok lv w a -> gMmReady (mm w') = gMmReady (mm w) -> RootTablePhysical a' = RootTablePhysical a ->
  pages_wf (frames (mm w')) -> gMmTrackedPages (frames (mm w')) = gMmTrackedPages (frames (mm w)) ->
  (forall t L, lv !! t = Some L -> allocated (frames (mm w')) (t / 4096) = true) ->
  mem_ok (ram w') -> (forall x, lv !! (x / 4096 * 4096) <> None -> load8 (ram w') x = load8 (ram w) x) ->
  space_ok lv w' a' /\ (forall r va, lv !! r = Some 0%nat -> translate w' r va = translate w r va).
Proof.
  intros [W R Hr Hn] ER Ea Wp Tp Ap Om Hx.
  assert (EE : forall t L i, lv !! t = Some L -> 0 <= i < 512 -> entry (ram w') t i = entry (ram w) t i).
  { intros t L i Ht Hi. apply entry_same; [done|by eapply tw_bounds|]. intros x Ex. apply Hx. by rewrite Ex, Ht. }
  split.
  - constructor; [|by rewrite ER|by rewrite Ea|by rewrite Ea]. constructor; try done.
    + intros t L Ht. destruct (tw_frame _ _ W t L Ht) as (? & ? & ? & ? & _).
      rewrite Tp. split_and!; try done. by apply (Ap t L).
    + intros t L i Ht HL Hi. rewrite (EE t L i) by done. by apply (tw_child _ _ W).
    + intros t i Ht Hi. rewrite (EE t 2%nat i) by done. by apply (tw_large _ _ W).
    + intros t t' L L' i i' Ht Ht' HL HL' Hi Hi'. rewrite (EE t L i), (EE t' L' i') by done.
      by apply (tw_unique _ _ W).
  - intros r va Hr2. unfold translate. apply (xlate_sim lv w (ram w') W) with 0%nat; try done.
    intros t L va2 Ht. left. by rewrite (EE t L) by (done || apply walk_index_range).
Qed.

(** The walk is the same in a machine with the same tables. *)
Lemma leads_outside lv w m va n : tables_wf lv w ->
  (forall x, lv !! (x / 4096 * 4096) <> None -> load8 m x = load8 (ram w) x) ->
  forall L t c, lv !! t = Some L -> (L + n <= 3)%nat -> leads n (ram w) L t va c -> leads n m L t va c.
Proof.
  intros W Hx. induction n as [|n IH]; intros L t c Ht HL; [done|]. cbn [leads]. intros (P & G & D).
  pose proof (walk_index_range va L) as Hi.
  rewrite (entry_same (ram w) m t) by (done || (by eapply tw_bounds) || (intros x Ex; apply Hx; by rewrite Ex, Ht)).
  split; [done|]. split; [done|]. apply IH; [apply (tw_child _ _ W); (done || lia)|lia|done].
Qed.

(** Where the walk ends, a page can be mapped. *)
Lemma map_page_over lv w a va pa flags c st w' : space_ok lv w a -> page_va va ->
  leads 3 (ram w) 0 (RootTablePhysical a) va c ->
  pa mod 4096 = 0 -> MmAsMapPage (Some a) va pa flags w = Ret st w' -> st = KSTATUS_SUCCESS.
Proof.
  intros S V D Ap. unfold MmAsMapPage. rewrite bind_gets, (so_ready _ _ _ S), (page_guard va V).
  change MM_PAGE_SIZE with 4096. rewrite Ap, bool_decide_eq_true_2 by done. cbn [negb orb Z.eqb].
  destruct (walk_spec lv w a va true S V) as (st1 & T' & lv1 & w1 & E & _ & _ & _ & FF).
  rewrite (bind_eq _ _ _ _ _ E). unfold ok.
  destruct (Z.eqb_spec st1 KSTATUS_SUCCESS) as [->|N]; cbn [negb].
  2: { exfalso. destruct (FF N) as [ND _]. by apply (ND c). }
  intros H. do 4 (apply bind_Ret_inv in H as (? & ? & _ & H)). by injection H.
Qed.

(** A frame that was free before, taken and filled, is seen by no table. *)
Lemma fill_frame_ok lv w a p f m' :
  space_ok lv w a -> 0 <= f -> f mod 4096 = 0 -> allocated (frames (mm w)) (f / 4096) = false ->
  pages_wf p -> gMmTrackedPages p = gMmTrackedPages (frames (mm w)) ->
  (forall j, allocated p j = (f / 4096 =? j) || allocated (frames (mm w)) j) ->
  mem_ok m' -> (forall x, x / 4096 * 4096 <> f -> load8 m' x = load8 (ram w) x) ->
  lv !! f = None /\ space_ok lv (upd p m' w) a /\
  (forall r va, lv !! r = Some 0%nat -> translate (upd p m' w) r va = translate w r va).
Proof.
  intros S F0 Fa Ff Wp Tp Ap Om Hx.
  assert (Nf : lv !! f = None).
  { destruct (lv !! f) as [L|] eqn:E; [|done].
    destruct (tw_frame _ _ (so_wf _ _ _ S) f L E) as (_ & _ & _ & _ & A). congruence. }
  split; [done|]. apply (space_ok_outside lv w (upd p m' w) a a); try done.
  - intros t L Ht. cbn [upd mm set_ram set_mm set_frames frames]. rewrite Ap.
    destruct (tw_frame _ _ (so_wf _ _ _ S) t L Ht) as (_ & _ & _ & _ & ->). by rewrite orb_true_r.
  - intros x Nx. apply Hx. intros E. by rewrite E in Nx.
Qed.

Lemma kva_page s f : 0 <= f < 2 ^ 52 -> f mod 4096 = 0 -> kva_to_pa s (MmpPhysToVirtPage s f) = f.
Proof.
  intros Hf Ha. pose proof (kva_table s f 0 ltac:(lia)) as E. rewrite !Z.add_0_r in E.
  change (MmpPhysToVirtPage s f) with (MmpPhysToVirtTable s f). rewrite E. by apply addr_of_page.
Qed.

Lemma zero_page_eq w f : 0 <= f < 2 ^ 52 -> f mod 4096 = 0 ->
  zero_page f w = Ret tt (set_ram (store_table 1 (ram w) f (fun _ => 0) 4096) w).
Proof. intros Hf Ha. unfold zero_page, modify. by rewrite kva_page. Qed.

Lemma copy_page_eq w x f : 0 <= x < 2 ^ 52 -> x mod 4096 = 0 -> 0 <= f < 2 ^ 52 -> f mod 4096 = 0 ->
  copy_page x f w = Ret tt (set_ram (copy_up (ram w) f x 4096 0) w).
Proof. intros. unfold copy_page, modify. by rewrite !kva_page. Qed.

(** A successful query stands at the end of a walk. *)
Lemma query_inv lv w a va pte :
  space_ok lv w a -> page_va va -> MmAsQueryPte (Some a) va true w = Ret (KSTATUS_SUCCESS, Some pte) w ->
  exists c, lv !! c = Some 3%nat /\ leads 3 (ram w) 0 (RootTablePhysical a) va c /\
    pte = entry (ram w) c (walk_index va 3).
Proof.
  intros S V Q. destruct (walk_query lv w a va S V) as (st & T' & E & [[-> (c & _ & Hc & _ & D)]|[Ns _]]).
  - exists c. split_and!; [done|done|]. rewrite (query_leads lv w a va c S V D) in Q. by injection Q as <-.
  - exfalso. revert Q. unfold MmAsQueryPte. rewrite bind_gets, (so_ready _ _ _ S), (page_guard _ V).
    rewrite bool_decide_eq_true_2 by done. cbn [negb orb]. rewrite (bind_eq _ _ _ _ _ E).
    unfold ok. destruct (Z.eqb_spec st KSTATUS_SUCCESS); [done|]. cbn [negb]. by intros [=].
Qed.

(** ** The handler's guards *)

(** The fault [fa] with [err] is one that region [k] of [a] admits. *)
Record admits (a : MM_ADDRESS_SPACE) (k : nat) (r : MM_VA_REGION) (fa err : Z) : Prop := {
  ad_find : MmpFindRegion a fa = Some k;
  ad_region : Regions a !! k = Some r;
  ad_guard : any_flag (RegionFlags r) MM_REGION_FLAG_GUARD = false;
  ad_denied : fault_denied err (RegionProtection r) = false }.

Lemma MmpFindRegion_Some a fa k : MmpFindRegion a fa = Some k ->
  exists r, Regions a !! k = Some r /\ (Z.of_nat k < RegionCount a) /\
    RegionBase r <= fa < u64 (RegionBase r + RegionSize r).
Proof.
  intros F. apply find_first_Some in F as [(r & Hr & T) _]. bool_prop.
  apply lookup_take_Some in Hr as [Hr Hk]. exists r. split_and!; try done; lia.
Qed.

Lemma get_space_eq i a w : gMmAddressSpacePool (mm w) !! i = Some a -> get_space i w = Ret a w.
Proof. apply load_at_ok. Qed.

(** With its guards passed the handler is the work on the page. *)
Lemma MmHandlePageFault_eq lv w i a k r fa err :
  space_ok lv w a -> gMmAddressSpacePool (mm w) !! i = Some a -> is_u64 fa ->
  MmpIsCanonicalAddress fa = true -> admits a k r fa err ->
  exists st o, MmAsQueryPte (Some a) (fa / 4096 * 4096) true w = Ret (st, o) w /\
  MmHandlePageFault (Some i) fa err w =
    (if any_flag err MM_PF_ERROR_PRESENT then
       match o with
       | Some Pte => if ok st && any_flag Pte MM_PTE_SOFT_COW && any_flag err MM_PF_ERROR_WRITE
                     then fault_cow a (fa / 4096 * 4096) Pte else ret KSTATUS_ACCESS_DENIED
       | None => ret KSTATUS_ACCESS_DENIED
       end
     else fault_absent i k a r (fa / 4096 * 4096)) w.
Proof.
  intros S Ha Uf Cf [F Hr G D]. destruct (page_of_fault fa Uf Cf) as [V _].
  assert (Q : exists st o, MmAsQueryPte (Some a) (fa / 4096 * 4096) true w = Ret (st, o) w).
  { unfold MmAsQueryPte. rewrite bind_gets, (so_ready _ _ _ S), (page_guard _ V).
    rewrite bool_decide_eq_true_2 by done. cbn [negb orb].
    destruct (walk_query lv w a _ S V) as (st & T' & E & _). rewrite (bind_eq _ _ _ _ _ E).
    destruct (ok st); cbn [negb]; unfold bind, ret, read_entry, gets; by eexists _, _. }
  destruct Q as (st & o & Q). exists st, o. split; [done|].
  unfold MmHandlePageFault. rewrite bind_gets, (so_ready _ _ _ S). cbn [negb].
  rewrite (bind_eq _ _ _ _ _ (get_space_eq _ _ _ Ha)), F.
  rewrite (bind_eq _ _ _ _ _ (load_at_ok _ _ _ w Hr)), G, D.
  change MM_PAGE_SIZE with 4096. rewrite align_down_page by done.
  by rewrite (bind_eq _ _ _ _ _ Q).
Qed.

(** ** The counter of committed pages *)

Definition committed (k : nat) (r : MM_VA_REGION) (a : MM_ADDRESS_SPACE) : MM_ADDRESS_SPACE :=
  set_region (set_committed (u32 (CommittedPages r + 1)) r) k a.

Lemma commit_page_eq w i k a r : gMmAddressSpacePool (mm w) !! i = Some a -> Regions a !! k = Some r ->
  commit_page i k w = Ret tt (set_mm (set_spaces (<[i := committed k r a]> (gMmAddressSpacePool (mm w)))
    (gMmAddressSpaceInUse (mm w)) (gMmNextAddressSpaceId (mm w)) (mm w)) w).
Proof.
  intros Ha Hr. unfold commit_page. rewrite (bind_eq _ _ _ _ _ (get_space_eq _ _ _ Ha)).
  rewrite (bind_eq _ _ _ _ _ (load_at_ok _ _ _ w Hr)). unfold put_space.
  rewrite (bind_eq _ _ _ _ _ (store_at_ok _ _ _ w (lookup_lt_Some _ _ _ Ha))). done.
Qed.

(** Mapping a frame at an absent page of region [k], then counting it. *)
Definition map_and_commit (i k : nat) (a : MM_ADDRESS_SPACE) (va pa flags : Z) : M mm_machine KSTATUS :=
  Status <- MmAsMapPage (Some a) va pa flags ;;
  if negb (ok Status) then ret Status else commit_page i k ;;; ret KSTATUS_SUCCESS.

(** Where a page is mapped after a fault, and what else has not changed. *)
Record fault_mapped (lv : gmap Z nat) (w w' : mm_machine) (i : nat) (a a' : MM_ADDRESS_SPACE) (fa pa flags : Z)
  : Prop := {
  fm_page : forall va2, 0 <= va2 -> vpage va2 = vpage fa ->
    translate w' (RootTablePhysical a) va2 = Some (pa + va2 mod 4096);
  fm_entry : MmAsQueryPte (Some a) (fa / 4096 * 4096) true w'
    = Ret (KSTATUS_SUCCESS, Some (Z.lor (Z.lor pa flags) MM_PTE_PRESENT)) w';
  fm_others : forall r va2, lv !! r = Some 0%nat -> 0 <= va2 -> vpage va2 <> vpage fa ->
    translate w' r va2 = translate w r va2;
  fm_flush : invlpgs w' = fa / 4096 * 4096 :: invlpgs w;
  fm_space : gMmAddressSpacePool (mm w') = <[i := a']> (gMmAddressSpacePool (mm w)) }.

(** A failed fault: no translation has changed, and why it failed. *)
Record fault_failed (lv : gmap Z nat) (w w' : mm_machine) (a : MM_ADDRESS_SPACE) (st va : Z) : Prop := {
  ff_same : forall r va2, lv !! r = Some 0%nat -> translate w' r va2 = translate w r va2;
  ff_pool : gMmAddressSpacePool (mm w') = gMmAddressSpacePool (mm w);
  ff_reason : full w' \/ (st = KSTATUS_NOT_IMPLEMENTED /\ huge 3 (ram w') 0 (RootTablePhysical a) va) }.

Lemma map_and_commit_spec lv w i k a r fa pa flags :
  space_ok lv w a -> gMmAddressSpacePool (mm w) !! i = Some a -> Regions a !! k = Some r ->
  is_u64 fa -> MmpIsCanonicalAddress fa = true -> 0 <= pa < 2 ^ 52 -> pa mod 4096 = 0 ->
  is_u64 flags -> addr_of flags = 0 ->
  translate w (RootTablePhysical a) (fa / 4096 * 4096) = None ->
  exists st lv' w', map_and_commit i k a (fa / 4096 * 4096) pa flags w = Ret st w' /\
    space_ok lv' w' a /\ lv ⊆ lv' /\
    (st = KSTATUS_SUCCESS -> fault_mapped lv w w' i a (committed k r a) fa pa flags) /\
    (st <> KSTATUS_SUCCESS -> fault_failed lv w w' a st (fa / 4096 * 4096)) /\
    (forall x, lv' !! (x / 4096 * 4096) = None -> load8 (ram w') x = load8 (ram w) x) /\
    (forall t L, lv' !! t = Some L -> lv !! t = None -> allocated (frames (mm w)) (t / 4096) = false).
Proof.
  intros S Ha Hr Uf Cf Hp Ap Uv Av T. destruct (page_of_fault fa Uf Cf) as [V EV].
  destruct (map_page_spec lv w a _ pa flags S V Hp Ap Uv Av)
    as (st & lv' & w1 & E & S1 & Sub & O & OK & KO & M & N & (p & Em)).
  { intros x. by rewrite T. }
  unfold map_and_commit. rewrite (bind_eq _ _ _ _ _ E).
  assert (EP : gMmAddressSpacePool (mm w1) = gMmAddressSpacePool (mm w)) by (by rewrite Em).
  unfold ok. destruct (Z.eqb_spec st KSTATUS_SUCCESS) as [->|Ns]; cbn [negb].
  2: { exists st, lv', w1. split_and!; try done. intros _. destruct (KO Ns). by constructor. }
  rewrite (bind_eq _ _ _ _ _ (commit_page_eq w1 i k a r ltac:(by rewrite EP) Hr)). unfold ret.
  destruct (OK eq_refl) as (T1 & Q1 & I1).
  set (w2 := set_mm _ w1). exists KSTATUS_SUCCESS, lv', w2.
  destruct (space_ok_outside lv' w1 w2 a a S1) as [S2 T2]; try done.
  { apply S1. } { intros t L Ht. by apply (tw_frame _ _ (so_wf _ _ _ S1) t L). } { apply S1. }
  split_and!; try done. intros _.
  destruct (query_inv lv' w1 a _ _ S1 V Q1) as (c & _ & D & _). constructor; try done.
  - intros va2 H2 E2. apply (T1 va2 H2). by rewrite EV.
  - rewrite (query_leads lv' w1 a _ c S1 V D) in Q1. rewrite (query_leads lv' w2 a _ c S2 V D).
    injection Q1 as Q1. change (ram w2) with (ram w1). by rewrite Q1.
  - intros r2 va2 Hr2 H2 Ne. apply (O r2 va2 Hr2 H2). by rewrite EV.
  - unfold w2. cbn [mm set_mm set_spaces gMmAddressSpacePool]. by rewrite EP.
Qed.

(** Taking a reference on a frame. *)
Lemma retain_ok lv w a x : space_ok lv w a -> 0 <= x ->
  RetainPage x w = Ret tt (upd (MmpRetainPage x (frames (mm w))) (ram w) w) /\
  space_ok lv (upd (MmpRetainPage x (frames (mm w))) (ram w) w) a.
Proof.
  intros S Hx. split; [by destruct w as [[] ? ? ?]|].
  destruct (retain_fields x (frames (mm w)) (tw_pages _ _ (so_wf _ _ _ S))) as (Wp & Ap & Tp).
  apply (space_ok_outside lv w _ a a S); try done.
  - intros t L Ht. cbn [mm upd set_ram set_mm set_frames frames]. rewrite Ap.
    by apply (tw_frame _ _ (so_wf _ _ _ S) t L).
  - apply (so_wf _ _ _ S).
Qed.

(** The frame behind the page of a section region, if the section has it. *)
Definition section_page (s : mm_state) (r : MM_VA_REGION) (va : Z) : option Z :=
  match MmpFindSectionByHeader (BackingObject r) s with
  | None => None
  | Some j =>
      match gMmSectionPool s !! j with
      | None => None
      | Some x =>
          let PageIndex := u32 (u64 (u64 (va - RegionBase r) + BackingOffset r) / MM_PAGE_SIZE) in
          if PageIndex >=? SectionPageCount x then None else SectionPages x !! Z.to_nat PageIndex
      end
  end.

(** ** Properties *)

(** The flags a region's protection becomes are exactly: writable for a
    writable region that is not copy-on-write, user for a user region, no
    execution unless the region is executable, and the copy-on-write mark; no
    address bit and no other flag. *)
Theorem MmpProtectionToPte_exact p f :
  is_u64 (MmpProtectionToPte p f) /\ addr_of (MmpProtectionToPte p f) = 0 /\
  (any_flag (MmpProtectionToPte p f) MM_PTE_WRITABLE = true <->
     any_flag p MM_PROT_WRITE = true /\ any_flag f MM_REGION_FLAG_COW = false) /\
  (any_flag (MmpProtectionToPte p f) MM_PTE_USER = any_flag p MM_PROT_USER) /\
  (any_flag (MmpProtectionToPte p f) MM_PTE_NX = negb (any_flag p MM_PROT_EXECUTE)) /\
  (any_flag (MmpProtectionToPte p f) MM_PTE_SOFT_COW = any_flag f MM_REGION_FLAG_COW) /\
  is_present (MmpProtectionToPte p f) = false /\ is_large (MmpProtectionToPte p f) = false.
Proof.
  destruct (MmpProtectionToPte_ok p f) as [U A]. split; [done|]. split; [done|].
  change MM_PTE_WRITABLE with (2 ^ 1). change MM_PTE_USER with (2 ^ 2).
  change MM_PTE_NX with (2 ^ 63). change MM_PTE_SOFT_COW with (2 ^ 9).
  rewrite is_present_bit, is_large_bit, !any_flag_bit, !MmpProtectionToPte_bit by lia. cbn [Z.eqb Pos.eqb].
  destruct (any_flag p MM_PROT_WRITE), (any_flag p MM_PROT_USER), (any_flag p MM_PROT_EXECUTE),
    (any_flag f MM_REGION_FLAG_COW); cbn; naive_solver.
Qed.

(** C10: a fault outside every region, in a guard region or against the region's
    protection is refused and changes nothing in the machine; so is a fault on a
    present page that is not a write to a copy-on-write page. *)
Theorem MmHandlePageFault_denied lv w i a fa err :
  space_ok lv w a -> gMmAddressSpacePool (mm w) !! i = Some a -> is_u64 fa ->
  MmpIsCanonicalAddress fa = true ->
  (forall k r, MmpFindRegion a fa = Some k -> Regions a !! k = Some r ->
     any_flag (RegionFlags r) MM_REGION_FLAG_GUARD = true \/ fault_denied err (RegionProtection r) = true \/
     (any_flag err MM_PF_ERROR_PRESENT = true /\
      (any_flag err MM_PF_ERROR_WRITE = false \/
       forall pte, MmAsQueryPte (Some a) (fa / 4096 * 4096) true w = Ret (KSTATUS_SUCCESS, Some pte) w ->
         any_flag pte MM_PTE_SOFT_COW = false))) ->
  MmHandlePageFault (Some i) fa err w = Ret KSTATUS_ACCESS_DENIED w.
Proof.
  intros S Ha Uf Cf H. destruct (MmpFindRegion a fa) as [k|] eqn:F.
  2: { unfold MmHandlePageFault. rewrite bind_gets, (so_ready _ _ _ S). cbn [negb].
       by rewrite (bind_eq _ _ _ _ _ (get_space_eq _ _ _ Ha)), F. }
  destruct (MmpFindRegion_Some _ _ _ F) as (r & Hr & _).
  destruct (any_flag (RegionFlags r) MM_REGION_FLAG_GUARD) eqn:G;
    [|destruct (fault_denied err (RegionProtection r)) eqn:D].
  1,2: unfold MmHandlePageFault; rewrite bind_gets, (so_ready _ _ _ S); cbn [negb];
       rewrite (bind_eq _ _ _ _ _ (get_space_eq _ _ _ Ha)), F;
       rewrite (bind_eq _ _ _ _ _ (load_at_ok _ _ _ w Hr)), G, ?D; done.
  destruct (H k r eq_refl Hr) as [?|[?|(P & W)]]; [congruence..|].
  destruct (MmHandlePageFault_eq lv w i a k r fa err S Ha Uf Cf ltac:(done)) as (st & o & Q & ->).
  rewrite P. destruct o as [pte|]; [|done]. destruct W as [->|C]; [by rewrite andb_false_r|].
  unfold ok. destruct (Z.eqb_spec st KSTATUS_SUCCESS) as [->|]; [|done]. by rewrite (C pte Q).
Qed.

(** C11: a fault on an absent page of an anonymous region maps a frame that was
    free, filled with zeros, with the region's protection, and counts it: no
    byte of a frame in use and no translation of another page of any address
    space changes.  When it fails, memory is exhausted or the page is part of
    a huge mapping, and no translation has changed. *)
Theorem MmHandlePageFault_anonymous lv w i a k r fa err :
  space_ok lv w a -> gMmAddressSpacePool (mm w) !! i = Some a -> is_u64 fa ->
  MmpIsCanonicalAddress fa = true -> admits a k r fa err -> RegionType r = MM_REGION_TYPE_ANON ->
  any_flag err MM_PF_ERROR_PRESENT = false -> translate w (RootTablePhysical a) (fa / 4096 * 4096) = None ->
  exists st lv' w', MmHandlePageFault (Some i) fa err w = Ret st w' /\ space_ok lv' w' a /\ lv ⊆ lv' /\
    (st = KSTATUS_SUCCESS -> exists f, allocated (frames (mm w)) (f / 4096) = false /\
       fault_mapped lv w w' i a (committed k r a) fa f
         (MmpProtectionToPte (RegionProtection r) (RegionFlags r)) /\
       (forall j, 0 <= j < 4096 -> load8 (ram w') (f + j) = 0)) /\
    (st <> KSTATUS_SUCCESS -> fault_failed lv w w' a st (fa / 4096 * 4096)) /\
    (forall x, allocated (frames (mm w)) (x / 4096) = true -> lv !! (x / 4096 * 4096) = None ->
       load8 (ram w') x = load8 (ram w) x).
Proof.
  intros S Ha Uf Cf Ad Ty P T. pose proof (so_wf _ _ _ S) as W.
  destruct (MmHandlePageFault_eq lv w i a k r fa err S Ha Uf Cf Ad) as (st0 & o & _ & ->).
  rewrite P. unfold fault_absent. rewrite Ty. cbn [Z.eqb Pos.eqb MM_REGION_TYPE_ANON].
  destruct (AllocPage_spec w (so_ready _ _ _ S) (tw_pages _ _ W))
    as [(f & p & E & F0 & Fa & Ft & Ff & Wp & Tp & Ap)|(Fu & st & Ns & E)]; rewrite (bind_eq _ _ _ _ _ E).
  2: { unfold ok. destruct (Z.eqb_spec st KSTATUS_SUCCESS); [done|]. cbn [negb].
       exists KSTATUS_INIT_FAILED, lv, w. split_and!; try done. intros _. constructor; [done|done|by left]. }
  pose proof (pw_tracked _ (tw_pages _ _ W)) as Tk. unfold MM_MAX_TRACKED_PAGES in Tk.
  assert (0 <= f < 2 ^ 52) as Fr by zlia.
  cbn [ok Z.eqb KSTATUS_SUCCESS negb]. rewrite bind_deref.
  rewrite (bind_eq _ _ _ _ _ (zero_page_eq _ f Fr Fa)). cbn [ram upd set_ram].
  assert (Om : mem_ok (store_table 1 (ram w) f (fun _ => 0) 4096)) by apply store_table_ok, W.
  assert (Z0 : forall x, load8 (store_table 1 (ram w) f (fun _ => 0) 4096) x =
    if x / 4096 * 4096 =? f then 0 else load8 (ram w) x).
  { intros x. rewrite load8_store_table1.
    destruct (Z.leb_spec f x), (Z.ltb_spec x (f + Z.of_nat 4096)), (Z.eqb_spec (x / 4096 * 4096) f);
      cbn [andb]; (done || zlia). }
  revert Om Z0. generalize (store_table 1 (ram w) f (fun _ => 0) 4096). intros m1 Om Z0.
  destruct (fill_frame_ok lv w a p f m1 S F0 Fa Ff Wp Tp Ap Om) as (Nf & S1 & T1).
  { intros x Nx. rewrite Z0. by destruct (Z.eqb_spec (x / 4096 * 4096) f). }
  set (w1 := set_ram _ _).
  destruct (MmpProtectionToPte_ok (RegionProtection r) (RegionFlags r)) as [Uv Av].
  destruct (map_and_commit_spec lv w1 i k a r fa f _ S1 Ha (ad_region _ _ _ _ _ Ad) Uf Cf Fr Fa Uv Av)
    as (st & lv' & w' & E' & S' & Sub & OK & KO & M & N).
  { rewrite <- T. apply (T1 _ _ (so_root _ _ _ S)). }
  exists st, lv', w'. split_and!; try done.
  - intros ->. destruct (OK eq_refl) as [H1 H2 H3 H4 H5]. exists f. split; [done|]. split.
    { constructor; try done. intros r2 va2 Hr2 H22 Ne. by rewrite (H3 r2 va2 Hr2 H22 Ne), <- (T1 r2 va2 Hr2). }
    intros j Hj. rewrite M; unfold w1; cbn [ram set_ram upd].
    { rewrite Z0. destruct (Z.eqb_spec ((f + j) / 4096 * 4096) f); [done|zlia]. }
    replace ((f + j) / 4096 * 4096) with f by zlia. destruct (lv' !! f) as [L|] eqn:EL; [|done].
    pose proof (N f L EL Nf) as A. cbn [mm w1 set_ram upd set_mm set_frames frames] in A.
    by rewrite Ap, Z.eqb_refl in A.
  - intros Ns. destruct (KO Ns) as [H1 H2 H3]. constructor; [|done|done].
    intros r2 va2 Hr2. by rewrite (H1 r2 va2 Hr2), <- (T1 r2 va2 Hr2).
  - intros x Ax Nx. rewrite M; unfold w1; cbn [ram set_ram upd].
    { rewrite Z0. destruct (Z.eqb_spec (x / 4096 * 4096) f) as [Ef|]; [|done].
      exfalso. rewrite <- Ef, Z.div_mul in Ff by lia. congruence. }
    destruct (lv' !! _) as [L|] eqn:EL; [|done]. pose proof (N _ L EL Nx) as A.
    cbn [mm w1 set_ram upd set_mm set_frames frames] in A.
    by rewrite Ap, Z.div_mul, Ax, orb_true_r in A by lia.
Qed.

(** A fault on an absent page of a section region that the section backs
    maps the section's own frame, with the region's protection, and counts the
    page; no other translation of any address space changes. *)
Theorem MmHandlePageFault_section lv w i a k r fa err pa :
  space_ok lv w a -> gMmAddressSpacePool (mm w) !! i = Some a -> is_u64 fa ->
  MmpIsCanonicalAddress fa = true -> admits a k r fa err -> RegionType r = MM_REGION_TYPE_SECTION ->
  any_flag err MM_PF_ERROR_PRESENT = false -> translate w (RootTablePhysical a) (fa / 4096 * 4096) = None ->
  section_page (mm w) r (fa / 4096 * 4096) = Some pa -> 0 <= pa < 2 ^ 52 -> pa mod 4096 = 0 ->
  exists st lv' w', MmHandlePageFault (Some i) fa err w = Ret st w' /\ space_ok lv' w' a /\ lv ⊆ lv' /\
    (st = KSTATUS_SUCCESS -> fault_mapped lv w w' i a (committed k r a) fa pa
       (MmpProtectionToPte (RegionProtection r) (RegionFlags r))) /\
    (st <> KSTATUS_SUCCESS -> fault_failed lv w w' a st (fa / 4096 * 4096)).
Proof.
  intros S Ha Uf Cf Ad Ty P T Sp Hp Ap.
  destruct (MmHandlePageFault_eq lv w i a k r fa err S Ha Uf Cf Ad) as (st0 & o & _ & ->).
  rewrite P. unfold fault_absent. rewrite Ty. cbn [Z.eqb Pos.eqb MM_REGION_TYPE_ANON MM_REGION_TYPE_PHYS MM_REGION_TYPE_SECTION].
  rewrite bind_gets. unfold section_page in Sp.
  destruct (MmpFindSectionByHeader _ _) as [j|]; [|done].
  destruct (gMmSectionPool (mm w) !! j) as [x|] eqn:Ex; [|done].
  rewrite (bind_eq _ _ _ _ _ (load_at_ok _ _ _ w Ex)). cbv zeta.
  guard_in Sp; [done|]. rewrite (bind_eq _ _ _ _ _ (load_at_ok _ _ _ w Sp)).
  destruct (retain_ok lv w a pa S ltac:(lia)) as [E S1]. rewrite (bind_eq _ _ _ _ _ E).
  destruct (MmpProtectionToPte_ok (RegionProtection r) (RegionFlags r)) as [Uv Av].
  destruct (map_and_commit_spec lv _ i k a r fa pa _ S1 Ha (ad_region _ _ _ _ _ Ad) Uf Cf Hp Ap Uv Av T)
    as (st & lv' & w' & E' & S' & Sub & OK & KO & _).
  exists st, lv', w'. split_and!; [done|done|done| |].
  - intros Hs. destruct (OK Hs). by constructor.
  - intros Hs. destruct (KO Hs). by constructor.
Qed.

(** The entry after a write to the copy-on-write entry [pte]. *)
Record cow_entry (pte pte' : Z) : Prop := {
  ce_present : is_present pte' = true;
  ce_writable : any_flag pte' MM_PTE_WRITABLE = true;
  ce_cow : any_flag pte' MM_PTE_SOFT_COW = false;
  ce_flags : forall i, 0 <= i < 12 \/ 52 <= i -> i <> 1 -> i <> 9 -> Z.testbit pte' i = Z.testbit pte i }.

Definition cow_flags (pte : Z) : Z := Z.lor (Z.land pte (lnot64 MM_PTE_SOFT_COW)) MM_PTE_WRITABLE.

Lemma cow_flags_bit pte i : is_u64 pte -> 0 <= i ->
  Z.testbit (cow_flags pte) i = (i =? 1) || (Z.testbit pte i && negb (i =? 9)).
Proof.
  intros U Hi. unfold is_u64 in U. unfold cow_flags, lnot64. change 18446744073709551615 with (Z.ones 64).
  change MM_PTE_SOFT_COW with (2 ^ 9). change MM_PTE_WRITABLE with (2 ^ 1).
  rewrite Z.lor_spec, Z.land_spec, Z.lxor_spec, !Z.pow2_bits_eqb, Z.testbit_ones_nonneg by lia.
  rewrite (Z.eqb_sym 9), (Z.eqb_sym 1), orb_comm. f_equal.
  destruct (Z.ltb_spec i 64); [by rewrite xorb_true_l|]. by rewrite (testbit_small pte 64) by lia.
Qed.

Lemma cow_entry_ok pte f flags : is_u64 pte -> is_present pte = true -> 0 <= f < 2 ^ 52 -> f mod 4096 = 0 ->
  (forall i, 0 <= i < 12 \/ 52 <= i -> Z.testbit flags i = Z.testbit (cow_flags pte) i) ->
  cow_entry pte (Z.lor (Z.lor f flags) MM_PTE_PRESENT).
Proof.
  intros U P Hf Ha Hb. rewrite is_present_bit in P.
  assert (B : forall i, 0 <= i < 12 \/ 52 <= i ->
    Z.testbit (Z.lor (Z.lor f flags) MM_PTE_PRESENT) i = (i =? 0) || (i =? 1) || (Z.testbit pte i && negb (i =? 9))).
  { intros i Hi. change MM_PTE_PRESENT with (2 ^ 0). rewrite !Z.lor_spec, Z.pow2_bits_eqb, Hb, cow_flags_bit by (done || lia).
    assert (Z.testbit f i = false) as ->.
    { destruct Hi; [by apply aligned_bit|by apply (testbit_small f 52); lia]. }
    rewrite (Z.eqb_sym 0). destruct (i =? 0), (i =? 1); by rewrite ?orb_true_r, ?orb_false_r. }
  change MM_PTE_SOFT_COW with (2 ^ 9). change MM_PTE_WRITABLE with (2 ^ 1).
  constructor; rewrite ?is_present_bit, ?any_flag_bit, ?B by lia.
  - done.
  - change MM_PTE_WRITABLE with (2 ^ 1). by rewrite any_flag_bit, B by lia.
  - change MM_PTE_SOFT_COW with (2 ^ 9). rewrite any_flag_bit, B by lia. cbn. by rewrite andb_false_r.
  - intros i Hi N1 N9. rewrite B by done. destruct (Z.eqb_spec i 0) as [->|]; [by rewrite P|].
    destruct (Z.eqb_spec i 1), (Z.eqb_spec i 9); try done. by rewrite andb_true_r.
Qed.

Lemma cow_flags_ok pte : is_u64 pte -> is_u64 (cow_flags pte) /\ addr_of (cow_flags pte) = addr_of pte /\
  is_u64 (Z.land (cow_flags pte) (lnot64 MM_PTE_ADDR_MASK)) /\
  addr_of (Z.land (cow_flags pte) (lnot64 MM_PTE_ADDR_MASK)) = 0 /\
  forall i, 0 <= i < 12 \/ 52 <= i ->
    Z.testbit (Z.land (cow_flags pte) (lnot64 MM_PTE_ADDR_MASK)) i = Z.testbit (cow_flags pte) i.
Proof.
  intros U.
  assert (U1 : is_u64 (cow_flags pte)).
  { apply u64_bits. intros i Hi. rewrite cow_flags_bit by (done || lia). unfold is_u64 in U.
    rewrite (testbit_small pte 64) by lia. destruct (Z.eqb_spec i 1); [lia|done]. }
  assert (B : forall i, 0 <= i -> Z.testbit (Z.land (cow_flags pte) (lnot64 MM_PTE_ADDR_MASK)) i =
    Z.testbit (cow_flags pte) i && negb ((12 <=? i) && (i <? 52))).
  { intros i Hi. rewrite Z.land_spec. unfold lnot64. change 18446744073709551615 with (Z.ones 64).
    rewrite Z.lxor_spec, mask_bit, Z.testbit_ones_nonneg by lia.
    destruct (Z.ltb_spec i 64); [by rewrite xorb_true_l|].
    unfold is_u64 in U1. by rewrite (testbit_small (cow_flags pte) 64) by lia. }
  split_and!.
  - done.
  - apply Z.bits_inj'. intros i Hi. rewrite !addr_bit, cow_flags_bit by done.
    destruct (Z.leb_spec 12 i), (Z.eqb_spec i 1), (Z.eqb_spec i 9); cbn [andb orb negb];
      rewrite ?andb_false_r, ?andb_true_r; (lia || done).
  - apply u64_bits. intros i Hi. rewrite B by lia. unfold is_u64 in U1.
    by rewrite (testbit_small (cow_flags pte) 64) by lia.
  - apply Z.bits_inj'. intros i Hi. rewrite addr_bit, B, Z.bits_0 by done.
    by destruct (Z.testbit _ i), (12 <=? i), (i <? 52).
  - intros i Hi. rewrite B by lia.
    destruct (Z.leb_spec 12 i), (Z.ltb_spec i 52); cbn [andb negb]; rewrite ?andb_true_r; (lia || done).
Qed.

(** The frame [x] is shared: counted more than once, not a page table. *)
Record shared_frame (lv : gmap Z nat) (w : mm_machine) (x : Z) : Prop := {
  sf_table : lv !! x = None;
  sf_alloc : allocated (frames (mm w)) (x / 4096) = true;
  sf_count : 2 <= aget (gMmPageRefCount (frames (mm w))) (x / 4096) }.

(** A private page: the copy of a shared frame, or the frame itself. *)
Record private_page (lv : gmap Z nat) (w w' : mm_machine) (a : MM_ADDRESS_SPACE) (fa pte f : Z) : Prop := {
  pp_page : forall va2, 0 <= va2 -> vpage va2 = vpage fa ->
    translate w' (RootTablePhysical a) va2 = Some (f + va2 mod 4096);
  pp_bytes : forall j, 0 <= j < 4096 -> load8 (ram w') (f + j) = load8 (ram w) (addr_of pte + j);
  pp_entry : exists pte', MmAsQueryPte (Some a) (fa / 4096 * 4096) true w'
    = Ret (KSTATUS_SUCCESS, Some pte') w' /\ cow_entry pte pte' }.

(** Taking a frame counts that frame alone. *)
Lemma AllocPage_count w f p : pages_wf (frames (mm w)) ->
  AllocPage w = Ret (KSTATUS_SUCCESS, Some f) (upd p (ram w) w) ->
  forall j, j <> f / 4096 -> aget (gMmPageRefCount p) j = aget (gMmPageRefCount (frames (mm w))) j.
Proof.
  intros Wp E j Nj. revert E. unfold AllocPage, gets, bind. unfold on_frames, zoom, MmAllocPage.
  destruct (negb (gMmReady (mm w)) || negb true); [done|].
  destruct (alloc_internal_spec (frames (mm w)) 1 Wp) as [(k & Hk & F & _ & ->)|(A & st & Hst & ->)]; [|done].
  intros E. injection E as Ef <-. unfold take_page. cbn [gMmPageRefCount set_scan set_refcount].
  rewrite aget_aset_ne; [done|]. subst f. unfold MM_PAGE_SIZE in Nj. rewrite Z.div_mul in Nj by lia. done.
Qed.

(** Releasing one of several references frees nothing. *)
Lemma release_shared x p : pages_wf p -> 0 <= x -> 2 <= aget (gMmPageRefCount p) (x / 4096) ->
  pages_wf (MmpReleasePage x p) /\ gMmTrackedPages (MmpReleasePage x p) = gMmTrackedPages p /\
  forall j, allocated (MmpReleasePage x p) j = allocated p j.
Proof.
  intros W Hx C. destruct (release_spec x p W Hx) as (Wq & Rq & _ & Oq). split; [done|].
  split. { unfold MmpReleasePage. destruct (_ || _); [done|]. by destruct (_ - 1 =? 0). }
  intros j. destruct (decide (j = x / 4096)) as [->|Nj]; [|by apply Oq].
  destruct (Z.lt_ge_cases (x / 4096) MM_MAX_TRACKED_PAGES).
  - destruct Rq as [_ ->]; [done|lia|].
    destruct (Z.eqb_spec (aget (gMmPageRefCount p) (x / 4096)) 1); [lia|by rewrite andb_true_r].
  - unfold MmpReleasePage. change MM_PAGE_SIZE with 4096.
    by destruct (Z.geb_spec (x / 4096) MM_MAX_TRACKED_PAGES); [|lia].
Qed.

(** Copying a shared page. *)
Lemma cow_copy_spec lv w a c fa pte : let x := addr_of pte in
  space_ok lv w a -> is_u64 fa -> MmpIsCanonicalAddress fa = true -> is_u64 pte -> is_present pte = true ->
  leads 3 (ram w) 0 (RootTablePhysical a) (fa / 4096 * 4096) c ->
  translate w (RootTablePhysical a) (fa / 4096 * 4096) = Some x -> shared_frame lv w x ->
  exists st lv' w', fault_cow a (fa / 4096 * 4096) pte w = Ret st w' /\ space_ok lv' w' a /\
    (forall r va2, lv !! r = Some 0%nat -> 0 <= va2 -> vpage va2 <> vpage fa ->
       translate w' r va2 = translate w r va2) /\
    ((st = KSTATUS_SUCCESS /\ exists f, allocated (frames (mm w)) (f / 4096) = false /\
        private_page lv w w' a fa pte f) \/
     (st = KSTATUS_INIT_FAILED /\ full w /\ w' = w)).
Proof.
  intros x S Uf Cf Up P D T [Nx Ax Cx]. pose proof (so_wf _ _ _ S) as W.
  destruct (page_of_fault fa Uf Cf) as [V EV].
  destruct (addr_of_aligned pte) as [Xa Xr]; [unfold is_u64 in Up; lia|]. fold x in Xa, Xr.
  unfold fault_cow. fold (addr_of pte). fold x. rewrite bind_gets. change MM_PAGE_SIZE with 4096.
  destruct (Z.eqb_spec (aget (gMmPageRefCount (frames (mm w))) (x / 4096)) 1); [lia|].
  rewrite andb_false_r.
  destruct (AllocPage_spec w (so_ready _ _ _ S) (tw_pages _ _ W))
    as [(f & p & E & F0 & Fa & Ft & Ff & Wp & Tp & Ap)|(Fu & st & Ns & E)]; rewrite (bind_eq _ _ _ _ _ E).
  2: { unfold ok. destruct (Z.eqb_spec st KSTATUS_SUCCESS); [done|]. cbn [negb].
       exists KSTATUS_INIT_FAILED, lv, w. split_and!; try done. by right. }
  pose proof (pw_tracked _ (tw_pages _ _ W)) as Tk. unfold MM_MAX_TRACKED_PAGES in Tk.
  assert (0 <= f < 2 ^ 52) as Fr by zlia. assert (f <> x) as Nfx by (intros ->; congruence).
  cbn [ok Z.eqb KSTATUS_SUCCESS negb]. rewrite bind_deref.
  rewrite (bind_eq _ _ _ _ _ (copy_page_eq _ x f ltac:(lia) Xa Fr Fa)). cbn [ram upd set_ram].
  assert (Om : mem_ok (copy_up (ram w) f x 4096 0)) by apply copy_up_ok, W.
  assert (Z0 : forall y, load8 (copy_up (ram w) f x 4096 0) y =
    if y / 4096 * 4096 =? f then load8 (ram w) (x + (y - f)) else load8 (ram w) y).
  { intros y. rewrite copy_up_spec by (lia || apply W || (change (Z.of_nat 4096) with 4096; zlia)).
    change (Z.of_nat 4096) with 4096.
    destruct (Z.leb_spec (f + 0) y), (Z.ltb_spec y (f + 0 + 4096)), (Z.eqb_spec (y / 4096 * 4096) f);
      cbn [andb]; (done || zlia). }
  revert Om Z0. generalize (copy_up (ram w) f x 4096 0). intros m1 Om Z0.
  destruct (fill_frame_ok lv w a p f m1 S F0 Fa Ff Wp Tp Ap Om) as (Nf & S1 & T1).
  { intros y Ny. rewrite Z0. by destruct (Z.eqb_spec (y / 4096 * 4096) f). }
  set (w1 := upd p m1 w) in *. change (set_ram m1 (upd p (ram w) w)) with w1.
  rewrite (bind_eq _ _ _ _ _ (ReleasePage_eq x w1)).
  destruct (release_shared x p Wp ltac:(lia)) as (Wq & Tq & Aq).
  { rewrite (AllocPage_count w f p (tw_pages _ _ W) E); [done|zlia]. }
  change (frames (mm w1)) with p. set (q := MmpReleasePage x p) in *.
  set (w2 := upd q (ram w1) w1).
  destruct (space_ok_outside lv w1 w2 a a S1) as [S2 T2]; try done.
  { intros t L Ht. unfold w2. cbn [mm upd set_ram set_mm set_frames frames]. rewrite Aq.
    by apply (tw_frame _ _ (so_wf _ _ _ S1) t L). }
  assert (TT : forall r va, lv !! r = Some 0%nat -> translate w2 r va = translate w r va)
    by (intros r va Hr; by rewrite T2, T1).
  destruct (cow_flags_ok pte Up) as (_ & _ & Uv & Av & Bv).
  destruct (map_page_spec lv w2 a _ f _ S2 V Fr Fa Uv Av)
    as (st & lv' & w' & E' & S' & Sub & O' & OK & _ & M & N & _).
  { intros y. rewrite TT, T by apply S. intros [= <-]. split; [done|]. intros _.
    change (frames (mm w2)) with q. by rewrite Aq, Ap, Ax, orb_true_r. }
  assert (st = KSTATUS_SUCCESS) as ->.
  { apply (map_page_over lv w2 a _ _ _ c _ _ S2 V) in E'; [done| |done]. change (ram w2) with m1.
    eapply (leads_outside lv w); [exact (so_wf _ _ _ S)| |apply S|lia|exact D].
    intros y Ny. rewrite Z0. destruct (Z.eqb_spec (y / 4096 * 4096) f) as [Ey|]; [|done]. by rewrite Ey in Ny. }
  exists KSTATUS_SUCCESS, lv', w'. split_and!.
  - exact E'.
  - done.
  - intros r va2 Hr H2 Ne. rewrite (O' r va2 Hr H2); [by apply TT|by rewrite EV].
  - left. split; [done|]. destruct (OK eq_refl) as (T' & Q' & _). exists f. split; [done|]. constructor.
    + intros va2 H2 E2. apply (T' va2 H2). by rewrite EV.
    + intros j Hj. rewrite M; change (ram w2) with m1.
      { rewrite Z0. destruct (Z.eqb_spec ((f + j) / 4096 * 4096) f); [|zlia]. f_equal. fold x. lia. }
      replace ((f + j) / 4096 * 4096) with f by zlia. destruct (lv' !! f) as [L|] eqn:EL; [|done].
      pose proof (N f L EL Nf) as A. change (frames (mm w2)) with q in A.
      by rewrite Aq, Ap, Z.eqb_refl in A.
    + eexists. split; [exact Q'|]. by apply cow_entry_ok.
Qed.

(** A page nobody else maps is made writable where it is. *)
Lemma cow_alone_spec lv w a c fa pte : space_ok lv w a -> is_u64 fa -> page_va (fa / 4096 * 4096) ->
  vpage (fa / 4096 * 4096) = vpage fa -> lv !! c = Some 3%nat ->
  leads 3 (ram w) 0 (RootTablePhysical a) (fa / 4096 * 4096) c ->
  pte = entry (ram w) c (walk_index (fa / 4096 * 4096) 3) -> is_present pte = true ->
  translate w (RootTablePhysical a) (fa / 4096 * 4096) = Some (addr_of pte) -> lv !! addr_of pte = None ->
  exists w', MmAsProtectPage (Some a) (fa / 4096 * 4096) (cow_flags pte) w = Ret KSTATUS_SUCCESS w' /\ space_ok lv w' a /\
    (forall r va2, lv !! r = Some 0%nat -> 0 <= va2 -> vpage va2 <> vpage fa -> translate w' r va2 = translate w r va2) /\
    private_page lv w w' a fa pte (addr_of pte).
Proof.
  intros S Uf V EV Hc D Ep Pp T Nt.
  assert (Up : is_u64 pte) by (rewrite Ep; apply entry_u64, (so_wf _ _ _ S)).
  destruct (addr_of_aligned pte) as [Xa Xr]; [unfold is_u64 in Up; lia|].
  destruct (cow_flags_ok pte Up) as (Uc & Ac & _).
  destruct (protect_page_spec lv w a _ (cow_flags pte) S V Uc)
    as (st & w' & E & S' & O & I & OK & M & _).
  { intros y. rewrite T, Ac. intros [= <-]. apply Z.lor_diag. }
  destruct OK as [(-> & _ & y & Ty & Qy)|[_ [_ [Nx|ND]]]]; [|congruence|by destruct (ND c)].
  rewrite T in Ty. injection Ty as <-. exists w'. split_and!; [done|done| |].
  - intros r2 va2 Hr H2 Ne. apply O; [done|done|by rewrite EV].
  - constructor.
    + intros va2 H2 E2. rewrite I by (done || by rewrite EV).
      rewrite (translate_leads w _ c); [|eapply leads_same_index; [lia| |exact D]].
      * assert (EI : walk_index (fa / 4096 * 4096) 3 = walk_index va2 3).
        { apply walk_index_vpage; [apply V|done|by rewrite EV|lia]. }
        by rewrite <- EI, <- Ep, Pp.
      * apply walk_index_vpage; [apply V|done|by rewrite EV].
    + intros j Hj. apply M. by replace ((addr_of pte + j) / 4096 * 4096) with (addr_of pte) by zlia.
    + eexists. split; [exact Qy|]. by apply cow_entry_ok; [done|done|lia|done|].
Qed.

(** C12: a write to a present copy-on-write page of a writable region leaves the
    process with a private, writable page of the same contents.  When nothing else
    counts the frame the handler succeeds and the page keeps it; when it is shared
    the handler succeeds with a fresh frame, and fails, with nothing changed, only
    when every frame is taken.  The entry keeps its other flags, and no other page
    of any address space is translated differently. *)
Theorem MmHandlePageFault_cow lv w i a k r fa err pte :
  space_ok lv w a -> gMmAddressSpacePool (mm w) !! i = Some a -> is_u64 fa ->
  MmpIsCanonicalAddress fa = true -> admits a k r fa err ->
  any_flag err MM_PF_ERROR_PRESENT = true -> any_flag err MM_PF_ERROR_WRITE = true ->
  MmAsQueryPte (Some a) (fa / 4096 * 4096) true w = Ret (KSTATUS_SUCCESS, Some pte) w ->
  is_present pte = true -> any_flag pte MM_PTE_SOFT_COW = true ->
  addr_of pte / 4096 < MM_MAX_TRACKED_PAGES -> lv !! addr_of pte = None ->
  aget (gMmPageRefCount (frames (mm w))) (addr_of pte / 4096) = 1 \/ shared_frame lv w (addr_of pte) ->
  exists st lv' w', MmHandlePageFault (Some i) fa err w = Ret st w' /\ space_ok lv' w' a /\
    (forall r va2, lv !! r = Some 0%nat -> 0 <= va2 -> vpage va2 <> vpage fa ->
       translate w' r va2 = translate w r va2) /\
    (aget (gMmPageRefCount (frames (mm w))) (addr_of pte / 4096) = 1 ->
       st = KSTATUS_SUCCESS /\ private_page lv w w' a fa pte (addr_of pte)) /\
    (shared_frame lv w (addr_of pte) ->
       (st = KSTATUS_SUCCESS /\ exists f, allocated (frames (mm w)) (f / 4096) = false /\ private_page lv w w' a fa pte f) \/
       (st = KSTATUS_INIT_FAILED /\ full w /\ w' = w)).
Proof.
  intros S Ha Uf Cf Ad P Wr Q Pp Pc Ti Nt Co. destruct (page_of_fault fa Uf Cf) as [V EV].
  destruct (MmHandlePageFault_eq lv w i a k r fa err S Ha Uf Cf Ad) as (st0 & o & Q0 & ->).
  rewrite Q in Q0. injection Q0 as <- <-. rewrite P, Wr, Pc. cbn [ok Z.eqb KSTATUS_SUCCESS andb].
  destruct (query_inv lv w a _ pte S V Q) as (c & Hc & D & Ep).
  assert (Up : is_u64 pte) by (rewrite Ep; apply entry_u64, (so_wf _ _ _ S)).
  destruct (addr_of_aligned pte) as [Xa Xr]; [unfold is_u64 in Up; lia|].
  assert (T : translate w (RootTablePhysical a) (fa / 4096 * 4096) = Some (addr_of pte)).
  { rewrite (translate_leads w _ c _ D), <- Ep, Pp. f_equal. zlia. }
  destruct Co as [C1|Sh].
  2: { destruct (cow_copy_spec lv w a c fa pte S Uf Cf Up Pp D T Sh) as (st & lv' & w' & E & S' & O & OK).
       exists st, lv', w'. split_and!; try done. intros C1. destruct Sh. lia. }
  unfold fault_cow. fold (addr_of pte). rewrite bind_gets. change MM_PAGE_SIZE with 4096.
  rewrite C1. destruct (Z.ltb_spec (addr_of pte / 4096) MM_MAX_TRACKED_PAGES); [|lia]. cbn [andb Z.eqb Pos.eqb].
  fold (cow_flags pte). destruct (cow_alone_spec lv w a c fa pte) as (w' & E & S' & O & Pr); try done.
  exists KSTATUS_SUCCESS, lv, w'. split_and!; try done. intros Sh. destruct Sh. lia.
Qed.

(** ** Witnesses: the machine of the page-table witnesses with the page
    0x40000000 copy-on-write, an anonymous region after it and a section region
    after that; frame 6 is counted [n] times. *)

Definition cow_region : MM_VA_REGION :=
  {| RegionBase := 0x40000000; RegionSize := 4096; RegionType := MM_REGION_TYPE_ANON; RegionProtection := 0xB;
     RegionFlags := 0x5; CommittedPages := 1; BackingPhysicalBase := 0; BackingObject := None; BackingOffset := 0 |}.
Definition anon_region : MM_VA_REGION :=
  {| RegionBase := 0x40001000; RegionSize := 4096; RegionType := MM_REGION_TYPE_ANON; RegionProtection := 0xB;
     RegionFlags := 0x1; CommittedPages := 0; BackingPhysicalBase := 0; BackingObject := None; BackingOffset := 0 |}.
Definition section_region : MM_VA_REGION :=
  {| RegionBase := 0x40002000; RegionSize := 4096; RegionType := MM_REGION_TYPE_SECTION; RegionProtection := 0x9;
     RegionFlags := 0x1; CommittedPages := 0; BackingPhysicalBase := 0; BackingObject := Some 3%nat;
     BackingOffset := 0 |}.
Definition space5 : MM_ADDRESS_SPACE :=
  {| AddressSpaceId := 1; OwnerProcessId := 1; RootTablePhysical := 8192; NextUserBase := 0x40003000;
     RegionCount := 3; Regions := [cow_region; anon_region; section_region] |}.
Definition pages5 (n : Z) : mm_pages :=
  {| gMmPageBitmap := aset ∅ 0 0x7F; gMmPageRefCount := aset ∅ 6 n; gMmTrackedPages := 16; gMmNextScanPage := 7 |}.
Definition machine5 (n : Z) : mm_machine :=
  {| mm := {| frames := pages5 n; gMmReady := true; gMmAddressSpacePool := [space5];
       gMmAddressSpaceInUse := [true]; gMmNextAddressSpaceId := 2; gMmKernelRootTablePhysical := 8192;
       gMmSectionType := None; gMmSectionPool := [{| SectionHeader := Some 3%nat; SectionPageCount := 1;
         SectionPages := [0x6000] |}]; gMmSectionInUse := [true];
       gMmFaultTrace := []; gMmFaultTraceNext := 0; gMmPhysmapBase := MM_PHYSMAP_BASE;
       gMmPhysmapBytes := 0; gMmPhysmapReady := true |};
     ram := store64 ram4 (20480 + 8 * 0) 0x6205; cr3 := 8192; invlpgs := [] |}.

Lemma pages5_wf n : 0 <= n < 2 ^ 32 -> pages_wf (pages5 n).
Proof.
  intros Hn. constructor; cbn; [unfold MM_MAX_TRACKED_PAGES; lia|lia|].
  intros i. rewrite aget_aset, aget_empty. destruct (6 =? i); lia.
Qed.

Lemma space5_ok n : 0 <= n < 2 ^ 32 -> space_ok lv4 (machine5 n) space5.
Proof.
  intros Hn.
  assert (A : forall t L, lv4 !! t = Some L -> allocated (pages5 n) (t / 4096) = true).
  { intros t L H. apply lv4_cases in H. destruct H as [[-> ->]|[[-> ->]|[[-> ->]|[-> ->]]]]; reflexivity. }
  pose proof (wf_leaf lv4 machine4 (pages5 n) 20480 0 0x6205 (so_wf _ _ _ space4_ok) eq_refl ltac:(lia)
    ltac:(unfold is_u64; lia) (pages5_wf n Hn) eq_refl A) as W.
  apply (space_ok_outside lv4 (upd (pages5 n) (store64 (ram machine4) (20480 + 8 * 0) 0x6205) machine4) _ space4);
    first [done | by constructor | by apply pages5_wf | exact A | apply W | idtac].
Qed.

Lemma MmpProtectionToPte_bits_example : MmpProtectionToPte 0xB 0x5 = Z.lor (Z.lor 0x4 0x200) (2 ^ 63).
Proof. reflexivity. Qed.

Lemma MmHandlePageFault_denied_witness :
  MmHandlePageFault (Some 0%nat) 0x40002010 0x6 (machine5 1) = Ret KSTATUS_ACCESS_DENIED (machine5 1).
Proof.
  apply (MmHandlePageFault_denied lv4 (machine5 1) 0%nat space5 0x40002010 0x6 (space5_ok 1 ltac:(lia)));
    [reflexivity|unfold is_u64; lia|reflexivity|].
  intros k r F H. change (MmpFindRegion space5 0x40002010) with (Some 2%nat) in F. injection F as <-.
  injection H as <-. right. left. reflexivity.
Defined.

Definition status_of {A} (o : outcome A KSTATUS) : KSTATUS := match o with Ret st _ => st | _ => 1 end.

Lemma MmHandlePageFault_anonymous_witness :
  exists f w', MmHandlePageFault (Some 0%nat) 0x40001234 0x6 (machine5 1) = Ret KSTATUS_SUCCESS w' /\
    translate w' 8192 0x40001234 = Some (f + 0x234) /\ load8 (ram w') (f + 5) = 0.
Proof.
  destruct (MmHandlePageFault_anonymous lv4 (machine5 1) 0%nat space5 1%nat anon_region 0x40001234 0x6
    (space5_ok 1 ltac:(lia))) as (st & lv' & w' & E & _ & _ & OK & _);
    [reflexivity|unfold is_u64; lia|reflexivity|constructor; reflexivity|reflexivity..|].
  assert (K : status_of (MmHandlePageFault (Some 0%nat) 0x40001234 0x6 (machine5 1)) = KSTATUS_SUCCESS)
    by (vm_compute; reflexivity).
  rewrite E in K. cbn [status_of] in K. destruct (OK K) as (f & _ & [P _ _ _ _] & Z).
  exists f, w'. split; [rewrite E, K; reflexivity|]. split; [|apply Z; lia].
  apply (P 0x40001234); [lia|reflexivity].
Defined.

Lemma MmHandlePageFault_section_witness :
  exists w', MmHandlePageFault (Some 0%nat) 0x40002010 0x4 (machine5 1) = Ret KSTATUS_SUCCESS w' /\
    translate w' 8192 0x40002010 = Some 0x6010.
Proof.
  destruct (MmHandlePageFault_section lv4 (machine5 1) 0%nat space5 2%nat section_region 0x40002010 0x4 0x6000
    (space5_ok 1 ltac:(lia))) as (st & lv' & w' & E & _ & _ & OK & _);
    [reflexivity|unfold is_u64; lia|reflexivity|constructor; reflexivity|reflexivity..|lia|reflexivity|].
  assert (K : status_of (MmHandlePageFault (Some 0%nat) 0x40002010 0x4 (machine5 1)) = KSTATUS_SUCCESS)
    by (vm_compute; reflexivity).
  rewrite E in K. cbn [status_of] in K. destruct (OK K) as [P _ _ _ _].
  exists w'. split; [rewrite E, K; reflexivity|]. apply (P 0x40002010); [lia|reflexivity].
Defined.

(** Alone the page keeps its frame; shared it is copied to another one. *)
Lemma MmHandlePageFault_cow_witness :
  (exists w', MmHandlePageFault (Some 0%nat) 0x40000010 0x7 (machine5 1) = Ret KSTATUS_SUCCESS w' /\
    translate w' 8192 0x40000010 = Some 0x6010) /\
  exists f w', MmHandlePageFault (Some 0%nat) 0x40000010 0x7 (machine5 2) = Ret KSTATUS_SUCCESS w' /\
    allocated (pages5 2) (f / 4096) = false /\ translate w' 8192 0x40000010 = Some (f + 0x10) /\
    load8 (ram w') (f + 0x10) = load8 (ram (machine5 2)) 0x6010.
Proof.
  split.
  - destruct (MmHandlePageFault_cow lv4 (machine5 1) 0%nat space5 0%nat cow_region 0x40000010 0x7 0x6205
      (space5_ok 1 ltac:(lia))) as (st & lv' & w' & E & _ & _ & Alone & _);
      [reflexivity|unfold is_u64; lia|reflexivity|constructor; reflexivity|reflexivity|reflexivity|vm_compute; reflexivity
      |reflexivity|reflexivity|reflexivity|reflexivity|by left|].
    destruct (Alone eq_refl) as [-> [P _ _]]. exists w'. split; [exact E|]. apply (P 0x40000010); [lia|reflexivity].
  - assert (Sh : shared_frame lv4 (machine5 2) 0x6000) by (constructor; [reflexivity|reflexivity|vm_compute; discriminate]).
    destruct (MmHandlePageFault_cow lv4 (machine5 2) 0%nat space5 0%nat cow_region 0x40000010 0x7 0x6205
      (space5_ok 2 ltac:(lia))) as (st & lv' & w' & E & _ & _ & _ & Shared);
      [reflexivity|unfold is_u64; lia|reflexivity|constructor; reflexivity|reflexivity|reflexivity|vm_compute; reflexivity
      |reflexivity|reflexivity|reflexivity|reflexivity|by right|].
    destruct (Shared Sh) as [[-> (f & Af & [P B _])]|(_ & Fu & _)].
    + exists f, w'. split; [exact E|]. split; [exact Af|]. split; [|apply (B 0x10); lia].
      apply (P 0x40000010); [lia|reflexivity].
    + exfalso. assert (X : allocated (pages5 2) 7 = true) by (apply Fu; cbn; lia). by vm_compute in X.
Defined.

(** The copy gives up two references on the shared frame: with two holders the
    frame is free although the other one still maps it. *)
Lemma cow_copy_releases_twice :
  match MmHandlePageFault (Some 0%nat) 0x40000010 0x7 (machine5 2) with
  | Ret _ w' => aget (gMmPageRefCount (frames (mm w'))) 6 = 0 /\ allocated (frames (mm w')) 6 = false
  | _ => False
  end.
Proof. vm_compute. split; reflexivity. Qed.
