(* ===== verification/MmRegions.v ===== *)
(** * Memory manager, address spaces and regions: theorems on kernel/mm/init.c

    A new address space shares the kernel's translation through its own root
    table; its regions stay ordered, disjoint and below [NextUserBase], and the
    lookup the fault handler does finds exactly the region of an address. *)

From stdpp Require Import fin_maps.
From S2P Require Import Prelude CString BootProto Ob PhysMem Rtl MmPages MmTables MmTablesInv MmSpace MmFault.

(** ** Regions *)

Record regions_ok (a : MM_ADDRESS_SPACE) : Prop := {
  ro_length : Z.of_nat (length (Regions a)) = MM_MAX_VA_REGIONS;
  ro_count : 0 <= RegionCount a <= MM_MAX_VA_REGIONS;
  ro_next : MM_USER_BASE <= NextUserBase a < 2 ^ 63 /\ NextUserBase a mod 4096 = 0;
  ro_below : forall k r, Z.of_nat k < RegionCount a -> Regions a !! k = Some r ->
    MM_USER_BASE <= RegionBase r /\ 0 < RegionSize r /\ RegionBase r + RegionSize r <= NextUserBase a;
  ro_sorted : forall j k rj rk, (j < k)%nat -> Z.of_nat k < RegionCount a ->
    Regions a !! j = Some rj -> Regions a !! k = Some rk -> RegionBase rj + RegionSize rj <= RegionBase rk }.

(** The address lies in region [r]. *)
Definition in_region (r : MM_VA_REGION) (va : Z) : Prop := RegionBase r <= va < RegionBase r + RegionSize r.

Lemma MmpFindRegion_iff a va k : regions_ok a ->
  MmpFindRegion a va = Some k <->
  exists r, Z.of_nat k < RegionCount a /\ Regions a !! k = Some r /\ in_region r va.
Proof.
  intros I. pose proof (ro_next a I). unfold MM_USER_BASE in *.
  assert (T : forall j r, Z.of_nat j < RegionCount a -> Regions a !! j = Some r ->
    ((RegionBase r <=? va) && (va <? u64 (RegionBase r + RegionSize r)) = true <-> in_region r va)).
  { intros j r Hj Hr. destruct (ro_below a I j r Hj Hr) as (B1 & B2 & B3). unfold MM_USER_BASE in B1.
    rewrite u64_small by lia. unfold in_region. split; intros; bool_prop; lia. }
  split.
  - intros F. apply find_first_Some in F as [(r & Hr & B) _].
    apply lookup_take_Some in Hr as [Hr Hk]. exists r.
    assert (Z.of_nat k < RegionCount a) by lia. split_and!; [done|done|]. by apply (T k).
  - intros (r & Hk & Hr & B).
    assert (Hr' : take (Z.to_nat (RegionCount a)) (Regions a) !! k = Some r)
      by (apply lookup_take_Some; split; [done|lia]).
    destruct (find_first_complete (fun x => (RegionBase x <=? va) && (va <? u64 (RegionBase x + RegionSize x)))
      _ k r Hr' (proj2 (T k r Hk Hr) B)) as (j & F & Hj).
    unfold MmpFindRegion. rewrite F. f_equal. destruct (decide (j = k)) as [|Njk]; [done|exfalso].
    apply find_first_Some in F as [(rj & Hrj & Bj) _]. apply lookup_take_Some in Hrj as [Hrj Hj2].
    apply (T j) in Bj; [|lia|done]. pose proof (ro_sorted a I j k rj r ltac:(lia) Hk Hrj Hr).
    unfold in_region in *. lia.
Qed.

(** Appending a region at [NextUserBase]. *)
Definition append_region (r : MM_VA_REGION) (a : MM_ADDRESS_SPACE) : MM_ADDRESS_SPACE :=
  set_bounds (u32 (RegionCount a + 1)) (u64 (RegionBase r + RegionSize r))
    (set_region r (Z.to_nat (RegionCount a)) a).

Lemma append_region_ok r a : regions_ok a -> RegionCount a < MM_MAX_VA_REGIONS ->
  RegionBase r = NextUserBase a -> 0 < RegionSize r -> RegionSize r mod 4096 = 0 ->
  NextUserBase a + RegionSize r < 2 ^ 63 -> regions_ok (append_region r a).
Proof.
  intros I Hc Eb Hs Hm Hn. destruct (ro_next a I) as [N1 N2]. pose proof (ro_count a I) as C.
  pose proof (ro_length a I) as L. unfold MM_MAX_VA_REGIONS, MM_USER_BASE in *.
  assert (E1 : u32 (RegionCount a + 1) = RegionCount a + 1) by (apply u32_small; lia).
  assert (E2 : u64 (RegionBase r + RegionSize r) = NextUserBase a + RegionSize r)
    by (rewrite Eb; apply u64_small; lia).
  assert (LK : forall k x, Z.of_nat k < RegionCount a + 1 -> <[Z.to_nat (RegionCount a) := r]> (Regions a) !! k = Some x ->
    (k = Z.to_nat (RegionCount a) /\ x = r) \/ (Z.of_nat k < RegionCount a /\ Regions a !! k = Some x)).
  { intros k x Hk Hx. apply list_lookup_insert_Some in Hx as [(<- & <- & _)|[Ne Hx]]; [by left|right].
    split; [lia|done]. }
  unfold append_region. constructor; cbn [Regions RegionCount NextUserBase set_bounds set_region]; rewrite ?E1, ?E2.
  - by rewrite length_insert.
  - unfold MM_MAX_VA_REGIONS. lia.
  - unfold MM_USER_BASE. split; [lia|zlia].
  - intros k x Hk Hx. destruct (LK k x Hk Hx) as [[-> ->]|[Hk' Hx']].
    + unfold MM_USER_BASE. lia.
    + destruct (ro_below a I k x Hk' Hx') as (? & ? & ?). lia.
  - intros j k rj rk Hjk Hk Hj Hk2. destruct (LK j rj ltac:(lia) Hj) as [[-> ->]|[Hj' Hj2]]; [lia|].
    destruct (LK k rk Hk Hk2) as [[-> ->]|[Hk' Hk3]].
    + destruct (ro_below a I j rj Hj' Hj2) as (_ & _ & ?). lia.
    + by apply (ro_sorted a I j k).
Qed.

Lemma put_space_eq w i a a' : gMmAddressSpacePool (mm w) !! i = Some a ->
  put_space i a' w = Ret tt (set_mm (set_spaces (<[i := a']> (gMmAddressSpacePool (mm w)))
    (gMmAddressSpaceInUse (mm w)) (gMmNextAddressSpaceId (mm w)) (mm w)) w).
Proof.
  intros Ha. unfold put_space.
  by rewrite (bind_eq _ _ _ _ _ (store_at_ok _ _ _ w (lookup_lt_Some _ _ _ Ha))).
Qed.

(** Page rounding of a size that does not wrap. *)
Lemma align_size_ok n : 0 <= n -> n + 4095 < 2 ^ 64 ->
  0 < MmpAlignSizeToPage n /\ MmpAlignSizeToPage n mod 4096 = 0 /\ n <= MmpAlignSizeToPage n < n + 4097.
Proof.
  intros H0 H. unfold MmpAlignSizeToPage, MM_PAGE_SIZE. destruct (Z.eqb_spec n 0) as [->|].
  - by split_and!.
  - rewrite align_up_page by done. zlia.
Qed.

(** Well-formedness is about the frames and the memory. *)
Lemma tables_wf_mm lv w w' : frames (mm w') = frames (mm w) -> ram w' = ram w -> tables_wf lv w -> tables_wf lv w'.
Proof. intros E1 E2 []. constructor; by rewrite ?E1, ?E2. Qed.

(** ** A copied root table *)

Section Root.
Context (lv : gmap Z nat) (w : mm_machine) (p' : mm_pages) (k f : Z).
Context (W : tables_wf lv w) (Hk : lv !! k = Some 0%nat).
Context (F0 : 0 <= f) (Fa : f mod 4096 = 0) (Ft : f / 4096 < gMmTrackedPages (frames (mm w))).
Context (Ff : allocated (frames (mm w)) (f / 4096) = false).
Context (Wp : pages_wf p') (Tp : gMmTrackedPages p' = gMmTrackedPages (frames (mm w))).
Context (Ap : forall j, allocated p' j = (f / 4096 =? j) || allocated (frames (mm w)) j).

Let m' := store_table 8 (ram w) f (entry (ram w) k) 512.

Lemma root_fresh t L : lv !! t = Some L -> f <> t.
Proof. intros Ht ->. destruct (tw_frame _ _ W t L Ht) as (_ & _ & _ & _ & A). congruence. Qed.

Lemma root_entry_new i : 0 <= i < 512 -> entry m' f i = entry (ram w) k i.
Proof.
  intros Hi. unfold m'. rewrite entry_fill, bool_decide_eq_true_2 by done.
  apply u64_small. apply (entry_u64 (ram w)), (tw_mem _ _ W).
Qed.

Lemma root_entry_old t L i : lv !! t = Some L -> 0 <= i < 512 -> entry m' t i = entry (ram w) t i.
Proof.
  intros Ht Hi. destruct (tw_bounds _ _ _ _ W Ht) as (_ & _ & At & _). unfold m'.
  rewrite entry_fill by done. rewrite bool_decide_eq_false_2; [done|by eapply root_fresh].
Qed.

(** An entry of the new tables is an entry of the old ones, the new root's being
    the copied root's. *)
Definition origin (t : Z) : Z := if t =? f then k else t.

Lemma root_origin t L i : <[f := 0%nat]> lv !! t = Some L -> 0 <= i < 512 ->
  lv !! origin t = Some L /\ entry m' t i = entry (ram w) (origin t) i.
Proof.
  intros Ht Hi. unfold origin. destruct (Z.eqb_spec t f) as [->|N].
  - rewrite lookup_insert_eq in Ht. injection Ht as <-. split; [done|by apply root_entry_new].
  - rewrite lookup_insert_ne in Ht by done. split; [done|by eapply root_entry_old].
Qed.

Lemma copy_root_wf : tables_wf (<[f := 0%nat]> lv) (upd p' m' w).
Proof.
  constructor; cbn [mm ram frames upd set_ram set_mm set_frames].
  - intros t L Ht. rewrite Tp, Ap. apply lookup_insert_Some in Ht as [[<- <-]|[_ Ht]].
    + rewrite Z.eqb_refl. split_and!; (done || lia).
    + destruct (tw_frame _ _ W t L Ht) as (? & ? & ? & ? & ->). by rewrite orb_true_r.
  - intros t L i Ht HL Hi. destruct (root_origin t L i Ht Hi) as [Ho ->]. intros P G.
    pose proof (tw_child _ _ W _ L i Ho HL Hi P G) as C.
    rewrite lookup_insert_ne; [done|]. by eapply root_fresh.
  - intros t i Ht Hi. destruct (root_origin t 2 i Ht Hi) as [Ho ->]. by apply (tw_large _ _ W).
  - intros t t' L L' i i' Ht Ht' HL HL' Hi Hi'.
    destruct (root_origin t L i Ht Hi) as [Ho ->], (root_origin t' L' i' Ht' Hi') as [Ho' ->].
    intros P G P' G' E. destruct (tw_unique _ _ W _ _ L L' i i' Ho Ho' HL HL' Hi Hi' P G P' G' E) as [-> T].
    split; [done|]. destruct T as [T|T]; [|by right]. unfold origin in *.
    destruct (Z.eqb_spec t f) as [->|], (Z.eqb_spec t' f) as [->|]; [by left| | |by left].
    all: right; subst; rewrite ?Hk in *; split; congruence.
  - apply store_table_ok, W.
  - done.
Qed.

Lemma copy_root_same t L va : lv !! t = Some L -> xlate (4 - L) m' t va = xlate (4 - L) (ram w) t va.
Proof.
  intros Ht. destruct (tw_bounds _ _ _ _ W Ht) as (? & _).
  apply (xlate_sim lv w) with L; [done| |done|lia]. intros t1 L1 va1 H1. left.
  by rewrite (root_entry_old t1 L1) by (done || apply walk_index_range).
Qed.

Lemma copy_root_translate va : translate (upd p' m' w) f va = translate w k va.
Proof.
  unfold translate. cbn [ram upd set_ram xlate Nat.sub].
  rewrite root_entry_new by apply walk_index_range.
  destruct (is_present _) eqn:P; cbn [negb]; [|done]. destruct (is_large _) eqn:G; [done|].
  apply (copy_root_same _ 1%nat). apply (tw_child _ _ W k 0%nat); [done|lia|apply walk_index_range|done|done].
Qed.
End Root.

(** ** Properties *)

(** The region lookup finds, for an address inside a region, exactly that
    region, and nothing for any other address. *)
Theorem MmpFindRegion_finds a va : regions_ok a ->
  match MmpFindRegion a va with
  | Some k => exists r, Z.of_nat k < RegionCount a /\ Regions a !! k = Some r /\ in_region r va /\
      forall j x, Z.of_nat j < RegionCount a -> Regions a !! j = Some x -> in_region x va -> j = k
  | None => forall j x, Z.of_nat j < RegionCount a -> Regions a !! j = Some x -> ~ in_region x va
  end.
Proof.
  intros I. destruct (MmpFindRegion a va) as [k|] eqn:F.
  - destruct (proj1 (MmpFindRegion_iff a va k I) F) as (r & Hk & Hr & B). exists r. split_and!; try done.
    intros j x Hj Hx Bx. assert (MmpFindRegion a va = Some j) as F2 by (apply MmpFindRegion_iff; eauto).
    congruence.
  - intros j x Hj Hx Bx. assert (MmpFindRegion a va = Some j) as F2 by (apply MmpFindRegion_iff; eauto).
    congruence.
Qed.

(** A lazy anonymous mapping that does not run past the address range
    reserves whole pages at the space's next free address: the new region is
    disjoint from the others, holds the size asked for with the protection asked
    for plus user access, is what the lookup finds inside it, and leaves every
    other lookup alone; nothing else in the machine changes. *)
Theorem MmMapAnonymous_reserves w i a Size Prot Fl :
  gMmReady (mm w) = true -> gMmAddressSpacePool (mm w) !! i = Some a -> regions_ok a ->
  RegionCount a < MM_MAX_VA_REGIONS -> 0 <= Size -> NextUserBase a + Size + 4097 < 2 ^ 63 ->
  any_flag Fl MM_REGION_FLAG_WIRED = false ->
  exists r, let a' := append_region r a in
    MmMapAnonymous (Some i) Size Prot Fl true w =
      Ret (KSTATUS_SUCCESS, Some (RegionBase r))
        (set_mm (set_spaces (<[i := a']> (gMmAddressSpacePool (mm w))) (gMmAddressSpaceInUse (mm w))
                            (gMmNextAddressSpaceId (mm w)) (mm w)) w) /\
    regions_ok a' /\ RegionType r = MM_REGION_TYPE_ANON /\ RegionProtection r = Z.lor Prot MM_PROT_USER /\
    Size <= RegionSize r /\ RegionBase r = NextUserBase a /\
    (forall va, MmpFindRegion a' va = Some (Z.to_nat (RegionCount a)) <-> in_region r va) /\
    (forall va, ~ in_region r va -> MmpFindRegion a' va = MmpFindRegion a va).
Proof.
  intros Rd Ha I Hc Hs Hn Wi. destruct (ro_next a I) as [N1 N2]. pose proof (ro_count a I) as C.
  pose proof (ro_length a I) as L. unfold MM_USER_BASE in N1.
  destruct (align_size_ok Size Hs ltac:(lia)) as (A1 & A2 & A3).
  set (EF := if negb (any_flag Fl (Z.lor MM_REGION_FLAG_LAZY MM_REGION_FLAG_WIRED))
             then Z.lor Fl MM_REGION_FLAG_LAZY else Fl).
  exists {| RegionBase := NextUserBase a; RegionSize := MmpAlignSizeToPage Size;
    RegionType := MM_REGION_TYPE_ANON; RegionProtection := Z.lor Prot MM_PROT_USER; RegionFlags := EF;
    CommittedPages := 0; BackingPhysicalBase := 0; BackingObject := None; BackingOffset := 0 |}.
  set (r := Build_MM_VA_REGION _ _ _ _ _ _ _ _ _). intros a'.
  assert (I' : regions_ok a') by (apply append_region_ok; (done || cbn; lia)).
  assert (EW : any_flag EF MM_REGION_FLAG_WIRED = false).
  { unfold EF. destruct (negb _); [|done]. change MM_REGION_FLAG_WIRED with (2 ^ 1) in *.
    rewrite any_flag_bit in * by lia. by rewrite Z.lor_spec, Wi. }
  split.
  { unfold MmMapAnonymous. rewrite bind_gets, Rd. cbn [negb orb].
    rewrite (bind_eq _ _ _ _ _ (get_space_eq _ _ _ Ha)).
    destruct (Z.geb_spec (RegionCount a) MM_MAX_VA_REGIONS); [lia|].
    unfold NK_ASSERT. destruct (Z.ltb_spec (RegionCount a) MM_MAX_VA_REGIONS); [|lia].
    rewrite bind_ret_l. cbv zeta. fold EF. rewrite EW.
    change MM_PAGE_SIZE with 4096. rewrite align_up_page by lia.
    replace ((NextUserBase a + 4095) / 4096 * 4096) with (NextUserBase a) by zlia.
    rewrite (bind_eq _ _ _ _ _ (put_space_eq _ _ _ _ Ha)), bind_ret_l. cbn [ok Z.eqb KSTATUS_SUCCESS negb].
    assert (Hi : (i < length (gMmAddressSpacePool (mm w)))%nat) by (by eapply lookup_lt_Some).
    match goal with |- bind (get_space i) _ ?w1 = _ =>
      assert (Ha1 : gMmAddressSpacePool (mm w1) !! i = Some (set_region r (Z.to_nat (RegionCount a)) a))
        by (by apply list_lookup_insert_eq) end.
    rewrite (bind_eq _ _ _ _ _ (get_space_eq _ _ _ Ha1)), (bind_eq _ _ _ _ _ (put_space_eq _ _ _ _ Ha1)).
    unfold ret. cbn [mm set_mm gMmAddressSpacePool set_spaces]. by rewrite list_insert_insert_eq. }
  assert (LK : Regions a' !! Z.to_nat (RegionCount a) = Some r).
  { apply list_lookup_insert_eq. unfold MM_MAX_VA_REGIONS in *. lia. }
  assert (LT : forall k, Z.of_nat k < RegionCount a -> Regions a' !! k = Regions a !! k).
  { intros k Hk. apply list_lookup_insert_ne. lia. }
  assert (EC : RegionCount a' = RegionCount a + 1).
  { apply u32_small. unfold MM_MAX_VA_REGIONS in *. lia. }
  split_and!; try done; [cbn; lia| |].
  - intros va. rewrite (MmpFindRegion_iff a' va _ I'). split.
    + intros (r2 & _ & H2 & B). rewrite LK in H2. by injection H2 as <-.
    + intros B. exists r. split_and!; [lia|done|done].
  - intros va Nb. apply option_eq. intros k. rewrite !MmpFindRegion_iff by done. split.
    + intros (r2 & Hk & H2 & B). destruct (decide (k = Z.to_nat (RegionCount a))) as [->|Nk].
      { rewrite LK in H2. injection H2 as <-. done. }
      exists r2. rewrite LT in H2 by lia. split_and!; [lia|done|done].
    + intros (r2 & Hk & H2 & B). exists r2. rewrite LT by done. split_and!; [lia|done|done].
Qed.

Lemma create_space_spec lv w owner :
  tables_wf lv w -> gMmReady (mm w) = true ->
  lv !! gMmKernelRootTablePhysical (mm w) = Some 0%nat -> gMmKernelRootTablePhysical (mm w) <> 0 ->
  length (gMmAddressSpacePool (mm w)) = length (gMmAddressSpaceInUse (mm w)) ->
  (forall a, a ∈ gMmAddressSpacePool (mm w) -> Z.of_nat (length (Regions a)) = MM_MAX_VA_REGIONS) ->
  allocated (frames (mm w)) 0 = true ->
  (exists i a f w', MmCreateAddressSpace owner true w = Ret (KSTATUS_SUCCESS, Some i) w' /\
     gMmAddressSpaceInUse (mm w) !! i = Some false /\
     gMmAddressSpacePool (mm w') = <[i := a]> (gMmAddressSpacePool (mm w)) /\
     gMmAddressSpaceInUse (mm w') = <[i := true]> (gMmAddressSpaceInUse (mm w)) /\ lv !! f = None /\
     allocated (frames (mm w')) 0 = true /\ gMmReady (mm w') = true /\
     gMmKernelRootTablePhysical (mm w') = gMmKernelRootTablePhysical (mm w) /\ (i < length (gMmAddressSpacePool (mm w)))%nat /\
     RootTablePhysical a = f /\ allocated (frames (mm w)) (f / 4096) = false /\
     OwnerProcessId a = owner /\ AddressSpaceId a = gMmNextAddressSpaceId (mm w) /\
     regions_ok a /\ RegionCount a = 0 /\ space_ok (<[f := 0%nat]> lv) w' a /\
     (forall va, translate w' f va = translate w (gMmKernelRootTablePhysical (mm w)) va) /\
     (forall r va, lv !! r = Some 0%nat -> translate w' r va = translate w r va)) \/
  (MmCreateAddressSpace owner true w = Ret (KSTATUS_INIT_FAILED, None) w /\
     (full w \/ forall b, b ∈ gMmAddressSpaceInUse (mm w) -> b = true)).
Proof.
  intros W Rd Hk Nk Len Rl A0. unfold MmCreateAddressSpace. rewrite bind_gets, Rd. cbn [negb orb].
  destruct (find_first negb (gMmAddressSpaceInUse (mm w))) as [i|] eqn:Fi.
  2: { right. split; [done|right]. intros b Hb. rewrite find_first_None in Fi. specialize (Fi b Hb).
       by destruct b. }
  destruct (AllocPage_spec w Rd (tw_pages _ _ W))
    as [(f & p & E & F0 & Fa & Ft & Ff & Wp & Tp & Ap)|(Fu & st & Ns & E)]; rewrite (bind_eq _ _ _ _ _ E).
  2: { unfold ok. destruct (Z.eqb_spec st KSTATUS_SUCCESS); [done|]. right. by split; [|left]. }
  left. cbn [ok Z.eqb KSTATUS_SUCCESS negb]. rewrite bind_deref.
  apply find_first_Some in Fi as [(b & Hb & Tb) _]. destruct b; [done|].
  destruct (lookup_lt_is_Some_2 (gMmAddressSpacePool (mm w)) i) as [a0 Ha0].
  { rewrite Len. by eapply lookup_lt_Some. }
  unfold NK_ASSERT. destruct (Z.eqb_spec (gMmKernelRootTablePhysical (mm w)) 0); [done|].
  cbn [negb]. rewrite bind_ret_l, bind_gets. cbv zeta.
  destruct (tw_bounds _ _ _ _ W Hk) as (_ & B1 & B2 & B3).
  pose proof (pw_tracked _ (tw_pages _ _ W)) as Tk. unfold MM_MAX_TRACKED_PAGES in Tk.
  assert (Af : addr_of f = f) by (apply addr_of_page; [zlia|done]).
  rewrite (bind_eq _ _ _ _ _ (fill_table_table _ _ _)). rewrite Af.
  assert (ES : store_table 8 (ram w) f (fun Entry => load64 (ram w) (kva_to_pa (mm (upd p (ram w) w))
    (MmpPhysToVirtTable (mm (upd p (ram w) w)) (gMmKernelRootTablePhysical (mm (upd p (ram w) w))) + 8 * Entry))) 512
    = store_table 8 (ram w) f (entry (ram w) (gMmKernelRootTablePhysical (mm w))) 512).
  { apply store_table_eq. intros j Hj. unfold entry. rewrite kva_table by lia. cbn [mm upd set_ram set_mm set_frames gMmKernelRootTablePhysical]. by rewrite B3. }
  cbn [ram upd set_ram] in ES |- *. rewrite ES. clear ES.
  pose proof (copy_root_wf lv w p _ f W Hk F0 Fa Ft Ff Wp Tp Ap) as W1.
  pose proof (copy_root_translate lv w p _ f W Hk F0 Fa Ft Ff Ap) as TN.
  pose proof (copy_root_same lv w p (gMmKernelRootTablePhysical (mm w)) f W F0 Fa Ft Ff Ap) as TS.
  revert W1 TN TS. generalize (store_table 8 (ram w) f (entry (ram w) (gMmKernelRootTablePhysical (mm w))) 512).
  intros m1 W1 TN TS.
  match goal with |- context [bind (get_space i) _ ?x] => set (w1 := x) end.
  rewrite (bind_eq _ _ _ _ _ (get_space_eq i a0 w1 Ha0)), (bind_eq _ _ _ _ _ (put_space_eq w1 i a0 _ Ha0)).
  match goal with |- context [<[i := ?x]> (gMmAddressSpacePool _)] => set (a := x) in * end.
  unfold modify_mm at 1. rewrite bind_modify. unfold ret.
  match goal with |- context [Ret (KSTATUS_SUCCESS, Some i) ?x] => set (w2 := x) end.
  assert (Nf0 : f <> 0) by (intros ->; change (0 / 4096) with 0 in Ff; congruence).
  exists i, a, f, w2. split; [done|]. split; [done|].
  split; [reflexivity|]. split; [reflexivity|].
  split. { destruct (lv !! f) as [L|] eqn:Hf; [|done]. destruct (tw_frame _ _ W f L Hf) as (_ & _ & _ & _ & Af'). congruence. }
  split. { cbn. by rewrite Ap, A0, orb_true_r. }
  split; [exact Rd|]. split; [reflexivity|]. split; [by eapply lookup_lt_Some|].
  split_and!; try done.
  - constructor; cbn [a Regions RegionCount NextUserBase]; try done.
    + apply Rl. by eapply list_elem_of_lookup_2.
    + intros k r Hlt. exfalso. lia.
    + intros j k rj rk _ Hlt. exfalso. lia.
  - apply (space_ok_outside (<[f := 0%nat]> lv) (upd p m1 w) w2 a a); try done.
    + constructor; [done|done|by rewrite lookup_insert_eq|done].
    + intros t L Ht. by apply (tw_frame _ _ W1 t L).
    + apply W1.
  - intros r va Hr. exact (TS r 0%nat va Hr).
Qed.

(** A new address space has a root table of its own, in a frame that was
    free, through which the processor translates every address as through the
    kernel's root; no existing translation changes, and the space has no region
    yet.  It fails, changing nothing, only when every slot of the pool is in use
    or no frame is free. *)
Theorem MmCreateAddressSpace_shares lv w owner :
  tables_wf lv w -> gMmReady (mm w) = true ->
  lv !! gMmKernelRootTablePhysical (mm w) = Some 0%nat -> gMmKernelRootTablePhysical (mm w) <> 0 ->
  length (gMmAddressSpacePool (mm w)) = length (gMmAddressSpaceInUse (mm w)) ->
  (forall a, a ∈ gMmAddressSpacePool (mm w) -> Z.of_nat (length (Regions a)) = MM_MAX_VA_REGIONS) ->
  allocated (frames (mm w)) 0 = true ->
  (exists i a f w', MmCreateAddressSpace owner true w = Ret (KSTATUS_SUCCESS, Some i) w' /\
     gMmAddressSpaceInUse (mm w) !! i = Some false /\ gMmAddressSpacePool (mm w') !! i = Some a /\
     RootTablePhysical a = f /\ allocated (frames (mm w)) (f / 4096) = false /\
     OwnerProcessId a = owner /\ AddressSpaceId a = gMmNextAddressSpaceId (mm w) /\
     regions_ok a /\ RegionCount a = 0 /\ space_ok (<[f := 0%nat]> lv) w' a /\
     (forall va, translate w' f va = translate w (gMmKernelRootTablePhysical (mm w)) va) /\
     (forall r va, lv !! r = Some 0%nat -> translate w' r va = translate w r va)) \/
  (MmCreateAddressSpace owner true w = Ret (KSTATUS_INIT_FAILED, None) w /\
     (full w \/ forall b, b ∈ gMmAddressSpaceInUse (mm w) -> b = true)).
Proof.
  intros W Rd Hk Nk Len Rl A0.
  destruct (create_space_spec lv w owner W Rd Hk Nk Len Rl A0)
    as [(i & a & f & w' & E & Hi & Pl & _ & _ & _ & _ & _ & Li & P)|R]; [left|by right].
  exists i, a, f, w'. split; [done|]. split; [done|]. split; [|exact P]. by rewrite Pl, list_lookup_insert_eq.
Qed.

(** ** Witnesses: the space of the page-table witnesses with room for its
    regions. *)

Definition no_region : MM_VA_REGION :=
  {| RegionBase := 0; RegionSize := 0; RegionType := 0; RegionProtection := 0; RegionFlags := 0;
     CommittedPages := 0; BackingPhysicalBase := 0; BackingObject := None; BackingOffset := 0 |}.
Definition space6 : MM_ADDRESS_SPACE :=
  {| AddressSpaceId := 1; OwnerProcessId := 1; RootTablePhysical := 8192; NextUserBase := 0x40001000;
     RegionCount := 1; Regions := cow_region :: replicate 127 no_region |}.
Definition machine6 : mm_machine :=
  set_mm (set_spaces [space6; set_bounds 0 0 space6] [true; false] 2 mm4) machine4.

Lemma space6_regions : regions_ok space6.
Proof.
  assert (K : forall k r, Z.of_nat k < RegionCount space6 -> Regions space6 !! k = Some r -> r = cow_region).
  { intros [|k] r Hk Hr; [by injection Hr|cbn in Hk; lia]. }
  constructor.
  - reflexivity.
  - split; [done|by vm_compute].
  - split; [split; reflexivity || discriminate|reflexivity].
  - intros k r Hk Hr. rewrite (K k r Hk Hr). by vm_compute.
  - intros j k rj rk Hjk Hk. cbn in Hk. lia.
Qed.

Lemma MmpFindRegion_finds_witness :
  exists r, Regions space6 !! 0%nat = Some r /\ in_region r 0x40000123.
Proof.
  pose proof (MmpFindRegion_finds space6 0x40000123 space6_regions) as H.
  change (MmpFindRegion space6 0x40000123) with (Some 0%nat) in H. destruct H as (r & _ & ? & ? & _).
  exists r. split; assumption.
Defined.

Lemma MmMapAnonymous_reserves_witness :
  exists base w', MmMapAnonymous (Some 0%nat) 5000 3 0 true machine6 = Ret (KSTATUS_SUCCESS, Some base) w'.
Proof.
  destruct (MmMapAnonymous_reserves machine6 0 space6 5000 3 0) as (r & E & _);
    [reflexivity|reflexivity|exact space6_regions|reflexivity|lia|reflexivity|reflexivity|].
  eexists _, _. exact E.
Defined.

Lemma MmCreateAddressSpace_shares_witness :
  exists i f w', MmCreateAddressSpace 9 true machine6 = Ret (KSTATUS_SUCCESS, Some i) w' /\
    translate w' f 0x40000010 = Some 0x6010.
Proof.
  destruct (MmCreateAddressSpace_shares lv4 machine6 9) as
    [(i & a & f & w' & E & _ & _ & _ & _ & _ & _ & _ & _ & _ & T & _)|(_ & [F|F])].
  - apply (tables_wf_mm lv4 machine4); [reflexivity|reflexivity|apply space4_ok].
  - reflexivity.
  - reflexivity.
  - discriminate.
  - reflexivity.
  - intros a H. apply elem_of_cons in H as [->|H]; [reflexivity|]. apply list_elem_of_singleton in H as ->. reflexivity.
  - reflexivity.
  - exists i, f, w'. split; [exact E|]. rewrite T. reflexivity.
  - exfalso. assert (X : allocated (frames (mm machine6)) 15 = true) by (apply F; split; reflexivity || discriminate).
    discriminate X.
  - exfalso. assert (X : false = true) by (apply F; right; left). discriminate X.
Defined.
