(* ===== verification/MmStart.v ===== *)
(** * Memory manager, start: invariant and theorems

    What [MmpCloneKernelRootTable] and [MmpBuildKernelPhysmap] make of the
    firmware's page tables: a root of the kernel's own that translates as the
    firmware's does, and in its slot 288 the physmap, through which address
    [MM_PHYSMAP_BASE + x] reaches physical address [x]. *)

From stdpp Require Import fin_maps.
From S2P Require Import Prelude BootProto PhysMem MmPages MmTables MmTablesInv MmSpace MmFault MmRegions.

(** The slot of the root table the physmap lies in. *)
Definition physmap_slot : Z := 288.

(** ** Frames for the tables *)

(** [n] distinct tracked frames are free. *)
Definition room (n : nat) (w : mm_machine) : Prop :=
  exists l, length l = n /\ NoDup l /\
    forall i, i ∈ l -> 0 <= i < gMmTrackedPages (frames (mm w)) /\ allocated (frames (mm w)) i = false.

Lemma room_not_full n w : room (S n) w -> ~ full w.
Proof. intros (l & E & _ & H) F. destruct l as [|i l]; [done|]. destruct (H i) as [Hi A]; [left|]. by rewrite F in A. Qed.

(** Taking one frame leaves the others. *)
Lemma room_take n w f p m w' : room (S n) w -> w' = upd p m w -> gMmTrackedPages p = gMmTrackedPages (frames (mm w)) ->
  (forall j, allocated p j = (f =? j) || allocated (frames (mm w)) j) -> room n w'.
Proof.
  intros (l & E & N & H) -> T A.
  assert (X : exists l', length l' = n /\ NoDup l' /\ forall i, i ∈ l' -> i ∈ l /\ i <> f).
  { destruct (decide (f ∈ l)) as [Hf|Hf].
    - apply list_elem_of_split in Hf as (l1 & l2 & ->). exists (l1 ++ l2).
      apply NoDup_app in N as (N1 & N2 & N3). apply NoDup_cons in N3 as [N3 N4].
      split; [rewrite length_app in *; cbn in E; lia|]. split.
      + apply NoDup_app. split; [done|]. split; [|done]. intros x Hx Hx'. apply (N2 x Hx). by right.
      + intros i Hi. split; [set_solver|]. intros ->. apply elem_of_app in Hi as [Hi|Hi]; [|done].
        apply (N2 f Hi). left.
    - destruct l as [|x l]; [done|]. exists l. apply NoDup_cons in N as [_ N]. split; [by injection E|]. split; [done|].
      intros i Hi. split; [by right|]. intros ->. apply Hf. by right. }
  destruct X as (l' & E' & N' & H'). exists l'. split; [done|]. split; [done|]. intros i Hi.
  destruct (H' i Hi) as [Hl Ne]. destruct (H i Hl) as [Hb Hf]. cbn. rewrite T, A, Hf.
  destruct (Z.eqb_spec f i); [congruence|done].
Qed.

(** The internal allocator on the machine. *)
Lemma AllocPageInternal_spec w : pages_wf (frames (mm w)) -> ~ full w ->
  exists f p', AllocPageInternal 1 w = Ret (KSTATUS_SUCCESS, Some f) (upd p' (ram w) w) /\
    0 <= f < 2 ^ 30 /\ f mod 4096 = 0 /\ f / 4096 < gMmTrackedPages (frames (mm w)) /\
    allocated (frames (mm w)) (f / 4096) = false /\ pages_wf p' /\
    gMmTrackedPages p' = gMmTrackedPages (frames (mm w)) /\
    (forall j, allocated p' j = (f / 4096 =? j) || allocated (frames (mm w)) j).
Proof.
  intros W N. unfold AllocPageInternal, on_frames, zoom.
  destruct (alloc_internal_spec (frames (mm w)) 1 W) as [(k & Hk & F & _ & ->)|(A & _)]; [|done].
  pose proof (scan_index_range (frames (mm w)) k ltac:(lia)) as B.
  pose proof (pw_tracked _ W) as T. unfold MM_MAX_TRACKED_PAGES in T.
  exists (scan_index (frames (mm w)) k * MM_PAGE_SIZE), (take_page (scan_index (frames (mm w)) k) 1 (frames (mm w))).
  split; [by destruct w as [[] ? ? ?]|]. unfold MM_PAGE_SIZE. rewrite Z.div_mul by lia.
  split; [lia|]. split; [apply Z.mod_mul; lia|]. split; [lia|]. split; [done|].
  split; [apply take_page_wf; [done|done|lia]|]. split; [done|]. intros j. apply take_page_allocated.
Qed.

(** ** Tables through the identity map *)

Section Bootstrap.
Context (w : mm_machine) (Np : gMmPhysmapReady (mm w) = false).

Lemma read_boot t i : read_entry t i w = Ret (entry (ram w) t i) w.
Proof using Np. unfold read_entry, gets, kva_to_pa. by rewrite Np. Qed.
Lemma write_boot t i v : write_entry t i v w = Ret tt (upd (frames (mm w)) (store64 (ram w) (t + 8 * i) v) w).
Proof using Np. unfold write_entry, modify, kva_to_pa. rewrite Np. by destruct w as [[] ? ? ?]. Qed.
Lemma fill_boot t f : fill_table t f w = Ret tt (upd (frames (mm w)) (store_table 8 (ram w) t f 512) w).
Proof using Np. unfold fill_table, modify, kva_to_pa. rewrite Np. by destruct w as [[] ? ? ?]. Qed.
End Bootstrap.

(** ** A 2 MiB entry in an empty slot *)

Lemma put_large lv w t i v : tables_wf lv w -> lv !! t = Some 2%nat -> 0 <= i < 512 -> is_u64 v ->
  is_present v = true -> is_large v = true -> addr_of v mod 2 ^ 21 = 0 ->
  let w' := upd (frames (mm w)) (store64 (ram w) (t + 8 * i) v) w in
  tables_wf lv w' /\
  forall t' L i', lv !! t' = Some L -> 0 <= i' < 512 ->
    entry (ram w') t' i' = if bool_decide (t = t' /\ i = i') then v else entry (ram w) t' i'.
Proof.
  intros W Ht Hi Hv P G A w'. destruct (tw_bounds _ _ _ _ W Ht) as (_ & _ & At & _).
  assert (E : forall t' L i', lv !! t' = Some L -> 0 <= i' < 512 ->
    entry (ram w') t' i' = if bool_decide (t = t' /\ i = i') then v else entry (ram w) t' i').
  { intros t' L i' H' Hi'. destruct (tw_bounds _ _ _ _ W H') as (_ & _ & At' & _). by apply entry_store. }
  split; [|exact E]. constructor.
  - apply W.
  - intros t' L i' H' HL Hi'. rewrite (E t' L i') by done. case_bool_decide; [congruence|]. by apply (tw_child _ _ W).
  - intros t' i' H' Hi'. rewrite (E t' 2%nat i') by done. case_bool_decide; [done|]. by apply (tw_large _ _ W).
  - intros t1 t2 L1 L2 i1 i2 H1 H2 HL1 HL2 Hi1 Hi2. rewrite (E t1 L1 i1), (E t2 L2 i2) by done.
    repeat case_bool_decide; try congruence. by apply (tw_unique _ _ W).
  - apply store_le_ok, W.
  - apply W.
Qed.

(** A table that an address does not lead through does not matter for it. *)
Lemma xlate_avoid lv w m' h : tables_wf lv w ->
  (forall t L i, lv !! t = Some L -> t <> h -> 0 <= i < 512 -> entry m' t i = entry (ram w) t i) ->
  lv !! h = Some 2%nat ->
  forall n t L va, lv !! t = Some L -> (n + L = 4)%nat -> ~ ((L <= 2)%nat /\ leads (2 - L) (ram w) L t va h) ->
  xlate n m' t va = xlate n (ram w) t va.
Proof.
  intros W E Hh. induction n as [|n IH]; intros t L va Ht Hn N; [done|].
  assert (Nh : t <> h).
  { intros ->. rewrite Hh in Ht. injection Ht as <-. apply N. by split. }
  cbn [xlate]. replace (3 - n)%nat with L by lia.
  rewrite (E t L) by (done || apply walk_index_range). set (e := entry (ram w) t (walk_index va L)).
  destruct (is_present e) eqn:P; cbn [negb]; [|done]. destruct n as [|n]; [done|].
  destruct (is_large e) eqn:G; [done|]. apply (IH _ (S L)); [|lia|].
  - apply (tw_child _ _ W); [done|lia|apply walk_index_range|done|done].
  - intros [HL Ld]. apply N. split; [lia|]. replace (2 - L)%nat with (S (2 - S L)) by lia. by split_and!.
Qed.

(** ** The kernel's root table *)

Definition with_root (f : Z) (w : mm_machine) : mm_machine :=
  {| mm := set_kernel_root f (mm w); ram := ram w; cr3 := f; invlpgs := invlpgs w |}.

Lemma with_root_wf lv f w : tables_wf lv w -> tables_wf lv (with_root f w).
Proof. by apply tables_wf_mm. Qed.

Lemma clone_root_spec lv w n : tables_wf lv w -> gMmPhysmapReady (mm w) = false ->
  lv !! addr_of (cr3 w) = Some 0%nat -> addr_of (cr3 w) <> 0 -> allocated (frames (mm w)) 0 = true -> room (S n) w ->
  exists f p m, MmpCloneKernelRootTable w = Ret KSTATUS_SUCCESS (with_root f (upd p m w)) /\
    tables_wf (<[f := 0%nat]> lv) (upd p m w) /\ lv !! f = None /\ f <> 0 /\ 0 <= f < 2 ^ 30 /\ f mod 4096 = 0 /\
    allocated p 0 = true /\ gMmTrackedPages p = gMmTrackedPages (frames (mm w)) /\ room n (upd p m w) /\
    (forall i, 0 <= i < 512 -> entry m f i = entry (ram w) (addr_of (cr3 w)) i) /\
    (forall va, translate (upd p m w) f va = translate w (addr_of (cr3 w)) va) /\
    (forall r va, lv !! r = Some 0%nat -> translate (upd p m w) r va = translate w r va) /\
    (forall b, b / 4096 * 4096 <> f -> load8 m b = load8 (ram w) b).
Proof.
  intros W Np Hc Nz A0 R. unfold MmpCloneKernelRootTable, MmpReadCr3. rewrite bind_gets. cbv zeta.
  fold (addr_of (cr3 w)). destruct (Z.eqb_spec (addr_of (cr3 w)) 0); [done|].
  destruct (AllocPageInternal_spec w (tw_pages _ _ W) (room_not_full _ _ R))
    as (f & p & E & F0 & Fa & Ft & Ff & Wp & Tp & Ap).
  rewrite (bind_eq _ _ _ _ _ E). cbn [ok Z.eqb KSTATUS_SUCCESS negb]. rewrite bind_deref, bind_gets.
  destruct (tw_bounds _ _ _ _ W Hc) as (_ & B1 & B2 & B3).
  assert (Af : addr_of f = f) by (apply addr_of_page; [lia|done]).
  unfold MmpPhysToVirtBootstrapTable. fold (addr_of f) (addr_of (addr_of (cr3 w))). rewrite Af, B3.
  set (root := addr_of (cr3 w)) in *.
  assert (K : forall q x, gMmPhysmapReady (mm q) = false -> kva_to_pa (mm q) x = x).
  { intros q x Hq. unfold kva_to_pa. by rewrite Hq. }
  unfold fill_table. rewrite bind_modify. rewrite K by done.
  cbn [ram upd set_ram mm set_mm].
  assert (ES : store_table 8 (ram w) f (fun Index => load64 (ram w) (kva_to_pa (set_frames p (mm w)) (root + 8 * Index))) 512
    = store_table 8 (ram w) f (entry (ram w) root) 512).
  { apply store_table_eq. intros j Hj. unfold entry, kva_to_pa. cbn [gMmPhysmapReady set_frames]. by rewrite Np. }
  rewrite ES.
  pose proof (copy_root_wf lv w p root f W Hc (proj1 F0) Fa Ft Ff Wp Tp Ap) as W1.
  pose proof (copy_root_translate lv w p root f W Hc (proj1 F0) Fa Ft Ff Ap) as TN.
  pose proof (copy_root_same lv w p root f W (proj1 F0) Fa Ft Ff Ap) as TS.
  assert (Ef : forall i, 0 <= i < 512 -> entry (store_table 8 (ram w) f (entry (ram w) root) 512) f i = entry (ram w) root i).
  { intros i Hi. rewrite entry_fill, bool_decide_eq_true_2 by done. apply u64_small, (entry_u64 (ram w)), (tw_mem _ _ W). }
  assert (Eo : forall b, b / 4096 * 4096 <> f ->
    load8 (store_table 8 (ram w) f (entry (ram w) root) 512) b = load8 (ram w) b).
  { intros b Hb. apply load8_fill_out; [done|lia|congruence]. }
  revert W1 TN TS Ef Eo. generalize (store_table 8 (ram w) f (entry (ram w) root) 512). intros m W1 TN TS Ef Eo.
  assert (Nf0 : f <> 0) by (intros ->; change (0 / 4096) with 0 in Ff; congruence).
  exists f, p, m. split; [reflexivity|]. split; [exact W1|].
  split. { destruct (lv !! f) as [L|] eqn:Hf; [|done]. destruct (tw_frame _ _ W f L Hf) as (_ & _ & _ & _ & Q). congruence. }
  split; [done|]. split; [done|]. split; [done|]. split; [by rewrite Ap, A0, orb_true_r|]. split; [exact Tp|].
  split. { apply (room_take n w (f / 4096) p m); [done|reflexivity|done|done]. }
  split; [exact Ef|]. split; [exact TN|]. split; [|exact Eo]. intros r va Hr. exact (TS r 0%nat va Hr).
Qed.

(** ** The physmap *)

(** The entry for the [k]-th 2 MiB of memory. *)
Definition large_page (k : Z) : Z :=
  Z.lor (Z.lor (Z.lor (Z.lor (0 + k * 2 ^ 21) MM_PTE_PRESENT) MM_PTE_WRITABLE) MM_PTE_LARGE) MM_PTE_NX.

Lemma large_page_ok k : 0 <= k < 512 ->
  is_u64 (large_page k) /\ is_present (large_page k) = true /\ is_large (large_page k) = true /\
  addr_of (large_page k) = k * 2 ^ 21.
Proof.
  intros Hk. unfold large_page. rewrite Z.add_0_l. rewrite <- !Z.lor_assoc.
  set (f := Z.lor MM_PTE_PRESENT _).
  assert (Ha : k * 2 ^ 21 mod 4096 = 0) by (change (2 ^ 21) with (512 * 4096); rewrite Z.mul_assoc; apply Z.mod_mul; lia).
  rewrite is_present_bit, is_large_bit, !Z.lor_spec, !(aligned_bit (k * 2 ^ 21)) by lia.
  split; [|split; [done|split; [done|apply addr_of_flags; [lia|done|done]]]].
  apply u64_bits. intros i Hi. rewrite Z.lor_spec, (testbit_small (k * 2 ^ 21) 64), (testbit_small f 64) by (done || lia). done.
Qed.

(** The [Inner] loop: [k] entries are there, [n] are to be written. *)
Lemma map_2m_spec lv h : forall n k w, tables_wf lv w -> lv !! h = Some 2%nat -> gMmPhysmapReady (mm w) = false ->
  (n + k <= 512)%nat -> forall fuel, (n < fuel)%nat \/ (n = fuel /\ (n + k = 512)%nat) ->
  (forall i, 0 <= i < Z.of_nat k -> entry (ram w) h i = large_page i) ->
  exists m, map_2m fuel h MM_PHYSMAP_BASE 0 (Z.of_nat k * 2 ^ 21) (Z.of_nat (n + k) * 2 ^ 21) w
    = Ret tt (upd (frames (mm w)) m w) /\
    tables_wf lv (upd (frames (mm w)) m w) /\
    (forall t L i, lv !! t = Some L -> t <> h -> 0 <= i < 512 -> entry m t i = entry (ram w) t i) /\
    (forall i, 0 <= i < Z.of_nat (n + k) -> entry m h i = large_page i) /\
    (forall b, b / 4096 * 4096 <> h -> load8 m b = load8 (ram w) b).
Proof.
  induction n as [|n IH]; intros k w W Hh Np Hk fuel Hf Ek.
  - exists (ram w). rewrite upd_id. split; [|split_and!; try done].
    destruct fuel as [|fuel]; [done|]. cbn [map_2m]. rewrite Z.ltb_irrefl, andb_false_r. done.
  - destruct fuel as [|fuel]; [lia|]. cbn [map_2m].
    destruct (Z.ltb_spec (Z.of_nat k * 2 ^ 21) 0x40000000); [|lia].
    destruct (Z.ltb_spec (0 + Z.of_nat k * 2 ^ 21) (Z.of_nat (S n + k) * 2 ^ 21)); [|lia]. cbn [andb].
    set (idx := Z.land _ 0x1FF).
    assert (Ei : idx = Z.of_nat k).
    { unfold idx. rewrite u64_small by (unfold MM_PHYSMAP_BASE; lia). change 0x1FF with (Z.ones 9).
      rewrite Z.land_ones, Z.shiftr_div_pow2, Z.div_add by lia. unfold MM_PHYSMAP_BASE. zlia. }
    rewrite Ei. fold (large_page (Z.of_nat k)).
    destruct (large_page_ok (Z.of_nat k) ltac:(lia)) as (P1 & P2 & P3 & P4).
    destruct (tw_bounds _ _ _ _ W Hh) as (_ & B1 & B2 & B3).
    rewrite (bind_eq _ _ _ _ _ (write_boot w Np _ _ _)).
    destruct (put_large lv w h (Z.of_nat k) _ W Hh ltac:(lia) P1 P2 P3) as [W1 E1].
    { rewrite P4. apply Z.mod_mul. lia. }
    set (w1 := upd _ _ w) in *.
    assert (Ek1 : forall i, 0 <= i < Z.of_nat (S k) -> entry (ram w1) h i = large_page i).
    { intros i Hi. rewrite (E1 h 2%nat i) by (done || lia). case_bool_decide as D; [by destruct D as [_ ->]|].
      apply Ek. assert (i <> Z.of_nat k) by naive_solver. lia. }
    destruct (IH (S k) w1 W1 Hh Np ltac:(lia) fuel ltac:(lia) Ek1) as (m & Em & Wm & Eo & En & Er).
    exists m. replace (Z.of_nat k * 2 ^ 21 + 0x200000) with (Z.of_nat (S k) * 2 ^ 21) by lia.
    replace (S n + k)%nat with (n + S k)%nat by lia. rewrite Em. split; [reflexivity|]. split; [exact Wm|].
    split; [|split; [done|]].
    + intros t L i Ht Nt Hi. rewrite (Eo t L i Ht Nt Hi), (E1 t L i) by done. rewrite bool_decide_eq_false_2; naive_solver.
    + intros b Hb. rewrite (Er b Hb). unfold w1. cbn [ram upd set_ram]. unfold store64. rewrite load8_store_le.
      destruct (Z.leb_spec (h + 8 * Z.of_nat k) b), (Z.ltb_spec b (h + 8 * Z.of_nat k + Z.of_nat 8)); try done.
      exfalso. apply Hb. zlia.
Qed.

(** A fresh empty table behind an absent entry. *)
Lemma link_table lv w n t L i : tables_wf lv w -> lv !! t = Some L -> (L < 2)%nat -> 0 <= i < 512 ->
  is_present (entry (ram w) t i) = false -> room (S n) w ->
  exists f p m, let v := Z.lor (Z.lor f MM_PTE_PRESENT) MM_PTE_WRITABLE in
    m = store64 (store_table 8 (ram w) f (fun _ => 0) 512) (t + 8 * i) v /\
    AllocPageInternal 1 w = Ret (KSTATUS_SUCCESS, Some f) (upd p (ram w) w) /\
    lv !! f = None /\ addr_of f = f /\ is_present v = true /\ is_large v = false /\ addr_of v = f /\
    tables_ext lv w (<[f := S L]> lv) (upd p m w) /\ entry m t i = v /\ room n (upd p m w) /\
    (forall k, 0 <= k < 512 -> is_present (entry m f k) = false) /\
    (forall t' L' k, lv !! t' = Some L' -> 0 <= k < 512 -> ~ (t = t' /\ i = k) -> entry m t' k = entry (ram w) t' k).
Proof.
  intros W Ht HL Hi P R.
  destruct (AllocPageInternal_spec w (tw_pages _ _ W) (room_not_full _ _ R))
    as (f & p & E & F0 & Fa & Ft & Ff & Wp & Tp & Ap).
  set (v := Z.lor (Z.lor f MM_PTE_PRESENT) MM_PTE_WRITABLE).
  set (m := store64 (store_table 8 (ram w) f (fun _ => 0) 512) (t + 8 * i) v).
  exists f, p, m. split; [reflexivity|]. destruct (table_entry_ok f false ltac:(lia) Fa) as (V1 & V2 & V3 & V4).
  assert (Hf : lv !! f = None).
  { destruct (lv !! f) as [L'|] eqn:Hf; [|done]. destruct (tw_frame _ _ W f L' Hf) as (_ & _ & _ & _ & Q). congruence. }
  destruct (tw_bounds _ _ _ _ W Ht) as (_ & B1 & B2 & _).
  destruct (ext_new_table lv w p t L i f (fun _ => 0) v W Ht ltac:(lia) Hi) as [X Ev]; try done.
  - by rewrite P.
  - lia.
  - intros va m1 Hva Em1 Z1. destruct L as [|[|]]; [| |lia]; cbn [xlate Nat.sub] in *.
    + fold v in V1, V2, V3. rewrite Hva, Em1, V1, V2, V3, Z1, P by apply walk_index_range. done.
    + fold v in V1, V2, V3. rewrite Hva, Em1, V1, V2, V3, Z1, P by apply walk_index_range. done.
  - split; [done|]. split; [done|]. split; [apply addr_of_page; [lia|done]|]. split; [done|]. split; [done|].
    split; [done|]. split; [done|]. split; [done|].
    split; [by apply (room_take n w (f / 4096) p m)|].
    split.
    + intros k Hk. unfold m. rewrite entry_store, bool_decide_eq_false_2 by (done || naive_solver).
      by rewrite entry_fill, bool_decide_eq_true_2 by done.
    + intros t' L' k H' Hk N. destruct (tw_bounds _ _ _ _ W H') as (_ & _ & B3 & _).
      unfold m. rewrite entry_store, bool_decide_eq_false_2 by done.
      by rewrite entry_fill, bool_decide_eq_false_2 by (done || congruence).
Qed.

(** The bytes the physmap covers: the tracked frames, rounded up to 2 MiB. *)
Definition physmap_pages (tracked : Z) : Z := (tracked + 511) / 512.

Lemma align_up_2m tracked : 0 <= tracked <= MM_MAX_TRACKED_PAGES ->
  MmpAlignUp (u64 (tracked * MM_PAGE_SIZE)) 0x200000 = physmap_pages tracked * 2 ^ 21.
Proof.
  unfold MM_MAX_TRACKED_PAGES, MM_PAGE_SIZE, physmap_pages. intros T. unfold MmpAlignUp. cbn [Z.eqb].
  rewrite (u64_small (tracked * 4096)) by lia. rewrite (u64_small (_ - 1)) by lia.
  change (u64 (0x200000 - 1)) with (2 ^ 21 - 1). rewrite land_lnot_ones by lia.
  change (2 ^ 21) with 2097152. zlia.
Qed.

Lemma physmap_walk x : 0 <= x < 2 ^ 30 ->
  walk_index (MM_PHYSMAP_BASE + x) 0 = physmap_slot /\ walk_index (MM_PHYSMAP_BASE + x) 1 = 0 /\
  walk_index (MM_PHYSMAP_BASE + x) 2 = x / 2 ^ 21.
Proof.
  intros Hx. unfold MM_PHYSMAP_BASE. rewrite !walk_index_eq by lia.
  change (2 ^ (39 - 9 * Z.of_nat 0)) with 549755813888. change (2 ^ (39 - 9 * Z.of_nat 1)) with 1073741824.
  change (2 ^ (39 - 9 * Z.of_nat 2)) with 2097152. change (2 ^ 21) with 2097152.
  change (2 ^ 30) with 1073741824 in Hx. unfold physmap_slot. split_and!; zlia.
Qed.

(** The only way to a table of level 2 is through the entry that names it. *)
Lemma leads_two lv w g h i r va : tables_wf lv w -> lv !! r = Some 0%nat -> lv !! g = Some 1%nat -> 0 <= i < 512 ->
  is_present (entry (ram w) g i) = true -> is_large (entry (ram w) g i) = false -> addr_of (entry (ram w) g i) = h ->
  leads 2 (ram w) 0 r va h -> leads 1 (ram w) 0 r va g /\ walk_index va 1 = i.
Proof.
  intros W Hr Hg Hi P G A (Q1 & Q2 & Q3 & Q4 & Q5). cbn [leads] in *.
  set (c := addr_of (entry (ram w) r (walk_index va 0))) in *.
  assert (Hc : lv !! c = Some 1%nat).
  { apply (tw_child _ _ W r 0%nat (walk_index va 0)); [done|lia|apply walk_index_range|done|done]. }
  destruct (tw_unique _ _ W c g 1%nat 1%nat (walk_index va 1) i Hc Hg) as [I0 [Cg|[? _]]];
    try done; try lia; try (apply walk_index_range); congruence.
Qed.

Lemma physmap_offset x : 0 <= x < 2 ^ 30 ->
  x / 2 ^ 21 * 2 ^ 21 / 2 ^ 21 * 2 ^ 21 + (MM_PHYSMAP_BASE + x) mod 2 ^ 21 = x.
Proof. intros Hx. unfold MM_PHYSMAP_BASE. change (2 ^ 21) with 2097152. zlia. Qed.

(** The gigabyte loop from an empty table [g] of level 1. *)
Lemma map_1g_spec lv w g n k : tables_wf lv w -> lv !! g = Some 1%nat -> gMmPhysmapReady (mm w) = false ->
  gMmPhysmapBase (mm w) = MM_PHYSMAP_BASE -> is_present (entry (ram w) g 0) = false -> room (S k) w -> (1 <= n <= 512)%nat ->
  exists h p m, map_1g 2 g 0 (Z.of_nat n * 2 ^ 21) w = Ret KSTATUS_SUCCESS (upd p m w) /\ lv !! h = None /\
    tables_wf (<[h := 2%nat]> lv) (upd p m w) /\ (forall i, allocated (frames (mm w)) i = true -> allocated p i = true) /\
    room k (upd p m w) /\
    (forall va r, lv !! r = Some 0%nat -> ~ leads 1 (ram w) 0 r va g \/ walk_index va 1 <> 0 ->
       translate (upd p m w) r va = translate w r va) /\
    is_present (entry m g 0) = true /\ is_large (entry m g 0) = false /\ addr_of (entry m g 0) = h /\
    (forall i, 0 <= i < Z.of_nat n -> entry m h i = large_page i) /\
    (forall t i, lv !! t = Some 0%nat -> 0 <= i < 512 -> entry m t i = entry (ram w) t i) /\
    (forall b, <[h := 2%nat]> lv !! (b / 4096 * 4096) = None -> load8 m b = load8 (ram w) b).
Proof.
  intros W Hg Np Hb P R Hn. cbn [map_1g]. destruct (Z.ltb_spec 0 (Z.of_nat n * 2 ^ 21)); [|lia]. cbn [negb].
  rewrite bind_gets, Hb. change (Z.land (Z.shiftr (u64 (MM_PHYSMAP_BASE + 0)) 30) 0x1FF) with 0.
  change (u64 (MM_PHYSMAP_BASE + 0)) with MM_PHYSMAP_BASE.
  rewrite (bind_eq _ _ _ _ _ (read_boot w Np g 0)), P.
  destruct (link_table lv w k g 1 0 W Hg ltac:(lia) ltac:(lia) P R) as (h & p & m1 & Hm1 & E & Hh & Ah & V1 & V2 & V3 & X & Ev & Rk & Pz & Eold).
  cbn zeta in *. rewrite bind_assoc, (bind_eq _ _ _ _ _ E). cbn [ok Z.eqb KSTATUS_SUCCESS negb].
  rewrite bind_assoc, bind_deref. unfold MmpPhysToVirtBootstrapTable. fold (addr_of h). rewrite Ah.
  rewrite bind_assoc, (bind_eq _ _ _ _ _ (fill_boot (upd p (ram w) w) Np _ _)).
  rewrite bind_assoc, (bind_eq _ _ _ _ _ (write_boot (upd p (store_table 8 (ram w) h (fun _ => 0) 512) w) Np _ _ _)), bind_ret_l.
  cbn [ram upd set_ram]. rewrite <- Hm1, upd_upd.
  cbn [ok Z.eqb KSTATUS_SUCCESS negb]. rewrite (bind_eq _ _ _ _ _ (read_boot (upd p m1 w) Np g 0)).
  cbn [ram upd set_ram]. rewrite Ev. fold (addr_of (Z.lor (Z.lor h MM_PTE_PRESENT) MM_PTE_WRITABLE)). rewrite V3.
  fold (addr_of h). rewrite Ah.
  pose proof (te_wf _ _ _ _ X) as W1.
  destruct (map_2m_spec _ h n 0 (upd p m1 w) W1 (lookup_insert_eq _ _ _) Np ltac:(lia) 512 ltac:(lia)) as (m & Em & Wm & Eo & En & Er).
  { intros i Hi. lia. }
  rewrite Nat.add_0_r in *. change (Z.of_nat 0 * 2 ^ 21) with 0 in Em. rewrite (bind_eq _ _ _ _ _ Em).
  destruct (Z.ltb_spec (0 + 0x40000000) (Z.of_nat n * 2 ^ 21)); [lia|]. cbn [negb]. unfold ret.
  assert (Ngh : g <> h) by congruence.
  assert (Eg : forall i, 0 <= i < 512 -> entry m g i = entry m1 g i).
  { intros i Hi. apply (Eo g 1%nat i); [by rewrite lookup_insert_ne|done|done]. }
  assert (Eg0 : entry m g 0 = entry m1 g 0) by (apply Eg; lia).
  exists h, p, m. split; [reflexivity|]. split; [done|]. split; [exact Wm|].
  split; [intros i Hi; exact (te_alloc _ _ _ _ X i Hi)|]. split; [exact Rk|]. rewrite !Eg0, !Ev.
  split; [|split; [done|split; [done|split; [done|split; [done|split]]]]].
  - intros va r Hr D. transitivity (translate (upd p m1 w) r va); [|exact (te_xlate _ _ _ _ X r 0%nat va Hr)].
    assert (Hr1 : <[h := 2%nat]> lv !! r = Some 0%nat) by (rewrite lookup_insert_ne by congruence; done).
    apply (xlate_avoid _ (upd p m1 w) m h W1 Eo (lookup_insert_eq _ _ _) 4 r 0%nat _ Hr1 eq_refl).
    intros [_ Ld]. destruct (leads_two _ _ g h 0 r va W1 Hr1) as [Lg I0]; cbn [ram upd set_ram];
      rewrite ?Ev; try done; try lia; [by rewrite lookup_insert_ne|].
    destruct D as [D|D]; [|done]. apply D. cbn [leads ram upd set_ram] in *.
    rewrite (Eold r 0%nat) in Lg; [done|exact Hr|apply walk_index_range|]. intros [-> _]. congruence.
  - intros t i Ht Hi. assert (Nt : t <> h) by congruence. rewrite (Eo t 0%nat i); [|by rewrite lookup_insert_ne|done|done].
    apply (Eold t 0%nat); [done|done|]. intros [-> _]. congruence.
  - intros b Hb'. rewrite (Er b); [|intros E0; rewrite E0, lookup_insert_eq in Hb'; done].
    exact (te_ram _ _ _ _ X b Hb').
Qed.

(** The translation through a 2 MiB entry. *)
Lemma xlate_large m f g h va e :
  (let e0 := entry m f (walk_index va 0) in is_present e0 = true /\ is_large e0 = false /\ addr_of e0 = g) ->
  (let e1 := entry m g (walk_index va 1) in is_present e1 = true /\ is_large e1 = false /\ addr_of e1 = h) ->
  entry m h (walk_index va 2) = e /\ is_present e = true /\ is_large e = true ->
  xlate 4 m f va = Some (addr_of e / 2 ^ 21 * 2 ^ 21 + va mod 2 ^ 21).
Proof.
  intros (P0 & G0 & A0) (P1 & G1 & A1) (E2 & P2 & G2). cbn [xlate].
  change (3 - 3)%nat with 0%nat. rewrite P0, G0, A0. cbn [negb].
  change (3 - 2)%nat with 1%nat. rewrite P1, G1, A1. cbn [negb].
  change (3 - 1)%nat with 2%nat. by rewrite E2, P2, G2.
Qed.

(** The state once the physmap is in use. *)
Definition with_physmap (bytes : Z) (ready : bool) (w : mm_machine) : mm_machine :=
  set_mm (set_physmap MM_PHYSMAP_BASE bytes ready (mm w)) w.

Lemma physmap_spec lv w f k : tables_wf lv w -> gMmPhysmapReady (mm w) = false -> gMmKernelRootTablePhysical (mm w) = f ->
  lv !! f = Some 0%nat -> f <> 0 -> is_present (entry (ram w) f physmap_slot) = false -> room (S (S k)) w ->
  let n := physmap_pages (gMmTrackedPages (frames (mm w))) in
  exists lv' p m w', MmpBuildKernelPhysmap w = Ret KSTATUS_SUCCESS w' /\
    w' = with_physmap (n * 2 ^ 21) true (upd p m w) /\ lv ⊆ lv' /\ tables_wf lv' w' /\
    (forall i, allocated (frames (mm w)) i = true -> allocated p i = true) /\ room k w' /\
    (forall r va, lv !! r = Some 0%nat -> r <> f \/ walk_index va 0 <> physmap_slot ->
       translate w' r va = translate w r va) /\
    (forall x, 0 <= x < n * 2 ^ 21 -> translate w' f (MM_PHYSMAP_BASE + x) = Some x) /\
    (forall b, lv' !! (b / 4096 * 4096) = None -> load8 m b = load8 (ram w) b).
Proof.
  intros W Np Er Hf Nf P R n. pose proof (pw_tracked _ (tw_pages _ _ W)) as T. unfold MM_MAX_TRACKED_PAGES in T.
  assert (Tpos : 0 < gMmTrackedPages (frames (mm w))).
  { destruct R as (l & E & _ & H). destruct l as [|i l]; [done|]. destruct (H i); [left|lia]. }
  assert (Hn : 1 <= n <= 512) by (unfold n, physmap_pages; zlia).
  unfold MmpBuildKernelPhysmap. rewrite bind_gets, Er. destruct (Z.eqb_spec f 0); [done|]. cbv zeta.
  rewrite align_up_2m by (unfold MM_MAX_TRACKED_PAGES; lia). fold n. rewrite bind_modify. cbv beta.
  set (w0 := set_mm (set_physmap MM_PHYSMAP_BASE (n * 2 ^ 21) (gMmPhysmapReady (mm w)) (mm w)) w).
  change (set_mm _ w) with w0. assert (Np0 : gMmPhysmapReady (mm w0) = false) by exact Np.
  assert (W0 : tables_wf lv w0) by (by apply (tables_wf_mm lv w)).
  change (Z.land (Z.shiftr MM_PHYSMAP_BASE 39) 0x1FF) with physmap_slot.
  unfold MmpPhysToVirtBootstrapTable. fold (addr_of f).
  destruct (tw_bounds _ _ _ _ W Hf) as (_ & B1 & B2 & Af). rewrite Af.
  destruct (link_table lv w0 (S k) f 0 physmap_slot W0 Hf ltac:(lia) ltac:(unfold physmap_slot; lia) P R)
    as (g & p1 & m1 & Hm1 & E & Hg & Ag & V1 & V2 & V3 & X & Ev & R1 & Pz & Eold).
  cbn zeta in *. rewrite (bind_eq _ _ _ _ _ E). cbn [ok Z.eqb KSTATUS_SUCCESS negb]. rewrite bind_deref.
  fold (addr_of g). rewrite Ag.
  rewrite (bind_eq _ _ _ _ _ (fill_boot (upd p1 (ram w0) w0) Np0 _ _)).
  rewrite (bind_eq _ _ _ _ _ (write_boot (upd p1 (store_table 8 (ram w0) g (fun _ => 0) 512) w0) Np0 _ _ _)).
  cbn [ram upd set_ram]. rewrite <- Hm1, upd_upd.
  rewrite (bind_eq _ _ _ _ _ (read_boot (upd p1 m1 w0) Np0 _ _)). cbn [ram upd set_ram].
  rewrite Ev. fold (addr_of (Z.lor (Z.lor g MM_PTE_PRESENT) MM_PTE_WRITABLE)). rewrite V3. fold (addr_of g). rewrite Ag.
  destruct (map_1g_spec _ (upd p1 m1 w0) g (Z.to_nat n) k (te_wf _ _ _ _ X) (lookup_insert_eq _ _ _) Np0 eq_refl
    (Pz 0 ltac:(lia)) R1 ltac:(lia)) as (h & p & m & Em & Hh & Wm & Am & Rk & Tm & G1 & G2 & G3 & Hm & Em0 & Rm).
  rewrite Z2Nat.id in * by lia. rewrite (bind_eq _ _ _ _ _ Em). cbn [ok Z.eqb KSTATUS_SUCCESS negb].
  unfold MmpReadCr3, MmpWriteCr3. rewrite bind_gets, bind_modify, bind_modify. unfold ret.
  set (lv' := <[h := 2%nat]> (<[g := 1%nat]> lv)) in *.
  assert (Nfg : f <> g) by congruence.
  assert (Hf1 : <[g := 1%nat]> lv !! f = Some 0%nat) by (by rewrite lookup_insert_ne).
  assert (Ef : entry m f physmap_slot = Z.lor (Z.lor g MM_PTE_PRESENT) MM_PTE_WRITABLE).
  { rewrite (Em0 f physmap_slot Hf1) by (unfold physmap_slot; lia). exact Ev. }
  exists lv', p, m. eexists. split; [reflexivity|]. split; [reflexivity|].
  split. { unfold lv'. transitivity (<[g := 1%nat]> lv); by apply insert_subseteq. }
  split; [by eapply (tables_wf_mm lv' (upd p m (upd p1 m1 w0)))|].
  split. { intros i Hi. apply Am. exact (te_alloc _ _ _ _ X i Hi). } split; [exact Rk|].
  split; [|split].
  - intros r va Hr D. transitivity (translate (upd p1 m1 w0) r va); [|exact (te_xlate _ _ _ _ X r 0%nat va Hr)].
    apply Tm.
    { rewrite lookup_insert_ne; [exact Hr|]. intros <-. rewrite Hg in Hr. discriminate. }
    left. intros (Q1 & Q2 & Q3). cbn [leads ram upd set_ram] in Q1, Q2, Q3.
    assert (N : ~ (f = r /\ physmap_slot = walk_index va 0)) by (clear - D; naive_solver).
    rewrite (Eold r 0%nat _ Hr (walk_index_range va 0) N) in Q1, Q2, Q3.
    pose proof (tw_child _ _ W0 r 0%nat _ Hr ltac:(lia) (walk_index_range va 0) Q1 Q2) as C.
    change (ram w0) with (ram w) in *. rewrite Q3, Hg in C. discriminate.
  - intros x Hx. destruct (physmap_walk x ltac:(lia)) as (I0 & I1 & I2).
    assert (Hk : 0 <= x / 2 ^ 21 < n) by (split; [apply Z.div_pos; lia|apply Z.div_lt_upper_bound; lia]).
    destruct (large_page_ok (x / 2 ^ 21) ltac:(lia)) as (_ & L1 & L2 & L3).
    etransitivity; [apply (xlate_large m f g h (MM_PHYSMAP_BASE + x) (large_page (x / 2 ^ 21)))|].
    + by rewrite I0, Ef.
    + rewrite I1. by split_and!.
    + rewrite I2. by rewrite (Hm _ Hk).
    + rewrite L3. f_equal. apply physmap_offset. lia.
  - intros b Hb. rewrite (Rm b Hb). apply (te_ram _ _ _ _ X b).
    by apply lookup_insert_None in Hb as [? _].
Qed.
