(* ===== verification/Ps.v ===== *)
(** * Process manager, scheduler: kernel/ps/init.c, kernel/include/ps.h, arch/aur64

    Threads and processes in their pools, the run queue threaded through
    [RunQueueNext], the dispatcher and its callers.  A pointer to a process, a
    thread or an address space is its index in the pool.

    The registers a context switch saves are [cpu]: [KiArchSwitchContext] stores
    them in one thread's [Context] and loads another's.  A computation of the
    model that switches returns to the code of the thread it switched to; the
    thread switched from resumes after its own call when it is loaded again. *)

From S2P Require Import Prelude CString BootProto Ob PhysMem MmPages MmTables MmSpace MmSection.

(** ** Constants *)

Definition PS_MAX_PROCESSES : Z := 32.
Definition PS_MAX_THREADS : Z := 128.
Definition PS_DEFAULT_TIMESLICE_TICKS : Z := 4.
Definition PS_USER_TOP : Z := 0x0000800000000000.
Definition PS_PTE_PRESENT : Z := 0x001.
Definition PS_PTE_WRITABLE : Z := 0x002.
Definition PS_PTE_USER : Z := 0x004.
Definition PS_PTE_NX : Z := Z.shiftl 1 63.

(** ** Data *)

Inductive PS_THREAD_STATE := PsThreadReady | PsThreadRunning | PsThreadBlocked | PsThreadDead.

#[global] Instance PS_THREAD_STATE_eq_dec : EqDecision PS_THREAD_STATE.
Proof. solve_decision. Defined.

Record AUR64_CONTEXT := {
  Rbx : Z; Rbp : Z; R12 : Z; R13 : Z; R14 : Z; R15 : Z; Rsp : Z; Rip : Z; Rflags : Z }.

Record KPROCESS := {
  ProcessHeader : option nat;
  ProcessId : Z;
  AddressSpaceRoot : option nat }.

Record KTHREAD := {
  ThreadHeader : option nat;
  ThreadId : Z;
  OwnerProcess : option nat;
  Context : AUR64_CONTEXT;
  State : PS_THREAD_STATE;
  TimeSliceTicks : Z;
  RemainingTicks : Z;
  RunQueueNext : option nat;
  WaitQueueNext : option nat;
  StartRoutine : option Z;
  StartContext : Z;
  KernelStackTop : Z;
  IsUserThread : bool;
  UserEntry : Z;
  UserStackTop : Z;
  UserArg0 : Z;
  UserArg1 : Z }.

(** The manager's static variables and the processor's registers.  The last
    three fields are addresses the linker fixes: the thread stacks, the entry
    thunk and the label a switched-out thread resumes at. *)
Record ps_state := {
  gPsProcessType : option nat;
  gPsThreadType : option nat;
  gPsProcessPool : list KPROCESS;
  gPsProcessInUse : list bool;
  gPsThreadPool : list KTHREAD;
  gPsThreadInUse : list bool;
  gPsNextProcessId : Z;
  gPsNextThreadId : Z;
  gPsSystemProcess : option nat;
  gPsCurrentThread : option nat;
  gPsRunQueueHead : option nat;
  gPsRunQueueTail : option nat;
  gPsReschedulePending : bool;
  gPsReady : bool;
  cpu : AUR64_CONTEXT;
  gPsThreadStackPool : Z;
  entry_thunk : Z;
  switch_resume : Z }.

(** Field updates. *)
Definition set_queue (head tail : option nat) (s : ps_state) : ps_state :=
  {| gPsProcessType := gPsProcessType s; gPsThreadType := gPsThreadType s;
     gPsProcessPool := gPsProcessPool s; gPsProcessInUse := gPsProcessInUse s;
     gPsThreadPool := gPsThreadPool s; gPsThreadInUse := gPsThreadInUse s;
     gPsNextProcessId := gPsNextProcessId s; gPsNextThreadId := gPsNextThreadId s;
     gPsSystemProcess := gPsSystemProcess s; gPsCurrentThread := gPsCurrentThread s;
     gPsRunQueueHead := head; gPsRunQueueTail := tail;
     gPsReschedulePending := gPsReschedulePending s; gPsReady := gPsReady s; cpu := cpu s;
     gPsThreadStackPool := gPsThreadStackPool s; entry_thunk := entry_thunk s;
     switch_resume := switch_resume s |}.
Definition set_current (c : option nat) (s : ps_state) : ps_state :=
  {| gPsProcessType := gPsProcessType s; gPsThreadType := gPsThreadType s;
     gPsProcessPool := gPsProcessPool s; gPsProcessInUse := gPsProcessInUse s;
     gPsThreadPool := gPsThreadPool s; gPsThreadInUse := gPsThreadInUse s;
     gPsNextProcessId := gPsNextProcessId s; gPsNextThreadId := gPsNextThreadId s;
     gPsSystemProcess := gPsSystemProcess s; gPsCurrentThread := c;
     gPsRunQueueHead := gPsRunQueueHead s; gPsRunQueueTail := gPsRunQueueTail s;
     gPsReschedulePending := gPsReschedulePending s; gPsReady := gPsReady s; cpu := cpu s;
     gPsThreadStackPool := gPsThreadStackPool s; entry_thunk := entry_thunk s;
     switch_resume := switch_resume s |}.
Definition set_pending (b : bool) (s : ps_state) : ps_state :=
  {| gPsProcessType := gPsProcessType s; gPsThreadType := gPsThreadType s;
     gPsProcessPool := gPsProcessPool s; gPsProcessInUse := gPsProcessInUse s;
     gPsThreadPool := gPsThreadPool s; gPsThreadInUse := gPsThreadInUse s;
     gPsNextProcessId := gPsNextProcessId s; gPsNextThreadId := gPsNextThreadId s;
     gPsSystemProcess := gPsSystemProcess s; gPsCurrentThread := gPsCurrentThread s;
     gPsRunQueueHead := gPsRunQueueHead s; gPsRunQueueTail := gPsRunQueueTail s;
     gPsReschedulePending := b; gPsReady := gPsReady s; cpu := cpu s;
     gPsThreadStackPool := gPsThreadStackPool s; entry_thunk := entry_thunk s;
     switch_resume := switch_resume s |}.
Definition set_cpu (c : AUR64_CONTEXT) (s : ps_state) : ps_state :=
  {| gPsProcessType := gPsProcessType s; gPsThreadType := gPsThreadType s;
     gPsProcessPool := gPsProcessPool s; gPsProcessInUse := gPsProcessInUse s;
     gPsThreadPool := gPsThreadPool s; gPsThreadInUse := gPsThreadInUse s;
     gPsNextProcessId := gPsNextProcessId s; gPsNextThreadId := gPsNextThreadId s;
     gPsSystemProcess := gPsSystemProcess s; gPsCurrentThread := gPsCurrentThread s;
     gPsRunQueueHead := gPsRunQueueHead s; gPsRunQueueTail := gPsRunQueueTail s;
     gPsReschedulePending := gPsReschedulePending s; gPsReady := gPsReady s; cpu := c;
     gPsThreadStackPool := gPsThreadStackPool s; entry_thunk := entry_thunk s;
     switch_resume := switch_resume s |}.
Definition set_threads (pool : list KTHREAD) (inuse : list bool) (s : ps_state) : ps_state :=
  {| gPsProcessType := gPsProcessType s; gPsThreadType := gPsThreadType s;
     gPsProcessPool := gPsProcessPool s; gPsProcessInUse := gPsProcessInUse s;
     gPsThreadPool := pool; gPsThreadInUse := inuse;
     gPsNextProcessId := gPsNextProcessId s; gPsNextThreadId := gPsNextThreadId s;
     gPsSystemProcess := gPsSystemProcess s; gPsCurrentThread := gPsCurrentThread s;
     gPsRunQueueHead := gPsRunQueueHead s; gPsRunQueueTail := gPsRunQueueTail s;
     gPsReschedulePending := gPsReschedulePending s; gPsReady := gPsReady s; cpu := cpu s;
     gPsThreadStackPool := gPsThreadStackPool s; entry_thunk := entry_thunk s;
     switch_resume := switch_resume s |}.

Definition set_State (x : PS_THREAD_STATE) (t : KTHREAD) : KTHREAD :=
  {| ThreadHeader := ThreadHeader t; ThreadId := ThreadId t; OwnerProcess := OwnerProcess t;
     Context := Context t; State := x; TimeSliceTicks := TimeSliceTicks t;
     RemainingTicks := RemainingTicks t; RunQueueNext := RunQueueNext t; WaitQueueNext := WaitQueueNext t;
     StartRoutine := StartRoutine t; StartContext := StartContext t; KernelStackTop := KernelStackTop t;
     IsUserThread := IsUserThread t; UserEntry := UserEntry t; UserStackTop := UserStackTop t;
     UserArg0 := UserArg0 t; UserArg1 := UserArg1 t |}.
Definition set_RunQueueNext (n : option nat) (t : KTHREAD) : KTHREAD :=
  {| ThreadHeader := ThreadHeader t; ThreadId := ThreadId t; OwnerProcess := OwnerProcess t;
     Context := Context t; State := State t; TimeSliceTicks := TimeSliceTicks t;
     RemainingTicks := RemainingTicks t; RunQueueNext := n; WaitQueueNext := WaitQueueNext t;
     StartRoutine := StartRoutine t; StartContext := StartContext t; KernelStackTop := KernelStackTop t;
     IsUserThread := IsUserThread t; UserEntry := UserEntry t; UserStackTop := UserStackTop t;
     UserArg0 := UserArg0 t; UserArg1 := UserArg1 t |}.
Definition set_RemainingTicks (n : Z) (t : KTHREAD) : KTHREAD :=
  {| ThreadHeader := ThreadHeader t; ThreadId := ThreadId t; OwnerProcess := OwnerProcess t;
     Context := Context t; State := State t; TimeSliceTicks := TimeSliceTicks t;
     RemainingTicks := n; RunQueueNext := RunQueueNext t; WaitQueueNext := WaitQueueNext t;
     StartRoutine := StartRoutine t; StartContext := StartContext t; KernelStackTop := KernelStackTop t;
     IsUserThread := IsUserThread t; UserEntry := UserEntry t; UserStackTop := UserStackTop t;
     UserArg0 := UserArg0 t; UserArg1 := UserArg1 t |}.
Definition set_Context (c : AUR64_CONTEXT) (t : KTHREAD) : KTHREAD :=
  {| ThreadHeader := ThreadHeader t; ThreadId := ThreadId t; OwnerProcess := OwnerProcess t;
     Context := c; State := State t; TimeSliceTicks := TimeSliceTicks t;
     RemainingTicks := RemainingTicks t; RunQueueNext := RunQueueNext t; WaitQueueNext := WaitQueueNext t;
     StartRoutine := StartRoutine t; StartContext := StartContext t; KernelStackTop := KernelStackTop t;
     IsUserThread := IsUserThread t; UserEntry := UserEntry t; UserStackTop := UserStackTop t;
     UserArg0 := UserArg0 t; UserArg1 := UserArg1 t |}.
Definition set_Start (r : option Z) (c : Z) (t : KTHREAD) : KTHREAD :=
  {| ThreadHeader := ThreadHeader t; ThreadId := ThreadId t; OwnerProcess := OwnerProcess t;
     Context := Context t; State := State t; TimeSliceTicks := TimeSliceTicks t;
     RemainingTicks := RemainingTicks t; RunQueueNext := RunQueueNext t; WaitQueueNext := WaitQueueNext t;
     StartRoutine := r; StartContext := c; KernelStackTop := KernelStackTop t;
     IsUserThread := IsUserThread t; UserEntry := UserEntry t; UserStackTop := UserStackTop t;
     UserArg0 := UserArg0 t; UserArg1 := UserArg1 t |}.

(** ** Threads by index *)

Definition get_thread (i : nat) : M ps_state KTHREAD := fun s => load_at (gPsThreadPool s) i s.
Definition put_thread (i : nat) (t : KTHREAD) : M ps_state unit := fun s =>
  (pool <- store_at i t (gPsThreadPool s) ;;
   modify (fun s => set_threads pool (gPsThreadInUse s) s)) s.
Definition update_thread (i : nat) (f : KTHREAD -> KTHREAD) : M ps_state unit :=
  t <- get_thread i ;; put_thread i (f t).

(** ** Slots *)

Definition PspAllocateProcessSlot (OutProcess : bool) : M ps_state (KSTATUS * option nat) := fun s =>
  if negb OutProcess then Ret (KSTATUS_INVALID_PARAMETER, None) s
  else
    match find_first negb (gPsProcessInUse s) with
    | Some i =>
        Ret (KSTATUS_SUCCESS, Some i)
          {| gPsProcessType := gPsProcessType s; gPsThreadType := gPsThreadType s;
             gPsProcessPool := gPsProcessPool s; gPsProcessInUse := <[i := true]> (gPsProcessInUse s);
             gPsThreadPool := gPsThreadPool s; gPsThreadInUse := gPsThreadInUse s;
             gPsNextProcessId := gPsNextProcessId s; gPsNextThreadId := gPsNextThreadId s;
             gPsSystemProcess := gPsSystemProcess s; gPsCurrentThread := gPsCurrentThread s;
             gPsRunQueueHead := gPsRunQueueHead s; gPsRunQueueTail := gPsRunQueueTail s;
             gPsReschedulePending := gPsReschedulePending s; gPsReady := gPsReady s; cpu := cpu s;
             gPsThreadStackPool := gPsThreadStackPool s; entry_thunk := entry_thunk s;
             switch_resume := switch_resume s |}
    | None => Ret (KSTATUS_INIT_FAILED, None) s
    end.

Definition PspAllocateThreadSlot (OutThread : bool) : M ps_state (KSTATUS * option nat) := fun s =>
  if negb OutThread then Ret (KSTATUS_INVALID_PARAMETER, None) s
  else
    match find_first negb (gPsThreadInUse s) with
    | Some i => Ret (KSTATUS_SUCCESS, Some i)
                    (set_threads (gPsThreadPool s) (<[i := true]> (gPsThreadInUse s)) s)
    | None => Ret (KSTATUS_INIT_FAILED, None) s
    end.

(** ** The run queue *)

Definition PspRunQueuePush (Thread : option nat) : M ps_state unit :=
  NK_ASSERT (bool_decide (is_Some Thread)) ;;;
  i <- deref Thread ;;
  t <- get_thread i ;;
  NK_ASSERT (negb (bool_decide (State t = PsThreadDead))) ;;;
  update_thread i (set_RunQueueNext None) ;;;
  s <- gets (fun s => s) ;;
  match gPsRunQueueTail s with
  | None => modify (set_queue (Some i) (Some i))
  | Some tail =>
      update_thread tail (set_RunQueueNext (Some i)) ;;;
      modify (fun s => set_queue (gPsRunQueueHead s) (Some i) s)
  end.

Definition PspRunQueuePop : M ps_state (option nat) :=
  s <- gets (fun s => s) ;;
  match gPsRunQueueHead s with
  | None => ret None
  | Some i =>
      t <- get_thread i ;;
      modify (fun s => set_queue (RunQueueNext t)
        (match RunQueueNext t with None => None | Some _ => gPsRunQueueTail s end) s) ;;;
      update_thread i (set_RunQueueNext None) ;;;
      ret (Some i)
  end.

Definition PsReadyThread (Thread : option nat) : M ps_state KSTATUS :=
  s <- gets (fun s => s) ;;
  match Thread with
  | None => ret KSTATUS_INVALID_PARAMETER
  | Some i =>
      if negb (gPsReady s) then ret KSTATUS_INVALID_PARAMETER
      else
        t <- get_thread i ;;
        if bool_decide (State t = PsThreadDead) then ret KSTATUS_INVALID_PARAMETER
        else
          update_thread i (set_State PsThreadReady) ;;;
          PspRunQueuePush Thread ;;;
          ret KSTATUS_SUCCESS
  end.

Definition PsWakeThread (Thread : option nat) : M ps_state unit :=
  s <- gets (fun s => s) ;;
  match Thread with
  | None => ret tt
  | Some i =>
      if negb (gPsReady s) then ret tt
      else
        t <- get_thread i ;;
        if bool_decide (State t = PsThreadBlocked) then
          update_thread i (set_State PsThreadReady) ;;;
          PspRunQueuePush Thread
        else ret tt
  end.

Definition PsOnTimerTick : M ps_state unit :=
  s <- gets (fun s => s) ;;
  match gPsCurrentThread s with
  | None => ret tt
  | Some i =>
      if negb (gPsReady s) then ret tt
      else
        t <- get_thread i ;;
        let Remaining := if RemainingTicks t >? 0 then RemainingTicks t - 1 else RemainingTicks t in
        update_thread i (set_RemainingTicks Remaining) ;;;
        (if Remaining =? 0 then modify (set_pending true) else ret tt)
  end.

Definition PsGetCurrentThread : M ps_state (option nat) := gets gPsCurrentThread.

Definition PsGetCurrentProcess : M ps_state (option nat) :=
  s <- gets (fun s => s) ;;
  match gPsCurrentThread s with
  | None => ret None
  | Some i => t <- get_thread i ;; ret (OwnerProcess t)
  end.

(** ** The processor context: kernel/arch/aur64/context.c *)

(** [StackTop], [EntryRoutine]: unchanged context when either is refused. *)
Definition KiArchInitializeContext (Context_ : AUR64_CONTEXT) (StackTop : Z) (EntryRoutine : option Z)
  : AUR64_CONTEXT :=
  match EntryRoutine with
  | None => Context_
  | Some entry =>
      if StackTop <? 16 then Context_
      else
        {| Rbx := 0; Rbp := 0; R12 := 0; R13 := 0; R14 := 0; R15 := 0;
           Rsp := u64 (Z.land StackTop (lnot64 0x0F) - 8); Rip := entry; Rflags := 0x202 |}
  end.

(** What the instructions store through [OutContext]: the registers, with the
    label they resume at. *)
Definition saved_context (resume : Z) (c : AUR64_CONTEXT) : AUR64_CONTEXT :=
  {| Rbx := Rbx c; Rbp := Rbp c; R12 := R12 c; R13 := R13 c; R14 := R14 c; R15 := R15 c;
     Rsp := Rsp c; Rip := resume; Rflags := Rflags c |}.

Definition KiArchSwitchContext (CurrentContext : option nat) (NextContext : option nat) : M ps_state unit :=
  match NextContext with
  | None => ret tt
  | Some next =>
      s <- gets (fun s => s) ;;
      (match CurrentContext with
       | None => ret tt
       | Some cur => update_thread cur (set_Context (saved_context (switch_resume s) (cpu s)))
       end) ;;;
      t <- get_thread next ;;
      modify (set_cpu (Context t))
  end.

(** ** The dispatcher *)

(** The previous thread goes back to the queue if it was running. *)
Definition requeue (PreviousThread : option nat) : M ps_state unit :=
  match PreviousThread with
  | None => ret tt
  | Some prev =>
      p <- get_thread prev ;;
      if bool_decide (State p = PsThreadRunning) then
        update_thread prev (set_State PsThreadReady) ;;;
        PspRunQueuePush (Some prev)
      else ret tt
  end.

(** The thread taken from the queue becomes the current one; the result is the
    previous one. *)
Definition select_thread (next : nat) : M ps_state (option nat) :=
  n <- get_thread next ;;
  NK_ASSERT (bool_decide (is_Some (OwnerProcess n))) ;;;
  PreviousThread <- PsGetCurrentThread ;;
  requeue PreviousThread ;;;
  update_thread next (set_State PsThreadRunning) ;;;
  update_thread next (fun t => set_RemainingTicks (TimeSliceTicks t) t) ;;;
  modify (set_current (Some next)) ;;;
  ret PreviousThread.

(** The switch away from the previous thread, if there was another one. *)
Definition leave_thread (PreviousThread : option nat) (next : nat) : M ps_state unit :=
  match PreviousThread with
  | None => ret tt
  | Some prev =>
      if bool_decide (prev = next) then ret tt else KiArchSwitchContext (Some prev) (Some next)
  end.

(** What the process manager needs of the HAL. *)
Class PsWorld (W : Type) `{MmWorld W} := {
  ps_get : W -> ps_state;
  ps_put : ps_state -> W -> W;
  HalSetKernelStackPointer : Z -> M W unit;
  HalRegisterTimerTickRoutine : M W unit }.

Section World.
Context {W : Type} `{PsWorld W}.

Definition ps {A} (m : M ps_state A) : M W A := zoom ps_get ps_put m.

(** The HAL and the address space of the thread the processor will run. *)
Definition enter_thread (next : nat) : M W unit :=
  n <- ps (get_thread next) ;;
  HalSetKernelStackPointer (KernelStackTop n) ;;;
  match OwnerProcess n with
  | None => ret tt
  | Some p =>
      q <- ps (fun s => load_at (gPsProcessPool s) p s) ;;
      match AddressSpaceRoot q with
      | None => ret tt
      | Some a => mmM (MmActivateAddressSpace (Some a)) ;;; ret tt
      end
  end.

Definition PsDispatch : M W KSTATUS :=
  s <- gets ps_get ;;
  if negb (gPsReady s) then ret KSTATUS_INVALID_PARAMETER
  else
    NextThread <- ps PspRunQueuePop ;;
    match NextThread with
    | None => ret KSTATUS_INIT_FAILED
    | Some next =>
        PreviousThread <- ps (select_thread next) ;;
        enter_thread next ;;;
        ps (leave_thread PreviousThread next) ;;;
        ret KSTATUS_SUCCESS
    end.

Definition PsYieldThread : M W KSTATUS :=
  s <- gets ps_get ;;
  match gPsCurrentThread s with
  | None => ret KSTATUS_INVALID_PARAMETER
  | Some cur =>
      if negb (gPsReady s) then ret KSTATUS_INVALID_PARAMETER
      else
        t <- ps (get_thread cur) ;;
        NK_ASSERT (bool_decide (State t = PsThreadRunning)) ;;;
        ps (modify (set_pending false)) ;;;
        PsDispatch
  end.

(** Leaving the processor in state [x]: dead or blocked. *)
Definition leave_processor (x : PS_THREAD_STATE) : M W KSTATUS :=
  s <- gets ps_get ;;
  match gPsCurrentThread s with
  | None => ret KSTATUS_INVALID_PARAMETER
  | Some cur =>
      if negb (gPsReady s) then ret KSTATUS_INVALID_PARAMETER
      else
        ps (update_thread cur (set_State x)) ;;;
        ps (modify (set_current None)) ;;;
        PsDispatch
  end.

Definition PsExitCurrentThread (ExitCode : Z) : M W KSTATUS := leave_processor PsThreadDead.
Definition PsBlockCurrentThread : M W KSTATUS := leave_processor PsThreadBlocked.

Definition PsHandlePreemptionPoint : M W unit :=
  s <- gets ps_get ;;
  if negb (gPsReady s) || negb (gPsReschedulePending s) then ret tt
  else PsYieldThread ;;; ret tt.

(** ** The entry thunk

    One turn of its loop, up to the code it calls: user mode, from which it does
    not come back, a kernel start routine, or straight to the end of the turn. *)
Inductive thunk_call :=
| EnterUserMode (Entry StackTop Arg0 Arg1 : Z)
| CallStart (Routine Context_ : Z)
| NoCall.

Definition PspThreadEntryThunk_begin : M W (nat * thunk_call) :=
  CurrentThread <- ps PsGetCurrentThread ;;
  match CurrentThread with
  | None => halt
  | Some cur =>
      t <- ps (get_thread cur) ;;
      if IsUserThread t then
        ret (cur, EnterUserMode (UserEntry t) (UserStackTop t) (UserArg0 t) (UserArg1 t))
      else
        match StartRoutine t with
        | Some r => ps (update_thread cur (set_Start None 0)) ;;; ret (cur, CallStart r (StartContext t))
        | None => ret (cur, NoCall)
        end
  end.

(** After the call has returned. *)
Definition PspThreadEntryThunk_end (CurrentThread : nat) : M W unit :=
  ps (update_thread CurrentThread (set_State PsThreadDead)) ;;;
  PsDispatch ;;; ret tt.

End World.
