(* ===== verification/PsInv.v ===== *)
(** * Process manager, scheduler: invariant and theorems

    The run queue is a list of threads without repetition, linked through
    [RunQueueNext]; its threads are ready, and at most one thread, the current
    one, is running. *)

From S2P Require Import Prelude CString BootProto Ob PhysMem MmPages MmTables MmSpace MmSection Ps.

(** ** The run queue *)

Record queue_ok (s : ps_state) (q : list nat) : Prop := {
  qo_head : gPsRunQueueHead s = head q;
  qo_tail : gPsRunQueueTail s = last q;
  qo_nodup : NoDup q;
  qo_link : forall k i, q !! k = Some i ->
    exists t, gPsThreadPool s !! i = Some t /\ RunQueueNext t = q !! S k }.

(** A thread without its link. *)
Definition core (t : KTHREAD) : KTHREAD := set_RunQueueNext None t.

(** A state without its queue and threads. *)
Definition rest (s : ps_state) : ps_state := set_queue None None (set_threads [] (gPsThreadInUse s) s).

(** The states differ in the queue and the links alone. *)
Record relinked (s s' : ps_state) : Prop := {
  rl_state : rest s' = rest s;
  rl_core : forall i, core <$> gPsThreadPool s' !! i = core <$> gPsThreadPool s !! i }.

Lemma relinked_refl s : relinked s s.
Proof. done. Qed.

Lemma rest_fields s s' : rest s' = rest s ->
  gPsProcessPool s' = gPsProcessPool s /\ gPsReady s' = gPsReady s /\ gPsCurrentThread s' = gPsCurrentThread s /\
  cpu s' = cpu s /\ switch_resume s' = switch_resume s /\ gPsReschedulePending s' = gPsReschedulePending s.
Proof.
  intros E. split_and!; [exact (f_equal gPsProcessPool E)|exact (f_equal gPsReady E)|
    exact (f_equal gPsCurrentThread E)|exact (f_equal cpu E)|exact (f_equal switch_resume E)|
    exact (f_equal gPsReschedulePending E)].
Qed.

Lemma get_thread_ok s i t : gPsThreadPool s !! i = Some t -> get_thread i s = Ret t s.
Proof. apply load_at_ok. Qed.

Lemma update_thread_ok s i t f : gPsThreadPool s !! i = Some t ->
  update_thread i f s = Ret tt (set_threads (<[i := f t]> (gPsThreadPool s)) (gPsThreadInUse s) s).
Proof.
  intros Ht. unfold update_thread. rewrite (bind_eq _ _ _ _ _ (get_thread_ok _ _ _ Ht)). unfold put_thread.
  rewrite (bind_eq _ _ _ _ _ (store_at_ok i (f t) _ s (lookup_lt_Some _ _ _ Ht))). reflexivity.
Qed.

Lemma core_next n t : core (set_RunQueueNext n t) = core t.
Proof. reflexivity. Qed.

Lemma core_insert (pool : list KTHREAD) i t n j : pool !! i = Some t ->
  core <$> <[i := set_RunQueueNext n t]> pool !! j = core <$> pool !! j.
Proof.
  intros Ht. destruct (decide (i = j)) as [<-|N].
  - rewrite list_lookup_insert_eq by (by eapply lookup_lt_Some). by rewrite Ht.
  - by rewrite list_lookup_insert_ne.
Qed.

(** Pushing appends. *)
Lemma push_spec s q i t : queue_ok s q -> i ∉ q -> gPsThreadPool s !! i = Some t -> State t <> PsThreadDead ->
  exists s', PspRunQueuePush (Some i) s = Ret tt s' /\ queue_ok s' (q ++ [i]) /\ relinked s s'.
Proof.
  intros [Qh Qt Qn Ql] Ni Ht Nd. unfold PspRunQueuePush, NK_ASSERT.
  rewrite bool_decide_eq_true_2 by done. rewrite bind_ret_l, bind_deref.
  rewrite (bind_eq _ _ _ _ _ (get_thread_ok _ _ _ Ht)), bool_decide_eq_false_2 by done. cbn [negb].
  rewrite bind_ret_l, (bind_eq _ _ _ _ _ (update_thread_ok _ _ _ _ Ht)), bind_gets.
  set (pool1 := <[i := set_RunQueueNext None t]> (gPsThreadPool s)).
  assert (Li : (i < length (gPsThreadPool s))%nat) by (by eapply lookup_lt_Some).
  cbn [gPsRunQueueTail set_threads]. rewrite Qt. destruct q as [|h q'].
  { eexists. split; [reflexivity|]. split; constructor; cbn.
    - done. - done. - constructor; [set_solver|constructor].
    - intros [|k] j E; [|done]. injection E as <-. eexists. split; [apply list_lookup_insert_eq; done|done].
    - done.
    - intros j. by apply core_insert. }
  destruct (last (h :: q')) as [tail|] eqn:EL; [|by apply last_None in EL].
  rewrite last_lookup in EL. remember (h :: q') as q eqn:Eq. clear Eq.
  set (m := pred (length q)) in *.
  destruct (Ql m tail EL) as (tt0 & Htt & Hl).
  assert (Nt : i <> tail) by (intros ->; apply Ni; by eapply list_elem_of_lookup_2).
  assert (Ht1 : pool1 !! tail = Some tt0) by (unfold pool1; by rewrite list_lookup_insert_ne).
  rewrite (bind_eq _ _ _ _ _ (update_thread_ok (set_threads pool1 (gPsThreadInUse s) s) tail tt0 _ Ht1)).
  eexists. split; [reflexivity|]. cbn [gPsThreadPool set_threads].
  assert (EM : S m = length q) by (apply lookup_lt_Some in EL; lia).
  split; constructor; cbn [gPsRunQueueHead gPsRunQueueTail gPsThreadPool set_queue set_threads].
  - rewrite Qh. by destruct q.
  - by rewrite last_snoc.
  - apply NoDup_app. split_and!; [done|set_solver|apply NoDup_singleton].
  - intros k j E. apply lookup_app_Some in E as [E|[Hk E]].
    + destruct (Ql k j E) as (tj & Hj & Lj). pose proof (lookup_lt_Some _ _ _ E) as Lk.
      assert (i <> j) by (intros ->; apply Ni; by eapply list_elem_of_lookup_2).
      destruct (decide (k = m)) as [->|Nk].
      * assert (j = tail) as -> by congruence.
        eexists. split; [apply list_lookup_insert_eq; unfold pool1; rewrite length_insert; by eapply lookup_lt_Some|].
        cbn. rewrite lookup_app_r by lia. by rewrite EM, Nat.sub_diag.
      * assert (tail <> j) by (intros <-; apply Nk; by eapply NoDup_lookup).
        exists tj. rewrite list_lookup_insert_ne by done. unfold pool1. rewrite list_lookup_insert_ne by done.
        split; [done|]. rewrite lookup_app_l by lia. done.
    + apply list_lookup_singleton_Some in E as [Ek <-]. exists (set_RunQueueNext None t).
      rewrite list_lookup_insert_ne by done. split; [by apply list_lookup_insert_eq|].
      cbn. symmetry. apply lookup_ge_None_2. rewrite length_app. cbn. lia.
  - done.
  - intros j. rewrite (core_insert _ _ _ _ _ Ht1). by apply core_insert.
Qed.

(** Popping takes the head. *)
Lemma pop_spec s q : queue_ok s q ->
  match q with
  | [] => PspRunQueuePop s = Ret None s
  | i :: q' => exists s', PspRunQueuePop s = Ret (Some i) s' /\ queue_ok s' q' /\ relinked s s'
  end.
Proof.
  intros [Qh Qt Qn Ql]. destruct q as [|i q']; unfold PspRunQueuePop; rewrite bind_gets, Qh; cbn [head]; [done|].
  destruct (Ql 0%nat i eq_refl) as (t & Ht & Hl). rewrite (bind_eq _ _ _ _ _ (get_thread_ok _ _ _ Ht)).
  rewrite bind_modify.
  set (s1 := set_queue _ _ s). assert (Ht1 : gPsThreadPool s1 !! i = Some t) by done.
  rewrite (bind_eq _ _ _ _ _ (update_thread_ok s1 i t _ Ht1)). unfold ret.
  eexists. split; [reflexivity|]. apply NoDup_cons in Qn as [Ni Qn].
  split; constructor; cbn [s1 gPsRunQueueHead gPsRunQueueTail gPsThreadPool set_queue set_threads].
  - rewrite Hl. by destruct q'.
  - rewrite Hl. destruct q' as [|j q']; [done|]. cbn [lookup list_lookup]. by rewrite Qt.
  - done.
  - intros k j E. destruct (Ql (S k) j E) as (tj & Hj & Lj). exists tj.
    rewrite list_lookup_insert_ne; [done|]. intros ->. apply Ni. by eapply list_elem_of_lookup_2.
  - done.
  - intros j. by apply core_insert.
Qed.

(** ** The scheduler's invariant *)

(** A thread whose process exists. *)
Definition owned (s : ps_state) (t : KTHREAD) : Prop :=
  exists p, OwnerProcess t = Some p /\ is_Some (gPsProcessPool s !! p).

(** The queue is [q] and the current thread, if any, is [cur], running or
    already dead; no other thread is running. *)
Record sched_ok (s : ps_state) (q : list nat) (cur : option nat) : Prop := {
  so_queue : queue_ok s q;
  so_ready : gPsReady s = true;
  so_cur : gPsCurrentThread s = cur;
  so_queued : forall i, i ∈ q -> exists t, gPsThreadPool s !! i = Some t /\ State t = PsThreadReady /\ owned s t;
  so_running : forall c, cur = Some c -> (c ∉ q) /\ exists t, gPsThreadPool s !! c = Some t /\
    (State t = PsThreadRunning \/ State t = PsThreadDead) /\ owned s t;
  so_only : forall i t, gPsThreadPool s !! i = Some t -> State t = PsThreadRunning -> cur = Some i }.

(** The thread the dispatcher puts back in the queue. *)
Definition requeued (s : ps_state) : list nat :=
  match gPsCurrentThread s with
  | None => []
  | Some c => match gPsThreadPool s !! c with
              | Some t => if bool_decide (State t = PsThreadRunning) then [c] else []
              | None => []
              end
  end.

Definition running (s : ps_state) (c : nat) : Prop :=
  exists t, gPsThreadPool s !! c = Some t /\ State t = PsThreadRunning.

Lemma core_state t t' : core t = core t' -> State t = State t' /\ OwnerProcess t = OwnerProcess t' /\
  Context t = Context t' /\ TimeSliceTicks t = TimeSliceTicks t' /\ RemainingTicks t = RemainingTicks t' /\
  KernelStackTop t = KernelStackTop t'.
Proof. destruct t, t'. unfold core, set_RunQueueNext. cbn. by intros [= ]. Qed.

Lemma relinked_lookup s s' i t : relinked s s' -> gPsThreadPool s !! i = Some t ->
  exists t', gPsThreadPool s' !! i = Some t' /\ core t' = core t.
Proof.
  intros [_ R] Ht. specialize (R i). rewrite Ht in R. destruct (gPsThreadPool s' !! i) as [t'|]; [|done].
  exists t'. split; [done|]. cbn in R. congruence.
Qed.

(** ** Updates of one thread *)

Definition upd_thread (i : nat) (t : KTHREAD) (s : ps_state) : ps_state :=
  set_threads (<[i := t]> (gPsThreadPool s)) (gPsThreadInUse s) s.

Lemma upd_thread_lookup i t s j : (i < length (gPsThreadPool s))%nat ->
  gPsThreadPool (upd_thread i t s) !! j = if decide (i = j) then Some t else gPsThreadPool s !! j.
Proof.
  intros L. cbn. destruct (decide (i = j)) as [<-|N]; [by apply list_lookup_insert_eq|by apply list_lookup_insert_ne].
Qed.

(** A change that keeps the link keeps the queue. *)
Lemma queue_ok_upd s q i t t' : queue_ok s q -> gPsThreadPool s !! i = Some t ->
  RunQueueNext t' = RunQueueNext t -> queue_ok (upd_thread i t' s) q.
Proof.
  intros [Qh Qt Qn Ql] Ht Hn. constructor; [exact Qh|exact Qt|exact Qn|].
  intros k j E. destruct (Ql k j E) as (tj & Hj & Lj).
  rewrite upd_thread_lookup by (by eapply lookup_lt_Some).
  destruct (decide (i = j)) as [<-|N]; [|by exists tj]. exists t'. split; [done|]. congruence.
Qed.

(** What the dispatcher makes of thread [i], links aside. *)
Definition dispatched (next : nat) (prev : list nat) (i : nat) (t : KTHREAD) : KTHREAD :=
  let t := if bool_decide (i ∈ prev) then set_State PsThreadReady t else t in
  if bool_decide (i = next) then set_RemainingTicks (TimeSliceTicks t) (set_State PsThreadRunning t) else t.

(** ... and with the registers saved for the thread it switches from. *)
Definition switched (s : ps_state) (next i : nat) (t : KTHREAD) : KTHREAD :=
  let t := dispatched next (requeued s) i t in
  if bool_decide (gPsCurrentThread s = Some i) then set_Context (saved_context (switch_resume s) (cpu s)) t else t.

Lemma requeue_spec s q cur : queue_ok s q -> gPsCurrentThread s = cur ->
  (forall c, cur = Some c -> (c ∉ q) /\ is_Some (gPsThreadPool s !! c)) ->
  exists s', requeue cur s = Ret tt s' /\ queue_ok s' (q ++ requeued s) /\
    rest s' = rest s /\
    forall i, core <$> gPsThreadPool s' !! i = (fun t => core (if bool_decide (i ∈ requeued s)
      then set_State PsThreadReady t else t)) <$> gPsThreadPool s !! i.
Proof.
  intros Q Ec Hc. unfold requeued. rewrite Ec. destruct cur as [c|]; cbn [requeue].
  2: { exists s. rewrite app_nil_r. split_and!; [done|done|done|]. intros i.
       by destruct (gPsThreadPool s !! i). }
  destruct (Hc c eq_refl) as [Nc [t Ht]]. rewrite (bind_eq _ _ _ _ _ (get_thread_ok _ _ _ Ht)), Ht.
  case_bool_decide as R.
  2: { exists s. rewrite app_nil_r. split_and!; [done|done|done|]. intros i.
       by destruct (gPsThreadPool s !! i). }
  rewrite (bind_eq _ _ _ _ _ (update_thread_ok _ _ _ _ Ht)). fold (upd_thread c (set_State PsThreadReady t) s).
  assert (Lc : (c < length (gPsThreadPool s))%nat) by (by eapply lookup_lt_Some).
  destruct (push_spec (upd_thread c (set_State PsThreadReady t) s) q c (set_State PsThreadReady t))
    as (s' & E & Q' & [A B]).
  - by apply (queue_ok_upd _ _ _ t).
  - done.
  - rewrite upd_thread_lookup by done. by rewrite decide_True.
  - done.
  - exists s'. split_and!; [done|done|done|].
    + intros i. rewrite B, upd_thread_lookup by done. destruct (decide (c = i)) as [<-|N].
      * rewrite Ht. cbn. by rewrite bool_decide_eq_true_2 by set_solver.
      * rewrite bool_decide_eq_false_2 by set_solver. by destruct (gPsThreadPool s !! i).
Qed.

Lemma relinked_requeued s s' : relinked s s' -> requeued s' = requeued s.
Proof.
  intros R. destruct (rest_fields _ _ (rl_state _ _ R)) as (_ & _ & E & _). unfold requeued. rewrite E.
  destruct (gPsCurrentThread s) as [c|]; [|done]. pose proof (rl_core _ _ R c) as B.
  destruct (gPsThreadPool s !! c) as [t|], (gPsThreadPool s' !! c) as [t'|]; try done.
  cbn in B. assert (core t' = core t) as D by congruence. destruct (core_state _ _ D) as [-> _]. done.
Qed.

Lemma requeued_cur s i : i ∈ requeued s -> gPsCurrentThread s = Some i.
Proof.
  unfold requeued. destruct (gPsCurrentThread s) as [c|]; [|set_solver].
  destruct (gPsThreadPool s !! c); [|set_solver]. case_bool_decide; set_solver.
Qed.

Lemma next_not_requeued s next q cur : sched_ok s (next :: q) cur -> next ∉ requeued s.
Proof.
  intros S N. apply requeued_cur in N. rewrite (so_cur _ _ _ S) in N.
  destruct (so_running _ _ _ S next N) as [X _]. set_solver.
Qed.

Lemma fmap_lookup_Some (s s' : ps_state) i t (f : KTHREAD -> KTHREAD) :
  core <$> gPsThreadPool s' !! i = (fun t => core (f t)) <$> gPsThreadPool s !! i ->
  gPsThreadPool s !! i = Some t -> exists t', gPsThreadPool s' !! i = Some t' /\ core t' = core (f t).
Proof.
  intros E Ht. rewrite Ht in E. destruct (gPsThreadPool s' !! i) as [t'|]; [|done].
  exists t'. split; [done|]. cbn in E. congruence.
Qed.

(** Choosing the next thread. *)
Lemma select_spec s1 q' s next cur t : queue_ok s1 q' -> relinked s s1 -> sched_ok s (next :: q') cur ->
  gPsThreadPool s !! next = Some t -> is_Some (OwnerProcess t) ->
  exists s', select_thread next s1 = Ret cur s' /\ queue_ok s' (q' ++ requeued s) /\
    gPsCurrentThread s' = Some next /\
    rest s' = rest (set_current (Some next) s) /\
    forall i, core <$> gPsThreadPool s' !! i = (fun t => core (dispatched next (requeued s) i t)) <$> gPsThreadPool s !! i.
Proof.
  intros Q1 R1 S Ht Ow. pose proof S as [_ _ C _ SR _].
  destruct (rest_fields _ _ (rl_state _ _ R1)) as (F1 & F2 & F3 & F4 & F5 & F6).
  destruct (relinked_lookup _ _ _ _ R1 Ht) as (t1 & Ht1 & Ct1).
  destruct (core_state _ _ Ct1) as (K1 & K2 & K3 & K4 & K5 & K6).
  unfold select_thread. rewrite (bind_eq _ _ _ _ _ (get_thread_ok _ _ _ Ht1)).
  rewrite K2, bool_decide_eq_true_2 by done. cbn [NK_ASSERT]. rewrite bind_ret_l.
  unfold PsGetCurrentThread. rewrite bind_gets, F3, C.
  destruct (requeue_spec s1 q' cur Q1 ltac:(congruence)) as (s2 & E2 & Q2 & A2 & B2).
  { intros c Hc. destruct (SR c Hc) as (N & tc & Htc & _). destruct (relinked_lookup _ _ _ _ R1 Htc) as (? & ? & _).
    split; [set_solver|by eexists]. }
  rewrite (relinked_requeued _ _ R1) in Q2, B2. rewrite (bind_eq _ _ _ _ _ E2).
  assert (Nr : next ∉ requeued s) by exact (next_not_requeued _ _ _ _ S).
  assert (B3 : forall i, core <$> gPsThreadPool s2 !! i =
    (fun t => core (if bool_decide (i ∈ requeued s) then set_State PsThreadReady t else t)) <$> gPsThreadPool s !! i).
  { intros i. rewrite B2. pose proof (rl_core _ _ R1 i) as Bi.
    destruct (gPsThreadPool s1 !! i) as [u|], (gPsThreadPool s !! i) as [v|]; try done. cbn in Bi |- *.
    assert (core u = core v) as Cuv by congruence. f_equal. case_bool_decide; [|done].
    change (core (set_State PsThreadReady (core u)) = core (set_State PsThreadReady (core v))). by rewrite Cuv. }
  destruct (fmap_lookup_Some _ _ _ _ _ (B3 next) Ht) as (t2 & Ht2 & Ct2).
  rewrite bool_decide_eq_false_2 in Ct2 by done.
  rewrite (bind_eq _ _ _ _ _ (update_thread_ok _ _ _ _ Ht2)). fold (upd_thread next (set_State PsThreadRunning t2) s2).
  set (s3 := upd_thread next _ s2).
  assert (Ln : (next < length (gPsThreadPool s2))%nat) by (by eapply lookup_lt_Some).
  assert (Ht3 : gPsThreadPool s3 !! next = Some (set_State PsThreadRunning t2))
    by (unfold s3; rewrite upd_thread_lookup by done; by rewrite decide_True).
  rewrite (bind_eq _ _ _ _ _ (update_thread_ok _ _ _ _ Ht3)), bind_modify. unfold ret.
  set (t4 := set_RemainingTicks _ _). fold (upd_thread next t4 s3). set (s4 := upd_thread next t4 s3).
  exists (set_current (Some next) s4). split; [done|]. split; [|split; [done|split]].
  - assert (Q4 : queue_ok s4 (q' ++ requeued s)).
    { apply (queue_ok_upd _ _ _ (set_State PsThreadRunning t2)); [|done|done]. by apply (queue_ok_upd _ _ _ t2). }
    destruct Q4. by constructor.
  - change (set_current (Some next) (rest s2) = set_current (Some next) (rest s)).
    by rewrite A2, (rl_state _ _ R1).
  - intros i. change (gPsThreadPool (set_current (Some next) s4)) with (gPsThreadPool s4). unfold s4.
    rewrite upd_thread_lookup by (by eapply lookup_lt_Some). unfold dispatched.
    destruct (decide (next = i)) as [<-|N].
    + rewrite Ht. cbn [fmap option_fmap option_map]. rewrite (bool_decide_eq_false_2 (next ∈ _)) by done.
      rewrite (bool_decide_eq_true_2 (next = next)) by done. f_equal.
      change (core t4) with (set_RemainingTicks (TimeSliceTicks (core t2)) (set_State PsThreadRunning (core t2))).
      by rewrite Ct2.
    + rewrite (bool_decide_eq_false_2 (i = next)) by done. unfold s3. rewrite upd_thread_lookup by done.
      rewrite decide_False by done. apply B3.
Qed.

(** Switching away: the previous thread's registers are saved, the next one's
    loaded. *)
Lemma leave_spec s cur next t : (forall c, cur = Some c -> c <> next /\ is_Some (gPsThreadPool s !! c)) ->
  gPsThreadPool s !! next = Some t ->
  exists s', leave_thread cur next s = Ret tt s' /\
    rest s' = rest (set_cpu (match cur with Some _ => Context t | None => cpu s end) s) /\
    gPsRunQueueHead s' = gPsRunQueueHead s /\ gPsRunQueueTail s' = gPsRunQueueTail s /\
    forall i, gPsThreadPool s' !! i = (fun t => if bool_decide (cur = Some i)
      then set_Context (saved_context (switch_resume s) (cpu s)) t else t) <$> gPsThreadPool s !! i.
Proof.
  intros Hc Ht. destruct cur as [c|]; cbn [leave_thread].
  2: { exists s. split_and!; [done|by destruct s|done|done|]. intros i. by destruct (gPsThreadPool s !! i). }
  destruct (Hc c eq_refl) as (Nc & tc & Htc). rewrite bool_decide_eq_false_2 by done.
  unfold KiArchSwitchContext. rewrite bind_gets, (bind_eq _ _ _ _ _ (update_thread_ok _ _ _ _ Htc)).
  set (tc' := set_Context _ tc). fold (upd_thread c tc' s).
  assert (Lc : (c < length (gPsThreadPool s))%nat) by (by eapply lookup_lt_Some).
  rewrite (bind_eq _ _ _ t (upd_thread c tc' s)).
  2: { apply get_thread_ok. rewrite upd_thread_lookup by done. by rewrite decide_False. }
  eexists. split; [reflexivity|]. split_and!; [done|done|done|].
  intros i. change (gPsThreadPool (set_cpu (Context t) (upd_thread c tc' s))) with (gPsThreadPool (upd_thread c tc' s)).
  rewrite upd_thread_lookup by done. destruct (decide (c = i)) as [<-|N].
  - rewrite Htc. cbn [fmap option_fmap option_map]. by rewrite bool_decide_eq_true_2.
  - rewrite bool_decide_eq_false_2 by congruence. by destruct (gPsThreadPool s !! i).
Qed.

(** ** The dispatcher *)

Class PsWorldLaws (W : Type) `{PsWorld W} := {
  ps_get_put : forall p w, ps_get (ps_put p w) = p;
  mm_ps_put : forall p w, mm_get (ps_put p w) = mm_get w;
  mm_get_put : forall m w, mm_get (mm_put m w) = m;
  ps_mm_put : forall m w, ps_get (mm_put m w) = ps_get w;
  hal_stack_pointer : forall z w, exists w', HalSetKernelStackPointer z w = Ret tt w' /\
    ps_get w' = ps_get w /\ mm_get w' = mm_get w }.

(** Every address space a process names exists. *)
Definition spaces_ok (s : ps_state) (m : mm_state) : Prop :=
  forall p r a, gPsProcessPool s !! p = Some r -> AddressSpaceRoot r = Some a ->
    exists x, gMmAddressSpacePool m !! a = Some x /\ Z.land (RootTablePhysical x) MM_PTE_ADDR_MASK = RootTablePhysical x.

Lemma MmActivateAddressSpace_spec a x w : gMmAddressSpacePool (mm w) !! a = Some x ->
  Z.land (RootTablePhysical x) MM_PTE_ADDR_MASK = RootTablePhysical x ->
  exists st w', MmActivateAddressSpace (Some a) w = Ret st w' /\ mm w' = mm w /\ ram w' = ram w /\
    (gMmReady (mm w) = true -> st = KSTATUS_SUCCESS /\ Z.land (cr3 w') MM_PTE_ADDR_MASK = RootTablePhysical x).
Proof.
  intros Hx Ha. unfold MmActivateAddressSpace. rewrite bind_gets. destruct (gMmReady (mm w)); cbn [negb].
  2: { eexists _, w. split; [reflexivity|]. done. }
  unfold MmpReadCr3. rewrite bind_gets. rewrite (bind_eq _ _ w x w) by (by apply load_at_ok).
  destruct (Z.eqb_spec (Z.land (cr3 w) MM_PTE_ADDR_MASK) (RootTablePhysical x)) as [E|E]; cbn [negb].
  - eexists _, w. split; [reflexivity|]. done.
  - unfold MmpWriteCr3. rewrite bind_modify. eexists _, _. split; [reflexivity|]. done.
Qed.

(** One dispatch, thread by thread. *)
Record dispatch_result (s s' : ps_state) (next : nat) (q' : list nat) : Prop := {
  dr_queue : queue_ok s' (q' ++ requeued s);
  dr_current : gPsCurrentThread s' = Some next;
  dr_threads : forall i, core <$> gPsThreadPool s' !! i = (fun t => core (switched s next i t)) <$> gPsThreadPool s !! i;
  dr_cpu : cpu s' = match gPsCurrentThread s, gPsThreadPool s !! next with
                    | Some _, Some t => Context t
                    | _, _ => cpu s
                    end;
  dr_processes : gPsProcessPool s' = gPsProcessPool s;
  dr_ready : gPsReady s' = gPsReady s;
  dr_pending : gPsReschedulePending s' = gPsReschedulePending s;
  dr_resume : switch_resume s' = switch_resume s }.

Section World.
Context {W : Type} `{PsWorldLaws W}.

Lemma ps_Ret {A} (m : M ps_state A) w a s' : m (ps_get w) = Ret a s' -> ps m w = Ret a (ps_put s' w).
Proof. intros E. unfold ps, zoom. by rewrite E. Qed.

Lemma bind_ps {A B} (m : M ps_state A) (k : A -> M W B) w a s' :
  m (ps_get w) = Ret a s' -> bind (ps m) k w = k a (ps_put s' w).
Proof. intros E. by rewrite (bind_eq _ _ _ _ _ (ps_Ret m w a s' E)). Qed.

(** The address space switch of the dispatcher. *)
Lemma activate_process w s p r : ps_get w = s -> gPsProcessPool s !! p = Some r -> spaces_ok s (mm (mm_get w)) ->
  exists w', (match AddressSpaceRoot r with
              | None => ret tt
              | Some a => mmM (MmActivateAddressSpace (Some a)) ;;; ret tt
              end) w = Ret tt w' /\ ps_get w' = s /\ mm (mm_get w') = mm (mm_get w) /\
    (forall a x, AddressSpaceRoot r = Some a -> gMmAddressSpacePool (mm (mm_get w)) !! a = Some x ->
       gMmReady (mm (mm_get w)) = true -> Z.land (cr3 (mm_get w')) MM_PTE_ADDR_MASK = RootTablePhysical x).
Proof.
  intros Es Hr Sp. destruct (AddressSpaceRoot r) as [a|] eqn:Ea; [|by exists w].
  destruct (Sp p r a Hr Ea) as (x & Hx & Hm).
  destruct (MmActivateAddressSpace_spec a x (mm_get w) Hx Hm) as (st & m' & E & E1 & _ & E2).
  exists (mm_put m' w). unfold mmM, bind, zoom. rewrite E. split; [done|].
  rewrite ps_mm_put, mm_get_put. split_and!; [done|done|].
  intros a2 x2 [= <-] Hx2. rewrite Hx in Hx2. assert (x2 = x) as -> by congruence. apply E2.
Qed.

(** The dispatcher's entry into the next thread. *)
Lemma enter_thread_spec w next t p r : gPsThreadPool (ps_get w) !! next = Some t -> OwnerProcess t = Some p ->
  gPsProcessPool (ps_get w) !! p = Some r -> spaces_ok (ps_get w) (mm (mm_get w)) ->
  exists w', enter_thread next w = Ret tt w' /\ ps_get w' = ps_get w /\ mm (mm_get w') = mm (mm_get w) /\
    (forall a x, AddressSpaceRoot r = Some a -> gMmAddressSpacePool (mm (mm_get w)) !! a = Some x ->
       gMmReady (mm (mm_get w)) = true -> Z.land (cr3 (mm_get w')) MM_PTE_ADDR_MASK = RootTablePhysical x).
Proof.
  intros Ht Ep Hr Sp. unfold enter_thread. rewrite (bind_ps _ _ _ _ _ (get_thread_ok _ _ _ Ht)).
  set (w1 := ps_put (ps_get w) w).
  destruct (hal_stack_pointer (KernelStackTop t) w1) as (w2 & E2 & G2 & M2).
  rewrite (bind_eq _ _ _ _ _ E2), Ep. unfold w1 in G2, M2. rewrite ps_get_put in G2. rewrite mm_ps_put in M2.
  rewrite (bind_ps _ _ _ r (ps_get w)) by (rewrite G2; by apply load_at_ok).
  destruct (activate_process (ps_put (ps_get w) w2) (ps_get w) p r) as (w3 & E3 & G3 & M3 & T3).
  - apply ps_get_put. - done. - by rewrite mm_ps_put, M2.
  - exists w3. rewrite E3, G3, M3. rewrite mm_ps_put, M2 in *. split_and!; try done.
Qed.

Lemma dispatch_empty w cur : sched_ok (ps_get w) [] cur ->
  exists w', PsDispatch w = Ret KSTATUS_INIT_FAILED w' /\ ps_get w' = ps_get w /\ mm_get w' = mm_get w.
Proof.
  intros [Q R _ _ _ _]. unfold PsDispatch. rewrite bind_gets, R. cbn [negb].
  rewrite (bind_ps _ _ _ _ _ (pop_spec _ _ Q)). eexists. split; [reflexivity|].
  by rewrite ps_get_put, mm_ps_put.
Qed.

Lemma dispatch_spec w next q' cur : sched_ok (ps_get w) (next :: q') cur ->
  spaces_ok (ps_get w) (mm (mm_get w)) ->
  exists w', PsDispatch w = Ret KSTATUS_SUCCESS w' /\ dispatch_result (ps_get w) (ps_get w') next q' /\
    mm (mm_get w') = mm (mm_get w) /\
    (forall t p r a x, gPsThreadPool (ps_get w) !! next = Some t -> OwnerProcess t = Some p ->
       gPsProcessPool (ps_get w) !! p = Some r -> AddressSpaceRoot r = Some a ->
       gMmAddressSpacePool (mm (mm_get w)) !! a = Some x -> gMmReady (mm (mm_get w)) = true ->
       Z.land (cr3 (mm_get w')) MM_PTE_ADDR_MASK = RootTablePhysical x).
Proof.
  intros S Sp. pose proof S as [Q R C SQ SR SO]. set (s := ps_get w) in *.
  destruct (SQ next ltac:(left)) as (t & Ht & St & p & Ep & [r Hr]).
  unfold PsDispatch. rewrite bind_gets. fold s. rewrite R. cbn [negb].
  destruct (pop_spec _ _ Q) as (s1 & E1 & Q1 & R1). rewrite (bind_ps _ _ _ _ _ E1).
  destruct (select_spec s1 q' s next cur t Q1 R1 S Ht ltac:(by eexists)) as (s2 & E2 & Q2 & C2 & A2 & B2).
  erewrite (bind_ps (select_thread next)) by (rewrite ps_get_put; exact E2).
  destruct (rest_fields _ _ A2) as (F1 & F2 & F3 & F4 & F5 & F6). cbn in F1, F2, F3, F4, F5, F6.
  destruct (fmap_lookup_Some _ _ _ _ _ (B2 next) Ht) as (t2 & Ht2 & Ct2).
  assert (Nr : next ∉ requeued s) by exact (next_not_requeued _ _ _ _ S).
  unfold dispatched in Ct2. rewrite (bool_decide_eq_false_2 (next ∈ _)), (bool_decide_eq_true_2 (next = next)) in Ct2 by done.
  destruct (core_state _ _ Ct2) as (K1 & K2 & K3 & K4 & K5 & K6). cbn in K1, K2, K3, K4, K5, K6.
  set (w2 := ps_put s2 (ps_put s1 w)).
  assert (G2 : ps_get w2 = s2) by apply ps_get_put.
  assert (M2 : mm_get w2 = mm_get w) by (unfold w2; by rewrite !mm_ps_put).
  destruct (enter_thread_spec w2 next t2 p r) as (w3 & E3 & G3 & M3 & T3).
  { by rewrite G2. } { congruence. } { by rewrite G2, F1. }
  { intros p2 r2 a2. rewrite G2, F1, M2. apply Sp. }
  rewrite (bind_eq _ _ _ _ _ E3). rewrite G2 in G3. rewrite M2 in M3, T3.
  destruct (leave_spec s2 cur next t2) as (s4 & E4 & A4 & H4 & L4 & B4).
  { intros c Hc. destruct (SR c Hc) as (Nc & tc & Htc & _).
    destruct (fmap_lookup_Some _ _ _ _ _ (B2 c) Htc) as (u & Hu & _). split; [set_solver|by eexists]. }
  { done. }
  erewrite (bind_ps (leave_thread cur next)) by (rewrite G3; exact E4). unfold ret.
  destruct (rest_fields _ _ A4) as (J1 & J2 & J3 & J4 & J5 & J6). cbn in J1, J2, J3, J4, J5, J6.
  exists (ps_put s4 w3). rewrite ps_get_put, mm_ps_put. split; [done|]. split; [|split; [exact M3|]].
  - constructor; try congruence.
    + destruct Q2 as [Qh Qt Qn Ql]. constructor; [congruence|congruence|done|].
      intros k i E. destruct (Ql k i E) as (u & Hu & Lu). rewrite B4, Hu. eexists. split; [done|]. by case_bool_decide.
    + intros i. rewrite B4. unfold switched. rewrite C. specialize (B2 i).
      destruct (gPsThreadPool s2 !! i) as [u|], (gPsThreadPool s !! i) as [v|]; try done. cbn in B2 |- *.
      assert (core u = core (dispatched next (requeued s) i v)) as D by congruence. rewrite F5, F4. f_equal.
      case_bool_decide; [|exact D].
      change (set_Context (saved_context (switch_resume s) (cpu s)) (core u)
        = set_Context (saved_context (switch_resume s) (cpu s)) (core (dispatched next (requeued s) i v))).
      by rewrite D.
    + rewrite J4, C, Ht. destruct cur; [congruence|done].
  - intros t0 p0 r0 a x X1 X2 X3 X4. simplify_eq. by apply T3.
Qed.

(** The invariant after a dispatch. *)
Lemma dispatch_inv s s' next q' cur : sched_ok s (next :: q') cur -> dispatch_result s s' next q' ->
  sched_ok s' (q' ++ requeued s) (Some next).
Proof.
  intros S [Dq Dc Dt _ Dp Dr _ _]. pose proof S as [Q R C SQ SR SO].
  assert (Nr : next ∉ requeued s) by exact (next_not_requeued _ _ _ _ S).
  pose proof (qo_nodup _ _ Q) as ND. apply NoDup_cons in ND as [Nn _].
  assert (L : forall i t, gPsThreadPool s !! i = Some t -> exists t', gPsThreadPool s' !! i = Some t' /\
    State t' = State (dispatched next (requeued s) i t) /\ (owned s t -> owned s' t')).
  { intros i t Ht. destruct (fmap_lookup_Some _ _ _ _ _ (Dt i) Ht) as (t' & Ht' & Ct).
    destruct (core_state _ _ Ct) as (K1 & K2 & _). exists t'. split; [done|].
    unfold switched in K1, K2. unfold owned. rewrite Dp, K2. split.
    - rewrite K1. by case_bool_decide.
    - intros (p & Hp & Hr). exists p. split; [|done]. rewrite <- Hp. unfold dispatched.
      by repeat case_bool_decide. }
  assert (DS : forall i t, i <> next -> State (dispatched next (requeued s) i t)
    = if bool_decide (i ∈ requeued s) then PsThreadReady else State t).
  { intros i t N. unfold dispatched. rewrite (bool_decide_eq_false_2 (i = next)) by done. by case_bool_decide. }
  constructor; [done|congruence|done| | |].
  - intros i Hi. apply elem_of_app in Hi as [Hi|Hi].
    + destruct (SQ i ltac:(by right)) as (t & Ht & St & Ot). destruct (L i t Ht) as (t' & Ht' & E & O).
      exists t'. split_and!; [done| |by apply O]. rewrite E, DS by (intros ->; done). by case_bool_decide.
    + apply requeued_cur in Hi as Hc. rewrite C in Hc. destruct (SR i Hc) as (Ni & t & Ht & _ & Ot).
      destruct (L i t Ht) as (t' & Ht' & E & O). exists t'. split_and!; [done| |by apply O].
      rewrite E, DS by (intros ->; set_solver). by rewrite bool_decide_eq_true_2.
  - intros c [= <-]. split; [set_solver|]. destruct (SQ next ltac:(left)) as (t & Ht & _ & Ot).
    destruct (L next t Ht) as (t' & Ht' & E & O). exists t'. split_and!; [done| |by apply O]. left. rewrite E.
    unfold dispatched. by rewrite (bool_decide_eq_true_2 (next = next)).
  - intros i t' Ht' St. destruct (decide (i = next)) as [->|N]; [done|exfalso].
    pose proof (Dt i) as B. rewrite Ht' in B. destruct (gPsThreadPool s !! i) as [t|] eqn:Ht; [|done].
    destruct (L i t Ht) as (t2 & Ht2 & E & _). assert (t2 = t') as -> by congruence.
    rewrite E, DS in St by done. case_bool_decide as Ri; [done|].
    assert (cur = Some i) as Ec by (by apply (SO i t)). apply Ri. unfold requeued.
    rewrite C, Ec, Ht, bool_decide_eq_true_2 by done. set_solver.
Qed.

End World.

(** ** The other operations *)

(** A thread that changes, not in the queue: the queue stays. *)
Lemma sched_ok_upd s q cur i t t' : sched_ok s q cur -> gPsThreadPool s !! i = Some t -> i ∉ q ->
  RunQueueNext t' = RunQueueNext t -> (State t' = PsThreadRunning -> State t = PsThreadRunning) ->
  (cur = Some i -> (State t' = PsThreadRunning \/ State t' = PsThreadDead) /\ OwnerProcess t' = OwnerProcess t) ->
  sched_ok (upd_thread i t' s) q cur.
Proof.
  intros [Q R C SQ SR SO] Ht Ni Hn Hs Hc. assert (L : (i < length (gPsThreadPool s))%nat) by (by eapply lookup_lt_Some).
  constructor; [by eapply queue_ok_upd|done|done| | |].
  - intros j Hj. destruct (SQ j Hj) as (u & Hu & Su & Ou). exists u. rewrite upd_thread_lookup by done.
    rewrite decide_False by (intros ->; done). done.
  - intros c Ec. destruct (SR c Ec) as (Nc & u & Hu & Su & Ou). split; [done|].
    rewrite upd_thread_lookup by done. destruct (decide (i = c)) as [<-|N]; [|by exists u].
    destruct (Hc Ec) as [S' O']. exists t'. split_and!; [done|done|]. unfold owned. rewrite O'.
    assert (u = t) as -> by congruence. exact Ou.
  - intros j u. rewrite upd_thread_lookup by done. destruct (decide (i = j)) as [<-|N]; [|by apply SO].
    intros [= <-] Su. apply (SO i t Ht). by apply Hs.
Qed.

Lemma running_core s s' c : core <$> gPsThreadPool s' !! c = core <$> gPsThreadPool s !! c ->
  running s c -> running s' c.
Proof.
  intros B (t & Ht & St). rewrite Ht in B. destruct (gPsThreadPool s' !! c) as [t'|] eqn:Ht'; [|done].
  exists t'. split; [done|]. cbn in B. assert (core t' = core t) as C by congruence.
  destruct (core_state _ _ C) as [-> _]. done.
Qed.

(** Making a thread outside the queue ready. *)
Lemma enqueue_spec s q cur i t : sched_ok s q cur -> gPsThreadPool s !! i = Some t -> i ∉ q -> cur <> Some i ->
  owned s t -> exists s', (update_thread i (set_State PsThreadReady) ;;; PspRunQueuePush (Some i)) s = Ret tt s' /\
    sched_ok s' (q ++ [i]) cur /\ rest s' = rest s /\
    (forall j, j <> i -> core <$> gPsThreadPool s' !! j = core <$> gPsThreadPool s !! j) /\
    core <$> gPsThreadPool s' !! i = Some (core (set_State PsThreadReady t)).
Proof.
  intros S Ht Ni Nc Ow. assert (L : (i < length (gPsThreadPool s))%nat) by (by eapply lookup_lt_Some).
  rewrite (bind_eq _ _ _ _ _ (update_thread_ok _ _ _ _ Ht)). fold (upd_thread i (set_State PsThreadReady t) s).
  set (s1 := upd_thread i _ s).
  assert (S1 : sched_ok s1 q cur) by (eapply (sched_ok_upd s); [done|done|done|done|done|done]).
  assert (Ht1 : gPsThreadPool s1 !! i = Some (set_State PsThreadReady t))
    by (unfold s1; rewrite upd_thread_lookup by done; by rewrite decide_True).
  destruct (push_spec s1 q i _ (so_queue _ _ _ S1) Ni Ht1 ltac:(done)) as (s2 & E2 & Q2 & R2).
  exists s2. split; [done|]. destruct S1 as [Q R C SQ SR SO]. destruct (rest_fields _ _ (rl_state _ _ R2)) as (F1 & F2 & F3 & _).
  assert (T : forall j u, gPsThreadPool s1 !! j = Some u -> exists v, gPsThreadPool s2 !! j = Some v /\
    State v = State u /\ (owned s1 u -> owned s2 v)).
  { intros j u Hu. destruct (relinked_lookup _ _ _ _ R2 Hu) as (v & Hv & Cv).
    destruct (core_state _ _ Cv) as (K1 & K2 & _). exists v. split_and!; [done|done|].
    unfold owned. by rewrite F1, K2. }
  split; [constructor; [done|congruence|congruence| | |]|split; [|split]].
  - intros j Hj. apply elem_of_app in Hj as [Hj|Hj].
    + destruct (SQ j Hj) as (u & Hu & Su & Ou). destruct (T j u Hu) as (v & Hv & Sv & Ov).
      exists v. split_and!; [done|congruence|by apply Ov].
    + apply list_elem_of_singleton in Hj as ->. destruct (T i _ Ht1) as (v & Hv & Sv & Ov).
      exists v. split_and!; [done|done|by apply Ov].
  - intros c Ec. destruct (SR c Ec) as (Nc2 & u & Hu & Su & Ou). destruct (T c u Hu) as (v & Hv & Sv & Ov).
    split; [set_solver|]. exists v. split_and!; [done|by rewrite Sv|by apply Ov].
  - intros j v Hv Sv. pose proof (rl_core _ _ R2 j) as B. rewrite Hv in B.
    destruct (gPsThreadPool s1 !! j) as [u|] eqn:Hu; [|done]. destruct (T j u Hu) as (v2 & Hv2 & Sv2 & _).
    apply (SO j u Hu). congruence.
  - by rewrite (rl_state _ _ R2).
  - intros j Nj. rewrite (rl_core _ _ R2 j). unfold s1. rewrite upd_thread_lookup by done.
    by rewrite decide_False.
  - by rewrite (rl_core _ _ R2 i), Ht1.
Qed.

Lemma ready_spec s q cur i t : sched_ok s q cur -> gPsThreadPool s !! i = Some t -> i ∉ q -> cur <> Some i ->
  owned s t -> State t <> PsThreadDead ->
  exists s', PsReadyThread (Some i) s = Ret KSTATUS_SUCCESS s' /\ sched_ok s' (q ++ [i]) cur /\ rest s' = rest s /\
    (forall c, cur = Some c -> running s c -> running s' c).
Proof.
  intros S Ht Ni Nc Ow Nd. unfold PsReadyThread. rewrite bind_gets, (so_ready _ _ _ S). cbn [negb].
  rewrite (bind_eq _ _ _ _ _ (get_thread_ok _ _ _ Ht)), bool_decide_eq_false_2 by done.
  destruct (enqueue_spec s q cur i t S Ht Ni Nc Ow) as (s' & E & S' & R' & B & Bi).
  exists s'. rewrite <- bind_assoc, (bind_eq _ _ _ _ _ E). split_and!; [done|done|done|].
  intros c Hc. apply running_core, B. congruence.
Qed.

Definition blocked (s : ps_state) (i : nat) : bool :=
  match gPsThreadPool s !! i with Some t => bool_decide (State t = PsThreadBlocked) | None => false end.

Lemma wake_spec s q cur i t : sched_ok s q cur -> gPsThreadPool s !! i = Some t -> owned s t ->
  exists s', PsWakeThread (Some i) s = Ret tt s' /\
    sched_ok s' (if blocked s i then q ++ [i] else q) cur /\ rest s' = rest s /\
    (forall c, cur = Some c -> running s c -> running s' c) /\
    (forall j, core <$> gPsThreadPool s' !! j =
       (fun u => core (if blocked s i && bool_decide (j = i) then set_State PsThreadReady u else u)) <$> gPsThreadPool s !! j).
Proof.
  intros S Ht Ow. unfold PsWakeThread, blocked. rewrite bind_gets, (so_ready _ _ _ S), Ht. cbn [negb].
  rewrite (bind_eq _ _ _ _ _ (get_thread_ok _ _ _ Ht)). case_bool_decide as B.
  2: { exists s. split_and!; done. }
  assert (Nc : cur <> Some i).
  { intros Hc. destruct (so_running _ _ _ S i Hc) as (_ & u & Hu & [Su|Su] & _); congruence. }
  destruct (enqueue_spec s q cur i t S Ht) as (s' & E & S' & R' & B2 & Bi); [|done|done|exists s'; split_and!; try done].
  - intros Hi. destruct (so_queued _ _ _ S i Hi) as (u & Hu & Su & _). congruence.
  - intros c Hc. apply running_core, B2. congruence.
  - intros j. cbn [andb]. case_bool_decide as Ej; [subst j; by rewrite Bi, Ht|].
    rewrite B2 by done. by destruct (gPsThreadPool s !! j).
Qed.

(** A timer tick: the current thread's remaining time, and the request to
    reschedule when there is none left. *)
Lemma tick_spec s q c t : sched_ok s q (Some c) -> gPsThreadPool s !! c = Some t -> 0 <= RemainingTicks t ->
  exists s' t', PsOnTimerTick s = Ret tt s' /\ sched_ok s' q (Some c) /\
    gPsThreadPool s' !! c = Some t' /\ RemainingTicks t' = Z.max 0 (RemainingTicks t - 1) /\
    gPsReschedulePending s' = gPsReschedulePending s || (RemainingTicks t <=? 1) /\
    State t' = State t /\ gPsProcessPool s' = gPsProcessPool s.
Proof.
  intros S Ht Hr. assert (L : (c < length (gPsThreadPool s))%nat) by (by eapply lookup_lt_Some).
  unfold PsOnTimerTick. rewrite bind_gets, (so_cur _ _ _ S), (so_ready _ _ _ S). cbn [negb].
  rewrite (bind_eq _ _ _ _ _ (get_thread_ok _ _ _ Ht)). cbv zeta.
  set (n := if RemainingTicks t >? 0 then RemainingTicks t - 1 else RemainingTicks t).
  assert (En : n = Z.max 0 (RemainingTicks t - 1)).
  { unfold n. destruct (Z.gtb_spec (RemainingTicks t) 0); lia. }
  rewrite (bind_eq _ _ _ _ _ (update_thread_ok _ _ _ _ Ht)). fold (upd_thread c (set_RemainingTicks n t) s).
  set (s1 := upd_thread c _ s).
  assert (S1 : sched_ok s1 q (Some c)).
  { destruct (so_running _ _ _ S c eq_refl) as (Nc & u & Hu & Su & _). assert (u = t) as -> by congruence.
    by apply (sched_ok_upd s q (Some c) c t). }
  assert (Ht1 : gPsThreadPool s1 !! c = Some (set_RemainingTicks n t))
    by (unfold s1; rewrite upd_thread_lookup by done; by rewrite decide_True).
  destruct (Z.eqb_spec n 0) as [Z0|Z0].
  - exists (set_pending true s1), (set_RemainingTicks n t). split; [done|]. split; [by destruct S1; constructor; [destruct so_queue0|..]|].
    split; [done|]. split; [done|]. split; [|done]. cbn. destruct (Z.leb_spec (RemainingTicks t) 1); [by rewrite orb_true_r|lia].
  - exists s1, (set_RemainingTicks n t). split; [done|]. split; [done|]. split; [done|]. split; [done|].
    split; [|done]. cbn. destruct (Z.leb_spec (RemainingTicks t) 1); [lia|by rewrite orb_false_r].
Qed.

(** The current thread gives the processor up. *)
Lemma vacate_spec s q c x : sched_ok s q (Some c) -> x <> PsThreadRunning ->
  exists t, gPsThreadPool s !! c = Some t /\
    update_thread c (set_State x) s = Ret tt (upd_thread c (set_State x t) s) /\
    sched_ok (set_current None (upd_thread c (set_State x t) s)) q None.
Proof.
  intros [Q R C SQ SR SO] Nx. destruct (SR c eq_refl) as (Nc & t & Ht & _ & _). exists t. split; [done|].
  split; [by rewrite (update_thread_ok _ _ _ _ Ht)|].
  assert (L : (c < length (gPsThreadPool s))%nat) by (by eapply lookup_lt_Some).
  constructor; [|done|done| |done|].
  - destruct (queue_ok_upd s q c t (set_State x t) Q Ht eq_refl). by constructor.
  - intros j Hj. destruct (SQ j Hj) as (u & Hu & Su & Ou). exists u.
    change (gPsThreadPool (set_current None (upd_thread c (set_State x t) s)))
      with (gPsThreadPool (upd_thread c (set_State x t) s)).
    rewrite upd_thread_lookup by done. rewrite decide_False by (intros ->; done). done.
  - intros j u. change (gPsThreadPool (set_current None (upd_thread c (set_State x t) s)))
      with (gPsThreadPool (upd_thread c (set_State x t) s)).
    rewrite upd_thread_lookup by done. destruct (decide (c = j)) as [<-|N].
    + intros [= <-]. done.
    + intros Hu Su. specialize (SO j u Hu Su). congruence.
Qed.

(** ** Refinement of an abstract scheduler *)

(** The operations of the scheduler. *)
Inductive ps_op :=
| OpReady (i : nat) | OpWake (i : nat) | OpTick | OpDispatch | OpYield | OpPreempt | OpBlock | OpExit.

(** The abstract scheduler: a queue of ready threads and the running one. *)
Definition abs_dispatch (q : list nat) (cur : option nat) : KSTATUS * list nat * option nat :=
  match q with
  | [] => (KSTATUS_INIT_FAILED, [], cur)
  | n :: q' => (KSTATUS_SUCCESS, q' ++ option_list cur, Some n)
  end.

Definition abs_step (pending : bool) (asleep : nat -> bool) (o : ps_op) (q : list nat) (cur : option nat)
  : KSTATUS * list nat * option nat :=
  match o with
  | OpReady i => (KSTATUS_SUCCESS, q ++ [i], cur)
  | OpWake i => (KSTATUS_SUCCESS, if asleep i then q ++ [i] else q, cur)
  | OpTick => (KSTATUS_SUCCESS, q, cur)
  | OpDispatch => abs_dispatch q cur
  | OpYield => match cur with None => (KSTATUS_INVALID_PARAMETER, q, cur) | Some _ => abs_dispatch q cur end
  | OpPreempt =>
      match cur with
      | Some _ => if pending then let '(_, q', cur') := abs_dispatch q cur in (KSTATUS_SUCCESS, q', cur')
                  else (KSTATUS_SUCCESS, q, cur)
      | None => (KSTATUS_SUCCESS, q, cur)
      end
  | OpBlock | OpExit =>
      match cur with None => (KSTATUS_INVALID_PARAMETER, q, cur) | Some _ => abs_dispatch q None end
  end.

(** The operation is one the kernel's clients may ask for: a thread is made ready
    only when it is neither queued, current nor dead, and belongs to a process. *)
Definition allowed (s : ps_state) (q : list nat) (cur : option nat) (o : ps_op) : Prop :=
  match o with
  | OpReady i => (i ∉ q) /\ cur <> Some i /\
      exists t, gPsThreadPool s !! i = Some t /\ State t <> PsThreadDead /\ owned s t
  | OpWake i => exists t, gPsThreadPool s !! i = Some t /\ owned s t
  | OpTick => forall c t, cur = Some c -> gPsThreadPool s !! c = Some t -> 0 <= RemainingTicks t
  | _ => True
  end.

(** The invariant of the whole: the current thread is running. *)
Record sched_inv (s : ps_state) (m : mm_state) (q : list nat) (cur : option nat) : Prop := {
  si_sched : sched_ok s q cur;
  si_running : forall c, cur = Some c -> running s c;
  si_spaces : spaces_ok s m }.

Lemma requeued_running s q cur : sched_ok s q cur -> (forall c, cur = Some c -> running s c) ->
  requeued s = option_list cur.
Proof.
  intros S Rn. unfold requeued. rewrite (so_cur _ _ _ S). destruct cur as [c|]; [|done].
  destruct (Rn c eq_refl) as (t & -> & St). by rewrite bool_decide_eq_true_2.
Qed.

Lemma spaces_ok_processes s s' m : gPsProcessPool s' = gPsProcessPool s -> spaces_ok s m -> spaces_ok s' m.
Proof. intros E Sp p r a. rewrite E. apply Sp. Qed.

Section Refine.
Context {W : Type} `{PsWorldLaws W}.

Definition ps_exec (o : ps_op) : M W KSTATUS :=
  match o with
  | OpReady i => ps (PsReadyThread (Some i))
  | OpWake i => ps (PsWakeThread (Some i)) ;;; ret KSTATUS_SUCCESS
  | OpTick => ps PsOnTimerTick ;;; ret KSTATUS_SUCCESS
  | OpDispatch => PsDispatch
  | OpYield => PsYieldThread
  | OpPreempt => PsHandlePreemptionPoint ;;; ret KSTATUS_SUCCESS
  | OpBlock => PsBlockCurrentThread
  | OpExit => PsExitCurrentThread 0
  end.

Let inv (w : W) := sched_inv (ps_get w) (mm (mm_get w)).

Lemma dispatch_refines w q cur : inv w q cur -> exists w', 
  let '(st, q', cur') := abs_dispatch q cur in PsDispatch w = Ret st w' /\ inv w' q' cur'.
Proof.
  intros [S Rn Sp]. destruct q as [|n q']; cbn [abs_dispatch].
  - destruct (dispatch_empty w cur S) as (w' & E & G & Mm). exists w'. split; [done|].
    unfold inv. rewrite G, Mm. by constructor.
  - destruct (dispatch_spec w n q' cur S Sp) as (w' & E & D & Mm & _). exists w'. split; [done|].
    pose proof (dispatch_inv _ _ _ _ _ S D) as S'. rewrite (requeued_running _ _ _ S Rn) in S'.
    unfold inv. rewrite Mm. constructor; [done| |by eapply spaces_ok_processes, Sp; apply D].
    intros c [= <-]. destruct (so_queued _ _ _ S n ltac:(left)) as (t & Ht & _ & _).
    destruct (fmap_lookup_Some _ _ _ _ _ (dr_threads _ _ _ _ D n) Ht) as (t' & Ht' & Ct).
    destruct (core_state _ _ Ct) as (K1 & _). exists t'. split; [done|]. rewrite K1.
    unfold switched, dispatched. rewrite (bool_decide_eq_true_2 (n = n)) by done. by case_bool_decide.
Qed.

Lemma yield_refines w q c : inv w q (Some c) -> exists w',
  let '(st, q', cur') := abs_dispatch q (Some c) in PsYieldThread w = Ret st w' /\ inv w' q' cur'.
Proof.
  intros [S Rn Sp]. unfold PsYieldThread. rewrite bind_gets, (so_cur _ _ _ S), (so_ready _ _ _ S). cbn [negb].
  destruct (Rn c eq_refl) as (t & Ht & St). rewrite (bind_ps _ _ _ _ _ (get_thread_ok _ _ _ Ht)), St.
  rewrite bool_decide_eq_true_2 by done. cbn [NK_ASSERT]. rewrite bind_ret_l.
  erewrite (bind_ps (modify (set_pending false))) by (rewrite ps_get_put; reflexivity).
  apply dispatch_refines. unfold inv. rewrite ps_get_put, !mm_ps_put.
  constructor; [|done|done]. destruct S as [[? ? ? ?] ? ? ? ? ?]. by constructor.
Qed.

(** What leaving the processor does to the threads: thread [c] is in state [x], the
    next one of the queue runs. *)
Definition left_state (c : nat) (x : PS_THREAD_STATE) (q : list nat) (i : nat) (t : KTHREAD) :=
  (if decide (i = c) then x else if decide (head q = Some i) then PsThreadRunning else State t,
   OwnerProcess t, WaitQueueNext t).

Lemma leave_threads w q c x : inv w q (Some c) -> x <> PsThreadRunning -> exists w',
  (let '(st, q', cur') := abs_dispatch q None in leave_processor x w = Ret st w' /\ inv w' q' cur') /\
  mm (mm_get w') = mm (mm_get w) /\ gPsProcessPool (ps_get w') = gPsProcessPool (ps_get w) /\
  forall i, (fun t => (State t, OwnerProcess t, WaitQueueNext t)) <$> gPsThreadPool (ps_get w') !! i
    = left_state c x q i <$> gPsThreadPool (ps_get w) !! i.
Proof.
  intros [S Rn Sp] Nx. unfold leave_processor. rewrite bind_gets, (so_cur _ _ _ S), (so_ready _ _ _ S). cbn [negb].
  destruct (vacate_spec _ _ _ x S Nx) as (t & Ht & E & S1). rewrite (bind_ps _ _ _ _ _ E).
  erewrite (bind_ps (modify (set_current None))) by (rewrite ps_get_put; reflexivity).
  match goal with |- context [PsDispatch ?y] => set (w1 := y) end.
  assert (G1 : ps_get w1 = set_current None (upd_thread c (set_State x t) (ps_get w))) by apply ps_get_put.
  assert (M1 : mm (mm_get w1) = mm (mm_get w)) by (unfold w1; by rewrite !mm_ps_put).
  assert (I1 : inv w1 q None) by (unfold inv; rewrite G1, M1; by constructor).
  assert (L : (c < length (gPsThreadPool (ps_get w)))%nat) by (by eapply lookup_lt_Some).
  assert (T1 : forall i, gPsThreadPool (ps_get w1) !! i
    = if decide (c = i) then Some (set_State x t) else gPsThreadPool (ps_get w) !! i).
  { intros i. rewrite G1. by apply (upd_thread_lookup c (set_State x t) (ps_get w)). }
  destruct q as [|n q].
  - destruct (dispatch_empty w1 None) as (w2 & E2 & G2 & M2); [apply I1|]. exists w2. cbn [abs_dispatch].
    split; [split; [done|unfold inv; by rewrite G2, M2]|]. rewrite G2, M2. split; [done|]. split; [by rewrite G1|].
    intros i. rewrite T1. unfold left_state. destruct (decide (c = i)) as [<-|N].
    + rewrite Ht. cbn. by destruct (decide (c = c)).
    + destruct (gPsThreadPool (ps_get w) !! i); [|done]. cbn. by rewrite decide_False by done.
  - destruct (dispatch_spec w1 n q None) as (w2 & E2 & D & M2 & _); [apply I1..|].
    destruct (dispatch_refines w1 _ _ I1) as (w2' & X). cbn [abs_dispatch] in X. destruct X as [E2' I2].
    assert (w2' = w2) as -> by congruence. exists w2. cbn [abs_dispatch]. split; [done|]. split; [congruence|].
    split; [by rewrite (dr_processes _ _ _ _ D), G1|].
    assert (Nc : n <> c) by (destruct (so_running _ _ _ S c eq_refl) as (Nc & _); set_solver).
    intros i. pose proof (dr_threads _ _ _ _ D i) as Dt. rewrite T1 in Dt.
    assert (K : forall u, core (switched (ps_get w1) n i u) = core (if decide (i = n) then
      set_RemainingTicks (TimeSliceTicks u) (set_State PsThreadRunning u) else u)).
    { intros u. unfold switched, dispatched, requeued. rewrite G1. cbn [gPsCurrentThread set_current].
      rewrite bool_decide_eq_false_2 by done. by destruct (decide (i = n)); case_bool_decide. }
    unfold left_state. cbn [head]. destruct (decide (c = i)) as [<-|N].
    + rewrite Ht. destruct (gPsThreadPool (ps_get w2) !! c) as [v|]; [|done]. cbn in Dt |- *. rewrite K in Dt.
      rewrite decide_False in Dt by done. destruct (decide (c = c)) as [_|]; [|done]. destruct v, t. cbn in Dt. injection Dt.
      intros. by subst.
    + destruct (gPsThreadPool (ps_get w2) !! i) as [v|], (gPsThreadPool (ps_get w) !! i) as [u|]; try done.
      cbn in Dt |- *. rewrite K in Dt. rewrite decide_False by done. destruct (decide (i = n)) as [->|Nn].
      * rewrite decide_True by done. destruct v, u. cbn in Dt. injection Dt. intros. by subst.
      * rewrite decide_False by congruence. destruct v, u. cbn in Dt. injection Dt. intros. by subst.
Qed.

Lemma leave_refines w q c x : inv w q (Some c) -> x <> PsThreadRunning -> exists w',
  let '(st, q', cur') := abs_dispatch q None in leave_processor x w = Ret st w' /\ inv w' q' cur'.
Proof. intros I Nx. destruct (leave_threads w q c x I Nx) as (w' & X & _). by exists w'. Qed.

Lemma tick_refines w q cur : inv w q cur -> allowed (ps_get w) q cur OpTick ->
  exists w', ps PsOnTimerTick w = Ret tt w' /\ inv w' q cur.
Proof.
  intros [S Rn Sp] A. destruct cur as [c|].
  - destruct (Rn c eq_refl) as (t & Ht & St).
    destruct (tick_spec _ _ _ _ S Ht (A c t eq_refl Ht)) as (s' & t' & E & S' & Ht' & _ & _ & St' & Pp).
    exists (ps_put s' w). split; [by apply ps_Ret|]. unfold inv. rewrite ps_get_put, mm_ps_put.
    constructor; [done| |by eapply spaces_ok_processes, Sp].
    intros c' [= <-]. exists t'. split; [done|congruence].
  - exists (ps_put (ps_get w) w). split.
    + apply ps_Ret. unfold PsOnTimerTick. by rewrite bind_gets, (so_cur _ _ _ S).
    + unfold inv. rewrite ps_get_put, mm_ps_put. by constructor.
Qed.

Lemma preempt_refines w q cur : inv w q cur -> exists w',
  let '(st, q', cur') := abs_step (gPsReschedulePending (ps_get w)) (blocked (ps_get w)) OpPreempt q cur in
  (PsHandlePreemptionPoint ;;; ret KSTATUS_SUCCESS) w = Ret st w' /\ inv w' q' cur'.
Proof.
  intros I. pose proof I as [S Rn Sp]. unfold PsHandlePreemptionPoint.
  destruct (gPsReschedulePending (ps_get w)) eqn:P; cbn [abs_step].
  2: { exists w. assert (E : (if (negb (gPsReady (ps_get w)) || negb (gPsReschedulePending (ps_get w)))%bool
         then ret tt else PsYieldThread ;;; ret tt) w = Ret tt w) by (by rewrite P, orb_true_r).
       destruct cur as [c|]; (split; [|done]); rewrite bind_assoc, bind_gets; by rewrite (bind_eq _ _ _ _ _ E). }
  destruct cur as [c|].
  - destruct (yield_refines w q c I) as (w' & Y). exists w'.
    destruct (abs_dispatch q (Some c)) as [[st q'] cur']. destruct Y as [E I']. split; [|done].
    rewrite bind_assoc, bind_gets, P, (so_ready _ _ _ S). cbn [negb orb].
    by rewrite bind_assoc, (bind_eq _ _ _ _ _ E).
  - exists w. split; [|done]. rewrite bind_assoc, bind_gets, P, (so_ready _ _ _ S). cbn [negb orb].
    rewrite bind_assoc. unfold PsYieldThread. by rewrite bind_assoc, bind_gets, (so_cur _ _ _ S).
Qed.

Lemma exec_refines w q cur o :
  sched_inv (ps_get w) (mm (mm_get w)) q cur -> allowed (ps_get w) q cur o ->
  exists w', let '(st, q', cur') := abs_step (gPsReschedulePending (ps_get w)) (blocked (ps_get w)) o q cur in
    ps_exec o w = Ret st w' /\ sched_inv (ps_get w') (mm (mm_get w')) q' cur'.
Proof.
  intros I A. pose proof I as [S Rn Sp].
  assert (K : forall s' q' , sched_ok s' q' cur -> rest s' = rest (ps_get w) ->
    (forall c, cur = Some c -> running s' c) ->
    sched_inv (ps_get (ps_put s' w)) (mm (mm_get (ps_put s' w))) q' cur).
  { intros s' q' S' R' Rn'. rewrite ps_get_put, mm_ps_put. constructor; [done|done|].
    by eapply spaces_ok_processes, Sp; apply rest_fields. }
  destruct o as [i|i| | | | | |]; cbn [abs_step ps_exec].
  - destruct A as (Ni & Nc & t & Ht & Nd & Ow).
    destruct (ready_spec _ _ _ _ _ S Ht Ni Nc Ow Nd) as (s' & E & S' & R' & Rn').
    exists (ps_put s' w). split; [by apply ps_Ret|]. apply K; [done|done|]. intros c Hc. apply Rn'; [done|by apply Rn].
  - destruct A as (t & Ht & Ow). destruct (wake_spec _ _ _ _ _ S Ht Ow) as (s' & E & S' & R' & Rn' & _).
    exists (ps_put s' w). split; [by rewrite (bind_ps _ _ _ _ _ E)|].
    apply K; [done|done|]. intros c Hc. apply Rn'; [done|by apply Rn].
  - destruct (tick_refines w q cur I A) as (w' & E & I'). exists w'. split; [|done]. by rewrite (bind_eq _ _ _ _ _ E).
  - by apply dispatch_refines.
  - destruct cur as [c|]; [by apply yield_refines|]. exists w. split; [|done].
    unfold PsYieldThread. by rewrite bind_gets, (so_cur _ _ _ S).
  - by apply preempt_refines.
  - destruct cur as [c|]; [by apply (leave_refines w q c PsThreadBlocked)|]. exists w. split; [|done].
    unfold PsBlockCurrentThread, leave_processor. by rewrite bind_gets, (so_cur _ _ _ S).
  - destruct cur as [c|]; [by apply (leave_refines w q c PsThreadDead)|]. exists w. split; [|done].
    unfold PsExitCurrentThread, leave_processor. by rewrite bind_gets, (so_cur _ _ _ S).
Qed.

(** C8: the scheduler is a round-robin queue: in every state that satisfies the
    scheduler's invariant each operation returns, with the status, the queue and
    the current thread of the abstract scheduler, and keeps the invariant: the
    queue is a duplicate-free chain of ready threads and no thread but the current
    one is running. *)
Theorem scheduler_refines w q cur o :
  sched_inv (ps_get w) (mm (mm_get w)) q cur -> allowed (ps_get w) q cur o ->
  exists w', let '(st, q', cur') := abs_step (gPsReschedulePending (ps_get w)) (blocked (ps_get w)) o q cur in
    ps_exec o w = Ret st w' /\ sched_inv (ps_get w') (mm (mm_get w')) q' cur'.
Proof. exact (exec_refines w q cur o). Qed.

(** ** Yielding in turn *)

Definition ctx (s : ps_state) (i : nat) : option AUR64_CONTEXT := Context <$> gPsThreadPool s !! i.

Fixpoint yields (n : nat) : M W unit :=
  match n with O => ret tt | S n => PsYieldThread ;;; yields n end.

Lemma yield_step w n q c : inv w (n :: q) (Some c) -> exists w',
  PsYieldThread w = Ret KSTATUS_SUCCESS w' /\ inv w' (q ++ [c]) (Some n) /\
  switch_resume (ps_get w') = switch_resume (ps_get w) /\
  ctx (ps_get w') c = Some (saved_context (switch_resume (ps_get w)) (cpu (ps_get w))) /\
  (forall i, i <> c -> ctx (ps_get w') i = ctx (ps_get w) i) /\
  Some (cpu (ps_get w')) = ctx (ps_get w) n.
Proof.
  intros [S Rn Sp]. unfold PsYieldThread. rewrite bind_gets, (so_cur _ _ _ S), (so_ready _ _ _ S). cbn [negb].
  destruct (Rn c eq_refl) as (t & Ht & St). rewrite (bind_ps _ _ _ _ _ (get_thread_ok _ _ _ Ht)), St.
  rewrite bool_decide_eq_true_2 by done. cbn [NK_ASSERT]. rewrite bind_ret_l.
  erewrite (bind_ps (modify (set_pending false))) by (rewrite ps_get_put; reflexivity).
  match goal with |- context [PsDispatch ?x] => set (w1 := x) end.
  assert (G1 : ps_get w1 = set_pending false (ps_get w)) by apply ps_get_put.
  assert (S1 : sched_ok (ps_get w1) (n :: q) (Some c)).
  { rewrite G1. destruct S as [[? ? ? ?] ? ? ? ? ?]. by constructor. }
  assert (Sp1 : spaces_ok (ps_get w1) (mm (mm_get w1))) by (unfold w1; rewrite ps_get_put, !mm_ps_put; exact Sp).
  destruct (dispatch_spec w1 n q (Some c) S1 Sp1) as (w2 & E & D & Mm & _). exists w2. split; [done|].
  assert (I2 : inv w2 (q ++ [c]) (Some n)).
  { destruct (dispatch_refines w1 (n :: q) (Some c)) as (w3 & E3 & I3).
    - constructor; [done|by rewrite G1|done].
    - rewrite E in E3. by injection E3 as <-. }
  split; [done|]. destruct D as [_ _ Dt Dc _ _ _ Dr].
  assert (Cx : forall i, ctx (ps_get w2) i = (fun u => Context (switched (ps_get w1) n i u)) <$> gPsThreadPool (ps_get w1) !! i).
  { intros i. specialize (Dt i). unfold ctx. destruct (gPsThreadPool (ps_get w2) !! i) as [v|],
      (gPsThreadPool (ps_get w1) !! i) as [u|]; try done. cbn in Dt |- *.
    assert (core v = core (switched (ps_get w1) n i u)) as C by congruence.
    destruct (core_state _ _ C) as (_ & _ & -> & _). done. }
  rewrite G1 in *. cbn in Dr, Dc.
  assert (Dn : forall i u, Context (dispatched n (requeued (set_pending false (ps_get w))) i u) = Context u).
  { intros i u. unfold dispatched. by repeat case_bool_decide. }
  split_and!.
  - done.
  - rewrite Cx. change (gPsThreadPool (set_pending false (ps_get w))) with (gPsThreadPool (ps_get w)). rewrite Ht.
    cbn. unfold switched. cbn [gPsCurrentThread set_pending]. by rewrite (so_cur _ _ _ S), bool_decide_eq_true_2.
  - intros i Ni. rewrite Cx. unfold ctx. change (gPsThreadPool (set_pending false (ps_get w))) with (gPsThreadPool (ps_get w)).
    destruct (gPsThreadPool (ps_get w) !! i) as [u|]; [|done]. cbn. unfold switched. cbn [gPsCurrentThread set_pending].
    rewrite (so_cur _ _ _ S), bool_decide_eq_false_2 by congruence. by rewrite Dn.
  - rewrite Dc, (so_cur _ _ _ S). destruct (so_queued _ _ _ S n ltac:(left)) as (u & Hu & _).
    unfold ctx. by rewrite Hu.
Qed.

Lemma yields_rotate q1 : forall c q2 w, inv w (q1 ++ q2) (Some c) -> exists w' z r,
  c :: q1 = r ++ [z] /\ yields (length q1) w = Ret tt w' /\ inv w' (q2 ++ r) (Some z) /\
  switch_resume (ps_get w') = switch_resume (ps_get w) /\
  (q1 <> [] -> ctx (ps_get w') c = Some (saved_context (switch_resume (ps_get w)) (cpu (ps_get w)))) /\
  (forall i, i ∉ c :: q1 -> ctx (ps_get w') i = ctx (ps_get w) i).
Proof.
  induction q1 as [|n q1 IH]; intros c q2 w I; cbn [length yields].
  { exists w, c, []. rewrite app_nil_r. split_and!; done. }
  cbn [app] in I. destruct (yield_step w n (q1 ++ q2) c I) as (w1 & E1 & I1 & R1 & C1 & O1 & _).
  rewrite (bind_eq _ _ _ _ _ E1). rewrite <- app_assoc in I1.
  destruct (IH n (q2 ++ [c]) w1 I1) as (w2 & z & r & El & E2 & I2 & R2 & _ & O2).
  exists w2, z, (c :: r). split; [by rewrite El|]. split; [done|].
  split; [by rewrite <- app_assoc in I2|]. split; [congruence|].
  destruct I as [S _ _]. destruct (so_running _ _ _ S c eq_refl) as (Nc & _). split.
  - intros _. rewrite O2; [done|]. set_solver.
  - intros i Ni. rewrite O2, O1 by set_solver. done.
Qed.

(** C24: scheduling is fair and transparent: when every thread yields, the k-th
    thread of the queue runs after k + 1 yields, and after one full round the
    queue and the current thread are what they were and the processor has the
    current thread's own registers back, resuming where it yielded. *)
Theorem yields_round_trip w q c : q <> [] -> sched_inv (ps_get w) (mm (mm_get w)) q (Some c) ->
  (forall k i, q !! k = Some i -> exists w', yields (S k) w = Ret tt w' /\ gPsCurrentThread (ps_get w') = Some i) /\
  exists w', yields (S (length q)) w = Ret tt w' /\ sched_inv (ps_get w') (mm (mm_get w')) q (Some c) /\
    cpu (ps_get w') = saved_context (switch_resume (ps_get w)) (cpu (ps_get w)).
Proof.
  intros Nq I. split.
  - intros k i Hk. assert (E : q = take (S k) q ++ drop (S k) q) by (by rewrite take_drop).
    pose proof (lookup_lt_Some _ _ _ Hk) as Lk. rewrite E in I.
    destruct (yields_rotate _ _ _ _ I) as (w' & z & r & El & Ey & Iw & _).
    rewrite length_take, Nat.min_l in Ey by lia. exists w'. split; [done|].
    rewrite (so_cur _ _ _ (si_sched _ _ _ _ Iw)). f_equal.
    rewrite (take_S_r _ _ _ Hk), app_comm_cons in El. by apply app_inj_tail in El as [_ ->].
  - rewrite <- (app_nil_r q) in I. destruct (yields_rotate _ _ _ _ I) as (w1 & z & r & El & Ey & I1 & R1 & C1 & _).
    rewrite app_nil_l in I1. destruct r as [|c' r]; [destruct q; [done|by destruct q]|].
    injection El as <- Eq. destruct (yield_step w1 c r z I1) as (w2 & E2 & I2 & R2 & _ & _ & P2).
    exists w2. split; [|split].
    + replace (S (length q)) with (length q + 1)%nat by lia.
      assert (Y : forall n m w0, yields (n + m) w0 = (yields n ;;; yields m) w0).
      { induction n as [|n IH]; intros m w0; [done|]. cbn [Nat.add yields]. rewrite bind_assoc.
        unfold bind at 1 2. destruct (PsYieldThread w0); [apply IH|done|done]. }
      rewrite Y, (bind_eq _ _ _ _ _ Ey). cbn [yields]. by rewrite (bind_eq _ _ _ _ _ E2).
    + by rewrite Eq.
    + rewrite C1 in P2 by done. congruence.
Qed.

(** Blocking or exiting does not leave the processor: the dispatcher makes
    the next thread the current one and activates its address space, but no
    register is saved or loaded, so the code that goes on running is that of the
    thread that gave the processor up. *)
Theorem leave_keeps_running w n q c x : x <> PsThreadRunning ->
  sched_inv (ps_get w) (mm (mm_get w)) (n :: q) (Some c) ->
  exists w', leave_processor x w = Ret KSTATUS_SUCCESS w' /\ gPsCurrentThread (ps_get w') = Some n /\ n <> c /\
    cpu (ps_get w') = cpu (ps_get w) /\ forall i, ctx (ps_get w') i = ctx (ps_get w) i.
Proof.
  intros Nx [S Rn Sp]. unfold leave_processor. rewrite bind_gets, (so_cur _ _ _ S), (so_ready _ _ _ S). cbn [negb].
  destruct (vacate_spec _ _ _ x S Nx) as (t & Ht & E & S1). rewrite (bind_ps _ _ _ _ _ E).
  erewrite (bind_ps (modify (set_current None))) by (rewrite ps_get_put; reflexivity).
  match goal with |- context [PsDispatch ?y] => set (w1 := y) end.
  assert (G1 : ps_get w1 = set_current None (upd_thread c (set_State x t) (ps_get w))) by apply ps_get_put.
  destruct (dispatch_spec w1 n q None) as (w2 & E2 & [_ Dc Dt Dp _ _ _ _] & _ & _).
  { by rewrite G1. } { rewrite G1. unfold w1. rewrite !mm_ps_put. exact Sp. }
  exists w2. rewrite G1 in *. split; [done|]. split; [done|]. split.
  { intros ->. destruct (so_running _ _ _ S c eq_refl) as (Nc & _). set_solver. }
  split; [by rewrite Dp|]. intros i. specialize (Dt i). unfold ctx.
  assert (L : (c < length (gPsThreadPool (ps_get w)))%nat) by (by eapply lookup_lt_Some).
  change (gPsThreadPool (set_current None (upd_thread c (set_State x t) (ps_get w))))
    with (gPsThreadPool (upd_thread c (set_State x t) (ps_get w))) in Dt.
  rewrite upd_thread_lookup in Dt by done.
  assert (K : forall u, Context (switched (set_current None (upd_thread c (set_State x t) (ps_get w))) n i u) = Context u).
  { intros u. unfold switched, dispatched. cbn [gPsCurrentThread set_current]. by repeat case_bool_decide. }
  destruct (decide (c = i)) as [<-|N].
  - rewrite Ht. destruct (gPsThreadPool (ps_get w2) !! c) as [v|]; [|done]. cbn in Dt |- *.
    assert (core v = core (switched (set_current None (upd_thread c (set_State x t) (ps_get w))) n c (set_State x t)))
      as C by congruence. destruct (core_state _ _ C) as (_ & _ & -> & _). by rewrite K.
  - destruct (gPsThreadPool (ps_get w2) !! i) as [v|], (gPsThreadPool (ps_get w) !! i) as [u|]; try done.
    cbn in Dt |- *. assert (core v = core (switched (set_current None (upd_thread c (set_State x t) (ps_get w))) n i u))
      as C by congruence. destruct (core_state _ _ C) as (_ & _ & -> & _). by rewrite K.
Qed.
End Refine.

(** ** The time slice *)

Fixpoint ticks (n : nat) : M ps_state unit :=
  match n with O => ret tt | S n => PsOnTimerTick ;;; ticks n end.

Lemma ticks_spec n : forall s q c t, sched_ok s q (Some c) -> gPsThreadPool s !! c = Some t -> 0 <= RemainingTicks t ->
  exists s' t', ticks n s = Ret tt s' /\ sched_ok s' q (Some c) /\ gPsThreadPool s' !! c = Some t' /\
    RemainingTicks t' = Z.max 0 (RemainingTicks t - Z.of_nat n) /\
    gPsReschedulePending s' = gPsReschedulePending s || ((0 <? n)%nat && (RemainingTicks t <=? Z.of_nat n)).
Proof.
  induction n as [|n IH]; intros s q c t Sk Ht Hr; cbn [ticks].
  { exists s, t. split_and!; [done|done|done|lia|by rewrite orb_false_r]. }
  destruct (tick_spec s q c t Sk Ht Hr) as (s1 & t1 & E1 & S1 & Ht1 & R1 & P1 & _).
  rewrite (bind_eq _ _ _ _ _ E1).
  destruct (IH s1 q c t1 S1 Ht1 ltac:(lia)) as (s2 & t2 & E2 & S2 & Ht2 & R2 & P2).
  exists s2, t2. split_and!; [done|done|done|lia|]. rewrite P2, P1, <- orb_assoc. f_equal.
  destruct (Z.leb_spec (RemainingTicks t) 1), (Nat.ltb_spec 0 n), (Z.leb_spec (RemainingTicks t1) (Z.of_nat n)),
    (Z.leb_spec (RemainingTicks t) (Z.of_nat (S n))); try done; lia.
Qed.

(** A running thread is asked to give way exactly when its time slice is used
    up: after [n] timer ticks a rescheduling is pending if and only if one was
    before or [n] is at least the remaining ticks (and at least one). *)
Theorem ticks_use_up_slice n s q c t :
  sched_ok s q (Some c) -> gPsThreadPool s !! c = Some t -> 0 <= RemainingTicks t ->
  exists s', ticks n s = Ret tt s' /\ sched_ok s' q (Some c) /\
    (gPsReschedulePending s' = true <->
     gPsReschedulePending s = true \/ (0 < n)%nat /\ RemainingTicks t <= Z.of_nat n).
Proof.
  intros S Ht Hr. destruct (ticks_spec n s q c t S Ht Hr) as (s' & t' & E & S' & _ & _ & P).
  exists s'. split; [done|]. split; [done|]. rewrite P, orb_true_iff, andb_true_iff, Nat.ltb_lt, Z.leb_le. done.
Qed.

(** ** Witnesses: three threads of one process, the first running *)

Module Example3.
Record world := { w_ob : ob_state; w_mm : mm_machine; w_ps : ps_state }.

#[local] Instance world_ob : ObWorld world := {
  ob_get := w_ob;
  ob_put o w := {| w_ob := o; w_mm := w_mm w; w_ps := w_ps w |};
  run_delete _ _ := ret tt }.
#[local] Instance world_mm : MmWorld world := {
  mm_get := w_mm;
  mm_put m w := {| w_ob := w_ob w; w_mm := m; w_ps := w_ps w |};
  ps_current_process _ := None;
  HalRegisterPageFaultRoutine := ret tt }.
#[local] Instance world_ps : PsWorld world := {
  ps_get := w_ps;
  ps_put p w := {| w_ob := w_ob w; w_mm := w_mm w; w_ps := p |};
  HalSetKernelStackPointer _ := ret tt;
  HalRegisterTimerTickRoutine := ret tt }.
#[local] Instance world_ps_laws : PsWorldLaws world.
Proof. split; try done. intros z w. by exists w. Qed.

(** Registers told apart by one number. *)
Definition regs (n : Z) : AUR64_CONTEXT :=
  {| Rbx := n; Rbp := n; R12 := n; R13 := n; R14 := n; R15 := n; Rsp := n; Rip := n; Rflags := 0x202 |}.
Definition thread (i : Z) (x : PS_THREAD_STATE) (next : option nat) : KTHREAD :=
  {| ThreadHeader := None; ThreadId := i; OwnerProcess := Some 0%nat; Context := regs i; State := x;
     TimeSliceTicks := 4; RemainingTicks := 4; RunQueueNext := next; WaitQueueNext := None;
     StartRoutine := None; StartContext := 0; KernelStackTop := 0x8000; IsUserThread := false; UserEntry := 0;
     UserStackTop := 0; UserArg0 := 0; UserArg1 := 0 |}.
Definition ps3 : ps_state :=
  {| gPsProcessType := None; gPsThreadType := None;
     gPsProcessPool := [{| ProcessHeader := None; ProcessId := 1; AddressSpaceRoot := Some 0%nat |}];
     gPsProcessInUse := [true];
     gPsThreadPool := [thread 1 PsThreadRunning None; thread 2 PsThreadReady (Some 2%nat);
                       thread 3 PsThreadReady None; thread 4 PsThreadBlocked None];
     gPsThreadInUse := [true; true; true; true]; gPsNextProcessId := 2; gPsNextThreadId := 5;
     gPsSystemProcess := Some 0%nat; gPsCurrentThread := Some 0%nat; gPsRunQueueHead := Some 1%nat;
     gPsRunQueueTail := Some 2%nat; gPsReschedulePending := false; gPsReady := true; cpu := regs 9;
     gPsThreadStackPool := 0; entry_thunk := 0; switch_resume := 7 |}.
Definition world3 : world :=
  {| w_ob := {| gObTypePool := []; gObObjectPool := []; gObTypeInUse := []; gObObjectInUse := [];
       gObKernelHandleTable := {| Entries := []; NextHandle := 0 |}; gObNextObjectId := 1; gObReady := false |};
     w_mm := {| mm := {| frames := {| gMmPageBitmap := ∅; gMmPageRefCount := ∅; gMmTrackedPages := 0;
                                      gMmNextScanPage := 0 |};
         gMmReady := true;
         gMmAddressSpacePool := [{| AddressSpaceId := 1; OwnerProcessId := 1; RootTablePhysical := 8192;
           NextUserBase := 0x40000000; RegionCount := 0; Regions := [] |}];
         gMmAddressSpaceInUse := [true]; gMmNextAddressSpaceId := 2; gMmKernelRootTablePhysical := 8192;
         gMmSectionType := None; gMmSectionPool := []; gMmSectionInUse := []; gMmFaultTrace := [];
         gMmFaultTraceNext := 0; gMmPhysmapBase := MM_PHYSMAP_BASE; gMmPhysmapBytes := 0;
         gMmPhysmapReady := true |}; ram := ∅; cr3 := 8192; invlpgs := [] |};
     w_ps := ps3 |}.

Lemma queue3 : queue_ok ps3 [1%nat; 2%nat].
Proof.
  constructor; [done|done|by apply (bool_decide_unpack _); vm_compute|].
  intros [|[|k]] i E; [injection E as <-; by eexists..|done].
Qed.

Lemma sched3 : sched_ok ps3 [1%nat; 2%nat] (Some 0%nat).
Proof.
  assert (Ow : forall i x n, owned ps3 (thread i x n)) by (intros; exists 0%nat; by split).
  constructor; [apply queue3|done|done| | |].
  - intros i E. apply list_elem_of_In in E. destruct E as [<-|[<-|[]]]; by (eexists; split_and!; [reflexivity|done|apply Ow]).
  - intros c [= <-]. split; [by apply (bool_decide_unpack _); vm_compute|].
    eexists. split_and!; [reflexivity|by left|apply Ow].
  - intros [|[|[|[|i]]]] t E; [done|injection E as <-; done..|done].
Qed.

Lemma inv3 : sched_inv (ps_get world3) (mm (mm_get world3)) [1%nat; 2%nat] (Some 0%nat).
Proof.
  constructor; [apply sched3|intros c [= <-]; by eexists|].
  intros [|p] r a E Ea; [|done]. injection E as <-. injection Ea as <-. by eexists.
Qed.

Lemma scheduler_refines_witness :
  exists w' : world, ps_exec (OpWake 3) world3 = Ret KSTATUS_SUCCESS w' /\
    sched_inv (ps_get w') (mm (mm_get w')) [1%nat; 2%nat; 3%nat] (Some 0%nat).
Proof.
  exact (scheduler_refines world3 [1%nat; 2%nat] (Some 0%nat) (OpWake 3) inv3
    (ex_intro _ _ (conj eq_refl (ex_intro _ 0%nat (conj eq_refl (ex_intro _ _ eq_refl)))))).
Defined.

Lemma yields_round_trip_witness :
  exists w' : world, yields 3 world3 = Ret tt w' /\ sched_inv (ps_get w') (mm (mm_get w')) [1%nat; 2%nat] (Some 0%nat) /\
    cpu (ps_get w') = saved_context 7 (regs 9).
Proof.
  exact (proj2 (yields_round_trip world3 [1%nat; 2%nat] 0%nat ltac:(done) inv3)).
Defined.

Lemma leave_keeps_running_witness :
  exists w' : world, PsBlockCurrentThread world3 = Ret KSTATUS_SUCCESS w' /\ gPsCurrentThread (ps_get w') = Some 1%nat /\
    1%nat <> 0%nat /\ cpu (ps_get w') = regs 9 /\ forall i, ctx (ps_get w') i = ctx ps3 i.
Proof.
  exact (leave_keeps_running world3 1%nat [2%nat] 0%nat PsThreadBlocked ltac:(done) inv3).
Defined.

Lemma ticks_use_up_slice_witness :
  exists s', ticks 4 ps3 = Ret tt s' /\ sched_ok s' [1%nat; 2%nat] (Some 0%nat) /\
    (gPsReschedulePending s' = true <-> false = true \/ (0 < 4)%nat /\ 4 <= Z.of_nat 4).
Proof.
  exact (ticks_use_up_slice 4 ps3 [1%nat; 2%nat] 0%nat (thread 1 PsThreadRunning None) sched3 eq_refl ltac:(cbn; lia)).
Defined.
End Example3.
