(* ===== verification/Kpe.v ===== *)
(** * The KPE image format and its loaders' common ground: include/kpeformat.h

    The headers as they lie in memory, read field by field at their packed
    offsets, and the interface [ByteMem] through which the loaders reach the
    image: flat physical memory for the boot loader, the page tables of the
    process for the kernel. *)

From S2P Require Import Prelude PhysMem.

(** ** Constants *)

Definition KPE_DOS_MAGIC : Z := 0x5A4D.
Definition KPE_SIGNATURE : Z := 0x3045504B.
Definition KPE_OPT_MAGIC_AUR64 : Z := 0xA641.
Definition KPE_MACHINE_AUR64 : Z := 0xA641.
Definition KPE_NUMBEROF_DIRECTORY_ENTRIES : Z := 16.
Definition KPE_DLLCHAR_DYNAMIC_BASE : Z := 0x0040.
Definition KPE_SCN_MEM_EXECUTE : Z := 0x20000000.
Definition KPE_SCN_MEM_READ : Z := 0x40000000.
Definition KPE_SCN_MEM_WRITE : Z := 0x80000000.
Definition KPE_DIR_BASERELOC : Z := 5.
Definition KPE_REL_BASED_ABSOLUTE : Z := 0.
Definition KPE_REL_BASED_DIR64 : Z := 10.
Definition KPE_SUBSYSTEM_NATIVE_KERNEL : Z := 1.
Definition KPE_SUBSYSTEM_USERLAND : Z := 2.

(** ** Headers: the fields the loaders read *)

Record KPE_DOS_HEADER := {
  e_magic : Z;
  e_lfanew : Z }.

Record KPE_FILE_HEADER := {
  Machine : Z;
  NumberOfSections : Z;
  SizeOfOptionalHeader : Z }.

Record KPE_DATA_DIRECTORY := {
  DirVirtualAddress : Z;
  DirSize : Z }.

Record KPE_OPTIONAL_HEADER64 := {
  OptMagic : Z;
  AddressOfEntryPoint : Z;
  ImageBase : Z;
  SectionAlignment : Z;
  FileAlignment : Z;
  SizeOfImage : Z;
  SizeOfHeaders : Z;
  Subsystem : Z;
  DllCharacteristics : Z;
  NumberOfRvaAndSizes : Z;
  DataDirectory : list KPE_DATA_DIRECTORY }.

Record KPE_NT_HEADERS64 := {
  Signature : Z;
  FileHeader : KPE_FILE_HEADER;
  OptionalHeader : KPE_OPTIONAL_HEADER64 }.

Record KPE_SECTION_HEADER := {
  SecVirtualSize : Z;
  SecVirtualAddress : Z;
  SizeOfRawData : Z;
  PointerToRawData : Z;
  SecCharacteristics : Z }.

Record KPE_BASE_RELOCATION_BLOCK := {
  BlockVirtualAddress : Z;
  SizeOfBlock : Z }.

Definition sizeof_KPE_DOS_HEADER : Z := 64.
Definition sizeof_KPE_FILE_HEADER : Z := 20.
Definition sizeof_KPE_OPTIONAL_HEADER64 : Z := 240.
Definition sizeof_KPE_NT_HEADERS64 : Z := 4 + sizeof_KPE_FILE_HEADER + sizeof_KPE_OPTIONAL_HEADER64.
Definition sizeof_KPE_SECTION_HEADER : Z := 40.
Definition sizeof_KPE_BASE_RELOCATION_BLOCK : Z := 8.

(** ** Memory reached byte by byte *)

Class ByteMem (S : Type) := {
  read_u8 : Z -> M S Z;
  write_u8 : Z -> Z -> M S unit }.

#[global] Instance flat_mem : ByteMem mem := {
  read_u8 a := gets (fun m => load8 m a);
  write_u8 a v := modify (fun m => store8 m a v) }.

Section Mem.
Context {S : Type} `{ByteMem S}.

(** Little-endian words. *)
Fixpoint read_le (n : nat) (a : Z) : M S Z :=
  match n with
  | O => ret 0
  | Datatypes.S n => b <- read_u8 a ;; r <- read_le n (a + 1) ;; ret (b + 256 * r)
  end.
Fixpoint write_le (n : nat) (a v : Z) : M S unit :=
  match n with
  | O => ret tt
  | Datatypes.S n => write_u8 a (v mod 256) ;;; write_le n (a + 1) (v / 256)
  end.

Definition read_u16 := read_le 2.
Definition read_u32 := read_le 4.
Definition read_u64 := read_le 8.
Definition write_u64 := write_le 8.

(** ** The headers, read field by field *)

Definition read_dos (p : Z) : M S KPE_DOS_HEADER :=
  magic <- read_u16 p ;; lfanew <- read_u32 (p + 60) ;;
  ret {| e_magic := magic; e_lfanew := lfanew |}.

Definition read_file_header (p : Z) : M S KPE_FILE_HEADER :=
  machine <- read_u16 p ;; n <- read_u16 (p + 2) ;; size <- read_u16 (p + 16) ;;
  ret {| Machine := machine; NumberOfSections := n; SizeOfOptionalHeader := size |}.

Definition read_directory (p : Z) : M S KPE_DATA_DIRECTORY :=
  va <- read_u32 p ;; size <- read_u32 (p + 4) ;;
  ret {| DirVirtualAddress := va; DirSize := size |}.

Fixpoint read_directories (n : nat) (p : Z) : M S (list KPE_DATA_DIRECTORY) :=
  match n with
  | O => ret []
  | Datatypes.S n => d <- read_directory p ;; r <- read_directories n (p + 8) ;; ret (d :: r)
  end.

Definition read_optional (p : Z) : M S KPE_OPTIONAL_HEADER64 :=
  magic <- read_u16 p ;; entry <- read_u32 (p + 16) ;; base <- read_u64 (p + 24) ;;
  sect <- read_u32 (p + 32) ;; file <- read_u32 (p + 36) ;; image <- read_u32 (p + 56) ;;
  headers <- read_u32 (p + 60) ;; sub <- read_u16 (p + 68) ;; dll <- read_u16 (p + 70) ;;
  rvas <- read_u32 (p + 108) ;; dirs <- read_directories (Z.to_nat KPE_NUMBEROF_DIRECTORY_ENTRIES) (p + 112) ;;
  ret {| OptMagic := magic; AddressOfEntryPoint := entry; ImageBase := base; SectionAlignment := sect;
         FileAlignment := file; SizeOfImage := image; SizeOfHeaders := headers; Subsystem := sub;
         DllCharacteristics := dll; NumberOfRvaAndSizes := rvas; DataDirectory := dirs |}.

Definition read_nt (p : Z) : M S KPE_NT_HEADERS64 :=
  sig <- read_u32 p ;; file <- read_file_header (p + 4) ;; opt <- read_optional (p + 24) ;;
  ret {| Signature := sig; FileHeader := file; OptionalHeader := opt |}.

(** [Sections[Index]] *)
Definition read_section (Sections Index : Z) : M S KPE_SECTION_HEADER :=
  let p := Sections + Index * sizeof_KPE_SECTION_HEADER in
  vsize <- read_u32 (p + 8) ;; va <- read_u32 (p + 12) ;; raw <- read_u32 (p + 16) ;;
  ptr <- read_u32 (p + 20) ;; ch <- read_u32 (p + 36) ;;
  ret {| SecVirtualSize := vsize; SecVirtualAddress := va; SizeOfRawData := raw; PointerToRawData := ptr;
         SecCharacteristics := ch |}.

(** ** User image relocations: kernel/ps/init.c *)

(** [for (Index = ...; Index < EntryCount; Index++)], [n] entries left, of the
    block at [Block].  The block's address is read for every entry, as the
    patches may lie anywhere in the image. *)
Fixpoint reloc_entries (n : nat) (LoadedBase Block Entries Index SizeOfImage_ Delta : Z) : M S KSTATUS :=
  match n with
  | O => ret KSTATUS_SUCCESS
  | Datatypes.S n =>
      Entry <- read_u16 (u64 (Entries + 2 * Index)) ;;
      let Type_ := Z.shiftr Entry 12 in
      let Offset := Z.land Entry 0x0FFF in
      if Type_ =? KPE_REL_BASED_ABSOLUTE then reloc_entries n LoadedBase Block Entries (Index + 1) SizeOfImage_ Delta
      else if negb (Type_ =? KPE_REL_BASED_DIR64) then ret KSTATUS_NOT_IMPLEMENTED
      else
        va <- read_u32 Block ;;
        let PatchRva := u32 (va + Offset) in
        if PatchRva + 8 >? SizeOfImage_ then ret KSTATUS_INVALID_PARAMETER
        else
          let Patch := u64 (LoadedBase + PatchRva) in
          v <- read_u64 Patch ;;
          write_u64 Patch (u64 (v + Delta)) ;;;
          reloc_entries n LoadedBase Block Entries (Index + 1) SizeOfImage_ Delta
  end.

(** [while (Cursor + sizeof(block) <= End)] with [fuel] turns left; the block's
    size is read again to advance. *)
Fixpoint reloc_blocks (fuel : nat) (LoadedBase Cursor End_ SizeOfImage_ Delta : Z) : M S KSTATUS :=
  match fuel with
  | O => stuck
  | Datatypes.S fuel =>
      if negb (u64 (Cursor + sizeof_KPE_BASE_RELOCATION_BLOCK) <=? End_) then ret KSTATUS_SUCCESS
      else
        size <- read_u32 (u64 (Cursor + 4)) ;;
        if size <? sizeof_KPE_BASE_RELOCATION_BLOCK then ret KSTATUS_INVALID_PARAMETER
        else
          va <- read_u32 Cursor ;;
          if va + 4096 >? SizeOfImage_ then ret KSTATUS_INVALID_PARAMETER
          else if u64 (Cursor + size) >? End_ then ret KSTATUS_INVALID_PARAMETER
          else
            let EntryCount := (size - sizeof_KPE_BASE_RELOCATION_BLOCK) / 2 in
            Status <- reloc_entries (Z.to_nat EntryCount) LoadedBase Cursor
                        (u64 (Cursor + sizeof_KPE_BASE_RELOCATION_BLOCK)) 0 SizeOfImage_ Delta ;;
            if negb (ok Status) then ret Status
            else
              size <- read_u32 (u64 (Cursor + 4)) ;;
              reloc_blocks fuel LoadedBase (u64 (Cursor + size)) End_ SizeOfImage_ Delta
  end.

(** Every turn but the last advances by at least one byte, so the size of the
    directory and two bound the turns. *)
Definition PspApplyUserKpeRelocations (LoadedBase : Z) (Nt : KPE_NT_HEADERS64) : M S KSTATUS :=
  let Opt := OptionalHeader Nt in
  let Delta := u64 (LoadedBase - ImageBase Opt) in
  if Delta =? 0 then ret KSTATUS_SUCCESS
  else if negb (any_flag (DllCharacteristics Opt) KPE_DLLCHAR_DYNAMIC_BASE) then ret KSTATUS_ACCESS_DENIED
  else
    RelocDir <- deref (DataDirectory Opt !! Z.to_nat KPE_DIR_BASERELOC) ;;
    if (DirVirtualAddress RelocDir =? 0) || (DirSize RelocDir <? sizeof_KPE_BASE_RELOCATION_BLOCK)
    then ret KSTATUS_ACCESS_DENIED
    else if DirVirtualAddress RelocDir + DirSize RelocDir >? SizeOfImage Opt then ret KSTATUS_INVALID_PARAMETER
    else
      let Cursor := u64 (LoadedBase + DirVirtualAddress RelocDir) in
      let End_ := u64 (Cursor + DirSize RelocDir) in
      reloc_blocks (Z.to_nat (DirSize RelocDir) + 2) LoadedBase Cursor End_ (SizeOfImage Opt) Delta.

End Mem.

(** ** What the loaders need of the memory

    [inv] is an invariant under which the bytes of [lo, hi) can be read and
    written. *)
Class ByteMemLaws (S : Type) `{ByteMem S} (inv : S -> Prop) (lo hi : Z) := {
  read_u8_ok : forall a s, inv s -> lo <= a < hi -> exists v, read_u8 a s = Ret v s /\ 0 <= v < 256;
  write_u8_ok : forall a v s, inv s -> lo <= a < hi -> 0 <= v < 256 ->
    exists s', write_u8 a v s = Ret tt s' /\ inv s' }.

Section Laws.
Context {S : Type} {inv : S -> Prop} {lo hi : Z} `{L : ByteMemLaws S inv lo hi}.

Lemma read_le_ok n : forall a s, inv s -> lo <= a -> a + Z.of_nat n <= hi ->
  exists v, read_le n a s = Ret v s /\ 0 <= v < 256 ^ Z.of_nat n.
Proof.
  induction n as [|n IH]; intros a s I H1 H2; cbn [read_le]; [exists 0; split; [done|lia]|].
  destruct (read_u8_ok (lo := lo) (hi := hi) a s I ltac:(lia)) as (b & E & B). rewrite (bind_eq _ _ _ _ _ E).
  destruct (IH (a + 1) s I ltac:(lia) ltac:(lia)) as (r & E2 & R). rewrite (bind_eq _ _ _ _ _ E2).
  exists (b + 256 * r). split; [done|]. rewrite Nat2Z.inj_succ, Z.pow_succ_r by lia. lia.
Qed.

Lemma write_le_ok n : forall a v s, inv s -> lo <= a -> a + Z.of_nat n <= hi ->
  exists s', write_le n a v s = Ret tt s' /\ inv s'.
Proof.
  induction n as [|n IH]; intros a v s I H1 H2; cbn [write_le]; [by exists s|].
  destruct (write_u8_ok (lo := lo) (hi := hi) a (v mod 256) s I ltac:(lia) ltac:(zlia)) as (s1 & E & I1).
  rewrite (bind_eq _ _ _ _ _ E). apply IH; [done|lia|lia].
Qed.

Section Reloc.
Context (base size delta : Z).
Context (Hb : lo = base) (Hh : hi = base + size) (B0 : 0 <= base) (S0 : 0 <= size) (Bt : base + size + 2 ^ 33 < 2 ^ 64).

Lemma reloc_entries_ok n : forall block entries k s, inv s -> base <= block -> block + 8 <= base + size ->
  base <= entries + 2 * k -> 0 <= k -> 0 <= entries -> entries + 2 * (k + Z.of_nat n) <= base + size ->
  exists st s', reloc_entries n base block entries k size delta s = Ret st s' /\ inv s'.
Proof.
  induction n as [|n IH]; intros block entries k s I H1 H2 H3 H4 H5 H6; cbn [reloc_entries]; [by eexists _, s|].
  rewrite u64_small by lia.
  destruct (read_le_ok 2 (entries + 2 * k) s I) as (e & E1 & R1); [lia..|]. unfold read_u16.
  rewrite (bind_eq _ _ _ _ _ E1). cbv zeta.
  destruct (Z.shiftr e 12 =? KPE_REL_BASED_ABSOLUTE); [apply IH; (done || lia)|].
  destruct (negb _); [by eexists _, s|]. unfold read_u32.
  destruct (read_le_ok 4 block s I) as (va & E2 & R2); [lia..|]. rewrite (bind_eq _ _ _ _ _ E2).
  set (rva := u32 (va + Z.land e 0x0FFF)). assert (0 <= rva < 2 ^ 32) by (apply u32_range).
  destruct (Z.gtb_spec (rva + 8) size); [by eexists _, s|].
  rewrite (u64_small (base + rva)) by lia. unfold read_u64, write_u64.
  destruct (read_le_ok 8 (base + rva) s I) as (v & E3 & R3); [lia..|]. rewrite (bind_eq _ _ _ _ _ E3).
  destruct (write_le_ok 8 (base + rva) (u64 (v + delta)) s I) as (s' & E4 & I4); [lia..|].
  rewrite (bind_eq _ _ _ _ _ E4). apply IH; (done || lia).
Qed.

(** The loop ends by itself: [fuel] turns are enough for what is left of the
    directory, and one more when the cursor did not move. *)
Lemma reloc_blocks_ok fuel : forall cursor end_ s, inv s -> base <= cursor -> end_ <= base + size ->
  cursor < 2 ^ 64 - 2 ^ 33 ->
  (Z.max 0 (end_ - cursor) + 1 < Z.of_nat fuel \/
   (Z.max 0 (end_ - cursor) < Z.of_nat fuel /\ exists v, read_u32 (u64 (cursor + 4)) s = Ret v s /\ v < 8)) ->
  exists st s', reloc_blocks fuel base cursor end_ size delta s = Ret st s' /\ inv s'.
Proof.
  induction fuel as [|fuel IH]; intros cursor end_ s I H1 H2 H3 F; [exfalso; lia|]. cbn [reloc_blocks].
  unfold sizeof_KPE_BASE_RELOCATION_BLOCK. rewrite (u64_small (cursor + 8)) by lia.
  destruct (Z.leb_spec (cursor + 8) end_); cbn [negb]; [|by eexists _, s].
  rewrite (u64_small (cursor + 4)) by lia. unfold read_u32.
  destruct (read_le_ok 4 (cursor + 4) s I) as (sz & E1 & R1); [lia..|].
  change (256 ^ Z.of_nat 4) with 4294967296 in R1. rewrite (bind_eq _ _ _ _ _ E1).
  destruct (Z.ltb_spec sz 8); [by eexists _, s|].
  destruct F as [F|(_ & v & Ev & Lv)].
  2: { exfalso. rewrite u64_small in Ev by lia. unfold read_u32 in Ev. rewrite E1 in Ev. injection Ev as ->. lia. }
  destruct (read_le_ok 4 cursor s I) as (va & E2 & R2); [lia..|]. rewrite (bind_eq _ _ _ _ _ E2).
  destruct (Z.gtb_spec (va + 4096) size); [by eexists _, s|].
  rewrite (u64_small (cursor + sz)) by lia.
  destruct (Z.gtb_spec (cursor + sz) end_); [by eexists _, s|]. cbv zeta.
  destruct (reloc_entries_ok (Z.to_nat ((sz - 8) / 2)) cursor (cursor + 8) 0 s I) as (st & s1 & E3 & I1);
    [lia|lia|lia|lia|lia|rewrite Z2Nat.id by zlia; zlia|].
  rewrite (bind_eq _ _ _ _ _ E3). destruct (ok st); cbn [negb]; [|by eexists _, s1].
  destruct (read_le_ok 4 (cursor + 4) s1 I1) as (sz2 & E4 & R4); [lia..|].
  change (256 ^ Z.of_nat 4) with 4294967296 in R4. rewrite (bind_eq _ _ _ _ _ E4).
  rewrite (u64_small (cursor + sz2)) by lia.
  destruct (Z.ltb_spec (cursor + sz2) end_).
  - apply IH; [done|lia|lia|lia|]. destruct (Z.eq_dec sz2 0) as [->|].
    + right. split; [lia|]. exists 0. rewrite !Z.add_0_r, u64_small by lia. split; [done|lia].
    + left. lia.
  - destruct fuel as [|fuel]; [exfalso; lia|]. cbn [reloc_blocks]. unfold sizeof_KPE_BASE_RELOCATION_BLOCK.
    rewrite (u64_small (cursor + sz2 + 8)) by lia.
    destruct (Z.leb_spec (cursor + sz2 + 8) end_); [lia|]. by eexists _, s1.
Qed.
End Reloc.
End Laws.

(** ** Relocation stays inside *)

(** Relocating a user image ends and stays inside the image, whatever the
    image contains: over any memory in which the bytes of the loaded image can be
    read and written - and that may be undefined everywhere else - the relocation
    returns a status; malformed tables, tables that patch themselves and tables
    whose entries point outside end in an error, never in an access outside. *)
Lemma apply_relocations_ok {S} {inv : S -> Prop} {base : Z} {Nt : KPE_NT_HEADERS64} `{ByteMem S}
  (L : ByteMemLaws S inv base (base + SizeOfImage (OptionalHeader Nt))) s :
  inv s -> 0 <= base < 2 ^ 63 -> 0 <= SizeOfImage (OptionalHeader Nt) < 2 ^ 32 ->
  length (DataDirectory (OptionalHeader Nt)) = 16%nat ->
  Forall (fun d => 0 <= DirVirtualAddress d < 2 ^ 32 /\ 0 <= DirSize d < 2 ^ 32) (DataDirectory (OptionalHeader Nt)) ->
  exists st s', PspApplyUserKpeRelocations base Nt s = Ret st s' /\ inv s'.
Proof.
  intros I B Z Len Dir. unfold PspApplyUserKpeRelocations. cbv zeta.
  destruct (_ =? 0); [by eexists _, s|]. destruct (negb _); [by eexists _, s|].
  destruct (lookup_lt_is_Some_2 (DataDirectory (OptionalHeader Nt)) (Z.to_nat KPE_DIR_BASERELOC)) as [d Hd].
  { rewrite Len. unfold KPE_DIR_BASERELOC. lia. }
  rewrite Hd, bind_deref. destruct (Forall_lookup_1 _ _ _ _ Dir Hd) as [D1 D2].
  destruct (_ || _); [by eexists _, s|].
  destruct (Z.gtb_spec (DirVirtualAddress d + DirSize d) (SizeOfImage (OptionalHeader Nt))); [by eexists _, s|].
  rewrite (u64_small (base + DirVirtualAddress d)) by lia. rewrite u64_small by lia.
  eapply (reloc_blocks_ok (L := L) base (SizeOfImage (OptionalHeader Nt))); try done; lia.
Qed.

(** ** Properties *)

(** An image loaded at the address it was linked for is not touched, and one
    that cannot be relocated is refused untouched. *)
Theorem PspApplyUserKpeRelocations_fixed {S} `{ByteMem S} base (Nt : KPE_NT_HEADERS64) s :
  is_u64 base -> is_u64 (ImageBase (OptionalHeader Nt)) ->
  base = ImageBase (OptionalHeader Nt) \/
  any_flag (DllCharacteristics (OptionalHeader Nt)) KPE_DLLCHAR_DYNAMIC_BASE = false ->
  PspApplyUserKpeRelocations base Nt s
    = Ret (if base =? ImageBase (OptionalHeader Nt) then KSTATUS_SUCCESS else KSTATUS_ACCESS_DENIED) s.
Proof.
  intros U1 U2 D. unfold PspApplyUserKpeRelocations, is_u64 in *. cbv zeta.
  destruct (Z.eqb_spec base (ImageBase (OptionalHeader Nt))) as [->|N].
  - by rewrite Z.sub_diag.
  - destruct D as [D|D]; [done|]. rewrite D. cbn [negb].
    assert (u64 (base - ImageBase (OptionalHeader Nt)) <> 0) as N0 by (unfold u64; zlia).
    by destruct (Z.eqb_spec (u64 (base - ImageBase (OptionalHeader Nt))) 0).
Qed.

(** ** Relocation as parsing and patching

    The reference: parse the directory into the list of patched addresses, then
    add the displacement at each of them. *)

Fixpoint entry_targets (n : nat) (m : mem) (va p size : Z) : option (list Z) :=
  match n with
  | O => Some []
  | S n =>
      let e := load16 m p in
      match entry_targets n m va (p + 2) size with
      | None => None
      | Some ts =>
          if Z.shiftr e 12 =? KPE_REL_BASED_ABSOLUTE then Some ts
          else if Z.shiftr e 12 =? KPE_REL_BASED_DIR64 then
            let rva := u32 (va + Z.land e 0x0FFF) in
            if rva + 8 <=? size then Some (rva :: ts) else None
          else None
      end
  end.

Fixpoint dir_targets (fuel : nat) (m : mem) (cursor end_ size : Z) : option (list Z) :=
  match fuel with
  | O => None
  | S fuel =>
      if negb (cursor + 8 <=? end_) then Some []
      else
        let n := load32 m (cursor + 4) in
        let va := load32 m cursor in
        if (n <? 8) || (va + 4096 >? size) || (cursor + n >? end_) then None
        else
          match entry_targets (Z.to_nat ((n - 8) / 2)) m va (cursor + 8) size, dir_targets fuel m (cursor + n) end_ size with
          | Some ts, Some r => Some (ts ++ r)
          | _, _ => None
          end
  end.

Definition patch (base delta : Z) (m : mem) (rva : Z) : mem :=
  store64 m (base + rva) (u64 (load64 m (base + rva) + delta)).

Lemma read_le_flat n : forall a (m : mem), read_le n a m = Ret (load_le n m a) m.
Proof.
  induction n as [|n IH]; intros a m; [done|]. cbn [read_le]. unfold bind, gets. cbn [read_u8 flat_mem]. unfold gets.
  by rewrite IH.
Qed.

Lemma write_le_flat n : forall a v (m : mem), write_le n a v m = Ret tt (store_le n m a v).
Proof.
  induction n as [|n IH]; intros a v m; [done|]. cbn [write_le]. unfold bind. cbn [write_u8 flat_mem]. unfold modify.
  by rewrite IH.
Qed.

(** The memories agree on [lo, hi). *)
Definition agree (lo hi : Z) (m m' : mem) : Prop := forall a, lo <= a < hi -> load8 m' a = load8 m a.

Lemma agree_load n lo hi m m' a : agree lo hi m m' -> lo <= a -> a + Z.of_nat n <= hi -> load_le n m' a = load_le n m a.
Proof. intros A H1 H2. apply load_le_ext. intros j Hj. apply A. lia. Qed.

Lemma agree_patch lo hi base delta m m' r : agree lo hi m m' -> (base + r + 8 <= lo \/ hi <= base + r) ->
  agree lo hi m (patch base delta m' r).
Proof.
  intros A D a Ha. unfold patch, store64. rewrite load8_store_le.
  destruct (Z.leb_spec (base + r) a), (Z.ltb_spec a (base + r + Z.of_nat 8)); cbn [andb]; (lia || by apply A).
Qed.

Section Reference.
Context (base size delta lo hi : Z).
Context (B0 : 0 <= base) (Bt : base + size + 2 ^ 33 < 2 ^ 64) (Lo : base <= lo) (Hi : hi <= base + size).

(** A target that leaves the directory alone. *)
Definition clear_of (r : Z) : Prop := base + r + 8 <= lo \/ hi <= base + r.

Lemma reloc_entries_eq n : forall m m' block k entries ts, agree lo hi m m' -> mem_ok m ->
  lo <= block -> block + 8 <= hi -> lo <= entries + 2 * k -> 0 <= k -> 0 <= entries ->
  entries + 2 * (k + Z.of_nat n) <= hi ->
  entry_targets n m (load32 m block) (entries + 2 * k) size = Some ts -> Forall clear_of ts ->
  reloc_entries n base block entries k size delta m' = Ret KSTATUS_SUCCESS (foldl (patch base delta) m' ts) /\
  agree lo hi m (foldl (patch base delta) m' ts).
Proof.
  induction n as [|n IH]; intros m m' block k entries ts A Om H1 H2 H3 H4 H5 H6 E F; cbn [entry_targets reloc_entries] in *.
  { injection E as <-. done. }
  rewrite u64_small by lia. unfold read_u16. rewrite (bind_eq _ _ _ _ _ (read_le_flat 2 _ _)).
  rewrite (agree_load 2 lo hi m m') by (done || lia). fold (load16 m (entries + 2 * k)). cbv zeta.
  destruct (entry_targets n m (load32 m block) (entries + 2 * k + 2) size) as [ts'|] eqn:E'; [|done].
  replace (entries + 2 * k + 2) with (entries + 2 * (k + 1)) in E' by lia.
  destruct (Z.shiftr (load16 m (entries + 2 * k)) 12 =? KPE_REL_BASED_ABSOLUTE).
  { injection E as <-. apply IH; (done || lia). }
  destruct (Z.shiftr (load16 m (entries + 2 * k)) 12 =? KPE_REL_BASED_DIR64); [|done]. cbn [negb].
  unfold read_u32. rewrite (bind_eq _ _ _ _ _ (read_le_flat 4 _ _)).
  rewrite (agree_load 4 lo hi m m') by (done || lia). fold (load32 m block).
  set (rva := u32 (load32 m block + _)) in *. assert (0 <= rva < 2 ^ 32) by apply u32_range.
  destruct (Z.leb_spec (rva + 8) size); [|done]. injection E as <-. apply Forall_cons in F as [Fr F].
  destruct (Z.gtb_spec (rva + 8) size); [lia|]. rewrite (u64_small (base + rva)) by lia.
  unfold read_u64, write_u64. rewrite (bind_eq _ _ _ _ _ (read_le_flat 8 _ _)), (bind_eq _ _ _ _ _ (write_le_flat 8 _ _ _)).
  cbn [foldl]. apply IH; try (done || lia). by apply agree_patch.
Qed.

Lemma reloc_blocks_eq fuel : forall m m' cursor ts, agree lo hi m m' -> mem_ok m -> lo <= cursor -> cursor <= hi ->
  dir_targets fuel m cursor hi size = Some ts -> Forall clear_of ts ->
  reloc_blocks fuel base cursor hi size delta m' = Ret KSTATUS_SUCCESS (foldl (patch base delta) m' ts).
Proof.
  induction fuel as [|fuel IH]; intros m m' cursor ts A Om H1 H2 E F; cbn [dir_targets reloc_blocks] in *; [done|].
  unfold sizeof_KPE_BASE_RELOCATION_BLOCK. rewrite (u64_small (cursor + 8)) by lia.
  destruct (Z.leb_spec (cursor + 8) hi); cbn [negb] in *; [|injection E as <-; done].
  rewrite (u64_small (cursor + 4)) by lia. unfold read_u32.
  rewrite (bind_eq _ _ _ _ _ (read_le_flat 4 _ _)), (agree_load 4 lo hi m m') by (done || lia).
  fold (load32 m (cursor + 4)). set (n := load32 m (cursor + 4)) in *.
  assert (0 <= n < 2 ^ 32) by (apply (load_le_range 4); done).
  destruct (Z.ltb_spec n 8); cbn [orb] in E; [done|].
  rewrite (bind_eq _ _ _ _ _ (read_le_flat 4 _ _)), (agree_load 4 lo hi m m') by (done || lia).
  fold (load32 m cursor). destruct (load32 m cursor + 4096 >? size); cbn [orb] in E; [done|].
  rewrite (u64_small (cursor + n)) by lia. destruct (Z.gtb_spec (cursor + n) hi); [done|]. cbv zeta.
  destruct (entry_targets _ _ _ _ _) as [ts1|] eqn:E1; [|done].
  destruct (dir_targets fuel m (cursor + n) hi size) as [r|] eqn:E2; [|done]. injection E as <-.
  apply Forall_app in F as [F1 F2].
  destruct (reloc_entries_eq (Z.to_nat ((n - 8) / 2)) m m' cursor 0 (cursor + 8) ts1) as [E3 A3];
    try (done || lia).
  { rewrite Z.add_0_l, Z2Nat.id by zlia. zlia. } { by rewrite Z.mul_0_r, Z.add_0_r. }
  rewrite (bind_eq _ _ _ _ _ E3). cbn [ok Z.eqb KSTATUS_SUCCESS negb].
  rewrite (bind_eq _ _ _ _ _ (read_le_flat 4 _ _)), (agree_load 4 lo hi m) by (done || lia).
  fold (load32 m (cursor + 4)). fold n. rewrite (u64_small (cursor + n)) by lia.
  rewrite foldl_app. apply IH with (m := m); (done || lia).
Qed.
End Reference.

(** C22: on a well-formed relocation directory that no patch overlaps, relocating
    in place is the same as parsing the directory first and then adding the
    displacement between the load address and the linked address to each listed
    quadword, in order. *)
Theorem PspApplyUserKpeRelocations_correct (m : mem) base (Nt : KPE_NT_HEADERS64) d ts :
  let Opt := OptionalHeader Nt in
  mem_ok m -> 0 <= base < 2 ^ 63 -> 0 <= SizeOfImage Opt < 2 ^ 32 ->
  is_u64 (ImageBase Opt) -> base <> ImageBase Opt ->
  any_flag (DllCharacteristics Opt) KPE_DLLCHAR_DYNAMIC_BASE = true ->
  DataDirectory Opt !! 5%nat = Some d -> 0 < DirVirtualAddress d -> 8 <= DirSize d ->
  DirVirtualAddress d + DirSize d <= SizeOfImage Opt ->
  let lo := base + DirVirtualAddress d in
  dir_targets (Z.to_nat (DirSize d) + 2) m lo (lo + DirSize d) (SizeOfImage Opt) = Some ts ->
  Forall (clear_of base lo (lo + DirSize d)) ts ->
  PspApplyUserKpeRelocations base Nt m =
    Ret KSTATUS_SUCCESS (foldl (patch base (u64 (base - ImageBase Opt))) m ts).
Proof.
  intros Opt Om B Z U N Dy Hd V0 S0 VS lo E F. unfold PspApplyUserKpeRelocations. fold Opt. cbv zeta.
  assert (N0 : u64 (base - ImageBase Opt) <> 0) by (unfold u64, is_u64 in *; zlia).
  destruct (Z.eqb_spec (u64 (base - ImageBase Opt)) 0); [done|]. rewrite Dy. cbn [negb].
  change (Z.to_nat KPE_DIR_BASERELOC) with 5%nat. rewrite Hd, bind_deref.
  unfold sizeof_KPE_BASE_RELOCATION_BLOCK.
  destruct (Z.eqb_spec (DirVirtualAddress d) 0), (Z.ltb_spec (DirSize d) 8); cbn [orb]; try lia.
  destruct (Z.gtb_spec (DirVirtualAddress d + DirSize d) (SizeOfImage Opt)); [lia|].
  rewrite (u64_small (base + DirVirtualAddress d)) by lia. fold lo. rewrite u64_small by lia.
  apply (reloc_blocks_eq base (SizeOfImage Opt) _ lo (lo + DirSize d) ltac:(lia) ltac:(lia) ltac:(lia) ltac:(lia)
    _ m m lo ts); try (done || lia).
Qed.

(** ** Witnesses: an image of two pages linked at 64 KiB, loaded at 1 MiB, with
    one relocation block in its second page that patches the quadword at 0x1010. *)

Definition image_nt : KPE_NT_HEADERS64 :=
  {| Signature := KPE_SIGNATURE;
     FileHeader := {| Machine := KPE_MACHINE_AUR64; NumberOfSections := 1; SizeOfOptionalHeader := 240 |};
     OptionalHeader := {| OptMagic := KPE_OPT_MAGIC_AUR64; AddressOfEntryPoint := 0x1000; ImageBase := 0x10000;
       SectionAlignment := 4096; FileAlignment := 512; SizeOfImage := 0x2000; SizeOfHeaders := 512;
       Subsystem := KPE_SUBSYSTEM_USERLAND; DllCharacteristics := KPE_DLLCHAR_DYNAMIC_BASE;
       NumberOfRvaAndSizes := 16;
       DataDirectory := map (fun i => if Nat.eqb i 5 then {| DirVirtualAddress := 0x1800; DirSize := 12 |}
                                      else {| DirVirtualAddress := 0; DirSize := 0 |}) (seq 0 16) |} |}.
Definition image_mem : mem :=
  store64 (store16 (store16 (store32 (store32 ∅ 0x101800 0x1000) 0x101804 12) 0x101808 0xA010) 0x10180A 0)
    0x101010 0x10020.

Lemma image_mem_ok : mem_ok image_mem.
Proof. unfold image_mem, store64, store32, store16. repeat apply store_le_ok. apply empty_ok. Qed.

Lemma PspApplyUserKpeRelocations_fixed_witness :
  PspApplyUserKpeRelocations 0x10000 image_nt image_mem = Ret KSTATUS_SUCCESS image_mem.
Proof.
  exact (PspApplyUserKpeRelocations_fixed 0x10000 image_nt image_mem ltac:(unfold is_u64; lia)
    ltac:(unfold is_u64; cbn; lia) (or_introl eq_refl)).
Defined.

Lemma PspApplyUserKpeRelocations_correct_witness :
  PspApplyUserKpeRelocations 0x100000 image_nt image_mem = Ret KSTATUS_SUCCESS (patch 0x100000 0xF0000 image_mem 0x1010) /\
  load64 (patch 0x100000 0xF0000 image_mem 0x1010) 0x101010 = 0x100020.
Proof.
  split; [|by vm_compute].
  apply (PspApplyUserKpeRelocations_correct image_mem 0x100000 image_nt {| DirVirtualAddress := 0x1800; DirSize := 12 |}
    [0x1010]);
    [apply image_mem_ok|lia|cbn; lia|unfold is_u64; cbn; lia|cbn; lia|done|done|cbn; lia|cbn; lia|cbn; lia|by vm_compute|].
  constructor; [left; cbn; lia|constructor].
Defined.
