(* ===== verification/KpeLoad.v ===== *)
(** * Loading a user image: the image phases of PsSpawnUserKpeFromBuffer (kernel/ps/init.c)

    Checking the buffer that holds the image, and copying headers and sections to
    the place the image was given, over any [ByteMem]. *)

From S2P Require Import Prelude PhysMem Kpe.

Definition PS_IMAGE_MAX_SIZE : Z := 16 * 1024 * 1024.

Definition PspAlignUp (Value Alignment : Z) : Z :=
  if Alignment =? 0 then Value else Z.land (u64 (Value + Alignment - 1)) (lnot64 (u64 (Alignment - 1))).

Definition PspFileRangeValid (FileSize Offset Size : Z) : bool :=
  let End_ := u64 (Offset + Size) in
  if End_ <? Offset then false else End_ <=? FileSize.

Section Mem.
Context {S : Type} `{ByteMem S}.

(** [for (Index = ...; Index < NumberOfSections; Index++)], [n] sections left:
    every section's bytes lie in the buffer. *)
Fixpoint check_sections (n : nat) (Sections Index ImageSize : Z) : M S bool :=
  match n with
  | O => ret true
  | Datatypes.S n =>
      s <- read_section Sections Index ;;
      if SizeOfRawData s =? 0 then check_sections n Sections (Index + 1) ImageSize
      else if negb (PspFileRangeValid ImageSize (PointerToRawData s) (SizeOfRawData s)) then ret false
      else check_sections n Sections (Index + 1) ImageSize
  end.

(** The validation: the headers and the address of the section table of an image
    that passes. *)
Definition check_user_image (Bytes ImageSize : Z) : M S (option (KPE_NT_HEADERS64 * Z)) :=
  Dos <- read_dos Bytes ;;
  if negb (e_magic Dos =? KPE_DOS_MAGIC) then ret None
  else if e_lfanew Dos + sizeof_KPE_NT_HEADERS64 >? ImageSize then ret None
  else
    Nt <- read_nt (Bytes + e_lfanew Dos) ;;
    let File := FileHeader Nt in
    let Opt := OptionalHeader Nt in
    if negb (Signature Nt =? KPE_SIGNATURE) ||
       negb (Machine File =? KPE_MACHINE_AUR64) ||
       negb (OptMagic Opt =? KPE_OPT_MAGIC_AUR64) ||
       negb (Subsystem Opt =? KPE_SUBSYSTEM_USERLAND) ||
       (NumberOfSections File =? 0) ||
       (SizeOfImage Opt =? 0) ||
       (AddressOfEntryPoint Opt >=? SizeOfImage Opt) ||
       (NumberOfRvaAndSizes Opt >? KPE_NUMBEROF_DIRECTORY_ENTRIES)
    then ret None
    else
      let SectionTableOffset := e_lfanew Dos + 4 + sizeof_KPE_FILE_HEADER + SizeOfOptionalHeader File in
      if SectionTableOffset + NumberOfSections File * sizeof_KPE_SECTION_HEADER >? ImageSize then ret None
      else
        let Sections := Bytes + SectionTableOffset in
        b <- check_sections (Z.to_nat (NumberOfSections File)) Sections 0 ImageSize ;;
        ret (if b then Some (Nt, Sections) else None).

(** [for (Byte = ...; Byte < CopySize; Byte++) Dest[Byte] = Src[Byte];] *)
Fixpoint copy_bytes (n : nat) (Dest Src Byte : Z) : M S unit :=
  match n with
  | O => ret tt
  | Datatypes.S n =>
      b <- read_u8 (Src + Byte) ;;
      write_u8 (Dest + Byte) b ;;;
      copy_bytes n Dest Src (Byte + 1)
  end.

(** The sections' bytes; a section that does not fit ends the loop. *)
Fixpoint copy_sections (n : nat) (UserImageBase Bytes Sections Index SizeOfImage_ : Z) : M S KSTATUS :=
  match n with
  | O => ret KSTATUS_SUCCESS
  | Datatypes.S n =>
      s <- read_section Sections Index ;;
      let CopySize := SizeOfRawData s in
      let SectionDest := u64 (UserImageBase + SecVirtualAddress s) in
      if CopySize =? 0 then copy_sections n UserImageBase Bytes Sections (Index + 1) SizeOfImage_
      else if SecVirtualAddress s + CopySize >? SizeOfImage_ then ret KSTATUS_INVALID_PARAMETER
      else
        copy_bytes (Z.to_nat CopySize) SectionDest (Bytes + PointerToRawData s) 0 ;;;
        copy_sections n UserImageBase Bytes Sections (Index + 1) SizeOfImage_
  end.

(** [SizeOfHeaders], cut to the image and to the buffer. *)
Definition header_copy_size (Opt : KPE_OPTIONAL_HEADER64) (ImageSize : Z) : Z :=
  let HeaderCopySize := SizeOfHeaders Opt in
  let HeaderCopySize := if HeaderCopySize >? SizeOfImage Opt then SizeOfImage Opt else HeaderCopySize in
  if HeaderCopySize >? ImageSize then ImageSize else HeaderCopySize.

Definition copy_user_image (UserImageBase Bytes ImageSize : Z) (Nt : KPE_NT_HEADERS64) (Sections : Z) : M S KSTATUS :=
  let Opt := OptionalHeader Nt in
  copy_bytes (Z.to_nat (header_copy_size Opt ImageSize)) UserImageBase Bytes 0 ;;;
  copy_sections (Z.to_nat (NumberOfSections (FileHeader Nt))) UserImageBase Bytes Sections 0 (SizeOfImage Opt).

(** The image in place: copied, then relocated. *)
Definition place_user_image (UserImageBase Bytes ImageSize : Z) (Nt : KPE_NT_HEADERS64) (Sections : Z) : M S KSTATUS :=
  Status <- copy_user_image UserImageBase Bytes ImageSize Nt Sections ;;
  if ok Status then PspApplyUserKpeRelocations UserImageBase Nt else ret Status.
End Mem.

(** ** Memory as a function

    [view s] is what the bytes at the addresses [good] hold in state [s]; a write
    changes one of them. *)
Class ByteView (S : Type) `{ByteMem S} (inv : S -> Prop) (view : S -> Z -> Z) (good : Z -> Prop) := {
  view_read : forall a s, inv s -> good a -> read_u8 a s = Ret (view s a) s;
  view_range : forall a s, inv s -> good a -> 0 <= view s a < 256;
  view_write : forall a v s, inv s -> good a -> 0 <= v < 256 ->
    exists s', write_u8 a v s = Ret tt s' /\ inv s' /\
      forall b, good b -> view s' b = if a =? b then v else view s b }.

(** Words and headers of such a memory. *)
Fixpoint word (n : nat) (f : Z -> Z) (a : Z) : Z :=
  match n with O => 0 | Datatypes.S n => f a + 256 * word n f (a + 1) end.

Definition dos_in (f : Z -> Z) (p : Z) : KPE_DOS_HEADER :=
  {| e_magic := word 2 f p; e_lfanew := word 4 f (p + 60) |}.

Definition file_header_in (f : Z -> Z) (p : Z) : KPE_FILE_HEADER :=
  {| Machine := word 2 f p; NumberOfSections := word 2 f (p + 2); SizeOfOptionalHeader := word 2 f (p + 16) |}.

Definition directory_in (f : Z -> Z) (p : Z) : KPE_DATA_DIRECTORY :=
  {| DirVirtualAddress := word 4 f p; DirSize := word 4 f (p + 4) |}.

Fixpoint directories_in (n : nat) (f : Z -> Z) (p : Z) : list KPE_DATA_DIRECTORY :=
  match n with O => [] | Datatypes.S n => directory_in f p :: directories_in n f (p + 8) end.

Definition optional_in (f : Z -> Z) (p : Z) : KPE_OPTIONAL_HEADER64 :=
  {| OptMagic := word 2 f p; AddressOfEntryPoint := word 4 f (p + 16); ImageBase := word 8 f (p + 24);
     SectionAlignment := word 4 f (p + 32); FileAlignment := word 4 f (p + 36);
     SizeOfImage := word 4 f (p + 56); SizeOfHeaders := word 4 f (p + 60);
     Subsystem := word 2 f (p + 68); DllCharacteristics := word 2 f (p + 70);
     NumberOfRvaAndSizes := word 4 f (p + 108); DataDirectory := directories_in 16 f (p + 112) |}.

Definition nt_in (f : Z -> Z) (p : Z) : KPE_NT_HEADERS64 :=
  {| Signature := word 4 f p; FileHeader := file_header_in f (p + 4); OptionalHeader := optional_in f (p + 24) |}.

Definition section_in (f : Z -> Z) (Sections Index : Z) : KPE_SECTION_HEADER :=
  let p := Sections + Index * sizeof_KPE_SECTION_HEADER in
  {| SecVirtualSize := word 4 f (p + 8); SecVirtualAddress := word 4 f (p + 12);
     SizeOfRawData := word 4 f (p + 16); PointerToRawData := word 4 f (p + 20);
     SecCharacteristics := word 4 f (p + 36) |}.

(** A word of a number's bytes. *)
Lemma word_bytes n : forall (f : Z -> Z) p v,
  (forall b, p <= b < p + Z.of_nat n -> f b = (v / 256 ^ (b - p)) mod 256) -> word n f p = v mod 256 ^ Z.of_nat n.
Proof.
  induction n as [|n IH]; intros f p v E; cbn [word]; [by rewrite Z.mod_1_r|].
  rewrite (IH f (p + 1) (v / 256)).
  - rewrite (E p) by lia. rewrite Z.sub_diag, Z.pow_0_r, Z.div_1_r, Nat2Z.inj_succ, Z.pow_succ_r by lia.
    rewrite (Z.rem_mul_r v 256 (256 ^ Z.of_nat n)) by (try apply Z.pow_pos_nonneg; lia). done.
  - intros b Hb. rewrite E by lia. replace (b - p) with (1 + (b - (p + 1))) by lia.
    rewrite Z.pow_add_r by lia. by rewrite Z.div_div by lia.
Qed.

Section View.
Context {S : Type} {inv : S -> Prop} {view : S -> Z -> Z} {good : Z -> Prop} `{V : ByteView S inv view good}.

(** The addresses of [lo, hi) are good. *)
Definition span (lo hi : Z) : Prop := forall a, lo <= a < hi -> good a.

Lemma read_le_view n : forall a s, inv s -> span a (a + Z.of_nat n) -> read_le n a s = Ret (word n (view s) a) s.
Proof using V.
  induction n as [|n IH]; intros a s I G; [done|]. cbn [read_le word].
  rewrite (bind_eq _ _ _ _ _ (view_read a s I (G a ltac:(lia)))).
  rewrite (bind_eq _ _ _ _ _ (IH (a + 1) s I ltac:(intros b Hb; apply G; lia))). done.
Qed.

Lemma word_range n : forall a s, inv s -> span a (a + Z.of_nat n) -> 0 <= word n (view s) a < 256 ^ Z.of_nat n.
Proof using V.
  induction n as [|n IH]; intros a s I G; cbn [word]; [done|].
  pose proof (view_range a s I (G a ltac:(lia))). specialize (IH (a + 1) s I ltac:(intros b Hb; apply G; lia)).
  rewrite Nat2Z.inj_succ, Z.pow_succ_r by lia. lia.
Qed.

Lemma word_ext n (f g : Z -> Z) : forall a, (forall b, a <= b < a + Z.of_nat n -> f b = g b) -> word n f a = word n g a.
Proof.
  induction n as [|n IH]; intros a E; [done|]. cbn [word]. rewrite E by lia. f_equal. f_equal. apply IH.
  intros b Hb. apply E. lia.
Qed.

Lemma span_sub lo hi a b : span lo hi -> lo <= a -> b <= hi -> span a b.
Proof. intros G H1 H2 c Hc. apply G. lia. Qed.

(** A word written: its bytes, and nothing else. *)
Lemma write_le_view n : forall p v s, inv s -> span p (p + Z.of_nat n) ->
  exists s', write_le n p v s = Ret tt s' /\ inv s' /\ forall b, good b ->
    view s' b = if (p <=? b) && (b <? p + Z.of_nat n) then (v / 256 ^ (b - p)) mod 256 else view s b.
Proof using V.
  induction n as [|n IH]; intros p v s I G; cbn [write_le].
  { exists s. split; [done|]. split; [done|]. intros b _.
    destruct (Z.leb_spec p b), (Z.ltb_spec b (p + Z.of_nat 0)); try done. lia. }
  destruct (view_write p (v mod 256) s I (G p ltac:(lia)) ltac:(apply Z.mod_pos_bound; lia)) as (s1 & E1 & I1 & V1).
  rewrite (bind_eq _ _ _ _ _ E1).
  destruct (IH (p + 1) (v / 256) s1 I1 ltac:(eapply span_sub; [exact G|lia|lia])) as (s2 & E2 & I2 & V2).
  exists s2. split; [done|]. split; [done|]. intros b Gb. rewrite (V2 b Gb), (V1 b Gb).
  destruct (Z.eqb_spec p b) as [->|N].
  - destruct (Z.leb_spec (b + 1) b), (Z.leb_spec b b), (Z.ltb_spec b (b + Z.of_nat (Datatypes.S n))); try lia. cbn [andb].
    by rewrite Z.sub_diag, Z.pow_0_r, Z.div_1_r.
  - destruct (Z.leb_spec (p + 1) b), (Z.leb_spec p b), (Z.ltb_spec b (p + 1 + Z.of_nat n)),
      (Z.ltb_spec b (p + Z.of_nat (Datatypes.S n))); cbn [andb]; try done; try lia.
    replace (b - p) with (1 + (b - (p + 1))) by lia. rewrite Z.pow_add_r by lia. by rewrite Z.div_div by lia.
Qed.

(** A field written: it reads as it was written, and every other byte is as
    before. *)
Lemma write_field n p v s : inv s -> span p (p + Z.of_nat n) -> 0 <= v < 256 ^ Z.of_nat n ->
  exists s', write_le n p v s = Ret tt s' /\ inv s' /\ word n (view s') p = v /\
    forall b, good b -> ~ p <= b < p + Z.of_nat n -> view s' b = view s b.
Proof using V.
  intros I G Hv. destruct (write_le_view n p v s I G) as (s' & E & I' & V'). exists s'. split; [done|]. split; [done|]. split.
  - rewrite (word_bytes n (view s') p v), Z.mod_small; [done|done|]. intros b Hb. rewrite V' by by apply G.
    destruct (Z.leb_spec p b), (Z.ltb_spec b (p + Z.of_nat n)); (done || lia).
  - intros b Gb Nb. rewrite V' by done. destruct (Z.leb_spec p b), (Z.ltb_spec b (p + Z.of_nat n)); (done || lia).
Qed.

Lemma word_kept n p s s' (P : Z -> Prop) : span p (p + Z.of_nat n) ->
  (forall b, good b -> ~ P b -> view s' b = view s b) -> (forall b, p <= b < p + Z.of_nat n -> ~ P b) ->
  word n (view s') p = word n (view s) p.
Proof using. intros G K N. apply word_ext. intros b Hb. apply K; [by apply G|by apply N]. Qed.

(** One read after another. *)
Ltac reads I G :=
  repeat (erewrite bind_eq; [|apply read_le_view; [exact I|eapply span_sub; [exact G|lia|cbn [Z.of_nat Pos.of_succ_nat Pos.succ] in *; lia]]]).

Lemma read_dos_view p s : inv s -> span p (p + sizeof_KPE_DOS_HEADER) -> read_dos p s = Ret (dos_in (view s) p) s.
Proof using V. unfold sizeof_KPE_DOS_HEADER, read_dos, read_u16, read_u32. intros I G. by reads I G. Qed.

Lemma read_file_header_view p s : inv s -> span p (p + sizeof_KPE_FILE_HEADER) ->
  read_file_header p s = Ret (file_header_in (view s) p) s.
Proof using V. unfold sizeof_KPE_FILE_HEADER, read_file_header, read_u16. intros I G. by reads I G. Qed.

Lemma read_directories_view n : forall p s, inv s -> span p (p + 8 * Z.of_nat n) ->
  read_directories n p s = Ret (directories_in n (view s) p) s.
Proof using V.
  induction n as [|n IH]; intros p s I G; [done|]. cbn [read_directories directories_in].
  unfold read_directory, read_u32. rewrite bind_assoc. reads I G. rewrite bind_assoc. reads I G. rewrite bind_ret_l.
  rewrite (bind_eq _ _ _ _ _ (IH (p + 8) s I ltac:(eapply span_sub; [exact G|lia|lia]))). done.
Qed.

Lemma read_optional_view p s : inv s -> span p (p + sizeof_KPE_OPTIONAL_HEADER64) ->
  read_optional p s = Ret (optional_in (view s) p) s.
Proof using V.
  unfold sizeof_KPE_OPTIONAL_HEADER64, read_optional, read_u16, read_u32, read_u64. intros I G. reads I G.
  change (Z.to_nat KPE_NUMBEROF_DIRECTORY_ENTRIES) with 16%nat.
  rewrite (bind_eq _ _ _ _ _ (read_directories_view 16 (p + 112) s I
    ltac:(eapply span_sub; [exact G|lia|lia]))). done.
Qed.

Lemma read_nt_view p s : inv s -> span p (p + sizeof_KPE_NT_HEADERS64) -> read_nt p s = Ret (nt_in (view s) p) s.
Proof using V.
  unfold sizeof_KPE_NT_HEADERS64, sizeof_KPE_FILE_HEADER, sizeof_KPE_OPTIONAL_HEADER64, read_nt, read_u32. intros I G.
  reads I G.
  rewrite (bind_eq _ _ _ _ _ (read_file_header_view (p + 4) s I
    ltac:(eapply span_sub; [exact G|lia|unfold sizeof_KPE_FILE_HEADER; lia]))).
  rewrite (bind_eq _ _ _ _ _ (read_optional_view (p + 24) s I
    ltac:(eapply span_sub; [exact G|lia|unfold sizeof_KPE_OPTIONAL_HEADER64; lia]))). done.
Qed.

Lemma read_section_view t k s : inv s ->
  span (t + k * sizeof_KPE_SECTION_HEADER) (t + k * sizeof_KPE_SECTION_HEADER + sizeof_KPE_SECTION_HEADER) ->
  read_section t k s = Ret (section_in (view s) t k) s.
Proof using V.
  unfold sizeof_KPE_SECTION_HEADER, read_section, read_u32. intros I G. cbv zeta.
  unfold sizeof_KPE_SECTION_HEADER. by reads I G.
Qed.

(** ** The validation *)

(** The section's bytes lie in the buffer. *)
Definition raw_inside (ImageSize : Z) (x : KPE_SECTION_HEADER) : Prop :=
  SizeOfRawData x = 0 \/ PointerToRawData x + SizeOfRawData x <= ImageSize.

Lemma section_fields f t k : (forall a n, (n <= 4)%nat -> t + k * 40 <= a -> a + Z.of_nat n <= t + k * 40 + 40 ->
    0 <= word n f a < 256 ^ Z.of_nat n) ->
  let x := section_in f t k in
  0 <= SecVirtualSize x < 2 ^ 32 /\ 0 <= SecVirtualAddress x < 2 ^ 32 /\ 0 <= SizeOfRawData x < 2 ^ 32 /\
  0 <= PointerToRawData x < 2 ^ 32 /\ 0 <= SecCharacteristics x < 2 ^ 32.
Proof.
  intros R x. unfold x, section_in, sizeof_KPE_SECTION_HEADER. cbv zeta.
  cbn [SecVirtualSize SecVirtualAddress SizeOfRawData PointerToRawData SecCharacteristics].
  split_and!; (apply (R _ 4%nat); lia).
Qed.

Lemma section_range t k s : inv s -> span (t + k * 40) (t + k * 40 + 40) ->
  let x := section_in (view s) t k in
  0 <= SecVirtualSize x < 2 ^ 32 /\ 0 <= SecVirtualAddress x < 2 ^ 32 /\ 0 <= SizeOfRawData x < 2 ^ 32 /\
  0 <= PointerToRawData x < 2 ^ 32 /\ 0 <= SecCharacteristics x < 2 ^ 32.
Proof using V.
  intros I G. apply section_fields. intros a n Hn H1 H2. apply word_range; [done|]. by eapply span_sub.
Qed.

Lemma check_sections_view n : forall t k size s, inv s -> 0 <= size < 2 ^ 32 ->
  span (t + k * 40) (t + (k + Z.of_nat n) * 40) ->
  exists b, check_sections n t k size s = Ret b s /\
    (b = true <-> forall j, k <= j < k + Z.of_nat n -> raw_inside size (section_in (view s) t j)).
Proof using V.
  induction n as [|n IH]; intros t k size s I Hs G; cbn [check_sections].
  { exists true. split; [done|]. split; [intros _ j Hj; lia|done]. }
  assert (G1 : span (t + k * 40) (t + k * 40 + 40)) by (eapply span_sub; [exact G|lia|lia]).
  rewrite (bind_eq _ _ _ _ _ (read_section_view t k s I G1)).
  destruct (section_range t k s I G1) as (_ & _ & R1 & R2 & _).
  destruct (IH t (k + 1) size s I Hs ltac:(eapply span_sub; [exact G|lia|lia])) as (b & Eb & Hb).
  assert (Split : (forall j, k <= j < k + Z.of_nat (Datatypes.S n) -> raw_inside size (section_in (view s) t j)) <->
    raw_inside size (section_in (view s) t k) /\
    forall j, k + 1 <= j < k + 1 + Z.of_nat n -> raw_inside size (section_in (view s) t j)).
  { split.
    - intros A. split; [apply A; lia|]. intros j Hj. apply A. lia.
    - intros [A1 A2] j Hj. destruct (Z.eq_dec j k) as [->|]; [done|]. apply A2. lia. }
  setoid_rewrite Split. unfold PspFileRangeValid. rewrite u64_small by lia.
  destruct (Z.eqb_spec (SizeOfRawData (section_in (view s) t k)) 0) as [E|E].
  { exists b. split; [done|]. rewrite Hb. split; [intros A; split; [by left|done]|by intros [_ A]]. }
  destruct (Z.ltb_spec (PointerToRawData (section_in (view s) t k) + SizeOfRawData (section_in (view s) t k))
    (PointerToRawData (section_in (view s) t k))); [lia|].
  destruct (Z.leb_spec (PointerToRawData (section_in (view s) t k) + SizeOfRawData (section_in (view s) t k)) size);
    cbn [negb].
  - exists b. split; [done|]. rewrite Hb. split; [intros A; split; [by right|done]|by intros [_ A]].
  - exists false. split; [done|]. split; [done|]. intros [[A|A] _]; lia.
Qed.

(** What an image must be to be loaded. *)
Record accepts (f : Z -> Z) (Bytes ImageSize : Z) (Nt : KPE_NT_HEADERS64) (Sections : Z) : Prop := {
  ac_magic : e_magic (dos_in f Bytes) = KPE_DOS_MAGIC;
  ac_nt : Nt = nt_in f (Bytes + e_lfanew (dos_in f Bytes));
  ac_nt_inside : e_lfanew (dos_in f Bytes) + sizeof_KPE_NT_HEADERS64 <= ImageSize;
  ac_signature : Signature Nt = KPE_SIGNATURE;
  ac_machine : Machine (FileHeader Nt) = KPE_MACHINE_AUR64;
  ac_opt_magic : OptMagic (OptionalHeader Nt) = KPE_OPT_MAGIC_AUR64;
  ac_subsystem : Subsystem (OptionalHeader Nt) = KPE_SUBSYSTEM_USERLAND;
  ac_sections : 0 < NumberOfSections (FileHeader Nt);
  ac_size : 0 < SizeOfImage (OptionalHeader Nt);
  ac_entry : AddressOfEntryPoint (OptionalHeader Nt) < SizeOfImage (OptionalHeader Nt);
  ac_rvas : NumberOfRvaAndSizes (OptionalHeader Nt) <= KPE_NUMBEROF_DIRECTORY_ENTRIES;
  ac_table : Sections = Bytes + e_lfanew (dos_in f Bytes) + 24 + SizeOfOptionalHeader (FileHeader Nt);
  ac_table_inside : Sections + NumberOfSections (FileHeader Nt) * 40 <= Bytes + ImageSize;
  ac_raw : forall k, 0 <= k < NumberOfSections (FileHeader Nt) -> raw_inside ImageSize (section_in f Sections k) }.

(** The widths of the fields of a header in the buffer. *)
Record nt_range (Nt : KPE_NT_HEADERS64) : Prop := {
  nr_sections : 0 <= NumberOfSections (FileHeader Nt) < 2 ^ 16;
  nr_opt : 0 <= SizeOfOptionalHeader (FileHeader Nt) < 2 ^ 16;
  nr_entry : 0 <= AddressOfEntryPoint (OptionalHeader Nt) < 2 ^ 32;
  nr_base : 0 <= ImageBase (OptionalHeader Nt) < 2 ^ 64;
  nr_image : 0 <= SizeOfImage (OptionalHeader Nt) < 2 ^ 32;
  nr_headers : 0 <= SizeOfHeaders (OptionalHeader Nt) < 2 ^ 32;
  nr_rvas : 0 <= NumberOfRvaAndSizes (OptionalHeader Nt) < 2 ^ 32;
  nr_dirs : length (DataDirectory (OptionalHeader Nt)) = 16%nat;
  nr_dir : Forall (fun d => 0 <= DirVirtualAddress d < 2 ^ 32 /\ 0 <= DirSize d < 2 ^ 32)
             (DataDirectory (OptionalHeader Nt)) }.

Lemma directories_range n : forall p s, inv s -> span p (p + 8 * Z.of_nat n) ->
  length (directories_in n (view s) p) = n /\
  Forall (fun d => 0 <= DirVirtualAddress d < 2 ^ 32 /\ 0 <= DirSize d < 2 ^ 32) (directories_in n (view s) p).
Proof using V.
  induction n as [|n IH]; intros p s I G; cbn [directories_in]; [by split|].
  destruct (IH (p + 8) s I ltac:(eapply span_sub; [exact G|lia|lia])) as [L F]. split; [cbn; by rewrite L|].
  constructor; [|done]. split; (apply (word_range 4); [done|eapply span_sub; [exact G|lia|lia]]).
Qed.

Lemma nt_in_range p s : inv s -> span p (p + sizeof_KPE_NT_HEADERS64) -> nt_range (nt_in (view s) p).
Proof using V.
  unfold sizeof_KPE_NT_HEADERS64, sizeof_KPE_FILE_HEADER, sizeof_KPE_OPTIONAL_HEADER64. intros I G.
  assert (R : forall n a, p <= a -> a + Z.of_nat n <= p + 264 -> 0 <= word n (view s) a < 256 ^ Z.of_nat n)
    by (intros n a H1 H2; apply word_range; [done|eapply span_sub; [exact G|lia|lia]]).
  destruct (directories_range 16 (p + 24 + 112) s I ltac:(eapply span_sub; [exact G|lia|lia])).
  constructor; cbn [nt_in FileHeader OptionalHeader file_header_in optional_in NumberOfSections SizeOfOptionalHeader
    AddressOfEntryPoint ImageBase SizeOfImage SizeOfHeaders NumberOfRvaAndSizes DataDirectory];
    first [done | apply (R 2%nat); lia | apply (R 4%nat); lia | apply (R 8%nat); lia].
Qed.

Lemma refuse {A} f Bytes ImageSize (s : A) : (forall Nt T, ~ accepts f Bytes ImageSize Nt T) ->
  exists o, Ret (None : option (KPE_NT_HEADERS64 * Z)) s = Ret o s /\
    forall Nt T, o = Some (Nt, T) <-> accepts f Bytes ImageSize Nt T.
Proof. intros N. exists None. split; [done|]. intros Nt T. split; [done|]. intros A'. by destruct (N Nt T). Qed.

Lemma check_user_image_view s Bytes ImageSize : inv s -> sizeof_KPE_DOS_HEADER <= ImageSize <= PS_IMAGE_MAX_SIZE ->
  span Bytes (Bytes + ImageSize) ->
  exists o, check_user_image Bytes ImageSize s = Ret o s /\
    forall Nt T, o = Some (Nt, T) <-> accepts (view s) Bytes ImageSize Nt T.
Proof using V.
  unfold sizeof_KPE_DOS_HEADER, PS_IMAGE_MAX_SIZE. intros I Sz G. unfold check_user_image.
  rewrite (bind_eq _ _ _ _ _ (read_dos_view Bytes s I ltac:(eapply span_sub; [exact G|lia|unfold sizeof_KPE_DOS_HEADER; lia]))).
  set (D := dos_in (view s) Bytes). destruct (Z.eqb_spec (e_magic D) KPE_DOS_MAGIC); cbn [negb].
  2: { apply refuse. intros Nt T [? ? ? ? ? ? ? ? ? ? ? ? ? ?]. done. }
  assert (0 <= e_lfanew D) by (apply (word_range 4); [done|eapply span_sub; [exact G|lia|lia]]).
  destruct (Z.gtb_spec (e_lfanew D + sizeof_KPE_NT_HEADERS64) ImageSize).
  { apply refuse. intros Nt T [? ? ? ? ? ? ? ? ? ? ? ? ? ?]. subst D. lia. }
  assert (Gn : span (Bytes + e_lfanew D) (Bytes + e_lfanew D + sizeof_KPE_NT_HEADERS64))
    by (eapply span_sub; [exact G|lia|lia]).
  rewrite (bind_eq _ _ _ _ _ (read_nt_view (Bytes + e_lfanew D) s I Gn)). cbv zeta.
  set (N := nt_in (view s) (Bytes + e_lfanew D)). destruct (nt_in_range _ s I Gn) as [R1 R2 R3 _ R4 _ _ _ _].
  fold N in R1, R2, R3, R4.
  match goal with |- context [if ?c then ret None else _] => destruct c eqn:C end.
  { apply refuse. intros Nt T [? -> ? ? ? ? ? ? ? ? ? ? ? ?]. subst D N.
    rewrite !orb_true_iff, !negb_true_iff, !Z.eqb_neq, !Z.eqb_eq, Z.geb_le, Z.gtb_lt in C. intuition lia. }
  rewrite !orb_false_iff, !negb_false_iff, !Z.eqb_eq, !Z.eqb_neq, Z.geb_leb, Z.leb_gt, Z.gtb_ltb, Z.ltb_ge in C.
  destruct C as (((((((C1 & C2) & C3) & C4) & C5) & C6) & C7) & C8).
  unfold sizeof_KPE_FILE_HEADER, sizeof_KPE_SECTION_HEADER.
  set (off := e_lfanew D + 4 + 20 + SizeOfOptionalHeader (FileHeader N)).
  destruct (Z.gtb_spec (off + NumberOfSections (FileHeader N) * 40) ImageSize).
  { apply refuse. intros Nt T [? -> ? ? ? ? ? ? ? ? ? ? ? ?]. subst D N off. lia. }
  destruct (check_sections_view (Z.to_nat (NumberOfSections (FileHeader N))) (Bytes + off) 0 ImageSize s I ltac:(lia))
    as (b & Eb & Hb); [eapply span_sub; [exact G|unfold off; lia|unfold off in *; lia]|].
  rewrite (bind_eq _ _ _ _ _ Eb). rewrite Z.add_0_l, Z2Nat.id in Hb by lia.
  exists (if b then Some (N, Bytes + off) else None). split; [done|]. intros Nt T. split.
  - destruct b; [|done]. intros [= <- <-].
    constructor; fold D; fold N; unfold off in *; first [done | lia | by apply Hb].
  - intros [? -> ? ? ? ? ? ? ? ? ? -> ? Raw]. fold D in Raw. fold N in Raw.
    replace (Bytes + e_lfanew D + 24 + SizeOfOptionalHeader (FileHeader N)) with (Bytes + off) in Raw
      by (unfold off; lia).
    apply Hb in Raw. rewrite Raw. do 2 f_equal. fold D. fold N. unfold off. lia.
Qed.

(** ** The copy *)

Lemma copy_bytes_view n : forall D Sr k s, inv s -> span (D + k) (D + k + Z.of_nat n) ->
  span (Sr + k) (Sr + k + Z.of_nat n) -> (D + k + Z.of_nat n <= Sr + k \/ Sr + k + Z.of_nat n <= D + k) ->
  exists s', copy_bytes n D Sr k s = Ret tt s' /\ inv s' /\
    forall b, good b -> view s' b = if (D + k <=? b) && (b <? D + k + Z.of_nat n) then view s (Sr + (b - D)) else view s b.
Proof using V.
  induction n as [|n IH]; intros D Sr k s I GD GS Dj; cbn [copy_bytes].
  { exists s. split; [done|]. split; [done|]. intros b _.
    destruct (Z.leb_spec (D + k) b), (Z.ltb_spec b (D + k + Z.of_nat 0)); try done. lia. }
  rewrite (bind_eq _ _ _ _ _ (view_read (Sr + k) s I (GS (Sr + k) ltac:(lia)))).
  destruct (view_write (D + k) (view s (Sr + k)) s I (GD (D + k) ltac:(lia)) (view_range _ s I (GS (Sr + k) ltac:(lia))))
    as (s1 & E1 & I1 & V1).
  rewrite (bind_eq _ _ _ _ _ E1).
  destruct (IH D Sr (k + 1) s1 I1) as (s2 & E2 & I2 & V2); [eapply span_sub; [exact GD|lia|lia]|eapply span_sub; [exact GS|lia|lia]|lia|].
  exists s2. split; [done|]. split; [done|]. intros b Gb. rewrite (V2 b Gb).
  destruct (Z.eq_dec b (D + k)) as [->|N].
  - destruct (Z.leb_spec (D + (k + 1)) (D + k)); [lia|]. cbn [andb].
    destruct (Z.leb_spec (D + k) (D + k)), (Z.ltb_spec (D + k) (D + k + Z.of_nat (Datatypes.S n))); try lia. cbn [andb].
    rewrite (V1 _ Gb), Z.eqb_refl. f_equal. lia.
  - assert (E : (D + (k + 1) <=? b) && (b <? D + (k + 1) + Z.of_nat n) =
                (D + k <=? b) && (b <? D + k + Z.of_nat (Datatypes.S n))).
    { destruct (Z.leb_spec (D + (k + 1)) b), (Z.leb_spec (D + k) b), (Z.ltb_spec b (D + (k + 1) + Z.of_nat n)),
        (Z.ltb_spec b (D + k + Z.of_nat (Datatypes.S n))); try done; lia. }
    rewrite E. clear E. destruct (_ && _) eqn:C.
    + apply andb_true_iff in C as [C1 C2]. apply Z.leb_le in C1. apply Z.ltb_lt in C2.
      rewrite V1 by (apply GS; lia). destruct (Z.eqb_spec (D + k) (Sr + (b - D))); [lia|done].
    + rewrite (V1 b Gb). destruct (Z.eqb_spec (D + k) b); [lia|done].
Qed.

(** The section covers the byte at [r] of the image. *)
Definition covers (x : KPE_SECTION_HEADER) (r : Z) : bool :=
  (SecVirtualAddress x <=? r) && (r <? SecVirtualAddress x + SizeOfRawData x).

(** The last section that covers a byte decides it. *)
Definition placed (f : Z -> Z) (Bytes : Z) (l : list KPE_SECTION_HEADER) (r v : Z) : Z :=
  foldl (fun v x => if covers x r then f (Bytes + PointerToRawData x + (r - SecVirtualAddress x)) else v) v l.

Lemma placed_cons f Bytes x l r v : placed f Bytes (x :: l) r v =
  placed f Bytes l r (if covers x r then f (Bytes + PointerToRawData x + (r - SecVirtualAddress x)) else v).
Proof. reflexivity. Qed.

(** The section lies in the image. *)
Definition fits (size : Z) (x : KPE_SECTION_HEADER) : Prop :=
  SizeOfRawData x = 0 \/ SecVirtualAddress x + SizeOfRawData x <= size.

(** The section headers from number [i] on. *)
Definition sections_in (f : Z -> Z) (T : Z) (i n : nat) : list KPE_SECTION_HEADER :=
  map (fun k => section_in f T (Z.of_nat k)) (seq i n).

Section Copy.
Context (f : Z -> Z) (Bytes ImageSize T base size : Z).
Context (Gb : span Bytes (Bytes + ImageSize)) (Gi : span base (base + size)).
Context (B0 : 0 <= base) (Bt : base + size + 2 ^ 32 < 2 ^ 64).
Context (Dj : base + size <= Bytes \/ Bytes + ImageSize <= base).

(** The buffer holds [f]. *)
Definition holds (s : S) : Prop := forall b, Bytes <= b < Bytes + ImageSize -> view s b = f b.
Definition outside_same (s s' : S) : Prop := forall b, good b -> ~ base <= b < base + size -> view s' b = view s b.

Lemma holds_outside s s' : holds s -> outside_same s s' -> holds s'.
Proof using Dj Gb. intros Hs O b Hb. rewrite O; [by apply Hs|by apply Gb|lia]. Qed.

Lemma section_in_ext (g h : Z -> Z) k : (forall b, T + k * 40 <= b < T + k * 40 + 40 -> g b = h b) ->
  section_in g T k = section_in h T k.
Proof.
  intros E. unfold section_in, sizeof_KPE_SECTION_HEADER. cbv zeta.
  by f_equal; apply word_ext; intros b Hb; apply E; lia.
Qed.

Lemma copy_sections_view n : forall i s, inv s -> holds s -> Bytes <= T ->
  T + (Z.of_nat i + Z.of_nat n) * 40 <= Bytes + ImageSize -> Forall (raw_inside ImageSize) (sections_in f T i n) ->
  exists st s', copy_sections n base Bytes T (Z.of_nat i) size s = Ret st s' /\ inv s' /\ outside_same s s' /\
    (st = KSTATUS_SUCCESS <-> Forall (fits size) (sections_in f T i n)) /\
    (st = KSTATUS_SUCCESS -> forall r, 0 <= r < size ->
       view s' (base + r) = placed f Bytes (sections_in f T i n) r (view s (base + r))).
Proof using B0 Bt Dj Gb Gi V.
  induction n as [|n IH]; intros i s I Hs TB TT Raw; cbn [copy_sections].
  { exists KSTATUS_SUCCESS, s. split_and!; [done|done|done|split; [constructor|done]|done]. }
  change (sections_in f T i (Datatypes.S n)) with (section_in f T (Z.of_nat i) :: sections_in f T (Datatypes.S i) n) in *.
  apply Forall_cons in Raw as [R1 Raw].
  assert (G1 : span (T + Z.of_nat i * 40) (T + Z.of_nat i * 40 + 40)) by (eapply span_sub; [exact Gb|lia|lia]).
  rewrite (bind_eq _ _ _ _ _ (read_section_view T (Z.of_nat i) s I G1)).
  pose proof (section_range T (Z.of_nat i) s I G1) as Rg.
  rewrite (section_in_ext (view s) f) in * by (intros b Hb; apply Hs; lia).
  set (x := section_in f T (Z.of_nat i)) in *. cbv zeta. cbv zeta in Rg. destruct Rg as (_ & X1 & X2 & X3 & _).
  replace (Z.of_nat i + 1) with (Z.of_nat (Datatypes.S i)) by lia.
  destruct (Z.eqb_spec (SizeOfRawData x) 0) as [E0|E0].
  { destruct (IH (Datatypes.S i) s I Hs TB ltac:(lia) Raw) as (st & s' & E & I' & O & F & P).
    exists st, s'. split_and!; [done|done|done| |].
    - rewrite F, Forall_cons. split; [intros A; split; [by left|done]|by intros [_ A]].
    - intros St r Hr. rewrite (P St r Hr), placed_cons.
      unfold covers. destruct (Z.leb_spec (SecVirtualAddress x) r), (Z.ltb_spec r (SecVirtualAddress x + SizeOfRawData x));
        try done. lia. }
  destruct R1 as [R1|R1]; [done|].
  destruct (Z.gtb_spec (SecVirtualAddress x + SizeOfRawData x) size).
  { exists KSTATUS_INVALID_PARAMETER, s. split_and!; [done|done|done| |done]. split; [done|].
    intros A. apply Forall_cons in A as [[A|A] _]; [done|lia]. }
  rewrite u64_small by lia.
  destruct (copy_bytes_view (Z.to_nat (SizeOfRawData x)) (base + SecVirtualAddress x) (Bytes + PointerToRawData x) 0 s I)
    as (s1 & E1 & I1 & V1); rewrite ?Z2Nat.id by lia;
    [eapply span_sub; [exact Gi|lia|lia]|eapply span_sub; [exact Gb|lia|lia]|lia|].
  rewrite Z2Nat.id in V1 by lia. rewrite (bind_eq _ _ _ _ _ E1).
  assert (O1 : outside_same s s1).
  { intros b Hb Nb. rewrite (V1 b Hb). destruct (Z.leb_spec (base + SecVirtualAddress x + 0) b),
      (Z.ltb_spec b (base + SecVirtualAddress x + 0 + SizeOfRawData x)); try done. lia. }
  destruct (IH (Datatypes.S i) s1 I1 (holds_outside _ _ Hs O1) TB ltac:(lia) Raw) as (st & s' & E & I' & O & F & P).
  exists st, s'. split_and!; [done|done| | |].
  - intros b Hb Nb. rewrite O, O1 by done. done.
  - rewrite F, Forall_cons. split; [intros A; split; [right; lia|done]|by intros [_ A]].
  - intros St r Hr. rewrite (P St r Hr), placed_cons. f_equal. rewrite V1 by (apply Gi; lia). unfold covers.
    destruct (Z.leb_spec (base + SecVirtualAddress x + 0) (base + r)), (Z.leb_spec (SecVirtualAddress x) r); try lia;
    destruct (Z.ltb_spec (base + r) (base + SecVirtualAddress x + 0 + SizeOfRawData x)),
      (Z.ltb_spec r (SecVirtualAddress x + SizeOfRawData x)); try lia; cbn [andb]; try done.
    rewrite Hs by lia. f_equal. lia.
Qed.

(** The bytes of the loaded image before relocation. *)
Definition image_byte (Nt : KPE_NT_HEADERS64) (r v : Z) : Z :=
  placed f Bytes (sections_in f T 0 (Z.to_nat (NumberOfSections (FileHeader Nt)))) r
    (if r <? header_copy_size (OptionalHeader Nt) ImageSize then f (Bytes + r) else v).

Definition image_fits (Nt : KPE_NT_HEADERS64) : Prop :=
  Forall (fits size) (sections_in f T 0 (Z.to_nat (NumberOfSections (FileHeader Nt)))).

Lemma copy_user_image_view Nt s : inv s -> holds s -> 0 <= ImageSize -> nt_range Nt ->
  SizeOfImage (OptionalHeader Nt) = size -> Bytes <= T ->
  T + NumberOfSections (FileHeader Nt) * 40 <= Bytes + ImageSize ->
  (forall k, 0 <= k < NumberOfSections (FileHeader Nt) -> raw_inside ImageSize (section_in f T k)) ->
  exists st s', copy_user_image base Bytes ImageSize Nt T s = Ret st s' /\ inv s' /\ outside_same s s' /\
    (st = KSTATUS_SUCCESS <-> image_fits Nt) /\
    (st = KSTATUS_SUCCESS -> forall r, 0 <= r < size -> view s' (base + r) = image_byte Nt r (view s (base + r))).
Proof using B0 Bt Dj Gb Gi V.
  intros I Hs Z0 [N1 _ _ _ N2 N3 _ _ _] Es TB TT Raw. unfold copy_user_image. rewrite Es.
  assert (Hc : 0 <= header_copy_size (OptionalHeader Nt) ImageSize /\
    header_copy_size (OptionalHeader Nt) ImageSize <= size /\
    header_copy_size (OptionalHeader Nt) ImageSize <= ImageSize).
  { unfold header_copy_size. rewrite Es in *. destruct (Z.gtb_spec (SizeOfHeaders (OptionalHeader Nt)) size);
      [destruct (Z.gtb_spec size ImageSize)|destruct (Z.gtb_spec (SizeOfHeaders (OptionalHeader Nt)) ImageSize)]; lia. }
  unfold image_byte. set (h := header_copy_size _ _) in *.
  destruct (copy_bytes_view (Z.to_nat h) base Bytes 0 s I) as (s1 & E1 & I1 & V1); rewrite ?Z2Nat.id by lia;
    [eapply span_sub; [exact Gi|lia|lia]|eapply span_sub; [exact Gb|lia|lia]|lia|].
  rewrite Z2Nat.id in V1 by lia. rewrite (bind_eq _ _ _ _ _ E1).
  assert (O1 : outside_same s s1).
  { intros b Hb Nb. rewrite (V1 b Hb). destruct (Z.leb_spec (base + 0) b), (Z.ltb_spec b (base + 0 + h)); try done. lia. }
  destruct (copy_sections_view (Z.to_nat (NumberOfSections (FileHeader Nt))) 0 s1 I1 (holds_outside _ _ Hs O1) TB)
    as (st & s2 & E2 & I2 & O2 & F2 & P2); [lia| |].
  { apply Forall_map, Forall_forall. intros k Hk. apply elem_of_seq in Hk. apply Raw. lia. }
  exists st, s2. split_and!; [done|done| |done|].
  - intros b Hb Nb. by rewrite O2, O1.
  - intros St r Hr. rewrite (P2 St r Hr). f_equal. rewrite V1 by (apply Gi; lia).
    destruct (Z.leb_spec (base + 0) (base + r)), (Z.ltb_spec (base + r) (base + 0 + h)), (Z.ltb_spec r h); try lia;
      cbn [andb]; [|done]. rewrite Hs by lia. f_equal. lia.
Qed.

(** The states that differ from [s] inside the image alone form a memory for the
    relocation. *)
Lemma inside_laws s : ByteMemLaws S (fun x => inv x /\ outside_same s x) base (base + size).
Proof using Gi V.
  split.
  - intros a x [I _] Ha. exists (view x a). split; [by apply view_read; [|apply Gi]|by apply view_range; [|apply Gi]].
  - intros a v x [I O] Ha Hv. destruct (view_write a v x I (Gi a Ha) Hv) as (x' & E & I' & W).
    exists x'. split; [done|]. split; [done|]. intros b Hb Nb. rewrite (W b Hb).
    destruct (Z.eqb_spec a b) as [->|]; [done|]. by apply O.
Qed.
End Copy.

(** C21: the check of a user image reads the buffer and nothing else, changes
    nothing, and accepts exactly the images whose headers, section table and
    section contents lie in the buffer and carry the format's magic numbers, the
    machine and the subsystem of a user program and an entry point inside the
    image. *)
Theorem check_user_image_decides s Bytes ImageSize : inv s ->
  sizeof_KPE_DOS_HEADER <= ImageSize <= PS_IMAGE_MAX_SIZE -> span Bytes (Bytes + ImageSize) ->
  exists o, check_user_image Bytes ImageSize s = Ret o s /\
    forall Nt T, o = Some (Nt, T) <-> accepts (view s) Bytes ImageSize Nt T.
Proof using V. exact (check_user_image_view s Bytes ImageSize). Qed.

(** A user image that passes the check is loaded inside its own range,
    whatever it contains: over any memory in which the buffer and the range can be
    accessed and the two are apart, copying and relocating return a status and
    change no byte outside the range - truncated tables, sections that stick out,
    relocations that patch the tables themselves included.  An image whose
    sections fit and that is loaded where it was linked for succeeds, and holds
    at each address the byte of the last section that covers it, the header's byte
    where none does, and what was there before elsewhere. *)
Lemma place_image_view Bytes ImageSize base Nt T s :
  let size := SizeOfImage (OptionalHeader Nt) in
  inv s -> 0 <= Bytes -> sizeof_KPE_DOS_HEADER <= ImageSize <= PS_IMAGE_MAX_SIZE ->
  accepts (view s) Bytes ImageSize Nt T -> 0 <= base -> base + size < 2 ^ 63 ->
  span Bytes (Bytes + ImageSize) -> span base (base + size) ->
  base + size <= Bytes \/ Bytes + ImageSize <= base ->
  exists st s', place_user_image base Bytes ImageSize Nt T s = Ret st s' /\ inv s' /\
    (forall b, good b -> ~ base <= b < base + size -> view s' b = view s b) /\
    (image_fits (view s) T size Nt -> base = ImageBase (OptionalHeader Nt) ->
     st = KSTATUS_SUCCESS /\
     forall r, 0 <= r < size ->
       view s' (base + r) = image_byte (view s) Bytes ImageSize T Nt r (view s (base + r))).
Proof using V.
  intros size I B0 Sz Ac b0 Bt Gb Gi Dj. unfold sizeof_KPE_DOS_HEADER, PS_IMAGE_MAX_SIZE in Sz.
  assert (0 <= e_lfanew (dos_in (view s) Bytes))
    by (apply (word_range 4); [done|eapply span_sub; [exact Gb|lia|lia]]).
  destruct Ac as [_ En Ni _ _ _ _ Np Sp _ _ Et Ti Raw].
  assert (R : nt_range Nt).
  { rewrite En. apply nt_in_range; [done|]. eapply span_sub; [exact Gb|lia|lia]. }
  pose proof (nr_opt _ R). pose proof (nr_image _ R). fold size in Sp.
  destruct (copy_user_image_view (view s) Bytes ImageSize T base size Gb Gi b0 ltac:(lia) Dj Nt s I)
    as (st & s1 & E1 & I1 & O1 & F1 & P1); [done|lia|done|done|lia|lia|exact Raw|].
  unfold place_user_image. rewrite (bind_eq _ _ _ _ _ E1). unfold ok.
  destruct (Z.eqb_spec st KSTATUS_SUCCESS) as [->|N].
  - destruct (apply_relocations_ok (base := base) (Nt := Nt) (inside_laws base size Gi s) s1 (conj I1 O1) ltac:(lia) ltac:(lia)
      (nr_dirs _ R) (nr_dir _ R)) as (st & s2 & E2 & I2 & O2).
    exists st, s2. split_and!; [done|done|done|]. intros _ Eb.
    unfold PspApplyUserKpeRelocations in E2. rewrite Eb, Z.sub_diag in E2. injection E2 as <- <-.
    split; [done|]. by apply P1.
  - exists st, s1. split_and!; [done|done|done|]. intros Fit _. by apply F1 in Fit.
Qed.
End View.

(** ** Witness: flat memory with an image of one section at 2 MiB, linked and
    loaded at 1 MiB *)

#[local] Instance flat_view : ByteView mem mem_ok load8 (fun _ => True).
Proof.
  split; [done|intros a s I _; apply I|].
  intros a v s I _ Hv. exists (store8 s a v). split; [done|]. split; [by apply store8_ok|].
  intros b _. rewrite load8_store8. by rewrite u8_small.
Qed.

Definition demo_fields : list (nat * Z * Z) :=
  [(2%nat, 0, KPE_DOS_MAGIC); (4%nat, 60, 64); (4%nat, 64, KPE_SIGNATURE); (2%nat, 68, KPE_MACHINE_AUR64);
   (2%nat, 70, 1); (2%nat, 84, 240); (2%nat, 88, KPE_OPT_MAGIC_AUR64); (4%nat, 104, 0x1000); (8%nat, 112, 0x100000);
   (4%nat, 120, 4096); (4%nat, 124, 512); (4%nat, 144, 0x2000); (4%nat, 148, 368);
   (2%nat, 156, KPE_SUBSYSTEM_USERLAND); (4%nat, 196, 16); (4%nat, 336, 16); (4%nat, 340, 0x1000); (4%nat, 344, 16);
   (4%nat, 348, 384); (4%nat, 364, 0x60000000); (8%nat, 384, 0x1122334455667788)].

Definition demo_mem : mem := foldl (fun m x => store_le x.1.1 m (0x200000 + x.1.2) x.2) ∅ demo_fields.
Definition demo_nt : KPE_NT_HEADERS64 := Eval vm_compute in nt_in (load8 demo_mem) 0x200040.

Lemma demo_mem_ok : mem_ok demo_mem.
Proof.
  unfold demo_mem. generalize demo_fields as l. assert (A : mem_ok ∅) by apply empty_ok. revert A.
  generalize (∅ : mem) as m. intros m A l. revert m A.
  induction l as [|x l IH]; intros m A; [done|]. apply IH. by apply store_le_ok.
Qed.

Lemma demo_accepts : accepts (load8 demo_mem) 0x200000 512 demo_nt 0x200148.
Proof.
  constructor.
  14: { intros k Hk. assert (NumberOfSections (FileHeader demo_nt) = 1) as E by by vm_compute. rewrite E in Hk.
  assert (k = 0) as -> by lia. right. by vm_compute. }
  all: vm_compute; congruence.
Qed.

Lemma check_user_image_decides_witness :
  exists o, check_user_image 0x200000 512 demo_mem = Ret o demo_mem /\
    forall Nt T, o = Some (Nt, T) <-> accepts (load8 demo_mem) 0x200000 512 Nt T.
Proof.
  exact (check_user_image_decides demo_mem 0x200000 512 demo_mem_ok ltac:(vm_compute; by split) ltac:(intros a _; exact I)).
Defined.

Example demo_placed :
  match place_user_image 0x100000 0x200000 512 demo_nt 0x200148 demo_mem with
  | Ret st s' => (st =? KSTATUS_SUCCESS) && (load64 s' 0x101000 =? 0x1122334455667788) &&
                 (load16 s' 0x100000 =? KPE_DOS_MAGIC)
  | _ => false
  end = true.
Proof. by vm_compute. Qed.
