(* ===== verification/Efi.v ===== *)
(** * The firmware's side of the boot loader: boot/include/efi.h, boot/include/efilib.h, boot/uefi/efistub.c

    The structures of the UEFI tables as they lie in memory, the boot services the
    loader calls - the firmware itself is not part of the repository, so they are
    the interface [Firmware] - and the small library over them: console output,
    pool memory, filling and copying. *)

From S2P Require Import Prelude CString PhysMem Kpe KpeLoad.

(** ** Constants and types of efi.h *)

Abbreviation EFI_STATUS := Z (only parsing).
Abbreviation EFI_HANDLE := Z (only parsing).

Definition EFI_SUCCESS : EFI_STATUS := 0.
Definition EFI_LOAD_ERROR : EFI_STATUS := 0x8000000000000001.
Definition EFI_INVALID_PARAMETER : EFI_STATUS := 0x8000000000000002.
Definition EFI_UNSUPPORTED : EFI_STATUS := 0x8000000000000003.
Definition EFI_BUFFER_TOO_SMALL : EFI_STATUS := 0x8000000000000005.
Definition EFI_OUT_OF_RESOURCES : EFI_STATUS := 0x8000000000000009.
Definition EFI_ERROR (Status : EFI_STATUS) : bool := any_flag Status 0x8000000000000000.

Definition EFI_FILE_MODE_READ : Z := 1.
Definition EFI_SIZE_TO_PAGES (Size : Z) : Z := Z.shiftr (u64 (Size + 0xFFF)) 12.
Definition EFI_PAGES_TO_SIZE (Pages : Z) : Z := u64 (Z.shiftl Pages 12).
Definition SIZE_OF_EFI_FILE_INFO : Z := 80.

Inductive EFI_ALLOCATE_TYPE := AllocateAnyPages | AllocateMaxAddress | AllocateAddress | MaxAllocateType.

Inductive EFI_MEMORY_TYPE :=
| EfiReservedMemoryType
| EfiLoaderCode
| EfiLoaderData
| EfiBootServicesCode
| EfiBootServicesData
| EfiRuntimeServicesCode
| EfiRuntimeServicesData
| EfiConventionalMemory.

Record EFI_GUID := { Data1 : Z; Data2 : Z; Data3 : Z; Data4 : list Z }.

Definition gEfiLoadedImageProtocolGuid : EFI_GUID :=
  {| Data1 := 0x5B1B31A1; Data2 := 0x9562; Data3 := 0x11D2;
     Data4 := [0x8E; 0x3F; 0x00; 0xA0; 0xC9; 0x69; 0x72; 0x3B] |}.
Definition gEfiSimpleFileSystemProtocolGuid : EFI_GUID :=
  {| Data1 := 0x964E5B22; Data2 := 0x6459; Data3 := 0x11D2;
     Data4 := [0x8E; 0x39; 0x00; 0xA0; 0xC9; 0x69; 0x72; 0x3B] |}.
Definition gEfiFileInfoGuid : EFI_GUID :=
  {| Data1 := 0x09576E92; Data2 := 0x6D3F; Data3 := 0x11D2;
     Data4 := [0x8E; 0x39; 0x00; 0xA0; 0xC9; 0x69; 0x72; 0x3B] |}.
Definition gEfiGraphicsOutputProtocolGuid : EFI_GUID :=
  {| Data1 := 0x9042A9DE; Data2 := 0x23DC; Data3 := 0x4A38;
     Data4 := [0x96; 0xFB; 0x7A; 0xDE; 0xD0; 0x80; 0x51; 0x6A] |}.

#[global] Instance EFI_GUID_eq_dec : EqDecision EFI_GUID.
Proof. solve_decision. Defined.
#[global] Instance EFI_ALLOCATE_TYPE_eq_dec : EqDecision EFI_ALLOCATE_TYPE.
Proof. solve_decision. Defined.

(** What the loader reads of the firmware's structures. *)
Record EFI_MEMORY_DESCRIPTOR := {
  DescType : Z;
  PhysicalStart : Z;
  VirtualStart : Z;
  NumberOfPages : Z;
  DescAttribute : Z }.

(** [ST] and [BS], the addresses of the system table and of the boot services. *)
Record efi_library := { ST : Z; BS : Z }.

(** What [GetMemoryMap] gives back: the status and the four values it may
    change. *)
Record map_reply := {
  mr_status : EFI_STATUS;
  mr_size : Z;
  mr_key : Z;
  mr_descriptor_size : Z;
  mr_descriptor_version : Z }.

(** ** The firmware

    Each method is the function behind one pointer of the tables; an out pointer
    is a component of the result (what the variable holds after the call). *)
Class Firmware (W : Type) := {
  efi_get : W -> efi_library;
  efi_put : efi_library -> W -> W;
  (* EFI_SIMPLE_TEXT_OUTPUT_PROTOCOL *)
  fw_OutputString : Z -> cstr -> M W EFI_STATUS;
  (* EFI_BOOT_SERVICES *)
  fw_AllocatePages : EFI_ALLOCATE_TYPE -> EFI_MEMORY_TYPE -> Z -> Z -> M W (EFI_STATUS * Z);
  fw_GetMemoryMap : Z -> Z -> Z -> Z -> Z -> M W map_reply;
  fw_AllocatePool : EFI_MEMORY_TYPE -> Z -> M W (EFI_STATUS * Z);
  fw_FreePool : Z -> M W EFI_STATUS;
  fw_HandleProtocol : EFI_HANDLE -> EFI_GUID -> M W (EFI_STATUS * Z);
  fw_ExitBootServices : EFI_HANDLE -> Z -> M W EFI_STATUS;
  fw_Stall : Z -> M W unit;
  fw_LocateProtocol : EFI_GUID -> M W (EFI_STATUS * Z);
  (* EFI_SIMPLE_FILE_SYSTEM_PROTOCOL *)
  fw_OpenVolume : Z -> M W (EFI_STATUS * Z);
  (* EFI_FILE_PROTOCOL *)
  fw_Open : Z -> cstr -> Z -> Z -> M W (EFI_STATUS * Z);
  fw_Close : Z -> M W EFI_STATUS;
  fw_Read : Z -> Z -> Z -> M W (EFI_STATUS * Z);
  fw_GetInfo : Z -> EFI_GUID -> Z -> Z -> M W (EFI_STATUS * Z) }.

Section World.
Context {W : Type} `{ByteMem W} `{Firmware W}.

(** ** Fields of the structures, by their offsets *)

Definition SystemTable_ConOut (p : Z) : M W Z := read_u64 (p + 64).
Definition SystemTable_BootServices (p : Z) : M W Z := read_u64 (p + 96).
Definition ConOut_OutputString (p : Z) : M W Z := read_u64 (p + 8).
Definition BootServices_AllocatePool (p : Z) : M W Z := read_u64 (p + 64).
Definition BootServices_FreePool (p : Z) : M W Z := read_u64 (p + 72).
Definition BootServices_Stall (p : Z) : M W Z := read_u64 (p + 248).
Definition LoadedImage_DeviceHandle (p : Z) : M W Z := read_u64 (p + 24).
Definition LoadedImage_ImageBase (p : Z) : M W Z := read_u64 (p + 64).
Definition FileInfo_FileSize (p : Z) : M W Z := read_u64 (p + 8).
Definition Gop_Mode (p : Z) : M W Z := read_u64 (p + 24).
Definition Mode_Info (p : Z) : M W Z := read_u64 (p + 8).
Definition Mode_FrameBufferBase (p : Z) : M W Z := read_u64 (p + 24).
Definition Mode_FrameBufferSize (p : Z) : M W Z := read_u64 (p + 32).
Definition Info_HorizontalResolution (p : Z) : M W Z := read_u32 (p + 4).
Definition Info_VerticalResolution (p : Z) : M W Z := read_u32 (p + 8).
Definition Info_PixelFormat (p : Z) : M W Z := read_u32 (p + 12).
Definition Info_PixelsPerScanLine (p : Z) : M W Z := read_u32 (p + 32).

Definition read_memory_descriptor (p : Z) : M W EFI_MEMORY_DESCRIPTOR :=
  type <- read_u32 p ;; phys <- read_u64 (p + 8) ;; virt <- read_u64 (p + 16) ;; pages <- read_u64 (p + 24) ;;
  attr <- read_u64 (p + 32) ;;
  ret {| DescType := type; PhysicalStart := phys; VirtualStart := virt; NumberOfPages := pages; DescAttribute := attr |}.

(** [gBS->...]: undefined when there are no boot services. *)
Definition boot_services : M W Z :=
  l <- gets efi_get ;; if BS l =? 0 then stuck else ret (BS l).

(** ** The library: efistub.c *)

Definition InitializeLib (ImageHandle : EFI_HANDLE) (SystemTable : Z) : M W unit :=
  bs <- (if negb (SystemTable =? 0) then SystemTable_BootServices SystemTable else ret 0) ;;
  modify (efi_put {| ST := SystemTable; BS := bs |}).

(** Output is skipped when the console or its routine is missing. *)
Definition EfiOutput (Text : option cstr) : M W unit :=
  l <- gets efi_get ;;
  if ST l =? 0 then ret tt
  else
    con <- SystemTable_ConOut (ST l) ;;
    if con =? 0 then ret tt
    else
      out <- ConOut_OutputString con ;;
      if out =? 0 then ret tt
      else
        match Text with
        | None => ret tt
        | Some t => fw_OutputString con t ;;; ret tt
        end.

Definition EfiWriteHexStatus (Status : EFI_STATUS) : M W unit :=
  let Buffer := [48; 120] ++ map (hex_digit Status) (seq 0 16) ++ [0] in
  EfiOutput (Some (cstr_of Buffer)).

(** [while (Value != 0u && Pos < 31)], [n] places left. *)
Fixpoint digits_loop (n : nat) (Buffer : list Z) (Pos : nat) (Value : Z) : list Z * nat :=
  match n with
  | O => (Buffer, Pos)
  | Datatypes.S n =>
      if Value =? 0 then (Buffer, Pos)
      else digits_loop n (<[Pos := 48 + Value mod 10]> Buffer) (Datatypes.S Pos) (Value / 10)
  end.

(** [for (Start = ...; Start < Pos / 2u; Start++)], [n] exchanges left. *)
Fixpoint reverse_loop (n : nat) (Buffer : list Z) (Start Pos : nat) : list Z :=
  match n with
  | O => Buffer
  | Datatypes.S n =>
      let Tmp := nth Start Buffer 0 in
      let Buffer := <[Start := nth (Pos - 1 - Start) Buffer 0]> Buffer in
      let Buffer := <[Pos - 1 - Start := Tmp]>%nat Buffer in
      reverse_loop n Buffer (Datatypes.S Start) Pos
  end.

(** The array as it is printed; its places are written before they are read. *)
Definition unsigned_buffer (Value : Z) : list Z :=
  let '(Buffer, Pos) := digits_loop 31 (replicate 32 0) 0 Value in
  <[Pos := 0]> (reverse_loop (Nat.div2 Pos) Buffer 0 Pos).

Definition EfiWriteUnsigned (Value : Z) : M W unit :=
  if Value =? 0 then EfiOutput (Some [48])
  else EfiOutput (Some (cstr_of (unsigned_buffer Value))).

(** The characters of the format and the arguments left: [%r] takes a status,
    [%u] a number; the characters printed one by one are counted. *)
Fixpoint print_chars (Format : cstr) (Args : list Z) (Written : Z) : M W Z :=
  match Format with
  | [] => ret Written
  | c :: rest =>
      if c =? 0 then ret Written
      else
        let one := EfiOutput (Some [c]) ;;; print_chars rest Args (u64 (Written + 1)) in
        match rest with
        | d :: rest' =>
            if (c =? 37) && (d =? 114) then
              match Args with
              | Status :: Args => EfiWriteHexStatus Status ;;; print_chars rest' Args Written
              | [] => stuck
              end
            else if (c =? 37) && (d =? 117) then
              match Args with
              | Value :: Args => EfiWriteUnsigned Value ;;; print_chars rest' Args Written
              | [] => stuck
              end
            else one
        | [] => one
        end
  end.

Definition Print (Format : option cstr) (Args : list Z) : M W Z :=
  match Format with None => ret 0 | Some f => print_chars f Args 0 end.

(** 0 when the pool has no memory. *)
Definition AllocatePool (Size : Z) : M W Z :=
  l <- gets efi_get ;;
  if BS l =? 0 then ret 0
  else
    f <- BootServices_AllocatePool (BS l) ;;
    if f =? 0 then ret 0
    else
      dlet (Status, Buffer) := fw_AllocatePool EfiLoaderData Size ;;
      if negb (Status =? EFI_SUCCESS) then ret 0 else ret Buffer.

Definition FreePool (Buffer : Z) : M W unit :=
  l <- gets efi_get ;;
  if BS l =? 0 then ret tt
  else
    f <- BootServices_FreePool (BS l) ;;
    if (f =? 0) || (Buffer =? 0) then ret tt else fw_FreePool Buffer ;;; ret tt.

(** [for (Index = ...; Index < Size; Index++) Dst[Index] = Value;], [n] left. *)
Fixpoint set_bytes (n : nat) (Dst Index Value : Z) : M W unit :=
  match n with
  | O => ret tt
  | Datatypes.S n => write_u8 (Dst + Index) Value ;;; set_bytes n Dst (Index + 1) Value
  end.

Definition SetMem (Buffer Size Value : Z) : M W unit := set_bytes (Z.to_nat Size) Buffer 0 Value.
Definition CopyMem (Destination Source Size : Z) : M W unit := copy_bytes (Z.to_nat Size) Destination Source 0.
End World.
