(* ===== verification/UserMem.v ===== *)
(** * Memory through the page tables

    Code that follows a pointer into the address space the processor runs in
    (the copies of kernel/ps/init.c and of kernel/ke/syscall.c) reaches memory by
    the processor's translation: an address without one is undefined.  While the
    accessed frames are no page tables, this is a memory as good as any: the
    theorems about loading an image hold for a real address space. *)

From S2P Require Import Prelude PhysMem MmPages MmTables MmTablesInv MmFault Kpe KpeLoad.

#[global] Instance virt_mem : ByteMem mm_machine := {
  read_u8 a := fun w => match x86_translate (ram w) (cr3 w) a with
                        | Some pa => Ret (load8 (ram w) pa) w
                        | None => Stuck
                        end;
  write_u8 a v := fun w => match x86_translate (ram w) (cr3 w) a with
                           | Some pa => Ret tt (set_ram (store8 (ram w) pa v) w)
                           | None => Stuck
                           end }.

Section Space.
Context (lv : gmap Z nat) (w0 : mm_machine) (a : MM_ADDRESS_SPACE) (good : Z -> Prop).
Context (S0 : space_ok lv w0 a) (C0 : addr_of (cr3 w0) = RootTablePhysical a).

(** The accessed addresses are translated, to frames that hold no table, no two
    to the same byte. *)
Record user_mapped : Prop := {
  um_frame : forall b, good b -> exists pa, translate w0 (RootTablePhysical a) b = Some pa /\ lv !! (pa / 4096 * 4096) = None;
  um_inj : forall b c, good b -> good c ->
    translate w0 (RootTablePhysical a) b = translate w0 (RootTablePhysical a) c -> b = c }.

(** The machine differs from [w0] in bytes outside the tables. *)
Record only_data (w : mm_machine) : Prop := {
  od_mm : mm w = mm w0;
  od_cr3 : cr3 w = cr3 w0;
  od_invlpgs : invlpgs w = invlpgs w0;
  od_ok : mem_ok (ram w);
  od_tables : forall x, lv !! (x / 4096 * 4096) <> None -> load8 (ram w) x = load8 (ram w0) x }.

Lemma only_data_refl : only_data w0.
Proof using S0. constructor; try done. apply (tw_mem _ _ (so_wf _ _ _ S0)). Qed.

Lemma only_data_space w : only_data w -> space_ok lv w a /\
  forall b, x86_translate (ram w) (cr3 w) b = translate w0 (RootTablePhysical a) b.
Proof using S0 C0.
  intros [Em Ec _ Om Et]. pose proof (so_wf _ _ _ S0) as W.
  destruct (space_ok_outside lv w0 w a a S0) as [Sw Tw]; rewrite ?Em; try done.
  - apply (tw_pages _ _ W). - intros t L Ht. apply (tw_frame _ _ W t L Ht).
  - split; [done|]. intros b. unfold x86_translate. rewrite Ec, C0. fold (translate w (RootTablePhysical a) b).
    apply Tw. apply (so_root _ _ _ S0).
Qed.

(** What the bytes at the accessed addresses are. *)
Definition user_view (w : mm_machine) (b : Z) : Z :=
  match translate w0 (RootTablePhysical a) b with Some pa => load8 (ram w) pa | None => 0 end.

#[global] Instance user_byte_view : user_mapped -> ByteView mm_machine only_data user_view good.
Proof using S0 C0.
  intros [Uf Ui]. split.
  - intros b w I Hb. destruct (only_data_space w I) as [_ T]. destruct (Uf b Hb) as (pa & E & _).
    unfold user_view. cbn [read_u8 virt_mem]. by rewrite T, E.
  - intros b w [_ _ _ Om _] Hb. destruct (Uf b Hb) as (pa & E & _). unfold user_view. rewrite E. apply Om.
  - intros b v w I Hb Hv. destruct (only_data_space w I) as [_ T]. destruct (Uf b Hb) as (pa & E & Nt).
    cbn [write_u8 virt_mem]. rewrite T, E. eexists. split; [done|]. split.
    + destruct I as [Em Ec Ei Om Et]. constructor; try done; cbn [ram set_ram].
      * by apply store8_ok.
      * intros x Hx. rewrite load8_store8. destruct (Z.eqb_spec pa x) as [->|]; [by rewrite Nt in Hx|by apply Et].
    + intros c Hc. unfold user_view. destruct (Uf c Hc) as (pc & Ec & _). rewrite Ec. cbn [ram set_ram].
      rewrite load8_store8, u8_small by done. destruct (Z.eqb_spec b c) as [->|N].
      * assert (pa = pc) as -> by congruence. by rewrite Z.eqb_refl.
      * destruct (Z.eqb_spec pa pc) as [->|]; [|done]. destruct N. apply Ui; [done|done|congruence].
Qed.
End Space.

(** C18: loading a user image through the page tables: when the address space in
    use translates the buffer and the image's range to bytes of their own outside
    the page tables, copying and relocating any accepted image returns a status,
    keeps the page tables well formed and every translation of every address
    space, and changes no accessible byte outside the image's range.  If the
    sections fit and the image is where it was linked for, the status is success
    and each byte is the one of the last section that covers it, of the header
    where none does, and unchanged elsewhere. *)
Theorem place_user_image_mapped lv w a good Bytes ImageSize base Nt T :
  let size := SizeOfImage (OptionalHeader Nt) in
  let v := user_view w a in
  space_ok lv w a -> addr_of (cr3 w) = RootTablePhysical a -> user_mapped lv w a good ->
  0 <= Bytes -> sizeof_KPE_DOS_HEADER <= ImageSize <= PS_IMAGE_MAX_SIZE ->
  accepts (v w) Bytes ImageSize Nt T -> 0 <= base -> base + size < 2 ^ 63 ->
  (forall b, Bytes <= b < Bytes + ImageSize -> good b) -> (forall b, base <= b < base + size -> good b) ->
  base + size <= Bytes \/ Bytes + ImageSize <= base ->
  exists st w', place_user_image base Bytes ImageSize Nt T w = Ret st w' /\ space_ok lv w' a /\ mm w' = mm w /\
    (forall r va, lv !! r = Some 0%nat -> translate w' r va = translate w r va) /\
    (forall b, good b -> ~ base <= b < base + size -> v w' b = v w b) /\
    (image_fits (v w) T size Nt -> base = ImageBase (OptionalHeader Nt) ->
     st = KSTATUS_SUCCESS /\
     forall r, 0 <= r < size -> v w' (base + r) = image_byte (v w) Bytes ImageSize T Nt r (v w (base + r))).
Proof.
  intros size v S0 C0 U B0 Sz Ac b0 Bt Gb Gi Dj.
  destruct (place_image_view (V := user_byte_view lv w a good S0 C0 U) Bytes ImageSize base Nt T w
    (only_data_refl lv w a S0) B0 Sz Ac b0 Bt Gb Gi Dj) as (st & w' & E & I & O & P).
  exists st, w'. split; [done|]. split; [by eapply only_data_space|]. split; [by apply I|]. split; [|by split].
  intros r va Hr. destruct I as [Em _ _ Om Et]. pose proof (so_wf _ _ _ S0) as W.
  destruct (space_ok_outside lv w w' a a S0) as [_ Tw]; rewrite ?Em; try done; [apply (tw_pages _ _ W)| |by apply Tw].
  intros t L Ht. apply (tw_frame _ _ W t L Ht).
Qed.

(** ** Witness: the machine of the page-table witnesses with an image and its
    buffer in the one page it maps *)

Definition demo5_fields : list (nat * Z * Z) :=
  [(2%nat, 0, KPE_DOS_MAGIC); (4%nat, 60, 64); (4%nat, 64, KPE_SIGNATURE); (2%nat, 68, KPE_MACHINE_AUR64);
   (2%nat, 70, 1); (2%nat, 84, 240); (2%nat, 88, KPE_OPT_MAGIC_AUR64); (4%nat, 104, 0x190); (8%nat, 112, 0x40000000);
   (4%nat, 120, 16); (4%nat, 124, 16); (4%nat, 144, 0x200); (4%nat, 148, 368);
   (2%nat, 156, KPE_SUBSYSTEM_USERLAND); (4%nat, 196, 16); (4%nat, 336, 16); (4%nat, 340, 0x190); (4%nat, 344, 16);
   (4%nat, 348, 384); (4%nat, 364, 0x60000000); (8%nat, 384, 0x1122334455667788)].

Definition ram5 : mem := foldl (fun m x => store_le x.1.1 m (0x6800 + x.1.2) x.2) ram4 demo5_fields.
Definition demo5 : mm_machine := set_ram ram5 machine4.
Definition demo5_nt : KPE_NT_HEADERS64 := Eval vm_compute in nt_in (user_view demo5 space4 demo5) 0x40000840.

Lemma stores_outside B l : forall m, mem_ok m ->
  forallb (fun x : nat * Z * Z => (0 <=? x.1.2) && (x.1.2 + Z.of_nat x.1.1 <=? 512)) l = true ->
  mem_ok (foldl (fun m x => store_le x.1.1 m (B + x.1.2) x.2) m l) /\
  forall y, ~ B <= y < B + 512 -> load8 (foldl (fun m x => store_le x.1.1 m (B + x.1.2) x.2) m l) y = load8 m y.
Proof.
  induction l as [|[[n o] v] l IH]; intros m Om F; cbn [foldl]; [done|].
  cbn [forallb fst snd] in F. apply andb_true_iff in F as [F1 F]. apply andb_true_iff in F1 as [F1 F2].
  apply Z.leb_le in F1, F2. destruct (IH (store_le n m (B + o) v) (store_le_ok n m (B + o) v Om) F) as [O2 L2].
  split; [done|]. intros y Hy. cbn [fst snd]. rewrite (L2 y Hy), load8_store_le.
  destruct (Z.leb_spec (B + o) y), (Z.ltb_spec y (B + o + Z.of_nat n)); cbn [andb]; try done. lia.
Qed.

Lemma demo5_data : mem_ok ram5 /\ forall x, lv4 !! (x / 4096 * 4096) <> None -> load8 ram5 x = load8 ram4 x.
Proof.
  destruct (stores_outside 0x6800 demo5_fields ram4) as [O L].
  { do 4 apply store_le_ok. apply empty_ok. } { reflexivity. }
  split; [exact O|]. intros x Hx. apply L. intros Hr.
  assert (x / 4096 * 4096 = 0x6000) as E by zlia. rewrite E in Hx. by apply Hx.
Qed.

Lemma demo5_ok : space_ok lv4 demo5 space4.
Proof.
  destruct demo5_data as [O L].
  apply (space_ok_outside lv4 machine4 demo5 space4 space4 space4_ok); try done.
  - apply (tw_pages _ _ (so_wf _ _ _ space4_ok)).
  - intros t k Ht. apply (tw_frame _ _ (so_wf _ _ _ space4_ok) t k Ht).
Qed.

Lemma demo5_translate b : 0x40000000 <= b < 0x40001000 -> translate demo5 8192 b = Some (0x6000 + b mod 4096).
Proof.
  intros Hb. assert (E : forall k, (k <= 3)%nat -> walk_index 0x40000000 k = walk_index b k).
  { apply walk_index_vpage; [lia|lia|]. unfold vpage. f_equal. zlia. }
  rewrite (translate_leads demo5 8192 20480 b).
  - rewrite <- (E 3%nat) by lia.
    assert (P : entry (ram demo5) 20480 (walk_index 0x40000000 3) = 0x6007) by (by vm_compute).
    rewrite P. reflexivity.
  - apply (leads_same_index _ 0x40000000 b 3 0); [lia|done|]. by vm_compute.
Qed.

Lemma demo5_mapped : user_mapped lv4 demo5 space4 (fun b => 0x40000000 <= b < 0x40001000).
Proof.
  constructor; change (RootTablePhysical space4) with 8192.
  - intros b Hb. rewrite (demo5_translate b Hb). eexists. split; [done|].
    replace ((0x6000 + b mod 4096) / 4096 * 4096) with 0x6000 by zlia. reflexivity.
  - intros b c Hb Hc. rewrite (demo5_translate b Hb), (demo5_translate c Hc). intros [= E]. zlia.
Qed.

Lemma demo5_accepts : accepts (user_view demo5 space4 demo5) 0x40000800 512 demo5_nt 0x40000948.
Proof.
  constructor.
  14: { intros k Hk. change (NumberOfSections (FileHeader demo5_nt)) with 1 in Hk.
    assert (k = 0) as -> by lia. right. by vm_compute. }
  all: vm_compute; congruence.
Qed.

Lemma place_user_image_mapped_witness :
  exists st w', place_user_image 0x40000000 0x40000800 512 demo5_nt 0x40000948 demo5 = Ret st w' /\
    space_ok lv4 w' space4 /\ mm w' = mm demo5.
Proof.
  destruct (place_user_image_mapped lv4 demo5 space4 _ 0x40000800 512 0x40000000 demo5_nt 0x40000948 demo5_ok eq_refl
    demo5_mapped) as (st & w' & E & S & M & _); [lia|done|apply demo5_accepts|lia|cbn; lia|lia|cbn; lia|left; cbn; lia|].
  exact (ex_intro _ st (ex_intro _ w' (conj E (conj S M)))).
Defined.
