(* ===== verification/PsSpawn.v ===== *)
(** * Process manager, creation: kernel/ps/init.c

    Creating processes and threads, loading a user image into a new process, and
    the start of the manager.  [mmM], [ob] and [ps] run the memory manager's, the
    object manager's and this manager's operations on the kernel's state. *)

From S2P Require Import Prelude CString BootProto Ob PhysMem MmPages MmTables MmSpace MmSection.
From S2P Require Import MmTablesInv MmFault Kpe KpeLoad UserMem Ps.

Definition PS_USER_STACK_SIZE : Z := 16 * MM_PAGE_SIZE.
Definition PS_THREAD_STACK_BYTES : Z := 16384.

(** ** Updates *)

Definition set_processes (pool : list KPROCESS) (inuse : list bool) (s : ps_state) : ps_state :=
  {| gPsProcessType := gPsProcessType s; gPsThreadType := gPsThreadType s;
     gPsProcessPool := pool; gPsProcessInUse := inuse;
     gPsThreadPool := gPsThreadPool s; gPsThreadInUse := gPsThreadInUse s;
     gPsNextProcessId := gPsNextProcessId s; gPsNextThreadId := gPsNextThreadId s;
     gPsSystemProcess := gPsSystemProcess s; gPsCurrentThread := gPsCurrentThread s;
     gPsRunQueueHead := gPsRunQueueHead s; gPsRunQueueTail := gPsRunQueueTail s;
     gPsReschedulePending := gPsReschedulePending s; gPsReady := gPsReady s; cpu := cpu s;
     gPsThreadStackPool := gPsThreadStackPool s; entry_thunk := entry_thunk s;
     switch_resume := switch_resume s |}.
Definition set_ps_ids (process thread : Z) (s : ps_state) : ps_state :=
  {| gPsProcessType := gPsProcessType s; gPsThreadType := gPsThreadType s;
     gPsProcessPool := gPsProcessPool s; gPsProcessInUse := gPsProcessInUse s;
     gPsThreadPool := gPsThreadPool s; gPsThreadInUse := gPsThreadInUse s;
     gPsNextProcessId := process; gPsNextThreadId := thread;
     gPsSystemProcess := gPsSystemProcess s; gPsCurrentThread := gPsCurrentThread s;
     gPsRunQueueHead := gPsRunQueueHead s; gPsRunQueueTail := gPsRunQueueTail s;
     gPsReschedulePending := gPsReschedulePending s; gPsReady := gPsReady s; cpu := cpu s;
     gPsThreadStackPool := gPsThreadStackPool s; entry_thunk := entry_thunk s;
     switch_resume := switch_resume s |}.
Definition set_ps_types (process thread : option nat) (s : ps_state) : ps_state :=
  {| gPsProcessType := process; gPsThreadType := thread;
     gPsProcessPool := gPsProcessPool s; gPsProcessInUse := gPsProcessInUse s;
     gPsThreadPool := gPsThreadPool s; gPsThreadInUse := gPsThreadInUse s;
     gPsNextProcessId := gPsNextProcessId s; gPsNextThreadId := gPsNextThreadId s;
     gPsSystemProcess := gPsSystemProcess s; gPsCurrentThread := gPsCurrentThread s;
     gPsRunQueueHead := gPsRunQueueHead s; gPsRunQueueTail := gPsRunQueueTail s;
     gPsReschedulePending := gPsReschedulePending s; gPsReady := gPsReady s; cpu := cpu s;
     gPsThreadStackPool := gPsThreadStackPool s; entry_thunk := entry_thunk s;
     switch_resume := switch_resume s |}.
Definition set_ps_ready (ready : bool) (system : option nat) (s : ps_state) : ps_state :=
  {| gPsProcessType := gPsProcessType s; gPsThreadType := gPsThreadType s;
     gPsProcessPool := gPsProcessPool s; gPsProcessInUse := gPsProcessInUse s;
     gPsThreadPool := gPsThreadPool s; gPsThreadInUse := gPsThreadInUse s;
     gPsNextProcessId := gPsNextProcessId s; gPsNextThreadId := gPsNextThreadId s;
     gPsSystemProcess := system; gPsCurrentThread := gPsCurrentThread s;
     gPsRunQueueHead := gPsRunQueueHead s; gPsRunQueueTail := gPsRunQueueTail s;
     gPsReschedulePending := gPsReschedulePending s; gPsReady := ready; cpu := cpu s;
     gPsThreadStackPool := gPsThreadStackPool s; entry_thunk := entry_thunk s;
     switch_resume := switch_resume s |}.

Definition set_ProcessHeader (h : option nat) (p : KPROCESS) : KPROCESS :=
  {| ProcessHeader := h; ProcessId := ProcessId p; AddressSpaceRoot := AddressSpaceRoot p |}.
Definition set_ProcessId (id : Z) (p : KPROCESS) : KPROCESS :=
  {| ProcessHeader := ProcessHeader p; ProcessId := id; AddressSpaceRoot := AddressSpaceRoot p |}.
Definition set_AddressSpaceRoot (a : option nat) (p : KPROCESS) : KPROCESS :=
  {| ProcessHeader := ProcessHeader p; ProcessId := ProcessId p; AddressSpaceRoot := a |}.

Definition get_process (i : nat) : M ps_state KPROCESS := fun s => load_at (gPsProcessPool s) i s.
Definition update_process (i : nat) (f : KPROCESS -> KPROCESS) : M ps_state unit :=
  p <- get_process i ;;
  fun s => (pool <- store_at i (f p) (gPsProcessPool s) ;;
            modify (fun s => set_processes pool (gPsProcessInUse s) s)) s.
Definition set_ThreadHeader (h : option nat) (t : KTHREAD) : KTHREAD :=
  {| ThreadHeader := h; ThreadId := ThreadId t; OwnerProcess := OwnerProcess t;
     Context := Context t; State := State t; TimeSliceTicks := TimeSliceTicks t;
     RemainingTicks := RemainingTicks t; RunQueueNext := RunQueueNext t; WaitQueueNext := WaitQueueNext t;
     StartRoutine := StartRoutine t; StartContext := StartContext t; KernelStackTop := KernelStackTop t;
     IsUserThread := IsUserThread t; UserEntry := UserEntry t; UserStackTop := UserStackTop t;
     UserArg0 := UserArg0 t; UserArg1 := UserArg1 t |}.

(** The delete routines of the manager's two types do nothing. *)
Definition PspThreadDeleteRoutine {W} (Object : nat) : M W unit := ret tt.
Definition PspProcessDeleteRoutine {W} (Object : nat) : M W unit := ret tt.

Definition PspThreadPoolIndex (Thread : nat) : Z := Z.of_nat Thread.

(** The assignments to a new thread's fields in slot [i]. *)
Definition init_thread (s : ps_state) (i p : nat) (Start : option Z) (StartContext_ : Z) (IsUser : bool)
    (Entry Stack Arg0 Arg1 : Z) (t : KTHREAD) : KTHREAD :=
  let top := u64 (gPsThreadStackPool s + PspThreadPoolIndex i * PS_THREAD_STACK_BYTES + PS_THREAD_STACK_BYTES) in
  {| ThreadHeader := ThreadHeader t; ThreadId := gPsNextThreadId s; OwnerProcess := Some p;
     Context := KiArchInitializeContext (Context t) top (Some (entry_thunk s));
     State := PsThreadReady; TimeSliceTicks := PS_DEFAULT_TIMESLICE_TICKS;
     RemainingTicks := PS_DEFAULT_TIMESLICE_TICKS; RunQueueNext := None; WaitQueueNext := None;
     StartRoutine := Start; StartContext := StartContext_; KernelStackTop := top;
     IsUserThread := IsUser; UserEntry := Entry; UserStackTop := Stack; UserArg0 := Arg0; UserArg1 := Arg1 |}.

Section World.
Context {W : Type} `{PsWorld W}.

(** ** Processes *)

Definition PspCreateProcessInternal (Name : option cstr) (OutProcess : bool) : M W (KSTATUS * option nat) :=
  if negb OutProcess then ret (KSTATUS_INVALID_PARAMETER, None)
  else
    let ObjectName := match Name with Some n => n | None => str "proc.user" end in
    dlet (Status, Process) := ps (PspAllocateProcessSlot true) ;;
    if negb (ok Status) then ret (Status, None)
    else
      i <- deref Process ;;
      type <- gets (fun w => gPsProcessType (ps_get w)) ;;
      dlet (Status, Header) := ob (ObCreateObject type (Some ObjectName) OB_ACCESS_ALL 0 true) ;;
      if negb (ok Status) then ret (Status, None)
      else
        ps (update_process i (set_ProcessHeader Header)) ;;;
        id <- gets (fun w => gPsNextProcessId (ps_get w)) ;;
        ps (modify (fun s => set_ps_ids (u64 (id + 1)) (gPsNextThreadId s) s)) ;;;
        ps (update_process i (set_ProcessId id)) ;;;
        dlet (Status, AddressSpace) := mmM (MmCreateAddressSpace id true) ;;
        if negb (ok Status) then ret (Status, None)
        else
          ps (update_process i (set_AddressSpaceRoot AddressSpace)) ;;;
          ret (KSTATUS_SUCCESS, Some i).

Definition PspCreateSystemProcess : M W KSTATUS :=
  dlet (Status, Process) := PspCreateProcessInternal (Some (str "proc.system")) true ;;
  if negb (ok Status) then ret Status
  else
    ps (modify (fun s => set_ps_ready (gPsReady s) Process s)) ;;;
    ret KSTATUS_SUCCESS.

Definition PsCreateProcess (Name : option cstr) (OutProcess : bool) : M W (KSTATUS * option nat) :=
  s <- gets ps_get ;;
  if negb (gPsReady s) then ret (KSTATUS_INVALID_PARAMETER, None)
  else PspCreateProcessInternal Name OutProcess.

(** ** Threads *)

(** The part both kinds of thread share: a slot, an object, the fields. *)
Definition new_thread (Name : cstr) (p : nat) (Start : option Z) (StartContext_ : Z) (IsUser : bool)
    (Entry Stack Arg0 Arg1 : Z) : M W (KSTATUS * option nat) :=
  dlet (Status, Thread) := ps (PspAllocateThreadSlot true) ;;
  if negb (ok Status) then ret (Status, None)
  else
    i <- deref Thread ;;
    type <- gets (fun w => gPsThreadType (ps_get w)) ;;
    dlet (Status, Header) := ob (ObCreateObject type (Some Name) OB_ACCESS_ALL OB_FLAG_WAITABLE true) ;;
    if negb (ok Status) then ret (Status, None)
    else
      ps (update_thread i (set_ThreadHeader Header)) ;;;
      s <- gets ps_get ;;
      ps (modify (fun s => set_ps_ids (gPsNextProcessId s) (u64 (gPsNextThreadId s + 1)) s)) ;;;
      ps (update_thread i (init_thread s i p Start StartContext_ IsUser Entry Stack Arg0 Arg1)) ;;;
      ret (KSTATUS_SUCCESS, Some i).

Definition PsCreateKernelThread (Process : option nat) (StartRoutine_ : option Z) (StartContext_ : Z)
    (OutThread : bool) : M W (KSTATUS * option nat) :=
  s <- gets ps_get ;;
  match Process with
  | None => ret (KSTATUS_INVALID_PARAMETER, None)
  | Some p =>
      if negb (gPsReady s) || negb OutThread then ret (KSTATUS_INVALID_PARAMETER, None)
      else new_thread (str "thread.kernel") p StartRoutine_ StartContext_ false 0 0 0 0
  end.

Definition PsCreateUserThread (Process : option nat) (UserEntry_ UserStackTop_ UserArg0_ UserArg1_ : Z)
    (OutThread : bool) : M W (KSTATUS * option nat) :=
  s <- gets ps_get ;;
  match Process with
  | None => ret (KSTATUS_INVALID_PARAMETER, None)
  | Some p =>
      if negb (gPsReady s) || negb OutThread then ret (KSTATUS_INVALID_PARAMETER, None)
      else if (UserEntry_ =? 0) || (UserStackTop_ <? 16) then ret (KSTATUS_INVALID_PARAMETER, None)
      else if (UserEntry_ >=? PS_USER_TOP) || (UserStackTop_ >=? PS_USER_TOP) then ret (KSTATUS_ACCESS_DENIED, None)
      else
        q <- ps (get_process p) ;;
        match AddressSpaceRoot q with
        | None => ret (KSTATUS_INVALID_PARAMETER, None)
        | Some i =>
            a <- mmM (get_space i) ;;
            dlet (Status, EntryPagePte) := mmM (MmAsQueryPte (Some a) (Z.land UserEntry_ (lnot64 0xFFF)) true) ;;
            if negb (ok Status) ||
               match EntryPagePte with
               | None => true
               | Some pte => negb (any_flag pte PS_PTE_PRESENT) || negb (any_flag pte PS_PTE_USER) ||
                             any_flag pte PS_PTE_NX
               end
            then ret (KSTATUS_ACCESS_DENIED, None)
            else
              dlet (Status, StackPagePte) :=
                mmM (MmAsQueryPte (Some a) (Z.land (u64 (UserStackTop_ - 1)) (lnot64 0xFFF)) true) ;;
              if negb (ok Status) ||
                 match StackPagePte with
                 | None => true
                 | Some pte => negb (any_flag pte PS_PTE_PRESENT) || negb (any_flag pte PS_PTE_USER) ||
                               negb (any_flag pte PS_PTE_WRITABLE)
                 end
              then ret (KSTATUS_ACCESS_DENIED, None)
              else
                new_thread (str "thread.user") p None 0 true UserEntry_ (Z.land UserStackTop_ (lnot64 0x0F))
                  UserArg0_ UserArg1_
        end
  end.

(** ** Loading a user image *)

(** [for (Cursor = ...; Cursor < Span; Cursor += MM_PAGE_SIZE)], [n] pages left;
    the status of each page is dropped. *)
Fixpoint protect_pages (n i : nat) (SectionBase Cursor PteFlags : Z) : M mm_machine unit :=
  match n with
  | O => ret tt
  | S n =>
      a <- get_space i ;;
      MmAsProtectPage (Some a) (Z.land (u64 (SectionBase + Cursor)) (lnot64 0xFFF)) PteFlags ;;;
      protect_pages n i SectionBase (Cursor + MM_PAGE_SIZE) PteFlags
  end.

(** The page flags of a section. *)
Definition section_flags (x : KPE_SECTION_HEADER) : Z :=
  let PteFlags := PS_PTE_USER in
  let PteFlags := if any_flag (SecCharacteristics x) KPE_SCN_MEM_WRITE then Z.lor PteFlags PS_PTE_WRITABLE else PteFlags in
  if any_flag (SecCharacteristics x) KPE_SCN_MEM_EXECUTE then PteFlags else Z.lor PteFlags PS_PTE_NX.

Definition effective_size (x : KPE_SECTION_HEADER) : Z :=
  if SecVirtualSize x =? 0 then SizeOfRawData x else SecVirtualSize x.

(** The loop over the sections, [n] left. *)
Fixpoint protect_sections (n i : nat) (UserImageBase Sections Index : Z) : M mm_machine unit :=
  match n with
  | O => ret tt
  | S n =>
      x <- read_section Sections Index ;;
      (if effective_size x =? 0 then ret tt
       else
         protect_pages (Z.to_nat (PspAlignUp (effective_size x) MM_PAGE_SIZE / MM_PAGE_SIZE)) i
           (u64 (UserImageBase + SecVirtualAddress x)) 0 (section_flags x)) ;;;
      protect_sections n i UserImageBase Sections (Index + 1)
  end.

(** [AddressSpace->NextUserBase = PreferredImageBase;] *)
Definition set_next_user_base (i : nat) (Base : Z) : M mm_machine unit :=
  a <- get_space i ;; put_space i (set_bounds (RegionCount a) Base a).

(** Where the image is linked, if a user image may be there. *)
Definition preferred_base (Opt : KPE_OPTIONAL_HEADER64) : option Z :=
  let PreferredImageBase := Z.land (ImageBase Opt) (lnot64 0xFFF) in
  if (PreferredImageBase =? 0) ||
     (PreferredImageBase >=? PS_USER_TOP) ||
     (u64 (PreferredImageBase + SizeOfImage Opt) <? PreferredImageBase) ||
     (u64 (PreferredImageBase + SizeOfImage Opt) >=? PS_USER_TOP)
  then None else Some PreferredImageBase.

(** The image, the guard page and the stack of address space [i]: the image's
    base and the stack's. *)
Definition map_user_regions (i : nat) (SizeOfImage_ : Z) : M mm_machine (KSTATUS * (Z * Z)) :=
  dlet (Status, UserImageBase) := MmMapAnonymous (Some i) SizeOfImage_
    (Z.lor (Z.lor MM_PROT_READ MM_PROT_WRITE) MM_PROT_EXECUTE) MM_REGION_FLAG_WIRED true ;;
  if negb (ok Status) then ret (Status, (0, 0))
  else
    UserImageBase <- deref UserImageBase ;;
    dlet (Status, UserStackBase) := MmMapAnonymous (Some i) MM_PAGE_SIZE MM_PROT_READ
      (Z.lor MM_REGION_FLAG_GUARD MM_REGION_FLAG_LAZY) true ;;
    if negb (ok Status) then ret (Status, (0, 0))
    else
      dlet (Status, UserStackBase) := MmMapAnonymous (Some i) PS_USER_STACK_SIZE
        (Z.lor MM_PROT_READ MM_PROT_WRITE) MM_REGION_FLAG_WIRED true ;;
      if negb (ok Status) then ret (Status, (0, 0))
      else
        UserStackBase <- deref UserStackBase ;;
        ret (KSTATUS_SUCCESS, (UserImageBase, UserStackBase)).

(** The image is written with address space [i] in use; afterwards the current
    process's is in use again, if there is one. *)
Definition write_user_image (i : nat) (UserImageBase Bytes ImageSize : Z) (Nt : KPE_NT_HEADERS64) (Sections : Z)
  : M W KSTATUS :=
  CurrentProcess <- ps PsGetCurrentProcess ;;
  PreviousAddressSpace <- match CurrentProcess with
                          | None => ret None
                          | Some p => q <- ps (get_process p) ;; ret (AddressSpaceRoot q)
                          end ;;
  Status <- mmM (MmActivateAddressSpace (Some i)) ;;
  if negb (ok Status) then ret Status
  else
    Status <- mmM (place_user_image UserImageBase Bytes ImageSize Nt Sections) ;;
    (match PreviousAddressSpace with
     | None => ret tt
     | Some a => mmM (MmActivateAddressSpace (Some a)) ;;; ret tt
     end) ;;;
    ret Status.

(** Everything after the validation: the new process's id and entry address. *)
Definition spawn_image (Bytes ImageSize : Z) (Nt : KPE_NT_HEADERS64) (Sections : Z) : M W (KSTATUS * (Z * Z)) :=
  let Opt := OptionalHeader Nt in
  dlet (Status, Process) := PspCreateProcessInternal (Some (str "proc.user")) true ;;
  if negb (ok Status) then ret (Status, (0, 0))
  else
    p <- deref Process ;;
    q <- ps (get_process p) ;;
    i <- deref (AddressSpaceRoot q) ;;
    match preferred_base Opt with
    | None => ret (KSTATUS_INVALID_PARAMETER, (0, 0))
    | Some PreferredImageBase =>
        mmM (set_next_user_base i PreferredImageBase) ;;;
        dlet (Status, (UserImageBase, UserStackBase)) := mmM (map_user_regions i (SizeOfImage Opt)) ;;
        if negb (ok Status) then ret (Status, (0, 0))
        else
          let UserStackTop_ := u64 (UserStackBase + PS_USER_STACK_SIZE) in
          Status <- write_user_image i UserImageBase Bytes ImageSize Nt Sections ;;
          if negb (ok Status) then ret (Status, (0, 0))
          else
            mmM (protect_sections (Z.to_nat (NumberOfSections (FileHeader Nt))) i UserImageBase Sections 0) ;;;
            let UserEntry_ := u64 (UserImageBase + AddressOfEntryPoint Opt) in
            dlet (Status, Thread) := PsCreateUserThread Process UserEntry_ UserStackTop_ 0 0 true ;;
            if negb (ok Status) then ret (Status, (0, 0))
            else
              Status <- ps (PsReadyThread Thread) ;;
              if negb (ok Status) then ret (Status, (0, 0))
              else
                q <- ps (get_process p) ;;
                ret (KSTATUS_SUCCESS, (ProcessId q, UserEntry_))
    end.

(** On success the process id and the entry address, for the pointers that are
    not null. *)
Definition PsSpawnUserKpeFromBuffer (ImageBuffer : option Z) (ImageSize : Z) (OutProcessId OutEntryAddress : bool)
  : M W (KSTATUS * (option Z * option Z)) :=
  s <- gets ps_get ;;
  match ImageBuffer with
  | None => ret (KSTATUS_INVALID_PARAMETER, (None, None))
  | Some Bytes =>
      if negb (gPsReady s) || (ImageSize <? sizeof_KPE_DOS_HEADER) || (ImageSize >? PS_IMAGE_MAX_SIZE)
      then ret (KSTATUS_INVALID_PARAMETER, (None, None))
      else
        r <- mmM (check_user_image Bytes ImageSize) ;;
        match r with
        | None => ret (KSTATUS_INVALID_PARAMETER, (None, None))
        | Some (Nt, Sections) =>
            dlet (Status, (Pid, Entry)) := spawn_image Bytes ImageSize Nt Sections ;;
            if negb (ok Status) then ret (Status, (None, None))
            else ret (KSTATUS_SUCCESS, (if OutProcessId then Some Pid else None,
                                        if OutEntryAddress then Some Entry else None))
        end
  end.

(** ** Start *)

(** [gPsReady = 0;] on the way out of a failed start *)
Definition start_failed (Status : KSTATUS) : M W KSTATUS :=
  ps (modify (fun s => set_ps_ready false (gPsSystemProcess s) s)) ;;; ret Status.

Definition PsInitialize : M W KSTATUS :=
  s <- gets ps_get ;;
  if gPsReady s then ret KSTATUS_ALREADY_INITIALIZED
  else
    ps (modify (fun s => set_pending false (set_current None (set_queue None None (set_ps_ids 1 1
      (set_threads (gPsThreadPool s) (replicate (Z.to_nat PS_MAX_THREADS) false)
        (set_processes (gPsProcessPool s) (replicate (Z.to_nat PS_MAX_PROCESSES) false) s))))))) ;;;
    dlet (Status, Type_) := ob (ObCreateType (Some (str "Process")) (Some ProcessDeleteRoutine) true) ;;
    if negb (ok Status) && negb (Status =? KSTATUS_ALREADY_INITIALIZED) then ret Status
    else
      (if ok Status then ps (modify (fun s => set_ps_types Type_ (gPsThreadType s) s)) else ret tt) ;;;
      dlet (Status, Type_) := ob (ObCreateType (Some (str "Thread")) (Some ThreadDeleteRoutine) true) ;;
      if negb (ok Status) && negb (Status =? KSTATUS_ALREADY_INITIALIZED) then ret Status
      else
        (if ok Status then ps (modify (fun s => set_ps_types (gPsProcessType s) Type_ s)) else ret tt) ;;;
        Status <- PspCreateSystemProcess ;;
        if negb (ok Status) then ret Status
        else
          ps (modify (fun s => set_ps_ready true (gPsSystemProcess s) s)) ;;;
          system <- gets (fun w => gPsSystemProcess (ps_get w)) ;;
          dlet (Status, BootstrapThread) := PsCreateKernelThread system None 0 true ;;
          if negb (ok Status) then start_failed Status
          else
            Status <- ps (PsReadyThread BootstrapThread) ;;
            if negb (ok Status) then start_failed Status
            else
              HalRegisterTimerTickRoutine ;;;
              Status <- PsDispatch ;;
              if negb (ok Status) then start_failed Status
              else ret KSTATUS_SUCCESS.
End World.

(** ** Diagnostics *)

Definition state_code (x : PS_THREAD_STATE) : Z :=
  match x with PsThreadReady => 0 | PsThreadRunning => 1 | PsThreadBlocked => 2 | PsThreadDead => 3 end.

(** The line with the id of a thread's process, if it has one. *)
Definition owner_line (s : ps_state) (Prefix : String.string) (t : KTHREAD) : option (list cstr) :=
  match OwnerProcess t with
  | None => Some []
  | Some p => q ← gPsProcessPool s !! p; lines [PspWriteHexLine (str Prefix) (ProcessId q)]
  end.

(** [while (Cursor != 0)] along the run queue, [fuel] turns left. *)
Fixpoint dump_queue (fuel : nat) (s : ps_state) (Cursor : option nat) : option (list cstr) :=
  match Cursor with
  | None => Some []
  | Some i =>
      match fuel with
      | O => None
      | S fuel =>
          t ← gPsThreadPool s !! i;
          l1 ← lines [PspWriteHexLine (str "[PSDBG] runq.tid=") (ThreadId t)];
          l2 ← owner_line s "[PSDBG] runq.pid=" t;
          l3 ← lines [PspWriteHexLine (str "[PSDBG] runq.state=") (state_code (State t))];
          l4 ← dump_queue fuel s (RunQueueNext t);
          Some (l1 ++ l2 ++ l3 ++ l4)
      end
  end.

(** [AddressOf]: where the pool of address spaces lies. *)
Definition dump_process (s : ps_state) (o : ob_state) (AddressOf : option nat -> Z) (i : nat) (inuse : bool)
  : option (list cstr) :=
  if negb inuse then Some []
  else
    p ← gPsProcessPool s !! i;
    l1 ← lines [PspWriteHexLine (str "[PSDBG] proc.pid=") (ProcessId p);
                PspWriteHexLine (str "[PSDBG] proc.as=") (AddressOf (AddressSpaceRoot p))];
    match ProcessHeader p with
    | None => Some l1
    | Some h => x ← gObObjectPool o !! h;
                l2 ← lines [Some (str "[PSDBG] proc.name="); Some (cstr_of (ObjectName x)); Some [10]];
                Some (l1 ++ l2)
    end.

Definition dump_thread (s : ps_state) (i : nat) (inuse : bool) : option (list cstr) :=
  if negb inuse then Some []
  else
    t ← gPsThreadPool s !! i;
    l1 ← lines [PspWriteHexLine (str "[PSDBG] thread.tid=") (ThreadId t);
                PspWriteHexLine (str "[PSDBG] thread.state=") (state_code (State t));
                PspWriteHexLine (str "[PSDBG] thread.user=") (if IsUserThread t then 1 else 0)];
    l2 ← owner_line s "[PSDBG] thread.pid=" t;
    Some (l1 ++ l2).

(** A run queue of distinct threads is no longer than the pool. *)
Definition PsDumpSchedulerState (s : ps_state) (o : ob_state) (AddressOf : option nat -> Z) : option (list cstr) :=
  if negb (gPsReady s) then Some []
  else
    l1 ← match gPsCurrentThread s with
         | None => Some [str "[PSDBG] current=<none>" ++ [10]]
         | Some c =>
             t ← gPsThreadPool s !! c;
             k1 ← lines [PspWriteHexLine (str "[PSDBG] current.tid=") (ThreadId t);
                         PspWriteHexLine (str "[PSDBG] current.state=") (state_code (State t))];
             k2 ← owner_line s "[PSDBG] current.pid=" t;
             Some (k1 ++ k2)
         end;
    l2 ← dump_queue (length (gPsThreadPool s)) s (gPsRunQueueHead s);
    l3 ← concat_lines (imap (dump_process s o AddressOf) (gPsProcessInUse s));
    l4 ← concat_lines (imap (dump_thread s) (gPsThreadInUse s));
    Some ([str "[PSDBG] scheduler begin" ++ [10]] ++ l1 ++ l2 ++ l3 ++ l4 ++
          [str "[PSDBG] scheduler end" ++ [10]]).
