(* ===== verification/Lpc.v ===== *)
(** * Local procedure calls: kernel/lpc/init.c, kernel/include/lpc.h

    Ports reached through handles: a pool of port objects, each with its
    message queue and the queue of threads that wait for a message, linked
    through [WaitQueueNext].  Sending and receiving resolve the handle, work on
    the port and release the reference; the scheduler wakes and blocks threads. *)

From S2P Require Import Prelude CString BootProto Nk Ob PhysMem MmPages MmTables MmSpace MmSection Ps.

(** ** Data *)

Definition LPC_MAX_PORT_OBJECTS : Z := 128.
Definition LPC_OPCODE_BASE : Z := 0x1100.
Definition LPC_PORT_ACCESS_SEND : Z := 0x00000002.
Definition LPC_PORT_ACCESS_RECV : Z := 0x00000001.
Definition LPC_PORT_ACCESS_ALL : Z := Z.lor LPC_PORT_ACCESS_SEND LPC_PORT_ACCESS_RECV.

Record LPC_PORT_OBJECT := {
  PortHeader : option nat;
  MessagePort : NK_PORT;
  WaitHead : option nat;
  WaitTail : option nat }.

Record lpc_state := {
  gLpcSystemEndpoint : NK_SERVICE_ENDPOINT;
  gLpcPortType : option nat;
  gLpcPortPool : list LPC_PORT_OBJECT;
  gLpcPortInUse : list bool;
  gLpcReady : bool }.

Definition set_ports (pool : list LPC_PORT_OBJECT) (inuse : list bool) (s : lpc_state) : lpc_state :=
  {| gLpcSystemEndpoint := gLpcSystemEndpoint s; gLpcPortType := gLpcPortType s;
     gLpcPortPool := pool; gLpcPortInUse := inuse; gLpcReady := gLpcReady s |}.
Definition set_MessagePort (q : NK_PORT) (p : LPC_PORT_OBJECT) : LPC_PORT_OBJECT :=
  {| PortHeader := PortHeader p; MessagePort := q; WaitHead := WaitHead p; WaitTail := WaitTail p |}.
Definition set_PortHeader (h : option nat) (p : LPC_PORT_OBJECT) : LPC_PORT_OBJECT :=
  {| PortHeader := h; MessagePort := MessagePort p; WaitHead := WaitHead p; WaitTail := WaitTail p |}.
Definition set_waiters (h t : option nat) (p : LPC_PORT_OBJECT) : LPC_PORT_OBJECT :=
  {| PortHeader := PortHeader p; MessagePort := MessagePort p; WaitHead := h; WaitTail := t |}.

Definition set_WaitQueueNext (n : option nat) (t : KTHREAD) : KTHREAD :=
  {| ThreadHeader := ThreadHeader t; ThreadId := ThreadId t; OwnerProcess := OwnerProcess t;
     Context := Context t; State := State t; TimeSliceTicks := TimeSliceTicks t;
     RemainingTicks := RemainingTicks t; RunQueueNext := RunQueueNext t; WaitQueueNext := n;
     StartRoutine := StartRoutine t; StartContext := StartContext t; KernelStackTop := KernelStackTop t;
     IsUserThread := IsUserThread t; UserEntry := UserEntry t; UserStackTop := UserStackTop t;
     UserArg0 := UserArg0 t; UserArg1 := UserArg1 t |}.

(** ** Slots *)

Definition LpcpFindPortByHeader (Header : option nat) (s : lpc_state) : option nat :=
  find_first (fun p => p.1 && bool_decide (PortHeader p.2 = Header))
    (zip (gLpcPortInUse s) (gLpcPortPool s)).

(** An access to slot [i] of the pool. *)
Definition get_port (i : nat) : M lpc_state LPC_PORT_OBJECT := fun s => load_at (gLpcPortPool s) i s.
Definition put_port (i : nat) (p : LPC_PORT_OBJECT) (inuse : bool) : M lpc_state unit :=
  modify (fun s => set_ports (<[i := p]> (gLpcPortPool s)) (<[i := inuse]> (gLpcPortInUse s)) s).
Definition update_port (i : nat) (f : LPC_PORT_OBJECT -> LPC_PORT_OBJECT) : M lpc_state unit :=
  p <- get_port i ;; modify (fun s => set_ports (<[i := f p]> (gLpcPortPool s)) (gLpcPortInUse s) s).

Definition LpcpDeletePortObject (Object : nat) : M lpc_state unit :=
  s <- gets (fun s => s) ;;
  match LpcpFindPortByHeader (Some Object) s with
  | None => ret tt
  | Some i => p <- get_port i ;; put_port i (set_waiters None None (set_PortHeader None p)) false
  end.

Definition LpcpAllocatePortSlot : M lpc_state (option nat) :=
  s <- gets (fun s => s) ;;
  match find_first negb (gLpcPortInUse s) with
  | None => ret None
  | Some i =>
      p <- get_port i ;;
      put_port i (set_waiters None None (set_PortHeader None p)) true ;;;
      ret (Some i)
  end.

(** What the port manager needs of the rest of the kernel. *)
Class LpcWorld (W : Type) `{PsWorld W} := {
  lpc_get : W -> lpc_state;
  lpc_put : lpc_state -> W -> W;
  nk_get : W -> nk_state;
  nk_put : nk_state -> W -> W;
  HalDisableInterrupts : M W unit;
  HalEnableInterrupts : M W unit }.

Section World.
Context {W : Type} `{LpcWorld W}.

Definition lpc {A} (m : M lpc_state A) : M W A := zoom lpc_get lpc_put m.
Definition nk {A} (m : M nk_state A) : M W A := zoom nk_get nk_put m.

(** ** The threads that wait at a port *)

Definition LpcpEnqueueWaiter (Port_ Thread : option nat) : M W unit :=
  match Port_, Thread with
  | Some i, Some t =>
      ps (update_thread t (set_WaitQueueNext None)) ;;;
      p <- lpc (get_port i) ;;
      match WaitTail p with
      | None => lpc (update_port i (set_waiters (Some t) (Some t)))
      | Some tail =>
          ps (update_thread tail (set_WaitQueueNext (Some t))) ;;;
          lpc (update_port i (fun p => set_waiters (WaitHead p) (Some t) p))
      end
  | _, _ => ret tt
  end.

Definition LpcpDequeueWaiter (Port_ : option nat) : M W (option nat) :=
  match Port_ with
  | None => ret None
  | Some i =>
      p <- lpc (get_port i) ;;
      match WaitHead p with
      | None => ret None
      | Some t =>
          x <- ps (get_thread t) ;;
          lpc (update_port i (set_waiters (WaitQueueNext x)
                (match WaitQueueNext x with None => None | Some _ => WaitTail p end))) ;;;
          ps (update_thread t (set_WaitQueueNext None)) ;;;
          ret (Some t)
      end
  end.

(** ** Operations *)

(** The object and the port on success. *)
Definition LpcpReferencePortByHandle (HandleValue_ DesiredAccess : Z) (OutHeader OutPort : bool)
  : M W (KSTATUS * (option nat * option nat)) :=
  if negb OutHeader || negb OutPort then ret (KSTATUS_INVALID_PARAMETER, (None, None))
  else
    HandleTable <- gets (fun w => ObGetKernelHandleTable (ob_get w)) ;;
    type <- gets (fun w => gLpcPortType (lpc_get w)) ;;
    if negb HandleTable || negb (bool_decide (is_Some type)) then ret (KSTATUS_INVALID_PARAMETER, (None, None))
    else
      dlet (Status, Header) := ob (ObReferenceObjectByHandle HandleTable HandleValue_ DesiredAccess type true) ;;
      if negb (ok Status) then ret (Status, (None, None))
      else
        s <- gets lpc_get ;;
        match LpcpFindPortByHeader Header s with
        | None => ObDereferenceObject Header ;;; ret (KSTATUS_NOT_FOUND, (None, None))
        | Some i => ret (KSTATUS_SUCCESS, (Header, Some i))
        end.

Definition LpcInitialize : M W KSTATUS :=
  s <- gets lpc_get ;;
  if gLpcReady s then ret KSTATUS_ALREADY_INITIALIZED
  else
    lpc (modify (fun s => set_ports (gLpcPortPool s) (replicate (Z.to_nat LPC_MAX_PORT_OBJECTS) false) s)) ;;;
    dlet (Status, Endpoint) := nk (NkServiceEndpointInitialize (Some (gLpcSystemEndpoint s)) (Some (str "lpc.system"))
                                     LPC_OPCODE_BASE 0) ;;
    lpc (modify (fun s => {| gLpcSystemEndpoint := default (gLpcSystemEndpoint s) Endpoint;
      gLpcPortType := gLpcPortType s; gLpcPortPool := gLpcPortPool s; gLpcPortInUse := gLpcPortInUse s;
      gLpcReady := gLpcReady s |})) ;;;
    if negb (ok Status) then ret Status
    else
      dlet (Status, Type_) := ob (ObCreateType (Some (str "LpcPort")) (Some PortDeleteRoutine) true) ;;
      if negb (ok Status) then ret Status
      else
        lpc (modify (fun s => {| gLpcSystemEndpoint := gLpcSystemEndpoint s; gLpcPortType := Type_;
          gLpcPortPool := gLpcPortPool s; gLpcPortInUse := gLpcPortInUse s; gLpcReady := true |})) ;;;
        ret KSTATUS_SUCCESS.

(** On success the system endpoint. *)
Definition LpcGetSystemEndpoint (OutEndpoint : bool) : M W (KSTATUS * option NK_SERVICE_ENDPOINT) :=
  s <- gets lpc_get ;;
  if negb OutEndpoint || negb (gLpcReady s) then ret (KSTATUS_INVALID_PARAMETER, None)
  else ret (KSTATUS_SUCCESS, Some (gLpcSystemEndpoint s)).

Definition LpcCreatePortHandle (DesiredAccess : Z) (OutHandle : bool) : M W (KSTATUS * option Z) :=
  s <- gets lpc_get ;;
  if negb (gLpcReady s) || negb OutHandle then ret (KSTATUS_INVALID_PARAMETER, None)
  else
    Port_ <- lpc LpcpAllocatePortSlot ;;
    match Port_ with
    | None => ret (KSTATUS_INIT_FAILED, None)
    | Some i =>
        dlet (Status, Header) := ob (ObCreateObject (gLpcPortType s) (Some (str "lpc.port")) LPC_PORT_ACCESS_ALL
                                       OB_FLAG_WAITABLE true) ;;
        if negb (ok Status) then ret (Status, None)
        else
          p <- lpc (get_port i) ;;
          dlet (Status, q) := nk (NkPortInitialize (Some (MessagePort p))) ;;
          lpc (update_port i (set_MessagePort (default (MessagePort p) q))) ;;;
          if negb (ok Status) then ObDereferenceObject Header ;;; ret (Status, None)
          else
            lpc (update_port i (set_PortHeader Header)) ;;;
            HandleTable <- gets (fun w => ObGetKernelHandleTable (ob_get w)) ;;
            dlet (Status, Handle) := ob (ObInsertHandle HandleTable Header DesiredAccess true) ;;
            ObDereferenceObject Header ;;;
            ret (Status, Handle)
    end.

(** The argument [Wait] is not used. *)
Definition LpcSendByHandle (HandleValue_ : Z) (Message : option NK_MESSAGE) (Wait : Z) : M W KSTATUS :=
  s <- gets lpc_get ;;
  match Message with
  | None => ret KSTATUS_INVALID_PARAMETER
  | Some m =>
      if negb (gLpcReady s) then ret KSTATUS_INVALID_PARAMETER
      else
        dlet (Status, (Header, Port_)) := LpcpReferencePortByHandle HandleValue_ LPC_PORT_ACCESS_SEND true true ;;
        if negb (ok Status) then ret Status
        else
          i <- deref Port_ ;;
          HalDisableInterrupts ;;;
          p <- lpc (get_port i) ;;
          dlet (Status, q) := lpc (NkPortSend (Some (MessagePort p)) (Some m)) ;;
          lpc (update_port i (set_MessagePort (default (MessagePort p) q))) ;;;
          if ok Status then
            Waiter <- LpcpDequeueWaiter Port_ ;;
            (match Waiter with None => ret tt | Some t => ps (PsWakeThread (Some t)) end) ;;;
            HalEnableInterrupts ;;;
            ObDereferenceObject Header ;;;
            ret KSTATUS_SUCCESS
          else
            HalEnableInterrupts ;;;
            ObDereferenceObject Header ;;;
            ret KSTATUS_WOULD_BLOCK
  end.

(** [for (;;)] with [fuel] turns left: [Current] is the thread that called,
    whatever thread is the current one by now. *)
Fixpoint receive_loop (fuel : nat) (HandleValue_ : Z) (Wait : Z) (Current : nat) : M W (KSTATUS * option NK_MESSAGE) :=
  match fuel with
  | O => stuck
  | S fuel =>
      dlet (Status, (Header, Port_)) := LpcpReferencePortByHandle HandleValue_ LPC_PORT_ACCESS_RECV true true ;;
      if negb (ok Status) then ret (Status, None)
      else
        i <- deref Port_ ;;
        HalDisableInterrupts ;;;
        p <- lpc (get_port i) ;;
        dlet (Status, q, Message) := lpc (NkPortReceive (Some (MessagePort p)) true) ;;
        lpc (update_port i (set_MessagePort (default (MessagePort p) q))) ;;;
        if ok Status then
          HalEnableInterrupts ;;;
          ObDereferenceObject Header ;;;
          ret (KSTATUS_SUCCESS, Message)
        else if Wait =? 0 then
          HalEnableInterrupts ;;;
          ObDereferenceObject Header ;;;
          ret (KSTATUS_WOULD_BLOCK, None)
        else
          LpcpEnqueueWaiter Port_ (Some Current) ;;;
          HalEnableInterrupts ;;;
          ObDereferenceObject Header ;;;
          Status <- PsBlockCurrentThread ;;
          if negb (ok Status) then ret (Status, None)
          else receive_loop fuel HandleValue_ Wait Current
  end.

(** Each turn blocks a thread, so one turn more than there are threads is
    enough. *)
Definition LpcReceiveByHandle (HandleValue_ : Z) (OutMessage : bool) (Wait : Z) : M W (KSTATUS * option NK_MESSAGE) :=
  s <- gets lpc_get ;;
  if negb (gLpcReady s) || negb OutMessage then ret (KSTATUS_INVALID_PARAMETER, None)
  else
    Current <- ps PsGetCurrentThread ;;
    match Current with
    | None => ret (KSTATUS_INVALID_PARAMETER, None)
    | Some c =>
        n <- gets (fun w => length (gPsThreadPool (ps_get w))) ;;
        receive_loop (S n) HandleValue_ Wait c
    end.

Definition LpcCloseHandle (HandleValue_ : Z) : M W KSTATUS :=
  HandleTable <- gets (fun w => ObGetKernelHandleTable (ob_get w)) ;;
  if negb HandleTable || (HandleValue_ =? 0) then ret KSTATUS_INVALID_PARAMETER
  else ObCloseHandle HandleTable HandleValue_.
End World.

(** ** Diagnostics *)


Definition dump_port (o : ob_state) (x : bool * LPC_PORT_OBJECT) : option (list cstr) :=
  let '(inuse, p) := x in
  if negb inuse then Some []
  else
    l1 ← match PortHeader p with
         | None => Some [str "[LPCDBG] port.name="; str "<null>" ++ [10]]
         | Some h =>
             y ← gObObjectPool o !! h;
             lines [Some (str "[LPCDBG] port.name="); Some (cstr_of (ObjectName y)); Some [10];
                    LpcpWriteHexLine (str "[LPCDBG] port.id=") (ObjectId y)]
         end;
    l2 ← lines [LpcpWriteHexLine (str "[LPCDBG] queue.count=") (Count (MessagePort p));
                LpcpWriteHexLine (str "[LPCDBG] queue.head=") (Head (MessagePort p));
                LpcpWriteHexLine (str "[LPCDBG] queue.tail=") (Tail (MessagePort p))];
    Some (l1 ++ l2).

Definition LpcDumpState (s : lpc_state) (o : ob_state) : option (list cstr) :=
  if negb (gLpcReady s) then Some []
  else
    body ← concat_lines (map (dump_port o) (zip (gLpcPortInUse s) (gLpcPortPool s)));
    Some ([str "[LPCDBG] ports begin" ++ [10]] ++ body ++ [str "[LPCDBG] ports end" ++ [10]]).
