(* ===== verification/Io.v ===== *)
(** * I/O manager: kernel/io/init.c, kernel/include/io.h

    The table of boot files, the file objects opened through handles, reading
    and the spawn of a process from an open file.  File contents and buffers are
    memory the kernel reaches by address ([ByteMem]). *)

From S2P Require Import Prelude CString BootProto Nk Ob PhysMem MmPages MmTables MmSpace MmSection.
From S2P Require Import Kpe KpeLoad Ps PsSpawn Lpc.

(** ** Data *)

Definition IO_FILE_ACCESS_READ : Z := 0x00000001.
Definition IO_FILE_ACCESS_WRITE : Z := 0x00000002.
Definition IO_FILE_ACCESS_EXECUTE : Z := 0x00000004.
Definition IO_FILE_ACCESS_ALL : Z := Z.lor (Z.lor IO_FILE_ACCESS_READ IO_FILE_ACCESS_WRITE) IO_FILE_ACCESS_EXECUTE.
Definition IO_MAX_FILE_OBJECTS : Z := 128.
Definition IO_MAX_BOOT_FILES : Z := 16.
Definition IO_SPAWN_IMAGE_MAX : Z := 16 * 1024 * 1024.

Record IO_BOOT_FILE := {
  BootPath : list Z;
  BootData : Z;
  BootSize : Z;
  BootInUse : bool }.

Record IO_FILE_OBJECT := {
  FileObjectHeader : option nat;
  FileData : Z;
  FileSize : Z;
  FileAccessMask : Z }.

(** [gIoSpawnScratch] is where the array lies. *)
Record io_state := {
  gIoFileType : option nat;
  gIoFilePool : list IO_FILE_OBJECT;
  gIoFileInUse : list bool;
  gIoBootFiles : list IO_BOOT_FILE;
  gIoSpawnScratch : Z;
  gIoReady : bool }.

Definition set_files (pool : list IO_FILE_OBJECT) (inuse : list bool) (s : io_state) : io_state :=
  {| gIoFileType := gIoFileType s; gIoFilePool := pool; gIoFileInUse := inuse; gIoBootFiles := gIoBootFiles s;
     gIoSpawnScratch := gIoSpawnScratch s; gIoReady := gIoReady s |}.
Definition set_boot_files (l : list IO_BOOT_FILE) (s : io_state) : io_state :=
  {| gIoFileType := gIoFileType s; gIoFilePool := gIoFilePool s; gIoFileInUse := gIoFileInUse s; gIoBootFiles := l;
     gIoSpawnScratch := gIoSpawnScratch s; gIoReady := gIoReady s |}.

(** ** File objects *)

Definition blank_file : IO_FILE_OBJECT :=
  {| FileObjectHeader := None; FileData := 0; FileSize := 0; FileAccessMask := 0 |}.

Definition IopFindFileByHeader (Header : option nat) (s : io_state) : option nat :=
  find_first (fun p => p.1 && bool_decide (FileObjectHeader p.2 = Header))
    (zip (gIoFileInUse s) (gIoFilePool s)).

Definition put_file (i : nat) (f : IO_FILE_OBJECT) (inuse : bool) : M io_state unit :=
  modify (fun s => set_files (<[i := f]> (gIoFilePool s)) (<[i := inuse]> (gIoFileInUse s)) s).
Definition get_file (i : nat) : M io_state IO_FILE_OBJECT := fun s => load_at (gIoFilePool s) i s.
Definition update_file (i : nat) (f : IO_FILE_OBJECT -> IO_FILE_OBJECT) : M io_state unit :=
  x <- get_file i ;; modify (fun s => set_files (<[i := f x]> (gIoFilePool s)) (gIoFileInUse s) s).

Definition IopAllocateFileSlot : M io_state (option nat) := fun s =>
  match find_first negb (gIoFileInUse s) with
  | None => Ret None s
  | Some i => (put_file i blank_file true ;;; ret (Some i)) s
  end.

Definition IopDeleteFileObject (Object : nat) : M io_state unit := fun s =>
  match IopFindFileByHeader (Some Object) s with
  | None => Ret tt s
  | Some i => put_file i blank_file false s
  end.

(** ** Boot files *)

Definition IopFsFatLookupFile (Path : option cstr) (s : io_state) : option nat :=
  find_first (fun f => BootInUse f && bool_decide (IopStringEquals (Some (cstr_of (BootPath f))) Path = Some 1))
    (gIoBootFiles s).

Definition IopVfsOpen (Path : option cstr) (FileObject : option nat) : M io_state KSTATUS :=
  match Path, FileObject with
  | Some _, Some i =>
      s <- gets (fun s => s) ;;
      match IopFsFatLookupFile Path s with
      | None => ret KSTATUS_NOT_FOUND
      | Some k =>
          FatFile <- load_at (gIoBootFiles s) k ;;
          update_file i (fun f => {| FileObjectHeader := FileObjectHeader f; FileData := BootData FatFile;
                                     FileSize := BootSize FatFile; FileAccessMask := FileAccessMask f |}) ;;;
          ret KSTATUS_SUCCESS
      end
  | _, _ => ret KSTATUS_INVALID_PARAMETER
  end.

(** [Data]: the address, 0 for a null pointer. *)
Definition IoRegisterBootFile (Path : option cstr) (Data Size_ : Z) : M io_state KSTATUS := fun s =>
  if negb (gIoReady s) || negb (bool_decide (is_Some Path)) || (Data =? 0) || (Size_ =? 0)
  then Ret KSTATUS_INVALID_PARAMETER s
  else
    match find_first (fun f => negb (BootInUse f)) (gIoBootFiles s) with
    | None => Ret KSTATUS_INIT_FAILED s
    | Some i =>
        (f <- load_at (gIoBootFiles s) i ;;
         let '(Copied, Path') := IopCopyString (BootPath f) 64 Path in
         if Copied =? 0 then
           modify (set_boot_files (<[i := {| BootPath := Path'; BootData := BootData f; BootSize := BootSize f;
                                             BootInUse := BootInUse f |}]> (gIoBootFiles s))) ;;;
           ret KSTATUS_INVALID_PARAMETER
         else
           modify (set_boot_files (<[i := {| BootPath := Path'; BootData := Data; BootSize := Size_;
                                             BootInUse := true |}]> (gIoBootFiles s))) ;;;
           ret KSTATUS_SUCCESS) s
    end.

Definition clear_boot_file (f : IO_BOOT_FILE) : IO_BOOT_FILE :=
  {| BootPath := <[0%nat := 0]> (BootPath f); BootData := 0; BootSize := 0; BootInUse := false |}.

(** What the I/O manager needs of the rest of the kernel. *)
Class IoWorld (W : Type) `{LpcWorld W} := {
  io_get : W -> io_state;
  io_put : io_state -> W -> W }.

Section World.
Context {W : Type} `{IoWorld W} `{ByteMem W}.

Definition io {A} (m : M io_state A) : M W A := zoom io_get io_put m.

Definition IoInitialize : M W KSTATUS :=
  s <- gets io_get ;;
  if gIoReady s then ret KSTATUS_ALREADY_INITIALIZED
  else
    io (modify (fun s => set_files (gIoFilePool s) (replicate (Z.to_nat IO_MAX_FILE_OBJECTS) false) s)) ;;;
    io (modify (fun s => set_boot_files (map clear_boot_file (gIoBootFiles s)) s)) ;;;
    dlet (Status, Type_) := ob (ObCreateType (Some (str "File")) (Some FileDeleteRoutine) true) ;;
    if negb (ok Status) then ret Status
    else
      io (modify (fun s => {| gIoFileType := Type_; gIoFilePool := gIoFilePool s; gIoFileInUse := gIoFileInUse s;
        gIoBootFiles := gIoBootFiles s; gIoSpawnScratch := gIoSpawnScratch s; gIoReady := true |})) ;;;
      BootInfo <- gets (fun w => NkGetBootInfo (nk_get w)) ;;
      (match BootInfo with
       | None => ret tt
       | Some b =>
           let b := bi_value b in
           if any_flag (Flags b) BOOTINFO_FLAG_INIT_IMAGE_PRESENT && negb (InitImageBase b =? 0) &&
              negb (InitImageSize b =? 0)
           then io (IoRegisterBootFile (Some (str "\System\init.kpe")) (InitImageBase b) (InitImageSize b)) ;;; ret tt
           else ret tt
       end) ;;;
      ret KSTATUS_SUCCESS.

(** ** Handles *)

Definition IoOpenPath (Path : option cstr) (DesiredAccess : Z) (OutHandle : bool) : M W (KSTATUS * option Z) :=
  s <- gets io_get ;;
  if negb (gIoReady s) || negb (bool_decide (is_Some Path)) || negb OutHandle
  then ret (KSTATUS_INVALID_PARAMETER, None)
  else if negb (any_flag DesiredAccess IO_FILE_ACCESS_ALL) then ret (KSTATUS_INVALID_PARAMETER, None)
  else
    FileObject <- io IopAllocateFileSlot ;;
    match FileObject with
    | None => ret (KSTATUS_INIT_FAILED, None)
    | Some i =>
        dlet (Status, Header) := ob (ObCreateObject (gIoFileType s) (Some (str "io.file")) IO_FILE_ACCESS_ALL 0 true) ;;
        if negb (ok Status) then ret (Status, None)
        else
          io (update_file i (fun f => {| FileObjectHeader := Header; FileData := FileData f; FileSize := FileSize f;
                                         FileAccessMask := DesiredAccess |})) ;;;
          Status <- io (IopVfsOpen Path FileObject) ;;
          if negb (ok Status) then ObDereferenceObject Header ;;; ret (Status, None)
          else
            HandleTable <- gets (fun w => ObGetKernelHandleTable (ob_get w)) ;;
            dlet (Status, Handle) := ob (ObInsertHandle HandleTable Header DesiredAccess true) ;;
            ObDereferenceObject Header ;;;
            ret (Status, Handle)
    end.

(** [for (Index = ...; Index < ReadLength; Index++)], [n] bytes left: from the
    file at [Source] to the buffer. *)
Fixpoint read_bytes (n : nat) (OutBuffer Source Index : Z) : M W unit :=
  match n with
  | O => ret tt
  | S n =>
      b <- read_u8 (u64 (Source + Index)) ;;
      write_u8 (u64 (OutBuffer + Index)) b ;;;
      read_bytes n OutBuffer Source (Index + 1)
  end.

(** [OutBuffer]: the address, 0 for a null pointer; the number of bytes read on
    success. *)
Definition IoReadFileHandle (HandleValue_ Offset OutBuffer BufferLength : Z) (OutBytesRead : bool)
  : M W (KSTATUS * option Z) :=
  s <- gets io_get ;;
  if negb (gIoReady s) || (OutBuffer =? 0) || negb OutBytesRead || (BufferLength =? 0)
  then ret (KSTATUS_INVALID_PARAMETER, None)
  else
    HandleTable <- gets (fun w => ObGetKernelHandleTable (ob_get w)) ;;
    dlet (Status, Header) := ob (ObReferenceObjectByHandle HandleTable HandleValue_ IO_FILE_ACCESS_READ
                                   (gIoFileType s) true) ;;
    if negb (ok Status) then ret (Status, None)
    else
      match IopFindFileByHeader Header s with
      | None => ObDereferenceObject Header ;;; ret (KSTATUS_NOT_FOUND, None)
      | Some i =>
          FileObject <- io (get_file i) ;;
          if Offset >=? FileSize FileObject then
            ObDereferenceObject Header ;;; ret (KSTATUS_SUCCESS, Some 0)
          else
            let Remaining := FileSize FileObject - Offset in
            let ReadLength := if BufferLength <? Remaining then BufferLength else Remaining in
            read_bytes (Z.to_nat ReadLength) OutBuffer (FileData FileObject + Offset) 0 ;;;
            ObDereferenceObject Header ;;;
            ret (KSTATUS_SUCCESS, Some ReadLength)
      end.

Definition IoCloseFileHandle (HandleValue_ : Z) : M W KSTATUS :=
  s <- gets io_get ;;
  if negb (gIoReady s) || (HandleValue_ =? 0) then ret KSTATUS_INVALID_PARAMETER
  else
    HandleTable <- gets (fun w => ObGetKernelHandleTable (ob_get w)) ;;
    ObCloseHandle HandleTable HandleValue_.

(** [for (;;)] with [fuel] turns left: the bytes read, or the error. *)
Fixpoint read_image (fuel : nat) (HandleValue_ Offset Total : Z) : M W (KSTATUS * Z) :=
  match fuel with
  | O => stuck
  | S fuel =>
      if Total >=? IO_SPAWN_IMAGE_MAX then ret (KSTATUS_INVALID_PARAMETER, 0)
      else
        scratch <- gets (fun w => gIoSpawnScratch (io_get w)) ;;
        dlet (Status, ReadNow) := IoReadFileHandle HandleValue_ Offset (scratch + Total) (IO_SPAWN_IMAGE_MAX - Total) true ;;
        if negb (ok Status) then ret (Status, 0)
        else
          ReadNow <- deref ReadNow ;;
          if ReadNow =? 0 then ret (KSTATUS_SUCCESS, Total)
          else read_image fuel HandleValue_ (u64 (Offset + ReadNow)) (u64 (Total + ReadNow))
  end.

(** A turn reads the rest of the file or fills the buffer, so the second turn is
    the last: the fuel is two. *)
Definition IoSpawnProcessFromFileHandle (HandleValue_ : Z) (OutProcessId OutEntryAddress : bool)
  : M W (KSTATUS * (option Z * option Z)) :=
  s <- gets io_get ;;
  if negb (gIoReady s) then ret (KSTATUS_INVALID_PARAMETER, (None, None))
  else
    dlet (Status, Total) := read_image 2 HandleValue_ 0 0 ;;
    if negb (ok Status) then ret (Status, (None, None))
    else if Total =? 0 then ret (KSTATUS_NOT_FOUND, (None, None))
    else PsSpawnUserKpeFromBuffer (Some (gIoSpawnScratch s)) Total OutProcessId OutEntryAddress.
End World.

(** ** Diagnostics *)

Definition dump_boot_file (f : IO_BOOT_FILE) : option (list cstr) :=
  if negb (BootInUse f) then Some []
  else lines [Some (str "[IODBG] boot.path="); Some (cstr_of (BootPath f)); Some [10];
              IopWriteHexLine (str "[IODBG] boot.size=") (BootSize f)].

Definition dump_file (o : ob_state) (x : bool * IO_FILE_OBJECT) : option (list cstr) :=
  let '(inuse, f) := x in
  if negb inuse then Some []
  else
    l1 ← match FileObjectHeader f with
         | None => Some []
         | Some h =>
             y ← gObObjectPool o !! h;
             lines [IopWriteHexLine (str "[IODBG] file.id=") (ObjectId y);
                    Some (str "[IODBG] file.name="); Some (cstr_of (ObjectName y)); Some [10]]
         end;
    l2 ← lines [IopWriteHexLine (str "[IODBG] file.size=") (FileSize f);
                IopWriteHexLine (str "[IODBG] file.access=") (FileAccessMask f)];
    Some (l1 ++ l2).

Definition IoDumpFiles (s : io_state) (o : ob_state) : option (list cstr) :=
  if negb (gIoReady s) then Some []
  else
    l1 ← concat_lines (map dump_boot_file (gIoBootFiles s));
    l2 ← concat_lines (map (dump_file o) (zip (gIoFileInUse s) (gIoFilePool s)));
    Some ([str "[IODBG] boot files begin" ++ [10]] ++ l1 ++ [str "[IODBG] open file objects begin" ++ [10]] ++ l2 ++
          [str "[IODBG] open file objects end" ++ [10]]).
