(* ===== verification/Hal.v ===== *)
(** * Hardware abstraction layer: hal/aur64/hal_aur64.c, hal/inc/hal.h

    The serial port and the keyboard, the framebuffer console and what the kernel
    registers with the HAL.  Input and output ports are reached through [PortIo],
    the framebuffer through [ByteMem].  Characters are numbers below 256. *)

From S2P Require Import Prelude CString BootProto PhysMem Kpe.

(** ** Data *)

Definition HALP_COM1_PORT : Z := 0x3F8.
Definition HALP_PS2_DATA_PORT : Z := 0x60.
Definition HALP_PS2_STATUS_PORT : Z := 0x64.
Definition HALP_CONSOLE_CELL_W : Z := 9.
Definition HALP_CONSOLE_CELL_H : Z := 16.

Definition gHalPs2Map : list Z :=
  [0; 0; 49; 50; 51; 52; 53; 54; 55; 56; 57; 48; 45; 61; 8; 9; 113; 119; 101; 114; 116; 121; 117; 105; 111;
   112; 91; 93; 10; 0; 97; 115; 100; 102; 103; 104; 106; 107; 108; 59; 39; 96; 0; 92; 122; 120; 99; 118;
   98; 110; 109; 44; 46; 47; 0; 42; 0; 32; 0; 0; 0; 0; 0; 0; 0; 0; 0; 0; 0; 0; 0; 55; 56; 57; 45; 52; 53;
   54; 43; 49; 50; 51; 48; 46; 0; 0; 0; 0; 0; 0; 0; 0; 0; 0; 0; 0; 0; 0; 0; 0; 0; 0; 0; 0; 0; 0; 0; 0; 0;
   0; 0; 0; 0; 0; 0; 0; 0; 0; 0; 0; 0; 0; 0; 0; 0; 0; 0; 0].

Definition gHalPs2MapShift : list Z :=
  [0; 0; 33; 64; 35; 36; 37; 94; 38; 42; 40; 41; 95; 43; 8; 9; 81; 87; 69; 82; 84; 89; 85; 73; 79; 80; 123;
   125; 10; 0; 65; 83; 68; 70; 71; 72; 74; 75; 76; 58; 34; 126; 0; 124; 90; 88; 67; 86; 66; 78; 77; 60; 62;
   63; 0; 42; 0; 32; 0; 0; 0; 0; 0; 0; 0; 0; 0; 0; 0; 0; 0; 55; 56; 57; 45; 52; 53; 54; 43; 49; 50; 51; 48;
   46; 0; 0; 0; 0; 0; 0; 0; 0; 0; 0; 0; 0; 0; 0; 0; 0; 0; 0; 0; 0; 0; 0; 0; 0; 0; 0; 0; 0; 0; 0; 0; 0; 0;
   0; 0; 0; 0; 0; 0; 0; 0; 0; 0; 0].

Definition Digits : list (list Z) :=
  [[0x0E; 0x11; 0x13; 0x15; 0x19; 0x11; 0x0E];
   [0x04; 0x0C; 0x04; 0x04; 0x04; 0x04; 0x0E];
   [0x0E; 0x11; 0x01; 0x02; 0x04; 0x08; 0x1F];
   [0x1E; 0x01; 0x01; 0x06; 0x01; 0x01; 0x1E];
   [0x02; 0x06; 0x0A; 0x12; 0x1F; 0x02; 0x02];
   [0x1F; 0x10; 0x1E; 0x01; 0x01; 0x11; 0x0E];
   [0x06; 0x08; 0x10; 0x1E; 0x11; 0x11; 0x0E];
   [0x1F; 0x01; 0x02; 0x04; 0x08; 0x08; 0x08];
   [0x0E; 0x11; 0x11; 0x0E; 0x11; 0x11; 0x0E];
   [0x0E; 0x11; 0x11; 0x0F; 0x01; 0x02; 0x0C]].

(** The cases of the switch: the character and its rows. *)
Definition Glyphs : list (Z * list Z) :=
  [(65, [0x0E; 0x11; 0x11; 0x1F; 0x11; 0x11; 0x11]);
   (66, [0x1E; 0x11; 0x11; 0x1E; 0x11; 0x11; 0x1E]);
   (67, [0x0E; 0x11; 0x10; 0x10; 0x10; 0x11; 0x0E]);
   (68, [0x1E; 0x11; 0x11; 0x11; 0x11; 0x11; 0x1E]);
   (69, [0x1F; 0x10; 0x10; 0x1E; 0x10; 0x10; 0x1F]);
   (70, [0x1F; 0x10; 0x10; 0x1E; 0x10; 0x10; 0x10]);
   (71, [0x0E; 0x11; 0x10; 0x17; 0x11; 0x11; 0x0F]);
   (72, [0x11; 0x11; 0x11; 0x1F; 0x11; 0x11; 0x11]);
   (73, [0x1F; 0x04; 0x04; 0x04; 0x04; 0x04; 0x1F]);
   (74, [0x07; 0x02; 0x02; 0x02; 0x12; 0x12; 0x0C]);
   (75, [0x11; 0x12; 0x14; 0x18; 0x14; 0x12; 0x11]);
   (76, [0x10; 0x10; 0x10; 0x10; 0x10; 0x10; 0x1F]);
   (77, [0x11; 0x1B; 0x15; 0x15; 0x11; 0x11; 0x11]);
   (78, [0x11; 0x19; 0x15; 0x13; 0x11; 0x11; 0x11]);
   (79, [0x0E; 0x11; 0x11; 0x11; 0x11; 0x11; 0x0E]);
   (80, [0x1E; 0x11; 0x11; 0x1E; 0x10; 0x10; 0x10]);
   (81, [0x0E; 0x11; 0x11; 0x11; 0x15; 0x12; 0x0D]);
   (82, [0x1E; 0x11; 0x11; 0x1E; 0x14; 0x12; 0x11]);
   (83, [0x0F; 0x10; 0x10; 0x0E; 0x01; 0x01; 0x1E]);
   (84, [0x1F; 0x04; 0x04; 0x04; 0x04; 0x04; 0x04]);
   (85, [0x11; 0x11; 0x11; 0x11; 0x11; 0x11; 0x0E]);
   (86, [0x11; 0x11; 0x11; 0x11; 0x11; 0x0A; 0x04]);
   (87, [0x11; 0x11; 0x11; 0x15; 0x15; 0x15; 0x0A]);
   (88, [0x11; 0x11; 0x0A; 0x04; 0x0A; 0x11; 0x11]);
   (89, [0x11; 0x11; 0x0A; 0x04; 0x04; 0x04; 0x04]);
   (90, [0x1F; 0x01; 0x02; 0x04; 0x08; 0x10; 0x1F]);
   (91, [0x0E; 0x08; 0x08; 0x08; 0x08; 0x08; 0x0E]);
   (93, [0x0E; 0x02; 0x02; 0x02; 0x02; 0x02; 0x0E]);
   (62, [0x10; 0x08; 0x04; 0x02; 0x04; 0x08; 0x10]);
   (60, [0x01; 0x02; 0x04; 0x08; 0x04; 0x02; 0x01]);
   (58, [0x00; 0x04; 0x04; 0x00; 0x04; 0x04; 0x00]);
   (59, [0x00; 0x04; 0x04; 0x00; 0x04; 0x04; 0x08]);
   (46, [0x00; 0x00; 0x00; 0x00; 0x00; 0x06; 0x06]);
   (44, [0x00; 0x00; 0x00; 0x00; 0x06; 0x06; 0x08]);
   (63, [0x0E; 0x11; 0x01; 0x02; 0x04; 0x00; 0x04]);
   (33, [0x04; 0x04; 0x04; 0x04; 0x04; 0x00; 0x04]);
   (61, [0x00; 0x1F; 0x00; 0x1F; 0x00; 0x00; 0x00]);
   (43, [0x00; 0x04; 0x04; 0x1F; 0x04; 0x04; 0x00]);
   (124, [0x04; 0x04; 0x04; 0x04; 0x04; 0x04; 0x04]);
   (95, [0x00; 0x00; 0x00; 0x00; 0x00; 0x00; 0x1F]);
   (45, [0x00; 0x00; 0x00; 0x1F; 0x00; 0x00; 0x00]);
   (47, [0x01; 0x02; 0x04; 0x08; 0x10; 0x00; 0x00]);
   (92, [0x10; 0x08; 0x04; 0x02; 0x01; 0x00; 0x00]);
   (39, [0x04; 0x04; 0x02; 0x00; 0x00; 0x00; 0x00]);
   (40, [0x02; 0x04; 0x08; 0x08; 0x08; 0x04; 0x02]);
   (41, [0x08; 0x04; 0x02; 0x02; 0x02; 0x04; 0x08])].

(** The values the program gives the two routine pointers. *)
Inductive HAL_TIMER_TICK_ROUTINE := TickPsOnTimerTick.
Inductive HAL_PAGE_FAULT_ROUTINE := FaultMmpOnPageFault.

(** The framebuffer console. *)
Record hal_console := {
  gHalFb : Z;
  gHalFbWidth : Z;
  gHalFbHeight : Z;
  gHalFbPitch : Z;
  gHalFbColor : Z;
  gHalFbBg : Z;
  gHalFbCursorX : Z;
  gHalFbCursorY : Z;
  gHalFbCols : Z;
  gHalFbRows : Z;
  gHalFbReady : bool }.

(** The keyboard's modifiers. *)
Record hal_keyboard := {
  gHalPs2ShiftLeft : bool;
  gHalPs2ShiftRight : bool;
  gHalPs2CapsLock : bool;
  gHalPs2Extended : bool }.

Record hal_state := {
  gHalBootInfo : option BOOT_INFO_PTR;
  gHalPlatformInfo : HAL_PLATFORM_INFO;
  gHalTimerTickRoutine : option HAL_TIMER_TICK_ROUTINE;
  gHalPageFaultRoutine : option HAL_PAGE_FAULT_ROUTINE;
  console : hal_console;
  gHalFont8x16 : list (list Z);
  gHalFontReady : bool;
  keyboard : hal_keyboard }.

Definition set_console (c : hal_console) (s : hal_state) : hal_state :=
  {| gHalBootInfo := gHalBootInfo s; gHalPlatformInfo := gHalPlatformInfo s;
     gHalTimerTickRoutine := gHalTimerTickRoutine s; gHalPageFaultRoutine := gHalPageFaultRoutine s;
     console := c; gHalFont8x16 := gHalFont8x16 s; gHalFontReady := gHalFontReady s; keyboard := keyboard s |}.
Definition set_keyboard (k : hal_keyboard) (s : hal_state) : hal_state :=
  {| gHalBootInfo := gHalBootInfo s; gHalPlatformInfo := gHalPlatformInfo s;
     gHalTimerTickRoutine := gHalTimerTickRoutine s; gHalPageFaultRoutine := gHalPageFaultRoutine s;
     console := console s; gHalFont8x16 := gHalFont8x16 s; gHalFontReady := gHalFontReady s; keyboard := k |}.
Definition set_font (f : list (list Z)) (ready : bool) (s : hal_state) : hal_state :=
  {| gHalBootInfo := gHalBootInfo s; gHalPlatformInfo := gHalPlatformInfo s;
     gHalTimerTickRoutine := gHalTimerTickRoutine s; gHalPageFaultRoutine := gHalPageFaultRoutine s;
     console := console s; gHalFont8x16 := f; gHalFontReady := ready; keyboard := keyboard s |}.
Definition set_platform (b : option BOOT_INFO_PTR) (p : HAL_PLATFORM_INFO) (s : hal_state) : hal_state :=
  {| gHalBootInfo := b; gHalPlatformInfo := p;
     gHalTimerTickRoutine := gHalTimerTickRoutine s; gHalPageFaultRoutine := gHalPageFaultRoutine s;
     console := console s; gHalFont8x16 := gHalFont8x16 s; gHalFontReady := gHalFontReady s; keyboard := keyboard s |}.
Definition set_routines (t : option HAL_TIMER_TICK_ROUTINE) (p : option HAL_PAGE_FAULT_ROUTINE) (s : hal_state)
  : hal_state :=
  {| gHalBootInfo := gHalBootInfo s; gHalPlatformInfo := gHalPlatformInfo s;
     gHalTimerTickRoutine := t; gHalPageFaultRoutine := p; console := console s; gHalFont8x16 := gHalFont8x16 s;
     gHalFontReady := gHalFontReady s; keyboard := keyboard s |}.
Definition set_cursor (x y : Z) (c : hal_console) : hal_console :=
  {| gHalFb := gHalFb c; gHalFbWidth := gHalFbWidth c; gHalFbHeight := gHalFbHeight c; gHalFbPitch := gHalFbPitch c;
     gHalFbColor := gHalFbColor c; gHalFbBg := gHalFbBg c; gHalFbCursorX := x; gHalFbCursorY := y;
     gHalFbCols := gHalFbCols c; gHalFbRows := gHalFbRows c; gHalFbReady := gHalFbReady c |}.

(** ** The keyboard

    One scan code: the new modifiers and the character, if it gives one. *)

Definition set_extended (b : bool) (k : hal_keyboard) : hal_keyboard :=
  {| gHalPs2ShiftLeft := gHalPs2ShiftLeft k; gHalPs2ShiftRight := gHalPs2ShiftRight k;
     gHalPs2CapsLock := gHalPs2CapsLock k; gHalPs2Extended := b |}.

(** Keys of letters. *)
Definition is_letter_key (Code : Z) : bool :=
  ((Code >=? 0x10) && (Code <=? 0x19)) || ((Code >=? 0x1E) && (Code <=? 0x26)) ||
  ((Code >=? 0x2C) && (Code <=? 0x32)).

Definition decode_key (k : hal_keyboard) (Code : Z) : option Z :=
  let Shifted := gHalPs2ShiftLeft k || gHalPs2ShiftRight k in
  let Ch := nth (Z.to_nat Code) (if Shifted then gHalPs2MapShift else gHalPs2Map) 0 in
  if Ch =? 0 then None
  else
    let IsLetter := is_letter_key Code in
    Some (if IsLetter && gHalPs2CapsLock k && negb Shifted then
            if (Ch >=? 97) && (Ch <=? 122) then Ch - 97 + 65 else Ch
          else if IsLetter && gHalPs2CapsLock k && Shifted then
            if (Ch >=? 65) && (Ch <=? 90) then Ch - 65 + 97 else Ch
          else Ch).

Definition scan_code (k : hal_keyboard) (ScanCode : Z) : hal_keyboard * option Z :=
  if ScanCode =? 0xE0 then (set_extended true k, None)
  else if ScanCode =? 0xE1 then (set_extended false k, None)
  else
    let IsBreak := any_flag ScanCode 0x80 in
    let Code := Z.land ScanCode 0x7F in
    if Code =? 0x2A then
      ({| gHalPs2ShiftLeft := negb IsBreak; gHalPs2ShiftRight := gHalPs2ShiftRight k;
          gHalPs2CapsLock := gHalPs2CapsLock k; gHalPs2Extended := false |}, None)
    else if Code =? 0x36 then
      ({| gHalPs2ShiftLeft := gHalPs2ShiftLeft k; gHalPs2ShiftRight := negb IsBreak;
          gHalPs2CapsLock := gHalPs2CapsLock k; gHalPs2Extended := false |}, None)
    else if (Code =? 0x3A) && negb IsBreak then
      ({| gHalPs2ShiftLeft := gHalPs2ShiftLeft k; gHalPs2ShiftRight := gHalPs2ShiftRight k;
          gHalPs2CapsLock := negb (gHalPs2CapsLock k); gHalPs2Extended := false |}, None)
    else if IsBreak then (set_extended false k, None)
    else if gHalPs2Extended k then (set_extended false k, if Code =? 0x1C then Some 10 else None)
    else (k, decode_key k Code).

(** ** Glyphs *)

(** [Row] is below 7. *)
Definition HalpGlyph5x7Row (Ch : Z) (Row : nat) : Z :=
  let Ch := if (Ch >=? 97) && (Ch <=? 122) then Ch - 97 + 65 else Ch in
  if (Ch >=? 48) && (Ch <=? 57) then nth Row (nth (Z.to_nat (Ch - 48)) Digits []) 0
  else
    match find_first (fun g => g.1 =? Ch) Glyphs with
    | Some i => nth Row (nth i Glyphs (0, [])).2 0
    | None => if Ch =? 32 then 0 else 0x1F
    end.

(** Row [Row] of the cell of [Ch]. *)
Definition font_row (Ch : Z) (Row : nat) : Z :=
  if ((0 <? Row) && (Row <? 15))%nat
  then u8 (Z.shiftl (Z.land (HalpGlyph5x7Row Ch (Nat.div2 (Row - 1))) 0x1F) 1)
  else 0.

Definition HalpBuildFont8x16 : M hal_state unit := fun s =>
  if gHalFontReady s then Ret tt s
  else Ret tt (set_font (map (fun Ch => map (font_row (Z.of_nat Ch)) (seq 0 16)) (seq 0 128)) true s).

(** ** The interfaces: input and output ports; the state and the routines the
    kernel registers *)

Class PortIo (S : Type) := {
  HalpIoRead8 : Z -> M S Z;
  HalpIoWrite8 : Z -> Z -> M S unit }.

Class HalWorld (W : Type) := {
  hal_get : W -> hal_state;
  hal_put : hal_state -> W -> W;
  run_timer_tick : HAL_TIMER_TICK_ROUTINE -> M W unit;
  run_page_fault : HAL_PAGE_FAULT_ROUTINE -> Z -> Z -> Z -> M W unit }.

Section World.
Context {W : Type} `{HalWorld W} `{PortIo W} `{ByteMem W}.

Definition hal {A} (m : M hal_state A) : M W A := zoom hal_get hal_put m.

(** ** The serial port *)

Definition HalpInitializeSerial : M W unit :=
  HalpIoWrite8 (HALP_COM1_PORT + 1) 0x00 ;;;
  HalpIoWrite8 (HALP_COM1_PORT + 3) 0x80 ;;;
  HalpIoWrite8 (HALP_COM1_PORT + 0) 0x03 ;;;
  HalpIoWrite8 (HALP_COM1_PORT + 1) 0x00 ;;;
  HalpIoWrite8 (HALP_COM1_PORT + 3) 0x03 ;;;
  HalpIoWrite8 (HALP_COM1_PORT + 2) 0xC7 ;;;
  HalpIoWrite8 (HALP_COM1_PORT + 4) 0x0B.

(** [n] more polls of the line status before the character is dropped. *)
Fixpoint serial_wait (n : nat) (Ch : Z) : M W unit :=
  match n with
  | O => ret tt
  | S n =>
      st <- HalpIoRead8 (HALP_COM1_PORT + 5) ;;
      if any_flag st 0x20 then HalpIoWrite8 HALP_COM1_PORT Ch else serial_wait n Ch
  end.

Definition HalpSerialWriteChar (Ch : Z) : M W unit := serial_wait (Z.to_nat 1000000) Ch.

(** The readers: [None] for the return value 0. *)
Definition HalpSerialTryReadChar (OutChar : bool) : M W (option Z) :=
  if negb OutChar then ret None
  else
    st <- HalpIoRead8 (HALP_COM1_PORT + 5) ;;
    if negb (any_flag st 0x01) then ret None
    else c <- HalpIoRead8 HALP_COM1_PORT ;; ret (Some c).

Definition HalpPs2TryReadChar (OutChar : bool) : M W (option Z) :=
  if negb OutChar then ret None
  else
    Status <- HalpIoRead8 HALP_PS2_STATUS_PORT ;;
    if negb (any_flag Status 0x01) then ret None
    else
      ScanCode <- HalpIoRead8 HALP_PS2_DATA_PORT ;;
      s <- gets hal_get ;;
      hal (modify (set_keyboard (scan_code (keyboard s) ScanCode).1)) ;;;
      ret (scan_code (keyboard s) ScanCode).2.

Definition HalTryReadConsoleChar (OutChar : bool) : M W (option Z) :=
  c <- HalpSerialTryReadChar OutChar ;;
  match c with
  | Some c => ret (Some c)
  | None => HalpPs2TryReadChar OutChar
  end.

(** ** The framebuffer console *)

Definition get_console : M W hal_console := gets (fun w => console (hal_get w)).
Definition move_cursor (x y : Z) : M W unit := hal (modify (fun s => set_console (set_cursor x y (console s)) s)).

(** Where [gHalFb[(Y * gHalFbPitch) + X]] lies. *)
Definition pixel (c : hal_console) (X Y : Z) : Z := gHalFb c + 4 * u32 (u32 (Y * gHalFbPitch c) + X).

Definition HalpFbPutPixel (X Y Color : Z) : M W unit :=
  c <- get_console ;;
  if negb (gHalFbReady c) || (X >=? gHalFbWidth c) || (Y >=? gHalFbHeight c) then ret tt
  else write_le 4 (pixel c X Y) Color.

(** [for (Col = ...; Col < W; Col++)], [n] columns left, and the rows. *)
Fixpoint fill_row (n : nat) (X Y Col Color : Z) : M W unit :=
  match n with
  | O => ret tt
  | S n => HalpFbPutPixel (u32 (X + Col)) Y Color ;;; fill_row n X Y (Col + 1) Color
  end.
Fixpoint fill_rows (n : nat) (X Y Row : Z) (Width_ : nat) (Color : Z) : M W unit :=
  match n with
  | O => ret tt
  | S n => fill_row Width_ X (u32 (Y + Row)) 0 Color ;;; fill_rows n X Y (Row + 1) Width_ Color
  end.
Definition HalpFbFill (X Y Width_ Height_ Color : Z) : M W unit :=
  fill_rows (Z.to_nat Height_) X Y 0 (Z.to_nat Width_) Color.

Definition HalpFbClear : M W unit :=
  c <- get_console ;;
  if negb (gHalFbReady c) then ret tt
  else
    HalpFbFill 0 0 (gHalFbWidth c) (gHalFbHeight c) (gHalFbBg c) ;;;
    move_cursor 0 0.

(** The pixels of row [Y] from the row one cell below. *)
Fixpoint scroll_row (n : nat) (c : hal_console) (X Y : Z) : M W unit :=
  match n with
  | O => ret tt
  | S n =>
      v <- read_le 4 (pixel c X (u32 (Y + HALP_CONSOLE_CELL_H))) ;;
      write_le 4 (pixel c X Y) v ;;;
      scroll_row n c (X + 1) Y
  end.
Fixpoint scroll_rows (n : nat) (c : hal_console) (Y : Z) : M W unit :=
  match n with
  | O => ret tt
  | S n => scroll_row (Z.to_nat (gHalFbWidth c)) c 0 Y ;;; scroll_rows n c (Y + 1)
  end.
Definition HalpFbScroll : M W unit :=
  c <- get_console ;;
  if negb (gHalFbReady c) || (gHalFbHeight c <=? HALP_CONSOLE_CELL_H) then ret tt
  else
    scroll_rows (Z.to_nat (gHalFbHeight c - HALP_CONSOLE_CELL_H)) c 0 ;;;
    HalpFbFill 0 (gHalFbHeight c - HALP_CONSOLE_CELL_H) (gHalFbWidth c) HALP_CONSOLE_CELL_H (gHalFbBg c).

(** The cell the cursor is in, in the background colour. *)
Definition clear_cell : M W unit :=
  c <- get_console ;;
  HalpFbFill (u32 (gHalFbCursorX c * HALP_CONSOLE_CELL_W)) (u32 (gHalFbCursorY c * HALP_CONSOLE_CELL_H))
    HALP_CONSOLE_CELL_W HALP_CONSOLE_CELL_H (gHalFbBg c).

(** A cursor below the last row scrolls the screen. *)
Definition scroll_to_cursor : M W unit :=
  c <- get_console ;;
  if gHalFbCursorY c >=? gHalFbRows c then
    HalpFbScroll ;;;
    c <- get_console ;; move_cursor (gHalFbCursorX c) (u32 (gHalFbRows c - 1))
  else ret tt.

(** The pixels of one row of a glyph, [n] columns left. *)
Fixpoint draw_row (n : nat) (BaseX Y Col Bits : Z) : M W unit :=
  match n with
  | O => ret tt
  | S n =>
      c <- get_console ;;
      (if any_flag Bits (u8 (Z.shiftl 1 (7 - Col))) then HalpFbPutPixel (u32 (BaseX + Col)) Y (gHalFbColor c)
       else ret tt) ;;;
      draw_row n BaseX Y (Col + 1) Bits
  end.
Fixpoint draw_rows (n : nat) (Ch : Z) (BaseX BaseY : Z) (Row : nat) : M W unit :=
  match n with
  | O => ret tt
  | S n =>
      s <- gets hal_get ;;
      Glyph <- load_at (gHalFont8x16 s) (Z.to_nat Ch) ;;
      Bits <- load_at Glyph Row ;;
      draw_row 8 BaseX (u32 (BaseY + Z.of_nat Row)) 0 Bits ;;;
      draw_rows n Ch BaseX BaseY (S Row)
  end.

(** A printable character, and the cursor moves on. *)
Definition put_glyph (Ch : Z) : M W unit :=
  hal HalpBuildFont8x16 ;;;
  c <- get_console ;;
  (if gHalFbCursorX c >=? gHalFbCols c then move_cursor 0 (u32 (gHalFbCursorY c + 1)) else ret tt) ;;;
  scroll_to_cursor ;;;
  clear_cell ;;;
  c <- get_console ;;
  draw_rows 16 Ch (u32 (gHalFbCursorX c * HALP_CONSOLE_CELL_W)) (u32 (gHalFbCursorY c * HALP_CONSOLE_CELL_H)) 0 ;;;
  move_cursor (u32 (gHalFbCursorX c + 1)) (gHalFbCursorY c).

Definition HalpFbPutChar (Ch : Z) : M W unit :=
  c <- get_console ;;
  if negb (gHalFbReady c) then ret tt
  else if Ch =? 13 then move_cursor 0 (gHalFbCursorY c)
  else if Ch =? 10 then move_cursor 0 (u32 (gHalFbCursorY c + 1)) ;;; scroll_to_cursor
  else if Ch =? 8 then
    if gHalFbCursorX c >? 0 then move_cursor (gHalFbCursorX c - 1) (gHalFbCursorY c) ;;; clear_cell
    else if gHalFbCursorY c >? 0 then
      move_cursor (u32 (gHalFbCols c - 1)) (gHalFbCursorY c - 1) ;;; clear_cell
    else ret tt
  else put_glyph (if (Ch <? 0x20) || (Ch >? 0x7E) then 63 else Ch).

(** ** Output *)

(** [Message]: the characters before the NUL. *)
Fixpoint write_debug_chars (Message : cstr) : M W unit :=
  match Message with
  | [] => ret tt
  | Ch :: Message =>
      if Ch =? 0 then ret tt
      else
        (if Ch =? 10 then HalpSerialWriteChar 13 else ret tt) ;;;
        HalpSerialWriteChar Ch ;;;
        HalpFbPutChar Ch ;;;
        write_debug_chars Message
  end.
Definition HalWriteDebugString (Message : option cstr) : M W unit :=
  match Message with None => ret tt | Some m => write_debug_chars m end.

Definition HalClearDisplay : M W unit :=
  HalpFbClear ;;;
  HalpSerialWriteChar 0x1B ;;; HalpSerialWriteChar 91 ;;; HalpSerialWriteChar 50 ;;; HalpSerialWriteChar 74 ;;;
  HalpSerialWriteChar 0x1B ;;; HalpSerialWriteChar 91 ;;; HalpSerialWriteChar 72.

(** ** Start *)

Definition HalpInitializeFramebuffer : M W unit :=
  s <- gets hal_get ;;
  match gHalBootInfo s with
  | None => ret tt
  | Some b =>
      let V := Video (bi_value b) in
      if (FrameBufferBase V =? 0) || (Width V =? 0) || (Height V =? 0) || (PixelsPerScanLine V =? 0) then ret tt
      else
        let c := console s in
        let Cols := Width V / HALP_CONSOLE_CELL_W in
        let Rows := Height V / HALP_CONSOLE_CELL_H in
        let c' ready := {| gHalFb := FrameBufferBase V; gHalFbWidth := Width V; gHalFbHeight := Height V;
          gHalFbPitch := PixelsPerScanLine V; gHalFbColor := 0x00F2F6FF; gHalFbBg := 0x00060A10;
          gHalFbCursorX := gHalFbCursorX c; gHalFbCursorY := gHalFbCursorY c; gHalFbCols := Cols;
          gHalFbRows := Rows; gHalFbReady := ready |} in
        if (Cols =? 0) || (Rows =? 0) then hal (modify (set_console (c' false)))
        else
          hal (modify (set_console (c' (gHalFbReady c)))) ;;;
          hal HalpBuildFont8x16 ;;;
          hal (modify (set_console (c' true))) ;;;
          HalpFbClear
  end.

(** [for (Index = ...; Index < MemoryMapEntryCount; Index++)], [n] left: the
    highest end of a range. *)
Fixpoint memory_top (n : nat) (Ranges Top : Z) : M W Z :=
  match n with
  | O => ret Top
  | S n =>
      base <- read_u64 Ranges ;;
      len <- read_u64 (Ranges + 8) ;;
      let End_ := u64 (base + len) in
      memory_top n (Ranges + sizeof_PHYSICAL_MEMORY_RANGE) (if End_ >? Top then End_ else Top)
  end.

(** The first part of [HalInitializePhase0]. *)
Definition query_platform (BootInfo : option BOOT_INFO_PTR) : M W unit :=
  Top <- match BootInfo with
         | None => ret 0
         | Some b =>
             let b := bi_value b in
             if negb (MemoryMap b =? 0) && (MemoryMapEntryCount b >? 0)
             then memory_top (Z.to_nat (MemoryMapEntryCount b)) (MemoryMap b) 0
             else ret 0
         end ;;
  hal (modify (set_platform BootInfo
    {| ProcessorCount := 1; TimerFrequencyHz := 1000000; PhysicalMemoryTop := Top |})).

Definition HalQueryPlatformInfo (s : hal_state) : HAL_PLATFORM_INFO := gHalPlatformInfo s.

Definition HalRegisterTimerTickRoutine (Routine : option HAL_TIMER_TICK_ROUTINE) : M hal_state unit :=
  modify (fun s => set_routines Routine (gHalPageFaultRoutine s) s).
Definition HalRegisterPageFaultRoutine (Routine : option HAL_PAGE_FAULT_ROUTINE) : M hal_state unit :=
  modify (fun s => set_routines (gHalTimerTickRoutine s) Routine s).

Definition HalHandlePageFaultTrap (FaultAddress ErrorCode InstructionPointer : Z) : M W unit :=
  s <- gets hal_get ;;
  match gHalPageFaultRoutine s with
  | Some r => run_page_fault r FaultAddress ErrorCode InstructionPointer
  | None => halt
  end.

Definition HalTriggerSyntheticTimerTick : M W unit :=
  s <- gets hal_get ;;
  match gHalTimerTickRoutine s with
  | Some r => run_timer_tick r
  | None => ret tt
  end.
End World.
