(* ===== verification/BootScreen.v ===== *)
(** * The boot loader's console and splash screen: boot/uefi/bootx64.c, first half

    The serial port, reached through [PortIo] (Hal.v), and the firmware's
    framebuffer, found through the graphics output protocol and painted through
    [ByteMem] (Kpe.v); the structures of the protocol are read again for every
    dot, as the code does. *)

From S2P Require Import Prelude CString BootProto PhysMem Kpe KpeLoad Efi Hal.

Definition BOOT_VERBOSE_DEFAULT : bool := true.
(** Never changed after its initialisation. *)
Definition gBootVerbose : bool := BOOT_VERBOSE_DEFAULT.

Definition BOOT_COM1_BASE : Z := 0x3F8.
Definition BOOT_GLYPH_W : Z := 8.
Definition BOOT_GLYPH_H : Z := 16.
Definition BOOT_GLYPH_ADV : Z := 9.

(** ** Glyphs *)

(** The cases of the switch: the character and its rows. *)
Definition BootGlyphs : list (Z * list Z) :=
  [(65, [0x0E; 0x11; 0x11; 0x1F; 0x11; 0x11; 0x11]);
   (66, [0x1E; 0x11; 0x11; 0x1E; 0x11; 0x11; 0x1E]);
   (68, [0x1E; 0x11; 0x11; 0x11; 0x11; 0x11; 0x1E]);
   (69, [0x1F; 0x10; 0x10; 0x1E; 0x10; 0x10; 0x1F]);
   (76, [0x10; 0x10; 0x10; 0x10; 0x10; 0x10; 0x1F]);
   (78, [0x11; 0x19; 0x15; 0x13; 0x11; 0x11; 0x11]);
   (79, [0x0E; 0x11; 0x11; 0x11; 0x11; 0x11; 0x0E]);
   (80, [0x1E; 0x11; 0x11; 0x1E; 0x10; 0x10; 0x10]);
   (82, [0x1E; 0x11; 0x11; 0x1E; 0x14; 0x12; 0x11]);
   (84, [0x1F; 0x04; 0x04; 0x04; 0x04; 0x04; 0x04]);
   (85, [0x11; 0x11; 0x11; 0x11; 0x11; 0x11; 0x0E]);
   (86, [0x11; 0x11; 0x11; 0x11; 0x11; 0x0A; 0x04]);
   (87, [0x11; 0x11; 0x11; 0x15; 0x15; 0x15; 0x0A]);
   (88, [0x11; 0x11; 0x0A; 0x04; 0x0A; 0x11; 0x11]);
   (89, [0x11; 0x11; 0x0A; 0x04; 0x04; 0x04; 0x04])].

(** [Row] is below 7. *)
Definition BootGlyphRow5x7 (Ch : Z) (Row : nat) : Z :=
  match find_first (fun g => g.1 =? Ch) BootGlyphs with
  | Some i => nth Row (nth i BootGlyphs (0, [])).2 0
  | None => 0
  end.

Definition BootGlyphRow8x16 (Ch Row : Z) : Z :=
  let Ch := if (Ch >=? 97) && (Ch <=? 122) then Ch - 97 + 65 else Ch in
  if (Row =? 0) || (Row >=? 15) then 0
  else
    let SrcRow := Z.shiftr (Row - 1) 1 in
    let SrcBits := u8 (Z.land (BootGlyphRow5x7 Ch (Z.to_nat SrcRow)) 0x1F) in
    u8 (Z.shiftl SrcBits 1).

(** [while (Text[Count] != 0) Count++;] *)
Definition BootTextChars (Text : cstr) : Z := u32 (Z.of_nat (length (cstr_of Text))).

Definition BootTextWidth (Text : cstr) (Scale : Z) : Z :=
  let Count := BootTextChars Text in
  if Count =? 0 then 0 else u32 (Count * u32 (BOOT_GLYPH_ADV * Scale)).

(** [while (MainW > (Width - 40u) && MainScale > 3u)]: the scale and the width
    after at most [n] steps down. *)
Fixpoint fit_scale (n : nat) (Main : cstr) (Width MainScale MainW : Z) : Z * Z :=
  match n with
  | O => (MainScale, MainW)
  | S n =>
      if (MainW >? u32 (Width - 40)) && (MainScale >? 3) then
        let MainScale := MainScale - 1 in
        fit_scale n Main Width MainScale (BootTextWidth Main MainScale)
      else (MainScale, MainW)
  end.

(** [Spin > 2000000u]: the polls of the line status before a character is
    dropped. *)
Definition boot_serial_polls : nat := Z.to_nat 2000001.

Section World.
Context {W : Type} `{ByteMem W} `{PortIo W} `{Firmware W}.

(** ** The serial port *)

Definition BootIoOut8 (Port Value : Z) : M W unit := HalpIoWrite8 Port Value.
Definition BootIoIn8 (Port : Z) : M W Z := HalpIoRead8 Port.

Definition BootSerialInit : M W unit :=
  BootIoOut8 (BOOT_COM1_BASE + 1) 0x00 ;;;
  BootIoOut8 (BOOT_COM1_BASE + 3) 0x80 ;;;
  BootIoOut8 (BOOT_COM1_BASE + 0) 0x01 ;;;
  BootIoOut8 (BOOT_COM1_BASE + 1) 0x00 ;;;
  BootIoOut8 (BOOT_COM1_BASE + 3) 0x03 ;;;
  BootIoOut8 (BOOT_COM1_BASE + 2) 0xC7 ;;;
  BootIoOut8 (BOOT_COM1_BASE + 4) 0x03.

(** [n] more polls of the line status before the character is dropped. *)
Fixpoint boot_serial_wait (n : nat) (Ch : Z) : M W unit :=
  match n with
  | O => ret tt
  | S n =>
      st <- BootIoIn8 (BOOT_COM1_BASE + 5) ;;
      if Z.land st 0x20 =? 0 then boot_serial_wait n Ch else BootIoOut8 BOOT_COM1_BASE (u8 Ch)
  end.

Definition BootSerialWriteChar (Ch : Z) : M W unit := boot_serial_wait boot_serial_polls Ch.

Fixpoint boot_serial_chars (Text : cstr) : M W unit :=
  match Text with
  | [] => ret tt
  | Ch :: Text =>
      if Ch =? 0 then ret tt
      else
        (if Ch =? 10 then BootSerialWriteChar 13 else ret tt) ;;;
        BootSerialWriteChar Ch ;;;
        boot_serial_chars Text
  end.
Definition BootSerialWriteAscii (Text : option cstr) : M W unit :=
  match Text with None => ret tt | Some t => boot_serial_chars t end.

(** A digit: ['0' + Nibble] or ['A' + (Nibble - 10)]. *)
Definition boot_hex_char (Nibble : Z) : Z := if Nibble <? 10 then 48 + Nibble else 65 + (Nibble - 10).

Fixpoint boot_hex_digits (n : nat) (Value Shift : Z) : M W unit :=
  match n with
  | O => ret tt
  | S n =>
      let NibbleShift := (15 - Shift) * 4 in
      let Nibble := Z.land (Z.shiftr Value NibbleShift) 0xF in
      BootSerialWriteChar (boot_hex_char Nibble) ;;;
      boot_hex_digits n Value (Shift + 1)
  end.
Definition BootSerialWriteHex64 (Value : Z) : M W unit :=
  BootSerialWriteAscii (Some (str "0x")) ;;;
  boot_hex_digits 16 Value 0.

Definition BootSerialWriteHex8 (Value : Z) : M W unit :=
  BootSerialWriteChar (boot_hex_char (Z.shiftr Value 4)) ;;;
  BootSerialWriteChar (boot_hex_char (Z.land Value 0x0F)).

(** [for (Index = ...; Index < Count; Index++)], [n] bytes left. *)
Fixpoint dump_bytes (n : nat) (Data Index : Z) : M W unit :=
  match n with
  | O => ret tt
  | S n =>
      b <- read_u8 (Data + Index) ;;
      BootSerialWriteHex8 b ;;;
      (match n with O => ret tt | S _ => BootSerialWriteChar 32 end) ;;;
      dump_bytes n Data (Index + 1)
  end.
Definition BootSerialDumpBytes (Prefix : option cstr) (Data Count : Z) : M W unit :=
  (match Prefix with None => ret tt | Some p => BootSerialWriteAscii (Some p) end) ;;;
  dump_bytes (Z.to_nat Count) Data 0 ;;;
  BootSerialWriteAscii (Some [10]).

(** ** The splash screen *)

Definition BOOT_VERBOSE_PRINT (Format : cstr) (Args : list Z) : M W unit :=
  if gBootVerbose then Print (Some Format) Args ;;; ret tt else ret tt.

Definition BootSleepUs (Microseconds : Z) : M W unit :=
  l <- gets efi_get ;;
  if BS l =? 0 then ret tt
  else
    f <- BootServices_Stall (BS l) ;;
    if f =? 0 then ret tt else fw_Stall Microseconds.

(** [Status] is an error, or a pointer on the way to the mode's information is
    null. *)
Definition gop_missing (Status Gop : Z) : M W bool :=
  if EFI_ERROR Status || (Gop =? 0) then ret true
  else
    mode <- Gop_Mode Gop ;;
    if mode =? 0 then ret true
    else info <- Mode_Info mode ;; ret (info =? 0).

Definition BootLocateGop : M W Z :=
  l <- gets efi_get ;;
  if BS l =? 0 then ret 0
  else
    dlet (Status, Gop) := fw_LocateProtocol gEfiGraphicsOutputProtocolGuid ;;
    missing <- gop_missing Status Gop ;;
    ret (if missing then 0 else Gop).

(** [Gop->Mode->Info->...] and [Gop->Mode->...] *)
Definition gop_info {A} (field : Z -> M W A) (Gop : Z) : M W A :=
  mode <- Gop_Mode Gop ;; info <- Mode_Info mode ;; field info.
Definition gop_mode {A} (field : Z -> M W A) (Gop : Z) : M W A := mode <- Gop_Mode Gop ;; field mode.

Definition BootMakePixel (Gop R G B : Z) : M W Z :=
  format <- gop_info Info_PixelFormat Gop ;;
  if format =? 1 then ret (Z.lor (Z.lor (Z.shiftl R 16) (Z.shiftl G 8)) B)
  else ret (Z.lor (Z.lor (Z.shiftl B 16) (Z.shiftl G 8)) R).

Definition BootDrawPixel (Gop X Y Pixel : Z) : M W unit :=
  width <- gop_info Info_HorizontalResolution Gop ;;
  if X >=? width then ret tt
  else
    height <- gop_info Info_VerticalResolution Gop ;;
    if Y >=? height then ret tt
    else
      Fb <- gop_mode Mode_FrameBufferBase Gop ;;
      Pitch <- gop_info Info_PixelsPerScanLine Gop ;;
      write_le 4 (Fb + 4 * u32 (u32 (Y * Pitch) + X)) Pixel.

(** [for (Col = ...; Col < W; Col++)], [n] columns left, and the rows. *)
Fixpoint rect_row (n : nat) (Gop X Y Col Pixel : Z) : M W unit :=
  match n with
  | O => ret tt
  | S n => BootDrawPixel Gop (u32 (X + Col)) Y Pixel ;;; rect_row n Gop X Y (Col + 1) Pixel
  end.
Fixpoint rect_rows (n : nat) (Gop X Y Row : Z) (Width_ : nat) (Pixel : Z) : M W unit :=
  match n with
  | O => ret tt
  | S n =>
      rect_row Width_ Gop X (u32 (Y + Row)) 0 Pixel ;;;
      rect_rows n Gop X Y (Row + 1) Width_ Pixel
  end.
Definition BootFillRect (Gop X Y Width_ Height_ Pixel : Z) : M W unit :=
  rect_rows (Z.to_nat Height_) Gop X Y 0 (Z.to_nat Width_) Pixel.

(** The dots of one row of a glyph, [n] columns left; the rows, [n] left. *)
Fixpoint text_cols (n : nat) (Gop X Y ChIndex Row Col Bits Scale Pixel : Z) : M W unit :=
  match n with
  | O => ret tt
  | S n =>
      (if any_flag Bits (u8 (Z.shiftl 1 (BOOT_GLYPH_W - 1 - Col))) then
         BootFillRect Gop (u32 (X + u32 (u32 (u32 (ChIndex * BOOT_GLYPH_ADV) + Col) * Scale)))
           (u32 (Y + u32 (Row * Scale))) Scale Scale Pixel
       else ret tt) ;;;
      text_cols n Gop X Y ChIndex Row (Col + 1) Bits Scale Pixel
  end.
Fixpoint text_rows (n : nat) (Gop X Y ChIndex Row Ch Scale Pixel : Z) : M W unit :=
  match n with
  | O => ret tt
  | S n =>
      text_cols (Z.to_nat BOOT_GLYPH_W) Gop X Y ChIndex Row 0 (BootGlyphRow8x16 Ch Row) Scale Pixel ;;;
      text_rows n Gop X Y ChIndex (Row + 1) Ch Scale Pixel
  end.
Fixpoint text_chars (Gop X Y : Z) (Text : cstr) (ChIndex CharCount Scale Pixel : Z) : M W unit :=
  match Text with
  | [] => ret tt
  | Ch :: Text =>
      if (Ch =? 0) || negb (ChIndex <? CharCount) then ret tt
      else
        text_rows (Z.to_nat BOOT_GLYPH_H) Gop X Y ChIndex 0 Ch Scale Pixel ;;;
        text_chars Gop X Y Text (u32 (ChIndex + 1)) CharCount Scale Pixel
  end.
Definition BootDrawTextChars (Gop X Y : Z) (Text : cstr) (CharCount Scale Pixel : Z) : M W unit :=
  text_chars Gop X Y Text 0 CharCount Scale Pixel.

Definition BootDrawText (Gop X Y : Z) (Text : cstr) (Scale Pixel : Z) : M W unit :=
  BootDrawTextChars Gop X Y Text (BootTextChars Text) Scale Pixel.

Definition BootClearFramebufferEarly : M W unit :=
  Gop <- BootLocateGop ;;
  if Gop =? 0 then ret tt
  else
    w <- gop_info Info_HorizontalResolution Gop ;;
    h <- gop_info Info_VerticalResolution Gop ;;
    black <- BootMakePixel Gop 0 0 0 ;;
    BootFillRect Gop 0 0 w h black.

(** Where a title of a width and height and scale is drawn. *)
Record title := { tText : cstr; tX : Z; tY : Z; tW : Z; tH : Z; tScale : Z }.

(** [(Scale > 1u) ? (Scale / 2u) : 1u] *)
Definition shadow_offset (Scale : Z) : Z := if Scale >? 1 then Scale / 2 else 1.

Definition clear_title (Gop : Z) (t : title) (Bg : Z) : M W unit :=
  BootFillRect Gop (tX t) (tY t) (u32 (u32 (tW t + tScale t) + 2)) (u32 (u32 (tH t + tScale t) + 2)) Bg.

(** [for (StepChars = 1u; StepChars <= MainChars; StepChars++)], [n] left. *)
Fixpoint type_title (n : nat) (Gop : Z) (t : title) (StepChars Bg ShadowColor MainColor : Z) : M W unit :=
  match n with
  | O => ret tt
  | S n =>
      let d := shadow_offset (tScale t) in
      clear_title Gop t Bg ;;;
      BootDrawTextChars Gop (u32 (tX t + d)) (u32 (tY t + d)) (tText t) StepChars (tScale t) ShadowColor ;;;
      BootDrawTextChars Gop (tX t) (tY t) (tText t) StepChars (tScale t) MainColor ;;;
      BootSleepUs 35000 ;;;
      type_title n Gop t (StepChars + 1) Bg ShadowColor MainColor
  end.

(** [for (Step = 0u; Step < 6; Step++)]: the values of [Fade] left. *)
Fixpoint fade_title (Fade : list Z) (Gop : Z) (t : title) (Bg SubShadowColor : Z) : M W unit :=
  match Fade with
  | [] => ret tt
  | f :: Fade =>
      let d := shadow_offset (tScale t) in
      SubColor <- BootMakePixel Gop f f f ;;
      clear_title Gop t Bg ;;;
      BootDrawText Gop (u32 (tX t + d)) (u32 (tY t + d)) (tText t) (tScale t) SubShadowColor ;;;
      BootDrawText Gop (tX t) (tY t) (tText t) (tScale t) SubColor ;;;
      BootSleepUs 85000 ;;;
      fade_title Fade Gop t Bg SubShadowColor
  end.

(** The layout of both titles on a screen. *)
Definition main_title (Width Height : Z) : title :=
  let Main := str "NOVA TARANTULA" in
  let '(MainScale, MainW) := fit_scale 5 Main Width 8 (BootTextWidth Main 8) in
  let MainH := u32 (BOOT_GLYPH_H * MainScale) in
  {| tText := Main; tX := if Width >? MainW then (Width - MainW) / 2 else 0; tY := u32 (Height / 2 - MainH);
     tW := MainW; tH := MainH; tScale := MainScale |}.
Definition sub_title (Width Height : Z) : title :=
  let Sub := str "POWERED BY NTX" in
  let m := main_title Width Height in
  let SubW := BootTextWidth Sub 4 in
  {| tText := Sub; tX := if Width >? SubW then (Width - SubW) / 2 else 0;
     tY := u32 (u32 (tY m + tH m) + 24); tW := SubW; tH := u32 (BOOT_GLYPH_H * 4); tScale := 4 |}.

Definition Fade : list Z := [0x30; 0x50; 0x70; 0x90; 0xB0; 0xD0].

(** Both titles on a black screen, which then stays for a while. *)
Definition draw_splash (Gop : Z) : M W unit :=
  Width <- gop_info Info_HorizontalResolution Gop ;;
  Height <- gop_info Info_VerticalResolution Gop ;;
  let m := main_title Width Height in
  Bg <- BootMakePixel Gop 0 0 0 ;;
  ShadowColor <- BootMakePixel Gop 0x18 0x24 0x38 ;;
  SubShadowColor <- BootMakePixel Gop 0x10 0x18 0x28 ;;
  MainColor <- BootMakePixel Gop 0xEA 0xEA 0xEA ;;
  BootFillRect Gop 0 0 Width Height Bg ;;;
  type_title (Z.to_nat (BootTextChars (tText m))) Gop m 1 Bg ShadowColor MainColor ;;;
  fade_title Fade Gop (sub_title Width Height) Bg SubShadowColor ;;;
  BootSleepUs 1800000.

Definition announce_verbose : M W unit :=
  if gBootVerbose then
    Print (Some (str "[BOOT] verbose mode enabled (default)" ++ [13; 10])) [] ;;; ret tt
  else ret tt.

Definition BootShowSplash : M W unit :=
  Gop <- BootLocateGop ;;
  if Gop =? 0 then
    Print (Some (str "Nova Tarantula" ++ [13; 10])) [] ;;;
    Print (Some (str "Powered by NTX" ++ [13; 10])) [] ;;;
    ret tt
  else
    draw_splash Gop ;;;
    announce_verbose.
End World.
