(* ===== verification/Boot.v ===== *)
(** * The UEFI boot loader: boot/uefi/bootx64.c, second half

    From [efi_main] to the jump into the kernel: reading files, checking and
    loading the kernel image, the memory map, the handoff record and the end of
    the boot services.  The firmware is reached through [Firmware] (Efi.v).  The
    record the kernel receives is its address and its value, as in BootProto.v.
    Signed 64-bit address arithmetic wraps, as the loader is compiled. *)

From S2P Require Import Prelude CString BootProto PhysMem Kpe KpeLoad Efi Hal BootScreen.

Record BOOT_MEMORY_SNAPSHOT := {
  MapBuffer : Z;
  MapBufferSize : Z;
  MapSize : Z;
  MapKey : Z;
  DescriptorSize : Z;
  DescriptorVersion : Z;
  Ranges : Z;
  RangeCapacity : Z;
  RangeCount : Z }.

(** The kernel, which the loader calls at its entry point. *)
Class BootTarget (W : Type) := { call_entry : Z -> BOOT_INFO_PTR -> M W unit }.

Section World.
Context {W : Type} `{ByteMem W} `{PortIo W} `{Firmware W}.

(** ** Reading files *)

Definition OpenRootVolume (ImageHandle : EFI_HANDLE) : M W (EFI_STATUS * Z) :=
  boot_services ;;;
  dlet (Status, LoadedImage) := fw_HandleProtocol ImageHandle gEfiLoadedImageProtocolGuid ;;
  if EFI_ERROR Status then ret (Status, 0)
  else
    device <- LoadedImage_DeviceHandle LoadedImage ;;
    dlet (Status, SimpleFs) := fw_HandleProtocol device gEfiSimpleFileSystemProtocolGuid ;;
    if EFI_ERROR Status then ret (Status, 0) else fw_OpenVolume SimpleFs.

(** [GetInfo] into a pool buffer, a second time into a larger one when the
    first is too small: the status and the buffer, 0 when the pool is exhausted. *)
Definition get_file_info (File : Z) : M W (EFI_STATUS * Z) :=
  let InfoSize := SIZE_OF_EFI_FILE_INFO + 256 in
  Info <- AllocatePool InfoSize ;;
  if Info =? 0 then ret (EFI_OUT_OF_RESOURCES, 0)
  else
    dlet (Status, InfoSize) := fw_GetInfo File gEfiFileInfoGuid InfoSize Info ;;
    if Status =? EFI_BUFFER_TOO_SMALL then
      FreePool Info ;;;
      Info <- AllocatePool InfoSize ;;
      if Info =? 0 then ret (EFI_OUT_OF_RESOURCES, 0)
      else
        dlet (Status, InfoSize) := fw_GetInfo File gEfiFileInfoGuid InfoSize Info ;;
        ret (Status, Info)
    else ret (Status, Info).

(** The status, the buffer and its size. *)
Definition ReadWholeFile (Root : Z) (Path : cstr) : M W (EFI_STATUS * (Z * Z)) :=
  dlet (Status, File) := fw_Open Root Path EFI_FILE_MODE_READ 0 ;;
  if EFI_ERROR Status then ret (Status, (0, 0))
  else
    dlet (Status, Info) := get_file_info File ;;
    if Info =? 0 then fw_Close File ;;; ret (EFI_OUT_OF_RESOURCES, (0, 0))
    else if EFI_ERROR Status then FreePool Info ;;; fw_Close File ;;; ret (Status, (0, 0))
    else
      ReadSize <- FileInfo_FileSize Info ;;
      FileBuffer <- AllocatePool ReadSize ;;
      if FileBuffer =? 0 then FreePool Info ;;; fw_Close File ;;; ret (EFI_OUT_OF_RESOURCES, (0, 0))
      else
        dlet (Status, ReadSize) := fw_Read File ReadSize FileBuffer ;;
        fw_Close File ;;;
        FreePool Info ;;;
        if EFI_ERROR Status then FreePool FileBuffer ;;; ret (Status, (0, 0))
        else ret (EFI_SUCCESS, (FileBuffer, ReadSize)).

(** ** The kernel image *)

(** [(Value + Alignment - 1) & ~(Alignment - 1)] *)
Definition AlignUp64 (Value Alignment : Z) : Z :=
  if Alignment =? 0 then Value else Z.land (u64 (u64 (Value + Alignment) - 1)) (lnot64 (u64 (Alignment - 1))).

Definition FileRangeValid (FileSize Offset Size : Z) : bool :=
  if Offset >? FileSize then false
  else if Size >? FileSize - Offset then false
  else true.

(** [for (Index = ...; Index < NumberOfSections; Index++)], [n] sections left. *)
Fixpoint validate_sections (n : nat) (Sections Index ImageFileSize : Z) (Opt : KPE_OPTIONAL_HEADER64) : M W bool :=
  match n with
  | O => ret true
  | S n =>
      s <- read_section Sections Index ;;
      if SecVirtualAddress s >=? SizeOfImage Opt then ret false
      else
        let VirtualSpan := AlignUp64 (SecVirtualSize s) (SectionAlignment Opt) in
        if u64 (SecVirtualAddress s + VirtualSpan) >? SizeOfImage Opt then ret false
        else if SizeOfRawData s =? 0 then validate_sections n Sections (Index + 1) ImageFileSize Opt
        else if negb (FileRangeValid ImageFileSize (PointerToRawData s) (SizeOfRawData s)) then ret false
        else validate_sections n Sections (Index + 1) ImageFileSize Opt
  end.

(** The headers and the address of the section table of an image that passes. *)
Definition ValidateKpeImage (ImageFileBuffer ImageFileSize : Z) : M W (option (KPE_NT_HEADERS64 * Z)) :=
  if ImageFileSize <? sizeof_KPE_DOS_HEADER then ret None
  else
    Dos <- read_dos ImageFileBuffer ;;
    if negb (e_magic Dos =? KPE_DOS_MAGIC) then ret None
    else if e_lfanew Dos + sizeof_KPE_NT_HEADERS64 >? ImageFileSize then ret None
    else
      Nt <- read_nt (ImageFileBuffer + e_lfanew Dos) ;;
      let File := FileHeader Nt in
      let Opt := OptionalHeader Nt in
      if negb (Signature Nt =? KPE_SIGNATURE) ||
         negb (Machine File =? KPE_MACHINE_AUR64) ||
         (NumberOfSections File =? 0) ||
         (SizeOfOptionalHeader File <? sizeof_KPE_OPTIONAL_HEADER64) ||
         negb (OptMagic Opt =? KPE_OPT_MAGIC_AUR64) ||
         negb (Subsystem Opt =? KPE_SUBSYSTEM_NATIVE_KERNEL) ||
         ((SectionAlignment Opt =? 0) || (FileAlignment Opt =? 0)) ||
         (AddressOfEntryPoint Opt >=? SizeOfImage Opt) ||
         (NumberOfRvaAndSizes Opt >? KPE_NUMBEROF_DIRECTORY_ENTRIES)
      then ret None
      else
        let SectionTableOffset := e_lfanew Dos + 4 + sizeof_KPE_FILE_HEADER + SizeOfOptionalHeader File in
        if SectionTableOffset + NumberOfSections File * sizeof_KPE_SECTION_HEADER >? ImageFileSize then ret None
        else
          let Sections := ImageFileBuffer + SectionTableOffset in
          b <- validate_sections (Z.to_nat (NumberOfSections File)) Sections 0 ImageFileSize Opt ;;
          ret (if b then Some (Nt, Sections) else None).

(** 0 for a range that leaves the image. *)
Definition ImageRvaToPointer (ImageBase_ ImageSize Rva Size : Z) : Z :=
  let End_ := Rva + Size in
  if End_ >? ImageSize then 0 else u64 (ImageBase_ + Rva).

(** The entries of the block at [Block], [n] left. *)
Fixpoint boot_reloc_entries (n : nat) (LoadedImageBase Block Entries Index SizeOfImage_ Delta : Z) : M W EFI_STATUS :=
  match n with
  | O => ret EFI_SUCCESS
  | S n =>
      Entry <- read_u16 (u64 (Entries + 2 * Index)) ;;
      let Type_ := Z.shiftr Entry 12 in
      let Offset := Z.land Entry 0x0FFF in
      if Type_ =? KPE_REL_BASED_ABSOLUTE then boot_reloc_entries n LoadedImageBase Block Entries (Index + 1) SizeOfImage_ Delta
      else if negb (Type_ =? KPE_REL_BASED_DIR64) then ret EFI_UNSUPPORTED
      else
        va <- read_u32 Block ;;
        let PatchRva := u32 (va + Offset) in
        let PatchValue := ImageRvaToPointer LoadedImageBase SizeOfImage_ PatchRva 8 in
        if PatchValue =? 0 then ret EFI_LOAD_ERROR
        else
          v <- read_u64 PatchValue ;;
          write_u64 PatchValue (u64 (v + Delta)) ;;;
          boot_reloc_entries n LoadedImageBase Block Entries (Index + 1) SizeOfImage_ Delta
  end.

(** [while ((Cursor + sizeof(block)) <= End)] with [fuel] turns left; the block's
    size is read again to advance. *)
Fixpoint boot_reloc_blocks (fuel : nat) (LoadedImageBase Cursor End_ SizeOfImage_ Delta : Z) : M W EFI_STATUS :=
  match fuel with
  | O => stuck
  | S fuel =>
      if negb (u64 (Cursor + sizeof_KPE_BASE_RELOCATION_BLOCK) <=? End_) then ret EFI_SUCCESS
      else
        size <- read_u32 (u64 (Cursor + 4)) ;;
        if size <? sizeof_KPE_BASE_RELOCATION_BLOCK then ret EFI_LOAD_ERROR
        else if u64 (Cursor + size) >? End_ then ret EFI_LOAD_ERROR
        else
          let EntryCount := (size - sizeof_KPE_BASE_RELOCATION_BLOCK) / 2 in
          Status <- boot_reloc_entries (Z.to_nat EntryCount) LoadedImageBase Cursor
                      (u64 (Cursor + sizeof_KPE_BASE_RELOCATION_BLOCK)) 0 SizeOfImage_ Delta ;;
          if negb (Status =? EFI_SUCCESS) then ret Status
          else
            size <- read_u32 (u64 (Cursor + 4)) ;;
            boot_reloc_blocks fuel LoadedImageBase (u64 (Cursor + size)) End_ SizeOfImage_ Delta
  end.

(** Every turn but the last advances by at least one byte, so the size of the
    directory and two bound the turns. *)
Definition ApplyKpeBaseRelocations (LoadedImageBase : Z) (Nt : option KPE_NT_HEADERS64) : M W EFI_STATUS :=
  match Nt with
  | None => ret EFI_INVALID_PARAMETER
  | Some Nt =>
      let Opt := OptionalHeader Nt in
      let Delta := u64 (LoadedImageBase - ImageBase Opt) in
      if Delta =? 0 then ret EFI_SUCCESS
      else
        RelocDir <- deref (DataDirectory Opt !! Z.to_nat KPE_DIR_BASERELOC) ;;
        if (DirVirtualAddress RelocDir =? 0) || (DirSize RelocDir <? sizeof_KPE_BASE_RELOCATION_BLOCK)
        then ret EFI_UNSUPPORTED
        else
          let Cursor := ImageRvaToPointer LoadedImageBase (SizeOfImage Opt) (DirVirtualAddress RelocDir) (DirSize RelocDir) in
          if Cursor =? 0 then ret EFI_LOAD_ERROR
          else
            let End_ := u64 (Cursor + DirSize RelocDir) in
            boot_reloc_blocks (Z.to_nat (DirSize RelocDir) + 2) LoadedImageBase Cursor End_ (SizeOfImage Opt) Delta
  end.

(** The section's bytes, then zeros up to its virtual size; [n] sections left. *)
Fixpoint load_sections (n : nat) (ImageBase_ ImageFileBuffer Sections Index : Z) : M W unit :=
  match n with
  | O => ret tt
  | S n =>
      s <- read_section Sections Index ;;
      let Dest := u64 (ImageBase_ + SecVirtualAddress s) in
      let CopySize := SizeOfRawData s in
      (if CopySize >? 0 then CopyMem Dest (ImageFileBuffer + PointerToRawData s) CopySize else ret tt) ;;;
      let ClearSize := if SecVirtualSize s >? CopySize then SecVirtualSize s - CopySize else 0 in
      (if ClearSize >? 0 then SetMem (Dest + CopySize) ClearSize 0 else ret tt) ;;;
      load_sections n ImageBase_ ImageFileBuffer Sections (Index + 1)
  end.

(** Pages for the image: at the address it was linked for, or anywhere if it can
    be relocated. *)
Definition allocate_image (Nt : KPE_NT_HEADERS64) : M W (EFI_STATUS * Z) :=
  let Opt := OptionalHeader Nt in
  let Pages := EFI_SIZE_TO_PAGES (SizeOfImage Opt) in
  boot_services ;;;
  dlet (Status, ImageBase_) := fw_AllocatePages AllocateAddress EfiLoaderCode Pages (ImageBase Opt) ;;
  if EFI_ERROR Status then
    if Z.land (DllCharacteristics Opt) KPE_DLLCHAR_DYNAMIC_BASE =? 0 then ret (Status, 0)
    else fw_AllocatePages AllocateAnyPages EfiLoaderCode Pages 0
  else ret (Status, ImageBase_).

(** The image in its pages: zeros, headers, sections. *)
Definition copy_kernel_image (ImageBase_ ImageFileBuffer ImageFileSize : Z) (Nt : KPE_NT_HEADERS64) (Sections : Z)
  : M W unit :=
  let Opt := OptionalHeader Nt in
  SetMem ImageBase_ (SizeOfImage Opt) 0 ;;;
  (if SizeOfHeaders Opt >? 0 then
     let HeaderCopySize := SizeOfHeaders Opt in
     CopyMem ImageBase_ ImageFileBuffer (if HeaderCopySize >? ImageFileSize then ImageFileSize else HeaderCopySize)
   else ret tt) ;;;
  load_sections (Z.to_nat (NumberOfSections (FileHeader Nt))) ImageBase_ ImageFileBuffer Sections 0.

(** What a loaded image is: base, size, entry point, displacement. *)
Record kernel_image := { kiBase : Z; kiSize : Z; kiEntry : Z; kiDelta : Z }.

Definition LoadKpeImage (ImageFileBuffer ImageFileSize : Z) : M W (EFI_STATUS * option kernel_image) :=
  v <- ValidateKpeImage ImageFileBuffer ImageFileSize ;;
  match v with
  | None => ret (EFI_LOAD_ERROR, None)
  | Some (Nt, Sections) =>
      let Opt := OptionalHeader Nt in
      dlet (Status, ImageBase_) := allocate_image Nt ;;
      if EFI_ERROR Status then ret (Status, None)
      else
        copy_kernel_image ImageBase_ ImageFileBuffer ImageFileSize Nt Sections ;;;
        Status <- ApplyKpeBaseRelocations ImageBase_ (Some Nt) ;;
        if EFI_ERROR Status then ret (Status, None)
        else
          ret (EFI_SUCCESS,
               Some {| kiBase := ImageBase_; kiSize := SizeOfImage Opt;
                       kiEntry := u64 (ImageBase_ + AddressOfEntryPoint Opt);
                       kiDelta := s64 (ImageBase_ - ImageBase Opt) |})
  end.

(** ** The memory map and the handoff record *)

Definition no_video : BOOT_VIDEO_INFO :=
  {| FrameBufferBase := 0; FrameBufferSize := 0; Width := 0; Height := 0; PixelsPerScanLine := 0; PixelFormat := 0 |}.

Definition CaptureVideoInfo : M W BOOT_VIDEO_INFO :=
  boot_services ;;;
  dlet (Status, Gop) := fw_LocateProtocol gEfiGraphicsOutputProtocolGuid ;;
  missing <- gop_missing Status Gop ;;
  if (missing : bool) then ret no_video
  else
    base <- gop_mode Mode_FrameBufferBase Gop ;;
    size <- gop_mode Mode_FrameBufferSize Gop ;;
    w <- gop_info Info_HorizontalResolution Gop ;;
    h <- gop_info Info_VerticalResolution Gop ;;
    pitch <- gop_info Info_PixelsPerScanLine Gop ;;
    format <- gop_info Info_PixelFormat Gop ;;
    ret {| FrameBufferBase := base; FrameBufferSize := u32 size; Width := w; Height := h;
           PixelsPerScanLine := pitch; PixelFormat := format |}.

Definition no_snapshot : BOOT_MEMORY_SNAPSHOT :=
  {| MapBuffer := 0; MapBufferSize := 0; MapSize := 0; MapKey := 0; DescriptorSize := 0; DescriptorVersion := 0;
     Ranges := 0; RangeCapacity := 0; RangeCount := 0 |}.

(** What [GetMemoryMap(&Snapshot->MapSize, ...)] leaves in the snapshot. *)
Definition set_reply (r : map_reply) (s : BOOT_MEMORY_SNAPSHOT) : BOOT_MEMORY_SNAPSHOT :=
  {| MapBuffer := MapBuffer s; MapBufferSize := MapBufferSize s; MapSize := mr_size r; MapKey := mr_key r;
     DescriptorSize := mr_descriptor_size r; DescriptorVersion := mr_descriptor_version r;
     Ranges := Ranges s; RangeCapacity := RangeCapacity s; RangeCount := RangeCount s |}.
Definition set_map_buffer (buffer size : Z) (s : BOOT_MEMORY_SNAPSHOT) : BOOT_MEMORY_SNAPSHOT :=
  {| MapBuffer := buffer; MapBufferSize := size; MapSize := MapSize s; MapKey := MapKey s;
     DescriptorSize := DescriptorSize s; DescriptorVersion := DescriptorVersion s;
     Ranges := Ranges s; RangeCapacity := RangeCapacity s; RangeCount := RangeCount s |}.
Definition set_ranges (ranges capacity : Z) (s : BOOT_MEMORY_SNAPSHOT) : BOOT_MEMORY_SNAPSHOT :=
  {| MapBuffer := MapBuffer s; MapBufferSize := MapBufferSize s; MapSize := MapSize s; MapKey := MapKey s;
     DescriptorSize := DescriptorSize s; DescriptorVersion := DescriptorVersion s;
     Ranges := ranges; RangeCapacity := capacity; RangeCount := RangeCount s |}.
Definition set_range_count (n : Z) (s : BOOT_MEMORY_SNAPSHOT) : BOOT_MEMORY_SNAPSHOT :=
  {| MapBuffer := MapBuffer s; MapBufferSize := MapBufferSize s; MapSize := MapSize s; MapKey := MapKey s;
     DescriptorSize := DescriptorSize s; DescriptorVersion := DescriptorVersion s;
     Ranges := Ranges s; RangeCapacity := RangeCapacity s; RangeCount := n |}.

(** [Size / DescriptorSize] *)
Definition descriptors_in (Size DescriptorSize_ : Z) : M W Z :=
  if DescriptorSize_ =? 0 then stuck else ret (Size / DescriptorSize_).

(** [GetMemoryMap] into the snapshot's buffer, of which [Size] bytes are offered. *)
Definition get_memory_map (Size : Z) (s : BOOT_MEMORY_SNAPSHOT) : M W (EFI_STATUS * BOOT_MEMORY_SNAPSHOT) :=
  r <- fw_GetMemoryMap Size (MapBuffer s) (MapKey s) (DescriptorSize s) (DescriptorVersion s) ;;
  ret (mr_status r, set_reply r s).

Definition SnapshotMemoryMap : M W (EFI_STATUS * BOOT_MEMORY_SNAPSHOT) :=
  boot_services ;;;
  let s := no_snapshot in
  r <- fw_GetMemoryMap 0 0 (MapKey s) (DescriptorSize s) (DescriptorVersion s) ;;
  let ProbedMapSize := mr_size r in
  let s := {| MapBuffer := 0; MapBufferSize := 0; MapSize := 0; MapKey := mr_key r;
              DescriptorSize := mr_descriptor_size r; DescriptorVersion := mr_descriptor_version r;
              Ranges := 0; RangeCapacity := 0; RangeCount := 0 |} in
  if negb (mr_status r =? EFI_BUFFER_TOO_SMALL) then ret (mr_status r, s)
  else
    let size := u64 (ProbedMapSize + u64 (DescriptorSize s * 16)) in
    buffer <- AllocatePool size ;;
    let s := set_map_buffer buffer size s in
    if buffer =? 0 then ret (EFI_OUT_OF_RESOURCES, s)
    else
      capacity <- descriptors_in size (DescriptorSize s) ;;
      ranges <- AllocatePool (u64 (sizeof_PHYSICAL_MEMORY_RANGE * capacity)) ;;
      if ranges =? 0 then ret (EFI_OUT_OF_RESOURCES, set_ranges 0 0 s)
      else
        dlet (Status, s) := get_memory_map size (set_ranges ranges capacity s) ;;
        if EFI_ERROR Status then ret (Status, s) else ret (EFI_SUCCESS, s).

Definition write_range (p : Z) (d : EFI_MEMORY_DESCRIPTOR) : M W unit :=
  write_u64 p (PhysicalStart d) ;;;
  write_u64 (p + 8) (EFI_PAGES_TO_SIZE (NumberOfPages d)) ;;;
  write_le 4 (p + 16) (DescType d) ;;;
  write_le 4 (p + 20) (Z.land (DescAttribute d) 0xFFFFFFFF).

(** [for (Offset = ...; Offset < MapSize; Offset += DescriptorSize)], [n] ranges
    left in the array; the ranges written. *)
Fixpoint convert_loop (n : nat) (s : BOOT_MEMORY_SNAPSHOT) (Offset Count : Z) : M W Z :=
  if Offset <? MapSize s then
    match n with
    | O => ret Count
    | S n =>
        d <- read_memory_descriptor (MapBuffer s + Offset) ;;
        write_range (Ranges s + sizeof_PHYSICAL_MEMORY_RANGE * Count) d ;;;
        convert_loop n s (u64 (Offset + DescriptorSize s)) (Count + 1)
    end
  else ret Count.

Definition ConvertMemoryMap (s : BOOT_MEMORY_SNAPSHOT) : M W BOOT_MEMORY_SNAPSHOT :=
  n <- convert_loop (Z.to_nat (RangeCapacity s)) s 0 0 ;;
  ret (set_range_count n s).

Definition PopulateBootInfo (LoaderBase_ KernelBase_ KernelSize_ KernelEntry_ InitImageBuffer InitImageSize_ : Z)
  (Snapshot : BOOT_MEMORY_SNAPSHOT) (VerboseBoot : bool) : M W BOOT_INFO :=
  let Flags_ := if negb (InitImageBuffer =? 0) && negb (InitImageSize_ =? 0) then BOOTINFO_FLAG_INIT_IMAGE_PRESENT else 0 in
  let Flags_ := if VerboseBoot then Z.lor Flags_ BOOTINFO_FLAG_VERBOSE_BOOT else Flags_ in
  video <- CaptureVideoInfo ;;
  ret {| Magic := BOOTINFO_MAGIC; Version := BOOTINFO_VERSION; Size := sizeof_BOOT_INFO; Flags := Flags_;
         FirmwareType := 1; LoaderBase := LoaderBase_; KernelBase := KernelBase_; KernelSize := KernelSize_;
         KernelEntry := KernelEntry_; InitImageBase := InitImageBuffer; InitImageSize := InitImageSize_;
         MemoryMap := Ranges Snapshot; MemoryMapEntryCount := u32 (RangeCount Snapshot);
         MemoryMapEntrySize := sizeof_PHYSICAL_MEMORY_RANGE; Video := video |}.

(** [BootInfo->MemoryMapEntryCount = n] *)
Definition set_entry_count (n : Z) (b : BOOT_INFO) : BOOT_INFO :=
  {| Magic := Magic b; Version := Version b; Size := Size b; Flags := Flags b; FirmwareType := FirmwareType b;
     LoaderBase := LoaderBase b; KernelBase := KernelBase b; KernelSize := KernelSize b; KernelEntry := KernelEntry b;
     InitImageBase := InitImageBase b; InitImageSize := InitImageSize b; MemoryMap := MemoryMap b;
     MemoryMapEntryCount := n; MemoryMapEntrySize := MemoryMapEntrySize b; Video := Video b |}.

(** Larger buffers for the map and the ranges; the old ones are freed. *)
Definition grow_buffers (s : BOOT_MEMORY_SNAPSHOT) : M W (EFI_STATUS * BOOT_MEMORY_SNAPSHOT) :=
  let NewBufferSize := u64 (MapSize s + u64 (DescriptorSize s * 16)) in
  NewMapBuffer <- AllocatePool NewBufferSize ;;
  if NewMapBuffer =? 0 then ret (EFI_OUT_OF_RESOURCES, s)
  else
    NewRangeCapacity <- descriptors_in NewBufferSize (DescriptorSize s) ;;
    NewRanges <- AllocatePool (u64 (sizeof_PHYSICAL_MEMORY_RANGE * NewRangeCapacity)) ;;
    if NewRanges =? 0 then FreePool NewMapBuffer ;;; ret (EFI_OUT_OF_RESOURCES, s)
    else
      (if negb (MapBuffer s =? 0) then FreePool (MapBuffer s) else ret tt) ;;;
      (if negb (Ranges s =? 0) then FreePool (Ranges s) else ret tt) ;;;
      ret (EFI_SUCCESS, set_ranges NewRanges NewRangeCapacity (set_map_buffer NewMapBuffer NewBufferSize s)).

(** [for (Attempt = ...; Attempt < 4u; Attempt++)], [n] attempts left. *)
Fixpoint exit_attempts (n : nat) (ImageHandle : EFI_HANDLE) (BootInfo : BOOT_INFO) (s : BOOT_MEMORY_SNAPSHOT)
  (Status : EFI_STATUS) : M W (EFI_STATUS * (BOOT_INFO * BOOT_MEMORY_SNAPSHOT)) :=
  match n with
  | O => ret (Status, (BootInfo, s))
  | S n =>
      boot_services ;;;
      dlet (Status, s) := get_memory_map (MapBufferSize s) s ;;
      if Status =? EFI_BUFFER_TOO_SMALL then
        dlet (Grown, s) := grow_buffers s ;;
        if negb (Grown =? EFI_SUCCESS) then ret (Grown, (BootInfo, s))
        else exit_attempts n ImageHandle BootInfo s Status
      else if EFI_ERROR Status then ret (Status, (BootInfo, s))
      else
        s <- ConvertMemoryMap s ;;
        let BootInfo := set_entry_count (u32 (RangeCount s)) BootInfo in
        Status <- fw_ExitBootServices ImageHandle (MapKey s) ;;
        if negb (EFI_ERROR Status) then ret (EFI_SUCCESS, (BootInfo, s))
        else if negb (Status =? EFI_INVALID_PARAMETER) then ret (Status, (BootInfo, s))
        else exit_attempts n ImageHandle BootInfo s Status
  end.

(** The caller's record and snapshot are never null: the check at the start of
    the code passes. *)
Definition ExitBootServicesRobust (ImageHandle : EFI_HANDLE) (BootInfo : BOOT_INFO) (s : BOOT_MEMORY_SNAPSHOT)
  : M W (EFI_STATUS * (BOOT_INFO * BOOT_MEMORY_SNAPSHOT)) :=
  exit_attempts 4 ImageHandle BootInfo s EFI_INVALID_PARAMETER.
End World.

(** ** efi_main *)

Section Main.
Context {W : Type} `{ByteMem W} `{PortIo W} `{Firmware W} `{BootTarget W}.

(** Interrupts off, and the call. *)
Definition BootCallKernel (EntryAddress : Z) (BootInfo : BOOT_INFO_PTR) : M W unit := call_entry EntryAddress BootInfo.

Definition crlf (s : cstr) : cstr := s ++ [13; 10].
Definition nl (s : cstr) : cstr := s ++ [10].

(** [Print(Format, ...); return Status;] *)
Definition fail_with (Format : cstr) (Args : list Z) (Status : EFI_STATUS) : M W EFI_STATUS :=
  Print (Some (crlf Format)) Args ;;; ret Status.

(** The two files: the kernel, which must be there, and the first user program. *)
Definition load_init_file (Root : Z) : M W (Z * Z) :=
  dlet (Status, f) := ReadWholeFile Root (str "\System\init.kpe") ;;
  if EFI_ERROR Status then
    Print (Some (crlf (str "AsterLoader: init.kpe not found, continuing without init"))) [] ;;; ret (0, 0)
  else
    Print (Some (crlf (str "AsterLoader: init.kpe loaded (%u bytes)"))) [f.2] ;;; ret f.

(** The messages about a kernel that was loaded. *)
Definition report_kernel (k : kernel_image) : M W unit :=
  BOOT_VERBOSE_PRINT (crlf (str "AsterLoader: stage kernel image ready")) [] ;;;
  BOOT_VERBOSE_PRINT (crlf (str "AsterLoader: kernel image bytes=%u")) [kiSize k] ;;;
  BOOT_VERBOSE_PRINT (crlf (str "AsterLoader: kernel base=%r")) [kiBase k] ;;;
  BOOT_VERBOSE_PRINT (crlf (str "AsterLoader: kernel entry=%r")) [kiEntry k] ;;;
  BOOT_VERBOSE_PRINT (crlf (str "AsterLoader: kernel entry offset=%r")) [u64 (kiEntry k - kiBase k)] ;;;
  BOOT_VERBOSE_PRINT (crlf (str "AsterLoader: kernel reloc delta=%r")) [u64 (kiDelta k)].

(** After the boot services are gone: the last messages, and the kernel, which
    does not return. *)
Definition start_kernel (b : BOOT_INFO_PTR) : M W EFI_STATUS :=
  let Entry := KernelEntry (bi_value b) in
  BootSerialWriteAscii (Some (nl (str "[BL] ExitBootServices OK"))) ;;;
  BootSerialWriteAscii (Some (str "[BL] jumping kernel entry=")) ;;;
  BootSerialWriteHex64 Entry ;;;
  BootSerialWriteAscii (Some (str " boot_info=")) ;;;
  BootSerialWriteHex64 (bi_address b) ;;;
  BootSerialWriteAscii (Some [10]) ;;;
  BootSerialDumpBytes (Some (str "[BL] entry bytes: ")) Entry 16 ;;;
  BootCallKernel Entry b ;;;
  BootSerialWriteAscii (Some (nl (str "[BL] kernel returned unexpectedly"))) ;;;
  halt.

(** The map, the record, the splash, and the end of the boot services. *)
Definition hand_over (ImageHandle : EFI_HANDLE) (LoadedImage BootInfo InitBuffer InitFileSize : Z) (k : kernel_image)
  : M W EFI_STATUS :=
  BOOT_VERBOSE_PRINT (crlf (str "AsterLoader: stage snapshot memory map")) [] ;;;
  dlet (Status, Snapshot) := SnapshotMemoryMap ;;
  if EFI_ERROR Status then fail_with (str "AsterLoader: memory map snapshot failed: %r") [Status] Status
  else
    Snapshot <- ConvertMemoryMap Snapshot ;;
    BOOT_VERBOSE_PRINT (crlf (str "AsterLoader: stage boot info ready")) [] ;;;
    BOOT_VERBOSE_PRINT (crlf (str "AsterLoader: mmap entries=%u")) [RangeCount Snapshot] ;;;
    loader <- LoadedImage_ImageBase LoadedImage ;;
    b <- PopulateBootInfo loader (kiBase k) (kiSize k) (kiEntry k) InitBuffer InitFileSize Snapshot gBootVerbose ;;
    BootClearFramebufferEarly ;;;
    BootShowSplash ;;;
    BOOT_VERBOSE_PRINT (crlf (str "AsterLoader: stage exit boot services")) [] ;;;
    BootSerialWriteAscii (Some (nl (str "[BL] about to ExitBootServices"))) ;;;
    dlet (Status, r) := ExitBootServicesRobust ImageHandle b Snapshot ;;
    if EFI_ERROR Status then fail_with (str "AsterLoader: exit boot services failed: %r") [Status] Status
    else start_kernel {| bi_address := BootInfo; bi_value := r.1 |}.

(** The kernel in memory. *)
Definition run_kernel_image (ImageHandle : EFI_HANDLE) (KernelBuffer KernelFileSize InitBuffer InitFileSize : Z)
  : M W EFI_STATUS :=
  BOOT_VERBOSE_PRINT (crlf (str "AsterLoader: stage load kernel image")) [] ;;;
  dlet (Status, k) := LoadKpeImage KernelBuffer KernelFileSize ;;
  if EFI_ERROR Status then fail_with (str "AsterLoader: kernel load failed: %r") [Status] Status
  else
    k <- deref k ;;
    report_kernel k ;;;
    if (kiEntry k <? kiBase k) || (kiEntry k >=? u64 (kiBase k + kiSize k)) then
      fail_with (str "AsterLoader: kernel entry out of range") [] EFI_LOAD_ERROR
    else
      BOOT_VERBOSE_PRINT (crlf (str "AsterLoader: stage loader protocol")) [] ;;;
      boot_services ;;;
      dlet (Status, LoadedImage) := fw_HandleProtocol ImageHandle gEfiLoadedImageProtocolGuid ;;
      if EFI_ERROR Status then fail_with (str "AsterLoader: image protocol missing: %r") [Status] Status
      else
        BootInfo <- AllocatePool sizeof_BOOT_INFO ;;
        if BootInfo =? 0 then ret EFI_OUT_OF_RESOURCES
        else hand_over ImageHandle LoadedImage BootInfo InitBuffer InitFileSize k.

Definition efi_main (ImageHandle : EFI_HANDLE) (SystemTable : Z) : M W EFI_STATUS :=
  InitializeLib ImageHandle SystemTable ;;;
  BootSerialInit ;;;
  BootSerialWriteAscii (Some (nl (str "[BL] efi_main entered"))) ;;;
  BOOT_VERBOSE_PRINT (crlf (str "NTX Boot: UEFI boot begin")) [] ;;;
  dlet (Status, Root) := OpenRootVolume ImageHandle ;;
  if EFI_ERROR Status then fail_with (str "AsterLoader: root volume open failed: %r") [Status] Status
  else
    BOOT_VERBOSE_PRINT (crlf (str "AsterLoader: root volume open ok")) [] ;;;
    dlet (Status, kf) := ReadWholeFile Root (str "\kernel\ntxkrnl.kpe") ;;
    if EFI_ERROR Status then fail_with (str "AsterLoader: kernel file read failed: %r") [Status] Status
    else
      BOOT_VERBOSE_PRINT (crlf (str "AsterLoader: kernel file bytes=%u")) [kf.2] ;;;
      init <- load_init_file Root ;;
      run_kernel_image ImageHandle kf.1 kf.2 init.1 init.2.
End Main.
