(* ===== verification/BootMachine.v ===== *)
(** * A platform for the boot loader

    A concrete firmware over flat memory: what it is asked is logged, pool memory
    comes from a growing address, the memory map and the answers of
    [ExitBootServices] follow a script.  The loader's theorems are applied to it;
    the loader runs on it from its entry to the kernel's. *)

From S2P Require Import Prelude CString BootProto PhysMem Kpe KpeLoad Efi Hal BootScreen Boot.

(** ** What the firmware was asked *)

Inductive fw_event :=
| EvOutput (Text : cstr)
| EvAllocatePages (Pages : Z) (Status : EFI_STATUS) (Memory : Z)
| EvGetMemoryMap (Buffer : Z) (Reply : map_reply)
| EvAllocatePool (Size : Z) (Status : EFI_STATUS) (Buffer : Z)
| EvFreePool (Buffer : Z)
| EvHandleProtocol (Handle : EFI_HANDLE)
| EvExitBootServices (Handle : EFI_HANDLE) (Key : Z) (Status : EFI_STATUS)
| EvStall (Microseconds : Z)
| EvLocateProtocol
| EvOpenVolume
| EvOpen (Path : cstr) (Status : EFI_STATUS)
| EvClose (File : Z)
| EvRead (File : Z)
| EvGetInfo (File : Z)
| EvKernel (Entry : Z) (BootInfo : BOOT_INFO_PTR).

(** Bytes of a file, as fields: width, offset, value. *)
Abbreviation file_fields := (list (nat * Z * Z)) (only parsing).

Record machine := {
  m_mem : mem;
  m_library : efi_library;
  m_pool : Z;
  m_log : list fw_event;
  m_ports : list (Z * Z);
  (* the number of descriptors at this and the following calls *)
  m_map_script : list nat;
  (* the answers of ExitBootServices; then success *)
  m_exit_script : list EFI_STATUS;
  (* the kernel's file: its size and contents; the address at which pages are
     there, and whether the linked address is free *)
  m_file_size : Z;
  m_file : file_fields;
  m_free_at : Z -> bool;
  m_gop : Z }.

Definition set_m_mem (x : mem) (m : machine) : machine :=
  {| m_mem := x; m_library := m_library m; m_pool := m_pool m; m_log := m_log m; m_ports := m_ports m;
     m_map_script := m_map_script m; m_exit_script := m_exit_script m; m_file_size := m_file_size m;
     m_file := m_file m; m_free_at := m_free_at m; m_gop := m_gop m |}.
Definition set_m_library (x : efi_library) (m : machine) : machine :=
  {| m_mem := m_mem m; m_library := x; m_pool := m_pool m; m_log := m_log m; m_ports := m_ports m;
     m_map_script := m_map_script m; m_exit_script := m_exit_script m; m_file_size := m_file_size m;
     m_file := m_file m; m_free_at := m_free_at m; m_gop := m_gop m |}.
Definition set_m_pool (x : Z) (m : machine) : machine :=
  {| m_mem := m_mem m; m_library := m_library m; m_pool := x; m_log := m_log m; m_ports := m_ports m;
     m_map_script := m_map_script m; m_exit_script := m_exit_script m; m_file_size := m_file_size m;
     m_file := m_file m; m_free_at := m_free_at m; m_gop := m_gop m |}.
Definition log_event (e : fw_event) (m : machine) : machine :=
  {| m_mem := m_mem m; m_library := m_library m; m_pool := m_pool m; m_log := m_log m ++ [e]; m_ports := m_ports m;
     m_map_script := m_map_script m; m_exit_script := m_exit_script m; m_file_size := m_file_size m;
     m_file := m_file m; m_free_at := m_free_at m; m_gop := m_gop m |}.
Definition add_port (x : Z * Z) (m : machine) : machine :=
  {| m_mem := m_mem m; m_library := m_library m; m_pool := m_pool m; m_log := m_log m; m_ports := m_ports m ++ [x];
     m_map_script := m_map_script m; m_exit_script := m_exit_script m; m_file_size := m_file_size m;
     m_file := m_file m; m_free_at := m_free_at m; m_gop := m_gop m |}.
Definition next_scripts (maps : list nat) (exits : list EFI_STATUS) (m : machine) : machine :=
  {| m_mem := m_mem m; m_library := m_library m; m_pool := m_pool m; m_log := m_log m; m_ports := m_ports m;
     m_map_script := maps; m_exit_script := exits; m_file_size := m_file_size m;
     m_file := m_file m; m_free_at := m_free_at m; m_gop := m_gop m |}.

(** One call: an answer from the state, an event, a new state. *)
Definition fw_call {A} (answer : machine -> A) (event : A -> fw_event) (effect : A -> machine -> machine) : M machine A :=
  fun m => let a := answer m in Ret a (log_event (event a) (effect a m)).

Definition kernel_file : Z := 2.
Definition descriptor_bytes : Z := 48.

(** Descriptor [i]: 16 pages of conventional memory from 2 MiB on, one after the
    other. *)
Definition store_descriptor (p : Z) (m : mem) (i : nat) : mem :=
  let d := p + descriptor_bytes * Z.of_nat i in
  store64 (store64 (store64 (store64 (store32 m d 7) (d + 8) (0x200000 + 0x10000 * Z.of_nat i)) (d + 16) 0) (d + 24) 16)
    (d + 32) 15.
Definition store_map (p : Z) (n : nat) (m : mem) : mem := foldl (store_descriptor p) m (seq 0 n).

Definition map_answer (Size : Z) (m : machine) : map_reply :=
  let need := descriptor_bytes * Z.of_nat (hd 1%nat (m_map_script m)) in
  {| mr_status := if Size <? need then EFI_BUFFER_TOO_SMALL else EFI_SUCCESS; mr_size := need;
     mr_key := Z.of_nat (length (m_log m)); mr_descriptor_size := descriptor_bytes; mr_descriptor_version := 1 |}.

Definition store_file (p : Z) (f : file_fields) (m : mem) : mem :=
  foldl (fun m x => store_le x.1.1 m (p + x.1.2) x.2) m f.

Definition round_up (n : Z) : Z := (n + 4095) / 4096 * 4096.

(** The loaded image's and the file system's structures. *)
Definition loaded_image : Z := 0x3000.
Definition device_handle : Z := 77.

#[global] Instance machine_mem : ByteMem machine := {
  read_u8 a := gets (fun m => load8 (m_mem m) a);
  write_u8 a v := modify (fun m => set_m_mem (store8 (m_mem m) a v) m) }.

(** The serial port is always ready. *)
#[global] Instance machine_ports : PortIo machine := {
  HalpIoRead8 _ := ret 0x20;
  HalpIoWrite8 port v := modify (add_port (port, v)) }.

#[global] Instance machine_firmware : Firmware machine := {
  efi_get := m_library;
  efi_put := set_m_library;
  fw_OutputString _ t := fw_call (fun _ => EFI_SUCCESS) (fun _ => EvOutput t) (fun _ m => m);
  fw_AllocatePages type _ pages a :=
    fw_call (fun m => if decide (type = AllocateAddress)
                      then if m_free_at m a then (EFI_SUCCESS, a) else (EFI_OUT_OF_RESOURCES, a)
                      else (EFI_SUCCESS, 0x500000))
      (fun r => EvAllocatePages pages r.1 r.2) (fun _ m => m);
  fw_GetMemoryMap size buffer _ _ _ :=
    fw_call (map_answer size) (EvGetMemoryMap buffer)
      (fun r m => next_scripts (tl (m_map_script m)) (m_exit_script m)
         (if mr_status r =? EFI_SUCCESS then set_m_mem (store_map buffer (hd 1%nat (m_map_script m)) (m_mem m)) m else m));
  fw_AllocatePool _ size :=
    fw_call (fun m => (EFI_SUCCESS, m_pool m)) (fun r => EvAllocatePool size r.1 r.2)
      (fun r m => set_m_pool (r.2 + round_up size) m);
  fw_FreePool p := fw_call (fun _ => EFI_SUCCESS) (fun _ => EvFreePool p) (fun _ m => m);
  fw_HandleProtocol h g :=
    fw_call (fun _ => (EFI_SUCCESS, if decide (g = gEfiLoadedImageProtocolGuid) then loaded_image else 88))
      (fun _ => EvHandleProtocol h) (fun _ m => m);
  fw_ExitBootServices h key :=
    fw_call (fun m => hd EFI_SUCCESS (m_exit_script m)) (EvExitBootServices h key)
      (fun _ m => next_scripts (m_map_script m) (tl (m_exit_script m)) m);
  fw_Stall us := fw_call (fun _ => tt) (fun _ => EvStall us) (fun _ m => m);
  fw_LocateProtocol _ :=
    fw_call (fun m => (if m_gop m =? 0 then EFI_UNSUPPORTED else EFI_SUCCESS, m_gop m)) (fun _ => EvLocateProtocol)
      (fun _ m => m);
  fw_OpenVolume _ := fw_call (fun _ => (EFI_SUCCESS, 1)) (fun _ => EvOpenVolume) (fun _ m => m);
  fw_Open _ path _ _ :=
    fw_call (fun _ => if decide (path = str "\kernel\ntxkrnl.kpe") then (EFI_SUCCESS, kernel_file)
                      else (EFI_UNSUPPORTED, 0))
      (fun r => EvOpen path r.1) (fun _ m => m);
  fw_Close f := fw_call (fun _ => EFI_SUCCESS) (fun _ => EvClose f) (fun _ m => m);
  fw_Read f size buffer :=
    fw_call (fun m => (EFI_SUCCESS, Z.min size (m_file_size m))) (fun _ => EvRead f)
      (fun _ m => set_m_mem (store_file buffer (m_file m) (m_mem m)) m);
  fw_GetInfo f _ size buffer :=
    fw_call (fun m => (EFI_SUCCESS, SIZE_OF_EFI_FILE_INFO)) (fun _ => EvGetInfo f)
      (fun _ m => set_m_mem (store64 (m_mem m) (buffer + 8) (m_file_size m)) m) }.

#[global] Instance machine_target : BootTarget machine := {
  call_entry e b := fw_call (fun _ => tt) (fun _ => EvKernel e b) (fun _ m => m) }.

(** ** A machine *)

(** System table at 0x1000, boot services at 0x2000, console at 0x2800. *)
Definition tables : mem :=
  store64 (store64 (store64 (store64 (store64 (store64 (store64 (store64 ∅ (0x1000 + 64) 0x2800) (0x1000 + 96) 0x2000)
    (0x2800 + 8) 1) (0x2000 + 64) 1) (0x2000 + 72) 1) (0x2000 + 248) 1) (loaded_image + 24) device_handle)
    (loaded_image + 64) 0x700000.

(** A kernel of one section, linked at [base]: its section table is at 328 of the
    file, its section at 0x200 of the image, one block that relocates the
    section's first quadword. *)
Definition kernel_fields (base raw : Z) : file_fields :=
  [(2%nat, 0, KPE_DOS_MAGIC); (4%nat, 60, 64); (4%nat, 64, KPE_SIGNATURE); (2%nat, 68, KPE_MACHINE_AUR64);
   (2%nat, 70, 1); (2%nat, 84, 240); (2%nat, 88, KPE_OPT_MAGIC_AUR64); (4%nat, 104, 0x200); (8%nat, 112, base);
   (4%nat, 120, 512); (4%nat, 124, 128); (4%nat, 144, 0x400); (4%nat, 148, 368);
   (2%nat, 156, KPE_SUBSYSTEM_NATIVE_KERNEL); (2%nat, 158, KPE_DLLCHAR_DYNAMIC_BASE); (4%nat, 196, 16);
   (4%nat, 240, 0x210); (4%nat, 244, 12);
   (4%nat, 336, 64); (4%nat, 340, 0x200); (4%nat, 344, raw); (4%nat, 348, 384); (4%nat, 364, 0x60000000);
   (8%nat, 384, base + 0x1122); (4%nat, 400, 0x200); (4%nat, 404, 12); (2%nat, 408, 0xA000);
   (1%nat, 384 + raw - 1, 0x5A)].

Definition boot_machine (maps : list nat) (exits : list EFI_STATUS) (raw : Z) (free_at : Z -> bool) : machine :=
  {| m_mem := tables; m_library := {| ST := 0; BS := 0 |}; m_pool := 0x800000; m_log := []; m_ports := [];
     m_map_script := maps; m_exit_script := exits; m_file_size := 384 + raw; m_file := kernel_fields 0x100000 raw;
     m_free_at := free_at; m_gop := 0 |}.

(** The events of a run but for the console's output. *)
Definition is_output (e : fw_event) : bool := match e with EvOutput _ => true | _ => false end.
Definition run_events (m : machine) : option (list fw_event) :=
  match efi_main 5 0x1000 m with
  | Ret _ m' | Halt m' => Some (List.filter (fun e => negb (is_output e)) (m_log m'))
  | Stuck => None
  end.
