(* ===== verification/BootTrace.v ===== *)
(** * The boot loader and the firmware: the order of the calls

    What the loader asks of the firmware, over any firmware that keeps a log: the
    boot services are left with the key of the memory map read just before, and
    the kernel is entered after that and after nothing else. *)

From S2P Require Import Prelude CString BootProto PhysMem Kpe KpeLoad Efi Hal BootScreen Boot BootMachine.

(** ** Computations and the events they add *)

Section Emits.
Context {W : Type} (log : W -> list fw_event).

(** Whatever [m] returns, or if it halts, it has added events that satisfy [Q]. *)
Definition emits {A} (m : M W A) (Q : option A -> list fw_event -> Prop) : Prop :=
  forall w, match m w with
            | Ret a w' => exists l, log w' = log w ++ l /\ Q (Some a) l
            | Halt w' => exists l, log w' = log w ++ l /\ Q None l
            | Stuck => True
            end.

Definition silent {A} (_ : option A) (l : list fw_event) : Prop := l = [].
(** It returns, and this is the event. *)
Definition one {A} (f : A -> fw_event) (r : option A) (l : list fw_event) : Prop :=
  match r with Some a => l = [f a] | None => False end.

Lemma emits_mono {A} (m : M W A) (Q Q' : option A -> list fw_event -> Prop) :
  emits m Q -> (forall r l, Q r l -> Q' r l) -> emits m Q'.
Proof. intros E H w. specialize (E w). destruct (m w); naive_solver. Qed.

Lemma emits_bind {A B} (m : M W A) (k : A -> M W B) Q1 (Q2 : option B -> list fw_event -> Prop) :
  emits m Q1 -> (forall a l1, Q1 (Some a) l1 -> emits (k a) (fun r l2 => Q2 r (l1 ++ l2))) ->
  (forall l, Q1 None l -> Q2 None l) -> emits (bind m k) Q2.
Proof.
  intros E1 E2 E3 w. specialize (E1 w). unfold bind. destruct (m w) as [a w1|w1|]; [|naive_solver|done].
  destruct E1 as (l1 & L1 & H1). specialize (E2 a l1 H1 w1). destruct (k a w1) as [b w2|w2|]; [| |done];
    (destruct E2 as (l2 & L2 & H2); exists (l1 ++ l2); rewrite L2, L1, app_assoc; done).
Qed.

Lemma emits_ret {A} (a : A) (Q : option A -> list fw_event -> Prop) : Q (Some a) [] -> emits (ret a) Q.
Proof. intros H w. exists []. by rewrite app_nil_r. Qed.

Lemma emits_gets {A} (f : W -> A) : emits (gets f) silent.
Proof. intros w. exists []. by rewrite app_nil_r. Qed.

Lemma emits_stuck {A} (Q : option A -> list fw_event -> Prop) : emits stuck Q.
Proof. by intros w. Qed.

Lemma emits_deref {A} (o : option A) : emits (deref o) silent.
Proof. destruct o; [by apply emits_ret|apply emits_stuck]. Qed.

(** Every event of the computation satisfies [P]. *)
Definition all_events {A} (P : fw_event -> Prop) (m : M W A) : Prop := emits m (fun _ l => Forall P l).

Lemma all_bind {A B} P (m : M W A) (k : A -> M W B) :
  all_events P m -> (forall a, all_events P (k a)) -> all_events P (bind m k).
Proof.
  intros E1 E2. eapply emits_bind; [exact E1| |done]. intros a l1 H1. eapply emits_mono; [apply E2|].
  intros r l H2. by apply Forall_app.
Qed.
Lemma all_ret {A} P (a : A) : all_events P (ret a).
Proof. by apply emits_ret, Forall_nil_2. Qed.
Lemma all_silent {A} P (m : M W A) : emits m silent -> all_events P m.
Proof. intros E. eapply emits_mono; [exact E|]. intros r l Hl. unfold silent in Hl. subst l. apply Forall_nil_2. Qed.
Lemma all_one {A} (P : fw_event -> Prop) (m : M W A) f : emits m (one f) -> (forall a, P (f a)) -> all_events P m.
Proof.
  intros E H. eapply emits_mono; [exact E|]. intros [a|] l; cbn [one]; [|by intros []]. intros ->.
  by apply Forall_singleton.
Qed.
Lemma all_mono {A} (P P' : fw_event -> Prop) (m : M W A) : all_events P m -> (forall e, P e -> P' e) -> all_events P' m.
Proof. intros E H. eapply emits_mono; [exact E|]. intros r l F. eapply Forall_impl; [exact F|exact H]. Qed.
End Emits.

(** ** A firmware that keeps a log

    Memory and ports are not logged; every call returns and is. *)
Class LoggedFirmware (W : Type) `{ByteMem W, PortIo W, Firmware W, BootTarget W} (log : W -> list fw_event) := {
  log_read a : emits log (read_u8 a) silent;
  log_write a v : emits log (write_u8 a v) silent;
  log_in p : emits log (HalpIoRead8 p) silent;
  log_out p v : emits log (HalpIoWrite8 p v) silent;
  log_put l : emits log (modify (efi_put l)) silent;
  log_OutputString c t : emits log (fw_OutputString c t) (one (fun _ => EvOutput t));
  log_AllocatePages t k n a : emits log (fw_AllocatePages t k n a) (one (fun r => EvAllocatePages n r.1 r.2));
  log_GetMemoryMap n b k d v : emits log (fw_GetMemoryMap n b k d v) (one (EvGetMemoryMap b));
  log_AllocatePool t n : emits log (fw_AllocatePool t n) (one (fun r => EvAllocatePool n r.1 r.2));
  log_FreePool p : emits log (fw_FreePool p) (one (fun _ => EvFreePool p));
  log_HandleProtocol h g : emits log (fw_HandleProtocol h g) (one (fun _ => EvHandleProtocol h));
  log_ExitBootServices h k : emits log (fw_ExitBootServices h k) (one (EvExitBootServices h k));
  log_Stall n : emits log (fw_Stall n) (one (fun _ => EvStall n));
  log_LocateProtocol g : emits log (fw_LocateProtocol g) (one (fun _ => EvLocateProtocol));
  log_OpenVolume p : emits log (fw_OpenVolume p) (one (fun _ => EvOpenVolume));
  log_Open f p o a : emits log (fw_Open f p o a) (one (fun r => EvOpen p r.1));
  log_Close f : emits log (fw_Close f) (one (fun _ => EvClose f));
  log_Read f n b : emits log (fw_Read f n b) (one (fun _ => EvRead f));
  log_GetInfo f g n b : emits log (fw_GetInfo f g n b) (one (fun _ => EvGetInfo f));
  (* the kernel need not return *)
  log_entry e b : emits log (call_entry e b) (fun _ l => l = [EvKernel e b]) }.

(** Which events leave the boot services, or the loader. *)
Definition is_exit (e : fw_event) : bool := match e with EvExitBootServices _ _ _ => true | _ => false end.
Definition is_kernel (e : fw_event) : bool := match e with EvKernel _ _ => true | _ => false end.
Definition is_map (e : fw_event) : bool := match e with EvGetMemoryMap _ _ => true | _ => false end.
(** The calls of the loader while the boot services are there. *)
Definition loading (e : fw_event) : Prop := is_exit e = false /\ is_kernel e = false.

(** Pool memory, no more. *)
Definition pool_only (e : fw_event) : Prop := is_exit e = false /\ is_kernel e = false /\ is_map e = false.
(** How many of the events satisfy [f]. *)
Definition count (f : fw_event -> bool) (l : list fw_event) : nat := length (List.filter f l).

(** Whenever the loader asks to leave the boot services, it has read the memory
    map just before, successfully, and shows that map's key. *)
Definition keyed (l : list fw_event) : Prop := forall l1 h k st l2, l = l1 ++ EvExitBootServices h k st :: l2 ->
  exists l0 b r, l1 = l0 ++ [EvGetMemoryMap b r] /\ mr_key r = k /\ EFI_ERROR (mr_status r) = false.

Lemma count_app f l1 l2 : count f (l1 ++ l2) = (count f l1 + count f l2)%nat.
Proof. unfold count. by rewrite List.filter_app, length_app. Qed.

Lemma count_none f l : Forall (fun e => f e = false) l -> count f l = 0%nat.
Proof. induction 1 as [|e l E F IH]; [done|]. unfold count in *. cbn [List.filter]. by rewrite E. Qed.

Lemma keyed_quiet l : Forall (fun e => is_exit e = false) l -> keyed l.
Proof. intros F l1 h k st l2 ->. apply Forall_app in F as [_ F]. apply Forall_cons in F as [F _]. done. Qed.

Lemma keyed_app l1 l2 : keyed l1 -> keyed l2 -> keyed (l1 ++ l2).
Proof.
  intros K1 K2 a h k st b E. apply app_eq_inv in E as [(c & -> & E)|(c & -> & E)].
  - destruct c as [|e c].
    + destruct (K2 [] h k st b) as (l0 & ? & ? & E0 & _); [done|]. by destruct l0.
    + cbn [app] in E. injection E as <- ->. by apply (K1 a h k st c).
  - destruct (K2 c h k st b E) as (l0 & p & r & -> & Hk). exists (l1 ++ l0), p, r. by rewrite app_assoc.
Qed.

Lemma keyed_pair b r h st : EFI_ERROR (mr_status r) = false ->
  keyed [EvGetMemoryMap b r; EvExitBootServices h (mr_key r) st].
Proof.
  intros E l1 h' k' st' l2 Eq. destruct l1 as [|e [|e' l1]]; [done| |].
  - injection Eq as <- _ <- _ _. by exists [], b, r.
  - injection Eq as <- <- Eq. by destruct l1.
Qed.

Create HintDb boot_trace discriminated.
#[export] Hint Resolve all_ret : boot_trace.

Section Trace.
Context {W : Type} {log : W -> list fw_event} `{L : LoggedFirmware W log}.

(** Calls that are not among the last two. *)
Ltac call_tac := first
  [ apply all_silent; first [apply log_read | apply log_write | apply log_in | apply log_out | apply log_put
                             | apply emits_gets | apply emits_deref | apply emits_stuck]
  | eapply all_one; [apply log_OutputString|done] | eapply all_one; [apply log_AllocatePages|done]
  | eapply all_one; [apply log_GetMemoryMap|done] | eapply all_one; [apply log_AllocatePool|done]
  | eapply all_one; [apply log_FreePool|done] | eapply all_one; [apply log_HandleProtocol|done]
  | eapply all_one; [apply log_Stall|done] | eapply all_one; [apply log_LocateProtocol|done]
  | eapply all_one; [apply log_OpenVolume|done] | eapply all_one; [apply log_Open|done]
  | eapply all_one; [apply log_Close|done] | eapply all_one; [apply log_Read|done]
  | eapply all_one; [apply log_GetInfo|done] ].

(** Through the structure of a computation, to the calls in it. *)
Ltac trace :=
  repeat first
    [ solve [auto with boot_trace nocore] | call_tac
    | apply all_bind; [|intros ?] | apply all_ret
    | progress cbn beta iota zeta
    | match goal with |- all_events _ _ (match ?x with _ => _ end) => destruct x end ].

(** Accesses to memory add no event at all. *)
Lemma read_le_trace P n : forall a, all_events log P (read_le n a).
Proof using L. induction n; intros a; cbn [read_le]; trace. Qed.
Lemma write_le_trace P n : forall a v, all_events log P (write_le n a v).
Proof using L. induction n; intros a v; cbn [write_le]; trace. Qed.
#[local] Hint Resolve read_le_trace write_le_trace : boot_trace.
Lemma read_u16_trace P a : all_events log P (read_u16 a). Proof using L. apply read_le_trace. Qed.
Lemma read_u32_trace P a : all_events log P (read_u32 a). Proof using L. apply read_le_trace. Qed.
Lemma read_u64_trace P a : all_events log P (read_u64 a). Proof using L. apply read_le_trace. Qed.
Lemma write_u64_trace P a v : all_events log P (write_u64 a v). Proof using L. apply write_le_trace. Qed.
#[local] Hint Resolve read_u16_trace read_u32_trace read_u64_trace write_u64_trace : boot_trace.

(** ** The console *)

Lemma boot_services_trace : all_events log loading boot_services.
Proof using L. unfold boot_services. trace. Qed.
Lemma EfiOutput_trace t : all_events log loading (EfiOutput t).
Proof using L. unfold EfiOutput, SystemTable_ConOut, ConOut_OutputString. trace. Qed.
#[local] Hint Resolve boot_services_trace EfiOutput_trace : boot_trace.
Lemma print_chars_trace n : forall f args w, (length f <= n)%nat -> all_events log loading (print_chars f args w).
Proof using L.
  induction n as [|n IH]; intros [|c f] args w Ln; cbn [length] in Ln; cbn [print_chars]; try lia; try apply all_ret.
  destruct (c =? 0); [apply all_ret|]. destruct f as [|d f].
  { trace. }
  assert (E : all_events log loading (EfiOutput (Some [c]) ;;; print_chars (d :: f) args (u64 (w + 1)))).
  { apply all_bind; [apply EfiOutput_trace|]. intros _. apply IH. cbn [length] in *. lia. }
  cbn [length] in Ln. destruct (_ && _); [|destruct (_ && _); [|exact E]];
    (destruct args; [apply all_silent, emits_stuck|apply all_bind; [apply EfiOutput_trace || unfold EfiWriteUnsigned; trace|]];
     intros _; apply IH; lia).
Qed.
Lemma Print_trace f args : all_events log loading (Print f args).
Proof using L. unfold Print. destruct f; [by eapply print_chars_trace|apply all_ret]. Qed.
#[local] Hint Resolve Print_trace : boot_trace.
Lemma BOOT_VERBOSE_PRINT_trace f args : all_events log loading (BOOT_VERBOSE_PRINT f args).
Proof using L. unfold BOOT_VERBOSE_PRINT. trace. Qed.
Lemma AllocatePool_trace n : all_events log loading (AllocatePool n).
Proof using L. unfold AllocatePool, BootServices_AllocatePool. trace. Qed.
Lemma FreePool_trace p : all_events log loading (FreePool p).
Proof using L. unfold FreePool, BootServices_FreePool. trace. Qed.
#[local] Hint Resolve BOOT_VERBOSE_PRINT_trace AllocatePool_trace FreePool_trace : boot_trace.

Lemma boot_serial_wait_trace P n c : all_events log P (boot_serial_wait n c).
Proof using L. induction n; cbn [boot_serial_wait]; unfold BootIoIn8, BootIoOut8; trace. Qed.
Lemma BootSerialWriteChar_trace P c : all_events log P (BootSerialWriteChar c).
Proof using L. apply boot_serial_wait_trace. Qed.
#[local] Hint Resolve BootSerialWriteChar_trace : boot_trace.
Lemma boot_serial_chars_trace P t : all_events log P (boot_serial_chars t).
Proof using L. induction t; cbn [boot_serial_chars]; trace. Qed.
#[local] Hint Resolve boot_serial_chars_trace : boot_trace.
Lemma BootSerialWriteAscii_trace P t : all_events log P (BootSerialWriteAscii t).
Proof using L. unfold BootSerialWriteAscii. trace. Qed.
#[local] Hint Resolve BootSerialWriteAscii_trace : boot_trace.

Lemma hex_digits_trace P n : forall v k, all_events log P (boot_hex_digits n v k).
Proof using L. induction n; intros v k; cbn [boot_hex_digits]; trace. Qed.
Lemma BootSerialWriteHex64_trace P v : all_events log P (BootSerialWriteHex64 v).
Proof using L. unfold BootSerialWriteHex64. apply all_bind; [apply BootSerialWriteAscii_trace|intros _; apply hex_digits_trace]. Qed.
Lemma dump_bytes_trace P n : forall d i, all_events log P (dump_bytes n d i).
Proof using L. induction n; intros d i; cbn [dump_bytes]; unfold BootSerialWriteHex8; trace. Qed.
#[local] Hint Resolve hex_digits_trace BootSerialWriteHex64_trace dump_bytes_trace : boot_trace.
Lemma BootSerialInit_trace : all_events log loading BootSerialInit.
Proof using L. unfold BootSerialInit, BootIoOut8. trace. Qed.
Lemma BootSerialDumpBytes_trace P p d n : all_events log P (BootSerialDumpBytes p d n).
Proof using L. unfold BootSerialDumpBytes. trace. Qed.
#[local] Hint Resolve BootSerialInit_trace BootSerialDumpBytes_trace : boot_trace.

(** ** The splash screen *)

Lemma BootSleepUs_trace n : all_events log loading (BootSleepUs n).
Proof using L. unfold BootSleepUs, BootServices_Stall. trace. Qed.
Lemma gop_missing_trace s g : all_events log loading (gop_missing s g).
Proof using L. unfold gop_missing, Gop_Mode, Mode_Info. trace. Qed.
#[local] Hint Resolve BootSleepUs_trace gop_missing_trace : boot_trace.
Lemma BootLocateGop_trace : all_events log loading BootLocateGop.
Proof using L. unfold BootLocateGop. trace. Qed.
Lemma gop_info_trace {A} (f : Z -> M W A) g : (forall p, all_events log loading (f p)) -> all_events log loading (gop_info f g).
Proof using L. intros E. unfold gop_info, Gop_Mode, Mode_Info. trace. Qed.
Lemma gop_mode_trace {A} (f : Z -> M W A) g : (forall p, all_events log loading (f p)) -> all_events log loading (gop_mode f g).
Proof using L. intros E. unfold gop_mode, Gop_Mode. trace. Qed.
#[local] Hint Unfold Info_HorizontalResolution Info_VerticalResolution Info_PixelFormat Info_PixelsPerScanLine
  Mode_FrameBufferBase Mode_FrameBufferSize : boot_trace.
#[local] Hint Resolve BootLocateGop_trace gop_info_trace gop_mode_trace : boot_trace.
Lemma width_trace p : all_events log loading (Info_HorizontalResolution p). Proof using L. apply read_le_trace. Qed.
Lemma height_trace p : all_events log loading (Info_VerticalResolution p). Proof using L. apply read_le_trace. Qed.
Lemma format_trace p : all_events log loading (Info_PixelFormat p). Proof using L. apply read_le_trace. Qed.
Lemma pitch_trace p : all_events log loading (Info_PixelsPerScanLine p). Proof using L. apply read_le_trace. Qed.
Lemma fb_base_trace p : all_events log loading (Mode_FrameBufferBase p). Proof using L. apply read_le_trace. Qed.
Lemma fb_size_trace p : all_events log loading (Mode_FrameBufferSize p). Proof using L. apply read_le_trace. Qed.
#[local] Hint Resolve width_trace height_trace format_trace pitch_trace fb_base_trace fb_size_trace : boot_trace.
Lemma BootMakePixel_trace g r v b : all_events log loading (BootMakePixel g r v b).
Proof using L. unfold BootMakePixel. trace. Qed.
Lemma BootDrawPixel_trace g x y c : all_events log loading (BootDrawPixel g x y c).
Proof using L. unfold BootDrawPixel. trace. Qed.
#[local] Hint Resolve BootMakePixel_trace BootDrawPixel_trace : boot_trace.
Lemma rect_row_trace n : forall g x y k c, all_events log loading (rect_row n g x y k c).
Proof using L. induction n; intros; cbn [rect_row]; trace. Qed.
#[local] Hint Resolve rect_row_trace : boot_trace.
Lemma rect_rows_trace n : forall g x y k w c, all_events log loading (rect_rows n g x y k w c).
Proof using L. induction n; intros; cbn [rect_rows]; trace. Qed.
Lemma BootFillRect_trace g x y w h c : all_events log loading (BootFillRect g x y w h c).
Proof using L. apply rect_rows_trace. Qed.
#[local] Hint Resolve BootFillRect_trace : boot_trace.
Lemma text_cols_trace n : forall g x y k r c b s p, all_events log loading (text_cols n g x y k r c b s p).
Proof using L. induction n; intros; cbn [text_cols]; trace. Qed.
#[local] Hint Resolve text_cols_trace : boot_trace.
Lemma text_rows_trace n : forall g x y k r c s p, all_events log loading (text_rows n g x y k r c s p).
Proof using L. induction n; intros; cbn [text_rows]; trace. Qed.
#[local] Hint Resolve text_rows_trace : boot_trace.
Lemma text_chars_trace t : forall g x y k n s p, all_events log loading (text_chars g x y t k n s p).
Proof using L. induction t; intros; cbn [text_chars]; trace. Qed.
Lemma BootDrawTextChars_trace g x y t n s p : all_events log loading (BootDrawTextChars g x y t n s p).
Proof using L. apply text_chars_trace. Qed.
Lemma BootDrawText_trace g x y t s p : all_events log loading (BootDrawText g x y t s p).
Proof using L. apply text_chars_trace. Qed.
#[local] Hint Resolve BootDrawTextChars_trace BootDrawText_trace : boot_trace.
Lemma clear_title_trace g t c : all_events log loading (clear_title g t c).
Proof using L. apply BootFillRect_trace. Qed.
#[local] Hint Resolve clear_title_trace : boot_trace.
Lemma type_title_trace n : forall g t k a b c, all_events log loading (type_title n g t k a b c).
Proof using L. induction n; intros; cbn [type_title]; trace. Qed.
Lemma fade_title_trace l : forall g t a b, all_events log loading (fade_title l g t a b).
Proof using L. induction l; intros; cbn [fade_title]; trace. Qed.
#[local] Hint Resolve type_title_trace fade_title_trace : boot_trace.
Lemma BootShowSplash_trace : all_events log loading BootShowSplash.
Proof using L. unfold BootShowSplash, draw_splash, announce_verbose. trace. Qed.
Lemma BootClearFramebufferEarly_trace : all_events log loading BootClearFramebufferEarly.
Proof using L. unfold BootClearFramebufferEarly. trace. Qed.
#[local] Hint Resolve BootShowSplash_trace BootClearFramebufferEarly_trace : boot_trace.

(** ** Files and the image *)

Lemma OpenRootVolume_trace h : all_events log loading (OpenRootVolume h).
Proof using L. unfold OpenRootVolume, LoadedImage_DeviceHandle. trace. Qed.
Lemma get_file_info_trace f : all_events log loading (get_file_info f).
Proof using L. unfold get_file_info. trace. Qed.
#[local] Hint Resolve OpenRootVolume_trace get_file_info_trace : boot_trace.
Lemma ReadWholeFile_trace r p : all_events log loading (ReadWholeFile r p).
Proof using L. unfold ReadWholeFile, FileInfo_FileSize. trace. Qed.
#[local] Hint Resolve ReadWholeFile_trace : boot_trace.

Lemma set_bytes_trace n : forall d i v, all_events log loading (set_bytes n d i v).
Proof using L. induction n; intros; cbn [set_bytes]; trace. Qed.
Lemma copy_bytes_trace n : forall d s i, all_events log loading (copy_bytes n d s i).
Proof using L. induction n; intros; cbn [copy_bytes]; trace. Qed.
Lemma SetMem_trace b n v : all_events log loading (SetMem b n v). Proof using L. apply set_bytes_trace. Qed.
Lemma CopyMem_trace d s n : all_events log loading (CopyMem d s n). Proof using L. apply copy_bytes_trace. Qed.
#[local] Hint Resolve SetMem_trace CopyMem_trace : boot_trace.

Lemma read_section_trace t k : all_events log loading (read_section t k).
Proof using L. unfold read_section. trace. Qed.
Lemma read_dos_trace p : all_events log loading (read_dos p).
Proof using L. unfold read_dos. trace. Qed.
Lemma read_directories_trace n : forall p, all_events log loading (read_directories n p).
Proof using L. induction n; intros; cbn [read_directories]; unfold read_directory; trace. Qed.
#[local] Hint Resolve read_section_trace read_dos_trace read_directories_trace : boot_trace.
Lemma read_nt_trace p : all_events log loading (read_nt p).
Proof using L. unfold read_nt, read_file_header, read_optional. trace. Qed.
Lemma validate_sections_trace n : forall t k s o, all_events log loading (validate_sections n t k s o).
Proof using L. induction n; intros; cbn [validate_sections]; trace. Qed.
#[local] Hint Resolve read_nt_trace validate_sections_trace : boot_trace.
Lemma ValidateKpeImage_trace b n : all_events log loading (ValidateKpeImage b n).
Proof using L. unfold ValidateKpeImage. trace. Qed.
#[local] Hint Resolve ValidateKpeImage_trace : boot_trace.
Lemma boot_reloc_entries_trace n : forall a b e i s d, all_events log loading (boot_reloc_entries n a b e i s d).
Proof using L. induction n; intros; cbn [boot_reloc_entries]; trace. Qed.
#[local] Hint Resolve boot_reloc_entries_trace : boot_trace.
Lemma boot_reloc_blocks_trace n : forall a c e s d, all_events log loading (boot_reloc_blocks n a c e s d).
Proof using L. induction n; intros; cbn [boot_reloc_blocks]; trace. Qed.
#[local] Hint Resolve boot_reloc_blocks_trace : boot_trace.
Lemma ApplyKpeBaseRelocations_trace b nt : all_events log loading (ApplyKpeBaseRelocations b nt).
Proof using L. unfold ApplyKpeBaseRelocations. trace. Qed.
Lemma load_sections_trace n : forall a b t i, all_events log loading (load_sections n a b t i).
Proof using L. induction n; intros; cbn [load_sections]; trace. Qed.
#[local] Hint Resolve ApplyKpeBaseRelocations_trace load_sections_trace : boot_trace.
Lemma allocate_image_trace nt : all_events log loading (allocate_image nt).
Proof using L. unfold allocate_image. trace. Qed.
Lemma copy_kernel_image_trace a b n nt t : all_events log loading (copy_kernel_image a b n nt t).
Proof using L. unfold copy_kernel_image. trace. Qed.
#[local] Hint Resolve allocate_image_trace copy_kernel_image_trace : boot_trace.
Lemma LoadKpeImage_trace b n : all_events log loading (LoadKpeImage b n).
Proof using L. unfold LoadKpeImage. trace. Qed.
#[local] Hint Resolve LoadKpeImage_trace : boot_trace.

(** ** The memory map *)

Lemma descriptors_in_trace n d : all_events log loading (descriptors_in n d).
Proof using L. unfold descriptors_in. trace. Qed.
#[local] Hint Resolve descriptors_in_trace : boot_trace.
Lemma SnapshotMemoryMap_trace : all_events log loading SnapshotMemoryMap.
Proof using L. unfold SnapshotMemoryMap, get_memory_map. trace. Qed.
Lemma convert_loop_trace P n : forall s o c, all_events log P (convert_loop n s o c).
Proof using L. induction n; intros; cbn [convert_loop]; unfold read_memory_descriptor, write_range; trace. Qed.
#[local] Hint Resolve convert_loop_trace : boot_trace.
Lemma ConvertMemoryMap_trace P s : all_events log P (ConvertMemoryMap s).
Proof using L. unfold ConvertMemoryMap. trace. Qed.
#[local] Hint Resolve SnapshotMemoryMap_trace ConvertMemoryMap_trace : boot_trace.
Lemma CaptureVideoInfo_trace : all_events log loading CaptureVideoInfo.
Proof using L. unfold CaptureVideoInfo. trace. Qed.
#[local] Hint Resolve CaptureVideoInfo_trace : boot_trace.
Lemma PopulateBootInfo_trace a b c d e f s v : all_events log loading (PopulateBootInfo a b c d e f s v).
Proof using L. unfold PopulateBootInfo. trace. Qed.
#[local] Hint Resolve PopulateBootInfo_trace : boot_trace.

(** ** The end of the boot services *)

Lemma pool_trace n : all_events log pool_only (AllocatePool n).
Proof using L. unfold AllocatePool, BootServices_AllocatePool. trace. Qed.
Lemma free_trace p : all_events log pool_only (FreePool p).
Proof using L. unfold FreePool, BootServices_FreePool. trace. Qed.
#[local] Hint Resolve pool_trace free_trace : boot_trace.

(** Growing succeeds, or the status says that the pool is exhausted. *)
Definition grown (r : option (EFI_STATUS * BOOT_MEMORY_SNAPSHOT)) (l : list fw_event) : Prop :=
  Forall pool_only l /\ forall st s, r = Some (st, s) -> st = EFI_SUCCESS \/ st = EFI_OUT_OF_RESOURCES.

Lemma grow_buffers_trace s : emits log (grow_buffers s) grown.
Proof using L.
  unfold grow_buffers.
  assert (B : forall {A} (m : M W A) (k : A -> M W (EFI_STATUS * BOOT_MEMORY_SNAPSHOT)),
    all_events log pool_only m -> (forall a, emits log (k a) grown) -> emits log (bind m k) grown).
  { intros A m k Em Ek. eapply emits_bind; [exact Em| |by intros l F].
    intros a l1 F1. eapply emits_mono; [apply Ek|]. intros r l2 [F2 G]. split; [by apply Forall_app|done]. }
  assert (R : forall st s', st = EFI_SUCCESS \/ st = EFI_OUT_OF_RESOURCES ->
    emits log (ret (st, s')) grown).
  { intros st s' D. apply emits_ret. split; [done|]. intros st' s'' [= <- _]. done. }
  cbv zeta. apply B; [apply pool_trace|]. intros a. destruct (a =? 0); [apply R; by right|].
  apply B; [unfold descriptors_in; trace|]. intros c. apply B; [apply pool_trace|]. intros b. destruct (b =? 0).
  - apply B; [apply free_trace|]. intros _. apply R. by right.
  - apply B; [trace|]. intros _. apply B; [trace|]. intros _. apply R. by left.
Qed.

(** The boot services were left with the last two calls, and [BootInfo] changed
    in the number of its ranges alone. *)
Definition left_with (h : EFI_HANDLE) (b b' : BOOT_INFO) (s' : BOOT_MEMORY_SNAPSHOT) (l : list fw_event) : Prop :=
  exists l0 p r st, l = l0 ++ [EvGetMemoryMap p r; EvExitBootServices h (mr_key r) st] /\ EFI_ERROR st = false /\
    p = MapBuffer s' /\ mr_key r = MapKey s' /\ b' = set_entry_count (u32 (RangeCount s')) b.

Lemma ConvertMemoryMap_silent s : emits log (ConvertMemoryMap s)
  (fun r l => l = [] /\ forall s', r = Some s' -> exists n, s' = set_range_count n s).
Proof using L.
  unfold ConvertMemoryMap.
  assert (N : forall l : list fw_event, Forall (fun _ => False) l -> l = [])
    by (intros [|e l] F; [done|by apply Forall_cons in F as [[] _]]).
  eapply emits_bind; [apply (convert_loop_trace (fun _ => False))| |].
  - intros n l F. rewrite (N l F). apply emits_ret. split; [done|]. intros s' [= <-]. by exists n.
  - intros l F. by rewrite (N l F).
Qed.

Definition exit_spec (n : nat) (h : EFI_HANDLE) (b : BOOT_INFO)
  (r : option (EFI_STATUS * (BOOT_INFO * BOOT_MEMORY_SNAPSHOT))) (l : list fw_event) : Prop :=
  keyed l /\ (count is_exit l <= n)%nat /\ (count is_map l <= n)%nat /\ Forall (fun e => is_kernel e = false) l /\
  forall st b' s', r = Some (st, (b', s')) -> EFI_ERROR st = false -> st = EFI_SUCCESS /\ left_with h b b' s' l.

Lemma exit_spec_quiet n h b r l : Forall (fun e => is_exit e = false) l -> (count is_map l <= n)%nat ->
  Forall (fun e => is_kernel e = false) l -> (forall st x, r = Some (st, x) -> EFI_ERROR st = true) ->
  exit_spec n h b r l.
Proof using.
  intros E Mp K R. split; [by apply keyed_quiet|]. split; [rewrite count_none by done; lia|]. split; [done|]. split; [done|].
  intros st b' s' Er En. rewrite (R _ _ Er) in En. done.
Qed.

(** A failed round before the others. *)
Lemma exit_spec_app n h b b1 r l1 l2 : keyed l1 -> (count is_exit l1 <= 1)%nat -> (count is_map l1 <= 1)%nat ->
  Forall (fun e => is_kernel e = false) l1 -> (forall c, set_entry_count c b1 = set_entry_count c b) ->
  exit_spec n h b1 r l2 -> exit_spec (S n) h b r (l1 ++ l2).
Proof using.
  intros K1 C1 M1 N1 Eb (K2 & C2 & M2 & N2 & R). split; [by apply keyed_app|]. rewrite !count_app.
  split; [lia|]. split; [lia|]. split; [by apply Forall_app|]. intros st b' s' Er En.
  destruct (R st b' s' Er En) as [-> (l0 & p & rep & st' & -> & Est & Ep & Ek & Eb')]. split; [done|].
  exists (l1 ++ l0), p, rep, st'. rewrite app_assoc, <- Eb. done.
Qed.

Lemma pool_facts l : Forall pool_only l -> Forall (fun e => is_exit e = false) l /\
  Forall (fun e => is_kernel e = false) l /\ count is_map l = 0%nat.
Proof using.
  intros F. split; [eapply Forall_impl; [exact F|by intros e (? & ? & ?)]|].
  split; [eapply Forall_impl; [exact F|by intros e (? & ? & ?)]|].
  apply count_none. eapply Forall_impl; [exact F|by intros e (? & ? & ?)].
Qed.

Lemma exit_attempts_trace n : forall h b s st0, EFI_ERROR st0 = true ->
  emits log (exit_attempts n h b s st0) (exit_spec n h b).
Proof using L.
  induction n as [|n IH]; intros h b s st0 E0; cbn [exit_attempts].
  { apply emits_ret, exit_spec_quiet; [done|done|done|]. intros st x [= <- _]. done. }
  eapply emits_bind with (Q1 := silent); [|intros bs l1 ->; cbn [app]|intros l ->; apply exit_spec_quiet; [done|cbn; lia|done|done]].
  { unfold boot_services. eapply emits_bind; [apply emits_gets| |by intros l ->]. intros x l1 ->. cbn [app].
    destruct (_ =? 0); [apply emits_stuck|by apply emits_ret]. }
  unfold get_memory_map. eapply emits_bind with (Q1 := fun r l => exists p rep, p = MapBuffer s /\
    r = Some (mr_status rep, set_reply rep s) /\ l = [EvGetMemoryMap p rep]); [| |by intros l (p & rep & _ & Er & _)].
  { eapply emits_bind; [apply log_GetMemoryMap| |done]. intros rep l1 ->. cbn [app]. apply emits_ret. eauto. }
  intros [st s1] l1 (p & rep & -> & [= -> ->] & ->).
  destruct (Z.eqb_spec (mr_status rep) EFI_BUFFER_TOO_SMALL) as [Es|_].
  - eapply emits_bind; [apply grow_buffers_trace| |].
    2: { intros l [F _]. destruct (pool_facts _ F) as (F1 & F2 & F3).
         apply exit_spec_quiet; [by constructor|rewrite count_app, F3; cbn; lia|by constructor|done]. }
    intros [g s2] l2 [F G]. destruct (pool_facts _ F) as (F1 & F2 & F3). destruct (negb (g =? EFI_SUCCESS)) eqn:Eg.
    + apply emits_ret. apply exit_spec_quiet; rewrite ?app_nil_r; [by constructor| |by constructor|].
      * rewrite ?count_app, F3. cbn. lia.
      * intros st x [= <- _]. destruct (G g s2 eq_refl) as [->| ->]; done.
    + eapply emits_mono; [apply IH; by rewrite Es|]. intros r l3 Sp. rewrite app_assoc.
      apply (exit_spec_app n h b b); [| | |by constructor|done|done].
      * apply keyed_quiet. by constructor.
      * rewrite count_none by (by constructor). lia.
      * rewrite ?count_app, F3. cbn. lia.
  - destruct (EFI_ERROR (mr_status rep)) eqn:Em.
    { apply emits_ret. apply exit_spec_quiet; rewrite ?app_nil_r; [by repeat constructor|cbn; lia|by repeat constructor|].
      intros st x [= <- _]. done. }
    eapply emits_bind; [apply ConvertMemoryMap_silent| |].
    2: { intros l [-> _]. apply exit_spec_quiet; [by repeat constructor|cbn; lia|by repeat constructor|done]. }
    intros s2 l [-> Es2]. destruct (Es2 s2 eq_refl) as [c ->]. cbn [app].
    eapply emits_bind; [apply log_ExitBootServices| |by intros l []].
    intros st l1 ->. cbn [app]. pose proof (keyed_pair (MapBuffer s) rep h st Em) as K.
    destruct (EFI_ERROR st) eqn:Et; cbn [negb].
    + destruct (negb (st =? EFI_INVALID_PARAMETER)).
      { apply emits_ret. split; [exact K|]. split; [cbn; lia|]. split; [cbn; lia|]. split; [by repeat constructor|].
        intros st' b' s' [= <- _ _] En. congruence. }
      eapply emits_mono; [apply (IH h (set_entry_count (u32 c) b) _ st Et)|]. intros r l3 Sp.
      apply (exit_spec_app n h b (set_entry_count (u32 c) b) r [_; _] l3 K); [cbn; lia|cbn; lia|by repeat constructor|done|exact Sp].
    + apply emits_ret. split; [exact K|]. split; [cbn; lia|]. split; [cbn; lia|]. split; [by repeat constructor|].
      intros st' b' s' [= <- <- <-] _. split; [done|]. exists [], (MapBuffer s), rep, st. done.
Qed.

(** ** The kernel is entered last *)

(** The record is one the kernel accepts: its magic number and version, and an
    entry point inside the image. *)
Record handoff_ok (e : Z) (p : BOOT_INFO_PTR) : Prop := {
  ho_magic : Magic (bi_value p) = BOOTINFO_MAGIC;
  ho_version : Version (bi_value p) = BOOTINFO_VERSION;
  ho_address : bi_address p <> 0;
  ho_entry : e = KernelEntry (bi_value p);
  ho_inside : KernelBase (bi_value p) <= e < u64 (KernelBase (bi_value p) + KernelSize (bi_value p)) }.

(** The kernel was not entered, or with the boot services just left. *)
Definition handed_over (h : EFI_HANDLE) (l : list fw_event) : Prop :=
  keyed l /\ (count is_exit l <= 4)%nat /\
  (Forall (fun e => is_kernel e = false) l \/
   exists l0 p r st e b, l = l0 ++ [EvGetMemoryMap p r; EvExitBootServices h (mr_key r) st; EvKernel e b] /\
     EFI_ERROR st = false /\ handoff_ok e b /\ Forall (fun e => is_kernel e = false) l0).

(** [efi_main] returns an error when the kernel was not entered. *)
Definition boot_spec (h : EFI_HANDLE) (r : option EFI_STATUS) (l : list fw_event) : Prop :=
  handed_over h l /\ forall st, r = Some st -> EFI_ERROR st = true /\ Forall (fun e => is_kernel e = false) l.

Lemma loading_facts l : Forall loading l -> keyed l /\ count is_exit l = 0%nat /\ Forall (fun e => is_kernel e = false) l.
Proof using.
  intros F. assert (E : Forall (fun e => is_exit e = false) l) by (eapply Forall_impl; [exact F|by intros e []]).
  split; [by apply keyed_quiet|]. split; [by apply count_none|]. eapply Forall_impl; [exact F|by intros e []].
Qed.

Lemma loading_first h r l1 l2 : Forall loading l1 -> boot_spec h r l2 -> boot_spec h r (l1 ++ l2).
Proof using.
  intros F [(K & C & D) R]. destruct (loading_facts l1 F) as (K1 & C1 & N1). split; [split; [by apply keyed_app|]; split|].
  - rewrite count_app. lia.
  - destruct D as [D|(l0 & p & rep & st & e & b & -> & Hs & Ho & N)]; [left; by apply Forall_app|]. right.
    exists (l1 ++ l0), p, rep, st, e, b. rewrite app_assoc. split_and!; [done|done|done|by apply Forall_app].
  - intros st Hr. destruct (R st Hr). split; [done|by apply Forall_app].
Qed.

Lemma boot_bind {A} h (m : M W A) (k : A -> M W EFI_STATUS) :
  all_events log loading m -> (forall a, emits log (k a) (boot_spec h)) -> emits log (bind m k) (boot_spec h).
Proof using.
  intros E1 E2. eapply emits_bind; [exact E1| |].
  - intros a l1 F. eapply emits_mono; [apply E2|]. intros r l2 B. by apply loading_first.
  - intros l F. destruct (loading_facts l F) as (K & C & N). split; [split; [done|]; split; [lia|by left]|done].
Qed.

Lemma boot_ret h st : EFI_ERROR st = true -> emits log (ret st) (boot_spec h).
Proof using.
  intros E. apply emits_ret. split; [split; [by apply keyed_quiet|]; split; [cbn; lia|by left]|].
  by intros st' [= <-].
Qed.

Lemma fail_with_boot h f args st : EFI_ERROR st = true -> emits log (fail_with f args st) (boot_spec h).
Proof using L. intros E. unfold fail_with. apply boot_bind; [apply Print_trace|]. intros _. by apply boot_ret. Qed.

(** After the boot services are gone, the kernel is all there is. *)
Definition entered (b : BOOT_INFO_PTR) (r : option EFI_STATUS) (l : list fw_event) : Prop :=
  r = None /\ (l = [] \/ l = [EvKernel (KernelEntry (bi_value b)) b]).

Lemma no_events {A} (m : M W A) : all_events log (fun _ => False) m -> emits log m (fun _ l => l = []).
Proof using.
  intros E. eapply emits_mono; [exact E|]. intros r [|e l] F; [done|]. by apply Forall_cons in F as [[] _].
Qed.

Lemma start_kernel_trace b : emits log (start_kernel b) (entered b).
Proof using L.
  assert (B : forall {A} (m : M W A) (k : A -> M W EFI_STATUS),
    all_events log (fun _ => False) m -> (forall a, emits log (k a) (entered b)) -> emits log (bind m k) (entered b)).
  { intros A m k E Ek. eapply emits_bind; [apply no_events, E| |].
    - intros a l1 ->. apply Ek. - intros l ->. split; [done|by left]. }
  unfold start_kernel. cbv zeta.
  do 6 (apply B; [apply BootSerialWriteAscii_trace || apply BootSerialWriteHex64_trace|intros _]).
  apply B; [apply BootSerialDumpBytes_trace|intros _]. unfold BootCallKernel.
  eapply emits_bind; [apply log_entry| |intros l ->; split; [done|by right]].
  intros _ l1 ->. eapply emits_bind; [apply no_events, BootSerialWriteAscii_trace| |intros l ->; split; [done|by right]].
  intros _ l2 ->. intros w. exists []. rewrite app_nil_r. split; [done|]. split; [done|by right].
Qed.

Lemma PopulateBootInfo_spec a base size entry e f s v : emits log (PopulateBootInfo a base size entry e f s v)
  (fun r l => Forall loading l /\ forall b, r = Some b -> Magic b = BOOTINFO_MAGIC /\ Version b = BOOTINFO_VERSION /\
     KernelBase b = base /\ KernelSize b = size /\ KernelEntry b = entry).
Proof using L.
  unfold PopulateBootInfo. eapply emits_bind; [apply CaptureVideoInfo_trace| |by intros l F].
  intros video l F. apply emits_ret. rewrite app_nil_r. split; [done|]. by intros b [= <-].
Qed.

(** The last calls before the kernel's entry. *)
Lemma left_entered h b b' s' l1 l2 addr :
  keyed l1 -> (count is_exit l1 <= 4)%nat -> Forall (fun e => is_kernel e = false) l1 -> left_with h b b' s' l1 ->
  handoff_ok (KernelEntry b') {| bi_address := addr; bi_value := b' |} ->
  entered {| bi_address := addr; bi_value := b' |} None l2 -> handed_over h (l1 ++ l2).
Proof using.
  intros K C N (l0 & p & r & st & -> & Est & _) Ho [_ [->| ->]].
  { rewrite app_nil_r. split; [done|]. split; [done|by left]. }
  split; [apply keyed_app; [done|by apply keyed_quiet; repeat constructor]|].
  split; [rewrite count_app; cbn; lia|]. right. eexists l0, p, r, st, _, _. rewrite <- app_assoc.
  split; [reflexivity|]. split; [done|]. split; [exact Ho|]. by apply Forall_app in N as [N _].
Qed.

Lemma hand_over_trace h li bi ib n k : bi <> 0 -> kiBase k <= kiEntry k < u64 (kiBase k + kiSize k) ->
  emits log (hand_over h li bi ib n k) (boot_spec h).
Proof using L.
  intros Nz In. unfold hand_over. apply boot_bind; [trace|intros _]. apply boot_bind; [trace|intros [st s]].
  destruct (EFI_ERROR st) eqn:Es; [by apply fail_with_boot|].
  apply boot_bind; [trace|intros s1]. apply boot_bind; [trace|intros _]. apply boot_bind; [trace|intros _].
  apply boot_bind; [unfold LoadedImage_ImageBase; trace|intros loader].
  eapply emits_bind; [apply PopulateBootInfo_spec| |].
  2: { intros l [F _]. destruct (loading_facts l F) as (K & C & N). split; [split; [done|]; split; [lia|by left]|done]. }
  intros b l1 [F Hb]. destruct (Hb b eq_refl) as (B1 & B2 & B3 & B4 & B5).
  eapply emits_mono with (Q := boot_spec h); [|by intros r l2 B; apply loading_first].
  do 4 (apply boot_bind; [trace|intros _]). unfold ExitBootServicesRobust.
  eapply emits_bind; [apply exit_attempts_trace; done| |].
  2: { intros l (K & C & _ & N & _). split; [split; [done|]; split; [done|by left]|done]. }
  intros [st' [b' s']] l2 (K & C & _ & N & R). destruct (EFI_ERROR st') eqn:Et.
  - unfold fail_with. eapply emits_bind; [apply Print_trace| |].
    + intros x l3 F3. destruct (loading_facts l3 F3) as (K3 & C3 & N3). apply emits_ret. rewrite app_nil_r.
      assert (Nk : Forall (fun e => is_kernel e = false) (l2 ++ l3)) by by apply Forall_app.
      split; [split; [by apply keyed_app|]; split; [rewrite count_app; lia|by left]|]. by intros st2 [= <-].
    + intros l3 F3. destruct (loading_facts l3 F3) as (K3 & C3 & N3).
      split; [split; [by apply keyed_app|]; split; [rewrite count_app; lia|left; by apply Forall_app]|done].
  - destruct (R st' b' s' eq_refl Et) as [_ Lw]. eapply emits_mono; [apply start_kernel_trace|].
    intros r l3 [-> E]. split; [|done]. cbn [fst] in E.
    eapply left_entered; [exact K|exact C|exact N|exact Lw| |by split]. cbn [fst].
    destruct Lw as (l0 & p & rep & st2 & _ & _ & _ & _ & ->). constructor; cbn; rewrite ?B1, ?B2, ?B3, ?B4, ?B5; done.
Qed.

Lemma run_kernel_image_trace h kb kn ib n : emits log (run_kernel_image h kb kn ib n) (boot_spec h).
Proof using L.
  unfold run_kernel_image. apply boot_bind; [trace|intros _]. apply boot_bind; [trace|intros [st o]].
  destruct (EFI_ERROR st) eqn:Es; [by apply fail_with_boot|].
  apply boot_bind; [trace|intros k]. apply boot_bind; [unfold report_kernel; trace|intros _].
  destruct (_ || _) eqn:Ek; [by apply fail_with_boot|].
  apply boot_bind; [trace|intros _]. apply boot_bind; [trace|intros _]. apply boot_bind; [trace|intros [st2 li]].
  destruct (EFI_ERROR st2) eqn:Es2; [by apply fail_with_boot|]. apply boot_bind; [trace|intros bi].
  destruct (Z.eqb_spec bi 0); [by apply boot_ret|]. apply hand_over_trace; [done|].
  apply orb_false_iff in Ek as [E1 E2]. apply Z.ltb_ge in E1. rewrite Z.geb_leb in E2. apply Z.leb_gt in E2. lia.
Qed.

Lemma efi_main_trace h st : emits log (efi_main h st) (boot_spec h).
Proof using L.
  unfold efi_main. apply boot_bind; [unfold InitializeLib, SystemTable_BootServices; trace|intros _].
  apply boot_bind; [trace|intros _]. apply boot_bind; [trace|intros _]. apply boot_bind; [trace|intros _].
  apply boot_bind; [trace|intros [s1 root]]. destruct (EFI_ERROR s1) eqn:E1; [by apply fail_with_boot|].
  apply boot_bind; [trace|intros _]. apply boot_bind; [trace|intros [s2 kf]].
  destruct (EFI_ERROR s2) eqn:E2; [by apply fail_with_boot|].
  apply boot_bind; [trace|intros _]. apply boot_bind; [unfold load_init_file; trace|intros init].
  apply run_kernel_image_trace.
Qed.
End Trace.

(** ** Properties *)

(** C6: leaving the boot services follows the firmware's protocol. There are at
    most four attempts; every request to leave comes right after a successful
    reading of the memory map and shows that map's key, with no other call of the
    firmware between the two; the kernel is not entered; and a success means that
    the last two calls were such a pair, that the map is in the snapshot's buffer
    and that the handoff record changed in nothing but the number of ranges of
    that map. *)
Theorem ExitBootServicesRobust_protocol {W} {log : W -> list fw_event} `{L : LoggedFirmware W log} h b s w :
  match ExitBootServicesRobust h b s w with
  | Ret r w' => exists l, log w' = log w ++ l /\ exit_spec 4 h b (Some r) l
  | Halt w' => exists l, log w' = log w ++ l /\ exit_spec 4 h b None l
  | Stuck => True
  end.
Proof. exact (exit_attempts_trace (L := L) 4 h b s EFI_INVALID_PARAMETER eq_refl w). Qed.

(** C3: the loader enters the kernel once, last, and only with the boot services
    just left; what it hands over then carries the magic number and the version
    the kernel asks for, is not null, and names the entry point it jumps to, which
    lies inside the loaded image.  When the loader returns to the firmware it
    returns an error and has not entered the kernel. *)
Theorem efi_main_hands_over {W} {log : W -> list fw_event} `{L : LoggedFirmware W log} h st w :
  match efi_main h st w with
  | Ret r w' => exists l, log w' = log w ++ l /\ boot_spec h (Some r) l
  | Halt w' => exists l, log w' = log w ++ l /\ boot_spec h None l
  | Stuck => True
  end.
Proof. exact (efi_main_trace (L := L) h st w). Qed.

(** ** Witness: the platform of BootMachine.v *)

#[global] Instance machine_logged : LoggedFirmware machine m_log.
Proof.
  split; intros; intros w; cbn; unfold fw_call, modify, gets, ret, silent, one; eexists; (split; [|reflexivity]);
    cbn; rewrite ?app_nil_r; try reflexivity.
  by destruct (_ =? EFI_SUCCESS).
Qed.

Definition busy_machine : machine := boot_machine [2; 2; 40; 40]%nat [EFI_INVALID_PARAMETER] 32 (fun _ => false).

Lemma efi_main_hands_over_witness :
  match efi_main 5 0x1000 busy_machine with
  | Ret r w' => exists l, m_log w' = m_log busy_machine ++ l /\ boot_spec 5 (Some r) l
  | Halt w' => exists l, m_log w' = m_log busy_machine ++ l /\ boot_spec 5 None l
  | Stuck => True
  end.
Proof. exact (efi_main_hands_over (L := machine_logged) 5 0x1000 busy_machine). Defined.

(** The snapshot of this machine after its first two calls, and the record. *)
Definition small_snapshot : BOOT_MEMORY_SNAPSHOT :=
  {| MapBuffer := 0x800000; MapBufferSize := 864; MapSize := 96; MapKey := 7; DescriptorSize := 48;
     DescriptorVersion := 1; Ranges := 0x801000; RangeCapacity := 18; RangeCount := 2 |}.
Definition small_record : BOOT_INFO :=
  {| Magic := BOOTINFO_MAGIC; Version := 1; Size := 120; Flags := 0; FirmwareType := 1; LoaderBase := 0;
     KernelBase := 0x100000; KernelSize := 0x400; KernelEntry := 0x100200; InitImageBase := 0; InitImageSize := 0;
     MemoryMap := Ranges small_snapshot; MemoryMapEntryCount := 2; MemoryMapEntrySize := 24; Video := no_video |}.
Definition leaving_machine (maps : list nat) (exits : list EFI_STATUS) : machine :=
  set_m_pool 0x802000 (set_m_library {| ST := 0x1000; BS := 0x2000 |} (boot_machine maps exits 32 (fun _ => true))).

Lemma ExitBootServicesRobust_protocol_witness :
  match ExitBootServicesRobust 5 small_record small_snapshot (leaving_machine [40]%nat []) with
  | Ret r w' => exists l, m_log w' = m_log (leaving_machine [40]%nat []) ++ l /\ exit_spec 4 5 small_record (Some r) l
  | Halt w' => exists l, m_log w' = m_log (leaving_machine [40]%nat []) ++ l /\ exit_spec 4 5 small_record None l
  | Stuck => True
  end.
Proof. exact (ExitBootServicesRobust_protocol (L := machine_logged) 5 small_record small_snapshot (leaving_machine [40]%nat [])). Defined.

(** The machine starts the kernel, on its third attempt to leave. *)
Example busy_machine_starts : match efi_main 5 0x1000 busy_machine with
  | Halt w' => (count is_exit (m_log w') =? 2)%nat && (count is_kernel (m_log w') =? 1)%nat
  | _ => false
  end = true.
Proof. by vm_compute. Qed.

(** ** The record outlives the ranges it points to

    [ExitBootServicesRobust] does not store the new address of the ranges: when
    the map has grown, the record keeps the address of the buffer that was
    freed. *)

Definition frees (p : Z) (e : fw_event) : bool := match e with EvFreePool q => p =? q | _ => false end.

Example ExitBootServicesRobust_stale :
  match ExitBootServicesRobust 5 small_record small_snapshot (leaving_machine [40; 40]%nat []) with
  | Ret (st, (b, s)) w' =>
      (st =? EFI_SUCCESS) && negb (MemoryMap b =? Ranges s) && existsb (frees (MemoryMap b)) (m_log w')
  | _ => false
  end = true.
Proof. by vm_compute. Qed.
