(* ===== verification/BootScreenInv.v ===== *)
(** * The splash screen: theorems

    Over any memory in which the framebuffer can be reached, the drawing routines
    of the boot loader end, write inside the framebuffer only, and leave the
    picture that is computed here without memory: rectangles and text as functions
    of the coordinates, with the wrap-around of the 32-bit coordinates. *)

From S2P Require Import Prelude CString BootProto PhysMem Kpe KpeLoad Efi Hal BootScreen Boot BootMachine.

(** ** Pictures *)

Definition image := Z -> Z -> Z.

Definition with_dot (X Y c : Z) (S : image) : image := fun x y => if (x =? X) && (y =? Y) then c else S x y.
(** A rectangle from (X, Y) on, around the edges of the 32-bit range. *)
Definition with_rect (X Y W H c : Z) (S : image) : image :=
  fun x y => if (u32 (x - X) <? W) && (u32 (y - Y) <? H) then c else S x y.

(** The dots of a text of height 16 and advance 9, from its own corner. *)
Definition text_dot (Text : cstr) (n Scale dx dy : Z) : bool :=
  let j := dx / Scale / 9 in
  let col := (dx / Scale) mod 9 in
  let row := dy / Scale in
  if (j <? Z.min n (Z.of_nat (length Text))) && (col <? 8) && (row <? 16)
  then Z.testbit (BootGlyphRow8x16 (nth (Z.to_nat j) Text 0) row) (7 - col) else false.
Definition with_text (X Y : Z) (Text : cstr) (n Scale c : Z) (S : image) : image :=
  fun x y => if text_dot Text n Scale (u32 (x - X)) (u32 (y - Y)) then c else S x y.

(** ** The framebuffer *)

Record geometry := { sc_base : Z; sc_width : Z; sc_height : Z; sc_pitch : Z; sc_format : Z }.

(** Rows do not overlap, and a dot's number fits 32 bits. *)
Record geometry_ok (g : geometry) : Prop := {
  gk_base : 0 <= sc_base g;
  gk_width : 0 <= sc_width g <= sc_pitch g;
  gk_height : 0 <= sc_height g;
  gk_size : sc_height g * sc_pitch g <= 2 ^ 32;
  gk_small : sc_width g < 2 ^ 32 /\ sc_height g < 2 ^ 32 }.

Definition fb_size (g : geometry) : Z := 4 * (sc_height g * sc_pitch g).
Definition in_fb (g : geometry) (b : Z) : Prop := sc_base g <= b < sc_base g + fb_size g.
Definition seen (g : geometry) (x y : Z) : Prop := 0 <= x < sc_width g /\ 0 <= y < sc_height g.
Definition dot_at (g : geometry) (x y : Z) : Z := sc_base g + 4 * (y * sc_pitch g + x).

Lemma dot_in_fb g x y b : geometry_ok g -> seen g x y -> dot_at g x y <= b < dot_at g x y + 4 -> in_fb g b.
Proof. intros [B W Hh _ _] [X Y] Hb. unfold in_fb, fb_size, dot_at in *. nia. Qed.

Lemma dots_apart g x y x' y' b : geometry_ok g -> seen g x y -> seen g x' y' -> (x, y) <> (x', y') ->
  dot_at g x y <= b < dot_at g x y + 4 -> ~ dot_at g x' y' <= b < dot_at g x' y' + 4.
Proof.
  intros [_ W _ _ _] [X Y] [X' Y'] N. unfold dot_at. intros B B'.
  assert (y * sc_pitch g + x = y' * sc_pitch g + x') as E by lia. apply N.
  assert (y = y') as -> by nia. f_equal. lia.
Qed.

(** ** Wrap-around *)

Lemma u32_shift x X k : 0 <= x < 2 ^ 32 -> 0 <= k < 2 ^ 32 -> (x =? u32 (X + k)) = (u32 (x - X) =? k).
Proof. intros Hx Hk. unfold u32. destruct (Z.eqb_spec x ((X + k) mod 4294967296)), (Z.eqb_spec ((x - X) mod 4294967296) k);
  try done; exfalso; zlia. Qed.

(** A block of a grid of squares. *)
Lemma u32_cell x X q s : 0 < s -> 0 <= q -> (q + 1) * s <= 2 ^ 32 ->
  (u32 (x - u32 (X + q * s)) <? s) = (u32 (x - X) / s =? q).
Proof.
  intros Hs Hq Hb. set (d := u32 (x - X)).
  assert (E : u32 (x - u32 (X + q * s)) = u32 (d - q * s)).
  { unfold d, u32. rewrite Zminus_mod_idemp_r. rewrite (Zminus_mod_idemp_l (x - X)). f_equal. lia. }
  rewrite E. assert (Hd : 0 <= d < 4294967296) by apply u32_range.
  assert (M : 0 <= q * s) by (apply Z.mul_nonneg_nonneg; lia).
  destruct (Z.ltb_spec (u32 (d - q * s)) s) as [L|L], (Z.eqb_spec (d / s) q) as [E1|E1]; try done; exfalso.
  - assert (~ (q * s <= d < q * s + s)).
    { intros [A B]. apply E1. symmetry. apply Z.div_unique with (d - q * s); lia. }
    unfold u32 in L. destruct (Z.lt_ge_cases d (q * s)).
    + assert ((d - q * s) mod 4294967296 = d - q * s + 4294967296) as R.
      { symmetry. apply Zmod_unique with (-1); lia. } lia.
    + rewrite Z.mod_small in L by lia. lia.
  - subst q. pose proof (Z.div_mod d s ltac:(lia)). pose proof (Z.mod_pos_bound d s Hs).
    unfold u32 in L. rewrite Z.mod_small in L by lia. lia.
Qed.

(** ** The titles *)

(** A title: its area cleared, [n] characters in a shadow and in colour. *)
Definition with_title (t : title) (n bg shadow c : Z) (S : image) : image :=
  let d := shadow_offset (tScale t) in
  with_text (tX t) (tY t) (tText t) n (tScale t) c
    (with_text (u32 (tX t + d)) (u32 (tY t + d)) (tText t) n (tScale t) shadow
      (with_rect (tX t) (tY t) (u32 (u32 (tW t + tScale t) + 2)) (u32 (u32 (tH t + tScale t) + 2)) bg S)).

(** A title whose size is its text's. *)
Record title_ok (t : title) : Prop := {
  tk_text : is_cstr (tText t);
  tk_length : Z.of_nat (length (tText t)) <= 64;
  tk_scale : 0 < tScale t <= 8;
  tk_width : tW t = Z.of_nat (length (tText t)) * 9 * tScale t;
  tk_height : tH t = 16 * tScale t }.

Lemma text_dot_bounds Text n s dx dy : 0 < s -> 0 <= dx -> 0 <= dy -> text_dot Text n s dx dy = true ->
  dx < Z.of_nat (length Text) * 9 * s /\ dy < 16 * s.
Proof.
  intros Hs Hx Hy. unfold text_dot. cbv zeta. destruct (_ && _) eqn:E; [intros _|done]. rewrite !andb_true_iff, !Z.ltb_lt in E. destruct E as [[A B] C].
  pose proof (Z.div_mod dx s ltac:(lia)). pose proof (Z.mod_pos_bound dx s Hs).
  pose proof (Z.div_mod dy s ltac:(lia)). pose proof (Z.mod_pos_bound dy s Hs).
  pose proof (Z.div_mod (dx / s) 9 ltac:(lia)). pose proof (Z.mod_pos_bound (dx / s) 9 ltac:(lia)).
  set (q := dx / s) in *. set (r := dy / s) in *. split; [|nia].
  assert (q < Z.of_nat (length Text) * 9) by lia. nia.
Qed.

(** Painting a title over another state of the same title hides that state. *)
Lemma with_title_absorbs t n n' bg shadow c c' S x y : title_ok t ->
  with_title t n bg shadow c (with_title t n' bg shadow c' S) x y = with_title t n bg shadow c S x y.
Proof.
  intros [_ L Hs Ew Eh]. unfold with_title. cbv zeta. set (d := shadow_offset (tScale t)).
  assert (Hd : 0 <= d <= tScale t) by (unfold d, shadow_offset; destruct (Z.gtb_spec (tScale t) 1); [zlia|lia]).
  set (len := Z.of_nat (length (tText t))) in *. assert (0 <= len) by (unfold len; lia).
  assert (Bw : 0 <= len * 9 * tScale t <= 64 * 9 * 8) by nia.
  set (w := u32 (u32 (tW t + tScale t) + 2)). set (h := u32 (u32 (tH t + tScale t) + 2)).
  assert (Hw : w = tW t + tScale t + 2) by (unfold w; rewrite (u32_small (tW t + tScale t)), u32_small by lia; done).
  assert (Hh : h = tH t + tScale t + 2) by (unfold h; rewrite (u32_small (tH t + tScale t)), u32_small by lia; done).
  assert (In : forall m e, 0 <= e <= d -> text_dot (tText t) m (tScale t) (u32 (x - u32 (tX t + e))) (u32 (y - u32 (tY t + e))) = true ->
    (u32 (x - tX t) <? w) && (u32 (y - tY t) <? h) = true).
  { intros m e He T. pose proof (u32_range (x - u32 (tX t + e))). pose proof (u32_range (y - u32 (tY t + e))).
    apply text_dot_bounds in T as [T1 T2]; [|lia|lia|lia]. fold len in T1.
    assert (Sh : forall a A, u32 (a - A) = u32 (u32 (a - u32 (A + e)) + e)).
    { intros a A. unfold u32. rewrite Zminus_mod_idemp_r, Zplus_mod_idemp_l. f_equal. lia. }
    rewrite (Sh x), (Sh y). set (u1 := u32 (x - u32 (tX t + e))) in *. set (u2 := u32 (y - u32 (tY t + e))) in *.
    rewrite (u32_small (u1 + e)), (u32_small (u2 + e)) by lia. apply andb_true_iff. rewrite !Z.ltb_lt. lia. }
  assert (Z0 : forall a A, u32 (a - u32 (A + 0)) = u32 (a - A)).
  { intros a A. unfold u32. rewrite Zminus_mod_idemp_r. f_equal. lia. }
  pose proof (In n' 0 ltac:(lia)) as I0. rewrite !Z0 in I0. pose proof (In n' d ltac:(lia)) as Id.
  unfold with_text, with_rect at 1. destruct (text_dot _ n _ (u32 (x - tX t)) _); [done|].
  destruct (text_dot _ n _ (u32 (x - u32 (tX t + d))) _); [done|]. unfold with_rect.
  destruct ((u32 (x - tX t) <? w) && (u32 (y - tY t) <? h)) eqn:Ea; [done|].
  destruct (text_dot _ n' _ (u32 (x - tX t)) _); [by discriminate I0|].
  destruct (text_dot _ n' _ (u32 (x - u32 (tX t + d))) _); [by discriminate Id|]. done.
Qed.

(** A dot of the picture depends on the same dot before. *)
Lemma with_title_ext t n bg shadow c S S' x y : S x y = S' x y ->
  with_title t n bg shadow c S x y = with_title t n bg shadow c S' x y.
Proof. intros E. unfold with_title, with_text, with_rect. cbv zeta. by rewrite E. Qed.

(** The last of several states is the one that is seen. *)
Lemma titles_absorb t bg shadow l : forall n c S x y, title_ok t ->
  foldl (fun S p => with_title t p.1 bg shadow p.2 S) S (l ++ [(n, c)]) x y = with_title t n bg shadow c S x y.
Proof.
  induction l as [|p l IH]; intros n c S x y Tk; [done|]. cbn [app foldl]. rewrite IH by done. by apply with_title_absorbs.
Qed.

Lemma fit_scale_spec n Main Width s : 3 <= s <= 8 -> let r := fit_scale n Main Width s (BootTextWidth Main s) in
  3 <= r.1 <= 8 /\ r.2 = BootTextWidth Main r.1.
Proof.
  revert s. induction n as [|n IH]; intros s Hs; cbn [fit_scale]; [done|].
  destruct (_ >? _); [|done]. destruct (Z.gtb_spec s 3); cbn [andb]; [|done]. apply IH. lia.
Qed.

Lemma main_title_ok Width Height : title_ok (main_title Width Height).
Proof.
  unfold main_title. pose proof (fit_scale_spec 5 (str "NOVA TARANTULA") Width 8 ltac:(lia)) as F. cbv zeta in F.
  destruct (fit_scale _ _ _ _ _) as [s w]. cbn [fst snd] in F. destruct F as [Hs ->].
  assert (E : BootTextWidth (str "NOVA TARANTULA") s = 14 * 9 * s).
  { unfold BootTextWidth. change (BootTextChars (str "NOVA TARANTULA")) with 14. unfold BOOT_GLYPH_ADV. cbn [Z.eqb].
    rewrite (u32_small (9 * s)), u32_small by lia. lia. }
  constructor; cbn [tText tScale tW tH]; [by repeat constructor|cbn; lia|lia|rewrite E; reflexivity|].
  unfold BOOT_GLYPH_H. by rewrite u32_small by lia.
Qed.

Lemma sub_title_ok Width Height : title_ok (sub_title Width Height).
Proof. constructor; unfold sub_title; cbn [tText tScale tW tH]; [by repeat constructor|cbn; lia|lia|done|done]. Qed.

Section View.
Context {W : Type} {inv : W -> Prop} {view : W -> Z -> Z} {good : Z -> Prop}
  `{V : ByteView W inv view good} `{PortIo W} `{Firmware W}.

(** A 32-bit word reads back. *)
Lemma word4_bytes (f : Z -> Z) p c : is_u32 c ->
  (forall b, p <= b < p + 4 -> f b = (c / 256 ^ (b - p)) mod 256) -> word 4 f p = c.
Proof using.
  unfold is_u32. intros Hc E. cbn [word]. rewrite !E by lia.
  replace (p - p) with 0 by lia. replace (p + 1 - p) with 1 by lia. replace (p + 1 + 1 - p) with 2 by lia.
  replace (p + 1 + 1 + 1 - p) with 3 by lia.
  change (256 ^ 0) with 1. change (256 ^ 1) with 256. change (256 ^ 2) with 65536. change (256 ^ 3) with 16777216. zlia.
Qed.

(** ** The graphics output protocol in memory *)

(** A field's bytes can be read, and lie outside the framebuffer. *)
Definition field (g : geometry) (p n : Z) : Prop := forall b, p <= b < p + n -> good b /\ ~ in_fb g b.

Record gop_at (g : geometry) (f : Z -> Z) (Gop : Z) : Prop := {
  ga_mode_field : field g (Gop + 24) 8;
  ga_mode : word 8 f (Gop + 24) <> 0;
  ga_info_field : field g (word 8 f (Gop + 24) + 8) 8;
  ga_info : word 8 f (word 8 f (Gop + 24) + 8) <> 0;
  ga_base_field : field g (word 8 f (Gop + 24) + 24) 8;
  ga_base : word 8 f (word 8 f (Gop + 24) + 24) = sc_base g;
  ga_fields : field g (word 8 f (word 8 f (Gop + 24) + 8) + 4) 12 /\ field g (word 8 f (word 8 f (Gop + 24) + 8) + 32) 4;
  ga_width : word 4 f (word 8 f (word 8 f (Gop + 24) + 8) + 4) = sc_width g;
  ga_height : word 4 f (word 8 f (word 8 f (Gop + 24) + 8) + 8) = sc_height g;
  ga_format : word 4 f (word 8 f (word 8 f (Gop + 24) + 8) + 12) = sc_format g;
  ga_pitch : word 4 f (word 8 f (word 8 f (Gop + 24) + 8) + 32) = sc_pitch g }.

Section Screen.
Context (g : geometry) (Gk : geometry_ok g) (s0 : W) (Gop : Z) (Ga : gop_at g (view s0) Gop).
Context (Fb : forall b, in_fb g b -> good b).

(** [s] is [s0] but for the framebuffer, which shows [S]. *)
Record displays (s : W) (S : image) : Prop := {
  di_inv : inv s;
  di_outside : forall b, good b -> ~ in_fb g b -> view s b = view s0 b;
  di_dots : forall x y, seen g x y -> word 4 (view s) (dot_at g x y) = S x y }.

Lemma displays_ext s S S' : displays s S -> (forall x y, seen g x y -> S x y = S' x y) -> displays s S'.
Proof using. intros [I O D] E. constructor; [done|done|]. intros x y Hs. rewrite <- E by done. by apply D. Qed.

(** A field has the value it has in [s0]. *)
Lemma read_field n p s S : displays s S -> field g p (Z.of_nat n) -> read_le n p s = Ret (word n (view s0) p) s.
Proof using V.
  intros [I O _] F. rewrite (read_le_view n p s I) by (intros b Hb; by apply F).
  f_equal. apply word_ext. intros b Hb. destruct (F b Hb). by apply O.
Qed.

Lemma field_sub p n q k : field g p n -> p <= q -> q + k <= p + n -> field g q k.
Proof using. intros F L1 L2 b Hb. apply F. lia. Qed.

Lemma gop_info_field {A} (fld : Z -> M W A) s S a :
  displays s S -> fld (word 8 (view s0) (word 8 (view s0) (Gop + 24) + 8)) s = Ret a s -> gop_info fld Gop s = Ret a s.
Proof using V Ga.
  intros D E. unfold gop_info, Gop_Mode, Mode_Info, read_u64.
  rewrite (bind_eq _ _ _ _ _ (read_field 8 _ s S D (ga_mode_field _ _ _ Ga))).
  rewrite (bind_eq _ _ _ _ _ (read_field 8 _ s S D (ga_info_field _ _ _ Ga))). exact E.
Qed.

(** The fields of the mode's information. *)
Ltac info D Fl Fs := eapply gop_info_field; [exact D|]; rewrite <- Fl; apply (read_field 4 _ _ _ D);
  eapply field_sub; [exact Fs|lia|cbn [Z.of_nat Pos.of_succ_nat Pos.succ]; lia].

Lemma width_at s S : displays s S -> gop_info Info_HorizontalResolution Gop s = Ret (sc_width g) s.
Proof using V Ga. intros D. info D (ga_width _ _ _ Ga) (proj1 (ga_fields _ _ _ Ga)). Qed.
Lemma height_at s S : displays s S -> gop_info Info_VerticalResolution Gop s = Ret (sc_height g) s.
Proof using V Ga. intros D. info D (ga_height _ _ _ Ga) (proj1 (ga_fields _ _ _ Ga)). Qed.
Lemma format_at s S : displays s S -> gop_info Info_PixelFormat Gop s = Ret (sc_format g) s.
Proof using V Ga. intros D. info D (ga_format _ _ _ Ga) (proj1 (ga_fields _ _ _ Ga)). Qed.
Lemma pitch_at s S : displays s S -> gop_info Info_PixelsPerScanLine Gop s = Ret (sc_pitch g) s.
Proof using V Ga. intros D. info D (ga_pitch _ _ _ Ga) (proj2 (ga_fields _ _ _ Ga)). Qed.
Lemma base_at s S : displays s S -> gop_mode Mode_FrameBufferBase Gop s = Ret (sc_base g) s.
Proof using V Ga.
  intros D. unfold gop_mode, Gop_Mode, Mode_FrameBufferBase, read_u64.
  rewrite (bind_eq _ _ _ _ _ (read_field 8 _ s S D (ga_mode_field _ _ _ Ga))), <- (ga_base _ _ _ Ga).
  apply (read_field 8 _ s S D), Ga.
Qed.

(** ** The painters *)

Lemma pixel_spec r v b : 0 <= r < 256 -> 0 <= v < 256 -> 0 <= b < 256 ->
  Z.lor (Z.lor (Z.shiftl r 16) (Z.shiftl v 8)) b = r * 65536 + v * 256 + b.
Proof using.
  intros Hr Hv Hb. rewrite <- Z.lor_assoc, (Z.lor_comm (Z.shiftl v 8) b).
  rewrite (lor_shiftl b v 8) by lia. rewrite (Z.lor_comm (Z.shiftl r 16)), lor_shiftl by lia. lia.
Qed.

(** The number of a colour in the screen's format. *)
Definition colour (r v b : Z) : Z :=
  if sc_format g =? 1 then r * 65536 + v * 256 + b else b * 65536 + v * 256 + r.

Lemma make_pixel s S r v b : displays s S -> 0 <= r < 256 -> 0 <= v < 256 -> 0 <= b < 256 ->
  BootMakePixel Gop r v b s = Ret (colour r v b) s.
Proof using V Ga.
  intros D Hr Hv Hb. unfold BootMakePixel, colour. rewrite (bind_eq _ _ _ _ _ (format_at s S D)).
  destruct (sc_format g =? 1); by rewrite pixel_spec.
Qed.

Lemma colour_u32 r v b : 0 <= r < 256 -> 0 <= v < 256 -> 0 <= b < 256 -> is_u32 (colour r v b).
Proof using. unfold colour, is_u32. intros. destruct (_ =? _); lia. Qed.

Lemma draw_pixel s S X Y c : displays s S -> 0 <= X -> 0 <= Y -> is_u32 c ->
  exists s', BootDrawPixel Gop X Y c s = Ret tt s' /\ displays s' (with_dot X Y c S).
Proof using V Gk Ga Fb.
  intros D HX HY Hc. unfold BootDrawPixel. rewrite (bind_eq _ _ _ _ _ (width_at s S D)), Z.geb_leb.
  assert (Off : ~ seen g X Y -> displays s (with_dot X Y c S)).
  { intros N. eapply displays_ext; [exact D|]. intros x y Hs. unfold with_dot.
    destruct (Z.eqb_spec x X) as [->|], (Z.eqb_spec y Y) as [->|]; done. }
  destruct (Z.leb_spec (sc_width g) X); [exists s; split; [done|apply Off; unfold seen; lia]|].
  rewrite (bind_eq _ _ _ _ _ (height_at s S D)), Z.geb_leb.
  destruct (Z.leb_spec (sc_height g) Y); [exists s; split; [done|apply Off; unfold seen; lia]|]. clear Off.
  rewrite (bind_eq _ _ _ _ _ (base_at s S D)), (bind_eq _ _ _ _ _ (pitch_at s S D)).
  assert (Hs : seen g X Y) by (unfold seen; lia).
  assert (E : sc_base g + 4 * u32 (u32 (Y * sc_pitch g) + X) = dot_at g X Y).
  { destruct Gk as [_ Wd _ Sz _]. unfold dot_at. assert (0 <= Y * sc_pitch g) by nia.
    assert (Y * sc_pitch g + X < 2 ^ 32) by nia. rewrite (u32_small (Y * _)) by lia. by rewrite u32_small by lia. }
  rewrite E. destruct D as [I O Ds].
  destruct (write_le_view 4 (dot_at g X Y) c s I) as (s' & E' & I' & V').
  { intros b Hb. by apply Fb, (dot_in_fb g X Y). }
  change (Z.of_nat 4) with 4 in V'. exists s'. split; [done|]. constructor; [done| |].
  - intros b Gb Nb. rewrite V' by done.
    destruct (Z.leb_spec (dot_at g X Y) b), (Z.ltb_spec b (dot_at g X Y + 4)); cbn [andb]; [|by apply O..].
    destruct Nb. by apply (dot_in_fb g X Y).
  - intros x y Hxy. unfold with_dot. destruct (decide ((x, y) = (X, Y))) as [[= -> ->]|N].
    + rewrite !Z.eqb_refl. cbn [andb]. apply word4_bytes; [done|]. intros b Hb. rewrite V' by (by apply Fb, (dot_in_fb g X Y)).
      destruct (Z.leb_spec (dot_at g X Y) b), (Z.ltb_spec b (dot_at g X Y + 4)); (done || lia).
    + assert (((x =? X) && (y =? Y)) = false) as ->.
      { destruct (Z.eqb_spec x X) as [->|], (Z.eqb_spec y Y) as [->|]; done. }
      rewrite <- Ds by done. apply word_ext. intros b Hb. rewrite V' by (by apply Fb, (dot_in_fb g x y)).
      destruct (Z.leb_spec (dot_at g X Y) b), (Z.ltb_spec b (dot_at g X Y + 4)); cbn [andb]; try done.
      exfalso. by apply (dots_apart g x y X Y b).
Qed.

Lemma seen_small x y : seen g x y -> 0 <= x < 2 ^ 32 /\ 0 <= y < 2 ^ 32.
Proof using Gk. destruct Gk as [_ _ _ _ [? ?]]. unfold seen. lia. Qed.

Lemma rect_row_displays n : forall s S X Y Col c, displays s S -> 0 <= Y -> 0 <= Col -> Col + Z.of_nat n <= 2 ^ 32 -> is_u32 c ->
  exists s', rect_row n Gop X Y Col c s = Ret tt s' /\
    displays s' (fun x y => if (Col <=? u32 (x - X)) && (u32 (x - X) <? Col + Z.of_nat n) && (y =? Y) then c else S x y).
Proof using V Gk Ga Fb.
  induction n as [|n IH]; intros s S X Y Col c D HY HC L Hc; cbn [rect_row].
  { exists s. split; [done|]. eapply displays_ext; [exact D|]. intros x y _.
    destruct (Z.leb_spec Col (u32 (x - X))), (Z.ltb_spec (u32 (x - X)) (Col + Z.of_nat 0)); try done. lia. }
  destruct (draw_pixel s S (u32 (X + Col)) Y c D) as (s1 & E1 & D1); [apply u32_range|done|done|].
  rewrite (bind_eq _ _ _ _ _ E1). destruct (IH s1 _ X Y (Col + 1) c D1 HY ltac:(lia) ltac:(lia) Hc) as (s2 & E2 & D2).
  exists s2. split; [done|]. eapply displays_ext; [exact D2|]. intros x y Hs. destruct (seen_small x y Hs).
  unfold with_dot. rewrite u32_shift by lia.
  destruct (Z.leb_spec (Col + 1) (u32 (x - X))), (Z.leb_spec Col (u32 (x - X))),
    (Z.ltb_spec (u32 (x - X)) (Col + 1 + Z.of_nat n)), (Z.ltb_spec (u32 (x - X)) (Col + Z.of_nat (Datatypes.S n))),
    (Z.eqb_spec (u32 (x - X)) Col); cbn [andb]; try done; try lia; by destruct (y =? Y).
Qed.

Lemma rect_rows_displays n : forall s S X Y Row Wd c, displays s S -> 0 <= Row -> Row + Z.of_nat n <= 2 ^ 32 ->
  Z.of_nat Wd <= 2 ^ 32 -> is_u32 c ->
  exists s', rect_rows n Gop X Y Row Wd c s = Ret tt s' /\
    displays s' (fun x y => if (u32 (x - X) <? Z.of_nat Wd) && (Row <=? u32 (y - Y)) && (u32 (y - Y) <? Row + Z.of_nat n)
                            then c else S x y).
Proof using V Gk Ga Fb.
  induction n as [|n IH]; intros s S X Y Row Wd c D HR L LW Hc; cbn [rect_rows].
  { exists s. split; [done|]. eapply displays_ext; [exact D|]. intros x y _.
    destruct (u32 (x - X) <? _), (Z.leb_spec Row (u32 (y - Y))), (Z.ltb_spec (u32 (y - Y)) (Row + Z.of_nat 0)); try done. lia. }
  destruct (rect_row_displays Wd s S X (u32 (Y + Row)) 0 c D) as (s1 & E1 & D1); [apply u32_range|done|lia|done|].
  rewrite (bind_eq _ _ _ _ _ E1). destruct (IH s1 _ X Y (Row + 1) Wd c D1 ltac:(lia) ltac:(lia) LW Hc) as (s2 & E2 & D2).
  exists s2. split; [done|]. eapply displays_ext; [exact D2|]. intros x y Hs. destruct (seen_small x y Hs).
  rewrite u32_shift, Z.add_0_l by lia. pose proof (u32_range (x - X)).
  destruct (Z.leb_spec 0 (u32 (x - X))); [|lia].
  destruct (u32 (x - X) <? Z.of_nat Wd), (Z.leb_spec (Row + 1) (u32 (y - Y))), (Z.leb_spec Row (u32 (y - Y))),
    (Z.ltb_spec (u32 (y - Y)) (Row + 1 + Z.of_nat n)), (Z.ltb_spec (u32 (y - Y)) (Row + Z.of_nat (Datatypes.S n))),
    (Z.eqb_spec (u32 (y - Y)) Row); cbn [andb]; try done; try lia.
Qed.

Lemma fill_rect_displays s S X Y Wd Ht c : displays s S -> 0 <= Wd <= 2 ^ 32 -> 0 <= Ht <= 2 ^ 32 -> is_u32 c ->
  exists s', BootFillRect Gop X Y Wd Ht c s = Ret tt s' /\ displays s' (with_rect X Y Wd Ht c S).
Proof using V Gk Ga Fb.
  intros D HW HH Hc. unfold BootFillRect.
  destruct (rect_rows_displays (Z.to_nat Ht) s S X Y 0 (Z.to_nat Wd) c D) as (s' & E & D'); [lia|lia|lia|done|].
  exists s'. split; [done|]. eapply displays_ext; [exact D'|]. intros x y _. unfold with_rect. cbn beta.
  rewrite !Z2Nat.id, Z.add_0_l by lia. pose proof (u32_range (y - Y)).
  destruct (Z.leb_spec 0 (u32 (y - Y))); [|lia]. by rewrite andb_true_r.
Qed.

(** ** Text *)

(** The dots of character [k], from row [Row] and column [Col] of it on. *)
Definition cell_dot (k Row_ Col s : Z) (bits : Z -> Z) (dx dy : Z) : bool :=
  let q := dx / s - 9 * k in
  (Col <=? q) && (q <? 8) && (Row_ <=? dy / s) && (dy / s <? 16) && Z.testbit (bits (dy / s)) (7 - q).

Lemma cols_displays n : forall s S X Y k r Col Bits sc c, displays s S -> 0 <= k <= 64 -> 0 <= r < 16 -> 0 <= Col ->
  Col + Z.of_nat n = 8 -> 0 < sc <= 8 -> is_u32 c ->
  exists s', text_cols n Gop X Y k r Col Bits sc c s = Ret tt s' /\
    displays s' (fun x y => let q := u32 (x - X) / sc - 9 * k in
      if (Col <=? q) && (q <? 8) && (u32 (y - Y) / sc =? r) && Z.testbit Bits (7 - q) then c else S x y).
Proof using V Gk Ga Fb.
  induction n as [|n IH]; intros s S X Y k r Col Bits sc c D Hk Hr HC L Hs Hc; cbn [text_cols].
  { exists s. split; [done|]. eapply displays_ext; [exact D|]. intros x y _. cbv beta zeta.
    destruct (Z.leb_spec Col (u32 (x - X) / sc - 9 * k)), (Z.ltb_spec (u32 (x - X) / sc - 9 * k) 8); try done. lia. }
  unfold BOOT_GLYPH_W, BOOT_GLYPH_ADV.
  assert (Eb : any_flag Bits (u8 (Z.shiftl 1 (8 - 1 - Col))) = Z.testbit Bits (7 - Col)).
  { replace (8 - 1 - Col) with (7 - Col) by lia. rewrite Z.shiftl_1_l, u8_small; [apply any_flag_bit; lia|].
    assert (2 ^ (7 - Col) <= 2 ^ 7) by (apply Z.pow_le_mono_r; lia).
    assert (0 < 2 ^ (7 - Col)) by (apply Z.pow_pos_nonneg; lia). lia. }
  rewrite Eb. assert (0 <= (9 * k + Col) * sc < 2 ^ 16) by nia. assert (0 <= r * sc < 2 ^ 16) by nia.
  rewrite (u32_small (k * 9)), (u32_small (k * 9 + Col)), (u32_small ((k * 9 + Col) * sc)), (u32_small (r * sc)) by nia.
  assert (P : exists s1, (if Z.testbit Bits (7 - Col) then BootFillRect Gop (u32 (X + (k * 9 + Col) * sc)) (u32 (Y + r * sc)) sc sc c
     else ret tt) s = Ret tt s1 /\ displays s1 (fun x y => if (u32 (x - X) / sc =? 9 * k + Col) && (u32 (y - Y) / sc =? r) &&
       Z.testbit Bits (7 - Col) then c else S x y)).
  { destruct (Z.testbit Bits (7 - Col)).
    - destruct (fill_rect_displays s S (u32 (X + (k * 9 + Col) * sc)) (u32 (Y + r * sc)) sc sc c D) as (s1 & E1 & D1);
        [lia|lia|done|]. exists s1. split; [done|]. eapply displays_ext; [exact D1|]. intros x y _. unfold with_rect.
      rewrite !u32_cell by (lia || nia). replace (k * 9 + Col) with (9 * k + Col) by lia. by rewrite andb_true_r.
    - exists s. split; [done|]. eapply displays_ext; [exact D|]. intros x y _. by rewrite andb_false_r. }
  destruct P as (s1 & E1 & D1). rewrite (bind_eq _ _ _ _ _ E1).
  destruct (IH s1 _ X Y k r (Col + 1) Bits sc c D1 Hk Hr ltac:(lia) ltac:(lia) Hs Hc) as (s2 & E2 & D2).
  exists s2. split; [done|]. eapply displays_ext; [exact D2|]. intros x y _. cbv beta zeta. set (q := u32 (x - X) / sc - 9 * k).
  destruct (Z.eqb_spec (u32 (x - X) / sc) (9 * k + Col)) as [Eq|Nq].
  - assert (q = Col) as -> by (unfold q; lia). destruct (Z.leb_spec (Col + 1) Col), (Z.leb_spec Col Col), (Z.ltb_spec Col 8);
      try lia. cbn [andb]. done.
  - assert (q <> Col) by (unfold q; lia). cbn [andb].
    destruct (Z.leb_spec (Col + 1) q), (Z.leb_spec Col q); cbn [andb]; (done || lia).
Qed.

Lemma rows_displays n : forall s S X Y k r Ch sc c, displays s S -> 0 <= k <= 64 -> 0 <= r -> r + Z.of_nat n = 16 ->
  0 < sc <= 8 -> is_u32 c ->
  exists s', text_rows n Gop X Y k r Ch sc c s = Ret tt s' /\
    displays s' (fun x y => if cell_dot k r 0 sc (BootGlyphRow8x16 Ch) (u32 (x - X)) (u32 (y - Y)) then c else S x y).
Proof using V Gk Ga Fb.
  induction n as [|n IH]; intros s S X Y k r Ch sc c D Hk Hr L Hs Hc; cbn [text_rows].
  { exists s. split; [done|]. eapply displays_ext; [exact D|]. intros x y _. unfold cell_dot. cbv beta zeta.
    destruct (Z.leb_spec r (u32 (y - Y) / sc)), (Z.ltb_spec (u32 (y - Y) / sc) 16); rewrite ?andb_false_r; try done. lia. }
  destruct (cols_displays (Z.to_nat BOOT_GLYPH_W) s S X Y k r 0 (BootGlyphRow8x16 Ch r) sc c D Hk ltac:(lia) ltac:(lia) eq_refl Hs Hc)
    as (s1 & E1 & D1). rewrite (bind_eq _ _ _ _ _ E1).
  destruct (IH s1 _ X Y k (r + 1) Ch sc c D1 Hk ltac:(lia) ltac:(lia) Hs Hc) as (s2 & E2 & D2).
  exists s2. split; [done|]. eapply displays_ext; [exact D2|]. intros x y _. unfold cell_dot. cbv beta zeta.
  set (q := u32 (x - X) / sc - 9 * k). set (d := u32 (y - Y) / sc).
  destruct (Z.eqb_spec d r) as [->|N].
  - destruct (Z.leb_spec (r + 1) r), (Z.leb_spec r r), (Z.ltb_spec r 16); try lia. rewrite !andb_false_r, !andb_true_r. cbn [andb]. done.
  - rewrite (andb_false_r ((0 <=? q) && (q <? 8))). cbn [andb].
    destruct (Z.leb_spec (r + 1) d), (Z.leb_spec r d); (done || lia).
Qed.

Lemma div_mod9 a k col : 0 <= col < 9 -> a / 9 = k -> a mod 9 = col -> a = 9 * k + col.
Proof using. intros. zlia. Qed.

Lemma chars_displays Text : forall s S X Y k n sc c, displays s S -> is_cstr Text -> 0 <= k -> k + Z.of_nat (length Text) <= 64 ->
  0 < sc <= 8 -> is_u32 c ->
  exists s', text_chars Gop X Y Text k n sc c s = Ret tt s' /\
    displays s' (fun x y => let a := u32 (x - X) / sc in let r := u32 (y - Y) / sc in
      if (k <=? a / 9) && (a / 9 <? Z.min n (k + Z.of_nat (length Text))) && (a mod 9 <? 8) && (r <? 16) &&
         Z.testbit (BootGlyphRow8x16 (nth (Z.to_nat (a / 9 - k)) Text 0) r) (7 - a mod 9) then c else S x y).
Proof using V Gk Ga Fb.
  induction Text as [|Ch Text IH]; intros s S X Y k n sc c D Nz Hk L Hs Hc; cbn [text_chars].
  { exists s. split; [done|]. eapply displays_ext; [exact D|]. intros x y _. cbv beta zeta. cbn [length].
    destruct (Z.leb_spec k (u32 (x - X) / sc / 9)), (Z.ltb_spec (u32 (x - X) / sc / 9) (Z.min n (k + Z.of_nat 0))); try done. lia. }
  apply Forall_cons in Nz as [N0 Nz]. destruct (Z.eqb_spec Ch 0); [done|]. cbn [orb]. cbn [length] in *.
  destruct (Z.ltb_spec k n); cbn [negb].
  2: { exists s. split; [done|]. eapply displays_ext; [exact D|]. intros x y _. cbv beta zeta.
       destruct (Z.leb_spec k (u32 (x - X) / sc / 9)),
         (Z.ltb_spec (u32 (x - X) / sc / 9) (Z.min n (k + Z.of_nat (Datatypes.S (length Text))))); try done. lia. }
  destruct (rows_displays (Z.to_nat BOOT_GLYPH_H) s S X Y k 0 Ch sc c D ltac:(lia) ltac:(lia) eq_refl Hs Hc) as (s1 & E1 & D1).
  rewrite (bind_eq _ _ _ _ _ E1), u32_small by lia.
  destruct (IH s1 _ X Y (k + 1) n sc c D1 Nz ltac:(lia) ltac:(lia) Hs Hc) as (s2 & E2 & D2).
  exists s2. split; [done|]. eapply displays_ext; [exact D2|]. intros x y _. unfold cell_dot. cbv beta zeta.
  set (a := u32 (x - X) / sc). set (r := u32 (y - Y) / sc).
  assert (0 <= r) by (unfold r; apply Z.div_pos; [apply u32_range|lia]).
  pose proof (Z.div_mod a 9 ltac:(lia)) as Da. pose proof (Z.mod_pos_bound a 9 ltac:(lia)) as Ma.
  destruct (Z.leb_spec 0 r); [|lia]. rewrite ?andb_true_r.
  destruct (Z.eq_dec (a / 9) k) as [Ek|Nk].
  - rewrite Ek. destruct (Z.leb_spec (k + 1) k), (Z.leb_spec k k); try lia. cbn [andb].
    destruct (Z.ltb_spec k (Z.min n (k + Z.of_nat (Datatypes.S (length Text))))); [|lia]. cbn [andb].
    rewrite Z.sub_diag. cbn [nth Z.to_nat]. assert (a - 9 * k = a mod 9) as -> by lia.
    destruct (Z.leb_spec 0 (a mod 9)); [|lia]. cbn [andb]. done.
  - assert (F : (0 <=? a - 9 * k) && (a - 9 * k <? 8) = false).
    { destruct (Z.leb_spec 0 (a - 9 * k)), (Z.ltb_spec (a - 9 * k) 8); try done. exfalso. apply Nk. zlia. }
    rewrite F. cbn [andb].
    destruct (Z.leb_spec (k + 1) (a / 9)), (Z.leb_spec k (a / 9)); try lia; cbn [andb]; [|done].
    replace (Z.to_nat (a / 9 - k)) with (Datatypes.S (Z.to_nat (a / 9 - (k + 1)))) by lia. cbn [nth].
    replace (k + 1 + Z.of_nat (length Text)) with (k + Z.of_nat (Datatypes.S (length Text))) by lia. done.
Qed.

Lemma text_displays s S X Y Text n sc c : displays s S -> is_cstr Text -> Z.of_nat (length Text) <= 64 ->
  0 < sc <= 8 -> is_u32 c ->
  exists s', BootDrawTextChars Gop X Y Text n sc c s = Ret tt s' /\ displays s' (with_text X Y Text n sc c S).
Proof using V Gk Ga Fb.
  intros D Nz L Hs Hc. destruct (chars_displays Text s S X Y 0 n sc c D Nz ltac:(lia) ltac:(lia) Hs Hc) as (s' & E & D').
  exists s'. split; [done|]. eapply displays_ext; [exact D'|]. intros x y _. unfold with_text, text_dot. cbv beta zeta.
  rewrite Z.sub_0_r, Z.add_0_l. pose proof (u32_range (x - X)).
  assert (0 <= u32 (x - X) / sc / 9) by (apply Z.div_pos; [apply Z.div_pos; lia|lia]).
  destruct (Z.leb_spec 0 (u32 (x - X) / sc / 9)); [|lia]. cbn [andb].
  by destruct ((u32 (x - X) / sc / 9 <? _) && (_ <? 8) && (_ <? 16)).
Qed.

(** ** With the firmware *)

(** The firmware while the splash is shown, as the specification of its services
    has it: [Stall] waits, [LocateProtocol] finds the interface, and neither touches
    the memory the loader sees; [OutputString] puts text on the screen, so that it
    may write to the framebuffer, and leaves the rest of that memory alone.  What
    the loader reads of the firmware's tables lies outside the framebuffer. *)
Record splash_firmware (lib : efi_library) : Prop := {
  qf_lib : forall s, inv s -> efi_get s = lib;
  qf_services : BS lib <> 0;
  qf_stall_field : field g (BS lib + 248) 8;
  qf_stall : forall n s, inv s -> exists s', fw_Stall n s = Ret tt s' /\ inv s' /\ forall b, good b -> view s' b = view s b;
  qf_system : ST lib <> 0 -> field g (ST lib + 64) 8;
  qf_console : ST lib <> 0 -> word 8 (view s0) (ST lib + 64) <> 0 -> field g (word 8 (view s0) (ST lib + 64) + 8) 8;
  qf_output : forall c t s, inv s ->
    exists st s', fw_OutputString c t s = Ret st s' /\ inv s' /\ forall b, good b -> ~ in_fb g b -> view s' b = view s b;
  qf_locate : forall s, inv s -> exists st s',
    fw_LocateProtocol gEfiGraphicsOutputProtocolGuid s = Ret (st, Gop) s' /\ EFI_ERROR st = false /\ inv s' /\
    forall b, good b -> view s' b = view s b }.

Context (lib : efi_library) (Q : splash_firmware lib).

Lemma displays_kept s s' S : displays s S -> inv s' -> (forall b, good b -> view s' b = view s b) -> displays s' S.
Proof using Gk Fb.
  intros [I O D] I' E. constructor; [done| |].
  - intros b Gb Nb. by rewrite E, O.
  - intros x y Hs. rewrite <- D by done. apply word_ext. intros b Hb. apply E, Fb. by eapply dot_in_fb.
Qed.

Lemma sleep_displays s S n : displays s S -> exists s', BootSleepUs n s = Ret tt s' /\ displays s' S.
Proof using V Gk Fb Q.
  intros D. unfold BootSleepUs. rewrite bind_gets, (qf_lib _ Q _ (di_inv _ _ D)).
  destruct (Z.eqb_spec (BS lib) 0); [by destruct (qf_services _ Q)|]. unfold BootServices_Stall, read_u64.
  rewrite (bind_eq _ _ _ _ _ (read_field 8 _ s S D (qf_stall_field _ Q))). destruct (_ =? 0); [by exists s|].
  destruct (qf_stall _ Q n s (di_inv _ _ D)) as (s' & E & I' & K). exists s'. split; [done|]. by eapply displays_kept.
Qed.

(** Text on the firmware's console: the framebuffer shows what it shows. *)
Lemma output_displays s S t : displays s S -> exists s' S', EfiOutput t s = Ret tt s' /\ displays s' S'.
Proof using V Gk Fb Q.
  intros D. unfold EfiOutput. rewrite bind_gets, (qf_lib _ Q _ (di_inv _ _ D)).
  destruct (Z.eqb_spec (ST lib) 0) as [|N]; [by exists s, S|]. unfold SystemTable_ConOut, ConOut_OutputString, read_u64.
  rewrite (bind_eq _ _ _ _ _ (read_field 8 _ s S D (qf_system _ Q N))).
  destruct (Z.eqb_spec (word 8 (view s0) (ST lib + 64)) 0) as [|Nc]; [by exists s, S|].
  rewrite (bind_eq _ _ _ _ _ (read_field 8 _ s S D (qf_console _ Q N Nc))). destruct (_ =? 0); [by exists s, S|].
  destruct t as [t|]; [|by exists s, S].
  destruct (qf_output _ Q (word 8 (view s0) (ST lib + 64)) t s (di_inv _ _ D)) as (st & s' & E & I' & K).
  rewrite (bind_eq _ _ _ _ _ E). exists s', (fun x y => word 4 (view s') (dot_at g x y)). split; [done|].
  constructor; [done| |done]. intros b Gb Nb. rewrite K by done. by apply D.
Qed.

(** Text without a percent sign. *)
Lemma print_displays f : Forall (fun c => c <> 37) f -> forall s S w, displays s S ->
  exists n s' S', print_chars f [] w s = Ret n s' /\ displays s' S'.
Proof using V Gk Fb Q.
  induction 1 as [|c f Hc F IH]; intros s S w D; cbn [print_chars]; [by eexists _, s, S|].
  destruct (c =? 0); [by eexists _, s, S|]. destruct (output_displays s S (Some [c]) D) as (s1 & S1 & E1 & D1).
  destruct (IH s1 S1 (u64 (w + 1)) D1) as (n & s2 & S2 & E2 & D2).
  assert (R : (EfiOutput (Some [c]) ;;; print_chars f [] (u64 (w + 1))) s = Ret n s2) by (rewrite (bind_eq _ _ _ _ _ E1); done).
  exists n, s2, S2. split; [|done]. destruct f as [|d f]; [exact R|].
  destruct (Z.eqb_spec c 37); [done|]. cbn [andb]. exact R.
Qed.

Lemma announce_displays s S : displays s S -> exists s' S', announce_verbose s = Ret tt s' /\ displays s' S'.
Proof using V Gk Fb Q.
  intros D. destruct (print_displays (str "[BOOT] verbose mode enabled (default)" ++ [13; 10])
    ltac:(repeat constructor; cbn; lia) s S 0 D) as (n & s' & S' & E & D'). exists s', S'. split; [|done].
  unfold announce_verbose, gBootVerbose, BOOT_VERBOSE_DEFAULT, Print. by rewrite (bind_eq _ _ _ _ _ E).
Qed.

Lemma title_displays s S t n bg shadow c : displays s S -> title_ok t -> is_u32 bg -> is_u32 shadow -> is_u32 c ->
  let d := shadow_offset (tScale t) in
  exists s', (clear_title Gop t bg ;;;
     BootDrawTextChars Gop (u32 (tX t + d)) (u32 (tY t + d)) (tText t) n (tScale t) shadow ;;;
     BootDrawTextChars Gop (tX t) (tY t) (tText t) n (tScale t) c) s = Ret tt s' /\
    displays s' (with_title t n bg shadow c S).
Proof using V Gk Ga Fb.
  intros D [Tt Tl Ts _ _] Hb Hs Hc d. unfold clear_title.
  pose proof (u32_range (u32 (tW t + tScale t) + 2)). pose proof (u32_range (u32 (tH t + tScale t) + 2)).
  destruct (fill_rect_displays s S (tX t) (tY t) (u32 (u32 (tW t + tScale t) + 2)) (u32 (u32 (tH t + tScale t) + 2)) bg D)
    as (s1 & E1 & D1); [lia|lia|done|]. rewrite (bind_eq _ _ _ _ _ E1).
  destruct (text_displays s1 _ (u32 (tX t + d)) (u32 (tY t + d)) (tText t) n (tScale t) shadow D1 Tt Tl Ts Hs) as (s2 & E2 & D2).
  rewrite (bind_eq _ _ _ _ _ E2). by apply text_displays.
Qed.

(** The animations, frame by frame. *)
Lemma type_title_displays n : forall s S t k bg shadow c, displays s S -> title_ok t -> is_u32 bg -> is_u32 shadow -> is_u32 c ->
  exists s', type_title n Gop t k bg shadow c s = Ret tt s' /\
    displays s' (foldl (fun S p => with_title t p.1 bg shadow p.2 S) S (map (fun i => (i, c)) (seqZ k (Z.of_nat n)))).
Proof using V Gk Ga Fb Q.
  induction n as [|n IH]; intros s S t k bg shadow c D Tk Hb Hs Hc; cbn [type_title]; [by exists s|].
  destruct (title_displays s S t k bg shadow c D Tk Hb Hs Hc) as (s1 & E1 & D1). cbv zeta in E1.
  rewrite <- (bind_assoc (clear_title _ _ _)), <- bind_assoc. rewrite (bind_eq _ _ s tt s1) by by rewrite bind_assoc.
  destruct (sleep_displays s1 _ 35000 D1) as (s2 & E2 & D2). rewrite (bind_eq _ _ _ _ _ E2).
  destruct (IH s2 _ t (k + 1) bg shadow c D2 Tk Hb Hs Hc) as (s3 & E3 & D3). exists s3. split; [done|].
  rewrite Nat2Z.inj_succ. replace (Z.succ (Z.of_nat n)) with (1 + Z.of_nat n) by lia. rewrite seqZ_cons by lia.
  replace (Z.pred (1 + Z.of_nat n)) with (Z.of_nat n) by lia. replace (Z.succ k) with (k + 1) by lia. exact D3.
Qed.

Lemma fade_title_displays l : forall s S t bg shadow, displays s S -> title_ok t -> is_u32 bg -> is_u32 shadow ->
  Forall (fun f => 0 <= f < 256) l ->
  exists s', fade_title l Gop t bg shadow s = Ret tt s' /\
    displays s' (foldl (fun S p => with_title t p.1 bg shadow p.2 S) S (map (fun f => (BootTextChars (tText t), colour f f f)) l)).
Proof using V Gk Ga Fb Q.
  induction l as [|f l IH]; intros s S t bg shadow D Tk Hb Hs F; cbn [fade_title]; [by exists s|].
  apply Forall_cons in F as [Hf F]. rewrite (bind_eq _ _ _ _ _ (make_pixel s S f f f D Hf Hf Hf)). unfold BootDrawText.
  destruct (title_displays s S t (BootTextChars (tText t)) bg shadow (colour f f f) D Tk Hb Hs (colour_u32 f f f Hf Hf Hf))
    as (s1 & E1 & D1). cbv zeta in E1.
  rewrite <- (bind_assoc (clear_title _ _ _)), <- bind_assoc. rewrite (bind_eq _ _ s tt s1) by by rewrite bind_assoc.
  destruct (sleep_displays s1 _ 85000 D1) as (s2 & E2 & D2). rewrite (bind_eq _ _ _ _ _ E2).
  destruct (IH s2 _ t bg shadow D2 Tk Hb Hs F) as (s3 & E3 & D3). exists s3. by split.
Qed.

(** ** The whole splash *)

Lemma locate_displays s S : displays s S -> exists s', BootLocateGop s = Ret Gop s' /\ displays s' S.
Proof using V Gk Ga Fb Q.
  intros D. unfold BootLocateGop. rewrite bind_gets, (qf_lib _ Q _ (di_inv _ _ D)).
  destruct (Z.eqb_spec (BS lib) 0); [by destruct (qf_services _ Q)|].
  destruct (qf_locate _ Q s (di_inv _ _ D)) as (st & s1 & E1 & Es & I1 & K1). rewrite (bind_eq _ _ _ _ _ E1). cbn beta iota.
  pose proof (displays_kept _ _ _ D I1 K1) as D1. unfold gop_missing. rewrite Es. cbn [orb].
  destruct (Z.eqb_spec Gop 0) as [E0|N0].
  { exists s1. rewrite bind_ret_l, E0. done. }
  unfold Gop_Mode, Mode_Info, read_u64.
  rewrite bind_assoc, (bind_eq _ _ _ _ _ (read_field 8 _ s1 S D1 (ga_mode_field _ _ _ Ga))).
  destruct (Z.eqb_spec (word 8 (view s0) (Gop + 24)) 0); [by destruct (ga_mode _ _ _ Ga)|].
  rewrite bind_assoc, (bind_eq _ _ _ _ _ (read_field 8 _ s1 S D1 (ga_info_field _ _ _ Ga))), bind_ret_l.
  destruct (Z.eqb_spec (word 8 (view s0) (word 8 (view s0) (Gop + 24) + 8)) 0); [by destruct (ga_info _ _ _ Ga)|].
  by exists s1.
Qed.

Definition black : image := fun _ _ => colour 0 0 0.
(** Both titles, the second one in its last colour. *)
Definition splash : image :=
  with_title (sub_title (sc_width g) (sc_height g)) 14 (colour 0 0 0) (colour 0x10 0x18 0x28) (colour 0xD0 0xD0 0xD0)
    (with_title (main_title (sc_width g) (sc_height g)) 14 (colour 0 0 0) (colour 0x18 0x24 0x38) (colour 0xEA 0xEA 0xEA) black).

Lemma whole_screen c S x y : seen g x y -> with_rect 0 0 (sc_width g) (sc_height g) c S x y = c.
Proof using Gk.
  intros Hs. destruct (seen_small x y Hs). unfold with_rect. rewrite !Z.sub_0_r, !u32_small by lia. destruct Hs as [Hx Hy].
  destruct (Z.ltb_spec x (sc_width g)), (Z.ltb_spec y (sc_height g)); (done || lia).
Qed.

Lemma clear_displays s S : displays s S -> exists s', BootClearFramebufferEarly s = Ret tt s' /\
  (if Gop =? 0 then displays s' S else displays s' black).
Proof using V Gk Ga Fb Q.
  intros D. unfold BootClearFramebufferEarly. destruct (locate_displays s S D) as (s1 & E1 & D1).
  rewrite (bind_eq _ _ _ _ _ E1). destruct (Gop =? 0); [by exists s1|].
  rewrite (bind_eq _ _ _ _ _ (width_at s1 S D1)), (bind_eq _ _ _ _ _ (height_at s1 S D1)).
  rewrite (bind_eq _ _ _ _ _ (make_pixel s1 S 0 0 0 D1 ltac:(lia) ltac:(lia) ltac:(lia))).
  destruct Gk as [_ Wd Ht _ Sm]. destruct (fill_rect_displays s1 S 0 0 (sc_width g) (sc_height g) (colour 0 0 0) D1) as (s2 & E2 & D2);
    [lia|lia|apply colour_u32; lia|]. exists s2. split; [done|]. eapply displays_ext; [exact D2|]. intros x y Hs.
  by rewrite whole_screen.
Qed.

Lemma splash_displays s1 S : displays s1 S -> exists s', draw_splash Gop s1 = Ret tt s' /\ displays s' splash.
Proof using V Gk Ga Fb Q.
  intros D1. unfold draw_splash.
  rewrite (bind_eq _ _ _ _ _ (width_at s1 S D1)), (bind_eq _ _ _ _ _ (height_at s1 S D1)). cbv zeta.
  do 4 (erewrite bind_eq; [|eapply (make_pixel s1 S); [exact D1|lia|lia|lia]]).
  pose proof (main_title_ok (sc_width g) (sc_height g)) as Mk. pose proof (sub_title_ok (sc_width g) (sc_height g)) as Sk.
  set (m := main_title (sc_width g) (sc_height g)) in *. set (b := sub_title (sc_width g) (sc_height g)) in *.
  assert (Tm : tText m = str "NOVA TARANTULA") by (unfold m, main_title; by destruct (fit_scale _ _ _ _ _)).
  destruct Gk as [_ Wd Ht _ Sm].
  destruct (fill_rect_displays s1 S 0 0 (sc_width g) (sc_height g) (colour 0 0 0) D1) as (s2 & E2 & D2);
    [lia|lia|apply colour_u32; lia|]. rewrite (bind_eq _ _ _ _ _ E2).
  destruct (type_title_displays (Z.to_nat (BootTextChars (tText m))) s2 _ m 1 (colour 0 0 0) (colour 0x18 0x24 0x38)
    (colour 0xEA 0xEA 0xEA) D2 Mk) as (s3 & E3 & D3); [apply colour_u32; lia..|]. rewrite (bind_eq _ _ _ _ _ E3).
  destruct (fade_title_displays Fade s3 _ b (colour 0 0 0) (colour 0x10 0x18 0x28) D3 Sk) as (s4 & E4 & D4);
    [apply colour_u32; lia..|by repeat constructor|]. rewrite (bind_eq _ _ _ _ _ E4).
  destruct (sleep_displays s4 _ 1800000 D4) as (s5 & E5 & D5). exists s5. split; [exact E5|].
  eapply displays_ext; [exact D5|]. intros x y Hs. unfold splash. fold m b.
  change (map (fun f => (BootTextChars (tText b), colour f f f)) Fade)
    with (map (fun f => (14, colour f f f)) [0x30; 0x50; 0x70; 0x90; 0xB0] ++ [(14, colour 0xD0 0xD0 0xD0)]).
  rewrite titles_absorb by done. rewrite Tm.
  change (map (fun i => (i, colour 0xEA 0xEA 0xEA)) (seqZ 1 (Z.of_nat (Z.to_nat (BootTextChars (str "NOVA TARANTULA"))))))
    with (map (fun i => (i, colour 0xEA 0xEA 0xEA)) (seqZ 1 13) ++ [(14, colour 0xEA 0xEA 0xEA)]).
  apply with_title_ext. rewrite titles_absorb by done. apply with_title_ext. by rewrite whole_screen.
Qed.
End Screen.

(** C32: the splash screen, over any screen whose rows do not overlap and any
    firmware whose [Stall] and [LocateProtocol] leave the memory the loader sees
    alone and whose [OutputString] changes it in the framebuffer at most: once the
    interface is found the drawing ends, writes inside the framebuffer only -
    wherever the layout puts the titles, also off a small screen -, and leaves a
    black screen with the title and, over it, the sub-title in its last colour, each
    over its shadow; the animation leaves no trace.  That picture is on the screen
    when the loader comes to its line about the verbose mode, the last thing it
    does; with that line, which the firmware may show on the same screen, the call
    ends, and outside the framebuffer memory is as it was. *)
Theorem BootShowSplash_paints (g : geometry) (s : W) Gop lib : geometry_ok g -> inv s -> gop_at g (view s) Gop ->
  (forall b, in_fb g b -> good b) -> splash_firmware g s Gop lib -> Gop <> 0 ->
  exists s1 s2 s', BootLocateGop s = Ret Gop s1 /\ draw_splash Gop s1 = Ret tt s2 /\
    inv s2 /\ (forall b, good b -> ~ in_fb g b -> view s2 b = view s b) /\
    (forall x y, seen g x y -> word 4 (view s2) (dot_at g x y) = splash g x y) /\
    BootShowSplash s = announce_verbose s2 /\ announce_verbose s2 = Ret tt s' /\
    inv s' /\ forall b, good b -> ~ in_fb g b -> view s' b = view s b.
Proof using V.
  intros Gk I Ga Fb Q N.
  destruct (locate_displays g Gk s Gop Ga Fb lib Q s (fun x y => word 4 (view s) (dot_at g x y))) as (s1 & E1 & D1); [by constructor|].
  destruct (splash_displays g Gk s Gop Ga Fb lib Q s1 _ D1) as (s2 & E2 & D2).
  destruct (announce_displays g Gk s Gop Fb lib Q s2 _ D2) as (s3 & S3 & E3 & D3).
  exists s1, s2, s3. split; [exact E1|]. split; [exact E2|]. destruct D2 as [I2 O2 P2], D3 as [I3 O3 _].
  split; [done|]. split; [done|]. split; [done|]. split; [|by split_and!].
  unfold BootShowSplash. rewrite (bind_eq _ _ _ _ _ E1). destruct (Z.eqb_spec Gop 0); [done|].
  by rewrite (bind_eq _ _ _ _ _ E2).
Qed.
End View.

(** ** Witness: a screen of 640 by 480 on the platform of BootMachine.v *)

Definition vga : geometry := {| sc_base := 0x10000000; sc_width := 640; sc_height := 480; sc_pitch := 656; sc_format := 1 |}.

Definition gop_memory : mem :=
  store32 (store32 (store32 (store32 (store64 (store64 (store64 tables 0x4018 0x4100) 0x4108 0x4200) 0x4118 0x10000000)
    0x4204 640) 0x4208 480) 0x420C 1) 0x4220 656.

Definition gop_machine : machine :=
  {| m_mem := gop_memory; m_library := {| ST := 0x1000; BS := 0x2000 |}; m_pool := 0x800000; m_log := []; m_ports := [];
     m_map_script := []; m_exit_script := []; m_file_size := 0; m_file := []; m_free_at := fun _ => true; m_gop := 0x4000 |}.

(** A firmware whose console is on that screen: every text paints its first dot. *)
#[local] Instance screen_firmware : Firmware machine := {
  efi_get := m_library;
  efi_put := set_m_library;
  fw_OutputString _ t := fw_call (fun _ => EFI_SUCCESS) (fun _ => EvOutput t)
    (fun _ m => set_m_mem (store32 (m_mem m) 0x10000000 0xFFFFFF) m);
  fw_AllocatePages := fw_AllocatePages (Firmware := machine_firmware);
  fw_GetMemoryMap := fw_GetMemoryMap (Firmware := machine_firmware);
  fw_AllocatePool := fw_AllocatePool (Firmware := machine_firmware);
  fw_FreePool := fw_FreePool (Firmware := machine_firmware);
  fw_HandleProtocol := fw_HandleProtocol (Firmware := machine_firmware);
  fw_ExitBootServices := fw_ExitBootServices (Firmware := machine_firmware);
  fw_Stall := fw_Stall (Firmware := machine_firmware);
  fw_LocateProtocol := fw_LocateProtocol (Firmware := machine_firmware);
  fw_OpenVolume := fw_OpenVolume (Firmware := machine_firmware);
  fw_Open := fw_Open (Firmware := machine_firmware);
  fw_Close := fw_Close (Firmware := machine_firmware);
  fw_Read := fw_Read (Firmware := machine_firmware);
  fw_GetInfo := fw_GetInfo (Firmware := machine_firmware) }.

Definition gop_ok (m : machine) : Prop :=
  mem_ok (m_mem m) /\ m_library m = {| ST := 0x1000; BS := 0x2000 |} /\ m_gop m = 0x4000.

#[local] Instance gop_view : ByteView machine gop_ok (fun m => load8 (m_mem m)) (fun _ => True).
Proof.
  split; [done|intros a s [I _] _; apply I|].
  intros a v s [I F] _ Hv. exists (set_m_mem (store8 (m_mem s) a v) s). split; [done|]. split; [split; [by apply store8_ok|done]|].
  intros b _. cbn. rewrite load8_store8. by rewrite u8_small.
Qed.

Lemma vga_ok : geometry_ok vga.
Proof. constructor; cbn; lia. Qed.

Lemma gop_machine_ok : gop_ok gop_machine.
Proof. split; [|done]. unfold gop_machine, m_mem, gop_memory, tables, store64, store32. repeat apply store_le_ok. apply empty_ok. Qed.

Lemma below_vga p n : p + n <= 0x10000000 -> field (good := fun _ => True) vga p n.
Proof. intros L b Hb. split; [done|]. unfold in_fb, fb_size. cbn. lia. Qed.

(** The structures one after the other. *)
Lemma gop_at_intro {good : Z -> Prop} g f Gop mode info : word 8 f (Gop + 24) = mode -> word 8 f (mode + 8) = info ->
  mode <> 0 -> info <> 0 -> field (good := good) g (Gop + 24) 8 -> field (good := good) g (mode + 8) 8 ->
  field (good := good) g (mode + 24) 8 -> field (good := good) g (info + 4) 12 -> field (good := good) g (info + 32) 4 ->
  word 8 f (mode + 24) = sc_base g -> word 4 f (info + 4) = sc_width g -> word 4 f (info + 8) = sc_height g ->
  word 4 f (info + 12) = sc_format g -> word 4 f (info + 32) = sc_pitch g -> gop_at (good := good) g f Gop.
Proof. intros <- <- **. by constructor. Qed.

Lemma gop_machine_gop : gop_at (good := fun _ => True) vga (load8 (m_mem gop_machine)) 0x4000.
Proof.
  apply (gop_at_intro vga (load8 (m_mem gop_machine)) 0x4000 0x4100 0x4200);
    [by vm_compute|by vm_compute|lia|lia|apply below_vga; lia..|by vm_compute|by vm_compute|by vm_compute|by vm_compute|by vm_compute].
Qed.

Lemma gop_machine_firmware : splash_firmware (inv := gop_ok) (view := fun m => load8 (m_mem m)) (good := fun _ => True)
  vga gop_machine 0x4000 {| ST := 0x1000; BS := 0x2000 |}.
Proof.
  constructor; cbn [ST BS].
  - by intros s (_ & E & _).
  - lia.
  - apply below_vga. lia.
  - intros n s I. eexists. split; [reflexivity|]. by split.
  - intros _. apply below_vga. lia.
  - intros _ _. assert (E : word 8 (load8 (m_mem gop_machine)) (0x1000 + 64) = 0x2800) by by vm_compute.
    apply below_vga. rewrite E. lia.
  - intros c t s (I & E & G). eexists _, _. split; [reflexivity|]. split; [split; [by apply store_le_ok|by split]|].
    intros b _ Nb. cbn [m_mem log_event set_m_mem]. unfold store32. rewrite load8_store_le.
    unfold in_fb, fb_size, vga in Nb. cbn [sc_base sc_height sc_pitch] in Nb.
    destruct (Z.leb_spec 0x10000000 b), (Z.ltb_spec b (0x10000000 + Z.of_nat 4)); cbn [andb]; (done || lia).
  - intros s (I & E & G). exists EFI_SUCCESS, (log_event EvLocateProtocol s). split; [|by split].
    cbn [fw_LocateProtocol screen_firmware machine_firmware]. unfold fw_call. cbv zeta. rewrite G. reflexivity.
Qed.

Lemma BootShowSplash_paints_witness :
  exists s1 s2 s', BootLocateGop gop_machine = Ret 0x4000 s1 /\ draw_splash 0x4000 s1 = Ret tt s2 /\
    gop_ok s2 /\ (forall b, True -> ~ in_fb vga b -> load8 (m_mem s2) b = load8 (m_mem gop_machine) b) /\
    (forall x y, seen vga x y -> word 4 (load8 (m_mem s2)) (dot_at vga x y) = splash vga x y) /\
    BootShowSplash gop_machine = announce_verbose s2 /\ announce_verbose s2 = Ret tt s' /\
    gop_ok s' /\ forall b, True -> ~ in_fb vga b -> load8 (m_mem s') b = load8 (m_mem gop_machine) b.
Proof.
  exact (BootShowSplash_paints vga gop_machine 0x4000 {| ST := 0x1000; BS := 0x2000 |} vga_ok gop_machine_ok gop_machine_gop
    (fun _ _ => I) gop_machine_firmware ltac:(lia)).
Defined.

(** A dot of the title's first letter, the shadow beside it, and the background. *)
Example splash_dots : splash vga 76 180 = 0xEAEAEA /\ splash vga 81 182 = 0x182438 /\ splash vga 0 0 = 0.
Proof. by vm_compute. Qed.
