(* ===== verification/BootMap.v ===== *)
(** * The memory map: from the firmware's descriptors to the kernel

    [ConvertMemoryMap] translates the firmware's map into the ranges of the
    handoff record; the kernel's HAL reads them back when it looks for the top of
    memory. *)

From S2P Require Import Prelude CString BootProto PhysMem Kpe KpeLoad Efi Hal BootScreen Boot BootMachine BootScreenInv.

(** ** Descriptors and ranges in memory *)

Definition descriptor_in (f : Z -> Z) (p : Z) : EFI_MEMORY_DESCRIPTOR :=
  {| DescType := word 4 f p; PhysicalStart := word 8 f (p + 8); VirtualStart := word 8 f (p + 16);
     NumberOfPages := word 8 f (p + 24); DescAttribute := word 8 f (p + 32) |}.

Definition range_in (f : Z -> Z) (p : Z) : PHYSICAL_MEMORY_RANGE :=
  {| RangeBase := word 8 f p; RangeLength := word 8 f (p + 8); RangeType := word 4 f (p + 16);
     RangeAttributes := word 4 f (p + 20) |}.

(** What a descriptor becomes: pages are counted in bytes, attributes cut to 32
    bits. *)
Definition converted (d : EFI_MEMORY_DESCRIPTOR) : PHYSICAL_MEMORY_RANGE :=
  {| RangeBase := PhysicalStart d; RangeLength := u64 (NumberOfPages d * 4096); RangeType := DescType d;
     RangeAttributes := u32 (DescAttribute d) |}.

Section View.
Context {W : Type} {inv : W -> Prop} {view : W -> Z -> Z} {good : Z -> Prop}
  `{V : ByteView W inv view good} `{PortIo W} `{Firmware W}.

Lemma read_descriptor_view p s : inv s -> span (good := good) p (p + 40) ->
  read_memory_descriptor p s = Ret (descriptor_in (view s) p) s.
Proof using V.
  intros I G. unfold read_memory_descriptor, read_u32, read_u64.
  repeat (erewrite bind_eq; [|apply read_le_view; [exact I|eapply span_sub; [exact G|lia|cbn [Z.of_nat Pos.of_succ_nat Pos.succ]; lia]]]).
  done.
Qed.

Definition descriptor_ok (d : EFI_MEMORY_DESCRIPTOR) : Prop :=
  is_u32 (DescType d) /\ is_u64 (PhysicalStart d) /\ is_u64 (NumberOfPages d) /\ is_u64 (DescAttribute d).

Lemma descriptor_in_ok p s : inv s -> span (good := good) p (p + 40) -> descriptor_ok (descriptor_in (view s) p).
Proof using V.
  intros I G. unfold descriptor_ok, is_u32, is_u64, descriptor_in. cbn [DescType PhysicalStart NumberOfPages DescAttribute].
  split; [apply (word_range 4)|split; [apply (word_range 8)|split; [apply (word_range 8)|apply (word_range 8)]]];
    (done || (eapply span_sub; [exact G|lia|cbn [Z.of_nat Pos.of_succ_nat Pos.succ]; lia])).
Qed.

Lemma write_range_view p d s : inv s -> span (good := good) p (p + 24) -> descriptor_ok d ->
  exists s', write_range p d s = Ret tt s' /\ inv s' /\ range_in (view s') p = converted d /\
    forall b, good b -> ~ p <= b < p + 24 -> view s' b = view s b.
Proof using V.
  intros I G (D1 & D2 & D3 & D4). unfold is_u32, is_u64 in *. unfold write_range, write_u64.
  assert (E3 : EFI_PAGES_TO_SIZE (NumberOfPages d) = u64 (NumberOfPages d * 4096)).
  { unfold EFI_PAGES_TO_SIZE. by rewrite Z.shiftl_mul_pow2. }
  assert (E4 : Z.land (DescAttribute d) 0xFFFFFFFF = u32 (DescAttribute d)).
  { change 0xFFFFFFFF with (Z.ones 32). by rewrite Z.land_ones. }
  rewrite E3, E4. pose proof (u64_range (NumberOfPages d * 4096)). pose proof (u32_range (DescAttribute d)).
  destruct (write_field 8 p (PhysicalStart d) s I) as (s1 & F1 & I1 & W1 & K1); [eapply span_sub; [exact G|lia|lia]|lia|].
  rewrite (bind_eq _ _ _ _ _ F1).
  destruct (write_field 8 (p + 8) (u64 (NumberOfPages d * 4096)) s1 I1) as (s2 & F2 & I2 & W2 & K2); [eapply span_sub; [exact G|lia|lia]|lia|].
  rewrite (bind_eq _ _ _ _ _ F2).
  destruct (write_field 4 (p + 16) (DescType d) s2 I2) as (s3 & F3 & I3 & W3 & K3); [eapply span_sub; [exact G|lia|lia]|lia|].
  rewrite (bind_eq _ _ _ _ _ F3).
  destruct (write_field 4 (p + 20) (u32 (DescAttribute d)) s3 I3) as (s4 & F4 & I4 & W4 & K4); [eapply span_sub; [exact G|lia|lia]|lia|].
  exists s4. split; [done|]. split; [done|].
  change (Z.of_nat 8) with 8 in *. change (Z.of_nat 4) with 4 in *. split.
  - unfold range_in, converted. f_equal.
    + rewrite <- W1. rewrite (word_kept 8 p s3 s4 _ ltac:(eapply span_sub; [exact G|lia|lia]) K4) by lia.
      rewrite (word_kept 8 p s2 s3 _ ltac:(eapply span_sub; [exact G|lia|lia]) K3) by lia.
      apply (word_kept 8 p s1 s2 _ ltac:(eapply span_sub; [exact G|lia|lia]) K2). lia.
    + rewrite <- W2. rewrite (word_kept 8 (p + 8) s3 s4 _ ltac:(eapply span_sub; [exact G|lia|lia]) K4) by lia.
      apply (word_kept 8 (p + 8) s2 s3 _ ltac:(eapply span_sub; [exact G|lia|lia]) K3). lia.
    + rewrite <- W3. apply (word_kept 4 (p + 16) s3 s4 _ ltac:(eapply span_sub; [exact G|lia|lia]) K4). lia.
    + exact W4.
  - intros b Gb Nb. rewrite K4, K3, K2, K1 by (done || lia). done.
Qed.

(** ** The conversion *)

Section Convert.
Context (s : BOOT_MEMORY_SNAPSHOT) (k : Z) (w0 : W).
Context (Hk : MapSize s = k * DescriptorSize s) (K0 : 0 <= k) (D0 : 40 <= DescriptorSize s) (Kb : MapSize s + DescriptorSize s < 2 ^ 64).
Context (C0 : 0 <= RangeCapacity s).
Context (Gm : span (good := good) (MapBuffer s) (MapBuffer s + MapSize s)).
Context (Gr : span (good := good) (Ranges s) (Ranges s + 24 * RangeCapacity s)).
Context (Dj : MapBuffer s + MapSize s <= Ranges s \/ Ranges s + 24 * RangeCapacity s <= MapBuffer s).

Definition descriptor_at (i : Z) : Z := MapBuffer s + i * DescriptorSize s.

(** The first [i] ranges are the first [i] descriptors; nothing else has
    changed. *)
Record converted_to (i : Z) (w : W) : Prop := {
  ct_inv : inv w;
  ct_ranges : forall j, 0 <= j < i -> range_in (view w) (Ranges s + 24 * j) = converted (descriptor_in (view w0) (descriptor_at j));
  ct_kept : forall b, good b -> ~ Ranges s <= b < Ranges s + 24 * i -> view w b = view w0 b }.

Lemma descriptor_in_ext (f g : Z -> Z) p : (forall b, p <= b < p + 40 -> f b = g b) -> descriptor_in f p = descriptor_in g p.
Proof using. intros E. unfold descriptor_in. f_equal; apply word_ext; intros b Hb; apply E; lia. Qed.
Lemma range_in_ext (f g : Z -> Z) p : (forall b, p <= b < p + 24 -> f b = g b) -> range_in f p = range_in g p.
Proof using. intros E. unfold range_in. f_equal; apply word_ext; intros b Hb; apply E; lia. Qed.

Lemma convert_loop_view n : forall i w, Z.of_nat n = RangeCapacity s - i -> 0 <= i -> converted_to i w -> i <= Z.min k (RangeCapacity s) ->
  exists w', convert_loop n s (i * DescriptorSize s) i w = Ret (Z.min k (RangeCapacity s)) w' /\
    converted_to (Z.min k (RangeCapacity s)) w'.
Proof using V Hk K0 D0 Kb C0 Gm Gr Dj.
  induction n as [|n IH]; intros i w Hn Hi C Lm; cbn [convert_loop]; rewrite Hk.
  { assert (i = Z.min k (RangeCapacity s)) as <- by lia. exists w. split; [|done]. by destruct (_ <? _). }
  destruct (Z.ltb_spec (i * DescriptorSize s) (k * DescriptorSize s)) as [L|L].
  2: { assert (i = Z.min k (RangeCapacity s)) as <- by nia. by exists w. }
  assert (Lk : i < k) by nia. destruct C as [I R K].
  assert (Gd : span (good := good) (descriptor_at i) (descriptor_at i + 40)).
  { unfold descriptor_at. eapply span_sub; [exact Gm|nia|rewrite Hk; nia]. }
  rewrite (bind_eq _ _ _ _ _ (read_descriptor_view (MapBuffer s + i * DescriptorSize s) w I Gd)).
  destruct (write_range_view (Ranges s + 24 * i) (descriptor_in (view w) (descriptor_at i)) w I) as (w1 & E1 & I1 & R1 & K1);
    [eapply span_sub; [exact Gr|lia|lia]|by apply descriptor_in_ok|].
  unfold sizeof_PHYSICAL_MEMORY_RANGE. fold (descriptor_at i). rewrite (bind_eq _ _ _ _ _ E1).
  rewrite u64_small by nia. replace (i * DescriptorSize s + DescriptorSize s) with ((i + 1) * DescriptorSize s) by lia.
  apply IH; [lia|lia| |lia]. constructor; [done| |].
  - intros j Hj. destruct (Z.eq_dec j i) as [->|N].
    + rewrite R1. f_equal. apply descriptor_in_ext. intros b Hb. apply K; [by apply Gd|].
      unfold descriptor_at in Hb. rewrite Hk in *. nia.
    + rewrite <- R by lia. apply range_in_ext. intros b Hb. apply K1; [apply Gr|]; lia.
  - intros b Gb Nb. rewrite K1 by (done || lia). apply K; (done || lia).
Qed.

Lemma ConvertMemoryMap_view : inv w0 -> exists w', ConvertMemoryMap s w0 = Ret (set_range_count (Z.min k (RangeCapacity s)) s) w' /\
  converted_to (Z.min k (RangeCapacity s)) w'.
Proof using V Hk K0 D0 Kb C0 Gm Gr Dj.
  intros I. unfold ConvertMemoryMap.
  destruct (convert_loop_view (Z.to_nat (RangeCapacity s)) 0 w0) as (w' & E & C); [lia|lia| |lia|].
  { constructor; [done|lia|done]. }
  rewrite Z.mul_0_l in E. rewrite (bind_eq _ _ _ _ _ E). by exists w'.
Qed.

(** ** The kernel's reading *)

(** The highest end of the descriptors from [i] on. *)
Definition range_end (r : PHYSICAL_MEMORY_RANGE) : Z := u64 (RangeBase r + RangeLength r).
Fixpoint top_of (n : nat) (i top : Z) : Z :=
  match n with
  | O => top
  | Datatypes.S n => top_of n (i + 1) (Z.max top (range_end (converted (descriptor_in (view w0) (descriptor_at i)))))
  end.

Lemma memory_top_view n : forall i top w, converted_to (i + Z.of_nat n) w -> 0 <= i -> i + Z.of_nat n <= RangeCapacity s ->
  memory_top n (Ranges s + 24 * i) top w = Ret (top_of n i top) w.
Proof using V Gr.
  induction n as [|n IH]; intros i top w C Hi Lc; [done|]. cbn [memory_top top_of]. pose proof (ct_inv _ _ C) as I.
  assert (G : span (good := good) (Ranges s + 24 * i) (Ranges s + 24 * i + 24)) by (eapply span_sub; [exact Gr|lia|lia]).
  unfold read_u64.
  rewrite (bind_eq _ _ _ _ _ (read_le_view 8 (Ranges s + 24 * i) w I ltac:(eapply span_sub; [exact G|lia|lia]))).
  rewrite (bind_eq _ _ _ _ _ (read_le_view 8 (Ranges s + 24 * i + 8) w I ltac:(eapply span_sub; [exact G|lia|lia]))).
  pose proof (ct_ranges _ _ C i ltac:(lia)) as R. rewrite <- R.
  unfold sizeof_PHYSICAL_MEMORY_RANGE. replace (Ranges s + 24 * i + 24) with (Ranges s + 24 * (i + 1)) by lia.
  rewrite IH; [|by replace (i + 1 + Z.of_nat n) with (i + Z.of_nat (Datatypes.S n)) by lia|lia|lia].
  f_equal. f_equal. unfold range_end, range_in. cbn [RangeBase RangeLength].
  destruct (Z.gtb_spec (u64 (word 8 (view w) (Ranges s + 24 * i) + word 8 (view w) (Ranges s + 24 * i + 8))) top); lia.
Qed.
End Convert.

(** C31: the memory map reaches the kernel. Converting the firmware's map -
    descriptors of any size the firmware chooses - ends, writes the array of ranges
    and nothing else, fills as many ranges as there are descriptors, up to the
    capacity of the array, the i-th with the i-th descriptor's start, size in bytes, type and attributes; and
    the kernel's HAL, reading the array back, finds the highest end of the converted
    descriptors as the top of memory. *)
Theorem ConvertMemoryMap_kernel s k w : inv w -> MapSize s = k * DescriptorSize s -> 0 <= k -> 40 <= DescriptorSize s ->
  MapSize s + DescriptorSize s < 2 ^ 64 -> 0 <= RangeCapacity s ->
  span (good := good) (MapBuffer s) (MapBuffer s + MapSize s) ->
  span (good := good) (Ranges s) (Ranges s + 24 * RangeCapacity s) ->
  MapBuffer s + MapSize s <= Ranges s \/ Ranges s + 24 * RangeCapacity s <= MapBuffer s ->
  let n := Z.min k (RangeCapacity s) in
  exists w', ConvertMemoryMap s w = Ret (set_range_count n s) w' /\ inv w' /\
    (forall b, good b -> ~ Ranges s <= b < Ranges s + 24 * n -> view w' b = view w b) /\
    (forall i, 0 <= i < n -> range_in (view w') (Ranges s + 24 * i) = converted (descriptor_in (view w) (descriptor_at s i))) /\
    memory_top (Z.to_nat n) (Ranges s) 0 w' = Ret (top_of s w (Z.to_nat n) 0 0) w'.
Proof using V.
  intros I Hk K0 D0 Kb C0 Gm Gr Dj n.
  destruct (ConvertMemoryMap_view s k w Hk K0 D0 Kb C0 Gm Gr Dj I) as (w' & E & C). exists w'. split; [done|].
  split; [apply C|]. split; [apply C|]. split; [apply C|].
  pose proof (memory_top_view s w Gr (Z.to_nat n) 0 0 w') as T. rewrite Z.mul_0_r, Z.add_0_r in T. apply T; [|lia|lia].
  rewrite Z2Nat.id by lia. exact C.
Qed.
End View.

(** ** Witness: a map of 48-byte descriptors, the second above the first *)

Definition map_memory : mem := store_map 0x800000 2 ∅.
Definition map_snapshot : BOOT_MEMORY_SNAPSHOT :=
  {| MapBuffer := 0x800000; MapBufferSize := 864; MapSize := 96; MapKey := 7; DescriptorSize := 48;
     DescriptorVersion := 1; Ranges := 0x801000; RangeCapacity := 18; RangeCount := 0 |}.

Lemma map_memory_ok : mem_ok map_memory.
Proof. unfold map_memory, store_map, store_descriptor, store64, store32. cbn [foldl seq]. repeat apply store_le_ok. apply empty_ok. Qed.

Lemma ConvertMemoryMap_kernel_witness : exists m',
  ConvertMemoryMap map_snapshot map_memory = Ret (set_range_count 2 map_snapshot) m' /\ mem_ok m' /\
  (forall b, True -> ~ 0x801000 <= b < 0x801000 + 24 * 2 -> load8 m' b = load8 map_memory b) /\
  (forall i, 0 <= i < 2 ->
     range_in (load8 m') (0x801000 + 24 * i) = converted (descriptor_in (load8 map_memory) (descriptor_at map_snapshot i))) /\
  memory_top 2 0x801000 0 m' = Ret (top_of (view := load8) map_snapshot map_memory 2 0 0) m'.
Proof.
  apply (ConvertMemoryMap_kernel (V := flat_view) map_snapshot 2 map_memory map_memory_ok eq_refl);
    [lia|cbn; lia|cbn; lia|cbn; lia|done|done|left; cbn; lia].
Defined.

(** The kernel sees 64 KiB above the start of the second descriptor. *)
Example map_top : top_of (view := load8) map_snapshot map_memory 2 0 0 = 0x220000.
Proof. by vm_compute. Qed.
