(* ===== verification/BootImage.v ===== *)
(** * The boot loader's kernel image: theorems

    What [ValidateKpeImage] accepts, what [LoadKpeImage] leaves in the pages it
    was given, and how its relocation compares with the one the kernel applies to
    user images. *)

From S2P Require Import Prelude CString BootProto PhysMem Kpe KpeLoad Efi Hal BootScreen Boot BootMachine.

(** ** Rounding up *)

Lemma land_le_r x m : 0 <= x -> 0 <= m -> Z.land x m <= m.
Proof.
  intros Hx Hm. assert (E : m = Z.land x m + Z.ldiff m x).
  { rewrite Z.add_nocarry_lxor, Z.lxor_lor.
    - apply Z.bits_inj'. intros i Hi. rewrite Z.lor_spec, Z.land_spec, Z.ldiff_spec.
      by destruct (Z.testbit x i), (Z.testbit m i).
    - apply Z.bits_inj'. intros i Hi. rewrite Z.land_spec, Z.land_spec, Z.ldiff_spec, Z.bits_0.
      by destruct (Z.testbit x i), (Z.testbit m i).
    - apply Z.bits_inj'. intros i Hi. rewrite Z.land_spec, Z.land_spec, Z.ldiff_spec, Z.bits_0.
      by destruct (Z.testbit x i), (Z.testbit m i). }
  assert (0 <= Z.ldiff m x) by (apply Z.ldiff_nonneg; lia). lia.
Qed.

(** [x & ~m] on 64 bits. *)
Lemma land_lnot64 x m : 0 <= x < 2 ^ 64 -> 0 <= m < 2 ^ 64 -> Z.land x (lnot64 m) = x - Z.land x m.
Proof.
  intros Hx Hm. assert (D : Z.land (Z.land x m) (Z.land x (lnot64 m)) = 0).
  { apply Z.bits_inj'. intros i Hi. unfold lnot64. change 18446744073709551615 with (Z.ones 64).
    rewrite !Z.land_spec, Z.lxor_spec, Z.bits_0, Z.testbit_ones_nonneg by lia.
    destruct (Z.ltb_spec i 64); [by destruct (Z.testbit x i), (Z.testbit m i)|].
    rewrite (testbit_small x 64 i) by lia. done. }
  assert (E : x = Z.land x m + Z.land x (lnot64 m)); [|lia].
  rewrite Z.add_nocarry_lxor, Z.lxor_lor by done.
  apply Z.bits_inj'. intros i Hi. unfold lnot64. change 18446744073709551615 with (Z.ones 64).
  rewrite Z.lor_spec, !Z.land_spec, Z.lxor_spec, Z.testbit_ones_nonneg by lia.
  destruct (Z.ltb_spec i 64); [by destruct (Z.testbit x i), (Z.testbit m i)|].
  rewrite (testbit_small x 64 i) by lia. done.
Qed.

(** Whatever the alignment, a power of two or not. *)
Lemma AlignUp64_bounds v a : 0 <= v -> 0 < a -> v + a <= 2 ^ 63 -> v <= AlignUp64 v a < v + a.
Proof.
  intros Hv Ha Hs. unfold AlignUp64. destruct (Z.eqb_spec a 0); [lia|].
  rewrite (u64_small (v + a)), !u64_small by lia. rewrite land_lnot64 by lia.
  pose proof (land_le_r (v + a - 1) (a - 1) ltac:(lia) ltac:(lia)).
  assert (0 <= Z.land (v + a - 1) (a - 1)) by (apply Z.land_nonneg; lia). lia.
Qed.

Section View.
Context {W : Type} {inv : W -> Prop} {view : W -> Z -> Z} {good : Z -> Prop}
  `{V : ByteView W inv view good} `{PortIo W} `{Firmware W}.

(** ** What is accepted *)

(** A section's place in the image and its bytes in the file. *)
Record section_accepted (ImageFileSize : Z) (Opt : KPE_OPTIONAL_HEADER64) (x : KPE_SECTION_HEADER) : Prop := {
  sa_address : SecVirtualAddress x < SizeOfImage Opt;
  sa_span : SecVirtualAddress x + AlignUp64 (SecVirtualSize x) (SectionAlignment Opt) <= SizeOfImage Opt;
  sa_raw : raw_inside ImageFileSize x }.

Record kernel_accepted (f : Z -> Z) (Bytes ImageFileSize : Z) (Nt : KPE_NT_HEADERS64) (Sections : Z) : Prop := {
  ka_dos : sizeof_KPE_DOS_HEADER <= ImageFileSize;
  ka_magic : e_magic (dos_in f Bytes) = KPE_DOS_MAGIC;
  ka_nt : Nt = nt_in f (Bytes + e_lfanew (dos_in f Bytes));
  ka_nt_inside : e_lfanew (dos_in f Bytes) + sizeof_KPE_NT_HEADERS64 <= ImageFileSize;
  ka_signature : Signature Nt = KPE_SIGNATURE;
  ka_machine : Machine (FileHeader Nt) = KPE_MACHINE_AUR64;
  ka_opt_size : sizeof_KPE_OPTIONAL_HEADER64 <= SizeOfOptionalHeader (FileHeader Nt);
  ka_opt_magic : OptMagic (OptionalHeader Nt) = KPE_OPT_MAGIC_AUR64;
  ka_subsystem : Subsystem (OptionalHeader Nt) = KPE_SUBSYSTEM_NATIVE_KERNEL;
  ka_alignments : SectionAlignment (OptionalHeader Nt) <> 0 /\ FileAlignment (OptionalHeader Nt) <> 0;
  ka_sections : NumberOfSections (FileHeader Nt) <> 0;
  ka_entry : AddressOfEntryPoint (OptionalHeader Nt) < SizeOfImage (OptionalHeader Nt);
  ka_rvas : NumberOfRvaAndSizes (OptionalHeader Nt) <= KPE_NUMBEROF_DIRECTORY_ENTRIES;
  ka_table : Sections = Bytes + e_lfanew (dos_in f Bytes) + 24 + SizeOfOptionalHeader (FileHeader Nt);
  ka_table_inside : Sections + NumberOfSections (FileHeader Nt) * 40 <= Bytes + ImageFileSize;
  ka_each : forall k, 0 <= k < NumberOfSections (FileHeader Nt) ->
    section_accepted ImageFileSize (OptionalHeader Nt) (section_in f Sections k) }.

Lemma FileRangeValid_raw size x : 0 <= PointerToRawData x -> 0 <= SizeOfRawData x -> SizeOfRawData x <> 0 ->
  FileRangeValid size (PointerToRawData x) (SizeOfRawData x) = true <-> raw_inside size x.
Proof using.
  intros P0 R0 N. unfold FileRangeValid, raw_inside.
  destruct (Z.gtb_spec (PointerToRawData x) size); [split; [done|lia]|].
  destruct (Z.gtb_spec (SizeOfRawData x) (size - PointerToRawData x)); split; (done || lia).
Qed.

Lemma validate_sections_view n : forall t k size Opt s, inv s -> 0 < SectionAlignment Opt < 2 ^ 32 ->
  span (good := good) (t + k * 40) (t + (k + Z.of_nat n) * 40) ->
  exists b, validate_sections n t k size Opt s = Ret b s /\
    (b = true <-> forall j, k <= j < k + Z.of_nat n -> section_accepted size Opt (section_in (view s) t j)).
Proof using V.
  induction n as [|n IH]; intros t k size Opt s I Al G; cbn [validate_sections].
  { exists true. split; [done|]. split; [intros _ j Hj; lia|done]. }
  assert (G1 : span (good := good) (t + k * 40) (t + k * 40 + 40)) by (eapply span_sub; [exact G|lia|lia]).
  rewrite (bind_eq _ _ _ _ _ (read_section_view t k s I G1)).
  destruct (section_range t k s I G1) as (R0 & R1 & R2 & R3 & _).
  destruct (IH t (k + 1) size Opt s I Al ltac:(eapply span_sub; [exact G|lia|lia])) as (b & Eb & Hb).
  set (x := section_in (view s) t k) in *.
  assert (Split : (forall j, k <= j < k + Z.of_nat (Datatypes.S n) -> section_accepted size Opt (section_in (view s) t j)) <->
    section_accepted size Opt x /\
    forall j, k + 1 <= j < k + 1 + Z.of_nat n -> section_accepted size Opt (section_in (view s) t j)).
  { split.
    - intros A. split; [apply A; lia|]. intros j Hj. apply A. lia.
    - intros [A1 A2] j Hj. destruct (Z.eq_dec j k) as [->|]; [done|]. apply A2. lia. }
  setoid_rewrite Split. clear Split. rewrite Z.geb_leb.
  assert (No : ~ section_accepted size Opt x -> exists b0, Ret false s = Ret b0 s /\
    (b0 = true <-> section_accepted size Opt x /\
       (forall j, k + 1 <= j < k + 1 + Z.of_nat n -> section_accepted size Opt (section_in (view s) t j)))).
  { intros N. exists false. split; [done|]. split; [done|]. by intros [A _]. }
  destruct (Z.leb_spec (SizeOfImage Opt) (SecVirtualAddress x)); [apply No; intros [? _ _]; lia|].
  pose proof (AlignUp64_bounds (SecVirtualSize x) (SectionAlignment Opt) ltac:(lia) ltac:(lia) ltac:(lia)) as [A1 A2].
  cbv zeta. rewrite u64_small by lia.
  destruct (Z.gtb_spec (SecVirtualAddress x + AlignUp64 (SecVirtualSize x) (SectionAlignment Opt)) (SizeOfImage Opt));
    [apply No; intros [_ ? _]; lia|].
  assert (Yes : raw_inside size x -> section_accepted size Opt x) by by constructor.
  assert (Go : raw_inside size x -> exists b0, validate_sections n t (k + 1) size Opt s = Ret b0 s /\
    (b0 = true <-> section_accepted size Opt x /\
       (forall j, k + 1 <= j < k + 1 + Z.of_nat n -> section_accepted size Opt (section_in (view s) t j)))).
  { intros Rw. exists b. split; [done|]. rewrite Hb. split; [by intros A; split; [apply Yes|]|by intros [_ A]]. }
  destruct (Z.eqb_spec (SizeOfRawData x) 0) as [E0|E0]; [apply Go; by left|].
  pose proof (FileRangeValid_raw size x ltac:(lia) ltac:(lia) E0) as Fr.
  destruct (FileRangeValid size (PointerToRawData x) (SizeOfRawData x)); cbn [negb]; [by apply Go, Fr|].
  apply No. intros [_ _ Rw]. by apply Fr in Rw.
Qed.

Lemma refused {A} f Bytes size (s : A) : (forall Nt T, ~ kernel_accepted f Bytes size Nt T) ->
  exists o, Ret (None : option (KPE_NT_HEADERS64 * Z)) s = Ret o s /\
    forall Nt T, o = Some (Nt, T) <-> kernel_accepted f Bytes size Nt T.
Proof using. intros N. exists None. split; [done|]. intros Nt T. split; [done|]. intros A'. by destruct (N Nt T). Qed.

Lemma ValidateKpeImage_view s Bytes size : inv s -> 0 <= size < 2 ^ 63 -> span (good := good) Bytes (Bytes + size) ->
  exists o, ValidateKpeImage Bytes size s = Ret o s /\
    forall Nt T, o = Some (Nt, T) <-> kernel_accepted (view s) Bytes size Nt T.
Proof using V.
  intros I Sz G. unfold ValidateKpeImage. unfold sizeof_KPE_DOS_HEADER.
  destruct (Z.ltb_spec size 64).
  { apply refused. intros Nt T [D _ _ _ _ _ _ _ _ _ _ _ _ _ _ _]. unfold sizeof_KPE_DOS_HEADER in D. lia. }
  rewrite (bind_eq _ _ _ _ _ (read_dos_view Bytes s I ltac:(eapply span_sub; [exact G|lia|unfold sizeof_KPE_DOS_HEADER; lia]))).
  set (D := dos_in (view s) Bytes). destruct (Z.eqb_spec (e_magic D) KPE_DOS_MAGIC); cbn [negb].
  2: { apply refused. intros Nt T [? ? -> ? ? ? ? ? ? ? ? ? ? ? ? ?]. done. }
  assert (0 <= e_lfanew D) by (apply (word_range 4); [done|eapply span_sub; [exact G|lia|lia]]).
  destruct (Z.gtb_spec (e_lfanew D + sizeof_KPE_NT_HEADERS64) size).
  { apply refused. intros Nt T [? ? -> ? ? ? ? ? ? ? ? ? ? ? ? ?]. subst D. lia. }
  assert (Gn : span (good := good) (Bytes + e_lfanew D) (Bytes + e_lfanew D + sizeof_KPE_NT_HEADERS64))
    by (eapply span_sub; [exact G|lia|lia]).
  rewrite (bind_eq _ _ _ _ _ (read_nt_view (Bytes + e_lfanew D) s I Gn)). cbv zeta.
  set (N := nt_in (view s) (Bytes + e_lfanew D)). destruct (nt_in_range _ s I Gn) as [R1 R2 R3 _ R4 _ _ _ _].
  fold N in R1, R2, R3, R4.
  assert (Ra : 0 <= SectionAlignment (OptionalHeader N) < 2 ^ 32).
  { apply (word_range 4); [done|]. eapply span_sub; [exact Gn|lia|].
    unfold sizeof_KPE_NT_HEADERS64, sizeof_KPE_FILE_HEADER, sizeof_KPE_OPTIONAL_HEADER64. lia. }
  match goal with |- context [if ?c then ret None else _] => destruct c eqn:C end.
  { apply refused. intros Nt T [? ? -> ? ? ? ? ? ? [? ?] ? ? ? ? ? ?]. subst D N.
    rewrite !orb_true_iff, !negb_true_iff, !Z.eqb_neq, !Z.eqb_eq, Z.ltb_lt, Z.geb_le, Z.gtb_lt in C.
    intuition lia. }
  rewrite !orb_false_iff, !negb_false_iff, !Z.eqb_eq, !Z.eqb_neq, Z.ltb_ge, Z.geb_leb, Z.leb_gt, Z.gtb_ltb, Z.ltb_ge in C.
  destruct C as ((((((((C1 & C2) & C3) & C4) & C5) & C6) & C7) & C8) & C9).
  unfold sizeof_KPE_FILE_HEADER, sizeof_KPE_SECTION_HEADER.
  set (off := e_lfanew D + 4 + 20 + SizeOfOptionalHeader (FileHeader N)).
  destruct (Z.gtb_spec (off + NumberOfSections (FileHeader N) * 40) size).
  { apply refused. intros Nt T [? ? -> ? ? ? ? ? ? ? ? ? ? ? ? ?]. subst D N. lia. }
  destruct (validate_sections_view (Z.to_nat (NumberOfSections (FileHeader N))) (Bytes + off) 0 size (OptionalHeader N) s I
    ltac:(lia)) as (b & Eb & Hb); [eapply span_sub; [exact G|unfold off; lia|unfold off in *; lia]|].
  rewrite (bind_eq _ _ _ _ _ Eb). rewrite Z.add_0_l, Z2Nat.id in Hb by lia.
  exists (if b then Some (N, Bytes + off) else None). split; [done|]. intros Nt T. split.
  - destruct b; [|done]. intros [= <- <-].
    constructor; fold D; fold N; unfold off in *; first [done | lia | by apply Hb].
  - intros [? ? -> ? ? ? ? ? ? ? ? ? ? -> ? Each]. fold D in Each. fold N in Each.
    replace (Bytes + e_lfanew D + 24 + SizeOfOptionalHeader (FileHeader N)) with (Bytes + off) in Each
      by (unfold off; lia).
    apply Hb in Each. rewrite Each. do 2 f_equal. fold D. fold N. unfold off. lia.
Qed.
(** ** The image in its pages *)

Lemma set_bytes_view n : forall D k v s, inv s -> 0 <= v < 256 -> span (good := good) (D + k) (D + k + Z.of_nat n) ->
  exists s', set_bytes n D k v s = Ret tt s' /\ inv s' /\
    forall b, good b -> view s' b = if (D + k <=? b) && (b <? D + k + Z.of_nat n) then v else view s b.
Proof using V.
  induction n as [|n IH]; intros D k v s I Hv G; cbn [set_bytes].
  { exists s. split; [done|]. split; [done|]. intros b _.
    destruct (Z.leb_spec (D + k) b), (Z.ltb_spec b (D + k + Z.of_nat 0)); try done. lia. }
  destruct (view_write (D + k) v s I (G (D + k) ltac:(lia)) Hv) as (s1 & E1 & I1 & V1). rewrite (bind_eq _ _ _ _ _ E1).
  destruct (IH D (k + 1) v s1 I1 Hv) as (s2 & E2 & I2 & V2); [eapply span_sub; [exact G|lia|lia]|].
  exists s2. split; [done|]. split; [done|]. intros b Gb. rewrite (V2 b Gb), (V1 b Gb).
  destruct (Z.leb_spec (D + (k + 1)) b), (Z.leb_spec (D + k) b), (Z.ltb_spec b (D + (k + 1) + Z.of_nat n)),
    (Z.ltb_spec b (D + k + Z.of_nat (Datatypes.S n))), (Z.eqb_spec (D + k) b); cbn [andb]; try done; lia.
Qed.

Lemma SetMem_view D n v s : inv s -> 0 <= v < 256 -> 0 <= n -> span (good := good) D (D + n) ->
  exists s', SetMem D n v s = Ret tt s' /\ inv s' /\
    forall b, good b -> view s' b = if (D <=? b) && (b <? D + n) then v else view s b.
Proof using V.
  intros I Hv Hn G. destruct (set_bytes_view (Z.to_nat n) D 0 v s I Hv) as (s' & E & I' & V');
    [rewrite Z2Nat.id, Z.add_0_r by done; done|].
  exists s'. split; [done|]. split; [done|]. rewrite Z2Nat.id, Z.add_0_r in V' by done. exact V'.
Qed.

Lemma CopyMem_view D Sr n s : inv s -> 0 <= n -> span (good := good) D (D + n) -> span (good := good) Sr (Sr + n) ->
  (D + n <= Sr \/ Sr + n <= D) ->
  exists s', CopyMem D Sr n s = Ret tt s' /\ inv s' /\
    forall b, good b -> view s' b = if (D <=? b) && (b <? D + n) then view s (Sr + (b - D)) else view s b.
Proof using V.
  intros I Hn GD GS Dj. destruct (copy_bytes_view (V := V) (Z.to_nat n) D Sr 0 s I) as (s' & E & I' & V');
    rewrite ?Z2Nat.id, ?Z.add_0_r by done; [done|done|lia|].
  exists s'. split; [done|]. split; [done|]. rewrite Z2Nat.id, !Z.add_0_r in V' by done. exact V'.
Qed.

(** The bytes a section leaves: its contents, then zeros up to its virtual
    size; the last section that reaches a byte decides it. *)
Definition cleared (x : KPE_SECTION_HEADER) (r : Z) : bool :=
  (SecVirtualAddress x + SizeOfRawData x <=? r) && (r <? SecVirtualAddress x + SecVirtualSize x).
Definition section_byte (f : Z -> Z) (Bytes : Z) (x : KPE_SECTION_HEADER) (r v : Z) : Z :=
  if covers x r then f (Bytes + PointerToRawData x + (r - SecVirtualAddress x)) else if cleared x r then 0 else v.
Definition sections_byte (f : Z -> Z) (Bytes : Z) (l : list KPE_SECTION_HEADER) (r v : Z) : Z :=
  foldl (fun v x => section_byte f Bytes x r v) v l.

(** The contents lie in the image: the loader does not check it. *)
Definition raw_in_image (size : Z) (x : KPE_SECTION_HEADER) : Prop := SecVirtualAddress x + SizeOfRawData x <= size.

Section Load.
Context (f : Z -> Z) (Bytes ImageFileSize T base size : Z).
Context (Gb : span (good := good) Bytes (Bytes + ImageFileSize)) (Gi : span (good := good) base (base + size)).
Context (B0 : 0 <= base) (Bt : base + size < 2 ^ 64).
Context (Dj : base + size <= Bytes \/ Bytes + ImageFileSize <= base).

Abbreviation buffer_holds := (holds (view := view) f Bytes ImageFileSize).
Abbreviation same_outside := (outside_same (view := view) (good := good) base size).

Lemma buffer_kept s s' : buffer_holds s -> same_outside s s' -> buffer_holds s'.
Proof using Dj Gb. intros Hs O b Hb. rewrite O; [by apply Hs|by apply Gb|lia]. Qed.

(** A step that writes inside the image only. *)
Lemma same_inside s s' lo hi g : base <= lo -> hi <= base + size ->
  (forall b, good b -> view s' b = if (lo <=? b) && (b <? hi) then g b else view s b) -> same_outside s s'.
Proof using.
  intros L1 L2 E b Gd Nb. rewrite E by done. destruct (Z.leb_spec lo b), (Z.ltb_spec b hi); cbn [andb]; (done || lia).
Qed.

Lemma same_outside_trans s1 s2 s3 : same_outside s1 s2 -> same_outside s2 s3 -> same_outside s1 s3.
Proof using. intros A B b Gd Nb. by rewrite B, A. Qed.

(** One section. *)
Lemma load_section_view x s : inv s -> buffer_holds s ->
  0 <= SecVirtualAddress x -> 0 <= SizeOfRawData x -> 0 <= PointerToRawData x -> 0 <= SecVirtualSize x ->
  raw_inside ImageFileSize x -> raw_in_image size x -> SecVirtualAddress x + SecVirtualSize x <= size ->
  let Dest := u64 (base + SecVirtualAddress x) in
  let CopySize := SizeOfRawData x in
  let ClearSize := if SecVirtualSize x >? CopySize then SecVirtualSize x - CopySize else 0 in
  exists s', ((if CopySize >? 0 then CopyMem Dest (Bytes + PointerToRawData x) CopySize else ret tt) ;;;
              (if ClearSize >? 0 then SetMem (Dest + CopySize) ClearSize 0 else ret tt)) s = Ret tt s' /\
    inv s' /\ same_outside s s' /\
    forall r, 0 <= r < size -> view s' (base + r) = section_byte f Bytes x r (view s (base + r)).
Proof using V Gb Gi B0 Bt Dj.
  intros I Hs V0 C0 P0 Z0 Rw Ri Vi Dest CopySize ClearSize. unfold raw_in_image in Ri.
  assert (ED : Dest = base + SecVirtualAddress x) by (unfold Dest; rewrite u64_small; lia).
  assert (C : exists s1, (if CopySize >? 0 then CopyMem Dest (Bytes + PointerToRawData x) CopySize else ret tt) s = Ret tt s1 /\
    inv s1 /\ same_outside s s1 /\ forall r, 0 <= r < size -> view s1 (base + r) =
      if covers x r then f (Bytes + PointerToRawData x + (r - SecVirtualAddress x)) else view s (base + r)).
  { unfold covers. fold CopySize. destruct (Z.gtb_spec CopySize 0) as [Hc|Hc].
    - destruct Rw as [Rw|Rw]; [unfold CopySize in Hc; lia|]. rewrite ED.
      destruct (CopyMem_view (base + SecVirtualAddress x) (Bytes + PointerToRawData x) CopySize s I)
        as (s1 & E1 & I1 & V1); [lia|eapply span_sub; [exact Gi|lia|unfold CopySize; lia]
        |eapply span_sub; [exact Gb|lia|unfold CopySize; lia]|unfold CopySize; lia|].
      exists s1. split; [done|]. split; [done|].
      split; [eapply same_inside; [| |exact V1]; unfold CopySize; lia|].
      intros r Hr. rewrite V1 by (apply Gi; lia).
      destruct (Z.leb_spec (base + SecVirtualAddress x) (base + r)), (Z.leb_spec (SecVirtualAddress x) r); try lia;
      destruct (Z.ltb_spec (base + r) (base + SecVirtualAddress x + CopySize)),
        (Z.ltb_spec r (SecVirtualAddress x + CopySize)); try lia; cbn [andb]; try done.
      rewrite Hs by (unfold CopySize in *; lia). f_equal. lia.
    - exists s. split; [done|]. split; [done|]. split; [done|]. intros r Hr. assert (CopySize = 0) as -> by (unfold CopySize in *; lia).
      destruct (Z.leb_spec (SecVirtualAddress x) r), (Z.ltb_spec r (SecVirtualAddress x + 0)); try done. lia. }
  destruct C as (s1 & E1 & I1 & O1 & V1). rewrite (bind_eq _ _ _ _ _ E1).
  unfold section_byte, cleared. fold CopySize.
  destruct (Z.gtb_spec ClearSize 0) as [Hc|Hc]; unfold ClearSize in Hc |- *; destruct (Z.gtb_spec (SecVirtualSize x) CopySize);
    try lia.
  - rewrite ED. destruct (SetMem_view (base + SecVirtualAddress x + CopySize) (SecVirtualSize x - CopySize) 0 s1 I1)
      as (s2 & E2 & I2 & V2); [lia|lia|eapply span_sub; [exact Gi|unfold CopySize; lia|lia]|].
    exists s2. split; [done|]. split; [done|].
    split; [eapply same_outside_trans; [exact O1|eapply same_inside; [| |exact V2]; unfold CopySize; lia]|].
    intros r Hr. rewrite V2, V1 by (apply Gi || done; lia). unfold covers. fold CopySize.
    destruct (Z.leb_spec (base + SecVirtualAddress x + CopySize) (base + r)), (Z.leb_spec (SecVirtualAddress x + CopySize) r); try lia;
    destruct (Z.ltb_spec (base + r) (base + SecVirtualAddress x + CopySize + (SecVirtualSize x - CopySize))),
        (Z.ltb_spec r (SecVirtualAddress x + SecVirtualSize x)); try lia; cbn [andb]; try done.
    destruct (Z.ltb_spec r (SecVirtualAddress x + CopySize)); [lia|]. by rewrite andb_false_r.
  - exists s1. split; [done|]. split; [done|]. split; [done|]. intros r Hr. rewrite V1 by done.
    destruct (covers x r); [done|].
    destruct (Z.leb_spec (SecVirtualAddress x + CopySize) r), (Z.ltb_spec r (SecVirtualAddress x + SecVirtualSize x)); try done. lia.
Qed.

Lemma load_sections_view n : forall i s, inv s -> buffer_holds s -> Bytes <= T ->
  T + (Z.of_nat i + Z.of_nat n) * 40 <= Bytes + ImageFileSize ->
  Forall (fun x => raw_inside ImageFileSize x /\ raw_in_image size x /\ SecVirtualAddress x + SecVirtualSize x <= size)
    (sections_in f T i n) ->
  exists s', load_sections n base Bytes T (Z.of_nat i) s = Ret tt s' /\ inv s' /\ same_outside s s' /\
    forall r, 0 <= r < size -> view s' (base + r) = sections_byte f Bytes (sections_in f T i n) r (view s (base + r)).
Proof using V Gb Gi B0 Bt Dj.
  induction n as [|n IH]; intros i s I Hs TB TT Fl; cbn [load_sections]; [by exists s|].
  change (sections_in f T i (Datatypes.S n)) with (section_in f T (Z.of_nat i) :: sections_in f T (Datatypes.S i) n) in *.
  apply Forall_cons in Fl as [(F1 & F2 & F3) Fl].
  assert (G1 : span (good := good) (T + Z.of_nat i * 40) (T + Z.of_nat i * 40 + 40)) by (eapply span_sub; [exact Gb|lia|lia]).
  rewrite (bind_eq _ _ _ _ _ (read_section_view T (Z.of_nat i) s I G1)).
  pose proof (section_range T (Z.of_nat i) s I G1) as Rg.
  rewrite (section_in_ext T (view s) f) in * by (intros b Hb; apply Hs; lia).
  set (x := section_in f T (Z.of_nat i)) in *. cbv zeta in Rg. destruct Rg as (X0 & X1 & X2 & X3 & _).
  replace (Z.of_nat i + 1) with (Z.of_nat (Datatypes.S i)) by lia.
  destruct (load_section_view x s I Hs) as (s1 & E1 & I1 & O1 & V1); [lia..|done|done|done|].
  cbv zeta. cbv zeta in E1. rewrite <- bind_assoc, (bind_eq _ _ _ _ _ E1).
  destruct (IH (Datatypes.S i) s1 I1 (buffer_kept _ _ Hs O1) TB ltac:(lia) Fl) as (s2 & E2 & I2 & O2 & V2).
  exists s2. split; [done|]. split; [done|]. split; [by eapply same_outside_trans|].
  intros r Hr. rewrite (V2 r Hr), (V1 r Hr). done.
Qed.

(** The bytes of the loaded kernel before relocation. *)
Definition header_bytes (Opt : KPE_OPTIONAL_HEADER64) : Z := Z.min (SizeOfHeaders Opt) ImageFileSize.
Definition kernel_byte (Nt : KPE_NT_HEADERS64) (r : Z) : Z :=
  sections_byte f Bytes (sections_in f T 0 (Z.to_nat (NumberOfSections (FileHeader Nt)))) r
    (if r <? header_bytes (OptionalHeader Nt) then f (Bytes + r) else 0).

(** What the check leaves open: the headers and the contents of every section lie
    in the image. *)
Definition image_contained (Nt : KPE_NT_HEADERS64) : Prop :=
  header_bytes (OptionalHeader Nt) <= size /\
  forall k, 0 <= k < NumberOfSections (FileHeader Nt) -> raw_in_image size (section_in f T k).

Lemma copy_kernel_image_view Nt s : inv s -> buffer_holds s -> nt_range Nt -> size = SizeOfImage (OptionalHeader Nt) ->
  0 <= ImageFileSize -> Bytes <= T -> T + NumberOfSections (FileHeader Nt) * 40 <= Bytes + ImageFileSize ->
  (forall k, 0 <= k < NumberOfSections (FileHeader Nt) -> raw_inside ImageFileSize (section_in f T k) /\
     SecVirtualAddress (section_in f T k) + SecVirtualSize (section_in f T k) <= size) ->
  image_contained Nt ->
  exists s', copy_kernel_image base Bytes ImageFileSize Nt T s = Ret tt s' /\ inv s' /\ same_outside s s' /\
    forall r, 0 <= r < size -> view s' (base + r) = kernel_byte Nt r.
Proof using V Gb Gi B0 Bt Dj.
  intros I Hs [N1 _ _ _ N2 N3 _ _ _] Es F0 TB TT Each [Hh Raw]. unfold copy_kernel_image. rewrite <- Es.
  destruct (SetMem_view base size 0 s I) as (s1 & E1 & I1 & V1); [lia|lia|done|]. rewrite (bind_eq _ _ _ _ _ E1).
  assert (O1 : same_outside s s1) by (eapply same_inside; [| |exact V1]; lia).
  assert (C : exists s2, (if SizeOfHeaders (OptionalHeader Nt) >? 0 then
     CopyMem base Bytes (if SizeOfHeaders (OptionalHeader Nt) >? ImageFileSize then ImageFileSize else SizeOfHeaders (OptionalHeader Nt))
   else ret tt) s1 = Ret tt s2 /\ inv s2 /\ same_outside s1 s2 /\ forall r, 0 <= r < size -> view s2 (base + r) =
     if r <? header_bytes (OptionalHeader Nt) then f (Bytes + r) else 0).
  { assert (Z1 : forall r, 0 <= r < size -> view s1 (base + r) = 0).
    { intros r Hr. rewrite V1 by (apply Gi; lia). destruct (Z.leb_spec base (base + r)), (Z.ltb_spec (base + r) (base + size)); (done || lia). }
    unfold header_bytes in *. destruct (Z.gtb_spec (SizeOfHeaders (OptionalHeader Nt)) 0) as [Hp|Hp].
    - assert (Eh : (if SizeOfHeaders (OptionalHeader Nt) >? ImageFileSize then ImageFileSize else SizeOfHeaders (OptionalHeader Nt))
        = Z.min (SizeOfHeaders (OptionalHeader Nt)) ImageFileSize).
      { destruct (Z.gtb_spec (SizeOfHeaders (OptionalHeader Nt)) ImageFileSize); lia. }
      rewrite Eh. set (h := Z.min _ _) in *.
      destruct (CopyMem_view base Bytes h s1 I1) as (s2 & E2 & I2 & V2);
        [lia|eapply span_sub; [exact Gi|lia|lia]|eapply span_sub; [exact Gb|lia|lia]|lia|].
      exists s2. split; [done|]. split; [done|]. split; [eapply same_inside; [| |exact V2]; lia|].
      intros r Hr. rewrite V2 by (apply Gi; lia). destruct (Z.leb_spec base (base + r)); [|lia].
      destruct (Z.ltb_spec (base + r) (base + h)), (Z.ltb_spec r h); try lia; cbn [andb]; [|by apply Z1].
      rewrite (buffer_kept _ _ Hs O1) by lia. f_equal. lia.
    - exists s1. split; [done|]. split; [done|]. split; [done|]. intros r Hr. rewrite Z1 by done.
      destruct (Z.ltb_spec r (Z.min (SizeOfHeaders (OptionalHeader Nt)) ImageFileSize)); [lia|done]. }
  destruct C as (s2 & E2 & I2 & O2 & V2). rewrite (bind_eq _ _ _ _ _ E2).
  pose proof (same_outside_trans _ _ _ O1 O2) as O12.
  destruct (load_sections_view (Z.to_nat (NumberOfSections (FileHeader Nt))) 0 s2 I2 (buffer_kept _ _ Hs O12) TB)
    as (s3 & E3 & I3 & O3 & V3); [lia| |].
  { apply Forall_map, Forall_forall. intros k Hk. apply elem_of_seq in Hk.
    destruct (Each (Z.of_nat k)); [lia|]. split; [done|]. split; [apply Raw; lia|done]. }
  exists s3. split; [done|]. split; [done|]. split; [by eapply same_outside_trans|].
  intros r Hr. rewrite (V3 r Hr), (V2 r Hr). done.
Qed.
End Load.

(** ** Relocation

    Entry by entry the boot loader and the kernel do the same; they differ in the
    statuses, and in the kernel's demand that the page of every block lies in the
    image. *)

Definition boot_status (st : KSTATUS) : EFI_STATUS :=
  if st =? KSTATUS_SUCCESS then EFI_SUCCESS else if st =? KSTATUS_NOT_IMPLEMENTED then EFI_UNSUPPORTED else EFI_LOAD_ERROR.

Section Relocate.
Context (base size delta : Z) (G : span (good := good) base (base + size)).
Context (B0 : 0 < base) (Z0 : 0 <= size) (Bt : base + size + 2 ^ 34 < 2 ^ 64).

Lemma image_laws : ByteMemLaws W inv base (base + size).
Proof using V G.
  split.
  - intros a s I Ha. exists (view s a). split; [by apply view_read; [|apply G]|by apply view_range; [|apply G]].
  - intros a v s I Ha Hv. destruct (view_write a v s I (G a Ha) Hv) as (s' & E & I' & _). by exists s'.
Qed.

Lemma boot_reloc_entries_eq n : forall block entries k s,
  boot_reloc_entries n base block entries k size delta s =
    match reloc_entries n base block entries k size delta s with
    | Ret st s' => Ret (boot_status st) s'
    | Halt s' => Halt s'
    | Stuck => Stuck
    end.
Proof using B0 Z0 Bt.
  induction n as [|n IH]; intros block entries k s; cbn [boot_reloc_entries reloc_entries]; [done|].
  unfold bind. destruct (read_u16 _ s) as [e s1|s1|]; [|done|done]. cbv zeta.
  destruct (Z.shiftr e 12 =? KPE_REL_BASED_ABSOLUTE); [apply IH|].
  destruct (Z.shiftr e 12 =? KPE_REL_BASED_DIR64); cbn [negb]; [|done].
  destruct (read_u32 _ s1) as [va s2|s2|]; [|done|done]. unfold ImageRvaToPointer.
  set (rva := u32 (va + _)). assert (0 <= rva < 2 ^ 32) by apply u32_range.
  destruct (Z.gtb_spec (rva + 8) size); [done|]. rewrite u64_small by lia.
  destruct (Z.eqb_spec (base + rva) 0); [lia|].
  destruct (read_u64 _ s2) as [v s3|s3|]; [|done|done]. destruct (write_u64 _ _ s3) as [x s4|s4|]; [|done|done]. apply IH.
Qed.

(** What stops the relocation, as the image stands when it does: an entry of the
    block at [block] of a kind that is not known, or one that names a quadword which
    does not lie in the image; a block too short for its header, or one that leaves
    the directory. *)
Definition bad_entry (g : Z -> Z) (block hi : Z) (st : EFI_STATUS) : Prop := exists p,
  block + 8 <= p /\ p + 2 <= hi /\
  let e := word 2 g p in
  ((Z.shiftr e 12 <> KPE_REL_BASED_ABSOLUTE /\ Z.shiftr e 12 <> KPE_REL_BASED_DIR64 /\ st = EFI_UNSUPPORTED) \/
   (Z.shiftr e 12 = KPE_REL_BASED_DIR64 /\ size < u32 (word 4 g block + Z.land e 0x0FFF) + 8 /\ st = EFI_LOAD_ERROR)).

Definition bad_block (g : Z -> Z) (lo hi : Z) (st : EFI_STATUS) : Prop := exists c, lo <= c /\ c + 8 <= hi /\
  ((st = EFI_LOAD_ERROR /\ (word 4 g (c + 4) < 8 \/ hi < c + word 4 g (c + 4))) \/ bad_entry g c hi st).

Lemma boot_reloc_entries_reason n : forall block k hi s, inv s -> base <= block -> hi <= base + size -> 0 <= k ->
  block + 8 + 2 * (k + Z.of_nat n) <= hi ->
  exists st s', boot_reloc_entries n base block (block + 8) k size delta s = Ret st s' /\ inv s' /\
    (st = EFI_SUCCESS \/ bad_entry (view s') block hi st).
Proof using V G B0 Z0 Bt.
  induction n as [|n IH]; intros block k hi s I L1 L2 L3 L4; cbn [boot_reloc_entries]; [by eexists _, s; auto|].
  rewrite u64_small by lia. set (p := block + 8 + 2 * k).
  unfold read_u16, read_u32, read_u64, write_u64.
  rewrite (bind_eq _ _ _ _ _ (read_le_view 2 p s I ltac:(eapply span_sub; [exact G|lia|lia]))). cbv zeta.
  set (e := word 2 (view s) p).
  destruct (Z.eqb_spec (Z.shiftr e 12) KPE_REL_BASED_ABSOLUTE); [apply (IH block (k + 1)); (done || lia)|].
  destruct (Z.eqb_spec (Z.shiftr e 12) KPE_REL_BASED_DIR64); cbn [negb].
  2: { eexists _, s. split; [done|]. split; [done|]. right. exists p. split; [lia|]. split; [lia|]. by left. }
  rewrite (bind_eq _ _ _ _ _ (read_le_view 4 block s I ltac:(eapply span_sub; [exact G|lia|lia]))).
  unfold ImageRvaToPointer. set (rva := u32 (word 4 (view s) block + Z.land e 0x0FFF)).
  assert (0 <= rva < 2 ^ 32) by apply u32_range.
  destruct (Z.gtb_spec (rva + 8) size).
  { eexists _, s. split; [done|]. split; [done|]. right. exists p. split; [lia|]. split; [lia|]. right. fold e rva.
    split; [done|]. split; [lia|done]. }
  rewrite u64_small by lia. destruct (Z.eqb_spec (base + rva) 0); [lia|].
  assert (Gp : span (good := good) (base + rva) (base + rva + Z.of_nat 8)) by (eapply span_sub; [exact G|lia|lia]).
  rewrite (bind_eq _ _ _ _ _ (read_le_view 8 _ s I Gp)).
  destruct (write_le_ok (L := image_laws) 8 (base + rva) (u64 (word 8 (view s) (base + rva) + delta)) s I
    ltac:(lia) ltac:(lia)) as (s1 & E1 & I1).
  rewrite (bind_eq _ _ _ _ _ E1). apply (IH block (k + 1)); (done || lia).
Qed.

(** The cursor of one turn: the block's size and place. *)
Lemma reloc_cursor cursor end_ s : inv s -> base <= cursor -> cursor + 8 <= end_ -> end_ <= base + size ->
  exists sz va, read_u32 (cursor + 4) s = Ret sz s /\ read_u32 cursor s = Ret va s /\ 0 <= sz < 2 ^ 32.
Proof using V G.
  intros I L1 L2 L3. exists (word 4 (view s) (cursor + 4)), (word 4 (view s) cursor). unfold read_u32.
  split; [apply read_le_view; [done|eapply span_sub; [exact G|lia|lia]]|].
  split; [apply read_le_view; [done|eapply span_sub; [exact G|lia|lia]]|].
  apply (word_range 4); [done|eapply span_sub; [exact G|lia|lia]].
Qed.

Lemma boot_reloc_blocks_ok fuel : forall cursor end_ s, inv s -> base <= cursor -> end_ <= base + size ->
  cursor < 2 ^ 64 - 2 ^ 33 ->
  (Z.max 0 (end_ - cursor) + 1 < Z.of_nat fuel \/
   (Z.max 0 (end_ - cursor) < Z.of_nat fuel /\ exists v, read_u32 (u64 (cursor + 4)) s = Ret v s /\ v < 8)) ->
  exists st s', boot_reloc_blocks fuel base cursor end_ size delta s = Ret st s' /\ inv s' /\
    (st = EFI_SUCCESS \/ bad_block (view s') cursor end_ st).
Proof using V G B0 Z0 Bt.
  induction fuel as [|fuel IH]; intros cursor end_ s I L1 L2 L3 F; [exfalso; lia|]. cbn [boot_reloc_blocks].
  unfold sizeof_KPE_BASE_RELOCATION_BLOCK. rewrite (u64_small (cursor + 8)) by lia.
  destruct (Z.leb_spec (cursor + 8) end_); cbn [negb]; [|by eexists _, s; auto].
  destruct (reloc_cursor cursor end_ s I L1 ltac:(lia) L2) as (sz & va & E1 & _ & R1).
  assert (Sz : sz = word 4 (view s) (cursor + 4)).
  { unfold read_u32 in E1. rewrite (read_le_view 4 (cursor + 4) s I) in E1 by (eapply span_sub; [exact G|lia|lia]).
    by injection E1. }
  rewrite (u64_small (cursor + 4)) in * by lia. rewrite (bind_eq _ _ _ _ _ E1).
  destruct (Z.ltb_spec sz 8); [(eexists _, s; split; [done|]; split; [done|]; right; exists cursor; split; [lia|]; split; [lia|]; left; rewrite <- Sz; auto)|].
  destruct F as [F|(_ & v & Ev & Lv)]; [|exfalso; rewrite E1 in Ev; injection Ev as ->; lia].
  rewrite (u64_small (cursor + sz)) by lia.
  destruct (Z.gtb_spec (cursor + sz) end_); [(eexists _, s; split; [done|]; split; [done|]; right; exists cursor; split; [lia|]; split; [lia|]; left; rewrite <- Sz; auto)|]. cbv zeta.
  destruct (boot_reloc_entries_reason (Z.to_nat ((sz - 8) / 2)) cursor 0 end_ s I) as (st & s1 & E4 & I1 & Why);
    [lia|lia|lia|rewrite Z2Nat.id by zlia; zlia|].
  rewrite (bind_eq _ _ _ _ _ E4).
  destruct (Z.eqb_spec st EFI_SUCCESS) as [->|N]; cbn [negb].
  2: { eexists _, s1. split; [done|]. split; [done|]. right. destruct Why as [|Why]; [done|].
       exists cursor. split; [lia|]. split; [lia|]. by right. }
  destruct (reloc_cursor cursor end_ s1 I1 L1 ltac:(lia) L2) as (sz2 & va2 & E5 & _ & R5).
  rewrite (bind_eq _ _ _ _ _ E5), (u64_small (cursor + sz2)) by lia.
  destruct (Z.ltb_spec (cursor + sz2) end_).
  - destruct (IH (cursor + sz2) end_ s1 I1) as (st & s' & E & I' & Why'); [lia|lia|lia| |].
    + destruct (Z.eq_dec sz2 0) as [->|]; [|left; lia].
      right. split; [lia|]. exists 0. rewrite !Z.add_0_r, u64_small by lia. split; [done|lia].
    + exists st, s'. split; [done|]. split; [done|]. destruct Why' as [|(c & ? & ? & Why')]; [by left|].
      right. exists c. split; [lia|]. by split.
  - destruct fuel as [|fuel]; [exfalso; lia|]. cbn [boot_reloc_blocks]. unfold sizeof_KPE_BASE_RELOCATION_BLOCK.
    rewrite (u64_small (cursor + sz2 + 8)) by lia.
    destruct (Z.leb_spec (cursor + sz2 + 8) end_); [lia|]. by eexists _, s1; auto.
Qed.

(** Turn by turn: what the kernel relocates the boot loader relocates the same
    way, and the other way round unless the kernel refuses a block. *)
Lemma reloc_blocks_agree fuel : forall cursor end_ s, inv s -> base <= cursor -> end_ <= base + size ->
  cursor < 2 ^ 64 - 2 ^ 33 ->
  (forall s', reloc_blocks fuel base cursor end_ size delta s = Ret KSTATUS_SUCCESS s' ->
     boot_reloc_blocks fuel base cursor end_ size delta s = Ret EFI_SUCCESS s') /\
  (forall s', boot_reloc_blocks fuel base cursor end_ size delta s = Ret EFI_SUCCESS s' ->
     reloc_blocks fuel base cursor end_ size delta s = Ret KSTATUS_SUCCESS s' \/
     exists s2, reloc_blocks fuel base cursor end_ size delta s = Ret KSTATUS_INVALID_PARAMETER s2).
Proof using V G B0 Z0 Bt.
  induction fuel as [|fuel IH]; intros cursor end_ s I L1 L2 L3; cbn [boot_reloc_blocks reloc_blocks]; [done|].
  unfold sizeof_KPE_BASE_RELOCATION_BLOCK. rewrite (u64_small (cursor + 8)) by lia.
  destruct (Z.leb_spec (cursor + 8) end_); cbn [negb].
  2: { split; intros s' [= <-]; [done|by left]. }
  destruct (reloc_cursor cursor end_ s I L1 ltac:(lia) L2) as (sz & va & E1 & E2 & R1).
  rewrite (u64_small (cursor + 4)) in * by lia. rewrite !(bind_eq _ _ _ _ _ E1).
  destruct (Z.ltb_spec sz 8); [done|]. rewrite (bind_eq _ _ _ _ _ E2), (u64_small (cursor + sz)) by lia.
  destruct (Z.gtb_spec (cursor + sz) end_); [by destruct (va + 4096 >? size)|]. cbv zeta.
  destruct (reloc_entries_ok (L := image_laws) base size delta eq_refl eq_refl ltac:(lia) ltac:(lia)
    (Z.to_nat ((sz - 8) / 2)) cursor (cursor + 8) 0 s I) as (st & s1 & E3 & I1);
    [lia|lia|lia|lia|lia|rewrite Z2Nat.id by zlia; zlia|].
  assert (E4 := boot_reloc_entries_eq (Z.to_nat ((sz - 8) / 2)) cursor (cursor + 8) 0 s). rewrite E3 in E4.
  destruct (va + 4096 >? size); [split; [done|by right; eexists]|].
  rewrite (bind_eq _ _ _ _ _ E3), (bind_eq _ _ _ _ _ E4). unfold boot_status, ok.
  destruct (Z.eqb_spec st KSTATUS_SUCCESS) as [->|N]; cbn [negb Z.eqb EFI_SUCCESS].
  - destruct (reloc_cursor cursor end_ s1 I1 L1 ltac:(lia) L2) as (sz2 & va2 & E5 & _ & R5).
    rewrite !(bind_eq _ _ _ _ _ E5), (u64_small (cursor + sz2)) by lia.
    apply IH; (done || lia).
  - split; [intros s' [= -> _]; done|]. intros s'. destruct (st =? KSTATUS_NOT_IMPLEMENTED); cbn; intros [=].
Qed.
End Relocate.

(** Why an image that has to be relocated is not: it has no directory, the
    directory leaves the image, or something in it stops the relocation. *)
Definition bad_directory (base : Z) (Nt : KPE_NT_HEADERS64) (g : Z -> Z) (st : EFI_STATUS) : Prop :=
  let size := SizeOfImage (OptionalHeader Nt) in
  exists d, DataDirectory (OptionalHeader Nt) !! Z.to_nat KPE_DIR_BASERELOC = Some d /\
  (((DirVirtualAddress d = 0 \/ DirSize d < sizeof_KPE_BASE_RELOCATION_BLOCK) /\ st = EFI_UNSUPPORTED) \/
   (size < DirVirtualAddress d + DirSize d /\ st = EFI_LOAD_ERROR) \/
   bad_block size g (base + DirVirtualAddress d) (base + DirVirtualAddress d + DirSize d) st).

Lemma ApplyKpeBaseRelocations_ok base Nt s : inv s -> nt_range Nt ->
  span (good := good) base (base + SizeOfImage (OptionalHeader Nt)) ->
  0 < base -> base + SizeOfImage (OptionalHeader Nt) + 2 ^ 34 < 2 ^ 64 ->
  exists st s', ApplyKpeBaseRelocations base (Some Nt) s = Ret st s' /\ inv s' /\
    (st = EFI_SUCCESS \/ (base <> ImageBase (OptionalHeader Nt) /\ bad_directory base Nt (view s') st)).
Proof using V.
  intros I R G B0 Bt. unfold ApplyKpeBaseRelocations. cbv zeta. pose proof (nr_image _ R).
  destruct (Z.eqb_spec (u64 (base - ImageBase (OptionalHeader Nt))) 0) as [|N]; [by eexists _, s; auto|].
  assert (Nb : base <> ImageBase (OptionalHeader Nt)) by (intros E; by rewrite E, Z.sub_diag in N).
  destruct (lookup_lt_is_Some_2 (DataDirectory (OptionalHeader Nt)) (Z.to_nat KPE_DIR_BASERELOC)) as [d Hd].
  { rewrite (nr_dirs _ R). unfold KPE_DIR_BASERELOC. lia. }
  rewrite Hd, bind_deref. destruct (Forall_lookup_1 _ _ _ _ (nr_dir _ R) Hd) as [D1 D2].
  destruct (Z.eqb_spec (DirVirtualAddress d) 0), (Z.ltb_spec (DirSize d) sizeof_KPE_BASE_RELOCATION_BLOCK); cbn [orb].
  1-3: eexists _, s; split; [done|]; split; [done|]; right; split; [done|]; exists d; split; [done|]; left; auto.
  unfold ImageRvaToPointer.
  destruct (Z.gtb_spec (DirVirtualAddress d + DirSize d) (SizeOfImage (OptionalHeader Nt))).
  { eexists _, s; split; [done|]; split; [done|]; right; split; [done|]; exists d; split; [done|]. right; left. auto with lia. }
  rewrite (u64_small (base + DirVirtualAddress d)) by lia. destruct (Z.eqb_spec (base + DirVirtualAddress d) 0); [lia|].
  rewrite u64_small by lia.
  destruct (boot_reloc_blocks_ok base (SizeOfImage (OptionalHeader Nt)) (u64 (base - ImageBase (OptionalHeader Nt))) G B0
    ltac:(lia) Bt (Z.to_nat (DirSize d) + 2) (base + DirVirtualAddress d) (base + DirVirtualAddress d + DirSize d) s I)
    as (st & s' & E & I' & Why); [lia|lia|lia|left; lia|].
  exists st, s'. split; [exact E|]. split; [done|]. destruct Why as [|Why]; [by left|]. right. split; [done|].
  exists d. split; [done|]. by right; right.
Qed.

(** The directory passes the checks of both loaders, or fails those of both. *)
Lemma ApplyKpeBaseRelocations_agree base Nt s : inv s -> nt_range Nt ->
  span (good := good) base (base + SizeOfImage (OptionalHeader Nt)) ->
  0 < base -> base + SizeOfImage (OptionalHeader Nt) + 2 ^ 34 < 2 ^ 64 ->
  base = ImageBase (OptionalHeader Nt) \/ any_flag (DllCharacteristics (OptionalHeader Nt)) KPE_DLLCHAR_DYNAMIC_BASE = true ->
  (forall s', PspApplyUserKpeRelocations base Nt s = Ret KSTATUS_SUCCESS s' ->
     ApplyKpeBaseRelocations base (Some Nt) s = Ret EFI_SUCCESS s') /\
  (forall s', ApplyKpeBaseRelocations base (Some Nt) s = Ret EFI_SUCCESS s' ->
     PspApplyUserKpeRelocations base Nt s = Ret KSTATUS_SUCCESS s' \/
     exists s2, PspApplyUserKpeRelocations base Nt s = Ret KSTATUS_INVALID_PARAMETER s2).
Proof using V.
  intros I R G B0 Bt Dy. unfold ApplyKpeBaseRelocations, PspApplyUserKpeRelocations. cbv zeta. pose proof (nr_image _ R).
  destruct (Z.eqb_spec (u64 (base - ImageBase (OptionalHeader Nt))) 0) as [E|E].
  { split; intros s' [= <-]; [done|by left]. }
  destruct Dy as [->|Dy]; [rewrite Z.sub_diag in E; done|]. rewrite Dy. cbn [negb].
  destruct (lookup_lt_is_Some_2 (DataDirectory (OptionalHeader Nt)) (Z.to_nat KPE_DIR_BASERELOC)) as [d Hd].
  { rewrite (nr_dirs _ R). unfold KPE_DIR_BASERELOC. lia. }
  rewrite Hd, !bind_deref. destruct (Forall_lookup_1 _ _ _ _ (nr_dir _ R) Hd) as [D1 D2].
  destruct (_ || _); [done|]. unfold ImageRvaToPointer.
  destruct (Z.gtb_spec (DirVirtualAddress d + DirSize d) (SizeOfImage (OptionalHeader Nt))); [done|].
  rewrite (u64_small (base + DirVirtualAddress d)) by lia. destruct (Z.eqb_spec (base + DirVirtualAddress d) 0); [lia|].
  rewrite u64_small by lia. apply reloc_blocks_agree; (done || lia).
Qed.

(** A memory whose accesses stay in a range leaves the rest alone. *)
Lemma range_view base size s0 : span (good := good) base (base + size) ->
  ByteView W (fun x => inv x /\ outside_same (view := view) (good := good) base size s0 x) view
    (fun a => base <= a < base + size).
Proof using V.
  intros G. split.
  - intros a s [I _] Ha. apply view_read; [done|by apply G].
  - intros a s [I _] Ha. apply view_range; [done|by apply G].
  - intros a v s [I O] Ha Hv. destruct (view_write a v s I (G a Ha) Hv) as (s' & E & I' & Vw). exists s'.
    split; [done|]. split.
    + split; [done|]. intros b Gd Nb. rewrite (Vw b Gd). destruct (Z.eqb_spec a b) as [->|]; [done|]. by apply O.
    + intros b Hb. by apply Vw, G.
Qed.

End View.

(** Whatever stops the relocation is an error to the firmware. *)
Lemma bad_directory_error base Nt g st : bad_directory base Nt g st -> EFI_ERROR st = true.
Proof.
  intros (d & _ & [(_ & ->)|[(_ & ->)|(c & _ & _ & [[-> _]|(p & _ & _ & [(_ & _ & ->)|(_ & _ & ->)])])]]); reflexivity.
Qed.

(** ** The whole loader *)

Section Loader.
Context {W : Type} {inv : W -> Prop} {view : W -> Z -> Z} {good : Z -> Prop}
  `{V : ByteView W inv view good} `{PortIo W} `{Firmware W}.

(** What the firmware's page allocator does: it gives pages that nobody uses - the
    file's buffer is somewhere else - at the address asked for if it has to, and
    leaves memory alone. *)
Record free_pages (Bytes ImageFileSize pages base : Z) : Prop := {
  fp_span : span (good := good) base (base + pages * 4096);
  fp_range : 0 < base /\ base + pages * 4096 + 2 ^ 34 < 2 ^ 64;
  fp_apart : base + pages * 4096 <= Bytes \/ Bytes + ImageFileSize <= base }.

Definition pages_allocated (Bytes ImageFileSize : Z) : Prop := forall type n a s, inv s -> 0 <= n <= 2 ^ 20 -> exists st b s',
  fw_AllocatePages type EfiLoaderCode n a s = Ret (st, b) s' /\ inv s' /\ (forall x, good x -> view s' x = view s x) /\
  (EFI_ERROR st = false -> free_pages Bytes ImageFileSize n b /\ (type = AllocateAddress -> b = a)).

Lemma size_to_pages n : 0 <= n < 2 ^ 32 -> n <= EFI_SIZE_TO_PAGES n * 4096 /\ 0 <= EFI_SIZE_TO_PAGES n <= 2 ^ 20.
Proof using. intros Hn. unfold EFI_SIZE_TO_PAGES. rewrite u64_small, Z.shiftr_div_pow2 by lia. change (2 ^ 12) with 4096. zlia. Qed.

(** The firmware has no pages for the image: not where it was linked, nor, if it can
    be relocated, anywhere. *)
Definition pages_refused (Nt : KPE_NT_HEADERS64) (s : W) (st : EFI_STATUS) (s' : W) : Prop :=
  let Opt := OptionalHeader Nt in
  let Pages := EFI_SIZE_TO_PAGES (SizeOfImage Opt) in
  EFI_ERROR st = true /\
  exists st1 b1 s1, fw_AllocatePages AllocateAddress EfiLoaderCode Pages (ImageBase Opt) s = Ret (st1, b1) s1 /\
    EFI_ERROR st1 = true /\
    (if any_flag (DllCharacteristics Opt) KPE_DLLCHAR_DYNAMIC_BASE
     then exists b2, fw_AllocatePages AllocateAnyPages EfiLoaderCode Pages 0 s1 = Ret (st, b2) s'
     else st = st1 /\ s' = s1).

Lemma allocate_image_view Bytes n Nt s : pages_allocated Bytes n -> inv s -> BS (efi_get s) <> 0 -> nt_range Nt ->
  exists st b s', allocate_image Nt s = Ret (st, b) s' /\ inv s' /\ (forall x, good x -> view s' x = view s x) /\
    (EFI_ERROR st = false -> free_pages Bytes n (EFI_SIZE_TO_PAGES (SizeOfImage (OptionalHeader Nt))) b /\
       (b = ImageBase (OptionalHeader Nt) \/
        any_flag (DllCharacteristics (OptionalHeader Nt)) KPE_DLLCHAR_DYNAMIC_BASE = true)) /\
    (EFI_ERROR st = true -> pages_refused Nt s st s').
Proof using.
  intros Al I Nb R. unfold allocate_image. cbv zeta. pose proof (size_to_pages _ (nr_image _ R)) as [_ Np].
  assert (Eb : boot_services s = Ret (BS (efi_get s)) s).
  { unfold boot_services. rewrite bind_gets. by destruct (Z.eqb_spec (BS (efi_get s)) 0). }
  rewrite (bind_eq _ _ _ _ _ Eb).
  destruct (Al AllocateAddress (EFI_SIZE_TO_PAGES (SizeOfImage (OptionalHeader Nt))) (ImageBase (OptionalHeader Nt)) s I Np)
    as (st & b & s1 & E1 & I1 & V1 & P1). rewrite (bind_eq _ _ _ _ _ E1). cbn beta iota.
  destruct (EFI_ERROR st) eqn:Es.
  - unfold pages_refused, any_flag.
    destruct (Z.eqb_spec (Z.land (DllCharacteristics (OptionalHeader Nt)) KPE_DLLCHAR_DYNAMIC_BASE) 0).
    { exists st, 0, s1. split; [done|]. split; [done|]. split; [done|]. rewrite Es. split; [done|]. intros _.
      split; [done|]. by exists st, b, s1. }
    destruct (Al AllocateAnyPages (EFI_SIZE_TO_PAGES (SizeOfImage (OptionalHeader Nt))) 0 s1 I1 Np)
      as (st2 & b2 & s2 & E2 & I2 & V2 & P2). exists st2, b2, s2. split; [done|]. split; [done|].
    split; [intros x Hx; by rewrite V2, V1|]. split.
    { intros E. destruct (P2 E) as [Fp _]. by split; [|right]. }
    intros E. split; [done|]. exists st, b, s1. split; [done|]. split; [done|]. by exists b2.
  - exists st, b, s1. split; [done|]. split; [done|]. split; [done|]. rewrite Es. split; [|done]. intros _.
    destruct (P1 eq_refl) as [Fp Eb1]. split; [done|]. left. by apply Eb1.
Qed.

(** What is in place when the loader says so. *)
Record loaded (f : Z -> Z) (Bytes n T : Z) (Nt : KPE_NT_HEADERS64) (k : kernel_image) (s' : W) : Prop := {
  ld_pages : free_pages Bytes n (EFI_SIZE_TO_PAGES (kiSize k)) (kiBase k);
  ld_size : kiSize k = SizeOfImage (OptionalHeader Nt);
  ld_entry : kiEntry k = kiBase k + AddressOfEntryPoint (OptionalHeader Nt) /\ kiBase k <= kiEntry k < kiBase k + kiSize k;
  ld_base : kiBase k = ImageBase (OptionalHeader Nt) \/
    any_flag (DllCharacteristics (OptionalHeader Nt)) KPE_DLLCHAR_DYNAMIC_BASE = true;
  ld_delta : kiDelta k = s64 (kiBase k - ImageBase (OptionalHeader Nt));
  ld_bytes : exists s1, inv s1 /\ (forall r, 0 <= r < kiSize k -> view s1 (kiBase k + r) = kernel_byte f Bytes n T Nt r) /\
    ApplyKpeBaseRelocations (kiBase k) (Some Nt) s1 = Ret EFI_SUCCESS s' }.

(** How the load of an accepted image ends: without pages; loaded; or stopped by
    the relocation.  Outside its pages nothing changes. *)
Inductive load_outcome (s : W) (Bytes n T : Z) (Nt : KPE_NT_HEADERS64)
  : EFI_STATUS -> option kernel_image -> W -> Prop :=
| load_no_pages st s' :
    pages_refused Nt s st s' -> (forall x, good x -> view s' x = view s x) ->
    load_outcome s Bytes n T Nt st None s'
| load_done k s' :
    outside_same (view := view) (good := good) (kiBase k) (SizeOfImage (OptionalHeader Nt)) s s' ->
    loaded (view s) Bytes n T Nt k s' ->
    load_outcome s Bytes n T Nt EFI_SUCCESS (Some k) s'
| load_not_relocated base st s' :
    free_pages Bytes n (EFI_SIZE_TO_PAGES (SizeOfImage (OptionalHeader Nt))) base ->
    base <> ImageBase (OptionalHeader Nt) ->
    any_flag (DllCharacteristics (OptionalHeader Nt)) KPE_DLLCHAR_DYNAMIC_BASE = true ->
    bad_directory base Nt (view s') st ->
    outside_same (view := view) (good := good) base (SizeOfImage (OptionalHeader Nt)) s s' ->
    load_outcome s Bytes n T Nt st None s'.

Lemma accepted_facts s Bytes n Nt T : inv s -> 0 <= n < 2 ^ 63 -> span (good := good) Bytes (Bytes + n) ->
  kernel_accepted (view s) Bytes n Nt T ->
  nt_range Nt /\ Bytes <= T /\ T + NumberOfSections (FileHeader Nt) * 40 <= Bytes + n /\
  (forall k, 0 <= k < NumberOfSections (FileHeader Nt) -> raw_inside n (section_in (view s) T k) /\
     SecVirtualAddress (section_in (view s) T k) + SecVirtualSize (section_in (view s) T k) <= SizeOfImage (OptionalHeader Nt)).
Proof using V.
  intros I Hn G [D _ En Ni _ _ _ _ _ [Al _] _ _ _ Et Ti Each].
  unfold sizeof_KPE_DOS_HEADER in D. assert (0 <= e_lfanew (dos_in (view s) Bytes))
    by (apply (word_range 4); [done|eapply span_sub; [exact G|lia|lia]]).
  assert (Gn : span (good := good) (Bytes + e_lfanew (dos_in (view s) Bytes))
    (Bytes + e_lfanew (dos_in (view s) Bytes) + sizeof_KPE_NT_HEADERS64)) by (eapply span_sub; [exact G|lia|lia]).
  assert (R : nt_range Nt) by (rewrite En; by apply nt_in_range). pose proof (nr_opt _ R). pose proof (nr_sections _ R).
  assert (Ra : 0 <= SectionAlignment (OptionalHeader Nt) < 2 ^ 32).
  { rewrite En. apply (word_range 4); [done|]. eapply span_sub; [exact Gn|lia|].
    unfold sizeof_KPE_NT_HEADERS64, sizeof_KPE_FILE_HEADER, sizeof_KPE_OPTIONAL_HEADER64. lia. }
  split; [done|]. split; [lia|]. split; [done|]. intros k Hk. destruct (Each k Hk) as [_ Sp Rw]. split; [done|].
  destruct (section_range T k s I ltac:(eapply span_sub; [exact G|lia|lia])) as (V0 & _).
  pose proof (AlignUp64_bounds (SecVirtualSize (section_in (view s) T k)) (SectionAlignment (OptionalHeader Nt))
    ltac:(lia) ltac:(lia) ltac:(lia)). lia.
Qed.

Lemma LoadKpeImage_view s Bytes n : inv s -> 0 <= n < 2 ^ 63 -> span (good := good) Bytes (Bytes + n) ->
  BS (efi_get s) <> 0 -> pages_allocated Bytes n ->
  (forall Nt T, kernel_accepted (view s) Bytes n Nt T ->
     image_contained (view s) n T (SizeOfImage (OptionalHeader Nt)) Nt) ->
  exists st o s', LoadKpeImage Bytes n s = Ret (st, o) s' /\ inv s' /\ (o = None <-> EFI_ERROR st = true) /\
    ((forall Nt T, ~ kernel_accepted (view s) Bytes n Nt T) -> st = EFI_LOAD_ERROR /\ s' = s) /\
    (forall Nt T, kernel_accepted (view s) Bytes n Nt T -> load_outcome s Bytes n T Nt st o s').
Proof using V.
  intros I Hn G Nb Al Ct. unfold LoadKpeImage. destruct (ValidateKpeImage_view s Bytes n I Hn G) as (o & Eo & Ho).
  rewrite (bind_eq _ _ _ _ _ Eo). destruct o as [[Nt T]|].
  2: { exists EFI_LOAD_ERROR, None, s. split; [done|]. split; [done|]. split; [done|]. split; [done|].
       intros Nt T A. by apply Ho in A. }
  assert (A : kernel_accepted (view s) Bytes n Nt T) by by apply Ho.
  assert (U : forall Nt' T', kernel_accepted (view s) Bytes n Nt' T' -> Nt' = Nt /\ T' = T).
  { intros Nt' T' A'. apply Ho in A'. by injection A' as -> ->. }
  destruct (accepted_facts s Bytes n Nt T I Hn G A) as (R & TB & TT & Each). pose proof (nr_image _ R) as Rs.
  destruct (allocate_image_view Bytes n Nt s Al I Nb R) as (st & b & s1 & E1 & I1 & V1 & P1 & No).
  cbv zeta. rewrite (bind_eq _ _ _ _ _ E1). cbn beta iota.
  assert (N0 : ~ (forall Nt' T', ~ kernel_accepted (view s) Bytes n Nt' T')) by (intros N; by apply (N Nt T)).
  destruct (EFI_ERROR st) eqn:Es.
  { exists st, None, s1. split; [done|]. split; [done|]. split; [done|]. split; [done|].
    intros Nt' T' A'. destruct (U _ _ A') as [-> ->]. apply load_no_pages; [by apply No|done]. }
  destruct (P1 eq_refl) as [Fp Fb]. pose proof Fp as [Fs [F0 Ft] Fa]. set (size := SizeOfImage (OptionalHeader Nt)) in *.
  pose proof (size_to_pages size Rs) as [Sp _].
  assert (Gi : span (good := good) b (b + size)) by (eapply span_sub; [exact Fs|lia|lia]).
  destruct (copy_kernel_image_view (view s) Bytes n T b size G Gi ltac:(lia) ltac:(lia) ltac:(lia) Nt s1 I1)
    as (s2 & E2 & I2 & O2 & V2); [intros x Hx; by apply V1, G|done|done|lia|done|done|exact Each|by apply Ct|].
  rewrite (bind_eq _ _ _ _ _ E2).
  destruct (ApplyKpeBaseRelocations_ok (V := range_view b size s2 Gi) b Nt s2) as (st3 & s3 & E3 & [I3 O3] & Why);
    [by split|done|by intros a Ha|done|fold size; lia|].
  rewrite (bind_eq _ _ _ _ _ E3).
  assert (Os : outside_same (view := view) (good := good) b size s s3).
  { intros x Hx Nx. rewrite O3, O2 by done. by apply V1. }
  pose proof (ka_entry _ _ _ _ _ A) as Ae. pose proof (nr_entry _ R) as Re. fold size in Ae.
  destruct Why as [->|(Nm & Bad)].
  - eexists _, _, s3. split; [reflexivity|]. split; [done|]. split; [done|]. split; [done|].
    intros Nt' T' A'. destruct (U _ _ A') as [-> ->]. apply load_done; [done|].
    rewrite u64_small by lia. constructor; cbn [kiBase kiSize kiEntry kiDelta]; [done|done|lia|done|done|].
    by exists s2.
  - rewrite (bad_directory_error _ _ _ _ Bad). exists st3, None, s3. split; [done|]. split; [done|].
    split; [by rewrite (bad_directory_error _ _ _ _ Bad)|]. split; [done|].
    intros Nt' T' A'. destruct (U _ _ A') as [-> ->]. apply (load_not_relocated _ _ _ _ _ b); (done || by destruct Fb).
Qed.

(** ** Properties *)

(** C33: the check of the kernel image reads the file's buffer and nothing
    else, changes nothing, never leaves the buffer whatever it holds, and accepts
    exactly the images whose headers and section table lie in the buffer and carry
    the format's magic numbers, the machine and the subsystem of a kernel and
    alignments, with an entry point in the image and sections whose virtual range
    lies in the image and whose contents lie in the buffer. *)
Theorem ValidateKpeImage_decides s Bytes size : inv s -> 0 <= size < 2 ^ 63 ->
  span (good := good) Bytes (Bytes + size) ->
  exists o, ValidateKpeImage Bytes size s = Ret o s /\
    forall Nt T, o = Some (Nt, T) <-> kernel_accepted (view s) Bytes size Nt T.
Proof using V. exact (ValidateKpeImage_view s Bytes size). Qed.

(** C5: loading the kernel always ends.  An image that is not accepted is
    refused with nothing changed.  For an accepted image whose headers and section
    contents lie in the image - the loader does not check that, and
    [LoadKpeImage_overruns] writes past the pages without it - the load ends in one
    of three ways.  The firmware has no pages where the image was linked and, if it
    can be relocated, none anywhere: its status, and memory is as it was.  The image
    is not at its linked address, and its relocation directory is missing, leaves
    the image, or holds a block or an entry that stops the relocation.  Or the load
    succeeds: the pages are the image's, at the address it was linked for unless it
    can be relocated, the entry point lies in the image, and the image is what the
    file says, byte for byte: each byte comes from the last section that reaches it,
    its contents or the zeros after them, or else from the headers, or else is zero;
    relocated from there.  It writes inside the image's pages only. *)
Theorem LoadKpeImage_loads s Bytes n : inv s -> 0 <= n < 2 ^ 63 -> span (good := good) Bytes (Bytes + n) ->
  BS (efi_get s) <> 0 -> pages_allocated Bytes n ->
  (forall Nt T, kernel_accepted (view s) Bytes n Nt T ->
     image_contained (view s) n T (SizeOfImage (OptionalHeader Nt)) Nt) ->
  exists st o s', LoadKpeImage Bytes n s = Ret (st, o) s' /\ inv s' /\ (o = None <-> EFI_ERROR st = true) /\
    ((forall Nt T, ~ kernel_accepted (view s) Bytes n Nt T) -> st = EFI_LOAD_ERROR /\ s' = s) /\
    (forall Nt T, kernel_accepted (view s) Bytes n Nt T -> load_outcome s Bytes n T Nt st o s').
Proof using V. exact (LoadKpeImage_view s Bytes n). Qed.

(** C30: the boot loader and the kernel relocate alike.  An image that the kernel
    would relocate as a user image, the boot loader relocates to the same bytes;
    and what the boot loader relocates, the kernel relocates to the same bytes or
    refuses as malformed (it wants the page of every block inside the image). *)
Theorem ApplyKpeBaseRelocations_agrees base Nt s : inv s -> nt_range Nt ->
  span (good := good) base (base + SizeOfImage (OptionalHeader Nt)) ->
  0 < base -> base + SizeOfImage (OptionalHeader Nt) + 2 ^ 34 < 2 ^ 64 ->
  base = ImageBase (OptionalHeader Nt) \/ any_flag (DllCharacteristics (OptionalHeader Nt)) KPE_DLLCHAR_DYNAMIC_BASE = true ->
  (forall s', PspApplyUserKpeRelocations base Nt s = Ret KSTATUS_SUCCESS s' ->
     ApplyKpeBaseRelocations base (Some Nt) s = Ret EFI_SUCCESS s') /\
  (forall s', ApplyKpeBaseRelocations base (Some Nt) s = Ret EFI_SUCCESS s' ->
     PspApplyUserKpeRelocations base Nt s = Ret KSTATUS_SUCCESS s' \/
     exists s2, PspApplyUserKpeRelocations base Nt s = Ret KSTATUS_INVALID_PARAMETER s2).
Proof using V. exact (ApplyKpeBaseRelocations_agree base Nt s). Qed.
End Loader.

(** ** Witnesses: the platform of BootMachine.v, with the file at 8 GiB *)

Definition at_1mib (a : Z) : bool := a =? 0x100000.

Definition file_machine (raw : Z) : machine :=
  let m := set_m_library {| ST := 0x1000; BS := 0x2000 |} (boot_machine [] [] raw at_1mib) in
  set_m_mem (store_file 0x200000000 (kernel_fields 0x100000 raw) (m_mem m)) m.

Definition machine_ok (m : machine) : Prop := mem_ok (m_mem m) /\ m_free_at m = at_1mib.

#[local] Instance machine_view : ByteView machine machine_ok (fun m => load8 (m_mem m)) (fun _ => True).
Proof.
  split; [done|intros a s [I _] _; apply I|].
  intros a v s [I F] _ Hv. exists (set_m_mem (store8 (m_mem s) a v) s). split; [done|]. split; [split; [by apply store8_ok|done]|].
  intros b _. cbn. rewrite load8_store8. by rewrite u8_small.
Qed.

Lemma store_file_ok p l : forall m, mem_ok m -> mem_ok (store_file p l m).
Proof. unfold store_file. induction l as [|x l IH]; intros m I; [done|]. cbn [foldl]. by apply IH, store_le_ok. Qed.

Lemma file_machine_ok raw : machine_ok (file_machine raw).
Proof.
  split; [|done]. apply (store_file_ok 0x200000000 (kernel_fields 0x100000 raw) tables).
  unfold tables, store64. repeat apply store_le_ok. apply empty_ok.
Qed.

Lemma machine_pages n : 0 <= n < 2 ^ 32 -> pages_allocated (inv := machine_ok) (view := fun m => load8 (m_mem m))
  (good := fun _ => True) 0x200000000 n.
Proof.
  intros Hn type k a s [I F] Hk. cbn. unfold fw_call. rewrite F.
  destruct (decide (type = AllocateAddress)); [destruct (at_1mib a) eqn:Ea|]; eexists _, _, _;
    (split; [reflexivity|]); (split; [by split|]); (split; [done|]); cbn [fst snd]; intros E; try done.
  - apply Z.eqb_eq in Ea as ->. split; [constructor; (done || lia)|done].
  - split; [constructor; (done || lia)|done].
Qed.

Definition file_nt : KPE_NT_HEADERS64 := Eval vm_compute in nt_in (load8 (m_mem (file_machine 32))) 0x200000040.

Lemma ValidateKpeImage_decides_witness :
  exists o, ValidateKpeImage 0x200000000 416 (file_machine 32) = Ret o (file_machine 32) /\
    forall Nt T, o = Some (Nt, T) <-> kernel_accepted (load8 (m_mem (file_machine 32))) 0x200000000 416 Nt T.
Proof.
  exact (ValidateKpeImage_decides (file_machine 32) 0x200000000 416 (file_machine_ok 32) ltac:(lia) ltac:(intros a _; exact I)).
Defined.

Example file_accepted : ValidateKpeImage 0x200000000 416 (file_machine 32) = Ret (Some (file_nt, 0x200000148)) (file_machine 32).
Proof. by vm_compute. Qed.

Lemma file_services : BS (efi_get (file_machine 32)) <> 0.
Proof. intros E. by vm_compute in E. Qed.

(** Whatever is accepted is this image. *)
Lemma file_contained Nt T : kernel_accepted (load8 (m_mem (file_machine 32))) 0x200000000 416 Nt T ->
  image_contained (load8 (m_mem (file_machine 32))) 416 T (SizeOfImage (OptionalHeader Nt)) Nt.
Proof.
  destruct (ValidateKpeImage_view (file_machine 32) 0x200000000 416 (file_machine_ok 32) ltac:(lia) ltac:(intros a _; exact I))
    as (o & Eo & Ho). rewrite file_accepted in Eo. injection Eo as <-. intros A. apply Ho in A. injection A as <- <-.
  split; [by vm_compute|]. intros k Hk. assert (NumberOfSections (FileHeader file_nt) = 1) as E by by vm_compute.
  rewrite E in Hk. assert (k = 0) as -> by lia. by vm_compute.
Qed.

Lemma LoadKpeImage_loads_witness :
  exists st o s', LoadKpeImage 0x200000000 416 (file_machine 32) = Ret (st, o) s' /\ machine_ok s' /\
    (o = None <-> EFI_ERROR st = true) /\
    ((forall Nt T, ~ kernel_accepted (load8 (m_mem (file_machine 32))) 0x200000000 416 Nt T) ->
       st = EFI_LOAD_ERROR /\ s' = file_machine 32) /\
    (forall Nt T, kernel_accepted (load8 (m_mem (file_machine 32))) 0x200000000 416 Nt T ->
       load_outcome (inv := machine_ok) (view := fun m => load8 (m_mem m)) (good := fun _ => True)
         (file_machine 32) 0x200000000 416 T Nt st o s').
Proof.
  exact (LoadKpeImage_loads (file_machine 32) 0x200000000 416 (file_machine_ok 32) ltac:(lia) ltac:(intros a _; exact I)
    file_services (machine_pages 416 ltac:(lia)) file_contained).
Defined.

Lemma image_nt_range : nt_range image_nt.
Proof. constructor; cbn; try lia; repeat constructor; cbn; lia. Qed.

Lemma ApplyKpeBaseRelocations_agrees_witness :
  (forall s', PspApplyUserKpeRelocations 0x100000 image_nt image_mem = Ret KSTATUS_SUCCESS s' ->
     ApplyKpeBaseRelocations 0x100000 (Some image_nt) image_mem = Ret EFI_SUCCESS s') /\
  (forall s', ApplyKpeBaseRelocations 0x100000 (Some image_nt) image_mem = Ret EFI_SUCCESS s' ->
     PspApplyUserKpeRelocations 0x100000 image_nt image_mem = Ret KSTATUS_SUCCESS s' \/
     exists s2, PspApplyUserKpeRelocations 0x100000 image_nt image_mem = Ret KSTATUS_INVALID_PARAMETER s2).
Proof.
  exact (ApplyKpeBaseRelocations_agrees (V := flat_view) 0x100000 image_nt image_mem image_mem_ok image_nt_range
    (fun a _ => Logic.I) ltac:(lia) ltac:(cbn; lia) (or_intror eq_refl)).
Defined.

(** ** What the check leaves open

    Nothing bounds a section's contents by the image: here an image of one page
    whose section holds 3712 bytes at 0x200.  It is accepted and loaded, and the
    last byte of the section lands after the only page that was allocated. *)
Example LoadKpeImage_overruns :
  match LoadKpeImage 0x200000000 (384 + 3712) (file_machine 3712) with
  | Ret (st, Some k) m' =>
      (st =? EFI_SUCCESS) && (kiBase k =? 0x100000) && (EFI_SIZE_TO_PAGES (kiSize k) =? 1) &&
      (load8 (m_mem (file_machine 3712)) (kiBase k + 0x107F) =? 0) && (load8 (m_mem m') (kiBase k + 0x107F) =? 0x5A)
  | _ => false
  end = true.
Proof. by vm_compute. Qed.
