(* ===== verification/Syscall.v ===== *)
(** * System calls: kernel/ke/syscall.c, kernel/include/syscall.h

    The checks of user pointers, the sixteen calls and their dispatch.  Memory at
    the addresses a caller passes is reached through [ByteMem]; what the debug
    console prints goes to [HalWriteDebugString]. *)

From S2P Require Import Prelude CString BootProto Nk Ob PhysMem MmPages MmTables MmSpace MmSection MmDump.
From S2P Require Import Kpe KpeLoad Ps PsSpawn Lpc Io Hal.

(** ** Constants *)

Definition KI_SYSCALL_DEBUGPRINT_MAX : Z := 512.
Definition KI_USER_ADDRESS_TOP : Z := 0x0000800000000000.
Definition KI_KERNEL_ADDRESS_BASE : Z := 0xFFFF800000000000.

Definition NkSysDebugPrint : Z := 0.
Definition NkSysYield : Z := 1.
Definition NkSysSend : Z := 2.
Definition NkSysReceive : Z := 3.
Definition NkSysMapMemory : Z := 4.
Definition NkSysExitThread : Z := 5.
Definition NkSysCreatePort : Z := 6.
Definition NkSysCloseHandle : Z := 7.
Definition NkSysCreateSection : Z := 8.
Definition NkSysMapSection : Z := 9.
Definition NkSysCreateProcessFromBuffer : Z := 10.
Definition NkSysOpen : Z := 11.
Definition NkSysRead : Z := 12.
Definition NkSysClose : Z := 13.
Definition NkSysCreateProcessFromFileHandle : Z := 14.
Definition NkSysReadConsole : Z := 15.

(** ** User pointers *)

Definition KipIsRangeReadable (Address Length_ : Z) : bool :=
  if (Address =? 0) || (Length_ =? 0) then false
  else
    let End_ := u64 (Address + Length_) in
    if End_ <? Address then false
    else if (Address <? KI_USER_ADDRESS_TOP) && (End_ <=? KI_USER_ADDRESS_TOP) then true
    else if (Address >=? KI_KERNEL_ADDRESS_BASE) && (End_ >=? Address) then true
    else false.

Definition KipIsRangeWritable (Address Length_ : Z) : bool := KipIsRangeReadable Address Length_.

(** [(uint64_t)(int64_t)Status] *)
Definition status_result (Status : KSTATUS) : Z := u64 Status.

(** Where the pool of address spaces lies, for the dumps that print addresses. *)
Class KernelLayout := { address_of_space : option nat -> Z }.

(** ** The commands of the debug console *)

Inductive debug_command :=
| CmdHelp | CmdMem | CmdPs | CmdHandles | CmdObjects | CmdIpc | CmdFiles | CmdVm | CmdPanic | CmdFaults | CmdDumpVa.

#[global] Instance debug_command_eq_dec : EqDecision debug_command.
Proof. solve_decision. Defined.

(** [Buffer] starts with a command or with a colon and the command. *)
Definition command (Buffer : cstr) (x : String.string) : bool :=
  negb (KipStartsWith Buffer (str x) =? 0) || negb (KipStartsWith Buffer (58 :: str x) =? 0).

(** Which branch of [KipSysDebugPrint] a text takes. *)
Definition command_of (Buffer : cstr) : option debug_command :=
  if command Buffer "help" then Some CmdHelp
  else if command Buffer "mem" then Some CmdMem
  else if command Buffer "ps" then Some CmdPs
  else if command Buffer "handles" then Some CmdHandles
  else if command Buffer "objects" then Some CmdObjects
  else if command Buffer "ipc" then Some CmdIpc
  else if command Buffer "files" then Some CmdFiles
  else if command Buffer "vm" then Some CmdVm
  else if command Buffer "panic" then Some CmdPanic
  else if negb (KipStartsWith Buffer (str ":mm.faults") =? 0) then Some CmdFaults
  else if negb (KipStartsWith Buffer (str ":mm.dumpva ") =? 0) then Some CmdDumpVa
  else None.

Section World.
Context {W : Type} `{IoWorld W} `{HalWorld W} `{PortIo W} `{ByteMem W} `{KernelLayout}.

(** [for (Index = 0; Index < n; Index++) Buffer[Index] = Input[Index]] and back. *)
Fixpoint copy_in (n : nat) (Address : Z) : M W (list Z) :=
  match n with
  | O => ret []
  | S n => b <- read_u8 Address ;; r <- copy_in n (u64 (Address + 1)) ;; ret (b :: r)
  end.
Fixpoint copy_out (l : list Z) (Address : Z) : M W unit :=
  match l with
  | [] => ret tt
  | b :: l => write_u8 Address b ;;; copy_out l (u64 (Address + 1))
  end.

(** ** The debug console *)

Fixpoint print_lines (l : list cstr) : M W unit :=
  match l with
  | [] => ret tt
  | x :: l => HalWriteDebugString (Some x) ;;; print_lines l
  end.

(** A dump of the present state. *)
Definition print (f : W -> option (list cstr)) : M W unit :=
  l <- gets f ;; l <- deref l ;; print_lines l.

(** [Process->AddressSpaceRoot] of the current process. *)
Definition current_space : M W (option nat) :=
  Process <- ps PsGetCurrentProcess ;;
  match Process with
  | None => ret None
  | Some p => q <- ps (get_process p) ;; ret (AddressSpaceRoot q)
  end.

Definition print_regions (a : option nat) : M W unit :=
  match a with
  | None => ret tt
  | Some i => print (fun w => a ← gMmAddressSpacePool (mm (mm_get w)) !! i; MmDumpAddressSpaceRegions (Some a))
  end.
Definition print_faults : M W unit := print (fun w => MmDumpRecentFaults (mm (mm_get w))).

Definition say (x : String.string) : M W unit := HalWriteDebugString (Some (str x ++ [10])).

(** The body of a branch. *)
Definition do_command (c : debug_command) (Buffer : cstr) : M W unit :=
  match c with
  | CmdHelp =>
      say "debug commands: help mem ps handles ipc vm panic files objects" ;;;
      say "debug commands: :mm.faults :mm.dumpva <hex>"
  | CmdMem => a <- current_space ;; say "[DBG] mem" ;;; print_regions a ;;; print_faults
  | CmdPs => say "[DBG] ps" ;;; print (fun w => PsDumpSchedulerState (ps_get w) (ob_get w) address_of_space)
  | CmdHandles => say "[DBG] handles" ;;; print (fun w => ObDumpHandles (ob_get w))
  | CmdObjects => say "[DBG] objects" ;;; print (fun w => ObDumpObjects (ob_get w))
  | CmdIpc => say "[DBG] ipc" ;;; print (fun w => LpcDumpState (lpc_get w) (ob_get w))
  | CmdFiles => say "[DBG] files" ;;; print (fun w => IoDumpFiles (io_get w) (ob_get w))
  | CmdVm => a <- current_space ;; say "[DBG] vm" ;;; print_regions a
  | CmdPanic => say "[DBG] panic requested" ;;; print_faults ;;; HalDisableInterrupts ;;; halt
  | CmdFaults => print_faults
  | CmdDumpVa =>
      a <- current_space ;;
      match a, KipParseHex64 (Some (drop 11 Buffer)) with
      | Some i, Some Va =>
          print (fun w => a ← gMmAddressSpacePool (mm (mm_get w)) !! i; MmDumpAddressTranslation (mm_get w) (Some a) Va)
      | _, _ => ret tt
      end
  end.

Definition run_command (Buffer : cstr) : M W unit :=
  match command_of Buffer with
  | Some c => do_command c Buffer
  | None => ret tt
  end.

Definition KipSysDebugPrint (StringAddress Length_ : Z) : M W Z :=
  if (Length_ >? KI_SYSCALL_DEBUGPRINT_MAX) || negb (KipIsRangeReadable StringAddress Length_)
  then ret (status_result KSTATUS_INVALID_PARAMETER)
  else
    Buffer <- copy_in (Z.to_nat Length_) StringAddress ;;
    HalWriteDebugString (Some Buffer) ;;;
    run_command Buffer ;;;
    ret (status_result KSTATUS_SUCCESS).

(** ** Threads and memory *)

Definition KipSysYield : M W Z := Status <- PsYieldThread ;; ret (status_result Status).

Definition KipSysExitThread (ExitCode : Z) : M W Z :=
  Status <- PsExitCurrentThread ExitCode ;; ret (status_result Status).

Definition KipSysMapMemory (Flags_ : Z) : M W Z :=
  AddressSpace <- current_space ;;
  match AddressSpace with
  | None => ret (status_result KSTATUS_INVALID_PARAMETER)
  | Some a =>
      let RequestedSize := if Flags_ =? 0 then MM_PAGE_SIZE else Flags_ in
      dlet (Status, VirtualBase) := mmM (MmMapAnonymous (Some a) RequestedSize (Z.lor MM_PROT_READ MM_PROT_WRITE)
                                           MM_REGION_FLAG_LAZY true) ;;
      if negb (ok Status) then ret (status_result Status) else deref VirtualBase
  end.

(** ** Messages *)

Definition KipSysSend (Handle MessageAddress MessageLength Wait : Z) : M W Z :=
  if (MessageLength >? NK_MESSAGE_PAYLOAD_BYTES) || (MessageAddress =? 0)
  then ret (status_result KSTATUS_INVALID_PARAMETER)
  else if negb (KipIsRangeReadable MessageAddress MessageLength) then ret (status_result KSTATUS_INVALID_PARAMETER)
  else
    Input <- copy_in (Z.to_nat MessageLength) MessageAddress ;;
    let Message := {| Opcode := 0; Length := MessageLength;
                      Payload := Input ++ replicate (Z.to_nat (NK_MESSAGE_PAYLOAD_BYTES - MessageLength)) 0 |} in
    Status <- LpcSendByHandle (u32 Handle) (Some Message) (u32 Wait) ;;
    ret (status_result Status).

Definition KipSysReceive (Handle MessageAddress MessageLength Wait : Z) : M W Z :=
  if (MessageLength >? NK_MESSAGE_PAYLOAD_BYTES) || (MessageAddress =? 0)
  then ret (status_result KSTATUS_INVALID_PARAMETER)
  else if negb (KipIsRangeWritable MessageAddress MessageLength) then ret (status_result KSTATUS_INVALID_PARAMETER)
  else
    dlet (Status, Message) := LpcReceiveByHandle (u32 Handle) true (u32 Wait) ;;
    if negb (ok Status) then ret (status_result Status)
    else
      Message <- deref Message ;;
      if Length Message >? MessageLength then ret (status_result KSTATUS_INVALID_PARAMETER)
      else copy_out (take (Z.to_nat (Length Message)) (Payload Message)) MessageAddress ;;; ret (Length Message).

(** ** Handles *)

Definition KipSysCreatePort (DesiredAccess : Z) : M W Z :=
  dlet (Status, Handle) := LpcCreatePortHandle (u32 DesiredAccess) true ;;
  if negb (ok Status) then ret (status_result Status) else deref Handle.

Definition KipSysCloseHandle (HandleValue_ : Z) : M W Z :=
  Status <- LpcCloseHandle (u32 HandleValue_) ;; ret (status_result Status).

Definition KipSysCreateSection (Size_ DesiredAccess OutHandleAddress : Z) : M W Z :=
  if (OutHandleAddress =? 0) || negb (KipIsRangeWritable OutHandleAddress 4)
  then ret (status_result KSTATUS_INVALID_PARAMETER)
  else
    let AccessMask := if DesiredAccess =? 0 then MM_SECTION_ACCESS_ALL else u32 DesiredAccess in
    dlet (Status, Handle) := MmCreateSectionHandle Size_ AccessMask true ;;
    if negb (ok Status) then ret (status_result Status)
    else
      Handle <- deref Handle ;;
      write_le 4 OutHandleAddress Handle ;;;
      ret (status_result KSTATUS_SUCCESS).

Definition KipSysMapSection (HandleValue_ Protection OutAddress : Z) : M W Z :=
  if (OutAddress =? 0) || negb (KipIsRangeWritable OutAddress 8)
  then ret (status_result KSTATUS_INVALID_PARAMETER)
  else
    AddressSpace <- current_space ;;
    match AddressSpace with
    | None => ret (status_result KSTATUS_INVALID_PARAMETER)
    | Some a =>
        dlet (Status, VirtualBase) := MmMapSectionHandle (Some a) (u32 HandleValue_) (u32 Protection) true ;;
        if negb (ok Status) then ret (status_result Status)
        else
          VirtualBase <- deref VirtualBase ;;
          write_u64 OutAddress VirtualBase ;;;
          ret (status_result KSTATUS_SUCCESS)
    end.

(** ** Processes and files *)

(** [if (Address != 0) *(uint64_t * )Address = v;] *)
Definition store_result (Address : Z) (v : option Z) : M W unit :=
  if Address =? 0 then ret tt else v <- deref v ;; write_u64 Address v.

(** The two optional result pointers. *)
Definition results_writable (OutProcessIdAddress OutEntryAddress : Z) : bool :=
  ((OutProcessIdAddress =? 0) || KipIsRangeWritable OutProcessIdAddress 8) &&
  ((OutEntryAddress =? 0) || KipIsRangeWritable OutEntryAddress 8).

Definition KipSysCreateProcessFromBuffer (ImageAddress ImageSize OutProcessIdAddress OutEntryAddress : Z) : M W Z :=
  if (ImageAddress =? 0) || (ImageSize =? 0) then ret (status_result KSTATUS_INVALID_PARAMETER)
  else if negb (KipIsRangeReadable ImageAddress ImageSize) then ret (status_result KSTATUS_INVALID_PARAMETER)
  else if negb (results_writable OutProcessIdAddress OutEntryAddress)
  then ret (status_result KSTATUS_INVALID_PARAMETER)
  else
    dlet (Status, (ProcessId_, Entry)) := PsSpawnUserKpeFromBuffer (Some ImageAddress) ImageSize true true ;;
    if negb (ok Status) then ret (status_result Status)
    else
      store_result OutProcessIdAddress ProcessId_ ;;;
      store_result OutEntryAddress Entry ;;;
      ret (status_result KSTATUS_SUCCESS).

Definition KipSysOpen (PathAddress PathLength DesiredAccess : Z) : M W Z :=
  if (PathAddress =? 0) || (PathLength =? 0) || (PathLength >=? 128)
  then ret (status_result KSTATUS_INVALID_PARAMETER)
  else if negb (KipIsRangeReadable PathAddress PathLength) then ret (status_result KSTATUS_INVALID_PARAMETER)
  else
    LocalPath <- copy_in (Z.to_nat PathLength) PathAddress ;;
    dlet (Status, Handle) := IoOpenPath (Some (cstr_of LocalPath)) (u32 DesiredAccess) true ;;
    if negb (ok Status) then ret (status_result Status) else deref Handle.

Definition KipSysRead (HandleValue_ Offset BufferAddress BufferLength : Z) : M W Z :=
  if (BufferAddress =? 0) || (BufferLength =? 0) then ret (status_result KSTATUS_INVALID_PARAMETER)
  else if negb (KipIsRangeWritable BufferAddress BufferLength) then ret (status_result KSTATUS_INVALID_PARAMETER)
  else
    dlet (Status, BytesRead) := IoReadFileHandle (u32 HandleValue_) Offset BufferAddress BufferLength true ;;
    if negb (ok Status) then ret (status_result Status) else deref BytesRead.

Definition KipSysClose (HandleValue_ : Z) : M W Z :=
  Status <- IoCloseFileHandle (u32 HandleValue_) ;; ret (status_result Status).

Definition KipSysCreateProcessFromFileHandle (HandleValue_ OutProcessIdAddress OutEntryAddress : Z) : M W Z :=
  if negb (results_writable OutProcessIdAddress OutEntryAddress)
  then ret (status_result KSTATUS_INVALID_PARAMETER)
  else
    dlet (Status, (ProcessId_, Entry)) := IoSpawnProcessFromFileHandle (u32 HandleValue_) true true ;;
    if negb (ok Status) then ret (status_result Status)
    else
      store_result OutProcessIdAddress ProcessId_ ;;;
      store_result OutEntryAddress Entry ;;;
      ret (status_result KSTATUS_SUCCESS).

(** [while (ReadCount < BufferLength)], [n] characters of room left. *)
Fixpoint read_console (n : nat) (Buffer ReadCount : Z) : M W Z :=
  match n with
  | O => ret ReadCount
  | S n =>
      Ch <- HalTryReadConsoleChar true ;;
      match Ch with
      | None => ret ReadCount
      | Some Ch => write_u8 (u64 (Buffer + ReadCount)) Ch ;;; read_console n Buffer (ReadCount + 1)
      end
  end.

Definition KipSysReadConsole (BufferAddress BufferLength : Z) : M W Z :=
  if (BufferAddress =? 0) || (BufferLength =? 0) then ret (status_result KSTATUS_INVALID_PARAMETER)
  else if negb (KipIsRangeWritable BufferAddress BufferLength) then ret (status_result KSTATUS_INVALID_PARAMETER)
  else read_console (Z.to_nat BufferLength) BufferAddress 0.

(** ** Dispatch *)

Definition KiDispatchSystemCall (Number Arg0 Arg1 Arg2 Arg3 Arg4 Arg5 : Z) : M W Z :=
  if Number =? NkSysDebugPrint then KipSysDebugPrint Arg0 Arg1
  else if Number =? NkSysYield then KipSysYield
  else if Number =? NkSysSend then KipSysSend Arg0 Arg1 Arg2 Arg3
  else if Number =? NkSysReceive then KipSysReceive Arg0 Arg1 Arg2 Arg3
  else if Number =? NkSysMapMemory then KipSysMapMemory Arg0
  else if Number =? NkSysExitThread then KipSysExitThread Arg0
  else if Number =? NkSysCreatePort then KipSysCreatePort Arg0
  else if Number =? NkSysCloseHandle then KipSysCloseHandle Arg0
  else if Number =? NkSysCreateSection then KipSysCreateSection Arg0 Arg1 Arg2
  else if Number =? NkSysMapSection then KipSysMapSection Arg0 Arg1 Arg2
  else if Number =? NkSysCreateProcessFromBuffer then KipSysCreateProcessFromBuffer Arg0 Arg1 Arg2 Arg3
  else if Number =? NkSysOpen then KipSysOpen Arg0 Arg1 Arg2
  else if Number =? NkSysRead then KipSysRead Arg0 Arg1 Arg2 Arg3
  else if Number =? NkSysClose then KipSysClose Arg0
  else if Number =? NkSysCreateProcessFromFileHandle then KipSysCreateProcessFromFileHandle Arg0 Arg1 Arg2
  else if Number =? NkSysReadConsole then KipSysReadConsole Arg0 Arg1
  else ret (status_result KSTATUS_NOT_IMPLEMENTED).
End World.
