(* ===== verification/UserInit.v ===== *)
(** * The first user program: user/init/init.c

    The line editor of init.kpe as the code a process runs: its buffer and the
    character it reads lie in memory, everything else it does is a system call.
    [process] is that process seen from its system calls: what it prints, what the
    debug console answers to a line that is one of its commands, what it reads, when
    it yields.  The program is shown to be the editor [session], whose output keeps
    the prompt, the line and a cursor on the terminal's last row until a line asks
    the console to halt the machine.  That the calls of [process] are what the
    kernel's dispatcher does is in UserKernel.v. *)

From S2P Require Import Prelude CString PhysMem Kpe.
From S2P Require Syscall.

(** The numbers of the program's own enumeration. *)
Module User.
Definition NkSysDebugPrint : Z := 0.
Definition NkSysYield : Z := 1.
Definition NkSysExitThread : Z := 5.
Definition NkSysReadConsole : Z := 15.
End User.

(** [int $0x80]: the number and the six arguments. *)
Class UserSystem (W : Type) := { int80 : Z -> Z -> Z -> Z -> Z -> Z -> Z -> M W Z }.

(** Where the program's strings and its two arrays on the stack lie. *)
Class UserLayout := {
  Banner_at : Z;
  Prompt_at : Z;
  Hint_at : Z;
  Newline_at : Z;
  CursorOn_at : Z;
  CursorOff_at : Z;
  Bs_at : Z;
  Line_at : Z;
  Ch_at : Z }.

Definition Banner : cstr := str "init.kpe online" ++ [10].
Definition Prompt : cstr := str "NK> ".
Definition Hint : cstr := str "type 'help' for debug commands" ++ [10].
Definition Newline : cstr := [10].
Definition CursorOn : cstr := str "_".
Definition CursorOff : cstr := [8; 32; 8].
Definition Bs : cstr := [8; 32; 8].
Definition sizeof_Line : Z := 128.

(** The variables of [_start] whose address is not taken. *)
Record locals := {
  LineLen : Z;
  PromptShown : Z;
  CursorShown : Z }.

Section Program.
Context {W : Type} `{ByteMem W} `{UserSystem W} `{UserLayout}.

Definition nk_syscall (Number Arg0 Arg1 Arg2 Arg3 Arg4 Arg5 : Z) : M W Z :=
  int80 Number Arg0 Arg1 Arg2 Arg3 Arg4 Arg5.

Fixpoint strlen_loop (fuel : nat) (Text Length : Z) : M W Z :=
  match fuel with
  | O => stuck
  | S fuel => c <- read_u8 (Text + Length) ;; if c =? 0 then ret Length else strlen_loop fuel Text (Length + 1)
  end.

(** The program's strings are shorter than the fuel. *)
Definition nk_strlen (Text : Z) : M W Z := strlen_loop 64 Text 0.

Definition debug_print (Text Length : Z) : M W unit :=
  nk_syscall User.NkSysDebugPrint Text Length 0 0 0 0 ;;; ret tt.
Definition debug_string (Text : Z) : M W unit := Length <- nk_strlen Text ;; debug_print Text Length.

Definition show_cursor (v : locals) : M W locals :=
  if negb (PromptShown v =? 0) && (CursorShown v =? 0) then
    debug_print CursorOn_at 1 ;;;
    ret {| LineLen := LineLen v; PromptShown := PromptShown v; CursorShown := 1 |}
  else ret v.

(** The rest of a turn, after a character came and the cursor was erased. *)
Definition react (v : locals) : M W locals :=
  Ch <- read_u8 Ch_at ;;
  if (Ch =? 13) || (Ch =? 10) then
    debug_print Newline_at 1 ;;;
    (if negb (LineLen v =? 0) then
       write_u8 (Line_at + LineLen v) 0 ;;;
       debug_print Line_at (LineLen v) ;;;
       debug_print Newline_at 1
     else ret tt) ;;;
    ret {| LineLen := 0; PromptShown := 0; CursorShown := CursorShown v |}
  else if ((Ch =? 8) || (Ch =? 127)) && (LineLen v >? 0) then
    debug_print Bs_at 3 ;;;
    ret {| LineLen := u64 (LineLen v - 1); PromptShown := PromptShown v; CursorShown := CursorShown v |}
  else
    v <- (if (u64 (LineLen v + 1) <? sizeof_Line) && (Ch >=? 32) && (Ch <=? 126) then
            write_u8 (Line_at + LineLen v) Ch ;;;
            debug_print Ch_at 1 ;;;
            ret {| LineLen := u64 (LineLen v + 1); PromptShown := PromptShown v; CursorShown := CursorShown v |}
          else ret v) ;;
    show_cursor v.

(** One turn of the loop. *)
Definition turn (v : locals) : M W locals :=
  write_u8 Ch_at 0 ;;;
  v <- (if (LineLen v =? 0) && (PromptShown v =? 0) then
          debug_string Prompt_at ;;;
          ret {| LineLen := LineLen v; PromptShown := 1; CursorShown := CursorShown v |}
        else ret v) ;;
  v <- show_cursor v ;;
  Read <- nk_syscall User.NkSysReadConsole Ch_at 1 0 0 0 0 ;;
  if Read =? 0 then nk_syscall User.NkSysYield 0 0 0 0 0 0 ;;; ret v
  else
    v <- (if negb (CursorShown v =? 0) then
            debug_print CursorOff_at 3 ;;;
            ret {| LineLen := LineLen v; PromptShown := PromptShown v; CursorShown := 0 |}
          else ret v) ;;
    react v.

Fixpoint turns (n : nat) (v : locals) : M W locals :=
  match n with
  | O => ret v
  | S n => v <- turn v ;; turns n v
  end.

(** [n] turns of the endless loop. *)
Definition _start (n : nat) : M W locals :=
  debug_string Banner_at ;;;
  debug_string Hint_at ;;;
  turns n {| LineLen := 0; PromptShown := 0; CursorShown := 0 |}.
End Program.

(** ** A process at its system calls *)

(** [Replied]: what the kernel prints in answer to a command. *)
Inductive event :=
| Printed (l : list Z)
| Replied (l : list Z)
| Asked (answer : option Z)
| Yielded.

(** What is not the process's own: [p_input], what each look at the console gives;
    [p_replies], what the kernel prints for each command; [p_yields], the results of
    the yields.  When a list is used up, there is no character, no text, no error. *)
Record process := {
  p_mem : mem;
  p_input : list (option Z);
  p_replies : list (list Z);
  p_yields : list Z;
  p_events : list event }.

Definition set_p_mem (m : mem) (p : process) : process :=
  {| p_mem := m; p_input := p_input p; p_replies := p_replies p; p_yields := p_yields p; p_events := p_events p |}.
Definition log (e : event) (p : process) : process :=
  {| p_mem := p_mem p; p_input := p_input p; p_replies := p_replies p; p_yields := p_yields p; p_events := p_events p ++ [e] |}.
Definition next_input (p : process) : process :=
  {| p_mem := p_mem p; p_input := tail (p_input p); p_replies := p_replies p; p_yields := p_yields p; p_events := p_events p |}.
Definition next_reply (p : process) : process :=
  {| p_mem := p_mem p; p_input := p_input p; p_replies := tail (p_replies p); p_yields := p_yields p; p_events := p_events p |}.
Definition next_yield (p : process) : process :=
  {| p_mem := p_mem p; p_input := p_input p; p_replies := p_replies p; p_yields := tail (p_yields p); p_events := p_events p |}.

#[global] Instance process_mem : ByteMem process := {
  read_u8 a := gets (fun p => load8 (p_mem p) a);
  write_u8 a v := modify (fun p => set_p_mem (store8 (p_mem p) a v) p) }.

Definition bytes (m : mem) (a : Z) (n : nat) : list Z := map (fun k => load8 m (a + Z.of_nat k)) (seq 0 n).

(** [KipSysDebugPrint]: the text up to its NUL is printed, and then the command it
    starts with, if any, is done: what the kernel prints for it is the next of the
    process's inputs, and one of the commands halts the machine. *)
Definition reply (p : process) : process := log (Replied (hd [] (p_replies p))) (next_reply p).
Definition process_print (StringAddress Length_ : Z) : M process Z := fun p =>
  if (Length_ >? Syscall.KI_SYSCALL_DEBUGPRINT_MAX) || negb (Syscall.KipIsRangeReadable StringAddress Length_)
  then Ret (Syscall.status_result KSTATUS_INVALID_PARAMETER) p
  else
    let Buffer := bytes (p_mem p) StringAddress (Z.to_nat Length_) in
    let p := log (Printed (cstr_of Buffer)) p in
    match Syscall.command_of Buffer with
    | None => Ret (Syscall.status_result KSTATUS_SUCCESS) p
    | Some Syscall.CmdPanic => Halt (reply p)
    | Some _ => Ret (Syscall.status_result KSTATUS_SUCCESS) (reply p)
    end.

(** [HalTryReadConsoleChar] and the loop of [KipSysReadConsole]. *)
Definition process_ask : M process (option Z) := fun p =>
  let c := hd None (p_input p) in Ret c (log (Asked c) (next_input p)).
Fixpoint process_read (n : nat) (Buffer ReadCount : Z) : M process Z :=
  match n with
  | O => ret ReadCount
  | S n =>
      Ch <- process_ask ;;
      match Ch with
      | None => ret ReadCount
      | Some Ch => write_u8 (u64 (Buffer + ReadCount)) Ch ;;; process_read n Buffer (ReadCount + 1)
      end
  end.
Definition process_read_console (BufferAddress BufferLength : Z) : M process Z :=
  if (BufferAddress =? 0) || (BufferLength =? 0) then ret (Syscall.status_result KSTATUS_INVALID_PARAMETER)
  else if negb (Syscall.KipIsRangeWritable BufferAddress BufferLength)
  then ret (Syscall.status_result KSTATUS_INVALID_PARAMETER)
  else process_read (Z.to_nat BufferLength) BufferAddress 0.

Definition process_yield : M process Z := fun p => Ret (hd 0 (p_yields p)) (log Yielded (next_yield p)).

(** The dispatch of the three calls the program makes; any other leaves the model. *)
#[global] Instance process_system : UserSystem process := {
  int80 Number Arg0 Arg1 _ _ _ _ :=
    if Number =? User.NkSysDebugPrint then process_print Arg0 Arg1
    else if Number =? User.NkSysReadConsole then process_read_console Arg0 Arg1
    else if Number =? User.NkSysYield then process_yield
    else stuck }.

(** ** The editor *)

(** Where the turn starts: nothing of the line shown yet, its cursor erased, or
    its cursor shown. *)
Inductive phase := Fresh | Open | Shown.

Definition opening (ph : phase) : list event :=
  match ph with
  | Fresh => [Printed Prompt; Printed CursorOn]
  | Open => [Printed CursorOn]
  | Shown => []
  end.

Definition is_newline (c : Z) : bool := (c =? 13) || (c =? 10).
Definition rubs_out (line : list Z) (c : Z) : bool := ((c =? 8) || (c =? 127)) && negb (bool_decide (line = [])).
Definition goes_in (line : list Z) (c : Z) : bool :=
  (Z.of_nat (length line) <? sizeof_Line - 1) && (32 <=? c) && (c <=? 126).

Definition edit (line : list Z) (c : Z) : list Z :=
  if is_newline c then []
  else if rubs_out line c then removelast line
  else if goes_in line c then line ++ [c] else line.

Definition next_phase (line : list Z) (c : Z) : phase :=
  if is_newline c then Fresh else if rubs_out line c then Open else Shown.

(** What follows a line that was entered: the console's answer, if it is a command,
    and a new row. *)
Definition answer (line : list Z) (text : list Z) : list event :=
  match Syscall.command_of line with
  | None => [Printed Newline]
  | Some Syscall.CmdPanic => [Replied text]
  | Some _ => [Replied text; Printed Newline]
  end.

Definition reaction (line : list Z) (c : Z) (text : list Z) : list event :=
  if is_newline c then
    Printed Newline :: (if bool_decide (line = []) then [] else Printed line :: answer line text)
  else if rubs_out line c then [Printed Bs]
  else (if goes_in line c then [Printed [c]] else []) ++ [Printed CursorOn].

(** A key that enters a line which halts the machine, and the answers left after a
    key. *)
Definition halting (line : list Z) : bool :=
  match Syscall.command_of line with Some Syscall.CmdPanic => true | _ => false end.
Definition panics (line : list Z) (c : Z) : bool := is_newline c && halting line.
Definition replies_left (line : list Z) (c : Z) (l : list (list Z)) : list (list Z) :=
  if is_newline c then match Syscall.command_of line with Some _ => tail l | None => l end else l.

(** What the console gives in the next [n] readings. *)
Definition readings (n : nat) (l : list (option Z)) : list (option Z) := take n (l ++ replicate n None).

(** How a session ends: with a line and where its next turn starts, or with the
    machine halted. *)
Inductive ending := At (line : list Z) (ph : phase) | Panicked.

Fixpoint session (line : list Z) (ph : phase) (texts : list (list Z)) (l : list (option Z)) : list event * ending :=
  match l with
  | [] => ([], At line ph)
  | None :: l =>
      let '(es, e) := session line Shown texts l in (opening ph ++ [Asked None; Yielded] ++ es, e)
  | Some c :: l =>
      let now := opening ph ++ [Asked (Some c); Printed CursorOff] ++ reaction line c (hd [] texts) in
      if panics line c then (now, Panicked)
      else
        let '(es, e) := session (edit line c) (next_phase line c) (replies_left line c texts) l in (now ++ es, e)
  end.

(** The lines that the keys enter. *)
Fixpoint entered (line : list Z) (keys : list Z) : list (list Z) :=
  match keys with
  | [] => []
  | c :: keys => (if is_newline c then [line] else []) ++ entered (edit line c) keys
  end.

Example session_edits :
  session [] Fresh [] [Some 104; None; Some 105; Some 8; Some 10] =
  ([Printed Prompt; Printed CursorOn; Asked (Some 104); Printed CursorOff; Printed [104]; Printed CursorOn; Asked None;
    Yielded; Asked (Some 105); Printed CursorOff; Printed [105]; Printed CursorOn; Asked (Some 8); Printed CursorOff;
    Printed Bs; Printed CursorOn; Asked (Some 10); Printed CursorOff; Printed Newline; Printed [104]; Printed Newline], At [] Fresh).
Proof. reflexivity. Qed.

(** A command is answered below its echo; [panic] ends everything. *)
Example session_commands :
  session (str "p") Open [str "[DBG] ps" ++ [10]; str "[DBG] panic requested" ++ [10]]
    (map Some (str "s" ++ [13] ++ str "panic" ++ [13; 104])) =
  ([Printed CursorOn; Asked (Some 115); Printed CursorOff; Printed [115]; Printed CursorOn; Asked (Some 13); Printed CursorOff;
    Printed Newline; Printed (str "ps"); Replied (str "[DBG] ps" ++ [10]); Printed Newline;
    Printed Prompt; Printed CursorOn; Asked (Some 112); Printed CursorOff; Printed [112]; Printed CursorOn;
    Asked (Some 97); Printed CursorOff; Printed [97]; Printed CursorOn; Asked (Some 110); Printed CursorOff; Printed [110];
    Printed CursorOn; Asked (Some 105); Printed CursorOff; Printed [105]; Printed CursorOn; Asked (Some 99);
    Printed CursorOff; Printed [99]; Printed CursorOn; Asked (Some 13); Printed CursorOff; Printed Newline;
    Printed (str "panic"); Replied (str "[DBG] panic requested" ++ [10])], Panicked).
Proof. reflexivity. Qed.

(** ** The program is the editor *)

(** A character alone is no command. *)
Lemma starts_char c x y l : x <> 0 -> y <> 0 -> KipStartsWith [c] (x :: y :: l) = 0.
Proof.
  intros X Y. cbn [KipStartsWith]. destruct (Z.eqb_spec x 0); [done|]. destruct (negb _); [done|].
  destruct (Z.eqb_spec y 0); [done|]. change (char_at (tl [c]) 0) with 0. by destruct (Z.eqb_spec 0 y); [congruence|].
Qed.

Lemma command_of_char c : Syscall.command_of [c] = None.
Proof.
  unfold Syscall.command_of, Syscall.command.
  repeat match goal with |- context [KipStartsWith [c] ?q] =>
    let q' := eval vm_compute in q in change q with q'; rewrite (starts_char c) by done end.
  done.
Qed.

(** A pointer into the user half is taken. *)
Lemma user_readable a n : 0 < a -> 0 < n -> a + n <= Syscall.KI_USER_ADDRESS_TOP -> Syscall.KipIsRangeReadable a n = true.
Proof.
  unfold Syscall.KI_USER_ADDRESS_TOP. intros A N L. unfold Syscall.KipIsRangeReadable, Syscall.KI_USER_ADDRESS_TOP.
  destruct (Z.eqb_spec a 0), (Z.eqb_spec n 0); [lia..|]. cbn [orb]. rewrite u64_small by lia.
  destruct (Z.ltb_spec (a + n) a); [lia|].
  destruct (Z.ltb_spec a 0x0000800000000000), (Z.leb_spec (a + n) 0x0000800000000000); (done || lia).
Qed.

(** ** The program is the editor *)

Section Editor.
Context `{UserLayout}.

Definition text_at (m : mem) (a : Z) (s : cstr) : Prop := bytes m a (S (length s)) = s ++ [0].
Definition literals : list (Z * cstr) :=
  [(Banner_at, Banner); (Hint_at, Hint); (Prompt_at, Prompt); (Newline_at, Newline); (CursorOn_at, CursorOn);
   (CursorOff_at, CursorOff); (Bs_at, Bs)].
(** The two arrays on the stack. *)
Definition on_stack (a : Z) : Prop := Line_at <= a < Line_at + sizeof_Line \/ a = Ch_at.
(** In the half of the address space that is the user's, null left out. *)
Definition in_user (a n : Z) : Prop := 0 < a /\ a + n <= Syscall.KI_USER_ADDRESS_TOP.

(** The program's image: its strings in place, its arrays apart from them and
    from each other, all of it in the user's half. *)
Record loaded (m : mem) : Prop := {
  ld_text : Forall (fun r => text_at m r.1 r.2) literals;
  ld_apart : Forall (fun r => forall x, r.1 <= x <= r.1 + Z.of_nat (length r.2) -> ~ on_stack x) literals;
  ld_char : ~ (Line_at <= Ch_at < Line_at + sizeof_Line);
  ld_strings : Forall (fun r => in_user r.1 (Z.of_nat (length r.2))) literals;
  ld_stack : in_user Line_at sizeof_Line /\ in_user Ch_at 1 }.

Definition same_elsewhere (m m' : mem) : Prop := forall a, ~ on_stack a -> load8 m' a = load8 m a.

Lemma bytes_eq m m' a n : (forall x, a <= x < a + Z.of_nat n -> load8 m' x = load8 m x) -> bytes m' a n = bytes m a n.
Proof. intros E. apply map_ext_in. intros k Hk%in_seq. apply E. lia. Qed.

Lemma bytes_S m a n : bytes m a (S n) = bytes m a n ++ [load8 m (a + Z.of_nat n)].
Proof. unfold bytes. rewrite seq_S, map_app. done. Qed.

Lemma bytes_length m a n : length (bytes m a n) = n.
Proof. unfold bytes. by rewrite length_map, length_seq. Qed.

Lemma bytes_nth m a n k : (k < n)%nat -> nth k (bytes m a n) 0 = load8 m (a + Z.of_nat k).
Proof.
  intros L. unfold bytes. rewrite (nth_indep _ 0 (load8 m (a + Z.of_nat 0))) by (rewrite length_map, length_seq; lia).
  rewrite (map_nth (fun k => load8 m (a + Z.of_nat k))), seq_nth by lia. done.
Qed.

Lemma text_bytes m a s : text_at m a s -> bytes m a (length s) = s.
Proof. unfold text_at. rewrite bytes_S. intros E. by apply app_inj_tail in E as [E _]. Qed.

Lemma loaded_elsewhere m m' : loaded m -> same_elsewhere m m' -> loaded m'.
Proof.
  intros [T A C U K] S. constructor; [|done..]. rewrite Forall_forall in T, A |- *. intros r Hr.
  unfold text_at. rewrite (bytes_eq m); [by apply T|]. intros x Hx. apply S, (A r Hr). lia.
Qed.

Lemma same_elsewhere_refl m : same_elsewhere m m.
Proof. done. Qed.
Lemma same_elsewhere_trans m1 m2 m3 : same_elsewhere m1 m2 -> same_elsewhere m2 m3 -> same_elsewhere m1 m3.
Proof. intros A B a Ha. rewrite B by done. by apply A. Qed.
Lemma same_elsewhere_store m a v : on_stack a -> same_elsewhere m (store8 m a v).
Proof. intros O b Hb. rewrite load8_store8_ne; [done|]. naive_solver. Qed.

Lemma strlen_text p a s : text_at (p_mem p) a s -> is_cstr s -> (length s < 64)%nat ->
  nk_strlen a p = Ret (Z.of_nat (length s)) p.
Proof.
  intros T C L. unfold nk_strlen.
  assert (G : forall fuel k, (k + fuel = 64)%nat -> (k <= length s)%nat ->
            strlen_loop fuel a (Z.of_nat k) p = Ret (Z.of_nat (length s)) p).
  2:{ apply (G 64%nat 0%nat); lia. }
  induction fuel as [|fuel IH]; intros k K Lk; [lia|]. cbn [strlen_loop].
  cbn [read_u8 process_mem]. rewrite bind_gets.
  rewrite <- (bytes_nth _ _ (S (length s)) k) by lia. rewrite T.
  destruct (Nat.eq_dec k (length s)) as [->|N].
  - rewrite app_nth2, Nat.sub_diag by lia. done.
  - rewrite app_nth1 by lia. destruct (Z.eqb_spec (nth k s 0) 0) as [Z0|_].
    { destruct (proj1 (Forall_nth _ 0 _) C k ltac:(lia) Z0). }
    replace (Z.of_nat k + 1) with (Z.of_nat (S k)) by lia. apply IH; lia.
Qed.

Lemma cstr_of_id s : is_cstr s -> cstr_of s = s.
Proof. intros C. rewrite <- (app_nil_r s) at 1. by rewrite cstr_of_app, app_nil_r. Qed.

(** A text, printed; and the answer to it if it is a command. *)
Lemma debug_print_text p a s : in_user a (Z.of_nat (length s)) -> (0 < length s <= 512)%nat ->
  bytes (p_mem p) a (length s) = s -> is_cstr s ->
  debug_print a (Z.of_nat (length s)) p =
    let p := log (Printed s) p in
    match Syscall.command_of s with
    | None => Ret tt p
    | Some Syscall.CmdPanic => Halt (reply p)
    | Some _ => Ret tt (reply p)
    end.
Proof.
  intros [U1 U2] L E C. unfold debug_print, nk_syscall, bind.
  change (int80 User.NkSysDebugPrint a (Z.of_nat (length s)) 0 0 0 0 p) with (process_print a (Z.of_nat (length s)) p).
  unfold process_print, Syscall.KI_SYSCALL_DEBUGPRINT_MAX. rewrite user_readable by lia.
  destruct (Z.gtb_spec (Z.of_nat (length s)) 512); [lia|]. cbn [orb negb]. rewrite Nat2Z.id, E, cstr_of_id by done.
  by destruct (Syscall.command_of s) as [[]|].
Qed.

Lemma debug_print_plain p a s : in_user a (Z.of_nat (length s)) -> (0 < length s <= 512)%nat ->
  bytes (p_mem p) a (length s) = s -> is_cstr s -> Syscall.command_of s = None ->
  debug_print a (Z.of_nat (length s)) p = Ret tt (log (Printed s) p).
Proof. intros U L E C N. rewrite debug_print_text by done. by rewrite N. Qed.

(** The program's strings: short, without NUL inside, and no commands. *)
Lemma literal_plain a s : In (a, s) literals -> is_cstr s /\ (0 < length s < 64)%nat /\ Syscall.command_of s = None.
Proof.
  intros Hin. cbn in Hin. repeat destruct Hin as [[= <- <-]|Hin]; [..|done];
    (split; [by repeat constructor|split; [cbn; lia|reflexivity]]).
Qed.

(** A string of the program, printed with its length. *)
Lemma debug_literal p a s : loaded (p_mem p) -> In (a, s) literals ->
  debug_print a (Z.of_nat (length s)) p = Ret tt (log (Printed s) p) /\ debug_string a p = Ret tt (log (Printed s) p).
Proof.
  intros [T _ _ U _] Hin. rewrite Forall_forall in T, U. pose proof (T _ (proj2 (list_elem_of_In _ _) Hin)) as Ts.
  pose proof (U _ (proj2 (list_elem_of_In _ _) Hin)) as Us. cbn in Ts, Us.
  destruct (literal_plain a s Hin) as (C & L & N).
  assert (D : debug_print a (Z.of_nat (length s)) p = Ret tt (log (Printed s) p)).
  { apply debug_print_plain; [done|lia|by apply text_bytes|done|done]. }
  split; [done|]. unfold debug_string. by rewrite (bind_eq _ _ _ _ _ (strlen_text p a s Ts C ltac:(lia))).
Qed.

Definition printable (c : Z) : Prop := 32 <= c <= 126.
Lemma printable_cstr l : Forall printable l -> is_cstr l.
Proof. intros F. eapply Forall_impl; [exact F|]. unfold printable. cbn. lia. Qed.

(** The program's variables stand for the line and the phase. *)
Record editing (m0 : mem) (v : locals) (p : process) (line : list Z) (ph : phase) : Prop := {
  ed_len : LineLen v = Z.of_nat (length line);
  ed_prompt : PromptShown v = match ph with Fresh => 0 | _ => 1 end;
  ed_cursor : CursorShown v = match ph with Shown => 1 | _ => 0 end;
  ed_fresh : ph = Fresh -> line = [];
  ed_room : Z.of_nat (length line) < sizeof_Line;
  ed_bytes : Forall printable line;
  ed_line : bytes (p_mem p) Line_at (length line) = line;
  ed_loaded : loaded (p_mem p);
  ed_same : same_elsewhere m0 (p_mem p) }.

(** Everything a turn prints before it reads. *)
Definition opened (v : locals) : locals := {| LineLen := LineLen v; PromptShown := 1; CursorShown := 1 |}.
Definition print_all (es : list event) (p : process) : process :=
  {| p_mem := p_mem p; p_input := p_input p; p_replies := p_replies p; p_yields := p_yields p; p_events := p_events p ++ es |}.

Lemma print_all_log p es e : log e (print_all es p) = print_all (es ++ [e]) p.
Proof. unfold log, print_all. cbn. by rewrite app_assoc. Qed.
Lemma print_all_nil p : print_all [] p = p.
Proof. unfold print_all. rewrite app_nil_r. by destruct p. Qed.

Lemma show_cursor_on v p : loaded (p_mem p) -> PromptShown v = 1 -> CursorShown v = 0 ->
  show_cursor v p = Ret (opened v) (log (Printed CursorOn) p).
Proof.
  intros L P C. unfold show_cursor. rewrite P, C. cbn -[debug_print].
  destruct (debug_literal p CursorOn_at CursorOn L) as [D _]; [cbn; tauto|]. cbn in D.
  by rewrite (bind_eq _ _ _ _ _ D).
Qed.

(** A turn up to the reading, with the character's place cleared. *)
Lemma turn_opens m0 v p line ph (k : locals -> M process locals) : editing m0 v p line ph ->
  (v <- (if (LineLen v =? 0) && (PromptShown v =? 0) then
          debug_string Prompt_at ;;;
          ret {| LineLen := LineLen v; PromptShown := 1; CursorShown := CursorShown v |}
        else ret v) ;;
   v <- show_cursor v ;; k v) p = k (opened v) (print_all (opening ph) p).
Proof.
  intros [E1 E2 E3 E4 E5 _ E6 E7 E8].
  replace ((LineLen v =? 0) && (PromptShown v =? 0)) with (match ph with Fresh => true | _ => false end)
    by (rewrite E1, E2; destruct ph; [by rewrite E4|by rewrite andb_false_r..]).
  destruct ph; cbn [opening].
  - destruct (debug_literal p Prompt_at Prompt E7) as [_ D]; [cbn; tauto|].
    rewrite bind_assoc, (bind_eq _ _ _ _ _ D), bind_ret_l.
    rewrite (bind_eq _ _ _ _ _ (show_cursor_on {| LineLen := LineLen v; PromptShown := 1; CursorShown := CursorShown v |}
      (log (Printed Prompt) p) E7 eq_refl E3)). unfold opened, log, print_all. cbn.
    by rewrite <- app_assoc.
  - rewrite bind_ret_l. by rewrite (bind_eq _ _ _ _ _ (show_cursor_on _ _ E7 E2 E3)).
  - rewrite bind_ret_l, print_all_nil. unfold show_cursor. rewrite E2, E3. cbn.
    unfold opened. destruct v; cbn in *; subst. done.
Qed.

Lemma editing_char m0 v p line ph c : editing m0 v p line ph ->
  editing m0 v (set_p_mem (store8 (p_mem p) Ch_at c) p) line ph.
Proof.
  intros [E1 E2 E3 E4 E5 E5' E6 E7 E8].
  assert (S : same_elsewhere (p_mem p) (store8 (p_mem p) Ch_at c)) by (apply same_elsewhere_store; by right).
  constructor; try done; cbn.
  - rewrite <- E6 at 2. apply bytes_eq. intros x Hx. apply load8_store8_ne. destruct E7 as [_ _ C _ _].
    intros <-. apply C. lia.
  - by eapply loaded_elsewhere.
  - by eapply same_elsewhere_trans.
Qed.

Lemma editing_print m0 v p line ph es : editing m0 v p line ph -> editing m0 v (print_all es p) line ph.
Proof. intros [E1 E2 E3 E4 E5 E5' E6 E7 E8]. by constructor. Qed.

(** The line with one more character stored. *)
Lemma store_line m line c : bytes m Line_at (length line) = line -> is_u8 c ->
  bytes (store8 m (Line_at + Z.of_nat (length line)) c) Line_at (length (line ++ [c])) = line ++ [c].
Proof.
  intros E C. rewrite length_app, Nat.add_1_r, bytes_S, load8_store8_eq, u8_small by done. f_equal.
  rewrite <- E at 3. apply bytes_eq. intros x Hx. apply load8_store8_ne. lia.
Qed.

Lemma bytes_shorter m a l : bytes m a (length l) = l -> bytes m a (length (removelast l)) = removelast l.
Proof.
  destruct l as [|x l _] using rev_ind; [done|]. rewrite removelast_last, length_app, Nat.add_1_r, bytes_S.
  intros E. by apply app_inj_tail in E as [E _].
Qed.

Lemma on_line k : 0 <= k < sizeof_Line -> on_stack (Line_at + k).
Proof. intros Hk. left. lia. Qed.

(** What [react] comes to. *)
Definition reacts (m0 : mem) (p : process) (line : list Z) (c : Z) (r : outcome process locals) : Prop :=
  let es := reaction line c (hd [] (p_replies p)) in
  if panics line c then exists p', r = Halt p' /\ same_elsewhere m0 (p_mem p') /\ p_events p' = p_events p ++ es
  else exists v' p', r = Ret v' p' /\ editing m0 v' p' (edit line c) (next_phase line c) /\ p_input p' = p_input p /\
    p_replies p' = replies_left line c (p_replies p) /\ p_events p' = p_events p ++ es.

Lemma react_newline m0 v p line : editing m0 v p line Open -> is_newline (load8 (p_mem p) Ch_at) = true ->
  reacts m0 p line (load8 (p_mem p) Ch_at) (react v p).
Proof.
  intros [E1 E2 E3 E4 E5 E5' E6 E7 E8] N. unfold reacts, panics, replies_left, next_phase, edit, reaction. rewrite N. cbn [andb].
  unfold react. cbn [read_u8 process_mem]. rewrite bind_gets.
  unfold is_newline in N. rewrite N, E1, E3.
  destruct (debug_literal p Newline_at Newline E7) as [D _]; [cbn; tauto|]. change (Z.of_nat (length Newline)) with 1 in D.
  rewrite (bind_eq _ _ _ _ _ D). clear D.
  destruct line as [|c line]; cbn -[debug_print bind Syscall.command_of].
  { change (Syscall.command_of []) with (@None Syscall.debug_command). unfold halting.
    change (Syscall.command_of []) with (@None Syscall.debug_command). cbv iota.
    eexists _, _. split_and!; [reflexivity|constructor; done|done|done|done]. }
  destruct (Z.eqb_spec (Z.of_nat (S (length line))) 0) as [?|_]; [lia|]. cbn [negb].
  assert (Hn : Z.of_nat (S (length line)) = Z.of_nat (length (c :: line))) by done.
  set (n := Z.of_nat (S (length line))) in *.
  set (p1 := log (Printed Newline) p). set (p2 := set_p_mem (store8 (p_mem p) (Line_at + n) 0) p1).
  assert (S2 : same_elsewhere (p_mem p) (p_mem p2)).
  { apply same_elsewhere_store, on_line. unfold sizeof_Line in *. lia. }
  assert (L2 : loaded (p_mem p2)) by (by eapply loaded_elsewhere).
  assert (S0 : same_elsewhere m0 (p_mem p2)) by (by eapply same_elsewhere_trans).
  pose proof (ld_stack _ E7) as [[U1 U2] _].
  assert (D2 := debug_print_text p2 Line_at (c :: line)). rewrite <- Hn in D2.
  specialize (D2 ltac:(unfold in_user, sizeof_Line in *; lia) ltac:(unfold sizeof_Line in *; cbn in *; lia)).
  specialize (D2 ltac:(rewrite <- E6 at 2; apply bytes_eq; intros x Hx; apply load8_store8_ne; lia) (printable_cstr _ E5')).
  cbv zeta in D2. rewrite bind_assoc, bind_modify, bind_assoc. change (set_p_mem _ p1) with p2.
  set (text := hd [] (p_replies p)).
  assert (D3 : forall es, debug_print Newline_at 1 (print_all es (next_reply p2))
    = Ret tt (log (Printed Newline) (print_all es (next_reply p2)))).
  { intros es. apply (proj1 (debug_literal (print_all es (next_reply p2)) Newline_at Newline L2 ltac:(cbn; tauto))). }
  assert (D4 : debug_print Newline_at 1 (log (Printed (c :: line)) p2) = Ret tt (log (Printed Newline) (log (Printed (c :: line)) p2))).
  { apply (proj1 (debug_literal (log (Printed (c :: line)) p2) Newline_at Newline L2 ltac:(cbn; tauto))). }
  assert (Er : reply (log (Printed (c :: line)) p2) = print_all [Printed (c :: line); Replied text] (next_reply p2)).
  { unfold reply, log, print_all, next_reply. cbn. by rewrite <- app_assoc. }
  rewrite Er in D2. clear Er. unfold halting, answer.
  destruct (Syscall.command_of (c :: line)) as [d|] eqn:Ed.
  - destruct (decide (d = Syscall.CmdPanic)) as [->|Nd].
    + unfold bind at 1. rewrite D2. eexists. split; [reflexivity|]. split; [exact S0|]. cbn. by rewrite <- app_assoc.
    + assert (D2' : debug_print Line_at n p2 = Ret tt (print_all [Printed (c :: line); Replied text] (next_reply p2)))
        by (rewrite D2; by destruct d).
      rewrite (bind_eq _ _ _ _ _ D2'), (bind_eq _ _ _ _ _ (D3 _)).
      replace (match d with Syscall.CmdPanic => true | _ => false end) with false by (by destruct d).
      eexists _, _. split; [reflexivity|]. split; [by constructor|]. split; [done|]. split; [done|].
      destruct d; try done; cbn; by rewrite <- !app_assoc.
  - rewrite (bind_eq _ _ _ _ _ D2), (bind_eq _ _ _ _ _ D4). eexists _, _. split; [reflexivity|].
    split; [by constructor|]. split; [done|]. split; [done|]. cbn. by rewrite <- !app_assoc.
Qed.

Lemma react_rubout m0 v p line : editing m0 v p line Open -> let c := load8 (p_mem p) Ch_at in
  is_newline c = false -> rubs_out line c = true ->
  exists v' p', react v p = Ret v' p' /\ editing m0 v' p' (removelast line) Open /\ p_input p' = p_input p /\
    p_replies p' = p_replies p /\ p_events p' = p_events p ++ reaction line c (hd [] (p_replies p)).
Proof.
  intros [E1 E2 E3 E4 E5 E5' E6 E7 E8] c N R. unfold react. cbn [read_u8 process_mem]. rewrite bind_gets. fold c.
  unfold reaction. rewrite N, R. unfold is_newline in N. rewrite N. unfold rubs_out in R. apply andb_true_iff in R as [R NE].
  apply negb_true_iff, bool_decide_eq_false in NE. rewrite R, E1.
  assert (0 < length line)%nat by (destruct line; [done|cbn; lia]).
  destruct (Z.gtb_spec (Z.of_nat (length line)) 0); [|lia]. cbn [andb].
  destruct (debug_literal p Bs_at Bs E7) as [D _]; [cbn; tauto|]. change (Z.of_nat (length Bs)) with 3 in D.
  rewrite (bind_eq _ _ _ _ _ D). eexists _, _. split_and!; [reflexivity| |done|done|done].
  assert (Z.of_nat (length (removelast line)) = Z.of_nat (length line) - 1).
  { rewrite (app_removelast_last 0 NE) at 2. rewrite length_app. cbn. lia. }
  constructor; cbn; try done.
  - rewrite u64_small; unfold sizeof_Line in *; lia.
  - lia.
  - rewrite (app_removelast_last 0 NE) in E5'. by apply Forall_app in E5' as [? _].
  - by apply bytes_shorter.
Qed.

Lemma react_other m0 v p line : editing m0 v p line Open -> let c := load8 (p_mem p) Ch_at in is_u8 c ->
  is_newline c = false -> rubs_out line c = false ->
  exists v' p', react v p = Ret v' p' /\ editing m0 v' p' (edit line c) Shown /\ p_input p' = p_input p /\
    p_replies p' = p_replies p /\ p_events p' = p_events p ++ reaction line c (hd [] (p_replies p)).
Proof.
  intros [E1 E2 E3 E4 E5 E5' E6 E7 E8] c U N R. unfold react. cbn [read_u8 process_mem]. rewrite bind_gets. fold c.
  unfold reaction, edit. rewrite N, R. unfold is_newline in N. rewrite N.
  assert (((c =? 8) || (c =? 127)) && (LineLen v >? 0) = false) as ->.
  { unfold rubs_out in R. rewrite E1. destruct line; [by rewrite andb_false_r|].
    rewrite bool_decide_eq_false_2 in R by done. rewrite andb_true_r in R. by rewrite R. }
  rewrite E1, u64_small by (unfold sizeof_Line in *; lia).
  assert ((Z.of_nat (length line) + 1 <? sizeof_Line) && (c >=? 32) && (c <=? 126) = goes_in line c) as ->.
  { unfold goes_in. rewrite Z.geb_leb. f_equal. f_equal.
    destruct (Z.ltb_spec (Z.of_nat (length line) + 1) sizeof_Line), (Z.ltb_spec (Z.of_nat (length line)) (sizeof_Line - 1)); lia. }
  destruct (goes_in line c) eqn:G.
  - unfold goes_in in G. rewrite !andb_true_iff, Z.ltb_lt, !Z.leb_le in G.
    set (m1 := store8 (p_mem p) (Line_at + Z.of_nat (length line)) c).
    assert (S1 : same_elsewhere (p_mem p) m1) by (apply same_elsewhere_store, on_line; lia).
    set (p1 := set_p_mem m1 p). assert (L1 : loaded (p_mem p1)) by (by eapply loaded_elsewhere).
    assert (Pc : printable c) by (unfold printable; lia).
    assert (Ec : bytes m1 Ch_at 1 = [c]).
    { unfold bytes, m1. cbn. rewrite Z.add_0_r, load8_store8_ne; [done|]. destruct E7 as [_ _ C _ _]. intros E. apply C. lia. }
    assert (D1 : debug_print Ch_at 1 p1 = Ret tt (log (Printed [c]) p1)).
    { apply (debug_print_plain p1 Ch_at [c]); [apply (ld_stack _ E7)|cbn; lia|exact Ec|by apply printable_cstr; constructor|].
      apply command_of_char. }
    rewrite bind_assoc. unfold bind at 1. cbn -[debug_print bind show_cursor]. fold m1. fold p1.
    rewrite bind_assoc, (bind_eq _ _ _ _ _ D1), bind_ret_l.
    rewrite (show_cursor_on {| LineLen := Z.of_nat (length line) + 1; PromptShown := PromptShown v; CursorShown := CursorShown v |}
               (log (Printed [c]) p1) L1 E2 E3).
    eexists _, _. split_and!; [reflexivity| |done|done|cbn; by rewrite <- app_assoc].
    constructor; cbn; try done.
    + rewrite length_app. cbn. lia.
    + rewrite length_app. cbn. unfold sizeof_Line in *. lia.
    + apply Forall_app. by split; [|constructor].
    + by apply store_line.
    + by eapply same_elsewhere_trans.
  - rewrite bind_ret_l, (show_cursor_on v p E7 E2 E3). eexists _, _. split_and!; [reflexivity| |done|done|done].
    by constructor.
Qed.

Lemma editing_input m0 v p line ph i : editing m0 v p line ph -> editing m0 v (print_all i (next_input p)) line ph.
Proof. intros [E1 E2 E3 E4 E5 E5' E6 E7 E8]. by constructor. Qed.
Lemma editing_yield m0 v p line ph : editing m0 v p line ph -> editing m0 v (next_yield p) line ph.
Proof. intros [E1 E2 E3 E4 E5 E5' E6 E7 E8]. by constructor. Qed.

Lemma editing_opened m0 v p line ph : editing m0 v p line ph -> editing m0 (opened v) p line Shown.
Proof. intros [E1 E2 E3 E4 E5 E5' E6 E7 E8]. by constructor. Qed.

Lemma editing_erased m0 v p line : editing m0 v p line Shown ->
  editing m0 {| LineLen := LineLen v; PromptShown := PromptShown v; CursorShown := 0 |} p line Open.
Proof. intros [E1 E2 E3 E4 E5 E5' E6 E7 E8]. by constructor. Qed.

(** [react] in one statement. *)
Lemma react_edits m0 v p line c : editing m0 v p line Open -> load8 (p_mem p) Ch_at = c -> is_u8 c ->
  reacts m0 p line c (react v p).
Proof.
  intros E <- U. destruct (is_newline (load8 (p_mem p) Ch_at)) eqn:N; [by apply react_newline|].
  unfold reacts, panics, replies_left, next_phase. rewrite N. cbn [andb].
  destruct (rubs_out line (load8 (p_mem p) Ch_at)) eqn:R.
  - replace (edit line (load8 (p_mem p) Ch_at)) with (removelast line) by (unfold edit; by rewrite N, R). by apply react_rubout.
  - by apply react_other.
Qed.

(** One look at the console. *)
Lemma read_char p : loaded (p_mem p) ->
  nk_syscall User.NkSysReadConsole Ch_at 1 0 0 0 0 p =
    match hd None (p_input p) with
    | None => Ret 0 (print_all [Asked None] (next_input p))
    | Some c => Ret 1 (set_p_mem (store8 (p_mem p) Ch_at c) (print_all [Asked (Some c)] (next_input p)))
    end.
Proof.
  intros L. destruct (ld_stack _ L) as [_ [C1 C2]]. unfold nk_syscall.
  change (int80 User.NkSysReadConsole Ch_at 1 0 0 0 0 p) with (process_read_console Ch_at 1 p).
  unfold process_read_console, Syscall.KipIsRangeWritable. rewrite user_readable by lia.
  destruct (Z.eqb_spec Ch_at 0); [lia|]. cbn [orb negb Z.eqb]. change (Z.to_nat 1) with 1%nat. cbn [process_read].
  unfold bind at 1, process_ask. unfold Syscall.KI_USER_ADDRESS_TOP in C2.
  destruct (hd None (p_input p)) as [c|]; [|done]. rewrite Z.add_0_r, u64_small by lia. done.
Qed.

Lemma turn_edits m0 v p line ph : editing m0 v p line ph -> Forall (fun i => forall c, i = Some c -> is_u8 c) (p_input p) ->
  match hd None (p_input p) with
  | None => exists v' p', turn v p = Ret v' p' /\ p_input p' = tail (p_input p) /\ p_replies p' = p_replies p /\
      editing m0 v' p' line Shown /\ p_events p' = p_events p ++ opening ph ++ [Asked None; Yielded]
  | Some c =>
      let es := opening ph ++ [Asked (Some c); Printed CursorOff] ++ reaction line c (hd [] (p_replies p)) in
      if panics line c then exists p', turn v p = Halt p' /\ same_elsewhere m0 (p_mem p') /\ p_events p' = p_events p ++ es
      else exists v' p', turn v p = Ret v' p' /\ p_input p' = tail (p_input p) /\
        p_replies p' = replies_left line c (p_replies p) /\
        editing m0 v' p' (edit line c) (next_phase line c) /\ p_events p' = p_events p ++ es
  end.
Proof.
  intros E F. unfold turn.
  set (p1 := set_p_mem (store8 (p_mem p) Ch_at 0) p). assert (E1 : editing m0 v p1 line ph) by by apply editing_char.
  change (write_u8 Ch_at 0) with (modify (fun p => set_p_mem (store8 (p_mem p) Ch_at 0) p)). rewrite bind_modify. fold p1.
  rewrite (turn_opens m0 v p1 line ph _ E1). set (p2 := print_all (opening ph) p1).
  assert (E2 : editing m0 (opened v) p2 line Shown) by (by eapply editing_opened, editing_print).
  change (p_input p) with (p_input p2) in *. change (p_replies p) with (p_replies p2).
  assert (Ev : p_events p2 = p_events p ++ opening ph) by done.
  clearbody p2. clear E E1 p1. pose proof (read_char p2 (ed_loaded _ _ _ _ _ E2)) as I.
  destruct (hd None (p_input p2)) as [c|] eqn:Hi.
  - assert (U : is_u8 c).
    { destruct (p_input p2) as [|x l]; [done|]. cbn in Hi. rewrite Forall_cons in F. by apply (proj1 F). }
    set (p4 := set_p_mem _ _) in I.
    assert (E4 : editing m0 (opened v) p4 line Shown) 
      by (by apply (editing_char m0 _ (print_all [Asked (Some c)] (next_input p2))), editing_input).
    rewrite (bind_eq _ _ _ _ _ I). cbn -[debug_print react bind panics reaction].
    destruct (debug_literal p4 CursorOff_at CursorOff (ed_loaded _ _ _ _ _ E4)) as [D _]; [cbn; tauto|].
    change (Z.of_nat (length CursorOff)) with 3 in D. rewrite bind_assoc, (bind_eq _ _ _ _ _ D), bind_ret_l.
    assert (R := react_edits m0 {| LineLen := LineLen v; PromptShown := 1; CursorShown := 0 |} (log (Printed CursorOff) p4) line c).
    specialize (R (editing_print m0 _ p4 line Open [Printed CursorOff] (editing_erased m0 (opened v) p4 line E4))).
    specialize (R ltac:(cbn; rewrite load8_store8_eq; by apply u8_small) U). unfold reacts in R.
    change (p_replies (log (Printed CursorOff) p4)) with (p_replies p2) in R. destruct (panics line c).
    + destruct R as (p' & R & Sm & V'). exists p'. split; [exact R|]. split; [done|]. rewrite V'. cbn. rewrite Ev. by rewrite <- !app_assoc.
    + destruct R as (v' & p' & R & E' & P' & T' & V'). exists v', p'. split; [exact R|]. split; [by rewrite P'|]. split; [exact T'|].
      split; [done|]. rewrite V'. cbn. rewrite Ev. by rewrite <- !app_assoc.
  - rewrite (bind_eq _ _ _ _ _ I). eexists _, _. split; [reflexivity|]. split; [done|]. split; [done|].
    split; [by apply (editing_print m0 _ _ line Shown [Yielded]), editing_yield, editing_input|]. cbn. rewrite Ev. by rewrite <- !app_assoc.
Qed.

(** The whole run. *)
Definition runs (m0 : mem) (r : outcome process locals) (p : process) (es : list event) (e : ending) : Prop :=
  match e with
  | At line ph => exists v' p', r = Ret v' p' /\ editing m0 v' p' line ph /\ p_events p' = p_events p ++ es
  | Panicked => exists p', r = Halt p' /\ same_elsewhere m0 (p_mem p') /\ p_events p' = p_events p ++ es
  end.

Lemma runs_app m0 r p p1 es1 es e : p_events p1 = p_events p ++ es1 -> runs m0 r p1 es e -> runs m0 r p (es1 ++ es) e.
Proof.
  intros V. destruct e; cbn; [intros (v' & p' & A & B & C); exists v', p'|intros (p' & A & B & C); exists p'];
    (split; [done|]; split; [done|]); by rewrite C, V, app_assoc.
Qed.

Lemma turns_edit m0 n : forall v p line ph, editing m0 v p line ph ->
  Forall (fun i => forall c, i = Some c -> is_u8 c) (p_input p) ->
  let '(es, e) := session line ph (p_replies p) (readings n (p_input p)) in runs m0 (turns n v p) p es e.
Proof.
  induction n as [|n IH]; intros v p line ph E F.
  { change (readings 0 (p_input p)) with (@nil (option Z)). cbn. exists v, p. by rewrite app_nil_r. }
  pose proof (turn_edits m0 v p line ph E F) as R.
  assert (F1 : Forall (fun i => forall c, i = Some c -> is_u8 c) (tail (p_input p))).
  { destruct (p_input p); [done|]. by inversion F. }
  assert (Rd : readings (S n) (p_input p) = hd None (p_input p) :: readings n (tail (p_input p))).
  { unfold readings. destruct (p_input p) as [|x l]; cbn; [done|]. f_equal.
    assert (length (l ++ replicate n None) >= n)%nat by (rewrite length_app, length_replicate; lia).
    rewrite (replicate_cons_app n None), (app_assoc l), (take_app_le (l ++ replicate n None) [None]) by lia. done. }
  rewrite Rd. cbn [turns session]. destruct (hd None (p_input p)) as [c|]; cbv zeta in R.
  - destruct (panics line c).
    + destruct R as (p' & T & Sm & V). cbn. exists p'. split; [unfold bind; by rewrite T|]. by split.
    + destruct R as (v1 & p1 & T & I & Tx & E1 & V1). rewrite (bind_eq _ _ _ _ _ T).
      specialize (IH v1 p1 _ _ E1 ltac:(by rewrite I)). rewrite I, Tx in IH.
      destruct (session (edit line c) _ _ _) as [es e]. by eapply runs_app.
  - destruct R as (v1 & p1 & T & I & Tx & E1 & V1). rewrite (bind_eq _ _ _ _ _ T).
    specialize (IH v1 p1 _ _ E1 ltac:(by rewrite I)). rewrite I, Tx in IH.
    destruct (session line Shown _ _) as [es e].
    replace (opening ph ++ [Asked None; Yielded] ++ es) with ((opening ph ++ [Asked None; Yielded]) ++ es) by by rewrite <- app_assoc.
    by eapply runs_app.
Qed.

(** ** The terminal *)

(** The last row: what is left of the cursor, nearest first, and what is right of
    it.  A character overwrites, a backspace moves left. *)
Definition put (t : list Z * list Z) (c : Z) : list Z * list Z :=
  if (c =? 10) || (c =? 13) then ([], [])
  else if c =? 8 then match t.1 with [] => t | x :: l => (l, x :: t.2) end
  else (c :: t.1, tail t.2).

Definition output (es : list event) : list Z := flat_map (fun e => match e with Printed l | Replied l => l | _ => [] end) es.
Definition terminal (es : list event) (t : list Z * list Z) : list Z * list Z := fold_left put (output es) t.

(** The row reads [s] and nothing after it. *)
Definition row_reads (t : list Z * list Z) (s : list Z) : Prop := rev t.1 = s /\ Forall (eq 32) t.2.

Definition row_of (line : list Z) (ph : phase) : list Z :=
  match ph with Fresh => [] | Open => Prompt ++ line | Shown => Prompt ++ line ++ CursorOn end.

Lemma terminal_app es1 es2 t : terminal (es1 ++ es2) t = terminal es2 (terminal es1 t).
Proof. unfold terminal, output. by rewrite flat_map_app, fold_left_app. Qed.

Lemma terminal_newline es l t : terminal (es ++ [Printed (l ++ [10])]) t = ([], []).
Proof. rewrite terminal_app. unfold terminal at 1. cbn. rewrite app_nil_r, fold_left_app. done. Qed.

Lemma put_text s : forall t, Forall printable s -> Forall (eq 32) t.2 ->
  rev (fold_left put s t).1 = rev t.1 ++ s /\ Forall (eq 32) (fold_left put s t).2.
Proof.
  induction s as [|c s IH]; intros t P B; cbn; [by rewrite app_nil_r|]. apply Forall_cons in P as [Pc Ps]. unfold printable in Pc.
  assert (E : put t c = (c :: t.1, tail t.2)).
  { unfold put. destruct (Z.eqb_spec c 10), (Z.eqb_spec c 13), (Z.eqb_spec c 8); [lia..|done]. }
  rewrite E. destruct (IH (c :: t.1, tail t.2) Ps) as [R Q]; [cbn; destruct B; [done|done]|].
  rewrite R. cbn. by rewrite <- app_assoc.
Qed.

Lemma print_text s a t : Forall printable s -> row_reads t a -> row_reads (terminal [Printed s] t) (a ++ s).
Proof.
  intros P [R B]. unfold terminal, output. cbn. rewrite app_nil_r. destruct (put_text s t P B) as [R' B'].
  split; [by rewrite R', R|done].
Qed.

Lemma erase_one a x t : row_reads t (a ++ [x]) -> row_reads (terminal [Printed [8; 32; 8]] t) a.
Proof.
  destruct t as [l r]. intros [R B]. cbn in R, B. apply (f_equal (@rev Z)) in R. rewrite rev_involutive, rev_app_distr in R.
  cbn in R. subst l. unfold terminal, output. cbn. unfold put. cbn. split; [cbn; apply rev_involutive|]. cbn. by constructor.
Qed.

Lemma printable_prompt : Forall printable Prompt.
Proof. unfold printable. repeat constructor; done. Qed.
Lemma printable_cursor : Forall printable CursorOn.
Proof. unfold printable. repeat constructor; done. Qed.

Lemma terminal_opening line ph t : row_reads t (row_of line ph) -> (ph = Fresh -> line = []) ->
  row_reads (terminal (opening ph) t) (row_of line Shown).
Proof.
  intros R F. destruct ph; cbn [opening row_of] in *.
  - rewrite F by done. change [Printed Prompt; Printed CursorOn] with ([Printed Prompt] ++ [Printed CursorOn]). rewrite terminal_app.
    cbn [app]. apply (print_text CursorOn Prompt); [apply printable_cursor|]. by apply (print_text Prompt []); [apply printable_prompt|].
  - rewrite app_assoc. apply print_text; [apply printable_cursor|done].
  - done.
Qed.

Lemma edit_printable line c : Forall printable line -> Forall printable (edit line c).
Proof.
  intros P. unfold edit. destruct (is_newline c); [done|]. destruct (rubs_out line c).
  { destruct line as [|x l _] using rev_ind; [done|]. rewrite removelast_last. by apply Forall_app in P as [? _]. }
  destruct (goes_in line c) eqn:G; [|done]. apply Forall_app. split; [done|]. constructor; [|done].
  unfold goes_in in G. rewrite !andb_true_iff, !Z.leb_le in G. unfold printable. lia.
Qed.

Lemma edit_fresh line c : next_phase line c = Fresh -> edit line c = [].
Proof. unfold next_phase, edit. destruct (is_newline c); [done|]. by destruct (rubs_out line c). Qed.

(** Whatever a command prints, the new row after it is empty. *)
Lemma terminal_answer line text t : halting line = false -> terminal (answer line text) t = ([], []).
Proof.
  unfold halting, answer. intros N. destruct (Syscall.command_of line) as [d|]; [|by apply (terminal_newline [] [])].
  destruct d; try done; apply (terminal_newline [Replied text] []).
Qed.

Lemma terminal_reaction line c text t : row_reads t (row_of line Open) -> panics line c = false ->
  row_reads (terminal (reaction line c text) t) (row_of (edit line c) (next_phase line c)).
Proof.
  intros R. unfold panics, reaction, edit, next_phase. destruct (is_newline c); cbn [andb].
  - intros N. unfold row_reads, row_of. destruct (bool_decide (line = [])).
    + by rewrite (terminal_newline [] []).
    + change (Printed Newline :: Printed line :: answer line text) with ([Printed Newline; Printed line] ++ answer line text).
      rewrite terminal_app, terminal_answer by done. done.
  - intros _. destruct (rubs_out line c) eqn:E.
    + unfold rubs_out in E. apply andb_true_iff in E as [_ NE]. apply negb_true_iff, bool_decide_eq_false in NE.
      cbn [row_of] in *. rewrite (app_removelast_last 0 NE), app_assoc in R. by apply erase_one in R.
    + cbn [row_of] in *. destruct (goes_in line c) eqn:G.
      * rewrite terminal_app, app_assoc. apply print_text; [apply printable_cursor|]. rewrite app_assoc. apply print_text; [|done].
        constructor; [|done]. unfold goes_in in G. rewrite !andb_true_iff, !Z.leb_le in G. unfold printable. lia.
      * rewrite app_assoc. apply print_text; [apply printable_cursor|done].
Qed.

(** The editor keeps the row; its line is what the keys make of it; and it is
    halted by the first line entered that asks for that. *)
Lemma session_row l : forall line ph texts t, Forall printable line -> row_reads t (row_of line ph) ->
  (ph = Fresh -> line = []) ->
  let '(es, e) := session line ph texts l in
  match e with
  | At line' ph' => line' = fold_left edit (omap id l) line /\ (ph' = Fresh -> line' = []) /\
      row_reads (terminal es t) (row_of line' ph') /\ existsb halting (entered line (omap id l)) = false
  | Panicked => existsb halting (entered line (omap id l)) = true
  end.
Proof.
  induction l as [|[c|] l IH]; intros line ph texts t P R F; cbn [session]; [done| |].
  - pose proof (terminal_opening line ph t R F) as R1. cbn [row_of] in R1. rewrite app_assoc in R1. apply erase_one in R1.
    change (omap id (Some c :: l)) with (c :: omap id l). cbn [entered fold_left]. rewrite existsb_app.
    destruct (panics line c) eqn:Pn.
    { unfold panics in Pn. apply andb_true_iff in Pn as [-> Ha]. cbn. by rewrite Ha. }
    assert (Hn : existsb halting (if is_newline c then [line] else []) = false).
    { unfold panics in Pn. destruct (is_newline c); [|done]. cbn in *. by rewrite Pn. }
    rewrite Hn. cbn [orb].
    assert (R2 := terminal_reaction line c (hd [] texts) _ R1 Pn).
    specialize (IH (edit line c) (next_phase line c) (replies_left line c texts) _ (edit_printable _ c P) R2 (edit_fresh line c)).
    destruct (session (edit line c) _ _ l) as [es [line' ph'|]]; [|done]. destruct IH as (A & B & C & N).
    split; [exact A|]. split; [done|]. split; [|done].
    change (opening ph ++ [Asked (Some c); Printed CursorOff] ++ reaction line c (hd [] texts))
      with (opening ph ++ [Asked (Some c)] ++ [Printed CursorOff] ++ reaction line c (hd [] texts)).
    by rewrite !terminal_app.
  - pose proof (terminal_opening line ph t R F) as R1.
    specialize (IH line Shown texts _ P R1 ltac:(done)). change (omap id (None :: l)) with (omap id l).
    destruct (session line Shown texts l) as [es [line' ph'|]]; [|done]. destruct IH as (A & B & C & N).
    split; [exact A|]. split; [done|]. split; [|done]. by rewrite !terminal_app.
Qed.

Lemma _start_edits p n : loaded (p_mem p) -> Forall (fun i => forall c, i = Some c -> is_u8 c) (p_input p) ->
  let '(es, e) := session [] Fresh (p_replies p) (readings n (p_input p)) in
  runs (p_mem p) (_start n p) p ([Printed Banner; Printed Hint] ++ es) e.
Proof.
  intros L F. unfold _start.
  destruct (debug_literal p Banner_at Banner L) as [_ D1]; [cbn; tauto|].
  destruct (debug_literal (log (Printed Banner) p) Hint_at Hint L) as [_ D2]; [cbn; tauto|].
  rewrite (bind_eq _ _ _ _ _ D1), (bind_eq _ _ _ _ _ D2).
  set (p1 := log (Printed Hint) (log (Printed Banner) p)).
  assert (E : editing (p_mem p) {| LineLen := 0; PromptShown := 0; CursorShown := 0 |} p1 [] Fresh) by (by constructor).
  pose proof (turns_edit _ n _ p1 [] Fresh E F) as Q. change (p_input p1) with (p_input p) in Q.
  change (p_replies p1) with (p_replies p) in Q.
  destruct (session [] Fresh (p_replies p) (readings n (p_input p))) as [es e]. eapply runs_app; [|exact Q].
  cbn. by rewrite <- !app_assoc.
Qed.

(** C27: init.kpe, whatever the console delivers, whatever the debug console
    prints in answer to commands, and however long the program runs.  It never writes
    outside its two arrays and prints exactly what [session] prints.  Unless one of
    the lines entered is the console's command [panic], the line it holds is what the
    editor [edit] makes of the keys read so far and always fits the buffer, and when
    it next reads, the last row of the terminal is the prompt, that line and the
    cursor, as far as what the program and the answers print goes.  The first line
    that is the command [panic] halts the machine, and the program with it, once the
    kernel has answered it. *)
Theorem _start_keeps_line p n t : loaded (p_mem p) ->
  Forall (fun i => forall c, i = Some c -> is_u8 c) (p_input p) ->
  let keys := omap id (readings n (p_input p)) in
  let line := fold_left edit keys [] in
  let es := (session [] Fresh (p_replies p) (readings n (p_input p))).1 in
  if existsb halting (entered [] keys) then
    exists p', _start n p = Halt p' /\ same_elsewhere (p_mem p) (p_mem p') /\
      p_events p' = p_events p ++ [Printed Banner; Printed Hint] ++ es
  else exists v p' ph, _start n p = Ret v p' /\ same_elsewhere (p_mem p) (p_mem p') /\
    p_events p' = p_events p ++ [Printed Banner; Printed Hint] ++ es /\
    LineLen v = Z.of_nat (length line) /\ Z.of_nat (length line) < sizeof_Line /\
    bytes (p_mem p') Line_at (length line) = line /\
    row_reads (terminal (p_events p' ++ opening ph) t) (Prompt ++ line ++ CursorOn).
Proof.
  intros L F keys line es. pose proof (_start_edits p n L F) as R.
  pose proof (session_row (readings n (p_input p)) [] Fresh (p_replies p) ([], []) ltac:(done) ltac:(done) ltac:(done)) as Q.
  fold keys in Q. unfold es. destruct (session [] Fresh (p_replies p) (readings n (p_input p))) as [es' [line' ph|]].
  2: { rewrite Q. exact R. }
  destruct Q as (Q1 & Q2 & Q3 & ->). fold line in Q1. subst line'. destruct R as (v & p' & R & [E1 E2 E3 E4 E5 E5' E6 E7 E8] & V).
  exists v, p', ph. split_and!; try done. rewrite terminal_app. apply terminal_opening; [|done]. rewrite V, app_assoc, terminal_app.
  change [Printed Banner; Printed Hint] with ([Printed Banner] ++ [Printed (str "type 'help' for debug commands" ++ [10])]).
  by rewrite app_assoc, terminal_newline.
Qed.
End Editor.

(** ** A witness *)

Definition demo_layout : UserLayout :=
  {| Banner_at := 4096; Prompt_at := 4128; Hint_at := 4144; Newline_at := 4192; CursorOn_at := 4200; CursorOff_at := 4208;
     Bs_at := 4216; Line_at := 8192; Ch_at := 8191 |}.
Definition demo_program : mem :=
  fold_right (fun r m => fold_right (fun k m => store8 m (r.1 + Z.of_nat k) (nth k r.2 0)) m (seq 0 (length r.2))) ∅
    (literals (H := demo_layout)).
(** A session with a command the console answers. *)
Definition demo_process : process :=
  {| p_mem := demo_program; p_input := map Some (str "ps" ++ [10]) ++ [None; Some 127; Some 105; Some 10; Some 110];
     p_replies := [str "[DBG] ps" ++ [10]]; p_yields := []; p_events := [] |}.
(** And one that halts the machine. *)
Definition panic_process : process :=
  {| p_mem := demo_program; p_input := map Some (str "panic" ++ [13] ++ str "more"); p_replies := [str "[DBG] panic requested" ++ [10]];
     p_yields := []; p_events := [] |}.

Lemma demo_loaded : loaded (H := demo_layout) demo_program.
Proof.
  constructor.
  - repeat constructor; vm_compute; reflexivity.
  - repeat constructor; cbn; intros x Hx [Hs|Hs]; cbn in Hs; unfold sizeof_Line in Hs; lia.
  - cbn. unfold sizeof_Line. lia.
  - repeat constructor; cbn; unfold Syscall.KI_USER_ADDRESS_TOP; lia.
  - unfold in_user, sizeof_Line, Syscall.KI_USER_ADDRESS_TOP. cbn. lia.
Qed.

Lemma demo_bytes l : Forall is_u8 l -> Forall (fun i => forall c, i = Some c -> is_u8 c) (map Some l).
Proof. induction 1; constructor; [by intros c [= <-]|done]. Qed.

Lemma _start_keeps_line_witness :
  (exists v p' ph, _start (H1 := demo_layout) 9 demo_process = Ret v p' /\
     LineLen v = 1 /\ row_reads (terminal (p_events p' ++ opening ph) ([], [])) (str "NK> n_")) /\
  exists p', _start (H1 := demo_layout) 9 panic_process = Halt p' /\ same_elsewhere (H := demo_layout) demo_program (p_mem p').
Proof.
  split.
  - destruct (_start_keeps_line (H := demo_layout) demo_process 9 ([], [])) as (v & p' & ph & A & _ & _ & B & _ & _ & C).
    + apply demo_loaded.
    + cbn. repeat (apply Forall_cons; split; [intros c E; try discriminate E; injection E as <-; unfold is_u8; lia|]).
      by apply Forall_nil.
    + exists v, p', ph. split; [exact A|]. split; [exact B|exact C].
  - destruct (_start_keeps_line (H := demo_layout) panic_process 9 ([], [])) as (p' & A & B & _).
    + apply demo_loaded.
    + apply demo_bytes. repeat constructor; lia.
    + exists p'. split; [exact A|exact B].
Defined.
