(* ===== verification/HalIntr.v ===== *)
(** * Interrupts: hal/aur64/hal_intr.c

    The descriptor tables, the interrupt controller and the timer, and the
    handlers that enter the kernel. *)

From S2P Require Import Prelude CString BootProto Nk Ob PhysMem MmPages MmTables MmSpace MmSection MmDump.
From S2P Require Import Kpe Ps Lpc Io Hal Syscall.

(** ** Constants *)

Definition HALP_PIC1_CMD : Z := 0x20.
Definition HALP_PIC1_DATA : Z := 0x21.
Definition HALP_PIC2_CMD : Z := 0xA0.
Definition HALP_PIC2_DATA : Z := 0xA1.
Definition HALP_PIC_EOI : Z := 0x20.
Definition HALP_PIT_CMD : Z := 0x43.
Definition HALP_PIT_CHANNEL0 : Z := 0x40.
Definition HALP_PIT_BASE_HZ : Z := 1193182.
Definition HALP_PIT_TICK_HZ : Z := 100.
Definition HALP_IRQ_BASE_VECTOR : Z := 32.
Definition HALP_SYSCALL_VECTOR : Z := 0x80.
Definition HALP_PAGE_FAULT_VECTOR : Z := 14.
Definition HALP_SEL_KERNEL_CODE : Z := 0x08.
Definition HALP_SEL_KERNEL_DATA : Z := 0x10.
Definition HALP_SEL_USER_CODE : Z := 0x1B.
Definition HALP_SEL_USER_DATA : Z := 0x23.
Definition HALP_SEL_TSS : Z := 0x28.

(** ** Descriptors *)

Record AUR64_IDT_ENTRY := {
  OffsetLow : Z;
  Selector : Z;
  Ist : Z;
  Attributes : Z;
  OffsetMiddle : Z;
  OffsetHigh : Z;
  IdtReserved : Z }.

Record AUR64_TSS64 := {
  TssReserved0 : Z;
  Rsp0 : Z; Rsp1 : Z; Rsp2 : Z;
  TssReserved1 : Z;
  Ist1 : Z; Ist2 : Z; Ist3 : Z; Ist4 : Z; Ist5 : Z; Ist6 : Z; Ist7 : Z;
  TssReserved2 : Z; TssReserved3 : Z;
  IoMapBase : Z }.

(** The tables, where they lie, and what [lidt], [lgdt] and [ltr] loaded. *)
Record intr_state := {
  gAur64Idt : list AUR64_IDT_ENTRY;
  gAur64Gdt : list Z;
  gAur64Tss : AUR64_TSS64;
  idt_address : Z;
  gdt_address : Z;
  tss_address : Z;
  idtr : option (Z * Z);
  gdtr : option (Z * Z);
  task_register : option Z }.

Definition sizeof_AUR64_IDT_ENTRY : Z := 16.
Definition sizeof_AUR64_TSS64 : Z := 104.

Definition set_idt (l : list AUR64_IDT_ENTRY) (r : option (Z * Z)) (s : intr_state) : intr_state :=
  {| gAur64Idt := l; gAur64Gdt := gAur64Gdt s; gAur64Tss := gAur64Tss s; idt_address := idt_address s;
     gdt_address := gdt_address s; tss_address := tss_address s; idtr := r; gdtr := gdtr s;
     task_register := task_register s |}.

(** The entry both setters write. *)
Definition idt_entry (Address Attributes_ : Z) : AUR64_IDT_ENTRY :=
  {| OffsetLow := Z.land Address 0xFFFF; Selector := HALP_SEL_KERNEL_CODE; Ist := 0; Attributes := Attributes_;
     OffsetMiddle := Z.land (Z.shiftr Address 16) 0xFFFF; OffsetHigh := Z.land (Z.shiftr Address 32) 0xFFFFFFFF;
     IdtReserved := 0 |}.

Definition put_idt (Vector : nat) (e : AUR64_IDT_ENTRY) : M intr_state unit := fun s =>
  (l <- store_at Vector e (gAur64Idt s) ;; modify (fun s => set_idt l (idtr s) s)) s.
Definition HalpSetIdtEntry (Vector : nat) (Handler : Z) : M intr_state unit :=
  put_idt Vector (idt_entry Handler 0x8E).
Definition HalpSetIdtEntryDpl (Vector : nat) (Handler Dpl : Z) : M intr_state unit :=
  put_idt Vector (idt_entry Handler (u8 (Z.lor 0x8E (Z.shiftl (Z.land Dpl 0x3) 5)))).

(** A segment of limit 0xFFFFF at base 0. *)
Definition HalpMakeSegmentDesc (Access GranularityFlags : Z) : Z :=
  Z.lor (Z.lor 0xFFFF (Z.shiftl Access 40)) (u64 (Z.shiftl (Z.lor 0xF (Z.shiftl GranularityFlags 4)) 48)).

(** The two quadwords of the task state's descriptor. *)
Definition tss_descriptor (TssBase TssLimit : Z) : Z * Z :=
  (Z.lor (Z.lor (Z.lor (Z.lor (Z.lor
     (Z.land TssLimit 0xFFFF)
     (Z.shiftl (Z.land TssBase 0xFFFF) 16))
     (Z.shiftl (Z.land (Z.shiftr TssBase 16) 0xFF) 32))
     (Z.shiftl 0x89 40))
     (Z.shiftl (Z.land (Z.shiftr TssLimit 16) 0x0F) 48))
     (Z.shiftl (Z.land (Z.shiftr TssBase 24) 0xFF) 56),
   u32 (Z.shiftr TssBase 32)).

(** [Rsp]: the stack pointer the instruction stores. *)
Definition HalpInitializeSegments (Rsp : Z) : M intr_state unit := fun s =>
  let '(TssLow, TssHigh) := tss_descriptor (tss_address s) (sizeof_AUR64_TSS64 - 1) in
  Ret tt {| gAur64Idt := gAur64Idt s;
            gAur64Gdt := [0; HalpMakeSegmentDesc 0x9A 0xA; HalpMakeSegmentDesc 0x92 0x8;
                          HalpMakeSegmentDesc 0xF2 0x8; HalpMakeSegmentDesc 0xFA 0xA; TssLow; TssHigh]
                         ++ drop 7 (gAur64Gdt s);
            gAur64Tss := {| TssReserved0 := 0; Rsp0 := Rsp; Rsp1 := 0; Rsp2 := 0; TssReserved1 := 0; Ist1 := 0;
              Ist2 := 0; Ist3 := 0; Ist4 := 0; Ist5 := 0; Ist6 := 0; Ist7 := 0; TssReserved2 := 0;
              TssReserved3 := 0; IoMapBase := sizeof_AUR64_TSS64 |};
            idt_address := idt_address s; gdt_address := gdt_address s; tss_address := tss_address s;
            idtr := idtr s; gdtr := Some (8 * 8 - 1, gdt_address s); task_register := Some HALP_SEL_TSS |}.

Definition set_Rsp0 (StackTop : Z) (t : AUR64_TSS64) : AUR64_TSS64 :=
  {| TssReserved0 := TssReserved0 t; Rsp0 := StackTop; Rsp1 := Rsp1 t; Rsp2 := Rsp2 t;
     TssReserved1 := TssReserved1 t; Ist1 := Ist1 t; Ist2 := Ist2 t; Ist3 := Ist3 t; Ist4 := Ist4 t;
     Ist5 := Ist5 t; Ist6 := Ist6 t; Ist7 := Ist7 t; TssReserved2 := TssReserved2 t;
     TssReserved3 := TssReserved3 t; IoMapBase := IoMapBase t |}.

Definition HalpSetKernelRsp0 (StackTop : Z) : M intr_state unit :=
  modify (fun s => {| gAur64Idt := gAur64Idt s; gAur64Gdt := gAur64Gdt s;
    gAur64Tss := set_Rsp0 StackTop (gAur64Tss s); idt_address := idt_address s;
    gdt_address := gdt_address s; tss_address := tss_address s; idtr := idtr s; gdtr := gdtr s;
    task_register := task_register s |}).

Definition HalSetKernelStackPointer (StackTop : Z) : M intr_state unit := HalpSetKernelRsp0 StackTop.

(** Where the handlers lie. *)
Record handlers := {
  HalpDefaultInterruptHandler_at : Z;
  HalpInvalidOpcodeInterruptHandler_at : Z;
  HalpGeneralProtectionInterruptHandler_at : Z;
  HalpTimerInterruptHandler_at : Z;
  HalpPageFaultInterruptHandler_at : Z;
  HalpSyscallInterruptHandler_at : Z }.

(** [for (Index = 0; Index < 256; Index++)] *)
Fixpoint default_handlers (n : nat) (Index : nat) (Handler : Z) : M intr_state unit :=
  match n with
  | O => ret tt
  | S n => HalpSetIdtEntry Index Handler ;;; default_handlers n (S Index) Handler
  end.

(** [HalpInitializeInterrupts] without the interrupt controller. *)
Definition fill_idt (h : handlers) : M intr_state unit :=
  default_handlers 256 0 (HalpDefaultInterruptHandler_at h) ;;;
  HalpSetIdtEntry 6 (HalpInvalidOpcodeInterruptHandler_at h) ;;;
  HalpSetIdtEntry 13 (HalpGeneralProtectionInterruptHandler_at h) ;;;
  HalpSetIdtEntry (Z.to_nat HALP_IRQ_BASE_VECTOR) (HalpTimerInterruptHandler_at h) ;;;
  HalpSetIdtEntry (Z.to_nat HALP_PAGE_FAULT_VECTOR) (HalpPageFaultInterruptHandler_at h) ;;;
  HalpSetIdtEntryDpl (Z.to_nat HALP_SYSCALL_VECTOR) (HalpSyscallInterruptHandler_at h) 3.

Definition load_idt : M intr_state unit :=
  modify (fun s => set_idt (gAur64Idt s) (Some (256 * sizeof_AUR64_IDT_ENTRY - 1, idt_address s)) s).

Class IntrWorld (W : Type) := {
  intr_get : W -> intr_state;
  intr_put : intr_state -> W -> W }.

Section World.
Context {W : Type} `{IntrWorld W} `{PortIo W}.

Definition intr {A} (m : M intr_state A) : M W A := zoom intr_get intr_put m.

Definition HalpRemapPic : M W unit :=
  HalpIoWrite8 HALP_PIC1_CMD 0x11 ;;;
  HalpIoWrite8 HALP_PIC2_CMD 0x11 ;;;
  HalpIoWrite8 HALP_PIC1_DATA HALP_IRQ_BASE_VECTOR ;;;
  HalpIoWrite8 HALP_PIC2_DATA (HALP_IRQ_BASE_VECTOR + 8) ;;;
  HalpIoWrite8 HALP_PIC1_DATA 0x04 ;;;
  HalpIoWrite8 HALP_PIC2_DATA 0x02 ;;;
  HalpIoWrite8 HALP_PIC1_DATA 0x01 ;;;
  HalpIoWrite8 HALP_PIC2_DATA 0x01 ;;;
  HalpIoWrite8 HALP_PIC1_DATA 0xFE ;;;
  HalpIoWrite8 HALP_PIC2_DATA 0xFF.

Definition HalpInitializeInterrupts (Rsp : Z) (h : handlers) : M W unit :=
  intr (HalpInitializeSegments Rsp) ;;;
  intr (fill_idt h) ;;;
  HalpRemapPic ;;;
  intr load_idt.

Definition HalpInitializeTimer : M W unit :=
  let Divisor := u16 (HALP_PIT_BASE_HZ / HALP_PIT_TICK_HZ) in
  HalpIoWrite8 HALP_PIT_CMD 0x34 ;;;
  HalpIoWrite8 HALP_PIT_CHANNEL0 (Z.land Divisor 0xFF) ;;;
  HalpIoWrite8 HALP_PIT_CHANNEL0 (Z.land (Z.shiftr Divisor 8) 0xFF).

(** ** The handlers *)

Definition HalpDefaultInterruptHandler : M W unit := HalpIoWrite8 HALP_PIC1_CMD HALP_PIC_EOI.

Definition HalpTimerInterruptHandler `{HalWorld W} : M W unit :=
  HalTriggerSyntheticTimerTick ;;; HalpIoWrite8 HALP_PIC1_CMD HALP_PIC_EOI.
End World.
