(* ===== verification/HalStart.v ===== *)
(** * HAL, exceptions and start: hal/aur64/hal_intr.c, hal/aur64/hal_aur64.c

    The handlers that print, the stub behind the system-call gate with the
    registers it saves on the stack, the timestamp counter, and the two phases of
    the HAL's start. *)

From S2P Require Import Prelude CString BootProto Nk Ob PhysMem MmPages MmTables MmSpace MmSection MmDump.
From S2P Require Import Kpe KpeLoad UserMem Ps PsSpawn Lpc Io Hal Syscall HalIntr.

(** What the processor pushes when it takes an interrupt. *)
Record AUR64_INTERRUPT_FRAME := {
  FrameRip : Z;
  FrameCs : Z;
  FrameRflags : Z;
  FrameRsp : Z;
  FrameSs : Z }.

(** The registers the system-call stub saves. *)
Record HALP_SYSCALL_REG_FRAME := {
  FrameR11 : Z;
  FrameR10 : Z;
  FrameR9 : Z;
  FrameR8 : Z;
  FrameRdx : Z;
  FrameRsi : Z;
  FrameRdi : Z;
  FrameRax : Z }.

Definition set_FrameRax (v : Z) (r : HALP_SYSCALL_REG_FRAME) : HALP_SYSCALL_REG_FRAME :=
  {| FrameR11 := FrameR11 r; FrameR10 := FrameR10 r; FrameR9 := FrameR9 r; FrameR8 := FrameR8 r;
     FrameRdx := FrameRdx r; FrameRsi := FrameRsi r; FrameRdi := FrameRdi r; FrameRax := v |}.

(** The registers of the interrupted program: the eight the stub saves, RCX, which it
    does not, and those a C function gives back under the System V ABI.  RSP, RIP
    and the flags are in the processor's own frame, which [iretq] takes back. *)
Record cpu_registers := {
  reg_saved : HALP_SYSCALL_REG_FRAME;
  reg_rcx : Z;
  reg_rbx : Z;
  reg_rbp : Z;
  reg_r12 : Z;
  reg_r13 : Z;
  reg_r14 : Z;
  reg_r15 : Z }.

Definition set_reg_saved (f : HALP_SYSCALL_REG_FRAME) (r : cpu_registers) : cpu_registers :=
  {| reg_saved := f; reg_rcx := reg_rcx r; reg_rbx := reg_rbx r; reg_rbp := reg_rbp r; reg_r12 := reg_r12 r;
     reg_r13 := reg_r13 r; reg_r14 := reg_r14 r; reg_r15 := reg_r15 r |}.

(** [movq %rsp, %rdi] *)
Definition set_FrameRdi (v : Z) (r : HALP_SYSCALL_REG_FRAME) : HALP_SYSCALL_REG_FRAME :=
  {| FrameR11 := FrameR11 r; FrameR10 := FrameR10 r; FrameR9 := FrameR9 r; FrameR8 := FrameR8 r;
     FrameRdx := FrameRdx r; FrameRsi := FrameRsi r; FrameRdi := v; FrameRax := FrameRax r |}.

(** The processor's timestamp counter: [rdtsc] gives its low and its high half. *)
Class TimestampCounter (W : Type) := { rdtsc : M W (Z * Z) }.

(** Where the handlers lie and the stack pointer in [HalpInitializeSegments]. *)
Class HalLayout := {
  hal_handlers : handlers;
  hal_rsp : Z }.

Section World.
Context {W : Type} `{IoWorld W} `{HalWorld W} `{PortIo W} `{ByteMem W} `{IntrWorld W}.

(** A buffered line; undefined behaviour when it does not fit its buffer. *)
Definition write_line (l : option cstr) : M W unit :=
  m <- deref l ;; HalWriteDebugString (Some m).

Definition HalHalt {A} : M W A := HalDisableInterrupts ;;; halt.

(** ** Exceptions *)

(** [FaultAddress]: the register CR2. *)
Definition HalpPageFaultInterruptHandler (Frame : AUR64_INTERRUPT_FRAME) (FaultAddress ErrorCode : Z) : M W unit :=
  write_line (HalpWriteHexLine (str "[HAL] PF.CS=") (FrameCs Frame)) ;;;
  write_line (HalpWriteHexLine (str "[HAL] PF.SS=") (FrameSs Frame)) ;;;
  HalHandlePageFaultTrap FaultAddress ErrorCode (FrameRip Frame).

Definition HalpGeneralProtectionInterruptHandler (Frame : AUR64_INTERRUPT_FRAME) (ErrorCode : Z) : M W unit :=
  HalWriteDebugString (Some (str "[HAL] #GP fault" ++ [10])) ;;;
  write_line (HalpWriteHexLine (str "[HAL] GP.RIP=") (FrameRip Frame)) ;;;
  write_line (HalpWriteHexLine (str "[HAL] GP.ERR=") ErrorCode) ;;;
  HalHalt.

Definition HalpInvalidOpcodeInterruptHandler (Frame : AUR64_INTERRUPT_FRAME) : M W unit :=
  HalWriteDebugString (Some (str "[HAL] #UD fault" ++ [10])) ;;;
  write_line (HalpWriteHexLine (str "[HAL] UD.RIP=") (FrameRip Frame)) ;;;
  HalHalt.

(** ** The system-call gate *)

(** The structure at [Frame]. *)
Definition read_frame (Frame : Z) : M W HALP_SYSCALL_REG_FRAME :=
  r11 <- read_u64 Frame ;; r10 <- read_u64 (Frame + 8) ;; r9 <- read_u64 (Frame + 16) ;; r8 <- read_u64 (Frame + 24) ;;
  rdx <- read_u64 (Frame + 32) ;; rsi <- read_u64 (Frame + 40) ;; rdi <- read_u64 (Frame + 48) ;;
  rax <- read_u64 (Frame + 56) ;;
  ret {| FrameR11 := r11; FrameR10 := r10; FrameR9 := r9; FrameR8 := r8; FrameRdx := rdx; FrameRsi := rsi;
         FrameRdi := rdi; FrameRax := rax |}.

Definition HalpHandleSyscallTrap `{KernelLayout} (Frame : Z) : M W unit :=
  f <- read_frame Frame ;;
  r <- KiDispatchSystemCall (FrameRax f) (FrameRdi f) (FrameRsi f) (FrameRdx f) (FrameR10 f) (FrameR8 f) (FrameR9 f) ;;
  write_u64 (Frame + 56) r.

(** [pushq]: the stack pointer after it. *)
Definition push (Rsp_ v : Z) : M W Z := write_u64 (Rsp_ - 8) v ;;; ret (Rsp_ - 8).

(** The stub: the registers pushed, the call, the registers popped into what the
    call left in them.  [leaves]: the registers the compiled C function leaves,
    called with these registers in this state. *)
Definition HalpSyscallInterruptHandler `{KernelLayout} (leaves : cpu_registers -> W -> cpu_registers)
    (r : cpu_registers) (Rsp_ : Z) : M W cpu_registers :=
  let f := reg_saved r in
  sp <- push Rsp_ (FrameRax f) ;;
  sp <- push sp (FrameRdi f) ;;
  sp <- push sp (FrameRsi f) ;;
  sp <- push sp (FrameRdx f) ;;
  sp <- push sp (FrameR8 f) ;;
  sp <- push sp (FrameR9 f) ;;
  sp <- push sp (FrameR10 f) ;;
  sp <- push sp (FrameR11 f) ;;
  left <- gets (leaves (set_reg_saved (set_FrameRdi sp f) r)) ;;
  HalpHandleSyscallTrap sp ;;;
  f <- read_frame sp ;;
  ret (set_reg_saved f left).

(** ** Time *)

Definition HalReadTimestampCounter `{TimestampCounter W} : M W Z :=
  dlet (Low, High) := rdtsc ;;
  ret (Z.lor (Z.shiftl High 32) Low).

(** [do { ... } while (Delta < Target)], [fuel] turns left. *)
Fixpoint stall_loop `{TimestampCounter W} (fuel : nat) (Start Target : Z) : M W unit :=
  match fuel with
  | O => stuck
  | S fuel =>
      Now <- HalReadTimestampCounter ;;
      let Delta := u64 (Now - Start) in
      if Delta <? Target then stall_loop fuel Start Target else ret tt
  end.

(** A counter that advances with every reading reaches the target within as
    many readings: the fuel is one more. *)
Definition HalStallExecution `{TimestampCounter W} (Microseconds : Z) : M W unit :=
  if Microseconds =? 0 then ret tt
  else
    Start <- HalReadTimestampCounter ;;
    let Target := u64 (Microseconds * 2500) in
    stall_loop (S (Z.to_nat Target)) Start Target.

(** ** The two phases *)

Definition HalInitializePhase0 `{HalLayout} (BootInfo : option BOOT_INFO_PTR) : M W unit :=
  query_platform BootInfo ;;;
  HalpInitializeSerial ;;;
  HalpInitializeFramebuffer ;;;
  HalpInitializeInterrupts hal_rsp hal_handlers ;;;
  HalpInitializeTimer ;;;
  HalWriteDebugString (Some (str "[HAL] phase0 complete" ++ [10])).

Definition HalInitializePhase1 : M W unit :=
  HalEnableInterrupts ;;;
  HalWriteDebugString (Some (str "[HAL] phase1 complete" ++ [10])).
End World.
