(* ===== verification/Ex.v ===== *)
(** * Executive: kernel/ex/init.c, kernel/ex/hybrid.c, kernel/include/ex.h

    The table of the modules and their start in its order, and the message the
    executive leaves at the system endpoint.  A routine of the table is a value of
    [EX_MODULE_INITIALIZE_ROUTINE]; [run_initialize] is the call through it. *)

From S2P Require Import Prelude CString BootProto Nk Se Cc Ob PhysMem MmPages MmTables MmSpace MmSection MmDump.
From S2P Require Import Kpe KpeLoad UserMem Ps PsSpawn Lpc Io Hal Syscall HalIntr HalStart.

Definition LPC_OPCODE_BIND_ENDPOINT : Z := LPC_OPCODE_BASE + 1.

(** ** The modules *)

Inductive EX_MODULE_INITIALIZE_ROUTINE :=
| InitializeOb | InitializeSe | InitializeMm | InitializeCc | InitializeIo | InitializePs | InitializeLpc.

Record EX_MODULE_DESCRIPTOR := {
  ModuleName : cstr;
  Initialize : EX_MODULE_INITIALIZE_ROUTINE;
  ModuleFlags : Z }.

Definition gExBootModules : list EX_MODULE_DESCRIPTOR := [
  {| ModuleName := str "OB"; Initialize := InitializeOb; ModuleFlags := 0 |};
  {| ModuleName := str "SE"; Initialize := InitializeSe; ModuleFlags := 0 |};
  {| ModuleName := str "MM"; Initialize := InitializeMm; ModuleFlags := 0 |};
  {| ModuleName := str "CC"; Initialize := InitializeCc; ModuleFlags := 0 |};
  {| ModuleName := str "IO"; Initialize := InitializeIo; ModuleFlags := 0 |};
  {| ModuleName := str "PS"; Initialize := InitializePs; ModuleFlags := 0 |};
  {| ModuleName := str "LPC"; Initialize := InitializeLpc; ModuleFlags := 0 |} ].

(** What the executive needs of the rest of the kernel: the state of the security
    and the cache manager, its own endpoint, and where the routines lie. *)
Class ExWorld (W : Type) `{IoWorld W} := {
  se_get : W -> se_state;
  se_put : se_state -> W -> W;
  cc_get : W -> cc_state;
  cc_put : cc_state -> W -> W;
  gExIpcServiceEndpoint : W -> NK_SERVICE_ENDPOINT;
  put_ex_endpoint : NK_SERVICE_ENDPOINT -> W -> W }.

(** [message_rest]: what the stack holds where the payload of the message lies
    after its first four bytes. *)
Class ExLayout := {
  routine_address : EX_MODULE_INITIALIZE_ROUTINE -> Z;
  message_rest : list Z }.

Definition ExWriteHexLine := write_hex_line 96.

Section World.
Context {W : Type} `{ExWorld W} `{HalWorld W} `{PortIo W} `{ByteMem W} `{ExLayout}.

Definition se {A} (m : M se_state A) : M W A := zoom se_get se_put m.
Definition cc {A} (m : M cc_state A) : M W A := zoom cc_get cc_put m.

Definition print_str (s : cstr) : M W unit := HalWriteDebugString (Some s).

(** The call through a routine of the table. *)
Definition run_initialize (r : EX_MODULE_INITIALIZE_ROUTINE) : M W KSTATUS :=
  match r with
  | InitializeOb => ob ObInitialize
  | InitializeSe => se SeInitialize
  | InitializeMm =>
      BootInfo <- gets (fun w => NkGetBootInfo (nk_get w)) ;;
      PlatformInfo <- gets (fun w => HalQueryPlatformInfo (hal_get w)) ;;
      MmInitialize BootInfo (PhysicalMemoryTop PlatformInfo)
  | InitializeCc =>
      PlatformInfo <- gets (fun w => HalQueryPlatformInfo (hal_get w)) ;;
      cc (CcInitialize PlatformInfo)
  | InitializeIo => IoInitialize
  | InitializePs => PsInitialize
  | InitializeLpc => LpcInitialize
  end.

(** [for (Index = ...; Index < ...; Index++)] over the modules left. *)
Fixpoint initialize_modules (l : list EX_MODULE_DESCRIPTOR) : M W KSTATUS :=
  match l with
  | [] => ret KSTATUS_SUCCESS
  | m :: l =>
      print_str (str "[EX] module init begin: ") ;;;
      print_str (ModuleName m) ;;;
      print_str [10] ;;;
      write_line (ExWriteHexLine (str "[EX] module init fn=") (routine_address (Initialize m))) ;;;
      Status <- run_initialize (Initialize m) ;;
      if negb (ok Status) && negb (Status =? KSTATUS_ALREADY_INITIALIZED) then
        print_str (str "[EX] module init failed: ") ;;;
        print_str (ModuleName m) ;;;
        print_str [10] ;;;
        ret Status
      else initialize_modules l
  end.

(** ** The message at the system endpoint *)

Definition bind_message : NK_MESSAGE :=
  {| Opcode := LPC_OPCODE_BIND_ENDPOINT; Length := 4; Payload := [69; 88; 67; 84] ++ message_rest |}.

(** [NkServiceSend] through the pointer [LpcGetSystemEndpoint] stores. *)
Definition send_system_endpoint (m : NK_MESSAGE) : M W KSTATUS :=
  s <- gets lpc_get ;;
  dlet (Status, Endpoint) := NkServiceSend (Some (gLpcSystemEndpoint s)) (Some m) ;;
  lpc (modify (fun s => {| gLpcSystemEndpoint := default (gLpcSystemEndpoint s) Endpoint;
    gLpcPortType := gLpcPortType s; gLpcPortPool := gLpcPortPool s; gLpcPortInUse := gLpcPortInUse s;
    gLpcReady := gLpcReady s |})) ;;;
  ret Status.

Definition ExInitializeHybridServices : M W KSTATUS :=
  e <- gets gExIpcServiceEndpoint ;;
  dlet (Status, Endpoint) := nk (NkServiceEndpointInitialize (Some e) (Some (str "ex.control")) 0x2000 0) ;;
  modify (put_ex_endpoint (default e Endpoint)) ;;;
  if negb (ok Status) then ret Status
  else
    dlet (Status, LpcEndpoint) := LpcGetSystemEndpoint true ;;
    if negb (ok Status) then ret Status
    else
      Status <- send_system_endpoint bind_message ;;
      if negb (ok Status) then ret Status
      else
        print_str (str "[EX] hybrid service endpoint online (microkernel-style IPC edge)" ++ [10]) ;;;
        ret KSTATUS_SUCCESS.

Definition ExInitializeExecutive : M W KSTATUS :=
  print_str (str "[EX] CORE -> EXEC phase begin" ++ [10]) ;;;
  Status <- initialize_modules gExBootModules ;;
  if negb (ok Status) then ret Status
  else
    Status <- ExInitializeHybridServices ;;
    if negb (ok Status) then ret Status
    else
      print_str (str "[EX] EXEC modules complete" ++ [10]) ;;;
      print_str (str "[EX] EXEC phase complete" ++ [10]) ;;;
      ret KSTATUS_SUCCESS.
End World.
