(* ===== verification/Threads.v ===== *)
(** * Threads that run code

    A computation of the model that dispatches returns where the processor goes
    on: in the code of the thread it switched to.  [code] is what a thread does
    from one such call to the next; [threads] is the processor with the code it
    runs and, for every thread that was switched out, the rest of that thread's
    code, kept where [KiArchSwitchContext] keeps the registers. *)

From S2P Require Import Prelude CString BootProto Nk Ob PhysMem MmPages MmTables MmSpace MmSection Ps.

(** [Call m]: a computation that comes back to this thread; [Switch m k]: one
    that dispatches, whose result this thread sees when it runs again. *)
Inductive code (W : Type) :=
| Finish
| Call (m : M W (code W))
| Switch (m : M W Z) (k : Z -> code W).
Arguments Finish {W}.
Arguments Call {W} m.
Arguments Switch {W} m k.

Definition then_ {W} (m : M W unit) (c : code W) : code W := Call (m ;;; ret c).

(** [for (i = 0; i < n; i++) body] *)
Fixpoint repeat_code {W} (n : nat) (i : nat) (body : nat -> code W -> code W) (c : code W) : code W :=
  match n with
  | O => c
  | S n => body i (repeat_code n (S i) body c)
  end.

Record threads (W : Type) := {
  on_cpu : code W;
  parked : gmap nat (code W);
  kernel_of : W }.
Arguments on_cpu {W} _.
Arguments parked {W} _.
Arguments kernel_of {W} _.

Section Machine.
Context {W : Type} `{PsWorld W}.
(** The code of a thread that has not run yet. *)
Context (fresh : nat -> code W).

(** After a computation that dispatches: the switch happens when the current
    thread is another one, and none happens from no thread. *)
Definition after_switch (w : W) (c : code W) (p : gmap nat (code W)) (w' : W) : threads W :=
  match gPsCurrentThread (ps_get w), gPsCurrentThread (ps_get w') with
  | Some prev, Some next =>
      if bool_decide (prev = next) then {| on_cpu := c; parked := p; kernel_of := w' |}
      else {| on_cpu := default (fresh next) (p !! next); parked := <[prev := c]> p; kernel_of := w' |}
  | _, _ => {| on_cpu := c; parked := p; kernel_of := w' |}
  end.

(** One step; the result is whether there is code left to run. *)
Definition step : M (threads W) bool := fun s =>
  match on_cpu s with
  | Finish => Ret false s
  | Call m =>
      match m (kernel_of s) with
      | Ret c w => Ret true {| on_cpu := c; parked := parked s; kernel_of := w |}
      | Halt w => Halt {| on_cpu := Finish; parked := parked s; kernel_of := w |}
      | Stuck => Stuck
      end
  | Switch m k =>
      match m (kernel_of s) with
      | Ret r w => Ret true (after_switch (kernel_of s) (k r) (parked s) w)
      | Halt w => Halt {| on_cpu := Finish; parked := parked s; kernel_of := w |}
      | Stuck => Stuck
      end
  end.

Fixpoint steps (n : nat) : M (threads W) bool :=
  match n with
  | O => ret true
  | S n => more <- step ;; if (more : bool) then steps n else ret false
  end.

(** The machine comes to run [c] in [w'] with [p'] parked. *)
Inductive reaches : threads W -> threads W -> Prop :=
| reaches_refl s : reaches s s
| reaches_step s s1 s2 : step s = Ret true s1 -> reaches s1 s2 -> reaches s s2.

(** ** The entry thunk *)

(** [start]: the code of a start routine called with its context; [user]: what a
    thread does in user mode.  The loop has no end; [n] of its turns are followed. *)
Fixpoint PspThreadEntryThunk (n : nat) (start : Z -> Z -> code W -> code W) (user : Z -> Z -> Z -> Z -> code W) : code W :=
  match n with
  | O => Call stuck
  | S n =>
      Call (dlet (cur, c) := PspThreadEntryThunk_begin ;;
            let rest := Switch (PspThreadEntryThunk_end cur ;;; ret 0) (fun _ => PspThreadEntryThunk n start user) in
            ret (match c with
                 | EnterUserMode Entry StackTop Arg0 Arg1 => user Entry StackTop Arg0 Arg1
                 | CallStart r Context_ => start r Context_ rest
                 | NoCall => rest
                 end))
  end.
End Machine.
