(* ===== verification/Arch.v ===== *)
(** * Processor context: kernel/arch/aur64/context.c, kernel/include/kiarch.h

    What is not part of the scheduler: saving and loading a context on its own,
    the way into user mode, and the smoke test that puts a small program into a
    page of the current process and runs it there. *)

From S2P Require Import Prelude CString BootProto Nk Ob PhysMem MmPages MmTables MmSpace MmSection MmDump.
From S2P Require Import Kpe KpeLoad UserMem Ps PsSpawn Lpc Io Hal Syscall HalIntr HalStart Threads.

Definition AUR64_USER_DATA_SELECTOR : Z := 0x1B.
Definition AUR64_USER_CODE_SELECTOR : Z := 0x23.

(** ** Saving and loading *)

(** The label the saved context resumes at is an address in the routine. *)
Definition KiArchSaveContext (resume : Z) (OutContext : option nat) : M ps_state unit :=
  match OutContext with
  | None => ret tt
  | Some i => s <- gets (fun s => s) ;; update_thread i (set_Context (saved_context resume (cpu s)))
  end.

Definition KiArchLoadContext (Context_ : option nat) : M ps_state unit :=
  match Context_ with
  | None => ret tt
  | Some i => t <- get_thread i ;; modify (set_cpu (Context t))
  end.

(** ** User mode *)

(** What [iretq] takes from the stack, and the argument registers. *)
Record user_frame := {
  uf_rip : Z;
  uf_cs : Z;
  uf_rflags : Z;
  uf_rsp : Z;
  uf_ss : Z;
  uf_rdi : Z;
  uf_rsi : Z }.

Definition KiArchEnterUserMode (Rflags_ UserEntry_ UserStackTop_ Arg0 Arg1 : Z) : user_frame :=
  {| uf_rip := UserEntry_; uf_cs := AUR64_USER_CODE_SELECTOR; uf_rflags := Z.lor Rflags_ 0x200;
     uf_rsp := UserStackTop_; uf_ss := AUR64_USER_DATA_SELECTOR; uf_rdi := Arg0; uf_rsi := Arg1 |}.

(** ** The smoke test *)

(** [PUT32(v)] *)
Definition put32 (v : Z) : list Z :=
  let v := u32 v in
  [Z.land v 0xFF; Z.land (Z.shiftr v 8) 0xFF; Z.land (Z.shiftr v 16) 0xFF; Z.land (Z.shiftr v 24) 0xFF].

(** The bytes the code stores; their number is [*OutCodeBytes]. *)
Definition KiUserSmokeBuildCode (MessageLen : Z) : list Z :=
  [0x48; 0x89; 0xFB] ++
  [0xC6; 0x03; 0x5A] ++
  [0x48; 0xC7; 0xC0] ++ put32 0 ++
  [0x48; 0x8D; 0xBB] ++ put32 0x100 ++
  [0x48; 0xC7; 0xC6] ++ put32 MessageLen ++
  [0x48; 0x31; 0xD2] ++
  [0x4D; 0x31; 0xD2] ++
  [0x4D; 0x31; 0xC0] ++
  [0x4D; 0x31; 0xC9] ++
  [0xCD; 0x80] ++
  [0x48; 0xC7; 0xC0] ++ put32 1 ++
  [0x48; 0x31; 0xFF] ++
  [0x48; 0x31; 0xF6] ++
  [0x48; 0x31; 0xD2] ++
  [0x4D; 0x31; 0xD2] ++
  [0x4D; 0x31; 0xC0] ++
  [0x4D; 0x31; 0xC9] ++
  [0xCD; 0x80] ++
  [0x48; 0xC7; 0xC0] ++ put32 1 ++
  [0xCD; 0x80] ++
  [0x48; 0xC7; 0xC0] ++ put32 5 ++
  [0x48; 0x31; 0xFF] ++
  [0xCD; 0x80] ++
  [0xF4] ++
  [0xEB; 0xFD].

Definition smoke_message : cstr := str "[USR] hello from user mode" ++ [10].

Section World.
Context {W : Type} `{IoWorld W} `{HalWorld W} `{PortIo W} `{ByteMem W} `{KernelLayout}.

(** [for (i = 0; ...) Dst[i] = l[i]] *)
Fixpoint store_bytes (l : list Z) (Dst : Z) : M W unit :=
  match l with
  | [] => ret tt
  | b :: l => write_u8 Dst b ;;; store_bytes l (u64 (Dst + 1))
  end.

(** The page of code: no-ops, the program, and the message at 0x100. *)
Definition write_smoke_page (CodeBase : Z) : M W unit :=
  store_bytes (replicate (Z.to_nat MM_PAGE_SIZE) 0x90) CodeBase ;;;
  store_bytes (KiUserSmokeBuildCode (Z.of_nat (length smoke_message))) CodeBase ;;;
  store_bytes smoke_message (u64 (CodeBase + 0x100)).

(** The three mappings: the bases of the code and of the stack. *)
Definition map_smoke (a : nat) : M W (KSTATUS * (Z * Z)) :=
  dlet (Status, CodeBase) := mmM (MmMapAnonymous (Some a) MM_PAGE_SIZE
    (Z.lor (Z.lor MM_PROT_READ MM_PROT_WRITE) MM_PROT_EXECUTE) MM_REGION_FLAG_WIRED true) ;;
  if negb (ok Status) then ret (Status, (0, 0))
  else
    dlet (Status, GuardBase) := mmM (MmMapAnonymous (Some a) MM_PAGE_SIZE 0
      (Z.lor MM_REGION_FLAG_GUARD MM_REGION_FLAG_LAZY) true) ;;
    if negb (ok Status) then ret (Status, (0, 0))
    else
      dlet (Status, StackBase) := mmM (MmMapAnonymous (Some a) MM_PAGE_SIZE
        (Z.lor MM_PROT_READ MM_PROT_WRITE) MM_REGION_FLAG_WIRED true) ;;
      if negb (ok Status) then ret (Status, (0, 0))
      else
        CodeBase <- deref CodeBase ;;
        StackBase <- deref StackBase ;;
        ret (KSTATUS_SUCCESS, (CodeBase, StackBase)).

(** Everything before the loop: the thread that was made ready. *)
Definition start_smoke : M W (KSTATUS * option nat) :=
  Process <- ps PsGetCurrentProcess ;;
  AddressSpace <- current_space ;;
  match Process, AddressSpace with
  | Some _, Some a =>
      dlet (Status, (CodeBase, StackBase)) := map_smoke a ;;
      if negb (ok Status) then ret (Status, None)
      else
        write_smoke_page CodeBase ;;;
        dlet (Status, UserThread) := PsCreateUserThread Process CodeBase (u64 (StackBase + MM_PAGE_SIZE - 16)) CodeBase 0 true ;;
        if negb (ok Status) then ret (Status, None)
        else
          Status <- ps (PsReadyThread UserThread) ;;
          ret (Status, UserThread)
  | _, _ => ret (KSTATUS_INVALID_PARAMETER, None)
  end.

Definition is_dead (t : nat) : M W bool :=
  t <- ps (get_thread t) ;; ret (bool_decide (State t = PsThreadDead)).

(** [for (i = ...; i < 200u; i++)], [n] turns left; both the preemption point and
    the yield may switch. *)
Fixpoint smoke_loop (n : nat) (t : nat) (k : KSTATUS -> code W) : code W :=
  match n with
  | O => k KSTATUS_INIT_FAILED
  | S n =>
      Call (HalTriggerSyntheticTimerTick ;;;
        ret (Switch (PsHandlePreemptionPoint ;;; ret 0) (fun _ =>
             Switch PsYieldThread (fun _ =>
             Call (dead <- is_dead t ;;
                   ret (if (dead : bool) then k KSTATUS_SUCCESS else smoke_loop n t k))))))
  end.

Definition KiArchUserModeSmokeTest (k : KSTATUS -> code W) : code W :=
  Call (dlet (Status, UserThread) := start_smoke ;;
        if negb (ok Status) then ret (k Status)
        else t <- deref UserThread ;; ret (smoke_loop 200 t k)).
End World.
