(* ===== verification/Validate.v ===== *)
(** * Self-tests: kernel/ke/validate.c

    The validation suite the kernel runs when the boot record asks for it.  Its
    tests yield, so each is a piece of [code] with the code that follows it as an
    argument; the start routines of its worker threads are [code] too.

    The system calls are made through [int $0x80]: KernelSuite.v shows that the stub
    behind the gate returns what [KiDispatchSystemCall] returns, which is what
    [KeInvokeSyscall] is here. *)

From S2P Require Import Prelude CString BootProto Nk Ob PhysMem MmPages MmTables MmSpace MmSection MmDump.
From S2P Require Import Kpe KpeLoad UserMem Ps PsSpawn Lpc Io Hal Syscall HalIntr HalStart Threads Arch.

(** ** Data *)

Record KE_VALIDATION_COUNTERS := {
  WorkerAIterations : Z;
  WorkerBIterations : Z;
  IpcIterations : Z }.

Record KE_IPC_WORKER_CONTEXT := {
  SendHandle : Z;
  RecvHandle : Z;
  Iterations : Z;
  RoleId : Z }.

(** [DoneA], [DoneB] and the two contexts are variables of [KeTestIpcPingPong];
    the workers reach them through their contexts' pointers. *)
Record ke_state := {
  gKeValidationCounters : KE_VALIDATION_COUNTERS;
  CtxA : KE_IPC_WORKER_CONTEXT;
  CtxB : KE_IPC_WORKER_CONTEXT;
  DoneA : bool;
  DoneB : bool }.

Definition set_counters (c : KE_VALIDATION_COUNTERS) (s : ke_state) : ke_state :=
  {| gKeValidationCounters := c; CtxA := CtxA s; CtxB := CtxB s; DoneA := DoneA s; DoneB := DoneB s |}.
Definition set_contexts (a b : KE_IPC_WORKER_CONTEXT) (s : ke_state) : ke_state :=
  {| gKeValidationCounters := gKeValidationCounters s; CtxA := a; CtxB := b; DoneA := false; DoneB := false |}.
Definition set_done (worker_a : bool) (s : ke_state) : ke_state :=
  {| gKeValidationCounters := gKeValidationCounters s; CtxA := CtxA s; CtxB := CtxB s;
     DoneA := DoneA s || worker_a; DoneB := DoneB s || negb worker_a |}.

Definition add_WorkerA (c : KE_VALIDATION_COUNTERS) : KE_VALIDATION_COUNTERS :=
  {| WorkerAIterations := u32 (WorkerAIterations c + 1); WorkerBIterations := WorkerBIterations c;
     IpcIterations := IpcIterations c |}.
Definition add_WorkerB (c : KE_VALIDATION_COUNTERS) : KE_VALIDATION_COUNTERS :=
  {| WorkerAIterations := WorkerAIterations c; WorkerBIterations := u32 (WorkerBIterations c + 1);
     IpcIterations := IpcIterations c |}.
Definition add_Ipc (c : KE_VALIDATION_COUNTERS) : KE_VALIDATION_COUNTERS :=
  {| WorkerAIterations := WorkerAIterations c; WorkerBIterations := WorkerBIterations c;
     IpcIterations := u32 (IpcIterations c + 1) |}.

(** What the tests need of the rest of the kernel. *)
Class KeWorld (W : Type) := {
  ke_get : W -> ke_state;
  ke_put : ke_state -> W -> W }.

(** Where the compiler and the linker put things: string literals, start
    routines, contexts and local variables. *)
Class KeLayout := {
  literal : cstr -> Z;
  KeValidationWorkerA_at : Z;
  KeValidationWorkerB_at : Z;
  KeIpcWorkerThread_at : Z;
  CtxA_at : Z;
  CtxB_at : Z;
  SendPayload_at : Z -> Z;
  RecvPayload_at : Z -> Z;
  SectionHandle_at : Z;
  VaA_at : Z;
  VaB_at : Z }.

(** [KeLoadU32], [KeStoreU32]: a value's four bytes. *)
Definition KeStoreU32 (Value : Z) : list Z :=
  [Z.land Value 0xFF; Z.land (Z.shiftr Value 8) 0xFF; Z.land (Z.shiftr Value 16) 0xFF; Z.land (Z.shiftr Value 24) 0xFF].
Definition KeLoadU32 (Buffer : list Z) : Z :=
  match Buffer with
  | [a; b; c; d] => Z.lor (Z.lor (Z.lor a (Z.shiftl b 8)) (Z.shiftl c 16)) (Z.shiftl d 24)
  | _ => 0
  end.

(** The signed reading of a result: [(int64_t)Result < 0] and the status. *)
Definition failed (Result : Z) : bool := s64 Result <? 0.
Definition result_status (Result : Z) : KSTATUS := s32 (u32 (s64 Result)).

Section World.
Context {W : Type} `{IoWorld W} `{HalWorld W} `{PortIo W} `{ByteMem W} `{TimestampCounter W} `{KeWorld W}.
Context `{KernelLayout} `{KeLayout}.

Definition ke {A} (m : M ke_state A) : M W A := zoom ke_get ke_put m.
Definition count (f : KE_VALIDATION_COUNTERS -> KE_VALIDATION_COUNTERS) : M W unit :=
  ke (modify (fun s => set_counters (f (gKeValidationCounters s)) s)).

(** ** System calls *)

Definition KeInvokeSyscall (Number Arg0 Arg1 Arg2 Arg3 Arg4 Arg5 : Z) : M W Z :=
  KiDispatchSystemCall Number Arg0 Arg1 Arg2 Arg3 Arg4 Arg5.

Definition KeSysDebugPrint (Text : option cstr) : M W KSTATUS :=
  match Text with
  | None => ret KSTATUS_INVALID_PARAMETER
  | Some t =>
      let t := cstr_of t in
      r <- KeInvokeSyscall NkSysDebugPrint (literal t) (Z.of_nat (length t)) 0 0 0 0 ;;
      ret (result_status r)
  end.

Definition yield_syscall : M W Z := KeInvokeSyscall NkSysYield 0 0 0 0 0 0.

(** ** When to run *)

Definition KeShouldRunValidationMode : M W bool :=
  BootInfo <- gets (fun w => NkGetBootInfo (nk_get w)) ;;
  ret (match BootInfo with
       | Some b => any_flag (Flags (bi_value b)) BOOTINFO_FLAG_VALIDATE
       | None => false
       end).

Definition kevt (s : String.string) : cstr := str s ++ [10].
Definition debug (s : cstr) : M W unit := HalWriteDebugString (Some s).

(** ** System calls *)

Definition KeTestSyscall (k : KSTATUS -> code W) : code W :=
  Call (Status <- KeSysDebugPrint (Some (kevt "[KEVT] test syscall")) ;;
        if negb (ok Status) then ret (k Status)
        else ret (Switch yield_syscall (fun r => k (result_status r)))).

(** ** The scheduler *)

(** [for (Iteration = ...; Iteration < 4u; Iteration++)], [n] left. *)
Fixpoint worker_loop (n : nat) (line : cstr) (f : KE_VALIDATION_COUNTERS -> KE_VALIDATION_COUNTERS) (c : code W) : code W :=
  match n with
  | O => c
  | S n =>
      Call (debug line ;;; count f ;;; ret (Switch yield_syscall (fun _ => worker_loop n line f c)))
  end.

(** A start routine's code, before the code its return leads to. *)
Definition KeValidationWorkerA (Context_ : Z) (c : code W) : code W :=
  worker_loop 4 (kevt "[KEVT] worker A iteration") add_WorkerA (then_ (debug (kevt "[KEVT] worker A complete")) c).
Definition KeValidationWorkerB (Context_ : Z) (c : code W) : code W :=
  worker_loop 4 (kevt "[KEVT] worker B iteration") add_WorkerB (then_ (debug (kevt "[KEVT] worker B complete")) c).

(** [n] passes left of a loop that ticks, offers to be preempted, yields and then
    goes on with [after]. *)
Fixpoint tick_and_yield (n : nat) (after : code W -> code W) (c : code W) : code W :=
  match n with
  | O => c
  | S n =>
      Call (HalTriggerSyntheticTimerTick ;;;
        ret (Switch (PsHandlePreemptionPoint ;;; ret 0) (fun _ =>
             Switch yield_syscall (fun _ => after (tick_and_yield n after c)))))
  end.

(** Two threads created and made ready. *)
Definition start_workers (Process : option nat) (Routine1 Context1 Routine2 Context2 : Z) : M W KSTATUS :=
  dlet (Status, WorkerA) := PsCreateKernelThread Process (Some Routine1) Context1 true ;;
  if negb (ok Status) then ret Status
  else
    dlet (Status, WorkerB) := PsCreateKernelThread Process (Some Routine2) Context2 true ;;
    if negb (ok Status) then ret Status
    else
      Status <- ps (PsReadyThread WorkerA) ;;
      if negb (ok Status) then ret Status else ps (PsReadyThread WorkerB).

Definition KeTestScheduler (k : KSTATUS -> code W) : code W :=
  Call (CurrentProcess <- ps PsGetCurrentProcess ;;
        match CurrentProcess with
        | None => ret (k KSTATUS_INVALID_PARAMETER)
        | Some _ =>
            Status <- start_workers CurrentProcess KeValidationWorkerA_at 0 KeValidationWorkerB_at 0 ;;
            if negb (ok Status) then ret (k Status)
            else
              ret (tick_and_yield 24 (fun c => c)
                (Call (s <- gets ke_get ;;
                       let n := gKeValidationCounters s in
                       ret (k (if (WorkerAIterations n =? 0) || (WorkerBIterations n =? 0)
                               then KSTATUS_INIT_FAILED else KSTATUS_SUCCESS)))))
        end).

(** ** Memory *)

Definition KeTestVmLazy : M W KSTATUS :=
  AddressSpace <- current_space ;;
  match AddressSpace with
  | None => ret KSTATUS_INVALID_PARAMETER
  | Some a =>
      MappingBase <- KeInvokeSyscall NkSysMapMemory MM_PAGE_SIZE 0 0 0 0 0 ;;
      if failed MappingBase then ret (result_status MappingBase)
      else
        debug (kevt "[KEVT] touching lazy-mapped page") ;;;
        write_u8 MappingBase 0x5A ;;;
        write_u8 (MappingBase + (MM_PAGE_SIZE - 1)) 0xA5 ;;;
        print (fun w => a ← gMmAddressSpacePool (mm (mm_get w)) !! a;
                        MmDumpAddressTranslation (mm_get w) (Some a) MappingBase) ;;;
        print_faults ;;;
        ret KSTATUS_SUCCESS
  end.

(** The handle closed, then [Status]. *)
Definition close_and (Handle : Z) (Status : KSTATUS) : M W KSTATUS :=
  KeInvokeSyscall NkSysCloseHandle Handle 0 0 0 0 0 ;;; ret Status.

(** The section seen at two addresses. *)
Definition check_views (SectionHandle VaA VaB : Z) : M W KSTATUS :=
  write_u8 VaA 0x34 ;;;
  write_u8 (VaA + 1) 0x12 ;;;
  b0 <- read_u8 VaB ;;
  b1 <- (if b0 =? 0x34 then read_u8 (VaB + 1) else ret 0) ;;
  if negb (b0 =? 0x34) || negb (b1 =? 0x12) then close_and SectionHandle KSTATUS_INIT_FAILED
  else
    write_u8 (VaB + (MM_PAGE_SIZE - 1)) 0xA7 ;;;
    a <- read_u8 (VaA + (MM_PAGE_SIZE - 1)) ;;
    if negb (a =? 0xA7) then close_and SectionHandle KSTATUS_INIT_FAILED
    else close_and SectionHandle KSTATUS_SUCCESS.

Definition KeTestVmSection : M W KSTATUS :=
  write_le 4 SectionHandle_at 0 ;;;
  write_u64 VaA_at 0 ;;;
  write_u64 VaB_at 0 ;;;
  Result <- KeInvokeSyscall NkSysCreateSection MM_PAGE_SIZE MM_SECTION_ACCESS_ALL SectionHandle_at 0 0 0 ;;
  if failed Result then ret (result_status Result)
  else
    Handle <- read_u32 SectionHandle_at ;;
    Result <- KeInvokeSyscall NkSysMapSection Handle (Z.lor MM_PROT_READ MM_PROT_WRITE) VaA_at 0 0 0 ;;
    if failed Result then Handle <- read_u32 SectionHandle_at ;; close_and Handle (result_status Result)
    else
      Handle <- read_u32 SectionHandle_at ;;
      Result <- KeInvokeSyscall NkSysMapSection Handle (Z.lor MM_PROT_READ MM_PROT_WRITE) VaB_at 0 0 0 ;;
      Handle <- read_u32 SectionHandle_at ;;
      if failed Result then close_and Handle (result_status Result)
      else
        VaA <- read_u64 VaA_at ;;
        VaB <- read_u64 VaB_at ;;
        check_views Handle VaA VaB.

Definition KeTestUserModeSmoke (k : KSTATUS -> code W) : code W := KiArchUserModeSmokeTest k.

(** ** Messages *)

(** The four bytes at [p]. *)
Definition read_bytes4 (p : Z) : M W (list Z) :=
  a <- read_u8 p ;; b <- read_u8 (p + 1) ;; c <- read_u8 (p + 2) ;; d <- read_u8 (p + 3) ;; ret [a; b; c; d].

(** One turn up to the value received; [None] when the routine returns. *)
Definition ipc_turn (Worker : KE_IPC_WORKER_CONTEXT) (Index : Z) : M W (option Z) :=
  let Value := Z.lor (u32 (Z.shiftl (RoleId Worker) 24)) Index in
  store_bytes (KeStoreU32 Value) (SendPayload_at (RoleId Worker)) ;;;
  Result <- KeInvokeSyscall NkSysSend (SendHandle Worker) (SendPayload_at (RoleId Worker)) 4 1 0 0 ;;
  if failed Result then ret None
  else
    Result <- KeInvokeSyscall NkSysReceive (RecvHandle Worker) (RecvPayload_at (RoleId Worker)) 4 1 0 0 ;;
    if failed Result || negb (Result =? 4) then ret None
    else
      l <- read_bytes4 (RecvPayload_at (RoleId Worker)) ;;
      count add_Ipc ;;;
      ret (Some (KeLoadU32 l)).

(** The context behind a worker's pointer. *)
Definition ipc_context (Context_ : Z) (s : ke_state) : KE_IPC_WORKER_CONTEXT :=
  if Context_ =? CtxA_at then CtxA s else CtxB s.

(** [for (Index = ...; Index < Worker->Iterations; Index++)], [n] turns left. *)
Fixpoint ipc_loop (n : nat) (Context_ Index : Z) (c : code W) : code W :=
  match n with
  | O => then_ (ke (modify (set_done (Context_ =? CtxA_at)))) c
  | S n =>
      Call (s <- gets ke_get ;;
            v <- ipc_turn (ipc_context Context_ s) Index ;;
            match v with
            | None => ret c
            | Some _ =>
                t <- HalReadTimestampCounter ;;
                ret (if negb (Z.land t 1 =? 0)
                     then Switch yield_syscall (fun _ => ipc_loop n Context_ (Index + 1) c)
                     else ipc_loop n Context_ (Index + 1) c)
            end)
  end.

Definition KeIpcWorkerThread (Context_ : Z) (c : code W) : code W :=
  Call (s <- gets ke_get ;; ret (ipc_loop (Z.to_nat (Iterations (ipc_context Context_ s))) Context_ 0 c)).

(** [for (Loops = ...; Loops < 20000u; Loops++)], [n] left. *)
Fixpoint wait_done (n : nat) (c : code W) : code W :=
  match n with
  | O => c
  | S n =>
      Call (HalTriggerSyntheticTimerTick ;;;
        ret (Switch (PsHandlePreemptionPoint ;;; ret 0) (fun _ =>
             Switch yield_syscall (fun _ =>
             Call (s <- gets ke_get ;; ret (if DoneA s && DoneB s then c else wait_done n c))))))
  end.

Definition KeTestIpcPingPong (k : KSTATUS -> code W) : code W :=
  Call (Process <- ps PsGetCurrentProcess ;;
        match Process with
        | None => ret (k KSTATUS_INVALID_PARAMETER)
        | Some _ =>
            PortA <- KeInvokeSyscall NkSysCreatePort LPC_PORT_ACCESS_ALL 0 0 0 0 0 ;;
            if failed PortA then ret (k (result_status PortA))
            else
              PortB <- KeInvokeSyscall NkSysCreatePort LPC_PORT_ACCESS_ALL 0 0 0 0 0 ;;
              if failed PortB then Status <- close_and PortA (result_status PortB) ;; ret (k Status)
              else
                let A := {| SendHandle := u32 PortA; RecvHandle := u32 PortB; Iterations := 1024; RoleId := 1 |} in
                let B := {| SendHandle := u32 PortB; RecvHandle := u32 PortA; Iterations := 1024; RoleId := 2 |} in
                ke (modify (set_contexts A B)) ;;;
                Status <- start_workers Process KeIpcWorkerThread_at CtxA_at KeIpcWorkerThread_at CtxB_at ;;
                if negb (ok Status) then ret (k Status)
                else
                  ret (wait_done (Z.to_nat 20000)
                    (Call (Status <- close_and PortA KSTATUS_SUCCESS ;;
                           Status <- close_and PortB KSTATUS_SUCCESS ;;
                           s <- gets ke_get ;;
                           ret (k (if negb (DoneA s) || negb (DoneB s) then KSTATUS_INIT_FAILED else KSTATUS_SUCCESS)))))
        end).

(** ** The suite *)

Record KE_TEST_CASE := { TestName : cstr; TestRoutine : (KSTATUS -> code W) -> code W }.

Definition simple_test (m : M W KSTATUS) (k : KSTATUS -> code W) : code W := Call (Status <- m ;; ret (k Status)).

Definition Tests : list KE_TEST_CASE := [
  {| TestName := str "syscall"; TestRoutine := KeTestSyscall |};
  {| TestName := str "scheduler"; TestRoutine := KeTestScheduler |};
  {| TestName := str "vm_lazy"; TestRoutine := simple_test KeTestVmLazy |};
  {| TestName := str "vm_section"; TestRoutine := simple_test KeTestVmSection |};
  {| TestName := str "user_smoke"; TestRoutine := KeTestUserModeSmoke |};
  {| TestName := str "ipc_pingpong"; TestRoutine := KeTestIpcPingPong |} ].

(** [debug(Prefix); debug(Name); debug(newline)] *)
Definition report (Prefix : cstr) (Name : cstr) : M W unit := debug Prefix ;;; debug Name ;;; debug [10].

(** [for (Index = ...)] over the tests left; the failure after the assertion is
    there for a build whose assertions return. *)
Fixpoint run_tests (l : list KE_TEST_CASE) (k : KSTATUS -> code W) : code W :=
  match l with
  | [] => Call (Status <- KeSysDebugPrint (Some (kevt "[KEVT] validation suite complete")) ;; ret (k Status))
  | t :: l =>
      then_ (report (str "[KEVT] run ") (TestName t)) (TestRoutine t (fun Status =>
        if Status =? KSTATUS_NOT_IMPLEMENTED then then_ (report (str "[KEVT] skip ") (TestName t)) (run_tests l k)
        else
          Call (NK_ASSERT (Status =? KSTATUS_SUCCESS) ;;;
                if negb (ok Status) then report (str "[KEVT] fail ") (TestName t) ;;; ret (k Status)
                else report (str "[KEVT] pass ") (TestName t) ;;; ret (run_tests l k))))
  end.

Definition KeRunValidationSuite (k : KSTATUS -> code W) : code W :=
  Call (run <- KeShouldRunValidationMode ;;
        if negb run then ret (k KSTATUS_SUCCESS)
        else
          count (fun _ => {| WorkerAIterations := 0; WorkerBIterations := 0; IpcIterations := 0 |}) ;;;
          debug (kevt "[KEVT] validation mode enabled") ;;;
          ret (run_tests Tests k)).

(** The start routines by address. *)
Definition start_routine (Routine Context_ : Z) (c : code W) : code W :=
  if Routine =? KeValidationWorkerA_at then KeValidationWorkerA Context_ c
  else if Routine =? KeValidationWorkerB_at then KeValidationWorkerB Context_ c
  else if Routine =? KeIpcWorkerThread_at then KeIpcWorkerThread Context_ c
  else Call stuck.
End World.
