(* ===== verification/Ke.v ===== *)
(** * Kernel start: kernel/ke/init.c

    The first code of the kernel: the marker on the serial port, the phases in
    their order, the launch of the first user process, the self-tests, and the
    idle loop. *)

From S2P Require Import Prelude CString BootProto Nk Se Cc Ob PhysMem MmPages MmTables MmSpace MmSection MmDump.
From S2P Require Import Kpe KpeLoad UserMem Ps PsSpawn Lpc Io Hal Syscall HalIntr HalStart Ex Threads Arch Validate.

Section World.
Context {W : Type} `{ExWorld W} `{HalWorld W} `{PortIo W} `{ByteMem W} `{IntrWorld W} `{KeWorld W} `{ExLayout}
  `{HalLayout} `{KernelLayout} `{KeLayout}.

(** [do { ... } while ((Lsr & 0x20u) == 0u)], [n] readings of the status before
    the routine gives up; whether the port is ready. *)
Fixpoint marker_wait (n : nat) : M W bool :=
  match n with
  | O => ret false
  | S n =>
      Lsr <- HalpIoRead8 (0x3F8 + 5) ;;
      if (n =? 0)%nat then ret false
      else if any_flag Lsr 0x20 then ret true else marker_wait n
  end.

Fixpoint marker_chars (Cursor : cstr) : M W unit :=
  match Cursor with
  | [] => ret tt
  | Ch :: Cursor =>
      ready <- marker_wait (Z.to_nat 1000000) ;;
      if negb ready then ret tt
      else
        HalpIoWrite8 0x3F8 (u8 Ch) ;;;
        if Ch =? 10 then
          ready <- marker_wait (Z.to_nat 1000000) ;;
          if negb ready then ret tt
          else HalpIoWrite8 0x3F8 13 ;;; marker_chars Cursor
        else marker_chars Cursor
  end.

Definition KiEarlySerialMarker : M W unit := marker_chars (str "[KE] kernel entry reached" ++ [10]).

Definition KiShowBootSplash : M W unit :=
  print_str [10] ;;;
  print_str (str "========================================" ++ [10]) ;;;
  print_str (str "               Nova Kernel              " ++ [10]) ;;;
  print_str (str "========================================" ++ [10]) ;;;
  print_str (str "Press ESC for verbose (pending input driver)" ++ [10]).

Definition KiLaunchInitProcess : M W unit :=
  print_str (str "[KE] stage: loading \System\init.kpe" ++ [10]) ;;;
  dlet (Status, InitHandle) := IoOpenPath (Some (str "\System\init.kpe")) IO_FILE_ACCESS_READ true ;;
  if negb (ok Status) then
    print_str (str "[KE] init image not available" ++ [10]) ;;;
    write_line (KiWriteStatusLine (str "[KE] init open status=") Status)
  else
    print_str (str "[KE] stage: spawning init" ++ [10]) ;;;
    let InitHandle := default 0 InitHandle in
    dlet (Status, _) := IoSpawnProcessFromFileHandle InitHandle true true ;;
    IoCloseFileHandle InitHandle ;;;
    if negb (ok Status) then
      print_str (str "[KE] init spawn failed" ++ [10]) ;;;
      write_line (KiWriteStatusLine (str "[KE] init spawn status=") Status)
    else
      print_str (str "[KE] init process launched" ++ [10]) ;;;
      print_str (str "[KE] CLI bridge online: user init.kpe on serial COM1" ++ [10]) ;;;
      HalClearDisplay.

Definition KiInitializeEarly (BootInfo : option BOOT_INFO_PTR) : M W KSTATUS :=
  match BootInfo with
  | None => ret KSTATUS_INVALID_PARAMETER
  | Some b =>
      if negb (Magic (bi_value b) =? BOOTINFO_MAGIC) then ret KSTATUS_INVALID_PARAMETER
      else HalInitializePhase0 BootInfo ;;; ret KSTATUS_SUCCESS
  end.

(** A phase that must succeed. *)
Definition or_halt (Status : KSTATUS) (failure : cstr) (m : M W unit) : M W unit :=
  if negb (ok Status) then print_str (failure ++ [10]) ;;; HalHalt else m.

(** The phases in their order, up to [last], the launch of the first process. *)
Definition run_phases (BootInfo : option BOOT_INFO_PTR) (last : M W unit) : M W unit :=
  KiEarlySerialMarker ;;;
  Status <- KiInitializeEarly BootInfo ;;
  or_halt Status (str "[KE] early init failed")
   (print_str (str "[KE] EARLY complete" ++ [10]) ;;;
    KiShowBootSplash ;;;
    print_str (str "[KE] stage: nucleus init" ++ [10]) ;;;
    Status <- nk (NkInitializeCore BootInfo) ;;
    or_halt Status (str "[KE] CORE init failed")
     (print_str (str "[KE] CORE complete" ++ [10]) ;;;
      print_str (str "[KE] stage: executive init" ++ [10]) ;;;
      Status <- ExInitializeExecutive ;;
      or_halt Status (str "[KE] EXEC init failed")
       (HalInitializePhase1 ;;;
        print_str (str "[KE] kernel bootstrap complete" ++ [10]) ;;;
        last))).

(** The endless loop, [n] turns of it.  [hlt] waits for an interrupt: the timer
    is the only line the interrupt controller lets through. *)
Fixpoint idle_loop (n : nat) : code W :=
  match n with
  | O => Finish
  | S n => Call (HalpTimerInterruptHandler ;;;
                 ret (Switch (PsHandlePreemptionPoint ;;; ret 0) (fun _ => idle_loop n)))
  end.

Definition AsterKernelEntry (n : nat) (BootInfo : option BOOT_INFO_PTR) : code W :=
  Call (run_phases BootInfo KiLaunchInitProcess ;;;
        ret (KeRunValidationSuite (fun Status => Call (
          (if negb (ok Status) then print_str (str "[KE] validation suite failed" ++ [10])
           else print_str (str "[KE] validation suite passed" ++ [10])) ;;;
          ret (idle_loop n))))).
End World.
