(* ===== verification/Kernel.v ===== *)
(** * The kernel: the state of all components together

    [kernel] is what the machine runs on: every component's static variables, the
    memory and the control registers (inside [k_mm]), the interrupt flag and the
    devices behind the input and output ports.  Its instances discharge the
    interfaces the components were written against; in particular the object
    manager's delete routines are the ones the managers register.

    The processor reaches memory through the page tables in use, whatever the
    address; the kernel runs with write protection off (CR0.WP clear), so a
    supervisor access needs a translation only.  An address without one raises a
    page fault, which goes through the HAL to the routine the memory manager
    registered; when that resolves the fault, the access is repeated. *)

From S2P Require Import Prelude CString BootProto Nk Se Cc Ob PhysMem MmPages MmTables MmSpace MmSection MmDump.
From S2P Require Import Kpe KpeLoad MmTablesInv MmFault UserMem Ps PsSpawn Lpc Io Hal Syscall HalIntr HalStart Ex Threads Arch Validate Ke.

Record kernel := {
  k_ob : ob_state;
  k_mm : mm_machine;
  k_ps : ps_state;
  k_lpc : lpc_state;
  k_nk : nk_state;
  k_io : io_state;
  k_hal : hal_state;
  k_intr : intr_state;
  k_if : bool;
  (* what the [n]-th read of a port gives *)
  k_device : Z -> nat -> Z;
  (* reads so far *)
  k_clock : nat;
  k_outputs : list (Z * Z);
  (* where the kernel's copy loops run, for the fault trace *)
  k_rip : Z;
  k_se : se_state;
  k_cc : cc_state;
  k_ex : NK_SERVICE_ENDPOINT;
  k_ke : ke_state }.

Definition set_k_ob (x : ob_state) (w : kernel) : kernel :=
  {| k_ob := x; k_mm := k_mm w; k_ps := k_ps w; k_lpc := k_lpc w; k_nk := k_nk w; k_io := k_io w; k_hal :=
     k_hal w; k_intr := k_intr w; k_if := k_if w; k_device := k_device w; k_clock := k_clock w; k_outputs
     := k_outputs w; k_rip := k_rip w; k_se := k_se w; k_cc := k_cc w;
     k_ex := k_ex w; k_ke := k_ke w |}.
Definition set_k_mm (x : mm_machine) (w : kernel) : kernel :=
  {| k_ob := k_ob w; k_mm := x; k_ps := k_ps w; k_lpc := k_lpc w; k_nk := k_nk w; k_io := k_io w; k_hal :=
     k_hal w; k_intr := k_intr w; k_if := k_if w; k_device := k_device w; k_clock := k_clock w; k_outputs
     := k_outputs w; k_rip := k_rip w; k_se := k_se w; k_cc := k_cc w;
     k_ex := k_ex w; k_ke := k_ke w |}.
Definition set_k_ps (x : ps_state) (w : kernel) : kernel :=
  {| k_ob := k_ob w; k_mm := k_mm w; k_ps := x; k_lpc := k_lpc w; k_nk := k_nk w; k_io := k_io w; k_hal :=
     k_hal w; k_intr := k_intr w; k_if := k_if w; k_device := k_device w; k_clock := k_clock w; k_outputs
     := k_outputs w; k_rip := k_rip w; k_se := k_se w; k_cc := k_cc w;
     k_ex := k_ex w; k_ke := k_ke w |}.
Definition set_k_lpc (x : lpc_state) (w : kernel) : kernel :=
  {| k_ob := k_ob w; k_mm := k_mm w; k_ps := k_ps w; k_lpc := x; k_nk := k_nk w; k_io := k_io w; k_hal :=
     k_hal w; k_intr := k_intr w; k_if := k_if w; k_device := k_device w; k_clock := k_clock w; k_outputs
     := k_outputs w; k_rip := k_rip w; k_se := k_se w; k_cc := k_cc w;
     k_ex := k_ex w; k_ke := k_ke w |}.
Definition set_k_nk (x : nk_state) (w : kernel) : kernel :=
  {| k_ob := k_ob w; k_mm := k_mm w; k_ps := k_ps w; k_lpc := k_lpc w; k_nk := x; k_io := k_io w; k_hal :=
     k_hal w; k_intr := k_intr w; k_if := k_if w; k_device := k_device w; k_clock := k_clock w; k_outputs
     := k_outputs w; k_rip := k_rip w; k_se := k_se w; k_cc := k_cc w;
     k_ex := k_ex w; k_ke := k_ke w |}.
Definition set_k_io (x : io_state) (w : kernel) : kernel :=
  {| k_ob := k_ob w; k_mm := k_mm w; k_ps := k_ps w; k_lpc := k_lpc w; k_nk := k_nk w; k_io := x; k_hal :=
     k_hal w; k_intr := k_intr w; k_if := k_if w; k_device := k_device w; k_clock := k_clock w; k_outputs
     := k_outputs w; k_rip := k_rip w; k_se := k_se w; k_cc := k_cc w;
     k_ex := k_ex w; k_ke := k_ke w |}.
Definition set_k_hal (x : hal_state) (w : kernel) : kernel :=
  {| k_ob := k_ob w; k_mm := k_mm w; k_ps := k_ps w; k_lpc := k_lpc w; k_nk := k_nk w; k_io := k_io w;
     k_hal := x; k_intr := k_intr w; k_if := k_if w; k_device := k_device w; k_clock := k_clock w;
     k_outputs := k_outputs w; k_rip := k_rip w; k_se := k_se w; k_cc := k_cc w;
     k_ex := k_ex w; k_ke := k_ke w |}.
Definition set_k_intr (x : intr_state) (w : kernel) : kernel :=
  {| k_ob := k_ob w; k_mm := k_mm w; k_ps := k_ps w; k_lpc := k_lpc w; k_nk := k_nk w; k_io := k_io w;
     k_hal := k_hal w; k_intr := x; k_if := k_if w; k_device := k_device w; k_clock := k_clock w;
     k_outputs := k_outputs w; k_rip := k_rip w; k_se := k_se w; k_cc := k_cc w;
     k_ex := k_ex w; k_ke := k_ke w |}.
Definition set_k_if (x : bool) (w : kernel) : kernel :=
  {| k_ob := k_ob w; k_mm := k_mm w; k_ps := k_ps w; k_lpc := k_lpc w; k_nk := k_nk w; k_io := k_io w;
     k_hal := k_hal w; k_intr := k_intr w; k_if := x; k_device := k_device w; k_clock := k_clock w;
     k_outputs := k_outputs w; k_rip := k_rip w; k_se := k_se w; k_cc := k_cc w;
     k_ex := k_ex w; k_ke := k_ke w |}.
Definition set_k_se (x : se_state) (w : kernel) : kernel :=
  {| k_ob := k_ob w; k_mm := k_mm w; k_ps := k_ps w; k_lpc := k_lpc w; k_nk := k_nk w; k_io := k_io w;
     k_hal := k_hal w; k_intr := k_intr w; k_if := k_if w; k_device := k_device w; k_clock := k_clock w;
     k_outputs := k_outputs w; k_rip := k_rip w; k_se := x; k_cc := k_cc w;
     k_ex := k_ex w; k_ke := k_ke w |}.
Definition set_k_cc (x : cc_state) (w : kernel) : kernel :=
  {| k_ob := k_ob w; k_mm := k_mm w; k_ps := k_ps w; k_lpc := k_lpc w; k_nk := k_nk w; k_io := k_io w;
     k_hal := k_hal w; k_intr := k_intr w; k_if := k_if w; k_device := k_device w; k_clock := k_clock w;
     k_outputs := k_outputs w; k_rip := k_rip w; k_se := k_se w; k_cc := x;
     k_ex := k_ex w; k_ke := k_ke w |}.
Definition set_k_ex (x : NK_SERVICE_ENDPOINT) (w : kernel) : kernel :=
  {| k_ob := k_ob w; k_mm := k_mm w; k_ps := k_ps w; k_lpc := k_lpc w; k_nk := k_nk w; k_io := k_io w;
     k_hal := k_hal w; k_intr := k_intr w; k_if := k_if w; k_device := k_device w; k_clock := k_clock w;
     k_outputs := k_outputs w; k_rip := k_rip w; k_se := k_se w; k_cc := k_cc w;
     k_ex := x; k_ke := k_ke w |}.
Definition set_k_ke (x : ke_state) (w : kernel) : kernel :=
  {| k_ob := k_ob w; k_mm := k_mm w; k_ps := k_ps w; k_lpc := k_lpc w; k_nk := k_nk w; k_io := k_io w;
     k_hal := k_hal w; k_intr := k_intr w; k_if := k_if w; k_device := k_device w; k_clock := k_clock w;
     k_outputs := k_outputs w; k_rip := k_rip w; k_se := k_se w; k_cc := k_cc w;
     k_ex := k_ex w; k_ke := x |}.
Definition set_ports_used (n : nat) (l : list (Z * Z)) (w : kernel) : kernel :=
  {| k_ob := k_ob w; k_mm := k_mm w; k_ps := k_ps w; k_lpc := k_lpc w; k_nk := k_nk w; k_io := k_io w;
     k_hal := k_hal w; k_intr := k_intr w; k_if := k_if w; k_device := k_device w; k_clock := n; k_outputs
     := l; k_rip := k_rip w; k_se := k_se w; k_cc := k_cc w;
     k_ex := k_ex w; k_ke := k_ke w |}.

(** ** The interfaces *)

#[global] Instance kernel_ob : ObWorld kernel := {
  ob_get := k_ob;
  ob_put := set_k_ob;
  run_delete r i :=
    match r with
    | ProcessDeleteRoutine => PspProcessDeleteRoutine i
    | ThreadDeleteRoutine => PspThreadDeleteRoutine i
    | PortDeleteRoutine => zoom k_lpc set_k_lpc (LpcpDeletePortObject i)
    | FileDeleteRoutine => zoom k_io set_k_io (IopDeleteFileObject i)
    | SectionDeleteRoutine => zoom k_mm set_k_mm (MmpDeleteSectionObject i)
    end }.

#[global] Instance kernel_mm : MmWorld kernel := {
  mm_get := k_mm;
  mm_put := set_k_mm;
  ps_current_process w :=
    match gPsCurrentThread (k_ps w) with
    | None => None
    | Some c => t ← gPsThreadPool (k_ps w) !! c; p ← OwnerProcess t; q ← gPsProcessPool (k_ps w) !! p;
                Some (ProcessId q, AddressSpaceRoot q)
    end;
  MmSection.HalRegisterPageFaultRoutine := zoom k_hal set_k_hal (Hal.HalRegisterPageFaultRoutine (Some FaultMmpOnPageFault)) }.

#[global] Instance kernel_ps : PsWorld kernel := {
  ps_get := k_ps;
  ps_put := set_k_ps;
  Ps.HalSetKernelStackPointer z := zoom k_intr set_k_intr (HalIntr.HalSetKernelStackPointer z);
  Ps.HalRegisterTimerTickRoutine := zoom k_hal set_k_hal (Hal.HalRegisterTimerTickRoutine (Some TickPsOnTimerTick)) }.

#[global] Instance kernel_lpc : LpcWorld kernel := {
  lpc_get := k_lpc;
  lpc_put := set_k_lpc;
  nk_get := k_nk;
  nk_put := set_k_nk;
  HalDisableInterrupts := modify (set_k_if false);
  HalEnableInterrupts := modify (set_k_if true) }.

#[global] Instance kernel_io : IoWorld kernel := { io_get := k_io; io_put := set_k_io }.

#[global] Instance kernel_hal : HalWorld kernel := {
  hal_get := k_hal;
  hal_put := set_k_hal;
  run_timer_tick _ := zoom k_ps set_k_ps PsOnTimerTick;
  run_page_fault _ FaultAddress_ ErrorCode InstructionPointer :=
    MmpOnPageFault FaultAddress_ ErrorCode InstructionPointer }.

#[global] Instance kernel_ports : PortIo kernel := {
  HalpIoRead8 port := fun w =>
    Ret (u8 (k_device w port (k_clock w))) (set_ports_used (S (k_clock w)) (k_outputs w) w);
  HalpIoWrite8 port v := modify (fun w => set_ports_used (k_clock w) (k_outputs w ++ [(port, v)]) w) }.

#[global] Instance kernel_intr : IntrWorld kernel := { intr_get := k_intr; intr_put := set_k_intr }.

#[global] Instance kernel_ex : ExWorld kernel := {
  se_get := k_se;
  se_put := set_k_se;
  cc_get := k_cc;
  cc_put := set_k_cc;
  gExIpcServiceEndpoint := k_ex;
  put_ex_endpoint := set_k_ex }.

#[global] Instance kernel_ke : KeWorld kernel := { ke_get := k_ke; ke_put := set_k_ke }.

(** The processor's counter is one more device: its two halves are what the
    places -1 and -2 give. *)
#[global] Instance kernel_tsc : TimestampCounter kernel := {
  rdtsc := fun w =>
    Ret (u32 (k_device w (-1) (k_clock w)), u32 (k_device w (-2) (k_clock w)))
        (set_ports_used (S (k_clock w)) (k_outputs w) w) }.

(** ** Memory *)

(** The byte [a] translates to; a page fault and one more try when it does
    not. *)
Definition translated (a ErrorCode : Z) : M kernel Z := fun w =>
  match x86_translate (ram (k_mm w)) (cr3 (k_mm w)) a with
  | Some pa => Ret pa w
  | None =>
      (HalHandlePageFaultTrap a ErrorCode (k_rip w) ;;;
       (fun w => match x86_translate (ram (k_mm w)) (cr3 (k_mm w)) a with
                 | Some pa => Ret pa w
                 | None => Stuck
                 end)) w
  end.

#[global] Instance kernel_mem : ByteMem kernel := {
  read_u8 a := pa <- translated a 0 ;; gets (fun w => load8 (ram (k_mm w)) pa);
  write_u8 a v := pa <- translated a MM_PF_ERROR_WRITE ;;
                  modify (fun w => set_k_mm (set_ram (store8 (ram (k_mm w)) pa v) (k_mm w)) w) }.
