(* ===== verification/KernelMem.v ===== *)
(** * The kernel's accesses to memory

    While the pages it touches are mapped to frames of their own outside the page
    tables, the kernel's byte accesses never fault: memory is the function from
    addresses to bytes the address space defines, a write changes one byte of it
    and nothing else of the kernel. *)

From S2P Require Import Prelude CString BootProto Nk Ob PhysMem MmPages MmTables MmTablesInv MmSpace MmSection MmFault.
From S2P Require Import Kpe KpeLoad UserMem Ps PsSpawn Lpc Io Hal Syscall HalIntr Kernel.

(** The processor runs in the address space [a], in which the addresses [good]
    are accessible. *)
Record user_access (lv : gmap Z nat) (m : mm_machine) (a : MM_ADDRESS_SPACE) (good : Z -> Prop) : Prop := {
  ua_space : space_ok lv m a;
  ua_cr3 : addr_of (cr3 m) = RootTablePhysical a;
  ua_mapped : user_mapped lv m a good }.

(** The kernel differs from [w0] in bytes outside the page tables. *)
Definition data_only (lv : gmap Z nat) (w0 w : kernel) : Prop :=
  w = set_k_mm (k_mm w) w0 /\ only_data lv (k_mm w0) (k_mm w).

Section View.
Context (lv : gmap Z nat) (a : MM_ADDRESS_SPACE) (good : Z -> Prop) (w0 : kernel).
Context (U : user_access lv (k_mm w0) a good).

Lemma data_only_refl : data_only lv w0 w0.
Proof using U. split; [by destruct w0|]. eapply only_data_refl, U. Qed.

Lemma translated_ok w b c : data_only lv w0 w -> good b ->
  exists pa, translated b c w = Ret pa w /\ x86_translate (ram (k_mm w)) (cr3 (k_mm w)) b = Some pa.
Proof using U.
  destruct U as [S0 C0 M0]. intros [_ D] Hb. destruct (only_data_space lv _ a S0 C0 _ D) as [_ T].
  destruct (um_frame _ _ _ _ M0 b Hb) as (pa & E & _). exists pa. unfold translated. by rewrite T, E.
Qed.

#[global] Instance kernel_view : ByteView kernel (data_only lv w0) (fun w => user_view (k_mm w0) a (k_mm w)) good.
Proof using U.
  pose proof (user_byte_view lv (k_mm w0) a good (ua_space _ _ _ _ U) (ua_cr3 _ _ _ _ U) (ua_mapped _ _ _ _ U)) as V.
  split.
  - intros b w I Hb. destruct (translated_ok w b 0 I Hb) as (pa & E & T). cbn [read_u8 kernel_mem].
    rewrite (bind_eq _ _ _ _ _ E). unfold gets.
    pose proof (view_read (ByteView := V) b (k_mm w) (proj2 I) Hb) as R. cbn [read_u8 virt_mem] in R. rewrite T in R. congruence.
  - intros b w [_ I] Hb. exact (view_range (ByteView := V) b (k_mm w) I Hb).
  - intros b v w I Hb Hv. destruct (translated_ok w b MM_PF_ERROR_WRITE I Hb) as (pa & E & T). cbn [write_u8 kernel_mem].
    rewrite (bind_eq _ _ _ _ _ E).
    destruct (view_write (ByteView := V) b v (k_mm w) (proj2 I) Hb Hv) as (m' & R & I' & Vw).
    cbn [write_u8 virt_mem] in R. rewrite T in R. injection R as <-. eexists. split; [reflexivity|]. split; [|exact Vw].
    split; [|exact I']. destruct I as [-> _]. reflexivity.
Qed.
End View.

(** Memory that differs in data keeps the access. *)
Lemma user_access_data lv m m' a good : user_access lv m a good -> only_data lv m m' -> user_access lv m' a good.
Proof.
  intros [S0 C0 [F J]] D. destruct (only_data_space lv m a S0 C0 m' D) as [S' T].
  assert (Ec : addr_of (cr3 m') = RootTablePhysical a) by (by rewrite (od_cr3 _ _ _ D)).
  assert (Tr : forall b, translate m' (RootTablePhysical a) b = translate m (RootTablePhysical a) b).
  { intros b. rewrite <- T. unfold x86_translate. by rewrite Ec. }
  constructor; [done|done|]. constructor.
  - intros b Hb. rewrite Tr. by apply F.
  - intros b c Hb Hc. rewrite !Tr. by apply J.
Qed.

Lemma only_data_trans lv m1 m2 m3 : only_data lv m1 m2 -> only_data lv m2 m3 -> only_data lv m1 m3.
Proof.
  intros [A B C D E] [A' B' C' D' E']. constructor; [congruence..|done|]. intros x Hx. rewrite E' by done. by apply E.
Qed.

Lemma user_view_data lv m m' a good : user_access lv m a good -> only_data lv m m' ->
  forall x b, user_view m' a x b = user_view m a x b.
Proof.
  intros [S0 C0 _] D x b. destruct (only_data_space lv m a S0 C0 m' D) as [_ T].
  unfold user_view. rewrite <- T. unfold x86_translate. by rewrite (od_cr3 _ _ _ D), C0.
Qed.
