(* ===== verification/KernelInv.v ===== *)
(** * The kernel: laws of the interfaces and shared lemmas

    The instances of Kernel keep the laws the components' theorems ask for; a
    computation that works on some components leaves the others alone
    ([frame]); a handle that is opened and released again leaves the object
    manager as it was. *)

From S2P Require Import Prelude CString BootProto Nk Ob ObInv PhysMem MmPages MmTables MmSpace MmSection MmDump.
From S2P Require Import Kpe KpeLoad MmTablesInv MmFault UserMem Ps PsInv PsSpawn Lpc Io Hal Syscall HalIntr Kernel.

#[global] Instance kernel_ob_laws : ObWorldLaws kernel.
Proof.
  split; [done|]. intros r i w w' E. destruct r; cbn [run_delete kernel_ob] in E.
  - by injection E as <-.
  - by injection E as <-.
  - apply zoom_Ret_inv in E as (? & _ & ->). done.
  - apply zoom_Ret_inv in E as (? & _ & ->). done.
  - apply zoom_Ret_inv in E as (? & _ & ->). done.
Qed.

#[global] Instance kernel_ps_laws : PsWorldLaws kernel.
Proof. split; try done. intros z w. eexists. split; [reflexivity|done]. Qed.

(** ** Running a component's operation *)

Lemma ob_Ret {A} (m : M ob_state A) (w : kernel) a s : m (k_ob w) = Ret a s -> ob m w = Ret a (set_k_ob s w).
Proof. intros E. unfold ob, zoom. cbn. by rewrite E. Qed.
Lemma lpc_Ret {A} (m : M lpc_state A) (w : kernel) a s : m (k_lpc w) = Ret a s -> lpc m w = Ret a (set_k_lpc s w).
Proof. intros E. unfold lpc, zoom. cbn. by rewrite E. Qed.
Lemma nk_Ret {A} (m : M nk_state A) (w : kernel) a s : m (k_nk w) = Ret a s -> nk m w = Ret a (set_k_nk s w).
Proof. intros E. unfold nk, zoom. cbn. by rewrite E. Qed.
Lemma io_Ret {A} (m : M io_state A) (w : kernel) a s : m (k_io w) = Ret a s -> io m w = Ret a (set_k_io s w).
Proof. intros E. unfold io, zoom. cbn. by rewrite E. Qed.
Lemma mmM_Ret {A} (m : M mm_machine A) (w : kernel) a s : m (k_mm w) = Ret a s -> mmM m w = Ret a (set_k_mm s w).
Proof. intros E. unfold mmM, zoom. cbn. by rewrite E. Qed.

(** ... in front of the rest. *)
Lemma bind_ob {A B} (m : M ob_state A) (k : A -> M kernel B) (w : kernel) a s :
  m (k_ob w) = Ret a s -> bind (ob m) k w = k a (set_k_ob s w).
Proof. intros E. exact (bind_eq _ _ _ _ _ (ob_Ret m w a s E)). Qed.
Lemma bind_lpc {A B} (m : M lpc_state A) (k : A -> M kernel B) (w : kernel) a s :
  m (k_lpc w) = Ret a s -> bind (lpc m) k w = k a (set_k_lpc s w).
Proof. intros E. exact (bind_eq _ _ _ _ _ (lpc_Ret m w a s E)). Qed.
Lemma bind_nk {A B} (m : M nk_state A) (k : A -> M kernel B) (w : kernel) a s :
  m (k_nk w) = Ret a s -> bind (nk m) k w = k a (set_k_nk s w).
Proof. intros E. exact (bind_eq _ _ _ _ _ (nk_Ret m w a s E)). Qed.
Lemma bind_io {A B} (m : M io_state A) (k : A -> M kernel B) (w : kernel) a s :
  m (k_io w) = Ret a s -> bind (io m) k w = k a (set_k_io s w).
Proof. intros E. exact (bind_eq _ _ _ _ _ (io_Ret m w a s E)). Qed.
Lemma bind_mmM {A B} (m : M mm_machine A) (k : A -> M kernel B) (w : kernel) a s :
  m (k_mm w) = Ret a s -> bind (mmM m) k w = k a (set_k_mm s w).
Proof. intros E. exact (bind_eq _ _ _ _ _ (mmM_Ret m w a s E)). Qed.

(** ** Frames *)

Definition frame {W B A} (f : W -> B) (m : M W A) : Prop := forall w a w', m w = Ret a w' -> f w' = f w.

Section Frame.
Context {W B : Type} (f : W -> B).

Lemma frame_ret {A} (a : A) : frame f (ret a).
Proof. by intros w b w' [= _ <-]. Qed.
Lemma frame_gets {A} (g : W -> A) : frame f (gets g).
Proof. by intros w b w' [= _ <-]. Qed.
Lemma frame_deref {A} (o : option A) : frame f (deref o).
Proof. destruct o; [apply frame_ret|]. by intros w b w' [=]. Qed.
Lemma frame_halt {A} : frame f (A := A) halt.
Proof. by intros w b w' [=]. Qed.
Lemma frame_stuck {A} : frame f (A := A) stuck.
Proof. by intros w b w' [=]. Qed.
Lemma frame_assert b : frame f (NK_ASSERT b).
Proof. destruct b; [apply frame_ret|apply frame_halt]. Qed.
Lemma frame_bind {A C} (m : M W A) (k : A -> M W C) : frame f m -> (forall a, frame f (k a)) -> frame f (bind m k).
Proof.
  intros Hm Hk w c w' E. apply bind_Ret_inv in E as (a & w1 & E1 & E2).
  rewrite (Hk a w1 c w' E2). by apply (Hm w a).
Qed.
Lemma frame_zoom {T A} get (put : T -> W -> W) (m : M T A) : (forall t w, f (put t w) = f w) -> frame f (zoom get put m).
Proof. intros P w a w' E. apply zoom_Ret_inv in E as (t & _ & ->). apply P. Qed.
Lemma frame_modify (g : W -> W) : (forall w, f (g w) = f w) -> frame f (modify g).
Proof. intros P w a w' [= _ <-]. apply P. Qed.
End Frame.

(** One step of a frame's proof: a sequence, a case of the code, or a computation
    of another component. *)
Create HintDb frames discriminated.
#[export] Hint Resolve frame_ret frame_gets frame_deref frame_halt frame_stuck frame_assert : frames.
Ltac frame_step :=
  match goal with
  | |- frame _ (bind _ _) => apply frame_bind; [|intros]
  | |- frame _ (match ?x with _ => _ end) => destruct x
  | |- frame _ (Ps.HalSetKernelStackPointer _) => apply frame_zoom; done
  | |- frame _ (zoom _ _ _) => apply frame_zoom; done
  | |- frame _ (modify _) => apply frame_modify; done
  | |- frame _ _ => solve [eauto with frames]
  end.
Ltac frames := repeat frame_step.

(** The scheduler works on its own state, on the control registers and on the
    task state. *)
Definition others (w : kernel) := (k_ob w, k_lpc w, k_nk w, k_io w, k_hal w).

Lemma enter_thread_frame next : frame others (enter_thread (W := kernel) next).
Proof. unfold enter_thread, ps, mmM. frames. Qed.
#[export] Hint Resolve enter_thread_frame : frames.
Lemma dispatch_frame : frame others (PsDispatch (W := kernel)).
Proof. unfold PsDispatch, ps. frames. Qed.
#[export] Hint Resolve dispatch_frame : frames.
Lemma leave_frame x : frame others (leave_processor (W := kernel) x).
Proof. unfold leave_processor, ps. frames. Qed.

(** ** A handle opened and released *)

(** What opening handle [h] of type [ty] for the rights [d] gives: the object, or
    the status. *)
Definition opens (s : ob_state) (ty : option nat) (h d : Z) : KSTATUS + nat :=
  match ObReferenceObjectByHandle (ObGetKernelHandleTable s) h d ty true s with
  | Ret (_, Some i) _ => inr i
  | Ret (st, None) _ => inl st
  | _ => inl KSTATUS_INVALID_PARAMETER
  end.

(** No reference count is about to wrap. *)
Definition counts_small (s : ob_state) : Prop := forall i o, live s i o -> RefCount o + 1 < 2 ^ 32.

Lemma put_object_back s i o o' : gObObjectPool s !! i = Some o -> put_object i o (put_object i o' s) = s.
Proof.
  intros Hi. unfold put_object, set_objects. cbn. rewrite list_insert_insert_eq, list_insert_id by done. by destruct s.
Qed.

Lemma opens_spec s ext ty h d : ob_inv s ext -> counts_small s ->
  match opens s ty h d with
  | inl st => st <> KSTATUS_SUCCESS /\ ObReferenceObjectByHandle true h d ty true s = Ret (st, None) s
  | inr i => exists o, live s i o /\
      ObReferenceObjectByHandle true h d ty true s
      = Ret (KSTATUS_SUCCESS, Some i) (put_object i (set_RefCount o (RefCount o + 1)) s)
  end.
Proof.
  intros I Cs. unfold opens, ObGetKernelHandleTable. rewrite (oi_ready _ _ I).
  destruct (Z.eqb_spec h 0) as [->|Hh].
  { unfold ObReferenceObjectByHandle. by rewrite (oi_ready _ _ I). }
  destruct (handle_dec s h) as [(k & e & Hk & Hv)|N]; [|by rewrite (reference_none s ext h d ty I Hh N)].
  destruct (reference_spec s ext h d ty k e I Hk Hv) as (i & o & Ho & L & A & B & C).
  destruct (all_flags (GrantedAccess e) d); [|by rewrite A].
  destruct (decide (ty = None \/ ty = ObjectType o)) as [T|T].
  - rewrite C by (done || by apply (Cs i)). by exists o.
  - by rewrite B by (done || naive_solver).
Qed.

(** Releasing what was just opened. *)
Lemma release_opened ext i o (w w0 : kernel) : ob_inv (k_ob w0) ext -> live (k_ob w0) i o ->
  k_ob w = put_object i (set_RefCount o (RefCount o + 1)) (k_ob w0) ->
  ObDereferenceObject (Some i) w = Ret KSTATUS_SUCCESS (set_k_ob (k_ob w0) w).
Proof.
  intros I L E. pose proof (oi_count _ _ I i o L) as [_ R]. pose proof L as [Lu Lp].
  unfold ObDereferenceObject. rewrite bind_gets. cbn [ob_get kernel_ob]. rewrite E.
  cbn [gObReady put_object set_objects gObObjectPool]. rewrite (oi_ready _ _ I). cbn [negb].
  rewrite list_lookup_insert_eq by (by eapply lookup_lt_Some). rewrite bind_deref. cbn [RefCount set_RefCount].
  destruct (Z.eqb_spec (RefCount o + 1) 0); [lia|].
  erewrite bind_ob by reflexivity.
  destruct (Z.eqb_spec (RefCount o + 1 - 1) 0); [lia|]. cbn [negb]. unfold ret. f_equal.
  assert (set_RefCount (set_RefCount o (RefCount o + 1)) (RefCount o + 1 - 1) = o) as ->.
  { replace (RefCount o + 1 - 1) with (RefCount o) by lia. by destruct o. }
  rewrite E. by rewrite put_object_back.
Qed.

(** ** A new object behind a handle *)

(** Room for one more object and one more handle. *)
Record ob_room (s : ob_state) (i : nat) : Prop := {
  or_slot : find_first negb (gObObjectInUse s) = Some i;
  or_id : 0 <= gObNextObjectId s /\ gObNextObjectId s + 1 < 2 ^ 64;
  or_table : table_room s;
  or_next : next_handle s + 4 < 2 ^ 32 }.

(** An object of type [t] that allows the rights [m]. *)
Record fresh_object (s s1 : ob_state) (ext : nat -> Z) (t : nat) (m : Z) (i : nat) (o : OB_OBJECT_HEADER) : Prop := {
  fo_live : live s1 i o;
  fo_count : RefCount o = 1;
  fo_mask : DefaultAccessMask o = m;
  fo_type : ObjectType o = Some t;
  fo_inv : ob_inv s1 (ext_add i 1 ext);
  fo_new : forall x, ~ live s i x;
  fo_others : forall j x, j <> i -> live s1 j x <-> live s j x;
  fo_table : gObKernelHandleTable s1 = gObKernelHandleTable s;
  fo_types : gObTypePool s1 = gObTypePool s;
  fo_inuse : gObObjectInUse s1 = <[i := true]> (gObObjectInUse s);
  fo_next : gObNextObjectId s1 = gObNextObjectId s + 1 }.

Lemma create_object_spec s ext t nm m f i : ob_inv s ext -> (t < 256)%nat ->
  find_first negb (gObObjectInUse s) = Some i -> 0 <= gObNextObjectId s -> gObNextObjectId s + 1 < 2 ^ 64 ->
  exists s1 o, ObCreateObject (Some t) (Some nm) m f true s = Ret (KSTATUS_SUCCESS, Some i) s1 /\
    fresh_object s s1 ext t m i o.
Proof.
  intros I Ht F N0 N1.
  assert (exists s1, ObCreateObject (Some t) (Some nm) m f true s = Ret (KSTATUS_SUCCESS, Some i) s1 /\
    gObKernelHandleTable s1 = gObKernelHandleTable s /\ gObTypePool s1 = gObTypePool s /\
    gObObjectInUse s1 = <[i := true]> (gObObjectInUse s) /\ gObNextObjectId s1 = u64 (gObNextObjectId s + 1) /\
    forall j x, j <> i -> live s1 j x <-> live s j x) as (s1 & E & Tb & Ty & Us & Nx & Oth).
  { unfold ObCreateObject. rewrite (oi_ready _ _ I), F. cbn [negb orb].
    apply find_first_Some in F as [(b & Hb & Eb) _].
    assert (Li : (i < length (gObObjectPool s))%nat).
    { rewrite (oi_opool _ _ I), <- (oi_ouse _ _ I). by eapply lookup_lt_Some. }
    destruct (lookup_lt_is_Some_2 _ _ Li) as [o Ho].
    rewrite (bind_eq _ _ _ _ _ (load_at_ok _ _ _ _ Ho)).
    pose proof (ObpCopyName_ok (ObjectName o) (OB_MAX_OBJECT_NAME + 1) nm ltac:(done)) as HS.
    destruct (ObpCopyName _ _ _) as [st' nm']. cbn in HS. subst st'. eexists. split; [reflexivity|].
    do 4 (split; [done|]). intros j x Nj. unfold live. cbn. by rewrite !list_lookup_insert_ne. }
  destruct (inv_create_object s ext t _ _ _ _ _ _ _ I Ht N1 N0 E) as (_ & D & (o & L & R & Dm & T & _) & I1).
  exists s1, o. split; [done|]. rewrite u64_small in Nx by (unfold is_u64; lia). by constructor.
Qed.

Lemma create_spec s ext t nm m f i : ob_inv s ext -> (t < 256)%nat -> ob_room s i ->
  exists s1 o, ObCreateObject (Some t) (Some nm) m f true s = Ret (KSTATUS_SUCCESS, Some i) s1 /\
    fresh_object s s1 ext t m i o.
Proof. intros I Ht [F [N0 N1] _ _]. by apply create_object_spec. Qed.

(** Creating an object succeeds or changes nothing. *)
Lemma create_cases s ext t nm m f : ob_inv s ext -> (t < 256)%nat ->
  0 <= gObNextObjectId s -> gObNextObjectId s + 1 < 2 ^ 64 ->
  (exists i s1 o, ObCreateObject (Some t) (Some nm) m f true s = Ret (KSTATUS_SUCCESS, Some i) s1 /\
     fresh_object s s1 ext t m i o) \/
  ((forall b, b ∈ gObObjectInUse s -> b = true) /\
   ObCreateObject (Some t) (Some nm) m f true s = Ret (KSTATUS_INIT_FAILED, None) s).
Proof.
  intros I Ht N0 N1. destruct (find_first negb (gObObjectInUse s)) as [i|] eqn:F.
  - left. exists i. by apply create_object_spec.
  - right. split; [|unfold ObCreateObject; by rewrite (oi_ready _ _ I), F].
    intros b Hb. rewrite find_first_None in F. specialize (F b Hb). by destruct b.
Qed.

(** Giving a handle to it and releasing the reference of its creation: the handle
    opens it, for the rights granted. *)
Lemma publish_spec s s1 ext t m i o g : ob_inv s ext -> counts_small s -> ob_room s i -> fresh_object s s1 ext t m i o ->
  Z.land g m = g ->
  exists s2 s3, ObInsertHandle true (Some i) g true s1 = Ret (KSTATUS_SUCCESS, Some (next_handle s)) s2 /\
    (forall w : kernel, k_ob w = s2 -> ObDereferenceObject (Some i) w = Ret KSTATUS_SUCCESS (set_k_ob s3 w)) /\
    ob_inv s3 ext /\ counts_small s3 /\
    (forall d, opens s3 (Some t) (next_handle s) d = if all_flags g d then inr i else inl KSTATUS_ACCESS_DENIED) /\
    (forall j, (exists x, live s3 j x) <-> j = i \/ exists x, live s j x).
Proof.
  intros I Cs [_ _ [k0 [e0 Rm]] Nx] [L R Dm T I1 D Oth Tb Ty _ _] G.
  assert (En : entries s1 = entries s /\ next_handle s1 = next_handle s) by (unfold entries, next_handle; by rewrite Tb).
  destruct En as [En Nh].
  assert (Ex : 0 < ext_add i 1 ext i) by (rewrite ext_add_eq; pose proof (oi_ext _ _ I i); lia).
  destruct (inv_insert s1 _ i o g I1 L Ex) as (s2 & k & E2 & I2 & Hk & L2 & _ & O2); rewrite ?Nh, ?R, ?Dm; try done.
  { exists k0, e0. by rewrite En. }
  rewrite Nh in E2, Hk. set (o2 := set_RefCount o (RefCount o + 1)) in *.
  set (s3 := put_object i (set_RefCount o2 (RefCount o2 + -1)) s2).
  assert (R2 : RefCount o2 = 2) by (cbn; lia).
  assert (I3 : ob_inv s3 ext).
  { eapply inv_ext_eq; [|apply (inv_ref_update s2 _ i o2 (-1) I2 L2); lia]. intros j. apply (ext_add_add_opp i 1). }
  assert (LP : forall j x, live s3 j x <-> (j = i /\ x = set_RefCount o2 (RefCount o2 + -1)) \/ (j <> i /\ live s j x)).
  { intros j x. unfold s3. rewrite (live_put_object s2 i o2 j x L2).
    split; (intros [?|[N Lj]]; [by left|right; split; [done|]]); [by apply Oth, O2|by apply O2, Oth]. }
  exists s2, s3. split; [done|]. split.
  { intros w <-. unfold ObDereferenceObject. rewrite bind_gets. cbn [ob_get kernel_ob].
    rewrite (oi_ready _ _ I2), (proj2 L2). cbn [negb]. rewrite bind_deref. destruct (Z.eqb_spec (RefCount o2) 0); [lia|].
    erewrite bind_ob by reflexivity. destruct (Z.eqb_spec (RefCount o2 - 1) 0); [lia|]. reflexivity. }
  split; [done|]. split; [|split].
  - intros j x [[-> ->]|[_ Lj]]%LP; [cbn; lia|by apply (Cs j)].
  - intros d. assert (Hk3 : handle_at s3 k {| HandleValue := next_handle s; HandleObject := Some i; GrantedAccess := g;
      HandleInUse := true |}) by exact Hk.
    destruct (reference_spec s3 ext (next_handle s) d (Some t) k _ I3 Hk3 eq_refl) as (i' & o' & [= <-] & L3 & A & _ & C).
    apply LP in L3 as [[_ ->]|[? _]]; [|done]. cbn [GrantedAccess ObjectType set_RefCount] in A, C.
    unfold opens, ObGetKernelHandleTable. rewrite (oi_ready _ _ I3). destruct (all_flags g d); [|by rewrite A].
    rewrite C; [done|done|right; cbn; congruence|cbn; lia].
  - intros j. split.
    + intros (x & [[-> _]|[_ Lj]]%LP); [by left|right; by exists x].
    + intros [->|(x & Lj)]; [eexists; apply LP; by left|]. exists x. apply LP. right. split; [|done].
      intros ->. by apply (D x).
Qed.
