(* ===== verification/PsSpawnInv.v ===== *)
(** * Process manager, creation: invariant and theorems

    What the start of the process manager establishes and what creating processes
    and threads and running the scheduler keep ([ps_inv]), and the checks a user
    thread's entry point and stack go through. *)

From S2P Require Import Prelude CString BootProto Nk Ob ObInv PhysMem MmPages MmTables MmTablesInv MmSpace MmSection.
From S2P Require Import MmFault MmRegions Kpe KpeLoad UserMem Ps PsInv PsSpawn Lpc Io Hal Syscall HalIntr Kernel KernelInv.

(** ** The invariant *)

(** The memory manager can create address spaces; [lv] are the page tables. *)
Record mm_ready (lv : gmap Z nat) (m : mm_machine) : Prop := {
  mr_tables : tables_wf lv m;
  mr_ready : gMmReady (mm m) = true;
  mr_root : lv !! gMmKernelRootTablePhysical (mm m) = Some 0%nat;
  mr_nonzero : gMmKernelRootTablePhysical (mm m) <> 0;
  mr_length : length (gMmAddressSpacePool (mm m)) = length (gMmAddressSpaceInUse (mm m));
  mr_regions : forall a, a ∈ gMmAddressSpacePool (mm m) -> Z.of_nat (length (Regions a)) = MM_MAX_VA_REGIONS;
  mr_null : allocated (frames (mm m)) 0 = true }.

(** Slot [i] holds a thread with its object, slot [p] a process with its space. *)
Definition thread_at (s : ps_state) (i : nat) (t : KTHREAD) (h : nat) : Prop :=
  gPsThreadPool s !! i = Some t /\ ThreadHeader t = Some h.
Definition space_of (s : ps_state) (p a : nat) : Prop :=
  exists r, gPsProcessPool s !! p = Some r /\ AddressSpaceRoot r = Some a.

Definition stack_top (s : ps_state) (i : nat) : Z :=
  u64 (gPsThreadStackPool s + Z.of_nat i * PS_THREAD_STACK_BYTES + PS_THREAD_STACK_BYTES).

(** What holds of a created thread: its slot is taken, its object referenced,
    its id issued, the stack of its slot its own, its process exists. *)
Record thread_ok (s : ps_state) (ext : nat -> Z) (i : nat) (t : KTHREAD) (h : nat) : Prop := {
  to_used : gPsThreadInUse s !! i = Some true;
  to_object : 0 < ext h;
  to_id : 0 < ThreadId t < gPsNextThreadId s;
  to_stack : KernelStackTop t = stack_top s i;
  to_owner : owned s t }.

(** The created threads are sound and no two share an id or an object. *)
Record threads_ok (s : ps_state) (ext : nat -> Z) : Prop := {
  th_each : forall i t h, thread_at s i t h -> thread_ok s ext i t h;
  th_distinct : forall i j t u h k, thread_at s i t h -> thread_at s j u k -> ThreadId t = ThreadId u \/ h = k -> i = j;
  th_slots : length (gPsThreadInUse s) = length (gPsThreadPool s);
  th_next : 0 < gPsNextThreadId s }.

(** Every process's address space is one of the memory manager's, in use, and no
    two processes share one. *)
Record processes_ok (s : ps_state) (lv : gmap Z nat) (m : mm_machine) : Prop := {
  pr_space : forall p a, space_of s p a -> gPsProcessInUse s !! p = Some true /\
    gMmAddressSpaceInUse (mm m) !! a = Some true /\
    exists x, gMmAddressSpacePool (mm m) !! a = Some x /\ space_ok lv m x;
  pr_distinct : forall p q a, space_of s p a -> space_of s q a -> p = q;
  pr_slots : length (gPsProcessInUse s) = length (gPsProcessPool s) }.

Record ps_inv (ext : nat -> Z) (lv : gmap Z nat) (w : kernel) (q : list nat) (cur : option nat) : Prop := {
  pi_sched : sched_ok (k_ps w) q cur;
  pi_running : forall c, cur = Some c -> running (k_ps w) c;
  pi_ob : ob_inv (k_ob w) ext;
  pi_mm : mm_ready lv (k_mm w);
  pi_types : exists t u, gPsThreadType (k_ps w) = Some t /\ gPsProcessType (k_ps w) = Some u /\ (t < 256)%nat /\ (u < 256)%nat;
  pi_threads : threads_ok (k_ps w) ext;
  pi_processes : processes_ok (k_ps w) lv (k_mm w);
  pi_scheduled : forall i, i ∈ q \/ cur = Some i -> exists t h, thread_at (k_ps w) i t h }.

Lemma processes_spaces s lv m : processes_ok s lv m -> spaces_ok s (mm m).
Proof.
  intros P p r a Hp Ha. destruct (pr_space _ _ _ P p a) as (_ & _ & x & Hx & Sx); [by exists r|].
  exists x. split; [done|]. by destruct (tw_bounds _ _ _ _ (so_wf _ _ _ Sx) (so_root _ _ _ Sx)) as (_ & _ & _ & A).
Qed.

Lemma ps_inv_sched ext lv w q cur : ps_inv ext lv w q cur -> sched_inv (k_ps w) (mm (k_mm w)) q cur.
Proof. intros []. constructor; try done. by eapply processes_spaces. Qed.

(** ** The scheduler keeps what was created *)

(** What no operation of the scheduler changes of a thread and of the state. *)
Definition program (t : KTHREAD) := (IsUserThread t, StartRoutine t, StartContext t).
Definition identity (t : KTHREAD) := (ThreadHeader t, ThreadId t, KernelStackTop t, OwnerProcess t, program t).
Definition created (s : ps_state) :=
  (identity <$> gPsThreadPool s, gPsThreadInUse s, (gPsProcessPool s, gPsProcessInUse s),
   (gPsNextThreadId s, gPsThreadStackPool s), (gPsThreadType s, gPsProcessType s, gPsSystemProcess s)).
Definition settled (w : kernel) := (created (k_ps w), k_ob w, mm (k_mm w), ram (k_mm w)).

Lemma frame_update i f : (forall t, identity (f t) = identity t) -> frame created (update_thread i f).
Proof.
  intros F s [] s' E. destruct (gPsThreadPool s !! i) as [t|] eqn:Ht.
  - rewrite (update_thread_ok s i t f Ht) in E. injection E as <-. unfold created. cbn. do 4 f_equal.
    rewrite list_fmap_insert, F. apply list_insert_id. by rewrite list_lookup_fmap, Ht.
  - unfold update_thread, bind, get_thread, load_at, deref in E. by rewrite Ht in E.
Qed.
Lemma frame_get i : frame created (get_thread i).
Proof. intros s t s'. unfold get_thread, load_at, deref. destruct (_ !! i); [|done]. by intros [= _ <-]. Qed.
#[export] Hint Resolve frame_get : frames.
#[export] Hint Extern 1 (frame created (update_thread _ _)) => by apply frame_update : frames.

Lemma frame_push t : frame created (PspRunQueuePush t).
Proof. unfold PspRunQueuePush. frames. Qed.
Lemma frame_pop : frame created PspRunQueuePop.
Proof. unfold PspRunQueuePop. frames. Qed.
#[export] Hint Resolve frame_push frame_pop : frames.
Lemma frame_ready t : frame created (PsReadyThread t).
Proof. unfold PsReadyThread. frames. Qed.
Lemma frame_wake t : frame created (PsWakeThread t).
Proof. unfold PsWakeThread. frames. Qed.
Lemma frame_tick : frame created PsOnTimerTick.
Proof. unfold PsOnTimerTick. frames. Qed.
Lemma frame_select n : frame created (select_thread n).
Proof. unfold select_thread, requeue, PsGetCurrentThread. frames. Qed.
Lemma frame_leave p n : frame created (leave_thread p n).
Proof. unfold leave_thread, KiArchSwitchContext. frames. Qed.
#[export] Hint Resolve frame_ready frame_wake frame_tick frame_select frame_leave : frames.

Lemma settled_ps {A} (m : M ps_state A) : frame created m -> frame settled (ps (W := kernel) m).
Proof.
  intros F w a w' E. apply zoom_Ret_inv in E as (s & E & ->). unfold settled. cbn. by rewrite (F _ _ _ E).
Qed.
#[export] Hint Resolve settled_ps : frames.

Lemma settled_stack z : frame settled (Ps.HalSetKernelStackPointer (W := kernel) z).
Proof. by apply frame_zoom. Qed.
Lemma settled_activate a : frame settled (mmM (W := kernel) (MmActivateAddressSpace a)).
Proof.
  intros w r w' E. apply zoom_Ret_inv in E as (m & E & ->). unfold settled. cbn.
  assert (F : frame (fun m => (mm m, ram m)) (MmActivateAddressSpace a)).
  { unfold MmActivateAddressSpace, MmpReadCr3, MmpWriteCr3. frames.
    intros m0 x m1. unfold get_space, load_at, deref. destruct (_ !! _); [|done]. by intros [= _ <-]. }
  specialize (F _ _ _ E) as [= -> ->]. done.
Qed.
#[export] Hint Resolve settled_stack settled_activate : frames.

(** As [frame_step], but without looking through the components' boundary. *)
Ltac settled_step :=
  match goal with
  | |- frame _ (bind _ _) => apply frame_bind; [|intros]
  | |- frame _ (match ?x with _ => _ end) => destruct x
  | |- frame created (modify _) => apply frame_modify; done
  | |- frame _ _ => solve [eauto with frames]
  end.

Lemma frame_load_process p : frame created (fun s => load_at (gPsProcessPool s) p s).
Proof. intros s t s'. unfold load_at, deref. destruct (_ !! p); [|done]. by intros [= _ <-]. Qed.
Lemma frame_change f : (forall s, created (f s) = created s) -> frame created (modify f).
Proof. intros F. by apply frame_modify. Qed.
#[export] Hint Resolve frame_load_process : frames.
#[export] Hint Extern 1 (frame created (modify _)) => by apply frame_change : frames.

Lemma settled_dispatch : frame settled (PsDispatch (W := kernel)).
Proof. unfold PsDispatch, enter_thread. repeat settled_step. Qed.
#[export] Hint Resolve settled_dispatch : frames.
Lemma settled_yield : frame settled (PsYieldThread (W := kernel)).
Proof. unfold PsYieldThread. repeat settled_step. Qed.
#[export] Hint Resolve settled_yield : frames.

Lemma settled_exec o : frame settled (ps_exec (W := kernel) o).
Proof.
  destruct o; cbn [ps_exec]; unfold PsHandlePreemptionPoint, PsBlockCurrentThread, PsExitCurrentThread, leave_processor;
    repeat settled_step.
Qed.

(** What the invariant says of the created depends on nothing else. *)
Lemma created_fields s s' : created s' = created s ->
  gPsThreadInUse s' = gPsThreadInUse s /\ gPsProcessPool s' = gPsProcessPool s /\ gPsProcessInUse s' = gPsProcessInUse s /\
  gPsNextThreadId s' = gPsNextThreadId s /\ gPsThreadStackPool s' = gPsThreadStackPool s /\
  gPsThreadType s' = gPsThreadType s /\ gPsProcessType s' = gPsProcessType s /\ gPsSystemProcess s' = gPsSystemProcess s /\
  length (gPsThreadPool s') = length (gPsThreadPool s).
Proof.
  intros E. injection E as E1 E2 E3 E4 E5 E6 E7 E8 E9. split_and!; try done.
  apply (f_equal length) in E1. by rewrite !length_fmap in E1.
Qed.

Lemma created_thread s s' i t h : created s' = created s -> thread_at s i t h ->
  exists t', thread_at s' i t' h /\ identity t' = identity t.
Proof.
  intros E [Ht Hh]. injection E as E _ _ _ _ _ _ _ _. assert (L : identity <$> gPsThreadPool s' !! i = Some (identity t)).
  { by rewrite <- list_lookup_fmap, E, list_lookup_fmap, Ht. }
  destruct (gPsThreadPool s' !! i) as [t'|] eqn:Ht'; [|done]. cbn in L. exists t'.
  split; [split; [done|]|congruence]. unfold identity in L. congruence.
Qed.

Lemma threads_ok_created s s' ext : created s' = created s -> threads_ok s ext -> threads_ok s' ext.
Proof.
  intros E [Te Td Ts Tn]. destruct (created_fields _ _ E) as (U & Pp & Pu & Nt & Sp & _ & _ & _ & Ln).
  constructor; [| |congruence|congruence].
  - intros i t h T. destruct (created_thread s' s i t h (eq_sym E) T) as (t0 & T0 & Ei).
    destruct (Te i t0 h T0) as [A B C D F]. injection Ei as E1 E2 E3 E4 _ _ _. unfold stack_top, owned in *.
    rewrite E2, E3, E4 in *. constructor; unfold stack_top, owned; rewrite ?U, ?Nt, ?Sp, ?Pp; done.
  - intros i j t u h k Ti Tj EE. destruct (created_thread s' s i t h (eq_sym E) Ti) as (t0 & Ti0 & Ei).
    destruct (created_thread s' s j u k (eq_sym E) Tj) as (u0 & Tj0 & Ej). unfold identity in Ei, Ej.
    apply (Td i j t0 u0 h k Ti0 Tj0). destruct EE; [left|right]; congruence.
Qed.

Lemma mm_ready_same lv m m' : mm m' = mm m -> ram m' = ram m -> mm_ready lv m -> mm_ready lv m'.
Proof.
  intros E R []. constructor; rewrite ?E; try done. apply (tables_wf_mm lv m); by rewrite ?E.
Qed.

Lemma space_ok_unchanged lv m m' x : mm m' = mm m -> ram m' = ram m -> space_ok lv m x -> space_ok lv m' x.
Proof.
  intros E R []. constructor; rewrite ?E; try done. apply (tables_wf_mm lv m); by rewrite ?E.
Qed.

Lemma processes_ok_same s s' lv m m' : gPsProcessPool s' = gPsProcessPool s -> gPsProcessInUse s' = gPsProcessInUse s ->
  mm m' = mm m -> ram m' = ram m -> processes_ok s lv m -> processes_ok s' lv m'.
Proof.
  intros Ep Eu Em Er [A B C]. constructor; unfold space_of in *; rewrite ?Ep, ?Eu, ?Em; [|done|done].
  intros p a Ha. destruct (A p a Ha) as (P1 & P2 & x & Hx & Sx). split_and!; [done|done|]. exists x.
  split; [done|]. by eapply space_ok_unchanged.
Qed.

Lemma settled_inv ext lv w w' q cur q' cur' : ps_inv ext lv w q cur -> settled w' = settled w ->
  sched_inv (k_ps w') (mm (k_mm w')) q' cur' ->
  (forall i, i ∈ q' \/ cur' = Some i -> exists t h, thread_at (k_ps w) i t h) -> ps_inv ext lv w' q' cur'.
Proof.
  intros [S Rn O M T Th Pr Sc] E [S' Rn' _] Sc'. injection E as E1 E2 E3 E4 E5 E6 E7 E8 E12 E9 E10 E11.
  assert (E : created (k_ps w') = created (k_ps w)) by (unfold created; congruence).
  constructor; try done.
  - by rewrite E9. - by eapply mm_ready_same.
  - by rewrite E7, E8. - by eapply threads_ok_created. - by eapply processes_ok_same.
  - intros i Hi. destruct (Sc' i Hi) as (t & h & Hth). destruct (created_thread _ _ _ _ _ E Hth) as (t' & H' & _).
    by exists t', h.
Qed.

(** The threads of the abstract scheduler come from those it had, or are the one
    that is made ready. *)
Lemma abs_step_members pending asleep o q cur st q' cur' i : abs_step pending asleep o q cur = (st, q', cur') ->
  i ∈ q' \/ cur' = Some i -> (i ∈ q \/ cur = Some i) \/ o = OpReady i \/ (o = OpWake i /\ asleep i = true).
Proof.
  assert (D : forall c st0 q0 cur0, abs_dispatch q c = (st0, q0, cur0) -> i ∈ q0 \/ cur0 = Some i -> i ∈ q \/ c = Some i).
  { intros c st0 q0 cur0. unfold abs_dispatch. destruct q as [|n q1]; [intros [= <- <- <-]; naive_solver|].
    intros [= <- <- <-] [Hi|[= <-]]; [|left; by left]. apply elem_of_app in Hi as [Hi|Hi]; [left; by right|right].
    destruct c as [c|]; [by apply list_elem_of_singleton in Hi as ->|by apply elem_of_nil in Hi]. }
  destruct o; cbn [abs_step].
  - intros [= <- <- <-]. rewrite elem_of_app, list_elem_of_singleton. naive_solver.
  - intros [= <- <- <-]. destruct (asleep _) eqn:A; [|naive_solver]. rewrite elem_of_app, list_elem_of_singleton. naive_solver.
  - naive_solver.
  - intros E Hi. left. by apply (D cur st q' cur').
  - destruct cur as [c|]; [|naive_solver]. intros E Hi. left. by apply (D (Some c) st q' cur').
  - destruct cur as [c|]; [|naive_solver]. destruct pending; [|naive_solver].
    destruct (abs_dispatch q (Some c)) as [[st0 q0] cur0] eqn:E. intros [= <- <- <-] Hi. left. by apply (D (Some c) st0 q0 cur0).
  - destruct cur as [c|]; [|naive_solver]. intros E Hi. destruct (D None st q' cur' E Hi); [by left; left|done].
  - destruct cur as [c|]; [|naive_solver]. intros E Hi. destruct (D None st q' cur' E Hi); [by left; left|done].
Qed.

(** ** A new thread *)

(** Filling a slot that is neither queued nor current keeps the scheduler's
    invariant. *)
Lemma sched_ok_slot s s' q cur j t : sched_ok s q cur -> j ∉ q -> cur <> Some j -> State t <> PsThreadRunning ->
  gPsThreadPool s' = <[j := t]> (gPsThreadPool s) -> gPsProcessPool s' = gPsProcessPool s ->
  gPsRunQueueHead s' = gPsRunQueueHead s -> gPsRunQueueTail s' = gPsRunQueueTail s ->
  gPsReady s' = gPsReady s -> gPsCurrentThread s' = gPsCurrentThread s -> sched_ok s' q cur.
Proof.
  intros [[Qh Qt Qn Ql] R C SQ SR SO] Nj Nc Nr Ep Epp Eh Et Er Ec.
  assert (L : forall i, i <> j -> gPsThreadPool s' !! i = gPsThreadPool s !! i) by (intros i N; by rewrite Ep, list_lookup_insert_ne).
  assert (O : forall u, owned s u -> owned s' u) by (intros u; unfold owned; by rewrite Epp).
  constructor; [constructor; [congruence|congruence|done|]|congruence|congruence| | |].
  - intros k i Hk. rewrite L; [by apply (Ql k)|]. intros ->. apply Nj. by eapply list_elem_of_lookup_2.
  - intros i Hi. rewrite L by (intros ->; done). destruct (SQ i Hi) as (u & Hu & St & Ow). exists u. auto.
  - intros c Hc. rewrite L by congruence. destruct (SR c Hc) as (Nq & u & Hu & St & Ow). split; [done|]. exists u. auto.
  - intros i u Hu St. destruct (decide (i = j)) as [->|N]; [|rewrite L in Hu by done; by apply (SO i u)].
    rewrite Ep in Hu. apply list_lookup_insert_Some in Hu as [(_ & <- & _)|(? & _)]; done.
Qed.

(** A slot that is not taken holds no scheduled thread. *)
Lemma free_slot ext lv w q cur j : ps_inv ext lv w q cur -> gPsThreadInUse (k_ps w) !! j = Some false ->
  (j ∉ q) /\ cur <> Some j /\ forall t h, ~ thread_at (k_ps w) j t h.
Proof.
  intros I Hj. assert (N : forall t h, ~ thread_at (k_ps w) j t h).
  { intros t h T. pose proof (to_used _ _ _ _ _ (th_each _ _ (pi_threads _ _ _ _ _ I) j t h T)). congruence. }
  split_and!; [| |done]; intros X; destruct (pi_scheduled _ _ _ _ _ I j) as (t & h & T); [by left|by eapply N|by right|by eapply N].
Qed.

(** The manager's state with thread [t] in slot [j]. *)
Definition with_thread (j : nat) (t : KTHREAD) (s : ps_state) : ps_state :=
  set_ps_ids (gPsNextProcessId s) (u64 (gPsNextThreadId s + 1))
    (set_threads (<[j := t]> (gPsThreadPool s)) (<[j := true]> (gPsThreadInUse s)) s).

(** Taking a slot alone keeps everything. *)
Lemma taken_inv ext lv w q cur j : ps_inv ext lv w q cur ->
  ps_inv ext lv (set_k_ps (set_threads (gPsThreadPool (k_ps w)) (<[j := true]> (gPsThreadInUse (k_ps w))) (k_ps w)) w) q cur.
Proof.
  intros [S Rn O M T Th Pr Sc]. constructor; cbn; try done.
  - destruct S as [[? ? ? ?] ? ? ? ? ?]. by constructor.
  - destruct Th as [Te Td Ts Tn]. constructor; cbn; [|done|by rewrite length_insert|done].
    intros i t h Hi. destruct (Te i t h Hi) as [A B C D F]. constructor; try done. cbn.
    destruct (decide (j = i)) as [<-|N]; [by rewrite list_lookup_insert_eq by (by eapply lookup_lt_Some)|].
    by rewrite list_lookup_insert_ne.
  - destruct Pr. by constructor.
Qed.

(** A new thread with a new object keeps the invariant. *)
Lemma with_thread_inv ext lv w q cur j t h s1 ty o : ps_inv ext lv w q cur ->
  gPsThreadInUse (k_ps w) !! j = Some false -> fresh_object (k_ob w) s1 ext ty OB_ACCESS_ALL h o ->
  ThreadHeader t = Some h -> ThreadId t = gPsNextThreadId (k_ps w) -> gPsNextThreadId (k_ps w) + 1 < 2 ^ 64 ->
  KernelStackTop t = stack_top (k_ps w) j -> owned (k_ps w) t -> State t <> PsThreadRunning ->
  ps_inv (ext_add h 1 ext) lv (set_k_ob s1 (set_k_ps (with_thread j t (k_ps w)) w)) q cur.
Proof.
  intros I Hj [L R Dm Ty I1 D Oth _ _ _ _] Hh Hi Hn Hs Ow St. destruct (free_slot _ _ _ _ _ _ I Hj) as (Nq & Nc & Nt).
  pose proof I as [S Rn O M T [Te Td Ts Tn] Pr Sc]. set (s := k_ps w) in *.
  assert (LJ : gPsThreadPool (with_thread j t s) !! j = Some t).
  { cbn. apply list_lookup_insert_eq. rewrite <- Ts. by eapply lookup_lt_Some. }
  assert (LN : forall i, i <> j -> gPsThreadPool (with_thread j t s) !! i = gPsThreadPool s !! i).
  { intros i N. cbn. by rewrite list_lookup_insert_ne. }
  assert (U : u64 (gPsNextThreadId s + 1) = gPsNextThreadId s + 1) by (apply u64_small; unfold is_u64; lia).
  assert (Xh : forall k, 0 < ext k -> k <> h).
  { intros k Hk ->. destruct (oi_dead _ _ O h Hk) as (x & Lx). by apply (D x). }
  assert (Old : forall i u k, i <> j -> thread_at (with_thread j t s) i u k -> thread_at s i u k).
  { intros i u k N [Hu Hk]. rewrite LN in Hu by done. by split. }
  assert (New : forall u k, thread_at (with_thread j t s) j u k -> u = t /\ k = h).
  { intros u k [Hu Hk]. rewrite LJ in Hu. injection Hu as <-. split; congruence. }
  assert (Lt : forall i u k, thread_at s i u k -> ThreadId u <> ThreadId t /\ k <> h).
  { intros i u k Hu. destruct (Te i u k Hu) as [_ B C _ _]. split; [lia|by apply Xh]. }
  constructor; cbn [k_ps k_ob k_mm set_k_ob set_k_ps]; try done.
  - by apply (sched_ok_slot s _ q cur j t).
  - intros c Hc. destruct (Rn c Hc) as (u & Hu & Su). exists u. rewrite LN by congruence. done.
  - constructor; [| |cbn; by rewrite !length_insert|cbn; rewrite U; lia].
    + intros i u k Hu. destruct (decide (i = j)) as [->|N].
      * destruct (New u k Hu) as [-> ->]. constructor; cbn; [apply list_lookup_insert_eq; by eapply lookup_lt_Some|
          rewrite ext_add_eq; pose proof (oi_ext _ _ O h); lia|rewrite U; lia|done|done].
      * destruct (Te i u k (Old i u k N Hu)) as [A B C E F]. constructor; cbn; [by rewrite list_lookup_insert_ne|
          rewrite ext_add_ne by (by apply Xh); done|rewrite U; lia|done|done].
    + intros i i' u u' k k' Hu Hu' E. destruct (decide (i = j)) as [->|N], (decide (i' = j)) as [->|N']; [done| | |].
      * destruct (New u k Hu) as [-> ->]. destruct (Lt _ _ _ (Old _ _ _ N' Hu')). naive_solver.
      * destruct (New u' k' Hu') as [-> ->]. destruct (Lt _ _ _ (Old _ _ _ N Hu)). naive_solver.
      * by apply (Td i i' u u' k k'); [apply Old|apply Old|].
  - by apply (processes_ok_same s _ lv (k_mm w)).
  - intros i Qi. destruct (Sc i Qi) as (u & k & Hu & Hk). exists u, k. split; [|done]. rewrite LN; [done|].
    intros ->. by destruct (Nt u k).
Qed.

(** Another thread can be created without an id or object number wrapping. *)
Definition ids_left (w : kernel) : Prop :=
  gPsNextThreadId (k_ps w) + 1 < 2 ^ 64 /\ 0 <= gObNextObjectId (k_ob w) /\ gObNextObjectId (k_ob w) + 1 < 2 ^ 64.

(** The new thread [t] in slot [j], and what else changed: its object's
    reference. *)
Record spawned (ext : nat -> Z) (lv : gmap Z nat) (w w' : kernel) (q : list nat) (cur : option nat) (j h : nat) (t : KTHREAD) : Prop := {
  sw_inv : ps_inv (ext_add h 1 ext) lv w' q cur;
  sw_free : gPsThreadInUse (k_ps w) !! j = Some false;
  sw_ps : k_ps w' = with_thread j t (k_ps w);
  sw_object : forall o, ~ live (k_ob w) h o;
  sw_objects : gObObjectInUse (k_ob w') = <[h := true]> (gObObjectInUse (k_ob w));
  sw_next : gObNextObjectId (k_ob w') = gObNextObjectId (k_ob w) + 1;
  sw_rest : w' = set_k_ob (k_ob w') (set_k_ps (k_ps w') w) }.

Lemma new_thread_spec ext lv w q cur nm p Start Ctx User Entry Stack A0 A1 : ps_inv ext lv w q cur ->
  is_Some (gPsProcessPool (k_ps w) !! p) -> ids_left w ->
  (exists j h t0 w', gPsThreadPool (k_ps w) !! j = Some t0 /\
     let t := set_ThreadHeader (Some h) (init_thread (k_ps w) j p Start Ctx User Entry Stack A0 A1 t0) in
     new_thread nm p Start Ctx User Entry Stack A0 A1 w = Ret (KSTATUS_SUCCESS, Some j) w' /\ spawned ext lv w w' q cur j h t) \/
  (exists st w', st <> KSTATUS_SUCCESS /\ new_thread nm p Start Ctx User Entry Stack A0 A1 w = Ret (st, None) w' /\
     ps_inv ext lv w' q cur /\ k_ob w' = k_ob w /\ k_mm w' = k_mm w /\
     gPsThreadPool (k_ps w') = gPsThreadPool (k_ps w) /\
     ((forall b, b ∈ gPsThreadInUse (k_ps w) -> b = true) \/ (forall b, b ∈ gObObjectInUse (k_ob w) -> b = true))).
Proof.
  intros I Hp (In & Io0 & Io1). pose proof I as [_ _ O _ (ty & _ & Ht & _ & Lt & _) Th _ _]. unfold new_thread.
  destruct (find_first negb (gPsThreadInUse (k_ps w))) as [j|] eqn:F.
  2: { right. eexists _, w. rewrite (bind_ps (W := kernel) _ _ w (KSTATUS_INIT_FAILED, None) (k_ps w));
       [|unfold PspAllocateThreadSlot; cbn [negb ps_get kernel_ps]; by rewrite F].
       cbn [ok Z.eqb negb KSTATUS_INIT_FAILED]. split; [|split; [by destruct w|]]; [done|]. split_and!; try done.
       left. intros b Hb. rewrite find_first_None in F. specialize (F b Hb). by destruct b. }
  set (s1 := set_threads (gPsThreadPool (k_ps w)) (<[j := true]> (gPsThreadInUse (k_ps w))) (k_ps w)).
  rewrite (bind_ps (W := kernel) _ _ w (KSTATUS_SUCCESS, Some j) s1);
    [|unfold PspAllocateThreadSlot; cbn [negb ps_get kernel_ps]; by rewrite F].
  apply find_first_Some in F as [(b & Hj & Fb) _]. destruct b; [done|]. clear Fb.
  cbn [ok Z.eqb KSTATUS_SUCCESS negb]. rewrite bind_deref, bind_gets. cbn [ps_get ps_put kernel_ps].
  change (gPsThreadType (k_ps (set_k_ps s1 w))) with (gPsThreadType (k_ps w)). rewrite Ht.
  destruct (create_cases (k_ob w) ext ty nm OB_ACCESS_ALL OB_FLAG_WAITABLE O Lt Io0 Io1)
    as [(h & o1 & o & E & Fo)|(Fu & E)]; erewrite (bind_ob _ _ (set_k_ps s1 w)) by exact E.
  2: { right. cbn [ok Z.eqb negb KSTATUS_INIT_FAILED]. eexists _, _. split; [|split; [reflexivity|]]; [done|].
       cbn. split; [|by split_and!; try done; right]. apply (taken_inv _ _ _ _ _ j) in I. by destruct w. }
  left. cbn [ok Z.eqb KSTATUS_SUCCESS negb].
  destruct (lookup_lt_is_Some_2 (gPsThreadPool (k_ps w)) j) as [t0 Ht0].
  { rewrite <- (th_slots _ _ Th). by eapply lookup_lt_Some. }
  rewrite (bind_ps (W := kernel) _ _ (set_k_ob o1 (set_k_ps s1 w)) _ _ (update_thread_ok s1 j t0 _ Ht0)), bind_gets.
  set (s2 := set_threads (<[j := set_ThreadHeader (Some h) t0]> (gPsThreadPool s1)) (gPsThreadInUse s1) s1).
  erewrite (bind_ps (W := kernel)) by reflexivity. cbn [ps_get ps_put kernel_ps].
  erewrite (bind_ps (W := kernel)); [|apply update_thread_ok; cbn; apply list_lookup_insert_eq; by eapply lookup_lt_Some].
  unfold ret. eexists j, h, t0, _. split; [done|]. split; [reflexivity|].
  match goal with |- spawned _ _ _ ?x _ _ _ _ ?t => set (w' := x); set (T := t) end.
  assert (Ew : w' = set_k_ob o1 (set_k_ps (with_thread j T (k_ps w)) w)).
  { unfold w', s1, with_thread. cbn. rewrite list_insert_insert_eq. by destruct w. }
  constructor; [|done|by rewrite Ew|apply (fo_new _ _ _ _ _ _ _ Fo)|
    rewrite Ew; apply (fo_inuse _ _ _ _ _ _ _ Fo)|rewrite Ew; apply (fo_next _ _ _ _ _ _ _ Fo)|by rewrite Ew].
  rewrite Ew. apply (with_thread_inv ext lv w q cur j T h o1 ty o); try done. by exists p.
Qed.

(** ** User threads *)

(** The last-level entry of the page at [va], where the upper levels lead to
    one. *)
Definition page_entry (m : mm_machine) (x : MM_ADDRESS_SPACE) (va pte : Z) : Prop :=
  exists c, leads 3 (ram m) 0 (RootTablePhysical x) va c /\ pte = entry (ram m) c (walk_index va 3).

Lemma page_entry_det m x va pte pte' : page_entry m x va pte -> page_entry m x va pte' -> pte = pte'.
Proof. intros (c & D & ->) (c' & D' & ->). by rewrite (leads_det _ _ _ _ _ _ _ D D'). Qed.

Lemma query_spec lv m x va : space_ok lv m x -> page_va va ->
  exists st o, MmAsQueryPte (Some x) va true m = Ret (st, o) m /\
    match o with
    | Some pte => st = KSTATUS_SUCCESS /\ page_entry m x va pte
    | None => st <> KSTATUS_SUCCESS /\ forall pte, ~ page_entry m x va pte
    end.
Proof.
  intros S V. pose proof V as (Hva & Ha & Hcn). pose proof (walk_index_range va 3) as Hi.
  unfold MmAsQueryPte. rewrite bind_gets, (MmTablesInv.so_ready _ _ _ S), (page_guard va V).
  rewrite bool_decide_eq_true_2 by done. cbn [negb orb].
  destruct (walk_query lv m x va S V) as (st & T' & E & [[-> (c & -> & Hc & Ac & D)]|[N ND]]);
    rewrite (bind_eq _ _ _ _ _ E); unfold ok.
  - cbn [Z.eqb negb KSTATUS_SUCCESS].
    rewrite (bind_eq _ _ _ _ _ (read_entry_table m c (walk_index va 3) ltac:(lia))). unfold ret.
    rewrite Ac. eexists _, (Some _). split; [reflexivity|]. split; [done|]. by exists c.
  - destruct (Z.eqb_spec st KSTATUS_SUCCESS); [done|]. cbn [negb]. exists st, None. split; [done|].
    split; [done|]. intros pte (c & D & _). by apply (ND c).
Qed.

(** [va] is on a page the user may execute, or write. *)
Definition page_of (va : Z) : Z := Z.land va (lnot64 0xFFF).
Definition executable (m : mm_machine) (x : MM_ADDRESS_SPACE) (va : Z) : Prop :=
  exists pte, page_entry m x (page_of va) pte /\
    any_flag pte PS_PTE_PRESENT = true /\ any_flag pte PS_PTE_USER = true /\ any_flag pte PS_PTE_NX = false.
Definition writable (m : mm_machine) (x : MM_ADDRESS_SPACE) (va : Z) : Prop :=
  exists pte, page_entry m x (page_of va) pte /\
    any_flag pte PS_PTE_PRESENT = true /\ any_flag pte PS_PTE_USER = true /\ any_flag pte PS_PTE_WRITABLE = true.

(** A user thread may start at [Entry] with its stack below [Stack]. *)
Definition may_run (m : mm_machine) (x : MM_ADDRESS_SPACE) (Entry Stack : Z) : Prop :=
  0 < Entry < PS_USER_TOP /\ 16 <= Stack < PS_USER_TOP /\ executable m x Entry /\ writable m x (Stack - 1).

Lemma page_of_va va : 0 <= va < PS_USER_TOP -> page_va (page_of va).
Proof.
  unfold PS_USER_TOP. intros H. assert (U : is_u64 va) by (unfold is_u64; lia).
  replace (page_of va) with (va / 4096 * 4096).
  - apply page_of_fault; [done|]. unfold MmpIsCanonicalAddress. rewrite Z.shiftr_div_pow2 by lia.
    by rewrite Z.div_small by lia.
  - unfold page_of. change 0xFFF with (2 ^ 12 - 1). rewrite land_lnot_ones by (done || lia). zlia.
Qed.

(** The check of a queried entry. *)
Lemma entry_check m x va st o bad :
  match o with
  | Some pte => st = KSTATUS_SUCCESS /\ page_entry m x va pte
  | None => st <> KSTATUS_SUCCESS /\ forall pte, ~ page_entry m x va pte
  end ->
  negb (ok st) || match o with None => true | Some pte => bad pte end = false <->
  exists pte, page_entry m x va pte /\ bad pte = false.
Proof.
  destruct o as [pte|].
  - intros [-> P]. cbn. split; [by exists pte|]. intros (pte' & P' & B). by rewrite (page_entry_det _ _ _ _ _ P P').
  - intros [_ P]. rewrite orb_true_r. split; [done|]. intros (pte & H & _). by apply P in H.
Qed.

Lemma executable_iff m x va : executable m x va <-> exists pte, page_entry m x (page_of va) pte /\
  negb (any_flag pte PS_PTE_PRESENT) || negb (any_flag pte PS_PTE_USER) || any_flag pte PS_PTE_NX = false.
Proof.
  split; intros (pte & P & H); exists pte; (split; [done|]); [by destruct H as (-> & -> & ->)|].
  apply orb_false_iff in H as [[H1%negb_false_iff H2%negb_false_iff]%orb_false_iff H3]. done.
Qed.
Lemma writable_iff m x va : writable m x va <-> exists pte, page_entry m x (page_of va) pte /\
  negb (any_flag pte PS_PTE_PRESENT) || negb (any_flag pte PS_PTE_USER) || negb (any_flag pte PS_PTE_WRITABLE) = false.
Proof.
  split; intros (pte & P & H); exists pte; (split; [done|]); [by destruct H as (-> & -> & ->)|].
  apply orb_false_iff in H as [[H1%negb_false_iff H2%negb_false_iff]%orb_false_iff H3]. by apply negb_false_iff in H3.
Qed.

Lemma create_user_spec ext lv w q cur p a x Entry Stack A0 A1 : ps_inv ext lv w q cur -> ids_left w ->
  space_of (k_ps w) p a -> gMmAddressSpacePool (mm (k_mm w)) !! a = Some x -> 0 <= Entry -> 0 <= Stack ->
  let create := PsCreateUserThread (Some p) Entry Stack A0 A1 true w in
  (may_run (k_mm w) x Entry Stack /\
     ((exists j h t w', create = Ret (KSTATUS_SUCCESS, Some j) w' /\ spawned ext lv w w' q cur j h t /\
         OwnerProcess t = Some p /\ State t = PsThreadReady /\ IsUserThread t = true /\ UserEntry t = Entry /\
         UserStackTop t = Stack - Stack mod 16 /\ UserArg0 t = A0 /\ UserArg1 t = A1) \/
      (exists st w', create = Ret (st, None) w' /\ st <> KSTATUS_SUCCESS /\ ps_inv ext lv w' q cur /\ k_mm w' = k_mm w /\
         ((forall b, b ∈ gPsThreadInUse (k_ps w) -> b = true) \/ (forall b, b ∈ gObObjectInUse (k_ob w) -> b = true))))) \/
  (~ may_run (k_mm w) x Entry Stack /\
     exists st, create = Ret (st, None) w /\ (st = KSTATUS_INVALID_PARAMETER \/ st = KSTATUS_ACCESS_DENIED)).
Proof.
  intros I N (r & Hr & Ha) Hx E0 S0 create. unfold create, PsCreateUserThread. rewrite bind_gets.
  change (gPsReady (ps_get w)) with (gPsReady (k_ps w)). rewrite (PsInv.so_ready _ _ _ (pi_sched _ _ _ _ _ I)). cbn [negb orb].
  destruct (pr_space _ _ _ (pi_processes _ _ _ _ _ I) p a) as (_ & _ & x' & Hx' & Sx); [by exists r|].
  assert (x' = x) as -> by congruence. clear Hx'. assert (Ew : set_k_mm (k_mm w) w = w) by (by destruct w).
  destruct ((Entry =? 0) || (Stack <? 16)) eqn:C1.
  { right. split; [intros (? & ? & _); lia|eexists; split; [reflexivity|by left]]. }
  destruct ((Entry >=? PS_USER_TOP) || (Stack >=? PS_USER_TOP)) eqn:C2.
  { right. split; [intros (? & ? & _); lia|eexists; split; [reflexivity|by right]]. }
  rewrite (bind_ps (W := kernel) _ _ w r (k_ps w)) by (by apply load_at_ok). rewrite Ha.
  replace (ps_put (k_ps w) w) with w by (by destruct w).
  rewrite (bind_mmM _ _ w x (k_mm w)) by (by apply load_at_ok). rewrite Ew.
  destruct (query_spec lv (k_mm w) x (page_of Entry) Sx) as (st1 & o1 & Q1 & R1); [apply page_of_va; lia|].
  rewrite (bind_mmM _ _ w (st1, o1) (k_mm w) Q1), Ew.
  match goal with |- context [if ?b then ret (KSTATUS_ACCESS_DENIED, None) else _] => destruct b eqn:B1 end.
  { right. split; [|eexists; split; [reflexivity|by right]]. intros (_ & _ & Ex & _).
    apply executable_iff, (entry_check _ _ _ _ _ _ R1) in Ex. cbv beta in Ex. congruence. }
  apply (entry_check _ _ _ _ _ _ R1), executable_iff in B1.
  replace (u64 (Stack - 1)) with (Stack - 1) by (unfold PS_USER_TOP in C2; rewrite u64_small; [done|unfold is_u64; lia]).
  destruct (query_spec lv (k_mm w) x (page_of (Stack - 1)) Sx) as (st2 & o2 & Q2 & R2); [apply page_of_va; lia|].
  rewrite (bind_mmM _ _ w (st2, o2) (k_mm w) Q2), Ew.
  match goal with |- context [if ?b then ret (KSTATUS_ACCESS_DENIED, None) else _] => destruct b eqn:B2 end.
  { right. split; [|eexists; split; [reflexivity|by right]]. intros (_ & _ & _ & Wr).
    apply writable_iff, (entry_check _ _ _ _ _ _ R2) in Wr. cbv beta in Wr. congruence. }
  apply (entry_check _ _ _ _ _ _ R2), writable_iff in B2.
  left. split; [split_and!; [lia|lia|lia|lia|done|done]|].
  destruct (new_thread_spec ext lv w q cur (str "thread.user") p None 0 true Entry (Z.land Stack (lnot64 0x0F)) A0 A1 I)
    as [(j & h & t0 & w' & _ & E & Sp)|(st & w' & Ns & E & I' & _ & Em & _ & Fu)]; [by exists r|done| |].
  - left. eexists j, h, _, w'. split; [exact E|]. split; [exact Sp|]. split_and!; try done. cbn.
    unfold PS_USER_TOP in C2. change 15 with (2 ^ 4 - 1). by rewrite land_lnot_ones by lia.
  - right. by exists st, w'.
Qed.

(** C16: a user thread is created only to run code on a page the user may execute,
    with a stack that starts on a page the user may write, both below the user
    limit; otherwise the call is refused and nothing changes.  A thread that is
    created is ready, belongs to the process, starts at the entry point with an
    aligned stack, has a slot, a kernel stack, an id and an object of its own,
    and everything else stays as it is; the creation fails for lack of slots or
    objects alone. *)
Theorem PsCreateUserThread_checks ext lv w q cur p a x Entry Stack A0 A1 : ps_inv ext lv w q cur -> ids_left w ->
  space_of (k_ps w) p a -> gMmAddressSpacePool (mm (k_mm w)) !! a = Some x -> 0 <= Entry -> 0 <= Stack ->
  let create := PsCreateUserThread (Some p) Entry Stack A0 A1 true w in
  (may_run (k_mm w) x Entry Stack /\
     ((exists j h t w', create = Ret (KSTATUS_SUCCESS, Some j) w' /\ spawned ext lv w w' q cur j h t /\
         OwnerProcess t = Some p /\ State t = PsThreadReady /\ IsUserThread t = true /\ UserEntry t = Entry /\
         UserStackTop t = Stack - Stack mod 16 /\ UserArg0 t = A0 /\ UserArg1 t = A1) \/
      (exists st w', create = Ret (st, None) w' /\ st <> KSTATUS_SUCCESS /\ ps_inv ext lv w' q cur /\ k_mm w' = k_mm w /\
         ((forall b, b ∈ gPsThreadInUse (k_ps w) -> b = true) \/ (forall b, b ∈ gObObjectInUse (k_ob w) -> b = true))))) \/
  (~ may_run (k_mm w) x Entry Stack /\
     exists st, create = Ret (st, None) w /\ (st = KSTATUS_INVALID_PARAMETER \/ st = KSTATUS_ACCESS_DENIED)).
Proof. exact (create_user_spec ext lv w q cur p a x Entry Stack A0 A1). Qed.

(** ** New processes *)

(** The states differ in the processes alone. *)
Record processes_only (s s' : ps_state) : Prop := {
  po_state : s' = set_processes (gPsProcessPool s') (gPsProcessInUse s') (set_ps_ids (gPsNextProcessId s') (gPsNextThreadId s) s);
  po_length : length (gPsProcessPool s') = length (gPsProcessPool s) }.

Lemma processes_only_refl s : processes_only s s.
Proof. split; [by destruct s|done]. Qed.
Lemma processes_only_trans s1 s2 s3 : processes_only s1 s2 -> processes_only s2 s3 -> processes_only s1 s3.
Proof. intros [E1 L1] [E2 L2]. split; [|congruence]. rewrite E2 at 1. rewrite E1. reflexivity. Qed.

Lemma update_process_ok s i r f : gPsProcessPool s !! i = Some r ->
  update_process i f s = Ret tt (set_processes (<[i := f r]> (gPsProcessPool s)) (gPsProcessInUse s) s).
Proof.
  intros Hr. unfold update_process. rewrite (bind_eq (get_process i) _ s r s) by (by apply load_at_ok).
  rewrite (bind_eq _ _ _ _ _ (store_at_ok i (f r) _ s (lookup_lt_Some _ _ _ Hr))). reflexivity.
Qed.

(** The new address space [x] in slot [a]; the translations it gives, and those
    that stay. *)
Record new_space (lv lv' : gmap Z nat) (m m' : mm_machine) (a : nat) (x : MM_ADDRESS_SPACE) : Prop := {
  ns_ready : mm_ready lv' m';
  ns_space : space_ok lv' m' x;
  ns_free : gMmAddressSpaceInUse (mm m) !! a = Some false;
  ns_pool : gMmAddressSpacePool (mm m') = <[a := x]> (gMmAddressSpacePool (mm m));
  ns_slot : (a < length (gMmAddressSpacePool (mm m)))%nat;
  ns_used : gMmAddressSpaceInUse (mm m') = <[a := true]> (gMmAddressSpaceInUse (mm m));
  ns_kernel : forall va, translate m' (RootTablePhysical x) va = translate m (gMmKernelRootTablePhysical (mm m)) va;
  ns_others : forall r va, lv !! r = Some 0%nat -> lv' !! r = Some 0%nat /\ translate m' r va = translate m r va }.

Lemma space_cases lv m owner : mm_ready lv m ->
  (exists a x lv' m', MmCreateAddressSpace owner true m = Ret (KSTATUS_SUCCESS, Some a) m' /\ new_space lv lv' m m' a x) \/
  (MmCreateAddressSpace owner true m = Ret (KSTATUS_INIT_FAILED, None) m /\ (full m \/ forall b, b ∈ gMmAddressSpaceInUse (mm m) -> b = true)).
Proof.
  intros [W R Hk Nk Len Rl A0].
  destruct (create_space_spec lv m owner W R Hk Nk Len Rl A0)
    as [(a & x & f & m' & E & Hi & Pl & Us & Nf & A0' & R' & Kr & Li & Ra & _ & _ & _ & Ro & _ & Sx & Tk & To)|F]; [left|by right].
  subst f. exists a, x, (<[RootTablePhysical x := 0%nat]> lv), m'. split; [done|].
  assert (Ro' : forall r, lv !! r = Some 0%nat -> <[RootTablePhysical x := 0%nat]> lv !! r = Some 0%nat).
  { intros r Hr. destruct (decide (r = RootTablePhysical x)) as [->|N]; [apply lookup_insert_eq|by rewrite lookup_insert_ne]. }
  constructor; try done; [|by intros r va Hr; split; [apply Ro'|apply To]].
  constructor; rewrite ?Kr; try done; [apply Sx|by apply Ro'|by rewrite Pl, Us, !length_insert|].
  intros y Hy. rewrite Pl in Hy. apply list_elem_of_lookup_1 in Hy as (k & Hy).
  apply list_lookup_insert_Some in Hy as [(_ & <- & _)|(_ & Hy)]; [by apply ro_length|].
  apply Rl. by eapply list_elem_of_lookup_2.
Qed.

(** A process that gets the new space keeps the processes sound. *)
Lemma processes_ok_new s s' lv lv' m m' p a x r : processes_ok s lv m -> new_space lv lv' m m' a x ->
  gPsProcessInUse s !! p = Some false -> AddressSpaceRoot r = Some a ->
  gPsProcessPool s' = <[p := r]> (gPsProcessPool s) -> gPsProcessInUse s' = <[p := true]> (gPsProcessInUse s) ->
  processes_ok s' lv' m' /\ space_of s' p a.
Proof.
  intros [A B C] [Mr Sx Fr Pl Li Us _ To] Hp Ra Ep Eu.
  assert (Lp : (p < length (gPsProcessPool s))%nat) by (rewrite <- C; by eapply lookup_lt_Some).
  assert (Np : forall b, ~ space_of s p b) by (intros b Hb; destruct (A p b Hb); congruence).
  assert (New : forall b, space_of s' p b -> b = a).
  { intros b (r' & Hr & Hb). rewrite Ep, list_lookup_insert_eq in Hr by done. congruence. }
  assert (Old : forall k b, k <> p -> space_of s' k b -> space_of s k b).
  { intros k b N (r' & Hr & Hb). rewrite Ep, list_lookup_insert_ne in Hr by done. by exists r'. }
  split; [|exists r; split; [by rewrite Ep, list_lookup_insert_eq|done]].
  constructor; [| |by rewrite Ep, Eu, !length_insert].
  - intros k b Hb. destruct (decide (k = p)) as [->|N].
    + apply New in Hb as ->. rewrite Eu, Us, Pl. split; [apply list_lookup_insert_eq; by eapply lookup_lt_Some|].
      split; [apply list_lookup_insert_eq; by eapply lookup_lt_Some|]. exists x. split; [by apply list_lookup_insert_eq|done].
    + destruct (A k b (Old k b N Hb)) as (U & Ub & y & Hy & Sy). assert (b <> a) by congruence.
      rewrite Eu, Us, Pl, !list_lookup_insert_ne by done. split_and!; [done|done|]. exists y. split; [done|].
      destruct Sy as [_ _ Sr Sn]. constructor; [apply Mr|apply Mr|by apply (To _ 0)|done].
  - intros k l b Hk Hl. destruct (decide (k = p)) as [->|Nk], (decide (l = p)) as [->|Nl]; [done| | |].
    + apply New in Hk as ->. destruct (A l a (Old l a Nl Hl)) as (_ & U & _). congruence.
    + apply New in Hl as ->. destruct (A k a (Old k a Nk Hk)) as (_ & U & _). congruence.
    + by apply (B k l b); apply Old.
Qed.

(** Taking a slot, and setting fields other than the space, keeps them sound. *)
Lemma processes_ok_taken s s' lv m p r r' : processes_ok s lv m -> gPsProcessPool s !! p = Some r ->
  AddressSpaceRoot r' = AddressSpaceRoot r -> gPsProcessPool s' = <[p := r']> (gPsProcessPool s) ->
  gPsProcessInUse s' = <[p := true]> (gPsProcessInUse s) -> processes_ok s' lv m.
Proof.
  intros [A B C] Hr Er Ep Eu. assert (Old : forall k b, space_of s' k b -> space_of s k b).
  { intros k b (y & Hy & Hb). rewrite Ep in Hy. apply list_lookup_insert_Some in Hy as [(-> & <- & _)|(_ & Hy)];
      [exists r; split; [done|congruence]|by exists y]. }
  constructor; [| |by rewrite Ep, Eu, !length_insert].
  - intros k b Hb%Old. destruct (A k b Hb) as (U & P). split; [|done]. rewrite Eu.
    destruct (decide (p = k)) as [->|N]; [by rewrite list_lookup_insert_eq by (by eapply lookup_lt_Some)|by rewrite list_lookup_insert_ne].
  - intros k l b Hk%Old Hl%Old. by apply (B k l b).
Qed.

(** What creating a process keeps, whether it succeeds or not. *)
Record process_made (ext ext' : nat -> Z) (lv lv' : gmap Z nat) (w w' : kernel) : Prop := {
  pm_ext : forall i, ext i <= ext' i;
  pm_ob : ob_inv (k_ob w') ext';
  pm_mm : mm_ready lv' (k_mm w');
  pm_processes : processes_ok (k_ps w') lv' (k_mm w');
  pm_only : processes_only (k_ps w) (k_ps w');
  pm_objects : forall i j, i <> j -> gObObjectInUse (k_ob w) !! i = Some false -> gObObjectInUse (k_ob w) !! j = Some false ->
    exists k, gObObjectInUse (k_ob w') !! k = Some false;
  pm_next : gObNextObjectId (k_ob w) <= gObNextObjectId (k_ob w') <= gObNextObjectId (k_ob w) + 1;
  pm_others : forall r va, lv !! r = Some 0%nat -> lv' !! r = Some 0%nat /\ translate (k_mm w') r va = translate (k_mm w) r va;
  pm_rest : w' = set_k_mm (k_mm w') (set_k_ob (k_ob w') (set_k_ps (k_ps w') w)) }.

Lemma create_process_spec ext lv w u nm : ob_inv (k_ob w) ext -> mm_ready lv (k_mm w) ->
  processes_ok (k_ps w) lv (k_mm w) -> gPsProcessType (k_ps w) = Some u -> (u < 256)%nat ->
  0 <= gObNextObjectId (k_ob w) -> gObNextObjectId (k_ob w) + 1 < 2 ^ 64 ->
  exists st o w' ext' lv', PspCreateProcessInternal nm true w = Ret (st, o) w' /\ process_made ext ext' lv lv' w w' /\
    match o with
    | Some p => st = KSTATUS_SUCCESS /\ gPsProcessInUse (k_ps w) !! p = Some false /\
        exists a x, space_of (k_ps w') p a /\ gMmAddressSpacePool (mm (k_mm w')) !! a = Some x /\
          forall va, translate (k_mm w') (RootTablePhysical x) va = translate (k_mm w) (gMmKernelRootTablePhysical (mm (k_mm w))) va
    | None => st <> KSTATUS_SUCCESS /\
        ((forall b, b ∈ gPsProcessInUse (k_ps w) -> b = true) \/ (forall b, b ∈ gObObjectInUse (k_ob w) -> b = true) \/
         full (k_mm w) \/ forall b, b ∈ gMmAddressSpaceInUse (mm (k_mm w)) -> b = true)
    end.
Proof.
  intros O M P Hu Lu Io0 Io1. unfold PspCreateProcessInternal. cbn [negb]. set (s := k_ps w) in *.
  destruct (find_first negb (gPsProcessInUse s)) as [p|] eqn:F.
  2: { exists KSTATUS_INIT_FAILED, None, w, ext, lv.
       rewrite (bind_ps (W := kernel) _ _ w (KSTATUS_INIT_FAILED, None) (k_ps w));
         [|unfold PspAllocateProcessSlot; cbn [negb ps_get kernel_ps]; fold s; by rewrite F].
       split; [cbn; by destruct w|]. split; [|split; [done|left; intros b Hb; rewrite find_first_None in F; specialize (F b Hb); by destruct b]].
       constructor; try done; [apply processes_only_refl|eauto|lia|by destruct w]. }
  set (s1 := set_processes (gPsProcessPool s) (<[p := true]> (gPsProcessInUse s)) s).
  rewrite (bind_ps (W := kernel) _ _ w (KSTATUS_SUCCESS, Some p) s1);
    [|unfold PspAllocateProcessSlot; cbn [negb ps_get kernel_ps]; fold s; by rewrite F].
  apply find_first_Some in F as [(b & Hp & Fb) _]. destruct b; [done|]. clear Fb.
  destruct (lookup_lt_is_Some_2 (gPsProcessPool s) p) as [r Hr].
  { rewrite <- (pr_slots _ _ _ P). by eapply lookup_lt_Some. }
  cbn [ok Z.eqb KSTATUS_SUCCESS negb]. rewrite bind_deref, bind_gets. cbn [ps_get ps_put kernel_ps].
  change (gPsProcessType (k_ps (set_k_ps s1 w))) with (gPsProcessType s). rewrite Hu.
  destruct (create_cases (k_ob w) ext u (match nm with Some n => n | None => str "proc.user" end) OB_ACCESS_ALL 0 O Lu Io0 Io1)
    as [(h & o1 & o & E & Fo)|(Fu & E)]; erewrite (bind_ob _ _ (set_k_ps s1 w)) by exact E.
  2: { exists KSTATUS_INIT_FAILED, None, (set_k_ps s1 w), ext, lv. split; [cbn; by destruct w|]. split; [|by split; [|right; left]].
       constructor; try done; [|eauto|cbn; lia]. apply (processes_ok_taken s _ lv _ p r r); try done. cbn. by rewrite list_insert_id. }
  cbn [ok Z.eqb KSTATUS_SUCCESS negb].
  rewrite (bind_ps (W := kernel) _ _ (set_k_ob o1 (set_k_ps s1 w)) _ _ (update_process_ok s1 p r _ Hr)), bind_gets.
  erewrite (bind_ps (W := kernel)) by reflexivity. cbn [ps_get ps_put kernel_ps].
  erewrite (bind_ps (W := kernel)); [|apply update_process_ok; cbn; apply list_lookup_insert_eq; by eapply lookup_lt_Some].
  set (id := gPsNextProcessId _). set (r2 := set_ProcessId id (set_ProcessHeader (Some h) r)).
  set (s2 := set_processes (<[p := r2]> (gPsProcessPool s)) (<[p := true]> (gPsProcessInUse s)) (set_ps_ids (u64 (id + 1)) (gPsNextThreadId s) s)).
  match goal with |- context [bind (mmM _) _ ?x] => assert (Ew : x = set_k_ob o1 (set_k_ps s2 w)) end.
  { unfold s2, s1. cbn. by rewrite list_insert_insert_eq. }
  rewrite Ew. clear Ew. pose proof (fo_inv _ _ _ _ _ _ _ Fo) as O'.
  assert (Ob : forall i j, i <> j -> gObObjectInUse (k_ob w) !! i = Some false -> gObObjectInUse (k_ob w) !! j = Some false ->
    exists k, gObObjectInUse o1 !! k = Some false).
  { intros i j N Hi Hj. rewrite (fo_inuse _ _ _ _ _ _ _ Fo).
    destruct (decide (h = i)) as [->|Nh]; [exists j|exists i]; by rewrite list_lookup_insert_ne. }
  pose proof (fo_next _ _ _ _ _ _ _ Fo) as Nx.
  assert (Le : forall i, ext i <= ext_add h 1 ext i) by (intros i; unfold ext_add; destruct (decide _); lia).
  destruct (space_cases lv (k_mm w) id M) as [(a & x & lv' & m' & E2 & Ns)|[E2 Fs]].
  2: { erewrite (bind_mmM _ _ (set_k_ob o1 (set_k_ps s2 w))) by exact E2. cbn [ok Z.eqb negb KSTATUS_INIT_FAILED].
       eexists _, None, _, (ext_add h 1 ext), lv. split; [reflexivity|]. split; [|split; [done|by right; right]].
       constructor; try done; [by apply (processes_ok_taken s _ lv _ p r r2)| |cbn; lia]. split; [done|by apply length_insert]. }
  erewrite (bind_mmM _ _ (set_k_ob o1 (set_k_ps s2 w))) by exact E2. cbn [ok Z.eqb negb KSTATUS_SUCCESS].
  erewrite (bind_ps (W := kernel)); [|apply update_process_ok; cbn; apply list_lookup_insert_eq; by eapply lookup_lt_Some].
  unfold ret. eexists _, (Some p), _, (ext_add h 1 ext), lv'. split; [reflexivity|].
  match goal with |- process_made _ _ _ _ _ ?y /\ _ => set (w' := y) end.
  destruct (processes_ok_new s (k_ps w') lv lv' (k_mm w) m' p a x (set_AddressSpaceRoot (Some a) r2) P Ns Hp) as [P' Sp];
    [done|unfold w', s2; cbn; by rewrite list_insert_insert_eq|done|].
  split.
  - constructor; try done; [apply (ns_ready _ _ _ _ _ _ Ns)|split; [done|unfold w', s2; cbn; by rewrite !length_insert]|cbn; lia|].
    apply (ns_others _ _ _ _ _ _ Ns).
  - split; [done|]. split; [done|]. exists a, x. split; [done|]. split; [|apply (ns_kernel _ _ _ _ _ _ Ns)].
    unfold w'. cbn. rewrite (ns_pool _ _ _ _ _ _ Ns). apply list_lookup_insert_eq, (ns_slot _ _ _ _ _ _ Ns).
Qed.

(** ** What the manager's operations keep *)

Lemma process_made_inv ext ext' lv lv' w w' q cur : ps_inv ext lv w q cur -> process_made ext ext' lv lv' w w' ->
  ps_inv ext' lv' w' q cur.
Proof.
  intros [S Rn O M T Th P Sc] [Le O' M' P' [Es Ln] _ _ _ Er].
  assert (Own : forall t, owned (k_ps w) t -> owned (k_ps w') t).
  { intros t (p & Hp & [r Hr]). exists p. split; [done|]. apply lookup_lt_is_Some. rewrite Ln. by eapply lookup_lt_Some. }
  assert (Tp : gPsThreadPool (k_ps w') = gPsThreadPool (k_ps w)) by (by rewrite Es).
  constructor; try done.
  - destruct S as [[Qh Qt Qn Ql] R C SQ SR SO]. constructor; rewrite ?Tp; [|by rewrite Es|by rewrite Es| | |done].
    + constructor; [by rewrite Es|by rewrite Es|done|by rewrite Tp].
    + intros i Hi. destruct (SQ i Hi) as (t & Ht & St & Ow). exists t. auto.
    + intros c Hc. destruct (SR c Hc) as (Nq & t & Ht & St & Ow). split; [done|]. exists t. auto.
  - intros c Hc. destruct (Rn c Hc) as (t & Ht & St). exists t. by rewrite Tp.
  - by rewrite Es.
  - destruct Th as [Te Td Ts Tn]. unfold thread_at in *. constructor; unfold thread_at; rewrite ?Tp; [|done|by rewrite Es|by rewrite Es].
    intros i t h Hi. destruct (Te i t h Hi) as [A B C D F]. constructor; [by rewrite Es| |by rewrite Es|by rewrite Es|by apply Own].
    specialize (Le h). lia.
  - intros i Hi. unfold thread_at. rewrite Tp. by apply Sc.
Qed.

(** An operation on the manager: of the scheduler, or a creation. *)
Inductive ps_do :=
| DoSched (o : ps_op)
| DoKernelThread (p : nat) (Start : option Z) (Ctx : Z)
| DoUserThread (p : nat) (Entry Stack A0 A1 : Z)
| DoProcess (Name : option cstr).

Definition do_exec (d : ps_do) : M kernel (KSTATUS * option nat) :=
  match d with
  | DoSched o => Status <- ps_exec o ;; ret (Status, None)
  | DoKernelThread p Start Ctx => PsCreateKernelThread (Some p) Start Ctx true
  | DoUserThread p Entry Stack A0 A1 => PsCreateUserThread (Some p) Entry Stack A0 A1 true
  | DoProcess Name => PsCreateProcess Name true
  end.

(** The calls the kernel makes: threads made ready or woken are created ones, ids
    do not run out, and a user thread's process has an address space. *)
Definition may_do (d : ps_do) (w : kernel) (q : list nat) (cur : option nat) : Prop :=
  match d with
  | DoSched o => allowed (k_ps w) q cur o /\
      match o with OpReady i | OpWake i => exists t h, thread_at (k_ps w) i t h | _ => True end
  | DoKernelThread p _ _ => ids_left w /\ is_Some (gPsProcessPool (k_ps w) !! p)
  | DoUserThread p Entry Stack _ _ => ids_left w /\ 0 <= Entry /\ 0 <= Stack /\ exists a, space_of (k_ps w) p a
  | DoProcess _ => ids_left w
  end.

(** The queue and the current thread afterwards. *)
Definition done_to (d : ps_do) (w : kernel) (q : list nat) (cur : option nat) : list nat * option nat :=
  match d with
  | DoSched o => let '(_, q', cur') := abs_step (gPsReschedulePending (k_ps w)) (blocked (k_ps w)) o q cur in (q', cur')
  | _ => (q, cur)
  end.

Lemma sched_keeps ext lv w q cur o : ps_inv ext lv w q cur -> may_do (DoSched o) w q cur ->
  let '(st, q', cur') := abs_step (gPsReschedulePending (k_ps w)) (blocked (k_ps w)) o q cur in
  exists w', ps_exec o w = Ret st w' /\ ram (k_mm w') = ram (k_mm w) /\ ps_inv ext lv w' q' cur'.
Proof.
  intros I [A At]. edestruct (exec_refines (W := kernel) w q cur o) as (w' & X);
    [exact (ps_inv_sched _ _ _ _ _ I)|exact A|].
  change (ps_get w) with (k_ps w) in X.
  destruct (abs_step _ _ o q cur) as [[st q'] cur'] eqn:E. destruct X as [X S]. exists w'. split; [done|].
  pose proof (settled_exec o w st w' X) as Se. split; [exact (f_equal snd Se)|].
  apply (settled_inv ext lv w w' q cur); [done|done|done|].
  intros i Hi. destruct (abs_step_members _ _ _ _ _ _ _ _ i E Hi) as [H0|[->|[-> _]]]; [by apply (pi_scheduled _ _ _ _ _ I)|done|done].
Qed.

(** Creating a thread touches no page table. *)
Lemma spawned_keeps ext lv w w' q cur j h t : spawned ext lv w w' q cur j h t ->
  ps_inv (ext_add h 1 ext) lv w' q cur /\ (forall i, ext i <= ext_add h 1 ext i) /\
  (forall r va, lv !! r = Some 0%nat -> lv !! r = Some 0%nat /\ translate (k_mm w') r va = translate (k_mm w) r va).
Proof.
  intros [I _ _ _ _ _ E]. split; [done|]. split; [intros i; unfold ext_add; destruct (decide _); lia|].
  intros r va Hr. split; [done|]. by rewrite E.
Qed.

(** C15: the process manager's invariant is kept by every operation: whatever the
    scheduler is asked, and whatever process or thread is created or fails to be
    created, the operation returns and afterwards the queue and the current
    thread are those of the abstract scheduler, every scheduled thread is one
    that was created, with a slot, an object, an id and a kernel stack of its
    own and an existing process, and every process's address space is a sound
    one that no other process has; no translation of an earlier address space
    changes. *)
Theorem ps_do_keeps ext lv w q cur d : ps_inv ext lv w q cur -> may_do d w q cur ->
  exists r w' ext' lv', do_exec d w = Ret r w' /\ ps_inv ext' lv' w' (done_to d w q cur).1 (done_to d w q cur).2 /\
    (forall i, ext i <= ext' i) /\
    (forall r va, lv !! r = Some 0%nat -> lv' !! r = Some 0%nat /\ translate (k_mm w') r va = translate (k_mm w) r va).
Proof.
  intros I A. destruct d as [o|p Start Ctx|p Entry Stack A0 A1|Name].
  - pose proof (sched_keeps ext lv w q cur o I A) as K. cbn [do_exec done_to].
    destruct (abs_step _ _ o q cur) as [[st q'] cur']. destruct K as (w' & E & R & I'). cbn [fst snd].
    exists (st, None), w', ext, lv. split; [by rewrite (bind_eq _ _ _ _ _ E)|]. split; [done|]. split; [done|].
    intros x va Hx. split; [done|]. unfold translate. by rewrite R.
  - destruct A as [N Hp]. cbn [do_exec done_to fst snd]. unfold PsCreateKernelThread. rewrite bind_gets.
    change (gPsReady (ps_get w)) with (gPsReady (k_ps w)). rewrite (PsInv.so_ready _ _ _ (pi_sched _ _ _ _ _ I)). cbn [negb orb].
    destruct (new_thread_spec ext lv w q cur (str "thread.kernel") p Start Ctx false 0 0 0 0 I Hp N)
      as [(j & h & t0 & w' & _ & E & Sp)|(st & w' & _ & E & I' & _ & Em & _)].
    + eexists _, w', _, lv. split; [exact E|]. by apply spawned_keeps in Sp.
    + eexists _, w', ext, lv. split; [exact E|]. split; [done|]. split; [done|]. by rewrite Em.
  - destruct A as (N & E0 & S0 & a & Ha). cbn [do_exec done_to fst snd].
    destruct (pr_space _ _ _ (pi_processes _ _ _ _ _ I) p a Ha) as (_ & _ & x & Hx & _).
    destruct (create_user_spec ext lv w q cur p a x Entry Stack A0 A1 I N Ha Hx E0 S0)
      as [[_ [(j & h & t & w' & E & Sp & _)|(st & w' & E & _ & I' & Em & _)]]|(_ & st & E & _)].
    + eexists _, w', _, lv. split; [exact E|]. by apply spawned_keeps in Sp.
    + eexists _, w', ext, lv. split; [exact E|]. split; [done|]. split; [done|]. by rewrite Em.
    + eexists _, w, ext, lv. split; [exact E|]. done.
  - cbn [do_exec done_to fst snd]. destruct A as (_ & N0 & N1). unfold PsCreateProcess. rewrite bind_gets.
    change (gPsReady (ps_get w)) with (gPsReady (k_ps w)). rewrite (PsInv.so_ready _ _ _ (pi_sched _ _ _ _ _ I)). cbn [negb].
    destruct (pi_types _ _ _ _ _ I) as (t & u & _ & Hu & _ & Lu).
    destruct (create_process_spec ext lv w u Name (pi_ob _ _ _ _ _ I) (pi_mm _ _ _ _ _ I) (pi_processes _ _ _ _ _ I) Hu Lu N0 N1)
      as (st & o & w' & ext' & lv' & E & Pm & _).
    exists (st, o), w', ext', lv'. split; [exact E|]. split; [by eapply process_made_inv|]. split; apply Pm.
Qed.

(** ** The start *)

(** The manager's static variables before the start: nothing in the pools. *)
Record ps_blank (s : ps_state) : Prop := {
  pb_ready : gPsReady s = false;
  pb_threads : length (gPsThreadPool s) = Z.to_nat PS_MAX_THREADS;
  pb_processes : length (gPsProcessPool s) = Z.to_nat PS_MAX_PROCESSES;
  pb_thread : forall t, t ∈ gPsThreadPool s -> ThreadHeader t = None /\ State t = PsThreadReady;
  pb_process : forall p, p ∈ gPsProcessPool s -> AddressSpaceRoot p = None }.

Lemma create_type_spec s ext nm r i : ob_inv s ext -> find_first negb (gObTypeInUse s) = Some i ->
  exists s', ObCreateType (Some nm) (Some r) true s = Ret (KSTATUS_SUCCESS, Some i) s' /\ ob_inv s' ext /\ (i < 256)%nat /\
    gObTypeInUse s' = <[i := true]> (gObTypeInUse s) /\ gObObjectInUse s' = gObObjectInUse s /\
    gObNextObjectId s' = gObNextObjectId s /\
    exists ty, DeleteRoutine ty = Some r /\ gObTypePool s' = <[i := ty]> (gObTypePool s).
Proof.
  intros I F. pose proof (find_first_lt _ _ _ F) as Li. rewrite (oi_tuse _ _ I) in Li.
  assert (exists s', ObCreateType (Some nm) (Some r) true s = Ret (KSTATUS_SUCCESS, Some i) s' /\
    gObTypeInUse s' = <[i := true]> (gObTypeInUse s) /\ gObObjectInUse s' = gObObjectInUse s /\
    gObNextObjectId s' = gObNextObjectId s /\
    exists ty, DeleteRoutine ty = Some r /\ gObTypePool s' = <[i := ty]> (gObTypePool s)) as (s' & E & P).
  { unfold ObCreateType. rewrite (oi_ready _ _ I), F. cbn [negb orb].
    destruct (lookup_lt_is_Some_2 (gObTypePool s) i) as [t Ht]; [by rewrite (oi_tpool _ _ I)|].
    rewrite (bind_eq _ _ _ _ _ (load_at_ok _ _ _ _ Ht)).
    pose proof (ObpCopyName_ok (TypeName t) (OB_MAX_TYPE_NAME + 1) nm ltac:(done)) as HS.
    destruct (ObpCopyName _ _ _) as [st' nm']. cbn in HS. subst st'. eexists. split; [reflexivity|].
    do 3 (split; [done|]). eexists. split; [|reflexivity]. done. }
  exists s'. split; [done|]. split; [by eapply inv_create_type|]. by destruct P as (A1 & A2 & A3 & A4).
Qed.

(** The assignments at the beginning. *)
Definition cleared (s : ps_state) : ps_state :=
  set_pending false (set_current None (set_queue None None (set_ps_ids 1 1
    (set_threads (gPsThreadPool s) (replicate (Z.to_nat PS_MAX_THREADS) false)
      (set_processes (gPsProcessPool s) (replicate (Z.to_nat PS_MAX_PROCESSES) false) s))))).

Lemma cleared_processes s t u lv m : ps_blank s -> processes_ok (set_ps_types t u (cleared s)) lv m.
Proof.
  intros B. assert (N : forall p a, ~ space_of (set_ps_types t u (cleared s)) p a).
  { intros p a (r & Hr & Ha). apply list_elem_of_lookup_2, (pb_process _ B) in Hr. congruence. }
  constructor; [intros p a Ha; by apply N in Ha|intros p q a Ha; by apply N in Ha|].
  cbn. by rewrite length_replicate, (pb_processes _ B).
Qed.

(** The invariant once the types and the system process exist. *)
Lemma blank_inv ext lv w s t u p : ps_blank s -> gPsThreadType (k_ps w) = Some t -> gPsProcessType (k_ps w) = Some u ->
  (t < 256)%nat -> (u < 256)%nat -> ob_inv (k_ob w) ext -> mm_ready lv (k_mm w) -> processes_ok (k_ps w) lv (k_mm w) ->
  processes_only (set_ps_types (Some u) (Some t) (cleared s)) (k_ps w) ->
  ps_inv ext lv (set_k_ps (set_ps_ready true p (k_ps w)) w) [] None.
Proof.
  intros B Ht Hu Lt Lu O M P [Es Ln]. set (k := k_ps w) in *.
  assert (Ep : gPsThreadPool k = gPsThreadPool s) by (by rewrite Es).
  assert (Ei : gPsThreadInUse k = replicate (Z.to_nat PS_MAX_THREADS) false) by (by rewrite Es).
  assert (Eq : gPsRunQueueHead k = None /\ gPsRunQueueTail k = None /\ gPsCurrentThread k = None /\ gPsNextThreadId k = 1).
  { rewrite Es. done. }
  clear Es. destruct Eq as (Eh & El & Ec & En).
  assert (N : forall i t h, ~ (gPsThreadPool k !! i = Some t /\ ThreadHeader t = Some h)).
  { intros i x h [Hx Hh]. rewrite Ep in Hx. apply list_elem_of_lookup_2, (pb_thread _ B) in Hx as [? _]. congruence. }
  constructor; cbn.
  - constructor; cbn; [constructor; [exact Eh|exact El|constructor|done]|done|exact Ec|by intros i ?%elem_of_nil|done|].
    intros i x Hx St. rewrite Ep in Hx. apply list_elem_of_lookup_2, (pb_thread _ B) in Hx as [_ ?]. congruence.
  - done. - exact O. - exact M. - by exists t, u.
  - constructor; [intros i x h T; by apply N in T|intros i j x y h l T; by apply N in T| |cbn; fold k; lia].
    change (length (gPsThreadInUse k) = length (gPsThreadPool k)). by rewrite Ei, Ep, length_replicate, (pb_threads _ B).
  - by apply (processes_ok_same k _ lv (k_mm w)).
  - intros i [Hi|?]; [by apply elem_of_nil in Hi|done].
Qed.

Lemma inv_hal ext lv w q cur h : ps_inv ext lv w q cur -> ps_inv ext lv (set_k_hal h w) q cur.
Proof. by intros []. Qed.

(** The bootstrap thread: created, made ready and dispatched without a switch. *)
Lemma bootstrap_spec ext lv w p b x : ps_inv ext lv w [] None -> ids_left w -> space_of (k_ps w) p b ->
  gMmAddressSpacePool (mm (k_mm w)) !! b = Some x ->
  (exists i, gPsThreadInUse (k_ps w) !! i = Some false) -> (exists i, gObObjectInUse (k_ob w) !! i = Some false) ->
  exists j w1 w2 w3 w4 ext', PsCreateKernelThread (Some p) None 0 true w = Ret (KSTATUS_SUCCESS, Some j) w1 /\
    ps (PsReadyThread (Some j)) w1 = Ret KSTATUS_SUCCESS w2 /\ Ps.HalRegisterTimerTickRoutine w2 = Ret tt w3 /\
    PsDispatch w3 = Ret KSTATUS_SUCCESS w4 /\ ps_inv ext' lv w4 [] (Some j) /\
    gHalTimerTickRoutine (k_hal w4) = Some TickPsOnTimerTick /\ cpu (k_ps w4) = cpu (k_ps w) /\
    ram (k_mm w4) = ram (k_mm w) /\ addr_of (cr3 (k_mm w4)) = RootTablePhysical x /\
    gPsProcessPool (k_ps w4) = gPsProcessPool (k_ps w) /\ gPsSystemProcess (k_ps w4) = gPsSystemProcess (k_ps w) /\
    gObNextObjectId (k_ob w4) = gObNextObjectId (k_ob w) + 1.
Proof.
  intros I N Sp Hx (i & Hi) (k & Hk). pose proof Sp as (r & Hr & Ha).
  destruct (new_thread_spec ext lv w [] None (str "thread.kernel") p None 0 false 0 0 0 0 I ltac:(by exists r) N)
    as [(j & h & t0 & w1 & Ht0 & E1 & Sw)|(st & w1 & _ & _ & _ & _ & _ & _ & [F|F])].
  2: { apply list_elem_of_lookup_2 in Hi. by apply F in Hi. } 2: { apply list_elem_of_lookup_2 in Hk. by apply F in Hk. }
  set (t := set_ThreadHeader _ _) in Sw. destruct Sw as [I1 Fj Ep _ _ Nx Er].
  assert (Tj : gPsThreadPool (k_ps w1) !! j = Some t).
  { rewrite Ep. apply list_lookup_insert_eq. by eapply lookup_lt_Some. }
  assert (Em1 : k_mm w1 = k_mm w) by (by rewrite Er).
  assert (Pp1 : gPsProcessPool (k_ps w1) = gPsProcessPool (k_ps w)) by (by rewrite Ep).
  assert (Ow : owned (k_ps w1) t) by (exists p; split; [done|]; rewrite Pp1; by exists r).
  assert (Nr : State t <> PsThreadDead) by done.
  destruct (ready_spec (k_ps w1) [] None j t (pi_sched _ _ _ _ _ I1) Tj ltac:(by intros ?%elem_of_nil) ltac:(done) Ow Nr)
    as (s2 & E2 & _ & R2 & _).
  assert (I2 : ps_inv (ext_add h 1 ext) lv (set_k_ps s2 w1) [j] None).
  { pose proof (sched_keeps _ _ _ _ _ (OpReady j) I1) as K. cbn [abs_step app] in K. destruct K as (w2 & E2' & _ & I2).
    - split; [split_and!; [by intros ?%elem_of_nil|done|by exists t]|by exists t, h].
    - cbn [ps_exec] in E2'. rewrite (ps_Ret (W := kernel) _ w1 _ s2 E2) in E2'. by injection E2' as <-. }
  destruct (rest_fields _ _ R2) as (Pp2 & _ & _ & Cp2 & _).
  set (w3 := set_k_hal (set_routines (Some TickPsOnTimerTick) (gHalPageFaultRoutine (k_hal w1)) (k_hal w1)) (set_k_ps s2 w1)).
  assert (I3 : ps_inv (ext_add h 1 ext) lv w3 [j] None) by (by apply inv_hal).
  pose proof (sched_keeps _ _ _ _ _ OpDispatch I3 ltac:(done)) as K. cbn [abs_step abs_dispatch app option_list] in K.
  destruct K as (w4 & E4 & R4 & I4). cbn [ps_exec] in E4.
  edestruct (dispatch_spec (W := kernel) w3 j [] None) as (w4' & E4' & D & _ & Cr);
    [exact (pi_sched _ _ _ _ _ I3)|exact (processes_spaces _ _ _ (pi_processes _ _ _ _ _ I3))|]. rewrite E4 in E4'. injection E4' as <-.
  exists j, w1, (set_k_ps s2 w1), w3, w4, (ext_add h 1 ext). split; [|split; [exact (ps_Ret (W := kernel) _ w1 _ s2 E2)|]].
  { unfold PsCreateKernelThread. rewrite bind_gets. change (gPsReady (ps_get w)) with (gPsReady (k_ps w)).
    rewrite (PsInv.so_ready _ _ _ (pi_sched _ _ _ _ _ I)). exact E1. }
  split; [reflexivity|]. split; [exact E4|]. split; [exact I4|].
  pose proof (dispatch_frame _ _ _ E4) as [= Eb _ _ _ Eh]. pose proof (settled_dispatch _ _ _ E4) as Se.
  assert (Sy : gPsSystemProcess (k_ps w4) = gPsSystemProcess (k_ps w3)) by (by injection Se).
  destruct (created_thread (k_ps w1) s2 j t h (frame_ready (Some j) _ _ _ E2) (conj Tj eq_refl)) as (t2 & [Ht2 _] & Id).
  assert (Ot : OwnerProcess t2 = Some p) by exact (f_equal (fun x => x.1.2) Id).
  split; [by rewrite Eh|]. split.
  { change (k_ps w4) with (ps_get w4). rewrite (dr_cpu _ _ _ _ D). change (ps_get w3) with s2.
    assert (C2 : gPsCurrentThread s2 = None) by exact (so_cur _ _ _ (pi_sched _ _ _ _ _ I2)). by rewrite C2, Cp2, Ep. }
  split; [by rewrite R4; cbn; rewrite Em1|]. split.
  { apply (Cr t2 p r b x Ht2 Ot); [change (gPsProcessPool s2 !! p = Some r); by rewrite Pp2, Pp1|done|
      change (gMmAddressSpacePool (mm (k_mm w1)) !! b = Some x); by rewrite Em1|].
    exact (mr_ready _ _ (pi_mm _ _ _ _ _ I3)). }
  split; [change (k_ps w4) with (ps_get w4); rewrite (dr_processes _ _ _ _ D); change (gPsProcessPool s2 = gPsProcessPool (k_ps w)); by rewrite Pp2, Pp1|].
  split; [|by rewrite Eb, <- Nx].
  rewrite Sy. change (gPsSystemProcess s2 = gPsSystemProcess (k_ps w)). transitivity (gPsSystemProcess (k_ps w1)); [|by rewrite Ep].
  exact (f_equal gPsSystemProcess R2).
Qed.

(** The tables of the interrupts, without the stack pointer of the task state. *)
Definition gates (s : intr_state) :=
  (gAur64Idt s, gAur64Gdt s, (idt_address s, gdt_address s, tss_address s), (idtr s, gdtr s, task_register s)).

(** What the start of the process manager leaves alone. *)
Definition bystanders (w : kernel) :=
  (k_lpc w, k_nk w, k_io w, k_se w, (k_cc w, k_ex w, k_ke w), (console (k_hal w), gHalPageFaultRoutine (k_hal w)),
   (gates (k_intr w), k_if w)).
Definition types_used (w : kernel) := (gObTypeInUse (k_ob w), gObTypePool (k_ob w)).

Lemma create_object_types t nm m f o : frame (fun s => (gObTypeInUse s, gObTypePool s)) (ObCreateObject t nm m f o).
Proof.
  intros s a s' E. unfold ObCreateObject in E. destruct t, nm; try by injection E as _ <-.
  destruct (_ || _); [by injection E as _ <-|]. destruct (find_first _ _) as [i|]; [|by injection E as _ <-].
  apply bind_Ret_inv in E as (x & s1 & E1 & E). assert (s1 = s) as -> by (unfold load_at in E1; destruct (_ !! i); [by injection E1|done]).
  destruct (ObpCopyName _ _ _) as [st nm']. destruct (ok st); by injection E as _ <-.
Qed.

Lemma types_object t nm m f o : frame types_used (ob (ObCreateObject t nm m f o)).
Proof. intros w a w' E. apply zoom_Ret_inv in E as (s & E & ->). exact (create_object_types _ _ _ _ _ _ _ _ E). Qed.
#[export] Hint Resolve types_object : frames.

Lemma types_process nm : frame types_used (PspCreateProcessInternal (W := kernel) nm true).
Proof. unfold PspCreateProcessInternal, ps, mmM. frames. Qed.

Lemma types_thread p : frame types_used (PsCreateKernelThread (W := kernel) p None 0 true).
Proof. unfold PsCreateKernelThread, new_thread, ps. frames. Qed.

Lemma bystanders_stack z : frame bystanders (Ps.HalSetKernelStackPointer (W := kernel) z).
Proof. intros w a w' E. apply zoom_Ret_inv in E as (s & E & ->). by injection E as _ <-. Qed.
#[export] Hint Resolve bystanders_stack : frames.

Lemma bystanders_process nm : frame bystanders (PspCreateProcessInternal (W := kernel) nm true).
Proof. unfold PspCreateProcessInternal, ps, ob, mmM. frames. Qed.
#[export] Hint Resolve bystanders_process : frames.
Lemma bystanders_thread p : frame bystanders (PsCreateKernelThread (W := kernel) p None 0 true).
Proof. unfold PsCreateKernelThread, new_thread, ps, ob. frames. Qed.
Lemma bystanders_dispatch : frame bystanders (PsDispatch (W := kernel)).
Proof.
  unfold PsDispatch, enter_thread, ps, mmM.
  repeat first [apply bystanders_stack|frame_step].
Qed.
Lemma bystanders_timer : frame bystanders (Ps.HalRegisterTimerTickRoutine (W := kernel)).
Proof. intros w a w' E. by injection E as _ <-. Qed.
#[export] Hint Resolve bystanders_thread bystanders_dispatch bystanders_timer : frames.

Lemma bystanders_start : frame bystanders (PsInitialize (W := kernel)).
Proof. unfold PsInitialize, PspCreateSystemProcess, start_failed, ps, ob. frames. Qed.

(** The start, when each of its steps succeeds. *)
Lemma initialize_run w s1 s2 t1 t2 w3 p j w5 w6 w7 w8 :
  let w2 := set_k_ob s2 (set_k_ps (set_ps_types (Some t1) (Some t2) (cleared (k_ps w))) w) in
  let w4 := set_k_ps (set_ps_ready true (Some p) (k_ps w3)) w3 in
  ps_blank (k_ps w) ->
  ObCreateType (Some (str "Process")) (Some ProcessDeleteRoutine) true (k_ob w) = Ret (KSTATUS_SUCCESS, Some t1) s1 ->
  ObCreateType (Some (str "Thread")) (Some ThreadDeleteRoutine) true s1 = Ret (KSTATUS_SUCCESS, Some t2) s2 ->
  PspCreateProcessInternal (Some (str "proc.system")) true w2 = Ret (KSTATUS_SUCCESS, Some p) w3 ->
  PsCreateKernelThread (Some p) None 0 true w4 = Ret (KSTATUS_SUCCESS, Some j) w5 ->
  ps (PsReadyThread (Some j)) w5 = Ret KSTATUS_SUCCESS w6 -> Ps.HalRegisterTimerTickRoutine w6 = Ret tt w7 ->
  PsDispatch w7 = Ret KSTATUS_SUCCESS w8 -> PsInitialize w = Ret KSTATUS_SUCCESS w8.
Proof.
  intros w2 w4 B E1 E2 E3 E5 E6 E7 E8.
  unfold PsInitialize. rewrite bind_gets. change (gPsReady (ps_get w)) with (gPsReady (k_ps w)). rewrite (pb_ready _ B).
  erewrite (bind_ps (W := kernel)) by reflexivity. change (ps_put _ w) with (set_k_ps (cleared (k_ps w)) w).
  rewrite (bind_ob _ _ (set_k_ps (cleared (k_ps w)) w) _ _ E1). cbn [ok Z.eqb KSTATUS_SUCCESS negb andb].
  erewrite (bind_ps (W := kernel)) by reflexivity.
  match goal with |- bind (ob _) _ ?y = _ => rewrite (bind_ob _ _ y _ _ E2) end. cbn [ok Z.eqb KSTATUS_SUCCESS negb andb].
  erewrite (bind_ps (W := kernel)) by reflexivity.
  match goal with |- bind _ _ ?y = _ => change y with w2 end.
  unfold PspCreateSystemProcess. rewrite bind_assoc, (bind_eq _ _ _ _ _ E3). cbn [ok Z.eqb KSTATUS_SUCCESS negb].
  rewrite bind_assoc. erewrite (bind_ps (W := kernel)) by reflexivity. rewrite bind_ret_l. cbn [ok Z.eqb KSTATUS_SUCCESS negb].
  erewrite (bind_ps (W := kernel)) by reflexivity. rewrite bind_gets.
  match goal with |- bind _ _ ?y = _ => change y with w4 end. change (gPsSystemProcess (ps_get w4)) with (Some p).
  rewrite (bind_eq _ _ _ _ _ E5). cbn [ok Z.eqb KSTATUS_SUCCESS negb].
  rewrite (bind_eq _ _ _ _ _ E6). cbn [ok Z.eqb KSTATUS_SUCCESS negb].
  rewrite (bind_eq _ _ _ _ _ E7), (bind_eq _ _ _ _ _ E8). reflexivity.
Qed.

Lemma initialize_spec ext lv w t1 t2 o1 o2 b : ob_inv (k_ob w) ext -> mm_ready lv (k_mm w) -> ps_blank (k_ps w) ->
  find_first negb (gObTypeInUse (k_ob w)) = Some t1 -> find_first negb (<[t1 := true]> (gObTypeInUse (k_ob w))) = Some t2 ->
  o1 <> o2 -> gObObjectInUse (k_ob w) !! o1 = Some false -> gObObjectInUse (k_ob w) !! o2 = Some false ->
  0 <= gObNextObjectId (k_ob w) -> gObNextObjectId (k_ob w) + 2 < 2 ^ 64 ->
  gMmAddressSpaceInUse (mm (k_mm w)) !! b = Some false -> ~ full (k_mm w) ->
  exists w' ext' lv' j, PsInitialize w = Ret KSTATUS_SUCCESS w' /\ ps_inv ext' lv' w' [] (Some j) /\
    gHalTimerTickRoutine (k_hal w') = Some TickPsOnTimerTick /\ cpu (k_ps w') = cpu (k_ps w) /\
    (exists p a x, gPsSystemProcess (k_ps w') = Some p /\ space_of (k_ps w') p a /\
       addr_of (cr3 (k_mm w')) = RootTablePhysical x /\
       forall va, translate (k_mm w') (RootTablePhysical x) va = translate (k_mm w) (gMmKernelRootTablePhysical (mm (k_mm w))) va) /\
    PsInitialize w' = Ret KSTATUS_ALREADY_INITIALIZED w' /\
    gObTypeInUse (k_ob w') = <[t2 := true]> (<[t1 := true]> (gObTypeInUse (k_ob w))) /\
    (forall t, t <> t1 -> t <> t2 -> gObTypePool (k_ob w') !! t = gObTypePool (k_ob w) !! t) /\
    0 <= gObNextObjectId (k_ob w') <= gObNextObjectId (k_ob w) + 2.
Proof.
  intros O M B F1 F2 No Ho1 Ho2 N0 N2 Hb Nf.
  destruct (create_type_spec (k_ob w) ext (str "Process") ProcessDeleteRoutine t1 O F1) as (s1 & E1 & O1 & L1 & U1 & Ob1 & X1 & ty1 & _ & Y1).
  rewrite <- U1 in F2.
  destruct (create_type_spec s1 ext (str "Thread") ThreadDeleteRoutine t2 O1 F2) as (s2 & E2 & O2 & L2 & U2 & Ob2 & X2 & ty2 & _ & Y2).
  set (w2 := set_k_ob s2 (set_k_ps (set_ps_types (Some t1) (Some t2) (cleared (k_ps w))) w)).
  destruct (create_process_spec ext lv w2 t1 (Some (str "proc.system")) O2 M (cleared_processes _ _ _ _ _ B) eq_refl L1)
    as (st & o & w3 & ext' & lv' & E3 & Pm & R3); [cbn; lia|cbn; lia|].
  cbn in Pm. pose proof Pm as [Le O3 M3 P3 Po Obs Nx To Er].
  destruct o as [p|].
  2: { exfalso. destruct R3 as [_ [A|[A|[A|A]]]]; cbn in A; [|rewrite Ob2, Ob1 in A|by apply Nf|].
       - specialize (A false). rewrite elem_of_replicate in A. by discriminate A.
       - by discriminate (A false (list_elem_of_lookup_2 _ _ _ Ho1)). - by discriminate (A false (list_elem_of_lookup_2 _ _ _ Hb)). }
  destruct R3 as (-> & Fp & a & x & Sp & Hx & Tk).
  assert (Et : gPsThreadType (k_ps w3) = Some t2 /\ gPsProcessType (k_ps w3) = Some t1 /\ gPsNextThreadId (k_ps w3) = 1 /\
    gPsThreadInUse (k_ps w3) = replicate (Z.to_nat PS_MAX_THREADS) false /\ cpu (k_ps w3) = cpu (k_ps w)).
  { rewrite (po_state _ _ Po). done. }
  destruct Et as (Tt & Tp & Ni & Tu & Cp).
  set (w4 := set_k_ps (set_ps_ready true (Some p) (k_ps w3)) w3).
  assert (I4 : ps_inv ext' lv' w4 [] None) by (by apply (blank_inv ext' lv' w3 (k_ps w) t2 t1)).
  destruct (bootstrap_spec ext' lv' w4 p a x I4) as (j & w5 & w6 & w7 & w8 & ext8 & E5 & E6 & E7 & E8 & I8 & Tr & Cp8 & R8 & C8 & Pp8 & Sy8 & Nx8).
  { unfold ids_left, w4. cbn. rewrite Ni. cbn in Nx. lia. }
  { exact Sp. } { exact Hx. }
  { exists 0%nat. unfold w4. cbn. by rewrite Tu. }
  { apply (Obs o1 o2 No); cbn; by rewrite Ob2, Ob1. }
  exists w8, ext8, lv', j. split; [|split; [done|]; split; [done|]; split; [by rewrite Cp8|]; split].
  - by apply (initialize_run w s1 s2 t1 t2 w3 p j w5 w6 w7 w8 B E1 E2 E3 E5 E6 E7 E8).
  - exists p, a, x. split; [by rewrite Sy8|]. split; [unfold space_of; rewrite Pp8; exact Sp|]. split; [done|].
    intros va. unfold translate. rewrite R8. apply Tk.
  - split.
    { unfold PsInitialize. rewrite bind_gets. change (gPsReady (ps_get w8)) with (gPsReady (k_ps w8)).
      by rewrite (PsInv.so_ready _ _ _ (pi_sched _ _ _ _ _ I8)). }
    assert (Ty : types_used w8 = types_used w2).
    { pose proof (dispatch_frame _ _ _ E8) as [= A8 _ _ _ _]. apply zoom_Ret_inv in E6 as (? & _ & ->). injection E7 as <-.
      transitivity (types_used w5); [unfold types_used; by rewrite A8|]. rewrite (types_thread _ _ _ _ E5).
      exact (types_process _ _ _ _ E3). }
    injection Ty as Ty1 Ty2. rewrite Ty1, Ty2. change (k_ob w2) with s2. split; [by rewrite U2, U1|]. split.
    { intros t N1 N2'. by rewrite Y2, Y1, !list_lookup_insert_ne. }
    rewrite Nx8. change (k_ob w4) with (k_ob w3). change (k_ob w2) with s2 in Nx. lia.
Qed.

(** C17: the start of the process manager succeeds whenever two types, two objects,
    an address space and a frame are free: afterwards the manager's invariant
    holds with the bootstrap thread running and nothing queued, the timer ticks
    go to the scheduler, the registers are those of the caller, who goes on as
    the bootstrap thread, in the system process's address space, through which
    every address translates as through the kernel's root; a second start is
    refused and changes nothing. *)
Theorem PsInitialize_starts ext lv w t1 t2 o1 o2 b : ob_inv (k_ob w) ext -> mm_ready lv (k_mm w) -> ps_blank (k_ps w) ->
  find_first negb (gObTypeInUse (k_ob w)) = Some t1 -> find_first negb (<[t1 := true]> (gObTypeInUse (k_ob w))) = Some t2 ->
  o1 <> o2 -> gObObjectInUse (k_ob w) !! o1 = Some false -> gObObjectInUse (k_ob w) !! o2 = Some false ->
  0 <= gObNextObjectId (k_ob w) -> gObNextObjectId (k_ob w) + 2 < 2 ^ 64 ->
  gMmAddressSpaceInUse (mm (k_mm w)) !! b = Some false -> ~ full (k_mm w) ->
  exists w' ext' lv' j, PsInitialize w = Ret KSTATUS_SUCCESS w' /\ ps_inv ext' lv' w' [] (Some j) /\
    gHalTimerTickRoutine (k_hal w') = Some TickPsOnTimerTick /\ cpu (k_ps w') = cpu (k_ps w) /\
    (exists p a x, gPsSystemProcess (k_ps w') = Some p /\ space_of (k_ps w') p a /\
       addr_of (cr3 (k_mm w')) = RootTablePhysical x /\
       forall va, translate (k_mm w') (RootTablePhysical x) va = translate (k_mm w) (gMmKernelRootTablePhysical (mm (k_mm w))) va) /\
    PsInitialize w' = Ret KSTATUS_ALREADY_INITIALIZED w'.
Proof.
  intros O M B F1 F2 No Ho1 Ho2 N0 N2 Hb Nf.
  destruct (initialize_spec ext lv w t1 t2 o1 o2 b O M B F1 F2 No Ho1 Ho2 N0 N2 Hb Nf)
    as (w' & ext' & lv' & j & E & I & T & C & S & R & _). by exists w', ext', lv', j.
Qed.
