(* ===== verification/LpcInv.v ===== *)
(** * Local procedure calls: invariant and theorems

    A port reached through a handle is a bounded FIFO queue shared by everybody
    who holds a handle with the right; sending wakes one waiting thread; waiting
    on an empty port does not wait. *)

From S2P Require Import Prelude CString BootProto Nk Ob ObInv PhysMem MmPages MmTables MmSpace MmSection.
From S2P Require Import Ps PsInv Lpc Io Hal Kernel KernelInv.

(** ** The threads of wait queues *)

(** Thread [i] exists and belongs to a process. *)
Definition waiter (s : ps_state) (i : nat) : Prop := exists t, gPsThreadPool s !! i = Some t /\ owned s t.

(** The fields of a thread waiting is about. *)
Definition links (t : KTHREAD) := (OwnerProcess t, WaitQueueNext t).

Record same_links (s s' : ps_state) : Prop := {
  sl_processes : gPsProcessPool s' = gPsProcessPool s;
  sl_links : forall i, links <$> gPsThreadPool s' !! i = links <$> gPsThreadPool s !! i }.

Record ports_ok (w : kernel) : Prop := {
  pk_ready : gLpcReady (k_lpc w) = true;
  pk_type : is_Some (gLpcPortType (k_lpc w));
  pk_wf : forall j p, gLpcPortPool (k_lpc w) !! j = Some p -> gLpcPortInUse (k_lpc w) !! j = Some true ->
    PortHeader p <> None -> port_wf (MessagePort p);
  pk_wait : forall j p t, gLpcPortPool (k_lpc w) !! j = Some p -> WaitHead p = Some t \/ WaitTail p = Some t ->
    waiter (k_ps w) t;
  pk_next : forall i x t, gPsThreadPool (k_ps w) !! i = Some x -> WaitQueueNext x = Some t -> waiter (k_ps w) t }.

(** The invariant of the scheduler and the ports. *)
Record wait_inv (w : kernel) (q : list nat) (cur : option nat) : Prop := {
  wi_sched : sched_inv (k_ps w) (mm (k_mm w)) q cur;
  wi_ports : ports_ok w }.

(** The invariant of the components a message passes through. *)
Record lpc_inv (ext : nat -> Z) (w : kernel) (q : list nat) (cur : option nat) : Prop := {
  li_ob : ob_inv (k_ob w) ext;
  li_small : counts_small (k_ob w);
  li_wait : wait_inv w q cur }.

Lemma waiter_mono s s' i : gPsProcessPool s' = gPsProcessPool s ->
  (forall t, gPsThreadPool s !! i = Some t -> exists t', gPsThreadPool s' !! i = Some t' /\ OwnerProcess t' = OwnerProcess t) ->
  waiter s i -> waiter s' i.
Proof.
  intros Ep Et (t & Ht & p & Hp & Hr). destruct (Et t Ht) as (t' & Ht' & Eo). exists t'. split; [done|].
  exists p. by rewrite Eo, Ep.
Qed.

Lemma same_links_waiter s s' i : same_links s s' -> waiter s i -> waiter s' i.
Proof.
  intros [Ep El]. apply waiter_mono; [done|]. intros t Ht. specialize (El i). rewrite Ht in El.
  destruct (gPsThreadPool s' !! i) as [t'|]; [|done]. exists t'. split; [done|]. by injection El.
Qed.

(** A scheduler step that keeps the links keeps the ports. *)
Lemma ports_ok_links w s : ports_ok w -> same_links (k_ps w) s -> ports_ok (set_k_ps s w).
Proof.
  intros [R T Wf Wt Nx] L. constructor; try done.
  - intros j p t Hp Ht. by eapply same_links_waiter, Wt.
  - intros i x t Hx Ht. cbn in Hx. pose proof (sl_links _ _ L i) as E. rewrite Hx in E.
    destruct (gPsThreadPool (k_ps w) !! i) as [y|] eqn:Hy; [|done]. injection E as Eo Ew.
    eapply same_links_waiter; [done|]. apply (Nx i y); [done|congruence].
Qed.

(** Only [WaitQueueNext] changes. *)
Lemma sched_inv_wait s m q cur i t n : sched_inv s m q cur -> gPsThreadPool s !! i = Some t ->
  sched_inv (upd_thread i (set_WaitQueueNext n t) s) m q cur.
Proof.
  intros [[Q R C SQ SR SO] Rn Sp] Ht. assert (L : (i < length (gPsThreadPool s))%nat) by (by eapply lookup_lt_Some).
  assert (K : forall j u, gPsThreadPool s !! j = Some u -> exists v, gPsThreadPool (upd_thread i (set_WaitQueueNext n t) s) !! j = Some v /\
    State v = State u /\ OwnerProcess v = OwnerProcess u).
  { intros j u Hu. rewrite upd_thread_lookup by done. destruct (decide (i = j)) as [<-|]; [|by exists u].
    eexists. split; [done|]. assert (u = t) as -> by congruence. done. }
  constructor; [constructor; [by eapply queue_ok_upd|done|done| | |]| |done].
  - intros j Hj. destruct (SQ j Hj) as (u & Hu & Su & Ou). destruct (K j u Hu) as (v & Hv & Ev & Eo).
    exists v. split_and!; [done|congruence|]. unfold owned. by rewrite Eo.
  - intros c Hc. destruct (SR c Hc) as (Nc & u & Hu & Su & Ou). destruct (K c u Hu) as (v & Hv & Ev & Eo).
    split; [done|]. exists v. split_and!; [done|by rewrite Ev|]. unfold owned. by rewrite Eo.
  - intros j v. rewrite upd_thread_lookup by done. destruct (decide (i = j)) as [<-|]; [|by apply SO].
    intros [= <-] Sv. by apply (SO i t).
  - intros c Hc. destruct (Rn c Hc) as (u & Hu & Su). destruct (K c u Hu) as (v & Hv & Ev & _).
    exists v. split; [done|congruence].
Qed.

Lemma ports_ok_wait w i t n : ports_ok w -> gPsThreadPool (k_ps w) !! i = Some t ->
  (forall x, n = Some x -> waiter (k_ps w) x) ->
  ports_ok (set_k_ps (upd_thread i (set_WaitQueueNext n t) (k_ps w)) w).
Proof.
  intros [R T Wf Wt Nx] Ht Hn. assert (L : (i < length (gPsThreadPool (k_ps w)))%nat) by (by eapply lookup_lt_Some).
  assert (Mono : forall x, waiter (k_ps w) x -> waiter (upd_thread i (set_WaitQueueNext n t) (k_ps w)) x).
  { intros x. apply waiter_mono; [done|]. intros u Hu. rewrite upd_thread_lookup by done.
    destruct (decide (i = x)) as [<-|]; [|by exists u]. eexists. split; [done|]. cbn. congruence. }
  constructor; try done.
  - intros j p x Hp Hx. by apply Mono, (Wt j p).
  - intros j u x. cbn [k_ps set_k_ps]. rewrite upd_thread_lookup by done. destruct (decide (i = j)) as [<-|].
    + intros [= <-] Hx. by apply Mono, Hn.
    + intros Hu Hx. by apply Mono, (Nx j u).
Qed.

(** ** The ports *)

(** The part of a port that messages are about. *)
Definition messages (p : LPC_PORT_OBJECT) := (PortHeader p, MessagePort p).

(** The object's message queue. *)
Definition queue_of (s : lpc_state) (i : nat) : option (list NK_MESSAGE) :=
  j ← LpcpFindPortByHeader (Some i) s; p ← gLpcPortPool s !! j; Some (port_queue (MessagePort p)).

(** The states differ in the wait queues alone. *)
Record same_ports (s s' : lpc_state) : Prop := {
  sp_type : gLpcPortType s' = gLpcPortType s;
  sp_inuse : gLpcPortInUse s' = gLpcPortInUse s;
  sp_pool : forall j, messages <$> gLpcPortPool s' !! j = messages <$> gLpcPortPool s !! j }.

Lemma find_first_eq {A} (f g : A -> bool) (l l' : list A) :
  f <$> l = g <$> l' -> find_first f l = find_first g l'.
Proof.
  revert l'. induction l as [|x l IH]; intros [|y l'] E; try done. cbn in E |- *. injection E as E1 E2.
  rewrite E1. destruct (g y); [done|]. by rewrite (IH l').
Qed.

(** Finding looks at the headers alone. *)
Lemma find_port_headers h s s' : gLpcPortInUse s' = gLpcPortInUse s ->
  (forall j, PortHeader <$> gLpcPortPool s' !! j = PortHeader <$> gLpcPortPool s !! j) ->
  LpcpFindPortByHeader h s' = LpcpFindPortByHeader h s.
Proof.
  intros E1 E2. apply find_first_eq. rewrite E1. apply list_eq. intros j.
  rewrite !list_lookup_fmap, !lookup_zip_with. destruct (gLpcPortInUse s !! j) as [b|]; [|done]. cbn.
  specialize (E2 j). destruct (gLpcPortPool s' !! j) as [p'|], (gLpcPortPool s !! j) as [p|]; try done.
  cbn in E2 |- *. by injection E2 as ->.
Qed.

Lemma find_port_spec i s j : LpcpFindPortByHeader (Some i) s = Some j ->
  exists p, gLpcPortPool s !! j = Some p /\ gLpcPortInUse s !! j = Some true /\ PortHeader p = Some i.
Proof.
  intros E. apply find_first_Some in E as [([b p] & Hx & Hb) _].
  apply lookup_zip_with_Some in Hx as (b' & p' & [= -> ->] & Hb' & Hp').
  cbn in Hb. destruct b'; [|done]. apply bool_decide_eq_true in Hb. by exists p'.
Qed.

Lemma same_ports_headers s s' : same_ports s s' ->
  forall j, PortHeader <$> gLpcPortPool s' !! j = PortHeader <$> gLpcPortPool s !! j.
Proof.
  intros [_ _ E] j. specialize (E j). destruct (gLpcPortPool s' !! j), (gLpcPortPool s !! j); try done.
  cbn in E |- *. by injection E as ->.
Qed.

Lemma same_ports_queue s s' i : same_ports s s' -> queue_of s' i = queue_of s i.
Proof.
  intros Sp. unfold queue_of. rewrite (find_port_headers _ s s') by (apply Sp || by apply same_ports_headers).
  destruct (LpcpFindPortByHeader (Some i) s) as [j|]; [|done]. cbn. pose proof (sp_pool _ _ Sp j) as E.
  destruct (gLpcPortPool s' !! j), (gLpcPortPool s !! j); try done. cbn in E |- *. by injection E as _ ->.
Qed.

Lemma update_port_ok s j p f : gLpcPortPool s !! j = Some p ->
  update_port j f s = Ret tt (set_ports (<[j := f p]> (gLpcPortPool s)) (gLpcPortInUse s) s).
Proof. intros Hp. unfold update_port. by erewrite (bind_eq (get_port j)) by (by apply load_at_ok). Qed.

(** Changing a port's queue of threads. *)
Lemma same_ports_waiters s j p h t : gLpcPortPool s !! j = Some p ->
  same_ports s (set_ports (<[j := set_waiters h t p]> (gLpcPortPool s)) (gLpcPortInUse s) s).
Proof.
  intros Hp. constructor; [done|done|]. intros k. cbn. destruct (decide (j = k)) as [<-|N].
  - rewrite list_lookup_insert_eq by (by eapply lookup_lt_Some). by rewrite Hp.
  - by rewrite list_lookup_insert_ne.
Qed.

Lemma ports_ok_waiters w j p h t : ports_ok w -> gLpcPortPool (k_lpc w) !! j = Some p ->
  (forall x, h = Some x \/ t = Some x -> waiter (k_ps w) x) ->
  ports_ok (set_k_lpc (set_ports (<[j := set_waiters h t p]> (gLpcPortPool (k_lpc w))) (gLpcPortInUse (k_lpc w)) (k_lpc w)) w).
Proof.
  intros [R T Wf Wt Nx] Hp Hx. assert (L : (j < length (gLpcPortPool (k_lpc w)))%nat) by (by eapply lookup_lt_Some).
  constructor; try done; cbn.
  - intros k u. destruct (decide (j = k)) as [<-|N]; [|rewrite list_lookup_insert_ne by done; apply Wf].
    rewrite list_lookup_insert_eq by done. intros [= <-]. exact (Wf j p Hp).
  - intros k u x. destruct (decide (j = k)) as [<-|N]; [|rewrite list_lookup_insert_ne by done; apply Wt].
    rewrite list_lookup_insert_eq by done. intros [= <-]. apply Hx.
Qed.

Lemma same_ports_refl s : same_ports s s.
Proof. done. Qed.
Lemma same_ports_trans s1 s2 s3 : same_ports s1 s2 -> same_ports s2 s3 -> same_ports s1 s3.
Proof. intros [A B C] [A' B' C']. constructor; [congruence|congruence|]. intros j. by rewrite C'. Qed.

(** What changing wait queues keeps. *)
Record waits_only (w w' : kernel) : Prop := {
  wo_ob : k_ob w' = k_ob w;
  wo_mm : k_mm w' = k_mm w;
  wo_ports : same_ports (k_lpc w) (k_lpc w');
  wo_links : gPsProcessPool (k_ps w') = gPsProcessPool (k_ps w);
  wo_states : forall i, (fun t => (State t, OwnerProcess t)) <$> gPsThreadPool (k_ps w') !! i
                      = (fun t => (State t, OwnerProcess t)) <$> gPsThreadPool (k_ps w) !! i }.

Lemma waits_only_trans w1 w2 w3 : waits_only w1 w2 -> waits_only w2 w3 -> waits_only w1 w3.
Proof.
  intros [A B C D E] [A' B' C' D' E']. constructor; [congruence|congruence|by eapply same_ports_trans|congruence|].
  intros i. by rewrite E'.
Qed.

Lemma waits_only_waiter w w' i : waits_only w w' -> waiter (k_ps w) i -> waiter (k_ps w') i.
Proof.
  intros [_ _ _ Ep E]. apply waiter_mono; [done|]. intros t Ht. specialize (E i). rewrite Ht in E.
  destruct (gPsThreadPool (k_ps w') !! i) as [t'|]; [|done]. exists t'. split; [done|]. by injection E.
Qed.

Lemma waits_only_inv w w' q cur : waits_only w w' ->
  sched_inv (k_ps w') (mm (k_mm w)) q cur -> ports_ok w' -> wait_inv w' q cur.
Proof. intros [_ F _ _ _] S P. constructor; [by rewrite F|done]. Qed.

(** The two steps every change of a wait queue consists of. *)
Lemma thread_waits w q cur i n : wait_inv w q cur -> waiter (k_ps w) i -> (forall x, n = Some x -> waiter (k_ps w) x) ->
  exists w', ps (update_thread i (set_WaitQueueNext n)) w = Ret tt w' /\ wait_inv w' q cur /\ waits_only w w' /\
    k_lpc w' = k_lpc w.
Proof.
  intros I (t & Ht & Ot) Hn. eexists. split; [by apply ps_Ret, update_thread_ok|]. cbn [ps_put ps_get kernel_ps].
  fold (upd_thread i (set_WaitQueueNext n t) (k_ps w)).
  assert (L : (i < length (gPsThreadPool (k_ps w)))%nat) by (by eapply lookup_lt_Some).
  assert (Wo : waits_only w (set_k_ps (upd_thread i (set_WaitQueueNext n t) (k_ps w)) w)).
  { constructor; try done. intros j. cbn [k_ps set_k_ps]. rewrite upd_thread_lookup by done.
    destruct (decide (i = j)) as [<-|]; [by rewrite Ht|done]. }
  split; [|by split]. apply (waits_only_inv w); [done| |].
  - apply sched_inv_wait; [apply I|done].
  - apply ports_ok_wait; [apply I|done|done].
Qed.

Lemma port_waits w q cur j p h t : wait_inv w q cur -> gLpcPortPool (k_lpc w) !! j = Some p ->
  (forall x, h = Some x \/ t = Some x -> waiter (k_ps w) x) ->
  exists w', lpc (update_port j (set_waiters h t)) w = Ret tt w' /\ wait_inv w' q cur /\ waits_only w w' /\
    k_ps w' = k_ps w.
Proof.
  intros I Hp Hx. eexists. split; [by apply lpc_Ret, update_port_ok|].
  match goal with |- wait_inv ?x _ _ /\ _ => assert (Wo : waits_only w x) end.
  { constructor; try done. by apply same_ports_waiters. }
  split; [|by split]. apply (waits_only_inv w); [done|apply I|].
  apply ports_ok_waiters; [apply I|done|done].
Qed.

Lemma get_port_ok {B} (w : kernel) j p (k : _ -> M kernel B) : gLpcPortPool (k_lpc w) !! j = Some p ->
  bind (lpc (get_port j)) k w = k p w.
Proof. intros Hp. erewrite bind_lpc by (by apply load_at_ok). by destruct w. Qed.

Lemma get_thread_kernel {B} (w : kernel) i t (k : _ -> M kernel B) : gPsThreadPool (k_ps w) !! i = Some t ->
  bind (ps (get_thread i)) k w = k t w.
Proof. intros Ht. erewrite (bind_eq (ps _)) by (apply ps_Ret; by apply get_thread_ok). by destruct w. Qed.

Lemma enqueue_waiter_spec w q cur j p c : wait_inv w q cur -> gLpcPortPool (k_lpc w) !! j = Some p ->
  waiter (k_ps w) c ->
  exists w', LpcpEnqueueWaiter (Some j) (Some c) w = Ret tt w' /\ wait_inv w' q cur /\ waits_only w w'.
Proof.
  intros I Hp Wc. unfold LpcpEnqueueWaiter.
  destruct (thread_waits w q cur c None I Wc ltac:(done)) as (w1 & E1 & I1 & O1 & L1).
  rewrite (bind_eq _ _ _ _ _ E1). assert (Hp1 : gLpcPortPool (k_lpc w1) !! j = Some p) by (by rewrite L1).
  rewrite (get_port_ok _ _ _ _ Hp1). pose proof (waits_only_waiter _ _ _ O1 Wc) as Wc1.
  destruct (WaitTail p) as [tail|] eqn:Et.
  - destruct (thread_waits w1 q cur tail (Some c) I1) as (w2 & E2 & I2 & O2 & L2).
    { eapply (pk_wait _ (wi_ports _ _ _ I1) j p); auto. } { by intros x [= <-]. }
    rewrite (bind_eq _ _ _ _ _ E2). assert (Hp2 : gLpcPortPool (k_lpc w2) !! j = Some p) by (by rewrite L2).
    destruct (port_waits w2 q cur j p (WaitHead p) (Some c) I2 Hp2) as (w3 & E3 & I3 & O3 & _).
    { intros x [Hx|[= <-]]; [by eapply (pk_wait _ (wi_ports _ _ _ I2) j p); auto|].
      by eapply waits_only_waiter. }
    exists w3. split; [|split; [done|]].
    + revert E3. unfold lpc, zoom. cbn [lpc_get kernel_lpc]. by rewrite !(update_port_ok _ _ _ _ Hp2).
    + by eapply waits_only_trans, waits_only_trans.
  - destruct (port_waits w1 q cur j p (Some c) (Some c) I1 Hp1) as (w2 & E2 & I2 & O2 & _).
    { by intros x [[= <-]|[= <-]]. }
    exists w2. split; [done|]. split; [done|]. by eapply waits_only_trans.
Qed.

Lemma dequeue_waiter_spec w q cur j p : wait_inv w q cur -> gLpcPortPool (k_lpc w) !! j = Some p ->
  exists w', LpcpDequeueWaiter (Some j) w = Ret (WaitHead p) w' /\ wait_inv w' q cur /\ waits_only w w' /\
    (forall t, WaitHead p = Some t -> waiter (k_ps w') t).
Proof.
  intros I Hp. unfold LpcpDequeueWaiter. rewrite (get_port_ok _ _ _ _ Hp).
  destruct (WaitHead p) as [t|] eqn:Eh; [|by exists w].
  assert (Wt : waiter (k_ps w) t) by (eapply (pk_wait _ (wi_ports _ _ _ I) j p); auto).
  destruct Wt as (x & Hx & Ox). rewrite (get_thread_kernel _ _ _ _ Hx).
  destruct (port_waits w q cur j p (WaitQueueNext x) (match WaitQueueNext x with None => None | Some _ => WaitTail p end)
    I Hp) as (w1 & E1 & I1 & O1 & L1).
  { intros y [Hy|Hy]; [by eapply (pk_next _ (wi_ports _ _ _ I) t x)|].
    destruct (WaitQueueNext x); [|done]. eapply (pk_wait _ (wi_ports _ _ _ I) j p); auto. }
  rewrite (bind_eq _ _ _ _ _ E1).
  assert (Wt : waiter (k_ps w1) t) by (rewrite L1; by exists x).
  destruct (thread_waits w1 q cur t None I1 Wt ltac:(done)) as (w2 & E2 & I2 & O2 & _).
  rewrite (bind_eq _ _ _ _ _ E2). exists w2. split; [done|]. split; [done|].
  split; [by eapply waits_only_trans|]. intros t' [= <-]. by eapply waits_only_waiter.
Qed.

(** ** Opening a port *)

Lemma reference_port_spec ext w q cur h d : lpc_inv ext w q cur ->
  match opens (k_ob w) (gLpcPortType (k_lpc w)) h d with
  | inl st => st <> KSTATUS_SUCCESS /\ exists w', LpcpReferencePortByHandle h d true true w = Ret (st, (None, None)) w' /\
      w' = w
  | inr i => exists o, live (k_ob w) i o /\
      let w1 := set_k_ob (put_object i (set_RefCount o (RefCount o + 1)) (k_ob w)) w in
      match LpcpFindPortByHeader (Some i) (k_lpc w) with
      | None => LpcpReferencePortByHandle h d true true w = Ret (KSTATUS_NOT_FOUND, (None, None)) w
      | Some j => LpcpReferencePortByHandle h d true true w = Ret (KSTATUS_SUCCESS, (Some i, Some j)) w1
      end
  end.
Proof.
  intros [I Cs [_ P]]. pose proof (opens_spec (k_ob w) ext (gLpcPortType (k_lpc w)) h d I Cs) as O.
  unfold LpcpReferencePortByHandle. cbn [negb orb]. rewrite !bind_gets. cbn [ob_get kernel_ob lpc_get kernel_lpc].
  unfold ObGetKernelHandleTable. rewrite (oi_ready _ _ I), (bool_decide_eq_true_2 _ (pk_type _ P)). cbn [negb orb].
  destruct (opens _ _ _ _) as [st|i].
  - destruct O as [Ns E]. split; [done|]. exists w. split; [|done].
    rewrite (bind_ob _ _ _ _ _ E). unfold ok. destruct (Z.eqb_spec st KSTATUS_SUCCESS); [done|].
    cbn [negb]. by destruct w.
  - destruct O as (o & L & E). exists o. split; [done|].
    set (w1 := set_k_ob (put_object i (set_RefCount o (RefCount o + 1)) (k_ob w)) w) in *.
    destruct (LpcpFindPortByHeader (Some i) (k_lpc w)) as [j|] eqn:F;
      rewrite (bind_ob _ _ _ _ _ E); fold w1; change (ok KSTATUS_SUCCESS) with true; cbn [negb];
      rewrite bind_gets; change (k_lpc w1) with (k_lpc w); rewrite F; [done|].
    rewrite (bind_eq _ _ _ _ _ (release_opened ext i o w1 w I L eq_refl)). by destruct w.
Qed.

(** Replacing the messages of one port. *)
Definition port_with (s : lpc_state) (j : nat) (p : LPC_PORT_OBJECT) (m : NK_PORT) : lpc_state :=
  set_ports (<[j := set_MessagePort m p]> (gLpcPortPool s)) (gLpcPortInUse s) s.

Lemma port_with_inv w q cur j p m : wait_inv w q cur -> gLpcPortPool (k_lpc w) !! j = Some p -> port_wf m ->
  wait_inv (set_k_lpc (port_with (k_lpc w) j p m) w) q cur.
Proof.
  intros [S [R T Wf Wt Nx]] Hp Hm. assert (L : (j < length (gLpcPortPool (k_lpc w)))%nat) by (by eapply lookup_lt_Some).
  constructor; [done|]. constructor; [done|done| | |done]; cbn.
  - intros k u. destruct (decide (j = k)) as [<-|N]; [|rewrite list_lookup_insert_ne by done; apply Wf].
    rewrite list_lookup_insert_eq by done. by intros [= <-].
  - intros k u x. destruct (decide (j = k)) as [<-|N]; [|rewrite list_lookup_insert_ne by done; apply Wt].
    rewrite list_lookup_insert_eq by done. intros [= <-]. exact (Wt j p x Hp).
Qed.

Lemma port_with_queue s j p m i0 : LpcpFindPortByHeader (Some i0) s = Some j -> gLpcPortPool s !! j = Some p ->
  forall i, queue_of (port_with s j p m) i = if decide (i = i0) then Some (port_queue m) else queue_of s i.
Proof.
  intros F Hp i. assert (L : (j < length (gLpcPortPool s))%nat) by (by eapply lookup_lt_Some).
  unfold queue_of. rewrite (find_port_headers _ s (port_with s j p m)); [|done|].
  2: { intros k. cbn. destruct (decide (j = k)) as [<-|]; [by rewrite list_lookup_insert_eq, Hp|by rewrite list_lookup_insert_ne]. }
  destruct (decide (i = i0)) as [->|N].
  - rewrite F. cbn. by rewrite list_lookup_insert_eq.
  - destruct (LpcpFindPortByHeader (Some i) s) as [k|] eqn:Fk; [|done]. cbn.
    rewrite list_lookup_insert_ne; [done|]. intros <-.
    destruct (find_port_spec _ _ _ F) as (u & Hu & _ & Eu). destruct (find_port_spec _ _ _ Fk) as (v & Hv & _ & Ev).
    congruence.
Qed.

Lemma queue_of_find s i0 j p : LpcpFindPortByHeader (Some i0) s = Some j -> gLpcPortPool s !! j = Some p ->
  queue_of s i0 = Some (port_queue (MessagePort p)).
Proof. intros F Hp. unfold queue_of. rewrite F. cbn. by rewrite Hp. Qed.

Lemma queue_of_none s i0 : LpcpFindPortByHeader (Some i0) s = None -> queue_of s i0 = None.
Proof. intros F. unfold queue_of. by rewrite F. Qed.

(** The invariants speak of components alone. *)
Lemma wait_inv_ext w w' q cur : wait_inv w q cur -> k_lpc w' = k_lpc w -> k_ps w' = k_ps w ->
  mm (k_mm w') = mm (k_mm w) -> wait_inv w' q cur.
Proof.
  intros [A [D E F G H]] E1 E2 E3. constructor; [by rewrite E2, E3|]. constructor; rewrite ?E1, ?E2; done.
Qed.

Lemma lpc_inv_intro ext w w' q cur : ob_inv (k_ob w) ext -> counts_small (k_ob w) -> k_ob w' = k_ob w ->
  wait_inv w' q cur -> lpc_inv ext w' q cur.
Proof. intros I C E Wi. constructor; [by rewrite E|by rewrite E|done]. Qed.

(** ** The abstract ports

    Everybody who can open a port shares its queue. *)

Inductive lpc_op := LSend (h : Z) (m : NK_MESSAGE) | LReceive (h : Z).

(** [resolve]: the object a handle opens; [Q]: the queues by object. *)
Definition ports_step (resolve : Z -> Z -> KSTATUS + nat) (Q : nat -> option (list NK_MESSAGE)) (o : lpc_op)
  : KSTATUS * option NK_MESSAGE * (nat -> option (list NK_MESSAGE)) :=
  let put i l := fun k => if decide (k = i) then Some l else Q k in
  match o with
  | LSend h m =>
      match resolve h LPC_PORT_ACCESS_SEND with
      | inl st => (st, None, Q)
      | inr i =>
          match Q i with
          | None => (KSTATUS_NOT_FOUND, None, Q)
          | Some l => if (Length m <=? 64) && (length l <? 32)%nat then (KSTATUS_SUCCESS, None, put i (l ++ [m]))
                      else (KSTATUS_WOULD_BLOCK, None, Q)
          end
      end
  | LReceive h =>
      match resolve h LPC_PORT_ACCESS_RECV with
      | inl st => (st, None, Q)
      | inr i =>
          match Q i with
          | None => (KSTATUS_NOT_FOUND, None, Q)
          | Some [] => (KSTATUS_WOULD_BLOCK, None, Q)
          | Some (m :: l) => (KSTATUS_SUCCESS, Some m, put i l)
          end
      end
  end.

Fixpoint ports_run (resolve : Z -> Z -> KSTATUS + nat) (Q : nat -> option (list NK_MESSAGE)) (ops : list lpc_op)
  : list (KSTATUS * option NK_MESSAGE) * (nat -> option (list NK_MESSAGE)) :=
  match ops with
  | [] => ([], Q)
  | o :: ops =>
      let '(st, m, Q1) := ports_step resolve Q o in
      let '(rs, Q2) := ports_run resolve Q1 ops in ((st, m) :: rs, Q2)
  end.

(** The operations of the code; receiving without waiting. *)
Definition lpc_exec (o : lpc_op) : M kernel (KSTATUS * option NK_MESSAGE) :=
  match o with
  | LSend h m => Status <- LpcSendByHandle h (Some m) 0 ;; ret (Status, None)
  | LReceive h => LpcReceiveByHandle h true 0
  end.
Fixpoint lpc_run (ops : list lpc_op) : M kernel (list (KSTATUS * option NK_MESSAGE)) :=
  match ops with
  | [] => ret []
  | o :: ops => r <- lpc_exec o ;; rs <- lpc_run ops ;; ret (r :: rs)
  end.

(** The resolution of handles in a state. *)
Abbreviation resolve w := (opens (k_ob w) (gLpcPortType (k_lpc w))).

(** What an operation keeps. *)
Record lpc_kept (w w' : kernel) : Prop := {
  lk_ob : k_ob w' = k_ob w;
  lk_type : gLpcPortType (k_lpc w') = gLpcPortType (k_lpc w);
  lk_mm : k_mm w' = k_mm w;
  lk_io : k_io w' = k_io w }.

(** The wake-up after a send. *)
Lemma wake_waiter w q cur t : wait_inv w q cur -> waiter (k_ps w) t ->
  exists w' q', ps (PsWakeThread (Some t)) w = Ret tt w' /\ wait_inv w' q' cur /\
    (exists s, w' = set_k_ps s w) /\ q' = (if blocked (k_ps w) t then q ++ [t] else q).
Proof.
  intros [[S Rn Sp] P] (x & Hx & Ox). destruct (wake_spec _ _ _ _ _ S Hx Ox) as (s & E & S' & R' & Rn' & Th).
  exists (set_k_ps s w), (if blocked (k_ps w) t then q ++ [t] else q).
  split; [exact (ps_Ret (W := kernel) _ w _ _ E)|].
  destruct (rest_fields _ _ R') as (Fp & _).
  split; [|split; [by exists s|done]]. constructor.
  - constructor; [done| |by eapply spaces_ok_processes]. intros c Hc. apply Rn'; [done|by apply Rn].
  - apply ports_ok_links; [done|]. constructor; [done|]. intros i. specialize (Th i).
    destruct (gPsThreadPool s !! i) as [a|], (gPsThreadPool (k_ps w) !! i) as [b|]; try done. cbn in Th |- *.
    assert (core a = core (if blocked (k_ps w) t && bool_decide (i = t) then set_State PsThreadReady b else b)) as C
      by congruence. apply (f_equal (fun y => (OwnerProcess y, WaitQueueNext y))) in C. cbn in C.
    unfold links. destruct (_ && _); cbn in C; congruence.
Qed.

Definition wake_one (Waiter : option nat) : M kernel unit :=
  match Waiter with None => ret tt | Some t => ps (PsWakeThread (Some t)) end.

Lemma wake_next w q cur j p : wait_inv w q cur -> gLpcPortPool (k_lpc w) !! j = Some p ->
  exists w' q', bind (LpcpDequeueWaiter (Some j)) wake_one w = Ret tt w' /\
    wait_inv w' q' cur /\ same_ports (k_lpc w) (k_lpc w') /\ lpc_kept w w' /\
    (q' = q \/ exists t, q' = q ++ [t] /\ blocked (k_ps w) t = true).
Proof.
  intros I Hp. destruct (dequeue_waiter_spec w q cur j p I Hp) as (w1 & E1 & I1 & O1 & Wt).
  assert (Fr : k_io w1 = k_io w).
  { assert (frame k_io (LpcpDequeueWaiter (W := kernel) (Some j))) as F
      by (unfold LpcpDequeueWaiter, lpc, ps; frames). by apply (F w _ w1 E1). }
  rewrite (bind_eq _ _ _ _ _ E1). unfold wake_one. destruct (WaitHead p) as [t|] eqn:Eh.
  - destruct (wake_waiter w1 q cur t I1 (Wt t eq_refl)) as (w2 & q' & E2 & I2 & [s ->] & Eq).
    exists (set_k_ps s w1), q'. split_and!; [done|done|apply O1| |].
    + constructor; [apply O1|apply O1|apply O1|done].
    + destruct (blocked (k_ps w1) t) eqn:B; [right; exists t; split; [done|]|by left].
      rewrite <- B. unfold blocked. pose proof (wo_states _ _ O1 t) as Es.
      destruct (gPsThreadPool (k_ps w1) !! t) as [a|], (gPsThreadPool (k_ps w) !! t) as [b|]; try done.
      injection Es as Es _. by rewrite Es.
  - exists w1, q. split_and!; [done|done|apply O1| |by left]. constructor; [apply O1|apply O1|apply O1|done].
Qed.

Lemma bind_cli {B} (w : kernel) (k : unit -> M kernel B) : bind HalDisableInterrupts k w = k tt (set_k_if false w).
Proof. reflexivity. Qed.
Lemma bind_sti {B} (w : kernel) (k : unit -> M kernel B) : bind HalEnableInterrupts k w = k tt (set_k_if true w).
Proof. reflexivity. Qed.

(** The port an opened handle names. *)
Lemma port_of w q cur i j : wait_inv w q cur -> LpcpFindPortByHeader (Some i) (k_lpc w) = Some j ->
  exists p, gLpcPortPool (k_lpc w) !! j = Some p /\ port_wf (MessagePort p) /\
    queue_of (k_lpc w) i = Some (port_queue (MessagePort p)) /\
    (forall k, queue_of (port_with (k_lpc w) j p (MessagePort p)) k = queue_of (k_lpc w) k).
Proof.
  intros [_ P] F. destruct (find_port_spec _ _ _ F) as (p & Hp & Hu & Eh). exists p.
  assert (Q : queue_of (k_lpc w) i = Some (port_queue (MessagePort p))) by by apply (queue_of_find _ _ j).
  split_and!; [done|by apply (pk_wf _ P j); [..|congruence]|done|]. intros k.
  rewrite (port_with_queue _ _ _ _ _ F Hp). by destruct (decide (k = i)) as [->|].
Qed.

Lemma send_refines ext w q cur h m wait : lpc_inv ext w q cur ->
  exists st w' q', LpcSendByHandle h (Some m) wait w = Ret st w' /\ lpc_inv ext w' q' cur /\ lpc_kept w w' /\
    (q' = q \/ exists t, q' = q ++ [t] /\ blocked (k_ps w) t = true) /\
    let '(st', _, Q') := ports_step (resolve w) (queue_of (k_lpc w)) (LSend h m) in
    st = st' /\ forall i, queue_of (k_lpc w') i = Q' i.
Proof.
  intros I. pose proof (reference_port_spec ext w q cur h LPC_PORT_ACCESS_SEND I) as R. cbn [ports_step].
  pose proof I as [Io Cs Wi]. unfold LpcSendByHandle. rewrite bind_gets. change (lpc_get w) with (k_lpc w).
  rewrite (pk_ready _ (wi_ports _ _ _ Wi)). cbn [negb].
  destruct (resolve w h LPC_PORT_ACCESS_SEND) as [st|i] eqn:Er.
  { destruct R as (Ns & ? & E & ->). rewrite (bind_eq _ _ _ _ _ E). unfold ok.
    destruct (Z.eqb_spec st KSTATUS_SUCCESS); [done|]. cbn [negb]. exists st, w, q. split_and!; [done|done|done|by left|done|done]. }
  destruct R as (o & L & R). destruct (LpcpFindPortByHeader (Some i) (k_lpc w)) as [j|] eqn:F.
  2: { rewrite (bind_eq _ _ _ _ _ R). rewrite (queue_of_none _ _ F).
       exists KSTATUS_NOT_FOUND, w, q. split_and!; [done|done|done|by left|done|done]. }
  rewrite (bind_eq _ _ _ _ _ R). change (ok KSTATUS_SUCCESS) with true. cbn [negb]. rewrite bind_deref, bind_cli.
  destruct (port_of w q cur i j Wi F) as (p & Hp & Wf & Eq & Same). rewrite Eq. set (w1 := set_k_if false _).
  rewrite (get_port_ok w1 j p) by done.
  destruct (NkPortSend_spec (MessagePort p) m (k_lpc w1) Wf) as (st & p' & E & Wf' & D).
  rewrite (bind_lpc _ _ _ _ _ E). cbn [default].
  erewrite (bind_lpc (update_port j _)) by (by apply update_port_ok).
  fold (port_with (k_lpc w) j p p'). set (w2 := set_k_lpc _ _).
  assert (I2 : wait_inv w2 q cur).
  { apply (wait_inv_ext (set_k_lpc (port_with (k_lpc w) j p p') w)); [by apply port_with_inv|done..]. }
  assert (Out : forall v, k_ob v = k_ob w2 -> ObDereferenceObject (Some i) v = Ret KSTATUS_SUCCESS (set_k_ob (k_ob w) v))
    by (intros v Hv; by eapply (release_opened ext i o)).
  destruct (ok st) eqn:Eok.
  - assert (st = KSTATUS_SUCCESS) as -> by by apply Z.eqb_eq.
    destruct D as [(D & _)|[(D & _)|(_ & Hl & Hf & Eq')]]; [done..|].
    destruct (wake_next w2 q cur j (set_MessagePort p' p) I2) as (w3 & q' & E3 & I3 & S3 & K3 & Eq3).
    { cbn. apply list_lookup_insert_eq. by eapply lookup_lt_Some. }
    rewrite <- (bind_assoc (LpcpDequeueWaiter (Some j)) wake_one), (bind_eq _ _ _ _ _ E3), bind_sti.
    erewrite bind_eq by (apply Out; apply K3).
    destruct (Z.leb_spec (Length m) 64), (Nat.ltb_spec (length (port_queue (MessagePort p))) 32); try lia.
    do 3 eexists. split; [reflexivity|]. split.
    { apply (lpc_inv_intro ext w); [done|done|done|]. by apply (wait_inv_ext w3). }
    destruct K3 as [Ko Kt Km Ki]. split; [by constructor|]. split; [done|]. split; [done|].
    intros k. change (queue_of (k_lpc w3) k = if decide (k = i) then Some (port_queue (MessagePort p) ++ [m]) else queue_of (k_lpc w) k).
    rewrite (same_ports_queue _ _ k S3). change (k_lpc w2) with (port_with (k_lpc w) j p p').
    by rewrite (port_with_queue _ _ _ _ _ F Hp), Eq'.
  - rewrite bind_sti. erewrite bind_eq by (by apply Out).
    assert (p' = MessagePort p /\ (Length m <=? 64) && (length (port_queue (MessagePort p)) <? 32)%nat = false) as [-> ->].
    { destruct D as [(-> & Hl & ->)|[(-> & Hl & Hf & ->)|(-> & _)]]; [| |done]; (split; [done|]).
      - destruct (Z.leb_spec (Length m) 64); [lia|done].
      - rewrite Hf. apply andb_false_r. }
    do 3 eexists. split; [reflexivity|]. split; [|split; [done|split; [by left|split; [done|exact Same]]]].
    apply (lpc_inv_intro ext w); [done|done|done|]. by apply (wait_inv_ext w2).
Qed.

(** One turn of the receiver's loop, up to the point where it blocks. *)
Lemma receive_turn ext w q cur h wait c fuel : lpc_inv ext w q cur -> waiter (k_ps w) c ->
  match resolve w h LPC_PORT_ACCESS_RECV with
  | inl st => receive_loop (S fuel) h wait c w = Ret (st, None) w
  | inr i =>
      match queue_of (k_lpc w) i with
      | None => receive_loop (S fuel) h wait c w = Ret (KSTATUS_NOT_FOUND, None) w
      | Some [] =>
          exists w', lpc_inv ext w' q cur /\ waits_only w w' /\ k_io w' = k_io w /\
            receive_loop (S fuel) h wait c w =
              (if wait =? 0 then ret (KSTATUS_WOULD_BLOCK, None)
               else Status <- PsBlockCurrentThread ;;
                    if negb (ok Status) then ret (Status, None) else receive_loop fuel h wait c) w'
      | Some (m :: l) =>
          exists w', receive_loop (S fuel) h wait c w = Ret (KSTATUS_SUCCESS, Some m) w' /\
            lpc_inv ext w' q cur /\ lpc_kept w w' /\
            forall k, queue_of (k_lpc w') k = if decide (k = i) then Some l else queue_of (k_lpc w) k
      end
  end.
Proof.
  intros I Wc. pose proof (reference_port_spec ext w q cur h LPC_PORT_ACCESS_RECV I) as R.
  pose proof I as [Io Cs Wi]. cbn [receive_loop]. destruct (resolve w h LPC_PORT_ACCESS_RECV) as [st|i] eqn:Er.
  { destruct R as (Ns & ? & E & ->). rewrite (bind_eq _ _ _ _ _ E). unfold ok. by destruct (Z.eqb_spec st KSTATUS_SUCCESS). }
  destruct R as (o & L & R). destruct (LpcpFindPortByHeader (Some i) (k_lpc w)) as [j|] eqn:F.
  2: { rewrite (bind_eq _ _ _ _ _ R). by rewrite (queue_of_none _ _ F). }
  rewrite (bind_eq _ _ _ _ _ R). change (ok KSTATUS_SUCCESS) with true. cbn [negb]. rewrite bind_deref, bind_cli.
  destruct (port_of w q cur i j Wi F) as (p & Hp & Wf & Eq & Same). rewrite Eq. set (w1 := set_k_if false _).
  rewrite (get_port_ok w1 j p) by done.
  destruct (NkPortReceive_spec (MessagePort p) (k_lpc w1) Wf) as (st & p' & mo & E & Wf' & D).
  rewrite (bind_lpc _ _ _ _ _ E). cbn [default].
  erewrite (bind_lpc (update_port j _)) by (by apply update_port_ok).
  fold (port_with (k_lpc w) j p p'). set (w2 := set_k_lpc _ _).
  assert (I2 : wait_inv w2 q cur).
  { apply (wait_inv_ext (set_k_lpc (port_with (k_lpc w) j p p') w)); [by apply port_with_inv|done..]. }
  assert (Out : forall v, k_ob v = k_ob w2 -> ObDereferenceObject (Some i) v = Ret KSTATUS_SUCCESS (set_k_ob (k_ob w) v))
    by (intros v Hv; by eapply (release_opened ext i o)).
  destruct D as [(-> & Hq & -> & ->)|(m & l & -> & Hq & -> & Hq')]; rewrite Hq.
  - change (ok KSTATUS_INIT_FAILED) with false. cbn match. destruct (wait =? 0) eqn:Z0.
    + rewrite bind_sti. erewrite bind_eq by (by apply Out). eexists.
      split; [|split; [|split; [|reflexivity]]]; [|.. |done].
      { apply (lpc_inv_intro ext w); [done|done|done|]. by apply (wait_inv_ext w2). }
      constructor; [done|done| |done|done]. constructor; [done|done|].
      intros k. cbn. destruct (decide (j = k)) as [<-|]; [|by rewrite list_lookup_insert_ne].
      by rewrite list_lookup_insert_eq, Hp by (by eapply lookup_lt_Some).
    + destruct (enqueue_waiter_spec w2 q cur j (set_MessagePort (MessagePort p) p) c I2) as (w3 & E3 & I3 & O3).
      { cbn. apply list_lookup_insert_eq. by eapply lookup_lt_Some. } { done. }
      assert (Fr : k_io w3 = k_io w2).
      { assert (frame k_io (LpcpEnqueueWaiter (W := kernel) (Some j) (Some c))) as Fk
          by (unfold LpcpEnqueueWaiter, lpc, ps; frames). by apply (Fk w2 _ w3 E3). }
      rewrite (bind_eq _ _ _ _ _ E3), bind_sti. erewrite bind_eq by (apply Out; apply O3). eexists.
      split; [|split; [|split; [|reflexivity]]]; [|.. |exact Fr].
      { apply (lpc_inv_intro ext w); [done|done|done|]. by apply (wait_inv_ext w3). }
      destruct O3 as [Oo Om Op Ol Os].
      constructor; [done|done| |done|done]. destruct Op as [A B C]. constructor; [done|done|]. intros k.
      change (messages <$> gLpcPortPool (k_lpc w3) !! k = messages <$> gLpcPortPool (k_lpc w) !! k). rewrite C. cbn.
      destruct (decide (j = k)) as [<-|]; [|by rewrite list_lookup_insert_ne].
      by rewrite list_lookup_insert_eq, Hp by (by eapply lookup_lt_Some).
  - change (ok KSTATUS_SUCCESS) with true. cbn match. rewrite bind_sti. erewrite bind_eq by (by apply Out).
    eexists. split; [reflexivity|]. split.
    { apply (lpc_inv_intro ext w); [done|done|reflexivity|]. by apply (wait_inv_ext w2). }
    split; [done|]. intros k. change (queue_of (port_with (k_lpc w) j p p') k = if decide (k = i) then Some l else queue_of (k_lpc w) k).
    by rewrite (port_with_queue _ _ _ _ _ F Hp), Hq'.
Qed.

(** The current thread exists. *)
Lemma current_waiter w q c : wait_inv w q (Some c) -> waiter (k_ps w) c.
Proof.
  intros [[S _ _] _]. destruct (so_running _ _ _ S c eq_refl) as (_ & t & Ht & _ & Ow). by exists t.
Qed.

Lemma receive_refines ext w q c h : lpc_inv ext w q (Some c) ->
  exists r w', LpcReceiveByHandle h true 0 w = Ret r w' /\ lpc_inv ext w' q (Some c) /\ lpc_kept w w' /\
    let '(st, m, Q') := ports_step (resolve w) (queue_of (k_lpc w)) (LReceive h) in
    r = (st, m) /\ forall i, queue_of (k_lpc w') i = Q' i.
Proof.
  intros I. pose proof I as [Io Cs Wi]. unfold LpcReceiveByHandle. rewrite bind_gets. change (lpc_get w) with (k_lpc w).
  rewrite (pk_ready _ (wi_ports _ _ _ Wi)). cbn [negb orb].
  assert (Ec : ps PsGetCurrentThread w = Ret (Some c) w).
  { unfold ps, zoom, PsGetCurrentThread, gets. cbn. rewrite (so_cur _ _ _ (si_sched _ _ _ _ (wi_sched _ _ _ Wi))).
    by destruct w. }
  rewrite (bind_eq _ _ _ _ _ Ec), bind_gets.
  pose proof (receive_turn ext w q (Some c) h 0 c (length (gPsThreadPool (k_ps w))) I (current_waiter _ _ _ Wi)) as T.
  cbn [ports_step]. change (ps_get w) with (k_ps w).
  destruct (resolve w h LPC_PORT_ACCESS_RECV) as [st|i]; [by exists (st, None), w|].
  destruct (queue_of (k_lpc w) i) as [[|m l]|]; [| |by exists (KSTATUS_NOT_FOUND, None), w].
  - destruct T as (w' & I' & [Oo Om Op _ _] & Ei & E). rewrite E. exists (KSTATUS_WOULD_BLOCK, None), w'.
    split_and!; [done|done|by constructor; [..|apply Op| |]|done|]. intros k. by apply same_ports_queue.
  - destruct T as (w' & E & I' & K & Q). by exists (KSTATUS_SUCCESS, Some m), w'.
Qed.

Lemma ports_run_ext r ops : forall Q Q', (forall i, Q i = Q' i) ->
  (ports_run r Q ops).1 = (ports_run r Q' ops).1 /\ forall i, (ports_run r Q ops).2 i = (ports_run r Q' ops).2 i.
Proof.
  induction ops as [|o ops IH]; intros Q Q' E; [done|]. cbn [ports_run].
  assert (S : let '(st, m, Q1) := ports_step r Q o in let '(st', m', Q1') := ports_step r Q' o in
    st = st' /\ m = m' /\ forall i, Q1 i = Q1' i).
  { destruct o as [h m|h]; cbn [ports_step]; destruct (r h _) as [st|i]; [done| |done|]; rewrite (E i).
    - destruct (Q' i) as [l|]; [|done]. destruct (_ && _); [|done]. split_and!; [done|done|].
      intros k. by destruct (decide (k = i)).
    - destruct (Q' i) as [[|m l]|]; [done| |done]. split_and!; [done|done|]. intros k. by destruct (decide (k = i)). }
  destruct (ports_step r Q o) as [[st m] Q1], (ports_step r Q' o) as [[st' m'] Q1']. destruct S as (-> & -> & S).
  destruct (IH _ _ S) as [A B]. destruct (ports_run r Q1 ops), (ports_run r Q1' ops). cbn in *. by rewrite A.
Qed.

(** ** Waiting *)

(** The current thread is blocked and the next one of the queue, if any, made the
    current one; the ports are as before. *)
Lemma block_spec ext w q c : lpc_inv ext w q (Some c) ->
  exists w', (let '(st, q', cur') := abs_dispatch q None in PsBlockCurrentThread w = Ret st w' /\ lpc_inv ext w' q' cur') /\
    others w' = others w /\ blocked (k_ps w') c = true /\
    (forall i, waiter (k_ps w) i -> waiter (k_ps w') i) /\
    (forall i, head q <> Some i -> blocked (k_ps w) i = true -> blocked (k_ps w') i = true) /\
    length (gPsThreadPool (k_ps w')) = length (gPsThreadPool (k_ps w)).
Proof.
  intros [Io Cs [Sc P]]. pose proof (leave_threads (W := kernel) w q c PsThreadBlocked) as T.
  destruct (T Sc ltac:(done)) as (w' & X & Em & Ep & T'). clear T. rename T' into T.
  cbn [mm_get kernel_mm ps_get kernel_ps] in Em, Ep, T. exists w'.
  assert (F : others w' = others w).
  { destruct (abs_dispatch q None) as [[st q'] cur']. destruct X as [X _].
    exact (leave_frame PsThreadBlocked w st w' X). }
  assert (Lk : same_links (k_ps w) (k_ps w')).
  { constructor; [done|]. intros i. specialize (T i). unfold left_state, links in *.
    destruct (gPsThreadPool (k_ps w') !! i), (gPsThreadPool (k_ps w) !! i); try done. cbn in T |- *. congruence. }
  assert (P' : ports_ok w').
  { assert (El : k_lpc w' = k_lpc w) by (by injection F). pose proof (ports_ok_links w (k_ps w') P Lk) as [A B C D E].
    constructor; rewrite ?El; done. }
  split; [|split; [done|]].
  { destruct (abs_dispatch q None) as [[st q'] cur']. destruct X as [X S']. split; [done|].
    apply (lpc_inv_intro ext w); [done|done|by injection F|by constructor]. }
  assert (Hc : is_Some (gPsThreadPool (k_ps w) !! c)).
  { destruct (so_running _ _ _ (si_sched _ _ _ _ Sc) c eq_refl) as (_ & t & Ht & _). by exists t. }
  split_and!.
  - unfold blocked. specialize (T c). destruct Hc as [t Ht]. rewrite Ht in T. unfold left_state in T. cbn in T.
    rewrite decide_True in T by done. destruct (gPsThreadPool (k_ps w') !! c) as [v|]; [|done]. cbn in T.
    apply bool_decide_eq_true_2. congruence.
  - intros i. by apply same_links_waiter.
  - intros i Ni. unfold blocked. specialize (T i). unfold left_state in T.
    destruct (gPsThreadPool (k_ps w') !! i) as [v|], (gPsThreadPool (k_ps w) !! i) as [u|]; try done. cbn in T.
    intros B%bool_decide_eq_true. apply bool_decide_eq_true_2. rewrite (decide_False (P := head q = Some i)) in T by done.
    destruct (decide (i = c)); congruence.
  - apply (f_equal length) in Ep. pose proof (fun i => f_equal (fun o => bool_decide (is_Some o)) (T i)) as Tl.
    apply Nat.le_antisymm; apply Nat.nlt_ge; intros Hl.
    + apply lookup_lt_is_Some in Hl as Hs. specialize (Tl (length (gPsThreadPool (k_ps w)))).
      rewrite (lookup_ge_None_2 (gPsThreadPool (k_ps w))) in Tl by done. by destruct Hs as [v Hv]; rewrite Hv in Tl.
    + apply lookup_lt_is_Some in Hl as Hs. specialize (Tl (length (gPsThreadPool (k_ps w')))).
      rewrite (lookup_ge_None_2 (gPsThreadPool (k_ps w'))) in Tl by done. by destruct Hs as [v Hv]; rewrite Hv in Tl.
Qed.

(** A receiver that waits on an empty port blocks whatever thread is current. *)
Lemma receive_blocks ext h wait i c : wait <> 0 -> forall q w cur fuel, lpc_inv ext w q (Some cur) ->
  waiter (k_ps w) c -> resolve w h LPC_PORT_ACCESS_RECV = inr i -> queue_of (k_lpc w) i = Some [] ->
  (length q < fuel)%nat ->
  exists w', receive_loop fuel h wait c w = Ret (KSTATUS_INIT_FAILED, None) w' /\ lpc_inv ext w' [] None /\
    (forall t, t ∈ cur :: q \/ blocked (k_ps w) t = true -> blocked (k_ps w') t = true) /\
    k_ob w' = k_ob w /\ same_ports (k_lpc w) (k_lpc w').
Proof.
  intros Hw. induction q as [|n q IH]; intros w cur [|fuel] I Wc Er Eq L; cbn in L; try lia.
  all: pose proof (receive_turn ext w _ (Some cur) h wait c fuel I Wc) as T; rewrite Er, Eq in T;
    destruct T as (w1 & I1 & O1 & _ & E); rewrite E; destruct (Z.eqb_spec wait 0); [done|];
    destruct (block_spec ext w1 _ cur I1) as (w2 & X & F & Bc & Wt & Bl & _); cbn [abs_dispatch] in X;
    destruct X as [E2 I2]; rewrite (bind_eq _ _ _ _ _ E2); assert (Fo : k_ob w2 = k_ob w1) by (by injection F); assert (Fl : k_lpc w2 = k_lpc w1) by (by injection F);
    assert (B1 : forall t, blocked (k_ps w1) t = blocked (k_ps w) t) by
      (intros t; unfold blocked; pose proof (wo_states _ _ O1 t) as Es;
       destruct (gPsThreadPool (k_ps w1) !! t), (gPsThreadPool (k_ps w) !! t); try done; cbn in Es; by injection Es as -> _).
  - exists w2. split; [done|]. split; [done|]. split; [|split; [rewrite Fo; apply O1|rewrite Fl; apply O1]].
    intros t [Ht|Ht]; [by apply list_elem_of_singleton in Ht as ->|]. apply Bl; [done|by rewrite B1].
  - change (ok KSTATUS_SUCCESS) with true. cbn [negb option_list] in *. rewrite app_nil_r in I2.
    assert (S2 : same_ports (k_lpc w) (k_lpc w2)) by (rewrite Fl; apply O1).
    assert (Fo' : k_ob w2 = k_ob w) by (rewrite Fo; apply O1).
    destruct (IH w2 n fuel I2) as (w3 & E3 & I3 & B3 & O3 & S3).
    + apply Wt. by eapply waits_only_waiter.
    + by rewrite Fo', (sp_type _ _ S2).
    + by rewrite (same_ports_queue _ _ i S2).
    + lia.
    + exists w3. split; [done|]. split; [done|]. split; [|split; [congruence|by eapply same_ports_trans]].
      intros t [[->|Ht]%elem_of_cons|Ht]; [by apply B3; right|by apply B3; left|].
      destruct (decide (t = n)) as [->|Nn]; [apply B3; left; left|]. apply B3. right.
      apply Bl; [intros [=]; congruence|by rewrite B1].
Qed.

(** ** Properties *)

(** C25: ports reached through handles are bounded FIFO queues: for every sequence of
    sends and of receives that do not wait, by any handles, the code returns the
    statuses and the messages of the abstract ports, in which everybody who can
    open a port with the right it takes shares the port's queue; the object
    manager, memory and the other ports are as before and the invariant of the
    scheduler and the ports is kept. *)
Theorem lpc_run_refines ext ops : forall w q c, lpc_inv ext w q (Some c) ->
  exists w' q', let '(rs, Q') := ports_run (resolve w) (queue_of (k_lpc w)) ops in
    lpc_run ops w = Ret rs w' /\ lpc_inv ext w' q' (Some c) /\ lpc_kept w w' /\
    forall i, queue_of (k_lpc w') i = Q' i.
Proof.
  induction ops as [|o ops IH]; intros w q c I; [by exists w, q|]. cbn [ports_run lpc_run].
  assert (S : exists w1 q1, let '(st, m, Q1) := ports_step (resolve w) (queue_of (k_lpc w)) o in
    lpc_exec o w = Ret (st, m) w1 /\ lpc_inv ext w1 q1 (Some c) /\ lpc_kept w w1 /\
    forall i, queue_of (k_lpc w1) i = Q1 i).
  { destruct o as [h m|h]; cbn [lpc_exec].
    - destruct (send_refines ext w q (Some c) h m 0 I) as (st & w1 & q1 & E & I1 & K1 & _ & A). exists w1, q1.
      destruct (ports_step (resolve w) (queue_of (k_lpc w)) (LSend h m)) as [[st' m'] Q1] eqn:Es.
      destruct A as [-> A]. split; [|done]. rewrite (bind_eq _ _ _ _ _ E). unfold ret. f_equal. f_equal.
      revert Es. cbn. repeat case_match; by intros [=].
    - destruct (receive_refines ext w q c h I) as (r & w1 & E & I1 & K1 & A). exists w1, q.
      destruct (ports_step (resolve w) (queue_of (k_lpc w)) (LReceive h)) as [[st' m'] Q1]. by destruct A as [-> A]. }
  destruct S as (w1 & q1 & S). destruct (ports_step (resolve w) (queue_of (k_lpc w)) o) as [[st m] Q1].
  destruct S as (E1 & I1 & K1 & A1). destruct (IH w1 q1 c I1) as (w2 & q2 & H). exists w2, q2.
  rewrite (lk_ob _ _ K1), (lk_type _ _ K1) in H.
  destruct (ports_run_ext (resolve w) ops _ _ A1) as [B1 B2].
  destruct (ports_run (resolve w) (queue_of (k_lpc w1)) ops) as [rs Q2], (ports_run (resolve w) Q1 ops) as [rs' Q2'].
  cbn in B1, B2. subst rs'. destruct H as (E2 & I2 & K2 & A2). destruct K1, K2. split_and!; [|done|constructor; congruence|].
  - by rewrite (bind_eq _ _ _ _ _ E1), (bind_eq _ _ _ _ _ E2).
  - intros i. by rewrite A2.
Qed.

(** Receiving with [Wait] from an empty port does not wait: blocking does not
    leave the caller (no context is switched), so the loop blocks the thread the
    dispatcher made current on each turn, until no thread is ready; the call
    then returns KSTATUS_INIT_FAILED without a message and every thread that was
    running or ready is blocked.  The fuel of the model's loop is enough. *)
Theorem LpcReceiveByHandle_blocks_all ext w q c h Wait i :
  lpc_inv ext w q (Some c) -> Wait <> 0 ->
  resolve w h LPC_PORT_ACCESS_RECV = inr i -> queue_of (k_lpc w) i = Some [] ->
  exists w', LpcReceiveByHandle h true Wait w = Ret (KSTATUS_INIT_FAILED, None) w' /\ lpc_inv ext w' [] None /\
    (forall t, t ∈ c :: q -> blocked (k_ps w') t = true) /\
    k_ob w' = k_ob w /\ same_ports (k_lpc w) (k_lpc w').
Proof.
  intros I Hw Er Eq. pose proof I as [_ _ Wi]. pose proof Wi as [[S _ _] _].
  unfold LpcReceiveByHandle. rewrite bind_gets. change (lpc_get w) with (k_lpc w).
  rewrite (pk_ready _ (wi_ports _ _ _ Wi)). cbn [negb orb].
  assert (Ec : ps PsGetCurrentThread w = Ret (Some c) w).
  { unfold ps, zoom, PsGetCurrentThread, gets. cbn. rewrite (so_cur _ _ _ S). by destruct w. }
  rewrite (bind_eq _ _ _ _ _ Ec), bind_gets. change (ps_get w) with (k_ps w).
  destruct (receive_blocks ext h Wait i c Hw q w c (Datatypes.S (length (gPsThreadPool (k_ps w)))) I)
    as (w' & E & I' & B & O & Sp); [by eapply current_waiter|done|done| |].
  - apply Nat.lt_succ_r. rewrite <- (length_seq (length (gPsThreadPool (k_ps w))) 0).
    apply submseteq_length, NoDup_submseteq; [apply (so_queue _ _ _ S)|]. intros j Hj.
    apply elem_of_seq. destruct (so_queued _ _ _ S j Hj) as (t & Ht & _). apply lookup_lt_Some in Ht. lia.
  - exists w'. split_and!; try done. intros t Ht. apply B. by left.
Qed.
