(* ===== verification/IoInv.v ===== *)
(** * I/O manager: theorems

    Reading through a handle gives exactly the file's bytes and releases the
    reference it takes; the spawn's loop reads the whole file in at most three
    turns; a registered path opens the file registered for it. *)

From S2P Require Import Prelude CString BootProto Nk Ob ObInv PhysMem MmPages MmTables MmTablesInv MmSpace MmSection.
From S2P Require Import MmFault Kpe KpeLoad UserMem Ps PsInv PsSpawn Lpc Io Hal Syscall HalIntr.
From S2P Require Import Kernel KernelMem KernelInv.

(** Without wrap-around the loop is a copy. *)
Lemma read_bytes_copy n : forall Buf Src k (w : kernel), 0 <= Buf -> 0 <= Src -> 0 <= k ->
  Buf + k + Z.of_nat n <= 2 ^ 64 -> Src + k + Z.of_nat n <= 2 ^ 64 ->
  read_bytes n Buf Src k w = copy_bytes n Buf Src k w.
Proof.
  induction n as [|n IH]; intros Buf Src k w B S K L1 L2; [done|]. cbn [read_bytes copy_bytes].
  unfold u64. rewrite !Z.mod_small by lia. unfold bind. destruct (read_u8 (Src + k) w) as [b w1|w1|]; [|done..].
  destruct (write_u8 (Buf + k) b w1) as [[] w2|w2|]; [|done..]. apply IH; lia.
Qed.

(** The bytes a read returns. *)
Definition read_length (Size_ Offset Length_ : Z) : Z := Z.max 0 (Z.min Length_ (Size_ - Offset)).

(** The copy of [n] bytes from [Src] to [Buf], seen in the address space. *)
Definition copied (lv : gmap Z nat) (a : MM_ADDRESS_SPACE) (good : Z -> Prop) (Buf Src n : Z) (m m' : mm_machine) : Prop :=
  only_data lv m m' /\
  forall b, good b -> user_view m a m' b =
    if (Buf <=? b) && (b <? Buf + n) then user_view m a m (Src + (b - Buf)) else user_view m a m b.

(** The two ranges of a read: accessible, without wrap-around and apart. *)
Record read_ranges (good : Z -> Prop) (Buf Src n : Z) : Prop := {
  rr_buf : 0 <= Buf /\ Buf + n <= 2 ^ 64;
  rr_src : 0 <= Src /\ Src + n <= 2 ^ 64;
  rr_buf_good : forall b, Buf <= b < Buf + n -> good b;
  rr_src_good : forall b, Src <= b < Src + n -> good b;
  rr_apart : Buf + n <= Src \/ Src + n <= Buf }.

Lemma read_bytes_spec lv a good (w : kernel) Buf Src n : user_access lv (k_mm w) a good -> 0 <= n ->
  read_ranges good Buf Src n ->
  exists m', read_bytes (Z.to_nat n) Buf Src 0 w = Ret tt (set_k_mm m' w) /\ copied lv a good Buf Src n (k_mm w) m'.
Proof.
  intros U Hn [[B1 B2] [S1 S2] Gb Gs Dj]. rewrite read_bytes_copy by lia.
  destruct (copy_bytes_view (V := kernel_view lv a good w U) (Z.to_nat n) Buf Src 0 w) as (w' & E & [Ew D] & V).
  - by apply (data_only_refl lv a good). - intros b Hb. apply Gb. lia. - intros b Hb. apply Gs. lia. - lia.
  - exists (k_mm w'). rewrite <- Ew. split; [done|]. split; [done|]. intros b Hb. rewrite (V b Hb).
    rewrite !Z.add_0_r, Z2Nat.id by done. done.
Qed.

(** Reading, on every branch: a handle that does not open with the right to read
    and a file object without a slot change nothing; otherwise the bytes of the
    file from [Offset] on, as many as there are and fit, are in the buffer, and
    only memory changes: the reference taken is released. *)
Lemma read_file_spec lv a good ext w h Offset Buf Len :
  ob_inv (k_ob w) ext -> counts_small (k_ob w) -> gIoReady (k_io w) = true ->
  user_access lv (k_mm w) a good -> 0 < Buf -> 0 < Len -> 0 <= Offset ->
  match opens (k_ob w) (gIoFileType (k_io w)) h IO_FILE_ACCESS_READ with
  | inl st => st <> KSTATUS_SUCCESS /\ IoReadFileHandle h Offset Buf Len true w = Ret (st, None) w
  | inr i =>
      match IopFindFileByHeader (Some i) (k_io w) with
      | None => IoReadFileHandle h Offset Buf Len true w = Ret (KSTATUS_NOT_FOUND, None) w
      | Some j => forall f, gIoFilePool (k_io w) !! j = Some f ->
          let n := read_length (FileSize f) Offset Len in
          read_ranges good Buf (FileData f + Offset) n ->
          exists m', IoReadFileHandle h Offset Buf Len true w = Ret (KSTATUS_SUCCESS, Some n) (set_k_mm m' w) /\
            copied lv a good Buf (FileData f + Offset) n (k_mm w) m'
      end
  end.
Proof.
  intros I Cs R U Hb Hl Ho. pose proof (opens_spec (k_ob w) ext (gIoFileType (k_io w)) h IO_FILE_ACCESS_READ I Cs) as O.
  unfold IoReadFileHandle. rewrite bind_gets. change (io_get w) with (k_io w). rewrite R.
  destruct (Z.eqb_spec Buf 0), (Z.eqb_spec Len 0); try lia. cbn [negb orb]. rewrite bind_gets.
  change (ob_get w) with (k_ob w). unfold ObGetKernelHandleTable. rewrite (oi_ready _ _ I).
  destruct (opens _ _ _ _) as [st|i].
  { destruct O as [Ns E]. split; [done|]. rewrite (bind_ob _ _ _ _ _ E). unfold ok.
    destruct (Z.eqb_spec st KSTATUS_SUCCESS); [done|]. cbn [negb]. by destruct w. }
  destruct O as (o & L & E). set (w1 := set_k_ob (put_object i (set_RefCount o (RefCount o + 1)) (k_ob w)) w).
  destruct (IopFindFileByHeader (Some i) (k_io w)) as [j|] eqn:F.
  2: { rewrite (bind_ob _ _ _ _ _ E). fold w1. change (ok KSTATUS_SUCCESS) with true. cbn [negb]. rewrite F.
       rewrite (bind_eq _ _ _ _ _ (release_opened ext i o w1 w I L eq_refl)). by destruct w. }
  intros f Hf. cbv zeta. rewrite (bind_ob _ _ _ _ _ E). fold w1. change (ok KSTATUS_SUCCESS) with true. cbn [negb]. rewrite F.
  erewrite (bind_io (get_file j)) by (by apply load_at_ok). change (set_k_io (k_io w1) w1) with w1.
  destruct (Z.geb_spec Offset (FileSize f)).
  - intros _. exists (k_mm w). rewrite (bind_eq _ _ _ _ _ (release_opened ext i o w1 w I L eq_refl)).
    assert (read_length (FileSize f) Offset Len = 0) as -> by (unfold read_length; lia).
    split; [by destruct w|]. split; [eapply only_data_refl, U|]. intros b _.
    destruct (Z.leb_spec Buf b), (Z.ltb_spec b (Buf + 0)); [lia|done..].
  - assert (N : (if Len <? FileSize f - Offset then Len else FileSize f - Offset) = read_length (FileSize f) Offset Len).
    { unfold read_length. destruct (Z.ltb_spec Len (FileSize f - Offset)); lia. }
    cbv zeta. rewrite N. intros Rr.
    destruct (read_bytes_spec lv a good w1 Buf (FileData f + Offset) (read_length (FileSize f) Offset Len) U ltac:(unfold read_length; lia) Rr) as (m' & E' & Cp).
    exists m'. rewrite (bind_eq _ _ _ _ _ E').
    rewrite (bind_eq _ _ _ _ _ (release_opened ext i o (set_k_mm m' w1) w I L eq_refl)).
    split; [by destruct w|exact Cp].
Qed.

(** ** The whole file *)

(** A read of no bytes after a copy. *)
Lemma copied_nothing lv a good Buf Src n Buf' Src' m m1 m2 : user_access lv m a good ->
  copied lv a good Buf Src n m m1 -> copied lv a good Buf' Src' 0 m1 m2 -> copied lv a good Buf Src n m m2.
Proof.
  intros U [D1 V1] [D2 V2]. split; [by eapply only_data_trans|]. intros b Hb. rewrite <- (V1 b Hb).
  specialize (V2 b Hb). rewrite !(user_view_data lv m m1 a good U D1) in V2. rewrite V2.
  destruct (Z.leb_spec Buf' b), (Z.ltb_spec b (Buf' + 0)); [lia|done..].
Qed.

(** Two turns are enough: the first reads the whole file or fills the buffer. *)
Lemma read_image_spec lv a good ext w h fuel :
  ob_inv (k_ob w) ext -> counts_small (k_ob w) -> gIoReady (k_io w) = true ->
  user_access lv (k_mm w) a good -> 0 < gIoSpawnScratch (k_io w) ->
  match opens (k_ob w) (gIoFileType (k_io w)) h IO_FILE_ACCESS_READ with
  | inl st => read_image (S (S fuel)) h 0 0 w = Ret (st, 0) w /\ st <> KSTATUS_SUCCESS
  | inr i =>
      match IopFindFileByHeader (Some i) (k_io w) with
      | None => read_image (S (S fuel)) h 0 0 w = Ret (KSTATUS_NOT_FOUND, 0) w
      | Some j => forall f, gIoFilePool (k_io w) !! j = Some f -> 0 <= FileSize f < 2 ^ 64 ->
          let n := Z.min (FileSize f) IO_SPAWN_IMAGE_MAX in
          read_ranges good (gIoSpawnScratch (k_io w)) (FileData f) n ->
          exists m', copied lv a good (gIoSpawnScratch (k_io w)) (FileData f) n (k_mm w) m' /\
            read_image (S (S fuel)) h 0 0 w
            = Ret (if FileSize f <? IO_SPAWN_IMAGE_MAX then (KSTATUS_SUCCESS, FileSize f)
                   else (KSTATUS_INVALID_PARAMETER, 0)) (set_k_mm m' w)
      end
  end.
Proof.
  intros I Cs R U Sc. set (sc := gIoSpawnScratch (k_io w)) in *.
  pose proof (read_file_spec lv a good ext w h 0 (sc + 0) (IO_SPAWN_IMAGE_MAX - 0) I Cs R U ltac:(lia) ltac:(done) ltac:(lia)) as T.
  cbn [read_image]. change (0 >=? IO_SPAWN_IMAGE_MAX) with false. cbn match. rewrite bind_gets.
  change (gIoSpawnScratch (io_get w)) with sc.
  destruct (opens _ _ _ _) as [st|i] eqn:Eo.
  { destruct T as [Ns E]. rewrite (bind_eq _ _ _ _ _ E). unfold ok. by destruct (Z.eqb_spec st KSTATUS_SUCCESS). }
  destruct (IopFindFileByHeader (Some i) (k_io w)) as [j|] eqn:F; [|by rewrite (bind_eq _ _ _ _ _ T)].
  intros f Hf Hs. cbv zeta. set (n := Z.min (FileSize f) IO_SPAWN_IMAGE_MAX). intros Rr.
  assert (Hn : read_length (FileSize f) 0 (IO_SPAWN_IMAGE_MAX - 0) = n) by (unfold read_length, n, IO_SPAWN_IMAGE_MAX; lia).
  specialize (T f Hf). cbv zeta in T. rewrite Hn, !Z.add_0_r in T. destruct (T Rr) as (m1 & E1 & Cp). clear T.
  rewrite Z.add_0_r, (bind_eq _ _ _ _ _ E1). change (ok KSTATUS_SUCCESS) with true. cbn [negb]. rewrite bind_deref.
  destruct (Z.eqb_spec n 0) as [N0|N0].
  { exists m1. split; [done|]. destruct (Z.ltb_spec (FileSize f) IO_SPAWN_IMAGE_MAX) as [L|L]; unfold n, IO_SPAWN_IMAGE_MAX in *; [|lia].
    by replace (FileSize f) with 0 by lia. }
  assert (Un : u64 (0 + n) = n) by (unfold u64; apply Z.mod_small; unfold n, IO_SPAWN_IMAGE_MAX in *; lia).
  rewrite !Un. destruct (Z.geb_spec n IO_SPAWN_IMAGE_MAX) as [G|G].
  { exists m1. split; [done|].
    destruct (Z.ltb_spec (FileSize f) IO_SPAWN_IMAGE_MAX) as [L|L]; unfold n, IO_SPAWN_IMAGE_MAX in *; [lia|done]. }
  assert (Nf : n = FileSize f) by (unfold n in *; lia). rewrite bind_gets. cbn [io_get kernel_io k_io set_k_mm]. fold sc.
  pose proof (read_file_spec lv a good ext (set_k_mm m1 w) h n (sc + n) (IO_SPAWN_IMAGE_MAX - n) I Cs R) as T.
  cbn [k_mm k_io k_ob set_k_mm] in T.
  specialize (T (user_access_data _ _ _ _ _ U (proj1 Cp)) ltac:(lia) ltac:(lia) ltac:(lia)). rewrite Eo, F in T.
  specialize (T f Hf). cbv zeta in T.
  assert (Z0 : read_length (FileSize f) n (IO_SPAWN_IMAGE_MAX - n) = 0) by (unfold read_length; lia). rewrite Z0 in T.
  destruct T as (m2 & E2 & Cp2); [destruct Rr; constructor; lia|]. rewrite (bind_eq _ _ _ _ _ E2).
  change (ok KSTATUS_SUCCESS) with true. cbn [negb]. rewrite bind_deref. cbn [Z.eqb].
  exists m2. split; [by eapply copied_nothing|]. rewrite Nf.
  destruct (Z.ltb_spec (FileSize f) IO_SPAWN_IMAGE_MAX); [done|lia].
Qed.

(** ** Opening a registered path *)

(** The I/O manager's invariant: the pools have their lengths, and a slot in use
    with a header holds a live object. *)
Record io_inv (w : kernel) : Prop := {
  ii_ready : gIoReady (k_io w) = true;
  ii_type : exists t, gIoFileType (k_io w) = Some t /\ (t < 256)%nat;
  ii_lengths : length (gIoFilePool (k_io w)) = length (gIoFileInUse (k_io w));
  ii_live : forall j f i, gIoFileInUse (k_io w) !! j = Some true -> gIoFilePool (k_io w) !! j = Some f ->
    FileObjectHeader f = Some i -> exists o, live (k_ob w) i o;
  ii_paths : forall k b, gIoBootFiles (k_io w) !! k = Some b -> length (BootPath b) = 64%nat }.

(** [p] names a boot file that lies at [Data]. *)
Definition registered (s : io_state) (p : cstr) (Data Size_ : Z) : Prop :=
  exists k b, IopFsFatLookupFile (Some p) s = Some k /\ gIoBootFiles s !! k = Some b /\ BootData b = Data /\ BootSize b = Size_.

(** No boot file is called [p]. *)
Definition unnamed (s : io_state) (p : cstr) : Prop :=
  forall k b, gIoBootFiles s !! k = Some b -> BootInUse b = true -> cstr_of (BootPath b) <> p.

Lemma cstr_of_nonzero l : is_cstr (cstr_of l).
Proof.
  induction l as [|c l IH]; [constructor|]. cbn. destruct (Z.eqb_spec c 0); [constructor|by constructor].
Qed.

Lemma path_matches l p : is_cstr p ->
  bool_decide (IopStringEquals (Some (cstr_of l)) (Some p) = Some 1) = bool_decide (cstr_of l = p).
Proof.
  intros Hp. rewrite (IopStringEquals_decides _ _ (cstr_of_nonzero l) Hp). apply bool_decide_ext.
  by destruct (decide (cstr_of l = p)).
Qed.

(** Registering a new name: it opens what was registered, from the first free
    slot. *)
Lemma register_spec s p Data Size_ k0 : is_cstr p -> (length p <= 62)%nat -> gIoReady s = true -> 0 < Data -> 0 < Size_ ->
  (forall k b, gIoBootFiles s !! k = Some b -> length (BootPath b) = 64%nat) ->
  find_first (fun f => negb (BootInUse f)) (gIoBootFiles s) = Some k0 -> unnamed s p ->
  exists s', IoRegisterBootFile (Some p) Data Size_ s = Ret KSTATUS_SUCCESS s' /\ registered s' p Data Size_ /\
    (exists l, s' = set_boot_files l s) /\
    (forall k b, gIoBootFiles s' !! k = Some b -> length (BootPath b) = 64%nat).
Proof.
  intros Hp Lp R HD HS Pl F Un. unfold IoRegisterBootFile. rewrite R, bool_decide_eq_true_2 by done. cbn [negb orb].
  destruct (Z.eqb_spec Data 0), (Z.eqb_spec Size_ 0); try lia. cbn [orb]. rewrite F.
  pose proof F as Fo. apply find_first_Some in Fo as [(b & Hb & _) _].
  rewrite (bind_eq _ _ _ _ _ (load_at_ok _ _ _ _ Hb)).
  destruct (bounded_copy_spec p (BootPath b) 64 Hp (Pl k0 b Hb) ltac:(lia)) as (_ & L & C & E & Q).
  change (Z.of_nat 64) with 64 in *. destruct (IopCopyString (BootPath b) 64 (Some p)) as [q q']. cbn [fst snd] in E, Q. subst q'.
  rewrite Q. destruct (Nat.leb_spec (length p + 2) 64); [|lia]. cbn [Z.eqb]. set (P := (ObpCopyName (BootPath b) 64 (Some p)).2) in *.
  eexists. split; [reflexivity|]. rewrite (take_ge p) in C by lia.
  set (b' := {| BootPath := P; BootData := Data; BootSize := Size_; BootInUse := true |}).
  assert (Lk : (k0 < length (gIoBootFiles s))%nat) by (by eapply lookup_lt_Some).
  split; [|split].
  - exists k0, b'. split_and!; [|by apply list_lookup_insert_eq|done|done]. unfold IopFsFatLookupFile. cbn [gIoBootFiles set_boot_files].
    apply (find_first_intro _ _ _ b'); [by rewrite list_lookup_insert_eq| |].
    + cbn [BootInUse BootPath b' andb]. rewrite path_matches by done. by apply bool_decide_eq_true_2.
    + intros j y Hj Hy. rewrite list_lookup_insert_ne in Hy by lia.
      destruct (BootInUse y) eqn:U; [|done]. cbn [andb]. rewrite path_matches by done. apply bool_decide_eq_false_2. by apply (Un j).
  - by eexists.
  - intros k c. cbn. destruct (decide (k0 = k)) as [<-|N]; [|rewrite list_lookup_insert_ne by done; apply Pl].
    rewrite list_lookup_insert_eq by done. intros [= <-]. exact L.
Qed.

(** Opening: a fresh handle with the rights asked for, to a file object that
    stands for the registered file; the reference of the creation is released. *)
Lemma open_spec ext w p Data Size_ g i j : io_inv w -> ob_inv (k_ob w) ext -> counts_small (k_ob w) ->
  registered (k_io w) p Data Size_ -> ob_room (k_ob w) i -> find_first negb (gIoFileInUse (k_io w)) = Some j ->
  any_flag g IO_FILE_ACCESS_ALL = true -> Z.land g IO_FILE_ACCESS_ALL = g ->
  exists w' f, IoOpenPath (Some p) g true w = Ret (KSTATUS_SUCCESS, Some (next_handle (k_ob w))) w' /\
    io_inv w' /\ ob_inv (k_ob w') ext /\ counts_small (k_ob w') /\ k_mm w' = k_mm w /\
    (forall d, opens (k_ob w') (gIoFileType (k_io w')) (next_handle (k_ob w)) d
               = if all_flags g d then inr i else inl KSTATUS_ACCESS_DENIED) /\
    IopFindFileByHeader (Some i) (k_io w') = Some j /\ gIoFilePool (k_io w') !! j = Some f /\
    FileData f = Data /\ FileSize f = Size_ /\ FileAccessMask f = g.
Proof.
  intros II I Cs (kb & b & Fb & Hb & ED & ES) Rm Fj Ga Gm. destruct (ii_type w II) as (t & Et & Ht).
  destruct (create_spec (k_ob w) ext t (str "io.file") IO_FILE_ACCESS_ALL 0 i I Ht Rm) as (s1 & o & E1 & Fo).
  destruct (publish_spec (k_ob w) s1 ext t IO_FILE_ACCESS_ALL i o g I Cs Rm Fo Gm)
    as (s2 & s3 & E2 & E3 & I3 & Cs3 & Op & Lv).
  pose proof Fj as Fj'. apply find_first_Some in Fj' as [(u & Hu & _) _].
  assert (Lj : (j < length (gIoFileInUse (k_io w)))%nat) by (by eapply lookup_lt_Some).
  assert (Lf : (j < length (gIoFilePool (k_io w)))%nat) by (by rewrite (ii_lengths w II)).
  set (fl := {| FileObjectHeader := Some i; FileData := BootData b; FileSize := BootSize b; FileAccessMask := g |}).
  set (io' := set_files (<[j := fl]> (gIoFilePool (k_io w))) (<[j := true]> (gIoFileInUse (k_io w))) (k_io w)).
  set (w' := set_k_ob s3 (set_k_io io' w)).
  assert (Run : IoOpenPath (Some p) g true w = Ret (KSTATUS_SUCCESS, Some (next_handle (k_ob w))) w').
  { unfold IoOpenPath. rewrite bind_gets. change (io_get w) with (k_io w). rewrite (ii_ready w II).
    rewrite bool_decide_eq_true_2 by done. cbn [negb orb]. rewrite Ga. cbn [negb].
    set (io1 := set_files (<[j := blank_file]> (gIoFilePool (k_io w))) (<[j := true]> (gIoFileInUse (k_io w))) (k_io w)).
    assert (Ea : IopAllocateFileSlot (k_io w) = Ret (Some j) io1) by (unfold IopAllocateFileSlot; by rewrite Fj).
    rewrite (bind_io _ _ _ _ _ Ea), Et. set (wa := set_k_io io1 w). rewrite (bind_ob _ _ wa _ _ E1). set (wb := set_k_ob s1 wa). change (ok KSTATUS_SUCCESS) with true. cbn [negb].
    set (fl1 := {| FileObjectHeader := Some i; FileData := 0; FileSize := 0; FileAccessMask := g |}).
    set (io2 := set_files (<[j := fl1]> (<[j := blank_file]> (gIoFilePool (k_io w)))) (<[j := true]> (gIoFileInUse (k_io w))) (k_io w)).
    assert (E4 : update_file j (fun f => {| FileObjectHeader := Some i; FileData := FileData f; FileSize := FileSize f;
      FileAccessMask := g |}) io1 = Ret tt io2).
    { unfold update_file. by erewrite (bind_eq (get_file j)) by (apply load_at_ok; by apply list_lookup_insert_eq). }
    rewrite (bind_io _ _ wb _ _ E4). set (wc := set_k_io io2 wb).
    assert (E5 : IopVfsOpen (Some p) (Some j) io2 = Ret KSTATUS_SUCCESS io').
    { unfold IopVfsOpen. rewrite bind_gets. change (IopFsFatLookupFile (Some p) io2) with (IopFsFatLookupFile (Some p) (k_io w)).
      rewrite Fb. change (gIoBootFiles io2) with (gIoBootFiles (k_io w)). rewrite (bind_eq _ _ _ _ _ (load_at_ok _ _ _ _ Hb)).
      unfold update_file. rewrite bind_assoc.
      erewrite (bind_eq (get_file j)) by (apply load_at_ok; apply list_lookup_insert_eq; by rewrite length_insert).
      unfold io', io2. cbn. by rewrite !list_insert_insert_eq. }
    rewrite (bind_io _ _ wc _ _ E5). set (wd := set_k_io io' wc). change (ok KSTATUS_SUCCESS) with true. cbn [negb]. rewrite bind_gets.
    change (ob_get wd) with s1. unfold ObGetKernelHandleTable. rewrite (oi_ready _ _ (fo_inv _ _ _ _ _ _ _ Fo)).
    rewrite (bind_ob _ _ wd _ _ E2). erewrite bind_eq by (by apply E3). reflexivity. }
  exists w', fl. split; [done|]. split.
  { destruct II as [A B C D E]. constructor; try done.
    - cbn. by rewrite !length_insert.
    - intros j' f' i' Hu' Hf' Hi'. change (gIoFilePool (k_io w')) with (<[j := fl]> (gIoFilePool (k_io w))) in Hf'.
      change (gIoFileInUse (k_io w')) with (<[j := true]> (gIoFileInUse (k_io w))) in Hu'. change (k_ob w') with s3. apply Lv. destruct (decide (j' = j)) as [->|N].
      + rewrite list_lookup_insert_eq in Hf' by done. injection Hf' as <-. injection Hi' as <-. by left.
      + rewrite list_lookup_insert_ne in Hu' by done. rewrite list_lookup_insert_ne in Hf' by done. right. by apply (D j' f'). }
  split; [done|]. split; [done|]. split; [done|]. split; [intros d; cbn; rewrite Et; apply Op|].
  split; [|split; [by apply list_lookup_insert_eq|done]].
  unfold IopFindFileByHeader. cbn [w' set_k_ob k_io set_k_io io' set_files gIoFileInUse gIoFilePool].
  apply (find_first_intro _ _ _ (true, fl)).
  - apply lookup_zip_with_Some. exists true, fl. by rewrite !list_lookup_insert_eq.
  - by apply bool_decide_eq_true_2.
  - intros k [u' f'] Hk Hz. apply lookup_zip_with_Some in Hz as (x & y & [= -> ->] & Hx & Hy).
    rewrite list_lookup_insert_ne in Hx by lia. rewrite list_lookup_insert_ne in Hy by lia. destruct x; [|done]. cbn. apply bool_decide_eq_false_2. intros Eh.
    destruct (ii_live w II k y i Hx Hy Eh) as [x Lx]. by apply (fo_new _ _ _ _ _ _ _ Fo x).
Qed.

(** ** Properties *)

(** C29: a boot file that is registered under a new name of at most 62 characters,
    opened by that name with the right to read among others, and read at any
    offset gives back exactly the registered bytes: the buffer holds the bytes
    of the registered memory from the offset on, as many as there are and fit,
    the count is exact, and reading changes nothing but these bytes of memory. *)
Theorem boot_file_reads_back lv a good ext w p Data Size_ g k0 i j Offset Buf Len :
  io_inv w -> ob_inv (k_ob w) ext -> counts_small (k_ob w) ->
  is_cstr p -> (length p <= 62)%nat -> 0 < Data -> 0 < Size_ -> unnamed (k_io w) p ->
  find_first (fun f => negb (BootInUse f)) (gIoBootFiles (k_io w)) = Some k0 ->
  ob_room (k_ob w) i -> find_first negb (gIoFileInUse (k_io w)) = Some j ->
  all_flags g IO_FILE_ACCESS_READ = true -> Z.land g IO_FILE_ACCESS_ALL = g ->
  user_access lv (k_mm w) a good -> 0 < Buf -> 0 < Len -> 0 <= Offset ->
  let n := read_length Size_ Offset Len in read_ranges good Buf (Data + Offset) n ->
  exists h w' m', (io (IoRegisterBootFile (Some p) Data Size_) ;;; IoOpenPath (Some p) g true) w
                  = Ret (KSTATUS_SUCCESS, Some h) w' /\
    IoReadFileHandle h Offset Buf Len true w' = Ret (KSTATUS_SUCCESS, Some n) (set_k_mm m' w') /\
    copied lv a good Buf (Data + Offset) n (k_mm w) m'.
Proof.
  intros II I Cs Hp Lp HD HS Un Fk Rm Fj Gr Gm U HB HL HO n Rr.
  destruct (register_spec (k_io w) p Data Size_ k0 Hp Lp (ii_ready w II) HD HS (ii_paths w II) Fk Un)
    as (s' & E1 & Rg & [l ->] & Pl).
  set (w1 := set_k_io (set_boot_files l (k_io w)) w).
  assert (II1 : io_inv w1) by (destruct II as [A B C D E]; by constructor).
  assert (Ga : any_flag g IO_FILE_ACCESS_ALL = true).
  { unfold any_flag, all_flags in *. rewrite Gm. destruct (Z.eqb_spec g 0) as [->|]; [done|done]. }
  destruct (open_spec ext w1 p Data Size_ g i j II1 I Cs Rg Rm Fj Ga Gm)
    as (w2 & f & E2 & II2 & I2 & Cs2 & Em & Op & F & Hf & ED & ES & _).
  pose proof (read_file_spec lv a good ext w2 (next_handle (k_ob w1)) Offset Buf Len I2 Cs2 (ii_ready w2 II2)
    ltac:(rewrite Em; exact U) HB HL HO) as T.
  rewrite Op, Gr, F in T. specialize (T f Hf). cbv zeta in T. rewrite ED, ES, Em in T. destruct (T Rr) as (m' & E3 & Cp).
  exists (next_handle (k_ob w1)), w2, m'. split; [|done]. by rewrite (bind_io _ _ _ _ _ E1).
Qed.

(** C34: spawning a process from a file is spawning it from a buffer that holds the
    whole file: the loop ends within two turns, the fuel it has; with a file of less than 16 MiB its
    bytes are in the scratch buffer and the call is that of
    [PsSpawnUserKpeFromBuffer]; an empty file is KSTATUS_NOT_FOUND and one of
    16 MiB or more KSTATUS_INVALID_PARAMETER, without an attempt to spawn. *)
Theorem IoSpawnProcessFromFileHandle_spawns lv a good ext w h i j f OutProcessId OutEntry :
  ob_inv (k_ob w) ext -> counts_small (k_ob w) -> gIoReady (k_io w) = true ->
  user_access lv (k_mm w) a good -> 0 < gIoSpawnScratch (k_io w) ->
  opens (k_ob w) (gIoFileType (k_io w)) h IO_FILE_ACCESS_READ = inr i ->
  IopFindFileByHeader (Some i) (k_io w) = Some j -> gIoFilePool (k_io w) !! j = Some f -> 0 <= FileSize f < 2 ^ 64 ->
  let n := Z.min (FileSize f) IO_SPAWN_IMAGE_MAX in read_ranges good (gIoSpawnScratch (k_io w)) (FileData f) n ->
  exists m', copied lv a good (gIoSpawnScratch (k_io w)) (FileData f) n (k_mm w) m' /\
    IoSpawnProcessFromFileHandle h OutProcessId OutEntry w
    = (if FileSize f =? 0 then ret (KSTATUS_NOT_FOUND, (None, None))
       else if FileSize f <? IO_SPAWN_IMAGE_MAX
       then PsSpawnUserKpeFromBuffer (Some (gIoSpawnScratch (k_io w))) (FileSize f) OutProcessId OutEntry
       else ret (KSTATUS_INVALID_PARAMETER, (None, None))) (set_k_mm m' w).
Proof.
  intros I Cs R U Sc Op F Hf Hs n Rr. pose proof (read_image_spec lv a good ext w h 0 I Cs R U Sc) as T.
  rewrite Op, F in T. destruct (T f Hf Hs Rr) as (m' & Cp & E). exists m'. split; [done|].
  unfold IoSpawnProcessFromFileHandle. rewrite bind_gets. change (io_get w) with (k_io w). rewrite R. cbn [negb].
  rewrite (bind_eq _ _ _ _ _ E). destruct (Z.ltb_spec (FileSize f) IO_SPAWN_IMAGE_MAX).
  - change (ok KSTATUS_SUCCESS) with true. cbn [negb]. by destruct (FileSize f =? 0).
  - change (ok KSTATUS_INVALID_PARAMETER) with false. cbn [negb].
    destruct (Z.eqb_spec (FileSize f) 0); [unfold IO_SPAWN_IMAGE_MAX in *; lia|done].
Qed.
