(* ===== verification/SyscallInv.v ===== *)
(** * System calls: theorems

    What the checks of user pointers accept, that a call with a refused pointer
    changes nothing, and that a message sent through one call comes out of the
    other byte for byte. *)

From S2P Require Import Prelude CString BootProto Nk Ob ObInv PhysMem MmPages MmTables MmTablesInv MmSpace MmSection.
From S2P Require Import MmFault Kpe KpeLoad UserMem Ps PsInv PsSpawn Lpc Io Hal Syscall HalIntr.
From S2P Require Import Kernel KernelMem KernelInv LpcInv.

(** ** The checks *)

(** C38: the check of a user pointer accepts exactly the non-empty ranges from a
    non-null address that neither wrap around nor reach 2^64 and lie wholly in
    the lower half or wholly in the upper half of the address space: no accepted
    range touches a non-canonical address, but the kernel's half is accepted. *)
Theorem KipIsRangeReadable_exact Address Length_ : is_u64 Address -> is_u64 Length_ ->
  (KipIsRangeReadable Address Length_ = true <->
   0 < Address /\ 0 < Length_ /\ Address + Length_ < 2 ^ 64 /\
   (Address + Length_ <= KI_USER_ADDRESS_TOP \/ KI_KERNEL_ADDRESS_BASE <= Address)).
Proof.
  unfold is_u64, KipIsRangeReadable, KI_USER_ADDRESS_TOP, KI_KERNEL_ADDRESS_BASE. intros HA HL.
  destruct (Z.eqb_spec Address 0), (Z.eqb_spec Length_ 0); cbn [orb]; try (split; [done|lia]).
  destruct (Z.lt_ge_cases (Address + Length_) (2 ^ 64)) as [S|S].
  - rewrite u64_small by lia. destruct (Z.ltb_spec (Address + Length_) Address); [lia|].
    destruct (Z.ltb_spec Address 0x0000800000000000), (Z.leb_spec (Address + Length_) 0x0000800000000000),
      (Z.geb_spec Address 0xFFFF800000000000), (Z.geb_spec (Address + Length_) Address); cbn [andb];
      (split; [|]); try done; lia.
  - assert (u64 (Address + Length_) = Address + Length_ - 2 ^ 64) as ->.
    { unfold u64. symmetry. apply (Z.mod_unique _ _ 1); lia. }
    destruct (Z.ltb_spec (Address + Length_ - 2 ^ 64) Address); [|lia]. split; [done|lia].
Qed.

Lemma KipIsRangeReadable_exact_witness :
  KipIsRangeReadable 0x40000000 4096 = true /\ 0x40000000 + 4096 <= KI_USER_ADDRESS_TOP.
Proof.
  assert (H : 0x40000000 + 4096 <= KI_USER_ADDRESS_TOP) by (by vm_compute).
  split; [|exact H]. apply (KipIsRangeReadable_exact 0x40000000 4096); unfold is_u64; [lia..|].
  split_and!; [lia|lia|lia|left; exact H].
Defined.

(** The ranges a call is given: mandatory ones, and results that may be null. *)
Definition pointer_args (Number A0 A1 A2 A3 : Z) : list (Z * Z) :=
  let optional a := if a =? 0 then [] else [(a, 8)] in
  if Number =? NkSysDebugPrint then [(A0, A1)]
  else if (Number =? NkSysSend) || (Number =? NkSysReceive) then [(A1, A2)]
  else if Number =? NkSysCreateSection then [(A2, 4)]
  else if Number =? NkSysMapSection then [(A2, 8)]
  else if Number =? NkSysCreateProcessFromBuffer then (A0, A1) :: optional A2 ++ optional A3
  else if (Number =? NkSysOpen) || (Number =? NkSysReadConsole) then [(A0, A1)]
  else if Number =? NkSysRead then [(A2, A3)]
  else if Number =? NkSysCreateProcessFromFileHandle then optional A1 ++ optional A2
  else [].

(** The check of the optional results. *)
Lemma results_writable_ranges a b :
  results_writable a b = forallb (fun r => KipIsRangeReadable r.1 r.2)
    ((if a =? 0 then [] else [(a, 8)]) ++ (if b =? 0 then [] else [(b, 8)])).
Proof.
  unfold results_writable, KipIsRangeWritable. destruct (a =? 0), (b =? 0); cbn; by rewrite ?andb_true_r.
Qed.

(** C36: a system call with a number the dispatcher does not know returns
    KSTATUS_NOT_IMPLEMENTED, and one that is given a range the check refuses, for
    its input or for a result, returns KSTATUS_INVALID_PARAMETER; in both cases
    nothing has happened: no memory was read or written, no handle opened and no
    message taken. *)
Theorem KiDispatchSystemCall_refuses `{KernelLayout} Number A0 A1 A2 A3 A4 A5 (w : kernel) :
  (~ 0 <= Number <= 15 ->
   KiDispatchSystemCall Number A0 A1 A2 A3 A4 A5 w = Ret (status_result KSTATUS_NOT_IMPLEMENTED) w) /\
  (forallb (fun r => KipIsRangeReadable r.1 r.2) (pointer_args Number A0 A1 A2 A3) = false ->
   KiDispatchSystemCall Number A0 A1 A2 A3 A4 A5 w = Ret (status_result KSTATUS_INVALID_PARAMETER) w).
Proof.
  unfold KiDispatchSystemCall, pointer_args, NkSysDebugPrint, NkSysYield, NkSysSend, NkSysReceive, NkSysMapMemory,
    NkSysExitThread, NkSysCreatePort, NkSysCloseHandle, NkSysCreateSection, NkSysMapSection, NkSysCreateProcessFromBuffer,
    NkSysOpen, NkSysRead, NkSysClose, NkSysCreateProcessFromFileHandle, NkSysReadConsole.
  split.
  - intros N. repeat match goal with |- context [Number =? ?k] => destruct (Z.eqb_spec Number k); [lia|] end. done.
  - repeat match goal with |- context [Number =? ?k] => destruct (Z.eqb_spec Number k); [subst Number; cbn [orb Z.eqb Pos.eqb]|] end;
      cbn [orb forallb fst snd]; rewrite ?andb_true_r; try done; intros R.
    + unfold KipSysDebugPrint. by rewrite R, orb_true_r.
    + unfold KipSysSend. rewrite R. by destruct (_ || _).
    + unfold KipSysReceive, KipIsRangeWritable. rewrite R. by destruct (_ || _).
    + unfold KipSysCreateSection, KipIsRangeWritable. by rewrite R, orb_true_r.
    + unfold KipSysMapSection, KipIsRangeWritable. by rewrite R, orb_true_r.
    + unfold KipSysCreateProcessFromBuffer. rewrite <- results_writable_ranges in R.
      destruct (_ || _); [done|]. destruct (KipIsRangeReadable A0 A1); cbn [negb andb] in R |- *; [by rewrite R|done].
    + unfold KipSysOpen. rewrite R. by destruct (_ || _).
    + unfold KipSysReadConsole, KipIsRangeWritable. rewrite R. by destruct (_ || _).
    + unfold KipSysRead, KipIsRangeWritable. rewrite R. by destruct (_ || _).
    + unfold KipSysCreateProcessFromFileHandle. rewrite <- results_writable_ranges in R. by rewrite R.
Qed.

(** ** Copies between a caller's memory and the kernel *)

Section Copies.
Context {inv : kernel -> Prop} {view : kernel -> Z -> Z} {good : Z -> Prop} `{V : ByteView kernel inv view good}.

Lemma copy_in_view `{KernelLayout} n : forall A w, inv w -> 0 <= A -> A + Z.of_nat n < 2 ^ 64 ->
  (forall b, A <= b < A + Z.of_nat n -> good b) ->
  copy_in n A w = Ret (map (fun k => view w (A + Z.of_nat k)) (seq 0 n)) w.
Proof using V.
  induction n as [|n IH]; intros A w I A0 L G; [done|]. cbn [copy_in].
  rewrite (bind_eq _ _ _ _ _ (view_read A w I (G A ltac:(lia)))), u64_small by lia.
  rewrite (bind_eq _ _ _ _ _ (IH (A + 1) w I ltac:(lia) ltac:(lia) ltac:(intros b Hb; apply G; lia))).
  unfold ret. cbn [seq map]. rewrite Z.add_0_r, <- seq_shift, map_map. do 2 f_equal. apply map_ext. intros k. f_equal. lia.
Qed.

Lemma copy_out_view `{KernelLayout} l : forall A w, inv w -> 0 <= A -> A + Z.of_nat (length l) < 2 ^ 64 ->
  (forall b, A <= b < A + Z.of_nat (length l) -> good b) -> Forall (fun v => 0 <= v < 256) l ->
  exists w', copy_out l A w = Ret tt w' /\ inv w' /\
    forall b, good b -> view w' b = if (A <=? b) && (b <? A + Z.of_nat (length l)) then nth (Z.to_nat (b - A)) l 0 else view w b.
Proof using V.
  induction l as [|v l IH]; intros A w I A0 L G F; cbn [copy_out length] in *.
  { exists w. split; [done|]. split; [done|]. intros b _. destruct (Z.leb_spec A b), (Z.ltb_spec b (A + Z.of_nat 0)); [lia|done..]. }
  apply Forall_cons in F as [Fv F].
  destruct (view_write A v w I (G A ltac:(lia)) Fv) as (w1 & E1 & I1 & V1). rewrite (bind_eq _ _ _ _ _ E1), u64_small by lia.
  destruct (IH (A + 1) w1 I1 ltac:(lia) ltac:(lia) ltac:(intros b Hb; apply G; lia) F) as (w2 & E2 & I2 & V2).
  exists w2. split; [done|]. split; [done|]. intros b Gb. rewrite (V2 b Gb), (V1 b Gb).
  destruct (Z.eqb_spec A b) as [<-|N].
  - destruct (Z.leb_spec (A + 1) A), (Z.leb_spec A A), (Z.ltb_spec A (A + Z.of_nat (S (length l)))); try lia.
    cbn [andb]. by rewrite Z.sub_diag.
  - destruct (Z.leb_spec (A + 1) b), (Z.leb_spec A b), (Z.ltb_spec b (A + 1 + Z.of_nat (length l))),
      (Z.ltb_spec b (A + Z.of_nat (S (length l)))); cbn [andb]; try done; try lia.
    replace (Z.to_nat (b - A)) with (S (Z.to_nat (b - (A + 1)))) by lia. done.
Qed.
End Copies.

(** What the accepted ranges are used for. *)
Lemma readable_range a n : is_u64 a -> is_u64 n -> KipIsRangeReadable a n = true -> 0 < a /\ a + n < 2 ^ 64.
Proof.
  unfold is_u64, KipIsRangeReadable. intros Ha Hn. destruct (Z.eqb_spec a 0), (Z.eqb_spec n 0); cbn [orb]; try done.
  destruct (Z.lt_ge_cases (a + n) (2 ^ 64)) as [S|S]; [lia|].
  assert (u64 (a + n) = a + n - 2 ^ 64) as -> by (unfold u64; symmetry; apply (Z.mod_unique _ _ 1); lia).
  destruct (Z.ltb_spec (a + n - 2 ^ 64) a); [done|lia].
Qed.

(** The message a send builds from the bytes at [A]. *)
Definition message_at (f : Z -> Z) (A n : Z) : NK_MESSAGE :=
  {| Opcode := 0; Length := n;
     Payload := map (fun k => f (A + Z.of_nat k)) (seq 0 (Z.to_nat n)) ++ replicate (Z.to_nat (NK_MESSAGE_PAYLOAD_BYTES - n)) 0 |}.

Lemma KipSysSend_sends `{KernelLayout} lv a good ext w q cur hs A n Wait : lpc_inv ext w q cur ->
  user_access lv (k_mm w) a good -> is_u64 A -> 0 < n <= NK_MESSAGE_PAYLOAD_BYTES ->
  KipIsRangeReadable A n = true -> (forall b, A <= b < A + n -> good b) ->
  KipSysSend hs A n Wait w =
    (Status <- LpcSendByHandle (u32 hs) (Some (message_at (user_view (k_mm w) a (k_mm w)) A n)) (u32 Wait) ;;
     ret (status_result Status)) w.
Proof.
  unfold NK_MESSAGE_PAYLOAD_BYTES. intros I U HA Hn R G.
  destruct (readable_range A n HA ltac:(unfold is_u64; lia) R) as [A0 AL].
  unfold KipSysSend, NK_MESSAGE_PAYLOAD_BYTES. destruct (Z.gtb_spec n 64), (Z.eqb_spec A 0); try lia. cbn [orb].
  rewrite R. cbn [negb].
  erewrite bind_eq; [done|].
  apply (copy_in_view (V := kernel_view lv a good w U)); [by apply (data_only_refl lv a good)|lia|lia|].
  intros b Hb. apply G. lia.
Qed.

Lemma KipSysReceive_receives `{KernelLayout} lv a good (w w1 : kernel) hr B m msg : is_u64 B -> 0 < m <= NK_MESSAGE_PAYLOAD_BYTES ->
  KipIsRangeReadable B m = true ->
  LpcReceiveByHandle (u32 hr) true 0 w = Ret (KSTATUS_SUCCESS, Some msg) w1 -> user_access lv (k_mm w1) a good ->
  0 <= Length msg <= m -> (Z.to_nat (Length msg) <= length (Payload msg))%nat -> Forall (fun v => 0 <= v < 256) (Payload msg) ->
  (forall b, B <= b < B + Length msg -> good b) ->
  exists m', KipSysReceive hr B m 0 w = Ret (Length msg) (set_k_mm m' w1) /\ only_data lv (k_mm w1) m' /\
    forall b, good b -> user_view (k_mm w1) a m' b =
      if (B <=? b) && (b <? B + Length msg) then nth (Z.to_nat (b - B)) (Payload msg) 0 else user_view (k_mm w1) a (k_mm w1) b.
Proof.
  unfold NK_MESSAGE_PAYLOAD_BYTES. intros HB Hm R E U Hl Lp Fp G.
  destruct (readable_range B m HB ltac:(unfold is_u64; lia) R) as [B0 BL].
  unfold KipSysReceive, NK_MESSAGE_PAYLOAD_BYTES, KipIsRangeWritable. destruct (Z.gtb_spec m 64), (Z.eqb_spec B 0); try lia.
  cbn [orb]. rewrite R. cbn [negb]. change (u32 0) with 0. rewrite (bind_eq _ _ _ _ _ E).
  change (ok KSTATUS_SUCCESS) with true. cbn [negb]. rewrite bind_deref. destruct (Z.gtb_spec (Length msg) m); [lia|].
  assert (Lt : Z.of_nat (length (take (Z.to_nat (Length msg)) (Payload msg))) = Length msg) by (rewrite length_take; lia).
  destruct (copy_out_view (V := kernel_view lv a good w1 U) (take (Z.to_nat (Length msg)) (Payload msg)) B w1)
    as (w2 & E2 & [Ew D] & V2); rewrite ?Lt; [by apply (data_only_refl lv a good)|lia|lia|done|by apply Forall_take|].
  exists (k_mm w2). rewrite <- Ew, (bind_eq _ _ _ _ _ E2). split; [done|]. split; [done|]. intros b Gb.
  rewrite (V2 b Gb), Lt. destruct (Z.leb_spec B b), (Z.ltb_spec b (B + Length msg)); cbn [andb]; try done.
  rewrite !nth_lookup, lookup_take_lt by lia. done.
Qed.

(** C26: a message travels through the system calls byte for byte: when one handle
    may send to an empty port and another may receive from it, sending [n] bytes
    at [A] and receiving into a buffer at [B] of at least that size returns
    success and [n], the buffer then holds the bytes that were at [A], no other
    accessible byte has changed, and the port is empty again. *)
Theorem KipSysSend_KipSysReceive `{KernelLayout} lv a good ext w q c hs hr i A n B m Wait :
  lpc_inv ext w q (Some c) -> user_access lv (k_mm w) a good ->
  resolve w (u32 hs) LPC_PORT_ACCESS_SEND = inr i -> resolve w (u32 hr) LPC_PORT_ACCESS_RECV = inr i ->
  queue_of (k_lpc w) i = Some [] ->
  is_u64 A -> is_u64 B -> 0 < n <= m -> m <= NK_MESSAGE_PAYLOAD_BYTES ->
  KipIsRangeReadable A n = true -> KipIsRangeWritable B m = true ->
  (forall b, A <= b < A + n -> good b) -> (forall b, B <= b < B + n -> good b) ->
  exists w1 w2 q', KipSysSend hs A n Wait w = Ret (status_result KSTATUS_SUCCESS) w1 /\
    KipSysReceive hr B m 0 w1 = Ret n w2 /\ lpc_inv ext w2 q' (Some c) /\
    (forall k, queue_of (k_lpc w2) k = queue_of (k_lpc w) k) /\ only_data lv (k_mm w) (k_mm w2) /\
    forall b, good b -> user_view (k_mm w) a (k_mm w2) b =
      if (B <=? b) && (b <? B + n) then user_view (k_mm w) a (k_mm w) (A + (b - B)) else user_view (k_mm w) a (k_mm w) b.
Proof.
  unfold KipIsRangeWritable. intros I U Rs Rr Q HA HB Hn Hm RA RB GA GB.
  set (f := user_view (k_mm w) a (k_mm w)).
  pose proof (send_refines ext w q (Some c) (u32 hs) (message_at f A n) (u32 Wait) I) as (st & w1 & q1 & E1 & I1 & K1 & _ & P).
  cbn [ports_step] in P. rewrite Rs, Q in P. cbn [Length message_at length Nat.ltb Nat.leb andb] in P.
  destruct (Z.leb_spec n 64); [|unfold NK_MESSAGE_PAYLOAD_BYTES in Hm; lia]. cbn [andb] in P. destruct P as [-> Q1].
  exists w1. pose proof (receive_refines ext w1 q1 c (u32 hr) I1) as (r & w2 & E2 & I2 & K2 & P).
  cbn [ports_step] in P. rewrite (lk_ob _ _ K1), (lk_type _ _ K1), Rr, (Q1 i), decide_True in P by done.
  cbn [app] in P. destruct P as [-> Q2].
  assert (Em : k_mm w2 = k_mm w) by (rewrite (lk_mm _ _ K2); apply K1).
  assert (Bytes : Forall (fun v => 0 <= v < 256) (Payload (message_at f A n))).
  { cbn [Payload message_at]. apply Forall_app. split; [|by apply Forall_replicate].
    apply Forall_map, Forall_forall. intros k Hk%elem_of_seq. apply (view_range (ByteView := kernel_view lv a good w U)).
    - by apply (data_only_refl lv a good). - apply GA. lia. }
  destruct (KipSysReceive_receives lv a good w1 w2 hr B m (message_at f A n) HB ltac:(lia) RB E2) as (m' & E3 & D & V);
    cbn [Length message_at] in *; rewrite ?Em; try done; try lia.
  { cbn [Payload message_at]. rewrite length_app, length_map, length_seq. lia. }
  exists (set_k_mm m' w2), q1. split; [by rewrite (KipSysSend_sends lv a good ext w q (Some c)) by (done || lia);
    rewrite (bind_eq _ _ _ _ _ E1)|]. split; [exact E3|]. split.
  { destruct I2 as [A2 B2 C2]. constructor; [done|done|]. apply (wait_inv_ext w2); [done..|]. apply D. }
  rewrite Em in D, V. split; [|split; [done|]].
  - intros k. change (queue_of (k_lpc w2) k = queue_of (k_lpc w) k). rewrite Q2. destruct (decide (k = i)) as [->|Nk]; [done|].
    rewrite Q1. by rewrite decide_False.
  - intros b Gb. cbn [k_mm set_k_mm]. rewrite (V b Gb). destruct (Z.leb_spec B b), (Z.ltb_spec b (B + n)); cbn [andb]; try done.
    cbn [Payload message_at]. rewrite app_nth1 by (rewrite length_map, length_seq; lia).
    rewrite nth_lookup, list_lookup_fmap, lookup_seq_lt by lia. cbn. f_equal. lia.
Qed.
