(* ===== verification/UserKernel.v ===== *)
(** * The first user program's system calls, on the kernel

    What UserInit.v lets a process see of its system calls is what the kernel's
    dispatcher does: the same checks, the text the kernel reads from the process's
    pages, the same choice of a command, and the characters of the console stored
    one by one. *)

From S2P Require Import Prelude CString BootProto Nk Ob ObInv PhysMem MmPages MmTables MmTablesInv MmSpace MmSection.
From S2P Require Import MmFault Kpe KpeLoad UserMem Ps PsInv PsSpawn Lpc Io Hal Syscall HalIntr.
From S2P Require Import Kernel KernelMem KernelInv LpcInv SyscallInv.
From S2P Require UserInit.

(** ** The debug console *)

Lemma no_command `{KernelLayout} Buffer : command_of Buffer = None -> run_command (W := kernel) Buffer = ret tt.
Proof. unfold run_command. by intros ->. Qed.

(** The command [panic] never returns to its caller. *)
Lemma panic_never_returns `{KernelLayout} Buffer (w w' : kernel) :
  command_of Buffer = Some CmdPanic -> run_command Buffer w <> Ret tt w'.
Proof.
  unfold run_command. intros -> E. cbn [do_command] in E.
  apply bind_Ret_inv in E as (x1 & w1 & _ & E). apply bind_Ret_inv in E as (x2 & w2 & _ & E).
  by apply bind_Ret_inv in E as (x3 & w3 & _ & E).
Qed.

Section Alike.
Context `{KL : KernelLayout} (lv : gmap Z nat) (a : MM_ADDRESS_SPACE) (good : Z -> Prop) (w : kernel).
Context (U : user_access lv (k_mm w) a good).

(** The process's memory is what the processor translates in its address space. *)
Definition memory_of (p : UserInit.process) : Prop :=
  forall b, good b -> load8 (UserInit.p_mem p) b = user_view (k_mm w) a (k_mm w) b.

Context (p : UserInit.process) (P : memory_of p).

Lemma copy_in_bytes A n : 0 <= A -> A + Z.of_nat n < 2 ^ 64 -> (forall b, A <= b < A + Z.of_nat n -> good b) ->
  copy_in n A w = Ret (UserInit.bytes (UserInit.p_mem p) A n) w.
Proof using KL U P.
  intros A0 L G. rewrite (copy_in_view (V := kernel_view lv a good w U)); [|by apply (data_only_refl lv a good)|done..].
  f_equal. apply map_ext_in. intros k Hk%in_seq. symmetry. apply P, G. lia.
Qed.

(** Printing: refused alike; otherwise the kernel prints the bytes that the process
    has there and does the command they start with, and the process sees just that. *)
Lemma debug_print_alike A n x2 x3 x4 x5 : is_u64 A -> is_u64 n -> (forall b, A <= b < A + n -> good b) ->
  let Buffer := UserInit.bytes (UserInit.p_mem p) A (Z.to_nat n) in
  if (n >? KI_SYSCALL_DEBUGPRINT_MAX) || negb (KipIsRangeReadable A n) then
    KiDispatchSystemCall NkSysDebugPrint A n x2 x3 x4 x5 w = Ret (status_result KSTATUS_INVALID_PARAMETER) w /\
    UserInit.int80 UserInit.User.NkSysDebugPrint A n x2 x3 x4 x5 p = Ret (status_result KSTATUS_INVALID_PARAMETER) p
  else
    KiDispatchSystemCall NkSysDebugPrint A n x2 x3 x4 x5 w
      = (HalWriteDebugString (Some Buffer) ;;; run_command Buffer ;;; ret (status_result KSTATUS_SUCCESS)) w /\
    UserInit.int80 UserInit.User.NkSysDebugPrint A n x2 x3 x4 x5 p
      = let p := UserInit.log (UserInit.Printed (cstr_of Buffer)) p in
        match command_of Buffer with
        | None => Ret (status_result KSTATUS_SUCCESS) p
        | Some CmdPanic => Halt (UserInit.reply p)
        | Some _ => Ret (status_result KSTATUS_SUCCESS) (UserInit.reply p)
        end.
Proof using KL U P.
  intros HA Hn G Buffer.
  change (KiDispatchSystemCall NkSysDebugPrint A n x2 x3 x4 x5 w) with (KipSysDebugPrint A n w).
  change (UserInit.int80 UserInit.User.NkSysDebugPrint A n x2 x3 x4 x5 p) with (UserInit.process_print A n p).
  unfold KipSysDebugPrint, UserInit.process_print. destruct (n >? KI_SYSCALL_DEBUGPRINT_MAX); cbn [orb]; [done|].
  destruct (KipIsRangeReadable A n) eqn:R; cbn [negb]; [|done].
  destruct (readable_range A n HA Hn R) as [A0 AL]. unfold is_u64 in *.
  rewrite (bind_eq _ _ _ _ _ (copy_in_bytes A (Z.to_nat n) ltac:(lia) ltac:(lia) ltac:(intros b Hb; apply G; lia))). done.
Qed.

(** Reading one character. *)
Lemma read_console_alike A x2 x3 x4 x5 : 0 <= A < 2 ^ 64 ->
  if KipIsRangeWritable A 1 then
    KiDispatchSystemCall NkSysReadConsole A 1 x2 x3 x4 x5 w
      = (Ch <- HalTryReadConsoleChar true ;;
         match Ch with None => ret 0 | Some c => write_u8 A c ;;; ret 1 end) w /\
    UserInit.int80 UserInit.User.NkSysReadConsole A 1 x2 x3 x4 x5 p
      = (Ch <- UserInit.process_ask ;;
         match Ch with None => ret 0 | Some c => write_u8 A c ;;; ret 1 end) p
  else
    KiDispatchSystemCall NkSysReadConsole A 1 x2 x3 x4 x5 w = Ret (status_result KSTATUS_INVALID_PARAMETER) w /\
    UserInit.int80 UserInit.User.NkSysReadConsole A 1 x2 x3 x4 x5 p = Ret (status_result KSTATUS_INVALID_PARAMETER) p.
Proof using KL.
  intros HA.
  change (KiDispatchSystemCall NkSysReadConsole A 1 x2 x3 x4 x5 w) with (KipSysReadConsole A 1 w).
  change (UserInit.int80 UserInit.User.NkSysReadConsole A 1 x2 x3 x4 x5 p) with (UserInit.process_read_console A 1 p).
  unfold KipSysReadConsole, UserInit.process_read_console.
  destruct (Z.eqb_spec A 0) as [->|N]; [done|]. cbn [orb Z.eqb].
  destruct (KipIsRangeWritable A 1); cbn [negb]; [|done]. change (Z.to_nat 1) with 1%nat.
  cbn [read_console UserInit.process_read]. by rewrite Z.add_0_r, u64_small by lia.
Qed.
End Alike.
