(* ===== verification/HalIntrInv.v ===== *)
(** * Interrupts: theorems

    What the processor reads in the tables the code fills: every gate leads to
    the handler meant for its vector, the system call is the only one user mode
    may raise, and the selectors name the segments the code counts on. *)

From S2P Require Import Prelude CString BootProto Nk Ob PhysMem MmPages MmTables MmSpace MmSection MmDump.
From S2P Require Import Kpe KpeLoad MmTablesInv MmFault UserMem Ps PsSpawn Lpc Io Hal Syscall HalIntr HalStart Threads.
From S2P Require Import Arch Kernel KernelInv.

(** ** The processor's view *)

(** An interrupt gate: its target and its attribute byte. *)
Definition gate_offset (e : AUR64_IDT_ENTRY) : Z := OffsetLow e + OffsetMiddle e * 2 ^ 16 + OffsetHigh e * 2 ^ 32.
Definition gate_present (e : AUR64_IDT_ENTRY) : bool := Z.testbit (Attributes e) 7.
Definition gate_dpl (e : AUR64_IDT_ENTRY) : Z := Z.land (Z.shiftr (Attributes e) 5) 3.
Definition gate_type (e : AUR64_IDT_ENTRY) : Z := Z.land (Attributes e) 0xF.

(** The descriptor a selector names. *)
Definition descriptor (s : intr_state) (Selector_ : Z) : option Z := gAur64Gdt s !! Z.to_nat (Z.shiftr Selector_ 3).

(** A code or data segment, every field of it as the processor decodes it: the
    limit counts pages when [sg_pages] is set; a segment that is no system one is
    code or data, conforming (data: growing down), and readable (data: writable). *)
Record segment := {
  sg_base : Z;
  sg_limit : Z;
  sg_present : bool;
  sg_dpl : Z;
  sg_system : bool;
  sg_code : bool;
  sg_conforming : bool;
  sg_access : bool;
  sg_long : bool;
  sg_32bit : bool;
  sg_pages : bool }.

Definition segment_of (d : Z) : segment :=
  {| sg_base := Z.land (Z.shiftr d 16) 0xFFFFFF + Z.land (Z.shiftr d 56) 0xFF * 2 ^ 24;
     sg_limit := Z.land d 0xFFFF + Z.land (Z.shiftr d 48) 0xF * 2 ^ 16;
     sg_present := Z.testbit d 47;
     sg_dpl := Z.land (Z.shiftr d 45) 3;
     sg_system := negb (Z.testbit d 44);
     sg_code := Z.testbit d 43;
     sg_conforming := Z.testbit d 42;
     sg_access := Z.testbit d 41;
     sg_long := Z.testbit d 53;
     sg_32bit := Z.testbit d 54;
     sg_pages := Z.testbit d 55 |}.

(** The segments of a 64-bit kernel: all memory, present, of one privilege; the
    code is 64-bit, readable and not conforming, the data writable. *)
Definition code_segment (ring : Z) : segment :=
  {| sg_base := 0; sg_limit := 0xFFFFF; sg_present := true; sg_dpl := ring; sg_system := false; sg_code := true;
     sg_conforming := false; sg_access := true; sg_long := true; sg_32bit := false; sg_pages := true |}.
Definition data_segment (ring : Z) : segment :=
  {| sg_base := 0; sg_limit := 0xFFFFF; sg_present := true; sg_dpl := ring; sg_system := false; sg_code := false;
     sg_conforming := false; sg_access := true; sg_long := false; sg_32bit := false; sg_pages := true |}.

(** The segment a selector gets its user: the one it names, asked for with the
    segment's own privilege. *)
Definition selects (s : intr_state) (Selector_ : Z) (g : segment) : Prop :=
  segment_of <$> descriptor s Selector_ = Some g /\ Z.land Selector_ 3 = sg_dpl g.

(** A system descriptor takes two quadwords. *)
Definition system_base (low high : Z) : Z :=
  Z.land (Z.shiftr low 16) 0xFFFFFF + Z.land (Z.shiftr low 56) 0xFF * 2 ^ 24 + high * 2 ^ 32.
Definition system_limit (low : Z) : Z := Z.land low 0xFFFF + Z.land (Z.shiftr low 48) 0xF * 2 ^ 16.

(** The descriptor of a task state at [base]: present, ring 0, an available 64-bit
    task state, its limit in bytes, and nothing in the reserved bits. *)
Record task_descriptor (base limit low high : Z) : Prop := {
  td_base : system_base low high = base;
  td_limit : system_limit low = limit;
  td_present : sg_present (segment_of low) = true;
  td_dpl : sg_dpl (segment_of low) = 0;
  td_type : sg_system (segment_of low) = true /\ Z.land (Z.shiftr low 40) 0xF = 9;
  td_flags : Z.land (Z.shiftr low 52) 0xF = 0;
  td_reserved : Z.shiftr high 32 = 0 }.

(** ** Writing and reading *)

Lemma gate_round_trip Address Attributes_ : is_u64 Address -> gate_offset (idt_entry Address Attributes_) = Address.
Proof.
  unfold is_u64, gate_offset, idt_entry. cbn [OffsetLow OffsetMiddle OffsetHigh]. intros H.
  change 0xFFFF with (Z.ones 16). change 0xFFFFFFFF with (Z.ones 32).
  rewrite !Z.land_ones, !Z.shiftr_div_pow2 by lia. change (2 ^ 16) with 65536. change (2 ^ 32) with 4294967296. zlia.
Qed.

Lemma tss_round_trip Base Limit : is_u64 Base -> 0 <= Limit < 2 ^ 16 ->
  let '(low, high) := tss_descriptor Base Limit in
  task_descriptor Base Limit low high.
Proof.
  unfold is_u64. intros HB HL. unfold tss_descriptor.
  change 0xFFFF with (Z.ones 16). change 0xFF with (Z.ones 8). change 0x0F with (Z.ones 4).
  rewrite !Z.land_ones, !Z.shiftr_div_pow2 by lia.
  rewrite (Z.mod_small Limit) by lia. rewrite (Z.div_small Limit) by lia. rewrite Z.mod_0_l by lia.
  rewrite Z.shiftl_0_l, Z.lor_0_r.
  pose proof (Z.mod_pos_bound Base (2 ^ 16) ltac:(lia)) as B0.
  pose proof (Z.mod_pos_bound (Base / 2 ^ 16) (2 ^ 8) ltac:(lia)) as B1.
  pose proof (Z.mod_pos_bound (Base / 2 ^ 24) (2 ^ 8) ltac:(lia)) as B2.
  set (b0 := Base mod 2 ^ 16) in *. set (b1 := (Base / 2 ^ 16) mod 2 ^ 8) in *. set (b2 := (Base / 2 ^ 24) mod 2 ^ 8) in *.
  rewrite (lor_shiftl Limit b0 16) by lia. rewrite (lor_shiftl _ b1 32) by lia.
  rewrite (lor_shiftl _ 0x89 40) by lia. rewrite (lor_shiftl _ b2 56) by lia.
  set (low := Limit + b0 * 2 ^ 16 + b1 * 2 ^ 32 + 0x89 * 2 ^ 40 + b2 * 2 ^ 56).
  assert (D16 : low / 2 ^ 16 = b0 + b1 * 2 ^ 16 + 0x89 * 2 ^ 24 + b2 * 2 ^ 40) by (unfold low; zlia).
  assert (D56 : low / 2 ^ 56 = b2) by (unfold low; zlia).
  assert (D52 : low / 2 ^ 52 = b2 * 2 ^ 4) by (unfold low; zlia).
  assert (D48 : low / 2 ^ 48 = b2 * 2 ^ 8) by (unfold low; zlia).
  assert (D45 : low / 2 ^ 45 = 4 + b2 * 2 ^ 11) by (unfold low; zlia).
  assert (D40 : low / 2 ^ 40 = 0x89 + b2 * 2 ^ 16) by (unfold low; zlia).
  assert (M16 : low mod 2 ^ 16 = Limit) by (unfold low; zlia).
  assert (E1 : (b0 + b1 * 2 ^ 16 + 0x89 * 2 ^ 24 + b2 * 2 ^ 40) mod 2 ^ 24 = b0 + b1 * 2 ^ 16) by zlia.
  assert (Bit : forall k, 0 <= k < 8 -> Z.testbit low (40 + k) = Z.testbit 0x89 k).
  { intros k Hk. rewrite Z.add_comm, <- Z.shiftr_spec, Z.shiftr_div_pow2, D40 by lia.
    rewrite <- (Z.mod_pow2_bits_low _ 16) by lia. f_equal. zlia. }
  constructor; unfold system_base, system_limit, segment_of, u32; cbn [sg_present sg_dpl sg_system];
    change 0xFFFFFF with (Z.ones 24); change 0xFFFF with (Z.ones 16); change 0xFF with (Z.ones 8);
    change 0xF with (Z.ones 4); change 3 with (Z.ones 2); rewrite ?Z.land_ones, ?Z.shiftr_div_pow2 by lia.
  - rewrite D16, D56, E1, (Z.mod_small b2) by lia. unfold b0, b1, b2. change (2 ^ 16) with 65536.
    change (2 ^ 8) with 256. change (2 ^ 24) with 16777216. change (2 ^ 32) with 4294967296. zlia.
  - rewrite M16, D48. zlia.
  - exact (Bit 7 ltac:(lia)).
  - rewrite D45. zlia.
  - split; [|rewrite D40; zlia]. change 44 with (40 + 4). by rewrite (Bit 4 ltac:(lia)).
  - rewrite D52. zlia.
  - zlia.
Qed.

(** ** Filling the interrupt table *)

Lemma put_idt_spec v e s : (v < length (gAur64Idt s))%nat ->
  put_idt v e s = Ret tt (set_idt (<[v := e]> (gAur64Idt s)) (idtr s) s).
Proof.
  intros L. unfold put_idt, store_at. by destruct (Nat.ltb_spec v (length (gAur64Idt s))); [|lia].
Qed.

(** The state with another table. *)
Definition with_idt (l : list AUR64_IDT_ENTRY) (s : intr_state) : intr_state := set_idt l (idtr s) s.

Lemma default_handlers_spec H n : forall i s, (i + n <= length (gAur64Idt s))%nat ->
  exists l, default_handlers n i H s = Ret tt (with_idt l s) /\ length l = length (gAur64Idt s) /\
    forall v, l !! v = if decide (i <= v < i + n)%nat then Some (idt_entry H 0x8E) else gAur64Idt s !! v.
Proof.
  induction n as [|n IH]; intros i s L; cbn [default_handlers].
  { exists (gAur64Idt s). split; [by destruct s|]. split; [done|]. intros v. by rewrite decide_False by lia. }
  unfold HalpSetIdtEntry at 1. rewrite (bind_eq _ _ _ _ _ (put_idt_spec i (idt_entry H 0x8E) s ltac:(lia))).
  destruct (IH (S i) (set_idt (<[i := idt_entry H 0x8E]> (gAur64Idt s)) (idtr s) s)) as (l & E & Ll & Lk).
  { cbn. rewrite length_insert. lia. }
  exists l. split; [exact E|]. cbn [gAur64Idt set_idt] in Ll, Lk. rewrite length_insert in Ll. split; [done|]. intros v. rewrite Lk.
  destruct (decide (S i <= v < S i + n)%nat).
  - by rewrite decide_True by lia.
  - destruct (decide (i = v)) as [<-|N].
    + rewrite list_lookup_insert_eq by lia. by rewrite decide_True by lia.
    + rewrite list_lookup_insert_ne by done. by rewrite decide_False by lia.
Qed.

(** The handler meant for a vector, and who may raise it. *)
Definition handler_of (h : handlers) (v : nat) : Z :=
  if (v =? 6)%nat then HalpInvalidOpcodeInterruptHandler_at h
  else if (v =? 13)%nat then HalpGeneralProtectionInterruptHandler_at h
  else if (v =? 14)%nat then HalpPageFaultInterruptHandler_at h
  else if (v =? 32)%nat then HalpTimerInterruptHandler_at h
  else if (v =? 128)%nat then HalpSyscallInterruptHandler_at h
  else HalpDefaultInterruptHandler_at h.
Definition gate_of (h : handlers) (v : nat) : AUR64_IDT_ENTRY :=
  idt_entry (handler_of h v) (if (v =? 128)%nat then 0xEE else 0x8E).

Lemma fill_idt_spec h s : length (gAur64Idt s) = 256%nat ->
  exists l, fill_idt h s = Ret tt (with_idt l s) /\ length l = 256%nat /\ forall v, (v < 256)%nat -> l !! v = Some (gate_of h v).
Proof.
  intros L. unfold fill_idt, HalpSetIdtEntryDpl, HalpSetIdtEntry.
  destruct (default_handlers_spec (HalpDefaultInterruptHandler_at h) 256 0 s ltac:(lia)) as (l & E & Ll & Lk).
  rewrite (bind_eq _ _ _ _ _ E). clear E. unfold HALP_IRQ_BASE_VECTOR, HALP_PAGE_FAULT_VECTOR, HALP_SYSCALL_VECTOR.
  change (Z.to_nat 32) with 32%nat. change (Z.to_nat 14) with 14%nat. change (Z.to_nat 0x80) with 128%nat.
  do 4 (erewrite (bind_eq (put_idt _ _)) by (apply put_idt_spec; cbn; rewrite ?length_insert; lia)).
  rewrite put_idt_spec by (cbn; rewrite ?length_insert; lia). eexists. split; [reflexivity|].
  split; [cbn; rewrite !length_insert; lia|]. intros v Hv. cbn [gAur64Idt set_idt with_idt].
  assert (Lv : l !! v = Some (idt_entry (HalpDefaultInterruptHandler_at h) 0x8E)) by (rewrite Lk, decide_True; [done|lia]).
  change (u8 (Z.lor 0x8E (Z.shiftl (Z.land 3 0x3) 5))) with 0xEE.
  repeat match goal with
  | |- <[?k := _]> _ !! v = _ =>
      destruct (decide (k = v)) as [<-|]; [rewrite list_lookup_insert_eq by (rewrite ?length_insert; lia); reflexivity|
        rewrite list_lookup_insert_ne by done]
  end.
  rewrite Lv. unfold gate_of, handler_of.
  repeat match goal with |- context [(v =? ?k)%nat] => destruct (Nat.eqb_spec v k); [congruence|] end. done.
Qed.

(** ** Properties *)

Lemma initialize_interrupts_spec Rsp h (w : kernel) :
  length (gAur64Idt (k_intr w)) = 256%nat -> length (gAur64Gdt (k_intr w)) = 8%nat -> is_u64 (tss_address (k_intr w)) ->
  (forall v, is_u64 (handler_of h v)) ->
  exists s, HalpInitializeInterrupts Rsp h w = Ret tt (set_ports_used (k_clock w)
      (k_outputs w ++ [(0x20, 0x11); (0xA0, 0x11); (0x21, 32); (0xA1, 40); (0x21, 4); (0xA1, 2); (0x21, 1); (0xA1, 1);
                       (0x21, 0xFE); (0xA1, 0xFF)]) (set_k_intr s w)) /\
    (forall v, (v < 256)%nat -> exists e, gAur64Idt s !! v = Some e /\ gate_offset e = handler_of h v /\
       gate_present e = true /\ gate_type e = 0xE /\ gate_dpl e = (if (v =? 128)%nat then 3 else 0) /\
       Selector e = HALP_SEL_KERNEL_CODE) /\
    gAur64Gdt s !! 0%nat = Some 0 /\
    selects s HALP_SEL_KERNEL_CODE (code_segment 0) /\ selects s HALP_SEL_KERNEL_DATA (data_segment 0) /\
    selects s AUR64_USER_CODE_SELECTOR (code_segment 3) /\ selects s AUR64_USER_DATA_SELECTOR (data_segment 3) /\
    (exists low high, descriptor s HALP_SEL_TSS = Some low /\ gAur64Gdt s !! 6%nat = Some high /\
       task_descriptor (tss_address s) (sizeof_AUR64_TSS64 - 1) low high) /\
    tss_address s = tss_address (k_intr w) /\ Rsp0 (gAur64Tss s) = Rsp /\ idtr s = Some (4095, idt_address s) /\ gdtr s = Some (63, gdt_address s) /\
    task_register s = Some HALP_SEL_TSS.
Proof.
  intros Li Lg Ha Hh. unfold HalpInitializeInterrupts.
  pose proof (tss_round_trip (tss_address (k_intr w)) (sizeof_AUR64_TSS64 - 1) Ha ltac:(by vm_compute)) as T.
  destruct (tss_descriptor (tss_address (k_intr w)) (sizeof_AUR64_TSS64 - 1)) as [low high] eqn:Et.
  destruct (HalpInitializeSegments Rsp (k_intr w)) as [[] s1| |] eqn:E1; unfold HalpInitializeSegments in E1; rewrite Et in E1; try done.
  injection E1 as E1.
  destruct (fill_idt_spec h s1) as (l & E2 & Ll & Lk); [by rewrite <- E1|].
  exists (set_idt l (Some (256 * sizeof_AUR64_IDT_ENTRY - 1, idt_address s1)) s1). split.
  { assert (F1 : intr (HalpInitializeSegments Rsp) w = Ret tt (set_k_intr s1 w)).
    { unfold intr, zoom, HalpInitializeSegments. cbn [intr_get kernel_intr]. by rewrite Et, <- E1. }
    rewrite (bind_eq _ _ _ _ _ F1).
    assert (F2 : intr (fill_idt h) (set_k_intr s1 w) = Ret tt (set_k_intr (with_idt l s1) (set_k_intr s1 w))).
    { unfold intr, zoom. cbn [intr_get kernel_intr k_intr set_k_intr]. by rewrite E2. }
    rewrite (bind_eq _ _ _ _ _ F2). set (w2 := set_k_intr (with_idt l s1) (set_k_intr s1 w)).
    unfold HalpRemapPic, load_idt, intr, zoom, modify, bind. cbn. rewrite <- !app_assoc. reflexivity. }
  split.
  { intros v Hv. exists (gate_of h v). split; [exact (Lk v Hv)|]. split; [by apply gate_round_trip|].
    unfold gate_of. by destruct (v =? 128)%nat. }
  rewrite <- E1. split; [done|]. do 4 (split; [split; reflexivity|]). split; [|done].
  exists low, high. split_and!; done.
Qed.

(** C35: starting the interrupts installs what the processor needs: every vector's
    gate is a present interrupt gate that leads to the handler meant for it
    through the kernel's code segment, and only the system call's may be raised
    from user mode.  The descriptor table starts with the null descriptor; the
    kernel's selectors name the present flat 64-bit code and data segments of ring
    0, and the two selectors the way into user mode loads name those of ring 3, each
    with every field of its descriptor; the descriptor of the task state decodes to
    its address and limit, present and available.  The stack pointer for interrupts
    is the current one, the registers hold the tables, and the interrupt controller
    is told its vectors and masks in this order; nothing else of the kernel changes. *)
Theorem HalpInitializeInterrupts_installs Rsp h (w : kernel) :
  length (gAur64Idt (k_intr w)) = 256%nat -> length (gAur64Gdt (k_intr w)) = 8%nat -> is_u64 (tss_address (k_intr w)) ->
  (forall v, is_u64 (handler_of h v)) ->
  exists s, HalpInitializeInterrupts Rsp h w = Ret tt (set_ports_used (k_clock w)
      (k_outputs w ++ [(0x20, 0x11); (0xA0, 0x11); (0x21, 32); (0xA1, 40); (0x21, 4); (0xA1, 2); (0x21, 1); (0xA1, 1);
                       (0x21, 0xFE); (0xA1, 0xFF)]) (set_k_intr s w)) /\
    (forall v, (v < 256)%nat -> exists e, gAur64Idt s !! v = Some e /\ gate_offset e = handler_of h v /\
       gate_present e = true /\ gate_type e = 0xE /\ gate_dpl e = (if (v =? 128)%nat then 3 else 0) /\
       Selector e = HALP_SEL_KERNEL_CODE) /\
    gAur64Gdt s !! 0%nat = Some 0 /\
    selects s HALP_SEL_KERNEL_CODE (code_segment 0) /\ selects s HALP_SEL_KERNEL_DATA (data_segment 0) /\
    selects s AUR64_USER_CODE_SELECTOR (code_segment 3) /\ selects s AUR64_USER_DATA_SELECTOR (data_segment 3) /\
    (exists low high, descriptor s HALP_SEL_TSS = Some low /\ gAur64Gdt s !! 6%nat = Some high /\
       task_descriptor (tss_address s) (sizeof_AUR64_TSS64 - 1) low high) /\
    tss_address s = tss_address (k_intr w) /\ Rsp0 (gAur64Tss s) = Rsp /\ idtr s = Some (4095, idt_address s) /\ gdtr s = Some (63, gdt_address s) /\
    task_register s = Some HALP_SEL_TSS.
Proof. exact (initialize_interrupts_spec Rsp h w). Qed.
