(* ===== verification/HalInv.v ===== *)
(** * The framebuffer console: theorems

    The console refines a screen: a picture and a cursor.  Whatever is printed,
    the code ends, writes pixels inside the framebuffer only, and the picture is
    the one the abstract console paints. *)

From S2P Require Import Prelude CString BootProto Nk Ob PhysMem MmPages MmTables MmTablesInv MmSpace MmSection MmDump MmFault.
From S2P Require Import Kpe KpeLoad UserMem Ps PsSpawn Lpc Io Hal Syscall HalIntr Kernel KernelMem KernelInv.

(** ** The abstract console *)

Definition picture := Z -> Z -> Z.

Definition put (X Y Color : Z) (S : picture) : picture := fun x y => if (x =? X) && (y =? Y) then Color else S x y.

Definition inside (X Y W H x y : Z) : bool := (X <=? x) && (x <? X + W) && (Y <=? y) && (y <? Y + H).
Definition fill (X Y W H Color : Z) (S : picture) : picture := fun x y => if inside X Y W H x y then Color else S x y.

(** A text line up; nothing on a screen of one line. *)
Definition scroll (c : hal_console) (S : picture) : picture :=
  if gHalFbHeight c <=? 16 then S
  else fun x y => if y <? gHalFbHeight c - 16 then S x (y + 16) else gHalFbBg c.

(** The dots of a glyph. *)
Definition glyph (c : hal_console) (Ch X Y : Z) (S : picture) : picture := fun x y =>
  if inside X Y 8 16 x y && Z.testbit (font_row Ch (Z.to_nat (y - Y))) (7 - (x - X)) then gHalFbColor c else S x y.

Record screen := { sx : Z; sy : Z; spix : picture }.

Definition cell (c : hal_console) (s : screen) : picture := fill (sx s * 9) (sy s * 16) 9 16 (gHalFbBg c) (spix s).
(** A cursor below the last line scrolls. *)
Definition settle (c : hal_console) (s : screen) : screen :=
  if gHalFbRows c <=? sy s then {| sx := sx s; sy := gHalFbRows c - 1; spix := scroll c (spix s) |} else s.

Definition print_char (c : hal_console) (Ch : Z) (s : screen) : screen :=
  if Ch =? 13 then {| sx := 0; sy := sy s; spix := spix s |}
  else if Ch =? 10 then settle c {| sx := 0; sy := sy s + 1; spix := spix s |}
  else if Ch =? 8 then
    if 0 <? sx s then let s := {| sx := sx s - 1; sy := sy s; spix := spix s |} in {| sx := sx s; sy := sy s; spix := cell c s |}
    else if 0 <? sy s then
      let s := {| sx := gHalFbCols c - 1; sy := sy s - 1; spix := spix s |} in {| sx := sx s; sy := sy s; spix := cell c s |}
    else s
  else
    let s := settle c (if gHalFbCols c <=? sx s then {| sx := 0; sy := sy s + 1; spix := spix s |} else s) in
    {| sx := sx s + 1; sy := sy s;
       spix := glyph c (if (Ch <? 0x20) || (0x7E <? Ch) then 63 else Ch) (sx s * 9) (sy s * 16) (cell c s) |}.

(** A string, up to its NUL. *)
Fixpoint print_string (c : hal_console) (m : cstr) (s : screen) : screen :=
  match m with
  | [] => s
  | Ch :: m => if Ch =? 0 then s else print_string c m (print_char c Ch s)
  end.

(** ** The code's framebuffer *)

(** The geometry the loader reports: the rows do not overlap and the framebuffer
    has fewer than 2^31 pixels. *)
Record fb_ok (c : hal_console) : Prop := {
  fo_ready : gHalFbReady c = true;
  fo_base : 0 <= gHalFb c;
  fo_width : 0 < gHalFbWidth c <= gHalFbPitch c;
  fo_height : 0 < gHalFbHeight c;
  fo_size : gHalFbHeight c * gHalFbPitch c <= 2 ^ 31;
  fo_color : is_u32 (gHalFbColor c);
  fo_bg : is_u32 (gHalFbBg c);
  fo_cols : gHalFbCols c = gHalFbWidth c / 9 /\ 0 < gHalFbCols c;
  fo_rows : gHalFbRows c = gHalFbHeight c / 16 /\ 0 < gHalFbRows c }.

Definition on_screen (c : hal_console) (x y : Z) : Prop := 0 <= x < gHalFbWidth c /\ 0 <= y < gHalFbHeight c.
Definition dot (c : hal_console) (x y : Z) : Z := gHalFb c + 4 * (y * gHalFbPitch c + x).

Lemma dot_range c x y : fb_ok c -> on_screen c x y ->
  gHalFb c <= dot c x y /\ dot c x y + 4 <= gHalFb c + 4 * (gHalFbHeight c * gHalFbPitch c).
Proof. intros [_ _ W _ _ _ _ _ _] [X Y]. unfold dot. split; nia. Qed.

Lemma pixel_dot c x y : fb_ok c -> on_screen c x y -> pixel c x y = dot c x y.
Proof.
  intros [_ _ W Hh Sz _ _ _ _] [X Y]. unfold pixel, dot, u32. assert (0 <= y * gHalFbPitch c) by nia.
  assert (y * gHalFbPitch c + x < 2 ^ 31) by nia. rewrite (Z.mod_small (y * _)) by lia. by rewrite Z.mod_small by lia.
Qed.

Lemma dot_apart c x y x' y' b : fb_ok c -> on_screen c x y -> on_screen c x' y' -> (x, y) <> (x', y') ->
  dot c x y <= b < dot c x y + 4 -> ~ dot c x' y' <= b < dot c x' y' + 4.
Proof.
  intros [_ _ W _ _ _ _ _ _] [X Y] [X' Y'] N. unfold dot. intros B B'.
  assert (y * gHalFbPitch c + x = y' * gHalFbPitch c + x') as E by lia. apply N.
  assert (y = y') as -> by nia. f_equal. lia.
Qed.

Lemma any_flag_pow2 x k : 0 <= k -> any_flag x (2 ^ k) = Z.testbit x k.
Proof.
  intros Hk. unfold any_flag. destruct (Z.testbit x k) eqn:E; destruct (Z.eqb_spec (Z.land x (2 ^ k)) 0) as [H|H]; try done.
  - apply (f_equal (fun z => Z.testbit z k)) in H. by rewrite Z.land_spec, E, Z.pow2_bits_true, Z.bits_0 in H by done.
  - destruct H. apply Z.bits_inj'. intros i Hi. rewrite Z.land_spec, Z.bits_0, Z.pow2_bits_eqb by done.
    destruct (Z.eqb_spec k i) as [<-|]; [by rewrite E|apply andb_false_r].
Qed.

Definition font_table : list (list Z) := map (fun Ch => map (font_row (Z.of_nat Ch)) (seq 0 16)) (seq 0 128).

Section Console.
Context (lv : gmap Z nat) (m0 : mm_machine) (a : MM_ADDRESS_SPACE) (good : Z -> Prop) (U : user_access lv m0 a good).
Context (c : hal_console) (Ok : fb_ok c).
Context (Fb : forall b, gHalFb c <= b < gHalFb c + 4 * (gHalFbHeight c * gHalFbPitch c) -> good b).

Let bytes (w : kernel) : Z -> Z := user_view m0 a (k_mm w).
(** The picture in the framebuffer. *)
Definition picture_of (w : kernel) : picture := fun x y => word 4 (bytes w) (dot c x y).

(** [w] is [r] but for the picture, which is [S]. *)
Record shows (r w : kernel) (S : picture) : Prop := {
  sh_mm : k_mm r = m0;
  sh_rest : data_only lv r w;
  sh_picture : forall x y, on_screen c x y -> picture_of w x y = S x y;
  sh_outside : forall b, good b -> ~ gHalFb c <= b < gHalFb c + 4 * (gHalFbHeight c * gHalFbPitch c) -> bytes w b = bytes r b }.

Lemma base_access r : k_mm r = m0 -> user_access lv (k_mm r) a good.
Proof using U. by intros ->. Qed.

Lemma dot_good x y b : on_screen c x y -> dot c x y <= b < dot c x y + 4 -> good b.
Proof using Ok Fb. intros Hs Hb. apply Fb. pose proof (dot_range c x y Ok Hs). lia. Qed.

Lemma read_dot r w S x y : shows r w S -> on_screen c x y -> read_le 4 (dot c x y) w = Ret (picture_of w x y) w.
Proof using U Ok Fb.
  intros [Er D _ _] Hs. pose proof (kernel_view lv a good r (base_access r Er)) as V.
  rewrite (read_le_view (V := V)); [by rewrite Er|done|]. intros b Hb. by apply (dot_good x y).
Qed.

(** Four bytes written: a word, and the others as before. *)
Lemma write_bytes r n : forall p v w, k_mm r = m0 -> data_only lv r w -> (forall b, p <= b < p + Z.of_nat n -> good b) ->
  exists w', write_le n p v w = Ret tt w' /\ data_only lv r w' /\
    forall b, good b -> bytes w' b = if (p <=? b) && (b <? p + Z.of_nat n) then (v / 256 ^ (b - p)) mod 256 else bytes w b.
Proof using U.
  intros p v w Er. pose proof (kernel_view lv a good r (base_access r Er)) as V. revert p v w.
  induction n as [|n IH]; intros p v w D G; cbn [write_le].
  { exists w. split; [done|]. split; [done|]. intros b _. destruct (Z.leb_spec p b), (Z.ltb_spec b (p + Z.of_nat 0)); [lia|done..]. }
  destruct (view_write (ByteView := V) p (v mod 256) w D (G p ltac:(lia)) ltac:(apply Z.mod_pos_bound; lia)) as (w1 & E1 & D1 & V1).
  rewrite (bind_eq _ _ _ _ _ E1). destruct (IH (p + 1) (v / 256) w1 D1) as (w2 & E2 & D2 & V2); [intros b Hb; apply G; lia|].
  exists w2. split; [done|]. split; [done|]. intros b Gb. rewrite (V2 b Gb). specialize (V1 b Gb). rewrite Er in V1.
  fold (bytes w1) in V1. fold (bytes w) in V1. change (user_view m0 a (k_mm w1) b) with (bytes w1 b) in V1. rewrite V1.
  clear V1 V2. destruct (Z.eqb_spec p b) as [Epb|N].
  - rewrite <- Epb. destruct (Z.leb_spec (p + 1) p), (Z.leb_spec p p), (Z.ltb_spec p (p + Z.of_nat (S n))); try lia. cbn [andb].
    by rewrite Z.sub_diag, Z.pow_0_r, Z.div_1_r.
  - destruct (Z.leb_spec (p + 1) b), (Z.leb_spec p b), (Z.ltb_spec b (p + 1 + Z.of_nat n)),
      (Z.ltb_spec b (p + Z.of_nat (S n))); cbn [andb]; try done; try lia.
    replace (b - p) with (1 + (b - (p + 1))) by lia. rewrite Z.pow_add_r by lia. by rewrite Z.div_div by lia.
Qed.

Lemma write_dot r w S x y Color : shows r w S -> on_screen c x y -> is_u32 Color ->
  exists w', write_le 4 (dot c x y) Color w = Ret tt w' /\ shows r w' (put x y Color S).
Proof using U Ok Fb.
  intros [Er D P O] Hs Hc. destruct (write_bytes r 4 (dot c x y) Color w Er D) as (w' & E & D' & V).
  { intros b Hb. by apply (dot_good x y). }
  change (Z.of_nat 4) with 4 in V. exists w'. split; [done|]. constructor; [done|done| |].
  - intros x' y' Hs'. unfold put. destruct (Z.eqb_spec x' x) as [->|Nx], (Z.eqb_spec y' y) as [->|Ny]; cbn [andb].
    + unfold picture_of, word. rewrite !V by (apply (dot_good x y); [done|lia]).
      repeat match goal with |- context [(?p <=? ?q) && (?q' <? ?z)] =>
        destruct (Z.leb_spec p q), (Z.ltb_spec q' z); try lia; cbn [andb] end.
      unfold is_u32 in Hc. replace (dot c x y - dot c x y) with 0 by lia. replace (dot c x y + 1 - dot c x y) with 1 by lia.
      replace (dot c x y + 1 + 1 - dot c x y) with 2 by lia. replace (dot c x y + 1 + 1 + 1 - dot c x y) with 3 by lia.
      change (256 ^ 0) with 1. change (256 ^ 1) with 256. change (256 ^ 2) with 65536. change (256 ^ 3) with 16777216. zlia.
    + rewrite <- P by done. apply word_ext. intros b Hb. rewrite V by by apply (dot_good x y').
      destruct (Z.leb_spec (dot c x y) b), (Z.ltb_spec b (dot c x y + 4)); cbn [andb]; try done.
      exfalso. apply (dot_apart c x y x y' b); [done..|congruence|lia|lia].
    + rewrite <- P by done. apply word_ext. intros b Hb. rewrite V by by apply (dot_good x' y).
      destruct (Z.leb_spec (dot c x y) b), (Z.ltb_spec b (dot c x y + 4)); cbn [andb]; try done.
      exfalso. apply (dot_apart c x y x' y b); [done..|congruence|lia|lia].
    + rewrite <- P by done. apply word_ext. intros b Hb. rewrite V by by apply (dot_good x' y').
      destruct (Z.leb_spec (dot c x y) b), (Z.ltb_spec b (dot c x y + 4)); cbn [andb]; try done.
      exfalso. apply (dot_apart c x y x' y' b); [done..|congruence|lia|lia].
  - intros b Gb Nb. rewrite V by done. pose proof (dot_range c x y Ok Hs).
    destruct (Z.leb_spec (dot c x y) b), (Z.ltb_spec b (dot c x y + 4)); cbn [andb]; [lia|by apply O..].
Qed.

Lemma shows_ext r w S S' : (forall x y, on_screen c x y -> S x y = S' x y) -> shows r w S -> shows r w S'.
Proof using. intros E [A B C D]. constructor; [done|done| |done]. intros x y Hs. rewrite <- E by done. by apply C. Qed.

(** ** The painters *)

(** The console as [r] has it. *)
Definition console_at (r : kernel) (x y : Z) : Prop := console (k_hal r) = set_cursor x y c.

Lemma get_console_at {B} r w S x y (k : hal_console -> M kernel B) : shows r w S -> console_at r x y ->
  bind get_console k w = k (set_cursor x y c) w.
Proof using.
  intros [_ [-> _] _ _] E. unfold get_console. rewrite bind_gets. change (hal_get (set_k_mm (k_mm w) r)) with (k_hal r).
  by rewrite E.
Qed.

Lemma put_pixel_shows r w S x0 y0 X Y Color : shows r w S -> console_at r x0 y0 -> 0 <= X -> 0 <= Y -> is_u32 Color ->
  exists w', HalpFbPutPixel X Y Color w = Ret tt w' /\ shows r w' (put X Y Color S).
Proof using U Ok Fb.
  intros Sh E HX HY Hc. unfold HalpFbPutPixel. rewrite (get_console_at r w S x0 y0) by done.
  cbn [gHalFbReady gHalFbWidth gHalFbHeight set_cursor]. rewrite (fo_ready c Ok). cbn [negb orb].
  destruct (Z.geb_spec X (gHalFbWidth c)), (Z.geb_spec Y (gHalFbHeight c)); cbn [orb].
  4: { change (pixel (set_cursor x0 y0 c) X Y) with (pixel c X Y). rewrite pixel_dot by (done || split; lia).
       apply write_dot; [done|split; lia|done]. }
  all: exists w; split; [done|]; eapply shows_ext; [|exact Sh]; intros x y [Hx Hy]; unfold put;
    destruct (Z.eqb_spec x X), (Z.eqb_spec y Y); try done; lia.
Qed.

Lemma inside_split X Y W H x y : inside X Y W H x y = true <-> X <= x < X + W /\ Y <= y < Y + H.
Proof using. unfold inside. rewrite !andb_true_iff, !Z.leb_le, !Z.ltb_lt. lia. Qed.

(** Two fills that cover the same dots. *)
Lemma fill_ext X Y W H X' Y' W' H' Color (S S' : picture) x y :
  (inside X Y W H x y = true <-> inside X' Y' W' H' x y = true) -> S x y = S' x y ->
  fill X Y W H Color S x y = fill X' Y' W' H' Color S' x y.
Proof using.
  intros E ES. unfold fill. destruct (inside X Y W H x y), (inside X' Y' W' H' x y); try done; [|].
  - by discriminate (proj1 E eq_refl). - by discriminate (proj2 E eq_refl).
Qed.

Lemma fill_row_shows r x0 y0 n : forall w S X Y Col Color, shows r w S -> console_at r x0 y0 -> 0 <= X -> 0 <= Y -> 0 <= Col ->
  X + Col + Z.of_nat n < 2 ^ 32 -> is_u32 Color ->
  exists w', fill_row n X Y Col Color w = Ret tt w' /\ shows r w' (fill (X + Col) Y (Z.of_nat n) 1 Color S).
Proof using U Ok Fb.
  induction n as [|n IH]; intros w S X Y Col Color Sh E HX HY HC L Hc; cbn [fill_row].
  { exists w. split; [done|]. eapply shows_ext; [|exact Sh]. intros x y _. unfold fill.
    destruct (inside _ _ _ _ x y) eqn:I; [|done]. apply inside_split in I. lia. }
  destruct (put_pixel_shows r w S x0 y0 (u32 (X + Col)) Y Color Sh E) as (w1 & E1 & Sh1); [unfold u32; zlia|done|done|].
  rewrite (bind_eq _ _ _ _ _ E1). destruct (IH w1 _ X Y (Col + 1) Color Sh1 E HX HY ltac:(lia) ltac:(lia) Hc) as (w2 & E2 & Sh2).
  exists w2. split; [done|]. eapply shows_ext; [|exact Sh2]. intros x y _. rewrite u32_small by lia. unfold put, fill, inside.
  destruct (Z.eqb_spec x (X + Col)), (Z.eqb_spec y Y), (Z.leb_spec (X + (Col + 1)) x), (Z.leb_spec (X + Col) x),
    (Z.ltb_spec x (X + (Col + 1) + Z.of_nat n)), (Z.ltb_spec x (X + Col + Z.of_nat (Datatypes.S n))),
    (Z.leb_spec Y y), (Z.ltb_spec y (Y + 1)); cbn [andb]; try done; lia.
Qed.

Lemma fill_rows_shows r x0 y0 W n : forall w S X Y Row Color, shows r w S -> console_at r x0 y0 -> 0 <= X -> 0 <= Y -> 0 <= Row ->
  X + Z.of_nat W < 2 ^ 32 -> Y + Row + Z.of_nat n < 2 ^ 32 -> is_u32 Color ->
  exists w', fill_rows n X Y Row W Color w = Ret tt w' /\ shows r w' (fill X (Y + Row) (Z.of_nat W) (Z.of_nat n) Color S).
Proof using U Ok Fb.
  induction n as [|n IH]; intros w S X Y Row Color Sh E HX HY HR LX LY Hc; cbn [fill_rows].
  { exists w. split; [done|]. eapply shows_ext; [|exact Sh]. intros x y _. unfold fill.
    destruct (inside _ _ _ _ x y) eqn:I; [|done]. apply inside_split in I. lia. }
  destruct (fill_row_shows r x0 y0 W w S X (u32 (Y + Row)) 0 Color Sh E HX) as (w1 & E1 & Sh1);
    [unfold u32; zlia|lia|lia|done|]. rewrite (bind_eq _ _ _ _ _ E1).
  destruct (IH w1 _ X Y (Row + 1) Color Sh1 E HX HY ltac:(lia) LX ltac:(lia) Hc) as (w2 & E2 & Sh2).
  exists w2. split; [done|]. eapply shows_ext; [|exact Sh2]. intros x y _. rewrite u32_small, Z.add_0_r by lia.
  unfold fill. destruct (inside X (Y + (Row + 1)) _ _ x y) eqn:I1, (inside X (Y + Row) (Z.of_nat W) 1 x y) eqn:I2,
    (inside X (Y + Row) _ (Z.of_nat (Datatypes.S n)) x y) eqn:I3; try done;
    rewrite <- ?not_true_iff_false, ?inside_split in *; lia.
Qed.

Lemma fill_shows r w S x0 y0 X Y W H Color : shows r w S -> console_at r x0 y0 -> 0 <= X -> 0 <= Y -> 0 <= W -> 0 <= H ->
  X + W < 2 ^ 32 -> Y + H < 2 ^ 32 -> is_u32 Color ->
  exists w', HalpFbFill X Y W H Color w = Ret tt w' /\ shows r w' (fill X Y W H Color S).
Proof using U Ok Fb.
  intros Sh E HX HY HW HH LX LY Hc. unfold HalpFbFill.
  destruct (fill_rows_shows r x0 y0 (Z.to_nat W) (Z.to_nat H) w S X Y 0 Color Sh E HX HY) as (w' & E' & Sh'); try lia; [done|].
  exists w'. split; [done|]. rewrite !Z2Nat.id, Z.add_0_r in Sh' by done. done.
Qed.

(** Dots copied from a text line below. *)
Definition lifted (X Y W H : Z) (S : picture) : picture := fun x y => if inside X Y W H x y then S x (y + 16) else S x y.

Lemma scroll_row_shows r x0 y0 n : forall w S X Y, shows r w S -> 0 <= X -> X + Z.of_nat n <= gHalFbWidth c ->
  0 <= Y -> Y + 16 < gHalFbHeight c ->
  exists w', scroll_row n (set_cursor x0 y0 c) X Y w = Ret tt w' /\ shows r w' (lifted X Y (Z.of_nat n) 1 S).
Proof using U Ok Fb.
  induction n as [|n IH]; intros w S X Y Sh HX LX HY LY; cbn [scroll_row].
  { exists w. split; [done|]. eapply shows_ext; [|exact Sh]. intros x y _. unfold lifted.
    destruct (inside _ _ _ _ x y) eqn:I; [|done]. apply inside_split in I. lia. }
  change (pixel (set_cursor x0 y0 c)) with (pixel c). unfold HALP_CONSOLE_CELL_H.
  assert (Hb : gHalFbHeight c < 2 ^ 32) by (destruct Ok as [_ _ ? ? ? _ _ _ _]; nia).
  rewrite u32_small, !pixel_dot by (lia || done || split; lia).
  rewrite (bind_eq _ _ _ _ _ (read_dot r w S X (Y + 16) Sh ltac:(split; lia))).
  assert (Hv : is_u32 (picture_of w X (Y + 16))).
  { destruct Sh as [Er D _ _]. pose proof (kernel_view lv a good r (base_access r Er)) as V.
    unfold is_u32, picture_of, bytes. rewrite <- Er. apply (word_range (V := V) 4); [done|].
    intros b Hb'. apply (dot_good X (Y + 16)); [split; lia|lia]. }
  destruct (write_dot r w S X Y _ Sh ltac:(split; lia) Hv) as (w1 & E1 & Sh1). rewrite (bind_eq _ _ _ _ _ E1).
  destruct (IH w1 _ (X + 1) Y Sh1 ltac:(lia) ltac:(lia) HY LY) as (w2 & E2 & Sh2). exists w2. split; [done|].
  eapply shows_ext; [|exact Sh2]. intros x y _. rewrite (sh_picture _ _ _ Sh) by (split; lia). unfold lifted, put, inside.
  destruct (Z.eqb_spec x X), (Z.eqb_spec y Y), (Z.eqb_spec (y + 16) Y), (Z.leb_spec (X + 1) x), (Z.leb_spec X x),
    (Z.ltb_spec x (X + 1 + Z.of_nat n)), (Z.ltb_spec x (X + Z.of_nat (Datatypes.S n))),
    (Z.leb_spec Y y), (Z.ltb_spec y (Y + 1)); cbn [andb]; first [done|lia|by subst].
Qed.

Lemma scroll_rows_shows r x0 y0 n : forall w S Y, shows r w S -> 0 <= Y -> Y + Z.of_nat n + 16 <= gHalFbHeight c ->
  exists w', scroll_rows n (set_cursor x0 y0 c) Y w = Ret tt w' /\
    shows r w' (lifted 0 Y (gHalFbWidth c) (Z.of_nat n) S).
Proof using U Ok Fb.
  induction n as [|n IH]; intros w S Y Sh HY LY; cbn [scroll_rows].
  { exists w. split; [done|]. eapply shows_ext; [|exact Sh]. intros x y _. unfold lifted.
    destruct (inside _ _ _ _ x y) eqn:I; [|done]. apply inside_split in I. lia. }
  assert (W : 0 < gHalFbWidth c) by apply Ok.
  change (gHalFbWidth (set_cursor x0 y0 c)) with (gHalFbWidth c).
  destruct (scroll_row_shows r x0 y0 (Z.to_nat (gHalFbWidth c)) w S 0 Y Sh) as (w1 & E1 & Sh1); [lia..|].
  rewrite (bind_eq _ _ _ _ _ E1). destruct (IH w1 _ (Y + 1) Sh1 ltac:(lia) ltac:(lia)) as (w2 & E2 & Sh2).
  exists w2. split; [done|]. eapply shows_ext; [|exact Sh2]. intros x y _. rewrite Z2Nat.id by lia. unfold lifted.
  destruct (inside 0 (Y + 1) (gHalFbWidth c) (Z.of_nat n) x y) eqn:I1, (inside 0 Y (gHalFbWidth c) 1 x (y + 16)) eqn:I2,
    (inside 0 Y (gHalFbWidth c) 1 x y) eqn:I3, (inside 0 Y (gHalFbWidth c) (Z.of_nat (Datatypes.S n)) x y) eqn:I4; try done;
    rewrite <- ?not_true_iff_false, ?inside_split in *; lia.
Qed.

Lemma scroll_shows r w S x0 y0 : shows r w S -> console_at r x0 y0 ->
  exists w', HalpFbScroll w = Ret tt w' /\ shows r w' (scroll c S).
Proof using U Ok Fb.
  intros Sh E. unfold HalpFbScroll, HALP_CONSOLE_CELL_H, scroll. rewrite (get_console_at r w S x0 y0) by done.
  cbn [gHalFbReady gHalFbHeight gHalFbWidth gHalFbBg set_cursor]. rewrite (fo_ready c Ok). cbn [negb orb].
  destruct (Z.leb_spec (gHalFbHeight c) 16); [by exists w|]. pose proof Ok as [_ _ W Hh Sz _ Hb _ _].
  assert (Lh : gHalFbHeight c < 2 ^ 32 /\ gHalFbWidth c < 2 ^ 32) by nia.
  destruct (scroll_rows_shows r x0 y0 (Z.to_nat (gHalFbHeight c - 16)) w S 0 Sh) as (w1 & E1 & Sh1); [lia..|].
  rewrite (bind_eq _ _ _ _ _ E1).
  destruct (fill_shows r w1 _ x0 y0 0 (gHalFbHeight c - 16) (gHalFbWidth c) 16 (gHalFbBg c) Sh1 E) as (w2 & E2 & Sh2);
    [lia..|done|]. exists w2. split; [done|]. eapply shows_ext; [|exact Sh2]. intros x y [Hx Hy]. unfold fill, lifted.
  destruct (inside 0 (gHalFbHeight c - 16) (gHalFbWidth c) 16 x y) eqn:I1,
    (inside 0 0 (gHalFbWidth c) (Z.of_nat (Z.to_nat (gHalFbHeight c - 16))) x y) eqn:I2, (Z.ltb_spec y (gHalFbHeight c - 16));
    try done; rewrite <- ?not_true_iff_false, ?inside_split in *; lia.
Qed.

(** ** Glyphs *)

Lemma draw_row_shows r x0 y0 n : forall w S X Y Col Bits, shows r w S -> console_at r x0 y0 -> 0 <= X -> 0 <= Y -> 0 <= Col ->
  Col + Z.of_nat n = 8 -> X + 8 < 2 ^ 32 ->
  exists w', draw_row n X Y Col Bits w = Ret tt w' /\
    shows r w' (fun x y => if inside (X + Col) Y (Z.of_nat n) 1 x y && Z.testbit Bits (7 - (x - X)) then gHalFbColor c else S x y).
Proof using U Ok Fb.
  induction n as [|n IH]; intros w S X Y Col Bits Sh E HX HY HC L LX; cbn [draw_row].
  { exists w. split; [done|]. eapply shows_ext; [|exact Sh]. intros x y _. cbn beta.
    destruct (inside _ _ _ _ x y) eqn:I; [|done]. apply inside_split in I. lia. }
  rewrite (get_console_at r w S x0 y0) by done. cbn [gHalFbColor set_cursor].
  assert (Eb : u8 (Z.shiftl 1 (7 - Col)) = 2 ^ (7 - Col)).
  { rewrite Z.shiftl_1_l. apply u8_small. assert (2 ^ (7 - Col) <= 2 ^ 7) by (apply Z.pow_le_mono_r; lia).
    assert (0 < 2 ^ (7 - Col)) by (apply Z.pow_pos_nonneg; lia). lia. }
  rewrite Eb, any_flag_pow2, u32_small by lia.
  assert (P : exists w1, (if Z.testbit Bits (7 - Col) then HalpFbPutPixel (X + Col) Y (gHalFbColor c) else ret tt) w = Ret tt w1 /\
    shows r w1 (if Z.testbit Bits (7 - Col) then put (X + Col) Y (gHalFbColor c) S else S)).
  { destruct (Z.testbit Bits (7 - Col)); [|by exists w]. by apply (put_pixel_shows r w S x0 y0); [..|lia| |apply Ok]. }
  destruct P as (w1 & E1 & Sh1). rewrite (bind_eq _ _ _ _ _ E1).
  destruct (IH w1 _ X Y (Col + 1) Bits Sh1 E HX HY ltac:(lia) ltac:(lia) LX) as (w2 & E2 & Sh2).
  exists w2. split; [done|]. eapply shows_ext; [|exact Sh2]. intros x y _. cbn beta.
  destruct (decide (x = X + Col)) as [->|N].
  - replace (7 - (X + Col - X)) with (7 - Col) by lia. unfold put, inside.
    destruct (Z.testbit Bits (7 - Col)); cbn beta; rewrite ?Z.eqb_refl;
    destruct (Z.eqb_spec y Y), (Z.leb_spec (X + (Col + 1)) (X + Col)), (Z.leb_spec (X + Col) (X + Col)),
      (Z.ltb_spec (X + Col) (X + (Col + 1) + Z.of_nat n)), (Z.ltb_spec (X + Col) (X + Col + Z.of_nat (Datatypes.S n))), (Z.leb_spec Y y), (Z.ltb_spec y (Y + 1)); cbn [andb];
      try done; try lia; by rewrite ?andb_false_r.
  - assert (Eq : inside (X + (Col + 1)) Y (Z.of_nat n) 1 x y = inside (X + Col) Y (Z.of_nat (Datatypes.S n)) 1 x y).
    { destruct (inside (X + (Col + 1)) Y (Z.of_nat n) 1 x y) eqn:I1,
        (inside (X + Col) Y (Z.of_nat (Datatypes.S n)) 1 x y) eqn:I2; try done;
        rewrite <- ?not_true_iff_false, ?inside_split in *; lia. }
    rewrite Eq. destruct (_ && _); [done|]. destruct (Z.testbit Bits (7 - Col)); [|done]. unfold put.
    by destruct (Z.eqb_spec x (X + Col)).
Qed.

Lemma font_lookup Ch Row : 0 <= Ch < 128 -> (Row < 16)%nat ->
  exists g, font_table !! Z.to_nat Ch = Some g /\ g !! Row = Some (font_row Ch Row).
Proof using.
  intros HC HR. exists (map (font_row Ch) (seq 0 16)). unfold font_table. split.
  - rewrite list_lookup_fmap, lookup_seq_lt by lia. cbn [fmap option_fmap option_map]. do 3 f_equal. lia.
  - rewrite list_lookup_fmap, lookup_seq_lt by lia. done.
Qed.

Lemma draw_rows_shows r x0 y0 Ch n : forall w S X Y Row, shows r w S -> console_at r x0 y0 -> gHalFont8x16 (k_hal r) = font_table ->
  0 <= Ch < 128 -> 0 <= X -> 0 <= Y -> (Row + n = 16)%nat -> X + 8 < 2 ^ 32 -> Y + 16 < 2 ^ 32 ->
  exists w', draw_rows n Ch X Y Row w = Ret tt w' /\
    shows r w' (fun x y => if inside X (Y + Z.of_nat Row) 8 (Z.of_nat n) x y && Z.testbit (font_row Ch (Z.to_nat (y - Y))) (7 - (x - X))
                           then gHalFbColor c else S x y).
Proof using U Ok Fb.
  induction n as [|n IH]; intros w S X Y Row Sh E Ef HC HX HY L LX LY; cbn [draw_rows].
  { exists w. split; [done|]. eapply shows_ext; [|exact Sh]. intros x y _. cbn beta.
    destruct (inside _ _ _ _ x y) eqn:I; [|done]. apply inside_split in I. lia. }
  rewrite bind_gets. assert (Eh : hal_get w = k_hal r) by (by destruct Sh as [_ [-> _] _ _]). rewrite Eh, Ef.
  destruct (font_lookup Ch Row HC ltac:(lia)) as (g & Hg & Hr).
  rewrite (bind_eq _ _ _ _ _ (load_at_ok _ _ _ _ Hg)), (bind_eq _ _ _ _ _ (load_at_ok _ _ _ _ Hr)), u32_small by lia.
  destruct (draw_row_shows r x0 y0 8 w S X (Y + Z.of_nat Row) 0 (font_row Ch Row) Sh E) as (w1 & E1 & Sh1); [lia..|].
  rewrite (bind_eq _ _ _ _ _ E1).
  destruct (IH w1 _ X Y (Datatypes.S Row) Sh1 E Ef HC HX HY ltac:(lia) LX LY) as (w2 & E2 & Sh2).
  exists w2. split; [done|]. eapply shows_ext; [|exact Sh2]. intros x y _. cbn beta. rewrite Z.add_0_r. change (Z.of_nat 8) with 8.
  destruct (decide (y = Y + Z.of_nat Row)) as [->|N].
  - replace (Z.to_nat (Y + Z.of_nat Row - Y)) with Row by lia.
    destruct (inside X (Y + Z.of_nat (Datatypes.S Row)) 8 (Z.of_nat n) x (Y + Z.of_nat Row)) eqn:I1;
      [apply inside_split in I1; lia|]. cbn [andb].
    destruct (inside X (Y + Z.of_nat Row) 8 1 x _) eqn:I2, (inside X (Y + Z.of_nat Row) 8 (Z.of_nat (Datatypes.S n)) x _) eqn:I3;
      try done; rewrite <- ?not_true_iff_false, ?inside_split in *; lia.
  - destruct (inside X (Y + Z.of_nat Row) 8 1 x y) eqn:I2; [apply inside_split in I2; lia|]. cbn [andb].
    destruct (inside X (Y + Z.of_nat (Datatypes.S Row)) 8 (Z.of_nat n) x y) eqn:I1,
      (inside X (Y + Z.of_nat Row) 8 (Z.of_nat (Datatypes.S n)) x y) eqn:I3; try done;
      rewrite <- ?not_true_iff_false, ?inside_split in *; lia.
Qed.

(** ** Characters *)

(** The kernel shows the screen [s]: [r] is the kernel but for the picture. *)
Record at_screen (r w : kernel) (s : screen) : Prop := {
  as_shows : shows r w (spix s);
  as_console : console_at r (sx s) (sy s);
  as_font : gHalFontReady (k_hal r) = true -> gHalFont8x16 (k_hal r) = font_table;
  as_x : 0 <= sx s <= gHalFbCols c;
  as_y : 0 <= sy s < gHalFbRows c }.

(** What printing leaves alone. *)
Definition kept_rest (r r' : kernel) : Prop := exists h k l, r' = set_ports_used k l (set_k_hal h r).

Lemma kept_rest_refl r : kept_rest r r.
Proof using. exists (k_hal r), (k_clock r), (k_outputs r). by destruct r. Qed.
Lemma kept_rest_trans r1 r2 r3 : kept_rest r1 r2 -> kept_rest r2 r3 -> kept_rest r1 r3.
Proof using. intros (h & k & l & ->) (h' & k' & l' & ->). by exists h', k', l'. Qed.

Lemma shows_hal r w S h : shows r w S -> shows (set_k_hal h r) (set_k_hal h w) S.
Proof using. intros [A [B D] P O]. constructor; [done| |done|done]. split; [|done]. rewrite B. by destruct r. Qed.

Lemma move_cursor_at r w S x y x' y' : shows r w S -> console_at r x y ->
  exists r', move_cursor x' y' w = Ret tt (set_k_hal (k_hal r') w) /\ shows r' (set_k_hal (k_hal r') w) S /\
    console_at r' x' y' /\ kept_rest r r' /\
    gHalFontReady (k_hal r') = gHalFontReady (k_hal r) /\ gHalFont8x16 (k_hal r') = gHalFont8x16 (k_hal r).
Proof using.
  intros Sh E. set (h := set_console (set_cursor x' y' c) (k_hal r)). exists (set_k_hal h r).
  assert (Eh : hal_get w = k_hal r) by (by destruct Sh as [_ [-> _] _ _]).
  split.
  { unfold move_cursor, hal, zoom, modify. rewrite Eh, E. reflexivity. }
  split; [by apply shows_hal|]. split; [done|]. split; [|done]. exists h, (k_clock r), (k_outputs r). by destruct r.
Qed.

(** The cell of a position on the text screen. *)
Lemma cell_bounds x y : 0 <= x < gHalFbCols c -> 0 <= y < gHalFbRows c ->
  0 <= x * 9 /\ x * 9 + 9 <= gHalFbWidth c < 2 ^ 32 - 16 /\ 0 <= y * 16 /\ y * 16 + 16 <= gHalFbHeight c < 2 ^ 32 - 16.
Proof using Ok.
  clear - Ok. destruct Ok as [_ _ W Hh Sz _ _ [Ec _] [Er _]]. intros Hx Hy. assert (gHalFbCols c * 9 <= gHalFbWidth c) by zlia.
  assert (gHalFbRows c * 16 <= gHalFbHeight c) by zlia. assert (gHalFbWidth c <= 2 ^ 31) by nia. assert (gHalFbHeight c <= 2 ^ 31) by nia. lia.
Qed.

Lemma clear_cell_shows r w S x y : shows r w S -> console_at r x y -> 0 <= x < gHalFbCols c -> 0 <= y < gHalFbRows c ->
  exists w', clear_cell w = Ret tt w' /\ shows r w' (fill (x * 9) (y * 16) 9 16 (gHalFbBg c) S).
Proof using U Ok Fb.
  intros Sh E Hx Hy. unfold clear_cell, HALP_CONSOLE_CELL_W, HALP_CONSOLE_CELL_H. rewrite (get_console_at r w S x y) by done.
  cbn [gHalFbCursorX gHalFbCursorY gHalFbBg set_cursor]. pose proof (cell_bounds x y Hx Hy). rewrite !u32_small by lia.
  apply (fill_shows r w S x y); try done; try lia. apply Ok.
Qed.

Lemma settle_shows r w x y S : shows r w S -> console_at r x y -> 0 <= y <= gHalFbRows c ->
  (gHalFontReady (k_hal r) = true -> gHalFont8x16 (k_hal r) = font_table) -> 0 <= x <= gHalFbCols c ->
  exists r' w', scroll_to_cursor w = Ret tt w' /\ kept_rest r r' /\ at_screen r' w' (settle c {| sx := x; sy := y; spix := S |}) /\
    sx (settle c {| sx := x; sy := y; spix := S |}) = x /\ gHalFont8x16 (k_hal r') = gHalFont8x16 (k_hal r).
Proof using U Ok Fb.
  intros Sh E Hy Ft Hx. unfold scroll_to_cursor, settle. rewrite (get_console_at r w S x y) by done.
  cbn [gHalFbCursorY gHalFbRows set_cursor sx sy spix]. destruct (Z.geb_spec y (gHalFbRows c)), (Z.leb_spec (gHalFbRows c) y); try lia.
  - destruct (scroll_shows r w S x y Sh E) as (w1 & E1 & Sh1). rewrite (bind_eq _ _ _ _ _ E1).
    rewrite (get_console_at r w1 (scroll c S) x y) by done. cbn [gHalFbCursorX gHalFbRows set_cursor].
    pose proof (fo_rows c Ok) as [Er Pr]. pose proof (cell_bounds 0 0 ltac:(pose proof (fo_cols c Ok); lia) ltac:(lia)).
    assert (gHalFbRows c <= gHalFbHeight c) by (rewrite Er; apply Z.div_le_upper_bound; lia).
    rewrite u32_small by lia.
    destruct (move_cursor_at r w1 (scroll c S) x y x (gHalFbRows c - 1) Sh1 E) as (r' & E2 & Sh2 & C2 & K2 & F1 & F2).
    exists r'. eexists. split; [exact E2|]. split; [done|]. split; [|done]. constructor; cbn [sx sy spix]; try done; [|lia].
    by rewrite F1, F2.
  - exists r, w. split; [done|]. split; [apply kept_rest_refl|]. split; [|done]. constructor; cbn [sx sy spix]; try done. lia.
Qed.

Lemma build_font_at r w S x y : shows r w S -> console_at r x y ->
  (gHalFontReady (k_hal r) = true -> gHalFont8x16 (k_hal r) = font_table) ->
  exists r', hal HalpBuildFont8x16 w = Ret tt (set_k_hal (k_hal r') w) /\ shows r' (set_k_hal (k_hal r') w) S /\
    console_at r' x y /\ kept_rest r r' /\ gHalFontReady (k_hal r') = true /\ gHalFont8x16 (k_hal r') = font_table.
Proof using.
  intros Sh E Ft. assert (Eh : hal_get w = k_hal r) by (by destruct Sh as [_ [-> _] _ _]).
  set (h := if gHalFontReady (k_hal r) then k_hal r else set_font font_table true (k_hal r)). exists (set_k_hal h r).
  split; [|split; [by apply shows_hal|split]].
  - unfold hal, zoom, HalpBuildFont8x16. rewrite Eh. cbn [k_hal set_k_hal]. unfold h. by destruct (gHalFontReady (k_hal r)).
  - unfold console_at, h. cbn [k_hal set_k_hal]. by destruct (gHalFontReady (k_hal r)).
  - split; [exists h, (k_clock r), (k_outputs r); by destruct r|]. cbn [k_hal set_k_hal]. unfold h.
    destruct (gHalFontReady (k_hal r)) eqn:R; [by split; [|apply Ft]|done].
Qed.

Lemma put_glyph_shows r w s Ch : at_screen r w s -> 0 <= Ch < 128 ->
  exists r' w', put_glyph Ch w = Ret tt w' /\ kept_rest r r' /\
    let s1 := settle c (if gHalFbCols c <=? sx s then {| sx := 0; sy := sy s + 1; spix := spix s |} else s) in
    at_screen r' w' {| sx := sx s1 + 1; sy := sy s1; spix := glyph c Ch (sx s1 * 9) (sy s1 * 16) (cell c s1) |}.
Proof using U Ok Fb.
  intros [Sh E Ft Hx Hy] HC. unfold put_glyph. destruct s as [x y S]. cbn [sx sy spix] in *.
  destruct (build_font_at r w S x y Sh E Ft) as (r1 & E1 & Sh1 & C1 & K1 & R1 & F1). rewrite (bind_eq _ _ _ _ _ E1). clear E1.
  set (w1 := set_k_hal (k_hal r1) w) in *. rewrite (get_console_at r1 w1 S x y) by done. cbn [gHalFbCursorX gHalFbCols gHalFbCursorY set_cursor].
  pose proof (fo_cols c Ok) as [_ Pc]. pose proof (cell_bounds 0 y ltac:(lia) Hy) as Bd.
  (* the wrap at the end of a line *)
  assert (P : exists r2 w2 x2 y2, (if x >=? gHalFbCols c then move_cursor 0 (u32 (y + 1)) else ret tt) w1 = Ret tt w2 /\
    shows r2 w2 S /\ console_at r2 x2 y2 /\ kept_rest r1 r2 /\ gHalFont8x16 (k_hal r2) = font_table /\
    0 <= x2 < gHalFbCols c /\ 0 <= y2 <= gHalFbRows c /\
    (if gHalFbCols c <=? x then {| sx := 0; sy := y + 1; spix := S |} else {| sx := x; sy := y; spix := S |})
    = {| sx := x2; sy := y2; spix := S |}).
  { destruct (Z.geb_spec x (gHalFbCols c)), (Z.leb_spec (gHalFbCols c) x); try lia.
    - destruct (move_cursor_at r1 w1 S x y 0 (u32 (y + 1)) Sh1 C1) as (r2 & E2 & Sh2 & C2 & K2 & F2 & F3).
      rewrite u32_small in * by lia. eexists r2, _, 0, (y + 1). split_and!; [exact E2|done..|congruence|lia|lia|lia|lia|done].
    - exists r1, w1, x, y. split_and!; [done..|by apply kept_rest_refl|done|lia|lia|lia|lia|done]. }
  destruct P as (r2 & w2 & x2 & y2 & E2 & Sh2 & C2 & K2 & F2 & Hx2 & Hy2 & ->). rewrite (bind_eq _ _ _ _ _ E2). clear E2.
  destruct (settle_shows r2 w2 x2 y2 S Sh2 C2 Hy2 ltac:(done) ltac:(lia)) as (r3 & w3 & E3 & K3 & A3 & X3 & F3).
  rewrite (bind_eq _ _ _ _ _ E3). clear E3. cbv zeta. set (s3 := settle c _) in *. destruct s3 as [x3 y3 S3]. cbn [sx sy spix cell] in *.
  subst x3. destruct A3 as [Sh3 C3 Ft3 Hx3 Hy3]. cbn [sx sy spix] in *.
  destruct (clear_cell_shows r3 w3 S3 x2 y3 Sh3 C3 Hx2 Hy3) as (w4 & E4 & Sh4). rewrite (bind_eq _ _ _ _ _ E4). clear E4.
  rewrite (get_console_at r3 w4 _ x2 y3 _ Sh4 C3). cbn [gHalFbCursorX gHalFbCursorY set_cursor].
  pose proof (cell_bounds x2 y3 Hx2 Hy3) as Bd2. unfold HALP_CONSOLE_CELL_W, HALP_CONSOLE_CELL_H. rewrite !(u32_small (_ * _)) by lia.
  rewrite F2 in F3.
  destruct (draw_rows_shows r3 x2 y3 Ch 16 w4 _ (x2 * 9) (y3 * 16) 0 Sh4 C3 F3 HC) as (w5 & E5 & Sh5); [lia..|].
  rewrite (bind_eq _ _ _ _ _ E5). clear E5. rewrite u32_small by lia.
  destruct (move_cursor_at r3 w5 _ x2 y3 (x2 + 1) y3 Sh5 C3) as (r6 & E6 & Sh6 & C6 & K6 & R6 & F6).
  exists r6. eexists. split; [exact E6|]. split; [by repeat (eapply kept_rest_trans; [eassumption|]); apply kept_rest_refl|].
  constructor; cbn [sx sy spix]; try done; [|by rewrite F6|lia].
  eapply shows_ext; [|exact Sh6]. intros px py _. unfold glyph. cbn beta. by rewrite Z.add_0_r.
Qed.

Lemma put_char_shows r w s Ch : at_screen r w s ->
  exists r' w', HalpFbPutChar Ch w = Ret tt w' /\ kept_rest r r' /\ at_screen r' w' (print_char c Ch s).
Proof using U Ok Fb.
  intros A. pose proof A as [Sh E Ft Hx Hy]. pose proof (fo_cols c Ok) as [_ Pc].
  pose proof (cell_bounds 0 (sy s) ltac:(lia) Hy) as Bd. unfold HalpFbPutChar. rewrite (get_console_at r w _ _ _ _ Sh E).
  cbn [gHalFbReady gHalFbCursorX gHalFbCursorY gHalFbCols set_cursor]. rewrite (fo_ready c Ok). cbn [negb]. unfold print_char.
  destruct (Z.eqb_spec Ch 13); [|destruct (Z.eqb_spec Ch 10); [|destruct (Z.eqb_spec Ch 8)]].
  - destruct (move_cursor_at r w _ _ _ 0 (sy s) Sh E) as (r1 & E1 & Sh1 & C1 & K1 & R1 & F1).
    exists r1. eexists. split; [exact E1|]. split; [done|]. constructor; cbn [sx sy spix]; try done; [by rewrite R1, F1|lia].
  - rewrite u32_small by lia. destruct (move_cursor_at r w _ _ _ 0 (sy s + 1) Sh E) as (r1 & E1 & Sh1 & C1 & K1 & R1 & F1).
    rewrite (bind_eq _ _ _ _ _ E1).
    destruct (settle_shows r1 _ 0 (sy s + 1) _ Sh1 C1 ltac:(lia) ltac:(by rewrite R1, F1) ltac:(lia)) as (r2 & w2 & E2 & K2 & A2 & _).
    exists r2, w2. split; [done|]. split; [by eapply kept_rest_trans|done].
  - assert (Back : forall x y, 0 <= x < gHalFbCols c -> 0 <= y < gHalFbRows c -> exists r' w',
      (move_cursor x y ;;; clear_cell) w = Ret tt w' /\ kept_rest r r' /\
      at_screen r' w' {| sx := x; sy := y; spix := cell c {| sx := x; sy := y; spix := spix s |} |}).
    { intros x y Hx' Hy'. destruct (move_cursor_at r w _ _ _ x y Sh E) as (r1 & E1 & Sh1 & C1 & K1 & R1 & F1).
      rewrite (bind_eq _ _ _ _ _ E1). destruct (clear_cell_shows r1 _ _ x y Sh1 C1 Hx' Hy') as (w2 & E2 & Sh2).
      exists r1, w2. split; [done|]. split; [done|]. constructor; cbn [sx sy spix]; try done; [by rewrite R1, F1|lia]. }
    destruct (Z.gtb_spec (sx s) 0), (Z.ltb_spec 0 (sx s)); try lia; [apply Back; lia|].
    destruct (Z.gtb_spec (sy s) 0), (Z.ltb_spec 0 (sy s)); try lia.
    + assert (u32 (gHalFbCols c - 1) = gHalFbCols c - 1) as ->.
      { apply u32_small. assert (gHalFbCols c * 9 <= gHalFbWidth c) by (destruct (fo_cols c Ok) as [-> _]; clear; zlia). lia. }
      apply Back; lia.
    + exists r, w. split; [done|]. split; [apply kept_rest_refl|done].
  - assert (Eg : ((Ch <? 0x20) || (Ch >? 0x7E)) = ((Ch <? 0x20) || (0x7E <? Ch))) by (by rewrite Z.gtb_ltb). rewrite Eg.
    apply put_glyph_shows; [done|]. destruct (Z.ltb_spec Ch 0x20), (Z.ltb_spec 0x7E Ch); cbn [orb]; lia.
Qed.

(** The serial port gives up or accepts the character; either way only ports
    were used. *)
Lemma serial_wait_ports n Ch : forall w : kernel, exists k l, serial_wait n Ch w = Ret tt (set_ports_used k l w).
Proof using.
  induction n as [|n IH]; intros w; [exists (k_clock w), (k_outputs w); by destruct w|]. cbn [serial_wait].
  unfold bind at 1. cbn [HalpIoRead8 kernel_ports]. destruct (any_flag _ _).
  - unfold modify. do 2 eexists. reflexivity.
  - destruct (IH (set_ports_used (S (k_clock w)) (k_outputs w) w)) as (k & l & ->). by exists k, l.
Qed.

Lemma serial_at r w s Ch : at_screen r w s ->
  exists r' w', HalpSerialWriteChar Ch w = Ret tt w' /\ kept_rest r r' /\ at_screen r' w' s.
Proof using.
  intros [[Er [Ew D] P O] E Ft Hx Hy]. unfold HalpSerialWriteChar. destruct (serial_wait_ports (Z.to_nat 1000000) Ch w) as (k & l & ->).
  exists (set_ports_used k l r), (set_ports_used k l w). split; [done|]. split; [exists (k_hal r), k, l; by destruct r|].
  constructor; try done. constructor; try done. split; [|done]. rewrite Ew. by destruct r.
Qed.

Lemma write_debug_shows m : forall r w s, at_screen r w s ->
  exists r' w', write_debug_chars m w = Ret tt w' /\ kept_rest r r' /\ at_screen r' w' (print_string c m s).
Proof using U Ok Fb.
  induction m as [|Ch m IH]; intros r w s A; cbn [write_debug_chars print_string].
  { exists r, w. split; [done|]. split; [apply kept_rest_refl|done]. }
  destruct (Ch =? 0). { exists r, w. split; [done|]. split; [apply kept_rest_refl|done]. }
  assert (P : exists r1 w1, (if Ch =? 10 then HalpSerialWriteChar 13 else ret tt) w = Ret tt w1 /\ kept_rest r r1 /\ at_screen r1 w1 s).
  { destruct (Ch =? 10); [by apply serial_at|]. exists r, w. split; [done|]. split; [apply kept_rest_refl|done]. }
  destruct P as (r1 & w1 & E1 & K1 & A1). rewrite (bind_eq _ _ _ _ _ E1).
  destruct (serial_at r1 w1 s Ch A1) as (r2 & w2 & E2 & K2 & A2). rewrite (bind_eq _ _ _ _ _ E2).
  destruct (put_char_shows r2 w2 s Ch A2) as (r3 & w3 & E3 & K3 & A3). rewrite (bind_eq _ _ _ _ _ E3).
  destruct (IH r3 w3 _ A3) as (r4 & w4 & E4 & K4 & A4). exists r4, w4. split; [done|]. split; [|done].
  by eapply kept_rest_trans, kept_rest_trans, kept_rest_trans.
Qed.
End Console.

(** ** Property *)

(** C28: printing refines an abstract text screen: for every string, whatever it
    contains and wherever the cursor is, [HalWriteDebugString] ends, the picture
    in the framebuffer is the one the abstract console paints (glyphs of the
    font, wrapping, backspace, scrolling), the cursor is the abstract one and on
    the screen, every byte outside the framebuffer is as before, and nothing
    else of the kernel changes but the console and the ports. *)
Theorem HalWriteDebugString_paints lv a good c x y (w : kernel) m :
  user_access lv (k_mm w) a good -> fb_ok c ->
  (forall b, gHalFb c <= b < gHalFb c + 4 * (gHalFbHeight c * gHalFbPitch c) -> good b) ->
  console (k_hal w) = set_cursor x y c -> 0 <= x <= gHalFbCols c -> 0 <= y < gHalFbRows c ->
  (gHalFontReady (k_hal w) = true -> gHalFont8x16 (k_hal w) = font_table) ->
  let s := print_string c m {| sx := x; sy := y; spix := picture_of (k_mm w) a c w |} in
  exists w', HalWriteDebugString (Some m) w = Ret tt w' /\
    (forall px py, on_screen c px py -> picture_of (k_mm w) a c w' px py = spix s px py) /\
    console (k_hal w') = set_cursor (sx s) (sy s) c /\ 0 <= sx s <= gHalFbCols c /\ 0 <= sy s < gHalFbRows c /\
    only_data lv (k_mm w) (k_mm w') /\
    (forall b, good b -> ~ gHalFb c <= b < gHalFb c + 4 * (gHalFbHeight c * gHalFbPitch c) ->
       user_view (k_mm w) a (k_mm w') b = user_view (k_mm w) a (k_mm w) b) /\
    exists h m' k l, w' = set_ports_used k l (set_k_hal h (set_k_mm m' w)).
Proof.
  intros U Ok Fb Ec Hx Hy Ft s.
  assert (A : at_screen lv (k_mm w) a good c w w {| sx := x; sy := y; spix := picture_of (k_mm w) a c w |}).
  { constructor; try done. constructor; try done. by eapply data_only_refl. }
  destruct (write_debug_shows lv (k_mm w) a good U c Ok Fb m w w _ A) as (r & w' & E & (h & k & l & ->) & [[Er [Ew D] P O] E' _ Hx' Hy']).
  exists w'. split; [exact E|]. split; [exact P|]. fold s in E', Hx', Hy'. split; [rewrite Ew; exact E'|]. split; [done|]. split; [done|].
  split; [exact D|]. split; [exact O|]. exists h, (k_mm w'), k, l. rewrite Ew. by destruct w.
Qed.

(** ** The keyboard *)

(** The lower-case letter of a key. *)
Definition letter_of (Code : Z) : Z := nth (Z.to_nat Code) gHalPs2Map 0.

Lemma letter_keys : forallb (fun k => negb (is_letter_key (Z.of_nat k)) ||
  ((97 <=? letter_of (Z.of_nat k)) && (letter_of (Z.of_nat k) <=? 122) &&
   (nth k gHalPs2MapShift 0 =? letter_of (Z.of_nat k) - 32))) (seq 0 128) = true.
Proof. vm_compute. reflexivity. Qed.

(** The key of a letter gives that letter, in upper case exactly when one of the
    shift keys is held or caps lock is on, but not both; the modifiers stay. *)
Theorem scan_code_letters k Code : is_letter_key Code = true -> gHalPs2Extended k = false ->
  scan_code k Code = (k, Some (if xorb (gHalPs2CapsLock k) (gHalPs2ShiftLeft k || gHalPs2ShiftRight k)
                               then letter_of Code - 32 else letter_of Code)) /\
  97 <= letter_of Code <= 122.
Proof.
  intros L Ex. assert (R : 0 <= Code < 128).
  { unfold is_letter_key in L. rewrite !orb_true_iff, !andb_true_iff, !Z.geb_le, !Z.leb_le in L. lia. }
  pose proof (proj1 (forallb_forall _ _) letter_keys (Z.to_nat Code) ltac:(apply in_seq; lia)) as F. cbn beta in F.
  rewrite Z2Nat.id, L in F by lia. cbn [negb orb] in F. rewrite !andb_true_iff, !Z.leb_le, Z.eqb_eq in F. destruct F as [[F1 F2] F3].
  split; [|lia]. unfold scan_code.
  assert (A : Z.land Code 0x7F = Code /\ any_flag Code 0x80 = false).
  { unfold any_flag. change 0x7F with (Z.ones 7). rewrite Z.land_ones, Z.mod_small by lia. split; [done|].
    change 0x80 with (2 ^ 7). fold (any_flag Code (2 ^ 7)). rewrite any_flag_pow2 by lia.
    rewrite Z.testbit_eqb by lia. rewrite Z.div_small by lia. done. }
  destruct A as [-> ->]. unfold is_letter_key in L. rewrite !orb_true_iff, !andb_true_iff, !Z.geb_le, !Z.leb_le in L.
  destruct (Z.eqb_spec Code 0xE0), (Z.eqb_spec Code 0xE1), (Z.eqb_spec Code 0x2A), (Z.eqb_spec Code 0x36), (Z.eqb_spec Code 0x3A); try lia.
  cbn [andb negb]. rewrite Ex. f_equal. unfold decode_key. fold (letter_of Code).
  assert (L' : is_letter_key Code = true).
  { unfold is_letter_key. rewrite !orb_true_iff, !andb_true_iff, !Z.geb_le, !Z.leb_le. lia. }
  rewrite L'. fold (letter_of Code). cbn [andb].
  destruct (gHalPs2CapsLock k), (gHalPs2ShiftLeft k || gHalPs2ShiftRight k); cbn [xorb negb andb]; rewrite ?F3;
    fold (letter_of Code);
    repeat match goal with
    | |- context [?a =? 0] => destruct (Z.eqb_spec a 0); [lia|]
    | |- context [?a >=? ?b] => destruct (Z.geb_spec a b); [|lia]
    | |- context [?a <=? ?b] => destruct (Z.leb_spec a b); [|lia]
    end; cbn [andb]; f_equal; lia.
Qed.

Definition shifted_keyboard : hal_keyboard :=
  {| gHalPs2ShiftLeft := true; gHalPs2ShiftRight := false; gHalPs2CapsLock := false; gHalPs2Extended := false |}.
Lemma scan_code_letters_witness : scan_code shifted_keyboard 0x1E = (shifted_keyboard, Some 65).
Proof. exact (proj1 (scan_code_letters shifted_keyboard 0x1E eq_refl eq_refl)). Defined.
