(* ===== verification/KernelStart.v ===== *)
(** * The start of the kernel: theorems

    [MmInitialize] on the kernel, then [ExInitializeExecutive]: from the blank
    static variables of every component to the state the other theorems about the
    kernel start from. *)

From S2P Require Import Prelude CString BootProto Nk Se Cc Ob ObInv PhysMem MmPages MmTables MmTablesInv MmSpace MmSection.
From S2P Require Import MmFault MmRegions MmStart Kpe KpeLoad UserMem Ps PsInv PsSpawn Lpc Io Hal Syscall HalIntr HalStart Ex.
From S2P Require Import Kernel KernelInv HalInv PsSpawnInv IoInv.

(** ** The memory manager *)

(** The memory the manager starts on, its statics reset: page tables that are
    sound and lie in frames that count as taken, the physmap's slot of the root
    free, [n] frames free. *)
Record startable (lv : gmap Z nat) (n : nat) (m : mm_machine) : Prop := {
  st_tables : tables_wf lv m;
  st_root : lv !! addr_of (cr3 m) = Some 0%nat;
  st_nonzero : addr_of (cr3 m) <> 0;
  st_slot : is_present (entry (ram m) (addr_of (cr3 m)) physmap_slot) = false;
  st_null : allocated (frames (mm m)) 0 = true;
  st_room : room n m;
  st_length : length (gMmAddressSpacePool (mm m)) = Z.to_nat MM_MAX_ADDRESS_SPACES;
  st_regions : forall a, a ∈ gMmAddressSpacePool (mm m) -> Z.of_nat (length (Regions a)) = MM_MAX_VA_REGIONS }.

(** What [MmInitialize] makes of [m]. *)
Record mm_started (k : nat) (m0 m : mm_machine) (lv : gmap Z nat) : Prop := {
  ms_ready : mm_ready lv m;
  ms_room : room k m;
  ms_spaces : gMmAddressSpaceInUse (mm m) = replicate (Z.to_nat MM_MAX_ADDRESS_SPACES) false;
  ms_cr3 : cr3 m = gMmKernelRootTablePhysical (mm m);
  ms_kept : forall va, walk_index va 0 <> physmap_slot ->
    translate m (gMmKernelRootTablePhysical (mm m)) va = translate m0 (addr_of (cr3 m0)) va;
  ms_physmap : forall x, 0 <= x < physmap_pages (gMmTrackedPages (frames (mm m0))) * 2 ^ 21 ->
    translate m (gMmKernelRootTablePhysical (mm m)) (MM_PHYSMAP_BASE + x) = Some x }.

Definition with_section_type (ty : option nat) (m : mm_machine) : mm_machine :=
  let s := set_sections ty (gMmSectionPool (mm m)) (gMmSectionInUse (mm m)) (mm m) in
  set_mm {| frames := frames s; gMmReady := true; gMmAddressSpacePool := gMmAddressSpacePool s;
            gMmAddressSpaceInUse := gMmAddressSpaceInUse s; gMmNextAddressSpaceId := gMmNextAddressSpaceId s;
            gMmKernelRootTablePhysical := gMmKernelRootTablePhysical s; gMmSectionType := gMmSectionType s;
            gMmSectionPool := gMmSectionPool s; gMmSectionInUse := gMmSectionInUse s; gMmFaultTrace := gMmFaultTrace s;
            gMmFaultTraceNext := gMmFaultTraceNext s; gMmPhysmapBase := gMmPhysmapBase s;
            gMmPhysmapBytes := gMmPhysmapBytes s; gMmPhysmapReady := gMmPhysmapReady s |} m.

(** The two computations on the page tables. *)
Lemma tables_start lv k ptr top m : let m0 := reset_statics ptr top m in
  startable lv (S (S (S k))) m0 ->
  exists m1 m2 lv', MmpCloneKernelRootTable m0 = Ret KSTATUS_SUCCESS m1 /\ MmpBuildKernelPhysmap m1 = Ret KSTATUS_SUCCESS m2 /\
    forall ty, mm_started k m0 (with_section_type ty m2) lv'.
Proof.
  intros m0 [W Hc Nz Sl A0 R Ln Rg].
  destruct (clone_root_spec lv m0 (S (S k)) W eq_refl Hc Nz A0 R) as (f & p & mem & E & Wf & Hf & Nf & Bf & Af & P0 & Tp & Rf & Ef & Tf & _ & _).
  set (m1 := with_root f (upd p mem m0)) in *.
  assert (Sl1 : is_present (entry (ram m1) f physmap_slot) = false).
  { cbn. rewrite Ef by (unfold physmap_slot; lia). exact Sl. }
  destruct (physmap_spec _ m1 f k (with_root_wf _ f _ Wf) eq_refl eq_refl (lookup_insert_eq _ _ _) Nf Sl1 Rf)
    as (lv' & p' & m' & m2 & E2 & Em2 & Le & W2 & Al & R2 & K2 & X2 & _).
  assert (Tr : gMmTrackedPages (frames (mm m1)) = gMmTrackedPages (frames (mm m0))) by exact Tp.
  exists m1, m2, lv'. split; [exact E|]. split; [exact E2|]. intros ty.
  assert (Er : gMmKernelRootTablePhysical (mm (with_section_type ty m2)) = f) by (by rewrite Em2).
  constructor; rewrite ?Er.
  - constructor.
    + by apply (tables_wf_mm lv' m2).
    + done.
    + rewrite Er. eapply lookup_weaken; [|exact Le]. apply lookup_insert_eq.
    + by rewrite Er.
    + rewrite Em2. cbn. by rewrite length_replicate.
    + rewrite Em2. exact Rg.
    + rewrite Em2. cbn. by apply Al.
  - exact R2.
  - by rewrite Em2.
  - by rewrite Em2.
  - intros va Hva. transitivity (translate m2 f va); [done|].
    rewrite (K2 f va (lookup_insert_eq _ _ _) (or_intror Hva)). exact (Tf va).
  - intros x Hx. apply X2. by rewrite Tr.
Qed.

(** The kernel after [MmInitialize]. *)
Definition mm_done (m : mm_machine) (s : ob_state) (w : kernel) : kernel :=
  set_k_hal (set_routines (gHalTimerTickRoutine (k_hal w)) (Some FaultMmpOnPageFault) (k_hal w))
    (set_k_mm m (set_k_ob s w)).

Lemma mm_initialize_spec lv k ext ptr top t (w : kernel) : gMmReady (mm (k_mm w)) = false ->
  Magic (bi_value ptr) = BOOTINFO_MAGIC -> let m0 := reset_statics ptr top (k_mm w) in
  startable lv (S (S (S k))) m0 -> ob_inv (k_ob w) ext -> find_first negb (gObTypeInUse (k_ob w)) = Some t ->
  exists m s lv', MmInitialize (Some ptr) top w = Ret KSTATUS_SUCCESS (mm_done m s w) /\ mm_started k m0 m lv' /\
    ob_inv s ext /\ gObTypeInUse s = <[t := true]> (gObTypeInUse (k_ob w)) /\ gObObjectInUse s = gObObjectInUse (k_ob w) /\
    gObNextObjectId s = gObNextObjectId (k_ob w) /\ gMmSectionType (mm m) = Some t /\
    MmInitialize (Some ptr) top (mm_done m s w) = Ret KSTATUS_ALREADY_INITIALIZED (mm_done m s w).
Proof.
  intros Nr Mg m0 St O F. destruct (tables_start lv k ptr top (k_mm w) St) as (m1 & m2 & lv' & E1 & E2 & P).
  destruct (create_type_spec (k_ob w) ext (str "Section") SectionDeleteRoutine t O F) as (s & Es & Os & _ & Us & Ob & Nx & _).
  exists (with_section_type (Some t) m2), s, lv'. split; [|split; [exact (P (Some t))|]].
  - unfold MmInitialize. rewrite bind_gets. change (gMmReady (mm (mm_get w))) with (gMmReady (mm (k_mm w))). rewrite Nr, Mg.
    rewrite Z.eqb_refl. cbn [negb]. erewrite bind_mmM by reflexivity. fold m0.
    rewrite (bind_mmM _ _ (set_k_mm m0 w) _ _ E1). cbn [ok Z.eqb KSTATUS_SUCCESS negb].
    rewrite (bind_mmM _ _ (set_k_mm m1 (set_k_mm m0 w)) _ _ E2). cbn [ok Z.eqb KSTATUS_SUCCESS negb].
    erewrite bind_ob by exact Es. cbn [ok Z.eqb KSTATUS_SUCCESS negb]. erewrite bind_mmM by reflexivity. reflexivity.
  - split; [exact Os|]. split; [exact Us|]. split; [exact Ob|]. split; [exact Nx|]. split; reflexivity.
Qed.

(** ** Printing on a kernel without a framebuffer *)

Definition serial (w : kernel) : Prop := gHalFbReady (console (k_hal w)) = false.

Lemma serial_write Ch (w : kernel) : exists k o, HalpSerialWriteChar Ch w = Ret tt (set_ports_used k o w).
Proof. apply serial_wait_ports. Qed.

Lemma write_chars_serial m : forall w : kernel, serial w -> exists k o, write_debug_chars m w = Ret tt (set_ports_used k o w).
Proof.
  induction m as [|Ch m IH]; intros w S; cbn [write_debug_chars]; [exists (k_clock w), (k_outputs w); by destruct w|].
  destruct (Ch =? 0). { exists (k_clock w), (k_outputs w). by destruct w. }
  assert (P : exists k o, (if Ch =? 10 then HalpSerialWriteChar 13 else ret tt) w = Ret tt (set_ports_used k o w)).
  { destruct (Ch =? 10); [apply serial_write|]. exists (k_clock w), (k_outputs w). by destruct w. }
  destruct P as (k & o & E). rewrite (bind_eq _ _ _ _ _ E).
  destruct (serial_write Ch (set_ports_used k o w)) as (k1 & o1 & E1). rewrite (bind_eq _ _ _ _ _ E1).
  assert (P : HalpFbPutChar Ch (set_ports_used k1 o1 (set_ports_used k o w)) = Ret tt (set_ports_used k1 o1 (set_ports_used k o w))).
  { unfold HalpFbPutChar, get_console. rewrite bind_gets. change (gHalFbReady _) with (gHalFbReady (console (k_hal w))). by rewrite S. }
  rewrite (bind_eq _ _ _ _ _ P). destruct (IH (set_ports_used k1 o1 (set_ports_used k o w)) S) as (k2 & o2 & E2).
  exists k2, o2. exact E2.
Qed.

Lemma ports_ports k o k' o' w : set_ports_used k o (set_ports_used k' o' w) = set_ports_used k o w.
Proof. reflexivity. Qed.

(** A line printed in front of the rest. *)
Lemma print_then {B} m (c : unit -> M kernel B) (w : kernel) : serial w ->
  exists k o, bind (print_str m) c w = c tt (set_ports_used k o w).
Proof.
  intros S. destruct (write_chars_serial m w S) as (k & o & E). exists k, o. exact (bind_eq _ _ _ _ _ E).
Qed.

Lemma hex_line_then {B} p v (c : unit -> M kernel B) (w : kernel) : serial w -> is_cstr p -> (length p + 20 <= 96)%nat ->
  exists k o, bind (write_line (ExWriteHexLine p v)) c w = c tt (set_ports_used k o w).
Proof.
  intros S C L. unfold write_line, ExWriteHexLine. rewrite write_hex_line_fits by done. rewrite bind_assoc, bind_deref.
  by apply print_then.
Qed.

Ltac print_step :=
  match goal with
  | |- context [bind (print_str ?m) ?c ?w] =>
      let k := fresh "k" in let o := fresh "o" in let E := fresh in
      destruct (print_then m c w) as (k & o & E); [assumption|]; rewrite E; clear E
  | |- context [bind (write_line (ExWriteHexLine ?m ?v)) ?c ?w] =>
      let k := fresh "k" in let o := fresh "o" in let E := fresh in
      destruct (hex_line_then m v c w) as (k & o & E); [assumption|by repeat constructor|cbn; lia|]; rewrite E; clear E
  end; cbv beta; rewrite ?ports_ports.

(** One module of the table: what it prints does not matter. *)
Lemma initialize_modules_cons `{ExLayout} m l (w : kernel) : serial w ->
  exists k o, forall w1, run_initialize (Initialize m) (set_ports_used k o w) = Ret KSTATUS_SUCCESS w1 ->
    initialize_modules (m :: l) w = initialize_modules l w1.
Proof.
  intros S. cbn [initialize_modules]. print_step. print_step. print_step. print_step.
  eexists _, _. intros w1 E. by rewrite (bind_eq _ _ _ _ _ E).
Qed.

(** ** The modules *)

Definition init_path : cstr := str "\System\init.kpe".
Definition init_image (b : BOOT_INFO) : bool :=
  any_flag (Flags b) BOOTINFO_FLAG_INIT_IMAGE_PRESENT && negb (InitImageBase b =? 0) && negb (InitImageSize b =? 0).

(** What [ObCreateType] on a free slot [t] makes of the object manager. *)
Definition type_added (ext : nat -> Z) (r : OB_DELETE_ROUTINE) (t : nat) (s s' : ob_state) : Prop :=
  ob_inv s' ext /\ gObTypeInUse s' = <[t := true]> (gObTypeInUse s) /\ gObObjectInUse s' = gObObjectInUse s /\
  gObNextObjectId s' = gObNextObjectId s /\
  exists ty, DeleteRoutine ty = Some r /\ gObTypePool s' = <[t := ty]> (gObTypePool s).

Lemma type_added_spec s ext nm r t : ob_inv s ext -> find_first negb (gObTypeInUse s) = Some t ->
  exists s', ObCreateType (Some nm) (Some r) true s = Ret (KSTATUS_SUCCESS, Some t) s' /\ type_added ext r t s s' /\ (t < 256)%nat.
Proof.
  intros O F. destruct (create_type_spec s ext nm r t O F) as (s' & E & O' & L & A).
  exists s'. split; [exact E|]. split; [|exact L]. exact (conj O' A).
Qed.

(** Objects of type [t] are deleted by [r]. *)
Definition deleted_by (s : ob_state) (t : nat) (r : OB_DELETE_ROUTINE) : Prop :=
  exists ty, gObTypePool s !! t = Some ty /\ DeleteRoutine ty = Some r.

Lemma type_added_deletes ext r t s s' : type_added ext r t s s' -> (t < 256)%nat -> deleted_by s' t r.
Proof.
  intros (O & _ & _ & _ & ty & D & P) L. exists ty. split; [|done]. pose proof (oi_tpool _ _ O) as Lp. rewrite P in Lp |- *.
  rewrite length_insert in Lp. apply list_lookup_insert_eq. lia.
Qed.

Lemma type_added_other ext r t s s' u q : type_added ext r t s s' -> u <> t -> deleted_by s u q -> deleted_by s' u q.
Proof. intros (_ & _ & _ & _ & ty & _ & P) N (x & Hx & D). exists x. by rewrite P, list_lookup_insert_ne. Qed.

Lemma cleared_boot_files l : forall k b, map clear_boot_file l !! k = Some b -> BootInUse b = false.
Proof.
  intros k b Hb. rewrite list_lookup_fmap in Hb. destruct (l !! k); [|done]. by injection Hb as <-.
Qed.

(** No boot file is registered. *)
Definition no_files (s : io_state) : Prop := forall k b, gIoBootFiles s !! k = Some b -> BootInUse b = false.

Lemma io_initialize_spec ext ptr t (w : kernel) : gIoReady (k_io w) = false -> gNkBootInfo (k_nk w) = Some ptr ->
  length (gIoFilePool (k_io w)) = Z.to_nat IO_MAX_FILE_OBJECTS -> gIoBootFiles (k_io w) <> [] ->
  (forall k b, gIoBootFiles (k_io w) !! k = Some b -> length (BootPath b) = 64%nat) ->
  0 <= InitImageBase (bi_value ptr) -> 0 <= InitImageSize (bi_value ptr) ->
  ob_inv (k_ob w) ext -> find_first negb (gObTypeInUse (k_ob w)) = Some t ->
  exists io s, IoInitialize w = Ret KSTATUS_SUCCESS (set_k_io io (set_k_ob s w)) /\ type_added ext FileDeleteRoutine t (k_ob w) s /\
    io_inv (set_k_io io (set_k_ob s w)) /\ gIoFileInUse io = replicate (Z.to_nat IO_MAX_FILE_OBJECTS) false /\
    gIoFileType io = Some t /\
    (if init_image (bi_value ptr) then registered io init_path (InitImageBase (bi_value ptr)) (InitImageSize (bi_value ptr))
     else no_files io).
Proof.
  intros R Bi Lp Ne Pl B0 S0 O F. destruct (type_added_spec (k_ob w) ext (str "File") FileDeleteRoutine t O F) as (s & Es & Ts & Lt).
  set (io1 := {| gIoFileType := Some t; gIoFilePool := gIoFilePool (k_io w);
    gIoFileInUse := replicate (Z.to_nat IO_MAX_FILE_OBJECTS) false; gIoBootFiles := map clear_boot_file (gIoBootFiles (k_io w));
    gIoSpawnScratch := gIoSpawnScratch (k_io w); gIoReady := true |}).
  assert (Pl1 : forall k b, gIoBootFiles io1 !! k = Some b -> length (BootPath b) = 64%nat).
  { intros k b Hb. cbn in Hb. rewrite list_lookup_fmap in Hb. destruct (gIoBootFiles (k_io w) !! k) as [b'|] eqn:E; [|done].
    injection Hb as <-. cbn. rewrite length_insert. by eapply Pl. }
  assert (X : exists l, (if init_image (bi_value ptr)
      then io (W := kernel) (IoRegisterBootFile (Some init_path) (InitImageBase (bi_value ptr)) (InitImageSize (bi_value ptr))) ;;; ret tt
      else ret tt) (set_k_io io1 (set_k_ob s w)) = Ret tt (set_k_io (set_boot_files l io1) (set_k_ob s w)) /\
    (forall k b, l !! k = Some b -> length (BootPath b) = 64%nat) /\
    (if init_image (bi_value ptr)
     then registered (set_boot_files l io1) init_path (InitImageBase (bi_value ptr)) (InitImageSize (bi_value ptr))
     else no_files (set_boot_files l io1))).
  { destruct (init_image (bi_value ptr)) eqn:Ii; [|exists (gIoBootFiles io1); split; [by destruct io1|]; split; [done|]; intros k b Hb; cbn in Hb; exact (cleared_boot_files _ k b Hb)].
    unfold init_image in Ii. rewrite !andb_true_iff, !negb_true_iff, !Z.eqb_neq in Ii.
    assert (F0 : find_first (fun f => negb (BootInUse f)) (gIoBootFiles io1) = Some 0%nat).
    { cbn. by destruct (gIoBootFiles (k_io w)). }
    edestruct (register_spec io1 init_path) as (s' & E & Rg & (l & ->) & Pl'); [by repeat constructor|cbn; lia|done| |
      |exact Pl1|exact F0| |].
    - instantiate (1 := InitImageBase (bi_value ptr)). lia.
    - instantiate (1 := InitImageSize (bi_value ptr)). lia.
    - intros k b Hb. apply cleared_boot_files in Hb. congruence.
    - exists l. split; [|done]. by rewrite (bind_io _ _ (set_k_io io1 (set_k_ob s w)) _ _ E). }
  destruct X as (l & El & Pll & Rg). exists (set_boot_files l io1), s. split; [|split; [exact Ts|]].
  - unfold IoInitialize. rewrite bind_gets. change (gIoReady (io_get w)) with (gIoReady (k_io w)). rewrite R.
    erewrite bind_io by reflexivity. erewrite bind_io by reflexivity. erewrite bind_ob by exact Es.
    cbn [ok Z.eqb KSTATUS_SUCCESS negb]. erewrite bind_io by reflexivity. rewrite bind_gets.
    change (NkGetBootInfo _) with (gNkBootInfo (k_nk w)). rewrite Bi.
    match goal with |- bind _ _ ?x = _ => change x with (set_k_io io1 (set_k_ob s w)) end. exact (bind_eq _ _ _ _ _ El).
  - split; [|split; [reflexivity|split; [reflexivity|exact Rg]]]. constructor; [reflexivity|by exists t| | |exact Pll].
    + cbn. by rewrite Lp, length_replicate.
    + intros j f i Hj. cbn in Hj. by apply lookup_replicate in Hj as [? _].
Qed.

Lemma endpoint_initialize_spec e nm base flags (s : nk_state) : base <> 0 -> length (Queue (Port e)) = 32%nat ->
  exists e' s', NkServiceEndpointInitialize (Some e) (Some nm) base flags s = Ret (KSTATUS_SUCCESS, Some e') s' /\
    port_wf (Port e') /\ port_queue (Port e') = [] /\ gNkBootInfo s' = gNkBootInfo s.
Proof.
  intros B L. unfold NkServiceEndpointInitialize. destruct (Z.eqb_spec base 0); [done|].
  destruct (copy_chars 32 0 (EndpointName e) nm) as [name terminated].
  destruct (NkPortInitialize (Some (Port e)) s) as [[st p] s1| |] eqn:E; [|done..].
  assert (Ep : exists p', p = Some p' /\ st = KSTATUS_SUCCESS /\ gNkBootInfo s1 = gNkBootInfo s).
  { unfold NkPortInitialize in E. injection E as <- <- <-. by eexists. }
  destruct Ep as (p' & -> & -> & Bi). destruct (port_init_wf _ _ _ _ _ L E) as [Wp Qp].
  rewrite (bind_eq _ _ _ _ _ E). eexists _, _. split; [reflexivity|]. by split_and!.
Qed.

Lemma lpc_initialize_spec ext t (w : kernel) : gLpcReady (k_lpc w) = false ->
  length (Queue (Port (gLpcSystemEndpoint (k_lpc w)))) = 32%nat ->
  ob_inv (k_ob w) ext -> find_first negb (gObTypeInUse (k_ob w)) = Some t ->
  exists l n s, LpcInitialize w = Ret KSTATUS_SUCCESS (set_k_lpc l (set_k_nk n (set_k_ob s w))) /\ type_added ext PortDeleteRoutine t (k_ob w) s /\
    gNkBootInfo n = gNkBootInfo (k_nk w) /\ gLpcReady l = true /\ gLpcPortType l = Some t /\ gLpcPortPool l = gLpcPortPool (k_lpc w) /\
    gLpcPortInUse l = replicate (Z.to_nat LPC_MAX_PORT_OBJECTS) false /\
    port_wf (Port (gLpcSystemEndpoint l)) /\ port_queue (Port (gLpcSystemEndpoint l)) = [].
Proof.
  intros R L O F. destruct (type_added_spec (k_ob w) ext (str "LpcPort") PortDeleteRoutine t O F) as (s & Es & Ts & Lt).
  destruct (endpoint_initialize_spec (gLpcSystemEndpoint (k_lpc w)) (str "lpc.system") LPC_OPCODE_BASE 0 (k_nk w))
    as (e & n & En & We & Qe & Bi); [done|done|].
  eexists _, n, s. split.
  - unfold LpcInitialize. rewrite bind_gets. change (gLpcReady (lpc_get w)) with (gLpcReady (k_lpc w)). rewrite R.
    erewrite bind_lpc by reflexivity. erewrite bind_nk by exact En. cbv beta iota. erewrite bind_lpc by reflexivity.
    cbn [ok Z.eqb KSTATUS_SUCCESS negb]. erewrite bind_ob by exact Es. cbn [ok Z.eqb KSTATUS_SUCCESS negb].
    erewrite bind_lpc by reflexivity. reflexivity.
  - split; [exact Ts|]. cbn. by split_and!.
Qed.

(** The static variables as the loader leaves them, the arrays with their
    lengths. *)
Record blank (w : kernel) : Prop := {
  bl_ob : gObReady (k_ob w) = false /\ length (gObTypePool (k_ob w)) = 256%nat /\ length (gObObjectPool (k_ob w)) = 256%nat;
  bl_se : gSeReady (k_se w) = false;
  bl_mm : gMmReady (mm (k_mm w)) = false;
  bl_cc : gCcReady (k_cc w) = false;
  bl_io : gIoReady (k_io w) = false;
  bl_files : length (gIoFilePool (k_io w)) = Z.to_nat IO_MAX_FILE_OBJECTS;
  bl_boot : gIoBootFiles (k_io w) <> [];
  bl_paths : forall k b, gIoBootFiles (k_io w) !! k = Some b -> length (BootPath b) = 64%nat;
  bl_ps : ps_blank (k_ps w);
  bl_lpc : gLpcReady (k_lpc w) = false;
  bl_queue : length (Queue (Port (gLpcSystemEndpoint (k_lpc w)))) = 32%nat;
  bl_ex : length (Queue (Port (k_ex w))) = 32%nat }.

Definition memory_limit (w : kernel) : Z := PhysicalMemoryTop (HalQueryPlatformInfo (k_hal w)).

(** What the start needs: the boot record, and memory to start on. *)
Record bootable (lv : gmap Z nat) (ptr : BOOT_INFO_PTR) (w : kernel) : Prop := {
  bt_info : gNkBootInfo (k_nk w) = Some ptr;
  bt_magic : Magic (bi_value ptr) = BOOTINFO_MAGIC;
  bt_image : 0 <= InitImageBase (bi_value ptr) /\ 0 <= InitImageSize (bi_value ptr);
  bt_memory : startable lv 4 (reset_statics ptr (memory_limit w) (k_mm w)) }.

Lemma ob_start s : gObReady s = false -> length (gObTypePool s) = 256%nat -> length (gObObjectPool s) = 256%nat ->
  exists s', ObInitialize s = Ret KSTATUS_SUCCESS s' /\ ob_inv s' (fun _ => 0) /\ gObTypeInUse s' = replicate 256 false /\
    gObObjectInUse s' = replicate 256 false /\ gObNextObjectId s' = 1.
Proof.
  intros R T O. destruct (inv_initialize s R T O) as (s' & E & I). exists s'. split; [done|]. split; [done|].
  unfold ObInitialize in E. rewrite R in E. injection E as <-. by split_and!.
Qed.

Lemma cc_start i s : gCcReady s = false -> exists s', CcInitialize i s = Ret KSTATUS_SUCCESS s' /\ gCcReady s' = true.
Proof. intros R. unfold CcInitialize. rewrite R. eexists. split; reflexivity. Qed.

(** The kernel after the first five modules. *)
Definition five_done (k : nat) (o : list (Z * Z)) (io : io_state) (c : cc_state) (m : mm_machine) (s : ob_state) (w : kernel) : kernel :=
  set_ports_used k o (set_k_io io (set_k_cc c (mm_done m s (set_k_se {| gSeReady := true; gSeDefaultPrivilegeMask := 0xF |} w)))).

Lemma five_modules `{ExLayout} lv ptr (w : kernel) l : blank w -> serial w -> bootable lv ptr w ->
  exists k o io c m s lv', let w5 := five_done k o io c m s w in
    initialize_modules (take 5 gExBootModules ++ l) w = initialize_modules l w5 /\
    mm_started 1 (reset_statics ptr (memory_limit w) (k_mm w)) m lv' /\ ob_inv s (fun _ => 0) /\
    gObTypeInUse s = [true; true] ++ replicate 254 false /\ gObObjectInUse s = replicate 256 false /\ gObNextObjectId s = 1 /\
    gMmSectionType (mm m) = Some 0%nat /\ gCcReady c = true /\ io_inv w5 /\
    gIoFileInUse io = replicate (Z.to_nat IO_MAX_FILE_OBJECTS) false /\
    (if init_image (bi_value ptr) then registered io init_path (InitImageBase (bi_value ptr)) (InitImageSize (bi_value ptr))
     else no_files io) /\
    gIoFileType io = Some 1%nat /\ deleted_by s 1 FileDeleteRoutine.
Proof.
  intros B S [Bi Mg [B0 S0] St]. cbn [take gExBootModules app].
  destruct (bl_ob _ B) as (R0 & T0 & O0). destruct (ob_start _ R0 T0 O0) as (s0 & E0 & I0 & U0 & Ou0 & N0).
  match goal with |- context [initialize_modules (?x :: ?t) w] => destruct (initialize_modules_cons x t w S) as (k0 & o0 & K0) end.
  erewrite K0; [|exact (ob_Ret _ (set_ports_used k0 o0 w) _ _ E0)]. clear K0.
  set (w0 := set_k_ob s0 _).
  match goal with |- context [initialize_modules (?x :: ?t) w0] => destruct (initialize_modules_cons x t w0 S) as (k1 & o1 & K1) end.
  assert (E1 : run_initialize InitializeSe (set_ports_used k1 o1 w0) = Ret KSTATUS_SUCCESS
    (set_k_se {| gSeReady := true; gSeDefaultPrivilegeMask := 0xF |} (set_ports_used k1 o1 w0))).
  { cbn [run_initialize]. unfold se, zoom, SeInitialize. change (gSeReady _) with (gSeReady (k_se w)). by rewrite (bl_se _ B). }
  rewrite (K1 _ E1). clear K1 E1. set (w1 := set_k_se _ _).
  match goal with |- context [initialize_modules (?x :: ?t) w1] => destruct (initialize_modules_cons x t w1 S) as (k2 & o2 & K2) end.
  destruct (mm_initialize_spec lv 1 (fun _ => 0) ptr (memory_limit w) 0 (set_ports_used k2 o2 w1) (bl_mm _ B) Mg St I0)
    as (m & s & lv' & E2 & Ms & Os & Us & Obs & Ns & Ty & _); [change (gObTypeInUse _) with (gObTypeInUse s0); by rewrite U0|].
  assert (E2' : run_initialize InitializeMm (set_ports_used k2 o2 w1) = Ret KSTATUS_SUCCESS (mm_done m s (set_ports_used k2 o2 w1))).
  { cbn [run_initialize]. rewrite !bind_gets. change (NkGetBootInfo _) with (gNkBootInfo (k_nk w)). by rewrite Bi. }
  rewrite (K2 _ E2'). clear K2 E2' E2. set (w2 := mm_done m s _).
  match goal with |- context [initialize_modules (?x :: ?t) w2] => destruct (initialize_modules_cons x t w2 S) as (k3 & o3 & K3) end.
  destruct (cc_start (HalQueryPlatformInfo (k_hal w2)) (k_cc w) (bl_cc _ B)) as (c & Ec & Rc).
  assert (E3 : run_initialize InitializeCc (set_ports_used k3 o3 w2) = Ret KSTATUS_SUCCESS (set_k_cc c (set_ports_used k3 o3 w2))).
  { cbn [run_initialize]. rewrite !bind_gets. unfold cc, zoom. change (cc_get _) with (k_cc w).
    change (hal_get _) with (k_hal w2). by rewrite Ec. }
  rewrite (K3 _ E3). clear K3 E3. set (w3 := set_k_cc c _).
  match goal with |- context [initialize_modules (?x :: ?t) w3] => destruct (initialize_modules_cons x t w3 S) as (k4 & o4 & K4) end.
  destruct (io_initialize_spec (fun _ => 0) ptr 1 (set_ports_used k4 o4 w3) (bl_io _ B) Bi (bl_files _ B) (bl_boot _ B) (bl_paths _ B)
    B0 S0 Os) as (io & s4 & E4 & Ty4 & Ii & Fu & Ft & Rg).
  { change (gObTypeInUse _) with (gObTypeInUse s). rewrite Us. change (gObTypeInUse _) with (gObTypeInUse s0). by rewrite U0. }
  rewrite (K4 _ E4). clear K4 E4.
  pose proof (type_added_deletes _ _ _ _ _ Ty4 ltac:(lia)) as D4. destruct Ty4 as (O4 & U4 & Ob4 & N4 & _).
  exists k4, o4, io, c, m, s4, lv'. cbv zeta.
  change (k_ob (set_ports_used k4 o4 w3)) with s in *. change (k_ob (set_ports_used k2 o2 w1)) with s0 in *.
  split; [reflexivity|]. split; [exact Ms|]. split; [exact O4|]. split; [by rewrite U4, Us, U0|].
  split; [by rewrite Ob4, Obs, Ou0|]. split; [by rewrite N4, Ns|]. split; [exact Ty|]. split; [exact Rc|]. split; [exact Ii|]. by split_and!.
Qed.

(** The last two modules. *)
Lemma two_modules `{ExLayout} lv k m0 (w : kernel) l : blank w -> serial w ->
  forall k0 o0 io c m s, let w5 := five_done k0 o0 io c m s w in
  mm_started (S k) m0 m lv -> ob_inv s (fun _ => 0) -> gObTypeInUse s = [true; true] ++ replicate 254 false ->
  gObObjectInUse s = replicate 256 false -> gObNextObjectId s = 1 ->
  exists w7 ext lv' j, initialize_modules (drop 5 gExBootModules ++ l) w5 = initialize_modules l w7 /\
    ps_inv ext lv' w7 [] (Some j) /\ k_io w7 = io /\ gSeReady (k_se w7) = true /\ k_cc w7 = c /\ k_ex w7 = k_ex w /\
    console (k_hal w7) = console (k_hal w) /\ gHalPageFaultRoutine (k_hal w7) = Some FaultMmpOnPageFault /\
    gHalTimerTickRoutine (k_hal w7) = Some TickPsOnTimerTick /\
    gLpcReady (k_lpc w7) = true /\ port_wf (Port (gLpcSystemEndpoint (k_lpc w7))) /\
    port_queue (Port (gLpcSystemEndpoint (k_lpc w7))) = [] /\ gates (k_intr w7) = gates (k_intr w) /\ k_if w7 = k_if w /\
    gNkBootInfo (k_nk w7) = gNkBootInfo (k_nk w) /\ 0 <= gObNextObjectId (k_ob w7) <= 3 /\
    (deleted_by s 1 FileDeleteRoutine -> deleted_by (k_ob w7) 1 FileDeleteRoutine) /\
    forall va, translate (k_mm w7) (addr_of (cr3 (k_mm w7))) va = translate m (gMmKernelRootTablePhysical (mm m)) va.
Proof.
  intros B S k0 o0 io c m s w5 Ms Os Us Obs Ns. cbn [drop gExBootModules app].
  match goal with |- context [initialize_modules (?x :: ?t) w5] => destruct (initialize_modules_cons x t w5 S) as (k5 & o5 & K5) end.
  destruct (initialize_spec (fun _ => 0) lv (set_ports_used k5 o5 w5) 2 3 0 1 0 Os (ms_ready _ _ _ _ Ms) (bl_ps _ B))
    as (w6 & ext & lv' & j & E5 & I & Tk & _ & (p & a & x & Sp & _ & C3 & Tr) & _ & U6 & D6 & N6).
  { change (k_ob _) with s. by rewrite Us. } { change (k_ob _) with s. by rewrite Us. } { done. }
  { change (k_ob _) with s. by rewrite Obs. } { change (k_ob _) with s. by rewrite Obs. }
  { change (k_ob _) with s. rewrite Ns. lia. } { change (k_ob _) with s. rewrite Ns. lia. }
  { change (gMmAddressSpaceInUse (mm m) !! 0%nat = Some false). by rewrite (ms_spaces _ _ _ _ Ms). }
  { exact (room_not_full _ _ (ms_room _ _ _ _ Ms)). }
  pose proof (bystanders_start _ _ _ E5) as By. assert (By10 : gates (k_intr w6) = gates (k_intr w) /\ k_if w6 = k_if w) by exact (conj (f_equal (fun x => fst (snd x)) By) (f_equal (fun x => snd (snd x)) By)).
  injection By as By1 By2 By3 By4 By5 By6 By7 By8 By9.
  rewrite (K5 _ E5). clear K5 E5.
  change (k_ob (set_ports_used k5 o5 w5)) with s in U6, D6, N6. rewrite Us in U6.
  assert (S6 : serial w6) by (unfold serial; by rewrite By8).
  match goal with |- context [initialize_modules (?x :: ?t) w6] => destruct (initialize_modules_cons x t w6 S6) as (k6 & o6 & K6) end.
  destruct (lpc_initialize_spec ext 4 (set_ports_used k6 o6 w6)) as (lp & n & s7 & E6 & Ty7 & Bi7 & R7 & _ & _ & _ & W7 & Q7).
  { change (gLpcReady (k_lpc w6) = false). rewrite By1. exact (bl_lpc _ B). }
  { change (k_lpc (set_ports_used k6 o6 w6)) with (k_lpc w6). rewrite By1. exact (bl_queue _ B). }
  { exact (pi_ob _ _ _ _ _ I). } { change (k_ob (set_ports_used k6 o6 w6)) with (k_ob w6). by rewrite U6. }
  rewrite (K6 _ E6). clear K6 E6.
  set (w7 := set_k_lpc lp (set_k_nk n (set_k_ob s7 (set_ports_used k6 o6 w6)))).
  assert (D7 : deleted_by s 1 FileDeleteRoutine -> deleted_by s7 1 FileDeleteRoutine).
  { intros (ty & Hty & D). apply (type_added_other _ _ _ _ _ _ _ Ty7); [done|]. exists ty. split; [|exact D].
    etransitivity; [exact (D6 1%nat ltac:(done) ltac:(done))|exact Hty]. }
  destruct Ty7 as (O7 & _ & _ & N7 & _).
  exists w7, ext, lv', j. split; [reflexivity|].
  split. { destruct I as [A1 A2 A3 A4 A5 A6 A7 A8]. by constructor. }
  change (k_io w7) with (k_io w6). change (k_se w7) with (k_se w6). change (k_cc w7) with (k_cc w6). change (k_ex w7) with (k_ex w6).
  change (k_hal w7) with (k_hal w6). change (k_mm w7) with (k_mm w6).
  change (k_intr w7) with (k_intr w6). change (k_if w7) with (k_if w6). destruct By10 as [By10 By11].
  change (k_nk w7) with n. change (k_ob w7) with s7. change (k_nk (set_ports_used k6 o6 w6)) with (k_nk w6) in Bi7.
  change (k_ob (set_ports_used k6 o6 w6)) with (k_ob w6) in N7.
  rewrite By3, By4, By5, By6, By8, By9, By10, By11, Bi7, By2, N7. rewrite Ns in N6. split_and!; try done; [lia..|]. intros va. rewrite C3. exact (Tr va).
Qed.

(** The control endpoint and the message to the system endpoint. *)
Lemma hybrid_spec `{ExLayout} (w : kernel) : serial w -> length (Queue (Port (k_ex w))) = 32%nat -> gLpcReady (k_lpc w) = true ->
  port_wf (Port (gLpcSystemEndpoint (k_lpc w))) -> port_queue (Port (gLpcSystemEndpoint (k_lpc w))) = [] ->
  exists k o n e l, ExInitializeHybridServices w = Ret KSTATUS_SUCCESS (set_ports_used k o (set_k_lpc l (set_k_ex e (set_k_nk n w)))) /\
    gNkBootInfo n = gNkBootInfo (k_nk w) /\
    gLpcReady l = true /\ port_wf (Port e) /\ port_queue (Port e) = [] /\
    port_wf (Port (gLpcSystemEndpoint l)) /\ port_queue (Port (gLpcSystemEndpoint l)) = [bind_message].
Proof.
  intros S L R Wp Q. unfold ExInitializeHybridServices. rewrite bind_gets.
  destruct (endpoint_initialize_spec (k_ex w) (str "ex.control") 0x2000 0 (k_nk w)) as (e & n & En & We & Qe & Bi); [done|done|].
  rewrite (bind_nk _ _ w _ _ En). cbv beta iota. cbn [default]. rewrite bind_modify. cbn [ok Z.eqb KSTATUS_SUCCESS negb].
  set (w1 := put_ex_endpoint e (set_k_nk n w)).
  assert (G : LpcGetSystemEndpoint true w1 = Ret (KSTATUS_SUCCESS, Some (gLpcSystemEndpoint (k_lpc w))) w1).
  { unfold LpcGetSystemEndpoint. rewrite bind_gets. change (lpc_get w1) with (k_lpc w). by rewrite R. }
  rewrite (bind_eq _ _ _ _ _ G). cbv beta iota. cbn [ok Z.eqb KSTATUS_SUCCESS negb].
  destruct (NkPortSend_spec _ bind_message w1 Wp) as (st & p & Es & Wp' & D).
  destruct D as [(_ & Bad & _)|[(_ & _ & Bad & _)|(-> & _ & _ & Qp)]]; [by cbn in Bad|by rewrite Q in Bad|].
  assert (X : send_system_endpoint bind_message w1 = Ret KSTATUS_SUCCESS (set_k_lpc
    {| gLpcSystemEndpoint := set_endpoint_port (gLpcSystemEndpoint (k_lpc w)) p; gLpcPortType := gLpcPortType (k_lpc w);
       gLpcPortPool := gLpcPortPool (k_lpc w); gLpcPortInUse := gLpcPortInUse (k_lpc w); gLpcReady := gLpcReady (k_lpc w) |} w1)).
  { unfold send_system_endpoint. rewrite bind_gets. change (lpc_get w1) with (k_lpc w). unfold NkServiceSend.
    rewrite bind_assoc, (bind_eq _ _ _ _ _ Es), bind_ret_l. cbv beta iota. by erewrite bind_lpc by reflexivity. }
  rewrite (bind_eq _ _ _ _ _ X). cbn [ok Z.eqb KSTATUS_SUCCESS negb].
  set (w2 := set_k_lpc _ w1). assert (S2 : serial w2) by exact S. print_step.
  eexists _, _, n, e, _. split; [reflexivity|]. cbn. rewrite Qp, Q. by split_and!.
Qed.

Lemma physmap_covers t x : 0 <= x < 4096 * t -> 0 <= x < physmap_pages t * 2 ^ 21.
Proof. intros Hx. unfold physmap_pages. change (2 ^ 21) with 2097152. zlia. Qed.

(** What opening a file needs: a type whose objects the file manager deletes, and
    object numbers. *)
Record files_ready (ptr : BOOT_INFO_PTR) (w : kernel) : Prop := {
  fs_info : gNkBootInfo (k_nk w) = Some ptr;
  fs_ids : 0 <= gObNextObjectId (k_ob w) <= 3;
  fs_type : exists t, gIoFileType (k_io w) = Some t /\ deleted_by (k_ob w) t FileDeleteRoutine }.

Lemma executive_start_spec `{ExLayout} lv ptr (w : kernel) : blank w -> serial w -> bootable lv ptr w ->
  exists w' ext lv' j, ExInitializeExecutive w = Ret KSTATUS_SUCCESS w' /\ ps_inv ext lv' w' [] (Some j) /\ io_inv w' /\
    (if init_image (bi_value ptr) then registered (k_io w') init_path (InitImageBase (bi_value ptr)) (InitImageSize (bi_value ptr))
     else no_files (k_io w')) /\ files_ready ptr w' /\
    gSeReady (k_se w') = true /\ gCcReady (k_cc w') = true /\ gLpcReady (k_lpc w') = true /\
    gHalPageFaultRoutine (k_hal w') = Some FaultMmpOnPageFault /\ gHalTimerTickRoutine (k_hal w') = Some TickPsOnTimerTick /\
    port_queue (Port (gLpcSystemEndpoint (k_lpc w'))) = [bind_message] /\
    (forall va, walk_index va 0 <> physmap_slot ->
       translate (k_mm w') (addr_of (cr3 (k_mm w'))) va = translate (k_mm w) (addr_of (cr3 (k_mm w))) va) /\
    (forall x, 0 <= x < 4096 * gMmTrackedPages (init_pages (memory_limit w) (ram (k_mm w)) ptr) ->
      translate (k_mm w') (addr_of (cr3 (k_mm w'))) (MM_PHYSMAP_BASE + x) = Some x) /\
    gates (k_intr w') = gates (k_intr w) /\ k_if w' = k_if w /\ console (k_hal w') = console (k_hal w).
Proof.
  intros B S Bt. unfold ExInitializeExecutive. print_step.
  set (w0 := set_ports_used k o w). assert (B0 : blank w0) by by destruct B. assert (Bt0 : bootable lv ptr w0) by by destruct Bt.
  destruct (five_modules lv ptr w0 (drop 5 gExBootModules ++ []) B0 S Bt0)
    as (k1 & o1 & io & c & m & s & lv1 & E5 & Ms & Os & Us & Obs & Ns & _ & Rc & Ii & Fu & Rg & Ft & D5).
  destruct (two_modules lv1 0 _ w0 [] B0 S k1 o1 io c m s Ms Os Us Obs Ns)
    as (w7 & ext & lv' & j & E7 & I7 & Eio & Rse & Ecc & Eex & Ecs & Pf & Tk & Rl & Wp & Q & Eg & Ef & Bi7 & N7 & D7 & Tr).
  assert (E : initialize_modules gExBootModules w0 = Ret KSTATUS_SUCCESS w7) by exact (eq_trans E5 E7).
  rewrite (bind_eq _ _ _ _ _ E). cbn [ok Z.eqb KSTATUS_SUCCESS negb].
  assert (S7 : serial w7) by (unfold serial; by rewrite Ecs).
  destruct (hybrid_spec w7 S7) as (k2 & o2 & n & e & l & Eh & Bn & Rl' & We & Qe & Wl & Ql); [rewrite Eex; exact (bl_ex _ B)|done..|].
  rewrite (bind_eq _ _ _ _ _ Eh). cbn [ok Z.eqb KSTATUS_SUCCESS negb].
  set (w8 := set_ports_used k2 o2 _). assert (S8 : serial w8) by exact S7.
  print_step. set (w9 := set_ports_used _ _ w8). assert (S9 : serial w9) by exact S7. print_step.
  eexists _, ext, lv', j. split; [reflexivity|].
  split. { destruct I7 as [A1 A2 A3 A4 A5 A6 A7 A8]. by constructor. }
  cbn. rewrite Eio, Ecc, Rse, Rc, Rl', Pf, Tk, Ql.
  split. { destruct Ii as [A1 A2 A3 A4 A5]. cbn in A1, A2, A3, A5. constructor; cbn; rewrite Eio; try done.
    intros i f h Hi. rewrite Fu in Hi. by apply lookup_replicate in Hi as [? _]. }
  split; [exact Rg|]. split. { constructor; cbn; [exact (eq_trans Bn (eq_trans Bi7 (bt_info _ _ _ Bt)))|exact N7|]. exists 1%nat. rewrite Eio. by split; [|exact (D7 D5)]. }
  split_and!; try done.
  - intros va Hva. etransitivity; [exact (Tr va)|]. exact (ms_kept _ _ _ _ Ms va Hva).
  - intros x Hx. etransitivity; [exact (Tr _)|]. apply (ms_physmap _ _ _ _ Ms).
    exact (physmap_covers _ x Hx).
Qed.

(** C4: the executive starts the kernel.  From blank static variables, on a
    machine whose page tables are sound and that has four free frames, all seven
    modules succeed in the table's order: afterwards the process manager's
    invariant holds with the bootstrap thread running, the I/O manager's holds
    and the init image, if there is one, is registered under its path, the
    security, cache and port managers are ready, the page-fault and the timer
    routine are registered, the bind message is the one message at the system
    endpoint, every address outside the physmap's slot translates as it did in
    the firmware's tables, and every tracked byte of memory is reached through
    the physmap. *)
Theorem ExInitializeExecutive_starts `{ExLayout} lv ptr (w : kernel) : blank w -> serial w -> bootable lv ptr w ->
  exists w' ext lv' j, ExInitializeExecutive w = Ret KSTATUS_SUCCESS w' /\ ps_inv ext lv' w' [] (Some j) /\ io_inv w' /\
    (init_image (bi_value ptr) = true ->
     registered (k_io w') init_path (InitImageBase (bi_value ptr)) (InitImageSize (bi_value ptr))) /\
    gSeReady (k_se w') = true /\ gCcReady (k_cc w') = true /\ gLpcReady (k_lpc w') = true /\
    gHalPageFaultRoutine (k_hal w') = Some FaultMmpOnPageFault /\ gHalTimerTickRoutine (k_hal w') = Some TickPsOnTimerTick /\
    port_queue (Port (gLpcSystemEndpoint (k_lpc w'))) = [bind_message] /\
    (forall va, walk_index va 0 <> physmap_slot ->
       translate (k_mm w') (addr_of (cr3 (k_mm w'))) va = translate (k_mm w) (addr_of (cr3 (k_mm w))) va) /\
    forall x, 0 <= x < 4096 * gMmTrackedPages (init_pages (memory_limit w) (ram (k_mm w)) ptr) ->
      translate (k_mm w') (addr_of (cr3 (k_mm w'))) (MM_PHYSMAP_BASE + x) = Some x.
Proof.
  intros B S Bt. destruct (executive_start_spec lv ptr w B S Bt)
    as (w' & ext & lv' & j & E & I & Io & Rg & _ & A1 & A2 & A3 & A4 & A5 & Q & T & P & _).
  exists w', ext, lv', j. split_and!; try done. intros Ii. by rewrite Ii in Rg.
Qed.
