(* ===== verification/KernelThreads.v ===== *)
(** * Threads on the kernel: theorems

    The scheduler's operations as steps of the machine of Threads.v, and the
    scheduler's self-test on that machine: two worker threads that run, yield to
    each other and to the test, and end. *)

From S2P Require Import Prelude CString BootProto Nk Se Cc Ob ObInv PhysMem MmPages MmTables MmTablesInv MmSpace MmSection.
From S2P Require Import MmFault MmRegions MmStart Kpe KpeLoad UserMem Ps PsInv PsSpawn Lpc Io Hal Syscall HalIntr HalStart Ex.
From S2P Require Import Threads Arch Validate Kernel KernelInv HalInv PsSpawnInv KernelStart.

(** ** Steps of the machine *)

Section Steps.
Context (fresh : nat -> code kernel).

Lemma reaches_call m c p w w' s : m w = Ret c w' -> reaches fresh {| on_cpu := c; parked := p; kernel_of := w' |} s ->
  reaches fresh {| on_cpu := Call m; parked := p; kernel_of := w |} s.
Proof. intros E R. eapply reaches_step; [|exact R]. unfold step. cbn. by rewrite E. Qed.

(** A call that dispatches and stays, and one that switches. *)
Lemma reaches_stay m k r p (w w' : kernel) s : m w = Ret r w' -> gPsCurrentThread (k_ps w') = gPsCurrentThread (k_ps w) ->
  reaches fresh {| on_cpu := k r; parked := p; kernel_of := w' |} s ->
  reaches fresh {| on_cpu := Switch m k; parked := p; kernel_of := w |} s.
Proof.
  intros E C R. eapply reaches_step; [|exact R]. unfold step. cbn. rewrite E. unfold after_switch. cbn. rewrite C.
  destruct (gPsCurrentThread (k_ps w)); [|done]. by rewrite bool_decide_eq_true_2.
Qed.

Lemma reaches_away m k r p (w w' : kernel) c n s : m w = Ret r w' -> gPsCurrentThread (k_ps w) = Some c ->
  gPsCurrentThread (k_ps w') = Some n -> c <> n ->
  reaches fresh {| on_cpu := default (fresh n) (p !! n); parked := <[c := k r]> p; kernel_of := w' |} s ->
  reaches fresh {| on_cpu := Switch m k; parked := p; kernel_of := w |} s.
Proof.
  intros E C C' N R. eapply reaches_step; [|exact R]. unfold step. cbn. rewrite E. unfold after_switch. cbn. rewrite C, C'.
  by rewrite bool_decide_eq_false_2.
Qed.
End Steps.

(** ** What yielding does on the kernel *)

(** Everything the scheduler leaves alone. *)
Definition aside (w : kernel) := (settled w, k_hal w, k_ke w).

Lemma frame_aside {A} (m : M kernel A) : frame settled m -> frame others m -> frame bystanders m -> frame aside m.
Proof.
  intros F G K w a w' E. unfold aside. rewrite (F _ _ _ E). pose proof (G _ _ _ E) as X. pose proof (K _ _ _ E) as Y.
  unfold others in X. unfold bystanders in Y. congruence.
Qed.

Lemma aside_dispatch : frame aside (PsDispatch (W := kernel)).
Proof. apply frame_aside; [exact settled_dispatch|exact dispatch_frame|exact bystanders_dispatch]. Qed.
Lemma aside_ps {A} (m : M ps_state A) : frame created m -> frame aside (ps (W := kernel) m).
Proof. intros F w a w' E. unfold aside. rewrite (settled_ps m F _ _ _ E). by apply zoom_Ret_inv in E as (s & _ & ->). Qed.
#[export] Hint Resolve aside_dispatch aside_ps : frames.
Lemma aside_yield : frame aside (PsYieldThread (W := kernel)).
Proof. unfold PsYieldThread. repeat settled_step. Qed.
#[export] Hint Resolve aside_yield : frames.
Lemma aside_preempt : frame aside (PsHandlePreemptionPoint (W := kernel)).
Proof. unfold PsHandlePreemptionPoint. repeat settled_step. Qed.

(** The thread in slot [i] starts with routine [r], called with [x]. *)
Definition starts_with (s : ps_state) (i : nat) (r x : Z) : Prop :=
  exists t h, thread_at s i t h /\ program t = (false, Some r, x).

Lemma starts_with_created s s' i r x : created s' = created s -> starts_with s i r x -> starts_with s' i r x.
Proof.
  intros E (t & h & T & P). destruct (created_thread _ _ _ _ _ E T) as (t' & T' & Id). exists t', h. split; [done|].
  rewrite <- P. exact (f_equal snd Id).
Qed.

Lemma aside_starts w w' i r x : aside w' = aside w -> starts_with (k_ps w) i r x -> starts_with (k_ps w') i r x.
Proof. intros E. apply starts_with_created. exact (f_equal (fun a => a.1.1.1.1.1) E). Qed.

(** The current thread yields to the first of the queue. *)
Lemma yield_spec ext lv w q c : ps_inv ext lv w q (Some c) ->
  let '(st, q', cur') := abs_dispatch q (Some c) in
  exists w', PsYieldThread w = Ret st w' /\ ps_inv ext lv w' q' cur' /\ aside w' = aside w.
Proof.
  intros I. pose proof (sched_keeps ext lv w q (Some c) OpYield I ltac:(done)) as K. cbn [abs_step] in K.
  destruct (abs_dispatch q (Some c)) as [[st q'] cur']. destruct K as (w' & E & _ & I'). exists w'.
  split; [exact E|]. split; [done|]. exact (aside_yield _ _ _ E).
Qed.

(** A preemption point: it yields, or nothing happens. *)
Lemma preempt_spec ext lv w q c : ps_inv ext lv w q (Some c) ->
  exists w', PsHandlePreemptionPoint w = Ret tt w' /\ aside w' = aside w /\
    (ps_inv ext lv w' q (Some c) \/ let '(_, q', cur') := abs_dispatch q (Some c) in ps_inv ext lv w' q' cur').
Proof.
  intros I. pose proof (sched_keeps ext lv w q (Some c) OpPreempt I ltac:(done)) as K. cbn [abs_step] in K.
  assert (X : exists w', PsHandlePreemptionPoint w = Ret tt w' /\
    (ps_inv ext lv w' q (Some c) \/ let '(_, q', cur') := abs_dispatch q (Some c) in ps_inv ext lv w' q' cur')).
  { destruct (gPsReschedulePending (k_ps w)); [destruct (abs_dispatch q (Some c)) as [[st q'] cur']|];
      destruct K as (w' & E & _ & I'); cbn [ps_exec] in E;
      apply bind_Ret_inv in E as ([] & w1 & E & R); injection R as <-; exists w1; auto. }
  destruct X as (w' & E & R). exists w'. split; [done|]. split; [exact (aside_preempt _ _ _ E)|done].
Qed.

(** The timer ticks: some of the current thread's time is used up. *)
Lemma tick_keeps ext lv w q c : ps_inv ext lv w q (Some c) ->
  exists w', ps PsOnTimerTick w = Ret tt w' /\ ps_inv ext lv w' q (Some c) /\ aside w' = aside w.
Proof.
  intros I. pose proof (ps_inv_sched _ _ _ _ _ I) as [S Rn Sp]. destruct (Rn c eq_refl) as (t & Ht & St).
  set (n := if RemainingTicks t >? 0 then RemainingTicks t - 1 else RemainingTicks t).
  set (s1 := upd_thread c (set_RemainingTicks n t) (k_ps w)).
  set (s2 := if n =? 0 then set_pending true s1 else s1).
  assert (E : PsOnTimerTick (k_ps w) = Ret tt s2).
  { unfold PsOnTimerTick. rewrite bind_gets, (so_cur _ _ _ S), (PsInv.so_ready _ _ _ S). cbn [negb].
    rewrite (bind_eq _ _ _ _ _ (get_thread_ok _ _ _ Ht)). cbv zeta.
    rewrite (bind_eq _ _ _ _ _ (update_thread_ok _ _ _ _ Ht)). unfold s2. fold n. by destruct (n =? 0). }
  pose proof (ps_Ret (W := kernel) _ w _ _ E) as E'. exists (set_k_ps s2 w). split; [exact E'|].
  pose proof (aside_ps _ frame_tick _ _ _ E') as A. split; [|exact A].
  assert (S1 : sched_ok s1 q (Some c)).
  { destruct (so_running _ _ _ S c eq_refl) as (Nc & _). apply (sched_ok_upd _ _ _ _ t); try done. intros _. by split; [left|]. }
  assert (S2 : sched_ok s2 q (Some c)).
  { unfold s2. destruct (n =? 0); [|done]. destruct S1 as [[? ? ? ?] ? ? ? ? ?]. constructor; [by constructor|done..]. }
  apply (settled_inv ext lv w _ q (Some c)); [done|exact (f_equal (fun a => a.1.1) A)| |].
  - constructor; [exact S2| |].
    + intros c' [= <-]. exists (set_RemainingTicks n t). split; [|done].
      assert (L : gPsThreadPool s1 !! c = Some (set_RemainingTicks n t)).
      { unfold s1. rewrite upd_thread_lookup by (by eapply lookup_lt_Some). by rewrite decide_True. }
      cbn. unfold s2. by destruct (n =? 0).
    + apply (spaces_ok_processes (k_ps w)); [|done]. cbn. unfold s2. by destruct (n =? 0).
  - intros i Hi. by apply (pi_scheduled _ _ _ _ _ I).
Qed.

(** ** The entry thunk *)

(** The current thread's own data may change where the invariant does not look. *)
Lemma start_taken ext lv w q c t r x : ps_inv ext lv w q (Some c) -> gPsThreadPool (k_ps w) !! c = Some t ->
  ps_inv ext lv (set_k_ps (upd_thread c (set_Start r x t) (k_ps w)) w) q (Some c).
Proof.
  intros [S Rn O M T Th Pr Sc] Ht. assert (L : (c < length (gPsThreadPool (k_ps w)))%nat) by (by eapply lookup_lt_Some).
  destruct (so_running _ _ _ S c eq_refl) as (Nc & t' & Ht' & Su & Ow). assert (t' = t) as -> by congruence.
  set (s := k_ps w) in *. set (t1 := set_Start r x t).
  assert (Old : forall i u k, thread_at (upd_thread c t1 s) i u k -> exists u0, thread_at s i u0 k /\
    (ThreadId u0, KernelStackTop u0, OwnerProcess u0) = (ThreadId u, KernelStackTop u, OwnerProcess u)).
  { intros i u k [Hu Hk]. rewrite upd_thread_lookup in Hu by done. destruct (decide (c = i)) as [<-|N].
    - injection Hu as <-. by exists t.
    - by exists u. }
  constructor; cbn [k_ps k_ob k_mm set_k_ps]; try done.
  - by apply (sched_ok_upd _ _ _ _ t).
  - intros c' [= <-]. exists t1. rewrite upd_thread_lookup by done. rewrite decide_True by done.
    destruct (Rn c eq_refl) as (u & Hu & Ru). split; [done|]. cbn. congruence.
  - destruct Th as [Te Td Ts Tn]. constructor; [| |cbn; by rewrite length_insert|done].
    + intros i u k Hu. destruct (Old i u k Hu) as (u0 & Hu0 & [= E1 E2 E3]). destruct (Te i u0 k Hu0) as [A1 A2 A3 A4 A5].
      constructor; [done|done|by rewrite <- E1|by rewrite <- E2|]. unfold owned. by rewrite <- E3.
    + intros i j u v h k Hu Hv E. destruct (Old i u h Hu) as (u0 & Hu0 & [= E1 _ _]).
      destruct (Old j v k Hv) as (v0 & Hv0 & [= E2 _ _]). apply (Td i j u0 v0 h k); [done..|]. by rewrite E1, E2.
  - destruct Pr. by constructor.
  - intros i Hi. destruct (Sc i Hi) as (u & h & Hu & Hh). destruct (decide (c = i)) as [<-|N].
    + exists t1, h. split; [rewrite upd_thread_lookup by done; by rewrite decide_True|]. cbn. congruence.
    + exists u, h. split; [|done]. by rewrite upd_thread_lookup, decide_False.
Qed.

(** The first turn of a kernel thread's loop up to its start routine. *)
Lemma thunk_starts fresh ext lv w q c r x n start user p : ps_inv ext lv w q (Some c) -> starts_with (k_ps w) c r x ->
  exists w', ps_inv ext lv w' q (Some c) /\ (forall i y z, i <> c -> starts_with (k_ps w) i y z -> starts_with (k_ps w') i y z) /\
    (k_ob w', k_hal w', k_ke w') = (k_ob w, k_hal w, k_ke w) /\
    forall s, reaches fresh {| on_cpu := start r x (Switch (PspThreadEntryThunk_end c ;;; ret 0) (fun _ => PspThreadEntryThunk n start user));
                               parked := p; kernel_of := w' |} s ->
      reaches fresh {| on_cpu := PspThreadEntryThunk (S n) start user; parked := p; kernel_of := w |} s.
Proof.
  intros I (t & h & [Ht Hh] & [= Pu Pr Px]). pose proof (pi_sched _ _ _ _ _ I) as S.
  exists (set_k_ps (upd_thread c (set_Start None 0 t) (k_ps w)) w). split; [by apply start_taken|]. split; [|split; [done|]].
  - intros i y z N (u & k & [Hu Hk] & P). exists u, k. split; [split; [|done]|done]. cbn [k_ps set_k_ps].
    rewrite upd_thread_lookup by (by eapply lookup_lt_Some). by rewrite decide_False.
  - intros s. cbn [PspThreadEntryThunk]. apply reaches_call.
    assert (E : PspThreadEntryThunk_begin w = Ret (c, CallStart r x) (set_k_ps (upd_thread c (set_Start None 0 t) (k_ps w)) w)).
    { unfold PspThreadEntryThunk_begin, PsGetCurrentThread.
      erewrite (bind_ps (W := kernel)) by reflexivity. cbn [ps_get kernel_ps]. rewrite (so_cur _ _ _ S).
      erewrite (bind_ps (W := kernel)) by (apply get_thread_ok; exact Ht). rewrite Pu, Pr, Px.
      erewrite (bind_ps (W := kernel)) by (apply update_thread_ok; exact Ht). by destruct w. }
    by rewrite (bind_eq _ _ _ _ _ E).
Qed.

(** The end of a thread's code: the thread is dead and the next one runs. *)
Lemma thunk_ends ext lv w n q c : ps_inv ext lv w (n :: q) (Some c) ->
  exists w', PspThreadEntryThunk_end c w = Ret tt w' /\ ps_inv ext lv w' q (Some n) /\ aside w' = aside w.
Proof.
  intros I. pose proof (ps_inv_sched _ _ _ _ _ I) as [S Rn Sp]. destruct (Rn c eq_refl) as (t & Ht & St).
  assert (L : (c < length (gPsThreadPool (k_ps w)))%nat) by (by eapply lookup_lt_Some).
  set (s1 := upd_thread c (set_State PsThreadDead t) (k_ps w)). set (w1 := set_k_ps s1 w).
  assert (S1 : sched_ok s1 (n :: q) (Some c)).
  { destruct (so_running _ _ _ S c eq_refl) as (Nc & _). apply (sched_ok_upd _ _ _ _ t); try done. intros _. by split; [right|]. }
  assert (R1 : requeued s1 = []).
  { unfold requeued. rewrite (so_cur _ _ _ S1). unfold s1. rewrite upd_thread_lookup by done. by rewrite decide_True. }
  edestruct (dispatch_spec (W := kernel) w1 n q (Some c)) as (w2 & E2 & D & Mm & _);
    [exact S1|by apply (spaces_ok_processes (k_ps w))|].
  change (ps_get w1) with s1 in D. change (ps_get w2) with (k_ps w2) in D.
  pose proof (ps_Ret (W := kernel) (update_thread c (set_State PsThreadDead)) w _ _ (update_thread_ok (k_ps w) c t (set_State PsThreadDead) Ht)) as E1.
  pose proof (aside_ps (update_thread c (set_State PsThreadDead)) (frame_update c (set_State PsThreadDead) ltac:(done)) _ _ _ E1) as A1.
  pose proof (aside_dispatch _ _ _ E2) as A2. exists w2.
  assert (A : aside w2 = aside w) by (rewrite A2; exact A1).
  split; [unfold PspThreadEntryThunk_end; rewrite (bind_eq _ _ _ _ _ E1), (bind_eq _ _ _ _ _ E2); done|]. split; [|done].
  apply (settled_inv ext lv w _ (n :: q) (Some c)); [done|exact (f_equal (fun a => a.1.1) A)| |].
  - pose proof (dispatch_inv _ _ _ _ _ S1 D) as S2. rewrite R1, app_nil_r in S2. constructor; [done| |].
    + intros c' [= <-]. destruct (so_running _ _ _ S2 n eq_refl) as (_ & u & Hu & _).
      destruct (so_queued _ _ _ S1 n ltac:(left)) as (v & Hv & _ & _).
      destruct (fmap_lookup_Some _ _ _ _ _ (dr_threads _ _ _ _ D n) Hv) as (v' & Hv' & Cv).
      destruct (core_state _ _ Cv) as (K1 & _). exists v'. split; [done|]. rewrite K1.
      unfold switched, dispatched. rewrite (bool_decide_eq_true_2 (n = n)) by done. by case_bool_decide.
    + apply (spaces_ok_processes (k_ps w)); [exact (dr_processes _ _ _ _ D)|]. change (mm (mm_get w2)) with (mm (k_mm w2)) in Mm.
      by rewrite Mm.
  - intros i [Hi|[= <-]]; apply (pi_scheduled _ _ _ _ _ I); left; [by right|by left].
Qed.

(** ** The workers of the scheduler's test *)

(** The kernel prints to the serial port alone and the timer ticks reach the
    scheduler. *)
Definition calm (w : kernel) : Prop := serial w /\ gHalTimerTickRoutine (k_hal w) = Some TickPsOnTimerTick.

Lemma calm_hal w w' : k_hal w' = k_hal w -> calm w -> calm w'.
Proof. unfold calm, serial. by intros ->. Qed.

Lemma ps_inv_ke ext lv w q cur s : ps_inv ext lv w q cur -> ps_inv ext lv (set_k_ke s w) q cur.
Proof. intros []. by constructor. Qed.
Lemma ps_inv_ports ext lv w q cur k o : ps_inv ext lv w q cur -> ps_inv ext lv (set_ports_used k o w) q cur.
Proof. intros []. by constructor. Qed.

Lemma debug_then {B} m (c : unit -> M kernel B) (w : kernel) : serial w ->
  exists k o, bind (debug m) c w = c tt (set_ports_used k o w).
Proof. exact (print_then m c w). Qed.

(** A worker: its routine, what it prints and counts in a turn, what it prints
    last. *)
Record worker := {
  wk_routine : Z;
  wk_line : cstr;
  wk_count : KE_VALIDATION_COUNTERS -> KE_VALIDATION_COUNTERS;
  wk_last : cstr }.
Definition worker_code `{KernelLayout} (k : worker) (n : nat) (c : code kernel) : code kernel :=
  worker_loop n (wk_line k) (wk_count k) (then_ (debug (wk_last k)) c).

Definition counted (f : KE_VALIDATION_COUNTERS -> KE_VALIDATION_COUNTERS) (s : ke_state) : ke_state :=
  set_counters (f (gKeValidationCounters s)) s.

(** The system call that yields. *)
Lemma yield_call `{KernelLayout} ext lv w q c : ps_inv ext lv w q (Some c) ->
  let '(_, q', cur') := abs_dispatch q (Some c) in
  exists r w', yield_syscall w = Ret r w' /\ ps_inv ext lv w' q' cur' /\ aside w' = aside w.
Proof.
  intros I. pose proof (yield_spec ext lv w q c I) as Y. destruct (abs_dispatch q (Some c)) as [[st q'] cur'].
  destruct Y as (w' & E & I' & A). exists (status_result st), w'. split; [|done].
  change (yield_syscall w) with ((Status <- PsYieldThread ;; ret (status_result Status)) w). by rewrite (bind_eq _ _ _ _ _ E).
Qed.

Section Workers.
Context `{KernelLayout} (fresh : nat -> code kernel).

Lemma current_of ext lv w q cur : ps_inv ext lv w q cur -> gPsCurrentThread (k_ps w) = cur.
Proof. intros I. exact (so_cur _ _ _ (pi_sched _ _ _ _ _ I)). Qed.
Lemma queued_other ext lv w x q c : ps_inv ext lv w (x :: q) (Some c) -> c <> x.
Proof. intros I ->. destruct (so_running _ _ _ (pi_sched _ _ _ _ _ I) x eq_refl) as (N & _). apply N. by left. Qed.

(** A turn up to the next yield, by which the thread goes to the end of the
    queue. *)
Lemma worker_turn ext lv w x q i k n c p : ps_inv ext lv w (x :: q) (Some i) -> calm w ->
  exists w', ps_inv ext lv w' (q ++ [i]) (Some x) /\ settled w' = settled w /\ k_hal w' = k_hal w /\
    k_ke w' = counted (wk_count k) (k_ke w) /\
    forall s, reaches fresh {| on_cpu := default (fresh x) (p !! x); parked := <[i := worker_code k n c]> p; kernel_of := w' |} s ->
      reaches fresh {| on_cpu := worker_code k (S n) c; parked := p; kernel_of := w |} s.
Proof.
  intros I C. pose proof (queued_other _ _ _ _ _ _ I) as N.
  destruct (debug_then (wk_line k) (fun _ => count (wk_count k) ;;; ret (Switch yield_syscall (fun _ => worker_code k n c))) w (proj1 C))
    as (kk & o & E).
  set (w1 := set_k_ke (counted (wk_count k) (k_ke w)) (set_ports_used kk o w)).
  assert (I1 : ps_inv ext lv w1 (x :: q) (Some i)) by (by apply ps_inv_ke, ps_inv_ports).
  pose proof (yield_call ext lv w1 (x :: q) i I1) as Y. cbn [abs_dispatch option_list] in Y.
  destruct Y as (r & w' & Ey & I' & A). exists w'. split; [done|].
  split; [exact (f_equal (fun a => a.1.1) A)|]. split; [exact (f_equal (fun a => a.1.2) A)|]. split; [exact (f_equal snd A)|].
  intros s R. unfold worker_code. cbn [worker_loop].
  apply (reaches_call _ _ (Switch yield_syscall (fun _ => worker_code k n c)) p w w1 s).
  - exact E.
  - apply (reaches_away _ _ _ r p w1 w' i x s Ey (current_of _ _ _ _ _ I1) (current_of _ _ _ _ _ I') N). exact R.
Qed.

(** The last turn, at whose end the thread is dead. *)
Lemma worker_ends ext lv w x q i k d p : ps_inv ext lv w (x :: q) (Some i) -> calm w ->
  exists w', ps_inv ext lv w' q (Some x) /\ aside w' = aside w /\
    forall s, reaches fresh {| on_cpu := default (fresh x) (p !! x); parked := <[i := d]> p; kernel_of := w' |} s ->
      reaches fresh {| on_cpu := worker_code k 0 (Switch (PspThreadEntryThunk_end i ;;; ret 0) (fun _ => d)); parked := p; kernel_of := w |} s.
Proof.
  intros I C. pose proof (queued_other _ _ _ _ _ _ I) as N. set (c := Switch _ _).
  destruct (debug_then (wk_last k) (fun _ => ret c) w (proj1 C)) as (kk & o & E).
  set (w1 := set_ports_used kk o w).
  assert (I1 : ps_inv ext lv w1 (x :: q) (Some i)) by (by apply ps_inv_ports).
  destruct (thunk_ends ext lv w1 x q i I1) as (w' & Ee & I' & A). exists w'. split; [done|]. split; [exact A|].
  intros s R. unfold worker_code. cbn [worker_loop]. apply (reaches_call _ _ c p w w1 s E).
  apply (reaches_away _ _ _ 0 p w1 w' i x s); [by rewrite (bind_eq _ _ _ _ _ Ee)|exact (current_of _ _ _ _ _ I1)|
    exact (current_of _ _ _ _ _ I')|exact N|exact R].
Qed.
End Workers.

(** ** A worker's life

    Stage 0 is a thread that has not run, stages 1 to 4 are the four yields of its
    loop, stage 5 is its end. *)
Section Stages.
Context `{KernelLayout} `{KeLayout} (user : Z -> Z -> Z -> Z -> code kernel) (N : nat).

Definition new_code : code kernel := PspThreadEntryThunk (S N) start_routine user.
Definition rest_code (i : nat) : code kernel :=
  Switch (PspThreadEntryThunk_end i ;;; ret 0) (fun _ => PspThreadEntryThunk N start_routine user).
Definition stage_code (k : worker) (i j : nat) : code kernel :=
  match j with O => new_code | S j => worker_code k (3 - j) (rest_code i) end.
Definition stage (k : worker) (i j : nat) (p : gmap nat (code kernel)) (w : kernel) : Prop :=
  default new_code (p !! i) = stage_code k i j /\ (j = 0%nat -> starts_with (k_ps w) i (wk_routine k) 0).

#[local] Abbreviation fresh := (fun _ : nat => new_code).

Definition sound_worker (k : worker) : Prop :=
  forall x (c : code kernel), start_routine (wk_routine k) x c = worker_code k 4 c.

Lemma stage_turn ext lv w x q i k j p : sound_worker k -> ps_inv ext lv w (x :: q) (Some i) -> calm w -> (j < 5)%nat ->
  (j = 0%nat -> starts_with (k_ps w) i (wk_routine k) 0) ->
  exists w' r, ps_inv ext lv w' (if decide (j < 4)%nat then q ++ [i] else q) (Some x) /\ calm w' /\
    k_ke w' = (if decide (j < 4)%nat then counted (wk_count k) (k_ke w) else k_ke w) /\
    (forall y z v, y <> i -> starts_with (k_ps w) y z v -> starts_with (k_ps w') y z v) /\
    ((j < 4)%nat -> r = stage_code k i (S j)) /\
    forall s, reaches fresh {| on_cpu := default new_code (p !! x); parked := <[i := r]> p; kernel_of := w' |} s ->
      reaches fresh {| on_cpu := stage_code k i j; parked := p; kernel_of := w |} s.
Proof.
  intros Sk I C J St.
  assert (T : forall n p, exists w', ps_inv ext lv w' (q ++ [i]) (Some x) /\ settled w' = settled w /\ k_hal w' = k_hal w /\
    k_ke w' = counted (wk_count k) (k_ke w) /\
    forall s, reaches fresh {| on_cpu := default new_code (p !! x); parked := <[i := worker_code k n (rest_code i)]> p; kernel_of := w' |} s ->
      reaches fresh {| on_cpu := worker_code k (S n) (rest_code i); parked := p; kernel_of := w |} s).
  { intros n p0. exact (worker_turn fresh ext lv w x q i k n _ p0 I C). }
  destruct j as [|j]; [|destruct (decide (S j < 4)%nat) as [L|L]].
  - destruct (thunk_starts fresh ext lv w (x :: q) i _ 0 N start_routine user p I (St eq_refl)) as (w1 & I1 & K1 & [= Eo Eh Ek] & R1).
    destruct (worker_turn fresh ext lv w1 x q i k 3 (rest_code i) p I1 (calm_hal _ _ Eh C)) as (w' & I' & A & Eh' & Ek' & R').
    exists w', (stage_code k i 1). split; [done|]. split; [apply (calm_hal w); [congruence|done]|]. split; [by rewrite Ek', Ek|].
    split; [|split; [done|]].
    + intros y z v Ny Hs. eapply starts_with_created; [exact (f_equal (fun a => a.1.1.1) A)|]. by apply K1.
    + intros s R. apply R1. rewrite Sk. by apply R'.
  - destruct (T (2 - j)%nat p) as (w' & I' & A & Eh' & Ek' & R').
    exists w', (stage_code k i (S (S j))). split; [done|]. split; [by apply (calm_hal w)|]. split; [done|]. split; [|split; [done|]].
    + intros y z v _ Hs. eapply starts_with_created; [exact (f_equal (fun a => a.1.1.1) A)|done].
    + intros s R. cbn [stage_code]. replace (3 - j)%nat with (S (2 - j)) by lia. apply R'. cbn [stage_code] in R.
      by replace (2 - j)%nat with (3 - S j)%nat by lia.
  - assert (j = 3)%nat as -> by lia.
    destruct (worker_ends fresh ext lv w x q i k (PspThreadEntryThunk N start_routine user) p I C) as (w' & I' & A & R').
    exists w', (PspThreadEntryThunk N start_routine user). split; [done|]. split; [exact (calm_hal _ _ (f_equal (fun a => a.1.2) A) C)|].
    split; [exact (f_equal snd A)|]. split; [|split; [lia|exact R']].
    intros y z v _ Hs. eapply aside_starts; [exact A|done].
Qed.

(** ** The test's loop

    After [j] rounds, [j] at most 5. *)
Section Rounds.
Context (ext : nat -> Z) (lv : gmap Z nat) (p0 : gmap nat (code kernel)) (s0 : ke_state) (a b : worker) (A B c : nat).
Hypothesis sound_a : sound_worker a.
Hypothesis sound_b : sound_worker b.

Record testing (j : nat) (p : gmap nat (code kernel)) (w : kernel) : Prop := {
  te_inv : ps_inv ext lv w (if decide (j < 5)%nat then [A; B] else []) (Some c);
  te_calm : calm w;
  te_ke : k_ke w = Nat.iter (Nat.min j 4) (fun s => counted (wk_count b) (counted (wk_count a) s)) s0;
  te_a : (j < 5)%nat -> stage a A j p w;
  te_b : (j < 5)%nat -> stage b B j p w;
  te_rest : forall i, i <> A -> i <> B -> i <> c -> p !! i = p0 !! i }.

(** A yield that switches: both workers take their turn. *)
Lemma test_round j p w (m : M kernel Z) (K : Z -> code kernel) r w1 : testing j p w -> (j < 5)%nat -> m w = Ret r w1 -> ps_inv ext lv w1 [B; c] (Some A) ->
  aside w1 = aside w ->
  exists p' w', testing (S j) p' w' /\
    forall s, reaches fresh {| on_cpu := K r; parked := p'; kernel_of := w' |} s ->
      reaches fresh {| on_cpu := Switch m K; parked := p; kernel_of := w |} s.
Proof.
  intros [I C Ek Sa Sb Rs] J E I1 As. rewrite decide_True in I by done. specialize (Sa J). specialize (Sb J).
  pose proof (queued_other _ _ _ _ _ _ I) as NcA. pose proof (queued_other _ _ _ _ _ _ I1) as NAB.
  assert (NcB : c <> B).
  { intros ->. destruct (so_running _ _ _ (pi_sched _ _ _ _ _ I) B eq_refl) as (X & _). apply X. right. by left. }
  destruct Sa as [La Sa], Sb as [Lb Sb]. set (p1 := <[c := K r]> p).
  pose proof (calm_hal _ _ (f_equal (fun a => a.1.2) As) C) as C1.
  destruct (stage_turn ext lv w1 B [c] A a j p1 sound_a I1 C1 J) as (w2 & rA & I2 & C2 & K2 & S2 & Ra & R2).
  { intros Z0. by apply (aside_starts w), Sa. }
  set (p2 := <[A := rA]> p1) in R2.
  assert (I2' : ps_inv ext lv w2 (c :: if decide (j < 4)%nat then [A] else []) (Some B)) by (by destruct (decide (j < 4)%nat)).
  destruct (stage_turn ext lv w2 c _ B b j p2 sound_b I2' C2 J) as (w3 & rB & I3 & C3 & K3 & S3 & Rb & R3).
  { intros Z0. apply S2; [done|]. by apply (aside_starts w), Sb. }
  exists (<[B := rB]> p2), w3. split.
  - constructor.
    + destruct (decide (j < 4)%nat), (decide (S j < 5)%nat); try lia; exact I3.
    + done.
    + assert (Ek1 : k_ke w1 = k_ke w) by exact (f_equal snd As). rewrite K3, K2, Ek1, Ek. destruct (decide (j < 4)%nat).
      * by replace (Nat.min (S j) 4) with (S (Nat.min j 4)) by lia.
      * by replace (Nat.min (S j) 4) with (Nat.min j 4) by lia.
    + intros J'. split; [|done]. rewrite lookup_insert_ne by done. unfold p2. rewrite lookup_insert_eq. cbn [default].
      apply Ra. lia.
    + intros J'. split; [|done]. rewrite lookup_insert_eq. cbn [default]. apply Rb. lia.
    + intros i NA NB Nc. unfold p2, p1. rewrite !lookup_insert_ne by done. by apply Rs.
  - intros s R.
    apply (reaches_away fresh m K r p w w1 c A s E (current_of _ _ _ _ _ I) (current_of _ _ _ _ _ I1) NcA).
    rewrite La. apply R2. unfold p1 at 1. rewrite lookup_insert_ne by done. rewrite Lb. apply R3.
    unfold p2 at 1. rewrite lookup_insert_ne by done. unfold p1 at 1. by rewrite lookup_insert_eq.
Qed.

(** A call that may switch, and does not or does. *)
Lemma test_stays j p w (m : M kernel Z) (K : Z -> code kernel) r w1 : testing j p w -> m w = Ret r w1 ->
  ps_inv ext lv w1 (if decide (j < 5)%nat then [A; B] else []) (Some c) -> aside w1 = aside w ->
  testing j p w1 /\ forall s, reaches fresh {| on_cpu := K r; parked := p; kernel_of := w1 |} s ->
    reaches fresh {| on_cpu := Switch m K; parked := p; kernel_of := w |} s.
Proof.
  intros [I C Ek Sa Sb Rs] E I1 As. split.
  - constructor; [done| | | | |done].
    + exact (calm_hal _ _ (f_equal (fun a => a.1.2) As) C).
    + rewrite <- Ek. exact (f_equal snd As).
    + intros J. destruct (Sa J) as [L S]. split; [done|]. intros Z0. by apply (aside_starts w), S.
    + intros J. destruct (Sb J) as [L S]. split; [done|]. intros Z0. by apply (aside_starts w), S.
  - intros s R. apply (reaches_stay fresh m K r p w w1 s E); [|done].
    by rewrite (current_of _ _ _ _ _ I), (current_of _ _ _ _ _ I1).
Qed.

Lemma test_yields j p w (m : M kernel Z) (K : Z -> code kernel) r w1 : testing j p w -> (j <= 5)%nat -> m w = Ret r w1 ->
  (let '(_, q', cur') := abs_dispatch (if decide (j < 5)%nat then [A; B] else []) (Some c) in ps_inv ext lv w1 q' cur') ->
  aside w1 = aside w ->
  exists p' w', testing (Nat.min 5 (S j)) p' w' /\
    forall s, reaches fresh {| on_cpu := K r; parked := p'; kernel_of := w' |} s ->
      reaches fresh {| on_cpu := Switch m K; parked := p; kernel_of := w |} s.
Proof.
  intros T J E I1 As. destruct (decide (j < 5)%nat) as [L|L].
  - replace (Nat.min 5 (S j)) with (S j) by lia. exact (test_round j p w m K r w1 T L E I1 As).
  - assert (j = 5)%nat as -> by lia. exists p, w1. exact (test_stays 5 p w m K r w1 T E I1 As).
Qed.

(** One pass of the loop: at least one round until both workers have ended. *)
Lemma test_pass j p w n k : testing j p w -> (j <= 5)%nat ->
  exists j' p' w', testing j' p' w' /\ (Nat.min 5 (S j) <= j' <= 5)%nat /\
    forall s, reaches fresh {| on_cpu := tick_and_yield n (fun c => c) k; parked := p'; kernel_of := w' |} s ->
      reaches fresh {| on_cpu := tick_and_yield (S n) (fun c => c) k; parked := p; kernel_of := w |} s.
Proof.
  intros T J. cbn [tick_and_yield]. set (rest := tick_and_yield n _ k).
  set (y := Switch yield_syscall (fun _ => rest)). set (pre := Switch (PsHandlePreemptionPoint ;;; ret 0) (fun _ => y)).
  pose proof T as [I C _ _ _ _].
  destruct (tick_keeps ext lv w _ c I) as (w1 & E1 & I1 & A1).
  assert (Et : HalTriggerSyntheticTimerTick w = Ret tt w1).
  { unfold HalTriggerSyntheticTimerTick. rewrite bind_gets. change (hal_get w) with (k_hal w). rewrite (proj2 C). exact E1. }
  assert (Ec : (HalTriggerSyntheticTimerTick ;;; ret pre) w = Ret pre w1) by (by rewrite (bind_eq _ _ _ _ _ Et)).
  assert (T1 : testing j p w1).
  { exact (proj1 (test_stays j p w (HalTriggerSyntheticTimerTick ;;; ret 0) (fun _ => y) 0 w1 T
      ltac:(by rewrite (bind_eq _ _ _ _ _ Et)) I1 A1)). }
  assert (P : exists j' p' w', testing j' p' w' /\ (j <= j' <= 5)%nat /\
    forall s, reaches fresh {| on_cpu := y; parked := p'; kernel_of := w' |} s ->
      reaches fresh {| on_cpu := pre; parked := p; kernel_of := w1 |} s).
  { destruct (preempt_spec ext lv w1 _ c I1) as (w2 & E2 & A2 & D).
    assert (E2' : (PsHandlePreemptionPoint ;;; ret 0) w1 = Ret 0 w2) by (by rewrite (bind_eq _ _ _ _ _ E2)).
    destruct D as [D|D].
    - destruct (test_stays j p w1 _ (fun _ => y) 0 w2 T1 E2' D A2) as [T2 R2]. exists j, p, w2. split_and!; [done|lia|lia|exact R2].
    - destruct (test_yields j p w1 _ (fun _ => y) 0 w2 T1 J E2' D A2) as (p' & w' & T' & R').
      exists (Nat.min 5 (S j)), p', w'. split_and!; [done|lia|lia|exact R']. }
  destruct P as (j2 & p2 & w2 & T2 & J2 & R2). pose proof (te_inv _ _ _ T2) as I2.
  pose proof (yield_call ext lv w2 _ c I2) as Y.
  assert (P : exists r w3, yield_syscall w2 = Ret r w3 /\
    (let '(_, q', cur') := abs_dispatch (if decide (j2 < 5)%nat then [A; B] else []) (Some c) in ps_inv ext lv w3 q' cur') /\
    aside w3 = aside w2) by (destruct (abs_dispatch _ (Some c)) as [[st q'] cur']; exact Y).
  destruct P as (r & w3 & E3 & I3 & A3).
  destruct (test_yields j2 p2 w2 _ (fun _ => rest) r w3 T2 (proj2 J2) E3 I3 A3) as (p' & w' & T' & R').
  exists (Nat.min 5 (S j2)), p', w'. split; [done|]. split; [lia|].
  intros s R. apply (reaches_call fresh _ pre p w w1 s Ec). apply R2, R'. exact R.
Qed.

Lemma test_passes n k : forall j p w, testing j p w -> (j <= 5)%nat ->
  exists j' p' w', testing j' p' w' /\ (Nat.min 5 (n + j) <= j' <= 5)%nat /\
    forall s, reaches fresh {| on_cpu := k; parked := p'; kernel_of := w' |} s ->
      reaches fresh {| on_cpu := tick_and_yield n (fun c => c) k; parked := p; kernel_of := w |} s.
Proof.
  induction n as [|n IH]; intros j p w T J.
  - exists j, p, w. split; [done|]. split; [lia|]. done.
  - destruct (test_pass j p w n k T J) as (j1 & p1 & w1 & T1 & J1 & R1).
    destruct (IH j1 p1 w1 T1 (proj2 J1)) as (j2 & p2 & w2 & T2 & J2 & R2). exists j2, p2, w2. split; [done|]. split; [lia|].
    intros s R. by apply R1, R2.
Qed.
End Rounds.
End Stages.

(** ** The scheduler's self-test *)

(** Two threads can be created; code is parked for created threads alone. *)
Record room_for_two (p0 : gmap nat (code kernel)) (w : kernel) : Prop := {
  rt_slots : exists i j, i <> j /\ gPsThreadInUse (k_ps w) !! i = Some false /\ gPsThreadInUse (k_ps w) !! j = Some false;
  rt_objects : exists i j, i <> j /\ gObObjectInUse (k_ob w) !! i = Some false /\ gObObjectInUse (k_ob w) !! j = Some false;
  rt_ids : gPsNextThreadId (k_ps w) + 2 < 2 ^ 64 /\ 0 <= gObNextObjectId (k_ob w) /\ gObNextObjectId (k_ob w) + 2 < 2 ^ 64;
  rt_parked : forall i, gPsThreadInUse (k_ps w) !! i = Some false -> p0 !! i = None }.

Lemma create_worker ext lv w q c p r : ps_inv ext lv w q (Some c) -> is_Some (gPsProcessPool (k_ps w) !! p) -> ids_left w ->
  (exists i, gPsThreadInUse (k_ps w) !! i = Some false) -> (exists i, gObObjectInUse (k_ob w) !! i = Some false) ->
  exists j h t w', PsCreateKernelThread (Some p) (Some r) 0 true w = Ret (KSTATUS_SUCCESS, Some j) w' /\
    spawned ext lv w w' q (Some c) j h t /\ program t = (false, Some r, 0) /\ State t <> PsThreadDead /\
    OwnerProcess t = Some p /\ thread_at (k_ps w') j t h.
Proof.
  intros I Hp N (i & Hi) (o & Ho). unfold PsCreateKernelThread. rewrite bind_gets. change (gPsReady (ps_get w)) with (gPsReady (k_ps w)).
  rewrite (PsInv.so_ready _ _ _ (pi_sched _ _ _ _ _ I)). cbn [negb orb].
  destruct (new_thread_spec ext lv w q (Some c) (str "thread.kernel") p (Some r) 0 false 0 0 0 0 I Hp N)
    as [(j & h & t0 & w' & Ht0 & E & Sp)|(st & w' & _ & _ & _ & _ & _ & _ & [F|F])].
  2: { by discriminate (F false (list_elem_of_lookup_2 _ _ _ Hi)). } 2: { by discriminate (F false (list_elem_of_lookup_2 _ _ _ Ho)). }
  eexists j, h, _, w'. split; [exact E|]. split; [exact Sp|]. split; [done|]. split; [done|]. split; [done|].
  split; [|done]. rewrite (sw_ps _ _ _ _ _ _ _ _ _ Sp). apply list_lookup_insert_eq. by eapply lookup_lt_Some.
Qed.

(** A created thread outside the queue is made ready; the others stay as they
    are, links aside. *)
Lemma ready_worker ext lv w q c j t h p : ps_inv ext lv w q (Some c) -> j ∉ q -> c <> j -> thread_at (k_ps w) j t h ->
  State t <> PsThreadDead -> OwnerProcess t = Some p -> is_Some (gPsProcessPool (k_ps w) !! p) ->
  exists w', ps (PsReadyThread (Some j)) w = Ret KSTATUS_SUCCESS w' /\ ps_inv ext lv w' (q ++ [j]) (Some c) /\
    aside w' = aside w /\
    forall i, i <> j -> core <$> gPsThreadPool (k_ps w') !! i = core <$> gPsThreadPool (k_ps w) !! i.
Proof.
  intros I Nq Nc T Nd Ow Hp. pose proof (sched_keeps ext lv w q (Some c) (OpReady j) I) as K. cbn [abs_step] in K.
  assert (O : owned (k_ps w) t) by (by exists p).
  destruct K as (w' & E & _ & I').
  { split; [|by exists t, h]. split; [done|]. split; [congruence|]. exists t. by destruct T. }
  exists w'. split; [exact E|]. split; [done|]. split; [exact (aside_ps _ (frame_ready _) _ _ _ E)|].
  pose proof (pi_sched _ _ _ _ _ I) as S. assert (Nc' : Some c <> Some j) by congruence.
  destruct (enqueue_spec (k_ps w) q (Some c) j t S (proj1 T) Nq Nc' O) as (s' & En & _ & _ & B & _).
  assert (X : PsReadyThread (Some j) (k_ps w) = Ret KSTATUS_SUCCESS s').
  { unfold PsReadyThread. rewrite bind_gets, (PsInv.so_ready _ _ _ S). cbn [negb].
    rewrite (bind_eq _ _ _ _ _ (get_thread_ok _ _ _ (proj1 T))), bool_decide_eq_false_2 by done.
    rewrite <- bind_assoc, (bind_eq _ _ _ _ _ En). done. }
  pose proof (ps_Ret (W := kernel) (PsReadyThread (Some j)) w _ _ X) as E2. cbn [ps_exec] in E. rewrite E2 in E. injection E as <-. exact B.
Qed.

Lemma other_free (l : list bool) i j k : i <> j -> l !! i = Some false -> l !! j = Some false ->
  exists m, <[k := true]> l !! m = Some false.
Proof.
  intros N Hi Hj. destruct (decide (k = i)) as [->|Ni]; [exists j|exists i]; by rewrite list_lookup_insert_ne.
Qed.

Lemma starts_with_other j t s i r x : i <> j -> starts_with s i r x -> starts_with (with_thread j t s) i r x.
Proof.
  intros N (u & h & [Hu Hh] & P). exists u, h. split; [split; [|done]|done]. cbn. by rewrite list_lookup_insert_ne.
Qed.

Lemma start_workers_spec ext lv w c p ra rb p0 : ps_inv ext lv w [] (Some c) -> is_Some (gPsProcessPool (k_ps w) !! p) ->
  room_for_two p0 w ->
  exists A B w' ext', start_workers (Some p) ra 0 rb 0 w = Ret KSTATUS_SUCCESS w' /\ ps_inv ext' lv w' [A; B] (Some c) /\
    k_hal w' = k_hal w /\ k_ke w' = k_ke w /\ starts_with (k_ps w') A ra 0 /\ starts_with (k_ps w') B rb 0 /\
    gPsThreadInUse (k_ps w) !! A = Some false /\ gPsThreadInUse (k_ps w) !! B = Some false.
Proof.
  intros I Hp [(i1 & i2 & Ni & Hi1 & Hi2) (o1 & o2 & No & Ho1 & Ho2) (N1 & N2 & N3) _].
  pose proof (th_next _ _ (pi_threads _ _ _ _ _ I)) as Pn.
  destruct (create_worker ext lv w [] c p ra I Hp) as (A & h & t & w1 & E1 & S1 & P1 & D1 & O1 & T1).
  { unfold ids_left. lia. } { by exists i1. } { by exists o1. }
  destruct S1 as [I1 F1 Ep1 _ Eo1 En1 Er1].
  assert (Up : gPsProcessPool (k_ps w1) = gPsProcessPool (k_ps w)) by (by rewrite Ep1).
  destruct (create_worker _ lv w1 [] c p rb I1) as (B & h2 & t2 & w2 & E2 & S2 & P2 & D2 & O2 & T2).
  { by rewrite Up. }
  { unfold ids_left. rewrite Ep1, En1. cbn. rewrite u64_small by (unfold is_u64; lia). lia. }
  { rewrite Ep1. cbn. by apply (other_free _ i1 i2). } { rewrite Eo1. by apply (other_free _ o1 o2). }
  destruct S2 as [I2 F2 Ep2 _ Eo2 En2 Er2].
  assert (NAB : A <> B).
  { intros ->. rewrite Ep1 in F2. cbn in F2. rewrite list_lookup_insert_eq in F2 by (by eapply lookup_lt_Some). done. }
  assert (FB : gPsThreadInUse (k_ps w) !! B = Some false) by (rewrite Ep1 in F2; cbn in F2; by rewrite list_lookup_insert_ne in F2).
  destruct (free_slot _ _ _ _ _ _ I F1) as (_ & NcA & _). destruct (free_slot _ _ _ _ _ _ I FB) as (_ & NcB & _).
  assert (Up2 : gPsProcessPool (k_ps w2) = gPsProcessPool (k_ps w)) by (by rewrite Ep2).
  assert (T1' : thread_at (k_ps w2) A t h).
  { destruct T1 as [T1 H1]. split; [|done]. rewrite Ep2. cbn. by rewrite list_lookup_insert_ne. }
  assert (SA : starts_with (k_ps w2) A ra 0) by (by exists t, h).
  assert (SB : starts_with (k_ps w2) B rb 0) by (by exists t2, h2).
  destruct (ready_worker _ lv w2 [] c A t h p I2) as (w3 & E3 & I3 & A3 & C3); [set_solver|congruence|done..|by rewrite Up2|].
  assert (Cr3 : created (k_ps w3) = created (k_ps w2)) by exact (f_equal (fun a => a.1.1.1.1.1) A3).
  destruct (created_fields _ _ Cr3) as (_ & Up3 & _).
  assert (T3 : exists t3, thread_at (k_ps w3) B t3 h2 /\ core t3 = core t2).
  { destruct (created_thread _ _ _ _ _ Cr3 T2) as (t3 & T3 & _). exists t3. split; [done|].
    specialize (C3 B ltac:(done)). rewrite (proj1 T2), (proj1 T3) in C3. exact (f_equal (default (core t3)) C3). }
  destruct T3 as (t3 & T3 & C). destruct (core_state _ _ C) as (K1 & K2 & _).
  destruct (ready_worker _ lv w3 [A] c B t3 h2 p I3) as (w4 & E4 & I4 & A4 & _);
    [set_solver|congruence|done|by rewrite K1|rewrite K2; exact O2|by rewrite Up3, Up2|].
  assert (Eh : k_hal w4 = k_hal w /\ k_ke w4 = k_ke w).
  { pose proof (f_equal (fun a => (a.1.2, a.2)) A3) as X3. pose proof (f_equal (fun a => (a.1.2, a.2)) A4) as X4. cbn in X3, X4.
    rewrite Er2, Er1 in X3. cbn in X3. split; congruence. }
  exists A, B, w4, (ext_add h2 1 (ext_add h 1 ext)). split; [|split; [exact I4|]].
  - unfold start_workers. rewrite (bind_eq _ _ _ _ _ E1). cbv beta iota. cbn [ok Z.eqb KSTATUS_SUCCESS negb].
    rewrite (bind_eq _ _ _ _ _ E2). cbv beta iota. cbn [ok Z.eqb KSTATUS_SUCCESS negb].
    rewrite (bind_eq _ _ _ _ _ E3). cbn [ok Z.eqb KSTATUS_SUCCESS negb]. exact E4.
  - destruct Eh. split_and!; [done|done| | |done|done]; (eapply aside_starts; [exact A4|]); by (eapply aside_starts; [exact A3|]).
Qed.

Definition worker_A `{KeLayout} : worker :=
  {| wk_routine := KeValidationWorkerA_at; wk_line := kevt "[KEVT] worker A iteration"; wk_count := add_WorkerA;
     wk_last := kevt "[KEVT] worker A complete" |}.
Definition worker_B `{KeLayout} : worker :=
  {| wk_routine := KeValidationWorkerB_at; wk_line := kevt "[KEVT] worker B iteration"; wk_count := add_WorkerB;
     wk_last := kevt "[KEVT] worker B complete" |}.

(** C19: the scheduler's self-test passes.  Run by the only ready thread of a
    kernel whose invariant holds, with two threads to spare, on a processor that
    starts every new thread in the entry thunk, the test ends with success after
    its twenty-four passes: each worker has counted its four iterations, both have
    ended and left the queue empty, the test's own thread is running, the process
    manager's invariant holds, and no other thread's code has moved. *)
Theorem KeTestScheduler_passes `{KernelLayout} `{KeLayout} user N ext lv (w : kernel) c p0 k :
  KeValidationWorkerA_at <> KeValidationWorkerB_at -> ps_inv ext lv w [] (Some c) -> calm w -> room_for_two p0 w ->
  WorkerAIterations (gKeValidationCounters (k_ke w)) = 0 -> WorkerBIterations (gKeValidationCounters (k_ke w)) = 0 ->
  exists ext' p' w',
    reaches (fun _ => new_code user N) {| on_cpu := KeTestScheduler k; parked := p0; kernel_of := w |}
      {| on_cpu := k KSTATUS_SUCCESS; parked := p'; kernel_of := w' |} /\
    WorkerAIterations (gKeValidationCounters (k_ke w')) = 4 /\ WorkerBIterations (gKeValidationCounters (k_ke w')) = 4 /\
    ps_inv ext' lv w' [] (Some c) /\ calm w' /\
    forall i, gPsThreadInUse (k_ps w) !! i <> Some false -> i <> c -> p' !! i = p0 !! i.
Proof.
  intros Nr I C R Za Zb. destruct (pi_running _ _ _ _ _ I c eq_refl) as (t & Ht & _).
  destruct (so_running _ _ _ (pi_sched _ _ _ _ _ I) c eq_refl) as (_ & t' & Ht' & _ & p & Ep & Hp).
  assert (t' = t) as -> by congruence.
  destruct (start_workers_spec ext lv w c p KeValidationWorkerA_at KeValidationWorkerB_at p0 I Hp R)
    as (A & B & w1 & ext1 & E1 & I1 & Eh & Ek & SA & SB & FA & FB).
  pose proof (queued_other _ _ _ _ _ _ I1) as NcA. pose proof (qo_nodup _ _ (so_queue _ _ _ (pi_sched _ _ _ _ _ I1))) as ND.
  assert (Sa : sound_worker worker_A) by (intros x d; cbn; unfold start_routine; by rewrite Z.eqb_refl).
  assert (Sb : sound_worker worker_B).
  { intros x d. cbn. unfold start_routine. destruct (Z.eqb_spec KeValidationWorkerB_at KeValidationWorkerA_at); [congruence|].
    by rewrite Z.eqb_refl. }
  assert (T : testing user N ext1 lv p0 (k_ke w) worker_A worker_B A B c 0 p0 w1).
  { constructor; [exact I1|exact (calm_hal _ _ Eh C)|exact Ek| | |done]; intros _; (split; [|done]).
    - by rewrite (rt_parked _ _ R A FA). - by rewrite (rt_parked _ _ R B FB). }
  set (ending := Call (s <- gets ke_get ;; let n := gKeValidationCounters s in
    ret (k (if (WorkerAIterations n =? 0) || (WorkerBIterations n =? 0) then KSTATUS_INIT_FAILED else KSTATUS_SUCCESS))) : code kernel).
  destruct (test_passes user N ext1 lv p0 (k_ke w) worker_A worker_B A B c Sa Sb 24 ending 0 p0 w1 T ltac:(lia))
    as (j & p' & w' & T' & J & Rt).
  assert (j = 5%nat) as -> by lia. destruct T' as [I' C' Ek' _ _ Rest].
  assert (Ec : WorkerAIterations (gKeValidationCounters (k_ke w')) = 4 /\ WorkerBIterations (gKeValidationCounters (k_ke w')) = 4).
  { rewrite Ek'. cbn. by rewrite Za, Zb. }
  destruct Ec as [Ea Eb]. exists ext1, p', w'. split; [|split_and!; [done|done|exact I'|done|]].
  - eapply reaches_call.
    { erewrite (bind_ps (W := kernel)) by (unfold PsGetCurrentProcess; rewrite bind_gets; cbn [ps_get kernel_ps];
        rewrite (current_of _ _ _ _ _ I), (bind_eq _ _ _ _ _ (get_thread_ok _ _ _ Ht)); reflexivity).
      rewrite Ep. replace (ps_put _ w) with w by (by destruct w).
      rewrite (bind_eq _ _ _ _ _ E1). cbn [ok Z.eqb KSTATUS_SUCCESS negb]. reflexivity. }
    apply Rt. eapply reaches_call; [|apply reaches_refl]. rewrite bind_gets. change (ke_get w') with (k_ke w'). cbv zeta.
    rewrite Ea, Eb. reflexivity.
  - intros i Hi Nc. apply Rest; [by intros ->|by intros ->|done].
Qed.
