(* ===== verification/KernelSuite.v ===== *)
(** * The system-call gate and the self-tests: theorems

    The stub behind the gate of the system calls passes the registers the ABI
    names and gives back all but RCX; the validation suite of a kernel in
    which nothing else is ready. *)

From S2P Require Import Prelude CString BootProto Nk Se Cc Ob ObInv PhysMem MmPages MmTables MmTablesInv MmSpace MmSection.
From S2P Require Import MmFault MmRegions MmStart Kpe KpeLoad UserMem Ps PsInv PsSpawn Lpc Io Hal Syscall HalIntr HalStart Ex.
From S2P Require Import Threads Arch Validate Kernel KernelMem KernelInv HalInv PsSpawnInv SyscallInv KernelStart KernelThreads.

(** ** The stub *)

(** The registers as they lie on the stack. *)
Definition saved_at (f : Z -> Z) (p : Z) : HALP_SYSCALL_REG_FRAME :=
  {| FrameR11 := word 8 f p; FrameR10 := word 8 f (p + 8); FrameR9 := word 8 f (p + 16); FrameR8 := word 8 f (p + 24);
     FrameRdx := word 8 f (p + 32); FrameRsi := word 8 f (p + 40); FrameRdi := word 8 f (p + 48); FrameRax := word 8 f (p + 56) |}.

Definition frame_u64 (r : HALP_SYSCALL_REG_FRAME) : Prop :=
  Forall is_u64 [FrameRax r; FrameRdi r; FrameRsi r; FrameRdx r; FrameR8 r; FrameR9 r; FrameR10 r; FrameR11 r].

(** The pushes, one after another. *)
Fixpoint pushes {W B} `{ByteMem W} (l : list Z) (sp : Z) (k : Z -> M W B) : M W B :=
  match l with
  | [] => k sp
  | v :: l => sp <- push sp v ;; pushes l sp k
  end.

Section View.
Context {W : Type} {inv : W -> Prop} {view : W -> Z -> Z} {good : Z -> Prop} `{V : ByteView W inv view good}.

Lemma pushes_view {B} (k : Z -> M W B) l : forall sp s, inv s -> span (good := good) (sp - 8 * Z.of_nat (length l)) sp ->
  Forall is_u64 l ->
  exists s', pushes l sp k s = k (sp - 8 * Z.of_nat (length l)) s' /\ inv s' /\
    (forall i v, l !! i = Some v -> word 8 (view s') (sp - 8 * Z.of_nat (S i)) = v) /\
    forall b, good b -> ~ sp - 8 * Z.of_nat (length l) <= b < sp -> view s' b = view s b.
Proof using V.
  induction l as [|v l IH]; intros sp s I G F; cbn [pushes length] in *.
  { exists s. replace (sp - 8 * Z.of_nat 0) with sp by lia. by split_and!. }
  apply Forall_cons in F as [Fv F].
  destruct (write_field 8 (sp - 8) v s I) as (s1 & E1 & I1 & W1 & K1).
  { eapply span_sub; [exact G|lia|cbn; lia]. } { exact Fv. }
  assert (E : push sp v s = Ret (sp - 8) s1) by (unfold push, write_u64; by rewrite (bind_eq _ _ _ _ _ E1)).
  rewrite (bind_eq _ _ _ _ _ E).
  destruct (IH (sp - 8) s1 I1) as (s2 & E2 & I2 & W2 & K2); [eapply span_sub; [exact G|lia|lia]|done|].
  exists s2. rewrite E2. split; [f_equal; lia|]. split; [done|]. split.
  - intros [|i] u Hu; cbn in Hu.
    + injection Hu as <-. replace (sp - 8 * Z.of_nat 1) with (sp - 8) by lia. rewrite <- W1.
      apply word_ext. intros b Hb. cbn in Hb. apply K2; [apply G|]; lia.
    + rewrite <- (W2 i u Hu). f_equal. lia.
  - intros b Gb Nb. rewrite K2 by (done || lia). apply K1; [done|]. cbn. lia.
Qed.

Lemma read_frame_view p s : inv s -> span (good := good) p (p + 64) -> read_frame p s = Ret (saved_at (view s) p) s.
Proof using V.
  intros I G. unfold read_frame, read_u64.
  repeat (erewrite bind_eq; [|apply read_le_view; [exact I|eapply span_sub; [exact G|lia|cbn [Z.of_nat Pos.of_succ_nat Pos.succ]; lia]]]).
  done.
Qed.
End View.

Lemma saved_at_ext f g p : (forall b, p <= b < p + 64 -> f b = g b) -> saved_at f p = saved_at g p.
Proof. intros E. unfold saved_at. f_equal; apply word_ext; intros b Hb; apply E; cbn in Hb; lia. Qed.

(** What the System V ABI asks of a C function: it gives these registers back. *)
Definition keeps_callee_saved {W} (leaves : cpu_registers -> W -> cpu_registers) : Prop := forall r s,
  let r' := leaves r s in
  (reg_rbx r', reg_rbp r', reg_r12 r', reg_r13 r', reg_r14 r', reg_r15 r')
  = (reg_rbx r, reg_rbp r, reg_r12 r, reg_r13 r, reg_r14 r, reg_r15 r).

(** The registers a system call gives back: the result in RAX, [rcx] in RCX, and
    every other one as it was. *)
Definition returned (v rcx : Z) (r : cpu_registers) : cpu_registers :=
  {| reg_saved := set_FrameRax v (reg_saved r); reg_rcx := rcx; reg_rbx := reg_rbx r; reg_rbp := reg_rbp r;
     reg_r12 := reg_r12 r; reg_r13 := reg_r13 r; reg_r14 := reg_r14 r; reg_r15 := reg_r15 r |}.

(** C20: the system-call gate keeps its contract.  With its stack mapped, the stub
    calls the dispatcher with the number from RAX and the arguments from RDI, RSI,
    RDX, R10, R8 and R9, having written nothing but the eight registers below the
    stack pointer; when the dispatcher returns, in whatever state and address
    space, with those bytes still on the stack, the result comes back in RAX, RDI,
    RSI, RDX and R8 to R11 are as they were, and so are RBX, RBP and R12 to R15,
    which the compiled C function keeps under the System V ABI.  RCX is not saved:
    it holds what that function left, and the programs that raise the interrupt
    declare it lost. *)
Theorem HalpSyscallInterruptHandler_returns `{KernelLayout} leaves lv a (good : Z -> Prop) (w : kernel) r sp :
  keeps_callee_saved leaves ->
  user_access lv (k_mm w) a good -> (forall b, sp - 64 <= b < sp -> good b) -> frame_u64 (reg_saved r) ->
  let f := reg_saved r in
  exists w1, data_only lv w w1 /\ saved_at (user_view (k_mm w) a (k_mm w1)) (sp - 64) = f /\
    (forall b, good b -> ~ sp - 64 <= b < sp -> user_view (k_mm w) a (k_mm w1) b = user_view (k_mm w) a (k_mm w) b) /\
    forall v w2 lv2 a2 good2,
      KiDispatchSystemCall (FrameRax f) (FrameRdi f) (FrameRsi f) (FrameRdx f) (FrameR10 f) (FrameR8 f) (FrameR9 f) w1 = Ret v w2 ->
      is_u64 v -> user_access lv2 (k_mm w2) a2 good2 -> (forall b, sp - 64 <= b < sp -> good2 b) ->
      (forall b, sp - 64 <= b < sp -> user_view (k_mm w2) a2 (k_mm w2) b = user_view (k_mm w) a (k_mm w1) b) ->
      exists w3, HalpSyscallInterruptHandler leaves r sp w
          = Ret (returned v (reg_rcx (leaves (set_reg_saved (set_FrameRdi (sp - 64) f) r) w1)) r) w3 /\
        data_only lv2 w2 w3 /\
        forall b, good2 b -> ~ sp - 8 <= b < sp -> user_view (k_mm w2) a2 (k_mm w3) b = user_view (k_mm w2) a2 (k_mm w2) b.
Proof.
  intros Keeps U G F f. set (V := kernel_view lv a good w U).
  set (regs := [FrameRax f; FrameRdi f; FrameRsi f; FrameRdx f; FrameR8 f; FrameR9 f; FrameR10 f; FrameR11 f]).
  set (k := fun p => left <- gets (leaves (set_reg_saved (set_FrameRdi p f) r)) ;;
    HalpHandleSyscallTrap p ;;; f' <- read_frame (W := kernel) p ;; ret (set_reg_saved f' left)).
  destruct (pushes_view (V := V) k regs sp w (data_only_refl lv a good w U)) as (w1 & E1 & D1 & W1 & K1);
    [intros b Hb; apply G; cbn in Hb; lia|exact F|].
  change (sp - 8 * Z.of_nat (length regs)) with (sp - 64) in *.
  assert (S1 : saved_at (user_view (k_mm w) a (k_mm w1)) (sp - 64) = f).
  { assert (X : forall i v p, regs !! i = Some v -> p = sp - 8 * Z.of_nat (S i) -> word 8 (user_view (k_mm w) a (k_mm w1)) p = v)
      by (intros i v p Hi ->; exact (W1 i v Hi)).
    unfold saved_at. rewrite (X 7%nat (FrameR11 f)), (X 6%nat (FrameR10 f)), (X 5%nat (FrameR9 f)), (X 4%nat (FrameR8 f)),
      (X 3%nat (FrameRdx f)), (X 2%nat (FrameRsi f)), (X 1%nat (FrameRdi f)), (X 0%nat (FrameRax f)) by (reflexivity || (cbn; lia)).
    by destruct f. }
  exists w1. split; [exact D1|]. split; [exact S1|]. split; [exact K1|].
  intros v w2 lv2 a2 good2 E2 Hv U2 G2 B2. set (V2 := kernel_view lv2 a2 good2 w2 U2).
  change (HalpSyscallInterruptHandler leaves r sp w) with (pushes regs sp k w). rewrite E1. unfold k, HalpHandleSyscallTrap.
  rewrite bind_gets. set (left := leaves _ w1).
  rewrite bind_assoc, (bind_eq _ _ _ _ _ (read_frame_view (V := V) (sp - 64) w1 D1 ltac:(intros b Hb; apply G; lia))), S1.
  rewrite bind_assoc. revert E2. generalize KiDispatchSystemCall. intros dispatch E2. rewrite (bind_eq _ _ _ _ _ E2).
  destruct (write_field (V := V2) 8 (sp - 64 + 56) v w2 (data_only_refl lv2 a2 good2 w2 U2)) as (w3 & E3 & D3 & W3 & K3);
    [intros b Hb; apply G2; cbn in Hb; lia|exact Hv|].
  unfold write_u64. rewrite (bind_eq _ _ _ _ _ E3). exists w3.
  rewrite (bind_eq _ _ _ _ _ (read_frame_view (V := V2) (sp - 64) w3 D3 ltac:(intros b Hb; apply G2; lia))).
  split; [|split; [exact D3|]].
  - assert (Fr : saved_at (user_view (k_mm w2) a2 (k_mm w3)) (sp - 64) = set_FrameRax v f).
    2: { pose proof (Keeps (set_reg_saved (set_FrameRdi (sp - 64) f) r) w1) as K. fold left in K. injection K as K1' K2' K3' K4' K5' K6'.
         unfold ret, returned, set_reg_saved. by rewrite Fr, K1', K2', K3', K4', K5', K6'. }
    transitivity (set_FrameRax v (saved_at (user_view (k_mm w2) a2 (k_mm w2)) (sp - 64))).
    + unfold saved_at, set_FrameRax. cbn [FrameR11 FrameR10 FrameR9 FrameR8 FrameRdx FrameRsi FrameRdi FrameRax].
      rewrite W3. f_equal; apply word_ext; intros b Hb; (apply K3; [apply G2|]); cbn in Hb |- *; lia.
    + f_equal. rewrite <- S1. apply saved_at_ext. intros b Hb. apply B2. lia.
  - intros b Gb Nb. apply K3; [done|]. cbn. lia.
Qed.

(** ** The validation suite with nothing else to run *)

(** The text at [p] as the processor reads it. *)
Definition reads_as (w : kernel) (p : Z) (t : list Z) : Prop :=
  forall i c, t !! i = Some c ->
    exists pa, x86_translate (ram (k_mm w)) (cr3 (k_mm w)) (p + Z.of_nat i) = Some pa /\ load8 (ram (k_mm w)) pa = c.

Lemma copy_in_reads `{KernelLayout} w t : forall p, 0 <= p -> p + Z.of_nat (length t) < 2 ^ 64 -> reads_as w p t ->
  copy_in (length t) p w = Ret t w.
Proof.
  induction t as [|c t IH]; intros p P L R; [done|]. cbn [length copy_in] in *.
  destruct (R 0%nat c eq_refl) as (pa & T & Lc). rewrite Z.add_0_r in T.
  assert (E : read_u8 p w = Ret c w).
  { cbn [read_u8 kernel_mem]. rewrite (bind_eq _ _ w pa w) by (unfold translated; by rewrite T). unfold gets. by rewrite Lc. }
  rewrite (bind_eq _ _ _ _ _ E), u64_small by lia. rewrite (bind_eq _ _ _ _ _ (IH (p + 1) ltac:(lia) ltac:(lia) ltac:(
    intros i d Hi; replace (p + 1 + Z.of_nat i) with (p + Z.of_nat (S i)) by lia; exact (R (S i) d Hi)))). done.
Qed.

Definition syscall_line : cstr := kevt "[KEVT] test syscall".

(** The line the first test prints lies where user pointers may lead. *)
Record line_ready `{KeLayout} (w : kernel) : Prop := {
  lr_range : KipIsRangeReadable (literal syscall_line) (Z.of_nat (length syscall_line)) = true;
  lr_address : 0 <= literal syscall_line /\ literal syscall_line + Z.of_nat (length syscall_line) < 2 ^ 64;
  lr_bytes : reads_as w (literal syscall_line) syscall_line }.

Lemma test_line_prints `{KernelLayout} `{KeLayout} (w : kernel) : line_ready w -> serial w ->
  exists k o, KeSysDebugPrint (Some syscall_line) w = Ret KSTATUS_SUCCESS (set_ports_used k o w).
Proof.
  intros [R [A0 A1] B] S. destruct (print_then syscall_line (fun _ => run_command syscall_line ;;; ret (status_result KSTATUS_SUCCESS)) w S)
    as (k & o & E). exists k, o.
  unfold KeSysDebugPrint. change (cstr_of syscall_line) with syscall_line. set (n := Z.of_nat (length syscall_line)) in *.
  assert (D : KeInvokeSyscall NkSysDebugPrint (literal syscall_line) n 0 0 0 0 w
    = Ret (status_result KSTATUS_SUCCESS) (set_ports_used k o w)).
  { change (KeInvokeSyscall NkSysDebugPrint (literal syscall_line) n 0 0 0 0 w)
      with (KipSysDebugPrint (literal syscall_line) n w).
    unfold KipSysDebugPrint. change (n >? KI_SYSCALL_DEBUGPRINT_MAX) with false. rewrite R. cbn [negb orb].
    rewrite (bind_eq _ _ _ _ _ (copy_in_reads w syscall_line _ A0 A1 B)). etransitivity; [exact E|]. reflexivity. }
  by rewrite (bind_eq _ _ _ _ _ D).
Qed.

(** The boot record asks for the suite. *)
Definition asked_to_validate (w : kernel) : bool :=
  match NkGetBootInfo (k_nk w) with Some b => any_flag (Flags (bi_value b)) BOOTINFO_FLAG_VALIDATE | None => false end.

(** C37: the validation suite runs when the boot record asks for it and only then.
    Without the flag it reports success and has done nothing.  With the flag, in a
    kernel whose invariant holds but in which no other thread is ready, its first
    test cannot pass: the yield finds nobody to run, the status is taken for the
    test's, and the assertion on it stops the machine. *)
Theorem KeRunValidationSuite_alone `{KernelLayout} `{KeLayout} fresh ext lv (w : kernel) c p k :
  ps_inv ext lv w [] (Some c) -> serial w -> line_ready w ->
  if asked_to_validate w then
    exists code w', reaches fresh {| on_cpu := KeRunValidationSuite k; parked := p; kernel_of := w |}
        {| on_cpu := code; parked := p; kernel_of := w' |} /\
      ps_inv ext lv w' [] (Some c) /\
      step fresh {| on_cpu := code; parked := p; kernel_of := w' |} = Halt {| on_cpu := Finish; parked := p; kernel_of := w' |}
  else reaches fresh {| on_cpu := KeRunValidationSuite k; parked := p; kernel_of := w |}
        {| on_cpu := k KSTATUS_SUCCESS; parked := p; kernel_of := w |}.
Proof.
  intros I S L.
  assert (R0 : KeShouldRunValidationMode w = Ret (asked_to_validate w) w).
  { unfold KeShouldRunValidationMode. rewrite bind_gets. reflexivity. }
  destruct (asked_to_validate w).
  2: { eapply reaches_call; [rewrite (bind_eq _ _ _ _ _ R0); reflexivity|apply reaches_refl]. }
  set (zero := fun _ : KE_VALIDATION_COUNTERS => {| WorkerAIterations := 0; WorkerBIterations := 0; IpcIterations := 0 |}).
  set (w1 := set_k_ke (counted zero (k_ke w)) w).
  assert (S1 : serial w1) by exact S.
  set (cont := fun Status : KSTATUS =>
    if Status =? KSTATUS_NOT_IMPLEMENTED then then_ (report (str "[KEVT] skip ") (str "syscall")) (run_tests (tl Tests) k)
    else Call (NK_ASSERT (Status =? KSTATUS_SUCCESS) ;;;
               if negb (ok Status) then report (str "[KEVT] fail ") (str "syscall") ;;; ret (k Status)
               else report (str "[KEVT] pass ") (str "syscall") ;;; ret (run_tests (tl Tests) k)) : code kernel).
  set (first := Call (report (str "[KEVT] run ") (str "syscall") ;;; ret (KeTestSyscall cont)) : code kernel).
  destruct (debug_then (kevt "[KEVT] validation mode enabled") (fun _ => ret first) w1 S1) as (k1 & o1 & E1).
  assert (E2 : exists k2 o2, (report (str "[KEVT] run ") (str "syscall") ;;; ret (KeTestSyscall cont)) (set_ports_used k1 o1 w1)
    = Ret (KeTestSyscall cont) (set_ports_used k2 o2 w1)).
  { unfold report. rewrite !bind_assoc.
    match goal with |- context [bind (debug ?m) ?c ?x] => destruct (debug_then m c x S1) as (k2 & o2 & ->) end. rewrite bind_assoc.
    match goal with |- context [bind (debug ?m) ?c ?x] => destruct (debug_then m c x S1) as (k3 & o3 & ->) end.
    match goal with |- context [bind (debug ?m) ?c ?x] => destruct (debug_then m c x S1) as (k4 & o4 & ->) end.
    by exists k4, o4. }
  destruct E2 as (k2 & o2 & E2). set (w2 := set_ports_used k2 o2 w1) in E2.
  assert (L2 : line_ready w2) by (destruct L; by constructor).
  destruct (test_line_prints w2 L2 S1) as (k3 & o3 & E3). set (w3 := set_ports_used k3 o3 w2) in E3.
  assert (I3 : ps_inv ext lv w3 [] (Some c)) by (by apply ps_inv_ports, ps_inv_ports, ps_inv_ke).
  pose proof (yield_spec ext lv w3 [] c I3) as Y. cbn [abs_dispatch] in Y. destruct Y as (w4 & E4 & I4 & _).
  assert (E4' : yield_syscall w3 = Ret (status_result KSTATUS_INIT_FAILED) w4).
  { change (yield_syscall w3) with ((Status <- PsYieldThread ;; ret (status_result Status)) w3). by rewrite (bind_eq _ _ _ _ _ E4). }
  exists (cont KSTATUS_INIT_FAILED), w4. split; [|split; [exact I4|reflexivity]].
  apply (reaches_call fresh _ first p w (set_ports_used k1 o1 w1)).
  { rewrite (bind_eq _ _ _ _ _ R0). cbn [negb]. exact E1. }
  eapply reaches_call; [exact E2|]. unfold KeTestSyscall.
  apply (reaches_call fresh _ (Switch yield_syscall (fun r => cont (result_status r))) p w2 w3).
  { change (kevt "[KEVT] test syscall") with syscall_line. rewrite (bind_eq _ _ _ _ _ E3). reflexivity. }
  apply (reaches_stay fresh _ (fun r => cont (result_status r)) _ p w3 w4 _ E4'
    (eq_trans (current_of _ _ _ _ _ I4) (eq_sym (current_of _ _ _ _ _ I3)))).
  apply reaches_refl.
Qed.
