(* ===== verification/KernelEntry.v ===== *)
(** * The start of the kernel: the entry

    From [AsterKernelEntry] to the launch of the first process: the phases of
    kernel/ke/init.c in their order on the whole kernel. *)

From S2P Require Import Prelude CString BootProto Nk Se Cc Ob ObInv PhysMem MmPages MmTables MmTablesInv MmSpace MmSection.
From S2P Require Import MmFault MmRegions MmStart Kpe KpeLoad UserMem Ps PsInv PsSpawn Lpc Io Hal Syscall HalIntr HalStart Ex.
From S2P Require Import Threads Arch Validate Ke Kernel KernelInv HalInv HalIntrInv PsSpawnInv IoInv KernelStart.

(** ** Only the ports *)

(** A computation that only uses ports. *)
Definition ports_only (m : M kernel unit) : Prop := forall w, exists k o, m w = Ret tt (set_ports_used k o w).

Lemma ports_ret : ports_only (ret tt).
Proof. intros w. exists (k_clock w), (k_outputs w). by destruct w. Qed.
Lemma ports_write p v : ports_only (HalpIoWrite8 p v).
Proof. intros w. by eexists _, _. Qed.
Lemma ports_bind m c : ports_only m -> ports_only c -> ports_only (m ;;; c).
Proof.
  intros Hm Hc w. destruct (Hm w) as (k & o & E). rewrite (bind_eq _ _ _ _ _ E).
  destruct (Hc (set_ports_used k o w)) as (k1 & o1 & E1). by exists k1, o1.
Qed.
Lemma ports_then {B} m (c : unit -> M kernel B) w : ports_only m -> exists k o, bind m c w = c tt (set_ports_used k o w).
Proof. intros Hm. destruct (Hm w) as (k & o & E). exists k, o. exact (bind_eq _ _ _ _ _ E). Qed.

Ltac ports_step m H :=
  match goal with
  | |- context [bind m ?c ?w] =>
      let k := fresh "k" in let o := fresh "o" in let E := fresh in
      destruct (ports_then m c w H) as (k & o & E); rewrite E; clear E
  end; cbv beta; rewrite ?ports_ports.

Lemma marker_wait_ports n : forall w : kernel, exists b k, marker_wait n w = Ret b (set_ports_used k (k_outputs w) w).
Proof.
  induction n as [|n IH]; intros w; cbn [marker_wait].
  { exists false, (k_clock w). by destruct w. }
  unfold bind. cbn [HalpIoRead8 kernel_ports]. destruct (n =? 0)%nat; [by eexists _, _|]. destruct (any_flag _ _); [by eexists _, _|].
  destruct (IH (set_ports_used (S (k_clock w)) (k_outputs w) w)) as (b & k & ->). by exists b, k.
Qed.

Lemma marker_ports l : ports_only (marker_chars l).
Proof.
  induction l as [|Ch l IH]; [apply ports_ret|]. intros w. cbn [marker_chars].
  destruct (marker_wait_ports (Z.to_nat 1000000) w) as (b & k & E). rewrite (bind_eq _ _ _ _ _ E).
  destruct b; cbn [negb]; [|by eexists _, _].
  destruct (ports_write 0x3F8 (u8 Ch) (set_ports_used k (k_outputs w) w)) as (k1 & o1 & E1). rewrite (bind_eq _ _ _ _ _ E1), ports_ports.
  destruct (Ch =? 10); [|destruct (IH (set_ports_used k1 o1 w)) as (k2 & o2 & ->); by eexists _, _].
  destruct (marker_wait_ports (Z.to_nat 1000000) (set_ports_used k1 o1 w)) as (b & k2 & E2). rewrite (bind_eq _ _ _ _ _ E2).
  destruct b; cbn [negb]; [|by eexists _, _]. change (k_outputs (set_ports_used k1 o1 w)) with o1. rewrite ports_ports.
  destruct (ports_write 0x3F8 13 (set_ports_used k2 o1 w)) as (k3 & o3 & E3). rewrite (bind_eq _ _ _ _ _ E3), ports_ports.
  destruct (IH (set_ports_used k3 o3 w)) as (k4 & o4 & ->). by eexists _, _.
Qed.

Lemma serial_ports : ports_only (HalpInitializeSerial (W := kernel)).
Proof. unfold HalpInitializeSerial. repeat (apply ports_bind; [apply ports_write|]). apply ports_write. Qed.
Lemma timer_ports : ports_only (HalpInitializeTimer (W := kernel)).
Proof. unfold HalpInitializeTimer. repeat (apply ports_bind; [apply ports_write|]). apply ports_write. Qed.

(** ** Reading the memory map *)

(** The processor finds the bytes of [a, a + n) where they lie. *)
Definition identity_mapped (m : mm_machine) (a n : Z) : Prop :=
  forall b, a <= b < a + n -> x86_translate (ram m) (cr3 m) b = Some b.

Lemma identity_read n : forall a (w : kernel), identity_mapped (k_mm w) a (Z.of_nat n) ->
  read_le n a w = Ret (load_le n (ram (k_mm w)) a) w.
Proof.
  induction n as [|n IH]; intros a w I; [done|]. cbn [read_le load_le].
  assert (E : read_u8 a w = Ret (load8 (ram (k_mm w)) a) w).
  { cbn [read_u8 kernel_mem]. unfold translated, bind. by rewrite (I a ltac:(lia)). }
  rewrite (bind_eq _ _ _ _ _ E), (bind_eq _ _ _ _ _ (IH (a + 1) w ltac:(intros b Hb; apply I; lia))). done.
Qed.

(** The highest end of the [n] entries at [a], and [Top]. *)
Fixpoint map_top (m : mem) (n : nat) (a Top : Z) : Z :=
  match n with
  | O => Top
  | S n => map_top m n (a + sizeof_PHYSICAL_MEMORY_RANGE) (Z.max Top (u64 (load64 m a + load64 m (a + 8))))
  end.

Definition boot_top (m : mem) (b : BOOT_INFO) : Z :=
  if (MemoryMap b =? 0) || (MemoryMapEntryCount b <=? 0) then 0
  else map_top m (Z.to_nat (MemoryMapEntryCount b)) (MemoryMap b) 0.

Lemma memory_top_read n : forall a Top (w : kernel),
  identity_mapped (k_mm w) a (Z.of_nat n * sizeof_PHYSICAL_MEMORY_RANGE) ->
  memory_top n a Top w = Ret (map_top (ram (k_mm w)) n a Top) w.
Proof.
  induction n as [|n IH]; intros a Top w I; [done|]. cbn [memory_top map_top].
  unfold sizeof_PHYSICAL_MEMORY_RANGE in *.
  assert (R : forall c, a <= c -> c + 8 <= a + 24 -> read_u64 c w = Ret (load64 (ram (k_mm w)) c) w).
  { intros c C1 C2. apply (identity_read 8). intros b Hb. apply I. lia. }
  rewrite (bind_eq _ _ _ _ _ (R a ltac:(lia) ltac:(lia))), (bind_eq _ _ _ _ _ (R (a + 8) ltac:(lia) ltac:(lia))).
  cbv zeta. set (e := u64 _). replace (if e >? Top then e else Top) with (Z.max Top e) by (destruct (Z.gtb_spec e Top); lia).
  apply IH. intros b Hb. apply I. lia.
Qed.

(** ** The phases *)

(** The interrupts are set up: every vector has its handler's gate, only the
    system call's may be entered from user mode, and the processor uses the
    tables. *)
Definition interrupts_ready (h : handlers) (s : intr_state) : Prop :=
  (forall v, (v < 256)%nat -> exists e, gAur64Idt s !! v = Some e /\ gate_offset e = handler_of h v /\
     gate_present e = true /\ gate_dpl e = (if (v =? 128)%nat then 3 else 0)) /\
  idtr s = Some (4095, idt_address s) /\ gdtr s = Some (63, gdt_address s) /\ task_register s = Some HALP_SEL_TSS.

Lemma interrupts_ready_gates h s s' : gates s' = gates s -> interrupts_ready h s -> interrupts_ready h s'.
Proof. intros E. injection E as E1 E2 E3 E4 E5 E6 E7 E8. unfold interrupts_ready. by rewrite E1, E3, E4, E6, E7, E8. Qed.

(** What the loader hands over, on a machine without a framebuffer. *)
Record powered `{HalLayout} (lv : gmap Z nat) (ptr : BOOT_INFO_PTR) (w : kernel) : Prop := {
  pd_blank : blank w;
  pd_serial : serial w;
  pd_video : FrameBufferBase (Video (bi_value ptr)) = 0;
  pd_magic : Magic (bi_value ptr) = BOOTINFO_MAGIC;
  pd_image : 0 <= InitImageBase (bi_value ptr) /\ 0 <= InitImageSize (bi_value ptr);
  pd_map : identity_mapped (k_mm w) (MemoryMap (bi_value ptr))
    (MemoryMapEntryCount (bi_value ptr) * sizeof_PHYSICAL_MEMORY_RANGE);
  pd_memory : startable lv 4 (reset_statics ptr (boot_top (ram (k_mm w)) (bi_value ptr)) (k_mm w));
  pd_tables : length (gAur64Idt (k_intr w)) = 256%nat /\ length (gAur64Gdt (k_intr w)) = 8%nat /\ is_u64 (tss_address (k_intr w));
  pd_handlers : forall v, is_u64 (handler_of hal_handlers v) }.

Definition platform (ptr : BOOT_INFO_PTR) (w : kernel) : hal_state :=
  set_platform (Some ptr) {| ProcessorCount := 1; TimerFrequencyHz := 1000000;
    PhysicalMemoryTop := boot_top (ram (k_mm w)) (bi_value ptr) |} (k_hal w).

Lemma query_platform_spec ptr (w : kernel) :
  identity_mapped (k_mm w) (MemoryMap (bi_value ptr)) (MemoryMapEntryCount (bi_value ptr) * sizeof_PHYSICAL_MEMORY_RANGE) ->
  query_platform (Some ptr) w = Ret tt (set_k_hal (platform ptr w) w).
Proof.
  intros I. unfold query_platform, platform, boot_top. set (b := bi_value ptr) in *.
  destruct (Z.eqb_spec (MemoryMap b) 0); cbn [negb andb orb]; [by rewrite bind_ret_l|].
  destruct (Z.gtb_spec (MemoryMapEntryCount b) 0), (Z.leb_spec (MemoryMapEntryCount b) 0); try lia; [|by rewrite bind_ret_l].
  rewrite <- (Z2Nat.id (MemoryMapEntryCount b)) in I by lia.
  rewrite (bind_eq _ _ _ _ _ (memory_top_read _ _ 0 w I)). reflexivity.
Qed.

Lemma phase0_spec `{HalLayout} lv ptr (w : kernel) : powered lv ptr w ->
  exists k o s, HalInitializePhase0 (Some ptr) w = Ret tt (set_ports_used k o (set_k_intr s (set_k_hal (platform ptr w) w))) /\
    interrupts_ready hal_handlers s.
Proof.
  intros P. unfold HalInitializePhase0. rewrite (bind_eq _ _ _ _ _ (query_platform_spec ptr w (pd_map _ _ _ P))).
  set (w1 := set_k_hal _ w). ports_step (HalpInitializeSerial (W := kernel)) serial_ports. set (w2 := set_ports_used k o w1).
  assert (F : HalpInitializeFramebuffer w2 = Ret tt w2).
  { unfold HalpInitializeFramebuffer. rewrite bind_gets. change (gHalBootInfo (hal_get w2)) with (Some ptr). cbv beta iota.
    by rewrite (pd_video _ _ _ P). }
  rewrite (bind_eq _ _ _ _ _ F). destruct (pd_tables _ _ _ P) as (Li & Lg & Ha).
  destruct (initialize_interrupts_spec hal_rsp hal_handlers w2 Li Lg Ha (pd_handlers _ _ _ P))
    as (s & Es & Gt & _ & _ & _ & _ & _ & _ & _ & _ & I1 & I2 & I3).
  rewrite (bind_eq _ _ _ _ _ Es). set (w3 := set_ports_used _ _ (set_k_intr s w2)).
  ports_step (HalpInitializeTimer (W := kernel)) timer_ports. set (w4 := set_ports_used _ _ w3).
  destruct (write_chars_serial (str "[HAL] phase0 complete" ++ [10]) w4 (pd_serial _ _ _ P)) as (k5 & o5 & E5).
  exists k5, o5, s. split; [exact E5|]. split; [|by split_and!].
  intros v Hv. destruct (Gt v Hv) as (e & ? & ? & ? & ? & ? & ?). exists e. by split_and!.
Qed.

(** The kernel once [NkInitializeCore] is done. *)
Definition core_done (ptr : BOOT_INFO_PTR) (s : intr_state) (w : kernel) : kernel :=
  set_k_nk {| gNkBootInfo := Some ptr; gNkPortCount := 0; gNkServiceEndpointCount := 0 |}
    (set_k_intr s (set_k_hal (platform ptr w) w)).

Lemma core_bootable `{HalLayout} lv ptr s (w : kernel) : powered lv ptr w -> 
  blank (core_done ptr s w) /\ serial (core_done ptr s w) /\ bootable lv ptr (core_done ptr s w).
Proof.
  intros [B S V Mg Im Mp St _ _]. split; [by destruct B|]. split; [exact S|]. by constructor.
Qed.

(** The check of the record looks at its mark alone. *)
Lemma early_spec `{HalLayout} lv ptr (w : kernel) : powered lv ptr w ->
  exists k o s, KiInitializeEarly (Some ptr) w = Ret KSTATUS_SUCCESS (set_ports_used k o (set_k_intr s (set_k_hal (platform ptr w) w))) /\
    interrupts_ready hal_handlers s.
Proof.
  intros P. destruct (phase0_spec lv ptr w P) as (k & o & s & E & R). exists k, o, s. split; [|done].
  unfold KiInitializeEarly. rewrite (pd_magic _ _ _ P), Z.eqb_refl. cbn [negb]. by rewrite (bind_eq _ _ _ _ _ E).
Qed.

(** A record of another version of the interface is not refused: the same state
    comes of it as of this version's. *)
Lemma any_version_accepted `{HalLayout} lv ptr (w : kernel) : powered lv ptr w ->
  Version (bi_value ptr) <> BOOTINFO_VERSION ->
  exists k o s, KiInitializeEarly (Some ptr) w = Ret KSTATUS_SUCCESS (set_ports_used k o (set_k_intr s (set_k_hal (platform ptr w) w))) /\
    interrupts_ready hal_handlers s.
Proof. intros P _. exact (early_spec lv ptr w P). Qed.

Lemma run_phases_core `{HalLayout} `{ExLayout} lv ptr (w : kernel) last : powered lv ptr w ->
  exists k o s, interrupts_ready hal_handlers s /\
    run_phases (Some ptr) last w
    = (Status <- ExInitializeExecutive ;;
       or_halt Status (str "[KE] EXEC init failed")
        (HalInitializePhase1 ;;; print_str (str "[KE] kernel bootstrap complete" ++ [10]) ;;; last))
      (set_ports_used k o (core_done ptr s w)).
Proof.
  intros P. unfold run_phases.
  ports_step (KiEarlySerialMarker (W := kernel)) (marker_ports (str "[KE] kernel entry reached" ++ [10])).
  set (w1 := set_ports_used k o w). assert (P1 : powered lv ptr w1) by (by destruct P as [[] ? ? ? ? ? ? ? ?]).
  destruct (early_spec lv ptr w1 P1) as (k2 & o2 & s & E & Rs).
  rewrite (bind_eq _ _ _ _ _ E). clear E. set (w2 := set_ports_used k2 o2 _).
  assert (S2 : serial w2) by exact (pd_serial _ _ _ P).
  unfold or_halt at 1. cbn [ok Z.eqb KSTATUS_SUCCESS negb]. print_step.
  unfold KiShowBootSplash. rewrite !bind_assoc. print_step.
  do 4 (rewrite ?bind_assoc; print_step). rewrite ?bind_assoc. print_step.
  match goal with |- context [bind (nk _) ?c ?x] => set (w3 := x) end.
  assert (N : NkInitializeCore (Some ptr) (k_nk w3) = Ret KSTATUS_SUCCESS
    {| gNkBootInfo := Some ptr; gNkPortCount := 0; gNkServiceEndpointCount := 0 |}).
  { unfold NkInitializeCore. by rewrite (pd_magic _ _ _ P), Z.eqb_refl. }
  rewrite (bind_nk _ _ w3 _ _ N). unfold or_halt at 1. cbn [ok Z.eqb KSTATUS_SUCCESS negb].
  set (w4 := set_k_nk _ w3). assert (S4 : serial w4) by exact S2. print_step. 
  match goal with |- context [bind (print_str _) ?c ?x] => set (w5 := x) end. assert (S5 : serial w5) by exact S2. print_step.
  eexists _, _, s. split; [exact Rs|reflexivity].
Qed.

Lemma run_phases_spec `{HalLayout} `{ExLayout} lv ptr (w : kernel) last : powered lv ptr w ->
  exists w' ext lv' j, run_phases (Some ptr) last w = last w' /\ ps_inv ext lv' w' [] (Some j) /\ io_inv w' /\
    serial w' /\ files_ready ptr w' /\
    (if init_image (bi_value ptr) then registered (k_io w') init_path (InitImageBase (bi_value ptr)) (InitImageSize (bi_value ptr))
     else no_files (k_io w')) /\
    interrupts_ready hal_handlers (k_intr w') /\ k_if w' = true /\
    gHalPageFaultRoutine (k_hal w') = Some FaultMmpOnPageFault /\ gHalTimerTickRoutine (k_hal w') = Some TickPsOnTimerTick /\
    (forall va, walk_index va 0 <> physmap_slot ->
       translate (k_mm w') (addr_of (cr3 (k_mm w'))) va = translate (k_mm w) (addr_of (cr3 (k_mm w))) va) /\
    forall x, 0 <= x < 4096 * gMmTrackedPages (init_pages (boot_top (ram (k_mm w)) (bi_value ptr)) (ram (k_mm w)) ptr) ->
      translate (k_mm w') (addr_of (cr3 (k_mm w'))) (MM_PHYSMAP_BASE + x) = Some x.
Proof.
  intros P.
  destruct (run_phases_core lv ptr w last P) as (k & o & s & Rs & E). rewrite E. clear E.
  destruct (core_bootable lv ptr s w P) as (B & S & Bt). set (w1 := set_ports_used k o (core_done ptr s w)).
  assert (B1 : blank w1) by by destruct B. assert (Bt1 : bootable lv ptr w1) by by destruct Bt.
  destruct (executive_start_spec lv ptr w1 B1 S Bt1)
    as (w2 & ext & lv' & j & E & I & Io & Rg & Fs & _ & _ & _ & Pf & Tk & _ & Kept & Pm & Eg & _ & Ec).
  rewrite (bind_eq _ _ _ _ _ E). unfold or_halt. cbn [ok Z.eqb KSTATUS_SUCCESS negb].
  unfold HalInitializePhase1. change (HalEnableInterrupts (W := kernel)) with (modify (set_k_if true)).
  rewrite bind_assoc, bind_modify. set (w3 := set_k_if true w2).
  assert (S3 : serial w3) by (unfold serial; change (k_hal w3) with (k_hal w2); by rewrite Ec).
  cbv beta. match goal with |- context [bind (HalWriteDebugString (Some ?m)) ?c ?x] =>
    change (bind (HalWriteDebugString (Some m)) c x) with (bind (print_str m) c x) end.
  print_step. match goal with |- context [bind (print_str _) ?c ?x] => set (w4 := x) end. assert (S4 : serial w4) by exact S3.
  print_step. eexists _, ext, lv', j. split; [reflexivity|].
  split. { destruct I as [A1 A2 A3 A4 A5 A6 A7 A8]. by constructor. }
  split. { by destruct Io. } split; [exact S4|]. split. { by destruct Fs. } split; [exact Rg|].
  split. { apply (interrupts_ready_gates _ s); [exact Eg|exact Rs]. }
  split; [done|]. split; [exact Pf|]. split; [exact Tk|]. split; [exact Kept|exact Pm].
Qed.

(** ** The properties *)

Lemma entry_refused `{HalLayout} `{ExLayout} b (w : kernel) last : serial w ->
  (forall ptr, b = Some ptr -> Magic (bi_value ptr) <> BOOTINFO_MAGIC) ->
  exists k o, run_phases b last w = Halt (set_k_if false (set_ports_used k o w)).
Proof.
  intros S Bad. unfold run_phases.
  ports_step (KiEarlySerialMarker (W := kernel)) (marker_ports (str "[KE] kernel entry reached" ++ [10])).
  set (w1 := set_ports_used k o w). assert (S1 : serial w1) by exact S.
  assert (E : KiInitializeEarly b w1 = Ret KSTATUS_INVALID_PARAMETER w1).
  { unfold KiInitializeEarly. destruct b as [ptr|]; [|done].
    destruct (Z.eqb_spec (Magic (bi_value ptr)) BOOTINFO_MAGIC); [by destruct (Bad ptr eq_refl)|done]. }
  rewrite (bind_eq _ _ _ _ _ E). unfold or_halt at 1.
  change (ok KSTATUS_INVALID_PARAMETER) with false. cbn [negb]. print_step. eexists _, _. reflexivity.
Qed.

(** C1: the kernel comes up.  Entered with a boot record of this version of the
    interface, on a machine without a framebuffer ([FrameBufferBase] zero) and with
    blank static variables, whose memory map can be read and whose page tables are
    sound, lie in frames that count as taken and leave four frames free, the phases
    run in their order up to the launch of the first process: by then every
    interrupt vector has its handler's gate and only the system call's is open to
    user mode, interrupts are enabled, the process manager's invariant holds with
    the bootstrap thread running, the I/O manager's holds with the init image, if
    there is one, registered, the page faults and the timer ticks reach their
    managers, and memory is reached both as the firmware mapped it and through the
    physmap.  Without a boot record, or with one whose [Magic] is another, the kernel
    stops with interrupts off.  Records of other versions are left out: the document
    of the interface wants them refused, and the code takes them
    ([any_version_accepted]). *)
Theorem AsterKernelEntry_comes_up `{HalLayout} `{ExLayout} lv ptr (w : kernel) last : powered lv ptr w ->
  Version (bi_value ptr) = BOOTINFO_VERSION ->
  (exists w' ext lv' j, run_phases (Some ptr) last w = last w' /\ ps_inv ext lv' w' [] (Some j) /\ io_inv w' /\
    interrupts_ready hal_handlers (k_intr w') /\ k_if w' = true /\
    (init_image (bi_value ptr) = true ->
     registered (k_io w') init_path (InitImageBase (bi_value ptr)) (InitImageSize (bi_value ptr))) /\
    gHalPageFaultRoutine (k_hal w') = Some FaultMmpOnPageFault /\ gHalTimerTickRoutine (k_hal w') = Some TickPsOnTimerTick /\
    (forall va, walk_index va 0 <> physmap_slot ->
       translate (k_mm w') (addr_of (cr3 (k_mm w'))) va = translate (k_mm w) (addr_of (cr3 (k_mm w))) va) /\
    forall x, 0 <= x < 4096 * gMmTrackedPages (init_pages (boot_top (ram (k_mm w)) (bi_value ptr)) (ram (k_mm w)) ptr) ->
      translate (k_mm w') (addr_of (cr3 (k_mm w'))) (MM_PHYSMAP_BASE + x) = Some x) /\
  forall b, (forall p, b = Some p -> Magic (bi_value p) <> BOOTINFO_MAGIC) ->
    exists k o, run_phases b last w = Halt (set_k_if false (set_ports_used k o w)).
Proof.
  intros P _. split; [|intros b; exact (entry_refused b w last (pd_serial _ _ _ P))].
  destruct (run_phases_spec lv ptr w last P) as (w' & ext & lv' & j & E & I & Io & _ & _ & Rg & Ir & Fi & Pf & Tk & Kept & Pm).
  exists w', ext, lv', j. split_and!; try done. intros Ii. by rewrite Ii in Rg.
Qed.
