(* ===== verification/KernelRun.v ===== *)
(** * The running kernel: theorems

    The whole of [AsterKernelEntry]: a kernel without an init image opens none,
    runs no self-test and idles, taking every timer interrupt. *)

From S2P Require Import Prelude CString BootProto Nk Se Cc Ob ObInv PhysMem MmPages MmTables MmTablesInv MmSpace MmSection.
From S2P Require Import MmFault MmRegions MmStart Kpe KpeLoad UserMem Ps PsInv PsSpawn Lpc Io Hal Syscall HalIntr HalStart Ex.
From S2P Require Import Threads Arch Validate Ke Kernel KernelInv HalInv HalIntrInv PsSpawnInv IoInv KernelStart KernelThreads.
From S2P Require Import KernelEntry KernelSuite.

(** ** Opening a path nobody registered *)



(** ** The launch *)




(** ** The idle loop *)

(** The gates, the interrupt flag, and what was sent to the ports. *)
Definition awake (w : kernel) := (gates (k_intr w), k_if w, k_outputs w).

Lemma awake_stack z : frame awake (Ps.HalSetKernelStackPointer (W := kernel) z).
Proof. intros w a w' E. apply zoom_Ret_inv in E as (s & E & ->). by injection E as _ <-. Qed.
Lemma awake_dispatch : frame awake (PsDispatch (W := kernel)).
Proof. unfold PsDispatch, enter_thread, ps, mmM. repeat first [apply awake_stack|frame_step]. Qed.
#[export] Hint Resolve awake_dispatch : frames.



(** ** The property *)

