(* ===== verification/KernelExample.v ===== *)
(** * A small running kernel

    The concrete state the witnesses of the theorems about the composed kernel
    use: four threads of one process (the first runs, two are ready, one is
    blocked), the object manager after its initialisation, and one port, opened
    through a handle that may receive (4) and one that may send (8). *)

From S2P Require Import Prelude CString BootProto Nk Ob ObInv PhysMem MmPages MmTables MmSpace MmSection.
From S2P Require Import MmTablesInv MmFault MmRegions Kpe KpeLoad UserMem Ps PsInv PsSpawn Lpc Io Hal Syscall HalIntr HalStart Ex Validate Se Cc.
From S2P Require Import Kernel KernelMem KernelInv PsSpawnInv LpcInv IoInv SyscallInv HalIntrInv HalInv.

#[local] Existing Instance self_world.
#[local] Existing Instance self_world_laws.

(** The object manager after the calls that lead to it. *)
Definition ob_k2 := final (ObCreateType (Some (str "LpcPort")) (Some PortDeleteRoutine) true) ob_s1.
Definition ob_k3 := final (ObCreateObject (Some 0%nat) (Some (str "lpc.port")) LPC_PORT_ACCESS_ALL OB_FLAG_WAITABLE true) ob_k2.
Definition ob_k4 := final (ObInsertHandle true (Some 0%nat) LPC_PORT_ACCESS_RECV true) ob_k3.
Definition ob_k5 := Eval vm_compute in final (ObInsertHandle true (Some 0%nat) LPC_PORT_ACCESS_SEND true) ob_k4.

Lemma ob_k5_inv : ob_inv ob_k5 ext1.
Proof.
  assert (R : rtc (ob_step (W := ob_state)) (ob_s1, fun _ => 0) (ob_k5, ext1)).
  { eapply rtc_l; [by eapply (step_type ob_s1 (fun _ => 0) (Some (str "LpcPort")) (Some PortDeleteRoutine) true
      (KSTATUS_SUCCESS, Some 0%nat) ob_k2)|].
    eapply rtc_l.
    { eapply (step_create ob_k2 (fun _ => 0) 0 (Some (str "lpc.port")) LPC_PORT_ACCESS_ALL OB_FLAG_WAITABLE true
        KSTATUS_SUCCESS (Some 0%nat) ob_k3); [lia|vm_compute; discriminate|vm_compute; reflexivity|reflexivity]. }
    eapply rtc_l.
    { eapply (step_insert ob_k3 ext1 0 _ LPC_PORT_ACCESS_RECV KSTATUS_SUCCESS (Some 4) ob_k4);
        [split; reflexivity|reflexivity|vm_compute; reflexivity|vm_compute; reflexivity|reflexivity]. }
    eapply rtc_l; [|apply rtc_refl].
    eapply (step_insert ob_k4 ext1 0 _ LPC_PORT_ACCESS_SEND KSTATUS_SUCCESS (Some 8) ob_k5);
      [split; reflexivity|reflexivity|vm_compute; reflexivity|vm_compute; reflexivity|vm_compute; reflexivity]. }
  apply (ob_steps_inv _ _ R). destruct (inv_initialize ob_boot) as (s' & D & I); [done..|].
  simpl. by injection D as <-.
Qed.

Definition empty_port : NK_PORT := {| Queue := replicate 32 empty_message; Head := 0; Tail := 0; Count := 0 |}.
Definition lpc0 : lpc_state :=
  {| gLpcSystemEndpoint := {| EndpointName := []; BaseOpcode := LPC_OPCODE_BASE; EndpointFlags := 0; Port := empty_port |};
     gLpcPortType := Some 0%nat;
     gLpcPortPool := {| PortHeader := Some 0%nat; MessagePort := empty_port; WaitHead := None; WaitTail := None |}
       :: replicate 127 {| PortHeader := None; MessagePort := empty_port; WaitHead := None; WaitTail := None |};
     gLpcPortInUse := true :: replicate 127 false; gLpcReady := true |}.

Definition hal0 : hal_state :=
  {| gHalBootInfo := None; gHalPlatformInfo := {| ProcessorCount := 1; TimerFrequencyHz := 0; PhysicalMemoryTop := 0 |};
     gHalTimerTickRoutine := None; gHalPageFaultRoutine := None;
     console := {| gHalFb := 0; gHalFbWidth := 0; gHalFbHeight := 0; gHalFbPitch := 0; gHalFbColor := 0; gHalFbBg := 0;
       gHalFbCursorX := 0; gHalFbCursorY := 0; gHalFbCols := 0; gHalFbRows := 0; gHalFbReady := false |};
     gHalFont8x16 := []; gHalFontReady := false;
     keyboard := {| gHalPs2ShiftLeft := false; gHalPs2ShiftRight := false; gHalPs2CapsLock := false;
       gHalPs2Extended := false |} |}.

Definition tss0 : AUR64_TSS64 :=
  {| TssReserved0 := 0; Rsp0 := 0; Rsp1 := 0; Rsp2 := 0; TssReserved1 := 0; Ist1 := 0; Ist2 := 0; Ist3 := 0; Ist4 := 0;
     Ist5 := 0; Ist6 := 0; Ist7 := 0; TssReserved2 := 0; TssReserved3 := 0; IoMapBase := 0 |}.
Definition intr0 : intr_state :=
  {| gAur64Idt := []; gAur64Gdt := []; gAur64Tss := tss0; idt_address := 0; gdt_address := 0; tss_address := 0;
     idtr := None; gdtr := None; task_register := None |}.
Definition io0 : io_state :=
  {| gIoFileType := None; gIoFilePool := []; gIoFileInUse := []; gIoBootFiles := []; gIoSpawnScratch := 0;
     gIoReady := false |}.

Definition se0 : se_state := {| gSeReady := false; gSeDefaultPrivilegeMask := 0 |}.
Definition cc0 : cc_state :=
  {| gCcPolicy := {| MaxCachedPages := 0; DirtyWritebackThresholdPages := 0; AggressiveTrim := 0 |}; gCcReady := false |}.
Definition endpoint0 : NK_SERVICE_ENDPOINT :=
  {| EndpointName := []; BaseOpcode := 0; EndpointFlags := 0; Port := empty_port |}.
Definition worker0 : KE_IPC_WORKER_CONTEXT := {| SendHandle := 0; RecvHandle := 0; Iterations := 0; RoleId := 0 |}.
Definition ke0 : ke_state :=
  {| gKeValidationCounters := {| WorkerAIterations := 0; WorkerBIterations := 0; IpcIterations := 0 |};
     CtxA := worker0; CtxB := worker0; DoneA := false; DoneB := false |}.

Definition kernel0 : kernel :=
  {| k_ob := ob_k5; k_mm := Example3.w_mm Example3.world3; k_ps := Example3.ps3; k_lpc := lpc0;
     k_nk := {| gNkBootInfo := None; gNkPortCount := 1; gNkServiceEndpointCount := 1 |}; k_io := io0; k_hal := hal0;
     k_intr := intr0; k_if := true; k_device := fun _ _ => 0; k_clock := 0; k_outputs := []; k_rip := 0; k_se := se0; k_cc := cc0; k_ex := endpoint0; k_ke := ke0 |}.

Lemma kernel0_inv : lpc_inv ext1 kernel0 [1%nat; 2%nat] (Some 0%nat).
Proof.
  constructor; [apply ob_k5_inv| |constructor; [apply Example3.inv3|constructor]]; try done.
  - intros i o [_ Ho]. assert (F : Forall (fun o => RefCount o + 1 < 2 ^ 32) (gObObjectPool ob_k5)).
    { apply (bool_decide_unpack _). vm_compute. reflexivity. }
    exact (proj1 (Forall_lookup _ _) F i o Ho).
  - intros [|j] p Hp; [injection Hp as <-; intros _ _|].
    + constructor; [reflexivity|cbn; lia|cbn; lia|reflexivity].
    + intros U. change (replicate 127 false !! j = Some true) in U. by apply lookup_replicate in U as [? _].
  - assert (W : forall p, p ∈ gLpcPortPool (k_lpc kernel0) -> WaitHead p = None /\ WaitTail p = None).
    { intros p [->|Hp]%elem_of_cons; [done|]. by apply elem_of_replicate in Hp as [-> _]. }
    intros j p t Hp E. apply list_elem_of_lookup_2 in Hp. destruct (W p Hp). naive_solver.
  - intros [|[|[|[|i]]]] x t Hx E; try (injection Hx as <-); done.
Qed.

Definition hello : NK_MESSAGE := {| Opcode := 7; Length := 2; Payload := [104; 105] |}.
Definition oversized : NK_MESSAGE := {| Opcode := 7; Length := 65; Payload := [] |}.

(** Sending asks for the right to send; a message that is too long is refused;
    the message comes out once. *)
Lemma lpc_run_refines_witness :
  (ports_run (resolve kernel0) (queue_of (k_lpc kernel0))
     [LSend 4 hello; LSend 8 oversized; LSend 8 hello; LReceive 4; LReceive 4; LReceive 12]).1
  = [(KSTATUS_ACCESS_DENIED, None); (KSTATUS_WOULD_BLOCK, None); (KSTATUS_SUCCESS, None);
     (KSTATUS_SUCCESS, Some hello); (KSTATUS_WOULD_BLOCK, None); (KSTATUS_NOT_FOUND, None)] /\
  exists w' q', let '(rs, Q') := ports_run (resolve kernel0) (queue_of (k_lpc kernel0)) [LSend 8 hello; LReceive 4] in
    lpc_run [LSend 8 hello; LReceive 4] kernel0 = Ret rs w' /\ lpc_inv ext1 w' q' (Some 0%nat) /\
    lpc_kept kernel0 w' /\ forall i, queue_of (k_lpc w') i = Q' i.
Proof.
  split; [vm_compute; reflexivity|].
  exact (lpc_run_refines ext1 [LSend 8 hello; LReceive 4] kernel0 [1%nat; 2%nat] 0%nat kernel0_inv).
Defined.

Lemma LpcReceiveByHandle_blocks_all_witness :
  exists w', LpcReceiveByHandle 4 true 1 kernel0 = Ret (KSTATUS_INIT_FAILED, None) w' /\ lpc_inv ext1 w' [] None /\
    (forall t, t ∈ [0%nat; 1%nat; 2%nat] -> blocked (k_ps w') t = true) /\
    k_ob w' = k_ob kernel0 /\ same_ports (k_lpc kernel0) (k_lpc w').
Proof.
  apply (LpcReceiveByHandle_blocks_all ext1 kernel0 [1%nat; 2%nat] 0%nat 4 1 0%nat kernel0_inv);
    [lia|vm_compute; reflexivity|vm_compute; reflexivity].
Defined.

(** ** A kernel with files

    The machine of the user-memory witnesses (one mapped page at 0x40000000), an
    object type for files, no file yet. *)

Definition ob_k6 := Eval vm_compute in final (ObCreateType (Some (str "File")) (Some FileDeleteRoutine) true) ob_k5.

Lemma ob_k6_inv : ob_inv ob_k6 ext1.
Proof.
  eapply (inv_create_type ob_k5 ext1 (Some (str "File")) (Some FileDeleteRoutine) true (KSTATUS_SUCCESS, Some 1%nat));
    [apply ob_k5_inv|vm_compute; reflexivity].
Qed.

Definition no_boot_file : IO_BOOT_FILE := {| BootPath := replicate 64 0; BootData := 0; BootSize := 0; BootInUse := false |}.
Definition io1 : io_state :=
  {| gIoFileType := Some 1%nat; gIoFilePool := replicate 128 blank_file; gIoFileInUse := replicate 128 false;
     gIoBootFiles := replicate 16 no_boot_file; gIoSpawnScratch := 0x40000000; gIoReady := true |}.
Definition kernel1 : kernel := set_k_io io1 (set_k_mm demo5 (set_k_ob ob_k6 kernel0)).
Definition page5 (b : Z) : Prop := 0x40000000 <= b < 0x40001000.

Lemma kernel1_access : user_access lv4 (k_mm kernel1) space4 page5.
Proof. constructor; [apply demo5_ok|reflexivity|apply demo5_mapped]. Qed.

Lemma counts_small_check s : forallb (fun o => RefCount o + 1 <? 2 ^ 32) (gObObjectPool s) = true -> counts_small s.
Proof.
  intros F i o [_ Ho]. rewrite forallb_forall in F. apply Z.ltb_lt, F. apply list_elem_of_In. by eapply list_elem_of_lookup_2.
Qed.

Lemma kernel1_io : io_inv kernel1.
Proof.
  constructor; [done|by exists 1%nat; split; [|lia]|done| |].
  - intros j f i. intros [? _]%(lookup_replicate 128). done.
  - intros k b [-> _]%(lookup_replicate 16). done.
Qed.

Lemma page5_ranges Buf Src n : page5 Buf -> page5 Src -> Buf + n <= 0x40001000 -> Src + n <= 0x40001000 ->
  Buf + n <= Src \/ Src + n <= Buf -> read_ranges page5 Buf Src n.
Proof. unfold page5. intros B S E1 E2 A. constructor; try lia; intros b Hb; unfold page5; lia. Qed.

(** Eight bytes at 0x40000980 are the file; five of them, from offset 3 on, are
    all there are to read. *)
Lemma boot_file_reads_back_witness :
  read_length 8 3 100 = 5 /\
  exists h w' m', (io (IoRegisterBootFile (Some (str "\System\init.kpe")) 0x40000980 8) ;;;
                   IoOpenPath (Some (str "\System\init.kpe")) IO_FILE_ACCESS_READ true) kernel1
                  = Ret (KSTATUS_SUCCESS, Some h) w' /\
    IoReadFileHandle h 3 0x40000100 100 true w' = Ret (KSTATUS_SUCCESS, Some 5) (set_k_mm m' w') /\
    copied lv4 space4 page5 0x40000100 (0x40000980 + 3) 5 (k_mm kernel1) m'.
Proof.
  split; [reflexivity|].
  apply (boot_file_reads_back lv4 space4 page5 ext1 kernel1 (str "\System\init.kpe") 0x40000980 8 IO_FILE_ACCESS_READ
    0 1 0 3 0x40000100 100 kernel1_io ob_k6_inv); try reflexivity; try lia.
  - apply counts_small_check. vm_compute. reflexivity.
  - by vm_compute; repeat constructor.
  - cbn. lia.
  - intros k b Hb Ub. apply (lookup_replicate 16) in Hb as [-> _]. done.
  - constructor; [reflexivity|vm_compute; split; congruence|by exists 2%nat, empty_entry|vm_compute; reflexivity].
  - apply kernel1_access.
  - change (read_length 8 3 100) with 5. apply page5_ranges; unfold page5; lia.
Defined.

(** The same file behind an open handle. *)
Definition file5 : IO_FILE_OBJECT :=
  {| FileObjectHeader := Some 0%nat; FileData := 0x40000980; FileSize := 8; FileAccessMask := 1 |}.
Definition kernel2 : kernel :=
  set_k_io {| gIoFileType := Some 0%nat; gIoFilePool := file5 :: replicate 127 blank_file;
              gIoFileInUse := true :: replicate 127 false; gIoBootFiles := replicate 16 no_boot_file;
              gIoSpawnScratch := 0x40000000; gIoReady := true |} kernel1.

Lemma IoSpawnProcessFromFileHandle_spawns_witness :
  exists m', copied lv4 space4 page5 0x40000000 0x40000980 8 (k_mm kernel2) m' /\
    IoSpawnProcessFromFileHandle 4 true true kernel2
    = PsSpawnUserKpeFromBuffer (Some 0x40000000) 8 true true (set_k_mm m' kernel2).
Proof.
  destruct (IoSpawnProcessFromFileHandle_spawns lv4 space4 page5 ext1 kernel2 4 0 0 file5 true true ob_k6_inv) as (m' & C & E);
    try reflexivity.
  - apply counts_small_check. vm_compute. reflexivity.
  - apply kernel1_access.
  - cbn. lia.
  - apply page5_ranges; unfold page5; cbn; try lia.
  - exists m'. exact (conj C E).
Defined.

(** ** A kernel that runs a thread in the mapped address space *)

Definition mm6 : mm_state :=
  {| frames := frames (mm demo5); gMmReady := true; gMmAddressSpacePool := [space4]; gMmAddressSpaceInUse := [true];
     gMmNextAddressSpaceId := 2; gMmKernelRootTablePhysical := 8192; gMmSectionType := None; gMmSectionPool := [];
     gMmSectionInUse := []; gMmFaultTrace := []; gMmFaultTraceNext := 0; gMmPhysmapBase := MM_PHYSMAP_BASE;
     gMmPhysmapBytes := 0; gMmPhysmapReady := true |}.
Definition machine6 : mm_machine := {| mm := mm6; ram := ram5; cr3 := 8192; invlpgs := [] |}.
Definition kernel3 : kernel := set_k_mm machine6 kernel1.

Lemma kernel3_access : user_access lv4 (k_mm kernel3) space4 page5.
Proof.
  destruct demo5_ok as [[A B C D E] _ R N]. destruct demo5_mapped as [F J].
  constructor; [|reflexivity|by constructor]. constructor; [by constructor|done..].
Qed.

Lemma kernel3_inv : lpc_inv ext1 kernel3 [1%nat; 2%nat] (Some 0%nat).
Proof.
  destruct kernel0_inv as [_ _ [[Sc Rn _] [A B C D E]]]. constructor.
  - apply ob_k6_inv.
  - apply counts_small_check. vm_compute. reflexivity.
  - constructor; [|by constructor]. constructor; [exact Sc|exact Rn|].
    intros [|p] r x Hp Hx; [|done]. injection Hp as <-. injection Hx as <-. by eexists.
Qed.

#[local] Instance layout0 : KernelLayout := {| address_of_space _ := 0 |}.

(** The range ends above the lower half. *)
Lemma KiDispatchSystemCall_refuses_witness :
  KiDispatchSystemCall NkSysRead 4 0 0x00007FFFFFFFF000 0x2000 0 0 kernel3
  = Ret (status_result KSTATUS_INVALID_PARAMETER) kernel3 /\
  KiDispatchSystemCall 16 0 0 0 0 0 0 kernel3 = Ret (status_result KSTATUS_NOT_IMPLEMENTED) kernel3.
Proof.
  split.
  - apply (proj2 (KiDispatchSystemCall_refuses NkSysRead 4 0 0x00007FFFFFFFF000 0x2000 0 0 kernel3)). reflexivity.
  - apply (proj1 (KiDispatchSystemCall_refuses 16 0 0 0 0 0 0 kernel3)). lia.
Defined.

(** Three bytes of the image at 0x40000800, received elsewhere in the page. *)
Lemma KipSysSend_KipSysReceive_witness :
  exists w1 w2, KipSysSend 8 0x40000800 3 0 kernel3 = Ret (status_result KSTATUS_SUCCESS) w1 /\
    KipSysReceive 4 0x40000100 16 0 w1 = Ret 3 w2 /\
    forall b, page5 b -> user_view (k_mm kernel3) space4 (k_mm w2) b =
      if (0x40000100 <=? b) && (b <? 0x40000100 + 3)
      then user_view (k_mm kernel3) space4 (k_mm kernel3) (0x40000800 + (b - 0x40000100))
      else user_view (k_mm kernel3) space4 (k_mm kernel3) b.
Proof.
  destruct (KipSysSend_KipSysReceive lv4 space4 page5 ext1 kernel3 [1%nat; 2%nat] 0%nat 8 4 0%nat 0x40000800 3 0x40000100 16 0
    kernel3_inv kernel3_access) as (w1 & w2 & q' & E1 & E2 & _ & _ & _ & V);
    [vm_compute; reflexivity|vm_compute; reflexivity|vm_compute; reflexivity|unfold is_u64; lia|unfold is_u64; lia|lia|unfold NK_MESSAGE_PAYLOAD_BYTES; lia
    |reflexivity|reflexivity|unfold page5; lia|unfold page5; lia|].
  exact (ex_intro _ w1 (ex_intro _ w2 (conj E1 (conj E2 V)))).
Defined.

(** ** Interrupts *)

Definition blank_gate : AUR64_IDT_ENTRY :=
  {| OffsetLow := 0; Selector := 0; Ist := 0; Attributes := 0; OffsetMiddle := 0; OffsetHigh := 0; IdtReserved := 0 |}.
Definition kernel4 : kernel :=
  set_k_intr {| gAur64Idt := replicate 256 blank_gate; gAur64Gdt := replicate 8 0; gAur64Tss := tss0;
                idt_address := 0x8000; gdt_address := 0x9000; tss_address := 0x9100;
                idtr := None; gdtr := None; task_register := None |} kernel0.
Definition handlers0 : handlers :=
  {| HalpDefaultInterruptHandler_at := 0xFFFFFFFF80001000; HalpInvalidOpcodeInterruptHandler_at := 0xFFFFFFFF80001100;
     HalpGeneralProtectionInterruptHandler_at := 0xFFFFFFFF80001200; HalpTimerInterruptHandler_at := 0xFFFFFFFF80001300;
     HalpPageFaultInterruptHandler_at := 0xFFFFFFFF80001400; HalpSyscallInterruptHandler_at := 0xFFFFFFFF80001500 |}.

Lemma handlers0_u64 v : is_u64 (handler_of handlers0 v).
Proof.
  unfold handler_of. repeat match goal with |- context [(v =? ?k)%nat] => destruct (v =? k)%nat end; unfold is_u64; cbn; lia.
Qed.

Lemma HalpInitializeInterrupts_installs_witness :
  exists s w', HalpInitializeInterrupts 0x7000 handlers0 kernel4 = Ret tt w' /\ k_intr w' = s /\
    selects s 0x23 (code_segment 3) /\
    exists e, gAur64Idt s !! 128%nat = Some e /\ gate_offset e = 0xFFFFFFFF80001500 /\ gate_dpl e = 3.
Proof.
  destruct (HalpInitializeInterrupts_installs 0x7000 handlers0 kernel4 eq_refl eq_refl) as (s & E & G & _ & _ & _ & U & _).
  - unfold is_u64. cbn. lia.
  - exact handlers0_u64.
  - destruct (G 128%nat ltac:(lia)) as (e & He & O & _ & _ & D & _).
    exact (ex_intro _ s (ex_intro _ _ (conj E (conj eq_refl (conj U (ex_intro _ e (conj He (conj O D)))))))).
Defined.

(** ** A console of two by two characters in the mapped page *)

Definition console5 : hal_console :=
  {| gHalFb := 0x40000000; gHalFbWidth := 18; gHalFbHeight := 32; gHalFbPitch := 18; gHalFbColor := 0x00F2F6FF;
     gHalFbBg := 0x00060A10; gHalFbCursorX := 0; gHalFbCursorY := 0; gHalFbCols := 2; gHalFbRows := 2;
     gHalFbReady := true |}.
Definition kernel5 : kernel := set_k_hal (set_console (set_cursor 1 1 console5) hal0) kernel1.

(** Three characters at the end of the screen: it scrolls. *)
Lemma HalWriteDebugString_paints_witness :
  let s := print_string console5 (str "abc") {| sx := 1; sy := 1; spix := picture_of (k_mm kernel5) space4 console5 kernel5 |} in
  (sx s, sy s) = (2, 1) /\
  exists w', HalWriteDebugString (Some (str "abc")) kernel5 = Ret tt w' /\
    forall px py, on_screen console5 px py -> picture_of (k_mm kernel5) space4 console5 w' px py = spix s px py.
Proof.
  split; [reflexivity|].
  destruct (HalWriteDebugString_paints lv4 space4 page5 console5 1 1 kernel5 (str "abc") kernel1_access) as (w' & E & P & _).
  - constructor; try (cbn; unfold is_u32; lia); by vm_compute.
  - intros b Hb. unfold page5. cbn in Hb. lia.
  - reflexivity.
  - cbn. lia.
  - cbn. lia.
  - done.
  - exact (ex_intro _ w' (conj E P)).
Defined.

(** ** The start of the process manager *)

Definition blank_thread : KTHREAD :=
  {| ThreadHeader := None; ThreadId := 0; OwnerProcess := None; Context := cpu Example3.ps3; State := PsThreadReady;
     TimeSliceTicks := 0; RemainingTicks := 0; RunQueueNext := None; WaitQueueNext := None; StartRoutine := None;
     StartContext := 0; KernelStackTop := 0; IsUserThread := false; UserEntry := 0; UserStackTop := 0; UserArg0 := 0;
     UserArg1 := 0 |}.
Definition ps6 : ps_state :=
  {| gPsProcessType := None; gPsThreadType := None;
     gPsProcessPool := replicate 32 {| ProcessHeader := None; ProcessId := 0; AddressSpaceRoot := None |};
     gPsProcessInUse := []; gPsThreadPool := replicate 128 blank_thread; gPsThreadInUse := [];
     gPsNextProcessId := 0; gPsNextThreadId := 0; gPsSystemProcess := None; gPsCurrentThread := None;
     gPsRunQueueHead := None; gPsRunQueueTail := None; gPsReschedulePending := false; gPsReady := false;
     cpu := cpu Example3.ps3; gPsThreadStackPool := 0x100000; entry_thunk := 0x8000; switch_resume := 0x8100 |}.
Definition kernel6 : kernel := set_k_mm MmRegions.machine6 (set_k_ob ob_k6 (set_k_ps ps6 kernel0)).

Lemma kernel6_mm : mm_ready lv4 (k_mm kernel6).
Proof.
  constructor; try reflexivity; [|discriminate|].
  - apply (tables_wf_mm lv4 machine4); [reflexivity|reflexivity|apply space4_ok].
  - intros a H. apply elem_of_cons in H as [->|H]; [reflexivity|]. apply list_elem_of_singleton in H as ->. reflexivity.
Qed.

Lemma kernel6_blank : ps_blank (k_ps kernel6).
Proof.
  constructor; try reflexivity.
  - intros t [-> _]%elem_of_replicate. done.
  - intros p [-> _]%elem_of_replicate. done.
Qed.

Lemma kernel6_frames : ~ full (k_mm kernel6).
Proof.
  intros F. assert (X : allocated (frames (mm MmRegions.machine6)) 15 = true) by (apply F; split; reflexivity || discriminate).
  discriminate X.
Qed.

Lemma PsInitialize_starts_witness :
  exists w' ext' lv' j, PsInitialize kernel6 = Ret KSTATUS_SUCCESS w' /\ ps_inv ext' lv' w' [] (Some j).
Proof.
  destruct (PsInitialize_starts ext1 lv4 kernel6 2 3 1 2 1 ob_k6_inv kernel6_mm kernel6_blank)
    as (w' & ext' & lv' & j & E & I & _);
    [vm_compute; reflexivity|vm_compute; reflexivity|done|vm_compute; reflexivity|vm_compute; reflexivity
    |vm_compute; discriminate|vm_compute; reflexivity|reflexivity|apply kernel6_frames|].
  exact (ex_intro _ w' (ex_intro _ ext' (ex_intro _ lv' (ex_intro _ j (conj E I))))).
Defined.

(** The kernel after it. *)
Definition kernel7 : kernel := final PsInitialize kernel6.

Lemma kernel7_inv : exists ext' lv', ps_inv ext' lv' kernel7 [] (Some 0%nat).
Proof.
  destruct (initialize_spec ext1 lv4 kernel6 2 3 1 2 1 ob_k6_inv kernel6_mm kernel6_blank)
    as (w' & ext' & lv' & j & E & I & _);
    [vm_compute; reflexivity|vm_compute; reflexivity|done|vm_compute; reflexivity|vm_compute; reflexivity
    |vm_compute; discriminate|vm_compute; reflexivity|reflexivity|apply kernel6_frames|].
  exists ext', lv'. assert (K : kernel7 = w') by (unfold kernel7, final; by rewrite E). rewrite K.
  assert (C : gPsCurrentThread (k_ps kernel7) = Some 0%nat) by (vm_compute; reflexivity).
  rewrite K, (so_cur _ _ _ (pi_sched _ _ _ _ _ I)) in C. by injection C as ->.
Qed.

Lemma kernel7_facts :
  gPsNextThreadId (k_ps kernel7) = 2 /\ gObNextObjectId (k_ob kernel7) = 4 /\
  option_map AddressSpaceRoot (gPsProcessPool (k_ps kernel7) !! 0%nat) = Some (Some 1%nat) /\
  gPsThreadInUse (k_ps kernel7) !! 1%nat = Some false /\ gObObjectInUse (k_ob kernel7) !! 5%nat = Some false.
Proof. vm_compute. repeat split. Qed.

Lemma kernel7_ids : ids_left kernel7.
Proof. destruct kernel7_facts as (A & B & _). unfold ids_left. rewrite A, B. lia. Qed.

Lemma kernel7_space ext lv : ps_inv ext lv kernel7 [] (Some 0%nat) ->
  exists a x, space_of (k_ps kernel7) 0 a /\ gMmAddressSpacePool (mm (k_mm kernel7)) !! a = Some x.
Proof.
  intros I. destruct kernel7_facts as (_ & _ & A & _).
  destruct (gPsProcessPool (k_ps kernel7) !! 0%nat) as [r|] eqn:Er; [|discriminate A]. injection A as A.
  assert (S : space_of (k_ps kernel7) 0 1) by exact (ex_intro _ r (conj Er A)).
  destruct (pr_space _ _ _ (pi_processes _ _ _ _ _ I) 0 1 S) as (_ & _ & x & Hx & _). exists 1%nat, x. exact (conj S Hx).
Qed.

(** The page at 0x40000000 may be executed and written by the user, so a thread
    may start in it with its stack at its end; the next page is not mapped. *)
Lemma PsCreateUserThread_checks_witness :
  (exists ext lv w' j h t, PsCreateUserThread (Some 0%nat) 0x40000100 0x40001000 7 8 true kernel7 = Ret (KSTATUS_SUCCESS, Some j) w' /\
     spawned ext lv kernel7 w' [] (Some 0%nat) j h t /\ UserEntry t = 0x40000100 /\ UserStackTop t = 0x40001000) /\
  exists st, PsCreateUserThread (Some 0%nat) 0x40001000 0x40001000 7 8 true kernel7 = Ret (st, None) kernel7 /\
    (st = KSTATUS_INVALID_PARAMETER \/ st = KSTATUS_ACCESS_DENIED).
Proof.
  destruct kernel7_inv as (ext & lv & I).
  destruct (kernel7_space ext lv I) as (a & x & Sp & Hx).
  pose proof kernel7_ids as N.
  split.
  - assert (X : match PsCreateUserThread (Some 0%nat) 0x40000100 0x40001000 7 8 true kernel7 with
                | Ret (_, Some _) _ => true | _ => false end = true) by (vm_compute; reflexivity).
    destruct (PsCreateUserThread_checks ext lv kernel7 [] (Some 0%nat) 0 a x 0x40000100 0x40001000 7 8 I N Sp Hx)
      as [[_ [(j & h & t & w' & E & S & _ & _ & _ & U & T & _)|(st & w' & E & _)]]|(_ & st & E & _)]; [lia|lia| | |].
    + exists ext, lv, w', j, h, t. split; [exact E|]. split; [exact S|]. split; [exact U|]. rewrite T. reflexivity.
    + exfalso. rewrite E in X. discriminate X.
    + exfalso. rewrite E in X. discriminate X.
  - assert (X : match PsCreateUserThread (Some 0%nat) 0x40001000 0x40001000 7 8 true kernel7 with
                | Ret (st, None) _ => st =? KSTATUS_ACCESS_DENIED | _ => false end = true) by (vm_compute; reflexivity).
    destruct (PsCreateUserThread_checks ext lv kernel7 [] (Some 0%nat) 0 a x 0x40001000 0x40001000 7 8 I N Sp Hx)
      as [[_ [(j & h & t & w' & E & _)|(st & w' & E & _ & _ & _ & [F|F])]]|(_ & st & E & D)]; [lia|lia| | | |].
    + exfalso. rewrite E in X. discriminate X.
    + exfalso. destruct kernel7_facts as (_ & _ & _ & Y & _).
      apply list_elem_of_lookup_2, F in Y. discriminate Y.
    + exfalso. destruct kernel7_facts as (_ & _ & _ & _ & Y).
      apply list_elem_of_lookup_2, F in Y. discriminate Y.
    + exists st. split; assumption.
Defined.

Lemma ps_do_keeps_witness :
  let d := DoProcess (Some (str "proc.user")) in
  exists ext lv, ps_inv ext lv kernel7 [] (Some 0%nat) /\
    exists r w' ext' lv', do_exec d kernel7 = Ret r w' /\
      ps_inv ext' lv' w' (done_to d kernel7 [] (Some 0%nat)).1 (done_to d kernel7 [] (Some 0%nat)).2.
Proof.
  intros d. destruct kernel7_inv as (ext & lv & I). exists ext, lv. split; [exact I|].
  destruct (ps_do_keeps ext lv kernel7 [] (Some 0%nat) d I kernel7_ids) as (r & w' & ext' & lv' & E & I' & _).
  exact (ex_intro _ r (ex_intro _ w' (ex_intro _ ext' (ex_intro _ lv' (conj E I'))))).
Defined.
