(* ===== verification/KernelEntryExample.v ===== *)
(** * A machine to start

    The witnesses of the theorems about the start: blank static variables,
    sixteen megabytes, the first two of them identity-mapped by three page
    tables, and the boot record's memory map at 0x50000.  Then those of the
    self-tests and of the system-call gate, on the kernels of KernelExample. *)

From S2P Require Import Prelude CString BootProto Nk Ob ObInv PhysMem MmPages MmTables MmTablesInv MmSpace MmSection MmFault.
From S2P Require Import MmRegions MmStart Kpe KpeLoad UserMem Ps PsInv PsSpawn Lpc Io Hal Syscall HalIntr HalStart Ex Validate.
From S2P Require Import Threads Arch Ke Kernel KernelInv PsSpawnInv HalIntrInv IoInv SyscallInv KernelMem KernelExample KernelStart KernelThreads KernelSuite KernelEntry KernelRun.

(** The tables: the entry of the last maps two megabytes. *)
Definition tables8 : mem := store64 (store64 (store64 ∅ (16384 + 8 * 0) 0x83) (12288 + 8 * 0) 0x4007) (8192 + 8 * 0) 0x3007.
Definition ram8 : mem := store32 (store64 (store64 tables8 0x50000 0x100000) 0x50008 0xf00000) 0x50010 7.
Definition lv8 : gmap Z nat := <[8192 := 0%nat]> (<[12288 := 1%nat]> (<[16384 := 2%nat]> ∅)).
Definition blank_space : MM_ADDRESS_SPACE :=
  {| AddressSpaceId := 0; OwnerProcessId := 0; RootTablePhysical := 0; NextUserBase := 0; RegionCount := 0;
     Regions := replicate 128 no_region |}.
Definition mm8 : mm_state :=
  {| frames := pages4; gMmReady := false; gMmAddressSpacePool := replicate 64 blank_space; gMmAddressSpaceInUse := [];
     gMmNextAddressSpaceId := 0; gMmKernelRootTablePhysical := 0; gMmSectionType := None;
     gMmSectionPool := []; gMmSectionInUse := []; gMmFaultTrace := []; gMmFaultTraceNext := 0;
     gMmPhysmapBase := 0; gMmPhysmapBytes := 0; gMmPhysmapReady := false |}.
Definition machine8 : mm_machine := {| mm := mm8; ram := ram8; cr3 := 8192; invlpgs := [] |}.
Definition lpc8 : lpc_state :=
  {| gLpcSystemEndpoint := endpoint0; gLpcPortType := None; gLpcPortPool := gLpcPortPool lpc0; gLpcPortInUse := [];
     gLpcReady := false |}.
Definition io8 : io_state :=
  {| gIoFileType := None; gIoFilePool := replicate 128 blank_file; gIoFileInUse := [];
     gIoBootFiles := replicate 16 no_boot_file; gIoSpawnScratch := 0x300000; gIoReady := false |}.
Definition hal8 : hal_state :=
  {| gHalBootInfo := Some boot_ptr;
     gHalPlatformInfo := {| ProcessorCount := 1; TimerFrequencyHz := 0; PhysicalMemoryTop := 0x1000000 |};
     gHalTimerTickRoutine := None; gHalPageFaultRoutine := None; console := console hal0; gHalFont8x16 := [];
     gHalFontReady := false; keyboard := keyboard hal0 |}.
Definition kernel8 : kernel :=
  {| k_ob := ob_boot; k_mm := machine8; k_ps := ps6; k_lpc := lpc8;
     k_nk := {| gNkBootInfo := Some boot_ptr; gNkPortCount := 0; gNkServiceEndpointCount := 0 |}; k_io := io8; k_hal := hal8;
     k_intr := k_intr kernel4; k_if := false; k_device := fun _ _ => 0; k_clock := 0; k_outputs := []; k_rip := 0; k_se := se0;
     k_cc := cc0; k_ex := endpoint0; k_ke := ke0 |}.
Definition layout8 : ExLayout := {| routine_address := fun _ => 0x200000; message_rest := replicate 60 0 |}.
#[local] Existing Instance layout8.

Lemma lv8_cases t L : lv8 !! t = Some L -> (t = 8192 /\ L = 0%nat) \/ (t = 12288 /\ L = 1%nat) \/ (t = 16384 /\ L = 2%nat).
Proof. unfold lv8. rewrite !lookup_insert_Some, lookup_empty. naive_solver. Qed.

Lemma entry8 t L i : lv8 !! t = Some L -> 0 <= i < 512 -> entry ram8 t i =
  if bool_decide (i = 0) then (if bool_decide (t = 8192) then 0x3007 else if bool_decide (t = 12288) then 0x4007 else 0x83) else 0.
Proof.
  intros H Hi. apply lv8_cases in H.
  assert (E : entry ram8 t i = entry tables8 t i).
  { unfold entry. apply load_le_ext. intros b Hb. unfold ram8, store32, store64. rewrite !load8_store_le.
    destruct (Z.leb_spec 0x50010 b), (Z.leb_spec 0x50008 b), (Z.leb_spec 0x50000 b); try lia. reflexivity. }
  rewrite E. unfold tables8.
  rewrite !entry_store by (done || lia || (unfold is_u64; lia) || (destruct H as [[-> _]|[[-> _]|[-> _]]]; done)).
  rewrite entry_empty. destruct H as [[-> _]|[[-> _]|[-> _]]]; repeat case_bool_decide; try reflexivity; lia.
Qed.

Lemma entry8_link t L i : lv8 !! t = Some L -> 0 <= i < 512 -> is_present (entry ram8 t i) = true ->
  is_large (entry ram8 t i) = false -> i = 0 /\ addr_of (entry ram8 t i) = t + 4096.
Proof.
  intros H Hi. rewrite (entry8 t L i H Hi). apply lv8_cases in H. case_bool_decide; intros Pr La; [|discriminate Pr]. split; [done|].
  destruct H as [[-> _]|[[-> _]|[-> _]]]; [reflexivity|reflexivity|discriminate La].
Qed.

Definition m8 : mm_machine := reset_statics boot_ptr (memory_limit kernel8) machine8.

Lemma m8_frames : frames (mm m8) = init_pages 0x1000000 ram8 boot_ptr.
Proof. reflexivity. Qed.

Lemma ram8_ok : mem_ok ram8.
Proof. unfold ram8, tables8, store64, store32. repeat apply store_le_ok. apply empty_ok. Qed.

Lemma ram8_boot : boot_ok ram8 boot_ptr boot_rec.
Proof.
  constructor; try (unfold range_ok, sizeof_BOOT_INFO; cbn; lia); [reflexivity|].
  intros k Hk. cbn in Hk. assert (k = 0) as -> by lia.
  assert (E : map_entry ram8 boot_rec 0 = {| RangeBase := 0x100000; RangeLength := 0xf00000; RangeType := 7; RangeAttributes := 0 |})
    by (vm_compute; reflexivity).
  rewrite E. unfold range_ok. cbn. lia.
Qed.

(** The frames of the low megabyte are taken, those above the loader are free. *)
Lemma frames8 j : 0 <= j < 4096 ->
  (j < 256 -> allocated (frames (mm m8)) j = true) /\ (0x600 <= j -> allocated (frames (mm m8)) j = false).
Proof.
  intros Hj. destruct (init_pages_free 0x1000000 ram8 boot_ptr boot_rec j ram8_boot) as (_ & _ & F); [lia|lia|].
  assert (E0 : map_entry ram8 boot_rec 0 = {| RangeBase := 0x100000; RangeLength := 0xf00000; RangeType := 7; RangeAttributes := 0 |})
    by (vm_compute; reflexivity).
  assert (Ft : 0x1000000 / 4096 = 4096) by reflexivity. rewrite Ft in F.
  rewrite m8_frames. specialize (F ltac:(lia)). split; intros L.
  - destruct (allocated _ j); [done|]. destruct (proj1 F eq_refl) as [_ N]. exfalso. apply N.
    unfold reserved_frame, page_inside. cbn. lia.
  - apply F. split.
    + exists 0. rewrite E0. cbn. unfold page_inside. split_and!; [lia|lia|reflexivity|lia|lia].
    + unfold reserved_frame, page_inside. cbn. unfold sizeof_BOOT_INFO. lia.
Qed.

Lemma pages_wf8 : pages_wf (frames (mm m8)) /\ gMmTrackedPages (frames (mm m8)) = 4096.
Proof.
  destruct (init_pages_free 0x1000000 ram8 boot_ptr boot_rec 4095 ram8_boot) as (P & T & _); [lia|lia|].
  destruct (init_pages_free 0x1000000 ram8 boot_ptr boot_rec 4096 ram8_boot) as (_ & T' & _); [lia|lia|].
  rewrite m8_frames. split; [exact P|].
  assert (0x1000000 / 4096 = 4096) as E by reflexivity. rewrite E in *. lia.
Qed.

Lemma tables8_wf : tables_wf lv8 m8.
Proof.
  destruct pages_wf8 as [P T]. assert (R : ram m8 = ram8) by reflexivity. constructor; [| | | |rewrite R; exact ram8_ok|exact P].
  - intros t L H. rewrite T. apply lv8_cases in H. destruct H as [[-> ->]|[[-> ->]|[-> ->]]];
      (split_and!; [lia|lia|reflexivity|reflexivity|apply frames8; zlia]).
  - intros t L i H HL Hi. rewrite R, (entry8 t L i H Hi). apply lv8_cases in H.
    destruct H as [[-> ->]|[[-> ->]|[-> ->]]]; case_bool_decide; intros Pr La; try discriminate Pr; try discriminate La; reflexivity.
  - intros t i H Hi. rewrite R, (entry8 t 2 i H Hi). apply lv8_cases in H.
    destruct H as [[-> ?]|[[-> ?]|[-> _]]]; [lia|lia|]. case_bool_decide; intros Pr La; [reflexivity|discriminate Pr].
  - intros t t' L L' i i' H H' _ _ Hi Hi'. rewrite R. intros Pr La Pr' La' E.
    destruct (entry8_link t L i H Hi Pr La) as [-> E1]. destruct (entry8_link t' L' i' H' Hi' Pr' La') as [-> E2].
    rewrite E1, E2 in E. assert (t = t') as <- by lia. split; [reflexivity|by left].
Qed.

Lemma startable8 : startable lv8 4 m8.
Proof.
  destruct pages_wf8 as [P T]. constructor.
  - exact tables8_wf.
  - change (cr3 m8) with 8192. reflexivity.
  - change (cr3 m8) with 8192. discriminate.
  - change (ram m8) with ram8. change (cr3 m8) with 8192. vm_compute. reflexivity.
  - apply frames8; lia.
  - exists [0x700; 0x701; 0x702; 0x703]. split; [reflexivity|]. split; [apply (bool_decide_unpack _); vm_compute; exact I|].
    intros i Hi. rewrite T. rewrite !elem_of_cons, elem_of_nil in Hi. split; [lia|]. apply frames8; lia.
  - change (gMmAddressSpacePool (mm m8)) with (replicate 64 blank_space). reflexivity.
  - intros a Ha. change (gMmAddressSpacePool (mm m8)) with (replicate 64 blank_space) in Ha. apply elem_of_replicate in Ha as [-> _].
    reflexivity.
Qed.

Lemma kernel8_blank : blank kernel8.
Proof.
  constructor; try reflexivity; [by split_and!|discriminate| |exact kernel6_blank].
  intros k b Hb. change (gIoBootFiles (k_io kernel8)) with (replicate 16 no_boot_file) in Hb. by apply lookup_replicate in Hb as [-> _].
Qed.

Lemma tracked8 : gMmTrackedPages (init_pages (memory_limit kernel8) (ram (k_mm kernel8)) boot_ptr) = 4096.
Proof.
  assert (E1 : memory_limit kernel8 = 0x1000000) by reflexivity. assert (E2 : ram (k_mm kernel8) = ram8) by reflexivity.
  rewrite E1, E2, <- m8_frames. apply pages_wf8.
Qed.

Lemma ExInitializeExecutive_starts_witness :
  exists w' ext lv' j, ExInitializeExecutive kernel8 = Ret KSTATUS_SUCCESS w' /\ ps_inv ext lv' w' [] (Some j) /\
    translate (k_mm w') (addr_of (cr3 (k_mm w'))) (MM_PHYSMAP_BASE + 0xABCDEF) = Some 0xABCDEF.
Proof.
  destruct (ExInitializeExecutive_starts lv8 boot_ptr kernel8 kernel8_blank eq_refl)
    as (w' & ext & lv' & j & E & I & _ & _ & _ & _ & _ & _ & _ & _ & _ & X).
  - constructor; [reflexivity|reflexivity|cbn; lia|exact startable8].
  - exists w', ext, lv', j. split; [exact E|]. split; [exact I|]. apply X.
    rewrite tracked8. lia.
Defined.

#[local] Instance hal_layout8 : HalLayout := {| hal_handlers := handlers0; hal_rsp := 0x7000 |}.

(** Every address below two megabytes is where it says. *)
Lemma identity8 b : 0 <= b < 2097152 -> x86_translate ram8 8192 b = Some b.
Proof.
  intros Hb. assert (W : forall L, (L <= 2)%nat -> walk_index b L = 0).
  { intros L HL. rewrite walk_index_eq by lia. destruct L as [|[|[|]]]; [zlia..|lia]. }
  unfold x86_translate. change (addr_of 8192) with 8192. cbn [xlate Nat.sub].
  rewrite (W 0%nat), (W 1%nat), (W 2%nat) by lia.
  assert (E0 : entry ram8 8192 0 = 0x3007) by (vm_compute; reflexivity).
  assert (E1 : entry ram8 12288 0 = 0x4007) by (vm_compute; reflexivity).
  assert (E2 : entry ram8 16384 0 = 0x83) by (vm_compute; reflexivity).
  rewrite E0. change (negb (is_present 0x3007)) with false. change (is_large 0x3007) with false. change (addr_of 0x3007) with 12288.
  rewrite E1. change (negb (is_present 0x4007)) with false. change (is_large 0x4007) with false. change (addr_of 0x4007) with 16384.
  rewrite E2. change (negb (is_present 0x83)) with false. change (is_large 0x83) with true.
  change (addr_of 0x83 / 2 ^ 21 * 2 ^ 21) with 0. cbv iota. change (2 ^ 21) with 2097152. f_equal. rewrite Z.mod_small; lia.
Qed.

Lemma powered8 : powered lv8 boot_ptr kernel8.
Proof.
  assert (Top : boot_top (ram (k_mm kernel8)) (bi_value boot_ptr) = memory_limit kernel8) by (vm_compute; reflexivity).
  constructor; try reflexivity.
  - exact kernel8_blank.
  - cbn. lia.
  - intros b Hb. apply identity8. cbn in Hb. unfold sizeof_PHYSICAL_MEMORY_RANGE in Hb. lia.
  - rewrite Top. exact startable8.
  - split; [reflexivity|]. split; [reflexivity|]. unfold is_u64. cbn. lia.
  - exact handlers0_u64.
Qed.

Lemma AsterKernelEntry_comes_up_witness : Version (bi_value boot_ptr) = BOOTINFO_VERSION /\
  exists w' ext lv' j, run_phases (Some boot_ptr) (ret tt) kernel8 = Ret tt w' /\ ps_inv ext lv' w' [] (Some j) /\
    interrupts_ready handlers0 (k_intr w') /\ k_if w' = true.
Proof.
  split; [reflexivity|].
  destruct (AsterKernelEntry_comes_up lv8 boot_ptr kernel8 (ret tt) powered8 eq_refl)
    as ((w' & ext & lv' & j & E & I & _ & R & F & _) & _).
  exists w', ext, lv', j. split; [exact E|]. split; [exact I|]. split; [exact R|exact F].
Defined.

(** ** The scheduler's self-test *)

#[local] Instance ke_layout7 : KeLayout := {|
  literal _ := 0x1000; KeValidationWorkerA_at := 0x2000; KeValidationWorkerB_at := 0x2100; KeIpcWorkerThread_at := 0x2200;
  CtxA_at := 0x3000; CtxB_at := 0x3020; SendPayload_at _ := 0x3040; RecvPayload_at _ := 0x3050; SectionHandle_at := 0x3060;
  VaA_at := 0x3068; VaB_at := 0x3070 |}.
#[local] Instance kernel_layout7 : KernelLayout := {| address_of_space _ := 0 |}.


Lemma kernel7_calm : calm kernel7.
Proof. split; vm_compute; reflexivity. Qed.

Lemma kernel7_room : room_for_two ∅ kernel7.
Proof.
  constructor.
  - exists 1%nat, 2%nat. split; [discriminate|]. split; vm_compute; reflexivity.
  - exists 5%nat, 6%nat. split; [discriminate|]. split; vm_compute; reflexivity.
  - destruct kernel7_facts as (A & B & _). rewrite A, B. lia.
  - intros i _. apply lookup_empty.
Qed.

Lemma kernel7_counters : WorkerAIterations (gKeValidationCounters (k_ke kernel7)) = 0 /\
  WorkerBIterations (gKeValidationCounters (k_ke kernel7)) = 0.
Proof. split; vm_compute; reflexivity. Qed.

Lemma KeTestScheduler_passes_witness :
  exists p' w', reaches (fun _ => new_code (fun _ _ _ _ => Finish) 0)
      {| on_cpu := KeTestScheduler (fun _ => Finish); parked := ∅; kernel_of := kernel7 |}
      {| on_cpu := Finish; parked := p'; kernel_of := w' |} /\
    WorkerAIterations (gKeValidationCounters (k_ke w')) = 4 /\ WorkerBIterations (gKeValidationCounters (k_ke w')) = 4.
Proof.
  destruct kernel7_inv as (ext & lv & I). destruct kernel7_counters as [A B].
  assert (D : KeValidationWorkerA_at <> KeValidationWorkerB_at) by discriminate.
  destruct (KeTestScheduler_passes (fun _ _ _ _ => Finish) 0 ext lv kernel7 0%nat ∅ (fun _ => Finish) D I kernel7_calm kernel7_room A B)
    as (ext' & p' & w' & R & Ea & Eb & _).
  exact (ex_intro _ p' (ex_intro _ w' (conj R (conj Ea Eb)))).
Defined.

(** ** The system-call gate *)

(** A call with an unknown number, its stack at the end of the mapped page. *)
Definition regs9 : HALP_SYSCALL_REG_FRAME :=
  {| FrameR11 := 1; FrameR10 := 2; FrameR9 := 3; FrameR8 := 4; FrameRdx := 5; FrameRsi := 6; FrameRdi := 7; FrameRax := 99 |}.

Lemma regs9_u64 : frame_u64 regs9.
Proof. repeat constructor; unfold is_u64; cbn; lia. Qed.

Lemma stack9 b : 0x40001000 - 64 <= b < 0x40001000 -> page5 b.
Proof. unfold page5. lia. Qed.

(** The interrupted program's registers, and a C function that spoils all it may:
    RCX, and the eight the stub saves. *)
Definition registers9 : cpu_registers :=
  {| reg_saved := regs9; reg_rcx := 11; reg_rbx := 12; reg_rbp := 13; reg_r12 := 14; reg_r13 := 15; reg_r14 := 16; reg_r15 := 17 |}.
Definition spoils9 (r : cpu_registers) (w : kernel) : cpu_registers :=
  {| reg_saved := {| FrameR11 := 91; FrameR10 := 92; FrameR9 := 93; FrameR8 := 94; FrameRdx := 95; FrameRsi := 96;
       FrameRdi := FrameRdi (reg_saved r) + 8; FrameRax := 98 |};
     reg_rcx := FrameRdi (reg_saved r) + 8; reg_rbx := reg_rbx r; reg_rbp := reg_rbp r; reg_r12 := reg_r12 r;
     reg_r13 := reg_r13 r; reg_r14 := reg_r14 r; reg_r15 := reg_r15 r |}.

Lemma HalpSyscallInterruptHandler_returns_witness :
  exists w, HalpSyscallInterruptHandler spoils9 registers9 0x40001000 kernel3
    = Ret (returned (status_result KSTATUS_NOT_IMPLEMENTED) 0x40000FC8 registers9) w.
Proof.
  assert (Keeps : keeps_callee_saved spoils9) by (intros r s; reflexivity).
  destruct (HalpSyscallInterruptHandler_returns spoils9 lv4 space4 page5 kernel3 registers9 0x40001000 Keeps
    kernel3_access stack9 regs9_u64) as (w1 & D & _ & _ & K).
  assert (U : user_access lv4 (k_mm w1) space4 page5) by exact (user_access_data _ _ _ _ _ kernel3_access (proj2 D)).
  destruct (K (status_result KSTATUS_NOT_IMPLEMENTED) w1 lv4 space4 page5) as (w3 & E & _);
    [reflexivity|split; vm_compute; done|exact U|exact stack9| |exact (ex_intro _ w3 E)].
  intros b _. exact (user_view_data lv4 (k_mm kernel3) (k_mm w1) space4 page5 kernel3_access (proj2 D) _ b).
Defined.

(** ** The validation suite *)

(** The text of the first test's line in the mapped page, and a boot record that
    asks for the suite. *)
Definition ram9 : mem := foldl (fun m x => store_le x.1.1 m (0x6400 + x.1.2) x.2) ram4 (imap (fun i c => (1%nat, Z.of_nat i, c)) syscall_line).
Definition machine9 : mm_machine := set_ram ram9 MmRegions.machine6.
Definition boot_rec9 : BOOT_INFO :=
  {| Magic := BOOTINFO_MAGIC; Version := 1; Size := 120; Flags := BOOTINFO_FLAG_VALIDATE; FirmwareType := 1;
     LoaderBase := 0x400000; KernelBase := 0x200000; KernelSize := 0x100000; KernelEntry := 0x200000;
     InitImageBase := 0; InitImageSize := 0; MemoryMap := 0x50000; MemoryMapEntryCount := 1; MemoryMapEntrySize := 24;
     Video := Video boot_rec |}.
Definition boot_ptr9 : BOOT_INFO_PTR := {| bi_address := 0x60000; bi_value := boot_rec9 |}.
Definition nk9 : nk_state :=
  {| gNkBootInfo := Some boot_ptr9; gNkPortCount := 0; gNkServiceEndpointCount := 0 |}.
Definition blank9 : kernel := set_k_nk nk9 (set_k_mm machine9 kernel6).
Definition kernel9 : kernel := final PsInitialize blank9.

Lemma ram9_data : mem_ok ram9 /\ forall x, lv4 !! (x / 4096 * 4096) <> None -> load8 ram9 x = load8 ram4 x.
Proof.
  destruct (stores_outside 0x6400 (imap (fun i c => (1%nat, Z.of_nat i, c)) syscall_line) ram4) as [O L].
  { do 4 apply store_le_ok. apply empty_ok. } { reflexivity. }
  split; [exact O|]. intros x Hx. apply L. intros Hr.
  assert (x / 4096 * 4096 = 0x6000) as E by zlia. rewrite E in Hx. by apply Hx.
Qed.

Lemma blank9_mm : mm_ready lv4 (k_mm blank9).
Proof.
  destruct ram9_data as [O L]. destruct kernel6_mm as [_ A B C D E F]. constructor; try done.
  apply (tables_wf_mm lv4 (set_ram ram9 machine4)); [reflexivity|reflexivity|].
  apply (so_wf _ _ space4). apply (space_ok_outside lv4 machine4 (set_ram ram9 machine4) space4 space4 space4_ok); try done.
  - apply (tw_pages _ _ (so_wf _ _ _ space4_ok)).
  - intros t k Ht. apply (tw_frame _ _ (so_wf _ _ _ space4_ok) t k Ht).
Qed.

Lemma kernel9_inv : exists ext' lv', ps_inv ext' lv' kernel9 [] (Some 0%nat).
Proof.
  destruct (initialize_spec ext1 lv4 blank9 2 3 1 2 1 ob_k6_inv blank9_mm kernel6_blank)
    as (w' & ext' & lv' & j & E & I & _);
    [vm_compute; reflexivity|vm_compute; reflexivity|done|vm_compute; reflexivity|vm_compute; reflexivity
    |vm_compute; discriminate|vm_compute; reflexivity|reflexivity|apply kernel6_frames|].
  exists ext', lv'. assert (K : kernel9 = w') by (unfold kernel9, final; by rewrite E). rewrite K.
  assert (C : gPsCurrentThread (k_ps kernel9) = Some 0%nat) by (vm_compute; reflexivity).
  rewrite K, (so_cur _ _ _ (pi_sched _ _ _ _ _ I)) in C. by injection C as ->.
Qed.

Lemma reads_check w p t :
  forallb (fun x => match x86_translate (ram (k_mm w)) (cr3 (k_mm w)) (p + Z.of_nat x.1) with
                    | Some pa => load8 (ram (k_mm w)) pa =? x.2 | None => false end) (imap pair t) = true -> reads_as w p t.
Proof.
  intros F i c Hi. rewrite forallb_forall in F. specialize (F (i, c)). cbn [fst snd] in F.
  destruct (x86_translate _ _ _) as [pa|].
  - exists pa. split; [done|]. apply Z.eqb_eq, F. apply list_elem_of_In, elem_of_lookup_imap. by exists i, c.
  - discriminate F. apply list_elem_of_In, elem_of_lookup_imap. by exists i, c.
Qed.

#[local] Instance ke_layout9 : KeLayout := {|
  literal _ := 0x40000400; KeValidationWorkerA_at := 0x2000; KeValidationWorkerB_at := 0x2100; KeIpcWorkerThread_at := 0x2200;
  CtxA_at := 0x3000; CtxB_at := 0x3020; SendPayload_at _ := 0x3040; RecvPayload_at _ := 0x3050; SectionHandle_at := 0x3060;
  VaA_at := 0x3068; VaB_at := 0x3070 |}.

Lemma kernel9_line : line_ready kernel9.
Proof. constructor; [vm_compute; reflexivity|cbn; lia|apply reads_check; vm_compute; reflexivity]. Qed.

Lemma kernel9_serial : serial kernel9.
Proof. vm_compute. reflexivity. Qed.
Lemma kernel9_asked : asked_to_validate kernel9 = true.
Proof. vm_compute. reflexivity. Qed.

Lemma KeRunValidationSuite_alone_witness :
  exists code w', reaches (fun _ => Finish) {| on_cpu := KeRunValidationSuite (fun _ => Finish); parked := ∅; kernel_of := kernel9 |}
      {| on_cpu := code; parked := ∅; kernel_of := w' |} /\
    step (fun _ => Finish) {| on_cpu := code; parked := ∅; kernel_of := w' |}
      = Halt {| on_cpu := Finish; parked := ∅; kernel_of := w' |}.
Proof.
  destruct kernel9_inv as (ext & lv & I).
  pose proof (KeRunValidationSuite_alone (fun _ => Finish) ext lv kernel9 0%nat ∅ (fun _ => Finish) I kernel9_serial kernel9_line) as K.
  rewrite kernel9_asked in K. destruct K as (code & w' & R & _ & S).
  exact (ex_intro _ code (ex_intro _ w' (conj R S))).
Defined.
